(* ===== verification/_CoqProject ===== *)
-Q . S2P
Prelude.v
PyVal.v
PyText.v
PyRe.v
Ipv4.v
IpCalc.v
WorkerProtocol.v
JobEvents.v
TaskRuntime.v
TaskHistory.v
Rollout.v
OnlineMrConcurrency.v
TaskHub.v
TaskStore.v
ServiceStore.v
LocalProcess.v
Schedule.v
WirelessIe.v
ConnectionManager.v
ApNormalizers.v
InterfaceNames.v
Retention.v
ZeroRuns.v
RadioControl.v
VlanDraft.v
VlanPlanning.v
VlanAllocation.v
DeepScheduler.v
ApIdentity.v
StationOrdering.v
StationSource.v
TrainIdentity.v
VehicleMr.v
ApLocation.v
Eligibility.v
PyFloat.v
OpticalHealth.v
OpticalState.v
OpticalTreatment.v
NeighborMatch.v
WriteGuard.v
SectionGeneration.v
CommandGuard.v
