(* ===== verification/Prelude.v ===== *)
(** * NetConsole: verification of the Python core

    NetConsole is a desktop application for the networks of rail lines: an
    Electron and Vue front end, a FastAPI backend that starts one worker process
    per background task, SQLite site databases, and services for access
    controllers, trackside access points, vehicle radios (MR) and devices.  This
    library models the Python code that decides something by itself - protocols,
    state machines, plans, projections, guards - as functions and proves what
    they promise.  All source paths below are relative to
    src/src/netconsole/.

    ** How the parts interact

    The backend turns a request into a job (services/job_center/job_models.py),
    the task runtime (services/job_center/runtime/task_runtime.py) writes its job
    file and follows the worker through its pipe: bytes are decoded
    (utils/text_encoding.py), framed and parsed (worker_protocol.py), events are
    cleaned for export tasks (web_export_event_safety.py) and published on the
    event hub (runtime/task_event_hub.py), from where they reach open streams and
    the stored history.  The history policy (models/task_history_policy.py)
    projects results to a business status and decides how long a task is kept;
    the rollout (task_result_rollout.py) moves the storage of results from one
    authority to the next.  Beside this pipeline stand the domain services: each
    models one decision procedure of the program.

    ** Files

    - Prelude: tactics, the error monad [res], Python strings as UTF-8 bytes,
      stable sorting, association lists (Python dictionaries keep their order),
      the interface [ChunkReader] of readers that work on chunks of a stream.
    - PyVal: JSON-like Python values with truth value, [str], [int], [or] and
      dictionary access.  PyText: further [str] methods and sort keys.
    - WorkerProtocol: worker_protocol.py and the UTF-8 decoder - parsing of a
      frame, framing of a chunk, the encoder.  Both readers are [ChunkReader]s.
    - JobEvents: job_events.py, job_models.py, models/task_state.py,
      models/task_snapshot.py, web_export_event_safety.py.
    - TaskRuntime: runtime/task_runtime.py - [runtime] is the object with its
      files and the log of what it publishes, one function per method, [op] and
      [exec_all] run any sequence of calls.
    - TaskHub: runtime/task_event_hub.py.
    - TaskStore: the tables of the tasks and everything that writes their states,
      events and tombstones - [_persist_event], external tasks, artifacts and [prepare]
      with its guard on resources (services/job_center/task_application_service.py),
      [record], [_upsert], the recovery of orphans, deletion and retention
      (repositories/task_repository.py, services/site_retention.py), and the clients
      that record by themselves: the checkpoints of
      services/config_collection_web_service.py, the import of
      services/online_mr/agent_package_importer.py, the metadata of
      services/file_management_service.py and the deletion of sessions in
      repositories/online_mr_task_session_repository.py.  Reading a task and recording
      it are two steps, so that writers interleave; a step carries a label that says
      when it does more than move a task forward.
    - ServiceStore: the task service around the task runtime - [prepare], and every
      call that reaches the runtime, whose publications pass the hub's envelope into
      the store.  Its calls follow one another.
    - LocalProcess: services/job_center/local_process_adapter.py - the host of the
      worker processes, its threads as an executable interleaving [perform_all]
      against an interface ([TaskService]) of the task runtime.
    - TaskHistory: models/task_history_policy.py.
    - Rollout: task_result_rollout.py, models/task_result_rollout.py and the
      rollout rows of repositories/task_repository.py; clients interleave between
      the two transactions of a transition.
    - CommandGuard: services/command_guard.py - which commands may be sent to a
      device in which context.
    - ConnectionManager: services/connection_manager.py - the attempts to reach a
      device.
    - OnlineMrConcurrency: services/online_mr/concurrency_policy.py, and the starts of
      services/online_mr/web_control_service.py, agent_web_control_service.py and the
      scheduler as a step relation in which the two services, which have different
      locks and budgets, overlap.
    - DeepScheduler: services/ground_unattended/deep_scheduler.py - which trains of an
      unattended run are collected next, the starts within the budget of
      OnlineMrConcurrency, the stops, the verification of ended collections and the
      coverage of the trains.
    - RadioControl: services/ground_unattended/radio_control.py with the tables of
      repositories/ground_unattended_repository.py that it writes - the states of
      radio interfaces and their correlation with configuration changes.
    - Schedule: services/ground_unattended/schedule.py.
    - SectionGeneration: services/rail_transit/section_generation_service.py - the
      automatic sections of a line and their comparison with those at hand.
    - StationOrdering: core/sources/rail_transit/station_ordering.py.
    - PyRe: the backtracking matcher of Python's [re].  StationSource:
      core/sources/rail_transit/station_source_utils.py - how the station field of a
      device is read, by itself and as part of the fields of a site.
    - TrainIdentity: services/rail_transit/train_identity.py and the names of trains
      and radios in services/vehicle_mr_online.py.  VehicleMr: the rest of the latter
      with utils/natural_sort.py - from the output of an access controller to the
      states of the trains, their table and their pass events.
    - ApLocation: core/sources/rail_transit/trackside_ap_location.py.  Eligibility:
      services/ground_unattended/eligibility.py - which trains of an unattended run are
      on the main line, are pinged and may be collected from.
    - PyFloat: Python's [float] as binary64 numbers.  OpticalHealth:
      core/optical_severity_engine.py, core/optical_rx_threshold.py and
      core/sources/ap_business_optical.py - the severity of a power and the verdict on
      a link with two ends.  OpticalState: core/sources/ap_source.py,
      core/sources/switch_source.py, core/ap_optical_capability.py and
      core/state_engine.py - the samples of both ends become the state of an access
      point.  OpticalTreatment: core/storage/optical_retention.py and its call in
      repositories/ac_repository.py - the treatment events a history of readings
      leaves.
    - NeighborMatch: services/neighbor_matcher.py - which device an LLDP neighbour is.
    - VlanDraft, VlanPlanning, VlanAllocation:
      services/rail_transit/ap_management_vlan_planning.py - how drafts of the VLAN
      plan are read, automatic grouping and validation, the group of each access
      point with the point table and the exports.
    - Retention: the bounded histories of the repositories - radio, interface, LLDP
      and optical tables, fact changes, station summaries.
    - ZeroRuns: services/mesh_rssi_zero_runs.py.
    - InterfaceNames: utils/interface_normalize.py and the LLDP links of
      core/sources/fit_ap_link_info.py.
    - WriteGuard: services/rail_transit/base_data_write_guard.py and the site-name
      check of core/site_identity.py.
    - ApNormalizers, ApIdentity: core/ap_identity/normalizers.py and resolver.py
      with the part of utils/mileage.py they use.
    - WirelessIe: the parser of 802.11 information elements.
    - Ipv4, IpCalc: the IPv4 part of Python's ipaddress and
      services/network_tools/toolbox/ip_calc.py.

    Definitions have the names of the code; where the code has one long
    method, its parts have names of their own and the method composes them.

    ** What the theorems show

    - The worker pipeline: what a worker writes is what the backend reads (a cancelled
      event gains its [ok]), however the pipe cuts it, up to the first damaged piece; a damaged frame or stream ends the task with the recorded
      error; each job goes through a legal life cycle under any sequence of
      calls, ends exactly once, and completes only on success; shutdown stops
      everything; export events hold no path and no secret.  Published events
      reach every handler once and every stream keeps the latest.
    - The worker host: in every interleaving of its threads a process is ended by
      one claimant and announced once, and the host comes to rest.
    - Stored history: a stored task only goes forward under any interleaving of
      writers until it is retired, and never comes back then, except where a labelled
      step names it; after any sequence of service calls it shows the state the runtime
      published last, as long as no worker forges an envelope, no web export runs and
      no used identifier is refused; active tasks share no resource, whatever is
      launched and whatever the workers write.  The business projection
      stays in its vocabulary, a task is deleted only after its deadline and never
      while it refers to long-term data; the audit table of the rollout is a path of
      allowed transitions under any interleaving.  The bounded histories keep the
      latest rows of each subject and record exactly the changes.
    - Unattended runs: each train has the decision of its conditions, a train that stays
      too long is excluded in the end; rebuilding the radio projections of all runs
      reproduces the live ones when the control events arrived in the order of their times;
      a fill of the scheduler stays within its budgets, a train is covered only by
      verified collections, stops are requested once, the candidates are in a fair
      order; the runs of zero signal strength are the maximal ones.
    - Radios on line: the ends of the trains are seen just as the best links say, and
      the log of pass events determines the table of current states; the spellings of
      a train number have one key.
    - Optical links: a lower power has never a better verdict, the verdict of two ends
      is the worse of both, the severity number says what the name says; the stored
      events are the episodes of abnormal readings.  A neighbour is resolved to the
      device that a scan by the strongest evidence finds.
    - Guards: what may be sent to a device, what may be written to the base data,
      which site names are accepted, how many collections run at once: one more than the
      slots when the two services overlap, never more than the slots otherwise.
    - Plans: VLSM plans, route summaries and subnet pages are exact; sections,
      plan rows, connection attempts and schedule windows are complete, ordered
      and free of duplicates.  A VLAN plan is accepted just when its groups cut the
      line into runs; automatic grouping gives such plans; the point table has each
      access point once with the network of its group when identifiers do not repeat;
      drafts without blank names settle.
    - Identity: the forms of a MAC address agree, resolution returns the
      candidates of the strongest agreement; information elements round-trip.
    Defects of the code are theorems of their own where they can be stated
    ([prepare_race_loses_job_file], [worker_frame_overflow_escapes],
    [attempts_never_counted], [policy_verdict], [participation_off_lost],
    [retained_power_resurfaces]), or evaluated runs: a completed task runs again
    ([reject_artifact_reopens], [metadata_reverts]), a worker completes the task of
    another ([forged_frame]), two starts share a slot or a device
    ([starts_overlap]), a rebuild of one run loses the others ([run_rebuild_loses]),
    an access point gets the VLAN of another group ([repeated_group_id]), a
    draft changes when it is normalized again ([blank_mode_drifts]).

    ** Modelling decisions

    - A [str] is its UTF-8 byte sequence; [strip], [casefold], [upper], digits and
      white space are the ASCII restriction of the Python methods.
    - Floats that only pass through keep their exact value and [repr]; where the
      code computes with metres or percentages the model uses exact rationals or
      decimals, without rounding.  Infinities and NaN, which the types of the
      mileages admit, have no counterpart there.  The optical rules compute on binary64
      numbers with the rounding of the standard (PyFloat, on the Standard Library's
      SpecFloat).
    - A call of the task runtime or of the hub is one step, and [prepare] of the
      runtime three: its two sections under the lock and the writing of the job file
      between them.  Only these sections, the snapshot of the active tasks and the
      start of the shutdown hold the lock of the runtime, and the hub locks only
      to copy its lists.  The worker host puts its [_service_lock] around the calls it
      makes, so those of one job follow one another; calls that overlap all the same (a
      shutdown, two hosts with one service) are not modelled.
    - Parameters stand for code that is not in the repository: [json.loads],
      [json.dumps], regular-expression replacement, ISO time stamps, the zone
      data base, SHA-1 and SHA-256, the file system, the parsing and the text of IPv6
      addresses, Unicode normalization, the element that iterating a set gives first.  Hypotheses about them are stated where they are used and each has a witness:
      that [json.loads] gives dictionaries whose keys do not repeat, that it inverts
      [json.dumps], that the redaction leaves plain words alone, that reading inverts
      the printing of a time.  The identifiers of
      [uuid4] come from a supply, a function on natural numbers.
    - The rows of a table are dictionaries, or records with the columns in their
      types; a table belongs to one site or one run, and [AUTOINCREMENT] counts.
    - Exceptions are values of [pyerr]; a call that raises out of the code returns
      [Err].
    - Fuel: [collapse_merge] (IpCalc) takes twice the number of networks, since
      each step lowers twice the pending plus the kept networks; [iter_loop]
      (WirelessIe) the length of the data, [find_items] (IpCalc) the length of the
      line, [next_free] (StationOrdering) the number of taken orders plus one,
      [chunks_from] (VlanPlanning) the number of stations, [strip_zeros]
      (OpticalTreatment) the number of digits.  The theorems about these functions are about the fuelled
      results themselves, so the fuel is part of what is proved to be enough.

    ** Not modelled, and the plan

    Network and file input/output, SQL, the HTTP layer, the exports to
    spreadsheets, the front end and the Go agent are left out, and so are the
    services that are mostly queries and row mapping (mesh analysis, trackside
    access points, device management).  Next in the plan: the IPv6 half of the
    calculator and the timeline of unattended runs
    (services/ground_unattended/timeline.py). *)

From Stdlib Require Export Ascii.
From stdpp Require Export base tactics option list numbers gmap strings pretty sorting.
From Stdlib Require Export Lia ZArith Sorting.Sorted Sorting.Permutation.

#[global] Set Default Proof Using "Type".
#[global] Open Scope list_scope.
#[global] Open Scope Z_scope.

(** ** Tactics *)

Create HintDb pylib.

(** [case_bool] turns the boolean comparisons of the code into propositions. *)
Ltac bool_to_prop :=
  repeat match goal with
  | H : (_ && _)%bool = true |- _ => apply andb_true_iff in H; destruct H
  | H : (_ || _)%bool = false |- _ => apply orb_false_iff in H; destruct H
  | H : negb _ = true |- _ => apply negb_true_iff in H
  | H : negb _ = false |- _ => apply negb_false_iff in H
  | H : Z.eqb _ _ = true |- _ => apply Z.eqb_eq in H
  | H : Z.eqb _ _ = false |- _ => apply Z.eqb_neq in H
  | H : Z.ltb _ _ = true |- _ => apply Z.ltb_lt in H
  | H : Z.ltb _ _ = false |- _ => apply Z.ltb_ge in H
  | H : Z.leb _ _ = true |- _ => apply Z.leb_le in H
  | H : Z.leb _ _ = false |- _ => apply Z.leb_gt in H
  | H : String.eqb _ _ = true |- _ => apply String.eqb_eq in H
  | H : String.eqb _ _ = false |- _ => apply String.eqb_neq in H
  end.

(** [split_ifs] splits every conditional of the goal, innermost first. *)
Ltac split_if :=
  match goal with
  | |- context [if ?b then _ else _] =>
      lazymatch b with
      | context [if _ then _ else _] => fail
      | _ => let E := fresh "Eb" in destruct b eqn:E
      end
  end.
Ltac split_ifs := repeat split_if.

(** Splits a [match] of a hypothesis or of the goal on a term that has no
    match inside. *)
Ltac split_match_in H :=
  match type of H with
  | context [match ?x with _ => _ end] =>
      lazymatch x with
      | context [match _ with _ => _ end] => fail
      | _ => let E := fresh "Em" in destruct x eqn:E
      end
  end.

(** ** Error results

    A Python call that can raise returns [Ok v] or [Err e]; [e] is the
    exception class, with its code where the program defines one. *)
Inductive pyerr :=
  | TypeError
  | ValueError
  | OverflowError
  | KeyError
  | AttributeError
  | RuntimeError (code : string).

#[global] Instance pyerr_eq_dec : EqDecision pyerr.
Proof. solve_decision. Defined.

Inductive res (A : Type) :=
  | Ok (a : A)
  | Err (e : pyerr).
Arguments Ok {A} _.
Arguments Err {A} _.

#[global] Instance res_eq_dec `{EqDecision A} : EqDecision (res A).
Proof. solve_decision. Defined.

#[global] Instance res_ret : MRet res := λ A a, Ok a.
#[global] Instance res_bind : MBind res := λ A B f m,
  match m with Ok a => f a | Err e => Err e end.
#[global] Instance res_fmap : FMap res := λ A B f m,
  match m with Ok a => Ok (f a) | Err e => Err e end.

Lemma Ok_inj {A} (a b : A) : Ok a = Ok b → a = b.
Proof. congruence. Qed.

Lemma res_bind_Ok {A B} (f : A → res B) (m : res A) (b : B) :
  m ≫= f = Ok b ↔ ∃ a, m = Ok a ∧ f a = Ok b.
Proof. destruct m; simpl; naive_solver. Qed.

Lemma res_bind_Err {A B} (f : A → res B) (m : res A) (e : pyerr) :
  m ≫= f = Err e ↔ m = Err e ∨ ∃ a, m = Ok a ∧ f a = Err e.
Proof. destruct m; simpl; naive_solver. Qed.

(** ** Python strings

    A [str] is its UTF-8 byte sequence.  [strip], [upper], [casefold] and the
    white-space tests are the ASCII restriction of the Python methods. *)
Definition byte_of (c : ascii) : Z := Z.of_N (N_of_ascii c).

#[global] Arguments byte_of : simpl never.
#[global] Arguments Z.ltb : simpl never.
#[global] Arguments Z.leb : simpl never.
#[global] Arguments Z.eqb : simpl never.
#[global] Arguments Z.of_nat : simpl never.

(** [str.isspace] on ASCII: tab..carriage return, the four separators, space. *)
Definition is_space (c : ascii) : bool :=
  let n := byte_of c in
  ((9 <=? n) && (n <=? 13)) || ((28 <=? n) && (n <=? 32)).

Definition is_digit (c : ascii) : bool :=
  let n := byte_of c in (48 <=? n) && (n <=? 57).

Definition upper_ascii (c : ascii) : ascii :=
  let n := N_of_ascii c in
  if ((97 <=? n) && (n <=? 122))%N then ascii_of_N (n - 32) else c.

Definition lower_ascii (c : ascii) : ascii :=
  let n := N_of_ascii c in
  if ((65 <=? n) && (n <=? 90))%N then ascii_of_N (n + 32) else c.

Fixpoint smap (f : ascii → ascii) (s : string) : string :=
  match s with
  | "" => ""
  | String c s => String (f c) (smap f s)
  end.

Definition upper : string → string := smap upper_ascii.
Definition casefold : string → string := smap lower_ascii.

Fixpoint lstrip (s : string) : string :=
  match s with
  | String c s' => if is_space c then lstrip s' else s
  | "" => ""
  end.

(** Strips from the right: a character is dropped when it is white space and
    nothing but white space follows. *)
Fixpoint rstrip (s : string) : string :=
  match s with
  | "" => ""
  | String c s' =>
      match rstrip s' with
      | "" => if is_space c then "" else String c ""
      | r => String c r
      end
  end.

Definition strip (s : string) : string := rstrip (lstrip s).

Fixpoint starts_with (p s : string) : bool :=
  match p, s with
  | "", _ => true
  | String a p', String b s' => Ascii.eqb a b && starts_with p' s'
  | String _ _, "" => false
  end.

(** [needle in s]. *)
Fixpoint contains (needle s : string) : bool :=
  starts_with needle s ||
  match s with
  | "" => false
  | String _ s' => contains needle s'
  end.

(** [s.split(sep)] for a one-character separator: never empty. *)
Fixpoint split_on (sep : ascii) (s : string) : list string :=
  match s with
  | "" => [""]
  | String c s' =>
      if Ascii.eqb c sep then "" :: split_on sep s'
      else match split_on sep s' with
           | [] => [String c ""]
           | w :: ws => String c w :: ws
           end
  end.

Fixpoint has_char (c : ascii) (s : string) : bool :=
  match s with
  | "" => false
  | String d s' => Ascii.eqb c d || has_char c s'
  end.

(** [len(s.encode("utf-8"))]. *)
Definition byte_len (s : string) : Z := Z.of_nat (String.length s).

(** [s1 or s2] on strings. *)
Definition str_or (a b : string) : string := if String.eqb a "" then b else a.

Definition str_nonempty (s : string) : bool := negb (String.eqb s "").

(** [sep.join(l)]. *)
Fixpoint join (sep : string) (l : list string) : string :=
  match l with
  | [] => ""
  | [x] => x
  | x :: l' => x +:+ sep +:+ join sep l'
  end.

Definition str_mem (s : string) (l : list string) : bool :=
  existsb (String.eqb s) l.

Lemma str_mem_iff s l : str_mem s l = true ↔ s ∈ l.
Proof.
  unfold str_mem. rewrite existsb_exists. setoid_rewrite String.eqb_eq.
  rewrite list_elem_of_In. naive_solver.
Qed.

Lemma str_eqb_refl s : String.eqb s s = true.
Proof. apply String.eqb_refl. Qed.

Lemma string_app_nil_r (s : string) : s +:+ "" = s.
Proof. induction s as [|c s IH]; [done|]. change (String c (s +:+ "") = String c s). by rewrite IH. Qed.

Lemma string_app_assoc (a b c : string) : (a +:+ b) +:+ c = a +:+ (b +:+ c).
Proof.
  induction a as [|x a IH]; [done|].
  change (String x ((a +:+ b) +:+ c) = String x (a +:+ (b +:+ c))). by rewrite IH.
Qed.

Lemma string_app_cons x (a b : string) : String x a +:+ b = String x (a +:+ b).
Proof. done. Qed.

Lemma split_on_nonempty sep s : split_on sep s ≠ [].
Proof. destruct s; simpl; [done|]. split_ifs; [done|]. by destruct (split_on sep s). Qed.

Lemma split_on_clean sep s : has_char sep s = false → split_on sep s = [s].
Proof.
  induction s as [|c s IH]; simpl; [done|]. intros H. apply orb_false_iff in H as [H1 H2].
  rewrite Ascii.eqb_sym in H1. rewrite H1, IH by done. done.
Qed.

(** Splitting after one separator: the text before it is the first piece. *)
Lemma split_on_app sep a b :
  has_char sep a = false →
  split_on sep (a +:+ String sep b) = a :: split_on sep b.
Proof.
  induction a as [|c a IH]; intros H.
  - change (split_on sep (String sep b) = "" :: split_on sep b). simpl.
    by rewrite Ascii.eqb_refl.
  - apply orb_false_iff in H as [H1 H2]. rewrite string_app_cons. simpl.
    rewrite Ascii.eqb_sym in H1. rewrite H1, IH by done. done.
Qed.

Lemma strip_lstrip_idem s : lstrip (lstrip s) = lstrip s.
Proof. induction s as [|c s IH]; simpl; [done|]. destruct (is_space c) eqn:E; simpl; [done|]. by rewrite E. Qed.

Lemma rstrip_idem s : rstrip (rstrip s) = rstrip s.
Proof.
  induction s as [|c s IH]; simpl; [done|]. destruct (rstrip s) eqn:E.
  - destruct (is_space c) eqn:Ec; simpl; [done|]. by rewrite Ec.
  - simpl in *. by rewrite IH.
Qed.

(** Right stripping keeps a first character that is not white space. *)
Lemma lstrip_rstrip s : lstrip s = s → lstrip (rstrip s) = rstrip s.
Proof.
  destruct s as [|c s]; simpl; [done|]. destruct (is_space c) eqn:E; intros H.
  - exfalso. assert (Hl : (String.length (lstrip s) ≤ String.length s)%nat).
    { clear. induction s as [|d s IH]; simpl; [done|]. destruct (is_space d); simpl; lia. }
    rewrite H in Hl. simpl in Hl. lia.
  - destruct (rstrip s); simpl; by rewrite E.
Qed.

Lemma strip_idem s : strip (strip s) = strip s.
Proof. unfold strip. rewrite (lstrip_rstrip (lstrip s)), rstrip_idem; [done|apply strip_lstrip_idem]. Qed.

#[global] Arguments String.append : simpl never.

(** ** Readers of a stream

    The program reads pipes in chunks of any size.  A reader takes what the last
    read left over and a chunk, and returns what it read with the new rest, or
    raises; its contract is that cutting the stream differently changes nothing. *)
Section reader.
Context {S O : Type}.

Class ChunkReader (glue : O → O → O) (read : S → string → res (O * S)) : Prop :=
  read_app s a b : read s (a +:+ b) = (x ← read s a; y ← read x.2 b; Ok (glue x.1 y.1, y.2)).

(** Reading one chunk after the other. *)
Fixpoint read_all (glue : O → O → O) (read : S → string → res (O * S)) (s : S) (chunk : string)
    (chunks : list string) : res (O * S) :=
  match chunks with
  | [] => read s chunk
  | c :: cs => x ← read s chunk; y ← read_all glue read x.2 c cs; Ok (glue x.1 y.1, y.2)
  end.

Lemma read_all_concat glue read `{!ChunkReader glue read} s chunk chunks :
  read_all glue read s chunk chunks = read s (join "" (chunk :: chunks)).
Proof.
  revert s chunk. induction chunks as [|c cs IH]; intros s chunk; [done|].
  change (join "" (chunk :: c :: cs)) with (chunk +:+ join "" (c :: cs)).
  rewrite read_app. cbn [read_all]. destruct (read s chunk) as [x|e]; [|done]. simpl.
  by rewrite IH.
Qed.
End reader.

(** ** Stable sorting

    [sorted(l, key=...)] with [leb] the order of the keys: Python's sort is
    stable, so is insertion from the right before the first element that is
    not smaller. *)
Section sort.
Context {A : Type} (leb : A → A → bool).

Fixpoint insert_by (x : A) (l : list A) : list A :=
  match l with
  | [] => [x]
  | y :: l' => if leb x y then x :: y :: l' else y :: insert_by x l'
  end.

Fixpoint sort_by (l : list A) : list A :=
  match l with
  | [] => []
  | x :: l' => insert_by x (sort_by l')
  end.

Lemma insert_by_perm x l : insert_by x l ≡ₚ x :: l.
Proof.
  induction l as [|y l IH]; simpl; [done|]. split_ifs; [done|].
  rewrite IH. constructor.
Qed.

Lemma sort_by_perm l : sort_by l ≡ₚ l.
Proof. induction l as [|x l IH]; simpl; [done|]. by rewrite insert_by_perm, IH. Qed.

Lemma sort_by_length l : length (sort_by l) = length l.
Proof. apply Permutation_length, sort_by_perm. Qed.

Lemma sort_by_in l x : x ∈ sort_by l ↔ x ∈ l.
Proof. by rewrite sort_by_perm. Qed.

Context (total : ∀ x y, leb x y = true ∨ leb y x = true).
Context (trans : ∀ x y z, leb x y = true → leb y z = true → leb x z = true).

Lemma insert_by_sorted x l :
  StronglySorted (λ a b, leb a b = true) l →
  StronglySorted (λ a b, leb a b = true) (insert_by x l).
Proof using total trans.
  induction 1 as [|y l Hs IH Hy]; simpl; [repeat constructor|].
  destruct (leb x y) eqn:E.
  - constructor; [by constructor|]. constructor; [done|].
    eapply Forall_impl; [exact Hy|]. naive_solver.
  - constructor; [done|]. rewrite insert_by_perm. constructor; [|done].
    destruct (total x y); congruence.
Qed.

Lemma sort_by_sorted l : StronglySorted (λ a b, leb a b = true) (sort_by l).
Proof using total trans.
  induction l; simpl; [constructor|]. by apply insert_by_sorted.
Qed.

(** A relation that is implied by the order of the elements at hand, and by its
    failure the other way round, holds along the sorted list; transitivity of the
    order itself is not needed. *)
Lemma insert_by_weak (P : A → Prop) (R : A → A → Prop) `{!Transitive R} x l :
  (∀ a b, P a → P b → leb a b = true → R a b) →
  (∀ a b, P a → P b → leb a b = false → R b a) →
  P x → Forall P l → StronglySorted R l → StronglySorted R (insert_by x l).
Proof using Type.
  intros H1 H2 Hx HP. induction 1 as [|y l Hs IH Hy]; simpl; [repeat constructor|].
  apply Forall_cons in HP as [Py HP]. destruct (leb x y) eqn:E.
  - constructor; [by constructor|]. constructor; [by apply H1|].
    eapply Forall_impl; [exact Hy|]. intros z Hz. transitivity y; auto.
  - constructor; [by apply IH|]. rewrite insert_by_perm. constructor; [by apply H2|done].
Qed.

Lemma sort_by_weak (P : A → Prop) (R : A → A → Prop) `{!Transitive R} l :
  (∀ a b, P a → P b → leb a b = true → R a b) →
  (∀ a b, P a → P b → leb a b = false → R b a) →
  Forall P l → StronglySorted R (sort_by l).
Proof using Type.
  intros H1 H2. induction 1 as [|x l Hx Hl IH]; simpl; [constructor|].
  apply (insert_by_weak P); [done..| |done]. by rewrite sort_by_perm.
Qed.

(** Stability: the elements that satisfy a predicate all of whose members
    have equal keys keep their order. *)
Lemma insert_by_filter (P : A → bool) x l :
  (∀ a b, P a = true → P b = true → leb a b = true) →
  List.filter P (insert_by x l) =
    if P x then x :: List.filter P l else List.filter P l.
Proof using Type.
  intros HP. induction l as [|y l IH]; simpl; [by destruct (P x)|].
  destruct (leb x y) eqn:E; simpl; [by destruct (P x)|].
  rewrite IH. destruct (P y) eqn:Py, (P x) eqn:Px; try done.
  rewrite (HP x y) in E; done.
Qed.

Lemma sort_by_stable (P : A → bool) l :
  (∀ a b, P a = true → P b = true → leb a b = true) →
  List.filter P (sort_by l) = List.filter P l.
Proof using Type.
  intros HP. induction l as [|x l IH]; simpl; [done|].
  rewrite insert_by_filter, IH by done. done.
Qed.

(** Sorting commutes with a filter. *)
Lemma insert_by_filter_sorted (P : A → bool) x l :
  StronglySorted (λ a b, leb a b = true) l →
  List.filter P (insert_by x l) = if P x then insert_by x (List.filter P l) else List.filter P l.
Proof using trans.
  induction 1 as [|y l Hs IH Hy]; simpl; [by destruct (P x)|].
  destruct (leb x y) eqn:E; simpl.
  - destruct (P x); [|done]. destruct (P y); simpl; [by rewrite E|].
    destruct (List.filter P l) as [|z l'] eqn:El; [done|]. simpl.
    assert (z ∈ l) as Hz.
    { apply list_elem_of_In, (proj1 (filter_In P z l)). rewrite El. by left. }
    rewrite Forall_forall in Hy. by rewrite (trans x y z E (Hy z Hz)).
  - rewrite IH. destruct (P y), (P x); simpl; by rewrite ?E.
Qed.

Lemma sort_by_filter (P : A → bool) l :
  List.filter P (sort_by l) = sort_by (List.filter P l).
Proof using total trans.
  induction l as [|x l IH]; simpl; [done|].
  rewrite insert_by_filter_sorted, IH by by apply sort_by_sorted. by destruct (P x).
Qed.

(** A sorted list is left alone. *)
Lemma sort_by_id l : StronglySorted (λ a b, leb a b = true) l → sort_by l = l.
Proof using Type.
  induction 1 as [|x l Hs IH Hx]; simpl; [done|]. rewrite IH.
  destruct Hx as [|y l Hy]; simpl; [done|]. by rewrite Hy.
Qed.
End sort.

#[export] Hint Resolve sort_by_perm sort_by_sorted : pylib.

(** ** Lists and numbers *)

(** [list(range(n))] starting at [k]. *)
Definition zseq (k : Z) (n : nat) : list Z := (λ i, k + Z.of_nat i) <$> seq 0 n.
Lemma zseq_lookup lo n i : zseq lo n !! i = if decide (i < n)%nat then Some (lo + Z.of_nat i) else None.
Proof.
  unfold zseq. rewrite list_lookup_fmap. destruct (decide (i < n)%nat) as [H|H].
  - by rewrite lookup_seq_lt.
  - rewrite lookup_seq_ge by lia. done.
Qed.

Definition sumZ (l : list Z) : Z := foldr Z.add 0 l.

Lemma rev_perm {A} (l : list A) : rev l ≡ₚ l.
Proof. symmetry. apply Permutation_rev. Qed.

Lemma sumZ_cons x l : sumZ (x :: l) = x + sumZ l.
Proof. done. Qed.

Lemma sumZ_perm l1 l2 : l1 ≡ₚ l2 → sumZ l1 = sumZ l2.
Proof. induction 1; rewrite ?sumZ_cons; lia. Qed.

Lemma sumZ_app l1 l2 : sumZ (l1 ++ l2) = sumZ l1 + sumZ l2.
Proof. induction l1 as [|x l1 IH]; simpl; [done|]. unfold sumZ in *; simpl in *. lia. Qed.

(** [enumerate(l, start)]. *)
Fixpoint enumerate {A} (start : Z) (l : list A) : list (Z * A) :=
  match l with
  | [] => []
  | x :: l' => (start, x) :: enumerate (start + 1) l'
  end.

Lemma enumerate_snd {A} start (l : list A) : (enumerate start l).*2 = l.
Proof. revert start. induction l; intros; f_equal/=; auto. Qed.

Lemma enumerate_lookup {A} start (l : list A) i :
  enumerate start l !! i = (λ x, (start + Z.of_nat i, x)) <$> l !! i.
Proof.
  revert start i. induction l as [|x l IH]; intros start [|i]; simpl; try done.
  - do 2 f_equal. lia.
  - rewrite IH. destruct (l !! i); simpl; [|done]. do 2 f_equal. lia.
Qed.

(** Association lists: Python dictionaries keep insertion order. *)
Section assoc.
Context {K V : Type} `{EqDecision K}.

Fixpoint alookup (k : K) (l : list (K * V)) : option V :=
  match l with
  | [] => None
  | (k', v) :: l' => if decide (k = k') then Some v else alookup k l'
  end.

(** [d[k] = v]: in place when the key is there, at the end otherwise. *)
Fixpoint ainsert (k : K) (v : V) (l : list (K * V)) : list (K * V) :=
  match l with
  | [] => [(k, v)]
  | (k', v') :: l' =>
      if decide (k = k') then (k, v) :: l' else (k', v') :: ainsert k v l'
  end.

Fixpoint adelete (k : K) (l : list (K * V)) : list (K * V) :=
  match l with
  | [] => []
  | (k', v') :: l' => if decide (k = k') then adelete k l' else (k', v') :: adelete k l'
  end.

Lemma alookup_ainsert_eq k v l : alookup k (ainsert k v l) = Some v.
Proof.
  induction l as [|[k' v'] l IH]; simpl; [by rewrite decide_True|].
  destruct (decide (k = k')); simpl; [by rewrite decide_True|by rewrite decide_False].
Qed.

Lemma alookup_ainsert_ne k k' v l :
  k ≠ k' → alookup k (ainsert k' v l) = alookup k l.
Proof.
  intros. induction l as [|[j w] l IH]; simpl; [by rewrite decide_False|].
  destruct (decide (k' = j)); simpl.
  - subst. by rewrite !decide_False.
  - destruct (decide (k = j)); naive_solver.
Qed.

Lemma alookup_adelete_eq k l : alookup k (adelete k l) = None.
Proof.
  induction l as [|[j w] l IH]; simpl; [done|]. destruct (decide (k = j)); [done|].
  simpl. by rewrite decide_False.
Qed.

Lemma alookup_adelete_ne k k' l :
  k ≠ k' → alookup k (adelete k' l) = alookup k l.
Proof.
  intros. induction l as [|[j w] l IH]; simpl; [done|].
  destruct (decide (k' = j)); simpl; [subst; by rewrite decide_False|].
  destruct (decide (k = j)); naive_solver.
Qed.

Lemma alookup_None k l : alookup k l = None ↔ k ∉ l.*1.
Proof.
  induction l as [|[j w] l IH]; simpl; [set_solver|].
  destruct (decide (k = j)); [set_solver|]. set_solver.
Qed.

Lemma alookup_Some_in k v l : alookup k l = Some v → (k, v) ∈ l.
Proof.
  induction l as [|[j w] l IH]; simpl; [done|]. destruct (decide (k = j)) as [->|].
  - intros [= ->]. left.
  - intros. right. auto.
Qed.

Lemma alookup_in k v l : NoDup l.*1 → (k, v) ∈ l → alookup k l = Some v.
Proof.
  induction l as [|[j w] l IH]; simpl; [by intros _ ?%not_elem_of_nil|].
  intros [Hj Hnd]%NoDup_cons [E|H]%elem_of_cons; [injection E as -> ->; by rewrite decide_True|].
  rewrite decide_False; [by apply IH|]. intros ->. apply Hj, list_elem_of_fmap. by exists (j, v).
Qed.

(** Where the values are distinct, a value has one key. *)
Lemma alookup_inj k k' v l :
  NoDup l.*2 → alookup k l = Some v → alookup k' l = Some v → k = k'.
Proof.
  intros Hnd H1%alookup_Some_in H2%alookup_Some_in. revert Hnd H1 H2.
  induction l as [|[j w] l IH]; simpl; [by intros _ ?%not_elem_of_nil|].
  intros [Hj Hnd]%NoDup_cons [E1|H1]%elem_of_cons [E2|H2]%elem_of_cons.
  - congruence.
  - injection E1 as -> ->. exfalso. apply Hj, list_elem_of_fmap. by exists (k', w).
  - injection E2 as -> ->. exfalso. apply Hj, list_elem_of_fmap. by exists (k, w).
  - by apply IH.
Qed.

Lemma ainsert_fst_in k v l : k ∈ l.*1 → (ainsert k v l).*1 = l.*1.
Proof.
  induction l as [|[j w] l IH]; simpl; [set_solver|].
  destruct (decide (k = j)); [by subst|]. intros [?|?]%elem_of_cons; [done|].
  f_equal/=. by apply IH.
Qed.

Lemma ainsert_fst_notin k v l : k ∉ l.*1 → (ainsert k v l).*1 = l.*1 ++ [k].
Proof.
  induction l as [|[j w] l IH]; simpl; [done|].
  destruct (decide (k = j)); [set_solver|]. intros. f_equal/=. apply IH. set_solver.
Qed.

Lemma ainsert_NoDup k v l : NoDup l.*1 → NoDup (ainsert k v l).*1.
Proof.
  intros. destruct (decide (k ∈ l.*1)).
  - by rewrite ainsert_fst_in.
  - rewrite ainsert_fst_notin by done. apply NoDup_app. split; [done|].
    split; [set_solver|]. apply NoDup_singleton.
Qed.

Lemma adelete_fst k l : (adelete k l).*1 = filter (λ j, k ≠ j) l.*1.
Proof.
  induction l as [|[j w] l IH]; [done|]. simpl.
  destruct (decide (k = j)); [rewrite filter_cons_False by naive_solver; done|].
  rewrite filter_cons_True by done. by f_equal/=.
Qed.

Lemma ainsert_None k v l : alookup k l = None → ainsert k v l = l ++ [(k, v)].
Proof.
  induction l as [|[j w] l IH]; simpl; [done|]. destruct (decide (k = j)); [done|].
  intros. f_equal. auto.
Qed.

(** A part of the keys. *)
Lemma alookup_filter_key (f : K → bool) k l :
  f k = true → alookup k (List.filter (λ r, f r.1) l) = alookup k l.
Proof.
  intros Hk. induction l as [|[j w] l IH]; simpl; [done|]. destruct (f j) eqn:E; simpl.
  - destruct (decide (k = j)); [done|apply IH].
  - destruct (decide (k = j)); [congruence|apply IH].
Qed.

Lemma ainsert_filter_key (f : K → bool) k v l :
  List.filter (λ r, f r.1) (ainsert k v l) =
    if f k then ainsert k v (List.filter (λ r, f r.1) l) else List.filter (λ r, f r.1) l.
Proof.
  induction l as [|[j w] l IH]; simpl; [by destruct (f k)|].
  destruct (decide (k = j)) as [<-|]; simpl.
  - destruct (f k); simpl; [by rewrite decide_True|done].
  - rewrite IH. destruct (f j), (f k); simpl; rewrite ?decide_False by done; done.
Qed.

Lemma adelete_notin k l : k ∉ l.*1 → adelete k l = l.
Proof.
  induction l as [|[j w] l IH]; simpl; [done|]. intros.
  destruct (decide (k = j)); [set_solver|]. f_equal. apply IH. set_solver.
Qed.

Lemma adelete_perm k v l : NoDup l.*1 → alookup k l = Some v → l ≡ₚ (k, v) :: adelete k l.
Proof.
  induction l as [|[j w] l IH]; simpl; [done|]. intros [Hj Hnd]%NoDup_cons H.
  destruct (decide (k = j)) as [->|].
  - injection H as ->. by rewrite adelete_notin.
  - rewrite IH at 1 by done. constructor.
Qed.

Lemma adelete_NoDup k l : NoDup l.*1 → NoDup (adelete k l).*1.
Proof. intros. rewrite adelete_fst. by apply NoDup_filter. Qed.
End assoc.

Create Rewrite HintDb pylib.
#[export] Hint Rewrite @alookup_ainsert_eq @alookup_adelete_eq : pylib.
#[export] Hint Resolve ainsert_NoDup adelete_NoDup : pylib.

(** ** Dictionaries made from lists *)

(** A dictionary made from a list: a later element replaces an earlier one of
    the same key. *)
Definition index_by {K A} `{EqDecision K} (key : A → K) (l : list A) : list (K * A) :=
  foldl (λ d x, ainsert (key x) x d) [] l.

Section index_by.
Context {K A : Type} `{EqDecision K} (key : A → K).

Lemma index_by_snoc l x : index_by key (l ++ [x]) = ainsert (key x) x (index_by key l).
Proof. unfold index_by. by rewrite foldl_snoc. Qed.

Lemma index_by_keys l : NoDup (key <$> l) → index_by key l = (λ x, (key x, x)) <$> l.
Proof.
  induction l as [|x l IH] using rev_ind; [done|]. rewrite fmap_app. intros [H1 [H2 _]]%NoDup_app.
  rewrite index_by_snoc, IH, fmap_app by done. apply ainsert_None, alookup_None. rewrite <- list_fmap_compose.
  intros Hin. apply (H2 (key x)); [done|]. by left.
Qed.

Lemma index_by_values l : NoDup (key <$> l) → (index_by key l).*2 = l.
Proof. intros H. rewrite index_by_keys by done. rewrite <- list_fmap_compose. apply list_fmap_id. Qed.

Lemma index_by_lookup l x : NoDup (key <$> l) → x ∈ l → alookup (key x) (index_by key l) = Some x.
Proof.
  induction l as [|y l IH] using rev_ind; [by intros _ ?%not_elem_of_nil|]. rewrite fmap_app.
  intros [H1 [H2 _]]%NoDup_app Hx. rewrite index_by_snoc. apply elem_of_app in Hx as [Hx|Hx].
  - rewrite alookup_ainsert_ne; [by apply IH|]. intros E. apply (H2 (key x)); [by apply list_elem_of_fmap_2|]. rewrite E. by left.
  - apply list_elem_of_singleton in Hx as ->. apply alookup_ainsert_eq.
Qed.

Lemma index_by_Some l k x : alookup k (index_by key l) = Some x → x ∈ l ∧ key x = k.
Proof.
  induction l as [|y l IH] using rev_ind; [done|]. rewrite index_by_snoc. destruct (decide (k = key y)) as [->|Hk].
  - rewrite alookup_ainsert_eq. intros [= <-]. split; [set_solver|done].
  - rewrite alookup_ainsert_ne by done. intros [H1 H2]%IH. split; [set_solver|done].
Qed.

Lemma index_by_None l k : alookup k (index_by key l) = None ↔ k ∉ key <$> l.
Proof.
  induction l as [|y l IH] using rev_ind; [split; [set_solver|done]|]. rewrite index_by_snoc, fmap_app.
  destruct (decide (k = key y)) as [->|Hk].
  - rewrite alookup_ainsert_eq. set_solver.
  - rewrite alookup_ainsert_ne by done. rewrite IH. set_solver.
Qed.

(** The keys of the dictionary are distinct. *)
Lemma index_by_NoDup l : NoDup (index_by key l).*1.
Proof.
  induction l as [|y l IH] using rev_ind; [constructor|]. rewrite index_by_snoc. by apply ainsert_NoDup.
Qed.
Lemma index_by_pairs l k x : (k, x) ∈ index_by key l → x ∈ l ∧ key x = k.
Proof.
  intros H. apply (index_by_Some l). apply alookup_in; [apply index_by_NoDup|done].
Qed.
Lemma index_by_values_NoDup l : NoDup (key <$> (index_by key l).*2).
Proof.
  assert (key <$> (index_by key l).*2 = (index_by key l).*1) as ->; [|apply index_by_NoDup].
  rewrite <- list_fmap_compose. apply list_fmap_ext. intros i [k x] H%list_elem_of_lookup_2. simpl.
  by apply index_by_pairs in H as [_ ->].
Qed.
End index_by.

(** ** Orders of several keys *)

(** Tuples of sort keys: the second decides where the first does not. *)
Definition then_leb {A} (r1 r2 : A → A → bool) (a b : A) : bool :=
  if r1 a b then (if r1 b a then r2 a b else true) else false.
Definition on {A B} (f : A → B) (r : B → B → bool) (a b : A) : bool := r (f a) (f b).

Section then_leb.
Context {A : Type} (r1 r2 : A → A → bool).
Context (total1 : ∀ x y, r1 x y = true ∨ r1 y x = true) (total2 : ∀ x y, r2 x y = true ∨ r2 y x = true).
Context (trans1 : ∀ x y z, r1 x y = true → r1 y z = true → r1 x z = true)
  (trans2 : ∀ x y z, r2 x y = true → r2 y z = true → r2 x z = true).

Lemma then_total x y : then_leb r1 r2 x y = true ∨ then_leb r1 r2 y x = true.
Proof using total1 total2.
  unfold then_leb. destruct (r1 x y) eqn:E1, (r1 y x) eqn:E2; auto. destruct (total1 x y); congruence.
Qed.

Lemma then_trans x y z : then_leb r1 r2 x y = true → then_leb r1 r2 y z = true → then_leb r1 r2 x z = true.
Proof using trans1 trans2.
  unfold then_leb. destruct (r1 x y) eqn:E1; [|done]. destruct (r1 y z) eqn:E2; [|done]. intros H1 H2.
  rewrite (trans1 _ _ _ E1 E2). destruct (r1 z x) eqn:E3; [|done].
  rewrite (trans1 _ _ _ E2 E3) in H1. rewrite (trans1 _ _ _ E3 E1) in H2. eauto.
Qed.

Lemma then_strict x y : r1 x y = true → r1 y x = false → then_leb r1 r2 x y = true.
Proof using Type. unfold then_leb. by intros -> ->. Qed.
End then_leb.

(** Elements with ascending numbers are in order whatever decides afterwards. *)
Lemma ascending_sorted {A} (f : A → Z) (r : A → A → bool) (l : list A) :
  StronglySorted (λ a b, f a < f b) l → StronglySorted (λ a b, then_leb (on f Z.leb) r a b = true) l.
Proof.
  induction 1 as [|x l Hl IH Hx]; constructor; [done|]. eapply Forall_impl; [exact Hx|]. intros y Hy.
  apply then_strict; unfold on; [rewrite Z.leb_le|rewrite Z.leb_gt]; simpl in *; lia.
Qed.

(** ** Lists of results *)
Lemma mapM_Ok {A B} (f : A → res B) l k : mapM f l = Ok k ↔ Forall2 (λ x y, f x = Ok y) l k.
Proof.
  revert k. induction l as [|x l IH]; intros k; simpl.
  - split; [intros [= <-]; constructor|by inversion 1].
  - rewrite res_bind_Ok. split.
    + intros (y & Hy & (ys & Hys & [= <-])%res_bind_Ok). constructor; [done|by apply IH].
    + inversion 1 as [|? y ? ys Hy Hys]; subst. exists y. split; [done|]. apply res_bind_Ok. exists ys. split; [by apply IH|done].
Qed.
Lemma mapM_total {A B} (f : A → res B) l : (∀ x, x ∈ l → ∃ y, f x = Ok y) → ∃ k, mapM f l = Ok k.
Proof.
  induction l as [|x l IH]; intros H; [by eexists|]. destruct (H x) as [y Hy]; [by left|].
  destruct IH as [ys Hys]; [intros z Hz; apply H; by right|]. exists (y :: ys). simpl. rewrite Hy. cbn [mbind res_bind]. by rewrite Hys.
Qed.
Lemma Forall2_fmap_eq {A B C} (f : A → C) (g : B → C) l k : Forall2 (λ x y, f x = g y) l k → f <$> l = g <$> k.
Proof. induction 1 as [|x y l k E _ IH]; [done|]. rewrite !fmap_cons. congruence. Qed.
Lemma imap_snd {A B C} (f : nat → A → B) (h : B → C) (h' : A → C) l : (∀ i x, h (f i x) = h' x) → h <$> imap f l = h' <$> l.
Proof.
  intros H. apply list_eq. intros i. rewrite !list_lookup_fmap, list_lookup_imap. destruct (l !! i); simpl; [by rewrite H|done].
Qed.

(** ** Gathering by a key *)
Lemma ainsert_Forall {K V} `{EqDecision K} (P : K * V → Prop) k v (d : list (K * V)) :
  P (k, v) → Forall P d → Forall P (ainsert k v d).
Proof.
  intros Hk. induction 1 as [|[j w] d Hj Hd IH]; simpl; [by repeat constructor|].
  destruct (decide (k = j)); by constructor.
Qed.

(** [setdefault(key, []).append(x)]: the keys in the order of their first element. *)
Definition gather {A} (key : A → string) (l : list A) : list (string * list A) :=
  foldl (λ d x, ainsert (key x) (default [] (alookup (key x) d) ++ [x]) d) [] l.

(** Gathering moves elements next to those with the same key. *)
Section gather.
Context {A : Type} (key : A → string).

Lemma gather_snoc l x :
  gather key (l ++ [x]) = ainsert (key x) (default [] (alookup (key x) (gather key l)) ++ [x]) (gather key l).
Proof. unfold gather. by rewrite foldl_snoc. Qed.

Lemma gather_NoDup l : NoDup (gather key l).*1.
Proof. induction l as [|x l IH] using rev_ind; [constructor|]. rewrite gather_snoc. by apply ainsert_NoDup. Qed.

Lemma gather_keys l : Forall (λ kl, Forall (λ x, key x = kl.1) kl.2) (gather key l).
Proof.
  induction l as [|x l IH] using rev_ind; [constructor|]. rewrite gather_snoc. apply ainsert_Forall; [|done]. simpl.
  apply Forall_app. split; [|by repeat constructor]. destruct (alookup (key x) (gather key l)) as [k|] eqn:E; [|constructor].
  apply alookup_Some_in in E. by apply (proj1 (Forall_forall _ _) IH) in E.
Qed.

Lemma ainsert_concat k x (d : list (string * list A)) :
  NoDup d.*1 → concat (ainsert k (default [] (alookup k d) ++ [x]) d).*2 ≡ₚ concat d.*2 ++ [x].
Proof.
  induction d as [|[j l] d IH]; intros Hd; [done|]. apply NoDup_cons in Hd as [Hj Hd]. simpl.
  destruct (decide (k = j)) as [->|]; simpl; [|by rewrite IH, <- app_assoc].
  rewrite <- !app_assoc. apply Permutation_app_head. by rewrite Permutation_app_comm.
Qed.

Lemma gather_perm l : concat (gather key l).*2 ≡ₚ l.
Proof.
  induction l as [|x l IH] using rev_ind; [done|]. rewrite gather_snoc, ainsert_concat, IH by apply gather_NoDup. done.
Qed.
(** The elements of a key, in their order. *)
Lemma gather_lookup l k : default [] (alookup k (gather key l)) = List.filter (λ x, String.eqb (key x) k) l.
Proof.
  induction l as [|x l IH] using rev_ind; [done|]. rewrite gather_snoc, List.filter_app. simpl.
  destruct (String.eqb_spec (key x) k) as [<-|Hk].
  - rewrite alookup_ainsert_eq. simpl. by rewrite IH.
  - rewrite alookup_ainsert_ne, app_nil_r by congruence. exact IH.
Qed.
End gather.
