(* ===== verification/PyVal.v ===== *)
(** * Dynamic Python values

    Job events, task results and database rows are JSON-like Python values.
    [pyval] is that universe; a [dict] keeps insertion order; a float carries
    its exact value and its [repr], or is an infinity or a NaN.  The functions
    are the Python built-ins the program applies to such values: [bool],
    [str], [int], [or], [dict.get], [dict.setdefault], item assignment. *)

From S2P Require Import Prelude.

Inductive pyfloat :=
  | FFinite (num : Z) (den : positive) (repr : string)
  | FInf (neg : bool)
  | FNan.

#[global] Instance pyfloat_eq_dec : EqDecision pyfloat.
Proof. solve_decision. Defined.

#[local] Unset Elimination Schemes.
Inductive pyval :=
  | PNone
  | PBool (b : bool)
  | PInt (z : Z)
  | PFloat (f : pyfloat)
  | PStr (s : string)
  | PList (l : list pyval)
  | PDict (d : list (string * pyval)).

Abbreviation dict := (list (string * pyval)).

(** Induction with hypotheses for the elements of lists and dictionaries. *)
Section pyval_induction.
Context (P : pyval → Prop).
Context (HNone : P PNone) (HBool : ∀ b, P (PBool b)) (HInt : ∀ z, P (PInt z))
  (HFloat : ∀ f, P (PFloat f)) (HStr : ∀ s, P (PStr s))
  (HList : ∀ l, Forall P l → P (PList l))
  (HDict : ∀ d, Forall (λ kv, P kv.2) d → P (PDict d)).

Fixpoint pyval_ind' (v : pyval) : P v :=
  match v with
  | PNone => HNone
  | PBool b => HBool b
  | PInt z => HInt z
  | PFloat f => HFloat f
  | PStr s => HStr s
  | PList l => HList l
      ((fix go l : Forall P l :=
          match l with
          | [] => Forall_nil_2 P
          | x :: l' => Forall_cons_2 P x l' (pyval_ind' x) (go l')
          end) l)
  | PDict d => HDict d
      ((fix go d : Forall (λ kv, P kv.2) d :=
          match d with
          | [] => Forall_nil_2 _
          | kv :: d' => Forall_cons_2 (λ kv, P kv.2) kv d' (pyval_ind' kv.2) (go d')
          end) d)
  end.
End pyval_induction.

#[global] Instance pyval_eq_dec : EqDecision pyval.
Proof.
  unfold EqDecision. fix go 1. intros x y.
  destruct x as [|b|z|f|s|l|d], y as [|b'|z'|f'|s'|l'|d']; try (right; congruence).
  - by left.
  - destruct (decide (b = b')); [left|right]; congruence.
  - destruct (decide (z = z')); [left|right]; congruence.
  - destruct (decide (f = f')); [left|right]; congruence.
  - destruct (decide (s = s')); [left|right]; congruence.
  - assert (Decision (l = l')) as [->|].
    { revert l'. induction l as [|a l IH]; intros [|a' l']; try (right; congruence); [by left|].
      destruct (go a a') as [->|]; [|right; congruence].
      destruct (IH l'); [left|right]; congruence. }
    + by left.
    + right; congruence.
  - assert (Decision (d = d')) as [->|].
    { revert d'. induction d as [|[k a] d IH]; intros [|[k' a'] d']; try (right; congruence); [by left|].
      destruct (decide (k = k')) as [->|]; [|right; congruence].
      destruct (go a a') as [->|]; [|right; congruence].
      destruct (IH d'); [left|right]; congruence. }
    + by left.
    + right; congruence.
Defined.

(** An optional integer as a value. *)
Definition opt_int (z : option Z) : pyval := match z with Some n => PInt n | None => PNone end.

(** ** Truth value, [in (None, "")] *)
Definition truthy (v : pyval) : bool :=
  match v with
  | PNone => false
  | PBool b => b
  | PInt z => negb (z =? 0)
  | PFloat (FFinite n _ _) => negb (n =? 0)
  | PFloat _ => true
  | PStr s => str_nonempty s
  | PList l => match l with [] => false | _ => true end
  | PDict d => match d with [] => false | _ => true end
  end.

Definition blank (v : pyval) : bool :=
  match v with
  | PNone => true
  | PStr s => String.eqb s ""
  | _ => false
  end.

(** [a or b]. *)
Definition por (a b : pyval) : pyval := if truthy a then a else b.

(** A [datetime]: the microseconds of its wall clock since the epoch, and its
    distance to UTC when it has a zone. *)
Record datetime := Datetime { dt_wall : Z; dt_offset : option Z }.
Definition utc (t : datetime) : Z := dt_wall t - default 0 (dt_offset t).

(** ** [str(v)]

    [repr] of a string uses single quotes unless the string holds one and no
    double quote; bytes from 128 up are printed as they are. *)
Definition dquote : ascii := "034"%char.
Definition squote : ascii := "'"%char.

Definition hex_digit (n : Z) : ascii :=
  ascii_of_N (Z.to_N (if n <? 10 then 48 + n else 87 + n)).

Definition repr_char (q c : ascii) : string :=
  let n := byte_of c in
  if Ascii.eqb c q || (n =? 92) then String "\" (String c "")
  else if n =? 10 then "\n"
  else if n =? 13 then "\r"
  else if n =? 9 then "\t"
  else if (n <? 32) || (n =? 127) then
    "\x" +:+ String (hex_digit (n / 16)) (String (hex_digit (n mod 16)) "")
  else String c "".

Fixpoint repr_chars (q : ascii) (s : string) : string :=
  match s with
  | "" => ""
  | String c s' => repr_char q c +:+ repr_chars q s'
  end.

Definition repr_str (s : string) : string :=
  let q := if has_char squote s && negb (has_char dquote s) then dquote else squote in
  String q (repr_chars q s +:+ String q "").

Definition float_str (f : pyfloat) : string :=
  match f with
  | FFinite _ _ r => r
  | FInf neg => if neg then "-inf" else "inf"
  | FNan => "nan"
  end.

Fixpoint py_repr (v : pyval) : string :=
  match v with
  | PNone => "None"
  | PBool b => if b then "True" else "False"
  | PInt z => pretty z
  | PFloat f => float_str f
  | PStr s => repr_str s
  | PList l => "[" +:+ join ", " (py_repr <$> l) +:+ "]"
  | PDict d =>
      "{" +:+ join ", " ((λ kv, repr_str kv.1 +:+ ": " +:+ py_repr kv.2) <$> d) +:+ "}"
  end.

Definition py_str (v : pyval) : string :=
  match v with PStr s => s | _ => py_repr v end.

(** [str(v or "")]. *)
Definition text_or_empty (v : pyval) : string := py_str (por v (PStr "")).

Lemma text_or_empty_PStr t : text_or_empty (PStr t) = t.
Proof. unfold text_or_empty, por. simpl. by destruct t. Qed.

(** ** [int(v)] *)
Definition digit_val (c : ascii) : Z := byte_of c - 48.

(** Decimal digits with single underscores between digits. *)
Fixpoint parse_digits (acc : Z) (after_digit : bool) (s : string) : option Z :=
  match s with
  | "" => if after_digit then Some acc else None
  | String c s' =>
      if is_digit c then parse_digits (acc * 10 + digit_val c) true s'
      else if Ascii.eqb c "_" && after_digit then parse_digits acc false s'
      else None
  end.

Definition parse_int (s : string) : option Z :=
  match strip s with
  | String "-" r => Z.opp <$> parse_digits 0 false r
  | String "+" r => parse_digits 0 false r
  | r => parse_digits 0 false r
  end.

Definition to_int (v : pyval) : res Z :=
  match v with
  | PBool b => Ok (if b then 1 else 0)
  | PInt z => Ok z
  | PFloat (FFinite n d _) => Ok (Z.quot n (Zpos d))
  | PFloat (FInf _) => Err OverflowError
  | PFloat FNan => Err ValueError
  | PStr s => match parse_int s with Some z => Ok z | None => Err ValueError end
  | PNone | PList _ | PDict _ => Err TypeError
  end.

(** [int(v)] inside [try ... except (TypeError, ValueError)]: [None] is the
    handler; [OverflowError] is not caught. *)
Definition try_int (v : pyval) : res (option Z) :=
  match to_int v with
  | Ok z => Ok (Some z)
  | Err TypeError | Err ValueError => Ok None
  | Err e => Err e
  end.

(** [round] of the exact quotient [num / den]: the nearest integer, ties to even. *)
Definition round_half_even (num den : Z) : Z :=
  let q := num / den in
  let r := num mod den in
  if 2 * r <? den then q else if den <? 2 * r then q + 1 else if Z.even q then q else q + 1.

(** ** Dictionaries *)

(** [d.get(k)]. *)
Definition dget (k : string) (d : dict) : pyval := default PNone (alookup k d).
(** [d.get(k, v)]. *)
Definition dget_or (k : string) (v : pyval) (d : dict) : pyval := default v (alookup k d).
(** [k in d]. *)
Definition dhas (k : string) (d : dict) : bool := bool_decide (is_Some (alookup k d)).
(** [d[k] = v]. *)
Definition dset (k : string) (v : pyval) (d : dict) : dict := ainsert k v d.
(** [d.setdefault(k, v)]. *)
Definition dsetdefault (k : string) (v : pyval) (d : dict) : dict :=
  if dhas k d then d else dset k v d.
(** [{**a, **b}], also [a.update(b)]. *)
Definition dmerge (a b : dict) : dict := foldl (λ acc kv, dset kv.1 kv.2 acc) a b.

Lemma dget_dset_eq k v d : dget k (dset k v d) = v.
Proof. unfold dget, dset. by rewrite alookup_ainsert_eq. Qed.

Lemma dget_dset_ne k k' v d : k ≠ k' → dget k (dset k' v d) = dget k d.
Proof. intros. unfold dget, dset. by rewrite alookup_ainsert_ne. Qed.

Lemma alookup_dsetdefault k k' v d :
  alookup k (dsetdefault k' v d) =
    if decide (k = k') then Some (default v (alookup k d)) else alookup k d.
Proof.
  unfold dsetdefault, dhas. case_bool_decide as H; destruct (decide (k = k')) as [->|].
  - destruct H as [x Hx]. by rewrite Hx.
  - done.
  - unfold dset. rewrite alookup_ainsert_eq.
    destruct (alookup k' d); [exfalso; eauto|done].
  - unfold dset. by rewrite alookup_ainsert_ne.
Qed.

Lemma dget_dsetdefault_ne k k' v d : k ≠ k' → dget k (dsetdefault k' v d) = dget k d.
Proof. intros. unfold dget. by rewrite alookup_dsetdefault, decide_False. Qed.

Lemma alookup_dmerge k a b :
  NoDup b.*1 →
  alookup k (dmerge a b) = match alookup k b with Some v => Some v | None => alookup k a end.
Proof.
  unfold dmerge. revert a. induction b as [|[j v] b IH]; intros a Hnd; simpl; [done|].
  apply NoDup_cons in Hnd as [Hj Hnd]. rewrite IH by done. destruct (decide (k = j)) as [->|].
  - apply alookup_None in Hj. simpl in Hj. rewrite Hj. unfold dset. by rewrite alookup_ainsert_eq.
  - destruct (alookup k b); [done|]. unfold dset. by rewrite alookup_ainsert_ne.
Qed.

Lemma alookup_dset_eq k v d : alookup k (dset k v d) = Some v.
Proof. apply alookup_ainsert_eq. Qed.

Lemma alookup_dset_ne k k' v d : k ≠ k' → alookup k (dset k' v d) = alookup k d.
Proof. apply alookup_ainsert_ne. Qed.

Lemma alookup_dsetdefault_ne k k' v d :
  k ≠ k' → alookup k (dsetdefault k' v d) = alookup k d.
Proof. intros. by rewrite alookup_dsetdefault, decide_False. Qed.

Lemma alookup_dsetdefault_eq k v d :
  alookup k (dsetdefault k v d) = Some (default v (alookup k d)).
Proof. by rewrite alookup_dsetdefault, decide_True. Qed.

#[export] Hint Rewrite dget_dset_eq : pylib.

Lemma dget_dsetdefault_eq k v d :
  dget k (dsetdefault k v d) = default v (alookup k d).
Proof. unfold dget. by rewrite alookup_dsetdefault_eq. Qed.

(** [dict_simpl] follows the writes of a dictionary from the outside in, for
    literal keys, without touching the written values. *)
Ltac dict_step :=
  lazymatch goal with
  | |- dget ?k (dset ?k _ _) = _ => etrans; [apply dget_dset_eq|]
  | |- dget ?k (dset _ _ _) = _ => etrans; [apply dget_dset_ne; discriminate|]
  | |- dget ?k (dsetdefault ?k _ _) = _ => etrans; [apply dget_dsetdefault_eq|]
  | |- dget ?k (dsetdefault _ _ _) = _ => etrans; [apply dget_dsetdefault_ne; discriminate|]
  | |- default _ (alookup ?k (dset ?k _ _)) = _ =>
      etrans; [apply f_equal, alookup_dset_eq|]
  | |- default _ (alookup ?k (dset _ _ _)) = _ =>
      etrans; [apply f_equal, alookup_dset_ne; discriminate|]
  | |- default _ (alookup ?k (dsetdefault ?k _ _)) = _ =>
      etrans; [apply f_equal, alookup_dsetdefault_eq|]
  | |- default _ (alookup ?k (dsetdefault _ _ _)) = _ =>
      etrans; [apply f_equal, alookup_dsetdefault_ne; discriminate|]
  end.
Ltac dict_simpl := repeat dict_step; try reflexivity.

Lemma dset_Forall (P : string * pyval → Prop) k v (d : dict) :
  P (k, v) → Forall P d → Forall P (dset k v d).
Proof. apply ainsert_Forall. Qed.

(** The dictionary operations are reasoned about through the lemmas above. *)
Lemma dmerge_NoDup a b : NoDup a.*1 → NoDup (dmerge a b).*1.
Proof.
  unfold dmerge. revert a. induction b as [|[k v] b IH]; intros a Ha; simpl; [done|].
  apply IH. unfold dset. by apply ainsert_NoDup.
Qed.

Lemma dget_dmerge k a b :
  NoDup b.*1 → dget k (dmerge a b) = match alookup k b with Some v => v | None => dget k a end.
Proof. intros Hb. unfold dget. rewrite alookup_dmerge by done. by destruct (alookup k b). Qed.

Lemma dget_alookup k row s : dget k row = PStr s → alookup k row = Some (PStr s).
Proof. unfold dget. destruct (alookup k row); simpl; congruence. Qed.

#[global] Opaque dget dset dsetdefault.
