(* ===== verification/PyText.v ===== *)
(** * Text operations of the Python standard library

    The [str] methods the parsers of the program use beyond those of
    [Prelude]: [splitlines], [split()], [replace], [count], decimal digits, and
    the facts on the decimal notation that the round trips need.  As in
    [Prelude], the character classes are their ASCII restriction. *)

From S2P Require Import Prelude PyVal.

(** [str.splitlines]: LF, CR, CR LF, VT, FF and the separators FS, GS, RS end
    a line; a final line end adds no empty line. *)
Definition is_line_end (c : ascii) : bool :=
  let n := byte_of c in
  ((10 <=? n) && (n <=? 13)) || ((28 <=? n) && (n <=? 30)).

Definition CR : ascii := "013"%char.
Definition LF : ascii := "010"%char.

Fixpoint lines_from (after_cr : bool) (cur : string) (s : string) : list string :=
  match s with
  | "" => if String.eqb cur "" then [] else [cur]
  | String c s' =>
      if after_cr && Ascii.eqb c LF then lines_from false cur s'
      else if is_line_end c then cur :: lines_from (Ascii.eqb c CR) "" s'
      else lines_from false (cur +:+ String c "") s'
  end.

Definition splitlines (s : string) : list string := lines_from false "" s.

(** [str.split()]: the maximal runs of characters that are not white space. *)
Fixpoint words_from (cur : string) (s : string) : list string :=
  match s with
  | "" => if String.eqb cur "" then [] else [cur]
  | String c s' =>
      if is_space c then
        if String.eqb cur "" then words_from "" s' else cur :: words_from "" s'
      else words_from (cur +:+ String c "") s'
  end.

Definition words (s : string) : list string := words_from "" s.

(** [s.replace(old, new)] for a non-empty [old]: occurrences from the left,
    without overlap; [skip] counts the characters of the current occurrence
    that are still to be dropped. *)
Fixpoint replace_from (old new : string) (skip : nat) (s : string) : string :=
  match s with
  | "" => ""
  | String c s' =>
      match skip with
      | S k => replace_from old new k s'
      | O =>
          if starts_with old s
          then new +:+ replace_from old new (String.length old - 1) s'
          else String c (replace_from old new 0 s')
      end
  end.

Definition replace (old new s : string) : string := replace_from old new 0 s.

(** [s.count(c)] for a one-character string. *)
Fixpoint count_char (c : ascii) (s : string) : nat :=
  match s with
  | "" => 0
  | String d s' => (if Ascii.eqb c d then 1 else 0) + count_char c s'
  end%nat.

(** [s.partition(" ")] and [s.split(" ", 1)] on a text that holds the space. *)
Fixpoint split_once (sep : ascii) (s : string) : string * string :=
  match s with
  | "" => ("", "")
  | String c s' =>
      if Ascii.eqb c sep then ("", s')
      else let '(a, b) := split_once sep s' in (String c a, b)
  end.

(** [f"{n:03d}"] of a number from 0. *)
Definition pad3 (n : Z) : string :=
  if n <? 10 then "00" +:+ pretty n else if n <? 100 then "0" +:+ pretty n else pretty n.

(** [s.isascii() and s.isdigit()]. *)
Fixpoint all_digits (s : string) : bool :=
  match s with
  | "" => true
  | String c s' => is_digit c && all_digits s'
  end.
Definition is_digits (s : string) : bool := str_nonempty s && all_digits s.

(** [int(s)] for a text of ASCII digits. *)
Fixpoint digits_val (acc : Z) (s : string) : Z :=
  match s with
  | "" => acc
  | String c s' => digits_val (acc * 10 + digit_val c) s'
  end.

(** ** Lemmas *)

Lemma string_app_sep c s : String c "" +:+ s = String c s.
Proof. done. Qed.

Lemma has_char_app c a b : has_char c (a +:+ b) = has_char c a || has_char c b.
Proof.
  induction a as [|d a IH]; [done|]. rewrite string_app_cons. simpl.
  by rewrite IH, orb_assoc.
Qed.

Lemma all_digits_app a b : all_digits (a +:+ b) = all_digits a && all_digits b.
Proof.
  induction a as [|d a IH]; [done|]. rewrite string_app_cons. simpl.
  by rewrite IH, andb_assoc.
Qed.

Lemma all_digits_no_char c s : is_digit c = false → all_digits s = true → has_char c s = false.
Proof.
  intros Hc. induction s as [|d s IH]; simpl; [done|]. intros H. bool_to_prop.
  rewrite IH by done. rewrite orb_false_r. destruct (Ascii.eqb_spec c d); congruence.
Qed.

(** A text without white space is one word, and stripping leaves it alone. *)
Fixpoint no_space (s : string) : bool :=
  match s with
  | "" => true
  | String c s' => negb (is_space c) && no_space s'
  end.

Lemma no_space_app a b : no_space (a +:+ b) = no_space a && no_space b.
Proof.
  induction a as [|d a IH]; [done|]. rewrite string_app_cons. simpl.
  by rewrite IH, andb_assoc.
Qed.

Lemma words_from_no_space cur s :
  no_space s = true → words_from cur s = if String.eqb (cur +:+ s) "" then [] else [cur +:+ s].
Proof.
  revert cur. induction s as [|c s IH]; intros cur H; simpl in *.
  - by rewrite string_app_nil_r.
  - bool_to_prop. rewrite H, IH by done. by rewrite string_app_assoc.
Qed.

Lemma lstrip_no_space s : no_space s = true → lstrip s = s.
Proof. destruct s as [|c s]; simpl; [done|]. intros H. bool_to_prop. by rewrite H. Qed.

Lemma rstrip_no_space s : no_space s = true → rstrip s = s.
Proof.
  induction s as [|c s IH]; simpl; [done|]. intros H. bool_to_prop.
  rewrite IH by done. destruct s; simpl; [by rewrite H|done].
Qed.

Lemma strip_no_space s : no_space s = true → strip s = s.
Proof. intros H. unfold strip. by rewrite lstrip_no_space, rstrip_no_space. Qed.

Lemma words_no_space s : no_space s = true → s ≠ "" → words s = [s].
Proof.
  intros H Hs. unfold words. rewrite words_from_no_space by done.
  change ("" +:+ s) with s. by destruct (String.eqb_spec s "").
Qed.

Lemma digit_not_space c : is_digit c = true → is_space c = false.
Proof. unfold is_digit, is_space. intros H. bool_to_prop. cbv zeta.
  destruct (Z.leb_spec 9 (byte_of c)), (Z.leb_spec (byte_of c) 13),
    (Z.leb_spec 28 (byte_of c)), (Z.leb_spec (byte_of c) 32); simpl; lia. Qed.

Lemma all_digits_no_space s : all_digits s = true → no_space s = true.
Proof.
  induction s as [|c s IH]; simpl; [done|]. intros H. bool_to_prop.
  by rewrite digit_not_space, IH.
Qed.

Definition range_forall (P : Z → bool) (n : nat) : bool := forallb P (zseq 0 n).

Lemma range_forall_spec P n : range_forall P n = true → ∀ z, 0 ≤ z < Z.of_nat n → P z = true.
Proof.
  unfold range_forall. rewrite forallb_forall. intros H z Hz. apply H, list_elem_of_In.
  unfold zseq. apply list_elem_of_fmap. exists (Z.to_nat z). rewrite elem_of_seq. lia.
Qed.

(** The longest prefix in a class, and the rest. *)
Fixpoint span (p : ascii → bool) (s : string) : string * string :=
  match s with
  | "" => ("", "")
  | String c s' => if p c then let '(a, b) := span p s' in (String c a, b) else ("", s)
  end.

(** [s.lstrip(chars)] and [s.rstrip(chars)]. *)
Fixpoint lstrip_of (p : ascii → bool) (s : string) : string :=
  match s with String c s' => if p c then lstrip_of p s' else s | "" => "" end.
Fixpoint rstrip_of (p : ascii → bool) (s : string) : string :=
  match s with
  | "" => ""
  | String c s' => match rstrip_of p s' with "" => if p c then "" else String c "" | r => String c r end
  end.

(** The rest of a text after a given beginning. *)
Fixpoint strip_prefix (p s : string) : option string :=
  match p, s with
  | "", _ => Some s
  | String a p', String b s' => if Ascii.eqb a b then strip_prefix p' s' else None
  | String _ _, "" => None
  end.

(** ** Sort keys: tuples of numbers and texts, compared position by position *)
Inductive atom := AZ (z : Z) | AS (s : string).
Definition AB (b : bool) : atom := AZ (if b then 1 else 0).

Definition atom_leb (a b : atom) : bool :=
  match a, b with
  | AZ x, AZ y => x <=? y
  | AS x, AS y => String.leb x y
  | AZ _, AS _ => true
  | AS _, AZ _ => false
  end.

Fixpoint key_leb (a b : list atom) : bool :=
  match a, b with
  | [], _ => true
  | _ :: _, [] => false
  | x :: a', y :: b' =>
      if atom_leb x y then (if atom_leb y x then key_leb a' b' else true) else false
  end.

(** The first position decides the order of the keys. *)
Lemma key_leb_head x y a b :
  (key_leb (AZ x :: a) (AZ y :: b) = true → x ≤ y) ∧
  (key_leb (AZ x :: a) (AZ y :: b) = false → y ≤ x).
Proof. simpl. destruct (Z.leb_spec x y), (Z.leb_spec y x); split; intros; lia || done. Qed.

Lemma string_leb_cons c s d t :
  String.leb (String c s) (String d t) =
  match Ascii.compare c d with Eq => String.leb s t | Lt => true | Gt => false end.
Proof. unfold String.leb. simpl. by destruct (Ascii.compare c d). Qed.

Lemma ascii_compare_N a b : Ascii.compare a b = N.compare (N_of_ascii a) (N_of_ascii b).
Proof. done. Qed.

Lemma string_leb_trans a b c : String.leb a b = true → String.leb b c = true → String.leb a c = true.
Proof.
  revert b c. induction a as [|x a IH]; intros [|y b] [|z c]; try done. rewrite !string_leb_cons, !ascii_compare_N.
  destruct (N.compare_spec (N_of_ascii x) (N_of_ascii y)), (N.compare_spec (N_of_ascii y) (N_of_ascii z)),
    (N.compare_spec (N_of_ascii x) (N_of_ascii z)); try done; try lia. apply IH.
Qed.

Lemma atom_total a b : atom_leb a b = true ∨ atom_leb b a = true.
Proof. destruct a, b; simpl; auto; [rewrite !Z.leb_le; lia|apply String.leb_total]. Qed.
Lemma atom_trans a b c : atom_leb a b = true → atom_leb b c = true → atom_leb a c = true.
Proof.
  destruct a, b, c; simpl; try done; [rewrite !Z.leb_le; lia|apply string_leb_trans].
Qed.

Lemma key_total a b : key_leb a b = true ∨ key_leb b a = true.
Proof.
  revert b. induction a as [|x a IH]; intros [|y b]; simpl; auto.
  destruct (atom_leb x y) eqn:E1, (atom_leb y x) eqn:E2; auto. destruct (atom_total x y); congruence.
Qed.
Lemma key_trans a b c : key_leb a b = true → key_leb b c = true → key_leb a c = true.
Proof.
  revert b c. induction a as [|x a IH]; intros [|y b] [|z c]; simpl; try done.
  destruct (atom_leb x y) eqn:E1; [|done]. destruct (atom_leb y z) eqn:E2; [|done]. intros H1 H2.
  rewrite (atom_trans _ _ _ E1 E2). destruct (atom_leb z x) eqn:E3; [|done].
  rewrite (atom_trans _ _ _ E2 E3) in H1. rewrite (atom_trans _ _ _ E3 E1) in H2. eauto.
Qed.

(** ** The decimal notation of integers *)
Lemma pretty_digit_spec x : (x < 10)%N → is_digit (pretty_N_char x) = true ∧ digit_val (pretty_N_char x) = Z.of_N x.
Proof.
  intros H. assert (x = 0 ∨ x = 1 ∨ x = 2 ∨ x = 3 ∨ x = 4 ∨ x = 5 ∨ x = 6 ∨ x = 7 ∨ x = 8 ∨ x = 9)%N as Hx by lia.
  repeat destruct Hx as [->|Hx]; [done..|]. by subst.
Qed.

Lemma parse_digits_pretty x b s :
  parse_digits 0 b (pretty_N_go x s) = parse_digits (Z.of_N x) (b || bool_decide (0 < x)%N) s.
Proof.
  revert s. induction (N.lt_wf_0 x) as [x _ IH]; intros s.
  destruct (decide (x = 0)%N) as [->|Hx]; [by rewrite pretty_N_go_0, orb_false_r|].
  rewrite pretty_N_go_step by lia. rewrite IH by (apply N.div_lt; lia). simpl.
  destruct (pretty_digit_spec (x mod 10)) as [-> ->]; [apply N.mod_lt; lia|].
  rewrite bool_decide_eq_true_2, orb_true_r by lia. f_equal.
  rewrite (N.div_mod x 10) at 3 by lia. lia.
Qed.

Lemma no_space_pretty_go x s : no_space s = true → no_space (pretty_N_go x s) = true.
Proof.
  revert s. induction (N.lt_wf_0 x) as [x _ IH]; intros s Hs.
  destruct (decide (x = 0)%N) as [->|Hx]; [by rewrite pretty_N_go_0|].
  rewrite pretty_N_go_step by lia. apply IH; [apply N.div_lt; lia|]. simpl. rewrite Hs, andb_true_r.
  apply negb_true_iff, digit_not_space. apply pretty_digit_spec, N.mod_lt. lia.
Qed.
Lemma no_space_pretty_N (x : N) : no_space (pretty x) = true.
Proof. unfold pretty, pretty_N. destruct (decide _); [done|]. by apply no_space_pretty_go. Qed.
Lemma no_space_pretty_Z (z : Z) : no_space (pretty z) = true.
Proof.
  unfold pretty at 1, pretty_Z. destruct z as [|p|p]; [done|apply no_space_pretty_N|].
  rewrite no_space_app. apply andb_true_iff. split; [done|apply no_space_pretty_N].
Qed.

Lemma parse_digits_pretty_N (x : N) : parse_digits 0 false (pretty x) = Some (Z.of_N x).
Proof.
  unfold pretty, pretty_N. destruct (decide (x = 0)%N) as [->|]; [done|].
  rewrite parse_digits_pretty. simpl. by rewrite bool_decide_eq_true_2 by lia.
Qed.

(** [int(str(z))]. *)
Lemma parse_int_pretty (z : Z) : parse_int (pretty z) = Some z.
Proof.
  unfold parse_int. rewrite strip_no_space by apply no_space_pretty_Z.
  unfold pretty, pretty_Z. destruct z as [|p|p]; [done| |].
  - change (pretty p) with (pretty (N.pos p)).
    pose proof (parse_digits_pretty_N (N.pos p)) as H. revert H.
    destruct (pretty (N.pos p)) as [|c s] eqn:E; [done|]. intros H. 
    assert (is_digit c = true) as Hc.
    { simpl in H. destruct (is_digit c); [done|]. by rewrite andb_false_r in H. }
    destruct (decide (c = "-"%char)) as [->|]; [done|]. destruct (decide (c = "+"%char)) as [->|]; [done|].
    transitivity (parse_digits 0 false (String c s)); [|exact H]. clear - n n0.
    destruct c as [[] [] [] [] [] [] [] []]; first [reflexivity|congruence].
  - change ("-" +:+ pretty (N.pos p)) with (String "-" (pretty (N.pos p))). 
    change (Z.opp <$> parse_digits 0 false (pretty (N.pos p)) = Some (Zneg p)). by rewrite parse_digits_pretty_N.
Qed.
