(* ===== verification/PyRe.v ===== *)
(** * Regular expressions

    The part of Python's [re] that the text rules of the program use, as a
    backtracking matcher: alternatives and repetitions are tried in the order of
    the module, so the match that is found and its groups are the ones of Python.
    A character is one UTF-8 sequence; [\d] and [\s] are their ASCII restriction,
    and for [\b] a character outside ASCII counts as a letter. *)

From S2P Require Import Prelude PyVal PyText.

(** ** Characters *)

(** The number of bytes of the character that starts with this byte. *)
Definition char_width (c : ascii) : nat :=
  let n := byte_of c in
  if n <? 192 then 1%nat else if n <? 224 then 2%nat else if n <? 240 then 3%nat else 4%nat.

(** The first [n] bytes and the rest. *)
Fixpoint cut_at (n : nat) (s : string) : string * string :=
  match n, s with
  | S n', String c s' => let '(a, b) := cut_at n' s' in (String c a, b)
  | _, _ => ("", s)
  end.
Definition next_char (s : string) : option (string * string) :=
  match s with
  | "" => None
  | String c _ => Some (cut_at (char_width c) s)
  end.

Definition ascii_class (p : ascii → bool) (c : string) : bool :=
  match c with String a "" => p a | _ => false end.
Definition d_class : string → bool := ascii_class is_digit.
Definition s_class : string → bool := ascii_class is_space.
Definition not_class (p : string → bool) (c : string) : bool := negb (p c).
Definition any_of (l : list string) (c : string) : bool := str_mem c l.
Definition is_letter (c : ascii) : bool :=
  let n := byte_of c in ((65 <=? n) && (n <=? 90)) || ((97 <=? n) && (n <=? 122)).
Definition w_class (c : string) : bool :=
  match c with
  | "" => false
  | String a "" => is_letter a || is_digit a || Ascii.eqb a "_"%char
  | _ => true
  end.
(** [.]. *)
Definition dot_class (c : string) : bool := negb (String.eqb c (String LF "")).

(** ** Patterns

    [RNot] is a negative lookahead, [RNotAfter] a lookbehind of one character. *)
Inductive re :=
  | RText (s : string)
  | RSet (p : string → bool)
  | RSeq (a b : re)
  | RAlt (a b : re)
  | RRep (greedy : bool) (least : nat) (most : option nat) (r : re)
  | RGroup (name : string) (r : re)
  | RStart
  | REnd
  | RBoundary
  | RNot (r : re)
  | RNotAfter (p : string → bool).

(** One after the other. *)
Fixpoint seqs (l : list re) : re :=
  match l with [] => RText "" | [r] => r | r :: l' => RSeq r (seqs l') end.
Definition star (p : string → bool) : re := RRep true 0 None (RSet p).
Definition plus (p : string → bool) : re := RRep true 1 None (RSet p).
Definition maybe (r : re) : re := RRep true 0 (Some 1%nat) r.
Definition between (least most : nat) (p : string → bool) : re := RRep true least (Some most) (RSet p).
Definition texts (l : list string) : re := foldr (λ s r, RAlt (RText s) r) (RSet (λ _, false)) l.

(** ** Matching *)

(** A place in the text: the character before it, the rest, the groups so far. *)
Record place := Place { pl_prev : string; pl_rest : string; pl_groups : list (string * string) }.

Definition step_char (p : place) : option (string * place) :=
  '(c, s) ← next_char (pl_rest p); Some (c, Place c s (pl_groups p)).

(** The text between two places. *)
Definition text_between (p q : place) : string :=
  (cut_at (String.length (pl_rest p) - String.length (pl_rest q)) (pl_rest p)).1.

Definition same_text (ignore_case : bool) (a b : string) : bool :=
  if ignore_case then String.eqb (casefold a) (casefold b) else String.eqb a b.

(** Reads the characters of [s]. *)
Fixpoint eat (ignore_case : bool) (fuel : nat) (s : string) (p : place) : option place :=
  match fuel with
  | O => None
  | S fuel' =>
      match next_char s with
      | None => Some p
      | Some (c, s') =>
          '(d, p') ← step_char p;
          if same_text ignore_case c d then eat ignore_case fuel' s' p' else None
      end
  end.

Definition at_boundary (p : place) : bool :=
  let next := match next_char (pl_rest p) with Some (c, _) => w_class c | None => false end in
  negb (Bool.eqb (w_class (pl_prev p)) next).
Definition at_end (p : place) : bool := String.eqb (pl_rest p) "" || String.eqb (pl_rest p) (String LF "").

Definition first_of {A} (a : option A) (b : unit → option A) : option A :=
  match a with Some x => Some x | None => b tt end.

(** Repetition: [fuel] bounds the number of rounds; beyond the least number each
    round reads at least one character. *)
Fixpoint repeat_with (greedy : bool) (body : place → (place → option place) → option place) (fuel least : nat)
    (most : option nat) (p : place) (k : place → option place) : option place :=
  match fuel with
  | O => None
  | S fuel' =>
      let again (shorter : bool) :=
        body p (λ q, if shorter && (String.length (pl_rest p) <=? String.length (pl_rest q))%nat then None
                     else repeat_with greedy body fuel' (least - 1) (pred <$> most) q k) in
      match least, most with
      | S _, _ => again false
      | O, Some O => k p
      | O, _ => if greedy then first_of (again true) (λ _, k p) else first_of (k p) (λ _, again true)
      end
  end.

Fixpoint run (ignore_case : bool) (r : re) (p : place) (k : place → option place) : option place :=
  match r with
  | RText s => q ← eat ignore_case (S (String.length s)) s p; k q
  | RSet cls => '(c, q) ← step_char p; if cls c then k q else None
  | RSeq a b => run ignore_case a p (λ q, run ignore_case b q k)
  | RAlt a b => first_of (run ignore_case a p k) (λ _, run ignore_case b p k)
  | RRep greedy least most a =>
      repeat_with greedy (run ignore_case a) (S (least + String.length (pl_rest p))) least most p k
  | RGroup name a =>
      run ignore_case a p (λ q, k (Place (pl_prev q) (pl_rest q) (ainsert name (text_between p q) (pl_groups q))))
  | RStart => if String.eqb (pl_prev p) "" then k p else None
  | REnd => if at_end p then k p else None
  | RBoundary => if at_boundary p then k p else None
  | RNotAfter cls => if cls (pl_prev p) then None else k p
  | RNot a => match run ignore_case a p Some with Some _ => None | None => k p end
  end.

(** A match: where it starts and where it ends. *)
Record re_result := Match { m_start : place; m_stop : place }.
Definition group0 (m : re_result) : string := text_between (m_start m) (m_stop m).
(** [m.group(name)], empty for a group that took no part. *)
Definition group (name : string) (m : re_result) : string := default "" (alookup name (pl_groups (m_stop m))).

Definition match_at (ignore_case : bool) (r : re) (p : place) : option re_result :=
  Match p <$> run ignore_case r (Place (pl_prev p) (pl_rest p) []) Some.
Definition begin_of (s : string) : place := Place "" s [].

(** [re.match] and [re.search]. *)
Definition re_match (ignore_case : bool) (r : re) (s : string) : option re_result := match_at ignore_case r (begin_of s).
Fixpoint search_from (ignore_case : bool) (r : re) (fuel : nat) (p : place) : option re_result :=
  match fuel with
  | O => None
  | S fuel' =>
      first_of (match_at ignore_case r p)
        (λ _, match step_char p with Some (_, q) => search_from ignore_case r fuel' q | None => None end)
  end.
Definition re_search (ignore_case : bool) (r : re) (s : string) : option re_result :=
  search_from ignore_case r (S (String.length s)) (begin_of s).

(** The matches from the left with the text before each, and the text after the
    last; a pattern that can match nothing is not used with these. *)
Fixpoint pieces (ignore_case : bool) (r : re) (fuel : nat) (p : place) : list (string * re_result) * string :=
  match fuel with
  | O => ([], pl_rest p)
  | S fuel' =>
      match search_from ignore_case r (S (String.length (pl_rest p))) p with
      | Some m =>
          let '(l, tail) := pieces ignore_case r fuel' (m_stop m) in ((text_between p (m_start m), m) :: l, tail)
      | None => ([], pl_rest p)
      end
  end.
Definition pieces_of (ignore_case : bool) (r : re) (s : string) : list (string * re_result) * string :=
  pieces ignore_case r (S (String.length s)) (begin_of s).

(** [re.sub] with a function of the match, and [re.split]. *)
Definition re_sub_with (ignore_case : bool) (r : re) (f : re_result → string) (s : string) : string :=
  let '(l, tail) := pieces_of ignore_case r s in
  foldr (λ bm acc, bm.1 +:+ f bm.2 +:+ acc) tail l.
Definition re_sub (r : re) (new : string) (s : string) : string := re_sub_with false r (λ _, new) s.
Definition re_split (r : re) (s : string) : list string :=
  let '(l, tail) := pieces_of false r s in l.*1 ++ [tail].

(** [str.zfill] on digits. *)
Definition zfill (width : nat) (s : string) : string :=
  foldr (λ _ acc, "0" +:+ acc) s (replicate (width - String.length s) tt).
Definition ends_with (suffix s : string) : bool :=
  String.eqb (cut_at (String.length s - String.length suffix) s).2 suffix.

(** ** Examples *)
Example sub_space : re_sub (plus s_class) " " "a  b 	c" = "a b c".
Proof. vm_compute. reflexivity. Qed.
Example split_commas : re_split (plus (any_of ["、"; ","])) "渡线、,存车线" = ["渡线"; "存车线"].
Proof. vm_compute. reflexivity. Qed.
Example backtracks :
  group "n" <$> re_search true (seqs [RText "lc"; RRep true 0 None (RText "0"); RGroup "n" (between 1 3 d_class)]) "x-LC00"
  = Some "0".
Proof. vm_compute. reflexivity. Qed.
