(* ===== verification/Ipv4.v ===== *)
(** * IPv4 networks of the Python standard library

    What [services/network_tools/toolbox/ip_calc.py] uses of the module
    [ipaddress] of Python 3.13: addresses are integers below 2^32, a network is
    its address and prefix length. *)

From S2P Require Import Prelude PyVal PyText.

Definition ALL_ONES : Z := 2 ^ 32 - 1.

(** [IPv4Network]: network address and prefix length. *)
Record net := Net { n_addr : Z; n_prefix : Z }.

#[global] Instance net_eq_dec : EqDecision net.
Proof. solve_decision. Defined.

Definition hostmask_of (p : Z) : Z := Z.shiftr ALL_ONES p.
Definition netmask_of (p : Z) : Z := Z.lxor ALL_ONES (hostmask_of p).

Definition netmask (n : net) : Z := netmask_of (n_prefix n).
Definition hostmask (n : net) : Z := hostmask_of (n_prefix n).
Definition broadcast (n : net) : Z := Z.lor (n_addr n) (hostmask n).
Definition num_addresses (n : net) : Z := broadcast n - n_addr n + 1.

(** [IPv4Network((addr, p), strict=False)] for a valid [addr] and [p]. *)
Definition mk_net (addr p : Z) : net := Net (Z.land addr (netmask_of p)) p.

(** [IPv4Network((addr, p))]: strict, so host bits, an address that does not
    fit and a prefix out of range raise [ValueError]. *)
Definition strict_net (addr p : Z) : option net :=
  if (0 <=? addr) && (addr <=? ALL_ONES) && (0 <=? p) && (p <=? 32)
     && (Z.land addr (netmask_of p) =? addr)
  then Some (Net addr p) else None.

(** ** Reading *)

(** [_parse_octet]: at most three ASCII digits, no leading zero, at most 255. *)
Definition parse_octet (s : string) : option Z :=
  if negb (is_digits s) then None
  else if 3 <? byte_len s then None
  else if negb (String.eqb s "0") && starts_with "0" s then None
  else if 255 <? digits_val 0 s then None else Some (digits_val 0 s).

(** [_ip_int_from_string]. *)
Definition parse_addr (s : string) : option Z :=
  match split_on "." s with
  | [a; b; c; d] =>
      a ← parse_octet a; b ← parse_octet b; c ← parse_octet c; d ← parse_octet d;
      Some (((a * 256 + b) * 256 + c) * 256 + d)
  | _ => None
  end.

(** [_prefix_from_ip_int]: the prefix length whose mask this is. *)
Definition prefix_of_mask (m : Z) : option Z :=
  list_find (λ p, netmask_of p = m) (zseq 0 33) ≫= λ r, Some r.2.

(** [_make_netmask]: a prefix length, a net mask or a host mask. *)
Definition parse_prefix (s : string) : option Z :=
  if is_digits s then
    let p := digits_val 0 s in if p <=? 32 then Some p else None
  else
    m ← parse_addr s;
    match prefix_of_mask m with
    | Some p => Some p
    | None => prefix_of_mask (Z.lxor m ALL_ONES)
    end.

(** [IPv4Network(s, strict=False)]. *)
Definition parse_net (s : string) : option net :=
  match split_on "/" s with
  | [a] => a ← parse_addr a; Some (mk_net a 32)
  | [a; m] => a ← parse_addr a; p ← parse_prefix m; Some (mk_net a p)
  | _ => None
  end.

(** ** Printing *)
Definition octet (addr : Z) (i : Z) : Z := (addr / 2 ^ (8 * i)) mod 256.

Definition addr_str (addr : Z) : string :=
  join "." [pretty (octet addr 3); pretty (octet addr 2); pretty (octet addr 1);
            pretty (octet addr 0)].

Definition net_str (n : net) : string :=
  addr_str (n_addr n) +:+ "/" +:+ pretty (n_prefix n).

(** ** Address classes *)
Definition in_net (a : Z) (n : net) : bool := (n_addr n <=? a) && (a <=? broadcast n).

Definition dotted (a b c d : Z) : Z := ((a * 256 + b) * 256 + c) * 256 + d.

Definition is_loopback (a : Z) : bool := in_net a (Net (dotted 127 0 0 0) 8).
Definition is_link_local (a : Z) : bool := in_net a (Net (dotted 169 254 0 0) 16).
Definition is_multicast (a : Z) : bool := in_net a (Net (dotted 224 0 0 0) 4).
Definition is_reserved (a : Z) : bool := in_net a (Net (dotted 240 0 0 0) 4).

Definition private_networks : list net :=
  [Net (dotted 0 0 0 0) 8; Net (dotted 10 0 0 0) 8; Net (dotted 127 0 0 0) 8;
   Net (dotted 169 254 0 0) 16; Net (dotted 172 16 0 0) 12;
   Net (dotted 192 0 0 0) 24; Net (dotted 192 0 0 170) 31;
   Net (dotted 192 0 2 0) 24; Net (dotted 192 168 0 0) 16;
   Net (dotted 198 18 0 0) 15; Net (dotted 198 51 100 0) 24;
   Net (dotted 203 0 113 0) 24; Net (dotted 240 0 0 0) 4;
   Net (dotted 255 255 255 255) 32].
Definition private_exceptions : list net :=
  [Net (dotted 192 0 0 9) 32; Net (dotted 192 0 0 10) 32].

Definition is_private (a : Z) : bool :=
  existsb (in_net a) private_networks && negb (existsb (in_net a) private_exceptions).
Definition is_global (a : Z) : bool :=
  negb (in_net a (Net (dotted 100 64 0 0) 10)) && negb (is_private a).

(** ** Well-formed networks *)
Definition net_size (p : Z) : Z := 2 ^ (32 - p).

Definition net_wf (n : net) : Prop :=
  0 ≤ n_prefix n ≤ 32 ∧ 0 ≤ n_addr n ≤ ALL_ONES ∧
  n_addr n mod net_size (n_prefix n) = 0.

(** A fact on all prefix lengths is checked by evaluation. *)
Lemma prefix_cases (P : Z → bool) :
  range_forall P 33 = true → ∀ p, 0 ≤ p ≤ 32 → P p = true.
Proof. intros H p Hp. apply (range_forall_spec P 33 H). lia. Qed.

Lemma hostmask_size p : 0 ≤ p ≤ 32 → hostmask_of p = net_size p - 1.
Proof.
  intros Hp. apply Z.eqb_eq.
  by apply (prefix_cases (λ p, hostmask_of p =? net_size p - 1)).
Qed.

Lemma netmask_shift p : 0 ≤ p ≤ 32 → netmask_of p = Z.shiftl (Z.ones p) (32 - p).
Proof.
  intros Hp. apply Z.eqb_eq.
  by apply (prefix_cases (λ p, netmask_of p =? Z.shiftl (Z.ones p) (32 - p))).
Qed.

Lemma net_size_pos p : p ≤ 32 → 0 < net_size p.
Proof. intros. unfold net_size. apply Z.pow_pos_nonneg; lia. Qed.

Lemma ones_testbit n i : 0 ≤ n → 0 ≤ i → Z.testbit (Z.ones n) i = (i <? n).
Proof.
  intros Hn Hi. destruct (Z.ltb_spec i n).
  - apply Z.ones_spec_low. lia.
  - apply Z.ones_spec_high. lia.
Qed.

Lemma below_32 a i : 0 ≤ a ≤ ALL_ONES → 32 ≤ i → Z.testbit a i = false.
Proof.
  intros Ha Hi. destruct (Z.eq_dec a 0) as [->|]; [apply Z.bits_0|].
  apply Z.bits_above_log2; [lia|].
  assert (2 ^ 32 ≤ 2 ^ i) by (apply Z.pow_le_mono_r; lia). unfold ALL_ONES in Ha.
  apply Z.log2_lt_pow2; lia.
Qed.

(** Masking clears the host bits. *)
Lemma land_netmask a p :
  0 ≤ a ≤ ALL_ONES → 0 ≤ p ≤ 32 → Z.land a (netmask_of p) = a - a mod net_size p.
Proof.
  intros Ha Hp. rewrite netmask_shift by done. unfold net_size.
  replace (a - a mod 2 ^ (32 - p)) with (Z.shiftl (Z.shiftr a (32 - p)) (32 - p)).
  2:{ rewrite Z.shiftl_mul_pow2, Z.shiftr_div_pow2 by lia.
      pose proof (Z_div_mod_eq_full a (2 ^ (32 - p))). lia. }
  apply Z.bits_inj'. intros i Hi.
  rewrite Z.land_spec, !Z.shiftl_spec by lia.
  destruct (Z.ltb_spec i (32 - p)).
  - rewrite !(Z.testbit_neg_r _ (i - (32 - p))) by lia. by rewrite andb_false_r.
  - rewrite Z.shiftr_spec, ones_testbit by lia.
    replace (i - (32 - p) + (32 - p)) with i by lia.
    destruct (Z.ltb_spec (i - (32 - p)) p); [by rewrite andb_true_r|].
    rewrite (below_32 a i) by lia. done.
Qed.

(** The host mask fills the host bits. *)
Lemma lor_hostmask a p :
  0 ≤ p ≤ 32 → a mod net_size p = 0 → Z.lor a (hostmask_of p) = a + net_size p - 1.
Proof.
  intros Hp Ha. rewrite hostmask_size by done. unfold net_size in *.
  set (k := 32 - p) in *. assert (0 ≤ k) by lia.
  replace (2 ^ k - 1) with (Z.ones k) by (rewrite Z.ones_equiv; lia).
  assert (Hl : Z.land a (Z.ones k) = 0) by (by rewrite Z.land_ones).
  pose proof (Z.add_lor_land a (Z.ones k)) as HH. rewrite Hl in HH.
  rewrite Z.ones_equiv in *. lia.
Qed.

Lemma broadcast_wf n : net_wf n → broadcast n = n_addr n + net_size (n_prefix n) - 1.
Proof. intros (Hp & Ha & Hm). unfold broadcast, hostmask. by apply lor_hostmask. Qed.

Lemma num_addresses_wf n : net_wf n → num_addresses n = net_size (n_prefix n).
Proof. intros H. unfold num_addresses. rewrite broadcast_wf by done. lia. Qed.

Lemma size_divides_all p : 0 ≤ p ≤ 32 → 2 ^ 32 = 2 ^ p * net_size p.
Proof. intros. unfold net_size. rewrite <- Z.pow_add_r by lia. f_equal. lia. Qed.

(** A well-formed network ends within the address space. *)
Lemma broadcast_bound n : net_wf n → n_addr n ≤ broadcast n ≤ ALL_ONES.
Proof.
  intros H. rewrite broadcast_wf by done. destruct H as (Hp & Ha & Hm).
  pose proof (net_size_pos (n_prefix n) (proj2 Hp)) as Hpos.
  pose proof (size_divides_all (n_prefix n) Hp) as Hs.
  split; [lia|]. apply Z.mod_divide in Hm as [k Hk]; [|lia].
  unfold ALL_ONES in *. rewrite Hs in *.
  assert (k < 2 ^ n_prefix n) by nia. nia.
Qed.

Lemma mk_net_wf a p : 0 ≤ a ≤ ALL_ONES → 0 ≤ p ≤ 32 → net_wf (mk_net a p).
Proof.
  intros Ha Hp. unfold net_wf, mk_net; simpl. rewrite land_netmask by done.
  pose proof (net_size_pos p (proj2 Hp)) as Hpos.
  pose proof (Z.mod_pos_bound a (net_size p) Hpos).
  pose proof (Z.mod_le a (net_size p) (proj1 Ha) Hpos).
  split_and!; try lia. rewrite Zminus_mod, Zmod_mod, Z.sub_diag. apply Z.mod_0_l. lia.
Qed.

Lemma mk_net_id n : net_wf n → mk_net (n_addr n) (n_prefix n) = n.
Proof.
  intros (Hp & Ha & Hm). destruct n as [a p]; simpl in *. unfold mk_net. f_equal.
  rewrite land_netmask by done. lia.
Qed.

Lemma strict_net_Some a p :
  0 ≤ p ≤ 32 → 0 ≤ a ≤ ALL_ONES → a mod net_size p = 0 → strict_net a p = Some (Net a p).
Proof.
  intros Hp Ha Hm. unfold strict_net. rewrite land_netmask by done.
  rewrite Hm, Z.sub_0_r, Z.eqb_refl.
  by rewrite !(proj2 (Z.leb_le _ _)) by lia.
Qed.

Lemma in_net_spec a n :
  net_wf n → in_net a n = true ↔ n_addr n ≤ a < n_addr n + net_size (n_prefix n).
Proof.
  intros H. unfold in_net. rewrite broadcast_wf, andb_true_iff, !Z.leb_le by done. lia.
Qed.

(** ** Reading back what is printed *)
Lemma octet_range a i : 0 ≤ octet a i < 256.
Proof. apply Z.mod_pos_bound. lia. Qed.

Definition octet_ok (z : Z) : bool :=
  let s := pretty z in
  bool_decide (parse_octet s = Some z) && all_digits s && is_digits s
  && (digits_val 0 s =? z).

Lemma octet_facts z : 0 ≤ z < 256 → octet_ok z = true.
Proof. apply (range_forall_spec octet_ok 256). vm_compute. reflexivity. Qed.

Lemma octet_parse z : 0 ≤ z < 256 →
  parse_octet (pretty z) = Some z ∧ all_digits (pretty z) = true ∧
  is_digits (pretty z) = true ∧ digits_val 0 (pretty z) = z.
Proof.
  intros H. pose proof (octet_facts z H) as E. unfold octet_ok in E. cbv zeta in E.
  bool_to_prop. by apply bool_decide_eq_true in H0.
Qed.

Lemma octets_sum a :
  0 ≤ a ≤ ALL_ONES →
  ((octet a 3 * 256 + octet a 2) * 256 + octet a 1) * 256 + octet a 0 = a.
Proof.
  intros H. unfold octet, ALL_ONES in *. change (8 * 3) with 24. change (8 * 2) with 16.
  change (8 * 1) with 8. change (8 * 0) with 0.
  change (2 ^ 24) with (256 * (256 * 256)). change (2 ^ 16) with (256 * 256).
  change (2 ^ 8) with 256. change (2 ^ 0) with 1. change (2 ^ 32) with 4294967296 in H.
  rewrite <- !Z.div_div, Z.div_1_r by lia.
  set (b := a / 256). set (c := b / 256). set (d := c / 256).
  assert (a = 256 * b + a mod 256) by (apply Z_div_mod_eq_full).
  assert (b = 256 * c + b mod 256) by (apply Z_div_mod_eq_full).
  assert (c = 256 * d + c mod 256) by (apply Z_div_mod_eq_full).
  pose proof (Z.mod_pos_bound a 256). pose proof (Z.mod_pos_bound b 256).
  pose proof (Z.mod_pos_bound c 256).
  rewrite (Z.mod_small d 256) by lia. lia.
Qed.

Lemma parse_addr_str a : 0 ≤ a ≤ ALL_ONES → parse_addr (addr_str a) = Some a.
Proof.
  intros Ha. unfold parse_addr, addr_str. cbn [join].
  pose proof (λ i, octet_parse (octet a i) (octet_range a i)) as Ho.
  assert (Hd : ∀ i, has_char "." (pretty (octet a i)) = false).
  { intros i. apply all_digits_no_char; [done|]. apply Ho. }
  rewrite !(string_app_sep "."), !split_on_app, split_on_clean by apply Hd.
  rewrite (proj1 (Ho 3)), (proj1 (Ho 2)), (proj1 (Ho 1)), (proj1 (Ho 0)). simpl.
  f_equal. by apply octets_sum.
Qed.

Lemma addr_str_no_char c a :
  is_digit c = false → c ≠ "."%char → has_char c (addr_str a) = false.
Proof.
  intros Hc Hd. unfold addr_str. cbn [join].
  pose proof (λ i, octet_parse (octet a i) (octet_range a i)) as Ho.
  assert (Hdot : has_char c "." = false).
  { simpl. rewrite orb_false_r. by apply Ascii.eqb_neq. }
  by rewrite !has_char_app, Hdot,
    !(all_digits_no_char c (pretty (octet a _)) Hc (proj1 (proj2 (Ho _)))).
Qed.

Lemma addr_str_no_space a : no_space (addr_str a) = true.
Proof.
  unfold addr_str. cbn [join].
  pose proof (λ i, octet_parse (octet a i) (octet_range a i)) as Ho.
  by rewrite !no_space_app, !(all_digits_no_space _ (proj1 (proj2 (Ho _)))).
Qed.

Lemma net_str_no_space n : 0 ≤ n_prefix n ≤ 32 → no_space (net_str n) = true.
Proof.
  intros Hp. unfold net_str. rewrite !no_space_app, addr_str_no_space.
  rewrite (all_digits_no_space (pretty _)); [done|]. apply octet_parse. lia.
Qed.

Lemma net_str_nonempty n : net_str n ≠ "".
Proof.
  unfold net_str. intros E%(f_equal (has_char "/")). rewrite !has_char_app in E.
  change (has_char "/" "/") with true in E. by rewrite orb_true_r in E.
Qed.

Lemma parse_net_str n : net_wf n → parse_net (net_str n) = Some n.
Proof.
  intros H. pose proof H as (Hp & Ha & _). unfold parse_net, net_str.
  rewrite (string_app_sep "/").
  destruct (octet_parse (n_prefix n)) as (_ & Hd & Hi & Hv); [lia|].
  rewrite split_on_app by (by apply addr_str_no_char).
  rewrite split_on_clean by (by apply all_digits_no_char).
  rewrite parse_addr_str by done. simpl. unfold parse_prefix. rewrite Hi, Hv.
  rewrite (proj2 (Z.leb_le _ _)) by lia. simpl. by rewrite mk_net_id.
Qed.

(** Networks that are read are well formed. *)
Lemma digits_val_nonneg acc s : 0 ≤ acc → all_digits s = true → 0 ≤ digits_val acc s.
Proof.
  revert acc. induction s as [|c s IH]; intros acc Ha H; simpl in *; [done|].
  bool_to_prop. apply IH; [|done]. unfold is_digit, digit_val in *. bool_to_prop. lia.
Qed.

Lemma parse_octet_range s z : parse_octet s = Some z → 0 ≤ z ≤ 255.
Proof.
  unfold parse_octet. destruct (is_digits s) eqn:E; simpl; [|done]. unfold is_digits in E.
  bool_to_prop. destruct (3 <? _); [done|]. destruct (negb _ && _); [done|].
  destruct (255 <? _) eqn:E2; [done|]. intros [= <-]. bool_to_prop.
  split; [apply digits_val_nonneg|]; done.
Qed.

Lemma parse_addr_range s a : parse_addr s = Some a → 0 ≤ a ≤ ALL_ONES.
Proof.
  unfold parse_addr. destruct (split_on "." s) as [|w [|x [|y [|z [|]]]]]; try done.
  intros H. repeat (apply bind_Some in H as (? & ?%parse_octet_range & H)).
  injection H as <-. unfold ALL_ONES. lia.
Qed.

Lemma prefix_of_mask_range m p : prefix_of_mask m = Some p → 0 ≤ p ≤ 32.
Proof.
  unfold prefix_of_mask. intros ([i q] & H & [= <-])%bind_Some.
  apply list_find_Some in H as (H & _). apply list_elem_of_lookup_2 in H.
  unfold zseq in H. apply list_elem_of_fmap in H as (j & Hj & Hin).
  rewrite elem_of_seq in Hin. simpl. lia.
Qed.

Lemma parse_prefix_range s p : parse_prefix s = Some p → 0 ≤ p ≤ 32.
Proof.
  unfold parse_prefix. destruct (is_digits s) eqn:E.
  - destruct (_ <=? 32) eqn:E2; [|done]. intros [= <-]. unfold is_digits in E. bool_to_prop.
    split; [by apply digits_val_nonneg|done].
  - intros (m & _ & H)%bind_Some. destruct (prefix_of_mask m) eqn:Em.
    + injection H as <-. by eapply prefix_of_mask_range.
    + by eapply prefix_of_mask_range.
Qed.

Lemma parse_net_wf s n : parse_net s = Some n → net_wf n.
Proof.
  unfold parse_net. destruct (split_on "/" s) as [|a [|m [|]]]; try done.
  - intros (x & Hx%parse_addr_range & [= <-])%bind_Some. apply mk_net_wf; [done|lia].
  - intros (x & Hx%parse_addr_range & H)%bind_Some.
    apply bind_Some in H as (p & Hp%parse_prefix_range & [= <-]). by apply mk_net_wf.
Qed.

#[export] Hint Resolve parse_net_wf mk_net_wf : pylib.

(** ** Order and nesting of networks *)
Lemma net_size_divide p q : 0 ≤ p ≤ q → q ≤ 32 → (net_size q | net_size p).
Proof.
  intros Hp Hq. exists (2 ^ (q - p)). unfold net_size. rewrite <- Z.pow_add_r by lia.
  f_equal. lia.
Qed.

Lemma net_size_inj p q : p ≤ 32 → q ≤ 32 → net_size p ≤ net_size q → q ≤ p.
Proof. unfold net_size. intros Hp Hq H. apply Z.pow_le_mono_r_iff in H; lia. Qed.

(** Two overlapping networks: the smaller lies inside the larger. *)
Lemma net_nested n m a :
  net_wf n → net_wf m → n_prefix n ≤ n_prefix m →
  in_net a n = true → in_net a m = true →
  n_addr n ≤ n_addr m ∧ broadcast m ≤ broadcast n.
Proof.
  intros Hn Hm Hp. rewrite !in_net_spec, !broadcast_wf by done.
  destruct Hn as (Hpn & Han & Hmn), Hm as (Hpm & Ham & Hmm).
  pose proof (net_size_pos (n_prefix m) (proj2 Hpm)) as Hpos.
  destruct (net_size_divide (n_prefix n) (n_prefix m)) as [q Hq]; [lia|lia|].
  pose proof (net_size_pos (n_prefix n) (proj2 Hpn)) as Hpos'.
  apply Z.mod_divide in Hmn as [k Hk]; [|lia]. apply Z.mod_divide in Hmm as [j Hj]; [|lia].
  rewrite Hq in *. rewrite Hk, Hj. set (s := net_size (n_prefix m)) in *. intros H1 H2.
  assert (k * q ≤ j) by nia. assert (j < k * q + q) by nia. nia.
Qed.

Lemma netmask_wf n : net_wf n → netmask n = 2 ^ 32 - net_size (n_prefix n).
Proof.
  intros (Hp & _). apply Z.eqb_eq.
  by apply (prefix_cases (λ p, netmask_of p =? 2 ^ 32 - net_size p)).
Qed.
