(* ===== verification/IpCalc.v ===== *)
(** * The IPv4 calculator of the network tool box

    [services/network_tools/toolbox/ip_calc.py]: network details, VLSM
    planning, subnet splitting with pages, route summarization and wildcard
    tables.  The IPv6 half of the file is not modelled; whether a text is an
    IPv6 network decides one error message only and is a parameter. *)

From S2P Require Import Prelude PyVal PyText Ipv4.

(** [TableResult]: rows, summary ([None] is the empty dictionary), errors. *)
Record table (R S : Type) := TableResult {
  rows : list R;
  summary : option S;
  errors : list string;
}.
Arguments TableResult {R S} _ _ _.
Arguments rows {R S} _.
Arguments summary {R S} _.
Arguments errors {R S} _.

(** A call that raises [ValueError(message)] is [inl message]. *)
Notation verr A := (string + A)%type.

(** [_ipv4_usable_bounds]. *)
Definition ipv4_usable_bounds (n : net) : Z * option Z * option Z :=
  if 31 <=? n_prefix n then (num_addresses n, Some (n_addr n), Some (broadcast n))
  else if num_addresses n <=? 2 then (0, None, None)
  else (num_addresses n - 2, Some (n_addr n + 1), Some (broadcast n - 1)).

(** [str(x) if x is not None else "-"]. *)
Definition bound_str (o : option Z) : string :=
  match o with Some a => addr_str a | None => "-" end.

(** [_ipv4_type]. *)
Definition ipv4_type (a : Z) : string :=
  if is_loopback a then "环回"
  else if is_link_local a then "链路本地"
  else if is_multicast a then "组播"
  else if is_reserved a then "保留地址"
  else if is_private a then "私有地址"
  else if is_global a then "公网地址"
  else "未指定".

(** [_ipv4_class]: the first octet is read back from the printed address. *)
Definition ipv4_class (a : Z) : string :=
  let first := digits_val 0 (hd "" (split_on "." (addr_str a))) in
  if first <=? 127 then "A"
  else if first <=? 191 then "B"
  else if first <=? 223 then "C"
  else if first <=? 239 then "D"
  else "E".

Section parsers.
(** [ipaddress.IPv6Network(text, strict=False)] accepts the text. *)
Context (is_v6 : string → bool).

(** [_parse_ipv4_network]. *)
Definition parse_ipv4_network (text : string) : verr net :=
  let cleaned := join " " (words (strip text)) in
  if String.eqb cleaned "" then inl "请输入 IPv4 网络。"
  else
    let cleaned :=
      if has_char " " cleaned && negb (has_char "/" cleaned) then
        let '(address, mask) := split_once " " cleaned in
        address +:+ "/" +:+ mask
      else cleaned in
    match parse_net cleaned with
    | Some n => inr n
    | None =>
        if is_v6 cleaned then inl "请输入 IPv4 网络。"
        else inl (repr_str cleaned +:+ " does not appear to be an IPv4 or IPv6 network")
    end.

(** [_looks_like_netmask]: the network is read strictly, with address 0. *)
Definition looks_like_netmask (text : string) : bool :=
  match parse_net ("0.0.0.0/" +:+ text) with
  | Some _ => Nat.eqb (count_char "." text) 3
  | None => false
  end.

(** [_wildcard_network]. *)
Definition wildcard_network (text : string) : verr net :=
  let cleaned := join " " (words (strip text)) in
  if starts_with "/" cleaned then parse_ipv4_network ("0.0.0.0" +:+ cleaned)
  else if looks_like_netmask cleaned then parse_ipv4_network ("0.0.0.0/" +:+ cleaned)
  else parse_ipv4_network cleaned.

(** The loop of [summarize_routes] and [wildcard_calculate]: every non-blank
    line is read; a line that raises adds a numbered error. *)
Fixpoint read_lines {A} (read : string → verr A) (l : list (Z * string))
    : list A * list string :=
  match l with
  | [] => ([], [])
  | (no, raw) :: l' =>
      let '(xs, errs) := read_lines read l' in
      let line := strip raw in
      if String.eqb line "" then (xs, errs)
      else match read line with
           | inr x => (x :: xs, errs)
           | inl m => (xs, ("第 " +:+ pretty no +:+ " 行错误：" +:+ m) :: errs)
           end
  end.

(** ** [ipv4_calculate] *)
Record ipv4_info := Ipv4Info {
  i_input : string; i_network : string; i_cidr : string; i_broadcast : string;
  i_netmask : string; i_prefix_length : Z; i_wildcard : string;
  i_total_addresses : Z; i_usable_hosts : Z; i_first_usable : string;
  i_last_usable : string; i_ip_type : string; i_class : string; i_note : string;
}.

Definition ipv4_info_of (text : string) (n : net) : ipv4_info :=
  let '(usable, first, last) := ipv4_usable_bounds n in
  Ipv4Info (strip text) (addr_str (n_addr n)) (net_str n) (addr_str (broadcast n))
    (addr_str (netmask n)) (n_prefix n) (addr_str (hostmask n))
    (num_addresses n) usable (bound_str first) (bound_str last)
    (ipv4_type (n_addr n)) (ipv4_class (n_addr n))
    (if n_prefix n =? 31 then "/31 是点到点特殊网段，两个地址在 P2P 场景都可用。"
     else if n_prefix n =? 32 then "/32 是单主机路由。" else "").

Definition ipv4_calculate (text : string) : verr ipv4_info :=
  match parse_ipv4_network text with
  | inl m => inl m
  | inr n => inr (ipv4_info_of text n)
  end.

(** ** VLSM requests: [_parse_vlsm_requests]

    The pattern is [([^,\s]+)\s*,?\s*(\d+)].  [match_tail] reads
    [\s*,?\s*(\d+)] at the start of a text: the blanks, the comma and the digits
    are taken greedily, and shorter choices never succeed where these fail. *)
Fixpoint skip_spaces (s : string) : string :=
  match s with
  | String c s' => if is_space c then skip_spaces s' else s
  | "" => ""
  end.

Fixpoint take_digits (s : string) : string :=
  match s with
  | String c s' => if is_digit c then String c (take_digits s') else ""
  | "" => ""
  end.

Fixpoint drop_chars (n : nat) (s : string) : string :=
  match n, s with
  | S n', String _ s' => drop_chars n' s'
  | _, _ => s
  end.

Definition match_tail (s : string) : option (string * string) :=
  let s1 := skip_spaces s in
  let s2 := match s1 with
            | String c s' => if Ascii.eqb c "," then skip_spaces s' else s1
            | "" => ""
            end in
  let ds := take_digits s2 in
  if String.eqb ds "" then None else Some (ds, drop_chars (String.length ds) s2).

Definition name_char (c : ascii) : bool := negb (Ascii.eqb c ",") && negb (is_space c).

(** The pattern at the start of [s]: the name is as long as possible, and gives
    characters back from its end while the rest does not match. *)
Fixpoint match_item (s : string) : option (string * string * string) :=
  match s with
  | "" => None
  | String c s' =>
      if name_char c then
        match match_item s' with
        | Some (name, ds, rest) => Some (String c name, ds, rest)
        | None =>
            match match_tail s' with
            | Some (ds, rest) => Some (String c "", ds, rest)
            | None => None
            end
        end
      else None
  end.

(** [item_pattern.finditer(line)]: the matches (name, digits) and the text they
    consume; [fuel] is the length of the line. *)
Fixpoint find_items (fuel : nat) (s : string) : list (string * string) * string :=
  match fuel, s with
  | O, _ => ([], "")
  | _, "" => ([], "")
  | S fuel', String _ s' =>
      match match_item s with
      | Some (name, ds, rest) =>
          let '(ms, used) := find_items fuel' rest in
          let mine := String.substring 0 (String.length s - String.length rest) s in
          ((name, ds) :: ms, mine +:+ used)
      | None => find_items fuel' s'
      end
  end.

(** The length of the text is enough fuel. *)
Lemma skip_spaces_length s : (String.length (skip_spaces s) ≤ String.length s)%nat.
Proof. induction s as [|c s IH]; simpl; [done|]. destruct (is_space c); simpl; lia. Qed.

Lemma drop_chars_length n s : (String.length (drop_chars n s) ≤ String.length s)%nat.
Proof.
  revert s. induction n as [|n IH]; intros s; [by destruct s|]. destruct s as [|c s]; [done|].
  change (drop_chars (S n) (String c s)) with (drop_chars n s). specialize (IH s). simpl. lia.
Qed.

Lemma match_tail_length s ds rest :
  match_tail s = Some (ds, rest) → (String.length rest ≤ String.length s)%nat.
Proof.
  unfold match_tail. cbv zeta. destruct (String.eqb _ ""); [done|]. intros [= _ <-].
  etrans; [apply drop_chars_length|]. pose proof (skip_spaces_length s).
  destruct (skip_spaces s) as [|c s'] eqn:E; simpl in *; [lia|].
  pose proof (skip_spaces_length s'). destruct (Ascii.eqb c ","); simpl; lia.
Qed.

Lemma match_item_length s name ds rest :
  match_item s = Some (name, ds, rest) → (String.length rest < String.length s)%nat.
Proof.
  revert name. induction s as [|c s IH]; intros name; simpl; [done|].
  destruct (name_char c); [|done]. destruct (match_item s) as [[[n d] r]|] eqn:E.
  - intros [= <- <- <-]. specialize (IH n eq_refl). lia.
  - destruct (match_tail s) as [[d r]|] eqn:Et; [|done]. intros [= <- <- <-].
    apply match_tail_length in Et. lia.
Qed.

Lemma find_items_enough fuel s :
  (String.length s ≤ fuel)%nat → find_items fuel s = find_items (String.length s) s.
Proof.
  assert (H : ∀ n fuel s, (String.length s ≤ n)%nat → (String.length s ≤ fuel)%nat →
    find_items fuel s = find_items (String.length s) s); [|by apply (H (String.length s))].
  clear. induction n as [|n IH]; intros fuel s Hs Hf; destruct s as [|c s]; simpl in Hs, Hf; try lia.
  - by destruct fuel.
  - by destruct fuel.
  - destruct fuel as [|fuel]; [lia|]. cbn [find_items String.length].
    destruct (match_item (String c s)) as [[[name ds] rest]|] eqn:E.
    + apply match_item_length in E. simpl in E.
      rewrite (IH fuel rest), (IH (String.length s) rest) by lia. done.
    + by rewrite (IH fuel s) by lia.
Qed.

(** [_compact]. *)
Definition compact (text : string) : string :=
  replace "009" "" (replace " " "" (replace "," "" text)).

Definition vlsm_item (no : Z) (m : string * string) : verr (Z * string * Z) :=
  let hosts := digits_val 0 m.2 in
  if hosts <=? 0 then inl ("第 " +:+ pretty no +:+ " 行主机数必须为正整数")
  else inr (no, strip m.1, hosts).

(** The requests and the errors of one line. *)
Definition vlsm_line (no : Z) (raw : string) : list (Z * string * Z) * list string :=
  let line := strip raw in
  if String.eqb line "" then ([], [])
  else
    let '(matches, consumed) := find_items (String.length line) line in
    if bool_decide (matches = []) || negb (String.eqb (compact consumed) (compact line))
    then ([], ["第 " +:+ pretty no +:+ " 行格式应为：名称,主机数"])
    else
      let outs := vlsm_item no <$> matches in
      (omap (λ o, match o with inr r => Some r | inl _ => None end) outs,
       omap (λ o, match o with inl m => Some m | inr _ => None end) outs).

Definition parse_vlsm_requests (text : string) : list (Z * string * Z) * list string :=
  let normalized := replace "、" "," (replace "，" "," text) in
  let ls := enumerate 1 (splitlines normalized) in
  (ls ≫= (λ l, (vlsm_line l.1 l.2).1), ls ≫= (λ l, (vlsm_line l.1 l.2).2)).

(** ** [plan_vlsm] *)
Record vlsm_row := VlsmRow {
  v_name : string; v_requested_hosts : Z; v_prefix : Z; v_network : string;
  v_cidr : string; v_netmask : string; v_wildcard : string;
  v_first_usable : string; v_last_usable : string; v_broadcast : string;
  v_usable_hosts : Z; v_wasted_hosts : Z;
}.

(** [_ipv4_subnet_row]. *)
Definition ipv4_subnet_row (name : string) (requested_hosts : Z) (n : net) : vlsm_row :=
  let '(usable, first, last) := ipv4_usable_bounds n in
  VlsmRow name requested_hosts (n_prefix n) (addr_str (n_addr n)) (net_str n)
    (addr_str (netmask n)) (addr_str (hostmask n)) (bound_str first) (bound_str last)
    (addr_str (broadcast n)) usable (Z.max (usable - requested_hosts) 0).

(** [1 << math.ceil(math.log2(needed))]: the smallest power of two that is not
    below [needed].  ([math.log2] is exact to far less than the distance of
    [needed] from a power of two whenever the block can still fit in 2^32.) *)
Definition block_size_of (needed : Z) : Z := Z.shiftl 1 (Z.log2_up needed).

(** [if cursor % block_size: cursor += block_size - (cursor % block_size)]. *)
Definition align_up (cursor block_size : Z) : Z :=
  if cursor mod block_size =? 0 then cursor
  else cursor + (block_size - cursor mod block_size).

(** The allocation loop: the placed subnets in order, or the message of the
    request that does not fit; [IPv4Network] is strict. *)
Fixpoint vlsm_loop (last cursor : Z) (reqs : list (Z * string * Z))
    : verr (string + list (string * Z * net)) :=
  match reqs with
  | [] => inr (inr [])
  | (_, name, hosts) :: reqs' =>
      let needed := hosts + 2 in
      let block_size := block_size_of needed in
      let prefix := 32 - Z.log2 block_size in
      let cursor := align_up cursor block_size in
      if last <? cursor + block_size - 1
      then inr (inl ("主网络容量不足，无法分配 " +:+ name +:+ " 需要的 " +:+ pretty hosts
                     +:+ " 个主机地址。"))
      else match strict_net cursor prefix with
           | None => inl "has host bits set"
           | Some subnet =>
               match vlsm_loop last (cursor + block_size) reqs' with
               | inl m => inl m
               | inr (inl m) => inr (inl m)
               | inr (inr placed) => inr (inr ((name, hosts, subnet) :: placed))
               end
           end
  end.

(** [sorted(requests, key=hosts, reverse=True)]: stable, largest first. *)
Definition sort_requests (reqs : list (Z * string * Z)) : list (Z * string * Z) :=
  sort_by (λ a b, b.2 <=? a.2) reqs.

Definition plan_vlsm (parent_text requests_text : string)
    : verr (table vlsm_row (string * Z)) :=
  match parse_ipv4_network parent_text with
  | inl m => inl m
  | inr parent =>
      let '(reqs, errs) := parse_vlsm_requests requests_text in
      if negb (bool_decide (errs = [])) then inr (TableResult [] None errs)
      else match vlsm_loop (broadcast parent) (n_addr parent) (sort_requests reqs) with
           | inl m => inl m
           | inr (inl m) => inr (TableResult [] None [m])
           | inr (inr placed) =>
               let rs := (λ p, ipv4_subnet_row p.1.1 p.1.2 p.2) <$> placed in
               inr (TableResult rs (Some (net_str parent, Z.of_nat (length rs))) [])
           end
  end.

(** ** [split_subnets] *)
Record split_row := SplitRow {
  s_index : Z; s_network : string; s_cidr : string; s_prefix : Z; s_netmask : string;
  s_wildcard : string; s_first_usable : string; s_last_usable : string;
  s_broadcast : string; s_usable_hosts : Z;
}.

(** [_ipv4_split_row]. *)
Definition ipv4_split_row (index : Z) (n : net) : split_row :=
  let '(usable, first, last) := ipv4_usable_bounds n in
  SplitRow index (addr_str (n_addr n)) (net_str n) (n_prefix n) (addr_str (netmask n))
    (addr_str (hostmask n)) (bound_str first) (bound_str last)
    (addr_str (broadcast n)) usable.

Record split_summary := SplitSummary {
  ss_total : Z; ss_page : Z; ss_page_size : Z; ss_pages : Z;
}.

(** The subnets of one page: [start .. start + selected_count - 1]. *)
Definition split_selected (parent : net) (target_prefix start count : Z) : list net :=
  (λ offset, Net (n_addr parent + (start + offset) * Z.shiftl 1 (32 - target_prefix))
                 target_prefix)
  <$> zseq 0 (Z.to_nat count).

Definition split_subnets (parent_text : string) (target_prefix page page_size : Z)
    : verr (table split_row split_summary) :=
  match parse_ipv4_network parent_text with
  | inl m => inl m
  | inr parent =>
      if (target_prefix <=? n_prefix parent) || (32 <? target_prefix)
      then inr (TableResult [] None ["目标子网前缀必须大于主网络前缀，且不超过 32。"])
      else
        let total := Z.shiftl 1 (target_prefix - n_prefix parent) in
        let page_size := Z.max 1 (Z.min page_size 500) in
        let page := Z.max 1 page in
        let start := (page - 1) * page_size in
        let count := Z.max 0 (Z.min page_size (total - start)) in
        let selected := split_selected parent target_prefix start count in
        inr (TableResult
               ((λ ks, ipv4_split_row (ks.1 + start + 1) ks.2) <$> enumerate 0 selected)
               (Some (SplitSummary total page page_size ((total + page_size - 1) / page_size)))
               [])
  end.

(** ** [summarize_routes]

    [ipaddress.collapse_addresses]: networks are taken from the end of
    [to_merge]; two halves of one network are replaced by it. *)
Definition supernet (n : net) : net :=
  if n_prefix n =? 0 then n else mk_net (n_addr n) (n_prefix n - 1).

Fixpoint collapse_merge (fuel : nat) (to_merge : list net) (subnets : list (net * net))
    : list (net * net) :=
  match fuel, to_merge with
  | O, _ => subnets
  | _, [] => subnets
  | S fuel', n :: to_merge' =>
      let sup := supernet n in
      match alookup sup subnets with
      | None => collapse_merge fuel' to_merge' (ainsert sup n subnets)
      | Some existing =>
          if decide (existing = n) then collapse_merge fuel' to_merge' subnets
          else collapse_merge fuel' (sup :: to_merge') (adelete sup subnets)
      end
  end.

(** [IPv4Network.__lt__]: by address, then by net mask. *)
Definition net_leb (a b : net) : bool :=
  (n_addr a <? n_addr b) || ((n_addr a =? n_addr b) && (netmask a <=? netmask b)).

(** A network that ends within the last one kept is skipped. *)
Fixpoint drop_covered (last : option net) (l : list net) : list net :=
  match l with
  | [] => []
  | n :: l' =>
      if match last with Some m => broadcast n <=? broadcast m | None => false end
      then drop_covered last l'
      else n :: drop_covered (Some n) l'
  end.

(** [to_merge.pop()] takes from the end, hence the reversal; a run takes at
    most two steps for each network. *)
Definition collapse_addresses (l : list net) : list net :=
  drop_covered None
    (sort_by net_leb (collapse_merge (2 * length l) (rev l) []).*2).

Record route_row := RouteRow {
  r_summary : string; r_network : string; r_prefix : Z; r_netmask : string;
  r_wildcard : string; r_range : string; r_total_addresses : Z; r_full_cover : bool;
}.

(** [utilization_percent] is kept as the ratio before [round(.. * 100, 2)]. *)
Record route_summary := RouteSummary {
  rs_input_count : Z; rs_unique_count : Z; rs_input_total_addresses : Z;
  rs_summary_total_addresses : Z; rs_utilization : Z * Z; rs_wasted_addresses : Z;
}.

Definition route_row_of (n : net) : route_row :=
  RouteRow (net_str n) (addr_str (n_addr n)) (n_prefix n) (addr_str (netmask n))
    (addr_str (hostmask n)) (addr_str (n_addr n) +:+ " - " +:+ addr_str (broadcast n))
    (num_addresses n) true.

(** [sorted(set(networks), key=address)]: the order of a set is unspecified, so
    the distinct networks are taken in the order of a [set_order] argument. *)
Definition summarize_networks (set_order : list net → list net) (networks : list net)
    : table route_row route_summary :=
  let unique := sort_by (λ a b, n_addr a <=? n_addr b) (set_order networks) in
  let collapsed := collapse_addresses unique in
  let input_total := sumZ (num_addresses <$> unique) in
  let output_total := sumZ (num_addresses <$> collapsed) in
  TableResult (route_row_of <$> collapsed)
    (Some (RouteSummary (Z.of_nat (length networks)) (Z.of_nat (length unique))
             input_total output_total
             (if output_total =? 0 then (0, 1) else (input_total, output_total))
             (Z.max (output_total - input_total) 0)))
    [].

Definition summarize_routes (set_order : list net → list net) (text : string)
    : table route_row route_summary :=
  let '(networks, errs) := read_lines parse_ipv4_network (enumerate 1 (splitlines text)) in
  if negb (bool_decide (errs = [])) then TableResult [] None errs
  else summarize_networks set_order networks.

(** ** [wildcard_calculate] *)
Record wildcard_row := WildcardRow {
  w_input : string; w_network : string; w_prefix : Z; w_netmask : string;
  w_wildcard : string; w_usable_hosts : Z;
}.

Definition wildcard_read (line : string) : verr wildcard_row :=
  match wildcard_network line with
  | inl m => inl m
  | inr n =>
      inr (WildcardRow line (addr_str (n_addr n)) (n_prefix n) (addr_str (netmask n))
             (addr_str (hostmask n)) (ipv4_usable_bounds n).1.1)
  end.

Definition wildcard_calculate (text : string) : table wildcard_row Z :=
  let '(rs, errs) := read_lines wildcard_read (enumerate 1 (splitlines text)) in
  TableResult rs (Some (Z.of_nat (length rs))) errs.
End parsers.

(** ** VLSM planning *)

(** The block that request [r] is rounded up to. *)
Definition blk (r : Z * string * Z) : Z := block_size_of (r.2 + 2).

Lemma block_size_pow needed : block_size_of needed = 2 ^ Z.log2_up needed.
Proof. unfold block_size_of. by rewrite Z.shiftl_1_l. Qed.

Lemma block_size_pos needed : 0 < block_size_of needed.
Proof. rewrite block_size_pow. apply Z.pow_pos_nonneg; [lia|apply Z.log2_up_nonneg]. Qed.

(** The block is the smallest power of two that holds the hosts, the network
    and the broadcast address. *)
Lemma block_size_tight needed :
  1 < needed → needed ≤ block_size_of needed < 2 * needed.
Proof.
  intros H. rewrite block_size_pow. pose proof (Z.log2_up_spec needed H) as [H1 H2].
  pose proof (Z.log2_up_pos needed H). split; [lia|].
  replace (Z.log2_up needed) with (Z.succ (Z.pred (Z.log2_up needed))) by lia.
  rewrite Z.pow_succ_r by lia. lia.
Qed.

Lemma block_size_divide a b : a ≤ b → (block_size_of a | block_size_of b).
Proof.
  intros H. rewrite !block_size_pow. pose proof (Z.log2_up_le_mono a b H).
  exists (2 ^ (Z.log2_up b - Z.log2_up a)). rewrite <- Z.pow_add_r.
  - f_equal. lia.
  - lia.
  - apply Z.log2_up_nonneg.
Qed.

Lemma block_size_prefix needed :
  block_size_of needed ≤ 2 ^ 32 →
  0 ≤ 32 - Z.log2 (block_size_of needed) ≤ 32 ∧
  net_size (32 - Z.log2 (block_size_of needed)) = block_size_of needed.
Proof.
  rewrite block_size_pow. pose proof (Z.log2_up_nonneg needed). intros Hle.
  apply Z.pow_le_mono_r_iff in Hle; [|lia..].
  rewrite Z.log2_pow2 by lia. unfold net_size. split; [lia|]. f_equal. lia.
Qed.

Lemma align_up_id c b : c mod b = 0 → align_up c b = c.
Proof. intros H. unfold align_up. by rewrite H. Qed.

Lemma align_up_ge c b : 0 < b → c ≤ align_up c b.
Proof.
  intros H. unfold align_up. pose proof (Z.mod_pos_bound c b H). split_ifs; lia.
Qed.

(** What a placement must satisfy: in the range, well formed, tight, and each
    subnet ends before the next begins. *)
Definition placed_ok (first last : Z) (placed : list (string * Z * net)) : Prop :=
  Forall (λ p, net_wf p.2 ∧ first ≤ n_addr p.2 ∧ broadcast p.2 ≤ last ∧
               p.1.2 + 2 ≤ num_addresses p.2 < 2 * (p.1.2 + 2)) placed ∧
  StronglySorted (λ p q, broadcast p.2 < n_addr q.2) placed.

Notation largest_first := (λ a b : Z * string * Z, (b.2 <=? a.2) = true).

Lemma vlsm_step last cursor r :
  0 ≤ cursor → last ≤ ALL_ONES → cursor mod blk r = 0 → cursor + blk r - 1 ≤ last →
  strict_net cursor (32 - Z.log2 (blk r)) = Some (Net cursor (32 - Z.log2 (blk r))) ∧
  net_wf (Net cursor (32 - Z.log2 (blk r))) ∧
  broadcast (Net cursor (32 - Z.log2 (blk r))) = cursor + blk r - 1.
Proof.
  unfold blk. intros Hc Hl Hm Hf. pose proof (block_size_pos (r.2 + 2)).
  destruct (block_size_prefix (r.2 + 2)) as [Hp Hs]; [unfold ALL_ONES in *; lia|].
  assert (Hwf : net_wf (Net cursor (32 - Z.log2 (block_size_of (r.2 + 2))))).
  { unfold net_wf; simpl. rewrite Hs. split_and!; lia. }
  split_and!; [|done|].
  - apply strict_net_Some; [lia|lia|by rewrite Hs].
  - rewrite broadcast_wf by done. simpl. by rewrite Hs.
Qed.

Lemma blk_pos r : 0 < blk r.
Proof. apply block_size_pos. Qed.

Lemma blocks_nonneg reqs : 0 ≤ sumZ (blk <$> reqs).
Proof.
  induction reqs as [|r reqs IH]; [done|]. rewrite fmap_cons, sumZ_cons.
  pose proof (blk_pos r). lia.
Qed.

(** One turn of the loop when the cursor is aligned and the block fits, and
    when it does not fit. *)
Lemma vlsm_loop_fits last cursor r reqs :
  0 ≤ cursor → last ≤ ALL_ONES → cursor mod blk r = 0 → cursor + blk r - 1 ≤ last →
  vlsm_loop last cursor (r :: reqs) =
    match vlsm_loop last (cursor + blk r) reqs with
    | inl m => inl m
    | inr (inl m) => inr (inl m)
    | inr (inr placed) =>
        inr (inr ((r.1.2, r.2, Net cursor (32 - Z.log2 (blk r))) :: placed))
    end.
Proof.
  intros Hc Hl Hm Hf. destruct (vlsm_step last cursor r) as (Hn & _); [done..|].
  destruct r as [[no name] hosts]. simpl.
  change (block_size_of (hosts + 2)) with (blk (no, name, hosts)) in *.
  rewrite (align_up_id cursor) by done.
  rewrite (proj2 (Z.ltb_ge _ _)) by lia. by rewrite Hn.
Qed.

Lemma vlsm_loop_full last cursor r reqs :
  last < cursor + blk r - 1 → ∃ m, vlsm_loop last cursor (r :: reqs) = inr (inl m).
Proof.
  intros H. destruct r as [[no name] hosts]. simpl.
  change (block_size_of (hosts + 2)) with (blk (no, name, hosts)) in *.
  pose proof (align_up_ge cursor (blk (no, name, hosts)) (blk_pos _)).
  rewrite (proj2 (Z.ltb_lt _ _)) by lia. eauto.
Qed.

Lemma placed_ok_cons first last r p placed :
  net_wf p → first = n_addr p → broadcast p = first + blk r - 1 → broadcast p ≤ last →
  0 < r.2 → placed_ok (first + blk r) last placed →
  placed_ok first last ((r.1.2, r.2, p) :: placed).
Proof.
  intros Hw -> Hb Hl Hr [Hp Hs]. split.
  - constructor.
    + simpl. split_and!; [done|lia|lia| |]; unfold num_addresses; rewrite Hb;
        destruct (block_size_tight (r.2 + 2)); unfold blk; lia.
    + eapply Forall_impl; [exact Hp|]. intros q (?&?&?&?).
      pose proof (blk_pos r). split_and!; try done; lia.
  - constructor; [done|]. eapply Forall_impl; [exact Hp|].
    intros q (?&?&?&?). simpl. lia.
Qed.

Lemma vlsm_loop_spec last reqs cursor :
  0 ≤ cursor ≤ last + 1 → last ≤ ALL_ONES → StronglySorted largest_first reqs →
  Forall (λ r, 0 < r.2) reqs → Forall (λ r, cursor mod blk r = 0) reqs →
  if sumZ (blk <$> reqs) <=? last + 1 - cursor
  then ∃ placed, vlsm_loop last cursor reqs = inr (inr placed) ∧
         placed.*1 = (λ r, (r.1.2, r.2)) <$> reqs ∧ placed_ok cursor last placed
  else ∃ m, vlsm_loop last cursor reqs = inr (inl m).
Proof.
  revert cursor. induction reqs as [|r reqs IH]; intros cursor Hc Hl Hs Hh Hm.
  { simpl. rewrite (proj2 (Z.leb_le _ _)) by lia.
    exists []. split_and!; [done|done|]. split; constructor. }
  apply StronglySorted_inv in Hs as [Hs Hd].
  apply Forall_cons in Hh as [Hh0 Hh]. apply Forall_cons in Hm as [Hm0 Hm].
  change (sumZ (blk <$> r :: reqs)) with (blk r + sumZ (blk <$> reqs)).
  pose proof (blocks_nonneg reqs). pose proof (blk_pos r).
  destruct (Z.leb_spec (cursor + blk r - 1) last) as [Hf|Hf].
  2:{ rewrite (proj2 (Z.leb_gt _ _)) by lia. by apply vlsm_loop_full. }
  rewrite vlsm_loop_fits by (done || lia).
  destruct (vlsm_step last cursor r) as (_ & Hw & Hb); [lia|done..|].
  specialize (IH (cursor + blk r)).
  replace (last + 1 - (cursor + blk r)) with (last + 1 - cursor - blk r) in IH by lia.
  assert (Hm' : Forall (λ q, (cursor + blk r) mod blk q = 0) reqs).
  { rewrite Forall_forall in Hd, Hm |- *. intros q Hq.
    specialize (Hm q Hq). specialize (Hd q Hq). simpl in Hd. bool_to_prop.
    pose proof (blk_pos q). apply Z.mod_divide; [lia|]. apply Z.divide_add_r.
    - apply Z.mod_divide; [lia|done].
    - apply block_size_divide. lia. }
  specialize (IH ltac:(lia) Hl Hs Hh Hm').
  destruct (Z.leb_spec (sumZ (blk <$> reqs)) (last + 1 - cursor - blk r)).
  - rewrite (proj2 (Z.leb_le _ _)) by lia. destruct IH as (placed & -> & Hn & Hp).
    eexists. split; [reflexivity|]. split; [by rewrite !fmap_cons, Hn|].
    apply placed_ok_cons; try done. lia.
  - rewrite (proj2 (Z.leb_gt _ _)) by lia. destruct IH as (m & ->). eauto.
Qed.

Lemma vlsm_items_hosts no (ms : list (string * string)) (r : Z * string * Z) :
  r ∈ omap (λ o, match o with inr r => Some r | inl _ => None end) (vlsm_item no <$> ms) →
  0 < r.2.
Proof.
  intros (o & Ho & Hr)%list_elem_of_omap. apply list_elem_of_fmap in Ho as (m & -> & _).
  unfold vlsm_item in Hr. destruct (digits_val 0 m.2 <=? 0) eqn:E; [done|].
  injection Hr as <-. simpl. by bool_to_prop.
Qed.

(** Requests that are read ask for at least one host. *)
Lemma parse_vlsm_requests_hosts text :
  Forall (λ r, 0 < r.2) (parse_vlsm_requests text).1.
Proof.
  apply Forall_forall. unfold parse_vlsm_requests. simpl.
  intros r ([no raw] & Hr & _)%list_elem_of_bind. revert Hr. unfold vlsm_line.
  destruct (String.eqb _ _); [set_solver|]. destruct (find_items _ _) as [ms used].
  destruct (_ || _); [set_solver|]. apply vlsm_items_hosts.
Qed.

Lemma parse_ipv4_network_wf is_v6 text n :
  parse_ipv4_network is_v6 text = inr n → net_wf n.
Proof.
  unfold parse_ipv4_network. destruct (String.eqb _ _); [done|].
  destruct (parse_net _) eqn:E; [|by destruct (is_v6 _)].
  intros [= <-]. by eapply parse_net_wf.
Qed.

Lemma sort_requests_sorted reqs : StronglySorted largest_first (sort_requests reqs).
Proof.
  apply sort_by_sorted.
  - intros x y. destruct (Z.le_ge_cases x.2 y.2);
      [right|left]; by apply Z.leb_le.
  - intros x y z. rewrite !Z.leb_le. lia.
Qed.

(** Every block divides the parent when all the blocks fit in it. *)
Lemma parent_aligned parent reqs :
  net_wf parent → StronglySorted largest_first reqs →
  (∀ r, head reqs = Some r → blk r ≤ net_size (n_prefix parent)) →
  Forall (λ r, n_addr parent mod blk r = 0) reqs.
Proof.
  intros (Hp & Ha & Hm) Hs Hfit. apply Forall_forall. intros q Hq.
  destruct reqs as [|r reqs]; [set_solver|]. specialize (Hfit r eq_refl).
  assert (Hqr : q.2 ≤ r.2).
  { apply StronglySorted_inv in Hs as [_ Hd]. rewrite Forall_forall in Hd.
    apply elem_of_cons in Hq as [->|Hq]; [lia|]. specialize (Hd q Hq). by bool_to_prop. }
  pose proof (blk_pos q). apply Z.mod_divide; [lia|].
  transitivity (blk r); [apply block_size_divide; lia|].
  pose proof (net_size_pos (n_prefix parent) (proj2 Hp)).
  transitivity (net_size (n_prefix parent)); [|apply Z.mod_divide; [lia|done]].
  unfold blk in *. rewrite block_size_pow in *. unfold net_size in *.
  apply Z.pow_le_mono_r_iff in Hfit; [|lia..].
  exists (2 ^ (32 - n_prefix parent - Z.log2_up (r.2 + 2))).
  pose proof (Z.log2_up_nonneg (r.2 + 2)). rewrite <- Z.pow_add_r by lia. f_equal. lia.
Qed.

(** C22: VLSM planning is sound and complete.  On a readable parent and request
    list the plan succeeds exactly when the blocks, each the request rounded up
    to a power of two, together fit in the parent; then every request has one
    row, largest first, of a well-formed subnet inside the parent that holds
    the requested hosts with less than half of it to spare, and each subnet ends
    before the next begins.  Otherwise the table holds one error and no row.
    The strict network constructor never raises. *)
Theorem vlsm_plan_correct is_v6 parent_text requests_text parent reqs :
  parse_ipv4_network is_v6 parent_text = inr parent →
  parse_vlsm_requests requests_text = (reqs, []) →
  if sumZ (blk <$> reqs) <=? num_addresses parent
  then ∃ placed,
         plan_vlsm is_v6 parent_text requests_text =
           inr (TableResult ((λ p, ipv4_subnet_row p.1.1 p.1.2 p.2) <$> placed)
                  (Some (net_str parent, Z.of_nat (length reqs))) []) ∧
         placed.*1 = (λ r, (r.1.2, r.2)) <$> sort_requests reqs ∧
         placed_ok (n_addr parent) (broadcast parent) placed
  else ∃ m, plan_vlsm is_v6 parent_text requests_text = inr (TableResult [] None [m]).
Proof.
  intros Hp Hr. pose proof (parse_ipv4_network_wf _ _ _ Hp) as Hw.
  pose proof (parse_vlsm_requests_hosts requests_text) as Hh. rewrite Hr in Hh. simpl in Hh.
  unfold plan_vlsm. rewrite Hp, Hr. simpl.
  assert (Hperm : sort_requests reqs ≡ₚ reqs) by apply sort_by_perm.
  assert (Hsum : sumZ (blk <$> reqs) = sumZ (blk <$> sort_requests reqs)).
  { apply sumZ_perm. by rewrite Hperm. }
  pose proof (sort_requests_sorted reqs) as Hs.
  rewrite <- Hperm in Hh. rewrite Hsum.
  replace (length reqs) with (length (sort_requests reqs)) by (by rewrite Hperm).
  clear Hsum Hperm Hr. set (srt := sort_requests reqs) in *. clearbody srt.
  pose proof (broadcast_bound parent Hw) as Hb. pose proof Hw as (Hpp & Ha & Hm).
  rewrite num_addresses_wf by done. rewrite broadcast_wf in * by done.
  set (size := net_size _) in *.
  assert (Hspec : if sumZ (blk <$> srt) <=? size
    then ∃ placed, vlsm_loop (n_addr parent + size - 1) (n_addr parent) srt = inr (inr placed) ∧
           placed.*1 = (λ r, (r.1.2, r.2)) <$> srt ∧
           placed_ok (n_addr parent) (n_addr parent + size - 1) placed
    else ∃ m, vlsm_loop (n_addr parent + size - 1) (n_addr parent) srt = inr (inl m)).
  { assert (Hsz : size = n_addr parent + size - 1 + 1 - n_addr parent) by lia.
    destruct srt as [|r srt].
    { pose proof (vlsm_loop_spec (n_addr parent + size - 1) [] (n_addr parent)) as Hl.
      rewrite <- Hsz in Hl. apply Hl; lia || by constructor. }
    destruct (Z.leb_spec (blk r) size) as [Hle|Hgt].
    - pose proof (vlsm_loop_spec (n_addr parent + size - 1) (r :: srt) (n_addr parent)) as Hl.
      rewrite <- Hsz in Hl. apply Hl; try (done || lia).
      apply parent_aligned; [done|done|]. by intros ? [= <-].
    - rewrite (proj2 (Z.leb_gt _ _)).
      + apply vlsm_loop_full. lia.
      + rewrite fmap_cons, sumZ_cons. pose proof (blocks_nonneg srt). lia. }
  destruct (sumZ (blk <$> srt) <=? size).
  - destruct Hspec as (placed & -> & Hn & Hok). exists placed. split_and!; [|done|done].
    assert (Hlen : length placed = length srt).
    { apply (f_equal length) in Hn. by rewrite !length_fmap in Hn. }
    by rewrite length_fmap, Hlen.
  - destruct Hspec as (m & ->). eauto.
Qed.


(** A plan with requests of 100, 20 and 2 hosts. *)
Lemma vlsm_plan_correct_witness :
  ∃ placed,
    plan_vlsm (λ _, false) "192.168.1.0/24" "a,20 b,100 c,2" =
      inr (TableResult ((λ p, ipv4_subnet_row p.1.1 p.1.2 p.2) <$> placed)
             (Some ("192.168.1.0/24", 3)) []) ∧
    placed.*1 = [("b", 100); ("a", 20); ("c", 2)] ∧
    placed_ok (dotted 192 168 1 0) (dotted 192 168 1 255) placed.
Proof.
  exact (vlsm_plan_correct (λ _, false) "192.168.1.0/24" "a,20 b,100 c,2"
           (Net (dotted 192 168 1 0) 24) [(1, "a", 20); (1, "b", 100); (1, "c", 2)]
           eq_refl eq_refl).
Defined.

(** ** Subnet splitting *)

(** All the subnets of [parent] with the target prefix. *)
Definition all_subnets (parent : net) (tp : Z) : list net :=
  split_selected parent tp 0 (Z.shiftl 1 (tp - n_prefix parent)).

Lemma zseq_length k n : length (zseq k n) = n.
Proof. unfold zseq. by rewrite length_fmap, length_seq. Qed.

Lemma split_selected_lookup parent tp start count (i : nat) :
  Z.of_nat i < count →
  split_selected parent tp start count !! i =
    Some (Net (n_addr parent + (start + Z.of_nat i) * net_size tp) tp).
Proof.
  intros H. unfold split_selected. rewrite list_lookup_fmap, zseq_lookup, decide_True by lia. simpl.
  by rewrite Z.shiftl_1_l.
Qed.

Lemma split_selected_length parent tp start count :
  length (split_selected parent tp start count) = Z.to_nat count.
Proof. unfold split_selected. by rewrite length_fmap, zseq_length. Qed.

(** A page is a window on the list of all subnets. *)
Lemma split_selected_window parent tp start ps :
  let total := Z.shiftl 1 (tp - n_prefix parent) in
  0 ≤ start → 0 ≤ ps →
  split_selected parent tp start (Z.max 0 (Z.min ps (total - start))) =
    take (Z.to_nat ps) (drop (Z.to_nat start) (all_subnets parent tp)).
Proof.
  intros total Hs Hp. apply list_eq_same_length with (n := length (take (Z.to_nat ps)
    (drop (Z.to_nat start) (all_subnets parent tp)))); [done| |].
  - rewrite length_take, length_drop. unfold all_subnets.
    rewrite !split_selected_length. fold total. lia.
  - intros i x y Hi. rewrite length_take, length_drop in Hi. unfold all_subnets in *.
    rewrite split_selected_length in Hi. fold total in Hi |- *.
    rewrite split_selected_lookup, lookup_take_lt, lookup_drop, split_selected_lookup by lia.
    intros [= <-] [= <-]. f_equal. rewrite Nat2Z.inj_add, Z2Nat.id by lia. lia.
Qed.

(** The subnets are well formed and tile the parent: address [a] of the parent
    lies in exactly one, number [(a - base) / size]. *)
Lemma all_subnets_tile parent tp (i : nat) n :
  net_wf parent → n_prefix parent < tp ≤ 32 → all_subnets parent tp !! i = Some n →
  net_wf n ∧ ∀ a, in_net a n = true ↔
    in_net a parent = true ∧ (a - n_addr parent) / net_size tp = Z.of_nat i.
Proof.
  intros Hw Htp Hi. pose proof Hw as (Hp & Ha & Hm).
  pose proof (lookup_lt_Some _ _ _ Hi) as Hlen. unfold all_subnets in *.
  rewrite split_selected_length, Z.shiftl_1_l in Hlen.
  rewrite split_selected_lookup in Hi by (rewrite Z.shiftl_1_l; lia).
  injection Hi as <-.
  pose proof (net_size_pos tp ltac:(lia)) as Hpos.
  assert (Hsz : net_size (n_prefix parent) = 2 ^ (tp - n_prefix parent) * net_size tp).
  { unfold net_size. rewrite <- Z.pow_add_r by lia. f_equal. lia. }
  pose proof (broadcast_bound parent Hw) as Hb. rewrite broadcast_wf, Hsz in Hb by done.
  assert (Hi : Z.of_nat i < 2 ^ (tp - n_prefix parent)) by lia.
  assert (Hw' : net_wf (Net (n_addr parent + (0 + Z.of_nat i) * net_size tp) tp)).
  { unfold net_wf; simpl. split_and!; [lia|lia|nia|nia|].
    apply Z.mod_divide; [lia|]. apply Z.divide_add_r; [|by exists (Z.of_nat i)].
    transitivity (net_size (n_prefix parent)); [rewrite Hsz; by eexists|].
    apply Z.mod_divide; [nia|done]. }
  split; [done|]. intros a. rewrite !in_net_spec by done. simpl. rewrite Hsz.
  split.
  - intros H. split; [nia|]. symmetry. apply (Z.div_unique _ _ _
      (a - n_addr parent - Z.of_nat i * net_size tp)); lia.
  - intros [H1 H2]. pose proof (Z_div_mod_eq_full (a - n_addr parent) (net_size tp)).
    pose proof (Z.mod_pos_bound (a - n_addr parent) (net_size tp) Hpos). nia.
Qed.

(** The rows of the whole split, numbered from 1. *)
Definition split_rows (parent : net) (tp : Z) : list split_row :=
  (λ ks, ipv4_split_row (ks.1 + 1) ks.2) <$> enumerate 0 (all_subnets parent tp).

Lemma enumerate_take {A} k n (l : list A) : enumerate k (take n l) = take n (enumerate k l).
Proof. revert k n. induction l; intros k [|n]; simpl; f_equal; auto. Qed.

Lemma enumerate_drop {A} k n (l : list A) :
  enumerate (k + Z.of_nat n) (drop n l) = drop n (enumerate k l).
Proof.
  revert k n. induction l as [|x l IH]; intros k [|n]; simpl; try done.
  - by rewrite Z.add_0_r.
  - rewrite <- IH. f_equal. lia.
Qed.

Lemma enumerate_shift {A B} (f : Z → A → B) k d (l : list A) :
  (λ ks, f (ks.1 + d) ks.2) <$> enumerate k l = (λ ks, f ks.1 ks.2) <$> enumerate (k + d) l.
Proof.
  revert k. induction l as [|x l IH]; intros k; simpl; [done|]. f_equal.
  rewrite IH. do 2 f_equal. lia.
Qed.

Lemma split_page_rows parent tp start ps :
  0 ≤ start → 0 ≤ ps →
  (λ ks, ipv4_split_row (ks.1 + start + 1) ks.2) <$>
    enumerate 0 (split_selected parent tp start
      (Z.max 0 (Z.min ps (Z.shiftl 1 (tp - n_prefix parent) - start)))) =
  take (Z.to_nat ps) (drop (Z.to_nat start) (split_rows parent tp)).
Proof.
  intros Hs Hp. rewrite split_selected_window by done.
  rewrite (enumerate_shift (λ i n, ipv4_split_row (i + 1) n)).
  unfold split_rows. rewrite <- fmap_drop, <- fmap_take, <- enumerate_drop, enumerate_take.
  do 3 f_equal. lia.
Qed.

(** A page of [split_subnets] is a window on the rows of the whole split,
    its size is clamped to 1..500 and its number to at least 1, and the number
    of pages is enough for all the rows; the subnets of the whole split tile the
    parent. *)
Theorem split_subnets_pages is_v6 parent_text parent tp page page_size :
  parse_ipv4_network is_v6 parent_text = inr parent →
  n_prefix parent < tp ≤ 32 →
  (∃ s, split_subnets is_v6 parent_text tp page page_size =
     inr (TableResult
            (take (Z.to_nat (ss_page_size s))
               (drop (Z.to_nat ((ss_page s - 1) * ss_page_size s)) (split_rows parent tp)))
            (Some s) []) ∧
     ss_page s = Z.max 1 page ∧ ss_page_size s = Z.max 1 (Z.min page_size 500) ∧
     ss_total s = Z.of_nat (length (split_rows parent tp)) ∧
     (ss_pages s - 1) * ss_page_size s < ss_total s ≤ ss_pages s * ss_page_size s) ∧
  ∀ i n, all_subnets parent tp !! i = Some n →
    net_wf n ∧ ∀ a, in_net a n = true ↔
      in_net a parent = true ∧ (a - n_addr parent) / net_size tp = Z.of_nat i.
Proof.
  intros Hp Htp. pose proof (parse_ipv4_network_wf _ _ _ Hp) as Hw.
  split; [|intros; by apply all_subnets_tile].
  unfold split_subnets. rewrite Hp.
  rewrite (proj2 (Z.leb_gt _ _)), (proj2 (Z.ltb_ge _ _)) by lia. simpl.
  set (ps := Z.max 1 (Z.min page_size 500)). set (pg := Z.max 1 page).
  set (total := Z.shiftl 1 _). assert (1 ≤ ps) by lia.
  assert (Htot : 0 < total).
  { unfold total. rewrite Z.shiftl_1_l. apply Z.pow_pos_nonneg; lia. }
  exists (SplitSummary total pg ps ((total + ps - 1) / ps)). simpl. split_and!.
  - do 2 f_equal. apply split_page_rows; nia.
  - done.
  - done.
  - unfold split_rows. rewrite length_fmap.
    rewrite <- (length_fmap snd), enumerate_snd. unfold all_subnets.
    rewrite split_selected_length. fold total. lia.
  - pose proof (Z_div_mod_eq_full (total + ps - 1) ps).
    pose proof (Z.mod_pos_bound (total + ps - 1) ps). nia.
  - pose proof (Z_div_mod_eq_full (total + ps - 1) ps).
    pose proof (Z.mod_pos_bound (total + ps - 1) ps). nia.
Qed.

(** The second page of three of a /24 split into /26 subnets. *)
Lemma split_subnets_pages_witness :
  ∃ s, split_subnets (λ _, false) "192.168.1.0/24" 26 2 3 =
    inr (TableResult
           (take (Z.to_nat (ss_page_size s))
              (drop (Z.to_nat ((ss_page s - 1) * ss_page_size s))
                 (split_rows (Net (dotted 192 168 1 0) 24) 26))) (Some s) []).
Proof.
  destruct (split_subnets_pages (λ _, false) "192.168.1.0/24" (Net (dotted 192 168 1 0) 24)
              26 2 3 eq_refl) as [(s & Hs & _) _]; [split; reflexivity || discriminate|].
  exists s. exact Hs.
Defined.

(** ** Route summarization *)

(** Address [a] lies in one of the networks. *)
Definition covers (l : list net) (a : Z) : Prop := ∃ n, n ∈ l ∧ in_net a n = true.

Lemma covers_cons n l a : covers (n :: l) a ↔ in_net a n = true ∨ covers l a.
Proof. unfold covers. setoid_rewrite elem_of_cons. naive_solver. Qed.

Lemma covers_app l1 l2 a : covers (l1 ++ l2) a ↔ covers l1 a ∨ covers l2 a.
Proof. unfold covers. setoid_rewrite elem_of_app. naive_solver. Qed.

Lemma covers_perm l1 l2 a : l1 ≡ₚ l2 → covers l1 a ↔ covers l2 a.
Proof. intros H. unfold covers. by setoid_rewrite H. Qed.

Lemma supernet_spec n :
  net_wf n → n_prefix n ≠ 0 →
  supernet n = Net (n_addr n - n_addr n mod (2 * net_size (n_prefix n))) (n_prefix n - 1) ∧
  net_size (n_prefix n - 1) = 2 * net_size (n_prefix n).
Proof.
  intros (Hp & Ha & Hm) H0. unfold supernet. rewrite (proj2 (Z.eqb_neq _ _)) by done.
  assert (Hs : net_size (n_prefix n - 1) = 2 * net_size (n_prefix n)).
  { unfold net_size. rewrite <- Z.pow_succ_r by lia. f_equal. lia. }
  split; [|done]. unfold mk_net. by rewrite land_netmask, Hs by lia.
Qed.

Lemma supernet_wf n : net_wf n → net_wf (supernet n).
Proof.
  intros Hw. unfold supernet. destruct (Z.eqb_spec (n_prefix n) 0); [done|].
  destruct Hw as (Hp & Ha & _). apply mk_net_wf; lia.
Qed.

Lemma whole_space n : net_wf n → n_prefix n = 0 → n = Net 0 0.
Proof.
  intros (_ & Ha & Hm) Hp. destruct n as [a p]; simpl in *; subst. f_equal.
  change (net_size 0) with (ALL_ONES + 1) in Hm. rewrite Z.mod_small in Hm by lia. done.
Qed.

(** Two different networks with one supernet are its halves, up to the network
    of all addresses, which is its own supernet. *)
Lemma supernet_merge n m :
  net_wf n → net_wf m → n ≠ m → supernet m = supernet n →
  (∀ a, in_net a (supernet n) = true ↔ in_net a n = true ∨ in_net a m = true) ∧
  net_size (n_prefix (supernet n)) ≤ net_size (n_prefix n) + net_size (n_prefix m).
Proof.
  intros Hn Hm Hne Hs. pose proof (supernet_wf n Hn) as Hw.
  destruct (Z.eq_dec (n_prefix n) 0) as [En|En], (Z.eq_dec (n_prefix m) 0) as [Em|Em].
  - rewrite (whole_space n), (whole_space m) in Hne by done. done.
  - assert (Hsn : supernet n = n) by (unfold supernet; by rewrite En).
    destruct (supernet_spec m Hm Em) as [E1 E2]. pose proof Hm as (Hpm & Ham & _).
    rewrite Hsn in *. pose proof (net_size_pos (n_prefix m) (proj2 Hpm)).
    split; [|lia]. intros a. split; [auto|]. intros [?|H1]; [done|].
    rewrite (whole_space n) by done. rewrite in_net_spec in H1 |- * by (done || by apply (mk_net_wf 0 0)).
    pose proof (broadcast_bound m Hm) as Hb. rewrite broadcast_wf in Hb by done.
    simpl. change (net_size 0) with (ALL_ONES + 1). lia.
  - assert (Hsm : supernet m = m) by (unfold supernet; by rewrite Em).
    rewrite Hsm in Hs. rewrite <- Hs. pose proof Hn as (Hpn & Han & _).
    pose proof (net_size_pos (n_prefix n) (proj2 Hpn)). split; [|lia].
    intros a. split; [auto|].
    intros [H1|?]; [|done]. rewrite (whole_space m) by done.
    rewrite in_net_spec in H1 |- * by (done || by apply (mk_net_wf 0 0)).
    pose proof (broadcast_bound n Hn) as Hb. rewrite broadcast_wf in Hb by done.
    simpl. change (net_size 0) with (ALL_ONES + 1). lia.
  - destruct (supernet_spec n Hn En) as [E1 E2], (supernet_spec m Hm Em) as [F1 F2].
    rewrite E1, F1 in Hs. injection Hs as Hs1 Hs2.
    assert (Hpp : n_prefix m = n_prefix n) by lia. clear Hs2. rewrite Hpp in *.
    setoid_rewrite in_net_spec; try done. rewrite E1. simpl. rewrite E2, Hpp.
    pose proof Hn as (Hpn & Han & Hmn). pose proof Hm as (_ & Ham & Hmm). rewrite Hpp in Hmm.
    pose proof (net_size_pos (n_prefix n) (proj2 Hpn)) as Hpos.
    set (s := net_size (n_prefix n)) in *. split; [|lia].
    assert (Hh : ∀ x, x mod s = 0 → x mod (2 * s) = 0 ∨ x mod (2 * s) = s).
    { intros x Hx. apply Z.mod_divide in Hx as [k ->]; [|lia].
      rewrite Z.mul_mod_distr_r by lia. pose proof (Z.mod_pos_bound k 2).
      assert (k mod 2 = 0 ∨ k mod 2 = 1) as [-> | ->] by lia; lia. }
    assert (Hd : n_addr n ≠ n_addr m).
    { intros Hd. apply Hne. destruct n, m; simpl in *. by subst. }
    intros a. destruct (Hh _ Hmn), (Hh _ Hmm); lia.
Qed.

(** The loop of [collapse_addresses]: entries are filed under their supernet;
    the covered addresses stay the same and the total size does not grow. *)
Definition filed (subnets : list (net * net)) : Prop :=
  NoDup subnets.*1 ∧ Forall (λ kv, kv.1 = supernet kv.2 ∧ net_wf kv.2) subnets.

Notation total_size l := (sumZ ((λ n, net_size (n_prefix n)) <$> l)).

Lemma collapse_merge_step n subnets existing :
  filed subnets → alookup (supernet n) subnets = Some existing →
  subnets ≡ₚ (supernet n, existing) :: adelete (supernet n) subnets ∧
  filed (adelete (supernet n) subnets) ∧ net_wf existing ∧ supernet existing = supernet n.
Proof.
  intros [Hnd Hf] He. pose proof (adelete_perm _ _ _ Hnd He) as Hp.
  rewrite Hp, Forall_cons in Hf. destruct Hf as [[Hs Hw] Hf]. simpl in *.
  split_and!; try done. split; [by apply adelete_NoDup|done].
Qed.

Lemma collapse_merge_spec fuel to_merge subnets :
  (2 * length to_merge + length subnets ≤ fuel)%nat →
  Forall net_wf to_merge → filed subnets →
  let out := (collapse_merge fuel to_merge subnets).*2 in
  Forall net_wf out ∧
  (∀ a, covers out a ↔ covers to_merge a ∨ covers subnets.*2 a) ∧
  total_size out ≤ total_size to_merge + total_size subnets.*2.
Proof.
  revert to_merge subnets. induction fuel as [|fuel IH]; intros to_merge subnets Hfuel Hw Hf.
  { destruct to_merge, subnets; simpl in *; try lia. split_and!; [done|set_solver|done]. }
  destruct to_merge as [|n to_merge]; cbn [collapse_merge].
  { destruct Hf as [_ Hf]. split_and!.
    - apply Forall_fmap. eapply Forall_impl; [exact Hf|]. naive_solver.
    - intros a. split; [auto|]. intros [(x & H%not_elem_of_nil & _)|]; done.
    - unfold sumZ. simpl. lia. }
  apply Forall_cons in Hw as [Hn Hw]. rewrite fmap_cons, sumZ_cons.
  setoid_rewrite covers_cons. cbv zeta.
  pose proof (net_size_pos (n_prefix n) (proj2 (proj1 Hn))) as Hpos.
  destruct (alookup (supernet n) subnets) as [existing|] eqn:He.
  - destruct (collapse_merge_step n subnets existing Hf He) as (Hperm & Hf' & Hwe & Hse).
    assert (Hperm2 : subnets.*2 ≡ₚ existing :: (adelete (supernet n) subnets).*2)
      by exact (fmap_Permutation snd _ _ Hperm).
    setoid_rewrite (λ a, covers_perm _ _ a Hperm2).
    rewrite (sumZ_perm _ _ (fmap_Permutation (λ n, net_size (n_prefix n)) _ _ Hperm2)).
    setoid_rewrite covers_cons. rewrite fmap_cons, sumZ_cons.
    apply Permutation_length in Hperm. simpl in Hperm, Hfuel.
    destruct (decide (existing = n)) as [->|Hne].
    + destruct (IH to_merge subnets) as (H1 & H2 & H3); [lia|done..|].
      setoid_rewrite (λ a, covers_perm _ _ a Hperm2) in H2. setoid_rewrite covers_cons in H2.
      rewrite (sumZ_perm _ _ (fmap_Permutation (λ n, net_size (n_prefix n)) _ _ Hperm2)) in H3.
      rewrite fmap_cons, sumZ_cons in H3.
      split_and!; [done| |lia]. intros a. rewrite H2. tauto.
    + destruct (supernet_merge n existing) as [Hc Hsz]; [done..|congruence|done|].
      destruct (IH (supernet n :: to_merge) (adelete (supernet n) subnets)) as (H1 & H2 & H3).
      { simpl. lia. } { constructor; [by apply supernet_wf|done]. } { done. }
      setoid_rewrite covers_cons in H2. rewrite fmap_cons, sumZ_cons in H3.
      split_and!; [done| |lia]. intros a. rewrite H2, Hc. tauto.
  - rewrite ainsert_None by done.
    destruct (IH to_merge (subnets ++ [(supernet n, n)])) as (H1 & H2 & H3).
    { rewrite length_app. simpl in *. lia. } { done. }
    { destruct Hf as [Hnd Hf]. split.
      - rewrite fmap_app. apply NoDup_app. split_and!; [done| |apply NoDup_singleton].
        apply alookup_None in He. set_solver.
      - apply Forall_app. split; [done|]. by apply Forall_singleton. }
    rewrite fmap_app in H2, H3. rewrite fmap_app, sumZ_app in H3.
    setoid_rewrite covers_app in H2. split_and!; [done| |].
    + intros a. rewrite H2.
      assert (Hnil : ¬ covers [] a) by (intros (x & []%not_elem_of_nil & _)).
      change (covers [(supernet n, n)].*2 a) with (covers [n] a). rewrite covers_cons. clear -Hnil. tauto.
    + change (total_size [(supernet n, n)].*2) with (net_size (n_prefix n) + 0) in H3. lia.
Qed.

Lemma net_leb_total x y : net_leb x y = true ∨ net_leb y x = true.
Proof.
  unfold net_leb. destruct (Z.ltb_spec (n_addr x) (n_addr y)); [by left|].
  destruct (Z.ltb_spec (n_addr y) (n_addr x)); [by right|]. simpl.
  replace (n_addr x) with (n_addr y) by lia. rewrite Z.eqb_refl. simpl.
  destruct (Z.leb_spec (netmask x) (netmask y)); [by left|right]. apply Z.leb_le. lia.
Qed.

Lemma net_leb_spec x y : net_leb x y = true ↔
  n_addr x < n_addr y ∨ n_addr x = n_addr y ∧ netmask x ≤ netmask y.
Proof. unfold net_leb. by rewrite orb_true_iff, andb_true_iff, Z.ltb_lt, Z.eqb_eq, Z.leb_le. Qed.

Lemma net_leb_trans x y z : net_leb x y = true → net_leb y z = true → net_leb x z = true.
Proof. rewrite !net_leb_spec. lia. Qed.

(** In order, a network that is not covered by the one before begins after it. *)
Lemma net_leb_disjoint m n :
  net_wf m → net_wf n → net_leb m n = true → broadcast m < broadcast n →
  broadcast m < n_addr n.
Proof.
  intros Hm Hn Hle Hb. apply net_leb_spec in Hle.
  destruct (Z.lt_ge_cases (broadcast m) (n_addr n)) as [|Ho]; [done|exfalso].
  pose proof (broadcast_bound m Hm). pose proof (broadcast_bound n Hn).
  assert (Him : in_net (n_addr n) m = true).
  { unfold in_net. rewrite !(proj2 (Z.leb_le _ _)) by lia. done. }
  assert (Hin : in_net (n_addr n) n = true).
  { unfold in_net. rewrite !(proj2 (Z.leb_le _ _)) by lia. done. }
  rewrite !netmask_wf in Hle by done.
  destruct (Z.le_ge_cases (n_prefix m) (n_prefix n)) as [Hp|Hp].
  - pose proof (net_nested m n _ Hm Hn Hp Him Hin). lia.
  - pose proof (net_nested n m _ Hn Hm Hp Hin Him).
    rewrite !broadcast_wf in * by done. lia.
Qed.

Notation apart := (λ a b : net, broadcast a < n_addr b).

Lemma drop_covered_spec last l :
  Forall net_wf l → StronglySorted (λ a b, net_leb a b = true) l →
  (∀ m, last = Some m → net_wf m ∧ Forall (λ n, net_leb m n = true) l) →
  StronglySorted apart (drop_covered last l) ∧
  (∀ m, last = Some m → Forall (apart m) (drop_covered last l)) ∧
  (∀ a, covers (drop_covered last l) a ∨ (∃ m, last = Some m ∧ in_net a m = true) ↔
        covers l a ∨ (∃ m, last = Some m ∧ in_net a m = true)) ∧
  total_size (drop_covered last l) ≤ total_size l.
Proof.
  revert last. induction l as [|n l IH]; intros last Hw Hs Hl; cbn [drop_covered].
  { split_and!; [constructor|by constructor|naive_solver|done]. }
  apply Forall_cons in Hw as [Hn Hw]. apply StronglySorted_inv in Hs as [Hs Hd].
  pose proof (net_size_pos (n_prefix n) (proj2 (proj1 Hn))) as Hpos.
  rewrite fmap_cons, sumZ_cons. setoid_rewrite covers_cons.
  destruct (match last with Some m => broadcast n <=? broadcast m | None => false end) eqn:E.
  - destruct last as [m|]; [|done]. bool_to_prop. destruct (Hl m eq_refl) as [Hm Hmn].
    apply Forall_cons in Hmn as [Hmn Hml].
    destruct (IH (Some m) Hw Hs) as (H1 & H2 & H3 & H4); [by intros ? [= <-]|].
    split_and!; [done|done| |lia]. intros a. rewrite H3. split; [naive_solver|].
    intros [[H|H]|H]; [|naive_solver..]. right. exists m. split; [done|].
    unfold in_net in *. apply net_leb_spec in Hmn. bool_to_prop.
    rewrite !(proj2 (Z.leb_le _ _)) by lia. done.
  - destruct (IH (Some n) Hw Hs) as (H1 & H2 & H3 & H4); [by intros ? [= <-]|].
    rewrite fmap_cons, sumZ_cons. specialize (H2 n eq_refl).
    split_and!; [by constructor| | |lia].
    + intros m ->. bool_to_prop. destruct (Hl m eq_refl) as [Hm Hmn].
      apply Forall_cons in Hmn as [Hmn Hml].
      pose proof (net_leb_disjoint m n Hm Hn Hmn E). constructor; [done|].
      eapply Forall_impl; [exact H2|]. intros x Hx. simpl in *.
      pose proof (broadcast_bound n Hn). lia.
    + intros a. rewrite covers_cons. specialize (H3 a).
      assert (Hn' : (∃ m, Some n = Some m ∧ in_net a m = true) ↔ in_net a n = true).
      { split; [by intros (? & [= <-] & ?)|by exists n]. }
      clear -H3 Hn'. tauto.
Qed.

Lemma drop_covered_Forall (P : net → Prop) last l :
  Forall P l → Forall P (drop_covered last l).
Proof.
  intros H. revert last. induction H as [|n l Hn Hl IH]; intros last; simpl; [done|].
  destruct (match last with Some _ => _ | None => _ end); [done|by constructor].
Qed.

Lemma collapse_addresses_spec l :
  Forall net_wf l →
  StronglySorted apart (collapse_addresses l) ∧
  (∀ a, covers (collapse_addresses l) a ↔ covers l a) ∧
  Forall net_wf (collapse_addresses l) ∧
  total_size (collapse_addresses l) ≤ total_size l.
Proof.
  intros Hw. unfold collapse_addresses.
  destruct (collapse_merge_spec (2 * length l) (rev l) []) as (H1 & H2 & H3).
  { rewrite length_rev. simpl. lia. }
  { by rewrite rev_perm. }
  { split; [apply NoDup_nil_2|by apply Forall_nil]. }
  set (out := (collapse_merge _ _ _).*2) in *. clearbody out.
  pose proof (sort_by_perm net_leb out) as Hp.
  rewrite <- Hp in H1.
  destruct (drop_covered_spec None (sort_by net_leb out) H1
              (sort_by_sorted net_leb net_leb_total net_leb_trans out))
    as (D1 & _ & D3 & D4); [done|].
  rewrite (sumZ_perm _ _ (fmap_Permutation (λ n, net_size (n_prefix n)) _ _ Hp)) in D4.
  rewrite (sumZ_perm _ _ (fmap_Permutation (λ n, net_size (n_prefix n)) _ _
                            (rev_perm l))) in H3.
  change (total_size (@nil (net * net)).*2) with 0 in H3.
  split_and!; [done| |by apply drop_covered_Forall|lia].
  intros a. specialize (D3 a). rewrite (covers_perm _ _ a Hp) in D3.
  specialize (H2 a). rewrite (covers_perm _ _ a (rev_perm l)) in H2.
  assert (¬ covers (@nil (net * net)).*2 a) by (intros (x & Hx & _); set_solver).
  naive_solver.
Qed.

Lemma num_addresses_total l :
  Forall net_wf l → sumZ (num_addresses <$> l) = total_size l.
Proof.
  induction 1 as [|n l Hn Hl IH]; [done|].
  by rewrite !fmap_cons, !sumZ_cons, IH, num_addresses_wf.
Qed.

Lemma read_lines_Forall {A} (P : A → Prop) (read : string → verr A) l :
  (∀ t x, read t = inr x → P x) → Forall P (read_lines read l).1.
Proof.
  intros Hr. induction l as [|[no raw] l IH]; simpl; [done|].
  destruct (read_lines read l) as [xs errs]. simpl in *. destruct (String.eqb _ _); [done|].
  destruct (read (strip raw)) eqn:E; simpl; [done|]. constructor; [by eapply Hr|done].
Qed.

(** Route summarization is exact.  When every line is a network, the rows
    are networks in ascending order, pairwise disjoint, that cover exactly the
    addresses of the input (whatever the order Python takes the set in);
    their total never exceeds the input total, so the reported number of wasted
    addresses is always 0. *)
Theorem summarize_routes_exact is_v6 set_order text networks :
  (∀ l, NoDup (set_order l) ∧ ∀ n, n ∈ set_order l ↔ n ∈ l) →
  read_lines (parse_ipv4_network is_v6) (enumerate 1 (splitlines text)) = (networks, []) →
  ∃ collapsed s,
    summarize_routes is_v6 set_order text =
      TableResult (route_row_of <$> collapsed) (Some s) [] ∧
    StronglySorted apart collapsed ∧ Forall net_wf collapsed ∧
    (∀ a, covers collapsed a ↔ covers networks a) ∧
    rs_summary_total_addresses s ≤ rs_input_total_addresses s ∧
    rs_wasted_addresses s = 0.
Proof.
  intros Hset Hr. unfold summarize_routes. rewrite Hr. simpl. unfold summarize_networks.
  pose proof (read_lines_Forall net_wf (parse_ipv4_network is_v6)
    (enumerate 1 (splitlines text)) (parse_ipv4_network_wf is_v6)) as Hw.
  rewrite Hr in Hw. simpl in Hw.
  set (unique := sort_by _ (set_order networks)).
  assert (Hu : ∀ n, n ∈ unique ↔ n ∈ networks).
  { intros n. unfold unique. rewrite sort_by_in. apply Hset. }
  assert (Hwu : Forall net_wf unique).
  { apply Forall_forall. intros n Hn. rewrite Forall_forall in Hw. by apply Hw, Hu. }
  destruct (collapse_addresses_spec unique Hwu) as (H1 & H2 & H3 & H4).
  rewrite !num_addresses_total by done.
  eexists _, _. split; [reflexivity|]. simpl. split_and!; [done|done| |done|lia].
  intros a. rewrite H2. unfold covers. by setoid_rewrite Hu.
Qed.

Lemma summarize_routes_exact_witness :
  ∃ collapsed s,
    summarize_routes (λ _, false) remove_dups "10.0.0.0/25 
10.0.0.128/25
10.0.0.7" = TableResult (route_row_of <$> collapsed) (Some s) [] ∧
    StronglySorted apart collapsed.
Proof.
  destruct (summarize_routes_exact (λ _, false) remove_dups "10.0.0.0/25 
10.0.0.128/25
10.0.0.7" [Net (dotted 10 0 0 0) 25; Net (dotted 10 0 0 128) 25; Net (dotted 10 0 0 7) 32])
    as (collapsed & s & H1 & H2 & _).
  - intros l. split; [apply NoDup_remove_dups|intros; apply elem_of_remove_dups].
  - vm_compute. reflexivity.
  - exists collapsed, s. split; assumption.
Defined.

(** ** Network details *)
Lemma parse_ipv4_network_str is_v6 n :
  net_wf n → parse_ipv4_network is_v6 (net_str n) = inr n.
Proof.
  intros Hw. pose proof (net_str_no_space n (proj1 Hw)) as Hs.
  unfold parse_ipv4_network. rewrite strip_no_space, words_no_space by (done || apply net_str_nonempty).
  cbn [join]. rewrite (proj2 (String.eqb_neq _ _)) by apply net_str_nonempty.
  replace (has_char "/" (net_str n)) with true.
  - by rewrite andb_false_r, parse_net_str.
  - unfold net_str. rewrite !has_char_app. by rewrite orb_true_r.
Qed.

Lemma ipv4_usable_bounds_spec n :
  net_wf n →
  ∃ first last, ipv4_usable_bounds n = (last - first + 1, Some first, Some last) ∧
    in_net first n = true ∧ in_net last n = true ∧
    last - first + 1 = net_size (n_prefix n) - (if n_prefix n <? 31 then 2 else 0).
Proof.
  intros Hw. pose proof (net_size_pos (n_prefix n) (proj2 (proj1 Hw))) as Hpos.
  unfold ipv4_usable_bounds. rewrite num_addresses_wf, broadcast_wf by done.
  setoid_rewrite in_net_spec; [|done..]. destruct (Z.leb_spec 31 (n_prefix n)).
  - rewrite (proj2 (Z.ltb_ge _ _)) by lia. eexists _, _.
    split; [f_equal; f_equal; lia|]. lia.
  - rewrite (proj2 (Z.ltb_lt _ _)) by lia.
    assert (4 ≤ net_size (n_prefix n)).
    { unfold net_size. change 4 with (2 ^ 2). apply Z.pow_le_mono_r; lia. }
    rewrite (proj2 (Z.leb_gt _ _)) by lia. eexists _, _.
    split; [f_equal; f_equal; lia|]. lia.
Qed.

(** What [ipv4_calculate] reports describes a well-formed network, which its
    CIDR text reads back to, and the usable addresses are counted exactly: the
    two bounds always exist, lie inside the network, and enclose as many
    addresses as reported, all but the network and broadcast addresses below a
    /31. *)
Theorem ipv4_calculate_correct is_v6 text info :
  ipv4_calculate is_v6 text = inr info →
  ∃ n first last, net_wf n ∧ info = ipv4_info_of text n ∧
    ipv4_calculate is_v6 (i_cidr info) = inr (ipv4_info_of (i_cidr info) n) ∧
    i_total_addresses info = net_size (n_prefix n) ∧
    i_first_usable info = addr_str first ∧ i_last_usable info = addr_str last ∧
    in_net first n = true ∧ in_net last n = true ∧
    i_usable_hosts info = last - first + 1 ∧
    i_usable_hosts info = i_total_addresses info - (if n_prefix n <? 31 then 2 else 0).
Proof.
  unfold ipv4_calculate. destruct (parse_ipv4_network is_v6 text) as [m|n] eqn:E; [done|].
  intros [= <-]. apply parse_ipv4_network_wf in E as Hw.
  assert (Hc : i_cidr (ipv4_info_of text n) = net_str n).
  { unfold ipv4_info_of. by destruct (ipv4_usable_bounds n) as [[??]?]. }
  rewrite Hc, parse_ipv4_network_str by done.
  destruct (ipv4_usable_bounds_spec n Hw) as (first & last & Hb & Hf & Hl & Hu).
  exists n, first, last. unfold ipv4_info_of. rewrite Hb. simpl.
  rewrite num_addresses_wf by done. split_and!; done.
Qed.

Lemma ipv4_calculate_correct_witness :
  ∃ n first last, n_prefix n = 30 ∧ n_addr n = dotted 10 1 2 0 ∧ last - first + 1 = 2.
Proof.
  destruct (ipv4_calculate_correct (λ _, false) " 10.1.2.3  255.255.255.252"
              (ipv4_info_of " 10.1.2.3  255.255.255.252" (Net (dotted 10 1 2 0) 30)) eq_refl)
    as (n & first & last & _ & Hi & _ & _ & _ & _ & _ & _ & Hu & _).
  exists (Net (dotted 10 1 2 0) 30), first, last. split_and!; [reflexivity|reflexivity|].
  rewrite <- Hu. reflexivity.
Defined.
