(* ===== verification/WorkerProtocol.v ===== *)
(** * Worker protocol (services/job_center/worker_protocol.py)

    The JSON-lines protocol a background worker speaks on its standard output:
    [parse_event_line] normalises one frame, [parse_worker_event_line] also
    validates it and names the fatal reason, [feed_jsonl] splits a stream into
    frames.  [json_loads] stands for [json.loads]; [None] is a
    [JSONDecodeError].  The last section models the incremental strict UTF-8
    decoder of utils/text_encoding.py at byte level. *)

From S2P Require Import Prelude PyVal.

Definition WORKER_EVENT_TYPES : list string :=
  ["progress"; "log"; "finished"; "error"; "cancelled"].
Definition WORKER_PROTOCOL_MAX_FRAME_BYTES : Z := 1048576.

(** ** Normalisation of one decoded frame *)

(** The legacy event names and the defaults they bring. *)
Definition legacy_event_type (event : dict) : string * dict :=
  let event_type := py_str (por (dget "type" event) (por (dget "event" event) (PStr ""))) in
  if String.eqb event_type "started" then
    ("progress", dsetdefault "total" (PInt 0) (dsetdefault "current" (PInt 0) event))
  else if String.eqb event_type "success" then
    ("finished", dsetdefault "ok" (PBool true) event)
  else if String.eqb event_type "failed" then
    ("error", dsetdefault "ok" (PBool false) event)
  else if String.eqb event_type "result" then
    (if truthy (dget "ok" event) then "finished" else "error", event)
  else (event_type, event).

(** The rest of [parse_event_line] after [json.loads]: [int(done)] is evaluated
    even when [current] is present, so it can raise. *)
Definition normalize_event (value : dict) : res dict :=
  let '(event_type, event) := legacy_event_type value in
  let event :=
    if String.eqb event_type "cancelled" then
      dsetdefault "ok" (PBool false) (dset "cancelled" (PBool true) event)
    else event in
  let event := dset "type" (PStr event_type) event in
  let event := dsetdefault "job_id" (PStr "") event in
  let event := dsetdefault "stage" (PStr "") event in
  done ← to_int (por (dget "done" event) (PInt 0));
  let event := dsetdefault "current" (PInt done) event in
  let event := dsetdefault "total" (PInt 0) event in
  let event := dsetdefault "message"
    (por (dget "error_message" event) (por (dget "error" event) (PStr ""))) event in
  let event := dsetdefault "result" PNone event in
  let event := dsetdefault "error" (por (dget "error_message" event) (PStr "")) event in
  let event := dsetdefault "traceback" (PStr "") event in
  let event := dsetdefault "cancelled" (PBool false) event in
  Ok event.

(** ** Schema of an accepted frame *)
Definition is_PStr (v : pyval) : bool := match v with PStr _ => true | _ => false end.
Definition is_PInt (v : pyval) : bool := match v with PInt _ => true | _ => false end.
Definition is_PBool (v : pyval) : bool := match v with PBool _ => true | _ => false end.
Definition is_result (v : pyval) : bool :=
  match v with PNone | PDict _ => true | _ => false end.

(** The checks of [parse_worker_event_line] in order; [""] when all pass. *)
Definition validate_event (event : dict) : string :=
  if negb (str_mem (text_or_empty (dget "type" event)) WORKER_EVENT_TYPES) then
    "worker_protocol_unexpected_message"
  else if negb (str_nonempty (strip (text_or_empty (dget "job_id" event)))) then
    "worker_protocol_schema_invalid"
  else if negb (forallb (λ k, is_PStr (dget k event)) ["stage"; "message"; "error"; "traceback"]) then
    "worker_protocol_schema_invalid"
  else if negb (forallb (λ k, is_PInt (dget k event)) ["current"; "total"]) then
    "worker_protocol_schema_invalid"
  else if negb (is_PBool (dget "cancelled" event)) then
    "worker_protocol_schema_invalid"
  else if negb (is_result (dget "result" event)) then
    "worker_protocol_schema_invalid"
  else "".

Definition PROTOCOL_REASONS : list string :=
  ["worker_protocol_schema_invalid"; "worker_protocol_json_invalid";
   "worker_protocol_unexpected_message"].

Section protocol.
Context (json_loads : string → option pyval).

Definition parse_event_line (line : string) : res (option dict) :=
  let text := strip line in
  if String.eqb text "" then Ok None
  else match json_loads text with
       | Some (PDict value) => event ← normalize_event value; Ok (Some event)
       | _ => Ok None
       end.

(** [Err] is an exception that escapes the function: only [TypeError] and
    [ValueError] are caught. *)
Definition parse_worker_event_line (line : string) : res (option dict * string) :=
  let text := strip line in
  if String.eqb text "" then Ok (None, "worker_protocol_schema_invalid")
  else match json_loads text with
       | None => Ok (None, "worker_protocol_json_invalid")
       | Some (PDict _) =>
           match parse_event_line text with
           | Err TypeError | Err ValueError => Ok (None, "worker_protocol_schema_invalid")
           | Err e => Err e
           | Ok None => Ok (None, "worker_protocol_schema_invalid")
           | Ok (Some event) =>
               let reason := validate_event event in
               if String.eqb reason "" then Ok (Some event, "") else Ok (None, reason)
           end
       | Some _ => Ok (None, "worker_protocol_schema_invalid")
       end.

(** One raw line of [feed_jsonl]: skipped, an event or a diagnostic. *)
Definition feed_line (raw_line : string) (acc : list dict * list string)
    : res (list dict * list string) :=
  let line := strip raw_line in
  if String.eqb line "" then Ok acc
  else
    ev ← parse_event_line line;
    Ok (match ev with
        | None => (acc.1, acc.2 ++ [line])
        | Some event => (acc.1 ++ [event], acc.2)
        end).

Fixpoint feed_lines (lines : list string) (acc : list dict * list string)
    : res (list dict * list string) :=
  match lines with
  | [] => Ok acc
  | l :: rest => acc' ← feed_line l acc; feed_lines rest acc'
  end.

Definition newline : ascii := "010"%char.

Definition feed_jsonl (buffer chunk : string) : res (list dict * list string * string) :=
  let lines := split_on newline (buffer +:+ chunk) in
  let remainder := List.last lines "" in
  out ← feed_lines (removelast lines) ([], []);
  Ok (out.1, out.2, remainder).
End protocol.

(** [encode_event] with the frame bound of [encode_event_bytes]; [dumps] is
    [json.dumps(..., ensure_ascii=True)]. *)
Section encode.
Context (json_dumps : pyval → string).

Definition encode_event (event : dict) : string :=
  json_dumps (PDict event) +:+ String newline "".

Definition encode_event_bytes (event : dict) : res string :=
  let payload := encode_event event in
  if WORKER_PROTOCOL_MAX_FRAME_BYTES <? byte_len payload
  then Err (RuntimeError "WorkerProtocolFrameTooLarge")
  else Ok payload.
End encode.

(** ** Incremental strict UTF-8 decoding *)

(** State of the decoder: decoded text, bytes of the open sequence, number of
    continuation bytes still needed and the range of the next one. *)
Record utf8_state := Utf8 {
  u_out : string; u_acc : string; u_need : nat; u_lo : Z; u_hi : Z }.

Definition utf8_init : utf8_state := Utf8 "" "" 0 128 191.

(** Lead byte: continuation bytes needed and range of the first of them. *)
Definition utf8_lead (n : Z) : option (nat * Z * Z) :=
  if (194 <=? n) && (n <=? 223) then Some (1%nat, 128, 191)
  else if n =? 224 then Some (2%nat, 160, 191)
  else if n =? 237 then Some (2%nat, 128, 159)
  else if (225 <=? n) && (n <=? 239) then Some (2%nat, 128, 191)
  else if n =? 240 then Some (3%nat, 144, 191)
  else if (241 <=? n) && (n <=? 243) then Some (3%nat, 128, 191)
  else if n =? 244 then Some (3%nat, 128, 143)
  else None.

Definition snoc (s : string) (c : ascii) : string := s +:+ String c "".

Definition utf8_step (st : utf8_state) (c : ascii) : option utf8_state :=
  let n := byte_of c in
  match u_need st with
  | O =>
      if n <? 128 then Some (Utf8 (snoc (u_out st) c) "" 0 128 191)
      else '(need, lo, hi) ← utf8_lead n; Some (Utf8 (u_out st) (String c "") need lo hi)
  | S k =>
      if (u_lo st <=? n) && (n <=? u_hi st) then
        match k with
        | O => Some (Utf8 (u_out st +:+ snoc (u_acc st) c) "" 0 128 191)
        | _ => Some (Utf8 (u_out st) (snoc (u_acc st) c) k 128 191)
        end
      else None
  end.

Fixpoint utf8_run (st : utf8_state) (s : string) : option utf8_state :=
  match s with
  | "" => Some st
  | String c s' => st' ← utf8_step st c; utf8_run st' s'
  end.

(** [decoder.decode(data, final=...)]: decoded text and pending bytes; [None] is
    a [UnicodeDecodeError]. *)
Definition utf8_decode (pending data : string) (final : bool) : option (string * string) :=
  st ← utf8_run utf8_init (pending +:+ data);
  if final && str_nonempty (u_acc st) then None else Some (u_out st, u_acc st).

(** ** Lemmas on splitting *)

Lemma removelast_last_split sep s :
  split_on sep s = removelast (split_on sep s) ++ [List.last (split_on sep s) ""].
Proof. apply app_removelast_last, split_on_nonempty. Qed.

(** Splitting a concatenation: the last piece of the first text is completed by
    the second. *)
Lemma split_on_concat sep s t :
  split_on sep (s +:+ t) =
    removelast (split_on sep s) ++ split_on sep (List.last (split_on sep s) "" +:+ t).
Proof.
  induction s as [|c s IH]; [done|]. rewrite string_app_cons. simpl.
  pose proof (split_on_nonempty sep s) as Hne.
  destruct (Ascii.eqb c sep) eqn:E.
  - rewrite IH. destruct (split_on sep s) eqn:Es; [done|]. done.
  - rewrite IH. destruct (split_on sep s) as [|w [|w' ws]] eqn:Es; [done| |].
    + simpl. by rewrite E.
    + simpl. done.
Qed.

Lemma last_split_concat sep s t :
  List.last (split_on sep (s +:+ t)) "" =
    List.last (split_on sep (List.last (split_on sep s) "" +:+ t)) "".
Proof.
  rewrite split_on_concat.
  destruct (split_on sep (List.last (split_on sep s) "" +:+ t)) eqn:E using rev_ind.
  - by apply split_on_nonempty in E.
  - by rewrite app_assoc, !List.last_last.
Qed.

Lemma removelast_split_concat sep s t :
  removelast (split_on sep (s +:+ t)) =
    removelast (split_on sep s) ++
    removelast (split_on sep (List.last (split_on sep s) "" +:+ t)).
Proof. rewrite split_on_concat. apply removelast_app, split_on_nonempty. Qed.

(** ** Lemmas on normalisation and validation *)

Lemma validate_event_reason ev :
  validate_event ev = "" ∨ validate_event ev ∈ PROTOCOL_REASONS.
Proof. unfold validate_event, PROTOCOL_REASONS. split_ifs; set_solver. Qed.

Lemma normalize_event_type v ev :
  normalize_event v = Ok ev →
  ∃ t, dget "type" ev = PStr t ∧ (t = "cancelled" → dget "cancelled" ev = PBool true).
Proof.
  unfold normalize_event. destruct (legacy_event_type v) as [t d].
  intros [n [_ Hev]]%res_bind_Ok. apply Ok_inj in Hev. subst ev. exists t. split.
  - dict_simpl.
  - intros ->. change (String.eqb "cancelled" "cancelled") with true.
    dict_simpl.
Qed.

Lemma validate_event_ok ev :
  validate_event ev = "" →
  text_or_empty (dget "type" ev) ∈ WORKER_EVENT_TYPES ∧
  strip (text_or_empty (dget "job_id" ev)) ≠ "" ∧
  (∀ k, k ∈ ["stage"; "message"; "error"; "traceback"] → is_PStr (dget k ev) = true) ∧
  (∀ k, k ∈ ["current"; "total"] → is_PInt (dget k ev) = true) ∧
  is_PBool (dget "cancelled" ev) = true ∧ is_result (dget "result" ev) = true.
Proof.
  unfold validate_event. intros H.
  repeat match type of H with
  | (if negb ?b then _ else _) = _ => destruct b eqn:?; cbn [negb] in H; [|discriminate]
  end.
  repeat match goal with
  | E : str_mem _ _ = true |- _ => rewrite str_mem_iff in E
  | E : forallb _ _ = true |- _ => rewrite forallb_forall in E
  end.
  unfold str_nonempty in *. bool_to_prop.
  repeat split; try done; intros k Hk%list_elem_of_In; auto.
Qed.

(** What a validated frame is, as the runtime relies on it. *)
Record worker_event (ev : dict) : Prop := {
  we_type : ∃ t, dget "type" ev = PStr t ∧ t ∈ WORKER_EVENT_TYPES;
  we_job : strip (text_or_empty (dget "job_id" ev)) ≠ "";
  we_texts : ∀ k, k ∈ ["stage"; "message"; "error"; "traceback"] →
    ∃ s, dget k ev = PStr s;
  we_counts : ∀ k, k ∈ ["current"; "total"] → ∃ z, dget k ev = PInt z;
  we_cancelled : ∃ b, dget "cancelled" ev = PBool b;
  we_result : dget "result" ev = PNone ∨ ∃ d, dget "result" ev = PDict d;
  we_cancel_flag : dget "type" ev = PStr "cancelled" → dget "cancelled" ev = PBool true }.

Lemma is_PStr_iff v : is_PStr v = true ↔ ∃ s, v = PStr s.
Proof. destruct v; naive_solver. Qed.
Lemma is_PInt_iff v : is_PInt v = true ↔ ∃ z, v = PInt z.
Proof. destruct v; naive_solver. Qed.
Lemma is_PBool_iff v : is_PBool v = true ↔ ∃ b, v = PBool b.
Proof. destruct v; naive_solver. Qed.
Lemma is_result_iff v : is_result v = true ↔ v = PNone ∨ ∃ d, v = PDict d.
Proof. destruct v; naive_solver. Qed.

Lemma normalized_worker_event v ev :
  normalize_event v = Ok ev → validate_event ev = "" → worker_event ev.
Proof.
  intros (t & Ht & Hc)%normalize_event_type Hv%validate_event_ok.
  destruct Hv as (H1 & H2 & H3 & H4 & H5 & H6).
  rewrite Ht, text_or_empty_PStr in H1. split.
  - eauto.
  - done.
  - intros k Hk. by apply is_PStr_iff, H3.
  - intros k Hk. by apply is_PInt_iff, H4.
  - by apply is_PBool_iff.
  - by apply is_result_iff.
  - rewrite Ht. intros [= ->]. auto.
Qed.

Section protocol_facts.
Context (json_loads : string → option pyval).

Lemma parse_event_line_Ok line ev :
  parse_event_line json_loads line = Ok (Some ev) → ∃ v, normalize_event v = Ok ev.
Proof.
  unfold parse_event_line. destruct (String.eqb _ _); [done|].
  destruct (json_loads _) as [[]|]; try done.
  intros (ev' & Hn & E)%res_bind_Ok. injection E as ->. eauto.
Qed.

Lemma parse_worker_event_line_inv line r :
  parse_worker_event_line json_loads line = Ok r →
  (∃ ev, r = (Some ev, "") ∧ worker_event ev) ∨
  (∃ reason, r = (None, reason) ∧ reason ∈ PROTOCOL_REASONS).
Proof.
  unfold parse_worker_event_line.
  assert (Hi : ∀ x, x ∈ PROTOCOL_REASONS → Ok (None, x) = Ok r →
    ∃ reason, r = (None, reason) ∧ reason ∈ PROTOCOL_REASONS).
  { intros x Hx [= <-]. eauto. }
  destruct (String.eqb _ _); intros E; [right; refine (Hi _ _ E); set_solver|].
  destruct (json_loads _) as [[]|]; try (right; refine (Hi _ _ E); set_solver).
  destruct (parse_event_line _ _) as [[ev|]|[]] eqn:Ep;
    try (right; refine (Hi _ _ E); set_solver); try done.
  destruct (String.eqb (validate_event ev) "") eqn:Ev.
  - apply String.eqb_eq in Ev. apply Ok_inj in E as <-. left. exists ev. split; [done|].
    apply parse_event_line_Ok in Ep as [v Hv]. by eapply normalized_worker_event.
  - apply String.eqb_neq in Ev. right. refine (Hi _ _ E).
    by destruct (validate_event_reason ev).
Qed.
End protocol_facts.

(** ** Framing *)
Section framing_facts.
Context (J : string → option pyval).

Lemma feed_lines_app l1 l2 acc :
  feed_lines J (l1 ++ l2) acc = (acc' ← feed_lines J l1 acc; feed_lines J l2 acc').
Proof.
  revert acc. induction l1 as [|l l1 IH]; intros acc; simpl; [done|].
  destruct (feed_line J l acc); simpl; auto.
Qed.

Lemma feed_line_acc l acc :
  feed_line J l acc =
    (out ← feed_line J l ([], []); Ok (acc.1 ++ out.1, acc.2 ++ out.2)).
Proof.
  unfold feed_line. destruct (String.eqb _ _); simpl.
  - by rewrite !app_nil_r, <- surjective_pairing.
  - destruct (parse_event_line _ _) as [[e|]|]; simpl; by rewrite ?app_nil_r.
Qed.

Lemma feed_lines_acc ls acc :
  feed_lines J ls acc =
    (out ← feed_lines J ls ([], []); Ok (acc.1 ++ out.1, acc.2 ++ out.2)).
Proof.
  revert acc. induction ls as [|l ls IH]; intros acc; simpl.
  - by rewrite !app_nil_r, <- surjective_pairing.
  - rewrite feed_line_acc. destruct (feed_line J l ([], [])) as [o|]; simpl; [|done].
    rewrite (IH (_, _)), (IH o). destruct (feed_lines J ls ([], [])); simpl; [|done].
    by rewrite !(assoc_L (++)).
Qed.

Lemma feed_jsonl_eq buf chunk :
  feed_jsonl J buf chunk =
    (out ← feed_lines J (removelast (split_on newline (buf +:+ chunk))) ([], []);
     Ok (out.1, out.2, List.last (split_on newline (buf +:+ chunk)) "")).
Proof. done. Qed.

Lemma feed_jsonl_concat buf a b :
  feed_jsonl J buf (a +:+ b) =
    (x ← feed_jsonl J buf a;
     y ← feed_jsonl J x.2 b;
     Ok (x.1.1 ++ y.1.1, x.1.2 ++ y.1.2, y.2)).
Proof.
  rewrite !feed_jsonl_eq, <- string_app_assoc.
  rewrite removelast_split_concat, last_split_concat, feed_lines_app.
  destruct (feed_lines J _ ([], [])) as [o|]; simpl; [|done].
  rewrite feed_jsonl_eq, (feed_lines_acc _ o).
  destruct (feed_lines J _ ([], [])); simpl; done.
Qed.

(** One complete line in front of the stream. *)
Lemma feed_jsonl_line line rest :
  has_char newline line = false →
  feed_jsonl J "" (line +:+ String newline rest) =
    (x ← feed_line J line ([], []);
     y ← feed_jsonl J "" rest;
     Ok (x.1 ++ y.1.1, x.2 ++ y.1.2, y.2)).
Proof.
  intros Hl. rewrite !feed_jsonl_eq. simpl.
  change ("" +:+ (line +:+ String newline rest)) with (line +:+ String newline rest).
  change ("" +:+ rest) with rest.
  rewrite split_on_app by done.
  replace (removelast (line :: split_on newline rest))
    with (line :: removelast (split_on newline rest))
    by (pose proof (split_on_nonempty newline rest); by destruct (split_on newline rest)).
  replace (List.last (line :: split_on newline rest) "")
    with (List.last (split_on newline rest) "")
    by (pose proof (split_on_nonempty newline rest); by destruct (split_on newline rest)).
  simpl. destruct (feed_line J line ([], [])) as [o|]; simpl; [|done].
  rewrite (feed_lines_acc _ o). destruct (feed_lines J _ ([], [])); done.
Qed.
End framing_facts.

(** ** The UTF-8 decoder *)

Lemma utf8_run_app st a b :
  utf8_run st (a +:+ b) = (st' ← utf8_run st a; utf8_run st' b).
Proof.
  revert st. induction a as [|c a IH]; intros st; [done|].
  rewrite string_app_cons. simpl. destruct (utf8_step st c); simpl; auto.
Qed.

Lemma snoc_app s c t : snoc s c +:+ t = s +:+ String c t.
Proof. unfold snoc. by rewrite string_app_assoc. Qed.

Definition prepend_out (p : string) (st : utf8_state) : utf8_state :=
  Utf8 (p +:+ u_out st) (u_acc st) (u_need st) (u_lo st) (u_hi st).

(** The decoded text is only ever appended to. *)
Lemma utf8_step_out p st c :
  utf8_step (prepend_out p st) c = prepend_out p <$> utf8_step st c.
Proof.
  unfold utf8_step. destruct st as [o acc need lo hi]; simpl. destruct need as [|k].
  - destruct (_ <? 128); simpl; [by unfold prepend_out, snoc; simpl; rewrite string_app_assoc|].
    by destruct (utf8_lead _) as [[[]]|].
  - destruct (_ && _); [|done]. destruct k; simpl; [|done].
    unfold prepend_out. simpl. by rewrite string_app_assoc.
Qed.

Lemma utf8_run_out p st s :
  utf8_run (prepend_out p st) s = prepend_out p <$> utf8_run st s.
Proof.
  revert st. induction s as [|c s IH]; intros st; [done|]. simpl.
  rewrite utf8_step_out. destruct (utf8_step st c); simpl; auto.
Qed.

(** The open sequence alone leads back to the state it was read in. *)
Definition utf8_inv (st : utf8_state) : Prop :=
  utf8_run utf8_init (u_acc st) =
    Some (Utf8 "" (u_acc st) (u_need st) (u_lo st) (u_hi st)).

Lemma utf8_step_inv st c st' : utf8_inv st → utf8_step st c = Some st' → utf8_inv st'.
Proof.
  unfold utf8_inv, utf8_step. intros Hi. destruct (u_need st) as [|k] eqn:En.
  - destruct (_ <? 128) eqn:E1; [by intros [= <-]|].
    destruct (utf8_lead _) as [[[need lo] hi]|] eqn:El; [|done]. intros [= <-].
    simpl. unfold utf8_step. cbn [u_need utf8_init]. by rewrite E1, El.
  - destruct (_ && _) eqn:E1; [|done]. destruct k; intros [= <-]; [done|].
    simpl. unfold snoc. rewrite utf8_run_app, Hi. simpl.
    unfold utf8_step. simpl. by rewrite E1.
Qed.

Lemma utf8_run_inv st s st' : utf8_inv st → utf8_run st s = Some st' → utf8_inv st'.
Proof.
  revert st. induction s as [|c s IH]; simpl; intros st Hi H; [by simplify_eq|].
  destruct (utf8_step st c) eqn:E; [|done]. eauto using utf8_step_inv.
Qed.

(** Resuming from the pending bytes is resuming from the state. *)
Lemma utf8_resume st s :
  utf8_inv st →
  prepend_out (u_out st) <$> utf8_run utf8_init (u_acc st +:+ s) = utf8_run st s.
Proof.
  intros Hi. rewrite utf8_run_app, Hi. simpl. rewrite <- utf8_run_out.
  destruct st as [o acc need lo hi]. unfold prepend_out. simpl. by rewrite string_app_nil_r.
Qed.

Lemma utf8_decode_concat pending a b final t1 p1 :
  utf8_decode pending a false = Some (t1, p1) →
  utf8_decode pending (a +:+ b) final =
    ('(t2, p2) ← utf8_decode p1 b final; Some (t1 +:+ t2, p2)).
Proof.
  unfold utf8_decode. rewrite <- string_app_assoc, (utf8_run_app _ (_ +:+ a)).
  destruct (utf8_run utf8_init (pending +:+ a)) as [st|] eqn:E; simpl; [|done].
  intros [= <- <-]. rewrite <- utf8_resume by (by (eapply utf8_run_inv; [|exact E])).
  destruct (utf8_run utf8_init (u_acc st +:+ b)) as [st'|]; simpl; [|done].
  by destruct (final && _).
Qed.

(** ** Properties *)

Lemma to_int_err v e : to_int v = Err e → e = TypeError ∨ e = ValueError ∨ e = OverflowError.
Proof. destruct v as [| | |[]|s| |]; simpl; try naive_solver. destruct (parse_int s); naive_solver. Qed.

Lemma normalize_event_err v e :
  normalize_event v = Err e → e = TypeError ∨ e = ValueError ∨ e = OverflowError.
Proof.
  unfold normalize_event. destruct (legacy_event_type v) as [t d].
  match goal with |- (to_int ?x ≫= _) = _ → _ => destruct (to_int x) as [n|e'] eqn:E end.
  - discriminate.
  - simpl. intros [= <-]. by eapply to_int_err.
Qed.

Lemma parse_event_line_err J line e :
  parse_event_line J line = Err e → e = TypeError ∨ e = ValueError ∨ e = OverflowError.
Proof.
  unfold parse_event_line. destruct (String.eqb _ _); [done|].
  destruct (J _) as [[]|]; try done.
  destruct (normalize_event d) eqn:E; simpl; [done|]. intros [= <-].
  by eapply normalize_event_err.
Qed.

(** Every worker frame is classified: an accepted frame satisfies the whole
    event schema (with the cancellation flag set on [cancelled]), a refused one
    carries one of the three stable reasons, and the only exception that can
    escape is [OverflowError]. *)
Theorem worker_frame_classified J line :
  match parse_worker_event_line J line with
  | Ok (Some ev, reason) => reason = "" ∧ worker_event ev
  | Ok (None, reason) => reason ∈ PROTOCOL_REASONS
  | Err e => e = OverflowError
  end.
Proof.
  destruct (parse_worker_event_line J line) as [r|e] eqn:E.
  - apply parse_worker_event_line_inv in E as [(ev & -> & Hw)|(reason & -> & Hr)]; done.
  - unfold parse_worker_event_line in E. destruct (String.eqb _ _); [done|].
    destruct (J _) as [[]|]; try done.
    destruct (parse_event_line J (strip line)) as [[ev|]|[]] eqn:Ep; simplify_eq.
    + by destruct (String.eqb (validate_event ev) "").
    + done.
    + by apply parse_event_line_err in Ep as [|[|]].
    + by apply parse_event_line_err in Ep as [|[|]].
    + by apply parse_event_line_err in Ep as [|[|]].
Qed.

Lemma legacy_event_type_done v : dget "done" (legacy_event_type v).2 = dget "done" v.
Proof.
  unfold legacy_event_type. cbv zeta. split_ifs; cbn [snd]; dict_simpl.
Qed.

(** [int(done)] decides first: its exception is the exception of the frame. *)
Lemma normalize_event_done_err v e :
  to_int (por (dget "done" v) (PInt 0)) = Err e → normalize_event v = Err e.
Proof.
  unfold normalize_event. intros H. rewrite <- legacy_event_type_done in H.
  destruct (legacy_event_type v) as [t d]. cbn [snd] in H. cbv zeta.
  match goal with |- (to_int (por (dget "done" ?x) _) ≫= _) = _ =>
    replace (dget "done" x) with (dget "done" d) end.
  - by rewrite H.
  - symmetry. destruct (String.eqb t "cancelled"); dict_simpl.
Qed.

(** A frame whose [done] field is an infinite number (JSON [1e999]) is not
    refused: the [OverflowError] of [int] escapes the parser. *)
Theorem worker_frame_overflow_escapes J line d neg :
  strip line ≠ "" → J (strip line) = Some (PDict d) → dget "done" d = PFloat (FInf neg) →
  parse_worker_event_line J line = Err OverflowError.
Proof.
  intros Hs HJ Hd. unfold parse_worker_event_line, parse_event_line.
  apply String.eqb_neq in Hs. rewrite strip_idem, Hs, HJ.
  by rewrite (normalize_event_done_err d OverflowError) by (by rewrite Hd).
Qed.

Definition infinite_done_loads (text : string) : option pyval :=
  if String.eqb text "{1e999}" then
    Some (PDict [("type", PStr "log"); ("job_id", PStr "j"); ("done", PFloat (FInf false))])
  else None.

Lemma worker_frame_overflow_escapes_witness :
  parse_worker_event_line infinite_done_loads "{1e999}" = Err OverflowError.
Proof.
  apply (worker_frame_overflow_escapes infinite_done_loads "{1e999}"
    [("type", PStr "log"); ("job_id", PStr "j"); ("done", PFloat (FInf false))] false).
  - vm_compute. discriminate.
  - reflexivity.
  - reflexivity.
Defined.

(** Both readers of the worker's pipe fulfil the contract of chunked reading. *)
Definition glue_frames (x y : list dict * list string) : list dict * list string :=
  (x.1 ++ y.1, x.2 ++ y.2).

#[export] Instance feed_jsonl_reader J : ChunkReader glue_frames (feed_jsonl J).
Proof. intros buf a b. apply feed_jsonl_concat. Qed.

(** A read that is not the last; a [UnicodeDecodeError] is a [ValueError]. *)
Definition utf8_read (pending data : string) : res (string * string) :=
  match utf8_decode pending data false with Some r => Ok r | None => Err ValueError end.

Lemma utf8_decode_app pending a b final :
  utf8_decode pending (a +:+ b) final =
    ('(t1, p1) ← utf8_decode pending a false;
     '(t2, p2) ← utf8_decode p1 b final;
     Some (t1 +:+ t2, p2)).
Proof.
  destruct (utf8_decode pending a false) as [[t1 p1]|] eqn:E; simpl.
  - by apply utf8_decode_concat.
  - unfold utf8_decode in *. rewrite <- string_app_assoc, (utf8_run_app _ (_ +:+ a)).
    by destruct (utf8_run utf8_init (pending +:+ a)).
Qed.

#[export] Instance utf8_reader : ChunkReader String.append utf8_read.
Proof.
  intros pending a b. unfold utf8_read. rewrite utf8_decode_app.
  destruct (utf8_decode pending a false) as [[t1 p1]|]; simpl; [|done].
  by destruct (utf8_decode p1 b false) as [[t2 p2]|].
Qed.

(** The JSON-lines reader does not depend on how the stream is cut: feeding any
    number of chunks one after the other, each with the remainder of the one
    before, gives the events, the diagnostics, the remainder and the exception
    of feeding all of them at once. *)
Theorem feed_jsonl_chunking J buffer chunk chunks :
  read_all glue_frames (feed_jsonl J) buffer chunk chunks =
  feed_jsonl J buffer (join "" (chunk :: chunks)).
Proof. apply read_all_concat, _. Qed.

(** The strict incremental UTF-8 decoder gives the same text, the same
    pending bytes and the same failure however a byte stream is cut into chunks,
    and so does the read that ends the stream. *)
Theorem utf8_decode_chunking pending chunk chunks last final :
  read_all String.append utf8_read pending chunk chunks =
    utf8_read pending (join "" (chunk :: chunks)) ∧
  utf8_decode pending (join "" (chunk :: chunks) +:+ last) final =
    match read_all String.append utf8_read pending chunk chunks with
    | Ok (text, rest) => '(text', rest') ← utf8_decode rest last final; Some (text +:+ text', rest')
    | Err _ => None
    end.
Proof.
  rewrite (read_all_concat _ _ _ _). split; [done|]. rewrite utf8_decode_app. unfold utf8_read.
  by destruct (utf8_decode pending _ false) as [[]|].
Qed.
