(* ===== verification/JobEvents.v ===== *)
(** * Job events, job specifications and export redaction

    services/job_center/job_events.py, job_models.py, web_export_event_safety.py
    and models/task_state.py, models/task_snapshot.py: the events a worker
    builds, the job specification that is written for it, the trigger-source
    normalisation and the redaction of the events of web exports. *)

From S2P Require Import Prelude PyVal WorkerProtocol.

(** ** Task states (models/task_state.py) *)
Inductive TaskState :=
  | PENDING | STARTING | RUNNING | STOPPING | COMPLETED | FAILED | CANCELLED.

#[global] Instance TaskState_eq_dec : EqDecision TaskState.
Proof. solve_decision. Defined.

Definition state_value (s : TaskState) : string :=
  match s with
  | PENDING => "PENDING" | STARTING => "STARTING" | RUNNING => "RUNNING"
  | STOPPING => "STOPPING" | COMPLETED => "COMPLETED" | FAILED => "FAILED"
  | CANCELLED => "CANCELLED"
  end.

Definition all_states : list TaskState :=
  [PENDING; STARTING; RUNNING; STOPPING; COMPLETED; FAILED; CANCELLED].

(** [TaskState(text)]: [None] is the [ValueError]. *)
Definition state_of_value (t : string) : option TaskState :=
  List.find (λ s, String.eqb (state_value s) t) all_states.

Definition TERMINAL_TASK_STATES : list TaskState := [COMPLETED; FAILED; CANCELLED].

Definition terminal (s : TaskState) : bool := bool_decide (s ∈ TERMINAL_TASK_STATES).

(** ** Trigger sources (models/task_snapshot.py) *)
Definition TASK_TRIGGER_SOURCE_VALUES : list string :=
  ["ui"; "api"; "retry"; "recovery"; "scheduler"; "internal"; "unknown"].

(** With its default argument ["unknown"]. *)
Definition normalize_task_trigger_source (value : pyval) : string :=
  let normalized := casefold (strip (text_or_empty value)) in
  if str_mem normalized TASK_TRIGGER_SOURCE_VALUES then normalized else "unknown".

(** ** Events (job_events.py) *)
Definition base_event (event_type job_id : string) : dict :=
  [("type", PStr event_type); ("job_id", PStr job_id); ("stage", PStr "");
   ("current", PInt 0); ("total", PInt 0); ("message", PStr ""); ("result", PNone);
   ("error", PStr ""); ("traceback", PStr ""); ("cancelled", PBool false)].

Definition progress_event (job_id stage : string) (current total : Z) (message : string)
    (details : dict) : dict :=
  let event := dmerge (base_event "progress" job_id)
    [("stage", PStr stage); ("current", PInt current); ("total", PInt total);
     ("message", PStr (str_or message stage))] in
  match details with [] => event | _ => dset "details" (PDict details) event end.

Definition log_event (job_id message stage level : string) : dict :=
  dmerge (base_event "log" job_id)
    [("stage", PStr stage); ("message", PStr message); ("level", PStr (str_or level "info"))].

Definition finished_event (job_id : string) (result : dict) (message terminal_state : string)
    : dict :=
  let event := dmerge (base_event "finished" job_id)
    [("message", PStr (str_or message "后台任务完成")); ("result", PDict result)] in
  if str_nonempty terminal_state
  then dset "terminal_state" (PStr (upper terminal_state)) event else event.

Definition error_event (job_id error message traceback_text : string) : dict :=
  let error_text := str_or error (str_or message "后台任务失败") in
  dmerge (base_event "error" job_id)
    [("message", PStr (str_or message error_text)); ("error", PStr error_text);
     ("traceback", PStr traceback_text)].

Definition cancelled_event (job_id message : string) : dict :=
  let message_text := str_or message "后台任务已取消" in
  dmerge (base_event "cancelled" job_id)
    [("message", PStr message_text); ("error", PStr message_text); ("cancelled", PBool true)].

(** ** Job specification (job_models.py) *)
Record JobSpec := {
  job_id : string; task_type : string; params : dict; cancel_path : string;
  trigger_source : string; parent_task_id : string; retry_of_task_id : string;
  recovery_source : string }.

(** [with_runtime_paths]; the generated id is only used for an empty one. *)
Definition with_runtime_paths (fresh cancel : string) (j : JobSpec) : JobSpec :=
  {| job_id := str_or (job_id j) fresh; task_type := task_type j; params := params j;
     cancel_path := cancel; trigger_source := trigger_source j;
     parent_task_id := parent_task_id j; retry_of_task_id := retry_of_task_id j;
     recovery_source := recovery_source j |}.

Definition validate_job (j : JobSpec) : res unit :=
  if str_nonempty (task_type j) then Ok () else Err ValueError.

Definition job_to_dict (j : JobSpec) : dict :=
  [("job_id", PStr (job_id j)); ("task_type", PStr (task_type j));
   ("params", PDict (params j)); ("cancel_path", PStr (cancel_path j));
   ("trigger_source", PStr (normalize_task_trigger_source (PStr (trigger_source j))));
   ("parent_task_id", PStr (strip (parent_task_id j)));
   ("retry_of_task_id", PStr (strip (retry_of_task_id j)));
   ("recovery_source", PStr (strip (recovery_source j)))].

(** [dict(v)] on a JSON value: objects are copied, a list must hold two-element
    lists (with string keys here). *)
Fixpoint dict_of_pairs (l : list pyval) (acc : dict) : res dict :=
  match l with
  | [] => Ok acc
  | PList [PStr k; v] :: l' => dict_of_pairs l' (dset k v acc)
  | PList _ :: _ => Err ValueError
  | PStr _ :: _ => Err ValueError
  | _ :: _ => Err TypeError
  end.

Definition to_dict_value (v : pyval) : res dict :=
  match v with
  | PDict d => Ok d
  | PList l => dict_of_pairs l []
  | PStr "" => Ok []
  | PStr _ => Err ValueError
  | _ => Err TypeError
  end.

Definition job_from_dict (data : dict) : res JobSpec :=
  ps ← to_dict_value (por (dget "params" data) (PDict []));
  Ok {| job_id := text_or_empty (dget "job_id" data);
        task_type := py_str (por (dget "task_type" data) (por (dget "job_type" data) (PStr "")));
        params := ps;
        cancel_path := text_or_empty (dget "cancel_path" data);
        trigger_source := normalize_task_trigger_source (dget "trigger_source" data);
        parent_task_id := strip (text_or_empty (dget "parent_task_id" data));
        retry_of_task_id := strip (text_or_empty (dget "retry_of_task_id" data));
        recovery_source := strip (text_or_empty (dget "recovery_source" data)) |}.

(** ** Redaction of web export events (web_export_event_safety.py) *)
Definition is_web_export_task (task_type : string) : bool :=
  starts_with "web_export_" task_type.

(** The compiled patterns of the module, by name. *)
Inductive web_re :=
  | QUOTED_ABSOLUTE_PATH_RE | UNQUOTED_SPACED_FILE_PATH_RE
  | UNQUOTED_ABSOLUTE_DIRECTORY_RE | UNQUOTED_ABSOLUTE_PATH_RE
  | SECRET_VALUE_RE | BEARER_RE.

Definition PATH_KEYS : list string :=
  ["db_path"; "generated_files"; "output_path"; "package_path"; "path"; "relative_path";
   "report_path"; "result_path"; "tmp_path"; "traceback"].
Definition SECRET_KEYS : list string :=
  ["authorization"; "community"; "credential"; "password"; "secret"; "token"; "x-agent-token"].
Definition SENSITIVE_KEYS : list string := PATH_KEYS ++ SECRET_KEYS.

Definition sensitive (name : string) : bool := str_mem (casefold name) SENSITIVE_KEYS.

Section sanitize.
(** [pattern.sub(replacement, text)] of the regular-expression engine. *)
Context (re_sub : web_re → string → string → string).

Definition redact_web_task_text (value : string) : string :=
  let redacted := re_sub QUOTED_ABSOLUTE_PATH_RE "<redacted-path>" value in
  let redacted := re_sub UNQUOTED_SPACED_FILE_PATH_RE "<redacted-path>" redacted in
  let redacted := re_sub UNQUOTED_ABSOLUTE_DIRECTORY_RE "<redacted-path>" redacted in
  let redacted := re_sub UNQUOTED_ABSOLUTE_PATH_RE "<redacted-path>" redacted in
  let redacted := re_sub SECRET_VALUE_RE "\1<redacted>" redacted in
  re_sub BEARER_RE "Bearer <redacted>" redacted.

(** The filter on the value of a [keys] entry: new value and whether names
    were removed. *)
Definition filter_keys_value (name : string) (cleaned : pyval) (removed : bool)
    : pyval * bool :=
  if String.eqb (casefold name) "keys" then
    match cleaned with
    | PList l =>
        let filtered := List.filter (λ c, negb (sensitive (py_str c))) l in
        (PList filtered, negb (Nat.eqb (length filtered) (length l)))
    | _ => (cleaned, removed)
    end
  else (cleaned, removed).

Fixpoint sanitize_web_export_value (value : pyval) : pyval :=
  match value with
  | PDict d =>
      let '(sanitized, removed) :=
        (fix go (d : dict) (acc : dict) (removed : bool) : dict * bool :=
           match d with
           | [] => (acc, removed)
           | (key, item) :: d' =>
               if sensitive key then go d' acc removed
               else
                 let cleaned := sanitize_web_export_value item in
                 let '(cleaned, removed) := filter_keys_value key cleaned removed in
                 go d' (dset key cleaned acc) removed
           end) d [] false in
      PDict (if removed then dset "keys_truncated" (PBool true) sanitized else sanitized)
  | PList l => PList (sanitize_web_export_value <$> l)
  | PStr s => PStr (redact_web_task_text s)
  | v => v
  end.

Definition sanitize_web_export_event (event : dict) : dict :=
  match sanitize_web_export_value (PDict event) with PDict d => d | _ => [] end.
End sanitize.

(** ** Facts *)

(** No key of a dictionary at any depth is a path or secret name. *)
Inductive clean_keys : pyval → Prop :=
  | clean_leaf v : (∀ l, v ≠ PList l) → (∀ d, v ≠ PDict d) → clean_keys v
  | clean_list l : Forall clean_keys l → clean_keys (PList l)
  | clean_dict d :
      Forall (λ kv, sensitive kv.1 = false ∧ clean_keys kv.2) d → clean_keys (PDict d).

(** Every string leaf is the result of the redaction. *)
Inductive redacted_leaves (f : string → string) : pyval → Prop :=
  | red_str s : redacted_leaves f (PStr (f s))
  | red_atom v :
      (∀ s, v ≠ PStr s) → (∀ l, v ≠ PList l) → (∀ d, v ≠ PDict d) → redacted_leaves f v
  | red_list l : Forall (redacted_leaves f) l → redacted_leaves f (PList l)
  | red_dict d : Forall (λ kv, redacted_leaves f kv.2) d → redacted_leaves f (PDict d).

Section sanitize_facts.
Context (re_sub : web_re → string → string → string).
Let S := sanitize_web_export_value re_sub.

(** A property of entries that holds of every cleaned entry, of a filtered
    [keys] list and of the truncation marker holds of the whole result. *)
Lemma sanitize_dict_Forall (P : string * pyval → Prop) d :
  (∀ k v, (k, v) ∈ d → sensitive k = false → P (k, S v)) →
  (∀ k l, P (k, PList l) → ∀ f, P (k, PList (List.filter f l))) →
  P ("keys_truncated", PBool true) →
  ∃ d', S (PDict d) = PDict d' ∧ Forall P d'.
Proof.
  intros Hentry Hfilter Hmark. unfold S. simpl.
  enough (Hgo : ∀ d acc removed,
    (∀ k v, (k, v) ∈ d → sensitive k = false → P (k, S v)) → Forall P acc →
    Forall P (fst ((fix go (d acc : dict) (removed : bool) {struct d} : dict * bool :=
           match d with
           | [] => (acc, removed)
           | (key, item) :: d' =>
               if sensitive key then go d' acc removed
               else
                 let '(cleaned, removed0) :=
                   filter_keys_value key (sanitize_web_export_value re_sub item) removed in
                 go d' (dset key cleaned acc) removed0
           end) d acc removed))).
  { specialize (Hgo d [] false Hentry (Forall_nil_2 _)).
    destruct ((fix go (d acc : dict) (removed : bool) {struct d} : dict * bool := _) d [] false)
      as [san rem]. simpl in Hgo. eexists. split; [done|].
    destruct rem; [|done]. by apply dset_Forall. }
  clear d Hentry. intros d. induction d as [|[k v] d IH]; intros acc removed Hd Hacc; [done|].
  destruct (sensitive k) eqn:Ek; [apply IH; set_solver|].
  pose proof (Hd k v ltac:(set_solver) Ek) as Hk. fold S.
  destruct (filter_keys_value k (S v) removed) as [c r] eqn:Ef.
  apply IH; [set_solver|]. apply dset_Forall; [|done].
  unfold filter_keys_value in Ef. destruct (String.eqb _ _); [|by simplify_eq].
  destruct (S v); simplify_eq; auto.
Qed.

Lemma clean_keys_filter f l : clean_keys (PList l) → clean_keys (PList (List.filter f l)).
Proof.
  inversion 1 as [v H1 H2|l' Hl|]; subst; [by edestruct H1|]. apply clean_list.
  apply List.Forall_forall. intros x [Hx _]%filter_In. eapply List.Forall_forall in Hl; eauto.
Qed.

Lemma redacted_leaves_filter g f l :
  redacted_leaves g (PList l) → redacted_leaves g (PList (List.filter f l)).
Proof.
  inversion 1 as [|v H1 H2 H3|l' Hl|]; subst; [by edestruct H2|]. apply red_list.
  apply List.Forall_forall. intros x [Hx _]%filter_In. eapply List.Forall_forall in Hl; eauto.
Qed.

Lemma sanitize_list l : S (PList l) = PList (S <$> l).
Proof. done. Qed.

Lemma sanitize_clean v : clean_keys (S v).
Proof.
  induction v as [| | | | |l IH|d IH] using pyval_ind'; try (by apply clean_leaf).
  - rewrite sanitize_list. apply clean_list, Forall_fmap. eapply Forall_impl; [exact IH|]. done.
  - edestruct (sanitize_dict_Forall (λ kv, sensitive kv.1 = false ∧ clean_keys kv.2) d)
      as (d' & -> & Hd'); [| | |by apply clean_dict].
    + intros k v Hin Hk. simpl. split; [done|].
      rewrite Forall_forall in IH. apply (IH (k, v) Hin).
    + intros k l [Hk Hl] f. split; [done|]. by apply clean_keys_filter.
    + split; [done|]. by apply clean_leaf.
Qed.

Lemma sanitize_redacted v : redacted_leaves (redact_web_task_text re_sub) (S v).
Proof.
  induction v as [| | | | |l IH|d IH] using pyval_ind'; try (by apply red_atom).
  - apply red_str.
  - rewrite sanitize_list. apply red_list, Forall_fmap. eapply Forall_impl; [exact IH|]. done.
  - edestruct (sanitize_dict_Forall
      (λ kv, redacted_leaves (redact_web_task_text re_sub) kv.2) d)
      as (d' & -> & Hd'); [| | |by apply red_dict].
    + intros k v Hin Hk. rewrite Forall_forall in IH. apply (IH (k, v) Hin).
    + intros k l Hl f. by apply redacted_leaves_filter.
    + by apply red_atom.
Qed.
End sanitize_facts.

(** ** Round trips *)

Lemma normalize_trigger_in v : normalize_task_trigger_source v ∈ TASK_TRIGGER_SOURCE_VALUES.
Proof.
  unfold normalize_task_trigger_source. destruct (str_mem _ _) eqn:E; [|set_solver].
  by apply str_mem_iff.
Qed.

Lemma normalize_trigger_idem v :
  normalize_task_trigger_source (PStr (normalize_task_trigger_source v)) =
    normalize_task_trigger_source v.
Proof.
  pose proof (normalize_trigger_in v) as H. unfold TASK_TRIGGER_SOURCE_VALUES in H.
  rewrite !elem_of_cons in H.
  destruct_or?; try rewrite H; [vm_compute; reflexivity..|set_solver].
Qed.

(** The specification [to_dict] writes is read back as written. *)
Definition canonical_job (j : JobSpec) : JobSpec :=
  {| job_id := job_id j; task_type := task_type j; params := params j;
     cancel_path := cancel_path j;
     trigger_source := normalize_task_trigger_source (PStr (trigger_source j));
     parent_task_id := strip (parent_task_id j); retry_of_task_id := strip (retry_of_task_id j);
     recovery_source := strip (recovery_source j) |}.

Lemma job_roundtrip j : job_from_dict (job_to_dict j) = Ok (canonical_job j).
Proof.
  unfold job_from_dict.
  assert (Hp : to_dict_value (por (dget "params" (job_to_dict j)) (PDict [])) = Ok (params j)).
  { change (dget "params" (job_to_dict j)) with (PDict (params j)).
    unfold por. simpl. by destruct (params j). }
  rewrite Hp. simpl. unfold canonical_job.
  change (dget "job_id" (job_to_dict j)) with (PStr (job_id j)).
  change (dget "task_type" (job_to_dict j)) with (PStr (task_type j)).
  change (dget "job_type" (job_to_dict j)) with PNone.
  change (dget "cancel_path" (job_to_dict j)) with (PStr (cancel_path j)).
  change (dget "trigger_source" (job_to_dict j))
    with (PStr (normalize_task_trigger_source (PStr (trigger_source j)))).
  change (dget "parent_task_id" (job_to_dict j)) with (PStr (strip (parent_task_id j))).
  change (dget "retry_of_task_id" (job_to_dict j)) with (PStr (strip (retry_of_task_id j))).
  change (dget "recovery_source" (job_to_dict j)) with (PStr (strip (recovery_source j))).
  rewrite !text_or_empty_PStr, !strip_idem, normalize_trigger_idem.
  do 2 f_equal. unfold por. simpl. by destruct (task_type j).
Qed.

(** ** Properties *)

(** Events a handler builds through job_events.py. *)
Inductive job_event (jid : string) : dict → Prop :=
  | je_progress stage current total message details :
      job_event jid (progress_event jid stage current total message details)
  | je_log message stage level : job_event jid (log_event jid message stage level)
  | je_finished result message ts : job_event jid (finished_event jid result message ts)
  | je_error error message tb : job_event jid (error_event jid error message tb)
  | je_cancelled message : job_event jid (cancelled_event jid message).

(** The reader adds the [ok] flag to a cancellation and nothing else. *)
Definition received (event : dict) : dict :=
  if bool_decide (dget "type" event = PStr "cancelled")
  then dsetdefault "ok" (PBool false) event else event.

Lemma job_event_normal jid ev : job_event jid ev → normalize_event ev = Ok (received ev).
Proof.
  destruct 1 as [stage c t m details|m s l|r m ts|e m tb|m].
  - destruct details; vm_compute; reflexivity.
  - vm_compute. reflexivity.
  - unfold finished_event. destruct (str_nonempty ts); vm_compute; reflexivity.
  - vm_compute. reflexivity.
  - vm_compute. reflexivity.
Qed.

Lemma job_event_valid jid ev :
  strip jid ≠ "" → job_event jid ev → validate_event (received ev) = "".
Proof.
  intros Hj. destruct 1 as [stage c t m details|m s l|r m ts|e m tb|m].
  all: unfold validate_event.
  all: match goal with |- context [dget "job_id" ?x] =>
         replace (dget "job_id" x) with (PStr jid) end.
  all: try (rewrite text_or_empty_PStr; unfold str_nonempty;
            apply String.eqb_neq in Hj; rewrite Hj).
  all: first
    [ destruct details; vm_compute; reflexivity
    | unfold finished_event; destruct (str_nonempty ts); vm_compute; reflexivity
    | vm_compute; reflexivity ].
Qed.

(** What the stream relies on of [json.dumps] and [json.loads] for one event. *)
Record codec_ok (J : string → option pyval) (D : pyval → string) (ev : dict) : Prop := {
  co_loads : J (D (PDict ev)) = Some (PDict ev);
  co_line : has_char newline (D (PDict ev)) = false;
  co_strip : strip (D (PDict ev)) = D (PDict ev);
  co_nonempty : D (PDict ev) ≠ "" }.

Definition encode_stream (D : pyval → string) (evs : list dict) : string :=
  foldr (λ ev rest, encode_event D ev +:+ rest) "" evs.

Section stream.
Context (J : string → option pyval) (D : pyval → string) (jid : string).

Lemma parse_own_event ev :
  codec_ok J D ev → job_event jid ev →
  parse_event_line J (D (PDict ev)) = Ok (Some (received ev)).
Proof.
  intros [Hl Hn Hs Hne] He. unfold parse_event_line. apply String.eqb_neq in Hne.
  rewrite Hs, Hne, Hl. by rewrite (job_event_normal jid).
Qed.

Lemma feed_own_event ev :
  codec_ok J D ev → job_event jid ev →
  feed_line J (D (PDict ev)) ([], []) = Ok ([received ev], []).
Proof.
  intros Hc He. pose proof Hc as [Hl Hn Hs Hne]. unfold feed_line.
  apply String.eqb_neq in Hne. by rewrite Hs, Hne, parse_own_event.
Qed.
End stream.

(** C17: what workers write, the backend reads: a stream of events built by
    job_events.py for a job with a non-blank id and written by [encode_event] is
    read back by [feed_jsonl] in order, without diagnostics or remainder, and the
    runtime's validating parser accepts every one of them: a cancellation with the
    flag [ok] added as false, every other event as it was written. *)
Theorem worker_stream_roundtrip J D jid evs :
  strip jid ≠ "" → Forall (λ ev, job_event jid ev ∧ codec_ok J D ev) evs →
  feed_jsonl J "" (encode_stream D evs) = Ok (received <$> evs, [], "") ∧
  Forall (λ ev, parse_worker_event_line J (D (PDict ev)) = Ok (Some (received ev), "")) evs ∧
  Forall (λ ev, (dget "type" ev ≠ PStr "cancelled" → received ev = ev) ∧
                (dget "type" ev = PStr "cancelled" → received ev = ev ++ [("ok", PBool false)])) evs.
Proof.
  intros Hj Hevs. split_and!.
  - induction Hevs as [|ev evs [He Hc] _ IH]; [done|]. simpl. unfold encode_event.
    rewrite string_app_assoc, string_app_cons.
    change ("" +:+ encode_stream D evs) with (encode_stream D evs).
    rewrite feed_jsonl_line by apply Hc. rewrite (feed_own_event J D jid) by done.
    simpl. by rewrite IH.
  - eapply Forall_impl; [exact Hevs|]. intros ev [He Hc]. simpl.
    unfold parse_worker_event_line. pose proof Hc as [Hl Hn Hs Hne]. apply String.eqb_neq in Hne.
    rewrite Hs, Hne, Hl, (parse_own_event J D jid) by done.
    by rewrite (job_event_valid jid).
  - eapply Forall_impl; [exact Hevs|]. intros ev [He _]. simpl. unfold received. split.
    + intros Ht. by rewrite bool_decide_false.
    + intros Ht. rewrite bool_decide_true by done.
      destruct He as [stage c t m details|m s l|r m ts|e m tb|m]; try (by vm_compute).
      * destruct details; vm_compute in Ht; discriminate Ht.
      * unfold finished_event in Ht. destruct (str_nonempty ts); vm_compute in Ht; discriminate Ht.
Qed.

Definition demo_event : dict := cancelled_event "j1" "stop".
Definition demo_dumps (v : pyval) : string := "{e}".
Definition demo_loads (t : string) : option pyval :=
  if String.eqb t "{e}" then Some (PDict demo_event) else None.

(** A codec for four events of a run: a line for each. *)
Definition run_events : list dict :=
  [progress_event "j1" "scan" 1 2 "half" []; log_event "j1" "seen" "scan" "info";
   finished_event "j1" [("count", PInt 2)] "done" ""; cancelled_event "j1" "stop"].
Definition run_lines : list (string * dict) := zip ["{p}"; "{l}"; "{f}"; "{c}"] run_events.
Definition run_dumps (v : pyval) : string :=
  from_option fst "{}" (List.find (λ le, bool_decide (PDict le.2 = v)) run_lines).
Definition run_loads (line : string) : option pyval := PDict <$> alookup line run_lines.

Lemma worker_stream_roundtrip_witness :
  feed_jsonl run_loads "" (encode_stream run_dumps run_events) = Ok (received <$> run_events, [], "") ∧
  take 3 (received <$> run_events) = take 3 run_events ∧ encode_stream run_dumps run_events =
    "{p}" +:+ String newline ("{l}" +:+ String newline ("{f}" +:+ String newline ("{c}" +:+ String newline ""))).
Proof.
  split; [|split; vm_compute; reflexivity].
  apply (worker_stream_roundtrip run_loads run_dumps "j1" run_events).
  - vm_compute. discriminate.
  - unfold run_events. repeat (apply Forall_cons; split; [split; [constructor|
      split; [vm_compute; reflexivity..|vm_compute; discriminate]]|]). apply Forall_nil. done.
Defined.

(** Redaction of web exports is total on the value: whatever the regular
    expressions do, no dictionary at any depth of the result has a path or secret
    key, and every string that is left went through the text redaction. *)
Theorem web_export_redaction re_sub v :
  clean_keys (sanitize_web_export_value re_sub v) ∧
  redacted_leaves (redact_web_task_text re_sub) (sanitize_web_export_value re_sub v).
Proof. split; [apply sanitize_clean|apply sanitize_redacted]. Qed.

(** The job specification survives the job file: reading back what
    [to_dict] writes gives the same job with its trigger source and its ids in
    canonical form, and a second trip changes nothing. *)
Theorem job_spec_roundtrip j :
  ∃ j', job_from_dict (job_to_dict j) = Ok j' ∧ job_id j' = job_id j ∧
    task_type j' = task_type j ∧ params j' = params j ∧
    trigger_source j' ∈ TASK_TRIGGER_SOURCE_VALUES ∧
    job_from_dict (job_to_dict j') = Ok j'.
Proof.
  exists (canonical_job j). rewrite !job_roundtrip. repeat split; [apply normalize_trigger_in|].
  unfold canonical_job at 1; simpl. unfold canonical_job.
  by rewrite !strip_idem, normalize_trigger_idem.
Qed.
