(* ===== verification/TaskRuntime.v ===== *)
(** * Task runtime (services/job_center/runtime/task_runtime.py)

    The table of active background tasks of the backend: preparation of a
    launch, the worker's output streams, cancellation, completion and shutdown.
    [runtime] is the object's state together with the files it owns and the log
    of what it publishes on the event hub.  Not modelled: the interpreter
    command line, the environment and the application log. *)

From S2P Require Import Prelude PyVal WorkerProtocol JobEvents.

Definition WORKER_PROTOCOL_ERROR_CODE : string := "WORKER_PROTOCOL_CORRUPTED".
Definition AC_WEB_ACTION_TASK_TYPE : string := "ac_command_action_execute".

(** [TaskLaunch] without the process parameters. *)
Record launch := { l_job : JobSpec; l_job_path : string; l_cancel_path : string }.

(** [_RuntimeTask]. *)
Record rtask := RTask {
  t_launch : launch;
  t_state : TaskState;
  t_stdout_buffer : string;
  t_stderr_buffer : string;
  t_terminal_event : option dict;
  t_cancel_requested : bool;
  t_stdout_pending : string;
  t_stderr_pending : string;
  t_protocol_error_reason : string;
  t_protocol_error_payload : option dict;
  t_protocol_error_frame_bytes : option Z }.

Definition new_rtask (l : launch) : rtask := RTask l PENDING "" "" None false "" "" "" None None.

Definition with_state (s : TaskState) (t : rtask) : rtask :=
  RTask (t_launch t) s (t_stdout_buffer t) (t_stderr_buffer t) (t_terminal_event t)
    (t_cancel_requested t) (t_stdout_pending t) (t_stderr_pending t)
    (t_protocol_error_reason t) (t_protocol_error_payload t) (t_protocol_error_frame_bytes t).
Definition with_stdout_buffer (b : string) (t : rtask) : rtask :=
  RTask (t_launch t) (t_state t) b (t_stderr_buffer t) (t_terminal_event t)
    (t_cancel_requested t) (t_stdout_pending t) (t_stderr_pending t)
    (t_protocol_error_reason t) (t_protocol_error_payload t) (t_protocol_error_frame_bytes t).
Definition with_stderr_buffer (b : string) (t : rtask) : rtask :=
  RTask (t_launch t) (t_state t) (t_stdout_buffer t) b (t_terminal_event t)
    (t_cancel_requested t) (t_stdout_pending t) (t_stderr_pending t)
    (t_protocol_error_reason t) (t_protocol_error_payload t) (t_protocol_error_frame_bytes t).
Definition with_terminal_event (e : dict) (t : rtask) : rtask :=
  RTask (t_launch t) (t_state t) (t_stdout_buffer t) (t_stderr_buffer t) (Some e)
    (t_cancel_requested t) (t_stdout_pending t) (t_stderr_pending t)
    (t_protocol_error_reason t) (t_protocol_error_payload t) (t_protocol_error_frame_bytes t).
Definition with_cancel_requested (t : rtask) : rtask :=
  RTask (t_launch t) (t_state t) (t_stdout_buffer t) (t_stderr_buffer t) (t_terminal_event t)
    true (t_stdout_pending t) (t_stderr_pending t)
    (t_protocol_error_reason t) (t_protocol_error_payload t) (t_protocol_error_frame_bytes t).
Definition with_pending (o e : string) (t : rtask) : rtask :=
  RTask (t_launch t) (t_state t) (t_stdout_buffer t) (t_stderr_buffer t) (t_terminal_event t)
    (t_cancel_requested t) o e
    (t_protocol_error_reason t) (t_protocol_error_payload t) (t_protocol_error_frame_bytes t).
Definition with_protocol_error (r : string) (p : dict) (n : option Z) (t : rtask) : rtask :=
  RTask (t_launch t) (t_state t) (t_stdout_buffer t) (t_stderr_buffer t) (t_terminal_event t)
    (t_cancel_requested t) (t_stdout_pending t) (t_stderr_pending t) r (Some p) n.

(** What the runtime publishes: state changes and other events. *)
Inductive pub :=
  | PubState (jid : string) (s : TaskState) (event : dict)
  | PubEvent (event : dict) (source : string).

Record runtime := Runtime {
  r_tasks : list (string * rtask);
  r_closing : bool;
  r_files : gset string;
  r_published : list pub }.

Definition empty_runtime : runtime := Runtime [] false ∅ [].

Definition with_tasks (ts : list (string * rtask)) (rt : runtime) : runtime :=
  Runtime ts (r_closing rt) (r_files rt) (r_published rt).
Definition with_files (fs : gset string) (rt : runtime) : runtime :=
  Runtime (r_tasks rt) (r_closing rt) fs (r_published rt).
Definition publish_all (ps : list pub) (rt : runtime) : runtime :=
  Runtime (r_tasks rt) (r_closing rt) (r_files rt) (r_published rt ++ ps).
Definition put_task (jid : string) (t : rtask) (rt : runtime) : runtime :=
  with_tasks (ainsert jid t (r_tasks rt)) rt.

Definition find_task (jid : string) (rt : runtime) : option rtask := alookup jid (r_tasks rt).

(** [self._tasks.get(job_id)]: the state of an active task. *)
Definition state_of (jid : string) (rt : runtime) : option TaskState :=
  t_state <$> find_task jid rt.

(** ** Payload helpers *)

(** [_attach_ac_web_plan_id]. *)
Definition attach_ac_web_plan_id (t : rtask) (payload : dict) : dict :=
  if negb (String.eqb (task_type (l_job (t_launch t))) AC_WEB_ACTION_TASK_TYPE) then payload
  else
    let plan_id := strip (text_or_empty (dget "plan_id" (params (l_job (t_launch t))))) in
    if str_nonempty plan_id && negb (str_nonempty (strip (text_or_empty (dget "plan_id" payload))))
    then dset "plan_id" (PStr plan_id) payload else payload.

(** [_attach_worker_exit_code]. *)
Definition attach_worker_exit_code (payload : dict) (exit_code : Z) : dict :=
  let payload := dset "worker_exit_code" (PInt exit_code) payload in
  let result := match dget "result" payload with PDict d => d | _ => [] end in
  let result := dset "worker_exit_code" (PInt exit_code) result in
  let result := dsetdefault "data_persisted" PNone result in
  dset "result" (PDict result) payload.

(** [_finished_terminal_state]. *)
Definition finished_terminal_state (event : dict) : TaskState :=
  let state_text := upper (strip (text_or_empty (dget "terminal_state" event))) in
  if negb (str_nonempty state_text) then COMPLETED
  else match state_of_value state_text with
       | Some s => if terminal s then s else COMPLETED
       | None => COMPLETED
       end.

(** [_contains_replacement_character]. *)
Definition REPLACEMENT : string := "�".

Fixpoint contains_replacement_character (v : pyval) : bool :=
  match v with
  | PStr s => contains REPLACEMENT s
  | PDict d => existsb (λ kv, contains_replacement_character kv.2) d
  | PList l => existsb contains_replacement_character l
  | _ => false
  end.

Definition protocol_error_message : string := "Worker 内部通信协议损坏，任务已强制终止。".

Definition protocol_error_event (jid reason stream : string) (frame_bytes : option Z) : dict :=
  [("type", PStr "error"); ("job_id", PStr jid); ("stage", PStr "worker_protocol");
   ("current", PInt 0); ("total", PInt 0); ("message", PStr protocol_error_message);
   ("result", PDict
      [("error_code", PStr WORKER_PROTOCOL_ERROR_CODE);
       ("text_integrity", PStr "current_corrupted");
       ("text_integrity_reason", PStr reason); ("reason", PStr reason);
       ("stream", PStr stream); ("frame_bytes", opt_int frame_bytes);
       ("max_frame_bytes", PInt WORKER_PROTOCOL_MAX_FRAME_BYTES);
       ("worker_exit_code", PNone); ("data_persisted", PNone)]);
   ("error", PStr protocol_error_message);
   ("error_code", PStr WORKER_PROTOCOL_ERROR_CODE); ("reason", PStr reason);
   ("stream", PStr stream); ("frame_bytes", opt_int frame_bytes);
   ("max_frame_bytes", PInt WORKER_PROTOCOL_MAX_FRAME_BYTES);
   ("traceback", PStr ""); ("cancelled", PBool false)].

(** [_fail_protocol]: the first reason is kept. *)
Definition fail_protocol (t : rtask) (reason stream : string) (frame_bytes : option Z) : rtask :=
  if str_nonempty (t_protocol_error_reason t) then t
  else with_protocol_error reason
         (protocol_error_event (job_id (l_job (t_launch t))) reason stream frame_bytes)
         frame_bytes t.

(** ** The worker's output

    A step on one task returns the new task, what it published and [Ok stop]
    ([stop] is the boolean of the method) or the exception that escaped. *)
Section worker.
Context (J : string → option pyval) (re_sub : web_re → string → string → string).

(** [_accept_worker_event]. *)
Definition accept_worker_event (t : rtask) (event : dict) : rtask * list pub :=
  if negb (String.eqb (text_or_empty (dget "job_id" event)) (job_id (l_job (t_launch t)))) then
    (fail_protocol t "worker_protocol_schema_invalid" "event" None, [])
  else if contains_replacement_character (PDict event) then
    (fail_protocol t "replacement_character_detected_in_current_event" "event" None, [])
  else
    let event :=
      if is_web_export_task (task_type (l_job (t_launch t)))
      then sanitize_web_export_event re_sub event else event in
    let event_type := text_or_empty (dget "type" event) in
    if str_mem event_type ["finished"; "error"; "cancelled"] then (with_terminal_event event t, [])
    else if str_nonempty event_type then (t, [PubEvent event "worker"])
    else (t, []).

(** The loop of [_feed_stdout_text] over the complete lines. *)
Fixpoint feed_stdout_lines (t : rtask) (lines : list string) : rtask * list pub * res bool :=
  match lines with
  | [] => (t, [], Ok false)
  | raw_line :: rest =>
      let line := strip raw_line in
      if String.eqb line "" then feed_stdout_lines t rest
      else if WORKER_PROTOCOL_MAX_FRAME_BYTES <? byte_len line then
        (fail_protocol t "worker_protocol_frame_too_large" "stdout" (Some (byte_len line)),
         [], Ok true)
      else
        match parse_worker_event_line J line with
        | Err e => (t, [], Err e)
        | Ok (None, reason) =>
            if String.eqb reason "" then (t, [], Err (RuntimeError "AssertionError"))
            else (fail_protocol t reason "stdout" None, [], Ok true)
        | Ok (Some event, _) =>
            let '(t1, ps) := accept_worker_event t event in
            if str_nonempty (t_protocol_error_reason t1) then (t1, ps, Ok true)
            else let '(t2, ps', r) := feed_stdout_lines t1 rest in (t2, ps ++ ps', r)
        end
  end.

(** [_feed_stdout_text]. *)
Definition feed_stdout_text (t : rtask) (text : string) : rtask * list pub * res bool :=
  let lines := split_on newline (t_stdout_buffer t +:+ text) in
  let t1 := with_stdout_buffer (List.last lines "") t in
  if WORKER_PROTOCOL_MAX_FRAME_BYTES <? byte_len (t_stdout_buffer t1) then
    (fail_protocol t1 "worker_protocol_frame_too_large" "stdout"
       (Some (byte_len (t_stdout_buffer t1))), [], Ok true)
  else feed_stdout_lines t1 (removelast lines).

Definition feed_stdout_task (t : rtask) (chunk : string) : rtask * list pub * res bool :=
  if str_nonempty (t_protocol_error_reason t) then (t, [], Ok false)
  else match utf8_decode (t_stdout_pending t) chunk false with
       | None => (fail_protocol t "worker_protocol_decode_failed" "stdout" None, [], Ok true)
       | Some (text, pending) =>
           feed_stdout_text (with_pending pending (t_stderr_pending t) t) text
       end.

Definition feed_stderr_task (t : rtask) (chunk : string) : rtask * res bool :=
  if str_nonempty (t_protocol_error_reason t) then (t, Ok false)
  else match utf8_decode (t_stderr_pending t) chunk false with
       | None => (fail_protocol t "worker_protocol_decode_failed" "stderr" None, Ok true)
       | Some (text, pending) =>
           let t := with_pending (t_stdout_pending t) pending t in
           if contains REPLACEMENT text then
             (fail_protocol t "replacement_character_detected_in_current_event" "stderr" None,
              Ok true)
           else (with_stderr_buffer (t_stderr_buffer t +:+ text) t, Ok false)
       end.

(** The standard-error half of [_flush_decoders]. *)
Definition flush_stderr (t : rtask) : rtask :=
  match utf8_decode (t_stderr_pending t) "" true with
  | None => fail_protocol t "worker_protocol_decode_failed" "stderr" None
  | Some (text, pending) =>
      let t := with_pending (t_stdout_pending t) pending t in
      if contains REPLACEMENT text then
        fail_protocol t "replacement_character_detected_in_current_event" "stderr" None
      else with_stderr_buffer (t_stderr_buffer t +:+ text) t
  end.

(** [_flush_decoders]. *)
Definition flush_decoders (t : rtask) : rtask * list pub * res unit :=
  if str_nonempty (t_protocol_error_reason t) then (t, [], Ok ())
  else match utf8_decode (t_stdout_pending t) "" true with
       | None => (fail_protocol t "worker_protocol_decode_failed" "stdout" None, [], Ok ())
       | Some (text, pending) =>
           let t := with_pending pending (t_stderr_pending t) t in
           if str_nonempty text then
             match feed_stdout_text t text with
             | (t1, ps, Err e) => (t1, ps, Err e)
             | (t1, ps, Ok true) => (t1, ps, Ok ())
             | (t1, ps, Ok false) => (flush_stderr t1, ps, Ok ())
             end
           else (flush_stderr t, [], Ok ())
       end.

(** The last, unterminated line that [complete] parses. *)
Definition complete_last_line (t : rtask) : rtask * list pub * res unit :=
  if str_nonempty (t_protocol_error_reason t)
     || negb (str_nonempty (strip (t_stdout_buffer t))) then (t, [], Ok ())
  else if WORKER_PROTOCOL_MAX_FRAME_BYTES <? byte_len (t_stdout_buffer t) then
    (fail_protocol t "worker_protocol_frame_too_large" "stdout"
       (Some (byte_len (t_stdout_buffer t))), [], Ok ())
  else match parse_worker_event_line J (strip (t_stdout_buffer t)) with
       | Err e => (t, [], Err e)
       | Ok (None, reason) =>
           (if String.eqb reason "" then t else fail_protocol t reason "stdout" None, [], Ok ())
       | Ok (Some event, _) => let '(t1, ps) := accept_worker_event t event in (t1, ps, Ok ())
       end.

(** The payload and final state [complete] derives from what the task saw. *)
Definition exit_message (t : rtask) (event : dict) (exit_code : Z) : string :=
  py_str (por (dget "message" event)
    (por (dget "error" event)
      (por (PStr (strip (t_stderr_buffer t)))
        (PStr ("后台任务异常退出，退出码 " +:+ pretty exit_code))))).

Definition complete_outcome (jid : string) (t : rtask) (exit_code : Z) : dict * TaskState :=
  match t_protocol_error_payload t with
  | Some payload => (attach_worker_exit_code payload exit_code, FAILED)
  | None =>
      let event := default [] (t_terminal_event t) in
      let cancelled := truthy (dget "cancelled" event) || t_cancel_requested t in
      let event_type := text_or_empty (dget "type" event) in
      if String.eqb event_type "cancelled" then (event, CANCELLED)
      else if String.eqb event_type "error" then
        (attach_worker_exit_code event exit_code, FAILED)
      else if (exit_code =? 0) && String.eqb event_type "finished" then
        (event, finished_terminal_state event)
      else
        let message := if cancelled then "后台任务已取消" else exit_message t event exit_code in
        let payload :=
          [("type", PStr (if cancelled then "cancelled" else "error")); ("job_id", PStr jid);
           ("stage", PStr ""); ("current", PInt 0); ("total", PInt 0);
           ("message", PStr message);
           ("result", match dget "result" event with PDict d => PDict d | _ => PNone end);
           ("error", PStr message);
           ("traceback", PStr (py_str (por (dget "traceback" event) (PStr (t_stderr_buffer t)))));
           ("cancelled", PBool cancelled)] in
        (attach_worker_exit_code payload exit_code, if cancelled then CANCELLED else FAILED)
  end.

(** Redaction and correlation of a payload before it is published. *)
Definition finish_payload (t : rtask) (payload : dict) : dict :=
  let payload :=
    if is_web_export_task (task_type (l_job (t_launch t)))
    then sanitize_web_export_event re_sub payload else payload in
  attach_ac_web_plan_id t payload.
End worker.

(** ** Operations of the runtime *)

(** [_set_state]. *)
Definition state_event (jid : string) (t : option rtask) (s : TaskState) : dict :=
  let event :=
    [("type", PStr "state"); ("job_id", PStr jid);
     ("task_type", PStr (from_option (λ t, task_type (l_job (t_launch t))) "" t));
     ("state", PStr (state_value s))] in
  match t with
  | Some t => if terminal s then attach_ac_web_plan_id t event else event
  | None => event
  end.

Definition set_state (jid : string) (s : TaskState) (rt : runtime) : runtime :=
  match find_task jid rt with
  | Some t =>
      publish_all [PubState jid s (state_event jid (Some t) s)] (put_task jid (with_state s t) rt)
  | None => publish_all [PubState jid s (state_event jid None s)] rt
  end.

(** [_finish]: the task is dropped and its files are removed. *)
Definition finish (jid : string) (rt : runtime) : runtime :=
  match find_task jid rt with
  | None => rt
  | Some t =>
      with_files (r_files rt ∖ {[ l_job_path (t_launch t); l_cancel_path (t_launch t) ]})
        (with_tasks (adelete jid (r_tasks rt)) rt)
  end.

(** [_write_cancel_file]. *)
Definition write_cancel_file (t : rtask) (rt : runtime) : runtime :=
  with_files ({[ l_cancel_path (t_launch t) ]} ∪ r_files rt) rt.

(** [prepare] takes the lock twice; between the two sections other threads run.
    [prepare_begin] is the first section, [prepare_write] the unlocked part that
    writes the job file, [prepare_commit] the second section. *)
Definition check_free (jid : string) (rt : runtime) : res unit :=
  if r_closing rt then Err (RuntimeError "backend is shutting down; new tasks are rejected")
  else if bool_decide (is_Some (find_task jid rt)) then
    Err (RuntimeError "duplicate background task")
  else Ok ().

Definition prepare_begin (fresh : string) (job : JobSpec) (rt : runtime) : res string :=
  let jid := str_or (job_id job) fresh in
  _ ← check_free jid rt; Ok jid.

Definition job_file (jid : string) : string := jid +:+ ".json".
Definition cancel_file (jid : string) : string := jid +:+ ".cancel".

Definition prepare_write (jid : string) (job : JobSpec) (rt : runtime) : runtime * res launch :=
  match job_from_dict (dset "job_id" (PStr jid) (job_to_dict job)) with
  | Err e => (rt, Err e)
  | Ok j =>
      let runtime_job := with_runtime_paths jid (cancel_file jid) j in
      match validate_job runtime_job with
      | Err e => (rt, Err e)
      | Ok _ =>
          (with_files ({[ job_file jid ]} ∪ r_files rt) rt,
           Ok {| l_job := runtime_job; l_job_path := job_file jid;
                 l_cancel_path := cancel_file jid |})
      end
  end.

Definition prepare_commit (jid : string) (l : launch) (rt : runtime) : runtime * res launch :=
  match check_free jid rt with
  | Err e => (with_files (r_files rt ∖ {[ l_job_path l; l_cancel_path l ]}) rt, Err e)
  | Ok _ =>
      (set_state jid STARTING (set_state jid PENDING (put_task jid (new_rtask l) rt)), Ok l)
  end.

Definition prepare (fresh : string) (job : JobSpec) (rt : runtime) : runtime * res launch :=
  match prepare_begin fresh job rt with
  | Err e => (rt, Err e)
  | Ok jid =>
      match prepare_write jid job rt with
      | (rt1, Err e) => (rt1, Err e)
      | (rt1, Ok l) => prepare_commit jid l rt1
      end
  end.

Definition mark_running (jid : string) (rt : runtime) : runtime :=
  match state_of jid rt with
  | Some PENDING | Some STARTING => set_state jid RUNNING rt
  | _ => rt
  end.

(** [request_cancel]: the grace period in milliseconds, clamped.  Only
    [TypeError] and [ValueError] of [int] are caught. *)
Definition cancel_grace (t : rtask) : res Z :=
  match to_int (por (dget "_cancel_grace_ms" (params (l_job (t_launch t)))) (PInt 0)) with
  | Ok value => Ok (Z.max 0 (Z.min value 60000))
  | Err TypeError | Err ValueError => Ok 0
  | Err e => Err e
  end.

Definition request_cancel (jid : string) (rt : runtime) : runtime * res Z :=
  match find_task jid rt with
  | None => (rt, Ok 0)
  | Some t =>
      let rt := put_task jid (with_cancel_requested t) rt in
      let rt := set_state jid STOPPING rt in
      (write_cancel_file t rt, cancel_grace t)
  end.

Fixpoint cancel_each (jids : list string) (rt : runtime) : runtime * res unit :=
  match jids with
  | [] => (rt, Ok ())
  | jid :: rest =>
      match request_cancel jid rt with
      | (rt1, Err e) => (rt1, Err e)
      | (rt1, Ok _) => cancel_each rest rt1
      end
  end.

Section runtime_ops.
Context (J : string → option pyval) (re_sub : web_re → string → string → string).

Definition feed_stdout (jid chunk : string) (rt : runtime) : runtime * res bool :=
  match find_task jid rt with
  | None => (rt, Ok false)
  | Some t =>
      let '(t', ps, r) := feed_stdout_task J re_sub t chunk in
      (publish_all ps (put_task jid t' rt), r)
  end.

Definition feed_stderr (jid chunk : string) (rt : runtime) : runtime * res bool :=
  match find_task jid rt with
  | None => (rt, Ok false)
  | Some t => let '(t', r) := feed_stderr_task t chunk in (put_task jid t' rt, r)
  end.

(** [complete]: an exception raised while the last output is parsed escapes
    and leaves the task registered. *)
Definition complete (jid : string) (exit_code : Z) (rt : runtime)
    : runtime * res (option dict) :=
  match find_task jid rt with
  | None => (rt, Ok None)
  | Some t =>
      match flush_decoders J re_sub t with
      | (t1, ps1, Err e) => (publish_all ps1 (put_task jid t1 rt), Err e)
      | (t1, ps1, Ok _) =>
          match complete_last_line J re_sub t1 with
          | (t2, ps2, Err e) => (publish_all (ps1 ++ ps2) (put_task jid t2 rt), Err e)
          | (t2, ps2, Ok _) =>
              let rt := publish_all (ps1 ++ ps2) (put_task jid t2 rt) in
              let '(payload, terminal_state) := complete_outcome jid t2 exit_code in
              let payload := finish_payload re_sub t2 payload in
              let rt := publish_all [PubEvent payload "service"] rt in
              (finish jid (set_state jid terminal_state rt), Ok (Some payload))
          end
      end
  end.

Definition fail_start (jid message : string) (rt : runtime) : runtime * option dict :=
  match find_task jid rt with
  | None => (rt, None)
  | Some t =>
      let cancelled := t_cancel_requested t in
      let text := if cancelled then "后台任务已取消" else str_or message "后台进程启动失败" in
      let payload :=
        [("type", PStr (if cancelled then "cancelled" else "error")); ("job_id", PStr jid);
         ("stage", PStr ""); ("current", PInt 0); ("total", PInt 0); ("message", PStr text);
         ("result", PNone); ("error", PStr text); ("traceback", PStr "");
         ("cancelled", PBool cancelled)] in
      let payload := finish_payload re_sub t payload in
      let rt := publish_all [PubEvent payload "service"] rt in
      (finish jid (set_state jid (if cancelled then CANCELLED else FAILED) rt), Some payload)
  end.

Definition abandon (jid : string) (rt : runtime) : runtime :=
  match find_task jid rt with
  | None => rt
  | Some t =>
      let rt := put_task jid (with_cancel_requested t) rt in
      let rt := write_cancel_file t rt in
      finish jid (set_state jid CANCELLED rt)
  end.

Definition is_running (jid : string) (rt : runtime) : bool :=
  bool_decide (is_Some (find_task jid rt)).

(** [active_snapshot]: active tasks (also the worker count) and stopping ones. *)
Definition active_snapshot (rt : runtime) : Z * Z :=
  (Z.of_nat (length (r_tasks rt)),
   Z.of_nat (length (List.filter (λ kt, bool_decide (t_state kt.2 = STOPPING)) (r_tasks rt)))).

Definition begin_shutdown (rt : runtime) : runtime * res (Z * Z) :=
  let rt1 := Runtime (r_tasks rt) true (r_files rt) (r_published rt) in
  match cancel_each (r_tasks rt1).*1 rt1 with
  | (rt2, Err e) => (rt2, Err e)
  | (rt2, Ok _) => (rt2, Ok (active_snapshot rt2))
  end.

(** The calls the backend makes, one at a time. *)
Inductive op :=
  | OpPrepareWrite (jid : string) (job : JobSpec)
  | OpPrepareCommit (jid : string) (l : launch)
  | OpMarkRunning (jid : string)
  | OpStdout (jid chunk : string)
  | OpStderr (jid chunk : string)
  | OpCancel (jid : string)
  | OpComplete (jid : string) (exit_code : Z)
  | OpFailStart (jid message : string)
  | OpAbandon (jid : string)
  | OpShutdown.

Definition exec (o : op) (rt : runtime) : runtime :=
  match o with
  | OpPrepareWrite jid job => (prepare_write jid job rt).1
  | OpPrepareCommit jid l => (prepare_commit jid l rt).1
  | OpMarkRunning jid => mark_running jid rt
  | OpStdout jid chunk => (feed_stdout jid chunk rt).1
  | OpStderr jid chunk => (feed_stderr jid chunk rt).1
  | OpCancel jid => (request_cancel jid rt).1
  | OpComplete jid code => (complete jid code rt).1
  | OpFailStart jid message => (fail_start jid message rt).1
  | OpAbandon jid => abandon jid rt
  | OpShutdown => (begin_shutdown rt).1
  end.

Definition exec_all (ops : list op) (rt : runtime) : runtime :=
  foldl (λ rt o, exec o rt) rt ops.
End runtime_ops.

(** ** The life cycle of a task, as published

    [lstep] is the abstract specification: what may be published next about a
    job, [None] standing for a job that is not active. *)
Definition lstep (cur : option TaskState) (s : TaskState) : option (option TaskState) :=
  match cur, s with
  | None, PENDING => Some (Some PENDING)
  | Some PENDING, STARTING => Some (Some STARTING)
  | Some PENDING, RUNNING | Some STARTING, RUNNING => Some (Some RUNNING)
  | Some (PENDING | STARTING | RUNNING | STOPPING), STOPPING => Some (Some STOPPING)
  | Some (PENDING | STARTING | RUNNING | STOPPING), (COMPLETED | FAILED | CANCELLED) => Some None
  | _, _ => None
  end.

Definition life (states : list TaskState) : option (option TaskState) :=
  foldl (λ acc s, cur ← acc; lstep cur s) (Some None) states.

Definition pub_state (jid : string) (p : pub) : option TaskState :=
  match p with
  | PubState j s _ => if decide (j = jid) then Some s else None
  | PubEvent _ _ => None
  end.

Definition published_states (jid : string) (rt : runtime) : list TaskState :=
  omap (pub_state jid) (r_published rt).

Definition is_event (p : pub) : Prop := match p with PubEvent _ _ => True | _ => False end.

(** The published history of every job is a legal one and ends in the state the
    table holds. *)
Definition lifecycle_inv (rt : runtime) : Prop :=
  ∀ jid, life (published_states jid rt) = Some (state_of jid rt) ∧
         (∀ s, state_of jid rt = Some s → terminal s = false).

Lemma life_snoc l s : life (l ++ [s]) = (cur ← life l; lstep cur s).
Proof. unfold life. by rewrite foldl_app. Qed.

Lemma published_states_app jid ps rt :
  published_states jid (publish_all ps rt) = published_states jid rt ++ omap (pub_state jid) ps.
Proof. unfold published_states. simpl. by rewrite omap_app. Qed.

Lemma quiet_states jid ps : Forall is_event ps → omap (pub_state jid) ps = [].
Proof. induction 1 as [|[] ps Hp Hps IH]; simpl in *; [done|done|done]. Qed.

Lemma find_put_eq jid t rt : find_task jid (put_task jid t rt) = Some t.
Proof. apply alookup_ainsert_eq. Qed.

Lemma find_put_ne jid k t rt : jid ≠ k → find_task jid (put_task k t rt) = find_task jid rt.
Proof. intros. by apply alookup_ainsert_ne. Qed.

Lemma state_of_put jid k t rt :
  state_of jid (put_task k t rt) = if decide (jid = k) then Some (t_state t) else state_of jid rt.
Proof.
  unfold state_of. destruct (decide (jid = k)) as [->|]; [by rewrite find_put_eq|by rewrite find_put_ne].
Qed.

Lemma state_of_find jid rt s : state_of jid rt = Some s ↔ ∃ t, find_task jid rt = Some t ∧ t_state t = s.
Proof. unfold state_of. destruct (find_task jid rt); simpl; naive_solver. Qed.

(** A step that publishes no state and changes none. *)
Lemma lifecycle_quiet ps rt rt' :
  lifecycle_inv rt → Forall is_event ps →
  r_published rt' = r_published rt ++ ps → (∀ jid, state_of jid rt' = state_of jid rt) →
  lifecycle_inv rt'.
Proof.
  intros Hi Hq Hp Hs jid. rewrite Hs. unfold published_states. rewrite Hp, omap_app.
  rewrite (quiet_states jid ps) by done. rewrite app_nil_r. apply Hi.
Qed.

Lemma set_state_published jid s rt :
  ∃ e, r_published (set_state jid s rt) = r_published rt ++ [PubState jid s e].
Proof. unfold set_state. destruct (find_task jid rt); simpl; eauto. Qed.

Lemma set_state_states k jid s rt :
  published_states k (set_state jid s rt) =
    published_states k rt ++ (if decide (jid = k) then [s] else []).
Proof.
  destruct (set_state_published jid s rt) as [e He]. unfold published_states.
  rewrite He, omap_app. simpl. by destruct (decide (jid = k)).
Qed.

Lemma state_of_set_state k jid s rt :
  state_of k (set_state jid s rt) =
    if decide (k = jid) then (λ _, s) <$> state_of jid rt else state_of k rt.
Proof.
  unfold set_state. destruct (find_task jid rt) as [t|] eqn:E.
  - transitivity (state_of k (put_task jid (with_state s t) rt)); [done|].
    rewrite state_of_put. destruct (decide (k = jid)); [|done].
    unfold state_of. by rewrite E.
  - transitivity (state_of k rt); [done|]. destruct (decide (k = jid)) as [->|]; [|done].
    unfold state_of. by rewrite E.
Qed.

(** One transition of an active task to a state that is not terminal. *)
Lemma lifecycle_transition jid s s' rt :
  lifecycle_inv rt → state_of jid rt = Some s → lstep (Some s) s' = Some (Some s') →
  lifecycle_inv (set_state jid s' rt).
Proof.
  intros Hi Hs Hl k. rewrite set_state_states, state_of_set_state.
  destruct (Hi k) as [Hk Hnt]. destruct (decide (jid = k)) as [->|Hne].
  - rewrite decide_True by done. rewrite life_snoc, Hk, Hs. simpl. split; [done|].
    intros x [= <-]. by destruct s, s'.
  - by rewrite decide_False, app_nil_r.
Qed.

Lemma state_of_finish k jid rt :
  state_of k (finish jid rt) = if decide (k = jid) then None else state_of k rt.
Proof.
  unfold finish, state_of. destruct (find_task jid rt) eqn:E.
  - unfold find_task. simpl. destruct (decide (k = jid)) as [->|].
    + by rewrite alookup_adelete_eq.
    + by rewrite alookup_adelete_ne.
  - destruct (decide (k = jid)) as [->|]; [by rewrite E|done].
Qed.

Lemma finish_published jid rt : r_published (finish jid rt) = r_published rt.
Proof. unfold finish. by destruct (find_task jid rt). Qed.

(** The end of an active task. *)
Lemma lifecycle_terminate jid s s' rt :
  lifecycle_inv rt → state_of jid rt = Some s → terminal s' = true →
  lifecycle_inv (finish jid (set_state jid s' rt)).
Proof.
  intros Hi Hs Ht k. unfold published_states. rewrite finish_published.
  fold (published_states k (set_state jid s' rt)).
  rewrite set_state_states, state_of_finish, state_of_set_state.
  destruct (Hi k) as [Hk Hnt]. destruct (decide (jid = k)) as [->|Hne].
  - rewrite decide_True by done. rewrite life_snoc, Hk, Hs. specialize (Hnt s Hs). simpl.
    split; [|done]. by destruct s, s'.
  - rewrite !decide_False by done. by rewrite app_nil_r.
Qed.

(** ** What the worker's output can change *)
Definition same_identity (t t' : rtask) : Prop :=
  t_state t' = t_state t ∧ t_launch t' = t_launch t ∧ t_cancel_requested t' = t_cancel_requested t.

#[global] Instance same_identity_refl : Reflexive same_identity.
Proof. done. Qed.
#[global] Instance same_identity_trans : Transitive same_identity.
Proof. unfold same_identity. intros x y z. naive_solver congruence. Qed.

Lemma fail_protocol_identity t r st n : same_identity t (fail_protocol t r st n).
Proof. unfold fail_protocol. by destruct (str_nonempty _). Qed.

Lemma fail_protocol_reason t r st n :
  t_protocol_error_reason (fail_protocol t r st n) =
    (if str_nonempty (t_protocol_error_reason t) then t_protocol_error_reason t else r).
Proof. unfold fail_protocol. by destruct (str_nonempty (t_protocol_error_reason t)). Qed.

Section worker_facts.
Context (J : string → option pyval) (re_sub : web_re → string → string → string).

Lemma accept_quiet t e t' ps :
  accept_worker_event re_sub t e = (t', ps) → same_identity t t' ∧ Forall is_event ps.
Proof.
  unfold accept_worker_event. cbv zeta.
  repeat case_match; intros [= <- <-];
    (split; [first [apply fail_protocol_identity | done] | repeat constructor]).
Qed.

Lemma feed_stdout_lines_quiet lines t t' ps r :
  feed_stdout_lines J re_sub t lines = (t', ps, r) → same_identity t t' ∧ Forall is_event ps.
Proof.
  revert t t' ps r. induction lines as [|l lines IH]; intros t t' ps r; simpl.
  { by intros [= <- <- <-]. }
  destruct (String.eqb (strip l) ""); [apply IH|].
  destruct (_ <? _); [intros [= <- <- <-]; split; [apply fail_protocol_identity|constructor]|].
  destruct (parse_worker_event_line J (strip l)) as [[[ev|] reason]|e].
  - destruct (accept_worker_event re_sub t ev) as [t1 ps1] eqn:Ea.
    apply accept_quiet in Ea as [Hs1 Hq1].
    destruct (str_nonempty _); [by intros [= <- <- <-]|].
    destruct (feed_stdout_lines J re_sub t1 lines) as [[t2 ps2] r2] eqn:Ef.
    apply IH in Ef as [Hs2 Hq2]. intros [= <- <- <-].
    split; [by etrans|by apply Forall_app].
  - destruct (String.eqb reason ""); intros [= <- <- <-];
      (split; [first [apply fail_protocol_identity|done]|constructor]).
  - by intros [= <- <- <-].
Qed.

Lemma feed_stdout_text_quiet t text t' ps r :
  feed_stdout_text J re_sub t text = (t', ps, r) → same_identity t t' ∧ Forall is_event ps.
Proof.
  unfold feed_stdout_text. cbv zeta. destruct (_ <? _).
  - intros [= <- <- <-]. split; [|constructor].
    etrans; [|apply fail_protocol_identity]. done.
  - intros [Hs Hq]%feed_stdout_lines_quiet. done.
Qed.

Lemma feed_stdout_task_quiet t chunk t' ps r :
  feed_stdout_task J re_sub t chunk = (t', ps, r) → same_identity t t' ∧ Forall is_event ps.
Proof.
  unfold feed_stdout_task. destruct (str_nonempty _); [by intros [= <- <- <-]|].
  destruct (utf8_decode _ _ _) as [[text p]|].
  - intros [Hs Hq]%feed_stdout_text_quiet. done.
  - intros [= <- <- <-]. split; [apply fail_protocol_identity|constructor].
Qed.

Lemma flush_stderr_identity t : same_identity t (flush_stderr t).
Proof.
  unfold flush_stderr. destruct (utf8_decode _ _ _) as [[text p]|]; [|apply fail_protocol_identity].
  cbv zeta. destruct (contains _ _); [|done].
  etrans; [|apply fail_protocol_identity]. done.
Qed.

Lemma feed_stderr_identity t chunk : same_identity t (feed_stderr_task t chunk).1.
Proof.
  unfold feed_stderr_task. destruct (str_nonempty _); [done|].
  destruct (utf8_decode _ _ _) as [[text p]|]; [|apply fail_protocol_identity].
  cbv zeta. destruct (contains _ _); [|done]. simpl.
  etrans; [|apply fail_protocol_identity]. done.
Qed.

Lemma flush_decoders_quiet t t' ps r :
  flush_decoders J re_sub t = (t', ps, r) → same_identity t t' ∧ Forall is_event ps.
Proof.
  unfold flush_decoders. destruct (str_nonempty _); [by intros [= <- <- <-]|].
  destruct (utf8_decode _ _ _) as [[text p]|].
  - cbv zeta. destruct (str_nonempty text).
    + destruct (feed_stdout_text J re_sub _ text) as [[t1 ps1] [[|]|e]] eqn:E;
        apply feed_stdout_text_quiet in E as [Hs Hq]; intros [= <- <- <-];
        (split; [|done]); try done.
      etrans; [exact Hs|apply flush_stderr_identity].
    + intros [= <- <- <-]. split; [|constructor].
      etrans; [|apply flush_stderr_identity]. done.
  - intros [= <- <- <-]. split; [apply fail_protocol_identity|constructor].
Qed.

Lemma complete_last_line_quiet t t' ps r :
  complete_last_line J re_sub t = (t', ps, r) → same_identity t t' ∧ Forall is_event ps.
Proof.
  unfold complete_last_line. destruct (_ || _); [by intros [= <- <- <-]|].
  destruct (_ <? _); [intros [= <- <- <-]; split; [apply fail_protocol_identity|constructor]|].
  destruct (parse_worker_event_line J _) as [[[ev|] reason]|e].
  - destruct (accept_worker_event re_sub t ev) as [t1 ps1] eqn:Ea.
    apply accept_quiet in Ea as [Hs1 Hq1]. by intros [= <- <- <-].
  - intros [= <- <- <-]. split; [|constructor].
    destruct (String.eqb reason ""); [done|apply fail_protocol_identity].
  - by intros [= <- <- <-].
Qed.

(** Replacing an active task by one in the same state. *)
Lemma lifecycle_update jid t t' ps rt :
  lifecycle_inv rt → find_task jid rt = Some t → t_state t' = t_state t → Forall is_event ps →
  lifecycle_inv (publish_all ps (put_task jid t' rt)).
Proof.
  intros Hi Hf Hs Hq. eapply (lifecycle_quiet ps); [exact Hi|done|done|].
  intros k. transitivity (state_of k (put_task jid t' rt)); [done|].
  rewrite state_of_put. destruct (decide (k = jid)) as [->|]; [|done].
  unfold state_of. rewrite Hf. simpl. by rewrite Hs.
Qed.

Lemma lifecycle_put jid t t' rt :
  lifecycle_inv rt → find_task jid rt = Some t → t_state t' = t_state t →
  lifecycle_inv (put_task jid t' rt).
Proof.
  intros Hi Hf Hs. eapply (lifecycle_quiet []); [exact Hi|constructor|by rewrite app_nil_r|].
  intros k. rewrite state_of_put. destruct (decide (k = jid)) as [->|]; [|done].
  unfold state_of. rewrite Hf. simpl. by rewrite Hs.
Qed.

Lemma lifecycle_files fs rt : lifecycle_inv rt → lifecycle_inv (with_files fs rt).
Proof. done. Qed.

Lemma lifecycle_publish e src rt :
  lifecycle_inv rt → lifecycle_inv (publish_all [PubEvent e src] rt).
Proof. intros Hi. by eapply (lifecycle_quiet [PubEvent e src]); [exact Hi|repeat constructor|..]. Qed.

Lemma find_state jid t rt : find_task jid rt = Some t → state_of jid rt = Some (t_state t).
Proof. unfold state_of. by intros ->. Qed.

Lemma lifecycle_active jid t rt :
  lifecycle_inv rt → find_task jid rt = Some t → terminal (t_state t) = false.
Proof. intros Hi Hf%find_state. by eapply Hi. Qed.

Lemma lifecycle_commit jid l rt : lifecycle_inv rt → lifecycle_inv (prepare_commit jid l rt).1.
Proof.
  intros Hi. unfold prepare_commit, check_free. destruct (r_closing rt); [done|].
  case_bool_decide as Hb; [done|]. simpl.
  assert (Hn : state_of jid rt = None).
  { unfold state_of. destruct (find_task jid rt); [exfalso; eauto|done]. }
  apply (lifecycle_transition jid PENDING); [|by rewrite state_of_set_state, decide_True,
    state_of_put, decide_True by done|done].
  intros k. rewrite set_state_states, state_of_set_state.
  destruct (Hi k) as [Hk Hnt]. destruct (decide (jid = k)) as [->|Hne].
  - rewrite decide_True, state_of_put, decide_True by done.
    change (published_states k (put_task k (new_rtask l) rt)) with (published_states k rt).
    rewrite life_snoc, Hk, Hn. simpl. split; [done|]. by intros ? [= <-].
  - rewrite decide_False, state_of_put, decide_False, app_nil_r by done. done.
Qed.

(** Putting a task, then one of its non-terminal transitions. *)
Lemma state_of_put_eq jid t rt : state_of jid (put_task jid t rt) = Some (t_state t).
Proof. by rewrite state_of_put, decide_True. Qed.

Lemma lstep_stopping s : terminal s = false → lstep (Some s) STOPPING = Some (Some STOPPING).
Proof. by destruct s. Qed.

Lemma lifecycle_cancel jid rt : lifecycle_inv rt → lifecycle_inv (request_cancel jid rt).1.
Proof.
  intros Hi. unfold request_cancel. destruct (find_task jid rt) as [t|] eqn:Hf; [|done].
  apply lifecycle_files, (lifecycle_transition jid (t_state t)).
  - by eapply lifecycle_put.
  - apply (state_of_put_eq jid (with_cancel_requested t)).
  - by eapply lstep_stopping, lifecycle_active.
Qed.

Lemma lifecycle_cancel_each jids rt : lifecycle_inv rt → lifecycle_inv (cancel_each jids rt).1.
Proof.
  revert rt. induction jids as [|jid jids IH]; intros rt Hi; [done|]. simpl.
  pose proof (lifecycle_cancel jid rt Hi) as Hc.
  destruct (request_cancel jid rt) as [rt1 [z|e]]; [by apply IH|done].
Qed.

Lemma lifecycle_mark jid rt : lifecycle_inv rt → lifecycle_inv (mark_running jid rt).
Proof.
  intros Hi. unfold mark_running.
  destruct (state_of jid rt) as [[]|] eqn:Hs; try done; by eapply lifecycle_transition.
Qed.

(** Publishing the last payload of an active task and ending it. *)
Lemma lifecycle_end jid t s payload rt :
  lifecycle_inv rt → find_task jid rt = Some t → terminal s = true →
  lifecycle_inv (finish jid (set_state jid s (publish_all [PubEvent payload "service"] rt))).
Proof.
  intros Hi Hf Hs. eapply (lifecycle_terminate jid (t_state t)); [|by apply find_state|done].
  by apply lifecycle_publish.
Qed.

Lemma finished_terminal_state_terminal e : terminal (finished_terminal_state e) = true.
Proof.
  unfold finished_terminal_state. destruct (negb _); [done|].
  destruct (state_of_value _) as [s|]; [|done]. by destruct (terminal s) eqn:?.
Qed.

Lemma complete_outcome_terminal jid t code : terminal (complete_outcome jid t code).2 = true.
Proof.
  unfold complete_outcome. destruct (t_protocol_error_payload t); [done|]. cbv zeta.
  destruct (String.eqb _ "cancelled"); [done|]. destruct (String.eqb _ "error"); [done|].
  destruct (_ && _); [apply finished_terminal_state_terminal|]. by destruct (_ || _).
Qed.

Lemma lifecycle_complete jid code rt :
  lifecycle_inv rt → lifecycle_inv (complete J re_sub jid code rt).1.
Proof.
  intros Hi. unfold complete. destruct (find_task jid rt) as [t|] eqn:Hf; [|done].
  destruct (flush_decoders J re_sub t) as [[t1 ps1] r1] eqn:E1.
  apply flush_decoders_quiet in E1 as [[Hs1 _] Hq1].
  destruct r1 as [[]|e]; [|by eapply lifecycle_update].
  destruct (complete_last_line J re_sub t1) as [[t2 ps2] r2] eqn:E2.
  apply complete_last_line_quiet in E2 as [[Hs2 _] Hq2].
  assert (Hi2 : lifecycle_inv (publish_all (ps1 ++ ps2) (put_task jid t2 rt))).
  { eapply lifecycle_update; [done|exact Hf|congruence|by apply Forall_app]. }
  destruct r2 as [[]|e]; [|done].
  pose proof (complete_outcome_terminal jid t2 code) as Ht.
  destruct (complete_outcome jid t2 code) as [payload ts]. simpl.
  eapply lifecycle_end; [exact Hi2|apply find_put_eq|exact Ht].
Qed.

Lemma lifecycle_fail_start jid m rt :
  lifecycle_inv rt → lifecycle_inv (fail_start re_sub jid m rt).1.
Proof.
  intros Hi. unfold fail_start. destruct (find_task jid rt) as [t|] eqn:Hf; [|done].
  eapply lifecycle_end; [done|exact Hf|]. by destruct (t_cancel_requested t).
Qed.

Lemma lifecycle_abandon jid rt : lifecycle_inv rt → lifecycle_inv (abandon jid rt).
Proof.
  intros Hi. unfold abandon. destruct (find_task jid rt) as [t|] eqn:Hf; [|done].
  apply (lifecycle_terminate jid (t_state t)); [|apply (state_of_put_eq jid (with_cancel_requested t))|done].
  apply lifecycle_files. by eapply lifecycle_put.
Qed.

Lemma lifecycle_exec o rt : lifecycle_inv rt → lifecycle_inv (exec J re_sub o rt).
Proof.
  intros Hi. destruct o; simpl.
  - unfold prepare_write. destruct (job_from_dict _); [|done]. by destruct (validate_job _).
  - by apply lifecycle_commit.
  - by apply lifecycle_mark.
  - unfold feed_stdout. destruct (find_task jid rt) as [t|] eqn:Hf; [|done].
    destruct (feed_stdout_task J re_sub t chunk) as [[t' ps] r] eqn:E.
    apply feed_stdout_task_quiet in E as [[Hs _] Hq]. by eapply lifecycle_update.
  - unfold feed_stderr. destruct (find_task jid rt) as [t|] eqn:Hf; [|done].
    pose proof (feed_stderr_identity t chunk) as [Hs _].
    destruct (feed_stderr_task t chunk) as [t' r]. by eapply lifecycle_put.
  - by apply lifecycle_cancel.
  - by apply lifecycle_complete.
  - by apply lifecycle_fail_start.
  - by apply lifecycle_abandon.
  - unfold begin_shutdown.
    pose proof (lifecycle_cancel_each (r_tasks rt).*1
      (Runtime (r_tasks rt) true (r_files rt) (r_published rt)) Hi) as Hc. simpl in *.
    by destruct (cancel_each _ _) as [rt2 [[]|e]].
Qed.

Lemma lifecycle_exec_all ops rt : lifecycle_inv rt → lifecycle_inv (exec_all J re_sub ops rt).
Proof.
  unfold exec_all. revert rt. induction ops as [|o ops IH]; intros rt Hi; [done|]. simpl.
  by apply IH, lifecycle_exec.
Qed.

Lemma lifecycle_empty : lifecycle_inv empty_runtime.
Proof. by intros jid. Qed.
End worker_facts.

(** ** Chunk independence of the standard output *)
Section chunking.
Context (J : string → option pyval) (re_sub : web_re → string → string → string).

(** A change of the task that the reader neither looks at nor undoes. *)
Record transparent (f : rtask → rtask) : Prop := {
  tr_reason t : t_protocol_error_reason (f t) = t_protocol_error_reason t;
  tr_launch t : t_launch (f t) = t_launch t;
  tr_fail t r p n : with_protocol_error r p n (f t) = f (with_protocol_error r p n t);
  tr_event t e : with_terminal_event e (f t) = f (with_terminal_event e t) }.

Lemma transparent_buffer b : transparent (with_stdout_buffer b).
Proof. done. Qed.

Lemma transparent_pending o e : transparent (with_pending o e).
Proof. done. Qed.

Lemma fail_protocol_comm f t r st n :
  transparent f → fail_protocol (f t) r st n = f (fail_protocol t r st n).
Proof.
  intros [Hr Hl Hf _]. unfold fail_protocol. rewrite Hr, Hl. by destruct (str_nonempty _).
Qed.

Lemma accept_comm f t ev :
  transparent f →
  accept_worker_event re_sub (f t) ev =
    (f (accept_worker_event re_sub t ev).1, (accept_worker_event re_sub t ev).2).
Proof.
  intros Hf. unfold accept_worker_event. rewrite !fail_protocol_comm by done.
  destruct Hf as [Hr Hl _ He]. rewrite Hl. cbv zeta. rewrite He. by repeat case_match.
Qed.

Lemma feed_lines_comm f lines t :
  transparent f →
  feed_stdout_lines J re_sub (f t) lines =
    let '(t', ps, r) := feed_stdout_lines J re_sub t lines in (f t', ps, r).
Proof.
  intros Hf. revert t. induction lines as [|l lines IH]; intros t; simpl; [done|].
  destruct (String.eqb (strip l) ""); [apply IH|].
  destruct (_ <? _); [by rewrite fail_protocol_comm|].
  destruct (parse_worker_event_line J (strip l)) as [[[ev|] reason]|e]; [| |done].
  - rewrite accept_comm by done. destruct (accept_worker_event re_sub t ev) as [t1 ps]. simpl.
    rewrite (tr_reason f Hf). destruct (str_nonempty _); [done|]. rewrite IH.
    by destruct (feed_stdout_lines J re_sub t1 lines) as [[t2 ps2] r].
  - destruct (String.eqb reason ""); [done|]. by rewrite fail_protocol_comm.
Qed.

Lemma feed_lines_buffer b lines t :
  feed_stdout_lines J re_sub (with_stdout_buffer b t) lines =
    let '(t', ps, r) := feed_stdout_lines J re_sub t lines in (with_stdout_buffer b t', ps, r).
Proof. apply (feed_lines_comm (with_stdout_buffer b)), transparent_buffer. Qed.

Lemma feed_stdout_text_pending o e t text :
  feed_stdout_text J re_sub (with_pending o e t) text =
    let '(t', ps, r) := feed_stdout_text J re_sub t text in (with_pending o e t', ps, r).
Proof.
  unfold feed_stdout_text. cbv zeta. cbn [t_stdout_buffer with_pending with_stdout_buffer].
  set (b := List.last _ _). set (ls := removelast _).
  change (with_stdout_buffer b (with_pending o e t)) with (with_pending o e (with_stdout_buffer b t)).
  destruct (_ <? _).
  - by rewrite (fail_protocol_comm (with_pending o e)) by apply transparent_pending.
  - apply (feed_lines_comm (with_pending o e)), transparent_pending.
Qed.

(** A line-by-line reading that ends without a verdict leaves no error. *)
Lemma feed_lines_no_error lines t t1 ps :
  feed_stdout_lines J re_sub t lines = (t1, ps, Ok false) →
  t_protocol_error_reason t = "" → t_protocol_error_reason t1 = "".
Proof.
  revert t t1 ps. induction lines as [|l lines IH]; intros t t1 ps; simpl.
  { by intros [= <- <-]. }
  destruct (String.eqb (strip l) ""); [apply IH|]. destruct (_ <? _); [done|].
  destruct (parse_worker_event_line J (strip l)) as [[[ev|] reason]|e]; [| |done].
  - destruct (accept_worker_event re_sub t ev) as [ta psa].
    destruct (str_nonempty (t_protocol_error_reason ta)) eqn:En; [done|].
    destruct (feed_stdout_lines J re_sub ta lines) as [[tb psb] rb] eqn:E.
    intros [= <- <- ->] _. eapply IH; [exact E|].
    unfold str_nonempty in En. by bool_to_prop.
  - by destruct (String.eqb reason "").
Qed.

Lemma feed_stdout_text_no_error t text t1 ps :
  feed_stdout_text J re_sub t text = (t1, ps, Ok false) →
  t_protocol_error_reason t = "" → t_protocol_error_reason t1 = "".
Proof.
  unfold feed_stdout_text. cbv zeta. destruct (_ <? _); [done|]. intros H Ht.
  by eapply feed_lines_no_error in H.
Qed.

Lemma feed_stdout_lines_app l1 l2 t t1 ps1 :
  feed_stdout_lines J re_sub t l1 = (t1, ps1, Ok false) →
  feed_stdout_lines J re_sub t (l1 ++ l2) =
    let '(t2, ps2, r) := feed_stdout_lines J re_sub t1 l2 in (t2, ps1 ++ ps2, r).
Proof.
  revert t t1 ps1. induction l1 as [|l l1 IH]; intros t t1 ps1; simpl.
  { intros [= <- <-]. by destruct (feed_stdout_lines J re_sub t l2) as [[]]. }
  destruct (String.eqb (strip l) ""); [apply IH|]. destruct (_ <? _); [done|].
  destruct (parse_worker_event_line J (strip l)) as [[[ev|] reason]|e]; [| |done].
  - destruct (accept_worker_event re_sub t ev) as [ta psa]. destruct (str_nonempty _); [done|].
    destruct (feed_stdout_lines J re_sub ta l1) as [[tb psb] rb] eqn:E.
    intros [= <- <- ->]. rewrite (IH _ _ _ E).
    destruct (feed_stdout_lines J re_sub tb l2) as [[]]. by rewrite (assoc_L (++)).
  - by destruct (String.eqb reason "").
Qed.

Lemma with_buffer_twice a b t : with_stdout_buffer a (with_stdout_buffer b t) = with_stdout_buffer a t.
Proof. done. Qed.

(** Text level: a chunk that was read without a verdict can be glued to the
    next one, as long as the unfinished line at the end is within bounds. *)
Lemma feed_stdout_text_concat t a b t1 ps1 :
  feed_stdout_text J re_sub t a = (t1, ps1, Ok false) →
  byte_len (List.last (split_on newline (t_stdout_buffer t +:+ (a +:+ b))) "") ≤
    WORKER_PROTOCOL_MAX_FRAME_BYTES →
  feed_stdout_text J re_sub t (a +:+ b) =
    let '(t2, ps2, r) := feed_stdout_text J re_sub t1 b in (t2, ps1 ++ ps2, r).
Proof.
  unfold feed_stdout_text. cbv zeta. cbn [t_stdout_buffer with_stdout_buffer].
  rewrite <- string_app_assoc. intros Ha Hb.
  apply Z.ltb_ge in Hb. rewrite Hb.
  destruct (_ <? byte_len (List.last (split_on newline (t_stdout_buffer t +:+ a)) "")); [done|].
  rewrite feed_lines_buffer in Ha.
  destruct (feed_stdout_lines J re_sub t (removelast (split_on newline (t_stdout_buffer t +:+ a))))
    as [[t0 ps0] r0] eqn:E0. injection Ha as <- <- ->.
  cbn [t_stdout_buffer with_stdout_buffer].
  rewrite last_split_concat in Hb. rewrite Hb, last_split_concat, removelast_split_concat.
  rewrite feed_lines_buffer, (feed_stdout_lines_app _ _ _ _ _ E0).
  rewrite with_buffer_twice, feed_lines_buffer.
  by destruct (feed_stdout_lines J re_sub t0 _) as [[]].
Qed.
End chunking.

(** ** Properties *)

(** C16: life cycle: after any sequence of backend calls (launches, worker output
    of any content, cancellations, completions, start failures, abandons,
    shutdown) the states published for a job form a legal history - PENDING,
    STARTING, at most one RUNNING, never back from STOPPING, exactly one
    terminal state, nothing after it until the job is launched again - and end
    in the state of the task table, which never holds a terminal state. *)
Theorem runtime_lifecycle J re_sub ops jid :
  life (published_states jid (exec_all J re_sub ops empty_runtime)) =
    Some (state_of jid (exec_all J re_sub ops empty_runtime)) ∧
  (∀ s, state_of jid (exec_all J re_sub ops empty_runtime) = Some s → terminal s = false).
Proof. apply (lifecycle_exec_all J re_sub ops empty_runtime lifecycle_empty). Qed.

(** A task is reported COMPLETED only when the worker exited with code 0
    after a [finished] event whose frame was valid and the stream was never
    corrupted. *)
Theorem completed_only_on_success jid t code :
  (complete_outcome jid t code).2 = COMPLETED →
  code = 0 ∧ t_protocol_error_payload t = None ∧
  ∃ ev, t_terminal_event t = Some ev ∧ text_or_empty (dget "type" ev) = "finished".
Proof.
  unfold complete_outcome. destruct (t_protocol_error_payload t); [done|]. cbv zeta.
  destruct (String.eqb _ "cancelled"); [done|]. destruct (String.eqb _ "error"); [done|].
  destruct ((code =? 0) && _) eqn:E.
  - intros _. bool_to_prop. split; [done|]. split; [done|].
    destruct (t_terminal_event t) as [ev|]; [eauto|done].
  - by destruct (_ || _).
Qed.

Definition demo_job : JobSpec :=
  {| job_id := "j1"; task_type := "demo"; params := []; cancel_path := "j1.cancel";
     trigger_source := "ui"; parent_task_id := ""; retry_of_task_id := "";
     recovery_source := "" |}.
Definition demo_launch : launch :=
  {| l_job := demo_job; l_job_path := "j1.json"; l_cancel_path := "j1.cancel" |}.
Definition demo_finished_task : rtask :=
  with_terminal_event (finished_event "j1" [] "" "") (with_state RUNNING (new_rtask demo_launch)).

Lemma completed_only_on_success_witness :
  (complete_outcome "j1" demo_finished_task 0).2 = COMPLETED ∧
  ∃ ev, t_terminal_event demo_finished_task = Some ev ∧
    text_or_empty (dget "type" ev) = "finished".
Proof.
  split; [vm_compute; reflexivity|].
  apply (completed_only_on_success "j1" demo_finished_task 0). vm_compute. reflexivity.
Defined.

(** [complete], when the last output raises nothing, always finishes the
    task: it publishes the worker's remaining events, then the returned payload,
    then exactly one terminal state; the task is no longer active and its job and
    cancel files are gone. *)
Theorem complete_finishes J re_sub jid code rt t rt' payload :
  find_task jid rt = Some t →
  complete J re_sub jid code rt = (rt', Ok (Some payload)) →
  (∃ ps s e, Forall is_event ps ∧ terminal s = true ∧
     r_published rt' = r_published rt ++ ps ++ [PubEvent payload "service"; PubState jid s e]) ∧
  state_of jid rt' = None ∧
  l_job_path (t_launch t) ∉ r_files rt' ∧ l_cancel_path (t_launch t) ∉ r_files rt'.
Proof.
  intros Hf. unfold complete. rewrite Hf.
  destruct (flush_decoders J re_sub t) as [[t1 ps1] [[]|e]] eqn:E1; [|done].
  apply flush_decoders_quiet in E1 as [(_ & Hl1 & _) Hq1].
  destruct (complete_last_line J re_sub t1) as [[t2 ps2] [[]|e]] eqn:E2; [|done].
  apply complete_last_line_quiet in E2 as [(_ & Hl2 & _) Hq2].
  pose proof (complete_outcome_terminal jid t2 code) as Ht.
  destruct (complete_outcome jid t2 code) as [pl s]. simpl in Ht. intros [= <- <-].
  set (rt0 := publish_all _ _).
  assert (Hf0 : find_task jid rt0 = Some t2) by apply find_put_eq.
  split; [|split].
  - rewrite finish_published. destruct (set_state_published jid s rt0) as [e He].
    rewrite He. exists (ps1 ++ ps2), s, e. split; [by apply Forall_app|]. split; [done|].
    unfold rt0. simpl. by rewrite <- !(assoc_L (++)).
  - by rewrite state_of_finish, decide_True.
  - unfold finish, set_state. rewrite Hf0. simpl. unfold find_task. simpl.
    rewrite alookup_ainsert_eq. simpl. rewrite Hl2, Hl1. set_solver.
Qed.

Definition demo_runtime : runtime :=
  Runtime [("j1", demo_finished_task)] false {["j1.json"]} [].

Lemma complete_finishes_witness :
  state_of "j1" (complete (λ _, None) (λ _ _ s, s) "j1" 0 demo_runtime).1 = None.
Proof.
  apply (complete_finishes (λ _, None) (λ _ _ s, s) "j1" 0 demo_runtime demo_finished_task
    (complete (λ _, None) (λ _ _ s, s) "j1" 0 demo_runtime).1
    (finished_event "j1" [] "" "")); vm_compute; reflexivity.
Defined.

(** A protocol violation is final: once a task has a protocol error, worker
    output changes nothing and the reason and payload are kept, and [complete]
    reports the task FAILED with that payload and the exit code whatever the
    worker had sent. *)
Theorem protocol_error_latched J re_sub t chunk jid code payload :
  str_nonempty (t_protocol_error_reason t) = true →
  t_protocol_error_payload t = Some payload →
  feed_stdout_task J re_sub t chunk = (t, [], Ok false) ∧
  feed_stderr_task t chunk = (t, Ok false) ∧
  (∀ r st n, fail_protocol t r st n = t) ∧
  flush_decoders J re_sub t = (t, [], Ok ()) ∧
  complete_last_line J re_sub t = (t, [], Ok ()) ∧
  complete_outcome jid t code = (attach_worker_exit_code payload code, FAILED).
Proof.
  intros Hr Hp. unfold feed_stdout_task, feed_stderr_task, flush_decoders,
    complete_last_line, complete_outcome, fail_protocol. by rewrite Hr, Hp.
Qed.

Definition demo_failed_task : rtask :=
  fail_protocol demo_finished_task "worker_protocol_json_invalid" "stdout" None.

Lemma protocol_error_latched_witness :
  ∃ payload, complete_outcome "j1" demo_failed_task 0 = (attach_worker_exit_code payload 0, FAILED).
Proof.
  exists (protocol_error_event "j1" "worker_protocol_json_invalid" "stdout" None).
  apply (protocol_error_latched (λ _, None) (λ _ _ s, s) demo_failed_task "" "j1" 0);
    vm_compute; reflexivity.
Defined.

(** A chunk that was read without a verdict can be glued to the next one. *)
Lemma feed_task_concat J re_sub t a b t1 ps1 text pending :
  t_protocol_error_reason t = "" →
  feed_stdout_task J re_sub t a = (t1, ps1, Ok false) →
  utf8_decode (t_stdout_pending t) (a +:+ b) false = Some (text, pending) →
  byte_len (List.last (split_on newline (t_stdout_buffer t +:+ text)) "") ≤
    WORKER_PROTOCOL_MAX_FRAME_BYTES →
  feed_stdout_task J re_sub t (a +:+ b) =
    let '(t2, ps2, r) := feed_stdout_task J re_sub t1 b in (t2, ps1 ++ ps2, r).
Proof.
  intros Hr Ha Hd Hb. unfold feed_stdout_task in *. rewrite Hr in *. cbn [str_nonempty] in *.
  change (str_nonempty "") with false in *. cbv iota in *.
  destruct (utf8_decode (t_stdout_pending t) a false) as [[ta pa]|] eqn:Ea; [|done].
  pose proof Hd as Hd'. rewrite (utf8_decode_concat _ _ _ _ _ _ Ea) in Hd'.
  destruct (utf8_decode pa b false) as [[tb pb]|] eqn:Eb; [|done].
  injection Hd' as <- <-. rewrite Hd.
  rewrite feed_stdout_text_pending in Ha.
  destruct (feed_stdout_text J re_sub t ta) as [[t0 ps0] r0] eqn:E0. injection Ha as <- <- ->.
  cbn [t_protocol_error_reason t_stdout_pending t_stderr_pending with_pending].
  rewrite (feed_stdout_text_no_error _ _ _ _ _ _ E0 Hr).
  change (str_nonempty "") with false. cbv iota. rewrite Eb.
  rewrite feed_stdout_text_pending, (feed_stdout_text_concat _ _ _ _ _ _ _ E0 Hb).
  change (with_pending pb (t_stderr_pending t) (with_pending pa (t_stderr_pending t) t0))
    with (with_pending pb (t_stderr_pending t) t0).
  rewrite feed_stdout_text_pending.
  by destruct (feed_stdout_text J re_sub t0 tb) as [[]].
Qed.

(** Reading chunks one after the other up to the first verdict. *)
Fixpoint feed_chunks J re_sub (t : rtask) (chunks : list string) : rtask * list pub * res bool :=
  match chunks with
  | [] => (t, [], Ok false)
  | chunk :: rest =>
      match feed_stdout_task J re_sub t chunk with
      | (t1, ps1, Ok false) => let '(t2, ps2, r) := feed_chunks J re_sub t1 rest in (t2, ps1 ++ ps2, r)
      | verdict => verdict
      end
  end.

(** Bytes that are UTF-8 so far and leave an unfinished line within the frame. *)
Definition fits (t : rtask) (bytes : string) : Prop :=
  match utf8_decode (t_stdout_pending t) bytes false with
  | Some (text, _) =>
      byte_len (List.last (split_on newline (t_stdout_buffer t +:+ text)) "") ≤ WORKER_PROTOCOL_MAX_FRAME_BYTES
  | None => False
  end.

(** A task up to the output that was not parsed yet. *)
Definition parsed (t : rtask) : rtask := with_stdout_buffer "" (with_pending "" (t_stderr_pending t) t).

Section chunks.
Context (J : string → option pyval) (re_sub : web_re → string → string → string).

Lemma feed_lines_verdict l1 l2 t t1 ps r :
  feed_stdout_lines J re_sub t l1 = (t1, ps, r) → r ≠ Ok false →
  feed_stdout_lines J re_sub t (l1 ++ l2) = (t1, ps, r).
Proof.
  revert t t1 ps r. induction l1 as [|l l1 IH]; intros t t1 ps r; simpl; [by intros [= <- <- <-]|].
  destruct (String.eqb (strip l) ""); [apply IH|]. destruct (_ <? _); [done|].
  destruct (parse_worker_event_line J (strip l)) as [[[ev|] reason]|e]; [|done..].
  destruct (accept_worker_event re_sub t ev) as [ta psa]. destruct (str_nonempty _); [done|].
  destruct (feed_stdout_lines J re_sub ta l1) as [[tb psb] rb] eqn:E.
  intros [= <- <- <-] Hr. by rewrite (IH _ _ _ _ E Hr).
Qed.

(** Reading bytes that fit parses their complete lines. *)
Lemma feed_task_fits t a text pending :
  t_protocol_error_reason t = "" → utf8_decode (t_stdout_pending t) a false = Some (text, pending) → fits t a →
  feed_stdout_task J re_sub t a =
    let '(t0, ps, r) := feed_stdout_lines J re_sub t (removelast (split_on newline (t_stdout_buffer t +:+ text))) in
    (with_pending pending (t_stderr_pending t)
       (with_stdout_buffer (List.last (split_on newline (t_stdout_buffer t +:+ text)) "") t0), ps, r).
Proof.
  intros Hr Hd Hf. unfold fits in Hf. rewrite Hd in Hf. unfold feed_stdout_task. rewrite Hr, Hd.
  change (str_nonempty "") with false. cbv iota. rewrite feed_stdout_text_pending. unfold feed_stdout_text. cbv zeta.
  cbn [t_stdout_buffer with_stdout_buffer]. rewrite (proj2 (Z.ltb_ge _ _) Hf), feed_lines_buffer.
  by destruct (feed_stdout_lines J re_sub t _) as [[]].
Qed.

(** A verdict on a chunk is the verdict on all that begins with it. *)
Lemma feed_task_verdict t a b t1 ps r :
  t_protocol_error_reason t = "" → fits t a → fits t (a +:+ b) →
  feed_stdout_task J re_sub t a = (t1, ps, r) → r ≠ Ok false →
  ∃ t2, feed_stdout_task J re_sub t (a +:+ b) = (t2, ps, r) ∧ parsed t2 = parsed t1.
Proof.
  intros Hr Ha Hab Hf Hv. pose proof Ha as Ha'. pose proof Hab as Hab'. unfold fits in Ha', Hab'.
  destruct (utf8_decode (t_stdout_pending t) a false) as [[ta pa]|] eqn:Ea; [|done].
  rewrite (utf8_decode_concat _ _ _ _ _ _ Ea) in Hab'.
  destruct (utf8_decode pa b false) as [[tb pb]|] eqn:Eb; [|done]. clear Ha' Hab'.
  assert (Eab : utf8_decode (t_stdout_pending t) (a +:+ b) false = Some (ta +:+ tb, pb))
    by (rewrite (utf8_decode_concat _ _ _ _ _ _ Ea), Eb; done).
  rewrite (feed_task_fits t a ta pa) in Hf by done. rewrite (feed_task_fits t (a +:+ b) _ pb) by done.
  rewrite <- string_app_assoc, removelast_split_concat.
  destruct (feed_stdout_lines J re_sub t (removelast (split_on newline (t_stdout_buffer t +:+ ta)))) as [[t0 ps0] r0] eqn:E0.
  injection Hf as <- <- <-. rewrite (feed_lines_verdict _ _ _ _ _ _ E0 Hv). by eexists.
Qed.

Lemma feed_chunks_cons t a rest :
  feed_chunks J re_sub t (a :: rest) =
    match feed_stdout_task J re_sub t a with
    | (t1, ps1, Ok false) => let '(t2, ps2, r) := feed_chunks J re_sub t1 rest in (t2, ps1 ++ ps2, r)
    | verdict => verdict
    end.
Proof. done. Qed.

(** What is left after a chunk without a verdict. *)
Lemma fits_rest t a b t1 ps :
  t_protocol_error_reason t = "" → fits t a → feed_stdout_task J re_sub t a = (t1, ps, Ok false) →
  fits t (a +:+ b) → fits t1 b.
Proof.
  intros Hr Ha Hf. pose proof Ha as Ha'. unfold fits in Ha'.
  destruct (utf8_decode (t_stdout_pending t) a false) as [[ta pa]|] eqn:Ea; [|done]. clear Ha'.
  rewrite (feed_task_fits t a ta pa) in Hf by done. destruct (feed_stdout_lines _ _ _ _) as [[t0 ps0] r0].
  injection Hf as <- <- ->. unfold fits. cbn [t_stdout_pending t_stdout_buffer with_pending with_stdout_buffer].
  rewrite (utf8_decode_concat _ _ _ _ _ _ Ea). destruct (utf8_decode pa b false) as [[tb pb]|]; [|done].
  simpl. by rewrite <- string_app_assoc, last_split_concat.
Qed.

Lemma feed_task_no_error t a t1 ps :
  t_protocol_error_reason t = "" → fits t a → feed_stdout_task J re_sub t a = (t1, ps, Ok false) →
  t_protocol_error_reason t1 = "".
Proof.
  intros Hr Ha Hf. pose proof Ha as Ha'. unfold fits in Ha'.
  destruct (utf8_decode (t_stdout_pending t) a false) as [[ta pa]|] eqn:Ea; [|done]. clear Ha'.
  rewrite (feed_task_fits t a ta pa) in Hf by done. destruct (feed_stdout_lines _ _ _ _) as [[t0 ps0] r0] eqn:E0.
  injection Hf as <- <- ->. by apply feed_lines_no_error in E0.
Qed.
End chunks.

(** C18: the worker's standard output is read the same way however the pipe cuts
    it: reading any number of chunks in turn up to the first verdict publishes the
    same events, gives the same verdict - the same protocol error or exception
    included - and ends in the same task, up to the output not parsed yet, as
    reading all of them at once; without a verdict the tasks are the same.  The
    bytes that have come after each chunk are UTF-8 so far, and the unfinished line
    fits in a frame; where they are not, a larger chunk is refused as a whole while
    smaller ones publish the frames before the damage. *)
Theorem stdout_chunking J re_sub t chunk chunks :
  t_protocol_error_reason t = "" → (∀ n, fits t (join "" (chunk :: take n chunks))) →
  let '(t1, ps1, r1) := feed_chunks J re_sub t (chunk :: chunks) in
  let '(t2, ps2, r2) := feed_stdout_task J re_sub t (join "" (chunk :: chunks)) in
  ps1 = ps2 ∧ r1 = r2 ∧ parsed t1 = parsed t2 ∧ (r1 = Ok false → t1 = t2).
Proof.
  revert t chunk. induction chunks as [|b rest IH]; intros t a Hr Hfit.
  { cbn [feed_chunks join]. destruct (feed_stdout_task J re_sub t a) as [[t1 ps1] [[|]|e]]; by rewrite ?app_nil_r. }
  pose proof (Hfit 0%nat) as Ha. change (join "" (a :: take 0 (b :: rest))) with a in Ha.
  pose proof (Hfit (length (b :: rest))) as Hall. rewrite take_ge in Hall by done.
  change (join "" (a :: b :: rest)) with (a +:+ join "" (b :: rest)) in *. set (w := join "" (b :: rest)) in *.
  rewrite feed_chunks_cons. destruct (feed_stdout_task J re_sub t a) as [[t1 ps1] r1] eqn:Ef.
  destruct (decide (r1 = Ok false)) as [->|Hv].
  - assert (Hrest : ∀ n, fits t1 (join "" (b :: take n rest))).
    { intros n. eapply fits_rest; [done|exact Ha|exact Ef|]. exact (Hfit (S n)). }
    specialize (IH t1 b (feed_task_no_error _ _ _ _ _ _ Hr Ha Ef) Hrest).
    unfold fits in Hall. destruct (utf8_decode _ (a +:+ w) _) as [[text pending]|] eqn:Ed; [|done].
    rewrite (feed_task_concat J re_sub t a w t1 ps1 text pending Hr Ef Ed Hall). fold w in IH.
    destruct (feed_chunks J re_sub t1 (b :: rest)) as [[t2 ps2] r2].
    destruct (feed_stdout_task J re_sub t1 w) as [[t3 ps3] r3]. destruct IH as (-> & -> & ? & ?). cbv beta iota. by split_and!.
  - destruct (feed_task_verdict J re_sub t a w t1 ps1 r1 Hr Ha Hall Ef Hv) as (t2 & -> & Hp).
    destruct r1 as [[|]|e]; [|done|]; cbv beta iota; by split_and!.
Qed.

(** Three chunks that cut a frame and a second, damaged one. *)
Lemma stdout_chunking_witness :
  let '(t1, ps1, r1) := feed_chunks demo_loads (λ _ _ s, s) (new_rtask demo_launch)
    ["{e"; "}" +:+ String newline "b"; "ad" +:+ String newline ""] in
  let '(t2, ps2, r2) := feed_stdout_task demo_loads (λ _ _ s, s) (new_rtask demo_launch)
    ("{e}" +:+ String newline ("bad" +:+ String newline "")) in
  ps1 = ps2 ∧ r1 = r2 ∧ r2 = Ok true.
Proof.
  pose proof (stdout_chunking demo_loads (λ _ _ s, s) (new_rtask demo_launch) "{e"
    ["}" +:+ String newline "b"; "ad" +:+ String newline ""] eq_refl) as H.
  assert (Hfit : ∀ n, fits (new_rtask demo_launch)
    (join "" ("{e" :: take n ["}" +:+ String newline "b"; "ad" +:+ String newline ""]))).
  { intros [|[|[|n]]]; vm_compute; discriminate. }
  specialize (H Hfit). vm_compute in H |- *. destruct H as (H1 & H2 & _). split; [exact H1|]. split; [exact H2|reflexivity].
Defined.

Lemma check_free_closing jid rt :
  r_closing rt = true →
  check_free jid rt = Err (RuntimeError "backend is shutting down; new tasks are rejected").
Proof. unfold check_free. by intros ->. Qed.

Lemma set_state_closing jid s rt : r_closing (set_state jid s rt) = r_closing rt.
Proof. unfold set_state. by destruct (find_task jid rt). Qed.

Lemma request_cancel_closing jid rt : r_closing (request_cancel jid rt).1 = r_closing rt.
Proof.
  unfold request_cancel. destruct (find_task jid rt); [|done].
  transitivity (r_closing (set_state jid STOPPING (put_task jid (with_cancel_requested r) rt))); [done|].
  by rewrite set_state_closing.
Qed.

Lemma state_of_cancel k jid rt :
  state_of k (request_cancel jid rt).1 =
    if decide (k = jid) then (λ _, STOPPING) <$> state_of jid rt else state_of k rt.
Proof.
  unfold request_cancel. destruct (find_task jid rt) as [t|] eqn:Hf.
  - transitivity (state_of k (set_state jid STOPPING (put_task jid (with_cancel_requested t) rt)));
      [done|].
    rewrite state_of_set_state.
    destruct (decide (k = jid)) as [->|]; [|by rewrite state_of_put, decide_False].
    rewrite state_of_put, decide_True by done. unfold state_of. by rewrite Hf.
  - simpl. destruct (decide (k = jid)) as [->|]; [|done]. unfold state_of. by rewrite Hf.
Qed.

Lemma cancel_each_spec jids rt rt' u :
  cancel_each jids rt = (rt', Ok u) →
  r_closing rt' = r_closing rt ∧
  ∀ k, state_of k rt' =
    if decide (k ∈ jids) then (λ _, STOPPING) <$> state_of k rt else state_of k rt.
Proof.
  revert rt. induction jids as [|jid jids IH]; intros rt; simpl.
  { intros [= <- <-]. split; [done|]. intros k. done. }
  pose proof (request_cancel_closing jid rt) as Hc.
  pose proof (λ k, state_of_cancel k jid rt) as Hs.
  destruct (request_cancel jid rt) as [rt1 [z|e]]; [|done]. simpl in *.
  intros (Hcl & Hst)%IH. split; [congruence|]. intros k. rewrite Hst, Hs.
  destruct (decide (k = jid)) as [->|Hne].
  - rewrite (decide_True (P := jid ∈ jid :: jids)) by set_solver.
    destruct (decide (jid ∈ jids)); [|done]. by destruct (state_of jid rt).
  - destruct (decide (k ∈ jids)).
    + by rewrite decide_True by set_solver.
    + by rewrite decide_False by set_solver.
Qed.

(** [begin_shutdown], when it returns, has moved every active task to
    STOPPING, and from then on every launch is refused at both of its locked
    sections. *)
Theorem shutdown_stops_all rt rt' snap :
  begin_shutdown rt = (rt', Ok snap) →
  (∀ jid s, state_of jid rt' = Some s → s = STOPPING) ∧
  (∀ jid, state_of jid rt' = None ↔ state_of jid rt = None) ∧
  (∀ fresh job, ∃ m, prepare_begin fresh job rt' = Err (RuntimeError m)) ∧
  (∀ jid l, ∃ m, (prepare_commit jid l rt').2 = Err (RuntimeError m)).
Proof.
  unfold begin_shutdown. destruct (cancel_each _ _) as [rt2 [u|e]] eqn:E; [|done].
  intros [= <- _]. apply cancel_each_spec in E as [Hc Hs]. simpl in Hc, Hs.
  change (λ k, state_of k (Runtime (r_tasks rt) true (r_files rt) (r_published rt)))
    with (λ k, state_of k rt) in Hs.
  assert (Hk : ∀ k, state_of k rt ≠ None → k ∈ (r_tasks rt).*1).
  { intros k Hk. destruct (decide (k ∈ (r_tasks rt).*1)) as [|Hn]; [done|].
    apply alookup_None in Hn. unfold state_of, find_task in Hk. by rewrite Hn in Hk. }
  assert (Hs' : ∀ k, state_of k rt2 = (λ _, STOPPING) <$> state_of k rt).
  { intros k. rewrite Hs. destruct (decide _) as [|Hn]; [done|].
    change (state_of k (Runtime (r_tasks rt) true (r_files rt) (r_published rt)))
      with (state_of k rt).
    destruct (state_of k rt) eqn:Ek; [|done]. exfalso. apply Hn, Hk. by rewrite Ek. }
  split; [|split; [|split]].
  - intros jid s. rewrite Hs'. by destruct (state_of jid rt); intros [= <-].
  - intros jid. rewrite Hs'. by destruct (state_of jid rt).
  - intros fresh job. unfold prepare_begin. rewrite check_free_closing by done. by eexists.
  - intros jid l. unfold prepare_commit. rewrite check_free_closing by done. by eexists.
Qed.

Lemma shutdown_stops_all_witness :
  state_of "j1" (begin_shutdown demo_runtime).1 = Some STOPPING.
Proof.
  destruct (state_of "j1" (begin_shutdown demo_runtime).1) as [s|] eqn:E.
  - f_equal. revert E.
    apply (shutdown_stops_all demo_runtime (begin_shutdown demo_runtime).1 (1, 1)).
    vm_compute. reflexivity.
  - vm_compute in E. discriminate.
Defined.

(** The unlocked part of [prepare] is a race: when two threads prepare the
    same job id, the loser, refused as a duplicate, deletes the job file of the
    task the winner has just registered. *)
Theorem prepare_race_loses_job_file jid job l l' rt rt0 rt1 :
  (prepare_write jid job rt0).2 = Ok l → (prepare_write jid job rt0).2 = Ok l' →
  prepare_commit jid l rt = (rt1, Ok l) →
  ∃ rt2, prepare_commit jid l' rt1 = (rt2, Err (RuntimeError "duplicate background task")) ∧
    state_of jid rt2 = Some STARTING ∧ find_task jid rt2 = find_task jid rt1 ∧
    l_job_path l ∉ r_files rt2.
Proof.
  intros Hl Hl' Hc. rewrite Hl in Hl'. injection Hl' as <-.
  unfold prepare_commit, check_free in Hc. destruct (r_closing rt) eqn:Ecl; [done|].
  destruct (bool_decide _) eqn:Eb; [done|]. injection Hc as <-.
  set (rt1 := set_state jid STARTING _).
  assert (Hs : state_of jid rt1 = Some STARTING).
  { unfold rt1. rewrite state_of_set_state, decide_True, state_of_set_state, decide_True,
      state_of_put, decide_True by done. done. }
  assert (Hcl : r_closing rt1 = false).
  { unfold rt1. by rewrite !set_state_closing. }
  exists (with_files (r_files rt1 ∖ {[ l_job_path l; l_cancel_path l ]}) rt1).
  split; [|split; [done|split; [done|simpl; set_solver]]].
  unfold prepare_commit, check_free. rewrite Hcl.
  rewrite bool_decide_eq_true_2; [done|].
  unfold state_of in Hs. destruct (find_task jid rt1); [eauto|done].
Qed.

Lemma prepare_race_loses_job_file_witness :
  ∃ rt2, prepare_commit "j1" demo_launch
      (prepare_commit "j1" demo_launch (Runtime [] false {["j1.json"]} [])).1 =
    (rt2, Err (RuntimeError "duplicate background task")) ∧
    state_of "j1" rt2 = Some STARTING.
Proof.
  destruct (prepare_race_loses_job_file "j1" demo_job demo_launch demo_launch
    (Runtime [] false {["j1.json"]} []) empty_runtime
    (prepare_commit "j1" demo_launch (Runtime [] false {["j1.json"]} [])).1)
    as (rt2 & H1 & H2 & _).
  - vm_compute. reflexivity.
  - vm_compute. reflexivity.
  - vm_compute. reflexivity.
  - exists rt2. exact (conj H1 H2).
Defined.

(** The job of a launch. *)
Lemma job_from_dict_fields jid job j :
  job_from_dict (dset "job_id" (PStr jid) (job_to_dict job)) = Ok j →
  job_id j = jid ∧ task_type j = task_type job.
Proof.
  intros (ps & _ & [= <-])%res_bind_Ok. cbn [job_id task_type].
  rewrite dget_dset_eq, text_or_empty_PStr, !dget_dset_ne by done. split; [done|].
  change (dget "task_type" (job_to_dict job)) with (PStr (task_type job)).
  change (dget "job_type" (job_to_dict job)) with PNone. by destruct (task_type job).
Qed.

Lemma prepare_write_id jid job rt rt1 l :
  prepare_write jid job rt = (rt1, Ok l) →
  job_id (l_job l) = jid ∧ task_type (l_job l) = task_type job ∧
  r_tasks rt1 = r_tasks rt ∧ r_published rt1 = r_published rt ∧ r_closing rt1 = r_closing rt.
Proof.
  unfold prepare_write. destruct (job_from_dict _) as [j|e] eqn:Ej; [|done].
  destruct (validate_job _); [|done]. intros [= <- <-]. apply job_from_dict_fields in Ej as [Hi Ht].
  split_and!; [|done..]. simpl. rewrite Hi. by destruct jid.
Qed.

Lemma prepare_write_error jid job rt rt1 e : prepare_write jid job rt = (rt1, Err e) → rt1 = rt.
Proof.
  unfold prepare_write. destruct (job_from_dict _); [|by intros [= <- _]].
  destruct (validate_job _); [done|by intros [= <- _]].
Qed.
