(* ===== verification/TaskHistory.v ===== *)
(** * Task history policy

    models/task_history_policy.py: the business projection of a task result,
    the attention flag, the retention deadline and the protection of tasks that
    refer to long-term business data.  Reading and printing ISO time stamps are
    parameters; times are microseconds since the epoch. *)

From S2P Require Import Prelude PyVal PyText WorkerProtocol JobEvents.

Definition ACTIVE_TASK_STATE_VALUES : list string :=
  state_value <$> [PENDING; STARTING; RUNNING; STOPPING].
Definition TERMINAL_TASK_STATE_VALUES : list string :=
  state_value <$> [COMPLETED; FAILED; CANCELLED].

Definition LONG_TERM_TASK_RESOURCE_PREFIXES : list string :=
  ["online_mr_session:"; "online-mr:"; "ground-unattended:"; "ground_unattended:";
   "mesh-import:"; "mesh_catalog:"; "mesh_profile:"; "mesh-source:"; "mesh_source:";
   "mesh-session:"; "mesh_session:"].

Definition LONG_TERM_TASK_RESULT_REFERENCE_FIELDS : list string :=
  ["online_mr_session_id"; "online_mr_session_ids"; "ground_session_id";
   "ground_session_ids"; "ground_unattended_session_id"; "ground_unattended_session_ids";
   "ground_run_id"; "ground_operation_id"; "mesh_session_id"; "mesh_session_ids";
   "mesh_source_id"; "mesh_source_ids"].

(** ** Fields of a result *)

(** [_optional_int]. *)
Definition optional_int (v : pyval) : res Z :=
  match v with
  | PNone => Ok 0
  | _ => n ← try_int v; Ok (default 0 n)
  end.

(** [_nested_business_result]. *)
Fixpoint nested_at (keys : list string) (source : dict) : dict :=
  match keys with
  | [] => []
  | k :: keys' =>
      match dget k source with
      | PDict d => d
      | _ => nested_at keys' source
      end
  end.
Definition nested_business_result (source : dict) : dict :=
  nested_at ["business_result"; "collection"; "summary"] source.

(** [_count]. *)
Fixpoint count_of (source : dict) (keys : list string) : res Z :=
  match keys with
  | [] => Ok 0
  | k :: keys' =>
      match dget k source with
      | PBool _ => count_of source keys'
      | PList l => Ok (Z.of_nat (length l))
      | value =>
          if blank value then count_of source keys'
          else
            n ← try_int value;
            match n with
            | Some z => Ok (Z.max 0 z)
            | None => count_of source keys'
            end
      end
  end.

Definition is_container (v : pyval) : bool :=
  match v with PList _ | PDict _ => true | _ => false end.

(** [_first_text]: the first present value that is not a container decides, even
    when it is only white space. *)
Fixpoint first_text (source : dict) (keys : list string) : string :=
  match keys with
  | [] => ""
  | k :: keys' =>
      let v := dget k source in
      if blank v || is_container v then first_text source keys' else strip (py_str v)
  end.

(** The lexicographic order of (count, reason): strings by code point, which is
    the order of their UTF-8 bytes. *)
Definition reason_leb (a b : Z * string) : bool :=
  (a.1 <? b.1) || ((a.1 =? b.1) && String.leb a.2 b.2).

(** [max] keeps the first of the largest. *)
Fixpoint max_reason (best : Z * string) (l : list (Z * string)) : Z * string :=
  match l with
  | [] => best
  | x :: l' => max_reason (if reason_leb x best then best else x) l'
  end.

Fixpoint reason_candidates (d : dict) : res (list (Z * string)) :=
  match d with
  | [] => Ok []
  | (key, count) :: d' =>
      n ← try_int count;
      rest ← reason_candidates d';
      Ok match n with
         | Some parsed => if 0 <? parsed then (parsed, key) :: rest else rest
         | None => rest
         end
  end.

(** [_dominant_reason]. *)
Definition dominant_reason (v : pyval) : res string :=
  match v with
  | PDict d =>
      cs ← reason_candidates d;
      Ok match cs with [] => "" | c :: cs' => (max_reason c cs').2 end
  | _ => Ok ""
  end.

(** ** [project_business_result] *)
Definition BUSINESS_STATUS_ALIASES : list (string * string) :=
  [("COMPLETED", "SUCCESS"); ("DONE", "SUCCESS"); ("OK", "SUCCESS");
   ("NO_TARGET", "NO_EFFECTIVE_TARGET"); ("NO_TARGETS", "NO_EFFECTIVE_TARGET");
   ("NO_EFFECTIVE_TARGET", "NO_EFFECTIVE_TARGET"); ("NO_DATA", "NO_EFFECTIVE_TARGET");
   ("PARTIAL", "PARTIAL_SUCCESS"); ("PARTIAL_FAILED", "PARTIAL_SUCCESS");
   ("PARTIAL_SUCCESS", "PARTIAL_SUCCESS"); ("SUCCESS", "SUCCESS");
   ("SUCCESS_WITH_WARNINGS", "SUCCESS_WITH_WARNINGS");
   ("REMOTE_RESULT_UNKNOWN", "REMOTE_RESULT_UNKNOWN"); ("WARNING", "WARNING");
   ("ERROR", "FAILED"); ("FAILED", "FAILED"); ("CANCELLED", "CANCELLED")].

Record BusinessResultProjection := Projection {
  business_status : string;
  success_count : Z;
  failed_count : Z;
  skipped_count : Z;
  warning_count : Z;
  partial_success : bool;
  primary_failure_reason : string;
}.

(** The status of a result that names none, from the life cycle and counts. *)
Definition derived_status (lifecycle : string) (source : dict)
    (succeeded failed skipped warned : Z) : string :=
  if String.eqb lifecycle "CANCELLED" then "CANCELLED"
  else if String.eqb lifecycle "FAILED" then "FAILED"
  else if String.eqb lifecycle "COMPLETED" then
    if (0 <? succeeded) && ((0 <? failed) || (0 <? skipped)) then "PARTIAL_SUCCESS"
    else if 0 <? failed then "FAILED"
    else if 0 <? warned then "WARNING"
    else if (0 <? skipped) && (succeeded =? 0) then "NO_EFFECTIVE_TARGET"
    else match source with [] => "UNKNOWN" | _ => "SUCCESS" end
  else if str_mem lifecycle ACTIVE_TASK_STATE_VALUES then ""
  else match source with [] => "" | _ => "UNKNOWN" end.

(** The fallbacks of the failure reason. *)
Definition failure_reason (merged : dict) (lifecycle error_message : string) : res string :=
  let reason := first_text merged
    ["primary_failure_reason"; "failure_reason"; "error_code"; "error";
     "error_message"; "reason"] in
  reason ← (if String.eqb reason "" then dominant_reason (dget "failure_reason_counts" merged)
            else Ok reason);
  reason ← (if String.eqb reason "" then dominant_reason (dget "skipped_reason_counts" merged)
            else Ok reason);
  Ok (if String.eqb reason "" && String.eqb lifecycle "FAILED" then strip error_message
      else reason).

Definition project_business_result (source : dict) (lifecycle_status error_message : string)
    : res BusinessResultProjection :=
  let merged := dmerge (nested_business_result source) source in
  let lifecycle := upper lifecycle_status in
  let raw_status := upper (first_text merged
    ["business_status"; "business_outcome"; "status"; "outcome"]) in
  let status := if str_nonempty raw_status
                then default "UNKNOWN" (alookup raw_status BUSINESS_STATUS_ALIASES)
                else "" in
  succeeded ← count_of merged ["success_count"; "succeeded_count"; "successful_count";
    "completed_count"; "processed_count"; "deleted"; "success"];
  failed ← count_of merged ["failed_count"; "failure_count"; "failed"; "errors_count";
    "rejected_count"];
  skipped ← count_of merged ["skipped_count"; "actionable_skipped_count"; "skipped";
    "not_executed_count"];
  warned ← count_of merged ["warning_count"; "warnings_count"; "warnings"];
  let flagged := bool_decide (dget "partial_success" merged = PBool true) in
  let status := if String.eqb status ""
                then derived_status lifecycle source succeeded failed skipped warned
                else status in
  let partial :=
    if String.eqb status "PARTIAL_SUCCESS" then true
    else if String.eqb lifecycle "COMPLETED" && (0 <? succeeded)
            && ((0 <? failed) || (0 <? skipped)) then true
    else flagged in
  reason ← failure_reason merged lifecycle error_message;
  Ok (Projection status succeeded failed skipped warned partial reason).

(** ** [business_result_has_warning] *)
Fixpoint any_positive (source : dict) (keys : list string) : res bool :=
  match keys with
  | [] => Ok false
  | k :: keys' =>
      n ← optional_int (dget k source);
      if 0 <? n then Ok true else any_positive source keys'
  end.

Definition business_result_has_warning (result : dict) : res bool :=
  match result with
  | [] => Ok false
  | _ =>
      let result := dmerge (nested_business_result result) result in
      let outcome := upper (text_or_empty
        (por (dget "business_outcome" result)
           (por (dget "status" result) (dget "outcome" result)))) in
      if str_mem outcome ["PARTIAL_SUCCESS"; "SUCCESS_WITH_WARNINGS"; "WARNING"] then Ok true
      else if bool_decide (dget "partial_success" result = PBool true) then Ok true
      else
        hit ← any_positive result
                ["failed_count"; "warning_count"; "actionable_skipped_count"];
        if (hit : bool) then Ok true
        else match dget "summary" result with
             | PDict summary =>
                 any_positive summary
                   ["failed"; "failed_count"; "warning"; "warning_count"; "rejected"]
             | _ => Ok false
             end
  end.

(** [task_requires_attention]. *)
Definition task_requires_attention (status error_message : string) (result : dict) : res bool :=
  let value := upper status in
  if String.eqb value (state_value FAILED) then Ok true
  else if String.eqb value (state_value COMPLETED) then
    if str_nonempty (strip error_message) then Ok true
    else business_result_has_warning result
  else Ok false.

(** ** Deadlines *)
Section times.
(** [datetime.fromisoformat] of the text with [Z] read as [+00:00], taken as UTC
    when it names no zone, and [isoformat(timespec="milliseconds")]. *)
Context (fromisoformat : string → option Z) (isoformat : Z → string).

Definition DAY : Z := 86400 * 1000000.
(** [datetime.max] in UTC: 9999-12-31T23:59:59.999999. *)
Definition MAX_TIME : Z := 253402300800 * 1000000 - 1.

(** [_parse_utc]. *)
Definition parse_utc (value : string) : option Z :=
  let text := strip value in
  if String.eqb text "" then None else fromisoformat text.

(** [finished + timedelta(days=n)]. *)
Definition add_days (t n : Z) : res Z :=
  if MAX_TIME <? t + n * DAY then Err OverflowError else Ok (t + n * DAY).

Definition task_expires_at (status finished_time updated_time error_message : string)
    (result : dict) : res string :=
  let value := upper status in
  if negb (str_mem value TERMINAL_TASK_STATE_VALUES) then Ok ""
  else match parse_utc (str_or finished_time updated_time) with
       | None => Ok ""
       | Some finished =>
           attention ← task_requires_attention value error_message result;
           deadline ← add_days finished (if (attention : bool) then 30 else 7);
           Ok (isoformat deadline)
       end.

(** [utc_time_reached] with the current time given. *)
Definition utc_time_reached (value : string) (now : Z) : bool :=
  match parse_utc value with
  | None => false
  | Some target => target <=? now
  end.
End times.

(** [task_history_scope]. *)
Definition task_history_scope (site_name task_type : pyval) : string * string :=
  (strip (text_or_empty site_name), strip (text_or_empty task_type)).

(** ** Long-term references *)

(** [_has_value]. *)
Definition has_value (v : pyval) : bool :=
  match v with
  | PStr s => str_nonempty (strip s)
  | PDict d => match d with [] => false | _ => true end
  | PList l => match l with [] => false | _ => true end
  | PNone => false
  | _ => true
  end.

Definition reference_field (key : string) : bool :=
  str_mem (casefold (strip key)) LONG_TERM_TASK_RESULT_REFERENCE_FIELDS.

(** [_has_long_term_result_reference]. *)
Fixpoint has_long_term_result_reference (v : pyval) : bool :=
  match v with
  | PDict d =>
      existsb (λ kv, (reference_field kv.1 && has_value kv.2)
                     || has_long_term_result_reference kv.2) d
  | PList l => existsb has_long_term_result_reference l
  | _ => false
  end.

Definition long_term_resource (v : pyval) : bool :=
  existsb (λ p, starts_with p (casefold (strip (text_or_empty v))))
    LONG_TERM_TASK_RESOURCE_PREFIXES.

Definition task_has_long_term_reference (resource_keys : list pyval) (result : dict) : bool :=
  existsb long_term_resource resource_keys || has_long_term_result_reference (PDict result).

(** ** Long-term references: specification *)

(** [mentions v]: somewhere inside [v], at any depth, a reference field has a
    value. *)
Inductive mentions : pyval → Prop :=
  | mentions_field d k v :
      (k, v) ∈ d → reference_field k = true → has_value v = true → mentions (PDict d)
  | mentions_entry d k v : (k, v) ∈ d → mentions v → mentions (PDict d)
  | mentions_item l v : v ∈ l → mentions v → mentions (PList l).

Lemma existsb_elem {A} (f : A → bool) l : existsb f l = true ↔ ∃ x, x ∈ l ∧ f x = true.
Proof. rewrite existsb_exists. by setoid_rewrite list_elem_of_In. Qed.

Lemma mentions_iff v : has_long_term_result_reference v = true ↔ mentions v.
Proof.
  induction v as [|b|z|f|s|l IH|d IH] using pyval_ind'; simpl;
    try (split; [done|by inversion 1]).
  - rewrite existsb_elem. rewrite Forall_forall in IH. split.
    + intros (x & Hx & H). apply mentions_item with x; [done|]. by apply IH.
    + inversion 1; subst. eexists; split; [done|]. by apply IH.
  - rewrite existsb_elem. rewrite Forall_forall in IH. split.
    + intros ([k x] & Hx & H). simpl in H. apply orb_true_iff in H as [H|H].
      * bool_to_prop. by eapply mentions_field.
      * eapply mentions_entry; [done|]. by apply (IH _ Hx).
    + inversion 1 as [? k x Hx Hk Hv|? k x Hx Hm|]; subst; exists (k, x); split; try done; simpl.
      * by rewrite Hk, Hv.
      * specialize (IH _ Hx). simpl in IH. rewrite (proj2 IH Hm). apply orb_true_r.
Qed.

(** A task is protected exactly when one of its resource keys, stripped and
    case-folded, starts with a long-term prefix, or its result holds, at any
    depth of dictionaries and lists, a reference field that has a value. *)
Theorem long_term_reference_spec resource_keys result :
  task_has_long_term_reference resource_keys result = true ↔
  (∃ v p, v ∈ resource_keys ∧ p ∈ LONG_TERM_TASK_RESOURCE_PREFIXES ∧
     starts_with p (casefold (strip (text_or_empty v))) = true) ∨
  mentions (PDict result).
Proof.
  unfold task_has_long_term_reference. rewrite orb_true_iff, mentions_iff, existsb_elem.
  unfold long_term_resource. setoid_rewrite existsb_elem. naive_solver.
Qed.

(** ** The projection *)
Definition BUSINESS_STATUSES : list string :=
  [""; "UNKNOWN"; "SUCCESS"; "NO_EFFECTIVE_TARGET"; "PARTIAL_SUCCESS";
   "SUCCESS_WITH_WARNINGS"; "REMOTE_RESULT_UNKNOWN"; "WARNING"; "FAILED"; "CANCELLED"].

Lemma try_int_err v e : try_int v = Err e → e = OverflowError.
Proof.
  unfold try_int. destruct (to_int v) as [z|e'] eqn:E; [done|].
  apply to_int_err in E. naive_solver.
Qed.

Lemma count_of_ok source keys n : count_of source keys = Ok n → 0 ≤ n.
Proof.
  induction keys as [|k keys IH]; cbn [count_of]; [intros [= <-]; done|].
  assert (Hg : ∀ v, (if blank v then count_of source keys
     else n ← try_int v; match n with Some z => Ok (Z.max 0 z) | None => count_of source keys end)
     = Ok n → 0 ≤ n).
  { intros v. destruct (blank v); [done|]. intros ([z|] & _ & H)%res_bind_Ok; [|by apply IH].
    injection H as <-. lia. }
  destruct (dget k source) as [| | | | |l|]; try (match goal with |- context [blank ?x] => exact (Hg x) end); [done|].
  intros [= <-]. lia.
Qed.

Lemma count_of_err source keys e : count_of source keys = Err e → e = OverflowError.
Proof.
  induction keys as [|k keys IH]; cbn [count_of]; [done|].
  assert (Hg : ∀ v, (if blank v then count_of source keys
     else n ← try_int v; match n with Some z => Ok (Z.max 0 z) | None => count_of source keys end)
     = Err e → e = OverflowError).
  { intros v. destruct (blank v); [done|]. destruct (try_int v) as [[z|]|e'] eqn:E; simpl; [done|done|].
    intros [= <-]. by eapply try_int_err. }
  destruct (dget k source); try (match goal with |- context [blank ?x] => exact (Hg x) end); done.
Qed.

Lemma reason_candidates_err d e : reason_candidates d = Err e → e = OverflowError.
Proof.
  induction d as [|[k c] d IH]; simpl; [done|]. destruct (try_int c) as [n|e'] eqn:E; simpl.
  - destruct (reason_candidates d); simpl; [done|]. intros [= <-]. by apply IH.
  - intros [= <-]. by eapply try_int_err.
Qed.

Lemma dominant_reason_err v e : dominant_reason v = Err e → e = OverflowError.
Proof.
  destruct v; simpl; try done. destruct (reason_candidates d) eqn:E; simpl; [done|].
  intros [= <-]. by eapply reason_candidates_err.
Qed.

Lemma failure_reason_err merged lifecycle msg e :
  failure_reason merged lifecycle msg = Err e → e = OverflowError.
Proof.
  unfold failure_reason. cbv zeta. set (r := first_text _ _). clearbody r.
  assert (H : ∀ r v, (if String.eqb r "" then dominant_reason v else Ok r) = Err e →
    e = OverflowError).
  { intros r' v. destruct (String.eqb r' ""); [apply dominant_reason_err|done]. }
  intros [He|(r1 & _ & [He|(r2 & _ & He)]%res_bind_Err)]%res_bind_Err; [by eapply H..|done].
Qed.

Lemma alias_status raw s : alookup raw BUSINESS_STATUS_ALIASES = Some s → s ∈ BUSINESS_STATUSES.
Proof.
  assert (H : Forall (λ kv, kv.2 ∈ BUSINESS_STATUSES) BUSINESS_STATUS_ALIASES).
  { apply (bool_decide_unpack _). vm_compute. exact I. }
  revert H. generalize BUSINESS_STATUS_ALIASES as l. induction l as [|[k v] l IH]; [done|].
  intros [Hv Hl]%Forall_cons. simpl. destruct (decide (raw = k)); [by intros [= <-]|]. by apply IH.
Qed.

Lemma derived_status_in lifecycle source a b c d :
  derived_status lifecycle source a b c d ∈ BUSINESS_STATUSES.
Proof.
  unfold derived_status. assert (H : ∀ s, bool_decide (s ∈ BUSINESS_STATUSES) = true →
    s ∈ BUSINESS_STATUSES) by (intros s; apply bool_decide_eq_true).
  split_ifs; try destruct source; by apply H.
Qed.

Lemma named_status_in raw :
  (if str_nonempty raw then default "UNKNOWN" (alookup raw BUSINESS_STATUS_ALIASES) else "")
    ∈ BUSINESS_STATUSES.
Proof.
  destruct (str_nonempty raw); [|by left].
  destruct (alookup raw _) eqn:E; simpl; [by eapply alias_status|right; left].
Qed.

Lemma derived_status_terminal lifecycle source a b c d :
  lifecycle ∈ TERMINAL_TASK_STATE_VALUES → derived_status lifecycle source a b c d ≠ "".
Proof.
  unfold TERMINAL_TASK_STATE_VALUES. simpl. rewrite !elem_of_cons.
  intros [->|[->|[->|?%not_elem_of_nil]]]; [| | |done];
    unfold derived_status; simpl; split_ifs; by try destruct source.
Qed.

(** C39: the business projection of any JSON-like result either returns or lets
    [OverflowError] escape (never another error).  What it returns is within
    the published vocabulary, its counts are not negative, PARTIAL_SUCCESS
    always carries the partial flag, and a completed task with successes next
    to failures or skips is always flagged. *)
Theorem business_projection_sound source lifecycle error_message :
  match project_business_result source lifecycle error_message with
  | Err e => e = OverflowError
  | Ok p =>
      business_status p ∈ BUSINESS_STATUSES ∧
      0 ≤ success_count p ∧ 0 ≤ failed_count p ∧ 0 ≤ skipped_count p ∧ 0 ≤ warning_count p ∧
      (business_status p = "PARTIAL_SUCCESS" → partial_success p = true) ∧
      (upper lifecycle = "COMPLETED" → 0 < success_count p →
       0 < failed_count p ∨ 0 < skipped_count p → partial_success p = true) ∧
      (upper lifecycle ∈ TERMINAL_TASK_STATE_VALUES → business_status p ≠ "")
  end.
Proof.
  unfold project_business_result. cbv zeta.
  set (merged := dmerge _ _). set (raw := upper (first_text merged _)).
  destruct (count_of merged ("success_count" :: _)) as [a|e] eqn:Ea;
    cbn [mbind res_bind];
    [|by eapply count_of_err].
  destruct (count_of merged ("failed_count" :: _)) as [b|e] eqn:Eb;
    cbn [mbind res_bind];
    [|by eapply count_of_err].
  destruct (count_of merged ("skipped_count" :: _)) as [c|e] eqn:Ec;
    cbn [mbind res_bind];
    [|by eapply count_of_err].
  destruct (count_of merged ("warning_count" :: _)) as [d|e] eqn:Ed;
    cbn [mbind res_bind];
    [|by eapply count_of_err].
  destruct (failure_reason merged (upper lifecycle) error_message) as [r|e] eqn:Er;
    cbn [mbind res_bind];
    [|by eapply failure_reason_err].
  apply count_of_ok in Ea, Eb, Ec, Ed.
  set (named := if str_nonempty raw then _ else "").
  assert (Hn : named ∈ BUSINESS_STATUSES) by apply named_status_in.
  set (status := if String.eqb named "" then _ else named).
  assert (Hs : status ∈ BUSINESS_STATUSES ∧
    (upper lifecycle ∈ TERMINAL_TASK_STATE_VALUES → status ≠ "")).
  { unfold status. destruct (String.eqb_spec named "") as [He|He]; [|by split].
    split; [apply derived_status_in|apply derived_status_terminal]. }
  destruct Hs as [Hs Ht]. clearbody status. cbn -[Z.lt Z.ltb]. split_and!; try done.
  - intros ->. done.
  - intros -> H1 H2. destruct (String.eqb status _); [done|]. simpl.
    rewrite (proj2 (Z.ltb_lt _ _) H1). simpl.
    by destruct H2 as [H2|H2]; rewrite (proj2 (Z.ltb_lt _ _) H2), ?orb_true_r.
Qed.

(** A result with two successes and one skip. *)
Example projection_example :
  project_business_result [("success_count", PInt 2); ("skipped", PList [PInt 1])]
    "completed" "" =
  Ok (Projection "PARTIAL_SUCCESS" 2 0 1 0 true "").
Proof. reflexivity. Qed.

(** ** Deadlines *)
Section deadlines.
Context (fromisoformat : string → option Z) (isoformat : Z → string).

(** The documented round trip of the two functions at millisecond precision;
    the text of a time stamp has no blanks around it. *)
Definition iso_roundtrip : Prop :=
  ∀ t, strip (isoformat t) = isoformat t ∧ isoformat t ≠ "" ∧
       fromisoformat (isoformat t) = Some (t - t mod 1000).

Lemma parse_isoformat t :
  iso_roundtrip → parse_utc fromisoformat (isoformat t) = Some (t - t mod 1000).
Proof.
  intros H. destruct (H t) as (H1 & H2 & H3). unfold parse_utc. rewrite H1.
  by rewrite (proj2 (String.eqb_neq _ _)).
Qed.

Lemma task_expires_at_Ok status f u msg result d :
  task_expires_at fromisoformat isoformat status f u msg result = Ok d → d ≠ "" →
  ∃ finished b, upper status ∈ TERMINAL_TASK_STATE_VALUES ∧
    parse_utc fromisoformat (str_or f u) = Some finished ∧
    task_requires_attention (upper status) msg result = Ok b ∧
    d = isoformat (finished + (if b then 30 else 7) * DAY).
Proof.
  unfold task_expires_at. cbv zeta. destruct (str_mem _ _) eqn:Et; simpl; [|by intros [= <-]].
  apply str_mem_iff in Et. destruct (parse_utc _ _) as [finished|]; [|by intros [= <-]].
  intros (b & Hb & (t & Ht & [= <-])%res_bind_Ok)%res_bind_Ok _.
  exists finished, b. split_and!; try done. f_equal. unfold add_days in Ht.
  destruct (MAX_TIME <? _); [done|]. injection Ht as <-. by destruct b.
Qed.

Lemma upper_failed_attention status msg result :
  upper status = "FAILED" → upper (upper status) = "FAILED" →
  task_requires_attention (upper status) msg result = Ok true.
Proof. intros _ H. unfold task_requires_attention. by rewrite H. Qed.

(** A task whose stored deadline has been reached is terminal, and at least
    seven days, or thirty when the task failed or needs attention, less the
    millisecond lost in printing, have passed since the recorded time it
    finished (or was last updated). *)
Theorem retention_deadline status f u msg result d now :
  iso_roundtrip →
  task_expires_at fromisoformat isoformat status f u msg result = Ok d →
  utc_time_reached fromisoformat d now = true →
  ∃ finished b, upper status ∈ TERMINAL_TASK_STATE_VALUES ∧
    parse_utc fromisoformat (str_or f u) = Some finished ∧
    task_requires_attention (upper status) msg result = Ok b ∧
    (upper status = "FAILED" → b = true) ∧
    finished + (if b then 30 else 7) * DAY - 1000 < now.
Proof.
  intros Hiso He Hr. destruct (String.eqb_spec d "") as [->|Hd]; [done|].
  apply task_expires_at_Ok in He as (finished & b & Ht & Hp & Ha & ->); [|done].
  exists finished, b. split_and!; try done.
  - intros Hf. rewrite upper_failed_attention in Ha by (by rewrite ?Hf). by injection Ha.
  - unfold utc_time_reached in Hr. rewrite parse_isoformat in Hr by done. bool_to_prop.
    set (t := finished + _ * DAY) in *. pose proof (Z.mod_pos_bound t 1000). lia.
Qed.
End deadlines.

(** A concrete pair of time functions: the milliseconds in binary. *)
Fixpoint bits_of (p : positive) : string :=
  match p with
  | xH => "1"
  | xO q => String "0" (bits_of q)
  | xI q => String "1" (bits_of q)
  end.
Definition demo_isoformat (t : Z) : string :=
  match t / 1000 with
  | Z0 => "z"
  | Zpos p => String "p" (bits_of p)
  | Zneg p => String "n" (bits_of p)
  end.
Fixpoint of_bits (s : string) : positive :=
  match s with
  | String c "" => 1
  | String "0" s' => xO (of_bits s')
  | String _ s' => xI (of_bits s')
  | "" => 1
  end%positive.
Definition demo_fromisoformat (s : string) : option Z :=
  match s with
  | String "p" s' => Some (1000 * Zpos (of_bits s'))
  | String "n" s' => Some (1000 * Zneg (of_bits s'))
  | "z" => Some 0
  | _ => None
  end.

Lemma of_bits_of p : of_bits (bits_of p) = p.
Proof.
  induction p as [p IH|p IH|]; simpl; [..|done]; rewrite IH; by destruct p.
Qed.

Lemma bits_no_space p : no_space (bits_of p) = true.
Proof. induction p; done. Qed.

Lemma demo_iso_roundtrip : iso_roundtrip demo_fromisoformat demo_isoformat.
Proof.
  intros t. pose proof (Z_div_mod_eq_full t 1000) as H. unfold demo_isoformat.
  destruct (t / 1000) as [|p|p]; split_and!; try done; simpl; try (f_equal; rewrite ?of_bits_of; lia);
    apply strip_no_space; simpl; apply bits_no_space.
Qed.

(** A failed task finished at time 0 is reached after thirty days. *)
Lemma retention_deadline_witness :
  ∃ finished b, upper "failed" ∈ TERMINAL_TASK_STATE_VALUES ∧
    parse_utc demo_fromisoformat "z" = Some finished ∧
    task_requires_attention "FAILED" "boom" [] = Ok b ∧
    (upper "failed" = "FAILED" → b = true) ∧
    finished + (if b then 30 else 7) * DAY - 1000 < 30 * DAY.
Proof.
  apply (retention_deadline demo_fromisoformat demo_isoformat "failed" "z" "" "boom" []
           (demo_isoformat (30 * DAY)) (30 * DAY) demo_iso_roundtrip);
    vm_compute; reflexivity.
Defined.
