(* ===== verification/Rollout.v ===== *)
(** * Task-result storage rollout

    services/job_center/task_result_rollout.py over the rollout rows of
    repositories/task_repository.py: a state machine with one persisted row,
    its revision and its audit table.  A transition reads the row in one
    transaction and updates it in a second, conditional one, so transitions of
    several clients interleave between the two; the step relation below runs
    the two halves as separate steps.  SQLite makes each half atomic. *)

From S2P Require Import Prelude PyVal.

(** [TaskResultStorageState]. *)
Inductive TaskResultStorageState :=
  | LEGACY_DUAL_FULL
  | TASK_RESULTS_DUAL_WRITE
  | TASK_RESULTS_VERIFIED
  | RESULT_REF_AUTHORITY.

#[global] Instance storage_state_eq_dec : EqDecision TaskResultStorageState.
Proof. solve_decision. Defined.

(** [TaskResultRolloutStatus], the persisted row. *)
Record rollout := TaskResultRolloutStatus {
  ro_state : TaskResultStorageState;
  ro_revision : Z;
  ro_updated_at : string;
  ro_updated_by : string;
  ro_reason : string;
  ro_schema_version : Z;
}.

#[global] Instance rollout_eq_dec : EqDecision rollout.
Proof. solve_decision. Defined.

Definition persisted_dual_write_active (r : rollout) : bool :=
  bool_decide (ro_state r ∈ [TASK_RESULTS_DUAL_WRITE; TASK_RESULTS_VERIFIED]).
Definition persisted_ref_authority_active (r : rollout) : bool :=
  bool_decide (ro_state r = RESULT_REF_AUTHORITY).

(** The writer of the running program, whatever the row says. *)
Definition TASK_RESULT_RUNTIME_WRITE_STATE : TaskResultStorageState := RESULT_REF_AUTHORITY.
Definition runtime_dual_write_active : bool :=
  bool_decide (TASK_RESULT_RUNTIME_WRITE_STATE ∈ [TASK_RESULTS_DUAL_WRITE; TASK_RESULTS_VERIFIED]).
Definition runtime_ref_authority_active : bool :=
  bool_decide (TASK_RESULT_RUNTIME_WRITE_STATE = RESULT_REF_AUTHORITY).

(** A row of [task_result_storage_rollout_audit]. *)
Record audit := Audit {
  au_revision : Z;
  au_from : TaskResultStorageState;
  au_to : TaskResultStorageState;
  au_changed_at : string;
  au_changed_by : string;
  au_reason : string;
}.

(** The database: the singleton row and the audit table by revision. *)
Record rollout_db := RolloutDb {
  db_row : rollout;
  db_audit : list audit;
}.

(** ** The repository *)
Definition production_transitions : list (TaskResultStorageState * TaskResultStorageState) :=
  [(LEGACY_DUAL_FULL, TASK_RESULTS_DUAL_WRITE); (TASK_RESULTS_DUAL_WRITE, LEGACY_DUAL_FULL)].
Definition advanced_transitions : list (TaskResultStorageState * TaskResultStorageState) :=
  [(TASK_RESULTS_DUAL_WRITE, TASK_RESULTS_VERIFIED);
   (TASK_RESULTS_VERIFIED, RESULT_REF_AUTHORITY)].

(** [compare_and_set_task_result_rollout]: [Ok None] when the row has moved on;
    the update and the audit row are one transaction. *)
Definition compare_and_set_task_result_rollout (now : string)
    (expected_state : TaskResultStorageState) (expected_revision : Z)
    (target_state : TaskResultStorageState) (updated_by reason : string)
    (allow_advanced : bool) (db : rollout_db) : rollout_db * res (option rollout) :=
  let transition := (expected_state, target_state) in
  if negb (bool_decide (transition ∈ production_transitions))
     && negb (allow_advanced && bool_decide (transition ∈ advanced_transitions))
  then (db, Err ValueError)
  else
    let row := db_row db in
    if bool_decide (ro_state row = expected_state) && (ro_revision row =? expected_revision) then
      let next_revision := expected_revision + 1 in
      let row' := TaskResultRolloutStatus target_state next_revision now updated_by reason 5 in
      (RolloutDb row' (db_audit db ++
         [Audit next_revision expected_state target_state now updated_by reason]),
       Ok (Some row'))
    else (db, Ok None).

(** ** The service *)
Definition ALLOWED_TRANSITIONS : list (TaskResultStorageState * TaskResultStorageState) :=
  [(LEGACY_DUAL_FULL, TASK_RESULTS_DUAL_WRITE);
   (TASK_RESULTS_DUAL_WRITE, LEGACY_DUAL_FULL);
   (TASK_RESULTS_DUAL_WRITE, TASK_RESULTS_VERIFIED);
   (TASK_RESULTS_VERIFIED, RESULT_REF_AUTHORITY)].

(** [len(s)] counts characters: the UTF-8 bytes that do not continue one. *)
Fixpoint str_len (s : string) : Z :=
  match s with
  | "" => 0
  | String c s' =>
      (if (128 <=? byte_of c) && (byte_of c <? 192) then 0 else 1) + str_len s'
  end.

Fixpoint has_control (s : string) : bool :=
  match s with
  | "" => false
  | String c s' => (byte_of c <? 32) || has_control s'
  end.

(** [_required_text]. *)
Definition required_text (value : string) (maximum : Z) : res string :=
  let normalized := strip value in
  if String.eqb normalized "" then Err (RuntimeError "TASK_RESULT_ROLLOUT_REASON_REQUIRED")
  else if (maximum <? str_len normalized) || has_control normalized
  then Err (RuntimeError "TASK_RESULT_ROLLOUT_TEXT_INVALID")
  else Ok normalized.

(** A call of [transition]; [enable_dual_write] and [disable_dual_write] fix the
    target. *)
Record request := Request {
  rq_target : TaskResultStorageState;
  rq_expected_revision : Z;
  rq_reason : string;
  rq_updated_by : string;
}.
Definition enable_dual_write (expected_revision : Z) (reason updated_by : string) : request :=
  Request TASK_RESULTS_DUAL_WRITE expected_revision reason updated_by.
Definition disable_dual_write (expected_revision : Z) (reason updated_by : string) : request :=
  Request LEGACY_DUAL_FULL expected_revision reason updated_by.

(** What a transition keeps between its two transactions: the row it read and
    the checked texts. *)
Record plan := Plan {
  pl_current : rollout;
  pl_target : TaskResultStorageState;
  pl_reason : string;
  pl_actor : string;
}.

(** [_transition] up to the conditional update. *)
Definition transition_begin (rq : request) (db : rollout_db) : res plan :=
  let current := db_row db in
  if negb (ro_revision current =? rq_expected_revision rq)
  then Err (RuntimeError "TASK_RESULT_ROLLOUT_REVISION_CONFLICT")
  else if negb (bool_decide ((ro_state current, rq_target rq) ∈ ALLOWED_TRANSITIONS))
  then Err (RuntimeError "TASK_RESULT_ROLLOUT_TRANSITION_INVALID")
  else
    reason ← required_text (rq_reason rq) 500;
    actor ← required_text (rq_updated_by rq) 128;
    Ok (Plan current (rq_target rq) reason actor).

(** [_transition] from the conditional update on. *)
Definition transition_commit (now : string) (p : plan) (db : rollout_db)
    : rollout_db * res rollout :=
  let allow_advanced := bool_decide (pl_target p ∈ [TASK_RESULTS_VERIFIED; RESULT_REF_AUTHORITY]) in
  match compare_and_set_task_result_rollout now (ro_state (pl_current p))
          (ro_revision (pl_current p)) (pl_target p) (pl_actor p) (pl_reason p)
          allow_advanced db with
  | (db', Ok (Some updated)) => (db', Ok updated)
  | (db', Ok None) => (db', Err (RuntimeError "TASK_RESULT_ROLLOUT_REVISION_CONFLICT"))
  | (db', Err e) => (db', Err e)
  end.

(** [_transition] without another client in between. *)
Definition transition (now : string) (rq : request) (db : rollout_db)
    : rollout_db * res rollout :=
  match transition_begin rq db with
  | Err e => (db, Err e)
  | Ok p => transition_commit now p db
  end.

(** ** Interleaved clients

    [w_plans] holds the transitions between their two halves, by client. *)
Record world := World {
  w_db : rollout_db;
  w_plans : list (string * plan);
}.

Inductive wstep : world → world → Prop :=
  | wstep_begin client rq p w :
      transition_begin rq (w_db w) = Ok p →
      wstep w (World (w_db w) (ainsert client p (w_plans w)))
  | wstep_refused rq e w :
      transition_begin rq (w_db w) = Err e → wstep w w
  | wstep_commit client p now w :
      alookup client (w_plans w) = Some p →
      wstep w (World (transition_commit now p (w_db w)).1 (adelete client (w_plans w))).

(** ** Theorems *)

(** The audit table is a path of allowed transitions from [s] at revision [r]
    to the state and revision of the row. *)
Fixpoint audit_path (s : TaskResultStorageState) (r : Z) (l : list audit)
    (row : rollout) : Prop :=
  match l with
  | [] => ro_state row = s ∧ ro_revision row = r
  | a :: l' =>
      au_from a = s ∧ (s, au_to a) ∈ ALLOWED_TRANSITIONS ∧ au_revision a = r + 1 ∧
      strip (au_reason a) = au_reason a ∧ au_reason a ≠ "" ∧ str_len (au_reason a) ≤ 500 ∧
      strip (au_changed_by a) = au_changed_by a ∧ au_changed_by a ≠ "" ∧
      str_len (au_changed_by a) ≤ 128 ∧
      audit_path (au_to a) (r + 1) l' row
  end.

Definition plan_ok (p : plan) : Prop :=
  (ro_state (pl_current p), pl_target p) ∈ ALLOWED_TRANSITIONS ∧
  strip (pl_reason p) = pl_reason p ∧ pl_reason p ≠ "" ∧ str_len (pl_reason p) ≤ 500 ∧
  strip (pl_actor p) = pl_actor p ∧ pl_actor p ≠ "" ∧ str_len (pl_actor p) ≤ 128.

Lemma required_text_ok v m t :
  required_text v m = Ok t → strip t = t ∧ t ≠ "" ∧ str_len t ≤ m.
Proof.
  unfold required_text. cbv zeta. destruct (String.eqb (strip v) "") eqn:E; [done|].
  destruct (_ || _) eqn:E2; [done|]. intros [= <-]. bool_to_prop.
  split_and!; [apply strip_idem|done|done].
Qed.

Lemma transition_begin_ok rq db p :
  transition_begin rq db = Ok p →
  plan_ok p ∧ pl_current p = db_row db ∧ pl_target p = rq_target rq ∧
  ro_revision (db_row db) = rq_expected_revision rq.
Proof.
  unfold transition_begin. cbv zeta. destruct (negb (_ =? _)) eqn:E1; [done|].
  destruct (negb (bool_decide _)) eqn:E2; [done|]. bool_to_prop.
  apply bool_decide_eq_true in E2.
  intros (r & (Hr1 & Hr2 & Hr3)%required_text_ok &
          (a & (Ha1 & Ha2 & Ha3)%required_text_ok & [= <-])%res_bind_Ok)%res_bind_Ok.
  split; [|done]. by split_and!.
Qed.

(** The persistence guard lets every allowed transition of the service pass. *)
Lemma guard_passes s t :
  (s, t) ∈ ALLOWED_TRANSITIONS →
  negb (bool_decide ((s, t) ∈ production_transitions))
  && negb (bool_decide (t ∈ [TASK_RESULTS_VERIFIED; RESULT_REF_AUTHORITY])
           && bool_decide ((s, t) ∈ advanced_transitions)) = false.
Proof. destruct s, t; intros H; try reflexivity; exfalso; set_solver. Qed.

(** A commit either moves the row one revision on and appends its audit row, or
    changes nothing and reports a conflict. *)
Lemma transition_commit_spec now p db :
  plan_ok p →
  let row := db_row db in let cur := pl_current p in
  transition_commit now p db =
    if bool_decide (ro_state row = ro_state cur) && (ro_revision row =? ro_revision cur)
    then let row' := TaskResultRolloutStatus (pl_target p) (ro_revision cur + 1) now
                       (pl_actor p) (pl_reason p) 5 in
         (RolloutDb row' (db_audit db ++ [Audit (ro_revision cur + 1) (ro_state cur)
            (pl_target p) now (pl_actor p) (pl_reason p)]), Ok row')
    else (db, Err (RuntimeError "TASK_RESULT_ROLLOUT_REVISION_CONFLICT")).
Proof.
  intros (Ht & _). unfold transition_commit, compare_and_set_task_result_rollout. cbv zeta.
  rewrite guard_passes by done. by destruct (_ && _).
Qed.

Lemma audit_path_snoc s r l row a row' :
  audit_path s r l row →
  au_from a = ro_state row → au_revision a = ro_revision row + 1 →
  (ro_state row, au_to a) ∈ ALLOWED_TRANSITIONS →
  strip (au_reason a) = au_reason a → au_reason a ≠ "" → str_len (au_reason a) ≤ 500 →
  strip (au_changed_by a) = au_changed_by a → au_changed_by a ≠ "" →
  str_len (au_changed_by a) ≤ 128 →
  ro_state row' = au_to a → ro_revision row' = au_revision a →
  audit_path s r (l ++ [a]) row'.
Proof.
  revert s r. induction l as [|b l IH]; intros s r; simpl.
  - intros [-> ->] H1 H2 ?????????. rewrite H2 in *. naive_solver.
  - naive_solver.
Qed.

Definition world_ok (s : TaskResultStorageState) (r : Z) (w : world) : Prop :=
  audit_path s r (db_audit (w_db w)) (db_row (w_db w)) ∧
  Forall (λ cp, plan_ok cp.2) (w_plans w).

Lemma adelete_Forall {K V} `{EqDecision K} (P : K * V → Prop) k (l : list (K * V)) :
  Forall P l → Forall P (adelete k l).
Proof.
  induction 1 as [|[j v] l Hj Hl IH]; simpl; [done|]. destruct (decide (k = j)); [done|by constructor].
Qed.

Lemma alookup_Forall {K V} `{EqDecision K} (P : K * V → Prop) k v (l : list (K * V)) :
  Forall P l → alookup k l = Some v → P (k, v).
Proof.
  induction 1 as [|[j w] l Hj Hl IH]; simpl; [done|].
  destruct (decide (k = j)) as [->|]; [by intros [= ->]|done].
Qed.

Lemma wstep_ok s r w w' : wstep w w' → world_ok s r w → world_ok s r w'.
Proof.
  intros Hs [Hp Hf]. destruct Hs as [client rq p w Hb|rq e w|client p now w Hl].
  - split; [done|]. apply ainsert_Forall; [|done]. by apply transition_begin_ok in Hb as [? _].
  - done.
  - pose proof (alookup_Forall _ _ _ _ Hf Hl) as Hok. simpl in Hok.
    split; simpl; [|by apply adelete_Forall].
    rewrite transition_commit_spec by done. cbv zeta.
    destruct (_ && _) eqn:E; simpl; [|done]. bool_to_prop.
    apply bool_decide_eq_true in H. destruct Hok as (?&?&?&?&?&?&?).
    eapply audit_path_snoc; simpl; try done; congruence.
Qed.

(** C35: whatever transitions any number of clients start and commit, in any
    interleaving, the audit table stays a gap-free path of allowed transitions
    from the initial state to the current row, one revision each, with checked
    texts. *)
Theorem rollout_audit_path w0 w :
  db_audit (w_db w0) = [] → w_plans w0 = [] → rtc wstep w0 w →
  audit_path (ro_state (db_row (w_db w0))) (ro_revision (db_row (w_db w0)))
    (db_audit (w_db w)) (db_row (w_db w)).
Proof.
  intros Ha Hp Hr.
  assert (H0 : world_ok (ro_state (db_row (w_db w0))) (ro_revision (db_row (w_db w0))) w0).
  { split; [by rewrite Ha|by rewrite Hp]. }
  revert H0. generalize (ro_state (db_row (w_db w0))) (ro_revision (db_row (w_db w0))).
  clear Ha Hp. intros s r.
  induction Hr as [w|w w1 w2 Hs Hr IH]; intros H; [apply H|]. apply IH. by eapply wstep_ok.
Qed.

(** Two clients begin from the same row; the second commit loses. *)
Definition demo_db : rollout_db :=
  RolloutDb (TaskResultRolloutStatus LEGACY_DUAL_FULL 7 "t0" "init" "init" 5) [].
Definition demo_plan (who : string) : plan :=
  Plan (db_row demo_db) TASK_RESULTS_DUAL_WRITE "go" who.
Definition demo_after : rollout_db := (transition_commit "t1" (demo_plan "a") demo_db).1.

Lemma demo_reach : rtc wstep (World demo_db []) (World demo_after []).
Proof.
  apply rtc_l with (World demo_db [("a", demo_plan "a")]).
  { apply (wstep_begin "a" (enable_dual_write 7 " go " "a") (demo_plan "a") (World demo_db [])).
    vm_compute. reflexivity. }
  apply rtc_l with (World demo_db [("a", demo_plan "a"); ("b", demo_plan "b")]).
  { apply (wstep_begin "b" (enable_dual_write 7 "go" "b") (demo_plan "b")
             (World demo_db [("a", demo_plan "a")])). vm_compute. reflexivity. }
  apply rtc_l with (World demo_after [("b", demo_plan "b")]).
  { apply (wstep_commit "a" (demo_plan "a") "t1"
             (World demo_db [("a", demo_plan "a"); ("b", demo_plan "b")])). reflexivity. }
  apply rtc_once, (wstep_commit "b" (demo_plan "b") "t2"
    (World demo_after [("b", demo_plan "b")])). reflexivity.
Qed.

Lemma rollout_audit_path_witness :
  audit_path LEGACY_DUAL_FULL 7
    [Audit 8 LEGACY_DUAL_FULL TASK_RESULTS_DUAL_WRITE "t1" "a" "go"] (db_row demo_after).
Proof.
  exact (rollout_audit_path (World demo_db []) (World demo_after []) eq_refl eq_refl demo_reach).
Defined.

(** A transition without interference succeeds exactly when the expected
    revision is current, the step is allowed and both texts are acceptable; it
    then moves the row one revision on and records it.  Otherwise it changes
    nothing and raises the code of the first check that fails; the persistence
    guard never raises. *)
Theorem transition_outcome now rq db :
  let row := db_row db in
  let fresh := ro_revision row = rq_expected_revision rq in
  let allowed := (ro_state row, rq_target rq) ∈ ALLOWED_TRANSITIONS in
  match transition now rq db with
  | (db', Ok row') =>
      fresh ∧ allowed ∧
      ∃ reason actor, required_text (rq_reason rq) 500 = Ok reason ∧
        required_text (rq_updated_by rq) 128 = Ok actor ∧
        row' = TaskResultRolloutStatus (rq_target rq) (ro_revision row + 1) now actor reason 5 ∧
        db' = RolloutDb row' (db_audit db ++
                [Audit (ro_revision row + 1) (ro_state row) (rq_target rq) now actor reason])
  | (db', Err e) =>
      db' = db ∧
      (e = RuntimeError "TASK_RESULT_ROLLOUT_REVISION_CONFLICT" ∧ ¬ fresh ∨
       e = RuntimeError "TASK_RESULT_ROLLOUT_TRANSITION_INVALID" ∧ fresh ∧ ¬ allowed ∨
       fresh ∧ allowed ∧
         (required_text (rq_reason rq) 500 = Err e ∨ required_text (rq_updated_by rq) 128 = Err e))
  end.
Proof.
  cbv zeta. unfold transition. destruct (transition_begin rq db) as [p|e] eqn:E.
  - pose proof (transition_begin_ok _ _ _ E) as (Hok & Hc & Ht & Hr).
    rewrite transition_commit_spec, Hc by done. cbv zeta.
    rewrite bool_decide_eq_true_2, Z.eqb_refl by done. simpl.
    destruct Hok as (Ha & _). rewrite Hc, Ht in Ha. split_and!; try done.
    unfold transition_begin in E. cbv zeta in E. do 2 (case_match; [done|]).
    apply res_bind_Ok in E as (r & Er & (a & Ea & [= <-])%res_bind_Ok). simpl. eauto 10.
  - split; [done|]. unfold transition_begin in E. cbv zeta in E.
    destruct (negb (_ =? _)) eqn:E1; bool_to_prop; [left; by injection E as <-|right].
    destruct (negb (bool_decide _)) eqn:E2; bool_to_prop.
    { apply bool_decide_eq_false in E2. left. by injection E as <-. }
    apply bool_decide_eq_true in E2. right. split_and!; [done|done|].
    apply res_bind_Err in E as [|(r & _ & [|(? & _ & ?)]%res_bind_Err)]; naive_solver.
Qed.
