(* ===== verification/OnlineMrConcurrency.v ===== *)
(** * Resource budget of Online MR collections

    services/online_mr/concurrency_policy.py and the phases of
    models/online_mr_application.py, with the two services that ask the policy before
    they start a collection: services/online_mr/web_control_service.py and
    services/ground_unattended/deep_scheduler.py.  The task table is a lookup
    function that gives the owner of a task. *)

From S2P Require Import Prelude PyVal.

(** [OnlineMrPhase]. *)
Inductive OnlineMrPhase :=
  | VALIDATING | PREPARING_TASK | PREPARING_SESSION | CONNECTING | STARTING_COLLECTION
  | COLLECTING | STOPPING_TRAFFIC | STOPPING_COLLECTION | FINALIZING | PARSING
  | PACKAGING | TERMINAL.

#[global] Instance phase_eq_dec : EqDecision OnlineMrPhase.
Proof. solve_decision. Defined.

Definition STARTING_PHASES : list OnlineMrPhase :=
  [VALIDATING; PREPARING_TASK; PREPARING_SESSION; CONNECTING; STARTING_COLLECTION].
Definition FINALIZING_PHASES : list OnlineMrPhase :=
  [STOPPING_TRAFFIC; STOPPING_COLLECTION; FINALIZING; PARSING; PACKAGING].

(** The fields of an operation snapshot that the policy reads. *)
Record operation := Operation {
  op_device_id : pyval;
  op_controller_task_id : string;
  op_phase : OnlineMrPhase;
}.

Record OnlineMrConcurrencyBudget := Budget {
  max_active_mrs : Z;
  max_starting_mrs : Z;
  max_finalizing_mrs : Z;
}.
Definition default_budget : OnlineMrConcurrencyBudget := Budget 4 2 2.

Record OnlineMrAllocation := Allocation {
  al_operation : operation;
  al_owner : string;
}.
Definition automated (a : OnlineMrAllocation) : bool :=
  String.eqb (al_owner a) "ground_unattended".

Record OnlineMrConcurrencyDecision := Decision_ {
  allowed : bool;
  code : string;
  message : string;
}.

Section policy.
(** The owner of a stored task; [None] when there is no such task. *)
Context (task_owner : string → option string).

(** [allocations]: the operations that are not terminal, with their owners. *)
Definition allocations (operations : list operation) : list OnlineMrAllocation :=
  omap (λ o, if decide (op_phase o = TERMINAL) then None
             else Some (Allocation o (default "" (task_owner (op_controller_task_id o)))))
    operations.

Definition count_phase (phases : list OnlineMrPhase) (l : list OnlineMrAllocation) : Z :=
  Z.of_nat (length (filter (λ a, op_phase (al_operation a) ∈ phases) l)).

Definition same_device (a b : pyval) : bool := String.eqb (py_str a) (py_str b).

(** [can_start]. *)
Definition can_start (device_id : pyval) (operations : list operation)
    (budget : OnlineMrConcurrencyBudget) (by_schedule : bool) : OnlineMrConcurrencyDecision :=
  let allocs := allocations operations in
  if existsb (λ a, same_device (op_device_id (al_operation a)) device_id) allocs
  then Decision_ false "MR_ALREADY_ACTIVE" "同一 MR 已有采集任务"
  else if Z.max 1 (max_active_mrs budget) <=? Z.of_nat (length allocs)
  then Decision_ false "MR_CAPACITY_EXHAUSTED" "Online MR 活动资源预算已满"
  else
    let starting := count_phase STARTING_PHASES allocs in
    if Z.max 1 (max_starting_mrs budget) <=? starting
    then Decision_ false "MR_STARTING_CAPACITY_EXHAUSTED" "Online MR 启动并发预算已满"
    else
      let finalizing := count_phase FINALIZING_PHASES allocs in
      if by_schedule && (Z.max 1 (max_finalizing_mrs budget) <=? finalizing)
      then Decision_ false "MR_FINALIZING_CAPACITY_EXHAUSTED" "Online MR 最终化并发预算已满"
      else Decision_ true "" "".

(** ** Runs of the system

    Two services start collections.  The web control service decides and starts
    under its lock with the default budget; it also starts collections on agents,
    under the same lock but without asking the policy.  The scheduler of unattended
    runs decides and starts under a lock of its own with the budget of its profile.
    So the two may overlap: each has at most one admitted collection that is not yet
    in the table. *)

(** The order of the phases. *)
Definition rank (p : OnlineMrPhase) : Z :=
  match p with
  | VALIDATING => 0 | PREPARING_TASK => 1 | PREPARING_SESSION => 2 | CONNECTING => 3
  | STARTING_COLLECTION => 4 | COLLECTING => 5 | STOPPING_TRAFFIC => 6
  | STOPPING_COLLECTION => 7 | FINALIZING => 8 | PARSING => 9 | PACKAGING => 10
  | TERMINAL => 11
  end.

Definition with_phase (p : OnlineMrPhase) (o : operation) : operation :=
  Operation (op_device_id o) (op_controller_task_id o) p.

Inductive executor := LOCAL | AGENT.
#[global] Instance executor_eq_dec : EqDecision executor.
Proof. solve_decision. Defined.

(** The collections of a site with their executors, and what each of the two
    services has admitted and not yet written. *)
Record system := System {
  sy_rows : list (executor * operation);
  sy_web : option operation;
  sy_schedule : option operation;
}.
Definition new_system : system := System [] None None.
Definition sy_operations (sy : system) : list operation := (sy_rows sy).*2.

(** The row [start_local_collection] creates. *)
Definition created (device_id : pyval) (task_id : string) : operation :=
  Operation device_id task_id PREPARING_TASK.

(** One step.  A run that is [calm] has no overlap of the two services, no
    collection on an agent and no phase that goes back. *)
Inductive sys_step (web profile : OnlineMrConcurrencyBudget) (calm : bool) : system → system → Prop :=
  | web_admits device_id task_id sy :
      sy_web sy = None → (calm = true → sy_schedule sy = None) →
      allowed (can_start device_id (sy_operations sy) web false) = true →
      sys_step web profile calm sy (System (sy_rows sy) (Some (created device_id task_id)) (sy_schedule sy))
  | schedule_admits device_id task_id sy :
      sy_schedule sy = None → (calm = true → sy_web sy = None) →
      allowed (can_start device_id (sy_operations sy) profile true) = true →
      sys_step web profile calm sy (System (sy_rows sy) (sy_web sy) (Some (created device_id task_id)))
  | web_ends started o sy :
      sy_web sy = Some o →
      sys_step web profile calm sy (System (sy_rows sy ++ (if started : bool then [(LOCAL, o)] else [])) None (sy_schedule sy))
  | schedule_ends started o sy :
      sy_schedule sy = Some o →
      sys_step web profile calm sy (System (sy_rows sy ++ (if started : bool then [(LOCAL, o)] else [])) (sy_web sy) None)
  | agent_starts o sy :
      calm = false → sy_web sy = None →
      sys_step web profile calm sy (System (sy_rows sy ++ [(AGENT, o)]) (sy_web sy) (sy_schedule sy))
  | phase_changes i e o p sy :
      sy_rows sy !! i = Some (e, o) → op_phase o ≠ TERMINAL → (calm = true → rank (op_phase o) ≤ rank p) →
      sys_step web profile calm sy
        (System (<[i := (e, with_phase p o)]> (sy_rows sy)) (sy_web sy) (sy_schedule sy)).

Definition running (ops : list operation) : list operation :=
  filter (λ o, op_phase o ≠ TERMINAL) ops.
Definition starting (ops : list operation) : list operation :=
  filter (λ o, op_phase o ∈ STARTING_PHASES) ops.

(** The resource invariant. *)
Record within_budget (budget : OnlineMrConcurrencyBudget) (ops : list operation) : Prop := {
  wb_active : Z.of_nat (length (running ops)) ≤ Z.max 1 (max_active_mrs budget);
  wb_starting : Z.of_nat (length (starting ops)) ≤ Z.max 1 (max_starting_mrs budget);
  wb_devices : NoDup ((λ o, py_str (op_device_id o)) <$> running ops);
}.

Lemma running_cons o ops :
  running (o :: ops) = if decide (op_phase o = TERMINAL) then running ops else o :: running ops.
Proof.
  unfold running. destruct (decide (op_phase o = TERMINAL)).
  - by rewrite filter_cons_False by auto.
  - by rewrite filter_cons_True.
Qed.

Lemma starting_cons o ops :
  starting (o :: ops) =
    if decide (op_phase o ∈ STARTING_PHASES) then o :: starting ops else starting ops.
Proof.
  unfold starting. destruct (decide (op_phase o ∈ STARTING_PHASES)).
  - by rewrite filter_cons_True.
  - by rewrite filter_cons_False.
Qed.

(** The allocations are the running operations with their owners. *)
Lemma allocations_running ops :
  allocations ops = (λ o, Allocation o (default "" (task_owner (op_controller_task_id o))))
                    <$> running ops.
Proof.
  induction ops as [|o ops IH]; [done|]. rewrite running_cons.
  unfold allocations in *. simpl.
  destruct (decide (op_phase o = TERMINAL)); [exact IH|]. rewrite fmap_cons. f_equal. exact IH.
Qed.

Lemma count_starting ops :
  count_phase STARTING_PHASES (allocations ops) = Z.of_nat (length (starting ops)).
Proof.
  rewrite allocations_running. unfold count_phase. f_equal.
  induction ops as [|o ops IH]; [done|]. rewrite running_cons, starting_cons.
  destruct (decide (op_phase o = TERMINAL)) as [E|E].
  - rewrite decide_False; [done|]. rewrite E. vm_compute. set_solver.
  - rewrite fmap_cons. destruct (decide (op_phase o ∈ STARTING_PHASES)).
    + rewrite filter_cons_True by done. simpl. by rewrite IH.
    + by rewrite filter_cons_False.
Qed.

(** What an allowed start has checked. *)
Lemma can_start_allowed device_id ops budget by_schedule :
  allowed (can_start device_id ops budget by_schedule) = true ↔
  (∀ o, o ∈ running ops → py_str (op_device_id o) ≠ py_str device_id) ∧
  Z.of_nat (length (running ops)) < Z.max 1 (max_active_mrs budget) ∧
  Z.of_nat (length (starting ops)) < Z.max 1 (max_starting_mrs budget) ∧
  (by_schedule = true → count_phase FINALIZING_PHASES (allocations ops)
                        < Z.max 1 (max_finalizing_mrs budget)).
Proof.
  unfold can_start. cbv zeta. rewrite count_starting.
  assert (Hex : existsb (λ a, same_device (op_device_id (al_operation a)) device_id)
                  (allocations ops) = true ↔
                ∃ o, o ∈ running ops ∧ py_str (op_device_id o) = py_str device_id).
  { rewrite existsb_exists, allocations_running. setoid_rewrite <- list_elem_of_In.
    unfold same_device. setoid_rewrite String.eqb_eq. setoid_rewrite list_elem_of_fmap.
    naive_solver. }
  assert (Hlen : length (allocations ops) = length (running ops)).
  { by rewrite allocations_running, length_fmap. }
  rewrite Hlen. destruct (existsb _ _); [naive_solver|].
  assert (∀ o, o ∈ running ops → py_str (op_device_id o) ≠ py_str device_id) by naive_solver.
  destruct (Z.leb_spec (Z.max 1 (max_active_mrs budget)) (Z.of_nat (length (running ops))));
    [simpl; split; [done|lia]|].
  destruct (Z.leb_spec (Z.max 1 (max_starting_mrs budget)) (Z.of_nat (length (starting ops))));
    [simpl; split; [done|lia]|].
  destruct (Z.leb_spec (Z.max 1 (max_finalizing_mrs budget))
              (count_phase FINALIZING_PHASES (allocations ops)));
    destruct by_schedule; simpl; intuition (done || lia).
Qed.

(** Moving an operation on takes it out of a phase group, never into one that
    is counted. *)
Lemma advance_running ops i o p :
  ops !! i = Some o → rank (op_phase o) ≤ rank p →
  (λ o, py_str (op_device_id o)) <$> running (<[i := with_phase p o]> ops)
    `sublist_of` (λ o, py_str (op_device_id o)) <$> running ops.
Proof.
  revert i. induction ops as [|o' ops IH]; intros [|i] Hi Hr; simpl in *; try done.
  - injection Hi as ->. rewrite !running_cons. simpl.
    destruct (decide (op_phase o = TERMINAL)) as [E|E].
    + rewrite decide_True; [done|]. rewrite E in Hr. destruct p; simpl in Hr; lia || done.
    + destruct (decide (p = TERMINAL)); simpl; [by constructor|done].
  - rewrite !running_cons. destruct (decide (op_phase o' = TERMINAL)); [by apply IH|].
    rewrite !fmap_cons. constructor. by apply IH.
Qed.

Lemma starting_rank p : p ∈ STARTING_PHASES ↔ rank p < 5.
Proof. unfold STARTING_PHASES. destruct p; simpl; split; intros; lia || set_solver. Qed.

Lemma advance_starting ops i o p :
  ops !! i = Some o → rank (op_phase o) ≤ rank p →
  (length (starting (<[i := with_phase p o]> ops)) ≤ length (starting ops))%nat.
Proof.
  revert i. induction ops as [|o' ops IH]; intros [|i] Hi Hr; simpl in *; try done.
  - injection Hi as ->. rewrite !starting_cons. simpl.
    destruct (decide (p ∈ STARTING_PHASES)) as [E|E], (decide (op_phase o ∈ STARTING_PHASES)) as [F|F];
      simpl; try lia. rewrite starting_rank in E, F. lia.
  - rewrite !starting_cons. specialize (IH i Hi Hr).
    destruct (decide (op_phase o' ∈ STARTING_PHASES)); simpl; lia.
Qed.

Lemma running_app l1 l2 : running (l1 ++ l2) = running l1 ++ running l2.
Proof. apply filter_app. Qed.

Lemma starting_app l1 l2 : starting (l1 ++ l2) = starting l1 ++ starting l2.
Proof. apply filter_app. Qed.

(** A start that the policy admits keeps the budget, and so does a phase. *)
Lemma start_within budget device_id task_id p by_schedule ops :
  allowed (can_start device_id ops budget by_schedule) = true → within_budget budget ops →
  within_budget budget (ops ++ [Operation device_id task_id p]).
Proof.
  intros (Hdev & Hact & Hstart & _)%can_start_allowed [Ha Hst Hd].
  assert ((length (running [Operation device_id task_id p]) ≤ 1)%nat ∧ (length (starting [Operation device_id task_id p]) ≤ 1)%nat)
    as [H1 H2] by (by destruct p; vm_compute; split; lia).
  split; rewrite ?running_app, ?starting_app, ?length_app; [lia..|].
  rewrite fmap_app. apply NoDup_app. split_and!; [done| |by destruct p; repeat constructor; rewrite ?elem_of_nil; auto using not_elem_of_nil].
  intros x (o & -> & Ho)%list_elem_of_fmap Hin. apply (Hdev o Ho).
  apply list_elem_of_fmap in Hin as (o' & -> & Ho'). unfold running in Ho'.
  apply list_elem_of_filter in Ho' as [_ ->%list_elem_of_singleton]. done.
Qed.

Lemma advance_within budget i o p ops :
  ops !! i = Some o → rank (op_phase o) ≤ rank p → within_budget budget ops → within_budget budget (<[i := with_phase p o]> ops).
Proof.
  intros Hi Hr [Ha Hst Hd]. pose proof (advance_running _ _ _ _ Hi Hr) as Hsub. split.
  - apply sublist_length in Hsub. rewrite !length_fmap in Hsub. lia.
  - pose proof (advance_starting _ _ _ _ Hi Hr). lia.
  - by eapply sublist_NoDup.
Qed.

Lemma empty_budget budget : within_budget budget [].
Proof. split; simpl; try lia. apply NoDup_nil_2. Qed.

(** Two services with their budgets, as one. *)
Definition joint (a b : OnlineMrConcurrencyBudget) : OnlineMrConcurrencyBudget :=
  Budget (Z.max (max_active_mrs a) (max_active_mrs b)) (Z.max (max_starting_mrs a) (max_starting_mrs b))
    (Z.max (max_finalizing_mrs a) (max_finalizing_mrs b)).

Lemma joint_allowed a b device_id ops by_schedule budget :
  budget = a ∨ budget = b → allowed (can_start device_id ops budget by_schedule) = true →
  allowed (can_start device_id ops (joint a b) false) = true.
Proof. rewrite !can_start_allowed. intros [-> | ->] (? & ? & ? & _); simpl; split_and!; (done || lia). Qed.

(** The collections that are admitted and not yet in the table; those that the two
    services run themselves. *)
Definition pending (sy : system) : list operation := option_list (sy_web sy) ++ option_list (sy_schedule sy).
Definition local_operations (sy : system) : list operation := (filter (λ r, r.1 = LOCAL) (sy_rows sy)).*2.

Lemma local_app l1 l2 : (filter (λ r : executor * operation, r.1 = LOCAL) (l1 ++ l2)).*2 =
  (filter (λ r, r.1 = LOCAL) l1).*2 ++ (filter (λ r, r.1 = LOCAL) l2).*2.
Proof. by rewrite filter_app, fmap_app. Qed.

Lemma running_one o : (length (running [o]) ≤ 1)%nat.
Proof. rewrite running_cons. case_decide; simpl; lia. Qed.

Lemma running_local sy : (length (running (local_operations sy)) ≤ length (running (sy_operations sy)))%nat.
Proof.
  unfold local_operations, sy_operations. induction (sy_rows sy) as [|[e o] l IH]; [done|].
  rewrite filter_cons, fmap_cons. cbn [fst snd]. rewrite (running_cons o (snd <$> l)).
  destruct (decide (e = LOCAL)); [rewrite fmap_cons; cbn [snd]; rewrite running_cons|];
    destruct (decide (op_phase o = TERMINAL)); simpl in *; lia.
Qed.

Lemma local_phase l i e o p :
  l !! i = Some (e, o) → op_phase o ≠ TERMINAL →
  (length (running (filter (λ r : executor * operation, r.1 = LOCAL) (<[i := (e, with_phase p o)]> l)).*2)
   ≤ length (running (filter (λ r, r.1 = LOCAL) l).*2))%nat.
Proof.
  intros Hi Ho. rewrite (insert_take_drop _ _ _ (lookup_lt_Some _ _ _ Hi)).
  rewrite <- (take_drop_middle l i (e, o) Hi) at 3. rewrite !local_app, !running_app, !length_app, !filter_cons. simpl.
  case_decide; [|lia]. rewrite !fmap_cons, !running_cons. simpl. rewrite (decide_False _ _ Ho). case_decide; simpl; lia.
Qed.

Definition active_slots (web profile : OnlineMrConcurrencyBudget) : Z :=
  Z.max 1 (Z.max (max_active_mrs web) (max_active_mrs profile)).

Record system_ok (web profile : OnlineMrConcurrencyBudget) (calm : bool) (sy : system) : Prop := {
  ok_local : Z.of_nat (length (running (local_operations sy)) + length (pending sy)) ≤ active_slots web profile + 1;
  ok_alone : calm = true → sy_web sy = None ∨ sy_schedule sy = None;
  ok_calm : calm = true → within_budget (joint web profile) (sy_operations sy ++ pending sy);
}.

Lemma within_prefix budget l1 l2 : within_budget budget (l1 ++ l2) → within_budget budget l1.
Proof.
  intros [H1 H2 H3]. rewrite running_app in *. rewrite starting_app in *. rewrite length_app in *.
  rewrite fmap_app in H3. apply NoDup_app in H3 as [H3 _]. split; [lia..|done].
Qed.

Lemma sys_step_ok web profile calm sy sy' :
  sys_step web profile calm sy sy' → system_ok web profile calm sy → system_ok web profile calm sy'.
Proof.
  intros Hs [H1 H2 H3]. pose proof (running_local sy) as Hrl.
  unfold local_operations, pending, sy_operations, active_slots in *.
  destruct Hs as [dev id sy Hw Ha Hc|dev id sy Hw Ha Hc|started o sy Hw|started o sy Hw|o sy Hcalm Hw|i e o p sy Hi Ho Hp];
    split; unfold local_operations, pending, sy_operations, active_slots;
    cbn [sy_rows sy_web sy_schedule option_list app] in *.
  1, 4: apply can_start_allowed in Hc as (_ & Hact & _); unfold sy_operations in Hact;
    rewrite ?Hw in *; destruct (sy_schedule sy), (sy_web sy); simpl in *; lia.
  1, 3: tauto.
  1, 2: intros E; specialize (Ha E); specialize (H3 E); rewrite Hw, Ha in *; simpl in *;
    rewrite app_nil_r in H3; eapply start_within; [eapply joint_allowed; [|exact Hc]; tauto|done].
  - rewrite local_app, running_app, length_app. rewrite Hw in H1. pose proof (running_one o).
    destruct started; simpl in *; rewrite ?length_app in *; simpl in *; lia.
  - by left.
  - intros E. specialize (H3 E). rewrite Hw in *. destruct (H2 E) as [|Hn]; [done|]. rewrite Hn in *. simpl in *. rewrite app_nil_r.
    destruct started; simpl; rewrite fmap_app; [done|]. simpl. rewrite app_nil_r. by eapply within_prefix.
  - rewrite local_app, running_app, length_app. rewrite Hw in H1. pose proof (running_one o).
    destruct started, (sy_web sy); simpl in *; lia.
  - by right.
  - intros E. specialize (H3 E). rewrite Hw in *. destruct (H2 E) as [Hn|]; [|done]. rewrite Hn in *. simpl in *. rewrite app_nil_r.
    destruct started; simpl; rewrite fmap_app; [done|]. simpl. rewrite app_nil_r. by eapply within_prefix.
  - rewrite local_app. simpl. rewrite app_nil_r. lia.
  - by intros ->.
  - by intros ->.
  - pose proof (local_phase _ _ _ _ p Hi Ho). lia.
  - done.
  - intros E. specialize (H3 E). rewrite list_fmap_insert.
    assert (((sy_rows sy).*2 ++ option_list (sy_web sy) ++ option_list (sy_schedule sy)) !! i = Some o) as Hl.
    { apply lookup_app_l_Some. by rewrite list_lookup_fmap, Hi. }
    rewrite <- insert_app_l; [|rewrite length_fmap; by eapply lookup_lt_Some]. eapply advance_within; [exact Hl|by apply Hp|done].
Qed.

End policy.

(** ** Runs under the default budget *)
#[local] Notation demo_step := (sys_step (λ _, None) default_budget default_budget).
Definition demo_system : system :=
  System [(LOCAL, Operation (PInt 7) "t1" COLLECTING); (LOCAL, created (PStr "8") "t2")] None None.

Lemma demo_system_reached : rtc (demo_step true) new_system demo_system.
Proof.
  eapply rtc_l; [by apply (web_admits _ _ _ _ (PInt 7) "t1")|].
  eapply rtc_l; [by apply (web_ends _ _ _ _ true)|].
  eapply rtc_l; [apply (schedule_admits _ _ _ _ (PStr "8") "t2"); by vm_compute|].
  eapply rtc_l; [by apply (schedule_ends _ _ _ _ true)|].
  eapply rtc_l; [by apply (phase_changes _ _ _ _ 0 LOCAL (created (PInt 7) "t1") COLLECTING)|].
  apply rtc_refl.
Qed.


(** Two decisions that overlap are both positive: one device gets two collections,
    and three running collections become five, one more than the slots. *)
Example starts_overlap :
  let busy := (λ n, (LOCAL, Operation (PInt n) "" COLLECTING)) <$> [1; 2; 3] in
  let sy := System busy None None in
  let start device_a device_b := [(LOCAL, created device_a "a"); (LOCAL, created device_b "b")] in
  rtc (demo_step false) sy (System (busy ++ start (PInt 7) (PInt 7)) None None) ∧
  length (running (sy_operations (System (busy ++ start (PInt 7) (PInt 7)) None None))) = 5%nat.
Proof.
  split; [|done].
  eapply rtc_l; [by apply (web_admits _ _ _ _ (PInt 7) "a")|].
  eapply rtc_l; [by apply (schedule_admits _ _ _ _ (PInt 7) "b")|].
  eapply rtc_l; [by apply (web_ends _ _ _ _ true)|].
  eapply rtc_l; [by apply (schedule_ends _ _ _ _ true)|]. apply rtc_refl.
Qed.
