(* ===== verification/TaskHub.v ===== *)
(** * Task event hub

    services/job_center/runtime/task_event_hub.py: guards may veto an event,
    handlers are called with it one after the other, open streams keep the
    latest events up to their capacity.  Guards, handlers and queues are
    identified by names (object identity in the code); what a guard answers and
    whether a handler raises are functions of the envelope.  Handlers that call
    back into the hub while they run are not modelled. *)

From S2P Require Import Prelude PyVal PyText.

Record stream_queue := Queue {
  q_max : Z;
  q_items : list dict;
}.

(** [TaskEventHub]: every queue that was opened exists until its subscriber
    drops it; [h_streams] are the ones the hub still feeds. *)
Record hub := Hub {
  h_guards : list string;
  h_handlers : list string;
  h_streams : list Z;
  h_queues : list (Z * stream_queue);
  h_next : Z;
}.

Definition empty_hub : hub := Hub [] [] [] [] 0.

(** [add_guard], [subscribe], [unsubscribe]. *)
Definition add_guard (g : string) (h : hub) : hub :=
  if decide (g ∈ h_guards h) then h
  else Hub (h_guards h ++ [g]) (h_handlers h) (h_streams h) (h_queues h) (h_next h).

Definition subscribe (s : string) (h : hub) : hub :=
  if decide (s ∈ h_handlers h) then h
  else Hub (h_guards h) (h_handlers h ++ [s]) (h_streams h) (h_queues h) (h_next h).

Definition unsubscribe (s : string) (h : hub) : hub :=
  Hub (h_guards h) (filter (λ x, x ≠ s) (h_handlers h)) (h_streams h) (h_queues h) (h_next h).

(** [open_stream]: a fresh queue of at least one place. *)
Definition open_stream (max_events : Z) (h : hub) : hub * Z :=
  let id := h_next h in
  (Hub (h_guards h) (h_handlers h) (h_streams h ++ [id])
     (h_queues h ++ [(id, Queue (Z.max 1 max_events) [])]) (id + 1), id).

(** [TaskEventSubscription.close]. *)
Definition close_stream (id : Z) (h : hub) : hub :=
  Hub (h_guards h) (h_handlers h) (filter (λ x, x ≠ id) (h_streams h)) (h_queues h) (h_next h).

(** [TaskEventSubscription.get] when the queue is not empty. *)
Definition stream_get (id : Z) (h : hub) : hub * option dict :=
  match alookup id (h_queues h) with
  | Some (Queue m (e :: items)) =>
      (Hub (h_guards h) (h_handlers h) (h_streams h)
         (ainsert id (Queue m items) (h_queues h)) (h_next h), Some e)
  | _ => (h, None)
  end.

(** [_normalize]: an event that is an envelope already is copied, any other is
    wrapped, with a fresh identifier and the current time. *)
Definition envelope_keys : list string := ["id"; "task_id"; "type"; "time"; "payload"].
Definition is_envelope (event : dict) : bool := forallb (λ k, dhas k event) envelope_keys.

Definition task_event_to_dict (event_id task_id type time source : string) (payload : dict) : dict :=
  [("id", PStr event_id); ("task_id", PStr task_id); ("type", PStr type);
   ("time", PStr time); ("source", PStr source); ("payload", PDict payload)].

Definition normalize (fresh now : string) (event : dict) (source : string) : dict :=
  if is_envelope event then event
  else
    let task_id := text_or_empty (por (dget "job_id" event) (dget "task_id" event)) in
    let event_type := py_str (por (dget "type" event) (PStr "log")) in
    task_event_to_dict fresh task_id event_type now source event.

(** [_put_latest]: when the queue is full its oldest event makes room. *)
Definition put_latest (q : stream_queue) (event : dict) : stream_queue :=
  if Z.of_nat (length (q_items q)) <? q_max q then Queue (q_max q) (q_items q ++ [event])
  else
    let items := tail (q_items q) in
    if Z.of_nat (length items) <? q_max q then Queue (q_max q) (items ++ [event])
    else Queue (q_max q) items.

Section publishing.
(** What guard [g] does with an envelope: [None] raises, [Some false] is the
    answer [False], [Some true] any other answer; whether a handler raises. *)
Context (guard_answer : string → dict → option bool).
Context (handler_raises : string → dict → bool).

(** The guard loop of [publish]. *)
Fixpoint guards_accept (guards : list string) (envelope : dict) : bool :=
  match guards with
  | [] => true
  | g :: guards' =>
      match guard_answer g envelope with
      | Some true => guards_accept guards' envelope
      | Some false | None => false
      end
  end.

(** The handler loop: the calls made, in order; an exception is swallowed. *)
Fixpoint call_handlers (handlers : list string) (envelope : dict) : list (string * dict) :=
  match handlers with
  | [] => []
  | s :: handlers' =>
      let this := (s, envelope) in
      if handler_raises s envelope then this :: call_handlers handlers' envelope
      else this :: call_handlers handlers' envelope
  end.

(** The stream loop. *)
Fixpoint put_streams (streams : list Z) (envelope : dict)
    (queues : list (Z * stream_queue)) : list (Z * stream_queue) :=
  match streams with
  | [] => queues
  | id :: streams' =>
      put_streams streams' envelope
        match alookup id queues with
        | Some q => ainsert id (put_latest q envelope) queues
        | None => queues
        end
  end.

Record published := Published {
  p_hub : hub;
  p_envelope : dict;
  p_calls : list (string * dict);
}.

Definition publish_persisted (fresh now : string) (event : dict) (source : string)
    (h : hub) : published :=
  let envelope := normalize fresh now event source in
  Published
    (Hub (h_guards h) (h_handlers h) (h_streams h)
       (put_streams (h_streams h) envelope (h_queues h)) (h_next h))
    envelope (call_handlers (h_handlers h) envelope).

(** [publish_persisted] normalizes once more, with an identifier and time of its
    own and the default source. *)
Definition publish (fresh now fresh2 now2 : string) (event : dict) (source : string)
    (h : hub) : published :=
  let envelope := normalize fresh now event source in
  if guards_accept (h_guards h) envelope
  then publish_persisted fresh2 now2 envelope "service" h
  else Published h envelope [].

(** ** Well-formed hubs *)
Record hub_wf (h : hub) : Prop := {
  wf_guards : NoDup (h_guards h);
  wf_handlers : NoDup (h_handlers h);
  wf_streams : NoDup (h_streams h);
  wf_ids : NoDup (h_queues h).*1;
  wf_next : Forall (λ id, id < h_next h) (h_queues h).*1;
  wf_open : ∀ id, id ∈ h_streams h → is_Some (alookup id (h_queues h));
  wf_bound : ∀ id q, alookup id (h_queues h) = Some q →
    1 ≤ q_max q ∧ Z.of_nat (length (q_items q)) ≤ q_max q;
}.

(** The last [n] elements. *)
Definition lastn {A} (n : Z) (l : list A) : list A := drop (length l - Z.to_nat n) l.

Lemma lastn_lastn_snoc {A} n (l : list A) x :
  1 ≤ n → lastn n (lastn n l ++ [x]) = lastn n (l ++ [x]).
Proof.
  intros Hn. unfold lastn. rewrite !length_app, length_drop. simpl.
  assert (Hm : (1 ≤ Z.to_nat n)%nat) by lia. set (m := Z.to_nat n) in *. clearbody m.
  destruct (Nat.le_gt_cases (length l) m).
  - replace (length l - m)%nat with 0%nat by lia. by rewrite Nat.sub_0_r.
  - rewrite (drop_app_le (drop _ _)) by (rewrite length_drop; lia).
    rewrite (drop_app_le l) by lia. rewrite drop_drop. do 2 f_equal. lia.
Qed.

Lemma lastn_lastn_app {A} n (l1 l2 : list A) :
  1 ≤ n → lastn n (lastn n l1 ++ l2) = lastn n (l1 ++ l2).
Proof.
  intros Hn. revert l1. induction l2 as [|x l2 IH] using rev_ind; intros l1.
  - rewrite !app_nil_r. unfold lastn. rewrite length_drop, drop_drop. f_equal. lia.
  - by rewrite !app_assoc, <- lastn_lastn_snoc, IH, lastn_lastn_snoc.
Qed.

Lemma lastn_le {A} n (l : list A) : Z.of_nat (length l) ≤ n → lastn n l = l.
Proof. intros. unfold lastn. by replace (length l - Z.to_nat n)%nat with 0%nat by lia. Qed.

Lemma put_latest_lastn q e :
  1 ≤ q_max q → Z.of_nat (length (q_items q)) ≤ q_max q →
  put_latest q e = Queue (q_max q) (lastn (q_max q) (q_items q ++ [e])).
Proof.
  intros H1 H2. unfold put_latest, lastn. rewrite length_app. simpl.
  destruct (Z.ltb_spec (Z.of_nat (length (q_items q))) (q_max q)).
  - by replace (length (q_items q) + 1 - Z.to_nat (q_max q))%nat with 0%nat by lia.
  - destruct (q_items q) as [|x items]; simpl in *; [lia|].
    rewrite (proj2 (Z.ltb_lt _ _)) by lia.
    replace (S (length items + 1) - Z.to_nat (q_max q))%nat with 1%nat by lia. done.
Qed.

Lemma lastn_length {A} n (l : list A) : 0 ≤ n → Z.of_nat (length (lastn n l)) ≤ n.
Proof. intros. unfold lastn. rewrite length_drop. lia. Qed.

Lemma alookup_put_streams id streams e queues :
  NoDup streams →
  alookup id (put_streams streams e queues) =
    if decide (id ∈ streams) then (λ q, put_latest q e) <$> alookup id queues
    else alookup id queues.
Proof.
  intros Hnd. revert queues. induction Hnd as [|s streams Hs Hnd IH]; intros queues; simpl; [done|].
  rewrite IH. destruct (decide (id = s)) as [->|Hne].
  - rewrite decide_False by done. rewrite decide_True by set_solver.
    destruct (alookup s queues) eqn:E; simpl; [by rewrite alookup_ainsert_eq|done].
  - assert (Hq : alookup id match alookup s queues with
       | Some q => ainsert s (put_latest q e) queues | None => queues end = alookup id queues).
    { destruct (alookup s queues); [by rewrite alookup_ainsert_ne|done]. }
    rewrite Hq. by destruct (decide (id ∈ streams)); [rewrite decide_True by set_solver|
      rewrite decide_False by set_solver].
Qed.

Lemma put_streams_fst streams e queues : (put_streams streams e queues).*1 = queues.*1.
Proof.
  revert queues. induction streams as [|s streams IH]; intros queues; simpl; [done|].
  rewrite IH. destruct (alookup s queues) eqn:E; [|done].
  apply ainsert_fst_in. destruct (decide (s ∈ queues.*1)) as [|Hn]; [done|].
  apply alookup_None in Hn. congruence.
Qed.

Lemma call_handlers_all handlers e : call_handlers handlers e = (λ s, (s, e)) <$> handlers.
Proof.
  induction handlers as [|s handlers IH]; [done|]. simpl. rewrite IH.
  by destruct (handler_raises s e).
Qed.

Lemma normalize_envelope fresh now event source : is_envelope (normalize fresh now event source) = true.
Proof. unfold normalize. destruct (is_envelope event) eqn:E; [done|]. reflexivity. Qed.

Lemma normalize_idem fresh now fresh2 now2 event source source2 :
  normalize fresh2 now2 (normalize fresh now event source) source2 =
  normalize fresh now event source.
Proof. unfold normalize at 1. by rewrite normalize_envelope. Qed.

(** Publishing on each of its branches. *)
Lemma publish_spec fresh now fresh2 now2 event source h :
  hub_wf h →
  let envelope := normalize fresh now event source in
  let out := publish fresh now fresh2 now2 event source h in
  p_envelope out = envelope ∧ is_envelope envelope = true ∧
  if guards_accept (h_guards h) envelope
  then
    p_calls out = (λ s, (s, envelope)) <$> h_handlers h ∧
    hub_wf (p_hub out) ∧
    h_handlers (p_hub out) = h_handlers h ∧ h_guards (p_hub out) = h_guards h ∧
    h_streams (p_hub out) = h_streams h ∧
    ∀ id, alookup id (h_queues (p_hub out)) =
      if decide (id ∈ h_streams h)
      then (λ q, Queue (q_max q) (lastn (q_max q) (q_items q ++ [envelope]))) <$> alookup id (h_queues h)
      else alookup id (h_queues h)
  else p_calls out = [] ∧ p_hub out = h.
Proof.
  intros Hwf. cbv zeta. unfold publish. cbv zeta. pose proof Hwf as [Hg Hh Hs Hi Hn Ho Hb].
  destruct (guards_accept _ _) eqn:E; simpl; rewrite ?normalize_idem, ?normalize_envelope;
    [|done].
  set (envelope := normalize fresh now event source).
  assert (Hq : ∀ id, alookup id (put_streams (h_streams h) envelope (h_queues h)) =
      if decide (id ∈ h_streams h)
      then (λ q, Queue (q_max q) (lastn (q_max q) (q_items q ++ [envelope]))) <$> alookup id (h_queues h)
      else alookup id (h_queues h)).
  { intros id. rewrite alookup_put_streams by done. destruct (decide _); [|done].
    destruct (alookup id (h_queues h)) as [q|] eqn:Eq; simpl; [|done].
    f_equal. apply put_latest_lastn; by eapply Hb. }
  split_and!; try done; [apply call_handlers_all|].
  split; simpl; try done.
  - by rewrite put_streams_fst.
  - by rewrite put_streams_fst.
  - intros id Hid. rewrite Hq. rewrite decide_True by done. apply fmap_is_Some. by apply Ho.
  - intros id q. rewrite Hq. destruct (decide _); [|apply Hb].
    intros (q0 & Hq0 & ->)%fmap_Some. simpl. apply Hb in Hq0 as [? ?].
    split; [done|]. apply lastn_length. lia.
Qed.

(** ** Sequences of publications *)

(** A publication with the identifiers and times it draws. *)
Record publication := Publication {
  pb_fresh : string; pb_now : string; pb_fresh2 : string; pb_now2 : string;
  pb_event : dict; pb_source : string;
}.
Definition pb_envelope (p : publication) : dict :=
  normalize (pb_fresh p) (pb_now p) (pb_event p) (pb_source p).
Definition publish_one (h : hub) (p : publication) : hub :=
  p_hub (publish (pb_fresh p) (pb_now p) (pb_fresh2 p) (pb_now2 p) (pb_event p) (pb_source p) h).
Definition publish_all (ps : list publication) (h : hub) : hub := foldl publish_one h ps.

Definition accepted (guards : list string) (ps : list publication) : list dict :=
  filter (λ e, guards_accept guards e = true) (pb_envelope <$> ps).

Lemma publish_one_spec h p :
  hub_wf h →
  hub_wf (publish_one h p) ∧ h_guards (publish_one h p) = h_guards h ∧
  h_streams (publish_one h p) = h_streams h ∧
  ∀ id q, id ∈ h_streams h → alookup id (h_queues h) = Some q →
    alookup id (h_queues (publish_one h p)) = Some (Queue (q_max q)
      (lastn (q_max q) (q_items q ++ accepted (h_guards h) [p]))).
Proof.
  intros Hwf. destruct (publish_spec (pb_fresh p) (pb_now p) (pb_fresh2 p) (pb_now2 p)
    (pb_event p) (pb_source p) h Hwf) as (_ & _ & H).
  unfold publish_one, accepted. simpl. fold (pb_envelope p) in H.
  destruct (guards_accept (h_guards h) (pb_envelope p)) eqn:E.
  - rewrite filter_cons_True, filter_nil by done. destruct H as (_ & H1 & _ & H2 & H3 & H4).
    split_and!; [done..|]. intros id q Hid Hq. by rewrite H4, decide_True, Hq.
  - rewrite filter_cons_False, filter_nil by (by rewrite E). destruct H as [_ ->].
    split_and!; [done..|]. intros id q Hid Hq. rewrite Hq, app_nil_r.
    rewrite lastn_le; [by destruct q|]. by eapply wf_bound.
Qed.

Lemma publish_all_spec ps h :
  hub_wf h →
  hub_wf (publish_all ps h) ∧
  ∀ id q, id ∈ h_streams h → alookup id (h_queues h) = Some q →
    alookup id (h_queues (publish_all ps h)) = Some (Queue (q_max q)
      (lastn (q_max q) (q_items q ++ accepted (h_guards h) ps))).
Proof.
  revert h. induction ps as [|p ps IH]; intros h Hwf.
  - split; [done|]. intros id q Hid Hq. simpl. rewrite Hq. unfold accepted. simpl.
    rewrite filter_nil, app_nil_r, lastn_le; [by destruct q|]. by eapply wf_bound.
  - destruct (publish_one_spec h p Hwf) as (Hwf1 & Hg & Hs & Hq1).
    destruct (IH _ Hwf1) as [Hwf2 Hq2]. split; [done|]. intros id q Hid Hq.
    assert (Hid' : id ∈ h_streams (publish_one h p)) by (by rewrite Hs).
    change (publish_all (p :: ps) h) with (publish_all ps (publish_one h p)).
    rewrite (Hq2 _ _ Hid' (Hq1 _ _ Hid Hq)). simpl. rewrite Hg. do 2 f_equal.
    assert (Hsplit : accepted (h_guards h) (p :: ps) =
      accepted (h_guards h) [p] ++ accepted (h_guards h) ps).
    { unfold accepted. rewrite fmap_cons. change (pb_envelope <$> [p]) with [pb_envelope p].
      by rewrite <- filter_app. }
    rewrite Hsplit, app_assoc. apply lastn_lastn_app. by apply (wf_bound h Hwf id q Hq).
Qed.

(** Publishing delivers or does nothing.  When a guard vetoes the envelope or
    raises, the hub is unchanged and nobody is called.  Otherwise every handler
    is called exactly once with the one envelope, in subscription order, whichever
    of them raise; every open stream ends up with the latest events, its old ones
    followed by the envelope, cut to its capacity from the left; closed streams
    and subscriptions are unchanged. *)
Theorem publish_delivers fresh now fresh2 now2 event source h :
  hub_wf h →
  let envelope := normalize fresh now event source in
  let out := publish fresh now fresh2 now2 event source h in
  p_envelope out = envelope ∧ is_envelope envelope = true ∧
  if guards_accept (h_guards h) envelope
  then
    p_calls out = (λ s, (s, envelope)) <$> h_handlers h ∧
    hub_wf (p_hub out) ∧
    h_handlers (p_hub out) = h_handlers h ∧ h_guards (p_hub out) = h_guards h ∧
    h_streams (p_hub out) = h_streams h ∧
    ∀ id, alookup id (h_queues (p_hub out)) =
      if decide (id ∈ h_streams h)
      then (λ q, Queue (q_max q) (lastn (q_max q) (q_items q ++ [envelope]))) <$> alookup id (h_queues h)
      else alookup id (h_queues h)
  else p_calls out = [] ∧ p_hub out = h.
Proof. apply publish_spec. Qed.

(** However many events are published, an open stream that nobody reads holds
    exactly the last accepted envelopes, as many as its capacity, behind what it
    held before: later events are never dropped for earlier ones, and vetoed
    events never show up.  The hub stays well formed. *)
Theorem stream_keeps_latest ps h id q :
  hub_wf h → id ∈ h_streams h → alookup id (h_queues h) = Some q →
  hub_wf (publish_all ps h) ∧
  alookup id (h_queues (publish_all ps h)) = Some (Queue (q_max q)
    (lastn (q_max q) (q_items q ++ accepted (h_guards h) ps))).
Proof. intros Hwf Hid Hq. split; [|]; by apply publish_all_spec. Qed.
End publishing.

(** ** The other operations keep the hub well formed *)
Lemma add_guard_wf g h : hub_wf h → hub_wf (add_guard g h).
Proof.
  intros []. unfold add_guard. destruct (decide _); [by split|]. split; simpl; try done.
  apply NoDup_app. split_and!; [done|set_solver|apply NoDup_singleton].
Qed.

Lemma subscribe_wf s h : hub_wf h → hub_wf (subscribe s h).
Proof.
  intros []. unfold subscribe. destruct (decide _); [by split|]. split; simpl; try done.
  apply NoDup_app. split_and!; [done|set_solver|apply NoDup_singleton].
Qed.

Lemma unsubscribe_wf s h : hub_wf h → hub_wf (unsubscribe s h).
Proof. intros []. split; simpl; try done. by apply NoDup_filter. Qed.

Lemma close_stream_wf id h : hub_wf h → hub_wf (close_stream id h).
Proof.
  intros []. split; simpl; try done; [by apply NoDup_filter|].
  intros i [_ Hi]%list_elem_of_filter. auto.
Qed.

Lemma open_stream_wf n h : hub_wf h → hub_wf (open_stream n h).1.
Proof.
  intros [Hg Hh Hs Hi Hn Ho Hb]. rewrite Forall_forall in Hn.
  assert (Hfresh : h_next h ∉ (h_queues h).*1) by (intros H%Hn; lia).
  assert (Hl : ∀ id, alookup id (h_queues h ++ [(h_next h, Queue (Z.max 1 n) [])]) =
    if decide (id = h_next h) then Some (Queue (Z.max 1 n) []) else alookup id (h_queues h)).
  { intros id. rewrite <- ainsert_None by (by apply alookup_None).
    destruct (decide (id = h_next h)) as [->|]; [apply alookup_ainsert_eq|].
    by apply alookup_ainsert_ne. }
  split; simpl; try done.
  - apply NoDup_app. split_and!; [done| |apply NoDup_singleton]. intros x Hx.
    intros [->|?%not_elem_of_nil]%elem_of_cons; [|done]. apply Hfresh.
    destruct (decide (h_next h ∈ (h_queues h).*1)) as [|Hno]; [done|].
    apply alookup_None in Hno. destruct (Ho _ Hx). congruence.
  - rewrite fmap_app. apply NoDup_app. split_and!; [done|set_solver|apply NoDup_singleton].
  - rewrite fmap_app. apply Forall_app. split; [|apply Forall_singleton; simpl; lia].
    apply Forall_forall. intros x Hx. specialize (Hn x Hx). lia.
  - intros id Hid. rewrite Hl. destruct (decide _); [done|]. apply Ho. set_solver.
  - intros id q. rewrite Hl. destruct (decide _); [|apply Hb]. intros [= <-]. simpl. lia.
Qed.

Lemma empty_hub_wf : hub_wf empty_hub.
Proof. split; simpl; try (by apply NoDup_nil_2); try done. by intros ? ?%not_elem_of_nil. Qed.

(** A hub with one stream of two places, a guard and a handler. *)
Definition demo_hub : hub := (open_stream 2 (subscribe "db" (add_guard "g" empty_hub))).1.
Lemma demo_hub_wf : hub_wf demo_hub.
Proof. apply open_stream_wf, subscribe_wf, add_guard_wf, empty_hub_wf. Qed.

Definition demo_guard (g : string) (e : dict) : option bool :=
  match dget "type" e with PStr "bad" => Some false | PStr "boom" => None | _ => Some true end.
Definition demo_pub (ty id : string) : publication :=
  Publication id "now" "x" "y" [("type", PStr ty); ("job_id", PStr "j")] "service".

Lemma publish_delivers_witness :
  let out := publish demo_guard (λ _ _, true) "e1" "now" "e2" "later"
               [("type", PStr "log"); ("job_id", PStr "j")] "service" demo_hub in
  p_calls out = [("db", p_envelope out)] ∧ dget "id" (p_envelope out) = PStr "e1".
Proof.
  destruct (publish_delivers demo_guard (λ _ _, true) "e1" "now" "e2" "later"
    [("type", PStr "log"); ("job_id", PStr "j")] "service" demo_hub demo_hub_wf)
    as (H1 & _ & H2 & _).
  cbv zeta. rewrite H2, H1. split; reflexivity.
Defined.

(** Four events, one vetoed by answer and one by an exception, into two places. *)
Lemma stream_keeps_latest_witness :
  ∃ q, alookup 0 (h_queues (publish_all demo_guard (λ _ _, false)
         [demo_pub "a" "1"; demo_pub "bad" "2"; demo_pub "b" "3"; demo_pub "boom" "4";
          demo_pub "c" "5"] demo_hub)) = Some q ∧
       (dget "id" <$> q_items q) = [PStr "3"; PStr "5"].
Proof.
  destruct (stream_keeps_latest demo_guard (λ _ _, false)
         [demo_pub "a" "1"; demo_pub "bad" "2"; demo_pub "b" "3"; demo_pub "boom" "4";
          demo_pub "c" "5"] demo_hub 0 (Queue 2 []) demo_hub_wf) as [_ H].
  - left.
  - reflexivity.
  - eexists. split; [exact H|]. reflexivity.
Defined.
