(* ===== verification/TaskStore.v ===== *)
(** * Stored tasks (services/job_center/task_application_service.py)

    How a published event changes the stored snapshot of its task: [_persist_event],
    [_apply_event] and [_allowed_from] of the application service over [record]
    and [_upsert] of repositories/task_repository.py.  Reading the snapshot and
    recording the change are two transactions, so the two halves are separate
    definitions; the second one compares the stored status.  The result column
    holds the result itself (its sealing as an authority row is the subject of
    Rollout), and the fields that no event changes are left out.

  Then everything else that writes the state of a task, its events or its tombstone:
  [prepare] and its resource guard, the recovery of orphaned tasks and from
  checkpoints, the import of agent packages, the metadata of the file management,
  deletion, retention and the deletion of Online MR sessions; all of them are the
  steps of one relation.  Listings and the marks of the user (acknowledged, dismissed)
  are left out. *)

From S2P Require Import Prelude PyVal PyText WorkerProtocol JobEvents TaskRuntime TaskHub.

Definition ACTIVE_TASK_STATES : list TaskState := [PENDING; STARTING; RUNNING; STOPPING].

(** [TaskSnapshot]. *)
Record TaskSnapshot := Snapshot {
  sn_task_id : string;
  sn_task_type : string;
  sn_status : TaskState;
  sn_created_time : string;
  sn_updated_time : string;
  sn_started_time : string;
  sn_finished_time : string;
  sn_progress : Z;
  sn_stage : string;
  sn_current : Z;
  sn_total : Z;
  sn_message : string;
  sn_owner : string;
  sn_result_path : string;
  sn_error_message : string;
  sn_result : dict;
  sn_source : string;
  sn_site_name : string;
  sn_text_integrity : string;
  sn_text_integrity_reason : string;
  sn_text_integrity_updated_at : string;
  sn_text_schema_version : Z;
  sn_producer_kind : string;
  sn_producer_version : string;
  sn_producer_commit : string;
  sn_resource_keys : list string;
}.

(** [TaskEvent]. *)
Record task_event := TaskEvent {
  ev_id : string;
  ev_task_id : string;
  ev_type : string;
  ev_time : string;
  ev_source : string;
  ev_payload : dict;
}.

(** The rows of one site: snapshots by task, the event history, the tombstones
    of retired tasks. *)
Record store := Store {
  db_snapshots : list (string * TaskSnapshot);
  db_events : list task_event;
  db_tombstones : list string;
}.

Definition get (task_id : string) (db : store) : option TaskSnapshot :=
  alookup task_id (db_snapshots db).

(** ** [_apply_event] *)

(** The part of [values] every event sets, and those of the single types. *)
Definition with_common (time stage message : string) (current total : Z) (s : TaskSnapshot)
    : TaskSnapshot :=
  Snapshot (sn_task_id s) (sn_task_type s) (sn_status s) (sn_created_time s) time (sn_started_time s)
    (sn_finished_time s) (sn_progress s) stage current total message (sn_owner s)
    (sn_result_path s) (sn_error_message s) (sn_result s) (sn_source s) (sn_site_name s)
    (sn_text_integrity s) (sn_text_integrity_reason s) (sn_text_integrity_updated_at s)
    (sn_text_schema_version s) (sn_producer_kind s) (sn_producer_version s) (sn_producer_commit s)
    (sn_resource_keys s).

Definition with_status (status : TaskState) (started finished : string) (s : TaskSnapshot)
    : TaskSnapshot :=
  Snapshot (sn_task_id s) (sn_task_type s) status (sn_created_time s) (sn_updated_time s) started
    finished (sn_progress s) (sn_stage s) (sn_current s) (sn_total s) (sn_message s) (sn_owner s)
    (sn_result_path s) (sn_error_message s) (sn_result s) (sn_source s) (sn_site_name s)
    (sn_text_integrity s) (sn_text_integrity_reason s) (sn_text_integrity_updated_at s)
    (sn_text_schema_version s) (sn_producer_kind s) (sn_producer_version s) (sn_producer_commit s)
    (sn_resource_keys s).

Definition with_outcome (progress : Z) (result : dict) (result_path message error : string)
    (s : TaskSnapshot) : TaskSnapshot :=
  Snapshot (sn_task_id s) (sn_task_type s) (sn_status s) (sn_created_time s) (sn_updated_time s)
    (sn_started_time s) (sn_finished_time s) progress (sn_stage s) (sn_current s) (sn_total s)
    message (sn_owner s) result_path error result (sn_source s) (sn_site_name s)
    (sn_text_integrity s) (sn_text_integrity_reason s) (sn_text_integrity_updated_at s)
    (sn_text_schema_version s) (sn_producer_kind s) (sn_producer_version s) (sn_producer_commit s)
    (sn_resource_keys s).

Definition with_integrity (integrity reason time : string) (s : TaskSnapshot) : TaskSnapshot :=
  Snapshot (sn_task_id s) (sn_task_type s) (sn_status s) (sn_created_time s) (sn_updated_time s)
    (sn_started_time s) (sn_finished_time s) (sn_progress s) (sn_stage s) (sn_current s)
    (sn_total s) (sn_message s) (sn_owner s) (sn_result_path s) (sn_error_message s) (sn_result s)
    (sn_source s) (sn_site_name s) integrity reason time (sn_text_schema_version s)
    (sn_producer_kind s) (sn_producer_version s) (sn_producer_commit s)
    (sn_resource_keys s).

Definition with_result (result : dict) (s : TaskSnapshot) : TaskSnapshot :=
  with_outcome (sn_progress s) result (sn_result_path s) (sn_message s) (sn_error_message s) s.

(** [round(current * 100 / total)] for a positive total: the true division gives
    the nearest double (53 bits, ties to even; a quotient that no double holds
    raises), and [round] the nearest integer of the double, again ties to even. *)
Definition shift_ratio (num den e : Z) : Z * Z :=
  if 0 <=? e then (num, den * 2 ^ e) else (num * 2 ^ (- e), den).

Definition round_true_div (num den : Z) : Z :=
  if num =? 0 then 0
  else
    let a := Z.abs num in
    let k := Z.log2 a - Z.log2 den in
    let '(n, d) := shift_ratio a den k in
    let e := (if d <=? n then k else k - 1) - 52 in
    let '(n, d) := shift_ratio a den e in
    let m := round_half_even n d in
    let '(n, d) := shift_ratio m 1 (- e) in
    Z.sgn num * round_half_even n d.

Example round_true_div_examples :
  (λ c, round_true_div (c * 100) 200) <$> [0; 1; 3; 5; 99; -1; -3] = [0; 0; 2; 2; 50; 0; -2] ∧
  round_true_div (3 * 10 ^ 20 - 2) (2 * 10 ^ 20) = 2 ∧ round_true_div (10 ^ 30) 3 = 333333333333333316505293553664.
Proof. vm_compute. done. Qed.

Definition percent (current total : Z) : res Z :=
  if (2 ^ 1024 - 2 ^ 970) * total <=? Z.abs (current * 100) then Err OverflowError
  else Ok (Z.max 0 (Z.min (round_true_div (current * 100) total) 100)).

(** [_merge_plan_correlation]. *)
Definition merge_plan_correlation (result payload : dict) : dict :=
  let plan_id := strip (text_or_empty (dget "plan_id" payload)) in
  if str_nonempty plan_id && negb (str_nonempty (strip (text_or_empty (dget "plan_id" result))))
  then dset "plan_id" (PStr plan_id) result else result.

(** [_result_path]. *)
Definition result_path (result : dict) : string :=
  match List.find (λ k, truthy (dget k result))
          ["result_path"; "output_path"; "report_path"; "package_path"; "path"] with
  | Some k => py_str (dget k result)
  | None => ""
  end.

(** [_finished_event_state]: the same text decides as in the runtime. *)
Definition finished_event_state (payload : dict) : TaskState :=
  let state_text := upper (strip (text_or_empty (dget "terminal_state" payload))) in
  if negb (str_nonempty state_text) then COMPLETED
  else match state_of_value state_text with
       | Some s => if terminal s then s else COMPLETED
       | None => COMPLETED
       end.

(** [_apply_text_integrity]. *)
Definition TEXT_INTEGRITY_VALUES : list string :=
  ["ok"; "current_corrupted"; "historical_corrupted"; "unknown_corrupted"].

Definition apply_text_integrity (payload : dict) (event_time : string) (s : TaskSnapshot)
    : TaskSnapshot :=
  let result_payload := match dget "result" payload with PDict d => d | _ => [] end in
  let explicit :=
    text_or_empty (por (dget "text_integrity" result_payload) (dget "text_integrity" payload)) in
  if str_mem explicit TEXT_INTEGRITY_VALUES && negb (String.eqb explicit "ok") then
    with_integrity explicit
      (py_str (por (dget "text_integrity_reason" result_payload)
         (por (dget "text_integrity_reason" payload) (PStr "explicit_text_integrity"))))
      event_time s
  else if negb (contains_replacement_character (PDict payload)) then s
  else
    let producer_kind := str_or (sn_producer_kind s) "legacy" in
    let producer_version := str_or (sn_producer_version s) "unknown" in
    let producer_commit := str_or (sn_producer_commit s) "unknown" in
    let mark integrity reason := with_integrity integrity reason event_time s in
    if String.eqb producer_kind "legacy" || (sn_text_schema_version s =? 1)
    then mark "historical_corrupted" "legacy_task_before_text_schema_v2"
    else if str_mem producer_kind ["local_worker"; "local_backend"]
    then mark "current_corrupted" "replacement_character_detected_in_current_event"
    else if String.eqb producer_kind "agent"
            && (negb (String.eqb producer_version "unknown")
                || negb (String.eqb producer_commit "unknown"))
    then mark "current_corrupted" "replacement_character_detected_in_current_agent_event"
    else mark "unknown_corrupted" "corrupted_text_producer_version_unknown".

(** [TaskState(str(payload.get("state") or snapshot.status.value))]. *)
Definition event_state (s : TaskSnapshot) (payload : dict) : res TaskState :=
  match state_of_value (py_str (por (dget "state" payload) (PStr (state_value (sn_status s))))) with
  | Some state => Ok state
  | None => Err ValueError
  end.

(** [dict(payload.get("result") or {})], and the mapping test of the others. *)
Definition result_copy (payload : dict) : res dict :=
  to_dict_value (por (dget "result" payload) (PDict [])).
Definition result_mapping (payload : dict) : dict :=
  match dget "result" payload with PDict d => d | _ => [] end.

(** The branches of [_apply_event] on [values] with the common part set. *)
Definition apply_state (payload : dict) (event_time : string) (v : TaskSnapshot) : res TaskSnapshot :=
  status ← event_state v payload;
  let started :=
    if bool_decide (status = RUNNING) && String.eqb (sn_started_time v) ""
    then event_time else sn_started_time v in
  if terminal status
  then Ok (with_result (merge_plan_correlation (sn_result v) payload)
             (with_status status started event_time v))
  else Ok (with_status status started (sn_finished_time v) v).

Definition apply_progress (payload : dict) (v : TaskSnapshot) : res TaskSnapshot :=
  if sn_total v <=? 0 then Ok v
  else
    progress ← percent (sn_current v) (sn_total v);
    let held :=
      match dget "details" payload with
      | PDict details => (100 <=? progress) && truthy (dget "prevent_running_100" details)
                         && bool_decide (sn_status v ∈ ACTIVE_TASK_STATES)
      | _ => false
      end in
    Ok (with_outcome (if held then 99 else progress) (sn_result v) (sn_result_path v) (sn_message v)
          (sn_error_message v) v).

Definition apply_finished (payload : dict) (event_time : string) (v : TaskSnapshot)
    : res TaskSnapshot :=
  result ← result_copy payload;
  let result := merge_plan_correlation result payload in
  Ok (with_outcome 100 result (str_or (result_path result) (sn_result_path v)) (sn_message v)
        (sn_error_message v)
        (with_status (finished_event_state payload) (sn_started_time v) event_time v)).

(** [error] and [cancelled]. *)
Definition apply_failure (status : TaskState) (fallback : string) (payload : dict)
    (event_time : string) (v : TaskSnapshot) : TaskSnapshot :=
  let mapping := merge_plan_correlation (result_mapping payload) payload in
  with_outcome (sn_progress v) (match mapping with [] => sn_result v | _ => mapping end)
    (sn_result_path v) (sn_message v)
    (py_str (por (dget "error" payload) (por (dget "message" payload) (PStr fallback))))
    (with_status status (sn_started_time v) event_time v).

Definition apply_artifact_rejected (payload : dict) (event_time : string) (v : TaskSnapshot)
    : res TaskSnapshot :=
  state ← event_state v payload;
  Ok (with_outcome (sn_progress v) (result_mapping payload) ""
        (py_str (por (dget "message" payload) (PStr "报告不可用")))
        (if bool_decide (state = FAILED)
         then py_str (por (dget "error" payload) (PStr "报告完整性校验失败"))
         else sn_error_message v)
        (with_status state (sn_started_time v)
           (if terminal state then event_time else sn_finished_time v) v)).

Definition apply_event (snapshot : TaskSnapshot) (event_type : string) (payload : dict)
    (event_time : string) : res TaskSnapshot :=
  current ← to_int (por (dget "current" payload) (por (PInt (sn_current snapshot)) (PInt 0)));
  total ← to_int (por (dget "total" payload) (por (PInt (sn_total snapshot)) (PInt 0)));
  let v := with_common event_time (py_str (por (dget "stage" payload) (PStr (sn_stage snapshot))))
             (py_str (por (dget "message" payload) (PStr (sn_message snapshot)))) current total
             snapshot in
  v ← (if String.eqb event_type "state" then apply_state payload event_time v
       else if String.eqb event_type "progress" then apply_progress payload v
       else if String.eqb event_type "finished" then apply_finished payload event_time v
       else if String.eqb event_type "error" then Ok (apply_failure FAILED "任务失败" payload event_time v)
       else if String.eqb event_type "cancelled"
       then Ok (apply_failure CANCELLED "任务已取消" payload event_time v)
       else if String.eqb event_type "artifact_finalized" then
         result ← result_copy payload;
         Ok (with_outcome (sn_progress v) result ""
               (py_str (por (dget "message" payload) (PStr "报告完整性校验完成"))) (sn_error_message v) v)
       else if String.eqb event_type "file_management_mesh_import" then
         Ok (with_outcome (sn_progress v)
               (match dget "result" payload with PDict d => dmerge (sn_result v) d | _ => sn_result v end)
               (sn_result_path v) (py_str (por (dget "message" payload) (PStr (sn_message v))))
               (sn_error_message v) v)
       else if String.eqb event_type "artifact_rejected" then apply_artifact_rejected payload event_time v
       else Ok v);
  Ok (apply_text_integrity payload event_time v).

(** ** Which stored states an event may follow ([_allowed_from]) *)
Definition allowed_from (snapshot : TaskSnapshot) (event_type : string) (payload : dict)
    : res (list TaskState) :=
  if str_mem event_type ["artifact_finalized"; "file_management_mesh_import"] then Ok [COMPLETED]
  else if String.eqb event_type "artifact_rejected" then Ok [sn_status snapshot]
  else if String.eqb event_type "state" then
    target ← event_state snapshot payload;
    Ok (if terminal (sn_status snapshot)
        then (if bool_decide (target = sn_status snapshot) then [sn_status snapshot] else [])
        else match target with
             | PENDING => [PENDING]
             | STARTING => [PENDING; STARTING]
             | RUNNING => [PENDING; STARTING; RUNNING]
             | _ => ACTIVE_TASK_STATES
             end)
  else if terminal (sn_status snapshot) then Ok []
  else if str_mem event_type ["finished"; "error"; "cancelled"] then Ok ACTIVE_TASK_STATES
  else Ok [sn_status snapshot].

(** ** The repository *)
Section repository.
(** [_event_datetime]: a time stamp in microseconds, if it can be read. *)
Context (event_datetime : string → option Z).

Definition PROGRESS_EVENT_HEARTBEAT : Z := 30 * 1000000.

(** [_sample_repeated_progress]: the same progress within the heartbeat. *)
Definition sample_repeated_progress (db : store) (event : task_event) : bool :=
  String.eqb (ev_type event) "progress" &&
  match last (List.filter (λ e, String.eqb (ev_task_id e) (ev_task_id event)) (db_events db)) with
  | None => false
  | Some previous =>
      String.eqb (ev_type previous) "progress" && String.eqb (ev_source previous) (ev_source event)
      && bool_decide (ev_payload previous = ev_payload event)
      && match event_datetime (ev_time previous), event_datetime (ev_time event) with
         | Some t0, Some t1 => (0 <=? t1 - t0) && (t1 - t0 <? PROGRESS_EVENT_HEARTBEAT)
         | _, _ => false
         end
  end.

(** The row that [_upsert] writes: an existing one keeps its creation time. *)
Definition stored_row (created : string) (s : TaskSnapshot) : TaskSnapshot :=
  Snapshot (sn_task_id s) (sn_task_type s) (sn_status s) created (sn_updated_time s)
    (sn_started_time s) (sn_finished_time s) (Z.max 0 (Z.min (sn_progress s) 100)) (sn_stage s)
    (sn_current s) (sn_total s) (sn_message s) (sn_owner s) (sn_result_path s)
    (sn_error_message s) (sn_result s) (sn_source s) (sn_site_name s) (sn_text_integrity s)
    (sn_text_integrity_reason s) (sn_text_integrity_updated_at s) (sn_text_schema_version s)
    (sn_producer_kind s) (sn_producer_version s) (sn_producer_commit s) (sn_resource_keys s).

(** [_upsert]: a new row is inserted; an existing one only changes from a state
    of [allowed], and keeps its creation time. *)
Definition upsert (snapshot : TaskSnapshot) (allowed : option (list TaskState)) (db : store)
    : store * bool :=
  let id := sn_task_id snapshot in
  let put created :=
    Store (ainsert id (stored_row created snapshot) (db_snapshots db)) (db_events db)
      (db_tombstones db) in
  match get id db with
  | None => (put (sn_created_time snapshot), true)
  | Some row =>
      if match allowed with None => true | Some l => bool_decide (sn_status row ∈ l) end
      then (put (sn_created_time row), true)
      else (db, false)
  end.

(** [record]: one transaction; [true] when the event counts as recorded. *)
Definition record (snapshot : TaskSnapshot) (event : task_event) (allowed : option (list TaskState))
    (db : store) : store * bool :=
  if existsb (λ e, String.eqb (ev_id e) (ev_id event)) (db_events db) then (db, false)
  else if str_mem (ev_task_id event) (db_tombstones db) then (db, false)
  else if sample_repeated_progress db event then (db, true)
  else match upsert snapshot allowed db with
       | (_, false) => (db, false)
       | (db', true) =>
           (Store (db_snapshots db') (db_events db' ++ [event]) (db_tombstones db'), true)
       end.

(** ** The two halves of a recorded event

    A plan is what the first transaction read and computed. *)
Record plan := Plan {
  pl_snapshot : TaskSnapshot;
  pl_event : task_event;
  pl_allowed : list TaskState;
}.

Definition plan_commit (p : plan) (db : store) : store * bool :=
  record (pl_snapshot p) (pl_event p) (Some (pl_allowed p)) db.

Context (re_sub : web_re → string → string → string).

(** The answer of [_persist_event] to an envelope before the transaction: the
    plan, and whether recording it makes the guard accept the event.  [fresh]
    and [now] are a new identifier and the current time. *)
Definition safe_payload (task_id : string) : dict :=
  [("type", PStr "error"); ("job_id", PStr task_id); ("stage", PStr "worker_protocol");
   ("message", PStr protocol_error_message); ("error", PStr protocol_error_message);
   ("error_code", PStr WORKER_PROTOCOL_ERROR_CODE);
   ("result", PDict
      [("error_code", PStr WORKER_PROTOCOL_ERROR_CODE);
       ("text_integrity", PStr "current_corrupted");
       ("text_integrity_reason", PStr "replacement_character_detected_in_current_event")]);
   ("cancelled", PBool false)].

Definition persist_begin (fresh now : string) (envelope : dict) (db : store) : option (plan * bool) :=
  let task_id := text_or_empty (dget "task_id" envelope) in
  if String.eqb task_id "" then None
  else
    match to_dict_value (por (dget "payload" envelope) (PDict [])) with
    | Err _ => None
    | Ok payload =>
        match get task_id db with
        | None => None
        | Some snapshot =>
            let payload := if is_web_export_task (sn_task_type snapshot)
                           then sanitize_web_export_event re_sub payload else payload in
            let event_type := text_or_empty (dget "type" envelope) in
            let source := py_str (por (dget "source" envelope) (PStr "service")) in
            let time := py_str (por (dget "time" envelope) (PStr now)) in
            if String.eqb source "worker" && contains_replacement_character (PDict payload) then
              match apply_event snapshot "error" (safe_payload task_id) time with
              | Err _ => None
              | Ok updated =>
                  Some (Plan updated (TaskEvent fresh task_id "error" time "integrity_guard"
                          (safe_payload task_id)) [sn_status snapshot], false)
              end
            else
              match apply_event snapshot event_type payload time,
                    allowed_from snapshot event_type payload with
              | Ok updated, Ok allowed =>
                  Some (Plan updated
                    (TaskEvent (py_str (por (dget "id" envelope) (PStr fresh))) task_id
                       (py_str (por (dget "type" envelope) (PStr "log"))) time source payload)
                    allowed, true)
              | _, _ => None
              end
        end
    end.

(** [_persist_event] without interference: the store and the guard's answer. *)
Definition persist_event (fresh now : string) (envelope : dict) (db : store) : store * bool :=
  match persist_begin fresh now envelope db with
  | None => (db, false)
  | Some (p, accepts) =>
      let '(db', recorded) := plan_commit p db in (db', recorded && accepts)
  end.

(** [record_external_event] up to the broadcast: [KeyError] of an unknown task is
    [None], an exception of the other calls is the error. *)
Definition external_begin (fresh now task_id event_type : string) (payload : dict)
    (source event_id event_time : string) (db : store) : option (res plan) :=
  snapshot ← get task_id db;
  let safe := if is_web_export_task (sn_task_type snapshot)
              then sanitize_web_export_event re_sub payload else payload in
  let time := str_or event_time now in
  let ty := str_or event_type "log" in
  Some (allowed ← allowed_from snapshot ty safe;
        updated ← apply_event snapshot ty safe time;
        Ok (Plan updated (TaskEvent (str_or event_id fresh) task_id ty time source safe) allowed)).

(** [create_external_task] after its checks of the arguments, and
    [_record_prepare_failure]. *)
Definition create_external_commit (fresh : string) (snapshot : TaskSnapshot) (db : store)
    : store * res unit :=
  let event := TaskEvent fresh (sn_task_id snapshot) "state" (sn_created_time snapshot) "service"
                 [("state", PStr (state_value PENDING)); ("task_type", PStr (sn_task_type snapshot))] in
  let '(db', recorded) := record snapshot event (Some []) db in
  (db', if recorded then Ok () else Err ValueError).

Definition record_prepare_failure (fresh now message : string) (snapshot : TaskSnapshot) (db : store)
    : store :=
  let failed := with_outcome (sn_progress snapshot) (sn_result snapshot) (sn_result_path snapshot)
    "任务启动失败" message
    (with_common now (sn_stage snapshot) (sn_message snapshot) (sn_current snapshot)
       (sn_total snapshot) (with_status FAILED (sn_started_time snapshot) now snapshot)) in
  (record failed
     (TaskEvent fresh (sn_task_id snapshot) "error" now "service"
        [("message", PStr "任务启动失败"); ("error", PStr message); ("cancelled", PBool false)])
     (Some [sn_status snapshot]) db).1.

(** [_artifact_task], [finalize_artifact_result] and [reject_artifact_result]
    before their call of [record_external_event]: what they read and what they
    ask to record. *)
Definition artifact_task (site owner source task_type : string) (task_id : string) (db : store)
    : option TaskSnapshot :=
  snapshot ← get task_id db;
  if String.eqb (sn_site_name snapshot) site && String.eqb (sn_owner snapshot) owner
     && String.eqb (sn_source snapshot) source && String.eqb (sn_task_type snapshot) task_type
  then Some snapshot else None.

Definition finalize_payload (result : dict) (message : string) (snapshot : TaskSnapshot) : option dict :=
  if bool_decide (sn_status snapshot = COMPLETED)
  then Some [("result", PDict result); ("message", PStr (str_or message "报告完整性校验完成"))]
  else None.

Definition reject_payload (error_message : string) (snapshot : TaskSnapshot) : dict :=
  let text key := match dget key (sn_result snapshot) with
                  | PStr (String _ _ as v) => [(key, PStr v)]
                  | _ => []
                  end in
  let structured := if bool_decide (sn_status snapshot = FAILED)
                    then text "error_code" ++ text "error_message" else [] in
  [("state", PStr (state_value (if bool_decide (sn_status snapshot = COMPLETED)
                                then FAILED else sn_status snapshot)));
   ("error", PStr (str_or error_message "报告完整性校验失败"));
   ("message", PStr "报告不可用"); ("result", PDict structured)].
End repository.

(** ** [save] and the resource guard *)

(** [str(item).strip() for item in values if str(item or "").strip()]. *)
Definition key_texts (values : list pyval) : list string :=
  (λ v, strip (py_str v)) <$> List.filter (λ v, str_nonempty (strip (text_or_empty v))) values.

(** [_resource_key_set] of a stored list. *)
Definition resource_key_set (values : list string) : list string := key_texts (PStr <$> values).

(** [repository.save] of a task that is not over. *)
Definition save (snapshot : TaskSnapshot) (db : store) : store * res unit :=
  if str_mem (sn_task_id snapshot) (db_tombstones db) then (db, Err (RuntimeError "TaskRetiredError"))
  else ((upsert snapshot None db).1, Ok ()).

(** The conflict [save_with_resource_guard] finds: the rows by update, creation
    and identifier, latest first. *)
Definition row_leb (a b : TaskSnapshot) : bool :=
  key_leb [AS (sn_updated_time b); AS (sn_created_time b); AS (sn_task_id b)]
    [AS (sn_updated_time a); AS (sn_created_time a); AS (sn_task_id a)].

Definition holds_resource (snapshot row : TaskSnapshot) : bool :=
  String.eqb (sn_site_name row) (sn_site_name snapshot)
  && bool_decide (sn_status row ∈ ACTIVE_TASK_STATES)
  && negb (String.eqb (sn_task_id row) (sn_task_id snapshot))
  && existsb (λ k, str_mem k (resource_key_set (sn_resource_keys snapshot)))
       (resource_key_set (sn_resource_keys row)).

Definition resource_conflict (snapshot : TaskSnapshot) (db : store) : option TaskSnapshot :=
  List.find (holds_resource snapshot) (sort_by row_leb (db_snapshots db).*2).

Definition save_with_resource_guard (snapshot : TaskSnapshot) (db : store)
    : store * res (option TaskSnapshot) :=
  match resource_key_set (sn_resource_keys snapshot) with
  | [] => let '(db', r) := save snapshot db in (db', _ ← r; Ok None)
  | _ =>
      if str_mem (sn_task_id snapshot) (db_tombstones db)
      then (db, Err (RuntimeError "TaskRetiredError"))
      else match resource_conflict snapshot db with
           | Some row => (db, Ok (Some row))
           | None => ((upsert snapshot None db).1, Ok None)
           end
  end.

(** The branch of [prepare] of the application service on the resources of the job. *)
Definition save_prepared (snapshot : TaskSnapshot) (db : store) : store * res (option TaskSnapshot) :=
  match sn_resource_keys snapshot with
  | [] => let '(db', r) := save snapshot db in (db', _ ← r; Ok None)
  | _ => save_with_resource_guard snapshot db
  end.

(** ** Recovery, import and deletion *)
Section maintenance.
Context (event_datetime : string → option Z).

(** [reconcile_orphaned_local_tasks] on one snapshot whose host is gone. *)
Definition recovery_texts (s : TaskSnapshot) : string * string :=
  if starts_with "device-form-test-" (sn_task_id s)
  then ("临时表单连接测试不可恢复", "上次运行非正常中断，一次性表单凭据已失效，请重新提交测试")
  else if starts_with "web_export_" (sn_task_type s) || starts_with "device_export_" (sn_task_type s)
  then ("导出任务执行进程已丢失，请重新导出", "导出任务执行进程已丢失，请重新导出")
  else ("任务宿主已退出", "上次运行非正常中断，未发现仍存活的本地任务宿主").

Definition recovery_plan (now : string) (s : TaskSnapshot) : plan :=
  let '(message, error) := recovery_texts s in
  let lost := starts_with "web_export_" (sn_task_type s) || starts_with "device_export_" (sn_task_type s) in
  let result := if lost then dset "error_code" (PStr "WORKER_RUNTIME_LOST") (sn_result s) else sn_result s in
  Plan (with_outcome (sn_progress s) result (sn_result_path s) message error
          (with_common now (sn_stage s) (sn_message s) (sn_current s) (sn_total s)
             (with_status FAILED (sn_started_time s) now s)))
    (TaskEvent ("recovery-" +:+ sn_task_id s +:+ "-" +:+ now) (sn_task_id s) "error" now "recovery"
       [("message", PStr message); ("error", PStr error); ("cancelled", PBool false)])
    [sn_status s].

(** [_finalize_irreversible_task] of the configuration service for a task that is
    over, with what the checkpoint says: whether the batch was completed, whether
    all items failed, and the result. *)
Definition irreversible_status (completed all_failed : bool) (status : TaskState) : TaskState :=
  if bool_decide (status = CANCELLED) then CANCELLED
  else if all_failed then FAILED
  else if completed then COMPLETED else status.

Definition irreversible_plan (now : string) (completed all_failed : bool) (result : dict) (s : TaskSnapshot)
    : option plan :=
  if bool_decide (sn_status s = COMPLETED) && truthy (PDict (sn_result s)) then None
  else if negb (terminal (sn_status s)) then None
  else
    let recovered := completed && negb all_failed in
    let final := irreversible_status completed all_failed (sn_status s) in
    let message := if recovered then "不可逆批次已执行完成，终态由检查点恢复"
                   else if completed then "不可逆批次已执行完成，但全部项目失败"
                   else "不可逆批次被宿主中断，已保留结构化执行结果" in
    Some (Plan
      (with_outcome (if recovered then 100 else sn_progress s) result (sn_result_path s) message
         (if recovered then "" else sn_error_message s)
         (with_common now (sn_stage s) (sn_message s) (sn_current s) (sn_total s)
            (with_status final (sn_started_time s) (str_or (sn_finished_time s) now) s)))
      (TaskEvent ("config-irreversible-recovery-" +:+ sn_task_id s) (sn_task_id s) "recovery" now "recovery"
         [("message", PStr message); ("state", PStr (state_value final)); ("result", PDict result)])
      [sn_status s]).

(** What the import of an agent package records: a task that is over, new or still
    active. *)
Definition import_plan (import_id now : string) (payload : dict) (imported : TaskSnapshot) (db : store) : plan :=
  let type := match sn_status imported with COMPLETED => "finished" | FAILED => "error" | _ => "cancelled" end in
  Plan imported
    (TaskEvent ("agent-import-" +:+ sn_task_id imported +:+ "-" +:+ import_id) (sn_task_id imported) type now
       "agent_import" payload)
    (match get (sn_task_id imported) db with Some _ => ACTIVE_TASK_STATES | None => [] end).

(** The file management records its metadata (a descriptor, a waiting or hidden mark)
    together with the snapshot it read before, whatever is stored by then. *)
Definition record_task_metadata (fresh now event_type : string) (payload : dict) (snapshot : TaskSnapshot)
    (db : store) : store :=
  (record event_datetime snapshot
     (TaskEvent fresh (sn_task_id snapshot) event_type now "file_management" payload) None db).1.

(** Deleting the rows of tasks for good: the events, the snapshots, and a tombstone
    for each. *)
Definition without_tasks (ids : list string) (db : store) : store :=
  Store (List.filter (λ r, negb (str_mem r.1 ids)) (db_snapshots db))
    (List.filter (λ e, negb (str_mem (ev_task_id e) ids)) (db_events db)) (db_tombstones db).

Definition retire (ids : list string) (db : store) : store :=
  let db' := without_tasks ids db in
  Store (db_snapshots db') (db_events db')
    (db_tombstones db ++ List.filter (λ id, negb (str_mem id (db_tombstones db))) ids).

Definition terminal_row (db : store) (id : string) : bool :=
  match get id db with Some s => terminal (sn_status s) | None => false end.

(** The identifiers a caller names: stripped, without repetitions. *)
Definition named_ids (ids : list string) : list string :=
  (index_by id (List.filter str_nonempty (strip <$> ids))).*1.

(** The tasks [delete_task_owned_rows] deletes, and the store it leaves. *)
Definition deleted_ids (ids : list string) (db : store) : list string :=
  List.filter (terminal_row db) (named_ids ids).
Definition delete_task_owned_rows (ids : list string) (db : store) : store := retire (deleted_ids ids db) db.

(** [enforce_terminal_history_retention]: of the tasks of a scope that are over and
    not protected, all but the latest.  [protected] stands for what the other
    tables say: a mapped Online MR session, a long-term reference, unreadable
    columns. *)
Definition TASK_HISTORY_SCOPE_LIMIT : nat := 10.

(** Its scope: [task_history_scope] of the policy on the two columns. *)
Definition row_scope (s : TaskSnapshot) : string * string :=
  (strip (sn_site_name s), strip (sn_task_type s)).

Definition scope_rows (protected : TaskSnapshot → bool) (db : store)
    : list ((string * string) * list (string * string)) :=
  foldl (λ d s,
    if protected s || negb (terminal (sn_status s)) then d
    else let scope := row_scope s in
         ainsert scope (default [] (alookup scope d)
                        ++ [(str_or (sn_finished_time s) (sn_updated_time s), sn_task_id s)]) d)
    [] (db_snapshots db).*2.

Definition later_leb (a b : string * string) : bool := key_leb [AS b.1; AS b.2] [AS a.1; AS a.2].

Definition surplus_ids (protected : TaskSnapshot → bool) (db : store) : list string :=
  concat ((λ r, drop TASK_HISTORY_SCOPE_LIMIT (sort_by later_leb r.2).*2) <$> scope_rows protected db).

Definition enforce_terminal_history_retention (protected : TaskSnapshot → bool) (db : store) : store :=
  retire (surplus_ids protected db) db.

(** [delete_task_events_for_retention]: the events of tasks that are over since
    [cutoff], not protected and not mapped to an Online MR session. *)
Definition expired_ids (ids protected mapped : list string) (cutoff : Z) (db : store) : list string :=
  List.filter (λ id,
    match get id db with
    | Some s => negb (str_mem id (named_ids protected) || str_mem id mapped) && terminal (sn_status s)
                && match event_datetime (sn_finished_time s) with Some t => t <? cutoff | None => false end
    | None => false
    end) (named_ids ids).

Definition delete_task_events_for_retention (ids protected mapped : list string) (cutoff : Z) (db : store) : store :=
  let eligible := expired_ids ids protected mapped cutoff db in
  Store (db_snapshots db) (List.filter (λ e, negb (str_mem (ev_task_id e) eligible)) (db_events db))
    (db_tombstones db).

(** The site retention deletes the events it has archived. *)
Definition archive_events (archived : task_event → bool) (db : store) : store :=
  Store (db_snapshots db) (List.filter (λ e, negb (archived e)) (db_events db)) (db_tombstones db).

(** [delete_session_records] of an Online MR session on the tables of the tasks: the
    snapshots of the site with their events, whatever their state, and no tombstone.
    [mapped] are the tasks of the session. *)
Definition session_ids (site : string) (requested mapped excluded : list string) (db : store) : list string :=
  List.filter (λ id, negb (str_mem id excluded)
    && match get id db with Some s => String.eqb (sn_site_name s) site | None => false end) (requested ++ mapped).

Definition delete_session_records (site : string) (requested mapped excluded : list string) (db : store) : store :=
  without_tasks (session_ids site requested mapped excluded db) db.
End maintenance.

(** ** What an event does to the state of a task *)
Definition rank (s : TaskState) : Z :=
  match s with PENDING => 0 | STARTING => 1 | RUNNING => 2 | STOPPING => 3 | _ => 4 end.

(** A stored state goes forward, and a terminal state stays, except that damaged
    text of a worker turns it into a failure. *)
Definition forward (s s' : TaskState) : Prop :=
  rank s ≤ rank s' ∧ (terminal s = true → s' = s ∨ s' = FAILED).

#[global] Instance forward_refl : Reflexive forward.
Proof. intros s. split; [lia|by left]. Qed.
#[global] Instance forward_trans : Transitive forward.
Proof.
  intros a b c [H1 H2] [H3 H4]. split; [lia|]. intros Ha.
  destruct (H2 Ha) as [-> | ->]; [by apply H4|]. destruct (H4 eq_refl) as [-> | ->]; by right.
Qed.

(** The events of workers and of the runtime, unlike those about artifacts. *)
Definition artifact_types : list string :=
  ["artifact_finalized"; "file_management_mesh_import"; "artifact_rejected"].

Lemma integrity_status payload time s : sn_status (apply_text_integrity payload time s) = sn_status s.
Proof. unfold apply_text_integrity. cbv zeta. by repeat case_match. Qed.

Lemma integrity_id payload time s : sn_task_id (apply_text_integrity payload time s) = sn_task_id s.
Proof. unfold apply_text_integrity. cbv zeta. by repeat case_match. Qed.

(** The state an event gives. *)
Definition event_status (s : TaskSnapshot) (event_type : string) (payload : dict) : res TaskState :=
  if String.eqb event_type "state" then event_state s payload
  else if String.eqb event_type "finished" then Ok (finished_event_state payload)
  else if String.eqb event_type "error" then Ok FAILED
  else if String.eqb event_type "cancelled" then Ok CANCELLED
  else if String.eqb event_type "artifact_rejected" then event_state s payload
  else Ok (sn_status s).

Lemma apply_event_status s ty payload time s' :
  apply_event s ty payload time = Ok s' →
  sn_task_id s' = sn_task_id s ∧ sn_task_type s' = sn_task_type s ∧
  event_status s ty payload = Ok (sn_status s') ∧
  sn_site_name s' = sn_site_name s ∧ sn_resource_keys s' = sn_resource_keys s.
Proof.
  unfold apply_event. intros (cur & _ & (tot & _ & (v & Hv & [= <-])%res_bind_Ok)%res_bind_Ok)%res_bind_Ok.
  assert (Ht : sn_task_type (apply_text_integrity payload time v) = sn_task_type v ∧
    sn_site_name (apply_text_integrity payload time v) = sn_site_name v ∧
    sn_resource_keys (apply_text_integrity payload time v) = sn_resource_keys v)
    by (unfold apply_text_integrity; cbv zeta; by repeat case_match).
  destruct Ht as (-> & -> & ->). rewrite integrity_id, integrity_status. unfold event_status.
  set (v0 := with_common _ _ _ _ _ s) in Hv.
  assert (Hs : event_state s payload = event_state v0 payload) by done.
  destruct (String.eqb ty "state") eqn:E1.
  { unfold apply_state in Hv. rewrite Hs. apply res_bind_Ok in Hv as (st & -> & Hv). cbv zeta in Hv.
    by destruct (terminal st); injection Hv as <-. }
  destruct (String.eqb ty "progress") eqn:E2.
  { apply String.eqb_eq in E2 as ->. simpl. unfold apply_progress in Hv.
    destruct (_ <=? _); [by injection Hv as <-|].
    by apply res_bind_Ok in Hv as (p & _ & [= <-]). }
  destruct (String.eqb ty "finished").
  { unfold apply_finished in Hv. by apply res_bind_Ok in Hv as (r & _ & [= <-]). }
  destruct (String.eqb ty "error"); [by injection Hv as <-|].
  destruct (String.eqb ty "cancelled"); [by injection Hv as <-|].
  destruct (String.eqb ty "artifact_finalized") eqn:E3.
  { apply String.eqb_eq in E3 as ->. by apply res_bind_Ok in Hv as (r & _ & [= <-]). }
  destruct (String.eqb ty "file_management_mesh_import") eqn:E4.
  { apply String.eqb_eq in E4 as ->. by injection Hv as <-. }
  destruct (String.eqb ty "artifact_rejected"); [|by injection Hv as <-].
  unfold apply_artifact_rejected in Hv. rewrite Hs.
  by apply res_bind_Ok in Hv as (st & -> & [= <-]).
Qed.

Lemma rank_active s : s ∈ ACTIVE_TASK_STATES ↔ terminal s = false.
Proof. unfold ACTIVE_TASK_STATES. destruct s; vm_compute; split; intros; (done || set_solver). Qed.

Lemma finished_state_terminal payload : terminal (finished_event_state payload) = true.
Proof.
  unfold finished_event_state. cbv zeta. destruct (negb _); [done|].
  destruct (state_of_value _) as [s|]; [|done]. by destruct (terminal s) eqn:E.
Qed.

Lemma forward_terminal s s' : terminal s = false → terminal s' = true → forward s s'.
Proof. intros H H'. split; [by destruct s, s'|by rewrite H]. Qed.

Lemma allowed_forward s ty payload time s' l cur :
  apply_event s ty payload time = Ok s' → allowed_from s ty payload = Ok l →
  ty ∉ artifact_types → cur ∈ l → forward cur (sn_status s').
Proof.
  intros (_ & _ & Hs & _)%apply_event_status Hl Hty Hc. unfold allowed_from in Hl. unfold event_status in Hs.
  assert (H1 : str_mem ty ["artifact_finalized"; "file_management_mesh_import"] = false).
  { apply not_true_iff_false. rewrite str_mem_iff. unfold artifact_types in Hty. set_solver. }
  assert (H2 : String.eqb ty "artifact_rejected" = false).
  { apply String.eqb_neq. intros ->. apply Hty. unfold artifact_types. set_solver. }
  rewrite H1, H2 in Hl. rewrite H2 in Hs.
  destruct (String.eqb ty "state").
  { apply res_bind_Ok in Hl as (target & Ht & [= <-]). rewrite Ht in Hs. injection Hs as ->.
    destruct (terminal (sn_status s)) eqn:Et.
    - case_bool_decide as He; [|by apply not_elem_of_nil in Hc].
      apply list_elem_of_singleton in Hc as ->. by rewrite He.
    - destruct (sn_status s'); unfold ACTIVE_TASK_STATES in Hc;
        repeat (apply elem_of_cons in Hc as [->|Hc]; [split; vm_compute; naive_solver|]);
        by apply not_elem_of_nil in Hc. }
  destruct (terminal (sn_status s)) eqn:Et; [injection Hl as <-; by apply not_elem_of_nil in Hc|].
  destruct (str_mem ty ["finished"; "error"; "cancelled"]) eqn:Em; injection Hl as <-.
  - apply rank_active in Hc. apply forward_terminal; [done|]. apply str_mem_iff in Em.
    repeat (apply elem_of_cons in Em as [->|Em]; [simpl in Hs; injection Hs as <-;
      (done || apply finished_state_terminal)|]). by apply not_elem_of_nil in Em.
  - apply list_elem_of_singleton in Hc as ->. unfold str_mem in Em. simpl in Em.
    rewrite !orb_false_iff in Em. destruct Em as (E1 & E2 & E3 & _).
    rewrite E1, E2, E3 in Hs. injection Hs as Hs. by rewrite <- Hs.
Qed.

(** ** Any interleaving of readers and writers *)
#[global] Instance forward_dec s s' : Decision (forward s s').
Proof. unfold forward. apply _. Defined.

(** The steps that do more to a task than to move it forward: [prepare] launches
    it, an event about artifacts or from a checkpoint sets a state that does not
    follow the one it was planned for, metadata are recorded with a snapshot that
    the task has left behind, the task is retired for good, events are deleted, or
    the tasks of a session are dropped. *)
Inductive label :=
  | LQuiet
  | LLaunch (id : string)
  | LCorrect (id : string)
  | LStale (id : string)
  | LRetire (ids : list string)
  | LForget
  | LDrop (ids : list string).

Definition touches (id : string) (l : label) : Prop :=
  match l with LLaunch j | LCorrect j | LStale j => id = j | LDrop ids => id ∈ ids | _ => False end.

Definition deletes (l : label) : bool :=
  match l with LRetire _ | LForget | LDrop _ => true | _ => false end.

(** The event types that may correct a state. *)
Definition correction_types : list string := "recovery" :: artifact_types.

Definition commit_label (p : plan) : label :=
  if str_mem (ev_type (pl_event p)) correction_types
     && negb (bool_decide (Forall (λ cur, forward cur (sn_status (pl_snapshot p))) (pl_allowed p)))
  then LCorrect (sn_task_id (pl_snapshot p)) else LQuiet.

Definition metadata_label (snapshot : TaskSnapshot) (db : store) : label :=
  match get (sn_task_id snapshot) db with
  | Some row =>
      if bool_decide (forward (sn_status row) (sn_status snapshot)) then LQuiet else LStale (sn_task_id snapshot)
  | None => LQuiet
  end.

(** The tables: no event twice, a row is stored under its task, and a retired task
    has no row. *)
Record good (db : store) : Prop := {
  good_events : NoDup (ev_id <$> db_events db);
  good_rows : ∀ id s, get id db = Some s → sn_task_id s = id;
  good_retired : ∀ id, id ∈ db_tombstones db → get id db = None;
}.

(** What a plan may do to the row it finds. *)
Record plan_ok (p : plan) : Prop := {
  plan_task : ev_task_id (pl_event p) = sn_task_id (pl_snapshot p);
  plan_forward : ev_type (pl_event p) ∉ correction_types →
    Forall (λ cur, forward cur (sn_status (pl_snapshot p))) (pl_allowed p);
}.

(** The type an envelope is read with is the type of its event. *)
Lemma event_type_read v : str_nonempty (text_or_empty v) = true →
  text_or_empty v = py_str (por v (PStr "log")).
Proof. unfold text_or_empty, por. destruct (truthy v); [done|]. done. Qed.

Lemma allowed_plan s ty ty' payload time s' l :
  apply_event s ty payload time = Ok s' → allowed_from s ty payload = Ok l →
  (ty ∈ artifact_types → ty' = ty) → ty' ∉ correction_types → Forall (λ cur, forward cur (sn_status s')) l.
Proof.
  intros Hu Hl Hty Hc. apply Forall_forall. intros cur Hcur. eapply allowed_forward; [done..| |done].
  intros Hin. apply Hc. rewrite (Hty Hin). by right.
Qed.

Lemma forward_failed s : forward s FAILED.
Proof. split; [by destruct s|by right]. Qed.

Lemma recovery_plan_ok now s : plan_ok (recovery_plan now s).
Proof.
  unfold recovery_plan. destruct (recovery_texts s). split; simpl; [done|]. intros _.
  constructor; [apply forward_failed|done].
Qed.

Lemma irreversible_plan_ok now completed all_failed result s p :
  irreversible_plan now completed all_failed result s = Some p → plan_ok p.
Proof.
  unfold irreversible_plan. case_match; [done|]. case_match; [done|]. cbv zeta. intros [= <-].
  split; simpl; [done|]. intros Hc. exfalso. apply Hc. by left.
Qed.

Lemma import_plan_ok import_id now payload s db :
  terminal (sn_status s) = true → plan_ok (import_plan import_id now payload s db).
Proof.
  intros Ht. split; simpl; [done|]. intros _. destruct (get _ db); [|constructor].
  apply Forall_forall. intros cur Hc%rank_active. by apply forward_terminal.
Qed.

(** ** What one step does to the tables *)
Record moves (l : label) (db db' : store) : Prop := {
  ev_good : good db';
  ev_tombs : ∀ id, id ∈ db_tombstones db → id ∈ db_tombstones db';
  ev_history : deletes l = false → db_events db `prefix_of` db_events db';
  ev_row : ∀ id s, get id db = Some s → ¬ touches id l →
    (∃ s', get id db' = Some s' ∧ forward (sn_status s) (sn_status s') ∧ sn_created_time s' = sn_created_time s) ∨
    ∃ ids, l = LRetire ids ∧ id ∈ ids ∧ id ∈ db_tombstones db';
}.

Lemma moves_refl l db : good db → moves l db db.
Proof. intros Hg. split; [done..|]. intros id s Hs _. left. by exists s. Qed.

(** Writing the row of a task that is not retired. *)
Lemma upsert_moves l snapshot allowed db db' :
  good db → sn_task_id snapshot ∉ db_tombstones db → upsert snapshot allowed db = (db', true) →
  (¬ touches (sn_task_id snapshot) l → ∀ row, get (sn_task_id snapshot) db = Some row →
   match allowed with None => True | Some al => sn_status row ∈ al end →
   forward (sn_status row) (sn_status snapshot)) →
  moves l db db' ∧ db_events db' = db_events db.
Proof.
  intros Hg Ht Hu Hl. unfold upsert in Hu. cbv zeta in Hu.
  set (id := sn_task_id snapshot) in *.
  assert (∃ created, db' = Store (ainsert id (stored_row created snapshot) (db_snapshots db)) (db_events db)
      (db_tombstones db) ∧ ∀ s, get id db = Some s → created = sn_created_time s ∧
      match allowed with None => True | Some al => sn_status s ∈ al end) as (created & -> & Hrow).
  { destruct (get id db) as [row|] eqn:Er.
    - destruct (match allowed with None => true | Some al => _ end) eqn:Em; [|done]. injection Hu as <-.
      eexists. split; [done|]. intros s [= <-]. split; [done|]. destruct allowed; [by apply bool_decide_eq_true in Em|done].
    - injection Hu as <-. eexists. split; [done|]. done. }
  split; [|done].
  assert (∀ j, get j (Store (ainsert id (stored_row created snapshot) (db_snapshots db)) (db_events db) (db_tombstones db))
    = if decide (j = id) then Some (stored_row created snapshot) else get j db) as Hget.
  { intros j. unfold get. simpl. destruct (decide (j = id)) as [->|]; [apply alookup_ainsert_eq|by apply alookup_ainsert_ne]. }
  split; simpl; [split; simpl|done|done|].
  - apply Hg.
  - intros j s. rewrite Hget. destruct (decide (j = id)) as [->|]; [by intros [= <-]|apply Hg].
  - intros j Hj. rewrite Hget. destruct (decide (j = id)) as [->|]; [done|by apply Hg].
  - intros j s Hs Hj. left. rewrite Hget. destruct (decide (j = id)) as [->|]; [|by exists s].
    destruct (Hrow s Hs) as [-> Hin]. eexists. split; [done|]. split; [|done]. by apply Hl.
Qed.

Lemma moves_event l db db' event :
  moves l db db' → db_events db' = db_events db → ev_id event ∉ ev_id <$> db_events db →
  moves l db (Store (db_snapshots db') (db_events db' ++ [event]) (db_tombstones db')).
Proof.
  intros [Hg Ht Hh Hr] He Hev. split; simpl; [|done| |done].
  - split; simpl; [|apply Hg..]. rewrite He, fmap_app. apply NoDup_app. split; [rewrite <- He; apply Hg|].
    split; [|apply NoDup_singleton]. intros i Hi ->%list_elem_of_singleton. done.
  - intros _. rewrite He. by apply prefix_app_r.
Qed.

Lemma save_moves snapshot db :
  good db → moves (LLaunch (sn_task_id snapshot)) db (save_prepared snapshot db).1.
Proof.
  intros Hg. assert (Hput : str_mem (sn_task_id snapshot) (db_tombstones db) = false →
    moves (LLaunch (sn_task_id snapshot)) db (upsert snapshot None db).1).
  { intros Hm. assert ((upsert snapshot None db).2 = true) as Hok by (unfold upsert; cbv zeta; by destruct (get _ db)).
    destruct (upsert snapshot None db) as [db' b] eqn:E. simpl in Hok. subst b.
    eapply upsert_moves; [done| |exact E|by intros []]. rewrite <- str_mem_iff. congruence. }
  assert (Hsave : ∀ A (f : res unit → A),
    moves (LLaunch (sn_task_id snapshot)) db (let '(db', r) := save snapshot db in (db', f r)).1).
  { intros A f. unfold save. destruct (str_mem _ _) eqn:Em; simpl; [by apply moves_refl|by apply Hput]. }
  unfold save_prepared, save_with_resource_guard. destruct (sn_resource_keys snapshot) as [|key keys]; [apply Hsave|].
  destruct (resource_key_set _); [apply Hsave|]. destruct (str_mem _ _) eqn:Em; [by apply moves_refl|].
  destruct (resource_conflict _ _); [by apply moves_refl|by apply Hput].
Qed.

(** Deleting. *)
Lemma without_get ids id db :
  get id (without_tasks ids db) = if str_mem id ids then None else get id db.
Proof.
  unfold get, without_tasks. simpl. induction (db_snapshots db) as [|[j s] l IH]; simpl; [by destruct (str_mem _ _)|].
  destruct (str_mem j ids) eqn:Ej; simpl.
  - rewrite IH. destruct (decide (id = j)) as [->|]; [by rewrite Ej|done].
  - destruct (decide (id = j)) as [->|]; [by rewrite Ej|done].
Qed.

Lemma filter_NoDup {A B} (f : A → B) (P : A → bool) l : NoDup (f <$> l) → NoDup (f <$> List.filter P l).
Proof.
  induction l as [|x l IH]; [done|]. simpl. intros [Hx Hl]%NoDup_cons.
  destruct (P x); [|by apply IH]. rewrite fmap_cons. apply NoDup_cons. split; [|by apply IH].
  intros (y & E & Hy)%list_elem_of_fmap. apply Hx. rewrite E. apply list_elem_of_fmap. exists y.
  split; [done|]. apply list_elem_of_In, List.filter_In in Hy as [Hy _]. by apply list_elem_of_In.
Qed.

Lemma without_good ids db : good db → good (without_tasks ids db).
Proof.
  intros Hg. split; [by apply filter_NoDup, Hg| |].
  - intros id s. rewrite without_get. destruct (str_mem id ids); [done|apply Hg].
  - intros id Hid. rewrite without_get. destruct (str_mem id ids); [done|by apply Hg].
Qed.

Lemma retire_moves ids db : good db → moves (LRetire ids) db (retire ids db).
Proof.
  intros Hg. assert (Hget : ∀ id, get id (retire ids db) = get id (without_tasks ids db)) by done.
  assert (Htomb : ∀ id, id ∈ db_tombstones (retire ids db) ↔ id ∈ db_tombstones db ∨ id ∈ ids).
  { intros id. simpl. rewrite elem_of_app, (list_elem_of_In (List.filter _ _)), List.filter_In, <- list_elem_of_In,
      negb_true_iff, <- not_true_iff_false, str_mem_iff. destruct (decide (id ∈ db_tombstones db)); tauto. }
  split; [split|..].
  - by apply filter_NoDup, Hg.
  - intros id s. rewrite Hget. by apply without_good.
  - intros id. rewrite Htomb, Hget, without_get. intros [Hid|Hid%str_mem_iff]; [|by rewrite Hid].
    destruct (str_mem id ids); [done|by apply Hg].
  - intros id Hid. apply Htomb. by left.
  - done.
  - intros id s Hs _. rewrite Hget, without_get. destruct (str_mem id ids) eqn:Em; [right|left; by exists s].
    apply str_mem_iff in Em. exists ids. split_and!; [done|done|apply Htomb; by right].
Qed.

Lemma forget_moves keep db :
  good db → moves LForget db (Store (db_snapshots db) (List.filter keep (db_events db)) (db_tombstones db)).
Proof.
  intros Hg. split; [split; [by apply filter_NoDup, Hg|apply Hg..]|done|done|].
  intros id s Hs _. left. by exists s.
Qed.

Lemma drop_moves ids db : good db → moves (LDrop ids) db (without_tasks ids db).
Proof.
  intros Hg. split; [by apply without_good|done|done|].
  intros id s Hs Hid. simpl in Hid. left. exists s. split; [|done]. rewrite without_get.
  destruct (str_mem id ids) eqn:Em; [by apply str_mem_iff in Em|done].
Qed.

Section interleaving.
Context (event_datetime : string → option Z) (re_sub : web_re → string → string → string).

Record world := World { w_db : store; w_plans : list plan }.

(** Everything that writes the tables of the tasks: clients read and plan at any
    time, and record their plans later, in any order; a plan that lost its race is
    dropped by [record]. *)
Inductive step : world → label → world → Prop :=
  | step_persist fresh now envelope p accepts w :
      persist_begin re_sub fresh now envelope (w_db w) = Some (p, accepts) →
      step w LQuiet (World (w_db w) (p :: w_plans w))
  | step_external fresh now id ty payload source eid time p w :
      external_begin re_sub fresh now id ty payload source eid time (w_db w) = Some (Ok p) →
      step w LQuiet (World (w_db w) (p :: w_plans w))
  | step_recover now id s w :
      get id (w_db w) = Some s →
      step w LQuiet (World (w_db w) (recovery_plan now s :: w_plans w))
  | step_irreversible now completed all_failed result id s p w :
      get id (w_db w) = Some s → irreversible_plan now completed all_failed result s = Some p →
      step w LQuiet (World (w_db w) (p :: w_plans w))
  | step_import import_id now payload s w :
      terminal (sn_status s) = true →
      step w LQuiet (World (w_db w) (import_plan import_id now payload s (w_db w) :: w_plans w))
  | step_commit p l1 l2 w :
      w_plans w = l1 ++ p :: l2 →
      step w (commit_label p) (World (plan_commit event_datetime p (w_db w)).1 (l1 ++ l2))
  | step_create fresh snapshot w :
      step w LQuiet (World (create_external_commit event_datetime fresh snapshot (w_db w)).1 (w_plans w))
  | step_launch snapshot w :
      step w (LLaunch (sn_task_id snapshot)) (World (save_prepared snapshot (w_db w)).1 (w_plans w))
  | step_refused fresh now message snapshot w :
      step w LQuiet (World (record_prepare_failure event_datetime fresh now message snapshot (w_db w)) (w_plans w))
  | step_metadata fresh now ty payload snapshot w :
      step w (metadata_label snapshot (w_db w))
        (World (record_task_metadata event_datetime fresh now ty payload snapshot (w_db w)) (w_plans w))
  | step_delete ids w :
      step w (LRetire (deleted_ids ids (w_db w))) (World (delete_task_owned_rows ids (w_db w)) (w_plans w))
  | step_retention protected w :
      step w (LRetire (surplus_ids protected (w_db w)))
        (World (enforce_terminal_history_retention protected (w_db w)) (w_plans w))
  | step_expire ids protected mapped cutoff w :
      step w LForget
        (World (delete_task_events_for_retention event_datetime ids protected mapped cutoff (w_db w)) (w_plans w))
  | step_archive archived w :
      step w LForget (World (archive_events archived (w_db w)) (w_plans w))
  | step_session site requested mapped excluded w :
      step w (LDrop (session_ids site requested mapped excluded (w_db w)))
        (World (delete_session_records site requested mapped excluded (w_db w)) (w_plans w)).

Inductive run : world → list label → world → Prop :=
  | run_nil w : run w [] w
  | run_cons w1 l w2 ls w3 : step w1 l w2 → run w2 ls w3 → run w1 (l :: ls) w3.

Lemma persist_begin_ok fresh now envelope db p accepts :
  good db → persist_begin re_sub fresh now envelope db = Some (p, accepts) → plan_ok p.
Proof.
  intros Hg. unfold persist_begin. cbv zeta. destruct (String.eqb _ ""); [done|].
  destruct (to_dict_value _) as [payload|]; [|done].
  destruct (get _ db) as [s|] eqn:Es; [|done]. apply (good_rows _ Hg) in Es.
  set (payload' := if is_web_export_task _ then _ else payload).
  destruct (_ && contains_replacement_character (PDict payload')).
  - destruct (apply_event s "error" _ _) as [u|] eqn:E; [|done]. intros [= <- _].
    apply apply_event_status in E as (Hid & _ & [= E] & _). split; simpl; [congruence|].
    intros _. constructor; [|done]. rewrite <- E. apply forward_failed.
  - destruct (apply_event s _ payload' _) as [u|] eqn:E; [|done].
    destruct (allowed_from s _ payload') as [l|] eqn:El; [|done]. intros [= <- _].
    split; simpl; [apply apply_event_status in E as (Hid & _); congruence|].
    eapply allowed_plan; [exact E|exact El|]. intros Hin. symmetry. apply event_type_read.
    revert Hin. unfold artifact_types. intros Hin.
    repeat (apply elem_of_cons in Hin as [->|Hin]; [done|]). by apply not_elem_of_nil in Hin.
Qed.

Lemma external_begin_ok fresh now id ty payload source eid time db p :
  good db → external_begin re_sub fresh now id ty payload source eid time db = Some (Ok p) → plan_ok p.
Proof.
  intros Hg. unfold external_begin. intros (s & Hs & H)%bind_Some. injection H as H.
  apply (good_rows _ Hg) in Hs.
  apply res_bind_Ok in H as (l & Hl & (u & Hu & [= <-])%res_bind_Ok). split; simpl.
  - apply apply_event_status in Hu as (Hid & _). congruence.
  - by eapply allowed_plan.
Qed.

Lemma record_moves l snapshot event allowed db :
  good db → ev_task_id event = sn_task_id snapshot →
  (¬ touches (sn_task_id snapshot) l → ∀ row, get (sn_task_id snapshot) db = Some row →
   match allowed with None => True | Some al => sn_status row ∈ al end →
   forward (sn_status row) (sn_status snapshot)) →
  moves l db (record event_datetime snapshot event allowed db).1.
Proof.
  intros Hg Hid Hal. unfold record. destruct (existsb _ _) eqn:Ex; [by apply moves_refl|].
  destruct (str_mem _ _) eqn:Em; [by apply moves_refl|].
  destruct (sample_repeated_progress _ _ _); [by apply moves_refl|].
  destruct (upsert snapshot allowed db) as [db' [|]] eqn:Eu; [|by apply moves_refl]. simpl.
  destruct (upsert_moves l snapshot allowed db db' Hg) as [He Hev]; [|done|done|].
  - rewrite <- Hid, <- str_mem_iff. congruence.
  - apply moves_event; [done|done|]. intros (e & Hide & Hine)%list_elem_of_fmap.
    apply not_true_iff_false in Ex. apply Ex, existsb_exists. exists e.
    split; [by apply list_elem_of_In|]. by apply String.eqb_eq.
Qed.

Definition world_ok (w : world) : Prop := Forall plan_ok (w_plans w) ∧ good (w_db w).

Lemma guarded_moves l snapshot event allowed db :
  good db → ev_task_id event = sn_task_id snapshot →
  (¬ touches (sn_task_id snapshot) l → Forall (λ cur, forward cur (sn_status snapshot)) allowed) →
  moves l db (record event_datetime snapshot event (Some allowed) db).1.
Proof.
  intros Hg Hid Hal. apply record_moves; [done|done|]. intros Ht row _ Hin.
  by apply (proj1 (Forall_forall _ _) (Hal Ht)).
Qed.

Lemma metadata_moves fresh now ty payload snapshot db :
  good db →
  moves (metadata_label snapshot db) db (record_task_metadata event_datetime fresh now ty payload snapshot db).
Proof.
  intros Hg. apply record_moves; [done|done|]. intros Ht row Hrow _. unfold metadata_label in Ht.
  rewrite Hrow in Ht. case_bool_decide; [done|]. by destruct Ht.
Qed.

(** One step. *)
Lemma step_moves w l w' : step w l w' → world_ok w → world_ok w' ∧ moves l (w_db w) (w_db w').
Proof.
  intros Hs [Hp Hg].
  assert (Hplan : ∀ p, plan_ok p → world_ok (World (w_db w) (p :: w_plans w)) ∧ moves LQuiet (w_db w) (w_db w)).
  { intros p Hok. split; [split; [by constructor|done]|by apply moves_refl]. }
  assert (Hwrite : ∀ db', moves l (w_db w) db' → world_ok (World db' (w_plans w)) ∧ moves l (w_db w) db')
    by (intros db' He; split; [split; [done|apply He]|done]).
  destruct Hs; cbn [w_db w_plans] in *.
  - eapply Hplan, persist_begin_ok; done.
  - eapply Hplan, external_begin_ok; done.
  - apply Hplan, recovery_plan_ok.
  - eapply Hplan, irreversible_plan_ok; done.
  - by apply Hplan, import_plan_ok.
  - rewrite H in Hp. apply Forall_app in Hp as [Hp1 [[Ht Hf] Hp2]%Forall_cons].
    assert (moves (commit_label p) (w_db w) (plan_commit event_datetime p (w_db w)).1) as He.
    { apply guarded_moves; [done|done|]. unfold commit_label. intros Hn.
      destruct (str_mem _ _) eqn:Em; [|by apply Hf; rewrite <- str_mem_iff, Em].
      destruct (bool_decide (Forall _ _)) eqn:Eb; [by apply bool_decide_eq_true in Eb|]. by destruct Hn. }
    split; [split; [by apply Forall_app|apply He]|done].
  - apply Hwrite. unfold create_external_commit. cbv zeta.
    pose proof (guarded_moves LQuiet snapshot (TaskEvent fresh (sn_task_id snapshot) "state" (sn_created_time snapshot)
      "service" [("state", PStr (state_value PENDING)); ("task_type", PStr (sn_task_type snapshot))]) [] (w_db w) Hg eq_refl) as He.
    destruct (record _ _ _ _ _). apply He. by constructor.
  - apply Hwrite. by apply save_moves.
  - apply Hwrite. unfold record_prepare_failure. cbv zeta. apply guarded_moves; [done|done|].
    intros _. constructor; [apply forward_failed|done].
  - apply Hwrite. by apply metadata_moves.
  - apply Hwrite. by apply retire_moves.
  - apply Hwrite. by apply retire_moves.
  - apply Hwrite. by apply forget_moves.
  - apply Hwrite. by apply forget_moves.
  - apply Hwrite. by apply drop_moves.
Qed.

Lemma run_good w ls w' : run w ls w' → world_ok w → world_ok w'.
Proof. induction 1 as [|w1 l w2 ls w3 Hs _ IH]; [done|]. intros Hok. apply IH. by eapply step_moves. Qed.

Lemma run_tombstones w ls w' id :
  run w ls w' → world_ok w → id ∈ db_tombstones (w_db w) → id ∈ db_tombstones (w_db w').
Proof.
  induction 1 as [|w1 l w2 ls w3 Hs _ IH]; [done|]. intros Hok Hid.
  apply step_moves in Hs as [Hok2 He]; [|done]. apply IH; [done|]. by apply (ev_tombs _ _ _ He).
Qed.

End interleaving.

(** ** Concrete runs *)
Definition demo_snapshot (status : TaskState) : TaskSnapshot :=
  Snapshot "j1" "demo" status "t0" "t0" "" "" 0 "" 0 0 "" "local" "" "" [] "local" "s" "ok" "" "" 2
    "local_worker" "1" "c" [].
Definition demo_store (status : TaskState) : store := Store [("j1", demo_snapshot status)] [] [].

Definition demo_clock (t : string) : option Z := None.
Definition demo_redact (r : web_re) (a b : string) : string := b.

Definition envelope (id type : string) (payload : dict) : dict :=
  normalize id "t1" (("type", PStr type) :: ("job_id", PStr "j1") :: payload) "service".

(** Two clients read a running task; one completes it, and the plan of the
    other, which would have stopped it, is dropped. *)
Definition demo_finish : dict := envelope "e1" "finished" [("result", PDict [("path", PStr "/r")])].
Definition demo_stop : dict := envelope "e2" "state" [("state", PStr "STOPPING")].

Definition plan_of (e : dict) (db : store) : plan :=
  match persist_begin demo_redact "f" "t1" e db with
  | Some (p, _) => p
  | None => Plan (demo_snapshot PENDING) (TaskEvent "" "" "" "" "" []) []
  end.

Definition demo_final : store :=
  (plan_commit demo_clock (plan_of demo_stop (demo_store RUNNING))
     (plan_commit demo_clock (plan_of demo_finish (demo_store RUNNING)) (demo_store RUNNING)).1).1.

Example demo_final_status : sn_status <$> get "j1" demo_final = Some COMPLETED.
Proof. vm_compute. reflexivity. Qed.

Lemma demo_good status : good (demo_store status).
Proof.
  split; [constructor| |by intros id ?%not_elem_of_nil]. intros id s. unfold get. simpl.
  destruct (decide _) as [->|]; [by intros [= <-]|done].
Qed.

(** The two clients, then the task is retired; its identifier is refused. *)
Definition demo_labels : list label := [LQuiet; LQuiet; LQuiet; LQuiet; LRetire ["j1"]; LLaunch "j2"; LQuiet].
Definition demo_retired : store := delete_task_owned_rows [" j1 "] demo_final.
Definition demo_other : TaskSnapshot :=
  Snapshot "j2" "demo" PENDING "t3" "t3" "" "" 0 "" 0 0 "" "local" "" "" [] "local" "s" "ok" "" "" 2
    "local_worker" "1" "c" ["ac:1"].
Definition demo_end : store :=
  (create_external_commit demo_clock "e9" (demo_snapshot PENDING) (save_prepared demo_other demo_retired).1).1.

Lemma demo_run : run demo_clock demo_redact (World (demo_store RUNNING) []) demo_labels (World demo_end []).
Proof.
  eapply run_cons.
  { apply (step_persist _ _ "f" "t1" demo_finish (plan_of demo_finish (demo_store RUNNING)) true).
    vm_compute. reflexivity. }
  cbn [w_db w_plans app]. eapply run_cons.
  { apply (step_persist _ _ "f" "t1" demo_stop (plan_of demo_stop (demo_store RUNNING)) true).
    vm_compute. reflexivity. }
  eapply run_cons.
  { apply (step_commit _ _ (plan_of demo_finish (demo_store RUNNING)) [plan_of demo_stop (demo_store RUNNING)] []).
    reflexivity. }
  eapply run_cons; [apply (step_commit _ _ (plan_of demo_stop (demo_store RUNNING)) [] []); reflexivity|].
  cbn [w_db w_plans app]. eapply run_cons; [apply (step_delete _ _ [" j1 "])|].
  eapply run_cons; [apply (step_launch _ _ demo_other)|].
  eapply run_cons; [apply (step_create _ _ "e9" (demo_snapshot PENDING))|].
  unfold demo_end, demo_retired, demo_final. cbn [w_db w_plans app]. apply run_nil.
Qed.


(** Why the exceptions: [reject_artifact_result] decides on the state to request from one read and
    records it after a second one: when the task completes in between, the
    completed task is running again. *)
Example reject_artifact_reopens :
  let payload := reject_payload "bad" (demo_snapshot RUNNING) in
  let db := (plan_commit demo_clock (plan_of demo_finish (demo_store RUNNING)) (demo_store RUNNING)).1 in
  match external_begin demo_redact "f2" "t2" "j1" "artifact_rejected" payload "artifact_store" "" "" db with
  | Some (Ok p) => sn_status <$> get "j1" (plan_commit demo_clock p db).1 = Some RUNNING
  | _ => False
  end.
Proof. vm_compute. reflexivity. Qed.

(** And the file management: the task completes between its reading and its
    recording of a task that waits, and is stored as running again. *)
Example metadata_reverts :
  let db := (plan_commit demo_clock (plan_of demo_finish (demo_store RUNNING)) (demo_store RUNNING)).1 in
  sn_status <$> get "j1" db = Some COMPLETED ∧
  sn_status <$> get "j1" (record_task_metadata demo_clock "f3" "t3" "file_management_waiting"
    [("waiting", PBool false)] (demo_snapshot RUNNING) db) = Some RUNNING.
Proof. vm_compute. done. Qed.
