(* ===== verification/ServiceStore.v ===== *)
(** * The task service over its store

    How the application service (services/job_center/task_application_service.py)
    joins the task runtime with the stored tasks: [prepare] saves a snapshot,
    under the resource guard when the job names resources, before the runtime
    launches; everything the runtime publishes goes through [_normalize] of the
    event hub into [_persist_event].  A call of the service is one step here: the
    runtime's method, then its publications in order, and the calls follow one
    another.  The worker host makes them so: it holds its [_service_lock] around each
  of its calls (local_process_adapter.py).  The runtime does not: its own lock covers
  only the sections of [prepare], the snapshot of the active tasks and the start of
  the shutdown.  Calls that overlap all the same - a shutdown during a call, two hosts
  that share the service - are not modelled here; the races between the halves of a
  recorded event are those of TaskStore.  The databases of the sites are one store
  here, since identifiers are not reused between sites. *)

From S2P Require Import Prelude PyVal PyText WorkerProtocol JobEvents TaskHub TaskRuntime TaskStore.

Section service.
Context (J : string → option pyval) (re_sub : web_re → string → string → string).
Context (event_datetime : string → option Z).
(** New identifiers and the clock, numbered by their use; the site of the
    service and the version of the program. *)
Context (uuid now : nat → string) (site version commit : string).

(** [_resource_keys]. *)
Definition resource_keys (params : dict) : list string :=
  let values := dget "resource_keys" params in
  let values := if bool_decide (values = PNone) then dget "resource_key" params else values in
  match values with
  | PNone => []
  | PStr s =>
      let text := strip s in
      if String.eqb text "" then []
      else if starts_with "[" text then
        match J text with
        | None => [text]
        | Some (PList l) => key_texts l
        | Some (PStr s') => if str_nonempty (strip s') then [strip s'] else []
        | Some _ => []
        end
      else [text]
  | PList l => key_texts l
  | v => if str_nonempty (strip (py_str v)) then [strip (py_str v)] else []
  end.

(** ** The service *)
Record service := Service {
  sv_runtime : runtime;
  sv_store : store;
  sv_count : nat;
}.

(** [_task_source]. *)
Definition task_source (value : pyval) (default : string) : res string :=
  let source := casefold (strip (py_str (por value (PStr default)))) in
  if str_mem source ["local"; "agent"; "external"; "fake"] then Ok source else Err ValueError.

(** The snapshot [prepare] saves. *)
Definition prepare_snapshot (time : string) (job : JobSpec) : res TaskSnapshot :=
  let p := params job in
  source ← task_source (dget "task_source" p) "local";
  let plan_id := strip (text_or_empty (dget "plan_id" p)) in
  let initial_result :=
    if String.eqb (task_type job) AC_WEB_ACTION_TASK_TYPE
       && String.eqb (text_or_empty (dget "owner" p)) "web_ac" && String.eqb source "local"
       && str_nonempty plan_id
    then [("plan_id", PStr plan_id)] else [] in
  Ok (Snapshot (job_id job) (task_type job) PENDING time time "" "" 0 "" 0 0 ""
        (py_str (por (dget "owner" p) (PStr "local"))) (text_or_empty (dget "result_path" p)) ""
        initial_result source
        (py_str (por (dget "site_name" p) (por (PStr site) (PStr "demo"))))
        "ok" "" "" 2 "local_worker" version commit (resource_keys p)).

(** One publication of the runtime: the hub's envelope, then the guard. *)
Definition published_event (p : pub) : dict * string :=
  match p with PubState _ _ e => (e, "service") | PubEvent e source => (e, source) end.

Definition persist_pub (db_n : store * nat) (p : pub) : store * nat :=
  let '(db, n) := db_n in
  let '(event, source) := published_event p in
  ((persist_event event_datetime re_sub (uuid (S n)) (now (S n))
      (normalize (uuid n) (now n) event source) db).1, S (S n)).

(** A runtime method, with the publications it made. *)
Definition settle_runtime (rt' : runtime) (sv : service) : service :=
  let new := drop (length (r_published (sv_runtime sv))) (r_published rt') in
  let '(db, n) := foldl persist_pub (sv_store sv, sv_count sv) new in
  Service rt' db n.

(** [str(exc)] of what the launch raises: its own errors, and the missing task
    type of [validate]. *)
Definition err_text (e : pyerr) : string :=
  match e with RuntimeError message => message | _ => "后台任务缺少 task_type" end.

(** [prepare]: the job is saved as a PENDING task, then launched; when the launch
    is refused the failure is recorded. *)
Definition service_prepare (job : JobSpec) (sv : service) : service * res launch :=
  if r_closing (sv_runtime sv)
  then (sv, Err (RuntimeError "backend is shutting down; new tasks are rejected"))
  else
    let n := sv_count sv in
    let jid := str_or (job_id job) (uuid n) in
    let sv := Service (sv_runtime sv) (sv_store sv) (S n) in
    match job_from_dict (dset "job_id" (PStr jid) (job_to_dict job)) with
    | Err e => (sv, Err e)
    | Ok runtime_job =>
        match prepare_snapshot (now n) runtime_job with
        | Err e => (sv, Err e)
        | Ok snapshot =>
            match save_prepared snapshot (sv_store sv) with
            | (db, Err e) => (Service (sv_runtime sv) db (sv_count sv), Err e)
            | (db, Ok (Some conflict)) =>
                (Service (sv_runtime sv) db (sv_count sv),
                 Err (RuntimeError "TaskResourceConflictError"))
            | (db, Ok None) =>
                let sv := Service (sv_runtime sv) db (sv_count sv) in
                let '(rt', r) := prepare (uuid (sv_count sv)) runtime_job (sv_runtime sv) in
                let sv' := settle_runtime rt' sv in
                match r with
                | Ok l => (sv', Ok l)
                | Err e =>
                    let k := sv_count sv' in
                    (Service rt' (record_prepare_failure event_datetime (uuid k) (now k) (err_text e)
                                    snapshot (sv_store sv')) (S k), Err e)
                end
            end
        end
    end.

Definition run_op (o : op) (sv : service) : service := settle_runtime (exec J re_sub o (sv_runtime sv)) sv.
End service.

(** ** The log of the runtime

    [cur] is the state last published for a job; [legal_from saved l] are the ways a
    log [l] may go on: output of a worker, a state of the life cycle, or the
    final event of a job together with the terminal state it names; only a job of
    [saved] may begin. *)
Definition cur (jid : string) (l : list pub) : option TaskState := last (omap (pub_state jid) l).

Definition plain (jid : string) (e : dict) : Prop := text_or_empty (dget "job_id" e) = jid ∧ jid ≠ "".

(** A publication that the hub does not take for a finished envelope. *)
Definition unforged (p : pub) : Prop := is_envelope (published_event p).1 = false.

Definition event_kind (e : dict) : string := text_or_empty (dget "type" e).

Definition output_ok (jid : string) (e : dict) : Prop :=
  plain jid e ∧ event_kind e ∈ ["progress"; "log"] ∧ contains_replacement_character (PDict e) = false.

Definition final_kinds : list string := ["finished"; "error"; "cancelled"].
Definition final_state (e : dict) : TaskState :=
  if String.eqb (event_kind e) "finished" then finished_event_state e
  else if String.eqb (event_kind e) "error" then FAILED else CANCELLED.

Definition final_ok (jid : string) (e : dict) : Prop := plain jid e ∧ event_kind e ∈ final_kinds.

Definition active_in (jid : string) (l : list pub) : Prop :=
  ∃ s, cur jid l = Some s ∧ terminal s = false.

(** A job that is not active. *)
Definition idle (jid : string) (l : list pub) : Prop :=
  match cur jid l with Some c => terminal c = true | None => True end.

(** The next state of an active job; the jobs of [saved] are launched. *)
Definition step_ok (saved : list string) (jid : string) (l : list pub) (s : TaskState) : Prop :=
  (∃ c, cur jid l = Some c ∧ terminal c = false ∧ is_Some (lstep (Some c) s) ∧ (jid ∈ saved → terminal s = false)) ∨
  (idle jid l ∧ s = PENDING ∧ jid ∈ saved).

Inductive legal_from (saved : list string) (l0 : list pub) : list pub → Prop :=
  | legal_nil : legal_from saved l0 l0
  | legal_output l jid e :
      legal_from saved l0 l → active_in jid l → output_ok jid e → legal_from saved l0 (l ++ [PubEvent e "worker"])
  | legal_state l jid s t :
      legal_from saved l0 l → jid ≠ "" → step_ok saved jid l s →
      legal_from saved l0 (l ++ [PubState jid s (state_event jid t s)])
  | legal_final l jid e t :
      legal_from saved l0 l → active_in jid l → final_ok jid e → jid ∉ saved →
      legal_from saved l0 (l ++ [PubEvent e "service"; PubState jid (final_state e) (state_event jid t (final_state e))]).

Lemma cur_app jid l ps :
  cur jid (l ++ ps) = match last (omap (pub_state jid) ps) with Some s => Some s | None => cur jid l end.
Proof. unfold cur. rewrite omap_app, last_app. done. Qed.

Lemma legal_trans saved l0 l1 l2 : legal_from saved l0 l1 → legal_from saved l1 l2 → legal_from saved l0 l2.
Proof. intros H. induction 1; eauto using legal_from. Qed.

Lemma text_truthy v : text_or_empty v ≠ "" → truthy v = true ∧ text_or_empty v = py_str v.
Proof. unfold text_or_empty, por. destruct (truthy v); [done|]. by intros []. Qed.

(** The envelope of such an event. *)
Lemma normalize_plain jid e fresh now source :
  is_envelope e = false → plain jid e → event_kind e ≠ "" →
  normalize fresh now e source = task_event_to_dict fresh jid (event_kind e) now source e.
Proof.
  intros He (Hj & Hne) Hk. unfold normalize.
  rewrite He. rewrite <- Hj in Hne. destruct (text_truthy _ Hne) as [Ht Hp].
  destruct (text_truthy _ Hk) as [Ht' Hp']. unfold por. rewrite Ht, Ht'.
  by rewrite <- Hp', Hj.
Qed.

(** ** Recording one of these events *)
Section persist.
Context (event_datetime : string → option Z) (re_sub : web_re → string → string → string).

(** The store after the row of [jid] became [row]. *)
Definition row_set (jid : string) (row : TaskSnapshot) (db db' : store) : Prop :=
  get jid db' = Some row ∧ (∀ k, k ≠ jid → get k db' = get k db) ∧
  db_tombstones db' = db_tombstones db.

Definition logged (event : task_event) (db db' : store) : Prop :=
  db_events db' = db_events db ++ [event].

Lemma record_effect snapshot event l db row :
  get (sn_task_id snapshot) db = Some row →
  (record event_datetime snapshot event (Some l) db).1 = db ∨
  (sn_status row ∈ l ∧
   row_set (sn_task_id snapshot) (stored_row (sn_created_time row) snapshot) db
     (record event_datetime snapshot event (Some l) db).1 ∧
   logged event db (record event_datetime snapshot event (Some l) db).1).
Proof.
  intros Hrow. unfold record. destruct (existsb _ _); [by left|]. destruct (str_mem _ _); [by left|].
  destruct (sample_repeated_progress _ _ _); [by left|]. unfold upsert. rewrite Hrow.
  case_bool_decide as Hl; [|by left]. right. split; [done|]. unfold row_set, get, logged. simpl.
  split_and!; [by rewrite alookup_ainsert_eq| |done|done].
  intros k Hk. by rewrite alookup_ainsert_ne.
Qed.

Lemma record_success snapshot event l db row :
  get (sn_task_id snapshot) db = Some row → sn_status row ∈ l → ev_type event ≠ "progress" →
  Forall (λ e, ev_id e ≠ ev_id event) (db_events db) → ev_task_id event ∉ db_tombstones db →
  row_set (sn_task_id snapshot) (stored_row (sn_created_time row) snapshot) db
    (record event_datetime snapshot event (Some l) db).1.
Proof.
  intros Hrow Hl Hty Hid Htomb. unfold record.
  assert (existsb (λ e, String.eqb (ev_id e) (ev_id event)) (db_events db) = false) as ->.
  { apply not_true_iff_false. intros (e & He & Heq)%existsb_exists.
    rewrite Forall_forall in Hid. apply (Hid e); [by apply list_elem_of_In|by apply String.eqb_eq]. }
  assert (str_mem (ev_task_id event) (db_tombstones db) = false) as ->.
  { apply not_true_iff_false. by rewrite str_mem_iff. }
  assert (sample_repeated_progress event_datetime db event = false) as ->.
  { unfold sample_repeated_progress. by rewrite (proj2 (String.eqb_neq _ _) Hty). }
  unfold upsert. rewrite Hrow, bool_decide_true by done. unfold row_set, get. simpl.
  split_and!; [by rewrite alookup_ainsert_eq| |done]. intros k Hk. by rewrite alookup_ainsert_ne.
Qed.

(** [_persist_event] on the envelope of a plain event of a stored task. *)
Lemma persist_plain f n fresh now jid e source db row :
  is_envelope e = false → plain jid e → event_kind e ≠ "" → get jid db = Some row →
  is_web_export_task (sn_task_type row) = false → fresh ≠ "" → source ≠ "" →
  (source = "worker" → contains_replacement_character (PDict e) = false) →
  ∃ time, (persist_event event_datetime re_sub f n (normalize fresh now e source) db).1 =
    match apply_event row (event_kind e) e time, allowed_from row (event_kind e) e with
    | Ok u, Ok l => (record event_datetime u (TaskEvent fresh jid (event_kind e) time source e) (Some l) db).1
    | _, _ => db
    end.
Proof.
  intros Hun Hp Hk Hrow Hexp Hf Hsrc Hrep. rewrite (normalize_plain jid) by done.
  destruct Hp as (_ & Hj). exists (py_str (por (PStr now) (PStr n))).
  unfold persist_event, persist_begin. cbv zeta.
  change (dget "task_id" (task_event_to_dict _ _ _ _ _ _)) with (PStr jid).
  change (dget "payload" (task_event_to_dict _ _ _ _ _ _)) with (PDict e).
  change (dget "type" (task_event_to_dict _ _ _ _ _ _)) with (PStr (event_kind e)).
  change (dget "source" (task_event_to_dict _ _ _ _ _ _)) with (PStr source).
  change (dget "time" (task_event_to_dict _ _ _ _ _ _)) with (PStr now).
  change (dget "id" (task_event_to_dict _ _ _ _ _ _)) with (PStr fresh).
  assert (Hs : ∀ s d, s ≠ "" → py_str (por (PStr s) (PStr d)) = s) by by intros [].
  assert (Hd : to_dict_value (por (PDict e) (PDict [])) = Ok e) by by destruct e.
  rewrite !text_or_empty_PStr, Hd, Hrow, Hexp, (Hs source), (Hs fresh), (Hs (event_kind e)) by done.
  rewrite (proj2 (String.eqb_neq _ _) Hj).
  assert (Hc : String.eqb source "worker" && contains_replacement_character (PDict e) = false).
  { destruct (String.eqb_spec source "worker") as [E|]; [by rewrite Hrep|done]. }
  rewrite Hc. destruct (apply_event row _ e _) as [u|]; [|done].
  destruct (allowed_from row _ e) as [l|]; [|done].
  unfold plan_commit. cbn [pl_snapshot pl_event pl_allowed]. by destruct (record _ _ _ _ _).
Qed.

(** What may change in a stored row while its job runs. *)
Definition evolves (row row' : TaskSnapshot) : Prop :=
  sn_task_id row' = sn_task_id row ∧ sn_task_type row' = sn_task_type row ∧
  sn_site_name row' = sn_site_name row ∧ sn_resource_keys row' = sn_resource_keys row ∧
  forward (sn_status row) (sn_status row').

#[global] Instance evolves_refl : Reflexive evolves.
Proof. intros row. by split_and!. Qed.
#[global] Instance evolves_trans : Transitive evolves.
Proof.
  intros a b c (? & ? & ? & ? & ?) (? & ? & ? & ? & ?). split_and!; try congruence. by etrans.
Qed.

(** The effect of one plain event: nothing, or its row evolves to the state the
    event names. *)
Definition event_effect (jid fresh : string) (e : dict) (row : TaskSnapshot) (db db' : store) : Prop :=
  db' = db ∨
  ∃ row' ev, event_status row (event_kind e) e = Ok (sn_status row') ∧ evolves row row' ∧
    row_set jid row' db db' ∧ logged ev db db' ∧ ev_id ev = fresh.

Lemma persist_effect f n fresh now jid e source db row :
  is_envelope e = false → plain jid e → event_kind e ≠ "" → event_kind e ∉ artifact_types → get jid db = Some row →
  sn_task_id row = jid → is_web_export_task (sn_task_type row) = false → fresh ≠ "" → source ≠ "" →
  (source = "worker" → contains_replacement_character (PDict e) = false) →
  event_effect jid fresh e row db
    (persist_event event_datetime re_sub f n (normalize fresh now e source) db).1.
Proof.
  intros Hun Hp Hk Hart Hrow Hid Hexp Hf Hsrc Hrep.
  destruct (persist_plain f n fresh now jid e source db row) as [time ->]; [done..|].
  destruct (apply_event row (event_kind e) e time) as [u|] eqn:Eu; [|by left].
  destruct (allowed_from row (event_kind e) e) as [l|] eqn:El; [|by left].
  destruct (apply_event_status _ _ _ _ _ Eu) as (Hid' & Hty & Hst & Hsite & Hkeys).
  set (ev := TaskEvent fresh jid (event_kind e) time source e).
  assert (Hrow' : get (sn_task_id u) db = Some row) by congruence.
  destruct (record_effect u ev l db row Hrow') as [-> |(Hin & Hset & Hlog)]; [by left|].
  right. exists (stored_row (sn_created_time row) u), ev.
  assert (Hfw : forward (sn_status row) (sn_status u)) by by eapply allowed_forward.
  rewrite Hid', Hid in Hset. split; [done|]. split; [done|]. by split.
Qed.
End persist.

(** A state event sets the state it names. *)
Definition may_become (c s : TaskState) : Prop :=
  if terminal c then s = c else c = PENDING ∧ s = PENDING ∨ is_Some (lstep (Some c) s).

Lemma state_event_status jid t s row : event_status row "state" (state_event jid t s) = Ok s.
Proof.
  unfold event_status, event_state. simpl.
  assert (dget "state" (state_event jid t s) = PStr (state_value s)) as ->; [|by destruct s].
  unfold state_event, attach_ac_web_plan_id. destruct t as [t|]; [|done].
  destruct (terminal s); [|done]. destruct (negb _); [done|]. cbv zeta. by destruct (_ && _).
Qed.

(** [state_event] up to its plan correlation. *)
Lemma state_event_get jid t s k :
  k ≠ "plan_id" →
  dget k (state_event jid t s) =
    dget k [("type", PStr "state"); ("job_id", PStr jid);
            ("task_type", PStr (from_option (λ t, task_type (l_job (t_launch t))) "" t));
            ("state", PStr (state_value s))] ∧
  dhas k (state_event jid t s) =
    dhas k [("type", PStr "state"); ("job_id", PStr jid);
            ("task_type", PStr (from_option (λ t, task_type (l_job (t_launch t))) "" t));
            ("state", PStr (state_value s))].
Proof.
  intros Hk. unfold state_event, attach_ac_web_plan_id. destruct t as [t|]; [|done].
  destruct (terminal s); [|done]. destruct (negb _); [done|]. cbv zeta.
  destruct (_ && _); [|done]. unfold dhas. by rewrite dget_dset_ne, alookup_dset_ne.
Qed.

Lemma state_event_plain jid t s :
  jid ≠ "" → plain jid (state_event jid t s) ∧ event_kind (state_event jid t s) = "state".
Proof.
  intros Hj. unfold plain, event_kind.
  rewrite (proj1 (state_event_get jid t s "job_id" ltac:(done))).
  rewrite (proj1 (state_event_get jid t s "type" ltac:(done))).
  split; [split; [apply text_or_empty_PStr|done]|done].
Qed.

Lemma state_event_unforged jid t s : is_envelope (state_event jid t s) = false.
Proof.
  unfold is_envelope. simpl. rewrite (proj2 (state_event_get jid t s "task_id" ltac:(done))).
  by destruct (dhas "id" _).
Qed.

Lemma apply_state_ok jid t s row time :
  ∃ u, apply_event row "state" (state_event jid t s) time = Ok u.
Proof.
  unfold apply_event.
  rewrite (proj1 (state_event_get jid t s "current" ltac:(done))).
  rewrite (proj1 (state_event_get jid t s "total" ltac:(done))).
  assert (H : ∀ z, to_int (por PNone (por (PInt z) (PInt 0))) = Ok z).
  { intros z. unfold por. simpl. by destruct (Z.eqb_spec z 0) as [->|]. }
  change (dget "current" [_; _; _; _]) with PNone. change (dget "total" [_; _; _; _]) with PNone.
  rewrite !H. simpl. unfold apply_state.
  match goal with |- context [event_state ?v _] =>
    assert (event_state v (state_event jid t s) = Ok s) as -> by apply (state_event_status jid t s row) end.
  simpl. by destruct (terminal s); eexists.
Qed.

Lemma allowed_state_ok jid t s row :
  may_become (sn_status row) s →
  ∃ l, allowed_from row "state" (state_event jid t s) = Ok l ∧ sn_status row ∈ l.
Proof.
  intros Hm. unfold allowed_from. simpl.
  assert (event_state row (state_event jid t s) = Ok s) as -> by apply (state_event_status jid t s row).
  simpl. unfold may_become in Hm. eexists. split; [done|].
  destruct (terminal (sn_status row)) eqn:Et.
  - rewrite bool_decide_true by done. set_solver.
  - unfold ACTIVE_TASK_STATES. destruct Hm as [[-> ->]|[x Hx]]; [set_solver|].
    destruct (sn_status row), s; simpl in Hx; try done; set_solver.
Qed.

Lemma persist_state event_datetime re_sub f n fresh now jid t s db row :
  jid ≠ "" → get jid db = Some row → sn_task_id row = jid →
  is_web_export_task (sn_task_type row) = false → fresh ≠ "" → may_become (sn_status row) s →
  Forall (λ e, ev_id e ≠ fresh) (db_events db) → jid ∉ db_tombstones db →
  ∃ row', sn_status row' = s ∧
    row_set jid row' db
      (persist_event event_datetime re_sub f n (normalize fresh now (state_event jid t s) "service") db).1.
Proof.
  intros Hj Hrow Hid Hexp Hf Hm Hfresh Htomb. destruct (state_event_plain jid t s Hj) as [Hp Hk].
  destruct (persist_plain event_datetime re_sub f n fresh now jid (state_event jid t s) "service" db row)
    as [time ->]; [apply state_event_unforged|done|by rewrite Hk|done..|]. rewrite Hk.
  destruct (apply_state_ok jid t s row time) as [u Hu].
  destruct (allowed_state_ok jid t s row Hm) as (l & Hl & Hin). rewrite Hu, Hl.
  destruct (apply_event_status _ _ _ _ _ Hu) as (Hid' & _ & Hst & _).
  rewrite state_event_status in Hst. injection Hst as Hst.
  exists (stored_row (sn_created_time row) u). split; [done|].
  rewrite <- Hid at 1. rewrite <- Hid'. apply record_success; congruence || done.
Qed.

(** The kinds of events that are published. *)
Definition kinds : list string := ["state"; "progress"; "log"; "finished"; "error"; "cancelled"].

Lemma kinds_plain k : k ∈ kinds → k ≠ "" ∧ k ∉ artifact_types.
Proof.
  unfold kinds, artifact_types. intros H. split; [set_solver|]. intros Ha.
  repeat (apply elem_of_cons in H as [->|H]; [set_solver|]). by apply not_elem_of_nil in H.
Qed.

(** ** The store follows the log *)
Section follow.
Context (event_datetime : string → option Z) (re_sub : web_re → string → string → string).
Context (uuid now : nat → string) (uuid_inj : Inj (=) (=) uuid) (uuid_nonempty : ∀ n, uuid n ≠ "").
Set Default Proof Using "Type*".

(** [D]: the jobs that nothing is said about. *)
Context (D : list string).

(** A launch is under way: the row is saved, nothing is published. *)
Definition awaits (saved : list string) (jid : string) (l : list pub) : Prop := jid ∈ saved ∧ idle jid l.

Record store_ok (saved : list string) (n : nat) (l : list pub) (db : store) : Prop := {
  so_status jid s :
    jid ∉ D → ¬ awaits saved jid l → cur jid l = Some s → ∃ row, get jid db = Some row ∧ sn_status row = s;
  so_saved jid :
    jid ∉ D → awaits saved jid l → ∃ row, get jid db = Some row ∧ sn_status row = PENDING;
  so_rows jid row :
    get jid db = Some row → sn_task_id row = jid ∧ is_web_export_task (sn_task_type row) = false;
  so_ids : Forall (λ e, ∃ k, (k < n)%nat ∧ ev_id e = uuid k) (db_events db);
  so_live jid : jid ∈ saved ∨ is_Some (cur jid l) → jid ∉ db_tombstones db;
  so_there jid : jid ∈ saved ∨ is_Some (cur jid l) → is_Some (get jid db);
}.

Definition db_evolves (db db' : store) : Prop :=
  db_tombstones db' = db_tombstones db ∧
  (∀ jid row, get jid db = Some row → ∃ row', get jid db' = Some row' ∧ evolves row row') ∧
  (∀ jid, get jid db = None → get jid db' = None).

Lemma db_evolves_refl db : db_evolves db db.
Proof. split_and!; [done| |done]. intros jid row ?. by exists row. Qed.

Lemma db_evolves_trans a b c : db_evolves a b → db_evolves b c → db_evolves a c.
Proof.
  intros (H1 & H2 & H3) (H4 & H5 & H6). split_and!; [congruence| |auto].
  intros jid row (row1 & Hr & He)%H2. destruct (H5 jid row1 Hr) as (row2 & Hr2 & He2).
  exists row2. split; [done|by etrans].
Qed.

Lemma row_set_evolves jid row row' db db' :
  get jid db = Some row → evolves row row' → row_set jid row' db db' → db_evolves db db'.
Proof.
  intros Hrow He (Hg & Ho & Ht). split_and!; [done| |].
  - intros k r Hk. destruct (decide (k = jid)) as [->|]; [|rewrite Ho by done; by exists r].
    exists row'. split; [done|congruence].
  - intros k Hk. rewrite Ho; [done|]. intros ->. congruence.
Qed.

(** The identifiers in use, one publication later. *)
Definition ids_below (n : nat) (db : store) : Prop :=
  Forall (λ e, ∃ k, (k < n)%nat ∧ ev_id e = uuid k) (db_events db).

Lemma ids_fresh n db : ids_below n db → Forall (λ e, ev_id e ≠ uuid n) (db_events db).
Proof.
  intros H. eapply Forall_impl; [exact H|]. simpl. intros e (k & Hk & ->) Heq%uuid_inj. lia.
Qed.

Lemma ids_more n n' db : ids_below n db → (n ≤ n')%nat → ids_below n' db.
Proof. intros H Hn. eapply Forall_impl; [exact H|]. simpl. intros e (k & ? & ?). exists k. split; [lia|done]. Qed.

Lemma event_effect_ids jid n e row db db' :
  event_effect jid (uuid n) e row db db' → ids_below n db → ids_below (S n) db'.
Proof.
  intros [-> |(row' & ev & _ & _ & _ & Hl & Hid)] H; [by eapply ids_more; [done|lia]|].
  unfold ids_below. rewrite Hl. apply Forall_app. split; [by eapply ids_more; [done|lia]|].
  constructor; [|constructor]. exists n. split; [lia|done].
Qed.

(** A state event: the row takes the state. *)
Lemma persist_state_effect n jid t s db row :
  jid ≠ "" → get jid db = Some row → sn_task_id row = jid →
  is_web_export_task (sn_task_type row) = false → may_become (sn_status row) s →
  ids_below n db → jid ∉ db_tombstones db →
  ∃ row', let db' := (persist_pub re_sub event_datetime uuid now (db, n) (PubState jid s (state_event jid t s))).1 in
    sn_status row' = s ∧ evolves row row' ∧ row_set jid row' db db' ∧ ids_below (S (S n)) db'.
Proof.
  intros Hj Hrow Hid Hexp Hm Hids Htomb. unfold persist_pub. simpl.
  destruct (persist_state event_datetime re_sub (uuid (S n)) (now (S n)) (uuid n) (now n) jid t s db row)
    as (row' & Hs & Hset); [done..|by apply ids_fresh|done|].
  destruct (state_event_plain jid t s Hj) as [Hp Hk].
  assert (He : event_effect jid (uuid n) (state_event jid t s) row db
    (persist_event event_datetime re_sub (uuid (S n)) (now (S n))
       (normalize (uuid n) (now n) (state_event jid t s) "service") db).1).
  { apply persist_effect; try done; rewrite ?Hk; [apply state_event_unforged|done|]. vm_compute. set_solver. }
  exists row'. split; [done|]. split; [|split; [done|]].
  - destruct He as [E|(row2 & ev & _ & Hev & [Hg _] & _)]; destruct Hset as [Hg' _].
    + rewrite E in Hg'. by simplify_eq.
    + by simplify_eq.
  - eapply ids_more; [by eapply event_effect_ids|lia].
Qed.

(** The row of one job changed, and what is published about it. *)
Lemma store_ok_update saved n n' l l' db db' jid row row' :
  store_ok saved n l db → get jid db = Some row → evolves row row' → row_set jid row' db db' → ids_below n' db' →
  (jid ∉ D → awaits saved jid l' → sn_status row' = PENDING) →
  (jid ∉ D → ¬ awaits saved jid l' → ∀ s, cur jid l' = Some s → sn_status row' = s) →
  (∀ k, k ≠ jid → cur k l' = cur k l) → jid ∈ saved ∨ is_Some (cur jid l) → store_ok saved n' l' db'.
Proof.
  intros [H1 H2 H3 H4 H5 H6] Hrow (Eid & Ety & _) (Hg & Ho & Ht) Hids Hp Hs Hk Hl.
  assert (Haw : ∀ k, k ≠ jid → awaits saved k l' ↔ awaits saved k l)
    by (intros k Hkj; unfold awaits, idle; by rewrite Hk).
  split.
  - intros k s HD. destruct (decide (k = jid)) as [->|Hkj].
    + intros Hna Hc. exists row'. split; [done|]. by apply Hs.
    + rewrite Haw, Hk, Ho by done. by apply H1.
  - intros k HD. destruct (decide (k = jid)) as [->|Hkj].
    + intros Ha. exists row'. split; [done|]. by apply Hp.
    + rewrite Haw, Ho by done. by apply H2.
  - intros k r. destruct (decide (k = jid)) as [->|]; [|rewrite Ho by done; apply H3].
    rewrite Hg. intros [= <-]. rewrite Eid, Ety. by apply H3.
  - done.
  - intros k. rewrite Ht. destruct (decide (k = jid)) as [->|]; [by intros _; apply H5|].
    rewrite Hk by done. apply H5.
  - intros k. destruct (decide (k = jid)) as [->|]; [by rewrite Hg|]. rewrite Hk, Ho by done. apply H6.
Qed.

(** A publication that changes neither the row nor the state of a job. *)
Lemma store_ok_log saved n n' l l' db :
  store_ok saved n l db → (n ≤ n')%nat → (∀ k, cur k l' = cur k l) → store_ok saved n' l' db.
Proof.
  intros [H1 H2 H3 H4 H5 H6] Hn Hc.
  assert (Haw : ∀ k, awaits saved k l' ↔ awaits saved k l) by (intros k; unfold awaits, idle; by rewrite Hc).
  split; [| |done|by eapply ids_more| |].
  - intros k s HD. rewrite Haw, Hc. by apply H1.
  - intros k HD. rewrite Haw. by apply H2.
  - intros k. rewrite Hc. apply H5.
  - intros k. rewrite Hc. apply H6.
Qed.

Lemma cur_state_other k jid s e l : k ≠ jid → cur k (l ++ [PubState jid s e]) = cur k l.
Proof. intros H. rewrite cur_app. simpl. by rewrite decide_False. Qed.

Lemma cur_state_same jid s e l : cur jid (l ++ [PubState jid s e]) = Some s.
Proof. rewrite cur_app. simpl. by rewrite decide_True. Qed.

Lemma cur_event k e src l : cur k (l ++ [PubEvent e src]) = cur k l.
Proof. by rewrite cur_app. Qed.

Lemma active_not_awaits saved jid l c : cur jid l = Some c → terminal c = false → ¬ awaits saved jid l.
Proof. intros Hc Ht [_ Hi]. unfold idle in Hi. rewrite Hc in Hi. congruence. Qed.

(** What recording an event of a known job does to its row. *)
Lemma persist_event_effect saved n l db jid e source :
  store_ok saved n l db → is_envelope e = false → plain jid e → event_kind e ∈ kinds → source ≠ "" →
  (source = "worker" → contains_replacement_character (PDict e) = false) →
  jid ∈ saved ∨ is_Some (cur jid l) →
  ∃ row, get jid db = Some row ∧
    let db' := (persist_event event_datetime re_sub (uuid (S n)) (now (S n))
                  (normalize (uuid n) (now n) e source) db).1 in
    event_effect jid (uuid n) e row db db' ∧ ids_below (S (S n)) db'.
Proof.
  intros Hok Hun Hp [Hk Hart]%kinds_plain Hsrc Hrep Hl. destruct (so_there _ _ _ _ Hok jid Hl) as [row Hrow].
  destruct (so_rows _ _ _ _ Hok jid row Hrow) as [Hid Hexp]. exists row. split; [done|]. cbv zeta.
  assert (event_effect jid (uuid n) e row db (persist_event event_datetime re_sub (uuid (S n)) (now (S n))
                  (normalize (uuid n) (now n) e source) db).1) as He by (by apply persist_effect).
  split; [done|]. eapply ids_more; [eapply event_effect_ids; [exact He|apply Hok]|lia].
Qed.

(** An event of a job that nothing is said about. *)
Lemma follow_other saved n l l' db jid e source :
  store_ok saved n l db → jid ∈ D → is_envelope e = false → plain jid e → event_kind e ∈ kinds → source ≠ "" →
  (source = "worker" → contains_replacement_character (PDict e) = false) →
  jid ∈ saved ∨ is_Some (cur jid l) → (∀ k, k ≠ jid → cur k l' = cur k l) →
  store_ok saved (S (S n)) l' (persist_event event_datetime re_sub (uuid (S n)) (now (S n))
    (normalize (uuid n) (now n) e source) db).1.
Proof.
  intros Hok HD Hun Hp Hk Hsrc Hrep Hl Hc.
  destruct (persist_event_effect saved n l db jid e source Hok Hun Hp Hk Hsrc Hrep Hl) as (row & Hrow & He & Hids).
  set (db' := (persist_event _ _ _ _ _ _).1) in *.
  destruct He as [E|(row' & ev & Hs & Hev & Hset & _)].
  - eapply (store_ok_update _ n _ l _ db _ jid row row); try done. by rewrite E.
  - by eapply (store_ok_update _ n _ l _ db _ jid row row').
Qed.

Lemma follow_output saved n l db jid e :
  store_ok saved n l db → active_in jid l → output_ok jid e → is_envelope e = false →
  let '(db', n') := persist_pub re_sub event_datetime uuid now (db, n) (PubEvent e "worker") in
  store_ok saved n' (l ++ [PubEvent e "worker"]) db'.
Proof.
  intros Hok (c & Hc & Hnt) (Hp & Hk & Hr) Hun. simpl.
  assert (event_kind e ∈ kinds) as Hks by (unfold kinds; set_solver).
  assert (jid ∈ saved ∨ is_Some (cur jid l)) as Hl by (right; by eexists).
  destruct (decide (jid ∈ D)) as [HD|HD].
  { eapply follow_other; try done. intros k _. apply cur_event. }
  destruct (persist_event_effect saved n l db jid e "worker" Hok Hun Hp Hks) as (row & Hrow & He & Hids); [done..|].
  set (db' := (persist_event _ _ _ _ _ _).1) in *.
  destruct He as [E|(row' & ev & Hs & Hev & Hset & _)].
  { rewrite E. eapply store_ok_log; [exact Hok|lia|]. intros k. apply cur_event. }
  eapply (store_ok_update _ n _ l _ db _ jid row row'); try done.
  - intros _ Ha. exfalso. eapply active_not_awaits; [|exact Hnt|exact Ha]. by rewrite cur_event.
  - intros _ _ s. rewrite cur_event, Hc. intros [= <-].
    destruct (so_status _ _ _ _ Hok jid c HD (active_not_awaits _ _ _ _ Hc Hnt) Hc) as (row0 & Hrow0 & Hst).
    rewrite Hrow in Hrow0. injection Hrow0 as <-. unfold event_status in Hs.
    repeat (apply elem_of_cons in Hk as [Hk|Hk]; [rewrite Hk in Hs; injection Hs as Hs; congruence|]).
    by apply not_elem_of_nil in Hk.
  - intros k _. apply cur_event.
Qed.

Lemma follow_state saved n l db jid s t :
  store_ok saved n l db → jid ≠ "" → step_ok saved jid l s →
  let '(db', n') := persist_pub re_sub event_datetime uuid now (db, n) (PubState jid s (state_event jid t s)) in
  store_ok saved n' (l ++ [PubState jid s (state_event jid t s)]) db'.
Proof.
  intros Hok Hj Hstep. destruct (state_event_plain jid t s Hj) as [Hp Hk].
  assert (jid ∈ saved ∨ is_Some (cur jid l)) as Hl.
  { destruct Hstep as [(c & Hc & _)|(_ & _ & Hs)]; [right; by eexists|by left]. }
  destruct (decide (jid ∈ D)) as [HD|HD].
  { simpl. eapply follow_other; try done; [apply state_event_unforged|rewrite Hk; by left|].
    intros k Hkj. by apply cur_state_other. }
  assert (∃ row, get jid db = Some row ∧ may_become (sn_status row) s) as (row & Hrow & Hm).
  { destruct Hstep as [(c & Hc & Hnt & Hls & _)|(Hi & -> & Hs)].
    - destruct (so_status _ _ _ _ Hok jid c HD (active_not_awaits _ _ _ _ Hc Hnt) Hc) as (row & Hrow & <-).
      exists row. split; [done|]. unfold may_become. rewrite Hnt. by right.
    - destruct (so_saved _ _ _ _ Hok jid HD) as (row & Hrow & Hst); [done|].
      exists row. split; [done|]. rewrite Hst. by left. }
  destruct (so_rows _ _ _ _ Hok jid row Hrow) as [Hid Hexp].
  destruct (persist_state_effect n jid t s db row Hj Hrow Hid Hexp Hm (so_ids _ _ _ _ Hok)
    (so_live _ _ _ _ Hok jid Hl)) as (row' & Hs & Hev & Hset & Hids).
  unfold persist_pub in *. simpl in *.
  eapply (store_ok_update _ n _ l _ db _ jid row row'); try done.
  - intros _ [Hsv Hi]. exfalso. unfold idle in Hi. rewrite cur_state_same in Hi.
    destruct Hstep as [(c & _ & _ & _ & Hns)|(_ & -> & _)]; [rewrite Hns in Hi by done|]; done.
  - intros _ _ s'. rewrite cur_state_same. by intros [= <-].
  - intros k Hkj. by apply cur_state_other.
Qed.

Lemma final_event_status row e : event_kind e ∈ final_kinds → event_status row (event_kind e) e = Ok (final_state e).
Proof.
  intros Hk. unfold event_status, final_state, final_kinds in *.
  repeat (apply elem_of_cons in Hk as [Hk|Hk]; [by rewrite Hk|]). by apply not_elem_of_nil in Hk.
Qed.

Lemma final_state_terminal e : terminal (final_state e) = true.
Proof.
  unfold final_state. destruct (String.eqb _ _); [apply finished_state_terminal|]. by destruct (String.eqb _ _).
Qed.

(** The final event and its terminal state. *)
Lemma follow_final saved n l db jid e t :
  store_ok saved n l db → active_in jid l → final_ok jid e → jid ∉ saved → is_envelope e = false →
  let '(db', n') := foldl (persist_pub re_sub event_datetime uuid now) (db, n)
    [PubEvent e "service"; PubState jid (final_state e) (state_event jid t (final_state e))] in
  store_ok saved n' (l ++ [PubEvent e "service"; PubState jid (final_state e) (state_event jid t (final_state e))]) db'.
Proof.
  intros Hok (c & Hc & Hnt) (Hp & Hk) Hns Hun.
  assert (Hl : jid ∈ saved ∨ is_Some (cur jid l)) by (right; by eexists).
  assert (event_kind e ∈ kinds) as Hks by (unfold kinds, final_kinds in *; set_solver).
  destruct (state_event_plain jid t (final_state e) ltac:(apply Hp)) as [Hp2 Hk2].
  set (l' := l ++ _).
  assert (Hl' : ∀ k, k ≠ jid → cur k l' = cur k l).
  { intros k Hkj. unfold l'. rewrite cur_app. simpl. by rewrite decide_False. }
  assert (Hc' : cur jid l' = Some (final_state e)).
  { unfold l'. rewrite cur_app. simpl. by rewrite decide_True. }
  cbn [foldl]. unfold persist_pub. simpl.
  destruct (decide (jid ∈ D)) as [HD|HD].
  { eapply (follow_other _ _ l); try done; [|apply state_event_unforged|rewrite Hk2; by left].
    by eapply (follow_other _ _ l). }
  destruct (so_status _ _ _ _ Hok jid c HD (active_not_awaits _ _ _ _ Hc Hnt) Hc) as (row & Hrow & Hst).
  destruct (so_rows _ _ _ _ Hok jid row Hrow) as [Hid Hexp].
  destruct (persist_event_effect saved n l db jid e "service" Hok Hun Hp Hks) as (row0 & Hrow0 & He & Hids1); [done..|].
  rewrite Hrow in Hrow0. injection Hrow0 as <-.
  set (db1 := (persist_event event_datetime re_sub (uuid (S n)) (now (S n))
    (normalize (uuid n) (now n) e "service") db).1) in *.
  assert (∃ row1, get jid db1 = Some row1 ∧ evolves row row1 ∧ may_become (sn_status row1) (final_state e) ∧
    db_tombstones db1 = db_tombstones db ∧ ∀ k, k ≠ jid → get k db1 = get k db)
    as (row1 & Hrow1 & Hev1 & Hm & Ht1 & Ho1).
  { destruct He as [-> |(row1 & ev & Hs & Hev & (Hg & Ho & Ht) & _)].
    - exists row. split_and!; try done. unfold may_become. rewrite Hst, Hnt. right.
      pose proof (final_state_terminal e) as Hf. by destruct c, (final_state e).
    - exists row1. split_and!; try done. rewrite final_event_status in Hs by done. injection Hs as <-.
      unfold may_become. by rewrite final_state_terminal. }
  pose proof Hev1 as (Eid & Ety & _).
  destruct (persist_state_effect (S (S n)) jid t (final_state e) db1 row1) as (row2 & Hs2 & Hev2 & (Hg2 & Ho2 & Ht2) & Hids2);
    [by apply Hp|done|congruence|congruence|done|done|rewrite Ht1; by apply Hok|].
  unfold persist_pub in *. simpl in *.
  eapply (store_ok_update _ n _ l _ db _ jid row row2); try done; [by etrans| | |].
  - split_and!; [done| |congruence]. intros k Hkj. by rewrite Ho2, Ho1.
  - by intros _ [Hsv _].
  - intros _ _ s. rewrite Hc'. by intros [= <-].
Qed.

Lemma legal_prefix saved l0 l : legal_from saved l0 l → l0 `prefix_of` l.
Proof. induction 1; [done|by apply prefix_app_r..]. Qed.

(** Everything a method publishes, in order. *)
Lemma follow_log saved n l0 l db :
  legal_from saved l0 l → Forall unforged l → store_ok saved n l0 db →
  let '(db', n') := foldl (persist_pub re_sub event_datetime uuid now) (db, n) (drop (length l0) l) in
  store_ok saved n' l db'.
Proof.
  intros Hl Hun Hok.
  assert (Hd : ∀ l1 ps, legal_from saved l0 l1 → drop (length l0) (l1 ++ ps) = drop (length l0) l1 ++ ps).
  { intros l1 ps Hl1. apply drop_app_le. by apply prefix_length, (legal_prefix saved). }
  induction Hl as [|l jid e Hl IH Ha Ho|l jid s t Hl IH Hj Hs|l jid e t Hl IH Ha Hf Hns].
  - by rewrite drop_all.
  - apply Forall_app in Hun as [Hun [He _]%Forall_cons]. rewrite Hd, foldl_app by done. specialize (IH Hun).
    destruct (foldl _ _ (drop _ l)) as [db1 n1]. exact (follow_output _ _ _ _ jid e IH Ha Ho He).
  - apply Forall_app in Hun as [Hun _]. rewrite Hd, foldl_app by done. specialize (IH Hun).
    destruct (foldl _ _ (drop _ l)) as [db1 n1]. exact (follow_state _ _ _ _ jid s t IH Hj Hs).
  - apply Forall_app in Hun as [Hun [He _]%Forall_cons]. rewrite Hd, foldl_app by done. specialize (IH Hun).
    destruct (foldl _ _ (drop _ l)) as [db1 n1]. exact (follow_final _ _ _ _ jid e t IH Ha Hf Hns He).
Qed.
End follow.

(** ** What the runtime publishes *)

(** A property of the task and one of the publications, kept by everything the
    reader of the worker's output does. *)
Section output.
Context (J : string → option pyval) (re_sub : web_re → string → string → string).
Context (P : rtask → Prop) (Q : pub → Prop).
Context (P_stdout : ∀ b t, P t → P (with_stdout_buffer b t)).
Context (P_stderr : ∀ b t, P t → P (with_stderr_buffer b t)).
Context (P_pending : ∀ o e t, P t → P (with_pending o e t)).
Context (P_fail : ∀ t r st n, P t → P (fail_protocol t r st n)).
Context (P_accept : ∀ line reason t e, P t →
  parse_worker_event_line J line = Ok (Some e, reason) →
  P (accept_worker_event re_sub t e).1 ∧ Forall Q (accept_worker_event re_sub t e).2).
Set Default Proof Using "Type*".

Lemma feed_lines_keep lines t :
  P t → let '(t', ps, _) := feed_stdout_lines J re_sub t lines in P t' ∧ Forall Q ps.
Proof.
  revert t. induction lines as [|l lines IH]; intros t Ht; simpl; [by split|].
  destruct (String.eqb (strip l) ""); [by apply IH|].
  destruct (_ <? _); [split; [by apply P_fail|constructor]|].
  destruct (parse_worker_event_line J (strip l)) as [[[ev|] reason]|e] eqn:Ep; [| |by split].
  - destruct (P_accept _ _ t ev Ht Ep) as [H1 H2].
    destruct (accept_worker_event re_sub t ev) as [t1 ps1]. simpl in H1, H2.
    destruct (str_nonempty _); [by split|]. specialize (IH t1 H1).
    destruct (feed_stdout_lines J re_sub t1 lines) as [[t2 ps2] r2]. destruct IH.
    split; [done|by apply Forall_app].
  - destruct (String.eqb reason ""); [by split|]. split; [by apply P_fail|constructor].
Qed.

Lemma feed_text_keep t text :
  P t → let '(t', ps, _) := feed_stdout_text J re_sub t text in P t' ∧ Forall Q ps.
Proof.
  intros Ht. unfold feed_stdout_text. cbv zeta. destruct (_ <? _).
  - split; [|constructor]. by apply P_fail, P_stdout.
  - by apply feed_lines_keep, P_stdout.
Qed.

Lemma feed_task_keep t chunk :
  P t → let '(t', ps, _) := feed_stdout_task J re_sub t chunk in P t' ∧ Forall Q ps.
Proof.
  intros Ht. unfold feed_stdout_task. destruct (str_nonempty _); [by split|].
  destruct (utf8_decode _ _ _) as [[text p]|]; [by apply feed_text_keep, P_pending|].
  split; [by apply P_fail|constructor].
Qed.

Lemma flush_stderr_keep t : P t → P (flush_stderr t).
Proof.
  intros Ht. unfold flush_stderr. destruct (utf8_decode _ _ _) as [[text p]|]; [|by apply P_fail].
  cbv zeta. destruct (contains _ _); [by apply P_fail, P_pending|by apply P_stderr, P_pending].
Qed.

Lemma feed_stderr_keep t chunk : P t → P (feed_stderr_task t chunk).1.
Proof.
  intros Ht. unfold feed_stderr_task. destruct (str_nonempty _); [done|].
  destruct (utf8_decode _ _ _) as [[text p]|]; [|by apply P_fail]. cbv zeta.
  destruct (contains _ _); [by apply P_fail, P_pending|by apply P_stderr, P_pending].
Qed.

Lemma flush_keep t :
  P t → let '(t', ps, _) := flush_decoders J re_sub t in P t' ∧ Forall Q ps.
Proof.
  intros Ht. unfold flush_decoders. destruct (str_nonempty _); [by split|].
  destruct (utf8_decode _ _ _) as [[text p]|]; [|split; [by apply P_fail|constructor]].
  cbv zeta. destruct (str_nonempty text).
  - pose proof (feed_text_keep _ text (P_pending p (t_stderr_pending t) t Ht)) as H.
    destruct (feed_stdout_text J re_sub _ text) as [[t1 ps1] [[|]|e]]; destruct H; [by split| |by split].
    split; [by apply flush_stderr_keep|done].
  - split; [by apply flush_stderr_keep, P_pending|constructor].
Qed.

Lemma last_line_keep t :
  P t → let '(t', ps, _) := complete_last_line J re_sub t in P t' ∧ Forall Q ps.
Proof.
  intros Ht. unfold complete_last_line. destruct (_ || _); [by split|].
  destruct (_ <? _); [split; [by apply P_fail|constructor]|].
  destruct (parse_worker_event_line J _) as [[[ev|] reason]|e] eqn:Ep; [| |by split].
  - destruct (P_accept _ _ t ev Ht Ep). by destruct (accept_worker_event re_sub t ev).
  - split; [|constructor]. destruct (String.eqb reason ""); [done|by apply P_fail].
Qed.
End output.

(** What is kept of every registered task. *)
Record task_ok (jid : string) (t : rtask) : Prop := {
  tk_id : jid ≠ "" ∧ job_id (l_job (t_launch t)) = jid;
  tk_type : is_web_export_task (task_type (l_job (t_launch t))) = false;
  tk_terminal e : t_terminal_event t = Some e → final_ok jid e;
  tk_error p : t_protocol_error_payload t = Some p → ∃ r st n, p = protocol_error_event jid r st n;
}.

Definition output_pub (jid : string) (p : pub) : Prop :=
  match p with PubEvent e src => src = "worker" ∧ output_ok jid e | _ => False end.

(** The keys that decide how a job ended. *)
Definition final_keys : list string := ["job_id"; "type"; "terminal_state"].

Lemma final_keys_others k :
  k ∈ final_keys → k ≠ "result" ∧ k ≠ "worker_exit_code" ∧ k ≠ "plan_id".
Proof. intros Hk. split_and!; intros ->; vm_compute in Hk; set_solver. Qed.

Lemma final_other jid e e' :
  final_ok jid e →
  (∀ k, k ∈ final_keys → alookup k e' = alookup k e) →
  final_ok jid e' ∧ final_state e' = final_state e.
Proof.
  intros [(H1 & H2) H4] Hk.
  assert (Hg : ∀ k, k ∈ final_keys → dget k e' = dget k e)
    by (intros k Hin; change (default PNone (alookup k e') = default PNone (alookup k e)); by rewrite Hk).
  unfold final_ok, plain, final_state, finished_event_state, event_kind in *.
  rewrite !Hg by (vm_compute; set_solver). done.
Qed.

Section legal.
Context (J : string → option pyval) (re_sub : web_re → string → string → string).
Set Default Proof Using "Type*".

Lemma parsed_kind line e reason :
  parse_worker_event_line J line = Ok (Some e, reason) → event_kind e ∈ WORKER_EVENT_TYPES.
Proof.
  unfold parse_worker_event_line. cbv zeta. destruct (String.eqb _ ""); [done|].
  destruct (J (strip line)) as [[]|]; try done.
  destruct (parse_event_line J (strip line)) as [[event|]|[]]; try done.
  destruct (String.eqb (validate_event event) "") eqn:Ev; [|done]. intros [= <- _].
  apply String.eqb_eq in Ev. unfold validate_event in Ev.
  destruct (str_mem _ WORKER_EVENT_TYPES) eqn:Em; [|done]. by apply str_mem_iff in Em.
Qed.

Lemma fail_protocol_ok jid t r st n : task_ok jid t → task_ok jid (fail_protocol t r st n).
Proof.
  intros [[Hj Hid] H2 H3 H4]. unfold fail_protocol. destruct (str_nonempty _); [done|].
  split; try done. simpl. intros p [= <-]. rewrite Hid. by eexists _, _, _.
Qed.

Lemma accept_ok jid line reason t e :
  task_ok jid t → parse_worker_event_line J line = Ok (Some e, reason) →
  task_ok jid (accept_worker_event re_sub t e).1 ∧
  Forall (output_pub jid) (accept_worker_event re_sub t e).2.
Proof.
  intros Ht Hk%parsed_kind. destruct (tk_id _ _ Ht) as [Hj Hid].
  unfold accept_worker_event. rewrite Hid, (tk_type _ _ Ht).
  destruct (String.eqb_spec (text_or_empty (dget "job_id" e)) jid) as [Ej|]; cbn [negb];
    [|split; [by apply fail_protocol_ok|constructor]].
  destruct (contains_replacement_character (PDict e)) eqn:Er; cbv iota;
    [split; [by apply fail_protocol_ok|constructor]|]. cbv zeta iota.
  change (text_or_empty (dget "type" e)) with (event_kind e).
  destruct (str_mem (event_kind e) ["finished"; "error"; "cancelled"]) eqn:Em; cbv iota.
  - apply str_mem_iff in Em. split; [|constructor]. destruct Ht as [H1 H2 H3 H4].
    split; try done. cbn. intros e' [= <-]. by split.
  - destruct (str_nonempty (event_kind e)); cbv iota; [|by split]. split; [done|].
    constructor; [|constructor]. split; [done|]. split; [by split_and!|]. split; [|done].
    apply not_true_iff_false in Em. rewrite str_mem_iff in Em. unfold WORKER_EVENT_TYPES in Hk.
    apply elem_of_cons in Hk as [->|Hk]; [by left|].
    apply elem_of_cons in Hk as [->|Hk]; [by right; left|done].
Qed.

(** The payload that ends a job: its kind names the terminal state. *)
Definition ends_with (jid : string) (payload : dict) (s : TaskState) : Prop :=
  final_ok jid payload ∧ final_state payload = s.

Lemma exit_code_final jid e code :
  final_ok jid e → final_ok jid (attach_worker_exit_code e code) ∧
    final_state (attach_worker_exit_code e code) = final_state e.
Proof.
  intros H. apply final_other; [done|]. intros k Hk. unfold attach_worker_exit_code. cbv zeta.
  apply final_keys_others in Hk as (? & ? & ?). by rewrite !alookup_dset_ne.
Qed.

Lemma finish_payload_final jid t e :
  task_ok jid t → final_ok jid e →
  final_ok jid (finish_payload re_sub t e) ∧ final_state (finish_payload re_sub t e) = final_state e.
Proof.
  intros Ht H. unfold finish_payload. rewrite (tk_type _ _ Ht). cbv zeta iota.
  unfold attach_ac_web_plan_id. destruct (negb _); [done|]. cbv zeta. destruct (_ && _); [|done].
  apply final_other; [done|]. intros k Hk.
  apply final_keys_others in Hk as (? & ? & ?). by rewrite alookup_dset_ne.
Qed.

Lemma protocol_payload_final jid r st n :
  jid ≠ "" → ends_with jid (protocol_error_event jid r st n) FAILED.
Proof.
  intros Hj. split; [|reflexivity]. split; [|by right; left].
  split; [apply text_or_empty_PStr|done].
Qed.

Lemma made_payload_final jid (cancelled : bool) rest :
  jid ≠ "" →
  ends_with jid (("type", PStr (if cancelled then "cancelled" else "error")) :: ("job_id", PStr jid) :: rest)
    (if cancelled then CANCELLED else FAILED).
Proof.
  intros Hj. split; [|by destruct cancelled]. split; [|destruct cancelled; [by right; right; left|by right; left]].
  split; [apply text_or_empty_PStr|done].
Qed.

Lemma outcome_final jid t code :
  task_ok jid t → ends_with jid (complete_outcome jid t code).1 (complete_outcome jid t code).2.
Proof.
  intros Ht. destruct (tk_id _ _ Ht) as [Hj Hid]. unfold complete_outcome.
  destruct (t_protocol_error_payload t) as [p|] eqn:Ep.
  { destruct (tk_error _ _ Ht p Ep) as (r & st & n & ->).
    destruct (protocol_payload_final jid r st n Hj) as [H1 H2].
    destruct (exit_code_final jid _ code H1) as [H3 H4]. split; [exact H3|]. etrans; [exact H4|exact H2]. }
  cbv zeta. set (event := default [] (t_terminal_event t)).
  assert (Hev : event_kind event = "" ∨ final_ok jid event).
  { unfold event. destruct (t_terminal_event t) as [e|] eqn:Ee; [right|by left].
    by apply (tk_terminal _ _ Ht). }
  change (text_or_empty (dget "type" event)) with (event_kind event).
  destruct (String.eqb_spec (event_kind event) "cancelled") as [Ec|Hc].
  { destruct Hev as [E|Hf]; [by rewrite E in Ec|]. split; [exact Hf|].
    change (final_state event = CANCELLED). unfold final_state. by rewrite Ec. }
  destruct (String.eqb_spec (event_kind event) "error") as [Ee|He].
  { destruct Hev as [E|Hf]; [by rewrite E in Ee|]. destruct (exit_code_final jid _ code Hf) as [H3 H4].
    split; [exact H3|]. etrans; [exact H4|]. unfold final_state. by rewrite Ee. }
  destruct (_ && String.eqb (event_kind event) "finished") eqn:Ef.
  { apply andb_prop in Ef as [_ Ef%String.eqb_eq]. destruct Hev as [E|Hf]; [by rewrite E in Ef|].
    split; [exact Hf|]. change (final_state event = finished_terminal_state event).
    unfold final_state. by rewrite Ef. }
  set (c := truthy _ || _).
  match goal with |- context [attach_worker_exit_code ?p code] =>
    assert (Hm : ends_with jid p (if c then CANCELLED else FAILED)) end.
  { by apply made_payload_final. }
  destruct Hm as [H1 H2]. destruct (exit_code_final jid _ code H1) as [H3 H4].
  split; [exact H3|]. etrans; [exact H4|]. rewrite H2. by destruct c.
Qed.

(** ** Every method publishes a legal continuation of the log *)
Definition tasks_ok (rt : runtime) : Prop := ∀ jid t, find_task jid rt = Some t → task_ok jid t.

Lemma tasks_put jid t rt : tasks_ok rt → task_ok jid t → tasks_ok (put_task jid t rt).
Proof.
  intros H Ht k tk. destruct (decide (k = jid)) as [->|]; [rewrite find_put_eq; by intros [= <-]|].
  rewrite find_put_ne by done. apply H.
Qed.

Lemma task_ok_state jid s t : task_ok jid t → task_ok jid (with_state s t).
Proof. by intros []. Qed.

Lemma task_ok_cancel jid t : task_ok jid t → task_ok jid (with_cancel_requested t).
Proof. by intros []. Qed.

Lemma tasks_set_state jid s rt : tasks_ok rt → tasks_ok (set_state jid s rt).
Proof.
  intros H. unfold set_state. destruct (find_task jid rt) as [t|] eqn:E; [|exact H].
  apply (tasks_put jid); [done|]. by apply task_ok_state, H.
Qed.

Lemma tasks_finish jid rt : tasks_ok rt → tasks_ok (finish jid rt).
Proof.
  intros H k t Hk. apply H. revert Hk. unfold finish. destruct (find_task jid rt); [|done].
  unfold find_task. simpl. destruct (decide (k = jid)) as [->|]; [by rewrite alookup_adelete_eq|].
  by rewrite alookup_adelete_ne.
Qed.

Lemma life_last l c :
  life l = Some c →
  match c with
  | Some s => last l = Some s
  | None => last l = None ∨ ∃ s, last l = Some s ∧ terminal s = true
  end.
Proof.
  destruct l as [|s l _] using rev_ind; [intros [= <-]; by left|]. rewrite life_snoc, last_snoc.
  intros (c0 & _ & H)%bind_Some. destruct c0 as [[]|], s; simpl in H; simplify_eq; eauto.
Qed.

Lemma active_cur jid rt s :
  lifecycle_inv rt → state_of jid rt = Some s → cur jid (r_published rt) = Some s ∧ terminal s = false.
Proof.
  intros Hi Hs. destruct (Hi jid) as [Hl Hn]. rewrite Hs in Hl. split; [apply (life_last _ _ Hl)|by apply Hn].
Qed.

Lemma active_task jid rt t :
  lifecycle_inv rt → find_task jid rt = Some t → active_in jid (r_published rt).
Proof. intros Hi Hf%find_state. exists (t_state t). by apply active_cur. Qed.

(** Output of one worker. *)
Lemma legal_outputs saved l0 l jid ps :
  legal_from saved l0 l → active_in jid l → Forall (output_pub jid) ps →
  legal_from saved l0 (l ++ ps) ∧ active_in jid (l ++ ps) ∧ cur jid (l ++ ps) = cur jid l.
Proof.
  intros Hl Ha. induction ps as [|p ps IH] using rev_ind; intros Hf.
  { by rewrite app_nil_r. }
  apply Forall_app in Hf as [Hf [Hp _]%Forall_cons]. destruct (IH Hf) as (H1 & H2 & H3).
  destruct p as [|e src]; [done|]. destruct Hp as [-> Hp]. rewrite (assoc_L (++)).
  assert (Hc : cur jid ((l ++ ps) ++ [PubEvent e "worker"]) = cur jid (l ++ ps)) by by rewrite cur_app.
  split_and!; [by eapply legal_output| |congruence].
  destruct H2 as (c & Hc' & ?). exists c. split; [congruence|done].
Qed.

(** One state of an active job. *)
Lemma legal_set_state saved l0 jid s c t rt :
  legal_from saved l0 (r_published rt) → cur jid (r_published rt) = Some c → terminal c = false →
  is_Some (lstep (Some c) s) → (jid ∈ saved → terminal s = false) → find_task jid rt = Some t → jid ≠ "" →
  legal_from saved l0 (r_published (set_state jid s rt)).
Proof.
  intros Hl Hc Hn Hs Hns Hf Hj. unfold set_state. rewrite Hf.
  change (r_published (publish_all ?ps (put_task jid ?t' rt))) with (r_published rt ++ ps).
  eapply legal_state; [done|done|]. left. by exists c.
Qed.

Lemma legal_mark jid rt :
  lifecycle_inv rt → tasks_ok rt → legal_from [] (r_published rt) (r_published (mark_running jid rt)) ∧
  tasks_ok (mark_running jid rt).
Proof.
  intros Hi Ht. unfold mark_running.
  destruct (state_of jid rt) as [c|] eqn:Hs; [|by split; [constructor|]].
  destruct (active_cur jid rt c Hi Hs) as [Hc Hn]. apply state_of_find in Hs as (t & Hf & _).
  destruct (tk_id _ _ (Ht jid t Hf)) as [Hj _].
  assert (H : is_Some (lstep (Some c) RUNNING) →
    legal_from [] (r_published rt) (r_published (set_state jid RUNNING rt)) ∧ tasks_ok (set_state jid RUNNING rt)).
  { intros Hl. split; [|by apply tasks_set_state]. eapply legal_set_state; try done. constructor. }
  destruct c; try (by split; [constructor|]); by apply H; eexists.
Qed.

Lemma legal_cancel jid rt :
  lifecycle_inv rt → tasks_ok rt →
  legal_from [] (r_published rt) (r_published (request_cancel jid rt).1) ∧ tasks_ok (request_cancel jid rt).1.
Proof.
  intros Hi Ht. unfold request_cancel. destruct (find_task jid rt) as [t|] eqn:Hf; [|by split; [constructor|]].
  destruct (active_cur jid rt _ Hi (find_state _ _ _ Hf)) as [Hc Hn].
  pose proof (Ht jid t Hf) as Htk. destruct (tk_id _ _ Htk) as [Hj _]. simpl. split.
  - eapply (legal_set_state _ _ jid STOPPING (t_state t)); [constructor|done|done| |done|apply find_put_eq|done].
    rewrite lstep_stopping by done. by eexists.
  - apply (tasks_set_state jid STOPPING (put_task jid (with_cancel_requested t) rt)).
    apply tasks_put; [done|by apply task_ok_cancel].
Qed.

Lemma legal_cancel_each jids rt :
  lifecycle_inv rt → tasks_ok rt →
  legal_from [] (r_published rt) (r_published (cancel_each jids rt).1) ∧ tasks_ok (cancel_each jids rt).1.
Proof.
  revert rt. induction jids as [|jid jids IH]; intros rt Hi Ht; simpl; [by split; [constructor|]|].
  destruct (legal_cancel jid rt Hi Ht) as [H1 H2]. pose proof (lifecycle_cancel jid rt Hi) as Hi'.
  destruct (request_cancel jid rt) as [rt1 [z|e]]; [|done].
  destruct (IH rt1 Hi' H2) as [H3 H4]. split; [by eapply legal_trans|done].
Qed.

(** The last event and state of a job, and its removal. *)
Lemma legal_end jid t payload s rt :
  legal_from [] (r_published rt) (r_published rt) → active_in jid (r_published rt) →
  tasks_ok rt → find_task jid rt = Some t → ends_with jid payload s →
  legal_from [] (r_published rt)
    (r_published (finish jid (set_state jid s (publish_all [PubEvent payload "service"] rt)))) ∧
  tasks_ok (finish jid (set_state jid s (publish_all [PubEvent payload "service"] rt))).
Proof.
  intros Hl Ha Ht Hf [He <-]. split; [|by apply tasks_finish, tasks_set_state].
  rewrite finish_published. unfold set_state.
  assert (Hf' : find_task jid (publish_all [PubEvent payload "service"] rt) = Some t) by done.
  rewrite Hf'.
  change (r_published (publish_all ?ps (put_task jid ?t' (publish_all ?ps0 rt))))
    with ((r_published rt ++ ps0) ++ ps).
  rewrite <- (assoc_L (++)). apply legal_final; [done..|apply not_elem_of_nil].
Qed.

Definition keeps (rt rt' : runtime) : Prop :=
  legal_from [] (r_published rt) (r_published rt') ∧ tasks_ok rt'.

Lemma keeps_refl rt : tasks_ok rt → keeps rt rt.
Proof. by split; [constructor|]. Qed.

(** A task after its reader ran, with what it published. *)
Lemma keeps_outputs jid t t' ps rt :
  lifecycle_inv rt → tasks_ok rt → find_task jid rt = Some t → task_ok jid t' →
  Forall (output_pub jid) ps → keeps rt (publish_all ps (put_task jid t' rt)).
Proof.
  intros Hi Ht Hf Ht' Hps. split.
  - by apply (legal_outputs [] _ _ jid ps (legal_nil _ _) (active_task jid rt t Hi Hf)).
  - exact (tasks_put jid t' rt Ht Ht').
Qed.

Lemma keeps_feed_stdout jid chunk rt :
  lifecycle_inv rt → tasks_ok rt → keeps rt (feed_stdout J re_sub jid chunk rt).1.
Proof.
  intros Hi Ht. unfold feed_stdout. destruct (find_task jid rt) as [t|] eqn:Hf; [|by apply keeps_refl].
  pose proof (feed_task_keep J re_sub (task_ok jid) (output_pub jid)) as H.
  specialize (H ltac:(by intros b ? []) ltac:(by intros b ? []) ltac:(by intros o e ? [])
    (fail_protocol_ok jid) (accept_ok jid) t chunk (Ht jid t Hf)).
  destruct (feed_stdout_task J re_sub t chunk) as [[t' ps] r]. destruct H. by eapply keeps_outputs.
Qed.

Lemma keeps_feed_stderr jid chunk rt :
  lifecycle_inv rt → tasks_ok rt → keeps rt (feed_stderr jid chunk rt).1.
Proof using J re_sub.
  intros Hi Ht. unfold feed_stderr. destruct (find_task jid rt) as [t|] eqn:Hf; [|by apply keeps_refl].
  pose proof (feed_stderr_keep J re_sub (task_ok jid) (output_pub jid)) as H.
  specialize (H ltac:(by intros b ? []) ltac:(by intros b ? []) ltac:(by intros o e ? [])
    (fail_protocol_ok jid) (accept_ok jid) t chunk (Ht jid t Hf)).
  destruct (feed_stderr_task t chunk) as [t' r]. split; [constructor|by apply tasks_put].
Qed.

(** The end of a job, after its last output. *)
Lemma keeps_end jid t t' ps payload s rt :
  lifecycle_inv rt → tasks_ok rt → find_task jid rt = Some t → task_ok jid t' →
  Forall (output_pub jid) ps → ends_with jid payload s →
  keeps rt (finish jid (set_state jid s
    (publish_all [PubEvent payload "service"] (publish_all ps (put_task jid t' rt))))).
Proof.
  intros Hi Ht Hf Ht' Hps He. set (rt1 := publish_all ps (put_task jid t' rt)).
  destruct (legal_outputs [] _ _ jid ps (legal_nil [] (r_published rt)) (active_task jid rt t Hi Hf) Hps)
    as (H1 & H2 & _).
  destruct (legal_end jid t' payload s rt1) as [H3 H4]; [constructor|exact H2| |apply find_put_eq|done|].
  { exact (tasks_put jid t' rt Ht Ht'). }
  split; [|done]. eapply legal_trans; [|exact H3]. exact H1.
Qed.

Lemma keeps_complete jid code rt :
  lifecycle_inv rt → tasks_ok rt → keeps rt (complete J re_sub jid code rt).1.
Proof.
  intros Hi Ht. unfold complete. destruct (find_task jid rt) as [t|] eqn:Hf; [|by apply keeps_refl].
  pose proof (flush_keep J re_sub (task_ok jid) (output_pub jid)
    ltac:(by intros b ? []) ltac:(by intros b ? []) ltac:(by intros o e ? [])
    (fail_protocol_ok jid) (accept_ok jid) t (Ht jid t Hf)) as H1.
  destruct (flush_decoders J re_sub t) as [[t1 ps1] [u|e]]; destruct H1 as [Ht1 Hps1];
    [|by eapply keeps_outputs].
  pose proof (last_line_keep J re_sub (task_ok jid) (output_pub jid)
    ltac:(by intros b ? []) ltac:(by intros b ? []) ltac:(by intros o e ? [])
    (fail_protocol_ok jid) (accept_ok jid) t1 Ht1) as H2.
  destruct (complete_last_line J re_sub t1) as [[t2 ps2] [u2|e]]; destruct H2 as [Ht2 Hps2].
  2: { eapply keeps_outputs; [done..|by apply Forall_app]. }
  destruct (outcome_final jid t2 code Ht2) as [Hf2 Hs2].
  destruct (complete_outcome jid t2 code) as [payload ts]. simpl in Hf2, Hs2.
  destruct (finish_payload_final jid t2 payload Ht2 Hf2) as [Hf3 Hs3].
  eapply (keeps_end jid t t2 (ps1 ++ ps2)); [done..|by apply Forall_app|].
  split; [done|]. by rewrite Hs3.
Qed.

Lemma keeps_fail_start jid m rt :
  lifecycle_inv rt → tasks_ok rt → keeps rt (fail_start re_sub jid m rt).1.
Proof.
  intros Hi Ht. unfold fail_start. destruct (find_task jid rt) as [t|] eqn:Hf; [|by apply keeps_refl].
  pose proof (Ht jid t Hf) as Htk. destruct (tk_id _ _ Htk) as [Hj _].
  match goal with |- context [finish_payload re_sub t ?p] =>
    destruct (made_payload_final jid (t_cancel_requested t) (drop 2 p) Hj) as [H1 H2];
    destruct (finish_payload_final jid t p Htk H1) as [H3 H4];
    apply (legal_end jid t (finish_payload re_sub t p)) end.
  - constructor.
  - by eapply active_task.
  - done.
  - done.
  - split; [done|]. etrans; [exact H4|exact H2].
Qed.

Lemma keeps_abandon jid rt : lifecycle_inv rt → tasks_ok rt → keeps rt (abandon jid rt).
Proof.
  intros Hi Ht. unfold abandon. destruct (find_task jid rt) as [t|] eqn:Hf; [|by apply keeps_refl].
  pose proof (Ht jid t Hf) as Htk. destruct (tk_id _ _ Htk) as [Hj _].
  destruct (active_cur jid rt _ Hi (find_state _ _ _ Hf)) as [Hc Hn].
  split.
  - rewrite finish_published.
    eapply (legal_set_state _ _ jid CANCELLED (t_state t)); [constructor|done|done| |by intros ?%not_elem_of_nil|apply find_put_eq|done].
    destruct (t_state t); first [discriminate Hn|by eexists].
  - apply tasks_finish, tasks_set_state.
    apply (tasks_put jid (with_cancel_requested t) rt); [done|by apply task_ok_cancel].
Qed.

(** The methods a caller uses on a launched job. *)
Definition runs (o : op) : bool :=
  match o with OpPrepareWrite _ _ | OpPrepareCommit _ _ => false | _ => true end.

Lemma keeps_exec o rt : runs o = true → lifecycle_inv rt → tasks_ok rt → keeps rt (exec J re_sub o rt).
Proof.
  intros Ho Hi Ht. destruct o; try done; cbn [exec].
  - by apply legal_mark.
  - by apply keeps_feed_stdout.
  - by apply keeps_feed_stderr.
  - by apply legal_cancel.
  - by apply keeps_complete.
  - by apply keeps_fail_start.
  - by apply keeps_abandon.
  - unfold begin_shutdown.
    destruct (legal_cancel_each (r_tasks rt).*1 (Runtime (r_tasks rt) true (r_files rt) (r_published rt)) Hi Ht)
      as [H1 H2].
    by destruct (cancel_each _ _) as [rt2 [u|e]].
Qed.

(** A job that is not registered is idle. *)
Lemma free_idle jid rt : lifecycle_inv rt → find_task jid rt = None → idle jid (r_published rt).
Proof using Type.
  intros Hi Hf. destruct (Hi jid) as [Hl _]. unfold state_of in Hl. rewrite Hf in Hl.
  pose proof (life_last _ _ Hl) as H. unfold idle. change (cur jid (r_published rt)) with (last (published_states jid rt)).
  by destruct H as [-> |(s & -> & Hs)].
Qed.

Lemma check_free_ok jid rt u : check_free jid rt = Ok u → find_task jid rt = None.
Proof using Type. unfold check_free. destruct (r_closing rt); [done|]. by destruct (find_task jid rt). Qed.

(** [prepare]. *)
Lemma keeps_prepare fresh job rt rt' r :
  prepare fresh job rt = (rt', r) → job_id job ≠ "" → lifecycle_inv rt →
  is_web_export_task (task_type job) = false → tasks_ok rt →
  match r with
  | Ok _ => legal_from [job_id job] (r_published rt) (r_published rt') ∧ tasks_ok rt' ∧
            idle (job_id job) (r_published rt) ∧ ¬ idle (job_id job) (r_published rt')
  | Err _ => r_published rt' = r_published rt ∧ r_tasks rt' = r_tasks rt
  end.
Proof using J.
  intros H Hj Hi Hexp Ht. unfold prepare, prepare_begin in H.
  assert (Hid : str_or (job_id job) fresh = job_id job) by (unfold str_or; by destruct (job_id job)).
  rewrite Hid in H. destruct (check_free _ _) eqn:Ec; simpl in H; [|by injection H as <- <-].
  assert (Hc := free_idle _ _ Hi (check_free_ok _ _ _ Ec)).
  destruct (prepare_write (job_id job) job rt) as [rt1 [l|e]] eqn:Ew.
  2: { apply prepare_write_error in Ew as ->. by injection H as <- <-. }
  apply prepare_write_id in Ew as (Hl & Hty & Htasks & Hpub & _).
  assert (Ht1 : tasks_ok rt1) by (intros k t; unfold find_task; rewrite Htasks; apply Ht).
  unfold prepare_commit in H. destruct (check_free _ rt1); injection H as <- <-; [|by rewrite <- Hpub].
  rewrite <- Hpub in *. set (rt2 := put_task (job_id job) (new_rtask l) rt1).
  assert (Hf2 : find_task (job_id job) rt2 = Some (new_rtask l)) by apply find_put_eq.
  assert (Ht2 : tasks_ok rt2).
  { apply tasks_put; [done|]. split; simpl; try done. by rewrite Hty. }
  assert (Hl1 : legal_from [job_id job] (r_published rt1) (r_published (set_state (job_id job) PENDING rt2))).
  { unfold set_state. rewrite Hf2.
    change (r_published (publish_all ?ps (put_task _ ?t' rt2))) with (r_published rt1 ++ ps).
    apply legal_state; [constructor|done|]. right. split; [done|]. split; [done|]. set_solver. }
  assert (Hf3 : find_task (job_id job) (set_state (job_id job) PENDING rt2) = Some (with_state PENDING (new_rtask l))).
  { unfold set_state. rewrite Hf2. apply find_put_eq. }
  split; [|split; [by apply tasks_set_state, tasks_set_state|split; [done|]]].
  - eapply (legal_set_state _ _ _ STARTING PENDING); [exact Hl1| |done|by eexists|done|exact Hf3|done].
    unfold set_state. rewrite Hf2.
    change (r_published (publish_all ?ps (put_task _ ?t' rt2))) with (r_published rt1 ++ ps).
    by rewrite cur_state_same.
  - unfold set_state at 1. rewrite Hf3. unfold idle.
    change (r_published (publish_all ?ps (put_task _ ?t' ?rt3))) with (r_published rt3 ++ ps).
    by rewrite cur_state_same.
Qed.
End legal.

(** ** The types of published events

    Whatever a worker writes, no publication has the type of an event about
    artifacts, so that recording it only moves its row forward.  [json.loads] gives
    dictionaries, where a key occurs once; the events of web exports are redacted,
    and the patterns of the redaction, which all need a quote, a slash, a colon, an
    equals sign or a space, leave a single word as it is. *)
Definition word_char (c : ascii) : bool :=
  let n := byte_of c in
  ((48 <=? n) && (n <=? 57)) || ((65 <=? n) && (n <=? 90)) || ((97 <=? n) && (n <=? 122))
  || (n =? 95) || (n =? 45).

Fixpoint word (s : string) : bool :=
  match s with "" => true | String c s' => word_char c && word s' end.

(** Every entry [type] of an event is the type of a worker event. *)
Definition typed (e : dict) : Prop :=
  Forall (λ kv, kv.1 = "type" → ∃ s, kv.2 = PStr s ∧ s ∈ WORKER_EVENT_TYPES) e.

Definition typed_pub (p : pub) : Prop :=
  match p with PubState jid s e => ∃ t, e = state_event jid t s | PubEvent e _ => typed e end.

Record task_typed (t : rtask) : Prop := {
  tt_terminal e : t_terminal_event t = Some e → typed e;
  tt_error p : t_protocol_error_payload t = Some p → typed p;
}.

Record runtime_typed (rt : runtime) : Prop := {
  rt_tasks jid t : find_task jid rt = Some t → task_typed t;
  rt_pubs : Forall typed_pub (r_published rt);
}.

Lemma typed_dset k v e : k ≠ "type" → typed e → typed (dset k v e).
Proof. intros Hk He. by apply dset_Forall. Qed.

Lemma typed_cons k v e : (k = "type" → ∃ s, v = PStr s ∧ s ∈ WORKER_EVENT_TYPES) → typed e → typed ((k, v) :: e).
Proof. by constructor. Qed.

Lemma typed_kind e : typed e → event_kind e ∉ artifact_types.
Proof.
  intros He. unfold event_kind. change (dget "type" e) with (default PNone (alookup "type" e)).
  destruct (alookup "type" e) as [v|] eqn:Ev.
  - apply alookup_Some_in in Ev. apply (proj1 (Forall_forall _ _) He) in Ev as (s & Hv & Hs); [|done].
    simpl in *. subst v. rewrite text_or_empty_PStr. unfold WORKER_EVENT_TYPES, artifact_types in *. intros Ha.
    repeat (apply elem_of_cons in Hs as [->|Hs]; [set_solver|]). by apply not_elem_of_nil in Hs.
  - vm_compute. set_solver.
Qed.

Lemma dset_NoDup k v (e : dict) : NoDup e.*1 → NoDup (dset k v e).*1.
Proof. intros H. change (NoDup (ainsert k v e).*1). by apply ainsert_NoDup. Qed.

Lemma dsetdefault_NoDup k v (e : dict) : NoDup e.*1 → NoDup (dsetdefault k v e).*1.
Proof. 
  intros H. change (NoDup (if dhas k e then e else dset k v e).*1). destruct (dhas k e); [done|by apply dset_NoDup].
Qed.

Lemma legacy_NoDup d : NoDup d.*1 → NoDup (legacy_event_type d).2.*1.
Proof.
  intros H. unfold legacy_event_type. cbv zeta.
  repeat (destruct (String.eqb _ _); [by repeat apply dsetdefault_NoDup|]). done.
Qed.

Lemma types_words s : s ∈ WORKER_EVENT_TYPES → word s = true.
Proof.
  unfold WORKER_EVENT_TYPES. intros H. repeat (apply elem_of_cons in H as [->|H]; [done|]). by apply not_elem_of_nil in H.
Qed.

Lemma exit_code_typed e code : typed e → typed (attach_worker_exit_code e code).
Proof. intros He. unfold attach_worker_exit_code. cbv zeta. by do 2 (apply typed_dset; [done|]). Qed.

(** An event that is written out: its type comes first. *)
Lemma literal_typed s e :
  s ∈ WORKER_EVENT_TYPES → forallb (λ kv, negb (String.eqb kv.1 "type")) e = true → typed (("type", PStr s) :: e).
Proof.
  intros Hs He. apply typed_cons; [by exists s|]. apply Forall_forall. intros kv Hin Hk.
  rewrite forallb_forall in He. apply list_elem_of_In, He in Hin. by rewrite Hk in Hin.
Qed.

Lemma protocol_error_typed jid reason stream n : typed (protocol_error_event jid reason stream n).
Proof. apply literal_typed; [set_solver|done]. Qed.

Lemma outcome_typed jid t code : task_typed t → typed (complete_outcome jid t code).1.
Proof.
  intros [Ht Hp]. unfold complete_outcome. destruct (t_protocol_error_payload t) as [p|].
  { apply exit_code_typed. by apply Hp. }
  cbv zeta. assert (typed (default [] (t_terminal_event t))) as He.
  { destruct (t_terminal_event t); [by apply Ht|constructor]. }
  destruct (String.eqb _ "cancelled"); [done|]. destruct (String.eqb _ "error"); [by apply exit_code_typed|].
  destruct (_ && _); [done|]. apply exit_code_typed, literal_typed; [|done]. destruct (_ || _); set_solver.
Qed.

Lemma fail_protocol_typed t r st n : task_typed t → task_typed (fail_protocol t r st n).
Proof.
  intros [H1 H2]. unfold fail_protocol. destruct (str_nonempty _); [done|]. split; [done|].
  simpl. intros p [= <-]. apply protocol_error_typed.
Qed.

(** The runtime. *)
Lemma typed_put jid t rt : runtime_typed rt → task_typed t → runtime_typed (put_task jid t rt).
Proof.
  intros [H1 H2] Ht. split; [|done]. intros k tk. destruct (decide (k = jid)) as [->|].
  - rewrite find_put_eq. by intros [= <-].
  - rewrite find_put_ne by done. apply H1.
Qed.

Lemma typed_files fs rt : runtime_typed rt → runtime_typed (with_files fs rt).
Proof. by intros []. Qed.

Lemma typed_publish ps rt : runtime_typed rt → Forall typed_pub ps → runtime_typed (publish_all ps rt).
Proof. intros [H1 H2] Hps. split; [done|]. by apply Forall_app. Qed.

Lemma typed_set_state jid s rt : runtime_typed rt → runtime_typed (set_state jid s rt).
Proof.
  intros H. unfold set_state. destruct (find_task jid rt) as [t|] eqn:E.
  - apply typed_publish; [|by repeat econstructor]. apply typed_put; [done|].
    destruct (rt_tasks _ H jid t E). by split.
  - apply typed_publish; [done|by repeat econstructor].
Qed.

Lemma typed_finish jid rt : runtime_typed rt → runtime_typed (finish jid rt).
Proof.
  intros [H1 H2]. split; [|by rewrite finish_published]. intros k t Hk. apply (H1 k). revert Hk.
  unfold finish. destruct (find_task jid rt); [|done]. unfold find_task. simpl.
  destruct (decide (k = jid)) as [->|]; [by rewrite alookup_adelete_eq|by rewrite alookup_adelete_ne].
Qed.

Lemma typed_cancel jid rt : runtime_typed rt → runtime_typed (request_cancel jid rt).1.
Proof.
  intros H. unfold request_cancel. destruct (find_task jid rt) as [t|] eqn:E; [|done].
  cbn [fst]. unfold write_cancel_file. apply typed_files, typed_set_state.
  apply typed_put; [done|]. destruct (rt_tasks _ H jid t E). by split.
Qed.

Lemma typed_cancel_each jids rt : runtime_typed rt → runtime_typed (cancel_each jids rt).1.
Proof.
  revert rt. induction jids as [|jid jids IH]; intros rt H; simpl; [done|].
  pose proof (typed_cancel jid rt H) as H1. destruct (request_cancel jid rt) as [rt1 [z|e]]; [by apply IH|done].
Qed.

Section typed.
Context (J : string → option pyval) (re_sub : web_re → string → string → string).
Context (J_dict : ∀ s d, J s = Some (PDict d) → NoDup d.*1).
Context (re_words : ∀ r replacement s, word s = true → re_sub r replacement s = s).
Set Default Proof Using "Type".

Lemma parsed_typed line e reason :
  parse_worker_event_line J line = Ok (Some e, reason) → typed e.
Proof using J_dict.
  intros Hp. pose proof (parsed_kind J line e reason Hp) as Hk. revert Hp.
  unfold parse_worker_event_line. cbv zeta. destruct (String.eqb _ ""); [done|].
  destruct (J (strip line)) as [[]|] eqn:EJ; try done.
  destruct (parse_event_line J (strip line)) as [[event|]|[]] eqn:Ep; try done.
  destruct (String.eqb (validate_event event) ""); [|done]. intros [= -> _].
  unfold parse_event_line in Ep. rewrite strip_idem in Ep. cbv zeta in Ep.
  destruct (String.eqb _ ""); [done|]. rewrite EJ in Ep.
  apply res_bind_Ok in Ep as (ev & Hn & [= ->]). unfold normalize_event in Hn.
  pose proof (legacy_NoDup d (J_dict _ _ EJ)) as Hl. destruct (legacy_event_type d) as [ty event0]. simpl in Hl.
  apply res_bind_Ok in Hn as (done & _ & Hn). apply Ok_inj in Hn. cbv zeta in Hn.
  set (e0 := dset "type" (PStr ty) _) in Hn.
  assert (NoDup e.*1 ∧ dget "type" e = PStr ty) as [Hnd Hty].
  { subst e. split.
    - repeat apply dsetdefault_NoDup. apply dset_NoDup.
      destruct (String.eqb ty "cancelled"); [by apply dsetdefault_NoDup, dset_NoDup|done].
    - rewrite !dget_dsetdefault_ne by discriminate. apply dget_dset_eq. }
  apply Forall_forall. intros [k v] Hin Hkt. simpl in *. subst k. apply alookup_in in Hin; [|done].
  unfold event_kind in Hk. rewrite Hty, text_or_empty_PStr in Hk. exists ty. split; [|done].
  change (dget "type" e) with (default PNone (alookup "type" e)) in Hty. by rewrite Hin in Hty.
Qed.

Lemma sanitize_typed e : typed e → typed (sanitize_web_export_event re_sub e).
Proof using re_words.
  intros He. unfold sanitize_web_export_event.
  destruct (sanitize_dict_Forall re_sub (λ kv, kv.1 = "type" → ∃ s, kv.2 = PStr s ∧ s ∈ WORKER_EVENT_TYPES) e)
    as (d' & -> & Hd'); [| | |exact Hd'].
  - intros k v Hin _ Hk. apply (proj1 (Forall_forall _ _) He) in Hin as (s & Hv & Hs); [|done]. simpl in *. subst v.
    exists s. split; [|done]. simpl. unfold redact_web_task_text. pose proof (types_words s Hs).
    by do 6 (rewrite (re_words _ _ s) by done).
  - intros k l H f Hk. destruct (H Hk) as (s & Hs & _). done.
  - done.
Qed.

Lemma finish_payload_typed t e : typed e → typed (finish_payload re_sub t e).
Proof using re_words.
  intros He. unfold finish_payload, attach_ac_web_plan_id.
  assert (typed (if is_web_export_task (task_type (l_job (t_launch t))) then sanitize_web_export_event re_sub e else e)) as H
    by (destruct (is_web_export_task _); [by apply sanitize_typed|done]).
  cbv zeta. destruct (negb _); [done|]. destruct (_ && _); [by apply typed_dset|done].
Qed.

Lemma accept_typed line reason t e :
  task_typed t → parse_worker_event_line J line = Ok (Some e, reason) →
  task_typed (accept_worker_event re_sub t e).1 ∧ Forall typed_pub (accept_worker_event re_sub t e).2.
Proof using J_dict re_words.
  intros Ht He%parsed_typed. unfold accept_worker_event.
  destruct (negb _); [split; [by apply fail_protocol_typed|constructor]|].
  destruct (contains_replacement_character _); [split; [by apply fail_protocol_typed|constructor]|]. cbv zeta.
  set (e' := if is_web_export_task _ then _ else e).
  assert (typed e') as He' by (unfold e'; destruct (is_web_export_task _); [by apply sanitize_typed|done]).
  destruct (str_mem _ _); [split; [|constructor]; split; [by intros ? [= <-]|apply Ht]|].
  destruct (str_nonempty _); [split; [done|by repeat constructor]|done].
Qed.

Lemma typed_complete jid code rt : runtime_typed rt → runtime_typed (complete J re_sub jid code rt).1.
Proof using J_dict re_words.
  intros H. unfold complete. destruct (find_task jid rt) as [t|] eqn:Hf; [|done].
  pose proof (flush_keep J re_sub task_typed typed_pub
    ltac:(by intros b ? []) ltac:(by intros b ? []) ltac:(by intros o e ? [])
    fail_protocol_typed accept_typed t (rt_tasks _ H jid t Hf)) as H1.
  destruct (flush_decoders J re_sub t) as [[t1 ps1] [u|e]]; destruct H1 as [Ht1 Hps1];
    [|by apply typed_publish; [apply typed_put|]].
  pose proof (last_line_keep J re_sub task_typed typed_pub
    ltac:(by intros b ? []) ltac:(by intros b ? []) ltac:(by intros o e ? [])
    fail_protocol_typed accept_typed t1 Ht1) as H2.
  destruct (complete_last_line J re_sub t1) as [[t2 ps2] [u2|e]]; destruct H2 as [Ht2 Hps2].
  2: { apply typed_publish; [by apply typed_put|by apply Forall_app]. }
  pose proof (outcome_typed jid t2 code Ht2) as Ho.
  destruct (complete_outcome jid t2 code) as [payload s]. simpl in *.
  apply typed_finish, typed_set_state, typed_publish.
  - apply typed_publish; [by apply typed_put|by apply Forall_app].
  - constructor; [|constructor]. by apply finish_payload_typed.
Qed.

Lemma typed_exec o rt : runtime_typed rt → runtime_typed (exec J re_sub o rt).
Proof using J_dict re_words.
  intros H. destruct o as [jid job|jid l|jid|jid chunk|jid chunk|jid|jid code|jid m|jid|]; cbn [exec].
  - destruct (prepare_write jid job rt) as [rt1 [l|e]] eqn:E; [|by apply prepare_write_error in E as ->].
    apply prepare_write_id in E as (_ & _ & Ht & Hp & _). destruct H as [H1 H2]. simpl. split; [|by rewrite Hp].
    intros k t. unfold find_task. rewrite Ht. apply H1.
  - unfold prepare_commit. destruct (check_free jid rt); [|by destruct H]. simpl.
    apply typed_set_state, typed_set_state, typed_put; [done|by split].
  - unfold mark_running. destruct (state_of jid rt) as [[]|]; try done; by apply typed_set_state.
  - unfold feed_stdout. destruct (find_task jid rt) as [t|] eqn:Hf; [|done].
    pose proof (feed_task_keep J re_sub task_typed typed_pub
      ltac:(by intros b ? []) ltac:(by intros b ? []) ltac:(by intros o e ? [])
      fail_protocol_typed accept_typed t chunk (rt_tasks _ H jid t Hf)) as Hk.
    destruct (feed_stdout_task J re_sub t chunk) as [[t' ps] r]. destruct Hk.
    apply typed_publish; [by apply typed_put|done].
  - unfold feed_stderr. destruct (find_task jid rt) as [t|] eqn:Hf; [|done].
    pose proof (feed_stderr_keep J re_sub task_typed typed_pub
      ltac:(by intros b ? []) ltac:(by intros b ? []) ltac:(by intros o e ? [])
      fail_protocol_typed accept_typed t chunk (rt_tasks _ H jid t Hf)) as Hk.
    destruct (feed_stderr_task t chunk) as [t' r]. by apply typed_put.
  - by apply typed_cancel.
  - by apply typed_complete.
  - unfold fail_start. destruct (find_task jid rt) as [t|]; [|done]. cbn [fst].
    apply typed_finish, typed_set_state, typed_publish; [done|]. constructor; [|constructor].
    apply finish_payload_typed, literal_typed; [|done]. destruct (t_cancel_requested t); set_solver.
  - unfold abandon. destruct (find_task jid rt) as [t|] eqn:E; [|done].
    cbv zeta. apply typed_finish, typed_set_state. unfold write_cancel_file. apply typed_files.
    apply typed_put; [done|]. destruct (rt_tasks _ H jid t E). by split.
  - unfold begin_shutdown.
    assert (runtime_typed (Runtime (r_tasks rt) true (r_files rt) (r_published rt))) as H1 by (by destruct H).
    pose proof (typed_cancel_each (r_tasks rt).*1 _ H1) as H2. by destruct (cancel_each _ _) as [rt2 [u|e]].
Qed.

Lemma typed_prepare fresh job rt rt' r :
  runtime_typed rt → prepare fresh job rt = (rt', r) → runtime_typed rt'.
Proof using J_dict re_words.
  intros H Er. unfold prepare in Er. destruct (prepare_begin _ _ _) as [k|]; [|by injection Er as <- _].
  pose proof (typed_exec (OpPrepareWrite k job) rt H) as H1. simpl in H1.
  destruct (prepare_write k job rt) as [rt1 [l|x]]; [|by injection Er as <- _].
  pose proof (typed_exec (OpPrepareCommit k l) rt1 H1) as H2. simpl in H2. by rewrite Er in H2.
Qed.
End typed.

(** ** What callers do: launch jobs, and use the methods of the runtime *)
Section service_steps.
Context (J : string → option pyval) (re_sub : web_re → string → string → string).
Context (event_datetime : string → option Z).
Context (uuid now : nat → string) (site version commit : string).

(** One call after the other; [launches] restricts the calls of [prepare]. *)
Inductive service_step (launches : JobSpec → service → Prop) (sv : service) : service → Prop :=
  | step_prepare job :
      launches job sv →
      service_step launches sv (service_prepare J re_sub event_datetime uuid now site version commit job sv).1
  | step_run o : runs o = true → service_step launches sv (run_op J re_sub event_datetime uuid now o sv).

Definition new_service (tombstones : list string) : service :=
  Service empty_runtime (Store [] [] tombstones) 0.

(** What [prepare] saves. *)
Lemma prepare_snapshot_fields time job s :
  prepare_snapshot J site version commit time job = Ok s →
  sn_task_id s = job_id job ∧ sn_task_type s = task_type job ∧ sn_status s = PENDING.
Proof. intros (src & _ & [= <-])%res_bind_Ok. done. Qed.
End service_steps.

Lemma upsert_new s db :
  row_set (sn_task_id s) (stored_row (sn_created_time (default s (get (sn_task_id s) db))) s) db (upsert s None db).1 ∧
  db_events (upsert s None db).1 = db_events db.
Proof.
  unfold upsert, row_set. destruct (get (sn_task_id s) db) as [row|]; simpl; unfold get; simpl;
    (split; [|done]); split_and!; try done; try (by rewrite alookup_ainsert_eq);
    intros k Hk; by rewrite alookup_ainsert_ne.
Qed.

Lemma save_prepared_cases s db db' r :
  save_prepared s db = (db', r) →
  match r with
  | Ok None =>
      sn_task_id s ∉ db_tombstones db ∧ db' = (upsert s None db).1 ∧
      (resource_key_set (sn_resource_keys s) = [] ∨ resource_conflict s db = None)
  | _ => db' = db
  end.
Proof.
  assert (Hsave : ∀ db' r, (let '(db1, r1) := save s db in (db1, _ ← r1; Ok (@None TaskSnapshot))) = (db', r) →
    match r with
    | Ok None => sn_task_id s ∉ db_tombstones db ∧ db' = (upsert s None db).1
    | _ => db' = db
    end).
  { intros db1 r1. unfold save. destruct (str_mem _ _) eqn:Em; intros [= <- <-]; [done|].
    split; [|done]. apply not_true_iff_false in Em. by rewrite str_mem_iff in Em. }
  unfold save_prepared, save_with_resource_guard.
  destruct (sn_resource_keys s) as [|k ks] eqn:Ek.
  { intros H%Hsave. destruct r as [[c|]|e]; [done| |done]. destruct H. by split_and!; [..|left]. }
  rewrite <- Ek. destruct (resource_key_set (sn_resource_keys s)) as [|k' ks'] eqn:Es.
  { intros H%Hsave. destruct r as [[c|]|e]; [done| |done]. destruct H. by split_and!; [..|left]. }
  destruct (str_mem _ _) eqn:Em; [by intros [= <- <-]|].
  destruct (resource_conflict s db) eqn:Ec; intros [= <- <-]; [done|].
  split_and!; [|done|by right]. apply not_true_iff_false in Em. by rewrite str_mem_iff in Em.
Qed.

(** ** Resources *)

(** No two active tasks of a site hold the same resource. *)
Definition active_row (row : TaskSnapshot) : Prop := terminal (sn_status row) = false.
Definition exclusive (db : store) : Prop :=
  ∀ k1 k2 r1 r2 key, get k1 db = Some r1 → get k2 db = Some r2 → k1 ≠ k2 →
    active_row r1 → active_row r2 → sn_site_name r1 = sn_site_name r2 →
    key ∈ resource_key_set (sn_resource_keys r1) → key ∉ resource_key_set (sn_resource_keys r2).

(** A row is stored under its task. *)
Definition rows_ok (db : store) : Prop := ∀ k row, get k db = Some row → sn_task_id row = k.

Lemma evolves_active row row' : evolves row row' → active_row row' → active_row row.
Proof.
  intros (_ & _ & _ & _ & Hf) Ha. unfold active_row in *.
  destruct (terminal (sn_status row)) eqn:E; [|done]. by destruct Hf as [_ [H|H]]; rewrite ?H, ?E in Ha.
Qed.

Lemma evolves_back db db' k r :
  db_evolves db db' → get k db' = Some r → ∃ r0, get k db = Some r0 ∧ evolves r0 r.
Proof.
  intros (_ & Hs & Hn) Hr. destruct (get k db) as [r0|] eqn:E; [|by rewrite Hn in Hr].
  destruct (Hs k r0 E) as (r' & Hr' & ?). exists r0. split; [done|congruence].
Qed.

Lemma exclusive_evolves db db' : db_evolves db db' → exclusive db → exclusive db'.
Proof.
  intros Hev He k1 k2 r1 r2 key H1 H2 Hk Ha1 Ha2 Hsite Hkey.
  destruct (evolves_back _ _ _ _ Hev H1) as (p1 & Hp1 & E1). destruct (evolves_back _ _ _ _ Hev H2) as (p2 & Hp2 & E2).
  pose proof E1 as (_ & _ & S1 & K1 & _). pose proof E2 as (_ & _ & S2 & K2 & _).
  rewrite K2. rewrite K1 in Hkey. eapply (He k1 k2 p1 p2); try done; [by eapply evolves_active..|congruence].
Qed.

Lemma rows_evolve db db' : db_evolves db db' → rows_ok db → rows_ok db'.
Proof.
  intros Hev Hr k r Hk. destruct (evolves_back _ _ _ _ Hev Hk) as (r0 & Hr0 & E & _). rewrite E. by apply Hr.
Qed.

(** The guard. *)
Lemma guard_exclusive s created db db' :
  exclusive db → rows_ok db → row_set (sn_task_id s) (stored_row created s) db db' →
  resource_key_set (sn_resource_keys s) = [] ∨ resource_conflict s db = None → exclusive db'.
Proof.
  intros He Hid (Hg & Ho & _) Hguard.
  assert (Hnew : ∀ k row key, k ≠ sn_task_id s → get k db = Some row → active_row row →
    sn_site_name row = sn_site_name s → key ∈ resource_key_set (sn_resource_keys row) →
    key ∉ resource_key_set (sn_resource_keys s)).
  { intros k row key Hk Hrow Ha Hsite Hkey Hin. destruct Hguard as [H|H]; [by rewrite H in Hin; apply not_elem_of_nil in Hin|].
    unfold resource_conflict in H. pose proof (find_none _ _ H row) as Hf.
    assert (holds_resource s row = true) as Hh; [|rewrite Hf in Hh; [done|]].
    - unfold holds_resource. rewrite Hsite, String.eqb_refl. apply rank_active in Ha.
      rewrite bool_decide_true by done. rewrite (Hid k row Hrow), (proj2 (String.eqb_neq _ _) Hk). simpl.
      apply existsb_exists. exists key. split; [by apply list_elem_of_In|by apply str_mem_iff].
    - apply list_elem_of_In. rewrite sort_by_perm. apply list_elem_of_fmap.
      exists (k, row). split; [done|by apply alookup_Some_in]. }
  intros k1 k2 r1 r2 key H1 H2 Hk Ha1 Ha2 Hsite Hkey.
  destruct (decide (k1 = sn_task_id s)) as [->|Hn1], (decide (k2 = sn_task_id s)) as [->|Hn2]; [done| | |].
  - rewrite Hg in H1. injection H1 as <-. rewrite Ho in H2 by done. intros Hin.
    by eapply (Hnew k2 r2 key).
  - rewrite Hg in H2. injection H2 as <-. rewrite Ho in H1 by done. by eapply (Hnew k1 r1 key).
  - rewrite Ho in H1, H2 by done. by eapply (He k1 k2).
Qed.

Lemma rows_set s created db db' :
  rows_ok db → row_set (sn_task_id s) (stored_row created s) db db' → rows_ok db'.
Proof.
  intros Hr (Hg & Ho & _) k row. destruct (decide (k = sn_task_id s)) as [->|]; [|rewrite Ho by done; apply Hr].
  rewrite Hg. by intros [= <-].
Qed.

(** Recording what was planned for a row of the store. *)
Lemma record_evolves event_datetime u event l row db :
  get (sn_task_id u) db = Some row → (∀ cur, cur ∈ l → cur = sn_status row → evolves row u) →
  db_evolves db (record event_datetime u event (Some l) db).1.
Proof.
  intros Hrow Hev. destruct (record_effect event_datetime u event l db row Hrow) as [-> |(Hin & Hset & _)];
    [apply db_evolves_refl|].
  eapply row_set_evolves; [exact Hrow| |exact Hset]. destruct (Hev _ Hin eq_refl) as (? & ? & ? & ? & ?). by split_and!.
Qed.

(** Whatever its task: an envelope that is not about artifacts moves its row forward. *)
Lemma persist_evolves event_datetime re_sub fresh now envelope db :
  rows_ok db → text_or_empty (dget "type" envelope) ∉ artifact_types →
  db_evolves db (persist_event event_datetime re_sub fresh now envelope db).1.
Proof.
  intros Hr Hty. unfold persist_event.
  destruct (persist_begin re_sub fresh now envelope db) as [[p accepts]|] eqn:Ep; [|apply db_evolves_refl].
  assert (∃ row, get (sn_task_id (pl_snapshot p)) db = Some row ∧
    ∀ cur, cur ∈ pl_allowed p → cur = sn_status row → evolves row (pl_snapshot p)) as (row & Hrow & Hev).
  { revert Ep. unfold persist_begin. cbv zeta. destruct (String.eqb _ ""); [done|].
    destruct (to_dict_value _) as [payload|]; [|done].
    destruct (get _ db) as [s|] eqn:Es; [|done]. pose proof (Hr _ _ Es) as Hid.
    set (payload' := if is_web_export_task _ then _ else payload).
    destruct (_ && contains_replacement_character (PDict payload')).
    - destruct (apply_event s "error" _ _) as [u|] eqn:E; [|done]. intros [= <- _].
      apply apply_event_status in E as (H1 & H2 & [= H3] & H4 & H5). exists s. simpl.
      split; [by rewrite H1, Hid|]. intros cur _ _. split_and!; try done. rewrite <- H3. apply forward_failed.
    - destruct (apply_event s _ payload' _) as [u|] eqn:E; [|done].
      destruct (allowed_from s _ payload') as [l|] eqn:El; [|done]. intros [= <- _].
      destruct (apply_event_status _ _ _ _ _ E) as (H1 & H2 & _ & H4 & H5). exists s. simpl.
      split; [by rewrite H1, Hid|]. intros cur Hc ->. split_and!; try done. by eapply allowed_forward. }
  pose proof (record_evolves event_datetime _ (pl_event p) _ row db Hrow Hev) as H.
  unfold plan_commit. by destruct (record _ _ _ _ _).
Qed.

(** The type of the envelope that the hub makes. *)
Lemma envelope_type fresh now event source :
  event_kind event ∉ artifact_types →
  text_or_empty (dget "type" (normalize fresh now event source)) ∉ artifact_types.
Proof.
  intros Hk. unfold normalize. destruct (is_envelope event); [done|]. cbv zeta.
  change (dget "type" (task_event_to_dict _ _ ?ty _ _ _)) with (PStr ty). rewrite text_or_empty_PStr.
  unfold event_kind, text_or_empty, por in *. destruct (truthy (dget "type" event)); [done|]. vm_compute. set_solver.
Qed.

Lemma typed_pub_kind p : typed_pub p → event_kind (published_event p).1 ∉ artifact_types.
Proof.
  destruct p as [jid s e|e source]; simpl; [|apply typed_kind]. intros [t ->].
  unfold event_kind. rewrite (proj1 (state_event_get jid t s "type" ltac:(done))). vm_compute. set_solver.
Qed.

(** The job that [prepare] saves when the launch is refused. *)
Lemma failure_evolves event_datetime fresh now message s row db :
  get (sn_task_id s) db = Some row → evolves s row →
  db_evolves db (record_prepare_failure event_datetime fresh now message s db).
Proof.
  intros Hrow (H1 & H2 & H3 & H4 & H5). unfold record_prepare_failure. cbv zeta.
  apply (record_evolves _ _ _ _ row); [done|]. intros cur _ _. split_and!; simpl; [congruence..|].
  apply forward_failed.
Qed.

Section guard.
Context (J : string → option pyval) (re_sub : web_re → string → string → string).
Context (J_dict : ∀ s d, J s = Some (PDict d) → NoDup d.*1).
Context (re_words : ∀ r replacement s, word s = true → re_sub r replacement s = s).
Context (event_datetime : string → option Z).
Context (uuid now : nat → string) (site version commit : string).
Set Default Proof Using "All".

(** The invariant: nothing is published about artifacts, and no resource is taken
    twice. *)
Record guard_ok (sv : service) : Prop := {
  gk_typed : runtime_typed (sv_runtime sv);
  gk_rows : rows_ok (sv_store sv);
  gk_exclusive : exclusive (sv_store sv);
}.

Lemma settle_evolves rt' sv :
  runtime_typed rt' → rows_ok (sv_store sv) →
  db_evolves (sv_store sv) (sv_store (settle_runtime re_sub event_datetime uuid now rt' sv)) ∧
  sv_runtime (settle_runtime re_sub event_datetime uuid now rt' sv) = rt'.
Proof.
  intros [_ Ht] Hr. unfold settle_runtime.
  set (ps := drop _ _). assert (Forall typed_pub ps) as Hps by (by apply Forall_drop). clearbody ps. clear Ht.
  assert (∀ db n, rows_ok db → db_evolves db (foldl (persist_pub re_sub event_datetime uuid now) (db, n) ps).1) as H.
  { induction Hps as [|p ps Hp _ IH]; intros db n Hdb; [apply db_evolves_refl|]. cbn [foldl].
    assert (db_evolves db (persist_pub re_sub event_datetime uuid now (db, n) p).1) as He.
    { unfold persist_pub. pose proof (typed_pub_kind p Hp) as Hk. destruct (published_event p) as [event source].
      by apply persist_evolves, envelope_type. }
    destruct (persist_pub _ _ _ _ _ _) as [db1 n1]. simpl in He.
    eapply db_evolves_trans; [exact He|]. apply IH. by eapply rows_evolve. }
  specialize (H (sv_store sv) (sv_count sv) Hr). by destruct (foldl _ _ _).
Qed.

Lemma run_op_guard o sv : guard_ok sv → guard_ok (run_op J re_sub event_datetime uuid now o sv).
Proof.
  intros [Ht Hr He]. unfold run_op.
  pose proof (typed_exec J re_sub J_dict re_words o (sv_runtime sv) Ht) as Ht'.
  destruct (settle_evolves _ sv Ht' Hr) as [Hev Hrt].
  split; [by rewrite Hrt|by eapply rows_evolve|by eapply exclusive_evolves].
Qed.

Lemma prepare_guard job sv :
  guard_ok sv → guard_ok (service_prepare J re_sub event_datetime uuid now site version commit job sv).1.
Proof.
  intros [Ht Hr He]. unfold service_prepare. destruct (r_closing (sv_runtime sv)); [by split|]. cbv zeta.
  destruct (job_from_dict _) as [rj|e]; [|by split].
  destruct (prepare_snapshot _ _ _ _ _ rj) as [s|e]; [|by split].
  destruct (save_prepared s _) as [db r] eqn:Es. apply save_prepared_cases in Es. simpl in Es.
  destruct r as [[conflict|]|e]; [by subst|  |by subst]. destruct Es as (_ & -> & Hguard).
  destruct (upsert_new s (sv_store sv)) as [Hset _].
  set (db := (upsert s None (sv_store sv)).1) in *.
  assert (exclusive db) as Hex by (by eapply guard_exclusive).
  assert (rows_ok db) as Hrow by (by eapply rows_set).
  simpl. destruct (prepare _ rj (sv_runtime sv)) as [rt' r] eqn:Er.
  assert (runtime_typed rt') as Ht' by (by eapply typed_prepare).
  set (sv1 := Service (sv_runtime sv) db (S (sv_count sv))).
  destruct (settle_evolves rt' sv1 Ht' Hrow) as [Hev Hrt]. simpl in Hev.
  set (sv2 := settle_runtime _ _ _ _ _ sv1) in *.
  destruct r as [l|e]; simpl.
  - split; [by rewrite Hrt|by eapply rows_evolve|by eapply exclusive_evolves].
  - destruct Hset as [Hg _]. destruct Hev as (Htomb & Hfwd & Hnone).
    destruct (Hfwd _ _ Hg) as (row & Hrow2 & Hrowev).
    assert (db_evolves (sv_store sv2) (record_prepare_failure event_datetime (uuid (sv_count sv2)) (now (sv_count sv2))
      (err_text e) s (sv_store sv2))) as Hf.
    { apply (failure_evolves _ _ _ _ _ row); [done|]. destruct Hrowev as (? & ? & ? & ? & ?). by split_and!. }
    assert (db_evolves db (sv_store sv2)) as Hev by (by split_and!).
    split; simpl; [done|..].
    + eapply rows_evolve; [exact Hf|]. by eapply rows_evolve.
    + eapply exclusive_evolves; [exact Hf|]. by eapply exclusive_evolves.
Qed.

Lemma guard_steps launches a b :
  rtc (service_step J re_sub event_datetime uuid now site version commit launches) a b → guard_ok a → guard_ok b.
Proof.
  induction 1 as [|x y z Hxy _ IH]; [done|]. intros Ha. apply IH.
  destruct Hxy as [job _|o _]; [by apply prepare_guard|by apply run_op_guard].
Qed.
End guard.

(** ** The store and the runtime *)
Section steps.
Context (J : string → option pyval) (re_sub : web_re → string → string → string).
Context (event_datetime : string → option Z).
Context (uuid now : nat → string) (site version commit : string).
Context (uuid_inj : Inj (=) (=) uuid) (uuid_nonempty : ∀ n, uuid n ≠ "").
(** Jobs that nothing is said about. *)
Context (D : list string).
Set Default Proof Using "All".

Notation run_op := (run_op J re_sub event_datetime uuid now).
Notation service_prepare := (service_prepare J re_sub event_datetime uuid now site version commit).
Notation store_ok := (store_ok uuid D).

(** No web export is launched, and a launch with an identifier that was used before
    is accepted, unless nothing is said about that job. *)
Definition plain_launch (job : JobSpec) (sv : service) : Prop :=
  let jid := str_or (job_id job) (uuid (sv_count sv)) in
  is_web_export_task (task_type job) = false ∧
  (jid ∈ D ∨ cur jid (r_published (sv_runtime sv)) = None ∨ ∃ l, (service_prepare job sv).2 = Ok l).

Record service_ok (sv : service) : Prop := {
  sk_life : lifecycle_inv (sv_runtime sv);
  sk_tasks : tasks_ok (sv_runtime sv);
  sk_store : Forall unforged (r_published (sv_runtime sv)) →
    store_ok [] (sv_count sv) (r_published (sv_runtime sv)) (sv_store sv);
}.

(** The launch of [saved] is over. *)
Lemma store_ok_launched saved n n' l db :
  (n ≤ n')%nat → (∀ x, x ∈ saved → x ∈ D ∨ cur x l = None ∨ ¬ idle x l) →
  store_ok saved n l db → store_ok [] n' l db.
Proof.
  intros Hn Hs [H1 H2 H3 H4 H5 H6]. split; [| |done|by eapply ids_more| |].
  - intros jid s HD _ Hc. apply H1; [done| |done]. intros [Hsv Hi].
    destruct (Hs jid Hsv) as [?|[?|?]]; [done|congruence|done].
  - by intros jid _ [?%not_elem_of_nil _].
  - intros jid [?%not_elem_of_nil|H]; [done|]. apply H5. by right.
  - intros jid [?%not_elem_of_nil|H]; [done|]. apply H6. by right.
Qed.

(** A runtime method keeps the service's invariant. *)
Lemma settle_ok saved rt' sv :
  lifecycle_inv rt' → tasks_ok rt' →
  legal_from saved (r_published (sv_runtime sv)) (r_published rt') →
  (∀ x, x ∈ saved → ¬ idle x (r_published rt')) →
  (Forall unforged (r_published (sv_runtime sv)) →
   store_ok saved (sv_count sv) (r_published (sv_runtime sv)) (sv_store sv)) →
  service_ok (settle_runtime re_sub event_datetime uuid now rt' sv).
Proof.
  intros Hi Ht Hl Hsaved Hs. unfold settle_runtime. destruct (foldl _ _ _) as [db n] eqn:Ef.
  split; simpl; [done|done|]. intros Hun.
  assert (Forall unforged (r_published (sv_runtime sv))) as Hun0.
  { destruct (legal_prefix _ _ _ Hl) as [ps Hps]. rewrite Hps in Hun. by apply Forall_app in Hun as [? _]. }
  pose proof (follow_log event_datetime re_sub uuid now uuid_inj uuid_nonempty D saved (sv_count sv) _ _
    (sv_store sv) Hl Hun (Hs Hun0)) as H. rewrite Ef in H.
  eapply store_ok_launched; [done| |exact H]. intros x Hx. right. right. by apply Hsaved.
Qed.

Lemma run_op_ok o sv : runs o = true → service_ok sv → service_ok (run_op o sv).
Proof.
  intros Ho [Hi Ht Hs]. destruct (keeps_exec J re_sub o (sv_runtime sv) Ho Hi Ht) as [Hl Ht'].
  eapply settle_ok; [by apply lifecycle_exec|done|exact Hl|by intros x ?%not_elem_of_nil|done].
Qed.

Lemma saved_store_ok n l s created db db' :
  store_ok [] n l db → row_set (sn_task_id s) (stored_row created s) db db' → db_events db' = db_events db →
  sn_status s = PENDING → is_web_export_task (sn_task_type s) = false →
  sn_task_id s ∈ D ∨ idle (sn_task_id s) l → sn_task_id s ∉ db_tombstones db → store_ok [sn_task_id s] n l db'.
Proof.
  intros [H1 H2 H3 H4 H5 H6] (Hg & Ho & Ht) He Hst Hexp Hidle Htomb.
  split; [| | |by rewrite He| |].
  - intros k c HD Hna Hc. destruct (decide (k = sn_task_id s)) as [->|].
    + destruct Hidle as [?|Hidle]; [done|]. exfalso. apply Hna. split; [by left|done].
    + rewrite Ho by done. apply H1; [done| |done]. by intros [?%not_elem_of_nil _].
  - intros k HD [->%list_elem_of_singleton _]. by eexists.
  - intros k row. destruct (decide (k = sn_task_id s)) as [->|]; [|rewrite Ho by done; apply H3].
    rewrite Hg. by intros [= <-].
  - intros k Hk. rewrite Ht. destruct (decide (k = sn_task_id s)) as [->|]; [done|].
    apply H5. destruct Hk as [->%list_elem_of_singleton|]; [done|by right].
  - intros k Hk. destruct (decide (k = sn_task_id s)) as [->|]; [by rewrite Hg|]. rewrite Ho by done.
    apply H6. destruct Hk as [->%list_elem_of_singleton|]; [done|by right].
Qed.

Lemma prepare_failure_ok n l s created m t db :
  store_ok [] n l db → get (sn_task_id s) db = Some (stored_row created s) →
  sn_task_id s ∈ D ∨ cur (sn_task_id s) l = None →
  store_ok [] (S n) l (record_prepare_failure event_datetime (uuid n) t m s db).
Proof.
  intros Hs Hrow Hc. unfold record_prepare_failure. cbv zeta.
  match goal with |- context [record event_datetime ?u ?ev ?al db] =>
    destruct (record_effect event_datetime u ev [sn_status s] db (stored_row created s) Hrow)
      as [-> |(_ & Hset & Hlog)]; set (db' := (record event_datetime u ev al db).1) in * end.
  { eapply store_ok_launched; [|by intros x ?%not_elem_of_nil|exact Hs]. lia. }
  destruct Hs as [H1 H2 H3 H4 H5 H6], Hset as (Hg & Ho & Ht).
  simpl in Hg, Ho. split.
  - intros k c HD Hna Hk. destruct (decide (k = sn_task_id s)) as [->|]; [destruct Hc; [done|congruence]|].
    rewrite Ho by done. by apply H1.
  - by intros k _ [?%not_elem_of_nil _].
  - intros k row. destruct (decide (k = sn_task_id s)) as [->|]; [|rewrite Ho by done; apply H3].
    rewrite Hg. intros [= <-]. by apply (H3 _ _ Hrow).
  - rewrite Hlog. apply Forall_app. split.
    + eapply Forall_impl; [exact H4|]. simpl. intros x (k & ? & ?). exists k. split; [lia|done].
    + constructor; [|constructor]. exists n. split; [lia|done].
  - intros k. rewrite Ht. apply H5.
  - intros k Hk. destruct (decide (k = sn_task_id s)) as [->|]; [by rewrite Hg|]. rewrite Ho by done. by apply H6.
Qed.

Lemma lifecycle_prepare fresh job rt rt' r :
  lifecycle_inv rt → prepare fresh job rt = (rt', r) → lifecycle_inv rt'.
Proof.
  intros Hi Er. unfold prepare in Er. destruct (prepare_begin _ _ _) as [k|]; [|by injection Er as <- _].
  pose proof (lifecycle_exec J re_sub (OpPrepareWrite k job) rt Hi) as H1. simpl in H1.
  destruct (prepare_write k job rt) as [rt1 [l|x]]; [|by injection Er as <- _].
  pose proof (lifecycle_exec J re_sub (OpPrepareCommit k l) rt1 H1) as H2. simpl in H2. by rewrite Er in H2.
Qed.

Lemma service_prepare_ok job sv :
  plain_launch job sv → service_ok sv → service_ok (service_prepare job sv).1.
Proof.
  unfold plain_launch. cbv zeta. set (jid := str_or (job_id job) (uuid (sv_count sv))).
  intros [Hexp Hlaunch] [Hi Ht Hs]. revert Hlaunch. unfold service_prepare.
  destruct (r_closing (sv_runtime sv)); [done|]. cbv zeta. fold jid. simpl.
  assert (Hs' : Forall unforged (r_published (sv_runtime sv)) →
    store_ok [] (S (sv_count sv)) (r_published (sv_runtime sv)) (sv_store sv)).
  { intros Hun. eapply store_ok_launched; [|by intros x ?%not_elem_of_nil|by apply Hs]. lia. }
  destruct (job_from_dict _) as [rj|e] eqn:Ej; [|by split].
  apply job_from_dict_fields in Ej as [Hid Hty].
  destruct (prepare_snapshot _ _ _ _ _ rj) as [s|e] eqn:Ep; [|by split].
  destruct (prepare_snapshot_fields _ _ _ _ _ _ _ Ep) as (Hsid & Hsty & Hst).
  destruct (save_prepared s _) as [db r] eqn:Es. apply save_prepared_cases in Es. simpl in Es.
  destruct r as [[conflict|]|e]; [by subst|  |by subst]. destruct Es as (Htomb & -> & _).
  destruct (upsert_new s (sv_store sv)) as [Hset Hev].
  set (db := (upsert s None (sv_store sv)).1) in *.
  assert (Hj : jid ≠ "").
  { unfold jid, str_or. destruct (String.eqb_spec (job_id job) ""); [apply uuid_nonempty|done]. }
  assert (Hsj : sn_task_id s = jid) by congruence.
  simpl. destruct (prepare _ rj (sv_runtime sv)) as [rt' r] eqn:Er.
  pose proof (lifecycle_prepare _ _ _ _ _ Hi Er) as Hi'.
  assert (Hk := keeps_prepare J _ _ _ _ _ Er). rewrite Hid, Hty in Hk.
  specialize (Hk Hj Hi Hexp Ht).
  assert (Hsaved : jid ∈ D ∨ idle jid (r_published (sv_runtime sv)) → Forall unforged (r_published (sv_runtime sv)) →
    store_ok [jid] (S (sv_count sv)) (r_published (sv_runtime sv)) db).
  { intros Hidle Hun. rewrite <- Hsj in *. eapply saved_store_ok; try done; [by apply Hs'|by rewrite Hsty, Hty]. }
  destruct r as [l|e]; simpl; intros Hlaunch.
  - destruct Hk as (Hl & Ht' & Hidle & Hnidle). eapply settle_ok; [done|done|exact Hl| |].
    + by intros x ->%list_elem_of_singleton.
    + intros Hun. apply Hsaved; [by right|done].
  - assert (Hc : jid ∈ D ∨ cur jid (r_published (sv_runtime sv)) = None) by (destruct Hlaunch as [?|[?|[l ?]]]; [by left|by right|done]).
    destruct Hk as [Hpub Htasks].
    assert (Hsettle : settle_runtime re_sub event_datetime uuid now rt'
      (Service (sv_runtime sv) db (S (sv_count sv))) = Service rt' db (S (sv_count sv))).
    { unfold settle_runtime. simpl. by rewrite Hpub, drop_all. }
    rewrite Hsettle. simpl. split; simpl; [done| |].
    + intros k t. unfold find_task. rewrite Htasks. apply Ht.
    + rewrite Hpub. intros Hun. eapply prepare_failure_ok; [|apply Hset|by rewrite Hsj].
      eapply (store_ok_launched [jid]); [done| |apply Hsaved; [|done]].
      * intros x ->%list_elem_of_singleton. destruct Hc; [by left|by right; left].
      * destruct Hc as [?|Hc]; [by left|right]. unfold idle. by rewrite Hc.
Qed.

Lemma new_service_ok tombstones : service_ok (new_service tombstones).
Proof.
  split; simpl; [apply lifecycle_empty|by intros jid t|]. intros _. split; try done.
  - by intros jid _ [?%not_elem_of_nil _].
  - intros jid [H|[s H]]; [by apply not_elem_of_nil in H|done].
  - intros jid [H|[s H]]; [by apply not_elem_of_nil in H|done].
Qed.

Lemma service_steps_ok tombstones sv :
  rtc (service_step J re_sub event_datetime uuid now site version commit plain_launch) (new_service tombstones) sv →
  service_ok sv.
Proof.
  intros H. assert (H0 := new_service_ok tombstones). induction H as [|a b c Hab _ IH]; [done|].
  apply IH. destruct Hab as [job Hl|o Ho]; [by apply service_prepare_ok|by apply run_op_ok].
Qed.
End steps.

(** C1: however launches and calls of the runtime follow each other, the stored
    state of every job is the last state the runtime published for it, hence the
    state of the task while it is active, and its terminal state for ever after -
    also when the final event itself could not be recorded - unless a launch with
    the identifier of the job was refused after it had been used ([D] lists such
    jobs).  The condition is that no worker wrote an object with all the keys of an
    envelope of the hub: [forged_frame] shows that such an object is stored under
    the task it names.  Web exports, whose events are redacted, are left out. *)
Theorem store_follows_runtime J re_sub event_datetime uuid now site version commit D tombstones sv :
  Inj (=) (=) uuid → (∀ n, uuid n ≠ "") →
  rtc (service_step J re_sub event_datetime uuid now site version commit
         (plain_launch J re_sub event_datetime uuid now site version commit D)) (new_service tombstones) sv →
  Forall unforged (r_published (sv_runtime sv)) →
  (∀ jid s, jid ∉ D → cur jid (r_published (sv_runtime sv)) = Some s →
     ∃ row, get jid (sv_store sv) = Some row ∧ sn_status row = s) ∧
  (∀ jid s, jid ∉ D → state_of jid (sv_runtime sv) = Some s →
     ∃ row, get jid (sv_store sv) = Some row ∧ sn_status row = s).
Proof.
  intros Hu Hn Hok%service_steps_ok Hun; [|done..]. destruct Hok as [Hi _ Hs]. specialize (Hs Hun).
  assert (∀ jid l, ¬ awaits [] jid l) as Hna by (by intros jid l [?%not_elem_of_nil _]).
  split; [intros jid s HD; by apply Hs|]. intros jid s HD [Hc _]%(active_cur _ _ _ Hi).
  by apply (so_status _ _ _ _ _ _ Hs).
Qed.

(** C3: two stored tasks of the same site that are not over never name the same
    resource, whatever jobs are launched - under new, used or active identifiers,
    web exports too - whatever the workers write and in whatever order the calls of
    [prepare] and of the runtime follow each other. *)
Theorem resources_exclusive J re_sub event_datetime uuid now site version commit db n sv :
  (∀ s d, J s = Some (PDict d) → NoDup d.*1) →
  (∀ r replacement s, word s = true → re_sub r replacement s = s) →
  rows_ok db → exclusive db →
  rtc (service_step J re_sub event_datetime uuid now site version commit (λ _ _, True))
    (Service empty_runtime db n) sv →
  exclusive (sv_store sv).
Proof.
  intros HJ Hre Hr He Hs. eapply (guard_steps J re_sub HJ Hre event_datetime uuid now site version commit) in Hs.
  - apply Hs.
  - split; simpl; [split; [by intros jid t|constructor]|done|done].
Qed.

(** ** Runs *)
Definition demo_uuid (n : nat) : string := "u" +:+ pretty n.
Definition demo_now (n : nat) : string := pretty n.

(** [{f}] is the final event of [j1]; [{e}] has the keys of an envelope and names
    another task. *)
Definition forged_event : dict :=
  [("type", PStr "finished"); ("job_id", PStr "j1"); ("id", PStr "x"); ("task_id", PStr "j2");
   ("time", PStr "t"); ("payload", PDict [])].
Definition demo_loads (line : string) : option pyval :=
  if String.eqb line "{f}" then Some (PDict (finished_event "j1" [] "" ""))
  else if String.eqb line "{e}" then Some (PDict forged_event) else None.

#[export] Instance demo_uuid_inj : Inj (=) (=) demo_uuid.
Proof. intros a b H. unfold demo_uuid in H. apply (inj (String.append "u")) in H. by apply (inj pretty) in H. Qed.

Lemma demo_loads_dict s d : demo_loads s = Some (PDict d) → NoDup d.*1.
Proof.
  unfold demo_loads. destruct (String.eqb s "{f}"); [intros [= <-]; apply (bool_decide_unpack _); vm_compute; exact I|].
  destruct (String.eqb s "{e}"); [|done]. intros [= <-]. apply (bool_decide_unpack _). vm_compute. exact I.
Qed.

(** A redaction that changes what is not a word. *)
Definition demo_re (r : web_re) (replacement s : string) : string := if word s then s else "<redacted>".

Lemma demo_re_words r replacement s : word s = true → demo_re r replacement s = s.
Proof. unfold demo_re. by intros ->. Qed.

Definition resource_job (type id : string) : JobSpec :=
  {| job_id := id; task_type := type; params := [("resource_key", PStr "ac-1")]; cancel_path := "";
     trigger_source := "ui"; parent_task_id := ""; retry_of_task_id := ""; recovery_source := "" |}.
Definition demo_job (id : string) : JobSpec :=
  {| job_id := id; task_type := "demo"; params := []; cancel_path := "";
     trigger_source := "ui"; parent_task_id := ""; retry_of_task_id := ""; recovery_source := "" |}.

Definition demo_prepare job sv :=
  (service_prepare demo_loads demo_re demo_clock demo_uuid demo_now "s" "1" "c" job sv).1.
Definition demo_run_op o sv := run_op demo_loads demo_re demo_clock demo_uuid demo_now o sv.
Notation demo_step := (service_step demo_loads demo_re demo_clock demo_uuid demo_now "s" "1" "c").
Notation demo_launch := (plain_launch demo_loads demo_re demo_clock demo_uuid demo_now "s" "1" "c").

(** A job that names a resource runs and completes; then a second one takes the
    resource, and the first identifier is used again. *)
Definition demo_service : service :=
  demo_prepare (demo_job "j1")
   (demo_prepare (resource_job "demo" "j2")
    (demo_run_op (OpComplete "j1" 0)
      (demo_run_op (OpStdout "j1" ("{f}" +:+ String newline ""))
        (demo_run_op (OpMarkRunning "j1") (demo_prepare (resource_job "demo" "j1") (new_service [])))))).

Lemma demo_service_run : rtc (demo_step (demo_launch [])) (new_service []) demo_service.
Proof.
  unfold demo_service, demo_prepare, demo_run_op. eapply rtc_l.
  { apply (step_prepare _ _ _ _ _ _ _ _ _ _ (resource_job "demo" "j1")). split; [done|]. right. left. by vm_compute. }
  eapply rtc_l; [by apply (step_run _ _ _ _ _ _ _ _ _ _ (OpMarkRunning "j1"))|].
  eapply rtc_l; [by apply (step_run _ _ _ _ _ _ _ _ _ _ (OpStdout "j1" ("{f}" +:+ String newline "")))|].
  eapply rtc_l; [by apply (step_run _ _ _ _ _ _ _ _ _ _ (OpComplete "j1" 0))|].
  eapply rtc_l.
  { apply (step_prepare _ _ _ _ _ _ _ _ _ _ (resource_job "demo" "j2")). split; [done|]. right. left. by vm_compute. }
  eapply rtc_l.
  { apply (step_prepare _ _ _ _ _ _ _ _ _ _ (demo_job "j1")). split; [done|]. right. right. eexists. by vm_compute. }
  apply rtc_refl.
Qed.

Lemma store_follows_runtime_witness :
  (∃ row, get "j1" (sv_store demo_service) = Some row ∧ sn_status row = STARTING) ∧
  (∃ row, get "j2" (sv_store demo_service) = Some row ∧ sn_status row = STARTING).
Proof.
  destruct (store_follows_runtime demo_loads demo_re demo_clock demo_uuid demo_now "s" "1" "c" [] []
    demo_service demo_uuid_inj) as [H1 H2]; [done|apply demo_service_run|apply (bool_decide_unpack _); vm_compute; exact I|].
  split; [apply H1|apply H2]; try apply not_elem_of_nil; vm_compute; reflexivity.
Defined.

(** A worker of [j1] writes an object that has the keys of an envelope and names
    [j2]: the task [j2], which is starting, is stored as completed. *)
Example forged_frame :
  let sv := demo_run_op (OpComplete "j1" 0)
    (demo_run_op (OpStdout "j1" ("{e}" +:+ String newline ""))
      (demo_prepare (demo_job "j2") (demo_prepare (demo_job "j1") (new_service [])))) in
  state_of "j2" (sv_runtime sv) = Some STARTING ∧
  sn_status <$> get "j2" (sv_store sv) = Some COMPLETED.
Proof. vm_compute. done. Qed.

(** A web export and a second launch with its identifier; the resource stays taken
    from a job under another identifier. *)
Definition demo_taken : service :=
  demo_prepare (resource_job "demo" "j2")
    (demo_run_op (OpStdout "j1" ("{f}" +:+ String newline ""))
      (demo_prepare (resource_job "web_export_x" "j1") (new_service []))).

Lemma resources_exclusive_witness :
  exclusive (sv_store demo_taken) ∧
  resource_key_set (sn_resource_keys (default (demo_snapshot FAILED) (get "j1" (sv_store demo_taken)))) = ["ac-1"] ∧
  get "j2" (sv_store demo_taken) = None.
Proof.
  split; [|split; vm_compute; reflexivity].
  apply (resources_exclusive demo_loads demo_re demo_clock demo_uuid demo_now "s" "1" "c" (Store [] [] []) 0
    demo_taken demo_loads_dict demo_re_words).
  - intros k row H. discriminate H.
  - intros k1 k2 r1 r2 key H. discriminate H.
  - unfold demo_taken, demo_prepare, demo_run_op.
    eapply rtc_l; [by apply (step_prepare _ _ _ _ _ _ _ _ _ _ (resource_job "web_export_x" "j1"))|].
    eapply rtc_l; [by apply (step_run _ _ _ _ _ _ _ _ _ _ (OpStdout "j1" ("{f}" +:+ String newline "")))|].
    eapply rtc_l; [by apply (step_prepare _ _ _ _ _ _ _ _ _ _ (resource_job "demo" "j2"))|].
    apply rtc_refl.
Defined.
