(* ===== verification/LocalProcess.v ===== *)
(** * Local worker processes (services/job_center/local_process_adapter.py)

    The host of the worker processes: for every job it runs threads that read the
    worker's two pipes, wait for its exit, stop it after a grace period and end
    the job exactly once.  A process here carries the list of the threads that
    work on it; a move runs one step of one thread, so that every interleaving is
    a list of moves, and [perform] is executable.  A timed wait on [done] has two
    outcomes and may end at any time; the exit of the process and the end of its
    pipes are moves of the environment; what the process will still write is
    fixed when it starts.  The one loop of [shutdown] is a thread per process,
    which allows more interleavings.  Not modelled: the Windows job object beyond
    its closed flag, the sensitive bootstrap pipe, a failure to create a thread,
    and that closing a pipe may wait for a read in progress. *)

From S2P Require Import Prelude PyVal WorkerProtocol JobEvents TaskRuntime.

(** ** What the host expects of the task service *)
Class TaskService (Svc : Type) := {
  svc_prepare : string → JobSpec → Svc → Svc * res launch;
  svc_mark_running : string → Svc → Svc;
  svc_feed_stdout : string → string → Svc → Svc * res bool;
  svc_feed_stderr : string → string → Svc → Svc * res bool;
  svc_request_cancel : string → Svc → Svc * res Z;
  svc_begin_shutdown : Svc → Svc * res (Z * Z);
  svc_complete : string → Z → Svc → Svc * res (option dict);
  svc_fail_start : string → string → Svc → Svc * option dict;
  svc_abandon : string → Svc → Svc;
  svc_registered : string → Svc → Prop;
}.

(** Only [prepare] registers a job, under the identifier of its launch; the end
    of a job takes it out; reading standard error does not raise. *)
Class TaskServiceLaws (Svc : Type) `{!TaskService Svc} : Prop := {
  law_prepare fresh job s s' r j :
    svc_prepare fresh job s = (s', r) → svc_registered j s' →
    svc_registered j s ∨ ∃ l, r = Ok l ∧ job_id (l_job l) = j;
  law_mark_running k s j : svc_registered j (svc_mark_running k s) → svc_registered j s;
  law_feed_stdout k c s j : svc_registered j (svc_feed_stdout k c s).1 → svc_registered j s;
  law_feed_stderr k c s j : svc_registered j (svc_feed_stderr k c s).1 → svc_registered j s;
  law_stderr_total k c s : ∃ b, (svc_feed_stderr k c s).2 = Ok b;
  law_request_cancel k s j : svc_registered j (svc_request_cancel k s).1 → svc_registered j s;
  law_begin_shutdown s j : svc_registered j (svc_begin_shutdown s).1 → svc_registered j s;
  law_complete k code s s' r j :
    svc_complete k code s = (s', r) → svc_registered j s' →
    svc_registered j s ∧ (j = k → ∃ e, r = Err e);
  law_fail_start k m s j :
    svc_registered j (svc_fail_start k m s).1 → svc_registered j s ∧ j ≠ k;
  law_abandon k s j : svc_registered j (svc_abandon k s) → svc_registered j s ∧ j ≠ k;
}.

(** ** Threads and processes *)

(** [LocalProcessCompletion]. *)
Record completion := Completion {
  c_job_id : string;
  c_task_type : string;
  c_exit_code : option Z;
  c_payload : option dict;
  c_cancelled : bool;
  c_forced : bool;
}.

(** Who ends the job: the thread that waited for the exit, the one that handles a
    damaged stream, or a caller that gave up. *)
Inductive claimant := FWait (code : Z) | FProtocol | FAbandon.

(** The threads that stop a process - of [cancel_job], of a protocol failure, of
    [force_stop_job] and of [shutdown] - and how far they are. *)
Inductive stopper := KCancel | KFatal | KForce | KShutdown.
Inductive stage := SRequest | SGrace | STerminate | SWaitTerminated | SKill | SWaitKilled.

Inductive thread :=
  | StartMark | StartRegister | StartStop | StartFail
  | Reader (is_stderr : bool) | ReaderFatal
  | Waiter | Join (code : Z)
  | Claim (f : claimant) | Call (f : claimant)
  | Notify (exit_code : option Z) (payload : option dict) (cancelled : bool)
  | Remove | SetDone
  | Stop (k : stopper) (s : stage)
  | ShutdownCancel.

(** [_RunningLocalProcess], with what the operating system knows about the
    process: the chunks still to be read from each pipe, whether the pipe ends
    after them, and how the process ended. *)
Record process := Process {
  p_job : string;
  p_type : string;
  p_stdout : list string;
  p_stderr : list string;
  p_stdout_end : bool;
  p_stderr_end : bool;
  p_exit : option (Z + string);
  p_cancel_scheduled : bool;
  p_fatal_scheduled : bool;
  p_finalized : bool;
  p_terminalizing : bool;
  p_tree_closed : bool;
  p_forced : bool;
  p_done : bool;
  p_threads : list thread;
}.

Definition with_threads (ths : list thread) (p : process) : process :=
  Process (p_job p) (p_type p) (p_stdout p) (p_stderr p) (p_stdout_end p) (p_stderr_end p) (p_exit p)
    (p_cancel_scheduled p) (p_fatal_scheduled p) (p_finalized p) (p_terminalizing p)
    (p_tree_closed p) (p_forced p) (p_done p) ths.
Definition spawn (ths : list thread) (p : process) : process := with_threads (ths ++ p_threads p) p.
Definition with_pipes (out err : list string) (out_end err_end : bool) (p : process) : process :=
  Process (p_job p) (p_type p) out err out_end err_end (p_exit p)
    (p_cancel_scheduled p) (p_fatal_scheduled p) (p_finalized p) (p_terminalizing p)
    (p_tree_closed p) (p_forced p) (p_done p) (p_threads p).
Definition with_exit (e : Z + string) (p : process) : process :=
  Process (p_job p) (p_type p) (p_stdout p) (p_stderr p) (p_stdout_end p) (p_stderr_end p) (Some e)
    (p_cancel_scheduled p) (p_fatal_scheduled p) (p_finalized p) (p_terminalizing p)
    (p_tree_closed p) (p_forced p) (p_done p) (p_threads p).
Definition with_scheduled (cancel fatal : bool) (p : process) : process :=
  Process (p_job p) (p_type p) (p_stdout p) (p_stderr p) (p_stdout_end p) (p_stderr_end p) (p_exit p)
    cancel fatal (p_finalized p) (p_terminalizing p) (p_tree_closed p) (p_forced p) (p_done p)
    (p_threads p).
Definition with_claimed (p : process) : process :=
  Process (p_job p) (p_type p) (p_stdout p) (p_stderr p) (p_stdout_end p) (p_stderr_end p) (p_exit p)
    (p_cancel_scheduled p) (p_fatal_scheduled p) true true (p_tree_closed p) (p_forced p) (p_done p)
    (p_threads p).
Definition with_stopped (tree_closed forced : bool) (p : process) : process :=
  Process (p_job p) (p_type p) (p_stdout p) (p_stderr p) (p_stdout_end p) (p_stderr_end p) (p_exit p)
    (p_cancel_scheduled p) (p_fatal_scheduled p) (p_finalized p) (p_terminalizing p) tree_closed
    forced (p_done p) (p_threads p).
Definition with_done (p : process) : process :=
  Process (p_job p) (p_type p) (p_stdout p) (p_stderr p) (p_stdout_end p) (p_stderr_end p) (p_exit p)
    (p_cancel_scheduled p) (p_fatal_scheduled p) (p_finalized p) (p_terminalizing p)
    (p_tree_closed p) (p_forced p) true (p_threads p).

(** What [_start_threads] starts. *)
Definition started_threads : list thread := [Reader false; Reader true; Waiter].

Definition new_process (l : launch) (out err : list string) : process :=
  Process (job_id (l_job l)) (task_type (l_job l)) out err false false None
    false false false false false false false [StartMark].

(** [state.done.is_set() or state.terminalizing]. *)
Definition ending (p : process) : bool := p_done p || p_terminalizing p.

(** The host: [self._states] maps job identifiers to processes, [a_procs] holds
    every process ever started, [a_starts] the launches between [prepare] and the
    start of the process, [a_shutdowns] the calls of [shutdown] that have not
    closed the host yet. *)
Record adapter (Svc : Type) := Adapter {
  a_service : Svc;
  a_states : list (string * nat);
  a_closing : bool;
  a_procs : list process;
  a_starts : list launch;
  a_shutdowns : nat;
}.
Arguments Adapter {Svc} _ _ _ _ _ _.
Arguments a_service {Svc} _.
Arguments a_states {Svc} _.
Arguments a_closing {Svc} _.
Arguments a_procs {Svc} _.
Arguments a_starts {Svc} _.
Arguments a_shutdowns {Svc} _.

Definition new_adapter {Svc} (s : Svc) : adapter Svc := Adapter s [] false [] [] 0.

Definition with_service {Svc} (s : Svc) (a : adapter Svc) : adapter Svc :=
  Adapter s (a_states a) (a_closing a) (a_procs a) (a_starts a) (a_shutdowns a).
Definition with_states {Svc} (t : list (string * nat)) (a : adapter Svc) : adapter Svc :=
  Adapter (a_service a) t (a_closing a) (a_procs a) (a_starts a) (a_shutdowns a).
Definition put {Svc} (i : nat) (p : process) (a : adapter Svc) : adapter Svc :=
  Adapter (a_service a) (a_states a) (a_closing a) (<[i := p]> (a_procs a)) (a_starts a)
    (a_shutdowns a).

(** The events of a run that its properties speak about. *)
Inductive label :=
  | LRegister (i : nat)
  | LReject (i : nat) (cancelled : res Z)
  | LFeed (i : nat) (is_stderr : bool) (chunk : string)
  | LComplete (i : nat) (exit_code : Z) (r : res (option dict))
  | LAbandon (i : nat)
  | LNotify (i : nat) (c : completion)
  | LDone (i : nat).

(** ** The requests of callers *)
Section host.
Context {Svc : Type} `{!TaskService Svc}.
Implicit Types (a : adapter Svc) (p : process) (th : thread).

(** The locked lookup that [cancel_job] and [force_stop_job] start with. *)
Definition live_state (job : string) (a : adapter Svc) : option (nat * process) :=
  i ← alookup job (a_states a);
  p ← a_procs a !! i;
  if ending p then None else Some (i, p).

Definition cancel_job (job : string) (a : adapter Svc) : adapter Svc :=
  match live_state job a with
  | None => a
  | Some (i, p) =>
      if p_cancel_scheduled p then a
      else put i (spawn [Stop KCancel SRequest] (with_scheduled true (p_fatal_scheduled p) p)) a
  end.

Definition force_stop_job (job : string) (a : adapter Svc) : adapter Svc :=
  match live_state job a with
  | None => a
  | Some (i, p) =>
      put i (spawn [Stop KForce (if p_cancel_scheduled p then STerminate else SRequest)]
               (with_scheduled true (p_fatal_scheduled p) p)) a
  end.

Definition schedule_protocol_termination (job : string) (a : adapter Svc) : adapter Svc :=
  match alookup job (a_states a) with
  | None => a
  | Some i =>
      match a_procs a !! i with
      | None => a
      | Some p =>
          if p_done p || p_fatal_scheduled p then a
          else put i (spawn [Stop KFatal STerminate]
                        (with_scheduled (p_cancel_scheduled p) true p)) a
      end
  end.

(** The first half of [start_job], and the start of the process. *)
Definition start_job (fresh : string) (job : JobSpec) (a : adapter Svc) : adapter Svc * res launch :=
  if a_closing a then (a, Err (RuntimeError "local worker host is closing"))
  else
    let '(s, r) := svc_prepare fresh job (a_service a) in
    let starts := match r with Ok l => a_starts a ++ [l] | Err _ => a_starts a end in
    (Adapter s (a_states a) (a_closing a) (a_procs a) starts (a_shutdowns a), r).

Definition start_process (k : nat) (outcome : string + list string * list string) (a : adapter Svc)
    : option (adapter Svc) :=
  l ← a_starts a !! k;
  let starts := delete k (a_starts a) in
  Some match outcome with
       | inl message =>
           Adapter (svc_fail_start (job_id (l_job l)) message (a_service a)).1 (a_states a)
             (a_closing a) (a_procs a) starts (a_shutdowns a)
       | inr (out, err) =>
           Adapter (a_service a) (a_states a) (a_closing a) (a_procs a ++ [new_process l out err])
             starts (a_shutdowns a)
       end.

(** The two halves of [shutdown]. *)
Definition shutdown_begin (a : adapter Svc) : adapter Svc :=
  let '(s, r) := svc_begin_shutdown (a_service a) in
  Adapter s (a_states a) (a_closing a) (a_procs a) (a_starts a)
    (match r with Ok _ => a_shutdowns a + 1 | Err _ => a_shutdowns a end).

Definition stop_at_shutdown (i : nat) (a : adapter Svc) : adapter Svc :=
  match a_procs a !! i with
  | None => a
  | Some p => if ending p then a else put i (spawn [ShutdownCancel; Stop KShutdown SGrace] p) a
  end.

Definition shutdown_close (a : adapter Svc) : option (adapter Svc) :=
  match a_shutdowns a with
  | O => None
  | S n =>
      Some (foldl (λ a i, stop_at_shutdown i a)
              (Adapter (a_service a) (a_states a) true (a_procs a) (a_starts a) n)
              (a_states a).*2)
  end.

(** ** One step of a thread

    [p] is the process [i] without the thread [th]; [None] means that the thread
    has to wait. *)
Definition is_reader (th : thread) : bool := match th with Reader _ | ReaderFatal => true | _ => false end.

Definition exit_message_code (e : option (Z + string)) : option Z :=
  match e with Some (inl code) => Some code | _ => None end.

(** [_read_pipe]. *)
Definition read_step (i : nat) (is_stderr : bool) (p : process) (a : adapter Svc)
    : option (list label * adapter Svc) :=
  let feed chunk p :=
    let '(s, r) := (if is_stderr then svc_feed_stderr else svc_feed_stdout) (p_job p) chunk
                     (a_service a) in
    Some ([LFeed i is_stderr chunk],
          put i (spawn (match r with Ok true => [ReaderFatal] | Ok false => [Reader is_stderr]
                                   | Err _ => [] end) p) (with_service s a)) in
  match (if is_stderr then p_stderr p else p_stdout p) with
  | chunk :: rest =>
      feed chunk (if is_stderr then with_pipes (p_stdout p) rest (p_stdout_end p) (p_stderr_end p) p
                  else with_pipes rest (p_stderr p) (p_stdout_end p) (p_stderr_end p) p)
  | [] => if (if is_stderr then p_stderr_end p else p_stdout_end p)
          then Some ([], put i p a) else None
  end.

(** [_wait_for_process] up to the joins. *)
Definition wait_step (i : nat) (p : process) (a : adapter Svc) : option (list label * adapter Svc) :=
  match p_exit p with
  | None => None
  | Some (inl code) => Some ([], put i (spawn [Join code] (with_stopped true (p_forced p) p)) a)
  | Some (inr text) =>
      let '(s, r) := svc_feed_stderr (p_job p) text (a_service a) in
      Some ([LFeed i true text],
            put i (match r with
                   | Ok _ => spawn [Join (-1)] (with_stopped true (p_forced p) p)
                   | Err _ => p
                   end) (with_service s a))
  end.

Definition final_payload (r : res (option dict)) : option dict :=
  match r with Ok payload => payload | Err _ => None end.
Definition cancelled_payload (payload : option dict) : bool :=
  match payload with Some d => truthy (dget "cancelled" d) | None => false end.

(** What each claimant does once it holds the claim. *)
Definition call_step (i : nat) (f : claimant) (p : process) (a : adapter Svc) : list label * adapter Svc :=
  match f with
  | FWait code =>
      let '(s, r) := svc_complete (p_job p) code (a_service a) in
      let payload := final_payload r in
      ([LComplete i code r],
       put i (spawn [Notify (Some code) payload (cancelled_payload payload)] p) (with_service s a))
  | FProtocol =>
      ([], put i (spawn [Notify (exit_message_code (p_exit p)) None false]
                    (with_pipes [] [] true true p)) a)
  | FAbandon =>
      ([LAbandon i], put i (spawn [Notify None None true] p)
                       (with_service (svc_abandon (p_job p) (a_service a)) a))
  end.

(** The stopping threads: [_cancel_after_grace], [_terminate_protocol_failure],
    [force_stop_job] and [shutdown]. *)
Definition stop_step (i : nat) (k : stopper) (s : stage) (p : process) (a : adapter Svc) : adapter Svc :=
  let next ths p := put i (spawn ths p) a in
  match s with
  | SRequest =>
      let '(s', r) := svc_request_cancel (p_job p) (a_service a) in
      put i (spawn (match r, k with
                    | Ok _, KCancel => [Stop k SGrace]
                    | Ok _, _ => [Stop k STerminate]
                    | Err _, _ => []
                    end) p) (with_service s' a)
  | SGrace =>
      if p_done p || (match k with KCancel => p_terminalizing p | _ => false end)
      then next [] p else next [Stop k STerminate] p
  | STerminate => next [Stop k SWaitTerminated] (with_stopped (p_tree_closed p) true p)
  | SWaitTerminated => if p_done p then next [] p else next [Stop k SKill] p
  | SKill =>
      next (match k with KCancel => [] | _ => [Stop k SWaitKilled] end) (with_stopped true true p)
  | SWaitKilled =>
      if p_done p then next [] p
      else next [Claim (match k with KFatal => FProtocol | _ => FAbandon end)] p
  end.

Definition closing_message : string := "本地 Worker 进程宿主正在关闭".

Definition thread_step (i : nat) (p : process) (th : thread) (a : adapter Svc)
    : option (list label * adapter Svc) :=
  match th with
  | StartMark =>
      Some ([], put i (spawn [StartRegister] p)
                  (with_service (svc_mark_running (p_job p) (a_service a)) a))
  | StartRegister =>
      if a_closing a then Some ([], put i (spawn [StartStop] p) a)
      else Some ([LRegister i], put i (spawn started_threads p)
                                  (with_states (ainsert (p_job p) i (a_states a)) a))
  | StartStop => Some ([], put i (spawn [StartFail] p) a)
  | StartFail =>
      let '(s, r) := svc_request_cancel (p_job p) (a_service a) in
      Some ([LReject i r],
            match r with
            | Ok _ => put i (with_done p)
                        (with_service (svc_fail_start (p_job p) closing_message s).1 a)
            | Err _ => put i p (with_service s a)
            end)
  | Reader is_stderr => read_step i is_stderr p a
  | ReaderFatal => Some ([], schedule_protocol_termination (p_job p) (put i p a))
  | Waiter => wait_step i p a
  | Join code =>
      if existsb is_reader (p_threads p) then None else Some ([], put i (spawn [Claim (FWait code)] p) a)
  | Claim f =>
      Some ([], put i (if p_finalized p then p else spawn [Call f] (with_claimed p)) a)
  | Call f => Some (call_step i f p a)
  | Notify exit_code payload cancelled =>
      Some ([LNotify i (Completion (p_job p) (p_type p) exit_code payload cancelled (p_forced p))],
            put i (spawn [Remove] p) a)
  | Remove =>
      Some ([], put i (spawn [SetDone] (with_stopped true (p_forced p) p))
                  (if bool_decide (alookup (p_job p) (a_states a) = Some i)
                   then with_states (adelete (p_job p) (a_states a)) a else a))
  | SetDone => Some ([LDone i], put i (with_done p) a)
  | Stop k s => Some ([], stop_step i k s p a)
  | ShutdownCancel => Some ([], cancel_job (p_job p) (put i p a))
  end.

(** ** Moves *)
Inductive move :=
  | MStart (fresh : string) (job : JobSpec)
  | MCancel (job : string)
  | MForceStop (job : string)
  | MShutdown
  | MStartProcess (k : nat) (outcome : string + list string * list string)
  | MShutdownClose
  | MThread (i k : nat)
  | MExit (i : nat) (e : Z + string)
  | MPipeEnd (i : nat) (is_stderr : bool).

Definition perform (m : move) (a : adapter Svc) : option (list label * adapter Svc) :=
  match m with
  | MStart fresh job => Some ([], (start_job fresh job a).1)
  | MCancel job => Some ([], cancel_job job a)
  | MForceStop job => Some ([], force_stop_job job a)
  | MShutdown => Some ([], shutdown_begin a)
  | MStartProcess k outcome => pair [] <$> start_process k outcome a
  | MShutdownClose => pair [] <$> shutdown_close a
  | MThread i k =>
      p ← a_procs a !! i;
      th ← p_threads p !! k;
      thread_step i (with_threads (delete k (p_threads p)) p) th a
  | MExit i e =>
      p ← a_procs a !! i;
      match p_exit p with Some _ => None | None => Some ([], put i (with_exit e p) a) end
  | MPipeEnd i is_stderr =>
      p ← a_procs a !! i;
      if (if is_stderr then p_stderr_end p else p_stdout_end p) then None
      else Some ([], put i (with_pipes (p_stdout p) (p_stderr p) (negb is_stderr || p_stdout_end p)
                              (is_stderr || p_stderr_end p) p) a)
  end.

Fixpoint perform_all (ms : list move) (a : adapter Svc) : option (list label * adapter Svc) :=
  match ms with
  | [] => Some ([], a)
  | m :: ms =>
      '(ls, a1) ← perform m a;
      '(ls', a2) ← perform_all ms a1;
      Some (ls ++ ls', a2)
  end.

(** The moves that are no request of a caller. *)
Definition internal (m : move) : bool :=
  match m with MStart _ _ | MCancel _ | MForceStop _ | MShutdown => false | _ => true end.
End host.

(** ** The life of one process, as its labels show it

    [pstep] is the abstract specification of what may happen next. *)
Inductive outcome := ByWait (code : Z) (r : res (option dict)) | ByProtocol | ByAbandon.

Inductive phase :=
  | Absent
  | Rejected (cancelled : res Z)
  | Live
  | Called (o : outcome)
  | Notified (o : outcome)
  | Finished (o : outcome).

Definition announces (o : outcome) (c : completion) : bool :=
  match o with
  | ByWait code r =>
      bool_decide (c_exit_code c = Some code) && bool_decide (c_payload c = final_payload r)
      && Bool.eqb (c_cancelled c) (cancelled_payload (final_payload r))
  | ByProtocol => bool_decide (c_payload c = None) && negb (c_cancelled c)
  | ByAbandon =>
      bool_decide (c_exit_code c = None) && bool_decide (c_payload c = None) && c_cancelled c
  end.

(** The threads of a process may still read its pipes after it was given up, but
    not when its end was waited for. *)
Definition may_feed (o : outcome) : bool := match o with ByWait _ _ => false | _ => true end.

Definition pstep (ph : phase) (l : label) : option phase :=
  match ph, l with
  | Absent, LRegister _ => Some Live
  | Absent, LReject _ r => Some (Rejected r)
  | Live, LFeed _ _ _ => Some Live
  | Live, LComplete _ code r => Some (Called (ByWait code r))
  | Live, LAbandon _ => Some (Called ByAbandon)
  | Live, LNotify _ c => if announces ByProtocol c then Some (Notified ByProtocol) else None
  | Called o, LNotify _ c => if announces o c then Some (Notified o) else None
  | Notified o, LDone _ => Some (Finished o)
  | (Called o | Notified o | Finished o), LFeed _ _ _ => if may_feed o then Some ph else None
  | _, _ => None
  end.

Definition label_process (l : label) : nat :=
  match l with
  | LRegister i | LReject i _ | LFeed i _ _ | LComplete i _ _ | LAbandon i | LNotify i _ | LDone i => i
  end.

Fixpoint phases (ph : phase) (ls : list label) : option phase :=
  match ls with
  | [] => Some ph
  | l :: ls => ph' ← pstep ph l; phases ph' ls
  end.

(** The phase of the process [i] after a run, if its labels are a legal history. *)
Definition phase_after (i : nat) (ls : list label) : option phase :=
  phases Absent (List.filter (λ l, Nat.eqb (label_process l) i) ls).

Lemma phases_app ph l1 l2 : phases ph (l1 ++ l2) = (ph' ← phases ph l1; phases ph' l2).
Proof. revert ph. induction l1 as [|l l1 IH]; intros ph; simpl; [done|].
  destruct (pstep ph l); simpl; [apply IH|done].
Qed.

Lemma phase_after_own i ls ls' :
  Forall (λ l, label_process l = i) ls' →
  phase_after i (ls ++ ls') = (ph ← phase_after i ls; phases ph ls').
Proof.
  intros Hf. unfold phase_after. rewrite List.filter_app, phases_app.
  replace (List.filter _ ls') with ls'; [done|]. induction Hf as [|l ls' <- _ IH]; [done|].
  simpl. by rewrite Nat.eqb_refl, <- IH.
Qed.

Lemma phase_after_other i ls ls' :
  Forall (λ l, label_process l ≠ i) ls' → phase_after i (ls ++ ls') = phase_after i ls.
Proof.
  intros Hf. unfold phase_after. rewrite List.filter_app.
  replace (List.filter _ ls') with (@nil label); [by rewrite app_nil_r|].
  induction Hf as [|l ls' Hl _ IH]; [done|]. simpl. by rewrite (proj2 (Nat.eqb_neq _ _) Hl).
Qed.

(** ** Which threads a process has in each phase *)
Definition is_start (th : thread) : bool :=
  match th with StartMark | StartRegister | StartStop | StartFail => true | _ => false end.
Definition is_watch (th : thread) : bool :=
  match th with Waiter | Join _ | Claim (FWait _) => true | _ => false end.
Definition is_final (th : thread) : bool :=
  match th with Call _ | Notify _ _ _ | Remove | SetDone => true | _ => false end.

Definition pick (f : thread → bool) (p : process) : list thread := List.filter f (p_threads p).

(** One thread watches the process; when it has joined the readers they ended. *)
Definition joined (th : thread) : bool := match th with Claim _ => true | _ => false end.
Definition watched (p : process) : Prop :=
  ∃ th, pick is_watch p = [th] ∧ (joined th = true → pick is_reader p = []).

(** No thread reads or watches the process any more. *)
Definition quiet (p : process) : Prop := pick is_reader p = [] ∧ pick is_watch p = [].

Definition final_thread (o : outcome) (th : thread) : Prop :=
  ∃ c, th = Notify (c_exit_code c) (c_payload c) (c_cancelled c) ∧ announces o c = true.

(** The thread that ends a process in phase [Live] once the claim is taken. *)
Definition claimed_thread (p : process) (th : thread) : Prop :=
  match th with
  | Call (FWait _) => quiet p
  | Call _ => True
  | _ => final_thread ByProtocol th
  end.

Definition proc_ok (ph : phase) (p : process) : Prop :=
  p_terminalizing p = p_finalized p ∧
  match ph with
  | Absent =>
      p_finalized p = false ∧ p_done p = false ∧ ∃ th, p_threads p = [th] ∧ is_start th = true
  | Rejected r => p_threads p = [] ∧ p_done p = match r with Ok _ => true | Err _ => false end
  | Live =>
      p_done p = false ∧ pick is_start p = [] ∧
      if p_finalized p then ∃ th, pick is_final p = [th] ∧ claimed_thread p th
      else pick is_final p = [] ∧ watched p
  | Called o =>
      p_done p = false ∧ pick is_start p = [] ∧ p_finalized p = true ∧
      (may_feed o = false → quiet p) ∧ ∃ th, pick is_final p = [th] ∧ final_thread o th
  | Notified o =>
      p_done p = false ∧ pick is_start p = [] ∧ p_finalized p = true ∧
      (may_feed o = false → quiet p) ∧ (pick is_final p = [Remove] ∨ pick is_final p = [SetDone])
  | Finished o =>
      p_done p = true ∧ pick is_start p = [] ∧ p_finalized p = true ∧
      (may_feed o = false → quiet p) ∧ pick is_final p = []
  end.

(** A listed process: [self._states] may hold it. *)
Definition listed (ph : phase) (p : process) : Prop :=
  match ph with
  | Live | Called _ => True
  | Notified _ => pick is_final p = [Remove]
  | _ => False
  end.

(** A process that still answers for the registration of its job. *)
Definition leaky (o : outcome) : bool :=
  match o with ByProtocol | ByWait _ (Err _) => true | _ => false end.
Definition owner (ph : phase) : bool :=
  match ph with
  | Absent | Live | Rejected (Err _) => true
  | Called o | Notified o | Finished o => leaky o
  | _ => false
  end.

(** Only the collection of threads matters, not their order. *)
#[global] Instance pick_perm (f : thread → bool) :
  Proper ((≡ₚ) ==> (≡ₚ)) (List.filter f).
Proof.
  intros l1 l2 H. induction H as [|x l l' _ IH|x y l|]; simpl; [done| | |by etrans].
  - destruct (f x); [by apply perm_skip|done].
  - destruct (f x), (f y); [apply perm_swap|done..].
Qed.

Lemma pick_same f p ths : p_threads p ≡ₚ ths → pick f p ≡ₚ pick f (with_threads ths p).
Proof. intros H. unfold pick. simpl. by rewrite H. Qed.

Lemma pick_nil f p q : pick f p ≡ₚ pick f q → pick f p = [] → pick f q = [].
Proof. intros H E. rewrite E in H. symmetry in H. by apply Permutation_nil_r in H. Qed.

Lemma pick_one f p q th : pick f p ≡ₚ pick f q → pick f p = [th] → pick f q = [th].
Proof. intros H E. rewrite E in H. symmetry in H. by apply Permutation_singleton_r in H. Qed.

Lemma quiet_same p ths : p_threads p ≡ₚ ths → quiet p → quiet (with_threads ths p).
Proof.
  intros H [H1 H2]. split; (eapply pick_nil; [|eassumption]); by apply pick_same.
Qed.

Lemma watched_same p ths : p_threads p ≡ₚ ths → watched p → watched (with_threads ths p).
Proof.
  intros H (th & E & Hr). exists th. split.
  - eapply pick_one; [|done]. by apply pick_same.
  - intros Hj. eapply pick_nil; [|by apply Hr]. by apply pick_same.
Qed.

Lemma proc_ok_same ph p ths : p_threads p ≡ₚ ths → proc_ok ph p → proc_ok ph (with_threads ths p).
Proof.
  intros H [Ht Hp]. split; [done|].
  pose proof (pick_same is_start p ths H) as H1. pose proof (pick_same is_final p ths H) as H2.
  pose proof (quiet_same p ths H) as H4.
  destruct ph; simpl in Hp |- *.
  - destruct Hp as (? & ? & th & E & ?). rewrite E in H. symmetry in H.
    apply Permutation_singleton_r in H as ->. eauto.
  - destruct Hp as [E ?]. rewrite E in H. symmetry in H. by apply Permutation_nil_r in H as ->.
  - destruct Hp as (? & E & Hp). split_and!; [done|by eapply pick_nil|].
    destruct (p_finalized p).
    + destruct Hp as (th & Eth & Hth). exists th. split; [by eapply pick_one|].
      destruct th; try done. by destruct f; [apply H4|..].
    + destruct Hp as [? Hw]. split; [by eapply pick_nil|]. by apply watched_same.
  - destruct Hp as (? & ? & ? & ? & th & ? & ?). split_and!; eauto using pick_nil, pick_one.
  - destruct Hp as (? & ? & ? & ? & [?|?]); split_and!; eauto using pick_nil, pick_one.
  - destruct Hp as (? & ? & ? & ? & ?). split_and!; eauto using pick_nil, pick_one.
Qed.

(** ** What one step of a thread changes *)
Section effect.
Set Default Proof Using "Type*".
Context {Svc : Type} `{!TaskService Svc} `{!TaskServiceLaws Svc}.
Implicit Types (a : adapter Svc) (p : process) (th : thread).

(** A step of a thread of the process [i] in phase [ph]: the process becomes
    [p1], its labels lead to [ph'], the table of listed processes changes only
    for [i], and a job stays registered only while somebody owns it. *)
Record own_effect (i : nat) (p0 : process) (th : thread) (a : adapter Svc) (ph : phase)
    (ls : list label) (p1 : process) (s : Svc) (t : list (string * nat)) (ph' : phase) : Prop := {
  eff_job : p_job p1 = p_job p0;
  eff_labels : Forall (λ l, label_process l = i) ls;
  eff_phase : phases ph ls = Some ph';
  eff_ok : proc_ok ph' p1;
  eff_states :
    (t = a_states a ∧ (listed ph (spawn [th] p0) → listed ph' p1)) ∨
    (t = ainsert (p_job p0) i (a_states a) ∧ listed ph' p1) ∨
    t = (if bool_decide (alookup (p_job p0) (a_states a) = Some i)
         then adelete (p_job p0) (a_states a) else a_states a);
  eff_registered j :
    svc_registered j s → svc_registered j (a_service a) ∧
    (j = p_job p0 → owner ph = true → owner ph' = true);
}.

Definition updated (i : nat) (p1 : process) (s : Svc) (t : list (string * nat)) (a : adapter Svc)
    : adapter Svc :=
  Adapter s t (a_closing a) (<[i := p1]> (a_procs a)) (a_starts a) (a_shutdowns a).

(** A thread of another kind than those of [proc_ok] may come or go. *)
Definition neutral (th : thread) : bool :=
  negb (is_start th || is_reader th || is_watch th || is_final th).

Lemma pick_spawn f ths p : pick f (spawn ths p) = List.filter f ths ++ pick f p.
Proof. unfold pick. simpl. apply List.filter_app. Qed.

Lemma neutral_pick ths p f :
  forallb neutral ths = true → (f = is_start ∨ f = is_reader ∨ f = is_watch ∨ f = is_final) →
  pick f (spawn ths p) = pick f p.
Proof.
  rewrite pick_spawn. intros Hn Hf. replace (List.filter f ths) with (@nil thread); [done|].
  induction ths as [|th ths IH]; [done|]. simpl in *. apply andb_prop in Hn as [Hth Hn].
  unfold neutral in Hth. rewrite negb_true_iff, !orb_false_iff in Hth.
  destruct Hth as [[[? ?] ?] ?]. destruct Hf as [-> | [-> | [-> | ->]]]; simplify_option_eq;
    match goal with H : _ = false |- _ => rewrite H end; auto.
Qed.

(** The phases of a process whose threads were started. *)
Definition running (ph : phase) : bool :=
  match ph with Absent | Rejected _ => false | _ => true end.

Lemma ok_running ph th p : proc_ok ph (spawn [th] p) → is_start th = false → running ph = true.
Proof. intros [_ H] Hth. destruct ph; simpl in *; try done; naive_solver congruence. Qed.

Lemma ok_start ph th p :
  proc_ok ph (spawn [th] p) → is_start th = true →
  ph = Absent ∧ p_threads p = [] ∧ p_done p = false ∧ p_finalized p = false ∧
  p_terminalizing p = false.
Proof.
  intros [Ht H] Hth. simpl in Ht. destruct ph; simpl in H.
  1: destruct H as (? & ? & th' & [= <- E] & _); rewrite Ht; by split_and!.
  1: by destruct H.
  all: destruct H as (_ & H & _); rewrite pick_spawn in H; simpl in H; by rewrite Hth in H.
Qed.

(** Only these parts of a running process matter. *)
Record same_part (p q : process) : Prop := {
  part_terminalizing : p_terminalizing q = p_terminalizing p;
  part_finalized : p_finalized q = p_finalized p;
  part_done : p_done q = p_done p;
  part_start : pick is_start q = pick is_start p;
  part_final : pick is_final q = pick is_final p;
  part_watch : p_finalized p = false → watched p → watched q;
  part_quiet : quiet p → quiet q;
}.

Lemma ok_frame ph p q :
  running ph = true → same_part p q → proc_ok ph p →
  proc_ok ph q ∧ (listed ph p → listed ph q).
Proof.
  intros Hr [E1 E2 E3 E4 E5 E6 Hq] [Ht H]. split; [split; [congruence|]|].
  - destruct ph; try done; rewrite E3, E4, E2, E5; [|naive_solver..].
    destruct H as (? & ? & H). split_and!; [done..|]. destruct (p_finalized p).
    + destruct H as (th & ? & Hth). exists th. split; [done|].
      destruct th as [| | | | | | | | |[]| | | | |]; naive_solver.
    + destruct H as [? Hw]. split; [done|]. by apply E6.
  - destruct ph; simpl; try done. by rewrite E5.
Qed.

Lemma ok_feed ph th p i b c :
  proc_ok ph (spawn [th] p) → is_reader th || is_watch th = true →
  phases ph [LFeed i b c] = Some ph.
Proof.
  intros Hok Hth.
  assert (Hr : running ph = true) by (eapply ok_running; [done|by destruct th]).
  assert (Hn : ¬ quiet (spawn [th] p)).
  { intros [H1 H2]. rewrite pick_spawn in H1, H2. simpl in H1, H2.
    by destruct (is_reader th), (is_watch th). }
  destruct Hok as [_ H]. destruct ph; simpl; try done; simpl in H.
  all: destruct (may_feed o) eqn:E; [done|]; exfalso; naive_solver.
Qed.

Lemma effect_frame i p0 th a ph ls p1 s :
  proc_ok ph (spawn [th] p0) → is_start th = false → same_part (spawn [th] p0) p1 →
  p_job p1 = p_job p0 →
  (ls = [] ∨ is_reader th || is_watch th = true ∧ ∃ b c, ls = [LFeed i b c]) →
  (∀ j, svc_registered j s → svc_registered j (a_service a)) →
  own_effect i p0 th a ph ls p1 s (a_states a) ph.
Proof.
  intros Hok Hth Hp Hj Hls Hs.
  destruct (ok_frame ph _ p1 (ok_running _ _ _ Hok Hth) Hp Hok) as [Hok1 Hl].
  split; [done| | |done|by left|by eauto].
  - destruct Hls as [-> |(_ & b & c & ->)]; by repeat constructor.
  - destruct Hls as [-> |(Hr & b & c & ->)]; [done|by eapply ok_feed].
Qed.

(** Solves [same_part] where both sides are concrete up to the other threads. *)
Ltac same_part_tac :=
  split; unfold quiet, watched; rewrite ?pick_spawn; simpl; try done; try (by intros [? ?]);
  try (intros _ (th' & E' & H'); exists th'; split; [done|intros J'; by specialize (H' J')]).

Lemma effect_read i b p0 a ph ls a' :
  proc_ok ph (spawn [Reader b] p0) → read_step i b p0 a = Some (ls, a') →
  ∃ p1 s, a' = updated i p1 s (a_states a) a ∧
    own_effect i p0 (Reader b) a ph ls p1 s (a_states a) ph.
Proof.
  intros Hok. unfold read_step. destruct (if b then p_stderr p0 else p_stdout p0) as [|c rest].
  - destruct (if b then p_stderr_end p0 else p_stdout_end p0); [|done]. intros [= <- <-].
    eexists _, _. split; [done|]. apply effect_frame; auto. same_part_tac.
  - pose proof (law_feed_stdout (p_job p0) c (a_service a)) as H1.
    pose proof (law_feed_stderr (p_job p0) c (a_service a)) as H2.
    destruct ((if b then _ else _) _ _ _) as [s r] eqn:E. intros [= <- <-].
    eexists _, s. split; [done|]. apply effect_frame; auto.
    + destruct r as [[]|], b; same_part_tac.
    + by destruct r as [[]|], b.
    + right. split; [done|]. by eexists _, _.
    + destruct b; simpl in E; [rewrite E in H2|rewrite E in H1]; auto.
Qed.

(** The watching thread goes on. *)
Lemma watched_next th th' p q :
  is_watch th = true → is_watch th' = true → watched (spawn [th] p) →
  (joined th' = true → pick is_reader p = []) →
  pick is_watch q = pick is_watch p → pick is_reader q = pick is_reader p →
  watched (spawn [th'] q).
Proof.
  intros H1 H2 (th1 & E & _) Hj Ew Er. exists th'. rewrite !pick_spawn in *. simpl in *.
  rewrite H1 in E. injection E as _ E. rewrite H2, Ew, E. split; [done|]. intros J.
  rewrite Er, (Hj J). by destruct th'.
Qed.

Lemma effect_wait i p0 a ph ls a' :
  proc_ok ph (spawn [Waiter] p0) → wait_step i p0 a = Some (ls, a') →
  ∃ p1 s, a' = updated i p1 s (a_states a) a ∧
    own_effect i p0 Waiter a ph ls p1 s (a_states a) ph.
Proof.
  intros Hok. unfold wait_step. destruct (p_exit p0) as [[code|text]|]; [| |done].
  - intros [= <- <-]. eexists _, _. split; [done|]. apply effect_frame; auto. same_part_tac.
    intros _ Hw. by apply (watched_next Waiter (Join code) p0 (with_stopped true (p_forced p0) p0)).
  - pose proof (law_feed_stderr (p_job p0) text (a_service a)) as H.
    destruct (law_stderr_total (p_job p0) text (a_service a)) as [b Hb].
    destruct (svc_feed_stderr _ _ _) as [s r]. simpl in Hb, H. subst r. intros [= <- <-].
    eexists _, s. split; [done|]. apply effect_frame; auto.
    + same_part_tac. intros _ Hw.
      by apply (watched_next Waiter (Join (-1)) p0 (with_stopped true (p_forced p0) p0)).
    + right. split; [done|]. by eexists _, _.
Qed.

Lemma effect_stop i k st p0 a ph :
  proc_ok ph (spawn [Stop k st] p0) →
  ∃ p1 s, stop_step i k st p0 a = updated i p1 s (a_states a) a ∧
    own_effect i p0 (Stop k st) a ph [] p1 s (a_states a) ph.
Proof.
  intros Hok. pose proof (law_request_cancel (p_job p0) (a_service a)) as Hs.
  assert (H : ∀ p1 s, same_part (spawn [Stop k st] p0) p1 → p_job p1 = p_job p0 →
    (∀ j, svc_registered j s → svc_registered j (a_service a)) →
    ∃ p1' s', updated i p1 s (a_states a) a = updated i p1' s' (a_states a) a ∧
      own_effect i p0 (Stop k st) a ph [] p1' s' (a_states a) ph).
  { intros p1 s Hp Hj Hs'. exists p1, s. split; [done|]. by apply effect_frame; auto. }
  unfold stop_step. destruct st.
  - destruct (svc_request_cancel _ _) as [s r]. apply H; [|done..].
    destruct r, k; same_part_tac.
  - destruct (_ || _); apply H; auto; same_part_tac.
  - apply H; auto; same_part_tac.
  - destruct (p_done p0); apply H; auto; same_part_tac.
  - apply H; auto; destruct k; same_part_tac.
  - destruct (p_done p0); apply H; auto; destruct k; same_part_tac.
Qed.

(** Taking the claim, and failing to. *)
Lemma effect_claim i f p0 a ph :
  proc_ok ph (spawn [Claim f] p0) →
  ∃ p1, own_effect i p0 (Claim f) a ph [] p1 (a_service a) (a_states a) ph ∧
    p1 = if p_finalized p0 then p0 else spawn [Call f] (with_claimed p0).
Proof.
  intros Hok. destruct (p_finalized p0) eqn:Ef; eexists; (split; [|done]).
  - apply effect_frame; auto. destruct f; same_part_tac; by rewrite Ef.
  - assert (Hr : running ph = true) by by eapply ok_running. destruct Hok as [Ht Hp].
    destruct ph; try done; simpl in Hp; rewrite Ef in Hp; try naive_solver.
    destruct Hp as (Hd & Hs & Hfin & Hw).
    split; [done|constructor|done| |by left|by eauto]. split; [done|]. simpl.
    split_and!; [done|done|]. exists (Call f). rewrite pick_spawn in *. simpl in *.
    change (pick is_final (with_claimed p0)) with (pick is_final p0).
    split; [by rewrite Hfin|]. destruct f as [code| |]; [|done..].
    destruct Hw as (th & E & Hj). rewrite pick_spawn in E, Hj. injection E as <- E. simpl in Hj.
    by split; [apply Hj|].
Qed.

(** The steps that end a process. *)
Lemma ok_call f p ph :
  proc_ok ph (spawn [Call f] p) →
  ph = Live ∧ p_terminalizing p = true ∧ p_finalized p = true ∧ p_done p = false ∧
  pick is_start p = [] ∧ pick is_final p = [] ∧ claimed_thread (spawn [Call f] p) (Call f).
Proof.
  intros Hok. assert (Hr : running ph = true) by by eapply ok_running.
  destruct Hok as [Ht Hp]. simpl in Ht.
  destruct ph; try done; simpl in Hp; rewrite !pick_spawn in Hp; simpl in Hp.
  - destruct Hp as (? & ? & Hp). destruct (p_finalized p); [|naive_solver].
    destruct Hp as (th & [= <- ?] & ?). by split_and!.
  - by destruct Hp as (? & ? & ? & ? & th & [= <- ?] & ? & ? & ?).
  - by destruct Hp as (? & ? & ? & ? & [? | ?]).
  - by destruct Hp as (? & ? & ? & ? & ?).
Qed.

Lemma effect_call i f p0 a ph ls a' :
  proc_ok ph (spawn [Call f] p0) → call_step i f p0 a = (ls, a') →
  ∃ p1 s ph', a' = updated i p1 s (a_states a) a ∧
    own_effect i p0 (Call f) a ph ls p1 s (a_states a) ph'.
Proof.
  intros (-> & Ht & Ef & Hd & Hs & Hfin & Hc)%ok_call. rewrite <- Ef in Ht.
  unfold call_step. destruct f as [code| |].
  - pose proof (law_complete (p_job p0) code (a_service a)) as Hl.
    destruct (svc_complete _ _ _) as [s r]. intros [= <- <-].
    eexists _, s, (Called (ByWait code r)). split; [done|].
    split; [done|by repeat constructor|done| |by left|].
    + split; [done|]. simpl. split_and!; [done..|]. eexists. rewrite pick_spawn. simpl.
      rewrite Hfin. split; [done|].
      exists (Completion "" "" (Some code) (final_payload r) (cancelled_payload (final_payload r)) false).
      split; [done|]. simpl. rewrite !bool_decide_true by done. simpl. by apply eqb_reflx.
    + intros j Hj. destruct (Hl s r j eq_refl Hj) as [? He]. split; [done|]. intros -> _.
      destruct (He eq_refl) as [e ->]. done.
  - intros [= <- <-]. eexists _, _, Live. split; [done|].
    split; [done|constructor|done| |by left|by eauto].
    split; [done|]. simpl. split_and!; [done..|]. rewrite Ef. eexists. rewrite pick_spawn. simpl.
    change (pick is_final (with_pipes [] [] true true p0)) with (pick is_final p0).
    rewrite Hfin. split; [done|]. simpl.
    by eexists (Completion "" "" (exit_message_code (p_exit p0)) None false false).
  - intros [= <- <-]. eexists _, _, (Called ByAbandon). split; [done|].
    split; [done|by repeat constructor|done| |by left|].
    + split; [done|]. simpl. split_and!; [done..|]. eexists. rewrite pick_spawn. simpl.
      rewrite Hfin. split; [done|]. by exists (Completion "" "" None None true false).
    + intros j Hj. apply law_abandon in Hj as [? Hne]. done.
Qed.
Lemma ok_notify e d c p ph :
  proc_ok ph (spawn [Notify e d c] p) →
  ∃ o, (ph = Called o ∨ ph = Live ∧ o = ByProtocol) ∧ final_thread o (Notify e d c) ∧
  p_terminalizing p = true ∧ p_finalized p = true ∧ p_done p = false ∧ pick is_start p = [] ∧
  pick is_final p = [] ∧ (may_feed o = false → quiet p).
Proof.
  intros Hok. assert (Hr : running ph = true) by by eapply ok_running.
  destruct Hok as [Ht Hp]. simpl in Ht.
  destruct ph as [| | |o|o|o]; try done; simpl in Hp; rewrite !pick_spawn in Hp; simpl in Hp.
  - destruct Hp as (? & ? & Hp). destruct (p_finalized p) eqn:Ef; [|naive_solver].
    destruct Hp as (th & [= <- ?] & ?). exists ByProtocol. split_and!; try done; by right.
  - destruct Hp as (? & ? & ? & Hq & th & [= <- ?] & ?). exists o. split_and!; try done; [by left|congruence].
  - by destruct Hp as (? & ? & ? & ? & [? | ?]).
  - by destruct Hp as (? & ? & ? & ? & ?).
Qed.

Lemma effect_notify i e d c p0 a ph :
  proc_ok ph (spawn [Notify e d c] p0) →
  ∃ ph', own_effect i p0 (Notify e d c) a ph
    [LNotify i (Completion (p_job p0) (p_type p0) e d c (p_forced p0))]
    (spawn [Remove] p0) (a_service a) (a_states a) ph'.
Proof.
  intros (o & Hph & (c' & Hn & Ha) & Ht & Ef & Hd & Hs & Hfin & Hq)%ok_notify.
  injection Hn as -> -> ->. exists (Notified o).
  assert (Ha' : announces o (Completion (p_job p0) (p_type p0) (c_exit_code c') (c_payload c')
                               (c_cancelled c') (p_forced p0)) = true) by by destruct o.
  split; [done|by repeat constructor| | |left|].
  - destruct Hph as [-> |[-> ->]]; simpl in *; by rewrite Ha'.
  - split; [simpl; congruence|]. simpl. rewrite !pick_spawn. simpl. rewrite Hfin.
    split_and!; [done..| |by left]. intros Ho. destruct (Hq Ho). by split; rewrite pick_spawn.
  - split; [done|]. intros _. simpl. by rewrite pick_spawn, Hfin.
  - intros j Hj. split; [done|]. intros _. by destruct Hph as [-> |[-> ->]].
Qed.

Lemma ok_last th p ph :
  th = Remove ∨ th = SetDone → proc_ok ph (spawn [th] p) →
  ∃ o, ph = Notified o ∧ p_terminalizing p = true ∧ p_finalized p = true ∧ p_done p = false ∧
  pick is_start p = [] ∧ pick is_final p = [] ∧ (may_feed o = false → quiet p).
Proof.
  intros Hth Hok. assert (Hr : running ph = true) by by (eapply ok_running; [|destruct Hth as [-> | ->]]).
  destruct Hok as [Ht Hp]. simpl in Ht.
  assert (Hf : pick is_final (spawn [th] p) = th :: pick is_final p)
    by (rewrite pick_spawn; by destruct Hth as [-> | ->]).
  destruct ph as [| | |o|o|o]; try done; simpl in Hp; rewrite Hf in Hp.
  - destruct Hp as (? & ? & Hp). destruct (p_finalized p); [|naive_solver].
    destruct Hp as (th' & [= <- ?] & Hc). destruct Hth as [-> | ->]; by destruct Hc as (? & ? & ?).
  - destruct Hp as (? & ? & ? & Hq & th' & [= <- ?] & ? & ? & ?). by destruct Hth as [-> | ->].
  - destruct Hp as (? & Hs & ? & Hq & Hx). exists o. rewrite pick_spawn in Hs.
    assert (Hss : pick is_start p = []) by by destruct Hth as [-> | ->].
    split_and!; try done; [congruence|by destruct Hx as [[= _ ?]|[= _ ?]]|].
    intros Ho. destruct (Hq Ho) as [H1 H2]. rewrite pick_spawn in H1, H2.
    by destruct Hth as [-> | ->].
  - by destruct Hp as (? & ? & ? & ? & ?).
Qed.

Lemma effect_remove i p0 a ph :
  proc_ok ph (spawn [Remove] p0) →
  own_effect i p0 Remove a ph [] (spawn [SetDone] (with_stopped true (p_forced p0) p0)) (a_service a)
    (if bool_decide (alookup (p_job p0) (a_states a) = Some i)
     then adelete (p_job p0) (a_states a) else a_states a) ph.
Proof.
  intros (o & -> & Ht & Ef & Hd & Hs & Hfin & Hq)%ok_last; [|by left].
  split; [done|constructor|done| |by right; right|by eauto].
  split; [simpl; congruence|]. simpl. rewrite !pick_spawn. simpl.
  change (pick ?f (with_stopped _ _ p0)) with (pick f p0). rewrite Hfin.
  split_and!; [done..| |by right]. intros Ho. destruct (Hq Ho). by split; rewrite pick_spawn.
Qed.

Lemma effect_done i p0 a ph :
  proc_ok ph (spawn [SetDone] p0) →
  ∃ ph', own_effect i p0 SetDone a ph [LDone i] (with_done p0) (a_service a) (a_states a) ph'.
Proof.
  intros (o & -> & Ht & Ef & Hd & Hs & Hfin & Hq)%ok_last; [|by right]. exists (Finished o).
  split; [done|by repeat constructor|done| |left|by eauto].
  - split; [simpl; congruence|]. by split_and!.
  - split; [done|]. simpl. by rewrite pick_spawn.
Qed.
(** The threads of [start_job]. *)
Lemma effect_start i th p0 a ph ls a' :
  is_start th = true → proc_ok ph (spawn [th] p0) → thread_step i p0 th a = Some (ls, a') →
  ∃ p1 s t ph', a' = updated i p1 s t a ∧ own_effect i p0 th a ph ls p1 s t ph'.
Proof.
  intros Hth Hok. destruct (ok_start _ _ _ Hok Hth) as (-> & Hths & Hd & Hf & Ht).
  assert (Hnext : ∀ th', is_start th' = true → proc_ok Absent (spawn [th'] p0)).
  { intros th' Hth'. split; [simpl; congruence|]. split_and!; [done..|]. exists th'. simpl.
    by rewrite Hths. }
  destruct th; try done; simpl.
  - intros [= <- <-]. eexists _, _, _, Absent. split; [done|].
    split; [done|constructor|done|by apply Hnext|by left|]. intros j Hj%law_mark_running. done.
  - destruct (a_closing a); intros [= <- <-].
    + eexists _, _, _, Absent. split; [done|].
      split; [done|constructor|done|by apply Hnext|by left|done].
    + eexists _, _, _, Live. split; [done|].
      split; [done|by repeat constructor|done| |right; left; done|done].
      split; [simpl; congruence|]. simpl. rewrite Hf. unfold watched, pick. simpl.
      rewrite Hths. split_and!; try done. by exists Waiter.
  - intros [= <- <-]. eexists _, _, _, Absent. split; [done|].
    split; [done|constructor|done|by apply Hnext|by left|done].
  - pose proof (law_request_cancel (p_job p0) (a_service a)) as Hc.
    destruct (svc_request_cancel _ _) as [s r]. intros [= <- <-].
    destruct r as [z|e]; eexists _, _, _, _; (split; [done|]).
    + split; [done|by repeat constructor|done| |by left|].
      * split; [simpl; congruence|]. done.
      * intros j [Hj Hne]%law_fail_start. split; [by apply Hc|done].
    + split; [done|by repeat constructor|done| |by left|]; [|eauto].
      split; [simpl; congruence|]. done.
Qed.

(** Every step: on its own process, then perhaps a request to stop one. *)
Lemma thread_effect i th p0 a ph ls a' :
  proc_ok ph (spawn [th] p0) → thread_step i p0 th a = Some (ls, a') →
  ∃ p1 s t ph', own_effect i p0 th a ph ls p1 s t ph' ∧
    (a' = updated i p1 s t a ∨ a' = cancel_job (p_job p0) (updated i p1 s t a) ∨
     a' = schedule_protocol_termination (p_job p0) (updated i p1 s t a)).
Proof.
  intros Hok. destruct (is_start th) eqn:Hth.
  { intros (p1 & s & t & ph' & -> & He)%(effect_start _ _ _ _ ph); eauto 8. }
  destruct th as [| | | |b| | |code|f|f|e d c| | |k st|]; try done; simpl.
  - intros (p1 & s & -> & He)%(effect_read _ _ _ _ ph); eauto 8.
  - intros [= <- <-]. exists p0, (a_service a), (a_states a), ph. split; [|by right; right].
    apply effect_frame; auto. same_part_tac.
  - intros (p1 & s & -> & He)%(effect_wait _ _ _ ph); eauto 8.
  - destruct (existsb is_reader (p_threads p0)) eqn:Ex; [done|]. intros [= <- <-].
    eexists _, _, _, ph. split; [|by left]. apply effect_frame; auto. same_part_tac.
    intros _ Hw. apply (watched_next (Join code) (Claim (FWait code)) p0 p0); try done. intros _.
    unfold pick. induction (p_threads p0) as [|th ths IH]; [done|]. simpl in *.
    destruct (is_reader th); [done|]. by apply IH.
  - intros [= <- <-]. destruct (effect_claim i f p0 a ph Hok) as (p1 & He & <-). eexists _, _, _, _. split; [exact He|by left].
  - intros [= H]. destruct (effect_call i f p0 a ph ls a' Hok H) as (p1 & s & ph' & -> & He). eauto 8.
  - intros [= <- <-]. destruct (effect_notify i e d c p0 a ph Hok) as [ph' He]. eauto 8.
  - intros [= <- <-]. eexists _, _, _, _. split; [by apply effect_remove|]. left. by case_bool_decide.
  - intros [= <- <-]. destruct (effect_done i p0 a ph Hok) as [ph' He]. eauto 8.
  - intros [= <- <-]. destruct (effect_stop i k st p0 a ph Hok) as (p1 & s & -> & He). eauto 8.
  - intros [= <- <-]. exists p0, (a_service a), (a_states a), ph. split; [|by right; left].
    apply effect_frame; auto. same_part_tac.
Qed.

(** ** The invariant of the host *)
Definition phased (ls : list label) (a : adapter Svc) (i : nat) (p : process) (ph : phase) : Prop :=
  a_procs a !! i = Some p ∧ phase_after i ls = Some ph.

Record host_inv (ls : list label) (a : adapter Svc) : Prop := {
  inv_absent i : a_procs a !! i = None → phase_after i ls = Some Absent;
  inv_phase i p : a_procs a !! i = Some p → ∃ ph, phase_after i ls = Some ph ∧ proc_ok ph p;
  inv_keys : NoDup (a_states a).*1;
  inv_listed job i :
    alookup job (a_states a) = Some i →
    ∃ p ph, phased ls a i p ph ∧ p_job p = job ∧ listed ph p;
  inv_registered j :
    svc_registered j (a_service a) →
    (∃ l, l ∈ a_starts a ∧ job_id (l_job l) = j) ∨
    (∃ i p ph, phased ls a i p ph ∧ p_job p = j ∧ owner ph = true);
}.

Lemma lookup_put {A} i k (x y : A) (l : list A) :
  l !! i = Some y → <[i := x]> l !! k = if decide (k = i) then Some x else l !! k.
Proof.
  intros Hl. destruct (decide (k = i)) as [->|]; [|by apply list_lookup_insert_ne].
  apply list_lookup_insert_eq. by eapply lookup_lt_Some.
Qed.

(** Replacing a process by one that serves as well. *)
Lemma inv_put ls a i p q :
  host_inv ls a → a_procs a !! i = Some p → p_job q = p_job p →
  (∀ ph, phase_after i ls = Some ph → proc_ok ph p → proc_ok ph q ∧ (listed ph p → listed ph q)) →
  host_inv ls (put i q a).
Proof.
  intros Hi Hp Hj Hq. pose proof (λ k, lookup_put i k q p _ Hp) as Hl.
  split; simpl; [| |apply Hi| |].
  - intros k. rewrite Hl. case_decide; [done|]. apply Hi.
  - intros k p'. rewrite Hl. case_decide; [|apply Hi]. intros [= <-]. subst k.
    destruct (inv_phase _ _ Hi i p Hp) as (ph & Hph & Hok). exists ph. by destruct (Hq ph).
  - intros job k Hk. destruct (inv_listed _ _ Hi job k Hk) as (p' & ph & [Hp' Hph] & Hjob & Hls).
    unfold phased. simpl. setoid_rewrite Hl. case_decide; [|by exists p', ph].
    subst k. replace p' with p in * by congruence. exists q, ph. split_and!; [done..|congruence|].
    destruct (inv_phase _ _ Hi i p Hp) as (ph' & Hph' & Hok).
    replace ph' with ph in * by congruence. destruct (Hq ph) as [_ H]; auto.
  - intros j Hjr. destruct (inv_registered _ _ Hi j Hjr) as [H|(k & p' & ph & [Hp' Hph] & Hjob & Ho)].
    { by left. }
    right. exists k, (if decide (k = i) then q else p'), ph. unfold phased. simpl.
    rewrite Hl. case_decide; [|done]. subst. split_and!; [done..| |done].
    rewrite Hj. congruence.
Qed.

Lemma in_alookup {V} (k : string) (v : V) (l : list (string * V)) :
  NoDup l.*1 → (k, v) ∈ l → alookup k l = Some v.
Proof.
  induction l as [|[k' v'] l IH]; intros Hnd Hin; [by apply not_elem_of_nil in Hin|].
  simpl in *. apply NoDup_cons in Hnd as [Hn Hnd]. apply elem_of_cons in Hin as [[= <- <-]|Hin].
  - by rewrite decide_True.
  - rewrite decide_False; [by apply IH|]. intros ->. apply Hn.
    apply list_elem_of_fmap. by exists (k', v).
Qed.

(** A request to stop adds a neutral thread to a listed process. *)
Lemma inv_nudge ls a job i p ths b b' :
  host_inv ls a → alookup job (a_states a) = Some i → a_procs a !! i = Some p →
  forallb neutral ths = true → host_inv ls (put i (spawn ths (with_scheduled b b' p)) a).
Proof.
  intros Hi Hs Hp Hn. apply (inv_put _ _ _ p); [done..|]. intros ph Hph Hok.
  destruct (inv_listed _ _ Hi job i Hs) as (p' & ph' & [Hp' Hph'] & _ & Hl).
  replace ph' with ph in * by congruence.
  assert (Hk : ∀ f, f = is_start ∨ f = is_reader ∨ f = is_watch ∨ f = is_final →
    pick f (spawn ths (with_scheduled b b' p)) = pick f p).
  { intros f Hf. by rewrite (neutral_pick ths (with_scheduled b b' p) f Hn Hf). }
  apply (ok_frame ph p); [by destruct ph| |done].
  split; unfold watched, quiet; try done; rewrite ?Hk by auto; done.
Qed.

Lemma inv_cancel_job ls a job : host_inv ls a → host_inv ls (cancel_job job a).
Proof.
  intros Hi. unfold cancel_job, live_state.
  destruct (alookup job (a_states a)) as [i|] eqn:Hs; [|done]. simpl.
  destruct (a_procs a !! i) as [p|] eqn:Hp; [|done]. simpl.
  destruct (ending p); [done|]. destruct (p_cancel_scheduled p); [done|]. by eapply inv_nudge.
Qed.

Lemma inv_force_stop ls a job : host_inv ls a → host_inv ls (force_stop_job job a).
Proof.
  intros Hi. unfold force_stop_job, live_state.
  destruct (alookup job (a_states a)) as [i|] eqn:Hs; [|done]. simpl.
  destruct (a_procs a !! i) as [p|] eqn:Hp; [|done]. simpl.
  destruct (ending p); [done|]. by eapply inv_nudge.
Qed.

Lemma inv_schedule ls a job : host_inv ls a → host_inv ls (schedule_protocol_termination job a).
Proof.
  intros Hi. unfold schedule_protocol_termination.
  destruct (alookup job (a_states a)) as [i|] eqn:Hs; [|done].
  destruct (a_procs a !! i) as [p|] eqn:Hp; [|done].
  destruct (_ || _); [done|]. by eapply inv_nudge.
Qed.

Lemma listed_same ph p ths : p_threads p ≡ₚ ths → listed ph p → listed ph (with_threads ths p).
Proof.
  intros H. destruct ph; simpl; try done. intros E. eapply pick_one; [|done]. by apply pick_same.
Qed.

(** The entries of the other processes stay. *)
Lemma table_others i k job job0 (t t0 : list (string * nat)) :
  t = t0 ∨ t = ainsert job0 i t0 ∨
  t = (if bool_decide (alookup job0 t0 = Some i) then adelete job0 t0 else t0) →
  alookup job t = Some k → k ≠ i → alookup job t0 = Some k.
Proof.
  intros Ht Hs Hne. destruct Ht as [-> |[-> | ->]]; [done| |].
  - destruct (decide (job = job0)) as [->|Hj]; [rewrite alookup_ainsert_eq in Hs; congruence|].
    by rewrite alookup_ainsert_ne in Hs.
  - case_bool_decide as Hb; [|done].
    destruct (decide (job = job0)) as [->|Hj]; [by rewrite alookup_adelete_eq in Hs|].
    by rewrite alookup_adelete_ne in Hs.
Qed.

(** The step of one thread on its own process. *)
Lemma inv_own ls a i p0 th ph ls' p1 s t ph' :
  host_inv ls a → phased ls a i (spawn [th] p0) ph → own_effect i p0 th a ph ls' p1 s t ph' →
  host_inv (ls ++ ls') (updated i p1 s t a).
Proof.
  intros Hi [Hp Hph] [Hj Hl Hps Hok Ht Hr].
  pose proof (λ k, lookup_put i k p1 _ _ Hp) as Hput.
  assert (Hi' : phase_after i (ls ++ ls') = Some ph').
  { rewrite phase_after_own by done. by rewrite Hph. }
  assert (Hk : ∀ k, k ≠ i → phase_after k (ls ++ ls') = phase_after k ls).
  { intros k Hk. apply phase_after_other. eapply Forall_impl; [done|]. simpl. congruence. }
  assert (Hold : ∀ job k, k ≠ i → alookup job (a_states a) = Some k →
    ∃ p ph, phased (ls ++ ls') (updated i p1 s t a) k p ph ∧ p_job p = job ∧ listed ph p).
  { intros job k Hne Hs. destruct (inv_listed _ _ Hi job k Hs) as (p & phk & [? ?] & ? & ?).
    exists p, phk. split_and!; [split; simpl; [by rewrite Hput, decide_False|by rewrite Hk]|done..]. }
  assert (Hnew : listed ph' p1 → ∃ p ph, phased (ls ++ ls') (updated i p1 s t a) i p ph ∧
    p_job p = p_job p0 ∧ listed ph p).
  { intros Hls. exists p1, ph'. split_and!; [split; simpl; [by rewrite Hput, decide_True|done]|done..]. }
  split; simpl.
  - intros k. rewrite Hput. destruct (decide (k = i)); [done|]. rewrite Hk by done. apply Hi.
  - intros k p. rewrite Hput. destruct (decide (k = i)) as [->|]; [|rewrite Hk by done; apply Hi].
    intros [= <-]. by exists ph'.
  - destruct Hi. destruct Ht as [[-> _]|[[-> _]| ->]]; [done|by apply ainsert_NoDup|].
    case_bool_decide; [by apply adelete_NoDup|done].
  - assert (Hlisted : ∀ job, alookup job (a_states a) = Some i → job = p_job p0 ∧ listed ph (spawn [th] p0)).
    { intros job Hs. destruct (inv_listed _ _ Hi job i Hs) as (p & ph1 & [Hp' Hph'] & <- & Hls).
      simplify_eq. by split. }
    intros job k Hs. destruct (decide (k = i)) as [->|Hne].
    2: { apply Hold; [done|]. eapply table_others; [|exact Hs|done]. naive_solver. }
    destruct Ht as [[-> H]|[[-> H]| ->]].
    + destruct (Hlisted job Hs) as [-> Hls]. by apply Hnew, H.
    + destruct (decide (job = p_job p0)) as [->|Hj']; [by apply Hnew|].
      rewrite alookup_ainsert_ne in Hs by done. by destruct (Hlisted job Hs) as [-> _].
    + exfalso. case_bool_decide as Hb; [|by destruct (Hlisted job Hs) as [-> _]].
      destruct (decide (job = p_job p0)) as [->|Hj']; [by rewrite alookup_adelete_eq in Hs|].
      rewrite alookup_adelete_ne in Hs by done. by destruct (Hlisted job Hs) as [-> _].
  - intros j Hjr. destruct (Hr j Hjr) as [Hjr' Ho].
    destruct (inv_registered _ _ Hi j Hjr') as [H|(k & p & phk & [Hp' Hph'] & Hjob & Hown)]; [by left|].
    right. destruct (decide (k = i)) as [->|Hne].
    + simplify_eq. exists i, p1, ph'. unfold phased. simpl. rewrite Hput, decide_True by done. auto.
    + exists k, p, phk. unfold phased. simpl. by rewrite Hput, decide_False, Hk.
Qed.

Lemma inv_thread ls a i k ls' a' :
  host_inv ls a → perform (MThread i k) a = Some (ls', a') → host_inv (ls ++ ls') a'.
Proof.
  intros Hi. simpl. intros (p & Hp & (th & Hth & H)%bind_Some)%bind_Some.
  apply delete_Permutation in Hth as Hperm. set (p0 := with_threads _ p) in H.
  destruct (inv_phase _ _ Hi i p Hp) as (ph & Hph & Hok).
  assert (Hi0 : host_inv ls (put i (spawn [th] p0) a)).
  { apply (inv_put _ _ _ p); [done..|]. intros ph1 _ Hok1.
    split; [by apply (proc_ok_same ph1 p)|by apply (listed_same ph1 p)]. }
  assert (Hok0 : proc_ok ph (spawn [th] p0)) by by apply (proc_ok_same ph p).
  destruct (thread_effect i th p0 a ph ls' a' Hok0 H) as (p1 & s & t & ph' & He & Ha').
  assert (Hu : host_inv (ls ++ ls') (updated i p1 s t a)).
  { replace (updated i p1 s t a) with (updated i p1 s t (put i (spawn [th] p0) a)).
    - eapply inv_own; [exact Hi0| |by destruct He; split].
      split; [|done]. simpl. by rewrite (lookup_put i i _ _ _ Hp), decide_True.
    - unfold updated, put. simpl. by rewrite list_insert_insert_eq. }
  destruct Ha' as [-> |[-> | ->]]; [done|by apply inv_cancel_job|by apply inv_schedule].
Qed.
(** Requests that leave the processes and the table alone. *)
Lemma inv_service ls a s closing starts n :
  host_inv ls a →
  (∀ j, svc_registered j s → svc_registered j (a_service a) ∨ ∃ l, l ∈ starts ∧ job_id (l_job l) = j) →
  (∀ j l, svc_registered j s → l ∈ a_starts a → job_id (l_job l) = j →
     ∃ l', l' ∈ starts ∧ job_id (l_job l') = j) →
  host_inv ls (Adapter s (a_states a) closing (a_procs a) starts n).
Proof.
  intros Hi Hs Hl. split; simpl; [apply Hi|apply Hi|apply Hi|apply Hi|].
  intros j Hj. destruct (Hs j Hj) as [Hj'|?]; [|by left].
  destruct (inv_registered _ _ Hi j Hj') as [(l & ? & ?)|H]; [left|by right]. by eapply Hl.
Qed.

Lemma inv_start ls a fresh job : host_inv ls a → host_inv ls (start_job fresh job a).1.
Proof.
  intros Hi. unfold start_job. destruct (a_closing a); [done|].
  destruct (svc_prepare _ _ _) as [s r] eqn:E. apply inv_service; [done| |].
  - intros j Hj. destruct (law_prepare _ _ _ _ _ _ E Hj) as [?|(l & -> & ?)]; [by left|right].
    exists l. split; [|done]. set_solver.
  - intros j l _ Hin Hj. exists l. split; [|done]. destruct r; [|done]. set_solver.
Qed.

Lemma inv_shutdown_begin ls a : host_inv ls a → host_inv ls (shutdown_begin a).
Proof.
  intros Hi. unfold shutdown_begin. pose proof (law_begin_shutdown (a_service a)) as H.
  destruct (svc_begin_shutdown _) as [s r]. apply inv_service; [done|by eauto|by eauto].
Qed.

Lemma inv_start_process ls a k out a' :
  host_inv ls a → start_process k out a = Some a' → host_inv ls a'.
Proof.
  intros Hi. unfold start_process. intros (l & Hl & [= <-])%bind_Some.
  apply delete_Permutation in Hl as Hperm.
  assert (Hin : ∀ l', l' ∈ a_starts a → l' = l ∨ l' ∈ delete k (a_starts a)).
  { intros l' Hl'. rewrite Hperm in Hl'. by apply elem_of_cons in Hl'. }
  destruct out as [m|[out err]].
  - apply inv_service; [done| |].
    + intros j [? _]%law_fail_start. by left.
    + intros j l' [_ Hne]%law_fail_start Hl' Hj. exists l'. split; [|done].
      destruct (Hin l' Hl') as [-> |?]; [by rewrite Hj in Hne|done].
  - split; simpl; [| |apply Hi| |].
    + intros i Hn. apply Hi, lookup_ge_None. apply lookup_ge_None in Hn. rewrite length_app in Hn. lia.
    + intros i p [Hp|[Hge Hp]]%lookup_app_Some; [by apply Hi|].
      apply list_lookup_singleton_Some in Hp as [Hz <-]. exists Absent.
      split; [apply Hi; apply lookup_ge_None; lia|]. split; [done|]. by split_and!; try exists StartMark.
    + intros job i Hs. destruct (inv_listed _ _ Hi job i Hs) as (p & ph & [? ?] & ? & ?).
      exists p, ph. split_and!; [split; [by apply lookup_app_l_Some|done]|done..].
    + intros j Hj. destruct (inv_registered _ _ Hi j Hj) as [(l' & Hl' & Hj')|(i & p & ph & [? ?] & ? & ?)].
      * destruct (Hin l' Hl') as [-> |?]; [right|left; by exists l'].
        exists (length (a_procs a)), (new_process l out err), Absent.
        split_and!; [|done..]. split; simpl; [by rewrite list_lookup_middle|].
        apply Hi, lookup_ge_None. lia.
      * right. exists i, p, ph. split_and!; [split; [by apply lookup_app_l_Some|done]|done..].
Qed.

Lemma stop_at_shutdown_states i a : a_states (stop_at_shutdown i a) = a_states a.
Proof. unfold stop_at_shutdown. destruct (a_procs a !! i); [|done]. by destruct (ending p). Qed.

Lemma inv_stop_all ls idx a :
  host_inv ls a → (∀ i, i ∈ idx → ∃ job, alookup job (a_states a) = Some i) →
  host_inv ls (foldl (λ a i, stop_at_shutdown i a) a idx).
Proof.
  revert a. induction idx as [|i idx IH]; intros a Hi Hin; [done|]. cbn [foldl].
  apply IH; [|setoid_rewrite stop_at_shutdown_states; set_solver].
  destruct (Hin i) as [job Hjob]; [set_solver|]. unfold stop_at_shutdown.
  destruct (a_procs a !! i) as [p|] eqn:Hp; [|done]. destruct (ending p); [done|].
  replace p with (with_scheduled (p_cancel_scheduled p) (p_fatal_scheduled p) p) at 2 by by destruct p.
  by eapply inv_nudge.
Qed.

Lemma inv_shutdown_close ls a a' : host_inv ls a → shutdown_close a = Some a' → host_inv ls a'.
Proof.
  intros Hi. unfold shutdown_close. destruct (a_shutdowns a) as [|n]; [done|]. intros [= <-].
  apply inv_stop_all; [apply inv_service; [done|by eauto..]|]. simpl.
  intros i ([job v] & -> & Hv)%list_elem_of_fmap. exists job. apply in_alookup; [apply Hi|done].
Qed.

Lemma inv_perform ls a m ls' a' :
  host_inv ls a → perform m a = Some (ls', a') → host_inv (ls ++ ls') a'.
Proof.
  intros Hi. destruct m as [fresh job|job|job| |k out| |i k|i e|i b]; [..|by apply inv_thread| |]; simpl.
  1-4: intros [= <- <-]; rewrite app_nil_r.
  - by apply inv_start.
  - by apply inv_cancel_job.
  - by apply inv_force_stop.
  - by apply inv_shutdown_begin.
  - intros (a1 & H & [= -> ->])%fmap_Some. rewrite app_nil_r. by eapply inv_start_process.
  - intros (a1 & H & [= -> ->])%fmap_Some. rewrite app_nil_r. by eapply inv_shutdown_close.
  - intros (p & Hp & H)%bind_Some. destruct (p_exit p); [done|]. injection H as <- <-.
    rewrite app_nil_r. by apply (inv_put _ _ _ p).
  - intros (p & Hp & H)%bind_Some. destruct (if b then _ else _); [done|]. injection H as <- <-.
    rewrite app_nil_r. by apply (inv_put _ _ _ p).
Qed.

Lemma inv_run ls a ms ls' a' :
  host_inv ls a → perform_all ms a = Some (ls', a') → host_inv (ls ++ ls') a'.
Proof.
  revert ls a ls'. induction ms as [|m ms IH]; intros ls a ls' Hi; simpl.
  { intros [= <- <-]. by rewrite app_nil_r. }
  intros ([l1 a1] & H1 & ([l2 a2] & H2 & [= <- <-])%bind_Some)%bind_Some.
  rewrite app_assoc. eapply IH; [|exact H2]. by eapply inv_perform.
Qed.

Lemma inv_new s : (∀ j, ¬ svc_registered j s) → host_inv [] (new_adapter s).
Proof. intros H. split; simpl; try done; [constructor|]. intros j Hj. by destruct (H j). Qed.

(** ** Every run comes to an end *)
Definition thread_weight (th : thread) : nat :=
  match th with
  | StartMark => 40 | StartRegister => 39 | StartStop => 2 | StartFail => 1
  | Reader _ => 12 | ReaderFatal => 11 | ShutdownCancel => 12
  | Stop _ SRequest => 11 | Stop _ SGrace => 10 | Stop _ STerminate => 9
  | Stop _ SWaitTerminated => 8 | Stop _ SKill => 7 | Stop _ SWaitKilled => 6
  | Waiter => 7 | Join _ => 6 | Claim _ => 5 | Call _ => 4 | Notify _ _ _ => 3
  | Remove => 2 | SetDone => 1
  end.

Definition process_weight (p : process) : nat :=
  sum_list_with thread_weight (p_threads p) + length (p_stdout p) + length (p_stderr p)
  + (if p_stdout_end p then 0 else 1) + (if p_stderr_end p then 0 else 1)
  + (if p_exit p is None then 1 else 0).

Definition host_weight (ps : list process) : nat := sum_list_with process_weight ps.

Lemma host_weight_insert i p q ps :
  ps !! i = Some p →
  (host_weight (<[i := q]> ps) + process_weight p = host_weight ps + process_weight q)%nat.
Proof.
  revert i. induction ps as [|p' ps IH]; intros [|i] H; simpl in *; [done..| |].
  - injection H as ->. unfold host_weight. simpl. lia.
  - specialize (IH i H). unfold host_weight in *. simpl. lia.
Qed.

(** What does not change while the threads work. *)
Definition same_queue (a a' : adapter Svc) : Prop :=
  a_starts a' = a_starts a ∧ a_shutdowns a' = a_shutdowns a.

Lemma cancel_job_weight job a :
  same_queue a (cancel_job job a) ∧ (host_weight (a_procs (cancel_job job a)) ≤ host_weight (a_procs a) + 11)%nat.
Proof.
  unfold cancel_job, live_state. destruct (alookup job (a_states a)) as [i|]; simpl; [|by split; [|lia]].
  destruct (a_procs a !! i) as [p|] eqn:Hp; simpl; [|by split; [|lia]].
  destruct (ending p); [by split; [|lia]|]. destruct (p_cancel_scheduled p); [by split; [|lia]|].
  split; [done|]. simpl. pose proof (host_weight_insert i p (spawn [Stop KCancel SRequest]
    (with_scheduled true (p_fatal_scheduled p) p)) _ Hp) as H.
  unfold process_weight in H. simpl in H. lia.
Qed.

Lemma schedule_weight job a :
  same_queue a (schedule_protocol_termination job a) ∧
  (host_weight (a_procs (schedule_protocol_termination job a)) ≤ host_weight (a_procs a) + 9)%nat.
Proof.
  unfold schedule_protocol_termination. destruct (alookup job (a_states a)) as [i|]; [|by split; [|lia]].
  destruct (a_procs a !! i) as [p|] eqn:Hp; [|by split; [|lia]].
  destruct (_ || _); [by split; [|lia]|]. split; [done|]. simpl.
  pose proof (host_weight_insert i p (spawn [Stop KFatal STerminate]
    (with_scheduled (p_cancel_scheduled p) true p)) _ Hp) as H.
  unfold process_weight in H. simpl in H. lia.
Qed.

Lemma weight_spawn ths p :
  process_weight (spawn ths p) = (sum_list_with thread_weight ths + process_weight p)%nat.
Proof. unfold process_weight. simpl. rewrite sum_list_with_app. lia. Qed.

Lemma weight_read (b : bool) chunk rest p :
  (if b then p_stderr p else p_stdout p) = chunk :: rest →
  (S (process_weight
        (if b then with_pipes (p_stdout p) rest (p_stdout_end p) (p_stderr_end p) p
         else with_pipes rest (p_stderr p) (p_stdout_end p) (p_stderr_end p) p))
   = process_weight p)%nat.
Proof. intros H. unfold process_weight. destruct b; simpl; rewrite H; simpl; lia. Qed.

Lemma weight_close p : (process_weight (with_pipes [] [] true true p) ≤ process_weight p)%nat.
Proof. unfold process_weight. simpl. lia. Qed.

Definition lighter (a a' : adapter Svc) : Prop :=
  same_queue a a' ∧ (host_weight (a_procs a') < host_weight (a_procs a))%nat.

(** A step that replaces the process by a lighter one. *)
Lemma own_lighter i p q a a' :
  a_procs a !! i = Some p → a_procs a' = <[i := q]> (a_procs a) → same_queue a a' →
  (process_weight q < process_weight p)%nat → lighter a a'.
Proof.
  intros Hp Hq Hs Hw. split; [done|]. rewrite Hq.
  pose proof (host_weight_insert i p q _ Hp). lia.
Qed.

(** A step that drops the thread and asks for another one to be started. *)
Lemma request_lighter i p p0 w a a' :
  a_procs a !! i = Some p → (process_weight p0 + w ≤ process_weight p)%nat →
  same_queue (put i p0 a) a' ∧ (host_weight (a_procs a') < host_weight (a_procs (put i p0 a)) + w)%nat →
  lighter a a'.
Proof.
  intros Hp Hw [Hs Ha]. split; [done|]. simpl in Ha.
  pose proof (host_weight_insert i p p0 _ Hp). lia.
Qed.

Lemma weight_stopped b b' p : process_weight (with_stopped b b' p) = process_weight p.
Proof. done. Qed.
Lemma weight_claimed p : process_weight (with_claimed p) = process_weight p.
Proof. done. Qed.
Lemma weight_done p : process_weight (with_done p) = process_weight p.
Proof. done. Qed.

Ltac lighter_tac Hp Hw :=
  eapply own_lighter; [exact Hp|reflexivity|done|];
  rewrite Hw, ?weight_spawn, ?weight_stopped, ?weight_claimed, ?weight_done; simpl; lia.

Lemma stop_step_lighter i k st p p0 a :
  a_procs a !! i = Some p → process_weight p = (process_weight p0 + thread_weight (Stop k st))%nat →
  lighter a (stop_step i k st p0 a).
Proof.
  intros Hp Hw. simpl in Hw. unfold stop_step. destruct st.
  - destruct (svc_request_cancel _ _) as [s [z|x]], k; lighter_tac Hp Hw.
  - destruct (_ || _); lighter_tac Hp Hw.
  - lighter_tac Hp Hw.
  - destruct (p_done p0); lighter_tac Hp Hw.
  - destruct k; lighter_tac Hp Hw.
  - destruct (p_done p0); lighter_tac Hp Hw.
Qed.

Lemma read_step_lighter i (b : bool) p p0 a ls a' :
  read_step i b p0 a = Some (ls, a') → a_procs a !! i = Some p →
  process_weight p = (process_weight p0 + 12)%nat → lighter a a'.
Proof.
  intros H Hp Hw. unfold read_step in H.
  destruct (if b then p_stderr p0 else p_stdout p0) as [|chunk rest] eqn:El.
  - destruct (if b then p_stderr_end p0 else p_stdout_end p0); [|done].
    injection H as <- <-. lighter_tac Hp Hw.
  - pose proof (weight_read b chunk rest p0 El) as Hr.
    destruct ((if b then _ else _) _ _ _) as [s r]. injection H as <- <-.
    eapply own_lighter; [exact Hp|reflexivity|done|]. rewrite Hw, weight_spawn.
    destruct r as [[]|]; simpl; lia.
Qed.

Lemma wait_step_lighter i p p0 a ls a' :
  wait_step i p0 a = Some (ls, a') → a_procs a !! i = Some p →
  process_weight p = (process_weight p0 + 7)%nat → lighter a a'.
Proof.
  intros H Hp Hw. unfold wait_step in H. destruct (p_exit p0) as [[code|text]|] eqn:Ee; [| |done].
  - injection H as <- <-. lighter_tac Hp Hw.
  - destruct (svc_feed_stderr _ _ _) as [s [z|x]]; injection H as <- <-; lighter_tac Hp Hw.
Qed.

Lemma call_step_lighter i f p p0 a ls a' :
  call_step i f p0 a = (ls, a') → a_procs a !! i = Some p →
  process_weight p = (process_weight p0 + 4)%nat → lighter a a'.
Proof.
  intros H Hp Hw. unfold call_step in H. destruct f as [code| |].
  - destruct (svc_complete _ _ _) as [s r]. injection H as <- <-. lighter_tac Hp Hw.
  - injection H as <- <-. eapply own_lighter; [exact Hp|reflexivity|done|].
    rewrite Hw, weight_spawn. pose proof (weight_close p0). simpl. lia.
  - injection H as <- <-. lighter_tac Hp Hw.
Qed.

Lemma thread_step_lighter i p p0 th a ls a' :
  thread_step i p0 th a = Some (ls, a') → a_procs a !! i = Some p →
  process_weight p = (process_weight p0 + thread_weight th)%nat → lighter a a'.
Proof.
  intros H Hp Hw. destruct th as [| | | |b| | |code|f|f|e d c| | |k st|]; simpl in H, Hw.
  - injection H as <- <-. lighter_tac Hp Hw.
  - destruct (a_closing a); injection H as <- <-; lighter_tac Hp Hw.
  - injection H as <- <-. lighter_tac Hp Hw.
  - destruct (svc_request_cancel _ _) as [s [z|x]]; injection H as <- <-; lighter_tac Hp Hw.
  - by eapply read_step_lighter.
  - injection H as <- <-. apply (request_lighter i p p0 11); [done|lia|].
    destruct (schedule_weight (p_job p0) (put i p0 a)). split; [done|lia].
  - by eapply wait_step_lighter.
  - destruct (existsb _ _); [done|]. injection H as <- <-. lighter_tac Hp Hw.
  - injection H as <- <-. destruct (p_finalized p0); lighter_tac Hp Hw.
  - injection H as H. by eapply call_step_lighter.
  - injection H as <- <-. lighter_tac Hp Hw.
  - injection H as <- <-. case_bool_decide; lighter_tac Hp Hw.
  - injection H as <- <-. lighter_tac Hp Hw.
  - injection H as <- <-. by eapply stop_step_lighter.
  - injection H as <- <-. apply (request_lighter i p p0 12); [done|lia|].
    destruct (cancel_job_weight (p_job p0) (put i p0 a)). split; [done|lia].
Qed.

(** The queue of launches, the pending shutdowns, then the weight. *)
Definition sooner (a a' : adapter Svc) : Prop :=
  (length (a_starts a') < length (a_starts a))%nat ∨
  length (a_starts a') = length (a_starts a) ∧ (a_shutdowns a' < a_shutdowns a)%nat ∨
  lighter a a'.

Definition next (a a' : adapter Svc) : Prop :=
  ∃ m ls, internal m = true ∧ perform m a = Some (ls, a').

Lemma stop_all_queue idx a : same_queue a (foldl (λ a i, stop_at_shutdown i a) a idx).
Proof.
  revert a. induction idx as [|i idx IH]; intros a; [done|]. cbn [foldl].
  unfold same_queue. destruct (IH (stop_at_shutdown i a)) as [-> ->]. unfold stop_at_shutdown.
  destruct (a_procs a !! i); [|done]. by destruct (ending p).
Qed.

Lemma next_sooner a a' : next a a' → sooner a a'.
Proof.
  intros (m & ls & Hm & H). destruct m as [| | | |k out| |i k|i e|i b]; try done; simpl in H.
  - apply fmap_Some in H as (a1 & H & [= -> ->]). unfold start_process in H.
    apply bind_Some in H as (l & Hl & [= <-]). left.
    pose proof (lookup_lt_Some _ _ _ Hl).
    assert (length (delete k (a_starts a)) < length (a_starts a))%nat
      by (rewrite length_delete by done; lia).
    by destruct out as [m|[out err]].
  - apply fmap_Some in H as (a1 & H & [= -> ->]). unfold shutdown_close in H.
    destruct (a_shutdowns a) as [|n] eqn:En; [done|]. injection H as <-. right. left.
    match goal with |- context [foldl _ ?a1 ?idx] => destruct (stop_all_queue idx a1) as [-> ->] end.
    simpl. rewrite En. split; [done|lia].
  - apply bind_Some in H as (p & Hp & (th & Hth & H)%bind_Some). right. right.
    eapply thread_step_lighter; [exact H|exact Hp|]. apply delete_Permutation in Hth.
    unfold process_weight. simpl.
    assert (sum_list_with thread_weight (p_threads p) =
      (thread_weight th + sum_list_with thread_weight (delete k (p_threads p)))%nat) as ->; [|lia].
    by rewrite Hth at 1.
  - apply bind_Some in H as (p & Hp & H). destruct (p_exit p) eqn:Ee; [done|]. injection H as <- <-.
    right. right. eapply own_lighter; [exact Hp|reflexivity|done|].
    unfold process_weight. simpl. rewrite Ee. lia.
  - apply bind_Some in H as (p & Hp & H).
    destruct (if b then p_stderr_end p else p_stdout_end p) eqn:Ee; [done|]. injection H as <- <-.
    right. right. eapply own_lighter; [exact Hp|reflexivity|done|].
    unfold process_weight. destruct b; simpl; rewrite Ee; destruct (p_stdout_end p); simpl; lia.
Qed.

Lemma host_terminates a : Acc (λ a2 a1, next a1 a2) a.
Proof.
  remember (length (a_starts a)) as n eqn:Hn. revert a Hn.
  induction n as [n IHn] using lt_wf_ind. intros a Hn.
  remember (a_shutdowns a) as s eqn:Hs. revert a Hn Hs.
  induction s as [s IHs] using lt_wf_ind. intros a Hn Hs.
  remember (host_weight (a_procs a)) as w eqn:Hw. revert a Hn Hs Hw.
  induction w as [w IHw] using lt_wf_ind. intros a Hn Hs Hw. constructor.
  intros a' [H|[[H1 H2]|[[H1 H2] H3]]]%next_sooner.
  - by eapply IHn; [|reflexivity]; rewrite Hn.
  - eapply IHs; [|by rewrite H1|reflexivity]. by rewrite Hs.
  - eapply IHw; [|by rewrite H1|by rewrite H2|reflexivity]. by rewrite Hw.
Qed.

(** ** Where a run can end *)
Definition settled (a : adapter Svc) : Prop := ∀ m, internal m = true → perform m a = None.

Lemma settled_threads a i p : settled a → a_procs a !! i = Some p → p_threads p = [].
Proof.
  intros Hs Hp.
  assert (Hexit : p_exit p ≠ None).
  { intros He. specialize (Hs (MExit i (inl 0)) eq_refl). simpl in Hs.
    rewrite Hp in Hs. simpl in Hs. by rewrite He in Hs. }
  assert (Hends : p_stdout_end p = true ∧ p_stderr_end p = true).
  { pose proof (Hs (MPipeEnd i false) eq_refl) as H1. pose proof (Hs (MPipeEnd i true) eq_refl) as H2.
    simpl in H1, H2. rewrite Hp in H1, H2. simpl in H1, H2.
    destruct (p_stdout_end p), (p_stderr_end p); done. }
  assert (Hstep : ∀ k th, p_threads p !! k = Some th →
    thread_step i (with_threads (delete k (p_threads p)) p) th a = None).
  { intros k th Hth. specialize (Hs (MThread i k) eq_refl). simpl in Hs. rewrite Hp in Hs. simpl in Hs.
    by rewrite Hth in Hs. }
  assert (Hread : existsb is_reader (p_threads p) = false).
  { apply not_true_iff_false. intros (th & (k & Hk)%list_elem_of_In%list_elem_of_lookup & Hr)%existsb_exists.
    specialize (Hstep k th Hk). destruct th; try done. simpl in Hstep. unfold read_step in Hstep.
    simpl in Hstep. destruct Hends as [E1 E2]. destruct is_stderr; rewrite ?E1, ?E2 in Hstep.
    - destruct (p_stderr p); [done|]. by destruct (svc_feed_stderr _ _ _).
    - destruct (p_stdout p); [done|]. by destruct (svc_feed_stdout _ _ _). }
  destruct (p_threads p) as [|th ths] eqn:Eth; [done|].
  specialize (Hstep 0%nat th eq_refl). simpl in Hread. apply orb_false_iff in Hread as [Hr1 Hr2].
  destruct th; try done; simpl in Hstep.
  - by destruct (a_closing a).
  - by destruct (svc_request_cancel _ _).
  - unfold wait_step in Hstep. simpl in Hstep. destruct (p_exit p) as [[?|?]|]; [done| |done].
    by destruct (svc_feed_stderr _ _ _) as [? []].
  - by rewrite Hr2 in Hstep.
Qed.

(** The phases in which a process has no threads. *)
Definition over (ph : phase) : Prop := match ph with Finished _ | Rejected _ => True | _ => False end.

Lemma settled_phase ls a i p :
  host_inv ls a → settled a → a_procs a !! i = Some p →
  ∃ ph, phase_after i ls = Some ph ∧ over ph ∧
    p_done p = match ph with Rejected (Err _) => false | _ => true end.
Proof.
  intros Hi Hs Hp. pose proof (settled_threads a i p Hs Hp) as Hth.
  destruct (inv_phase _ _ Hi i p Hp) as (ph & Hph & _ & Hok). exists ph. split; [done|].
  unfold watched, pick in Hok. rewrite Hth in Hok. destruct ph as [|r| |o|o|o]; simpl in *.
  - by destruct Hok as (_ & _ & th & ? & _).
  - destruct Hok as [_ ->]. by destruct r.
  - destruct Hok as (_ & _ & Hok). destruct (p_finalized p); [by destruct Hok as (? & ? & _)|].
    by destruct Hok as (_ & ? & ? & _).
  - by destruct Hok as (_ & _ & _ & _ & ? & ? & _).
  - by destruct Hok as (_ & _ & _ & _ & [? | ?]).
  - by destruct Hok as (? & _).
Qed.

Lemma settled_host ls a :
  host_inv ls a → settled a →
  a_starts a = [] ∧ a_states a = [] ∧ a_shutdowns a = 0%nat ∧
  ∀ j, svc_registered j (a_service a) → ∃ i p ph, phased ls a i p ph ∧ p_job p = j ∧ owner ph = true.
Proof.
  intros Hi Hs. assert (Hst : a_starts a = []).
  { destruct (a_starts a) as [|l ls'] eqn:E; [done|].
    specialize (Hs (MStartProcess 0 (inl "")) eq_refl). simpl in Hs. unfold start_process in Hs.
    by rewrite E in Hs. }
  split_and!; [done| | |].
  - destruct (a_states a) as [|[job i] t] eqn:E; [done|]. exfalso.
    destruct (inv_listed _ _ Hi job i) as (p & ph & [Hp Hph] & _ & Hl);
      [by rewrite E; simpl; rewrite decide_True|].
    destruct (settled_phase ls a i p Hi Hs Hp) as (ph' & Hph' & Ho & _).
    simplify_eq. by destruct ph.
  - destruct (a_shutdowns a) as [|n] eqn:E; [done|]. specialize (Hs MShutdownClose eq_refl).
    simpl in Hs. unfold shutdown_close in Hs. by rewrite E in Hs.
  - intros j [(l & Hl & _)|H]%(inv_registered _ _ Hi); [|done]. rewrite Hst in Hl.
    by apply not_elem_of_nil in Hl.
Qed.
End effect.

(** ** The runtime as the task service

    The application service passes these calls on to the runtime. *)
Section runtime_service.
Context (J : string → option pyval) (re_sub : web_re → string → string → string).

Definition runtime_service : TaskService runtime := {|
  svc_prepare := prepare;
  svc_mark_running := mark_running;
  svc_feed_stdout := feed_stdout J re_sub;
  svc_feed_stderr := feed_stderr;
  svc_request_cancel := request_cancel;
  svc_begin_shutdown := begin_shutdown;
  svc_complete := complete J re_sub;
  svc_fail_start := fail_start re_sub;
  svc_abandon := abandon;
  svc_registered j rt := is_running j rt = true;
|}.
End runtime_service.

Lemma is_running_state j rt : is_running j rt = true ↔ is_Some (state_of j rt).
Proof. unfold is_running, state_of. rewrite bool_decide_eq_true, fmap_is_Some. done. Qed.

Lemma running_put j k t t' rt :
  find_task k rt = Some t → is_Some (state_of j (put_task k t' rt)) → is_Some (state_of j rt).
Proof.
  intros Hf. rewrite state_of_put. case_decide; [|done]. subst. unfold state_of. by rewrite Hf.
Qed.

Lemma running_set_state j k s rt : is_Some (state_of j (set_state k s rt)) ↔ is_Some (state_of j rt).
Proof. rewrite state_of_set_state. case_decide; [subst; by rewrite fmap_is_Some|done]. Qed.

Lemma running_finish j k rt : is_Some (state_of j (finish k rt)) ↔ is_Some (state_of j rt) ∧ j ≠ k.
Proof.
  rewrite state_of_finish. case_decide; split; [by intros [? ?]|by intros [_ ?]|done|by intros [? _]].
Qed.

Lemma running_cancel j k rt : is_Some (state_of j (request_cancel k rt).1) → is_Some (state_of j rt).
Proof. rewrite state_of_cancel. case_decide; [subst; by rewrite fmap_is_Some|done]. Qed.

Lemma running_cancel_each j ks rt :
  is_Some (state_of j (cancel_each ks rt).1) → is_Some (state_of j rt).
Proof.
  revert rt. induction ks as [|k ks IH]; intros rt; [done|]. simpl.
  pose proof (running_cancel j k rt) as Hc. destruct (request_cancel k rt) as [rt1 [z|e]]; [|done].
  intros H%IH. by apply Hc.
Qed.

Lemma running_complete J re_sub k code rt rt' r j :
  complete J re_sub k code rt = (rt', r) → is_Some (state_of j rt') →
  is_Some (state_of j rt) ∧ (j = k → ∃ e, r = Err e).
Proof.
  unfold complete. destruct (find_task k rt) as [t|] eqn:Hf.
  2: { intros [= <- <-] Hj. split; [done|]. intros ->. unfold state_of in Hj. rewrite Hf in Hj.
       by destruct Hj. }
  destruct (flush_decoders J re_sub t) as [[t1 ps1] [[]|e]].
  2: { intros [= <- <-] Hj. split; [by eapply (running_put j k t t1)|by eauto]. }
  destruct (complete_last_line J re_sub t1) as [[t2 ps2] [[]|e]].
  2: { intros [= <- <-] Hj. split; [by eapply (running_put j k t t2)|by eauto]. }
  destruct (complete_outcome k t2 code) as [payload ts]. intros [= <- <-].
  intros [Hj Hne]%running_finish. apply running_set_state in Hj.
  split; [by eapply (running_put j k t t2)|done].
Qed.

Lemma running_prepare fresh job rt rt' r j :
  prepare fresh job rt = (rt', r) → is_Some (state_of j rt') →
  is_Some (state_of j rt) ∨ ∃ l, r = Ok l ∧ job_id (l_job l) = j.
Proof.
  unfold prepare. destruct (prepare_begin fresh job rt) as [jid|e]; [|intros [= <- <-]; by left].
  destruct (prepare_write jid job rt) as [rt1 [l|e]] eqn:Ew.
  2: { intros [= <- <-]. apply prepare_write_error in Ew as ->. by left. }
  apply prepare_write_id in Ew as (Hid & _ & Ht & _).
  assert (Hst : state_of j rt1 = state_of j rt) by (unfold state_of, find_task; by rewrite Ht).
  unfold prepare_commit. destruct (check_free _ _); intros [= <- <-].
  - rewrite !running_set_state, state_of_put. case_decide; [|rewrite Hst; by left].
    intros _. right. exists l. split; [done|congruence].
  - intros H. left. by rewrite <- Hst.
Qed.

#[export] Instance runtime_service_laws J re_sub : @TaskServiceLaws runtime (runtime_service J re_sub).
Proof.
  split; simpl; intros *; rewrite ?is_running_state.
  - intros Hp Hj. by eapply running_prepare.
  - unfold mark_running. by destruct (state_of k s) as [[]|]; rewrite ?running_set_state.
  - unfold feed_stdout. destruct (find_task k s) as [t|] eqn:Hf; [|done].
    destruct (feed_stdout_task J re_sub t c) as [[t' ps] r]. by apply (running_put j k t t').
  - unfold feed_stderr. destruct (find_task k s) as [t|] eqn:Hf; [|done].
    destruct (feed_stderr_task t c) as [t' r]. by apply (running_put j k t t').
  - unfold feed_stderr. destruct (find_task k s) as [t|]; [|by eexists].
    unfold feed_stderr_task. destruct (str_nonempty _); [by eexists|].
    destruct (utf8_decode _ _ _) as [[text pending]|]; [|by eexists].
    by destruct (contains _ _); eexists.
  - apply running_cancel.
  - unfold begin_shutdown.
    pose proof (running_cancel_each j (r_tasks s).*1 (Runtime (r_tasks s) true (r_files s) (r_published s))).
    destruct (cancel_each _ _) as [rt2 [u|e]]; done.
  - intros Hc. by apply (running_complete J re_sub k code).
  - unfold fail_start. destruct (find_task k s) as [t|] eqn:Hf; simpl.
    + rewrite running_finish, running_set_state. done.
    + intros Hj. split; [done|]. intros ->. unfold state_of in Hj. rewrite Hf in Hj. by destruct Hj.
  - unfold abandon. destruct (find_task k s) as [t|] eqn:Hf.
    + intros [Hj Hne]%running_finish. split; [|done]. apply running_set_state in Hj.
      by apply (running_put j k t (with_cancel_requested t)).
    + intros Hj. split; [done|]. intros ->. unfold state_of in Hj. rewrite Hf in Hj. by destruct Hj.
Qed.

(** ** The host over the runtime *)

(** How often a process was announced, and how often its job was ended. *)
Definition is_notice (l : label) : bool := match l with LNotify _ _ => true | _ => false end.
Definition is_ending (l : label) : bool :=
  match l with LComplete _ _ _ | LAbandon _ => true | _ => false end.
Definition times (f : label → bool) (i : nat) (ls : list label) : nat :=
  length (List.filter f (List.filter (λ l, Nat.eqb (label_process l) i) ls)).

Definition announced (ph : phase) : nat := match ph with Notified _ | Finished _ => 1 | _ => 0 end.
Definition ended (ph : phase) : nat :=
  match ph with
  | Called o | Notified o | Finished o => match o with ByProtocol => 0 | _ => 1 end
  | _ => 0
  end.

Lemma phases_count ls ph :
  phases Absent ls = Some ph →
  length (List.filter is_notice ls) = announced ph ∧ length (List.filter is_ending ls) = ended ph.
Proof.
  revert ph. induction ls as [|l ls IH] using rev_ind; intros ph; [by intros [= <-]|].
  rewrite phases_app, !List.filter_app, !length_app.
  intros (ph1 & [-> ->]%IH & H)%bind_Some. simpl in H. apply bind_Some in H as (ph2 & H & [= <-]).
  destruct ph1, l; simpl in H; try done; repeat case_match; simplify_eq; simpl;
    repeat match goal with o : outcome |- _ => destruct o end; done.
Qed.

Definition host_run (J : string → option pyval) (re_sub : web_re → string → string → string)
    (ms : list move) : option (list label * adapter runtime) :=
  @perform_all runtime (runtime_service J re_sub) ms (new_adapter empty_runtime).

Lemma host_run_inv J re_sub ms ls a :
  host_run J re_sub ms = Some (ls, a) → @host_inv runtime (runtime_service J re_sub) ls a.
Proof.
  intros H. rewrite <- (app_nil_l ls).
  eapply inv_run; [|exact H]. by apply inv_new.
Qed.

(** C14: in every interleaving of the host's threads the labels of a process are a
    legal history: its output is read until one of three claimants ends the job;
    [complete] is called only when both pipes were read to their end, at most one
    of [complete] and [abandon] is called and at most once, its result is the one
    announced, and the completion callback runs at most once, before the process
    counts as done. *)
Theorem completion_protocol J re_sub ms ls a i :
  host_run J re_sub ms = Some (ls, a) →
  ∃ ph, phase_after i ls = Some ph ∧
    times is_notice i ls = announced ph ∧ times is_ending i ls = ended ph ∧
    ∀ p, a_procs a !! i = Some p →
      (p_done p = true ↔ match ph with Finished _ | Rejected (Ok _) => True | _ => False end).
Proof.
  intros Hi%host_run_inv. destruct (a_procs a !! i) as [p|] eqn:Hp.
  - destruct (inv_phase _ _ Hi i p Hp) as (ph & Hph & _ & Hok). exists ph.
    destruct (phases_count _ _ Hph) as [H1 H2]. split_and!; [done..|]. intros ? [= <-].
    destruct ph as [|r| |o|o|o]; simpl in Hok |- *; [|destruct Hok as [_ ->]; by destruct r|..].
    all: destruct_and?; split; intros; (done || congruence).
  - exists Absent. pose proof (inv_absent _ _ Hi i Hp) as Hph.
    destruct (phases_count _ _ Hph) as [H1 H2]. by split_and!.
Qed.

(** C15: left to itself the host comes to rest from every state it can reach - no
    threads wait for each other for ever -, and then no launch is pending, no
    process is listed, every process is done and was announced exactly once
    unless its start was rejected, and a job still registered in the runtime
    belongs to a process ended by a protocol failure or to a call that raised. *)
Theorem host_settles J re_sub ms ls a :
  host_run J re_sub ms = Some (ls, a) →
  Acc (λ a2 a1, @next runtime (runtime_service J re_sub) a1 a2) a ∧
  (@settled runtime (runtime_service J re_sub) a →
   a_starts a = [] ∧ a_states a = [] ∧
   (∀ i p, a_procs a !! i = Some p →
      p_threads p = [] ∧
      ((∃ o, phase_after i ls = Some (Finished o) ∧ times is_notice i ls = 1%nat ∧ p_done p = true) ∨
       ∃ r, phase_after i ls = Some (Rejected r) ∧ times is_notice i ls = 0%nat)) ∧
   ∀ jid, is_running jid (a_service a) = true →
     ∃ i p, a_procs a !! i = Some p ∧ p_job p = jid ∧
       ((∃ o, phase_after i ls = Some (Finished o) ∧ leaky o = true) ∨
        ∃ e, phase_after i ls = Some (Rejected (Err e)))).
Proof.
  intros Hi%host_run_inv. split; [exact (@host_terminates _ _ (runtime_service_laws J re_sub) a)|]. intros Hs.
  destruct (settled_host _ _ Hi Hs) as (H1 & H2 & _ & H3). split_and!; [done..| |].
  - intros i p Hp. split; [exact (@settled_threads _ _ (runtime_service_laws J re_sub) a i p Hs Hp)|].
    destruct (settled_phase _ _ _ _ Hi Hs Hp) as (ph & Hph & Ho & Hd).
    destruct (phases_count _ _ Hph) as [Hn _]. destruct ph as [|r| |o|o|o]; try done; [right|left]; eauto.
  - intros jid Hj. destruct (H3 jid Hj) as (i & p & ph & [Hp Hph] & Hjob & How).
    exists i, p. split_and!; [done..|]. destruct (settled_phase _ _ _ _ Hi Hs Hp) as (ph' & Hph' & Ho & _).
    simplify_eq. destruct ph as [|[z|e]| |o|o|o]; try done; [right|left]; eauto.
Qed.

Definition host_json (line : string) : option pyval :=
  if String.eqb line "{f}" then Some (PDict (finished_event "j1" [] "" "")) else None.
Definition host_redact (r : web_re) (a b : string) : string := b.

(** A worker that reports its end, and one that writes garbage. *)
Definition demo_start (line : string) : list move :=
  [MStart "j1" demo_job; MStartProcess 0 (inr ([line +:+ String newline ""], [])); MThread 0 0; MThread 0 0].
Definition demo_finish : list move :=
  demo_start "{f}" ++ [MThread 0 0; MPipeEnd 0 false; MPipeEnd 0 true; MThread 0 0; MThread 0 0;
    MExit 0 (inl 0)] ++ replicate 7 (MThread 0 0).
Definition demo_garbage : list move :=
  demo_start "x" ++ replicate 12 (MThread 0 0) ++ [MExit 0 (inl 0)] ++ replicate 3 (MThread 0 0).

Definition demo_result (ms : list move) : list label * adapter runtime :=
  default ([], new_adapter empty_runtime) (host_run host_json host_redact ms).

Lemma completion_protocol_witness :
  times is_notice 0 (demo_result demo_finish).1 = 1%nat ∧
  times is_ending 0 (demo_result demo_finish).1 = 1%nat.
Proof.
  destruct (completion_protocol host_json host_redact demo_finish (demo_result demo_finish).1
    (demo_result demo_finish).2 0) as (ph & Hph & -> & -> & _); [vm_compute; reflexivity|].
  vm_compute in Hph. by injection Hph as <-.
Defined.

Lemma demo_garbage_settled :
  @settled runtime (runtime_service host_json host_redact) (demo_result demo_garbage).2.
Proof.
  intros m Hm. destruct m as [| | | |k out| |i k|i e|i b]; [discriminate..| | | | |].
  - destruct k; vm_compute; reflexivity.
  - vm_compute. reflexivity.
  - destruct i as [|i], k; vm_compute; reflexivity.
  - destruct i as [|i]; vm_compute; reflexivity.
  - destruct i as [|i], b; vm_compute; reflexivity.
Qed.

(** A worker that damages its output and outlives the two timeouts of the
    protocol termination is announced as ended, but its job stays registered. *)
Lemma host_settles_witness :
  ∃ i p, a_procs (demo_result demo_garbage).2 !! i = Some p ∧ p_job p = "j1" ∧ p_done p = true ∧
    is_running "j1" (a_service (demo_result demo_garbage).2) = true.
Proof.
  destruct (host_settles host_json host_redact demo_garbage (demo_result demo_garbage).1
    (demo_result demo_garbage).2) as [_ Hs]; [vm_compute; reflexivity|].
  destruct (Hs demo_garbage_settled) as (_ & _ & Hp & Hj).
  assert (Hr : is_running "j1" (a_service (demo_result demo_garbage).2) = true) by (vm_compute; reflexivity).
  destruct (Hj "j1" Hr) as (i & p & Hip & Hjob & _). exists i, p. split_and!; [done..| |done].
  destruct (Hp i p Hip) as [_ [(o & _ & _ & ?)|(r & Hph & _)]]; [done|].
  destruct i as [|i]; vm_compute in Hph; discriminate.
Defined.
