(* ===== verification/Schedule.v ===== *)
(** * Ground-unattended schedule windows

    services/ground_unattended/schedule.py.  Times are local wall-clock
    microseconds (Python compares and shifts aware times of one zone by their
    wall clock), dates are day numbers, which is what [date()] and
    [isoformat()] of a time stand for here.  The zone data base is a parameter:
    the wall-clock time of the current instant in the named zone. *)

From S2P Require Import Prelude PyVal PyText.

Definition MINUTE : Z := 60 * 1000000.
Definition HOUR : Z := 60 * MINUTE.
Definition DAY : Z := 24 * HOUR.

(** One field of [strptime("%H:%M")]: one digit, or two digits up to [top]. *)
Definition clock_field (top : Z) (s : string) : option Z :=
  if negb (is_digits s) then None
  else if 2 <? byte_len s then None
  else if top <? digits_val 0 s then None
  else Some (digits_val 0 s).

(** [_parse_clock]: the time of day. *)
Definition parse_clock (value : string) : res Z :=
  match split_on ":" value with
  | [h; m] =>
      match clock_field 23 h, clock_field 59 m with
      | Some h, Some m => Ok (h * HOUR + m * MINUTE)
      | _, _ => Err ValueError
      end
  | _ => Err ValueError
  end.

Record ScheduleWindow := Window {
  active : bool;
  run_date : Z;
  current : option (Z * Z);
  next_start : Z;
  next_end : Z;
}.

Section zone.
(** [now] as wall-clock time in the zone of this name; [None] when there is no
    such zone ([resolve_timezone] raises [ValueError]). *)
Context (local_now_in : string → option Z).

Definition schedule_window (schedule_start_time schedule_end_time timezone : string)
    : res ScheduleWindow :=
  match local_now_in timezone with
  | None => Err ValueError
  | Some local_now =>
      start_clock ← parse_clock schedule_start_time;
      end_clock ← parse_clock schedule_end_time;
      if start_clock =? end_clock then Err ValueError
      else
        let today := local_now / DAY in
        let start_today := today * DAY + start_clock in
        let end_today := today * DAY + end_clock in
        let crosses_midnight := end_clock <? start_clock in
        if negb crosses_midnight then
          if (start_today <=? local_now) && (local_now <? end_today)
          then Ok (Window true today (Some (start_today, end_today))
                     (start_today + DAY) end_today)
          else if local_now <? start_today
          then Ok (Window false today None start_today end_today)
          else Ok (Window false ((start_today + DAY) / DAY) None
                     (start_today + DAY) (end_today + DAY))
        else
          let found :=
            if start_today <=? local_now then Some (start_today, end_today + DAY)
            else if local_now <? end_today then Some (start_today - DAY, end_today)
            else None in
          match found with
          | Some (current_start, current_end) =>
              Ok (Window true (current_start / DAY) found (current_start + DAY) current_end)
          | None => Ok (Window false today None start_today (end_today + DAY))
          end
  end.

(** ** Specification *)

(** [t] is the first moment after [now] at clock time [c]. *)
Definition next_at (c now t : Z) : Prop := t mod DAY = c ∧ now < t ≤ now + DAY.

Lemma clock_field_range top s n : clock_field top s = Some n → 0 ≤ n ≤ top.
Proof.
  unfold clock_field. destruct (is_digits s) eqn:E; simpl; [|done]. unfold is_digits in E.
  destruct (2 <? _); [done|]. destruct (top <? _) eqn:E2; [done|]. intros [= <-]. bool_to_prop.
  split; [|done]. clear E2 H.
  assert (H : ∀ acc, 0 ≤ acc → 0 ≤ digits_val acc s).
  { induction s as [|c s IH]; intros acc Hacc; simpl in *; [done|]. bool_to_prop.
    apply IH; [done|]. unfold is_digit, digit_val in *. bool_to_prop. lia. }
  by apply H.
Qed.

Lemma parse_clock_range s c : parse_clock s = Ok c → 0 ≤ c < DAY.
Proof.
  unfold parse_clock. destruct (split_on ":" s) as [|h [|m [|]]]; try done.
  destruct (clock_field 23 h) as [x|] eqn:Eh; [|done].
  destruct (clock_field 59 m) as [y|] eqn:Em; [|done]. intros [= <-].
  apply clock_field_range in Eh, Em. unfold DAY, HOUR, MINUTE. lia.
Qed.

(** The clock time and the day of a moment written as day and clock time. *)
Lemma day_clock d c : 0 ≤ c < DAY → (d * DAY + c) mod DAY = c ∧ (d * DAY + c) / DAY = d.
Proof.
  intros H. rewrite Z.add_comm, Z.mod_add, Z.div_add by (unfold DAY, HOUR, MINUTE; lia).
  rewrite Z.mod_small, Z.div_small by done. lia.
Qed.

Lemma next_at_day d c now :
  0 ≤ c < DAY → now < d * DAY + c ≤ now + DAY → next_at c now (d * DAY + c).
Proof. intros Hc Hn. split; [by apply day_clock|done]. Qed.

Lemma next_at_moment k c now t :
  t = k * DAY + c → 0 ≤ c < DAY → now < t ≤ now + DAY → next_at c now t.
Proof. intros ->. apply next_at_day. Qed.

(** The window of a valid schedule, whether or not it crosses midnight: the
    next start and the next end are the first moments after now at the two clock
    times; the window is active exactly when the end comes first, and then the
    current window is the one that encloses now, from the last start to the
    coming end; the run date is the day of the current start, or of the next one
    when inactive. *)
Theorem schedule_window_correct start_text end_text timezone local_now s e :
  local_now_in timezone = Some local_now →
  parse_clock start_text = Ok s → parse_clock end_text = Ok e → s ≠ e →
  ∃ w, schedule_window start_text end_text timezone = Ok w ∧
    next_at s local_now (next_start w) ∧ next_at e local_now (next_end w) ∧
    (active w = true ↔ next_end w < next_start w) ∧
    current w = (if active w then Some (next_start w - DAY, next_end w) else None) ∧
    run_date w = (if active w then next_start w - DAY else next_start w) / DAY.
Proof.
  intros Hz Hs He Hne. unfold schedule_window. rewrite Hz, Hs, He. simpl.
  apply parse_clock_range in Hs as Hsr, He as Her. rewrite (proj2 (Z.eqb_neq _ _)) by done.
  assert (HD : 0 < DAY) by (unfold DAY, HOUR, MINUTE; lia).
  pose proof (Z_div_mod_eq_full local_now DAY) as Hd.
  pose proof (Z.mod_pos_bound local_now DAY HD) as Hm.
  set (d := local_now / DAY) in *. set (r := local_now mod DAY) in *. clearbody d r.
  destruct (Z.ltb_spec e s); cbn [negb].
  - destruct (Z.leb_spec (d * DAY + s) local_now); [|destruct (Z.ltb_spec local_now (d * DAY + e))];
      (eexists; split; [reflexivity|]; simpl; split_and!).
    + apply (next_at_moment (d + 1)); lia.
    + apply (next_at_moment (d + 1)); lia.
    + split; [lia|done].
    + do 2 f_equal. lia.
    + f_equal. lia.
    + apply (next_at_moment d); lia.
    + apply (next_at_moment d); lia.
    + split; [lia|done].
    + do 2 f_equal. lia.
    + f_equal. lia.
    + apply (next_at_moment d); lia.
    + apply (next_at_moment (d + 1)); lia.
    + split; [done|lia].
    + done.
    + symmetry. apply day_clock. lia.
  - destruct (Z.leb_spec (d * DAY + s) local_now), (Z.ltb_spec local_now (d * DAY + e)),
      (Z.ltb_spec local_now (d * DAY + s)); try lia; cbn [andb];
      (eexists; split; [reflexivity|]; simpl; split_and!).
    + apply (next_at_moment (d + 1)); lia.
    + apply (next_at_moment d); lia.
    + split; [lia|done].
    + do 2 f_equal. lia.
    + symmetry. rewrite Z.add_simpl_r. apply day_clock. lia.
    + apply (next_at_moment (d + 1)); lia.
    + apply (next_at_moment (d + 1)); lia.
    + split; [done|lia].
    + done.
    + done.
    + apply (next_at_moment d); lia.
    + apply (next_at_moment d); lia.
    + split; [done|lia].
    + done.
    + symmetry. apply day_clock. lia.
Qed.
End zone.

(** A night window, 22:00 to 6:30, at one in the morning of day 3. *)
Lemma schedule_window_correct_witness :
  ∃ w, schedule_window (λ _, Some (3 * DAY + HOUR)) "22:00" "6:30" "system" = Ok w ∧
    active w = true ∧ next_end w = 3 * DAY + 6 * HOUR + 30 * MINUTE ∧ run_date w = 2.
Proof.
  destruct (schedule_window_correct (λ _, Some (3 * DAY + HOUR)) "22:00" "6:30" "system"
    (3 * DAY + HOUR) (22 * HOUR) (6 * HOUR + 30 * MINUTE) eq_refl eq_refl eq_refl)
    as (w & Hw & _); [discriminate|].
  exists w. split; [exact Hw|]. vm_compute in Hw. apply Ok_inj in Hw. subst w.
  vm_compute. repeat split.
Defined.
