(* ===== verification/WirelessIe.v ===== *)
(** * Wireless information elements

    services/network_tools/wireless_ie_parser.py: the information elements of a
    beacon or probe response are (identifier, length, payload) triples; the
    parser groups them by identifier and derives channel width, MIMO streams and
    the supported standards.  Bytes are integers from 0 to 255. *)

From S2P Require Import Prelude PyVal.

Abbreviation bytes := (list Z).
Abbreviation elements := (list (Z * list bytes)).

(** [elements.setdefault(id, []).append(payload)]. *)
Definition add_element (id : Z) (payload : bytes) (es : elements) : elements :=
  ainsert id (default [] (alookup id es) ++ [payload]) es.

(** The loop of [_iter_information_elements] on the rest of the blob; [fuel] is
    the length of the blob, a turn takes at least two bytes.  Returns the
    elements, the warnings and the bytes after the final offset. *)
Fixpoint iter_loop (fuel : nat) (rest : bytes) (es : elements) : elements * list string * bytes :=
  match fuel, rest with
  | S fuel', element_id :: length :: rest' =>
      if Z.of_nat (List.length rest') <? length
      then (es, ["truncated_ie_" +:+ pretty element_id], rest')
      else iter_loop fuel' (drop (Z.to_nat length) rest')
             (add_element element_id (take (Z.to_nat length) rest') es)
  | _, _ => (es, [], rest)
  end.

(** [_iter_information_elements]. *)
Definition iter_information_elements (blob : bytes) : elements * list string :=
  let '(es, warnings, rest) := iter_loop (length blob) blob [] in
  (es, warnings ++ match rest with [] => [] | _ => ["trailing_ie_bytes"] end).

(** [_first]. *)
Definition first (es : elements) (id : Z) : option bytes :=
  match alookup id es with Some (p :: _) => Some p | _ => None end.

Definition byte_at (n : nat) (p : bytes) : Z := nth n p 0.

(** [_parse_vht_channel_width]. *)
Definition parse_vht_channel_width (payload : option bytes) : option (option Z * string) :=
  match payload with
  | None | Some [] => None
  | Some (channel_width :: _) =>
      if channel_width =? 1 then Some (Some 80, "80 MHz")
      else if channel_width =? 2 then Some (Some 160, "160 MHz")
      else if channel_width =? 3 then Some (None, "80+80 MHz")
      else None
  end.

(** [_parse_ht_channel_width]. *)
Definition parse_ht_channel_width (payload : option bytes) : option Z :=
  match payload with
  | Some (_ :: b :: _) =>
      let secondary_channel_offset := Z.land b 3 in
      Some (if (secondary_channel_offset =? 1) || (secondary_channel_offset =? 3)
            then 40 else 20)
  | _ => None
  end.

(** [_parse_vht_mimo_streams]: the highest stream whose two bits are not 3. *)
Definition vht_stream (rx_mcs_map : Z) (stream_count index : Z) : Z :=
  let bits := Z.land (Z.shiftr rx_mcs_map (index * 2)) 3 in
  if bits =? 3 then stream_count else index + 1.

Definition parse_vht_mimo_streams (payload : option bytes) : Z :=
  match payload with
  | None => 0
  | Some p =>
      if (length p <? 8)%nat then 0
      else
        let rx_mcs_map := byte_at 4 p + 256 * byte_at 5 p in
        Z.min (foldl (vht_stream rx_mcs_map) 0 (zseq 0 8)) 8
  end.

(** [_parse_ht_mimo_streams]: the highest of the first four MCS bytes in use. *)
Definition parse_ht_mimo_streams (payload : option bytes) : Z :=
  match payload with
  | None => 0
  | Some p =>
      if (length p <? 19)%nat then 0
      else foldl (λ count index, if byte_at (3 + index) p =? 0 then count
                                 else Z.of_nat index + 1) 0 (seq 0 4)
  end.

(** [_has_he_elements]. *)
Definition has_he_elements (es : elements) : bool :=
  existsb (λ p, match p with b :: _ => (b =? 35) || (b =? 36) | [] => false end)
    (default [] (alookup 255 es)).

Record WirelessCapabilityInfo := CapabilityInfo {
  channel_width_mhz : option Z;
  channel_width_text : string;
  channel_width_source : string;
  mimo : string;
  mimo_source : string;
  mimo_note : string;
  ht_supported : bool;
  vht_supported : bool;
  he_supported : bool;
  parse_warnings : list string;
}.

(** [_parse_channel_width]. *)
Definition parse_channel_width (es : elements) : option Z * string * string :=
  match parse_vht_channel_width (first es 192) with
  | Some (mhz, text) => (mhz, text, "vht_operation")
  | None =>
      match parse_ht_channel_width (first es 61) with
      | Some ht_width => (Some ht_width, pretty ht_width +:+ " MHz", "ht_operation")
      | None => (None, "-", "unavailable")
      end
  end.

(** [_parse_mimo]. *)
Definition parse_mimo (es : elements) : string * string * string :=
  let vht_streams := parse_vht_mimo_streams (first es 191) in
  if negb (vht_streams =? 0)
  then (pretty vht_streams +:+ "x" +:+ pretty vht_streams, "vht_mcs_map", "mimo_capability_note")
  else
    let ht_streams := parse_ht_mimo_streams (first es 45) in
    if negb (ht_streams =? 0)
    then (pretty ht_streams +:+ "x" +:+ pretty ht_streams, "ht_mcs_set", "mimo_capability_note")
    else ("-", "unavailable", "scan_source_unavailable").

Definition has_element (id : Z) (es : elements) : bool := bool_decide (is_Some (alookup id es)).

(** [WirelessInformationElementParser.parse]; [None] and the empty blob are one
    case. *)
Definition parse (ie_blob : option bytes) : WirelessCapabilityInfo :=
  match ie_blob with
  | None | Some [] =>
      CapabilityInfo None "-" "unavailable" "-" "unavailable" "scan_source_unavailable"
        false false false ["ie_blob_unavailable"]
  | Some blob =>
      let '(es, warnings) := iter_information_elements blob in
      let he := has_he_elements es in
      let warnings := if he then warnings ++ ["he_parser_not_implemented"] else warnings in
      let '(width_mhz, width_text, width_source) := parse_channel_width es in
      let '(m, m_source, m_note) := parse_mimo es in
      CapabilityInfo width_mhz width_text width_source m m_source m_note
        (has_element 45 es) (has_element 191 es) he warnings
  end.

(** ** Encoding *)
Definition encode_element (e : Z * bytes) : bytes :=
  e.1 :: Z.of_nat (length e.2) :: e.2.
Fixpoint encode_elements (l : list (Z * bytes)) : bytes :=
  match l with
  | [] => []
  | e :: l' => encode_element e ++ encode_elements l'
  end.

(** The elements of a list, grouped by identifier in order of appearance. *)
Definition group (l : list (Z * bytes)) : elements :=
  foldl (λ es e, add_element e.1 e.2 es) [] l.

(** A rest that holds no complete element, with the warnings it causes. *)
Definition tail_warnings (rest : bytes) : option (list string) :=
  match rest with
  | [] => Some []
  | [_] => Some ["trailing_ie_bytes"]
  | id :: len :: payload =>
      if Z.of_nat (length payload) <? len
      then Some (("truncated_ie_" +:+ pretty id) ::
                 match payload with [] => [] | _ => ["trailing_ie_bytes"] end)
      else None
  end.

Lemma iter_loop_encode l rest fuel es :
  (length (encode_elements l ++ rest) ≤ fuel)%nat →
  iter_loop fuel (encode_elements l ++ rest) es =
  iter_loop (fuel - length l) rest (foldl (λ es e, add_element e.1 e.2 es) es l).
Proof.
  revert fuel es. induction l as [|[id p] l IH]; intros fuel es Hf.
  - simpl. by rewrite Nat.sub_0_r.
  - simpl in Hf. rewrite !length_app in Hf.
    destruct fuel as [|fuel]; [lia|]. simpl.
    rewrite <- app_assoc. rewrite (proj2 (Z.ltb_ge _ _)) by (rewrite length_app; lia).
    rewrite Nat2Z.id, take_app_length, drop_app_length.
    apply IH. rewrite length_app. simpl in *. lia.
Qed.

Lemma encode_elements_length l : (length l ≤ length (encode_elements l))%nat.
Proof.
  induction l as [|[id p] l IH]; [done|]. simpl in *.
  rewrite length_app. lia.
Qed.

(** C40: the element iteration reads back exactly what was written: after any
    complete elements, followed by a rest that holds no complete one, the
    result groups the payloads by identifier in order, and the warnings are
    those of the rest: none when it is empty. *)
Theorem elements_roundtrip l rest w :
  tail_warnings rest = Some w →
  iter_information_elements (encode_elements l ++ rest) = (group l, w).
Proof.
  intros Hw. unfold iter_information_elements. rewrite iter_loop_encode by done.
  pose proof (encode_elements_length l) as Hl. rewrite length_app.
  set (fuel := (length (encode_elements l) + length rest - length l)%nat).
  assert (Hfuel : (length rest ≤ fuel)%nat) by lia. clearbody fuel.
  fold (group l). destruct rest as [|id [|len payload]]; simpl in *.
  - injection Hw as <-. by destruct fuel.
  - injection Hw as <-. by destruct fuel.
  - destruct fuel as [|fuel]; [lia|]. simpl. destruct (_ <? len); [|done]. by injection Hw as <-.
Qed.

Lemma elements_roundtrip_witness :
  iter_information_elements
    (encode_elements [(0, [97; 98]); (45, []); (0, [99])] ++ [221; 5; 1]) =
  ([(0, [[97; 98]; [99]]); (45, [[]])], ["truncated_ie_221"; "trailing_ie_bytes"]).
Proof.
  exact (elements_roundtrip [(0, [97; 98]); (45, []); (0, [99])] [221; 5; 1]
           ["truncated_ie_221"; "trailing_ie_bytes"] eq_refl).
Defined.

(** ** Bounds *)
Lemma fold_bound (f : Z → Z → Z) l acc m :
  (∀ a i, i ∈ l → f a i = a ∨ 1 ≤ f a i ≤ m) → 0 ≤ acc ≤ m → 0 ≤ foldl f acc l ≤ m.
Proof.
  revert acc. induction l as [|i l IH]; intros acc Hf Hacc; simpl; [done|].
  apply IH; [intros; apply Hf; set_solver|]. destruct (Hf acc i); [set_solver|lia|lia].
Qed.

Lemma vht_streams_bound p : 0 ≤ parse_vht_mimo_streams p ≤ 8.
Proof.
  unfold parse_vht_mimo_streams. destruct p as [p|]; [|lia]. destruct (_ <? 8)%nat; [lia|].
  set (m := byte_at 4 p + 256 * byte_at 5 p).
  assert (H : 0 ≤ foldl (vht_stream m) 0 (zseq 0 8) ≤ 8); [|lia].
  apply fold_bound; [|lia]. intros a i Hi. unfold vht_stream. destruct (_ =? 3); [by left|right].
  unfold zseq in Hi. apply list_elem_of_fmap in Hi as (k & -> & Hk%elem_of_seq). lia.
Qed.

Lemma ht_streams_bound p : 0 ≤ parse_ht_mimo_streams p ≤ 4.
Proof.
  unfold parse_ht_mimo_streams. destruct p as [p|]; [|lia]. destruct (_ <? 19)%nat; [lia|].
  simpl. split_ifs; lia.
Qed.

(** A payload can only be read where its element was present. *)
Lemma first_present es id p : first es id = Some p → has_element id es = true.
Proof.
  unfold first, has_element. intros H. apply bool_decide_eq_true.
  by destruct (alookup id es).
Qed.

Lemma parse_channel_width_ok es :
  let '(mhz, text, source) := parse_channel_width es in
  ∀ w, mhz = Some w →
    w ∈ [20; 40; 80; 160] ∧ text = pretty w +:+ " MHz" ∧ source ≠ "unavailable".
Proof.
  unfold parse_channel_width. destruct (parse_vht_channel_width _) as [[mhz text]|] eqn:E.
  - intros w ->. unfold parse_vht_channel_width in E.
    destruct (first es 192) as [[|c p]|]; try done.
    destruct (c =? 1); [injection E as <- <-; split_and!; [set_solver|reflexivity|done]|].
    destruct (c =? 2); [injection E as <- <-; split_and!; [set_solver|reflexivity|done]|].
    by destruct (c =? 3).
  - destruct (parse_ht_channel_width _) as [h|] eqn:E2; [|done]. intros w [= <-].
    split_and!; [|done|done]. unfold parse_ht_channel_width in E2.
    destruct (first es 61) as [[|a [|b p]]|]; try done. injection E2 as <-.
    destruct (_ || _); set_solver.
Qed.

Lemma parse_mimo_ok es :
  let '(m, source, note) := parse_mimo es in
  m = "-" ∧ source = "unavailable" ∨
  ∃ n, 1 ≤ n ≤ 8 ∧ m = pretty n +:+ "x" +:+ pretty n ∧
    (source = "vht_mcs_map" ∧ has_element 191 es = true ∨
     source = "ht_mcs_set" ∧ has_element 45 es = true ∧ n ≤ 4).
Proof.
  unfold parse_mimo. cbv zeta. pose proof (vht_streams_bound (first es 191)) as Hv.
  pose proof (ht_streams_bound (first es 45)) as Hh.
  destruct (Z.eqb_spec (parse_vht_mimo_streams (first es 191)) 0) as [E|E]; simpl.
  - destruct (Z.eqb_spec (parse_ht_mimo_streams (first es 45)) 0) as [E2|E2]; simpl; [by left|].
    right. eexists. split; [|split; [reflexivity|]]; [lia|]. right. split; [done|]. split; [|lia].
    destruct (first es 45) eqn:Ef; [by eapply first_present|done].
  - right. eexists. split; [|split; [reflexivity|]]; [lia|]. left. split; [done|].
    destruct (first es 191) eqn:Ef; [by eapply first_present|done].
Qed.

(** What the parser reports is always consistent: the numeric width is one
    of 20, 40, 80 and 160 MHz and comes with a source; MIMO is "nxn" with
    1 to 8 streams and then HT or VHT is reported as supported, or it is "-";
    HE is reported exactly with its warning. *)
Theorem capability_consistent blob :
  let info := parse blob in
  (∀ w, channel_width_mhz info = Some w →
     w ∈ [20; 40; 80; 160] ∧ channel_width_text info = pretty w +:+ " MHz" ∧
     channel_width_source info ≠ "unavailable") ∧
  (mimo info = "-" ∧ mimo_source info = "unavailable" ∨
   ∃ n, 1 ≤ n ≤ 8 ∧ mimo info = pretty n +:+ "x" +:+ pretty n ∧
     (mimo_source info = "vht_mcs_map" ∧ vht_supported info = true ∨
      mimo_source info = "ht_mcs_set" ∧ ht_supported info = true ∧ n ≤ 4)) ∧
  (he_supported info = true → "he_parser_not_implemented" ∈ parse_warnings info).
Proof.
  cbv zeta. destruct blob as [[|b blob]|]; try (split_and!; [done|by left|done]).
  unfold parse. destruct (iter_information_elements (b :: blob)) as [es ws].
  pose proof (parse_channel_width_ok es) as Hw. pose proof (parse_mimo_ok es) as Hm.
  destruct (parse_channel_width es) as [[w text] source].
  destruct (parse_mimo es) as [[m ms] mn]. simpl.
  split_and!; [exact Hw|exact Hm|]. intros ->. set_solver.
Qed.
