(* ===== verification/ConnectionManager.v ===== *)
(** * Connection attempts

    services/connection_manager.py: the ordered list of ways to reach a device,
    by protocol, directly or through a tunnel, at each distinct address. *)

From S2P Require Import Prelude PyVal PyText.

(** The fields of [Device] that the manager reads; [None] is a null column. *)
Record Device := mkDevice {
  device_uuid : option string;
  name : string;
  primary_address : string;
  backup_address : option string;
  protocol : option string;
  port : option Z;
  username : option string;
  password : option string;
  ssh_enabled : Z;
  ssh_port : Z;
  telnet_enabled : Z;
  telnet_port : Z;
  ssh_username : option string;
  ssh_password : option string;
  telnet_username : option string;
  telnet_password : option string;
  tunnel1_host : option string;
  tunnel1_port : option Z;
  tunnel1_username : option string;
  tunnel1_password : option string;
  tunnel2_host : option string;
  tunnel2_port : option Z;
  tunnel2_username : option string;
  tunnel2_password : option string;
}.

Record TunnelProfile := Tunnel {
  tn_label : string;
  tn_enabled : bool;
  tn_host : string;
  tn_port : Z;
  tn_username : string;
  tn_password : string;
}.
Definition is_complete (t : TunnelProfile) : bool :=
  tn_enabled t && str_nonempty (tn_host t) && negb (tn_port t =? 0) && str_nonempty (tn_username t).

Record DeviceConnectionProfile := Profile {
  pf_device_uuid : string;
  pf_device_name : string;
  pf_primary_address : string;
  pf_backup_address : string;
  pf_protocol : string;
  pf_port : Z;
  pf_username : string;
  pf_password : string;
  pf_tunnel_enabled : bool;
  pf_tunnels : list TunnelProfile;
}.

Record ConnectionAttemptResult := Attempt {
  at_label : string;
  at_host : string;
  at_port : Z;
  at_protocol : string;
  at_username : string;
  at_password : string;
  at_target_role : string;
  at_tunnel : option TunnelProfile;
  at_tunnel_label : string;
}.
Definition via_tunnel (a : ConnectionAttemptResult) : bool := bool_decide (is_Some (at_tunnel a)).

(** [str(x or "")] and [int(x or d)]. *)
Definition text (o : option string) : string := default "" o.
Definition int_or (d : Z) (z : Z) : Z := if z =? 0 then d else z.
Definition enabled (z : Z) : bool := negb (z =? 0).

(** [_tunnel_host_enabled]. *)
Definition tunnel_host_enabled (h : option string) : bool := str_nonempty (strip (text h)).

(** [_device_protocol]. *)
Definition device_protocol (d : Device) : string :=
  if enabled (ssh_enabled d) then "SSH"
  else if enabled (telnet_enabled d) then "Telnet"
  else text (protocol d).

(** [_device_port], [_device_username], [_device_password]. *)
Definition device_port (d : Device) (p : string) : Z :=
  if String.eqb (casefold p) "telnet" then int_or 23 (telnet_port d)
  else if String.eqb (casefold p) "ssh" then int_or 22 (ssh_port d)
  else default 0 (port d).
Definition device_username (d : Device) (p : string) : string :=
  if String.eqb (casefold p) "telnet" then text (telnet_username d)
  else if String.eqb (casefold p) "ssh" then text (ssh_username d)
  else text (username d).
Definition device_password (d : Device) (p : string) : string :=
  if String.eqb (casefold p) "telnet" then text (telnet_password d)
  else if String.eqb (casefold p) "ssh" then text (ssh_password d)
  else text (password d).

(** [_device_protocol_attempts]: protocol, port, user name, password. *)
Definition device_protocol_attempts (d : Device) : list (string * Z * string * string) :=
  let attempts :=
    (if enabled (ssh_enabled d)
     then [("SSH", int_or 22 (ssh_port d), text (ssh_username d), text (ssh_password d))] else [])
    ++ (if enabled (telnet_enabled d)
        then [("Telnet", int_or 23 (telnet_port d), text (telnet_username d),
               text (telnet_password d))] else []) in
  match attempts with
  | _ :: _ => attempts
  | [] =>
      let p := device_protocol d in
      if String.eqb p "" then []
      else [(p, device_port d p, device_username d p, device_password d p)]
  end.

(** [ConnectionManager.build_profile]. *)
Definition build_profile (d : Device) : DeviceConnectionProfile :=
  let p := device_protocol d in
  Profile (text (device_uuid d)) (name d) (primary_address d) (text (backup_address d))
    p (device_port d p) (device_username d p) (device_password d p)
    (tunnel_host_enabled (tunnel1_host d) || tunnel_host_enabled (tunnel2_host d))
    [Tunnel "tunnel1" (tunnel_host_enabled (tunnel1_host d)) (text (tunnel1_host d))
       (int_or 22 (default 0 (tunnel1_port d))) (text (tunnel1_username d))
       (text (tunnel1_password d));
     Tunnel "tunnel2" (tunnel_host_enabled (tunnel2_host d)) (text (tunnel2_host d))
       (int_or 22 (default 0 (tunnel2_port d))) (text (tunnel2_username d))
       (text (tunnel2_password d))].

(** The loop of [_connection_addresses]. *)
Fixpoint collect_addresses (seen : list string) (l : list (string * string))
    : list (string * string) :=
  match l with
  | [] => []
  | (target_role, raw_address) :: l' =>
      let address := strip raw_address in
      let identity := casefold address in
      if String.eqb address "" || str_mem identity seen then collect_addresses seen l'
      else (target_role, address) :: collect_addresses (identity :: seen) l'
  end.

Definition connection_addresses (p : DeviceConnectionProfile) : list (string * string) :=
  collect_addresses [] [("primary", pf_primary_address p); ("backup", pf_backup_address p)].

(** The attempts of one protocol, directly and through the complete tunnels. *)
Definition direct_attempt (suffix : string) (c : string * Z * string * string)
    (a : string * string) : ConnectionAttemptResult :=
  let '(p, port, user, pass) := c in
  Attempt (a.1 +:+ "_direct" +:+ suffix) a.2 port p user pass a.1 None "".

Definition tunnel_attempt (suffix : string) (c : string * Z * string * string)
    (t : TunnelProfile) (a : string * string) : ConnectionAttemptResult :=
  let '(p, port, user, pass) := c in
  Attempt (tn_label t +:+ "_" +:+ a.1 +:+ suffix) a.2 port p user pass a.1 (Some t) (tn_label t).

Definition label_suffix (profile : DeviceConnectionProfile) (p : string) : string :=
  if String.eqb p (pf_protocol profile) then "" else "_" +:+ casefold p.

Definition protocol_attempts (profile : DeviceConnectionProfile)
    (c : string * Z * string * string) : list ConnectionAttemptResult :=
  let suffix := label_suffix profile c.1.1.1 in
  let addresses := connection_addresses profile in
  (direct_attempt suffix c <$> addresses) ++
  (pf_tunnels profile ≫= λ t,
     if is_complete t then tunnel_attempt suffix c t <$> addresses else []).

(** [ConnectionManager.iter_attempts]. *)
Definition iter_attempts (d : Device) : list ConnectionAttemptResult :=
  let profile := build_profile d in
  device_protocol_attempts d ≫= protocol_attempts profile.

(** ** Theorems *)

(** The addresses: stripped, not empty, distinct up to case, and none lost. *)
Lemma collect_addresses_spec seen l :
  NoDup (casefold <$> (collect_addresses seen l).*2) ∧
  Forall (λ a, casefold a ∉ seen ∧ a ≠ "" ∧ strip a = a) (collect_addresses seen l).*2 ∧
  (∀ r a, (r, a) ∈ l → strip a ≠ "" →
     casefold (strip a) ∈ seen ++ (casefold <$> (collect_addresses seen l).*2)).
Proof.
  revert seen. induction l as [|[r a] l IH]; intros seen; simpl.
  { split_and!; [apply NoDup_nil_2|done|by intros ?? ?%not_elem_of_nil]. }
  destruct (String.eqb_spec (strip a) "") as [E|E]; simpl.
  { destruct (IH seen) as (H1 & H2 & H3). split_and!; [done..|].
    intros r' a' [[= -> ->]|Hin]%elem_of_cons Hne; [done|by eapply H3]. }
  destruct (str_mem (casefold (strip a)) seen) eqn:Em.
  { apply str_mem_iff in Em. destruct (IH seen) as (H1 & H2 & H3). split_and!; [done..|].
    intros r' a' [[= -> ->]|Hin]%elem_of_cons Hne; [set_solver|by eapply H3]. }
  assert (Hno : casefold (strip a) ∉ seen) by (rewrite <- str_mem_iff; congruence).
  destruct (IH (casefold (strip a) :: seen)) as (H1 & H2 & H3). simpl. split_and!.
  - constructor; [|done]. intros (x & Hx & Hin)%list_elem_of_fmap.
    rewrite Forall_forall in H2. destruct (H2 _ Hin) as [Hs _]. rewrite <- Hx in Hs. set_solver.
  - constructor; [split_and!; [done|done|apply strip_idem]|].
    eapply Forall_impl; [exact H2|]. intros x (?&?&?). split_and!; [set_solver|done|done].
  - intros r' a' [[= -> ->]|Hin]%elem_of_cons Hne; [set_solver|].
    specialize (H3 _ _ Hin Hne). set_solver.
Qed.

(** The roles come in order, each at most once. *)
Lemma connection_addresses_roles p :
  (connection_addresses p).*1 ∈
    [[]; ["primary"]; ["backup"]; ["primary"; "backup"]].
Proof.
  unfold connection_addresses. simpl. split_ifs; simpl; set_solver.
Qed.

(** The ways: a protocol with its credentials, a tunnel or none, an address. *)
Definition reachable_by (d : Device) (a : ConnectionAttemptResult) : Prop :=
  (at_protocol a, at_port a, at_username a, at_password a) ∈ device_protocol_attempts d ∧
  (at_target_role a, at_host a) ∈ connection_addresses (build_profile d) ∧
  match at_tunnel a with
  | None => at_tunnel_label a = ""
  | Some t => t ∈ pf_tunnels (build_profile d) ∧ is_complete t = true ∧
              at_tunnel_label a = tn_label t
  end.

(** The labels depend on the roles, the tunnels and the suffix only. *)
Definition labels_of (roles : list string) (tunnels : list (string * bool)) (suffix : string)
    : list string :=
  ((λ r, r +:+ "_direct" +:+ suffix) <$> roles) ++
  (tunnels ≫= λ t, if (t.2 : bool) then (λ r, t.1 +:+ "_" +:+ r +:+ suffix) <$> roles else []).

Lemma protocol_attempts_labels profile c :
  at_label <$> protocol_attempts profile c =
  labels_of (connection_addresses profile).*1
    ((λ t, (tn_label t, is_complete t)) <$> pf_tunnels profile)
    (label_suffix profile c.1.1.1).
Proof.
  unfold protocol_attempts, labels_of. rewrite fmap_app. f_equal.
  - rewrite <- !list_fmap_compose. apply list_fmap_ext. by intros _ [r a] _; destruct c as [[[]]].
  - induction (pf_tunnels profile) as [|t ts IH]; [done|].
    rewrite fmap_cons, !bind_cons, fmap_app, IH. f_equal. simpl. destruct (is_complete t); [|done].
    rewrite <- !list_fmap_compose. apply list_fmap_ext. by intros _ [r a] _; destruct c as [[[]]].
Qed.

Lemma profile_tunnels d :
  ∃ b1 b2, (λ t, (tn_label t, is_complete t)) <$> pf_tunnels (build_profile d) =
           [("tunnel1", b1); ("tunnel2", b2)].
Proof. eexists _, _. reflexivity. Qed.

Lemma labels_nodup roles b1 b2 :
  roles ∈ [[]; ["primary"]; ["backup"]; ["primary"; "backup"]] →
  NoDup (labels_of roles [("tunnel1", b1); ("tunnel2", b2)] "" ++
         labels_of roles [("tunnel1", b1); ("tunnel2", b2)] "_telnet").
Proof.
  rewrite !elem_of_cons. intros [->|[->|[->|[->|?%not_elem_of_nil]]]]; [..|done];
    destruct b1, b2; apply (bool_decide_unpack _); vm_compute; exact I.
Qed.

(** At most two protocols; only the second one can differ from the profile's. *)
Lemma protocols_shape d :
  device_protocol_attempts d = [] ∨
  (∃ c, device_protocol_attempts d = [c] ∧ label_suffix (build_profile d) c.1.1.1 = "") ∨
  (∃ c1 c2, device_protocol_attempts d = [c1; c2] ∧
     label_suffix (build_profile d) c1.1.1.1 = "" ∧
     label_suffix (build_profile d) c2.1.1.1 = "_telnet").
Proof.
  unfold device_protocol_attempts, label_suffix, build_profile, device_protocol. simpl.
  destruct (enabled (ssh_enabled d)), (enabled (telnet_enabled d)); simpl.
  - right. right. eexists _, _. split; [reflexivity|]. done.
  - right. left. eexists. split; [reflexivity|]. done.
  - right. left. eexists. split; [reflexivity|]. done.
  - destruct (String.eqb (text (protocol d)) ""); [by left|]. right. left.
    eexists. split; [reflexivity|]. simpl. by rewrite String.eqb_refl.
Qed.

Lemma attempt_labels d : NoDup (at_label <$> iter_attempts d).
Proof.
  unfold iter_attempts. destruct (profile_tunnels d) as (b1 & b2 & Ht).
  pose proof (labels_nodup _ b1 b2 (connection_addresses_roles (build_profile d))) as Hn.
  destruct (protocols_shape d) as [->|[(c & -> & Hc)|(c1 & c2 & -> & Hc1 & Hc2)]].
  - apply NoDup_nil_2.
  - rewrite bind_cons, fmap_app, protocol_attempts_labels, Ht, Hc. simpl. rewrite app_nil_r.
    by apply NoDup_app in Hn as [? _].
  - rewrite !bind_cons, !fmap_app, !protocol_attempts_labels, Ht, Hc1, Hc2. simpl.
    by rewrite app_nil_r.
Qed.

Lemma attempt_reachable d a : a ∈ iter_attempts d → reachable_by d a.
Proof.
  unfold iter_attempts, reachable_by. intros (c & Ha & Hc)%list_elem_of_bind.
  unfold protocol_attempts in Ha. apply elem_of_app in Ha as [Ha|Ha].
  - apply list_elem_of_fmap in Ha as ([r h] & -> & Hin). destruct c as [[[p po] u] pw]. done.
  - apply list_elem_of_bind in Ha as (t & Ha & Ht). destruct (is_complete t) eqn:E; [|set_solver].
    apply list_elem_of_fmap in Ha as ([r h] & -> & Hin). destruct c as [[[p po] u] pw]. done.
Qed.

(** The attempts of a device cover every combination once: each attempt uses
    an enabled protocol with its credentials, a listed address and no tunnel or
    a complete one; every such combination is attempted; and no two attempts
    share a label.  The addresses are the non-blank ones, stripped, without
    repetition up to case, and the direct way to the first address comes
    first. *)
Theorem attempts_complete d :
  (∀ a, a ∈ iter_attempts d → reachable_by d a) ∧
  (∀ c ad, c ∈ device_protocol_attempts d → ad ∈ connection_addresses (build_profile d) →
     direct_attempt (label_suffix (build_profile d) c.1.1.1) c ad ∈ iter_attempts d ∧
     ∀ t, t ∈ pf_tunnels (build_profile d) → is_complete t = true →
       tunnel_attempt (label_suffix (build_profile d) c.1.1.1) c t ad ∈ iter_attempts d) ∧
  NoDup (at_label <$> iter_attempts d) ∧
  (let hosts := (connection_addresses (build_profile d)).*2 in
   NoDup (casefold <$> hosts) ∧ Forall (λ h, h ≠ "" ∧ strip h = h) hosts ∧
   ∀ h, h ∈ [primary_address d; text (backup_address d)] → strip h ≠ "" →
     casefold (strip h) ∈ casefold <$> hosts) ∧
  (∀ c cs ad ads, device_protocol_attempts d = c :: cs →
     connection_addresses (build_profile d) = ad :: ads →
     head (iter_attempts d) = Some (direct_attempt (label_suffix (build_profile d) c.1.1.1) c ad)).
Proof.
  destruct (collect_addresses_spec [] [("primary", pf_primary_address (build_profile d));
    ("backup", pf_backup_address (build_profile d))]) as (H1 & H2 & H3).
  split; [apply attempt_reachable|]. split; [|split; [apply attempt_labels|split]].
  - intros c ad Hc Had. unfold iter_attempts. split; [|intros t Ht Hcomp];
      apply list_elem_of_bind; exists c; (split; [|done]); unfold protocol_attempts;
      apply elem_of_app; [left|right].
    + by apply list_elem_of_fmap_2.
    + apply list_elem_of_bind. exists t. rewrite Hcomp. split; [by apply list_elem_of_fmap_2|done].
  - cbv zeta. split; [exact H1|]. split.
    + eapply Forall_impl; [exact H2|]. naive_solver.
    + intros h Hh Hne. simpl in H3. rewrite !elem_of_cons in Hh.
      destruct Hh as [->|[->|?%not_elem_of_nil]]; [..|done].
      * apply (H3 "primary"); [left|done].
      * apply (H3 "backup"); [right; left|done].
  - intros c cs ad ads Hc Had. unfold iter_attempts. rewrite Hc. simpl.
    unfold protocol_attempts. rewrite Had. done.
Qed.

(** A device with SSH, Telnet, two spellings of one address and one tunnel. *)
Definition demo_device : Device :=
  mkDevice (Some "u1") "MR-1" " 10.0.0.1" (Some "10.0.0.2 ") None (Some 22) None None
    1 22 1 0 (Some "root") None (Some "admin") None
    (Some "jump") None (Some "ops") None None None None None.
Example demo_attempts :
  at_label <$> iter_attempts demo_device =
  ["primary_direct"; "backup_direct"; "tunnel1_primary"; "tunnel1_backup";
   "primary_direct_telnet"; "backup_direct_telnet"; "tunnel1_primary_telnet";
   "tunnel1_backup_telnet"].
Proof. reflexivity. Qed.
