(* ===== verification/ApNormalizers.v ===== *)
(** * Access-point normalizers

    core/ap_identity/normalizers.py and the part of utils/mileage.py it uses:
    the canonical forms of MAC addresses, names, identifiers and mileages by
    which access points are compared. *)

From S2P Require Import Prelude PyVal PyText.

Definition EMPTY_VALUES : list string :=
  [""; "-"; "--"; "n/a"; "na"; "none"; "null"; "unknown"; "未知"; "无"].

(** [_clean_text], also [normalize_identifier]. *)
Definition clean_text (value : pyval) : option string :=
  match value with
  | PNone => None
  | _ =>
      let text := strip (py_str value) in
      if str_mem (casefold text) EMPTY_VALUES then None else Some text
  end.
Definition normalize_identifier (value : pyval) : option string := clean_text value.

(** [normalize_ap_name]: runs of white space become one space. *)
Definition normalize_ap_name (value : pyval) : option string :=
  text ← clean_text value; Some (join " " (words text)).

(** ** MAC addresses *)
Definition is_hex (c : ascii) : bool :=
  let n := byte_of c in
  is_digit c || ((97 <=? n) && (n <=? 102)) || ((65 <=? n) && (n <=? 70)).

(** Each of the four patterns has a fixed length: one character class per
    position. *)
Fixpoint match_classes (cs : list (ascii → bool)) (s : string) : bool :=
  match cs, s with
  | [], "" => true
  | c :: cs', String x s' => c x && match_classes cs' s'
  | _, _ => false
  end.

Definition is_char (c : ascii) : ascii → bool := Ascii.eqb c.
Definition colon_or_hyphen (c : ascii) : bool := is_char ":" c || is_char "-" c.
Definition groups (sep : ascii → bool) (size count : nat) : list (ascii → bool) :=
  replicate size is_hex ++ concat (replicate (count - 1) (sep :: replicate size is_hex)).

Definition MAC_COLON_OR_HYPHEN : list (ascii → bool) := groups colon_or_hyphen 2 6.
Definition MAC_DOTTED : list (ascii → bool) := groups (is_char ".") 4 3.
Definition MAC_H3C_HYPHEN : list (ascii → bool) := groups (is_char "-") 4 3.
Definition MAC_PLAIN : list (ascii → bool) := replicate 12 is_hex.

(** [re.sub(r"[-:.]", "", text)]. *)
Definition mac_separator (c : ascii) : bool := is_char "-" c || is_char ":" c || is_char "." c.
Fixpoint remove_chars (p : ascii → bool) (s : string) : string :=
  match s with
  | "" => ""
  | String c s' => if p c then remove_chars p s' else String c (remove_chars p s')
  end.

Definition normalize_mac_key (value : pyval) : option string :=
  text ← clean_text value;
  if negb (match_classes MAC_COLON_OR_HYPHEN text || match_classes MAC_DOTTED text
           || match_classes MAC_H3C_HYPHEN text || match_classes MAC_PLAIN text)
  then None
  else Some (casefold (remove_chars mac_separator text)).

(** The slices of a text, [size] characters each. *)
Fixpoint chunks (size : nat) (count : nat) (s : string) : list string :=
  match count with
  | O => []
  | S count' =>
      String.substring 0 size s :: chunks size count' (String.substring size (String.length s) s)
  end.

Definition format_mac (value : pyval) : string :=
  match normalize_mac_key value with
  | None => ""
  | Some key => join "-" (chunks 4 3 key)
  end.

Definition normalize_mac (value : pyval) : option string :=
  key ← normalize_mac_key value; Some (join ":" (chunks 2 6 key)).

(** [mac_prefix]. *)
Definition mac_prefix (value : pyval) (bits : Z) : option string :=
  key ← normalize_mac_key value;
  if (bits <=? 0) || (48 <? bits) || negb (bits mod 4 =? 0) then None
  else Some (String.substring 0 (Z.to_nat (bits / 4)) key).

Definition is_mac_like (value : pyval) : bool := bool_decide (is_Some (normalize_mac_key value)).
Definition same_mac (l r : pyval) : bool :=
  match normalize_mac_key l, normalize_mac_key r with
  | Some a, Some b => String.eqb a b
  | _, _ => false
  end.

(** ** Mileages

    Metres are decimals: [dec m k] is m / 10^k.  The code computes them in
    floating point; only their whole part is displayed. *)
Record decimal := dec { d_num : Z; d_scale : nat }.
Definition dec_floor (d : decimal) : Z := d_num d / 10 ^ Z.of_nat (d_scale d).

Record TrackMileage := Mileage {
  tm_raw : string;
  tm_meters : option decimal;
  tm_prefix : option string;
  tm_display : string;
  tm_error : string;
}.

Definition EMPTY_MILEAGE_VALUES : list string :=
  [""; "-"; "N/A"; "NA"; "UNKNOWN"; "未知"; "无"; "NONE"; "NULL"].
Definition TRACK_MILEAGE_PREFIXES : list string := ["ZDK"; "YDK"; "CDK"; "RDK"].

Definition mileage_is_empty (s : string) : bool :=
  str_mem (upper (strip s)) EMPTY_MILEAGE_VALUES.

(** [_normalize_prefix] of the first group. *)
Definition normalize_prefix (value : option string) : option string :=
  let text := upper (strip (default "" value)) in
  if str_mem text TRACK_MILEAGE_PREFIXES then Some text else None.

(** [_format_meters]. *)
Definition format_meters (value : decimal) (prefix : option string) : string :=
  let meters := dec_floor value in
  default "K" prefix +:+ pretty (meters / 1000) +:+ "+" +:+ pad3 (meters mod 1000).

Definition is_upper_letter (c : ascii) : bool :=
  let n := byte_of c in (65 <=? n) && (n <=? 90).

(** [\d+(?:\.\d+)?] to the end of the text. *)
Definition parse_decimal (s : string) : option decimal :=
  match split_on "." s with
  | [a] => if is_digits a then Some (dec (digits_val 0 a) 0) else None
  | [a; b] => if is_digits a && is_digits b
              then Some (dec (digits_val 0 (a +:+ b)) (String.length b)) else None
  | _ => None
  end.

Fixpoint last_is (c : ascii) (s : string) : bool :=
  match s with
  | "" => false
  | String d "" => Ascii.eqb c d
  | String _ s' => last_is c s'
  end.

(** [([A-Z]*K)?(\d+)\+(\d+(?:\.\d+)?)] in full: letters, kilometres, metres. *)
Definition parse_prefixed (text : string) : option (option string * Z * decimal) :=
  let '(letters, rest) := span is_upper_letter text in
  match split_on "+" rest with
  | [km; m] =>
      if negb (is_digits km) then None
      else
        m ← parse_decimal m;
        if String.eqb letters "" then Some (None, digits_val 0 km, m)
        else if last_is "K" letters then Some (Some letters, digits_val 0 km, m)
        else None
  | _ => None
  end.

(** [parse_track_mileage]. *)
Definition parse_track_mileage (value : pyval) : TrackMileage :=
  let raw := match value with PNone => "" | _ => strip (py_str value) end in
  if mileage_is_empty raw then Mileage raw None None "-" ""
  else
    let text := upper (replace " " "" raw) in
    match parse_prefixed text with
    | Some (letters, km, m) =>
        let prefix := normalize_prefix letters in
        let meters := dec (km * 1000 * 10 ^ Z.of_nat (d_scale m) + d_num m) (d_scale m) in
        Mileage raw (Some meters) prefix (format_meters meters prefix) ""
    | None =>
        match parse_decimal text with
        | Some meters => Mileage raw (Some meters) None (format_meters meters None) ""
        | None => Mileage raw None None "-" "里程无法解析"
        end
    end.

(** [normalize_mileage]. *)
Definition normalize_mileage (value : pyval) : option string :=
  text ← clean_text value;
  let parsed := parse_track_mileage (PStr (replace "!" "" text)) in
  match tm_meters parsed with Some _ => Some (tm_display parsed) | None => None end.

(** [parse_line_direction]. *)
Definition direction_char (c : ascii) : bool :=
  is_char "!" c || is_space c || is_char "_" c || is_char ":" c || is_char "-" c || is_char "/" c.

Definition parse_line_direction (value : pyval) : option string * option string :=
  match clean_text value with
  | None => (None, None)
  | Some text =>
      let compact := upper (remove_chars direction_char text) in
      if starts_with "ZDK" compact || str_mem text ["左线"; "左"; "下行"; "下"]
      then (Some "左线", Some "下行")
      else if starts_with "YDK" compact || str_mem text ["右线"; "右"; "上行"; "上"]
      then (Some "右线", Some "上行")
      else if starts_with "CDK" compact || str_mem text ["出段线"; "出段"; "出库线"]
      then (Some "出段线", Some "出段")
      else if starts_with "RDK" compact || str_mem text ["入段线"; "入段"; "入库线"]
      then (Some "入段线", Some "入段")
      else (None, None)
  end.

(** ** MAC addresses: canonical forms *)

(** Twelve lower-case hexadecimal digits. *)
Definition is_low_hex (c : ascii) : bool :=
  let n := byte_of c in is_digit c || ((97 <=? n) && (n <=? 102)).
Definition mac_key (s : string) : Prop := match_classes (replicate 12 is_low_hex) s = true.

(** A statement on all characters is checked by evaluation. *)
Lemma ascii_forall (P : ascii → bool) :
  forallb P (ascii_of_nat <$> seq 0 256) = true → ∀ c, P c = true.
Proof.
  rewrite forallb_forall. intros H c. apply H, list_elem_of_In, list_elem_of_fmap.
  exists (nat_of_ascii c). split; [by rewrite ascii_nat_embedding|].
  apply elem_of_seq. pose proof (nat_ascii_bounded c). lia.
Qed.

Lemma hex_not_separator c : is_hex c = true → mac_separator c = false.
Proof.
  intros H. pose proof (ascii_forall (λ c, implb (is_hex c) (negb (mac_separator c))) eq_refl c) as E.
  simpl in E. rewrite H in E. by apply negb_true_iff in E.
Qed.

Lemma lower_hex c : is_hex c = true → is_low_hex (lower_ascii c) = true.
Proof.
  intros H. pose proof (ascii_forall (λ c, implb (is_hex c) (is_low_hex (lower_ascii c))) eq_refl c) as E.
  simpl in E. by rewrite H in E.
Qed.

Lemma low_hex_facts c :
  is_low_hex c = true → is_hex c = true ∧ lower_ascii c = c ∧ is_space c = false.
Proof.
  intros H. pose proof (ascii_forall (λ c, implb (is_low_hex c)
    (is_hex c && Ascii.eqb (lower_ascii c) c && negb (is_space c))) eq_refl c) as E.
  simpl in E. rewrite H in E. simpl in E. bool_to_prop.
  by apply Ascii.eqb_eq in H2.
Qed.

Lemma separator_facts c : colon_or_hyphen c = true → mac_separator c = true.
Proof. unfold colon_or_hyphen, mac_separator. intros H. apply orb_true_iff in H as [->| ->]; by rewrite ?orb_true_r. Qed.

(** What a pattern matched, without its separators, is as many lower-case
    digits as the pattern has hexadecimal positions. *)
Inductive hex_pattern : nat → list (ascii → bool) → Prop :=
  | hex_nil : hex_pattern 0 []
  | hex_digit_pos n cs : hex_pattern n cs → hex_pattern (S n) (is_hex :: cs)
  | hex_separator_pos n p cs :
      (∀ c, p c = true → mac_separator c = true) → hex_pattern n cs → hex_pattern n (p :: cs).

Lemma hex_pattern_key n cs s :
  hex_pattern n cs → match_classes cs s = true →
  match_classes (replicate n is_low_hex) (casefold (remove_chars mac_separator s)) = true.
Proof.
  intros H. revert s. induction H as [|n cs H IH|n p cs Hp H IH]; intros [|c s]; simpl; try done;
    intros Hm; bool_to_prop.
  - rewrite hex_not_separator by done. simpl. rewrite lower_hex by done. by apply IH.
  - rewrite Hp by done. by apply IH.
Qed.

Lemma patterns_hex :
  hex_pattern 12 MAC_COLON_OR_HYPHEN ∧ hex_pattern 12 MAC_DOTTED ∧
  hex_pattern 12 MAC_H3C_HYPHEN ∧ hex_pattern 12 MAC_PLAIN.
Proof.
  assert (Hd : ∀ c, is_char "." c = true → mac_separator c = true).
  { intros c H. unfold mac_separator. by rewrite H, orb_true_r. }
  assert (Hh : ∀ c, is_char "-" c = true → mac_separator c = true).
  { intros c H. unfold mac_separator. by rewrite H. }
  split_and!; repeat first [apply hex_nil | apply hex_digit_pos
    | apply hex_separator_pos; [first [exact separator_facts|exact Hd|exact Hh]|]].
Qed.

Lemma normalize_mac_key_ok v k : normalize_mac_key v = Some k → mac_key k.
Proof.
  unfold normalize_mac_key. intros (t & _ & H)%bind_Some.
  destruct (negb _) eqn:E; [done|]. injection H as <-. bool_to_prop.
  destruct patterns_hex as (H1 & H2 & H3 & H4).
  unfold mac_key. rewrite !orb_true_iff in E. destruct E as [[[E|E]|E]|E];
    eapply (hex_pattern_key 12); [|exact E| |exact E| |exact E| |exact E]; done.
Qed.

Lemma length_smap f s : String.length (smap f s) = String.length s.
Proof. induction s; simpl; congruence. Qed.

Lemma empty_values_short s : str_mem s EMPTY_VALUES = true → (String.length s ≤ 7)%nat.
Proof.
  intros H%str_mem_iff.
  assert (Hall : Forall (λ t, (String.length t ≤ 7)%nat) EMPTY_VALUES).
  { apply (bool_decide_unpack _). vm_compute. exact I. }
  rewrite Forall_forall in Hall. by apply Hall.
Qed.

(** A longer text without white space is kept as it is. *)
Lemma clean_text_long s :
  no_space s = true → (8 ≤ String.length s)%nat → clean_text (PStr s) = Some s.
Proof.
  intros Hs Hl. unfold clean_text. cbn [py_str]. rewrite strip_no_space by done.
  destruct (str_mem (casefold s) EMPTY_VALUES) eqn:E; [|done].
  apply empty_values_short in E. unfold casefold in E. rewrite length_smap in E. lia.
Qed.

(** The twelve digits of a key. *)
Lemma mac_key_digits k :
  mac_key k →
  ∃ c0 c1 c2 c3 c4 c5 c6 c7 c8 c9 c10 c11,
    Forall (λ c, is_low_hex c = true) [c0; c1; c2; c3; c4; c5; c6; c7; c8; c9; c10; c11] ∧
    k = String c0 (String c1 (String c2 (String c3 (String c4 (String c5
          (String c6 (String c7 (String c8 (String c9 (String c10 (String c11 ""))))))))))).
Proof.
  unfold mac_key. intros H. do 12 (destruct k as [|? k]; [simpl in H; by bool_to_prop|]).
  destruct k as [|? k]; [|simpl in H; by bool_to_prop].
  do 12 eexists. split; [|reflexivity]. simpl in H. bool_to_prop. by repeat constructor.
Qed.

(** [spells cs v k]: the text [v] is the key [k] with separators, in the pattern
    [cs]. *)
Inductive spells : list (ascii → bool) → string → string → Prop :=
  | spells_nil : spells [] "" ""
  | spells_digit cs v k c :
      is_low_hex c = true → spells cs v k → spells (is_hex :: cs) (String c v) (String c k)
  | spells_separator p cs v k c :
      p c = true → mac_separator c = true → is_space c = false → spells cs v k →
      spells (p :: cs) (String c v) k.

Lemma spells_ok cs v k :
  spells cs v k → match_classes cs v = true ∧ casefold (remove_chars mac_separator v) = k ∧ no_space v = true.
Proof.
  induction 1 as [|cs v k c (Hh & Hl & Hs)%low_hex_facts _ (H1 & H2 & H3)|p cs v k c Hp Hm Hs _ (H1 & H2 & H3)];
    [done|..]; simpl.
  - rewrite Hh, Hs, H1, H3, hex_not_separator by done.
    split_and!; [done| |done]. unfold casefold in *. simpl. by rewrite Hl, H2.
  - by rewrite Hp, Hm, Hs, H1, H3.
Qed.

Lemma spelled_key cs v k :
  cs ∈ [MAC_COLON_OR_HYPHEN; MAC_DOTTED; MAC_H3C_HYPHEN; MAC_PLAIN] → (8 ≤ String.length v)%nat →
  spells cs v k → normalize_mac_key (PStr v) = Some k.
Proof.
  intros Hcs Hl (Hm & Hk & Hs)%spells_ok. unfold normalize_mac_key. rewrite clean_text_long by done.
  cbn [mbind option_bind].
  assert (match_classes MAC_COLON_OR_HYPHEN v || match_classes MAC_DOTTED v
          || match_classes MAC_H3C_HYPHEN v || match_classes MAC_PLAIN v = true) as ->.
  { rewrite !elem_of_cons in Hcs. rewrite !orb_true_iff.
    destruct Hcs as [->|[->|[->|[->|[]%not_elem_of_nil]]]]; auto. }
  cbn [negb]. by rewrite Hk.
Qed.

Ltac spell := repeat first [apply spells_nil | apply spells_digit; [assumption|]
                           | apply spells_separator; [reflexivity..|]].

(** A key read in any of the printed notations is the key again. *)
Lemma reread_key k (v : string) :
  mac_key k → v ∈ [k; join "-" (chunks 4 3 k); join ":" (chunks 2 6 k)] →
  normalize_mac_key (PStr v) = Some k.
Proof.
  intros (c0 & c1 & c2 & c3 & c4 & c5 & c6 & c7 & c8 & c9 & c10 & c11 & Hf & ->)%mac_key_digits Hv.
  rewrite !Forall_cons in Hf. destruct Hf as (? & ? & ? & ? & ? & ? & ? & ? & ? & ? & ? & ? & _).
  cbv [chunks join String.substring String.length String.append] in Hv. rewrite !elem_of_cons in Hv.
  destruct Hv as [->|[->|[->|[]%not_elem_of_nil]]].
  - apply (spelled_key MAC_PLAIN); [set_solver|simpl; lia|]. unfold MAC_PLAIN. simpl. spell.
  - apply (spelled_key MAC_H3C_HYPHEN); [set_solver|simpl; lia|]. unfold MAC_H3C_HYPHEN, groups. simpl. spell.
  - apply (spelled_key MAC_COLON_OR_HYPHEN); [set_solver|simpl; lia|].
    unfold MAC_COLON_OR_HYPHEN, groups. simpl. spell.
Qed.

(** The canonical forms of a MAC address agree.  An accepted value has a key
    of twelve lower-case digits; the key, the dashed display form and the colon
    form all read back to it, so comparing any two of them by [same_mac] is
    comparing the keys; a value that is not accepted has neither form. *)
Theorem mac_forms_agree v :
  match normalize_mac_key v with
  | Some k =>
      mac_key k ∧ normalize_mac_key (PStr k) = Some k ∧
      normalize_mac_key (PStr (format_mac v)) = Some k ∧
      (∃ m, normalize_mac v = Some m ∧ normalize_mac_key (PStr m) = Some k) ∧
      (∀ w, same_mac v w = true ↔ normalize_mac_key w = Some k)
  | None => format_mac v = "" ∧ normalize_mac v = None ∧ ∀ w, same_mac v w = false
  end.
Proof.
  unfold format_mac, normalize_mac, same_mac. destruct (normalize_mac_key v) as [k|] eqn:E; [|done].
  pose proof (normalize_mac_key_ok v k E) as Hk. split_and!; [done|..].
  - apply reread_key; [done|left].
  - apply reread_key; [done|right; left].
  - eexists. split; [reflexivity|]. apply reread_key; [done|right; right; left].
  - intros w. destruct (normalize_mac_key w) as [k'|]; [|done]. rewrite String.eqb_eq. naive_solver.
Qed.

Example mac_notations :
  normalize_mac_key <$> [PStr " 00:1A-2b:3C:4d:5E "; PStr "001a.2B3c.4d5e"; PStr "001A-2b3c-4D5E";
                         PStr "001a2b3c4d5e"; PStr "00:1A:2b:3C:4d"] =
  [Some "001a2b3c4d5e"; Some "001a2b3c4d5e"; Some "001a2b3c4d5e"; Some "001a2b3c4d5e"; None].
Proof. reflexivity. Qed.

Example mileage_forms :
  normalize_mileage <$> [PStr "zdk 12+345.6!"; PStr "K3+7"; PStr "1500.5"; PStr "AB1+2"; PStr "-"] =
  [Some "ZDK12+345"; Some "K3+007"; Some "K1+500"; None; None].
Proof. reflexivity. Qed.
