(* ===== verification/InterfaceNames.v ===== *)
(** * Interface names and the LLDP link of an access point

    utils/interface_normalize.py and core/sources/fit_ap_link_info.py: the full
    form of an interface name, the key by which two names are compared, the
    normal form of an LLDP observation and the merge of two observations.  Both
    regular expressions are matched by functions: a name with white space is
    letters, white space and a path of digits, whose classes are disjoint. *)

From S2P Require Import Prelude PyVal PyText ApNormalizers.

(** ** Text *)

(** [text.rstrip(":")]. *)
Fixpoint rstrip_colons (s : string) : string :=
  match s with
  | "" => ""
  | String c s' =>
      let r := rstrip_colons s' in
      if Ascii.eqb c ":" && String.eqb r "" then "" else String c r
  end.

(** [text[n:]]. *)
Fixpoint sdrop (n : nat) (s : string) : string :=
  match n, s with
  | O, _ => s
  | S n', String _ s' => sdrop n' s'
  | S _, "" => ""
  end.

Definition starts_with_char (p : ascii → bool) (s : string) : bool :=
  match s with String c _ => p c | "" => false end.

Definition clean (value : pyval) : string := strip (text_or_empty value).

(** ** interface_normalize.py *)
Definition is_alpha (c : ascii) : bool :=
  let n := byte_of c in ((65 <=? n) && (n <=? 90)) || ((97 <=? n) && (n <=? 122)).
Definition prefix_char (c : ascii) : bool := is_alpha c || is_char "-" c.
Definition path_separator (c : ascii) : bool := is_char "/" c || is_char "." c || is_char ":" c.

(** [\d+(?:[/.:]\d+)*], the whole text. *)
Fixpoint digit_path (after_digit : bool) (s : string) : bool :=
  match s with
  | "" => after_digit
  | String c s' =>
      if is_digit c then digit_path true s'
      else path_separator c && after_digit && digit_path false s'
  end.

Definition SPACED_PREFIX_REPLACEMENTS : list (string * string) :=
  [("ten-gigabitethernet", "Ten-GigabitEthernet"); ("tengigabitethernet", "Ten-GigabitEthernet");
   ("xgigabitethernet", "Ten-GigabitEthernet"); ("ten-ge", "Ten-GigabitEthernet");
   ("ten", "Ten-GigabitEthernet"); ("xge", "Ten-GigabitEthernet");
   ("gigabitethernet", "GigabitEthernet"); ("ge", "GigabitEthernet");
   ("bridge-aggregation", "Bridge-Aggregation"); ("bagg", "Bridge-Aggregation");
   ("vlan-interface", "Vlan-interface"); ("vlan", "Vlan-interface")].

(** The match of [_SPACED_INTERFACE_PATTERN]: prefix and suffix. *)
Definition spaced_match (text : string) : option (string * string) :=
  let '(prefix, rest) := span prefix_char text in
  let '(spaces, suffix) := span is_space rest in
  if starts_with_char is_alpha prefix && str_nonempty spaces && digit_path false suffix
  then Some (prefix, suffix) else None.

Definition REPLACEMENTS : list (string * string) :=
  [("xgigabitethernet", "Ten-GigabitEthernet"); ("tengigabitethernet", "Ten-GigabitEthernet");
   ("ten-ge", "Ten-GigabitEthernet"); ("ten", "Ten-GigabitEthernet"); ("xge", "Ten-GigabitEthernet");
   ("gigabitethernet", "GigabitEthernet"); ("ge", "GigabitEthernet"); ("bagg", "Bridge-Aggregation");
   ("vlan", "Vlan-interface")].

Fixpoint replace_prefix (replacements : list (string * string)) (text : string) : string :=
  match replacements with
  | [] => text
  | (prefix, full) :: rest =>
      let suffix := sdrop (String.length prefix) text in
      if starts_with prefix (casefold text) && starts_with_char is_digit suffix
      then full +:+ suffix
      else replace_prefix rest text
  end.

(** What follows when no spaced form applies. *)
Definition normalize_compact (text : string) : string :=
  let lower := casefold text in
  if String.eqb lower "null0" then "NULL0"
  else if starts_with "ten-gigabitethernet" lower
  then "Ten-GigabitEthernet" +:+ sdrop 19 text
  else replace_prefix REPLACEMENTS text.

Definition normalize_interface_name (value : pyval) : string :=
  let text := rstrip_colons (clean value) in
  if String.eqb text "" then ""
  else match spaced_match text with
       | Some (prefix, suffix) =>
           match alookup (casefold prefix) SPACED_PREFIX_REPLACEMENTS with
           | Some replacement => replacement +:+ suffix
           | None => normalize_compact text
           end
       | None => normalize_compact text
       end.

(** ** fit_ap_link_info.py *)
Definition COMPACT_PREFIXES : list string :=
  ["ge"; "gigabitethernet"; "xge"; "xgigabitethernet"; "ten-gigabitethernet"; "tengigabitethernet"].

(** [_compact_interface_text]: white space after a known prefix goes. *)
Fixpoint compact_after (prefixes : list string) (text : string) : string :=
  match prefixes with
  | [] => text
  | prefix :: rest =>
      let suffix := sdrop (String.length prefix) text in
      if starts_with prefix (casefold text) && starts_with_char is_space suffix
      then String.substring 0 (String.length prefix) text +:+ lstrip suffix
      else compact_after rest text
  end.

Definition compact_interface_text (value : string) : string :=
  compact_after COMPACT_PREFIXES (rstrip_colons (strip value)).

Definition KEY_PREFIXES : list (string * string) :=
  [("tengigabitethernet", "xge"); ("ten-gigabitethernet", "xge"); ("xgigabitethernet", "xge");
   ("gigabitethernet", "ge"); ("xge", "xge"); ("ge", "ge")].

Fixpoint key_of (prefixes : list (string * string)) (lower : string) : string :=
  match prefixes with
  | [] => lower
  | (prefix, short) :: rest =>
      if starts_with prefix lower then short +:+ sdrop (String.length prefix) lower
      else key_of rest lower
  end.

Definition normalize_interface_key (value : pyval) : string :=
  key_of KEY_PREFIXES (casefold (compact_interface_text (normalize_interface_name value))).

Definition format_h3c_mac (value : pyval) : string :=
  match normalize_mac_key value with
  | Some mac => join "-" (chunks 4 3 (remove_chars (is_char ":") mac))
  | None => ""
  end.

Definition opt_str (o : option string) : pyval := match o with Some s => PStr s | None => PNone end.

Definition SOURCE_PRIORITY : list (string * Z) :=
  [("ap_direct_lldp", 90); ("ac_bulk_lldp", 60); ("ap_optical_diag", 50); ("legacy_compat", 30);
   ("stored_previous", 10); ("unknown", 0)].

Definition is_unknown_neighbor_name (value : pyval) : bool :=
  str_mem (casefold (clean value)) [""; "n/a"; "na"; "-"; "none"; "null"; "unknown"; "未知"; "未匹配"].

Definition has_value (value : pyval) : bool :=
  let text := clean value in
  negb (str_mem (casefold text) [""; "-"; "n/a"; "na"; "none"; "null"; "unknown"])
  && negb (str_mem text ["未知"; "未匹配"]).

Definition explicit_lldp_status (value : pyval) : string :=
  let status := casefold (clean value) in
  if str_mem status ["partial"; "unknown"; "unmatched"; "parse_error"; "conflict"] then status else "".

Definition resolve_lldp_match_status (data : dict) : string :=
  let explicit := explicit_lldp_status (dget "lldp_match_status" data) in
  if str_nonempty explicit then explicit
  else if has_value (dget "lldp_neighbor_mac_normalized" data)
       || has_value (dget "lldp_neighbor_mac" data) || has_value (dget "lldp_neighbor_interface" data)
  then "matched"
  else if has_value (dget "lldp_neighbor_name" data) then "partial" else "unknown".

(** [data.get(k1) or data.get(k2) or ...]. *)
Fixpoint get_or (keys : list string) (data : dict) : pyval :=
  match keys with
  | [] => PNone
  | [k] => dget k data
  | k :: rest => por (dget k data) (get_or rest data)
  end.

Definition named (value : pyval) : pyval :=
  PStr (if has_value value then normalize_interface_name value else "").

Definition normalize_lldp_payload (data : dict) (source : string) : dict :=
  let explicit_status := explicit_lldp_status (dget "lldp_match_status" data) in
  let local_interface := get_or ["lldp_local_interface"; "local_interface"; "interface_name"] data in
  let neighbor_name := get_or ["lldp_neighbor_name"; "neighbor_name"; "lldp_neighbor"; "neighbor_device_name"] data in
  let neighbor_mac := get_or ["lldp_neighbor_mac"; "neighbor_mac"] data in
  let neighbor_interface := get_or ["lldp_neighbor_interface"; "neighbor_interface"] data in
  let result :=
    [("lldp_source", PStr source);
     ("lldp_confidence", PInt (default 0 (alookup source SOURCE_PRIORITY)));
     ("lldp_collected_at", get_or ["lldp_collected_at"; "collected_at"] data);
     ("lldp_local_interface", named local_interface);
     ("lldp_local_interface_normalized", PStr (normalize_interface_key local_interface));
     ("lldp_neighbor_name",
       PStr (if is_unknown_neighbor_name neighbor_name then "" else clean neighbor_name));
     ("lldp_neighbor_mac", PStr (str_or (format_h3c_mac neighbor_mac) (clean neighbor_mac)));
     ("lldp_neighbor_mac_normalized", opt_str (normalize_mac_key neighbor_mac));
     ("lldp_neighbor_interface", named neighbor_interface)] in
  result ++ [("lldp_match_status", PStr (str_or explicit_status (resolve_lldp_match_status result)))].

(** ** Two observations *)
Definition field_text (k : string) (data : dict) : string := clean (dget k data).

Definition differs (k : string) (current new : dict) : bool :=
  has_value (dget k current) && has_value (dget k new)
  && negb (bool_decide (dget k current = dget k new)).

Definition has_lldp_conflict (current new : dict) : bool :=
  let current_source := casefold (field_text "lldp_source" current) in
  let new_source := casefold (field_text "lldp_source" new) in
  let trusted_sources := ["ap_direct_lldp"; "ac_bulk_lldp"; "device_lldp"] in
  if String.eqb current_source new_source || negb (str_mem current_source trusted_sources)
     || negb (str_mem new_source trusted_sources)
  then false
  else if differs "lldp_neighbor_mac_normalized" current new
       || differs "lldp_local_interface_normalized" current new
  then true
  else
    let old_neighbor_if := normalize_interface_key (dget "lldp_neighbor_interface" current) in
    let new_neighbor_if := normalize_interface_key (dget "lldp_neighbor_interface" new) in
    str_nonempty old_neighbor_if && str_nonempty new_neighbor_if
    && negb (String.eqb old_neighbor_if new_neighbor_if).

Definition best_neighbor_name (old_value new_value : pyval) (prefer_new : bool) : pyval :=
  let old_valid := has_value old_value && negb (is_unknown_neighbor_name old_value) in
  let new_valid := has_value new_value && negb (is_unknown_neighbor_name new_value) in
  if new_valid && (prefer_new || negb old_valid) then new_value
  else if old_valid then old_value
  else if new_valid then new_value else old_value.

(** [int(data.get("lldp_confidence") or 0)]; a normal form holds an integer. *)
Definition confidence (data : dict) : Z :=
  match to_int (por (dget "lldp_confidence" data) (PInt 0)) with Ok z => z | Err _ => 0 end.

Definition merged_meta_value (field : string) (current new : dict) (prefer_new : bool) : pyval :=
  if String.eqb field "lldp_source" then (if prefer_new then dget field new else dget field current)
  else if String.eqb field "lldp_confidence" then PInt (Z.max (confidence current) (confidence new))
  else por (dget field new) (dget field current).

Definition LLDP_FIELDS : list string :=
  ["lldp_source"; "lldp_confidence"; "lldp_collected_at"; "lldp_local_interface";
   "lldp_local_interface_normalized"; "lldp_neighbor_name"; "lldp_neighbor_mac";
   "lldp_neighbor_mac_normalized"; "lldp_neighbor_interface"; "lldp_match_status"].

(** What the loop of [merge_lldp_payload] gives a field; [kept] is the value of
    the stored row. *)
Definition merged_field (field : string) (current new : dict) (prefer_new : bool) (kept : pyval) : pyval :=
  let old_value := dget field current in
  let new_value := dget field new in
  if String.eqb field "lldp_neighbor_name" then best_neighbor_name old_value new_value prefer_new
  else if str_mem field ["lldp_source"; "lldp_confidence"; "lldp_collected_at"]
  then merged_meta_value field current new prefer_new
  else if has_value new_value && (prefer_new || negb (has_value old_value)) then new_value
  else if has_value old_value then old_value
  else kept.

Definition current_payload (existing : dict) : dict :=
  normalize_lldp_payload existing (py_str (por (dget "lldp_source" existing) (PStr "stored_previous"))).
Definition new_payload (incoming : dict) : dict :=
  normalize_lldp_payload incoming
    (py_str (por (dget "lldp_source" incoming) (por (dget "source" incoming) (PStr "unknown")))).

Definition merge_lldp_payload (existing incoming : dict) : dict :=
  let current := current_payload existing in
  let new := new_payload incoming in
  let prefer_new := confidence current <=? confidence new in
  let conflict := has_lldp_conflict current new in
  let result := (λ f, (f, merged_field f current new prefer_new (dget f existing))) <$> LLDP_FIELDS in
  let current_source := text_or_empty (dget "lldp_source" current) in
  let new_source := text_or_empty (dget "lldp_source" new) in
  let result :=
    if negb (str_mem current_source [""; "stored_previous"; "unknown"]) && str_nonempty new_source
       && negb (String.eqb current_source new_source) && negb conflict
    then dset "lldp_source" (PStr "merged") result else result in
  dset "lldp_match_status"
    (PStr (if conflict then "conflict" else resolve_lldp_match_status result)) result.

(** ** The link with its optical module *)
Definition first_value (data : dict) (fields : list string) : pyval :=
  match List.find has_value ((λ f, dget f data) <$> fields) with Some v => v | None => PStr "" end.

Definition RX_FIELDS : list string :=
  ["optical_rx_power"; "neighbor_rx_power"; "rx_power"; "neighbor_receive_power"].
Definition TX_FIELDS : list string :=
  ["optical_tx_power"; "tx_power"; "neighbor_tx_power"; "neighbor_transmit_power"].

Definition match_keys (local optical : string) : string :=
  if str_nonempty local && str_nonempty optical
  then (if String.eqb local optical then "matched" else "conflict")
  else "partial".

Definition resolve_optical_match_status (lldp optical : dict) : string :=
  let lldp_key := normalize_interface_key (get_or ["lldp_local_interface"; "interface_name"] lldp) in
  let optical_key := normalize_interface_key (get_or ["optical_interface"; "interface_name"] optical) in
  if negb (has_value (first_value optical RX_FIELDS)) then "unknown"
  else match_keys lldp_key optical_key.

Definition optical_payload_from_row (row : dict) : dict :=
  let interface := get_or ["optical_interface"; "interface_name"] row in
  let result :=
    [("optical_interface", PStr (normalize_interface_name interface));
     ("optical_interface_normalized", PStr (normalize_interface_key interface));
     ("optical_rx_power", first_value row RX_FIELDS);
     ("optical_tx_power", first_value row TX_FIELDS);
     ("optical_collected_at", dget "collected_at" row)] in
  dset "optical_match_status"
    (por (dget "link_match_status" row)
       (por (dget "optical_match_status" row) (PStr (resolve_optical_match_status row result)))) result.

Definition resolve_lldp_source (data : dict) : string :=
  let source := field_text "lldp_source" data in
  if has_value (PStr source) then source
  else if existsb (λ f, has_value (dget f data))
            ["lldp_neighbor"; "neighbor_name"; "neighbor_mac"; "neighbor_interface"; "neighbor_port"]
  then "legacy_compat"
  else if existsb (λ f, has_value (dget f data)) ["neighbor_rx_power"; "rx_power"; "optical_rx_power"]
  then "ap_optical_diag"
  else "unknown".

Definition resolve_optical_power_status (data : dict) : string :=
  let existing := casefold (strip (py_str (por (get_or ["optical_match_status"; "link_match_status"] data) (PStr "")))) in
  if String.eqb existing "conflict" then "conflict"
  else if negb (has_value (dget "optical_rx_power" data)) then "unknown"
  else match_keys (normalize_interface_key (get_or ["lldp_local_interface"; "local_interface"] data))
         (normalize_interface_key (get_or ["optical_interface"; "interface_name"] data)).

Definition resolve_fit_ap_link_info (row : dict) : dict :=
  let local_interface := first_value row ["lldp_local_interface"; "local_interface"; "optical_interface"; "interface_name"] in
  let neighbor_name := first_value row ["lldp_neighbor_name"; "neighbor_name"; "lldp_neighbor"; "neighbor_device_name"] in
  let neighbor_mac := first_value row ["lldp_neighbor_mac"; "neighbor_mac"] in
  let neighbor_interface := first_value row ["lldp_neighbor_interface"; "neighbor_port"; "neighbor_interface"; "lldp_neighbor_port"] in
  let optical_interface := first_value row ["optical_interface"; "interface_name"] in
  let optical_rx_power := first_value row RX_FIELDS in
  let optical_tx_power := first_value row TX_FIELDS in
  let lldp_source := resolve_lldp_source row in
  let data := dmerge row
    [("lldp_source", PStr lldp_source);
     ("lldp_confidence", por (dget "lldp_confidence" row) (PInt (default 0 (alookup lldp_source SOURCE_PRIORITY))));
     ("lldp_collected_at", first_value row ["lldp_collected_at"; "collected_at"; "updated_at"]);
     ("lldp_local_interface", named local_interface);
     ("lldp_local_interface_normalized", PStr (normalize_interface_key local_interface));
     ("lldp_neighbor_name", PStr (clean neighbor_name));
     ("lldp_neighbor_mac", PStr (str_or (format_h3c_mac neighbor_mac) (clean neighbor_mac)));
     ("lldp_neighbor_mac_normalized", opt_str (normalize_mac_key neighbor_mac));
     ("lldp_neighbor_interface", named neighbor_interface);
     ("neighbor_device_name", first_value row ["neighbor_device_name"]);
     ("optical_interface", named optical_interface);
     ("optical_interface_normalized", PStr (normalize_interface_key optical_interface));
     ("optical_rx_power", optical_rx_power);
     ("optical_tx_power", optical_tx_power);
     ("optical_collected_at", first_value row ["optical_collected_at"; "collected_at"; "updated_at"])] in
  let data := dset "lldp_match_status" (PStr (resolve_lldp_match_status data)) data in
  let data := dset "optical_match_status" (PStr (resolve_optical_power_status data)) data in
  let data := if negb (has_value (dget "rx_power" data)) && has_value optical_rx_power
              then dset "rx_power" optical_rx_power data else data in
  if negb (has_value (dget "tx_power" data)) && has_value optical_tx_power
  then dset "tx_power" optical_tx_power data else data.

(** ** The forms of a name agree *)
Lemma casefold_app a b : casefold (a +:+ b) = casefold a +:+ casefold b.
Proof. unfold casefold. induction a as [|c a IH]; [done|]. rewrite !string_app_cons. simpl. by rewrite IH, string_app_cons. Qed.

Lemma sdrop_app a b : sdrop (String.length a) (a +:+ b) = b.
Proof. induction a as [|c a IH]; [done|]. by rewrite string_app_cons. Qed.

Lemma rstrip_app a b : rstrip b ≠ "" → rstrip (a +:+ b) = a +:+ rstrip b.
Proof.
  intros Hb. induction a as [|c a IH]; [done|]. rewrite !string_app_cons. simpl. rewrite IH.
  destruct (a +:+ rstrip b) eqn:E; [|done]. destruct a; [by destruct (Hb E)|done].
Qed.

Lemma rstrip_colons_app a b : rstrip_colons b ≠ "" → rstrip_colons (a +:+ b) = a +:+ rstrip_colons b.
Proof.
  intros Hb. induction a as [|c a IH]; [done|]. rewrite !string_app_cons. simpl. rewrite IH.
  destruct (String.eqb_spec (a +:+ rstrip_colons b) "") as [E|]; [|by rewrite andb_false_r].
  destruct a; [by destruct (Hb E)|done].
Qed.

(** A path of digits. *)
Lemma path_facts c :
  (is_digit c || path_separator c) = true → is_space c = false ∧ lower_ascii c = c ∧ prefix_char c = false.
Proof.
  intros H. pose proof (ascii_forall (λ c, implb (is_digit c || path_separator c)
    (negb (is_space c) && Ascii.eqb (lower_ascii c) c && negb (prefix_char c))) eq_refl c) as E.
  cbv beta in E. rewrite H in E. simpl in E. bool_to_prop. by apply Ascii.eqb_eq in H2.
Qed.

Lemma digit_path_ok b s :
  digit_path b s = true →
  no_space s = true ∧ casefold s = s ∧ rstrip_colons s = s ∧ (b = false → starts_with_char is_digit s = true).
Proof.
  revert b. induction s as [|c s IH]; intros b; simpl; [by destruct b|].
  intros H. destruct (is_digit c) eqn:Hd.
  - destruct (IH _ H) as (H1 & H2 & H3 & _).
    destruct (path_facts c) as (Hs & Hl & _); [by rewrite Hd|].
    rewrite Hs, H1, H3. unfold casefold in *. simpl. rewrite Hl, H2.
    destruct (Ascii.eqb_spec c ":") as [->|]; [done|]. done.
  - apply andb_true_iff in H as [[Hsep Hb]%andb_true_iff H]. destruct (IH _ H) as (H1 & H2 & H3 & H4).
    destruct (path_facts c) as (Hs & Hl & _); [by rewrite Hsep, orb_true_r|].
    rewrite Hs, H1, H3. unfold casefold in *. simpl. rewrite Hl, H2.
    destruct (String.eqb_spec s "") as [->|]; [by specialize (H4 eq_refl)|].
    rewrite andb_false_r. split_and!; [done..|]. by intros ->.
Qed.

(** A text that begins with a letter and ends in a path is kept by the cleaning. *)
Lemma clean_named word rest path :
  starts_with_char is_alpha word = true → digit_path false path = true →
  rstrip_colons (strip (word +:+ rest +:+ path)) = word +:+ rest +:+ path.
Proof.
  intros Hw Hp. destruct (digit_path_ok _ _ Hp) as (Hs & _ & Hc & Hd). specialize (Hd eq_refl).
  assert (Hne : path ≠ "") by by intros ->.
  assert (Hl : lstrip (word +:+ rest +:+ path) = word +:+ rest +:+ path).
  { destruct word as [|c word]; [done|]. rewrite string_app_cons. simpl.
    pose proof (ascii_forall (λ c, implb (is_alpha c) (negb (is_space c))) eq_refl c) as E.
    cbv beta in E. simpl in Hw. rewrite Hw in E. simpl in E. bool_to_prop. by rewrite E. }
  unfold strip. rewrite Hl, <- !string_app_assoc.
  rewrite rstrip_app, rstrip_no_space by (by rewrite ?rstrip_no_space).
  rewrite rstrip_colons_app, Hc by (by rewrite ?Hc). done.
Qed.

Fixpoint all_chars (p : ascii → bool) (s : string) : bool :=
  match s with "" => true | String c s' => p c && all_chars p s' end.

Lemma span_app p a b :
  all_chars p a = true → starts_with_char p b = false → span p (a +:+ b) = (a, b).
Proof.
  intros Ha Hb. induction a as [|c a IH].
  - destruct b as [|c b]; [done|]. simpl in *. by rewrite Hb.
  - simpl in Ha. bool_to_prop. rewrite string_app_cons. simpl. by rewrite H, IH.
Qed.

Lemma prefix_char_lower c : prefix_char (lower_ascii c) = prefix_char c.
Proof.
  apply eqb_prop. apply (ascii_forall (λ c, Bool.eqb (prefix_char (lower_ascii c)) (prefix_char c))).
  by vm_compute.
Qed.

Lemma is_alpha_lower c : is_alpha (lower_ascii c) = is_alpha c.
Proof.
  apply eqb_prop. apply (ascii_forall (λ c, Bool.eqb (is_alpha (lower_ascii c)) (is_alpha c))).
  by vm_compute.
Qed.

Lemma prefix_chars_lower w : all_chars prefix_char (casefold w) = all_chars prefix_char w.
Proof. induction w as [|c w IH]; [done|]. unfold casefold in *. simpl. by rewrite prefix_char_lower, IH. Qed.

Lemma alpha_start_lower w : starts_with_char is_alpha (casefold w) = starts_with_char is_alpha w.
Proof. destruct w; [done|]. apply is_alpha_lower. Qed.

(** The abbreviations of an Ethernet interface: lower-case word, full name, key. *)
Definition ETHERNET_WORDS : list (string * string * string) :=
  [("ge", "GigabitEthernet", "ge"); ("gigabitethernet", "GigabitEthernet", "ge");
   ("xge", "Ten-GigabitEthernet", "xge"); ("xgigabitethernet", "Ten-GigabitEthernet", "xge");
   ("tengigabitethernet", "Ten-GigabitEthernet", "xge"); ("ten-gigabitethernet", "Ten-GigabitEthernet", "xge");
   ("ten-ge", "Ten-GigabitEthernet", "xge"); ("ten", "Ten-GigabitEthernet", "xge")].

Lemma words_ok word full short :
  (casefold word, full, short) ∈ ETHERNET_WORDS →
  all_chars prefix_char word = true ∧ starts_with_char is_alpha word = true ∧
  alookup (casefold word) SPACED_PREFIX_REPLACEMENTS = Some full.
Proof.
  intros H. rewrite <- prefix_chars_lower, <- alpha_start_lower. unfold ETHERNET_WORDS in H.
  rewrite !elem_of_cons in H.
  repeat destruct H as [[= -> -> ->]|H]; [by vm_compute..|by apply not_elem_of_nil in H].
Qed.

Lemma digit_cases c : is_digit c = true → c ∈ ["0"; "1"; "2"; "3"; "4"; "5"; "6"; "7"; "8"; "9"]%char.
Proof.
  intros H. pose proof (ascii_forall (λ c, implb (is_digit c)
    (bool_decide (c ∈ ["0"; "1"; "2"; "3"; "4"; "5"; "6"; "7"; "8"; "9"]%char))) eq_refl c) as E.
  cbv beta in E. rewrite H in E. by apply bool_decide_eq_true in E.
Qed.

(** On the word itself followed by a path. *)
Lemma compact_word word full short path :
  (casefold word, full, short) ∈ ETHERNET_WORDS → digit_path false path = true →
  normalize_compact (word +:+ path) = full +:+ path.
Proof.
  intros Hw Hp. destruct (digit_path_ok _ _ Hp) as (_ & Hl & _ & Hd). specialize (Hd eq_refl).
  assert (Hlen : sdrop (String.length (casefold word)) (word +:+ path) = path).
  { unfold casefold. rewrite length_smap. apply sdrop_app. }
  unfold normalize_compact. rewrite casefold_app, Hl.
  destruct path as [|c path]; [done|]. cbn [starts_with_char] in Hd. apply digit_cases in Hd.
  unfold ETHERNET_WORDS in Hw. rewrite !elem_of_cons in Hw.
  unfold REPLACEMENTS. cbn [replace_prefix]. rewrite casefold_app, Hl.
  repeat destruct Hw as [[= Hw -> ->]|Hw]; [..|by apply not_elem_of_nil in Hw];
    rewrite Hw in Hlen |- *; cbn [String.length] in Hlen |- *;
    repeat setoid_rewrite elem_of_cons in Hd;
    repeat destruct Hd as [->|Hd]; try (by apply not_elem_of_nil in Hd);
    rewrite ?Hlen; reflexivity.
Qed.

(** The full name of a path is already compact, and its key is the short one. *)
Lemma key_of_full full short path :
  (∃ word, (word, full, short) ∈ ETHERNET_WORDS) → digit_path false path = true →
  key_of KEY_PREFIXES (casefold (compact_interface_text (full +:+ path))) = short +:+ path.
Proof.
  intros [word Hw] Hp. destruct (digit_path_ok _ _ Hp) as (_ & Hl & _ & Hd). specialize (Hd eq_refl).
  assert (Hc : compact_interface_text (full +:+ path) = full +:+ path).
  { unfold compact_interface_text.
    assert (Ha : starts_with_char is_alpha full = true).
    { unfold ETHERNET_WORDS in Hw. rewrite !elem_of_cons in Hw.
      by repeat destruct Hw as [[= _ -> ->]|Hw]; [..|by apply not_elem_of_nil in Hw]. }
    pose proof (clean_named full "" path Ha Hp) as Hclean.
    change ("" +:+ path) with path in Hclean. rewrite Hclean.
    destruct path as [|c path]; [done|]. cbn [starts_with_char] in Hd. apply digit_cases in Hd.
    unfold ETHERNET_WORDS in Hw. rewrite !elem_of_cons in Hw.
    repeat setoid_rewrite elem_of_cons in Hd.
    repeat destruct Hw as [[= _ -> ->]|Hw]; [..|by apply not_elem_of_nil in Hw];
      repeat destruct Hd as [->|Hd]; try (by apply not_elem_of_nil in Hd); reflexivity. }
  rewrite Hc, casefold_app, Hl.
  destruct path as [|c path]; [done|]. cbn [starts_with_char] in Hd. apply digit_cases in Hd.
  unfold ETHERNET_WORDS in Hw. rewrite !elem_of_cons in Hw. repeat setoid_rewrite elem_of_cons in Hd.
  repeat destruct Hw as [[= _ -> ->]|Hw]; [..|by apply not_elem_of_nil in Hw];
    repeat destruct Hd as [->|Hd]; try (by apply not_elem_of_nil in Hd); reflexivity.
Qed.

(** All ways to write an Ethernet interface - abbreviated or in full, in any
    case, with or without white space before the path - have the same full name
    and the same comparison key. *)
Theorem interface_names_agree word full short spaces path :
  (casefold word, full, short) ∈ ETHERNET_WORDS →
  all_chars is_space spaces = true → digit_path false path = true →
  let name := PStr (word +:+ spaces +:+ path) in
  normalize_interface_name name = full +:+ path ∧ normalize_interface_key name = short +:+ path.
Proof.
  intros Hw Hsp Hp name. destruct (digit_path_ok _ _ Hp) as (_ & _ & _ & Hd). specialize (Hd eq_refl).
  destruct (words_ok _ _ _ Hw) as (Hchars & Ha & Htable).
  assert (Hd' : starts_with_char is_space path = false ∧ starts_with_char prefix_char path = false).
  { destruct path as [|c path]; [done|]. simpl in *. destruct (path_facts c) as (? & _ & ?); [by rewrite Hd|done]. }
  assert (Hn : normalize_interface_name name = full +:+ path).
  { unfold normalize_interface_name, clean. unfold name.
    rewrite text_or_empty_PStr, clean_named by done. assert (Hne : String.eqb (word +:+ spaces +:+ path) "" = false) by by destruct word.
    rewrite Hne. unfold spaced_match. rewrite span_app; [|done|].
    - rewrite span_app by (done || apply Hd'). rewrite Ha, Hp.
      destruct spaces as [|c spaces]; [by apply (compact_word _ _ short)|].
      change (str_nonempty (String c spaces)) with true. cbn [andb]. by rewrite Htable.
    - destruct spaces as [|c spaces]; [apply Hd'|]. simpl in *. bool_to_prop.
      pose proof (ascii_forall (λ c, implb (is_space c) (negb (prefix_char c))) eq_refl c) as E.
      cbv beta in E. rewrite H in E. simpl in E. by bool_to_prop. }
  split; [done|]. unfold normalize_interface_key. rewrite Hn. apply key_of_full; [by eexists|done].
Qed.

Lemma interface_names_agree_witness :
  normalize_interface_name (PStr "Ge  1/0/24") = "GigabitEthernet1/0/24" ∧
  normalize_interface_key (PStr "Ge  1/0/24") = "ge1/0/24".
Proof.
  apply (interface_names_agree "Ge" "GigabitEthernet" "ge" "  " "1/0/24"); [|reflexivity..].
  apply list_elem_of_In. left. reflexivity.
Defined.

(** ** The merge *)
Definition VALUE_FIELDS : list string :=
  ["lldp_local_interface"; "lldp_local_interface_normalized"; "lldp_neighbor_name"; "lldp_neighbor_mac";
   "lldp_neighbor_mac_normalized"; "lldp_neighbor_interface"].

Lemma conflict_sym current new : has_lldp_conflict current new = has_lldp_conflict new current.
Proof.
  unfold has_lldp_conflict. rewrite (String.eqb_sym (casefold (field_text "lldp_source" new))).
  assert (Hd : ∀ k, differs k current new = differs k new current).
  { intros k. unfold differs. rewrite (andb_comm (has_value (dget k current))). f_equal. f_equal.
    apply bool_decide_ext. split; by intros ->. }
  rewrite !Hd. destruct (String.eqb _ _); [done|]. simpl.
  rewrite (orb_comm (negb _)). destruct (negb _ || negb _); [done|].
  destruct (differs _ _ _ || differs _ _ _); [done|].
  rewrite (String.eqb_sym (normalize_interface_key (dget _ new))). 
  by rewrite (andb_comm (str_nonempty (normalize_interface_key (dget _ current)))).
Qed.

Lemma alookup_tabulate {V} (g : string → V) f l : f ∈ l → alookup f ((λ f, (f, g f)) <$> l) = Some (g f).
Proof.
  induction l as [|k l IH]; [by intros ?%not_elem_of_nil|]. intros Hf. simpl. case_decide as E; [by subst|].
  apply IH. apply elem_of_cons in Hf as [Hf|Hf]; [congruence|done].
Qed.

Lemma merged_lookup f existing incoming :
  f ∈ LLDP_FIELDS → f ≠ "lldp_source" → f ≠ "lldp_match_status" →
  dget f (merge_lldp_payload existing incoming) =
  let current := current_payload existing in
  let new := new_payload incoming in
  merged_field f current new (confidence current <=? confidence new) (dget f existing).
Proof.
  intros Hf H1 H2. unfold merge_lldp_payload. rewrite dget_dset_ne by done.
  match goal with |- dget _ (if ?b then _ else _) = _ => set (c := b); clearbody c end.
  match goal with |- dget _ (if _ then dset _ _ ?r else _) = _ => set (res := r) end.
  assert (Hg : dget f (if c then dset "lldp_source" (PStr "merged") res else res) = dget f res).
  { destruct c; [by rewrite dget_dset_ne|done]. }
  rewrite Hg. subst res. unfold dget at 1. by rewrite alookup_tabulate.
Qed.

(** Merging a new observation of a link into the stored one loses nothing: a
    fact that either of them knows is known afterwards, the observation with the
    higher source priority (the new one, when they are equal) decides where both
    know it, the confidence is the larger one, and two trusted sources that
    disagree make the status a conflict, whichever of them came first. *)
Theorem merge_keeps_knowledge existing incoming field :
  field ∈ VALUE_FIELDS →
  let current := current_payload existing in
  let new := new_payload incoming in
  let merged := merge_lldp_payload existing incoming in
  let known data := has_value (dget field data) = true ∧
    (field = "lldp_neighbor_name" → is_unknown_neighbor_name (dget field data) = false) in
  let prefer_new := confidence current <=? confidence new in
  (known new → (prefer_new = true ∨ ¬ known current) → dget field merged = dget field new) ∧
  (known current → (prefer_new = false ∨ ¬ known new) → dget field merged = dget field current) ∧
  dget "lldp_confidence" merged = PInt (Z.max (confidence current) (confidence new)) ∧
  (has_lldp_conflict current new = true ∨ has_lldp_conflict new current = true →
     dget "lldp_match_status" merged = PStr "conflict").
Proof.
  intros Hf current new merged known prefer_new.
  assert (Hfields : field ∈ LLDP_FIELDS ∧ field ≠ "lldp_source" ∧ field ≠ "lldp_match_status" ∧
    str_mem field ["lldp_source"; "lldp_confidence"; "lldp_collected_at"] = false).
  { unfold VALUE_FIELDS in Hf. rewrite !elem_of_cons in Hf. unfold LLDP_FIELDS. rewrite !elem_of_cons.
    repeat destruct Hf as [->|Hf]; try by apply not_elem_of_nil in Hf. all: split_and!; auto 12; done. }
  destruct Hfields as (H1 & H2 & H3 & H4).
  assert (Hm : dget field merged = merged_field field current new prefer_new (dget field existing)).
  { by apply merged_lookup. }
  split_and!.
  - intros Hn Hp. rewrite Hm. unfold merged_field. rewrite H4. 
    destruct (String.eqb_spec field "lldp_neighbor_name") as [E|E].
    + unfold best_neighbor_name. destruct Hn as [Hn Hu]. rewrite Hn, Hu by done. simpl.
      destruct Hp as [->|Hp]; [done|]. destruct prefer_new; [done|]. simpl.
      destruct (has_value (dget field current)) eqn:Ec; [|done]. simpl.
      destruct (is_unknown_neighbor_name (dget field current)) eqn:Eu; [done|]. by destruct Hp.
    + destruct Hn as [-> _]. destruct Hp as [->|Hp]; [done|].
      destruct (has_value (dget field current)) eqn:Ec; [by destruct Hp|]. by rewrite orb_true_r.
  - intros Hc Hp. rewrite Hm. unfold merged_field. rewrite H4.
    destruct (String.eqb_spec field "lldp_neighbor_name") as [E|E].
    + unfold best_neighbor_name. destruct Hc as [Hc Hu]. rewrite Hc, Hu by done. simpl.
      destruct Hp as [->|Hp]; [by rewrite andb_false_r|].
      destruct (has_value (dget field new)) eqn:Ec; [|done]. simpl.
      destruct (is_unknown_neighbor_name (dget field new)) eqn:Eu; [done|]. by destruct Hp.
    + destruct Hc as [-> _]. destruct Hp as [->|Hp]; [by rewrite andb_false_r|].
      destruct (has_value (dget field new)) eqn:Ec; [by destruct Hp|done].
  - unfold merged. rewrite merged_lookup; [|by do 1 right; left|done..]. done.
  - intros Hc. assert (E : has_lldp_conflict current new = true).
    { destruct Hc as [|Hc]; [done|]. by rewrite conflict_sym. }
    unfold merged, merge_lldp_payload. rewrite dget_dset_eq.
    change (has_lldp_conflict (current_payload existing) (new_payload incoming) = true) in E. by rewrite E.
Qed.

Definition stored_link : dict :=
  [("lldp_source", PStr "ac_bulk_lldp"); ("lldp_neighbor_name", PStr "SW-1"); ("lldp_neighbor_mac", PStr "00-11-22-33-44-55");
   ("lldp_local_interface", PStr "GE1")].
Definition direct_link : dict :=
  [("lldp_source", PStr "ap_direct_lldp"); ("lldp_neighbor_mac", PStr "0011-2233-4466"); ("interface_name", PStr "ge 1")].

Lemma merge_keeps_knowledge_witness :
  dget "lldp_neighbor_mac" (merge_lldp_payload stored_link direct_link) = PStr "0011-2233-4466" ∧
  dget "lldp_match_status" (merge_lldp_payload stored_link direct_link) = PStr "conflict".
Proof.
  destruct (merge_keeps_knowledge stored_link direct_link "lldp_neighbor_mac") as (H1 & _ & _ & H4).
  - apply list_elem_of_In. vm_compute. tauto.
  - split.
    + etransitivity; [apply H1|vm_compute; reflexivity]; [split; [vm_compute; reflexivity|discriminate]|].
      left. vm_compute. reflexivity.
    + apply H4. left. vm_compute. reflexivity.
Defined.
