(* ===== verification/Retention.v ===== *)
(** * Bounded histories

    core/storage: radio_retention.py, interface_retention.py,
    device_state_retention.py (LLDP neighbours and optical modules),
    lldp_retention.py (LLDP of an access point) and current_history_retention.py
    (device facts, access-point resources, unauthenticated access points and the
    station summary).  Each keeps a table of current rows and a history that
    receives a row only when the state changed and is cut to the ten latest rows
    of its key.  A table is the list of its rows with their identifiers, in the
    order of insertion; identifiers come from AUTOINCREMENT. *)

From S2P Require Import Prelude PyVal PyText ApNormalizers InterfaceNames.

(** ** Tables *)
Record table := Table { t_rows : list (Z * dict); t_seq : Z }.

Definition empty_table : table := Table [] 0.

Definition insert_row (row : dict) (t : table) : table :=
  Table (t_rows t ++ [(t_seq t + 1, row)]) (t_seq t + 1).

Definition column (k : string) (row : dict) : string := text_or_empty (dget k row).

Definition update_rows (sel : Z * dict → bool) (f : dict → dict) (t : table) : table :=
  Table ((λ r, if sel r then (r.1, f r.2) else r) <$> t_rows t) (t_seq t).

(** [ORDER BY changed_at DESC, id DESC]. *)
Definition newest_leb (a b : Z * dict) : bool :=
  let x := column "changed_at" b.2 in
  let y := column "changed_at" a.2 in
  if String.eqb x y then b.1 <=? a.1 else String.leb x y.

Definition latest (sel : dict → bool) (t : table) : list (Z * dict) :=
  sort_by newest_leb (List.filter (λ r, sel r.2) (t_rows t)).

(** [DELETE ... WHERE key AND id NOT IN (SELECT id ... ORDER BY ... LIMIT n)]. *)
Definition delete_beyond (sel : dict → bool) (n : nat) (t : table) : table :=
  let kept := (take n (latest sel t)).*1 in
  Table (List.filter (λ r, negb (sel r.2) || bool_decide (r.1 ∈ kept)) (t_rows t)) (t_seq t).

(** [drop_ids = ids[n:]; DELETE ... WHERE id IN drop_ids]. *)
Definition delete_ids (sel : dict → bool) (n : nat) (t : table) : table :=
  let stale := (drop n (latest sel t)).*1 in
  Table (List.filter (λ r, negb (bool_decide (r.1 ∈ stale))) (t_rows t)) (t_seq t).

(** ** Lemmas on tables *)
Definition table_ok (t : table) : Prop :=
  NoDup (t_rows t).*1 ∧ Forall (λ r, r.1 ≤ t_seq t) (t_rows t).

Lemma newest_total a b : newest_leb a b = true ∨ newest_leb b a = true.
Proof.
  unfold newest_leb. rewrite (String.eqb_sym (column _ a.2)).
  destruct (String.eqb_spec (column "changed_at" b.2) (column "changed_at" a.2)); [rewrite !Z.leb_le; lia|].
  apply String.leb_total.
Qed.

Lemma newest_trans a b c : newest_leb a b = true → newest_leb b c = true → newest_leb a c = true.
Proof.
  unfold newest_leb.
  destruct (String.eqb_spec (column "changed_at" b.2) (column "changed_at" a.2)) as [E1|E1],
    (String.eqb_spec (column "changed_at" c.2) (column "changed_at" b.2)) as [E2|E2],
    (String.eqb_spec (column "changed_at" c.2) (column "changed_at" a.2)) as [E3|E3];
    rewrite ?Z.leb_le; intros H1 H2; try congruence; try lia.
  - destruct E1. apply String.leb_antisym; [done|]. by rewrite <- E3.
  - by eapply string_leb_trans.
Qed.

Lemma newest_antisym a b : newest_leb a b = true → newest_leb b a = true → a.1 = b.1.
Proof.
  unfold newest_leb. rewrite (String.eqb_sym (column _ a.2)).
  destruct (String.eqb_spec (column "changed_at" b.2) (column "changed_at" a.2)) as [E|E].
  - rewrite !Z.leb_le. lia.
  - intros H1 H2. by destruct E, (String.leb_antisym _ _ H1 H2).
Qed.

Lemma filter_perm {A} (p : A → bool) l1 l2 : l1 ≡ₚ l2 → List.filter p l1 ≡ₚ List.filter p l2.
Proof.
  induction 1; simpl; [done|by destruct (p x); auto|destruct (p x), (p y); auto using Permutation_swap|by etrans].
Qed.

Lemma filter_true {A} (p : A → bool) l : Forall (λ x, p x = true) l → List.filter p l = l.
Proof. induction 1 as [|x l Hx _ IH]; [done|]. simpl. by rewrite Hx, IH. Qed.

Lemma filter_false {A} (p : A → bool) l : Forall (λ x, p x = false) l → List.filter p l = [].
Proof. induction 1 as [|x l Hx _ IH]; [done|]. simpl. by rewrite Hx. Qed.

Lemma filter_filter {A} (p q : A → bool) l : List.filter p (List.filter q l) = List.filter (λ x, q x && p x) l.
Proof. induction l as [|x l IH]; [done|]. simpl. destruct (q x); simpl; by rewrite IH. Qed.

Lemma filter_sub {A B} (f : A → B) (p : A → bool) l : NoDup (f <$> l) → NoDup (f <$> List.filter p l).
Proof.
  induction l as [|x l IH]; [done|]. simpl. intros [Hx Hl]%NoDup_cons. destruct (p x); [|by apply IH].
  simpl. apply NoDup_cons. split; [|by apply IH]. intros (y & E & Hy)%list_elem_of_fmap. apply Hx.
  apply list_elem_of_fmap. exists y. split; [done|]. apply list_elem_of_In, List.filter_In in Hy as [Hy _].
  by apply list_elem_of_In.
Qed.

(** Sorting by [newest_leb] does not depend on the order of the rows. *)
Lemma newest_unique l1 l2 :
  NoDup l1.*1 → l1 ≡ₚ l2 → StronglySorted (λ a b, newest_leb a b = true) l2 → sort_by newest_leb l1 = l2.
Proof.
  intros Hnd Hp Hs. apply (StronglySorted_unique_strong (λ a b, newest_leb a b = true)); [|..|done|].
  - intros x1 x2 H1 H2 L1 L2. rewrite sort_by_in in H1. rewrite <- Hp in H2.
    assert (E : x1.1 = x2.1) by by apply newest_antisym.
    apply list_elem_of_lookup in H1 as [i Hi], H2 as [j Hj].
    assert (i = j) as ->; [|congruence].
    eapply (NoDup_lookup l1.*1); [done|rewrite list_lookup_fmap, Hi; done|rewrite list_lookup_fmap, Hj; simpl; congruence].
  - apply sort_by_sorted; [apply newest_total|apply newest_trans].
  - by rewrite sort_by_perm.
Qed.

Lemma latest_sorted sel t : StronglySorted (λ a b, newest_leb a b = true) (latest sel t).
Proof. apply sort_by_sorted; [apply newest_total|apply newest_trans]. Qed.

Lemma latest_perm sel t : latest sel t ≡ₚ List.filter (λ r, sel r.2) (t_rows t).
Proof. apply sort_by_perm. Qed.

Lemma latest_nodup sel t : table_ok t → NoDup (latest sel t).*1.
Proof. intros [H _]. rewrite latest_perm. by apply filter_sub. Qed.

Lemma take_sorted {A} (R : A → A → Prop) n l : StronglySorted R l → StronglySorted R (take n l).
Proof.
  intros H. revert n. induction H as [|x l Hl IH Hx]; intros [|n]; simpl; try constructor; [apply IH|].
  by apply Forall_take.
Qed.

(** What is left after the cut. *)
Lemma kept_rows n l :
  NoDup l.*1 → List.filter (λ r : Z * dict, bool_decide (r.1 ∈ (take n l).*1)) l = take n l.
Proof.
  intros Hnd. set (p := λ r : Z * dict, bool_decide (r.1 ∈ (take n l).*1)).
  trans (List.filter p (take n l ++ drop n l)); [by rewrite take_drop|]. rewrite List.filter_app.
  rewrite filter_true, filter_false; [by rewrite app_nil_r|..].
  - apply Forall_forall. intros r Hr. apply bool_decide_eq_false. intros Ht.
    rewrite <- (take_drop n l), fmap_app in Hnd. apply NoDup_app in Hnd as (_ & Hd & _).
    apply (Hd r.1 Ht). by apply list_elem_of_fmap_2.
  - apply Forall_forall. intros r Hr. apply bool_decide_eq_true. by apply list_elem_of_fmap_2.
Qed.

Lemma latest_delete sel n t : table_ok t → latest sel (delete_beyond sel n t) = take n (latest sel t).
Proof.
  intros Hok. pose proof (latest_nodup sel t Hok) as Hnd.
  apply newest_unique.
  - apply filter_sub, filter_sub, Hok.
  - set (p := λ r : Z * dict, bool_decide (r.1 ∈ (take n (latest sel t)).*1)).
    trans (List.filter p (latest sel t)); [|by apply reflexive_eq, kept_rows].
    trans (List.filter p (List.filter (λ r, sel r.2) (t_rows t))); [|by apply filter_perm; rewrite latest_perm].
    simpl. rewrite !filter_filter.
    apply reflexive_eq, List.filter_ext. intros r. unfold p. destruct (sel r.2); simpl; [|done].
    by rewrite andb_true_r.
  - apply take_sorted, latest_sorted.
Qed.

Lemma latest_delete_other sel sel' n t :
  (∀ r, sel r = true → sel' r = false) → latest sel (delete_beyond sel' n t) = latest sel t.
Proof.
  intros Hs. unfold latest. f_equal. simpl. rewrite filter_filter. apply List.filter_ext. intros r.
  destruct (sel r.2) eqn:E; [|by rewrite andb_false_r]. by rewrite (Hs _ E).
Qed.

(** Both ways to cut are the same. *)
Lemma delete_ids_same sel n t : table_ok t → delete_ids sel n t = delete_beyond sel n t.
Proof.
  intros Hok. unfold delete_ids, delete_beyond. f_equal. apply List.filter_ext_in. intros r Hr%list_elem_of_In.
  pose proof (latest_nodup sel t Hok) as Hnd. rewrite <- (take_drop n (latest sel t)), fmap_app in Hnd.
  apply NoDup_app in Hnd as (_ & Hd & _).
  assert (Hin : ∀ l : list (Z * dict), l ⊆ latest sel t → r.1 ∈ l.*1 → r ∈ l ∧ sel r.2 = true).
  { intros l Hl (x & E & Hx)%list_elem_of_fmap.
    assert (Hx' : x ∈ latest sel t) by by apply Hl. rewrite latest_perm in Hx'.
    apply list_elem_of_In, List.filter_In in Hx' as [Hx' Hsel]. apply list_elem_of_In in Hx'.
    assert (r = x) as ->; [|done].
    apply list_elem_of_lookup in Hr as [i Hi], Hx' as [j Hj].
    assert (i = j) as ->; [|congruence].
    eapply (NoDup_lookup (t_rows t).*1); [apply Hok|rewrite list_lookup_fmap, Hi; done|].
    rewrite list_lookup_fmap, Hj. simpl. congruence. }
  case_bool_decide as Hdrop; simpl.
  - destruct (Hin (drop n (latest sel t))) as [_ Hs]; [apply subseteq_drop|done|]. rewrite Hs. simpl.
    symmetry. apply bool_decide_eq_false. intros Ht. by apply (Hd r.1).
  - destruct (sel r.2) eqn:Hs; [|done]. symmetry. apply bool_decide_eq_true.
    assert (Hl : r ∈ latest sel t).
    { rewrite latest_perm. apply list_elem_of_In, List.filter_In. split; [by apply list_elem_of_In|done]. }
    rewrite <- (take_drop n (latest sel t)) in Hl. apply elem_of_app in Hl as [Hl|Hl]; [by apply list_elem_of_fmap_2|].
    destruct Hdrop. by apply list_elem_of_fmap_2.
Qed.

(** ** A bounded history against an unbounded one *)
Lemma insert_ok row t : table_ok t → table_ok (insert_row row t).
Proof.
  intros [Hnd Hle]. split; simpl.
  - rewrite fmap_app. apply NoDup_app. split_and!; [done| |apply NoDup_singleton].
    intros i (r & -> & Hr)%list_elem_of_fmap. rewrite Forall_forall in Hle. specialize (Hle r Hr).
    simpl. intros E%list_elem_of_singleton. lia.
  - apply Forall_app. split; [|by apply Forall_singleton]. eapply Forall_impl; [done|]. simpl. lia.
Qed.

Lemma delete_ok sel n t : table_ok t → table_ok (delete_beyond sel n t).
Proof.
  intros [Hnd Hle]. split; [by apply filter_sub|]. apply Forall_forall. intros r Hr. simpl in *.
  apply list_elem_of_In, List.filter_In in Hr as [Hr _]. rewrite Forall_forall in Hle. by apply Hle, list_elem_of_In.
Qed.

Lemma empty_ok : table_ok empty_table.
Proof. split; constructor. Qed.

Lemma latest_insert sel row t :
  table_ok t →
  latest sel (insert_row row t) =
  if sel row then insert_by newest_leb (t_seq t + 1, row) (latest sel t) else latest sel t.
Proof.
  intros Hok. unfold latest at 1. simpl. rewrite List.filter_app. simpl.
  destruct (sel row) eqn:E; [|by rewrite app_nil_r].
  apply newest_unique.
  - pose proof (filter_sub fst (λ r, sel r.2) _ (proj1 (insert_ok row t Hok))) as H. simpl in H.
    rewrite List.filter_app in H. simpl in H. by rewrite E in H.
  - rewrite insert_by_perm. unfold latest. rewrite sort_by_perm. by rewrite Permutation_app_comm.
  - apply insert_by_sorted; [apply newest_total|apply newest_trans|apply latest_sorted].
Qed.

Lemma take_insert {A} (leb : A → A → bool) x n l :
  take n (insert_by leb x (take n l)) = take n (insert_by leb x l).
Proof.
  revert l. induction n as [|n IH]; [done|]. intros [|y l]; [done|]. simpl.
  destruct (leb x y); simpl; f_equal; [|apply IH].
  destruct n as [|n]; [done|]. simpl. f_equal. rewrite take_take. f_equal. lia.
Qed.

Section bounded.
(** The rows of a key. *)
Context (sel : list string → dict → bool) (n : nat).

Definition bounded (t u : table) : Prop :=
  table_ok t ∧ table_ok u ∧ t_seq t = t_seq u ∧
  ∀ k, latest (sel k) t = take n (latest (sel k) u).

Lemma bounded_record k row t u :
  (∀ k' r, sel k r = true → sel k' r = true → k' = k) →
  (∀ k', sel k' row = true → k' = k) →
  bounded t u → bounded (delete_beyond (sel k) n (insert_row row t)) (insert_row row u).
Proof.
  intros Hdis Hrow (Ht & Hu & Hs & Hl). split_and!; [by apply delete_ok, insert_ok|by apply insert_ok| |].
  { simpl. lia. }
  intros k'. rewrite (latest_insert _ row u), <- Hs by done. destruct (decide (k' = k)) as [->|Hne].
  - rewrite latest_delete, latest_insert, Hl by (done || by apply insert_ok).
    destruct (sel k row); [apply take_insert|]. rewrite take_take. f_equal. lia.
  - assert (Hother : ∀ r, sel k' r = true → sel k r = false).
    { intros r Hr. destruct (sel k r) eqn:E; [|done]. destruct Hne. by apply (Hdis k' r). }
    rewrite latest_delete_other, latest_insert by done.
    destruct (sel k' row) eqn:E; [by destruct Hne; apply Hrow|]. apply Hl.
Qed.

Lemma bounded_empty : bounded empty_table empty_table.
Proof. split_and!; [apply empty_ok..|done|]. intros k. by destruct n. Qed.
End bounded.

(** The code cuts to [Some n] rows; [None] is the history without a bound. *)
Definition cut (limit : option nat) (sel : dict → bool) (t : table) : table :=
  match limit with Some n => delete_beyond sel n t | None => t end.
Definition cut_ids (limit : option nat) (sel : dict → bool) (t : table) : table :=
  match limit with Some n => delete_ids sel n t | None => t end.

(** The texts of key columns; NULL is equal to nothing. *)
Definition sql_text (v : pyval) : option string :=
  match v with PStr s => Some s | PInt z => Some (pretty z) | _ => None end.
Definition key_columns (columns : list string) (k : list string) (row : dict) : bool :=
  bool_decide ((λ c, sql_text (dget c row)) <$> columns = Some <$> k).

(** ** Text and states *)
Definition first_nonblank (row : dict) (fields : list string) : pyval :=
  match List.find (λ v, negb (blank v)) ((λ f, dget f row) <$> fields) with Some v => v | None => PStr "" end.

Section storage.
Context (limit : option nat).
(** [json.dumps] with sorted keys, without, [json.loads] and SHA-256. *)
Context (dumps dumps_plain : pyval → string) (loads : string → option pyval) (sha256 : string → string).

(** [{field: value(row.get(field)) for field in fields}]. *)
Definition project (value : pyval → pyval) (fields : list string) (row : dict) : dict :=
  (λ f, (f, value (dget f row))) <$> fields.

Definition state_value (value : pyval) : pyval :=
  match value with
  | PNone => PStr ""
  | PList _ | PDict _ => PStr (dumps value)
  | _ => PStr (strip (py_str value))
  end.

Definition containers_as_json (dump : pyval → string) (value : pyval) : pyval :=
  match value with PList _ | PDict _ => PStr (dump value) | _ => value end.

(** The shared course of the four [upsert_..._current_and_history]: [find] is the
    current row, [same] the rows the update reaches, [assign] what it sets. *)
Definition observe (cut : (dict → bool) → table → table)
    (find : table → option (Z * dict)) (old_fingerprint : dict → string) (history_key : dict → bool)
    (projection fresh : dict) (history_row : dict → dict) (same : Z * dict → Z * dict → bool)
    (assign : dict → bool → dict) (preserve : bool) (returned : bool → dict)
    (current history : table) : table * table * dict :=
  match find current with
  | None => (insert_row fresh current, history, projection)
  | Some data =>
      let changed := negb (String.eqb (old_fingerprint data.2) (column "state_fingerprint" projection)) in
      let history := if changed then cut history_key (insert_row (history_row data.2) history) else history in
      if preserve then (current, history, data.2)
      else (update_rows (same data) (λ row, dmerge row (assign data.2 changed)) current, history,
            dmerge data.2 (returned changed))
  end.

(** ** Radios of access points (radio_retention.py)

    The first insertion does not name [last_seen_at], which the schema sets to
    the empty text. *)
Definition RADIO_STATE_FIELDS : list string :=
  ["status"; "mode"; "band"; "channel"; "bandwidth"; "usage"; "tx_power"; "clients"; "bbssid"].
Definition RADIO_COLUMNS : list string :=
  ["site_id"; "ap_identity"; "ap_uuid"; "ap_name"; "ap_mac"; "radio_id"; "status"; "mode"; "band"; "channel";
   "bandwidth"; "usage"; "tx_power"; "clients"; "bbssid"; "source"; "collected_at"; "state_json";
   "state_fingerprint"; "payload_json"; "source_revision"].
Definition RADIO_KEY_COLUMNS : list string := ["site_id"; "ap_identity"; "radio_id"].

Definition plain_state_value (value : pyval) : pyval :=
  match value with PNone => PStr "" | _ => PStr (strip (py_str value)) end.

Definition client_value (value : pyval) : pyval :=
  if blank value then PNone
  else match parse_int (strip (py_str value)) with Some z => PInt z | None => PNone end.

Definition radio_fingerprint (state : dict) : string * string :=
  let json := dumps (PDict (project plain_state_value RADIO_STATE_FIELDS state)) in (json, sha256 json).

Definition build_radio_projection (row : dict) (site_id : string) (radio_id : pyval) (now : string) : res dict :=
  match to_int radio_id with
  | Err OverflowError => Err OverflowError
  | Err _ => Err ValueError
  | Ok n =>
      if n <=? 0 then Err ValueError
      else if String.eqb (clean (dget "ap_uuid" row)) "" then Err ValueError
      else
        let rid suffix := "rid" +:+ pretty n +:+ suffix in
        let text fields := PStr (clean (first_nonblank row fields)) in
        let raw_bbssid := first_nonblank row ["bbssid"; rid "_bbssid"] in
        let bbssid :=
          match normalize_mac_key (PStr (strip (py_str raw_bbssid))) with
          | Some key => format_mac (PStr key)
          | None => clean raw_bbssid
          end in
        let ap_uuid := PStr (clean (dget "ap_uuid" row)) in
        let projection :=
          [("site_id", PStr (strip site_id)); ("ap_identity", ap_uuid); ("ap_uuid", ap_uuid);
           ("ap_name", text ["ap_name"]); ("ap_mac", text ["ap_mac"]); ("radio_id", PInt n);
           ("status", text ["status"; rid "_status"]); ("mode", text ["mode"; rid "_mode"]);
           ("band", text ["band"; "frequency_band"; rid "_band"]); ("channel", text ["channel"; rid "_channel"]);
           ("bandwidth", text ["bandwidth"; rid "_bandwidth"]);
           ("usage", text ["usage"; "utilization"; rid "_usage"]); ("tx_power", text ["tx_power"; rid "_tx_power"]);
           ("clients", client_value (first_nonblank row ["clients"; rid "_clients"])); ("bbssid", PStr bbssid);
           ("source", PStr (strip (py_str (por (dget "source" row) (PStr "fit_ap_resource")))));
           ("collected_at",
             PStr (str_or (clean (first_nonblank row ["collected_at"; "last_seen_at"; "updated_at"])) now));
           ("source_revision", PStr (strip (py_str (por (dget "source_revision" row)
                                             (por (dget "collect_run_uuid" row) (PStr ""))))))] in
        let '(json, fingerprint) := radio_fingerprint (project plain_state_value RADIO_STATE_FIELDS projection) in
        let projection := projection ++ [("state_json", PStr json); ("state_fingerprint", PStr fingerprint)] in
        Ok (projection ++ [("payload_json", PStr (dumps (PDict projection)))])
  end.

Definition upsert_radio (row : dict) (site_id : string) (radio_id : pyval) (timestamp : string)
    (current history : table) : res (table * table * dict) :=
  projection ← build_radio_projection row site_id radio_id timestamp;
  let key := key_columns RADIO_KEY_COLUMNS ((λ c, py_str (dget c projection)) <$> RADIO_KEY_COLUMNS) in
  let columns := project id RADIO_COLUMNS projection in
  let collected := dget "collected_at" projection in
  Ok (observe (cut limit) (λ t, List.find (λ r, key r.2) (t_rows t)) (column "state_fingerprint") key projection
        (columns ++ [("first_seen_at", collected); ("changed_at", PNone);
                     ("created_at", PStr timestamp); ("updated_at", PStr timestamp);
                     ("last_seen_at", PStr "")])
        (λ data, columns ++ [("previous_state_json", PStr (str_or (column "state_json" data) "{}"));
                             ("changed_at", collected); ("change_kind", PStr "change");
                             ("created_at", PStr timestamp)])
        (λ _ r, key r.2)
        (λ data changed, project id (filter (λ c, c ∉ RADIO_KEY_COLUMNS) RADIO_COLUMNS) projection ++
           [("last_seen_at", collected); ("changed_at", if changed then collected else dget "changed_at" data);
            ("updated_at", PStr timestamp)])
        false
        (λ _, projection ++ [("last_seen_at", collected)])
        current history).

(** ** Interfaces of devices (interface_retention.py) *)
Definition INTERFACE_COLUMNS : list string :=
  ["device_uuid"; "interface_name"; "link_status"; "admin_status"; "physical_status"; "protocol_status";
   "media_attribute"; "media_type"; "category"; "speed"; "duplex"; "interface_type"; "port_status"; "port_mode";
   "pvid"; "native_vlan"; "tagged_vlans"; "untagged_vlans"; "pvid_source"; "pvid_verified"; "vlan_config_status";
   "vlan_config_collected_at"; "vlan_warnings"; "description"; "ip_address"; "mac_address"; "vlan"; "last_change";
   "collected_at"; "collect_run_uuid"; "raw_log_path"; "updated_at"].
Definition INTERFACE_STATE_FIELDS : list string :=
  filter (λ f, f ∉ ["collected_at"; "collect_run_uuid"; "raw_log_path"; "updated_at"; "vlan_config_collected_at"])
    INTERFACE_COLUMNS.

Definition source_revision (row : dict) : pyval :=
  PStr (strip (py_str (por (dget "source_revision" row) (por (dget "collect_run_uuid" row) (PStr ""))))).

Definition build_interface_projection (row : dict) (site_id now : string) : res dict :=
  let device_uuid := clean (dget "device_uuid" row) in
  let interface_name := clean (dget "interface_name" row) in
  if String.eqb device_uuid "" || String.eqb interface_name "" then Err ValueError
  else
    let projection :=
      dmerge (project (containers_as_json dumps_plain) INTERFACE_COLUMNS row)
        [("device_uuid", PStr device_uuid); ("interface_name", PStr interface_name);
         ("collected_at", PStr (str_or (clean (dget "collected_at" row)) now));
         ("updated_at", PStr (str_or (clean (dget "updated_at" row)) now));
         ("source_revision", source_revision row)] in
    let state := project state_value INTERFACE_STATE_FIELDS projection in
    let json := dumps (PDict (project state_value INTERFACE_STATE_FIELDS state)) in
    Ok (dmerge projection
          [("state_json", PStr json); ("state_fingerprint", PStr (sha256 json)); ("site_id", PStr (strip site_id))]).

(** The columns three of the modules share. *)
Definition fresh_columns (columns : list string) (projection : dict) : dict :=
  project id (columns ++ ["site_id"; "state_json"; "state_fingerprint"]) projection ++
  [("first_seen_at", dget "collected_at" projection); ("last_seen_at", dget "collected_at" projection);
   ("changed_at", PNone); ("source_revision", dget "source_revision" projection)].
Definition history_columns (columns : list string) (projection : dict) (previous_state_json now : string) : dict :=
  project id (columns ++ ["site_id"; "state_json"; "state_fingerprint"]) projection ++
  [("previous_state_json", PStr previous_state_json); ("changed_at", dget "collected_at" projection);
   ("source_revision", dget "source_revision" projection); ("change_kind", PStr "change"); ("created_at", PStr now)].
Definition updated_columns (columns : list string) (projection data : dict) (changed : bool) : dict :=
  project id (columns ++ ["site_id"; "state_json"; "state_fingerprint"]) projection ++
  [("last_seen_at", dget "collected_at" projection);
   ("changed_at", if changed then dget "collected_at" projection else dget "changed_at" data);
   ("source_revision", dget "source_revision" projection)].
Definition seen (projection : dict) (changed : bool) : dict :=
  projection ++ [("last_seen_at", dget "collected_at" projection)].

Definition upsert_interface (row : dict) (site_id timestamp : string) (preserve_current : bool)
    (current history : table) : res (table * table * dict) :=
  projection ← build_interface_projection row site_id timestamp;
  let key := [column "device_uuid" projection; column "interface_name" projection] in
  let here := key_columns ["device_uuid"; "interface_name"] key in
  Ok (observe (cut limit) (λ t, List.find (λ r, here r.2) (t_rows t)) (column "state_fingerprint")
        (key_columns ["site_id"; "device_uuid"; "interface_name"] (column "site_id" projection :: key))
        projection (fresh_columns INTERFACE_COLUMNS projection)
        (λ data, history_columns INTERFACE_COLUMNS projection (str_or (column "state_json" data) "{}") timestamp)
        (λ _ r, here r.2) (updated_columns INTERFACE_COLUMNS projection) preserve_current (seen projection)
        current history).

(** ** LLDP neighbours and optical modules of devices (device_state_retention.py) *)
Definition LLDP_COLUMNS : list string :=
  ["device_uuid"; "local_interface"; "scope"; "chassis_type"; "chassis_id"; "neighbor_sysname"; "neighbor_mac";
   "port_id_type"; "neighbor_interface"; "neighbor_ip"; "holdtime"; "ttl"; "port_description";
   "system_description"; "system_capabilities"; "pvid"; "operational_mau"; "max_frame_size";
   "neighbor_device_uuid"; "collected_at"; "collect_run_uuid"; "raw_log_path"; "updated_at"].
Definition OPTICAL_COLUMNS : list string :=
  ["device_uuid"; "interface_name"; "rx_power"; "tx_power"; "temperature"; "voltage"; "bias_current";
   "module_model"; "module_serial_number"; "module_vendor"; "wavelength"; "transmission_distance";
   "connector_type"; "device_vendor"; "device_reported_status"; "threshold_source"; "transceiver_mode";
   "vendor_part_number"; "vendor_revision"; "vendor_serial_number"; "rx_low_alarm"; "rx_high_alarm";
   "tx_low_alarm"; "tx_high_alarm"; "rx_low_warning"; "rx_high_warning"; "tx_low_warning"; "tx_high_warning";
   "status"; "collected_at"; "collect_run_uuid"; "raw_log_path"; "updated_at"].
Definition state_columns (columns : list string) : list string :=
  filter (λ f, f ∉ ["collected_at"; "collect_run_uuid"; "raw_log_path"; "updated_at"]) columns.

Definition device_projection (row : dict) (site_id : string) (columns : list string) (now : string) : dict :=
  let result :=
    dmerge (project (containers_as_json dumps) columns row)
      [("site_id", PStr (strip site_id));
       ("collected_at", PStr (str_or (clean (dget "collected_at" row)) now));
       ("updated_at", PStr (str_or (clean (dget "updated_at" row)) now))] in
  let json := dumps (PDict (project (containers_as_json dumps) (state_columns columns) result)) in
  dmerge result
    [("state_json", PStr json); ("state_fingerprint", PStr (sha256 json)); ("source_revision", source_revision row)].

Definition lldp_key (row : dict) : list string :=
  [clean (dget "device_uuid" row); casefold (normalize_interface_name (dget "local_interface" row));
   casefold (strip (py_str (por (dget "chassis_id" row) (por (dget "neighbor_mac" row) (PStr "")))));
   casefold (normalize_interface_name (dget "neighbor_interface" row))].

(** The row that is replaced: the one with the key, else the only one of the local
    interface when that is asked for. *)
Definition lldp_current (key : list string) (replace_local : bool) (t : table) : option (Z * dict) :=
  let candidates := List.filter (λ r, key_columns ["device_uuid"] (take 1 key) r.2) (t_rows t) in
  match List.find (λ r, bool_decide (lldp_key r.2 = key)) candidates with
  | Some r => Some r
  | None =>
      if replace_local then
        match List.filter (λ r, bool_decide (lldp_key r.2 !! 1%nat = key !! 1%nat)) candidates with
        | [r] => Some r
        | _ => None
        end
      else None
  end.

Definition lldp_history_key (k : list string) (row : dict) : bool :=
  key_columns ["site_id"; "device_uuid"] (take 2 k) row && bool_decide (lldp_key row = drop 1 k).

Definition same_id (data r : Z * dict) : bool := r.1 =? data.1.

Definition upsert_lldp (row : dict) (site_id timestamp : string) (replace_local preserve_current : bool)
    (current history : table) : table * table * dict :=
  let projection := device_projection row site_id LLDP_COLUMNS timestamp in
  let key := lldp_key projection in
  observe (cut_ids limit) (lldp_current key replace_local) (λ data, strip (column "state_fingerprint" data))
    (lldp_history_key (column "site_id" projection :: key))
    projection (fresh_columns LLDP_COLUMNS projection)
    (λ data, history_columns LLDP_COLUMNS projection (str_or (clean (dget "state_json" data)) "{}") timestamp)
    same_id (updated_columns LLDP_COLUMNS projection) preserve_current (seen projection)
    current history.

(** [lower(interface_name)=?] is the ASCII lower case. *)
Definition optical_row (k : list string) (row : dict) : bool :=
  bool_decide ([sql_text (dget "device_uuid" row); casefold <$> sql_text (dget "interface_name" row)] = Some <$> k).
Definition optical_key (row : dict) : list string :=
  [clean (dget "device_uuid" row); casefold (clean (dget "interface_name" row))].
Definition optical_history_key (k : list string) (row : dict) : bool :=
  key_columns ["site_id"] (take 1 k) row && optical_row (drop 1 k) row.

Definition upsert_optical (row : dict) (site_id timestamp : string) (preserve_current : bool)
    (current history : table) : table * table * dict :=
  let projection := device_projection row site_id OPTICAL_COLUMNS timestamp in
  let key := optical_key projection in
  observe (cut limit) (λ t, List.find (λ r, optical_row key r.2) (rev (t_rows t)))
    (λ data, strip (column "state_fingerprint" data))
    (optical_history_key (column "site_id" projection :: key))
    projection (fresh_columns OPTICAL_COLUMNS projection)
    (λ data, history_columns OPTICAL_COLUMNS projection (str_or (clean (dget "state_json" data)) "{}") timestamp)
    same_id (updated_columns OPTICAL_COLUMNS projection) preserve_current (seen projection)
    current history.

(** ** LLDP of access points (lldp_retention.py) *)
Definition LLDP_CANONICAL_STATE_FIELDS : list string :=
  ["local_interface_normalized"; "neighbor_mac_normalized"; "neighbor_interface_normalized"; "neighbor_name"; "match_status"].
Definition AP_LLDP_COLUMNS : list string :=
  ["resource_key"; "ac_device_uuid"; "ap_uuid"; "ap_name"; "ap_mac"; "ap_mac_normalized"; "source";
   "lldp_confidence"; "local_interface"; "local_interface_normalized"; "lldp_neighbor"; "neighbor_interface";
   "neighbor_interface_normalized"; "neighbor_mac"; "neighbor_mac_normalized"; "neighbor_device_name";
   "neighbor_name"; "lldp_match_status"; "conflict_flag"; "collected_at"; "collect_run_uuid"; "raw_log_path"].

Definition ap_lldp_timestamp (row : dict) (fallback : string) : string :=
  str_or (clean (first_nonblank row ["lldp_collected_at"; "collected_at"; "last_seen_at"; "updated_at"])) fallback.

Definition ap_lldp_source (row : dict) : string :=
  str_or (clean (first_nonblank row ["lldp_source"; "source"])) "unknown".

(** The normal form both functions of the module start from. *)
Definition ap_lldp_normalized (row : dict) : dict :=
  normalize_lldp_payload
    (dmerge row
       [("lldp_local_interface", first_nonblank row ["lldp_local_interface"; "local_interface"; "interface_name"]);
        ("lldp_neighbor_name", first_nonblank row ["lldp_neighbor_name"; "neighbor_name"; "lldp_neighbor"; "neighbor_device_name"]);
        ("lldp_neighbor_mac", first_nonblank row ["lldp_neighbor_mac"; "neighbor_mac"]);
        ("lldp_neighbor_interface", first_nonblank row ["lldp_neighbor_interface"; "neighbor_interface"])])
    (ap_lldp_source row).

Definition canonical_lldp_state (row : dict) : dict :=
  let normalized := ap_lldp_normalized row in
  [("local_interface_normalized", PStr (clean (dget "lldp_local_interface_normalized" normalized)));
   ("neighbor_mac_normalized", PStr (clean (dget "lldp_neighbor_mac_normalized" normalized)));
   ("neighbor_interface_normalized", PStr (normalize_interface_key (dget "lldp_neighbor_interface" normalized)));
   ("neighbor_name", PStr (clean (dget "lldp_neighbor_name" normalized)));
   ("match_status", PStr (casefold (clean (dget "lldp_match_status" normalized))))].

Definition build_lldp_projection (row : dict) (revision fallback_time : string) : res dict :=
  let normalized := ap_lldp_normalized row in
  let ap_uuid := clean (dget "ap_uuid" row) in
  if String.eqb ap_uuid "" then Err ValueError
  else
    let text k := PStr (clean (dget k row)) in
    let neighbor_name := clean (dget "lldp_neighbor_name" normalized) in
    let match_status :=
      casefold (strip (py_str (por (por (dget "lldp_match_status" row) (dget "lldp_match_status" normalized)) (PStr "")))) in
    let state := canonical_lldp_state row in
    let json := dumps (PDict (project (λ v, PStr (clean v)) LLDP_CANONICAL_STATE_FIELDS state)) in
    confidence ← to_int (por (dget "lldp_confidence" row) (PInt 0));
    Ok [("resource_key", PStr ap_uuid); ("ac_device_uuid", text "ac_device_uuid"); ("ap_uuid", PStr ap_uuid);
        ("ap_name", text "ap_name");
        ("ap_mac", PStr (str_or (clean (dget "ap_mac" row)) (format_h3c_mac (dget "ap_mac" row))));
        ("ap_mac_normalized", PStr (default "" (normalize_mac_key (dget "ap_mac" row))));
        ("source", PStr (ap_lldp_source row)); ("lldp_confidence", PInt confidence);
        ("local_interface", PStr (clean (dget "lldp_local_interface" normalized)));
        ("local_interface_normalized", dget "local_interface_normalized" state);
        ("lldp_neighbor", PStr neighbor_name);
        ("neighbor_interface", PStr (clean (dget "lldp_neighbor_interface" normalized)));
        ("neighbor_interface_normalized", dget "neighbor_interface_normalized" state);
        ("neighbor_mac", PStr (clean (dget "lldp_neighbor_mac" normalized)));
        ("neighbor_mac_normalized", dget "neighbor_mac_normalized" state);
        ("neighbor_device_name",
          PStr (strip (py_str (por (dget "neighbor_device_name" row) (PStr neighbor_name)))));
        ("neighbor_name", PStr neighbor_name); ("lldp_match_status", PStr match_status);
        ("conflict_flag",
          PInt (if truthy (dget "conflict_flag" row) || String.eqb match_status "conflict" then 1 else 0));
        ("collected_at", PStr (ap_lldp_timestamp row fallback_time));
        ("collect_run_uuid",
          PStr (strip (py_str (por (dget "collect_run_uuid" row) (por (dget "session_id" row) (PStr ""))))));
        ("raw_log_path", text "raw_log_path"); ("source_revision", PStr (strip revision));
        ("state_json", PStr json); ("state_fingerprint", PStr (sha256 json))].

Definition upsert_ap_lldp (row : dict) (revision now : string) (current history : table)
    : res (table * table * dict) :=
  let timestamp := ap_lldp_timestamp row now in
  projection ← build_lldp_projection row revision timestamp;
  let key := key_columns ["ac_device_uuid"; "ap_uuid"]
               [column "ac_device_uuid" projection; column "ap_uuid" projection] in
  let state := project id ["state_json"; "state_fingerprint"] projection in
  let common := project id (filter (λ c, c ≠ "resource_key") AP_LLDP_COLUMNS) projection ++
    [("last_seen_at", PStr timestamp); ("source_revision", dget "source_revision" projection);
     ("updated_at", PStr now)] ++ state in
  let changed_at (changed : bool) := if changed then [("changed_at", PStr timestamp)] else [] in
  Ok (observe (cut limit) (λ t, List.find (λ r, key r.2) (t_rows t)) (column "state_fingerprint") key projection
        (project id AP_LLDP_COLUMNS projection ++ state ++
           [("first_seen_at", PStr timestamp); ("last_seen_at", PStr timestamp); ("changed_at", PNone);
            ("source_revision", dget "source_revision" projection); ("created_at", PStr now); ("updated_at", PStr now)])
        (λ data, project id AP_LLDP_COLUMNS projection ++
           [("previous_state_json", PStr (str_or (column "state_json" data) "{}"))] ++ state ++
           [("changed_at", PStr timestamp); ("source_revision", dget "source_revision" projection);
            ("change_kind", PStr "change"); ("created_at", PStr now)])
        (λ _ r, key r.2) (λ _ changed, common ++ changed_at changed) false
        (λ changed, projection ++ [("last_seen_at", PStr timestamp)] ++ changed_at changed)
        current history).

(** ** Retired kinds of history (current_history_retention.py) *)
Definition COMMON_IGNORED_FIELDS : list string :=
  ["id"; "created_at"; "updated_at"; "collected_at"; "collect_run_uuid"; "raw_log_path"; "changed_at";
   "first_seen_at"; "last_seen_at"; "site_name"; "lldp_collected_at"; "optical_collected_at"; "source_revision";
   "previous_state_json"; "state_json"; "state_fingerprint"; "change_kind"; "payload_json"].

Definition by_key (a b : string * pyval) : bool := String.leb a.1 b.1.

(** [_json_value]: dictionaries sorted by key, at every depth. *)
Fixpoint json_value (v : pyval) : pyval :=
  match v with
  | PDict d => PDict ((fix items (l : dict) := match l with
                       | [] => []
                       | kv :: l' => insert_by by_key (kv.1, json_value kv.2) (items l')
                       end) d)
  | PList l => PList (map json_value l)
  | _ => v
  end.

Definition canonical_state (payload : dict) (ignored : list string) : dict :=
  (λ kv, (kv.1, json_value kv.2)) <$>
    filter (λ kv : string * pyval, kv.1 ∉ COMMON_IGNORED_FIELDS ++ ignored) (sort_by by_key payload).
Definition canonical_state_json (payload : dict) (ignored : list string) : string :=
  dumps (PDict (canonical_state payload ignored)).
Definition state_fingerprint (payload : dict) (ignored : list string) : string :=
  sha256 (canonical_state_json payload ignored).
Definition payload_json (payload : dict) : string := dumps (json_value (PDict payload)).

(** [_record_recent]: [true] when a row was added; [where_] selects the rows of
    the resource. *)
Definition record_recent (where_ : dict → bool) (identity_fields : list string) (payload : dict)
    (previous : option dict) (ignored : list string) (now : string) (recent : table) : table * bool :=
  let json := canonical_state_json payload ignored in
  let fingerprint := sha256 json in
  let '(initial, previous_fingerprint, previous_json) :=
    match previous with
    | Some p => (false, state_fingerprint p ignored, canonical_state_json p ignored)
    | None =>
        match latest where_ recent with
        | [] => (true, "", canonical_state_json [] ignored)
        | r :: _ => (false, clean (dget "state_fingerprint" r.2), str_or (clean (dget "state_json" r.2)) "{}")
        end
    end in
  if String.eqb previous_fingerprint fingerprint then (recent, false)
  else
    let row := project id identity_fields payload ++
      [("payload_json", PStr (payload_json payload)); ("state_json", PStr json); ("state_fingerprint", PStr fingerprint);
       ("previous_state_json", PStr previous_json);
       ("changed_at", PStr (str_or (clean (dget "collected_at" payload)) now));
       ("change_kind", PStr (if initial : bool then "initial" else "change")); ("created_at", PStr now)] in
    (cut_ids limit where_ (insert_row row recent), true).

(** [{**payload, **identity}] recorded under its identity. *)
Definition record_identified (identity : list (string * string)) (payload : dict) (previous : option dict)
    (ignored : list string) (now : string) (recent : table) : table * bool :=
  if existsb (λ kv, String.eqb kv.2 "") identity then (recent, false)
  else
    record_recent (key_columns identity.*1 identity.*2) identity.*1
      (dmerge payload ((λ kv : string * string, (kv.1, PStr kv.2)) <$> identity)) previous ignored now recent.

Definition record_device_fact_change (payload : dict) (previous : option dict) (now : string) (recent : table)
    : table * bool :=
  record_identified [("device_uuid", clean (dget "device_uuid" payload))] payload previous ["uptime"] now recent.

Definition record_fit_ap_resource_change (payload : dict) (previous : option dict) (now : string) (recent : table)
    : table * bool :=
  record_identified
    [("ac_device_uuid", clean (dget "ac_device_uuid" payload)); ("ap_uuid", clean (dget "ap_uuid" payload))]
    payload previous [] now recent.

Definition unauthenticated_identity_key (payload : dict) : string :=
  match List.find (λ f, str_nonempty (clean (dget f payload))) ["inferred_ap_mac"; "serial_number"; "apid"; "ap_name"] with
  | Some f => f +:+ ":" +:+ casefold (clean (dget f payload))
  | None => ""
  end.

Definition record_fit_ap_unauthenticated_change (payload : dict) (previous : option dict) (identity_key : string)
    (now : string) (recent : table) : table * bool :=
  record_identified
    [("ac_device_uuid", clean (dget "ac_device_uuid" payload));
     ("identity_key", str_or (strip identity_key) (unauthenticated_identity_key payload))]
    payload previous [] now recent.

(** [_decode_payload]; the current table of the stations has no identifier. *)
Definition decode_payload (id : option Z) (row : dict) : dict :=
  let payload :=
    match loads (py_str (por (dget "payload_json" row) (PStr "{}"))) with Some (PDict d) => d | _ => [] end in
  let payload := dsetdefault "collected_at" (dget "collected_at" row) payload in
  let payload := dsetdefault "created_at" (dget "created_at" row) payload in
  let set k (default : pyval) payload := dset k (por (dget k row) (por (dget k payload) default)) payload in
  let payload := set "state_json" (PStr "{}") payload in
  let payload := set "state_fingerprint" (PStr "") payload in
  let payload := dset "changed_at" (por (dget "changed_at" row) (dget "changed_at" payload)) payload in
  let payload := set "change_kind" (PStr "change") payload in
  match id with Some id => dset "id" (PInt id) payload | None => payload end.

Definition listed (sel : dict → bool) (bound : Z) (recent : table) : list dict :=
  (λ r, decode_payload (Some r.1) r.2) <$> take (Z.to_nat bound) (latest sel recent).
Definition list_device_fact_recent (device_uuid : pyval) (bound : Z) (recent : table) : list dict :=
  listed (key_columns ["device_uuid"] [clean device_uuid]) (Z.max 1 (Z.min bound 10)) recent.

Definition station_payload (row : dict) (collected_at : string) : res dict :=
  let text k := PStr (clean (dget k row)) in
  let count a b := to_int (por (dget a row) (por (dget b row) (PInt 0))) in
  total ← count "total" "ap_total"; online ← count "online" "online_count"; offline ← count "offline" "offline_count";
  Ok [("site_name", PStr (strip (py_str (por (dget "site" row) (por (dget "site_name" row) (PStr ""))))));
      ("ap_total", PInt total); ("online_count", PInt online); ("offline_count", PInt offline);
      ("online_rate", text "online_rate"); ("remark", text "remark");
      ("collected_at", PStr (str_or (clean (dget "collected_at" row)) collected_at));
      ("updated_at", PStr (str_or (clean (dget "updated_at" row)) collected_at))].

Definition upsert_station_online_summary (row : dict) (collected_at : string) (timestamp : string)
    (current recent : table) : res (table * table * bool) :=
  payload ← station_payload row (str_or collected_at timestamp);
  let site_name := column "site_name" payload in
  if String.eqb site_name "" then Ok (current, recent, false)
  else
    let here := key_columns ["site_name"] [site_name] in
    let previous := (λ r : Z * dict, decode_payload None r.2) <$> List.find (λ r, here r.2) (t_rows current) in
    let changed := match previous with
                   | Some p => negb (String.eqb (state_fingerprint p []) (state_fingerprint payload []))
                   | None => true
                   end in
    let old k := PStr (match previous with Some p => clean (dget k p) | None => "" end) in
    let updated :=
      [("payload_json", PStr (payload_json payload)); ("state_json", PStr (canonical_state_json payload []));
       ("state_fingerprint", PStr (state_fingerprint payload [])); ("last_seen_at", dget "collected_at" payload);
       ("changed_at", if changed then dget "collected_at" payload else old "changed_at");
       ("updated_at", PStr timestamp)] in
    let current :=
      match previous with
      | None => insert_row ([("site_name", PStr site_name); ("first_seen_at", PStr (clean (dget "collected_at" payload)));
                             ("created_at", PStr timestamp)] ++ updated) current
      | Some _ => update_rows (λ r, here r.2) (λ r, dmerge r updated) current
      end in
    if negb changed then Ok (current, recent, false)
    else
      let '(recent, added) := record_recent here ["site_name"] payload previous [] timestamp recent in
      Ok (current, recent, added).

(** ** The storage of a site *)
Record storage := Storage {
  radios : table; radio_history : table;
  interfaces : table; interface_history : table;
  neighbors : table; neighbor_history : table;
  modules : table; module_history : table;
  ap_lldp : table; ap_lldp_history : table;
  device_facts : table; ap_resources : table; unauthenticated : table;
  stations : table; station_history : table;
}.

Definition empty_storage : storage :=
  Storage empty_table empty_table empty_table empty_table empty_table empty_table empty_table empty_table
    empty_table empty_table empty_table empty_table empty_table empty_table empty_table.

(** A collection writes one row; a call that raises leaves the tables alone. *)
Inductive write :=
  | WriteRadio (row : dict) (site_id : string) (radio_id : pyval)
  | WriteInterface (row : dict) (site_id : string) (preserve_current : bool)
  | WriteLldp (row : dict) (site_id : string) (replace_local preserve_current : bool)
  | WriteOptical (row : dict) (site_id : string) (preserve_current : bool)
  | WriteApLldp (row : dict) (revision : string)
  | WriteFact (payload : dict) (previous : option dict)
  | WriteResource (payload : dict) (previous : option dict)
  | WriteUnauthenticated (payload : dict) (previous : option dict) (identity_key : string)
  | WriteStation (row : dict) (collected_at : string).

Definition store (w : write) (now : string) (s : storage) : storage :=
  let '(Storage ra rh i ih l lh o oh al ah f r u st sh) := s in
  match w with
  | WriteRadio row site radio_id =>
      match upsert_radio row site radio_id now ra rh with
      | Ok (ra, rh, _) => Storage ra rh i ih l lh o oh al ah f r u st sh
      | Err _ => s
      end
  | WriteInterface row site preserve =>
      match upsert_interface row site now preserve i ih with
      | Ok (i, ih, _) => Storage ra rh i ih l lh o oh al ah f r u st sh
      | Err _ => s
      end
  | WriteLldp row site replace preserve =>
      let '(l, lh, _) := upsert_lldp row site now replace preserve l lh in
      Storage ra rh i ih l lh o oh al ah f r u st sh
  | WriteOptical row site preserve =>
      let '(o, oh, _) := upsert_optical row site now preserve o oh in
      Storage ra rh i ih l lh o oh al ah f r u st sh
  | WriteApLldp row revision =>
      match upsert_ap_lldp row revision now al ah with
      | Ok (al, ah, _) => Storage ra rh i ih l lh o oh al ah f r u st sh
      | Err _ => s
      end
  | WriteFact payload previous =>
      Storage ra rh i ih l lh o oh al ah (record_device_fact_change payload previous now f).1 r u st sh
  | WriteResource payload previous =>
      Storage ra rh i ih l lh o oh al ah f (record_fit_ap_resource_change payload previous now r).1 u st sh
  | WriteUnauthenticated payload previous key =>
      Storage ra rh i ih l lh o oh al ah f r (record_fit_ap_unauthenticated_change payload previous key now u).1 st sh
  | WriteStation row collected_at =>
      match upsert_station_online_summary row collected_at now st sh with
      | Ok (st, sh, _) => Storage ra rh i ih l lh o oh al ah f r u st sh
      | Err _ => s
      end
  end.

Definition store_all (writes : list (write * string)) (s : storage) : storage :=
  foldl (λ s w, store w.1 w.2 s) s writes.
End storage.

(** ** Every history holds the latest rows of what it would hold without a bound *)
Lemma key_columns_inj columns k k' row :
  key_columns columns k row = true → key_columns columns k' row = true → k' = k.
Proof.
  unfold key_columns. rewrite !bool_decide_eq_true. intros H1 H2. rewrite H1 in H2.
  by apply (inj (fmap Some)) in H2.
Qed.

Lemma dget_project value f fields row rest :
  f ∈ fields → dget f (project value fields row ++ rest) = value (dget f row).
Proof.
  intros Hf. unfold dget at 1, project. induction fields as [|g fields IH]; [by apply not_elem_of_nil in Hf|].
  simpl. case_decide as E; [by subst|]. apply IH. apply elem_of_cons in Hf as [Hf|Hf]; [congruence|done].
Qed.

Definition keyed (sel : list string → dict → bool) : Prop :=
  ∀ k k' r, sel k r = true → sel k' r = true → k' = k.

Lemma keyed_columns columns : keyed (key_columns columns).
Proof. intros k k' r. apply key_columns_inj. Qed.

(** Membership of concrete column lists. *)
Ltac in_columns := apply (bool_decide_unpack _); vm_compute; exact I.

Section simulation.
Context (n : nat) (Hn : (0 < n)%nat).
Context (dumps dumps_plain : pyval → string) (loads : string → option pyval) (sha256 : string → string).

Lemma cut_bounded sel k row h u :
  keyed sel → (∀ k', sel k' row = true → k' = k) → bounded sel n h u →
  bounded sel n (cut (Some n) (sel k) (insert_row row h)) (cut None (sel k) (insert_row row u)) ∧
  bounded sel n (cut_ids (Some n) (sel k) (insert_row row h)) (cut_ids None (sel k) (insert_row row u)).
Proof.
  intros Hk Hrow Hb. assert (Hd : delete_ids (sel k) n (insert_row row h) = delete_beyond (sel k) n (insert_row row h)).
  { apply delete_ids_same, insert_ok, Hb. }
  simpl. rewrite Hd. split; (apply bounded_record; [|done..]); intros k' r; apply Hk.
Qed.

(** The result of a pair of runs, bounded and not. *)
Definition alike {A} (sel : list string → dict → bool) (x y : table * table * A) : Prop :=
  x.1.1 = y.1.1 ∧ x.2 = y.2 ∧ bounded sel n x.1.2 y.1.2.

Lemma observe_alike sel k (ids : bool) find old projection fresh history_row same assign preserve returned c h u :
  keyed sel → (∀ data k', sel k' (history_row data) = true → k' = k) → bounded sel n h u →
  let cut l := if ids then cut_ids l else cut l in
  alike sel (observe (cut (Some n)) find old (sel k) projection fresh history_row same assign preserve returned c h)
    (observe (cut None) find old (sel k) projection fresh history_row same assign preserve returned c u).
Proof.
  intros Hk Hrow Hb cut'. unfold observe. destruct (find c) as [data|]; [|by split_and!].
  assert (Hh : ∀ changed : bool,
    bounded sel n (if changed then cut' (Some n) (sel k) (insert_row (history_row data.2) h) else h)
      (if changed then cut' None (sel k) (insert_row (history_row data.2) u) else u)).
  { intros []; [|done]. destruct (cut_bounded sel k (history_row data.2) h u) as [H1 H2]; [done|by apply Hrow|done|].
    unfold cut'. destruct ids; [exact H2|exact H1]. }
  destruct preserve; (split_and!; [done|done|]); apply (Hh (negb _)).
Qed.

Lemma recent_alike fields k identity_fields payload previous ignored now h u :
  (∀ rest k', key_columns fields k' (project id identity_fields payload ++ rest) = true → k' = k) →
  bounded (key_columns fields) n h u →
  let x := record_recent (Some n) dumps sha256 (key_columns fields k) identity_fields payload previous ignored now h in
  let y := record_recent None dumps sha256 (key_columns fields k) identity_fields payload previous ignored now u in
  bounded (key_columns fields) n x.1 y.1 ∧ x.2 = y.2.
Proof using Hn.
  intros Hrow Hb x y. subst x y. unfold record_recent.
  assert (Hl : latest (key_columns fields k) h = take n (latest (key_columns fields k) u)) by apply Hb.
  assert (Hhead : ∀ A (a : A) (f : Z * dict → A),
    match latest (key_columns fields k) h with [] => a | r :: _ => f r end =
    match latest (key_columns fields k) u with [] => a | r :: _ => f r end).
  { intros A a f. rewrite Hl. destruct n; [lia|]. by destruct (latest _ u). }
  rewrite Hhead. destruct previous as [p|]; [|destruct (latest _ u)];
    (destruct (String.eqb _ _); [done|]); (split; [|done]);
    apply cut_bounded; [apply keyed_columns|intros k'; apply Hrow|done|apply keyed_columns|intros k'; apply Hrow|done|apply keyed_columns|intros k'; apply Hrow|done].
Qed.

(** Rows of the same columns as the key they are cut by. *)
Lemma row_keyed fields k row :
  (λ c, sql_text (dget c row)) <$> fields = Some <$> k → ∀ k', key_columns fields k' row = true → k' = k.
Proof.
  intros H k' Hk'. unfold key_columns in Hk'. apply bool_decide_eq_true in Hk'. rewrite H in Hk'.
  by apply (inj (fmap Some)) in Hk'.
Qed.

#[local] Transparent dget dset.

Lemma radio_projection_key row site radio_id now p :
  build_radio_projection dumps sha256 row site radio_id now = Ok p →
  ∃ a b z, dget "site_id" p = PStr a ∧ dget "ap_identity" p = PStr b ∧ dget "radio_id" p = PInt z.
Proof.
  unfold build_radio_projection. destruct (to_int radio_id) as [z|[]]; [|done..]. destruct (z <=? 0); [done|].
  destruct (String.eqb _ _); [done|]. cbv zeta. destruct (radio_fingerprint _ _ _) as [json fp].
  intros <-%Ok_inj. eexists _, _, _. split_and!; reflexivity.
Qed.

Lemma interface_projection_key row site now p :
  build_interface_projection dumps dumps_plain sha256 row site now = Ok p →
  ∃ a b c, dget "site_id" p = PStr a ∧ dget "device_uuid" p = PStr b ∧ dget "interface_name" p = PStr c.
Proof.
  unfold build_interface_projection. destruct (_ || _); [done|]. cbv zeta. intros <-%Ok_inj.
  eexists _, _, _. split_and!; reflexivity.
Qed.

Lemma ap_lldp_projection_key row revision now p :
  build_lldp_projection dumps sha256 row revision now = Ok p →
  ∃ a b, dget "ac_device_uuid" p = PStr a ∧ dget "ap_uuid" p = PStr b.
Proof.
  unfold build_lldp_projection. destruct (String.eqb _ _); [done|]. cbv zeta.
  destruct (to_int _) as [z|e]; [|done]. intros <-%Ok_inj. eexists _, _. split_and!; reflexivity.
Qed.

Lemma device_projection_site row site columns now :
  dget "site_id" (device_projection dumps sha256 row site columns now) = PStr (strip site).
Proof.
  unfold device_projection, dget at 1. cbv zeta.
  rewrite !alookup_dmerge by in_columns. reflexivity.
Qed.
#[local] Opaque dget dset.

Lemma history_columns_get f columns projection previous now :
  f ∈ columns ++ ["site_id"; "state_json"; "state_fingerprint"] →
  dget f (history_columns columns projection previous now) = dget f projection.
Proof. intros Hf. unfold history_columns. by rewrite dget_project. Qed.

Lemma radio_alike row site radio_id now c h u :
  bounded (key_columns RADIO_KEY_COLUMNS) n h u →
  match upsert_radio (Some n) dumps sha256 row site radio_id now c h,
        upsert_radio None dumps sha256 row site radio_id now c u with
  | Ok x, Ok y => alike (key_columns RADIO_KEY_COLUMNS) x y
  | Err e, Err e' => e = e'
  | _, _ => False
  end.
Proof.
  intros Hb. unfold upsert_radio. destruct (build_radio_projection _ _ _ _ _ _) as [p|e] eqn:E; [|done]. cbn [mbind res_bind].
  apply radio_projection_key in E as (a & b & z & Ha & Hbb & Hz).
  apply (observe_alike _ _ false); [apply keyed_columns| |done].
  intros data. apply row_keyed. unfold RADIO_KEY_COLUMNS. cbn [fmap list_fmap].
  rewrite !dget_project by in_columns. unfold id. by rewrite Ha, Hbb, Hz.
Qed.

Lemma interface_alike row site now preserve c h u :
  let sel := key_columns ["site_id"; "device_uuid"; "interface_name"] in
  bounded sel n h u →
  match upsert_interface (Some n) dumps dumps_plain sha256 row site now preserve c h,
        upsert_interface None dumps dumps_plain sha256 row site now preserve c u with
  | Ok x, Ok y => alike sel x y
  | Err e, Err e' => e = e'
  | _, _ => False
  end.
Proof.
  intros sel Hb. unfold upsert_interface. destruct (build_interface_projection _ _ _ _ _ _) as [p|e] eqn:E; [|done].
  cbn [mbind res_bind]. apply interface_projection_key in E as (a & b & d & Ha & Hbb & Hd).
  apply (observe_alike _ _ false); [apply keyed_columns| |done].
  intros data. apply row_keyed. cbn [fmap list_fmap]. rewrite !history_columns_get by in_columns. unfold column.
  by rewrite Ha, Hbb, Hd, !text_or_empty_PStr.
Qed.

Lemma ap_lldp_alike row revision now c h u :
  let sel := key_columns ["ac_device_uuid"; "ap_uuid"] in
  bounded sel n h u →
  match upsert_ap_lldp (Some n) dumps sha256 row revision now c h,
        upsert_ap_lldp None dumps sha256 row revision now c u with
  | Ok x, Ok y => alike sel x y
  | Err e, Err e' => e = e'
  | _, _ => False
  end.
Proof.
  intros sel Hb. unfold upsert_ap_lldp. destruct (build_lldp_projection _ _ _ _ _) as [p|e] eqn:E; [|done]. cbn [mbind res_bind].
  apply ap_lldp_projection_key in E as (a & b & Ha & Hbb).
  apply (observe_alike _ _ false); [apply keyed_columns| |done].
  intros data. apply row_keyed. cbn [fmap list_fmap]. rewrite !dget_project by in_columns. unfold column.
  by rewrite Ha, Hbb, !text_or_empty_PStr.
Qed.

Lemma keyed_lldp : keyed lldp_history_key.
Proof.
  intros k k' r. unfold lldp_history_key, key_columns. rewrite !andb_true_iff, !bool_decide_eq_true.
  intros [H1 H2] [H3 H4]. rewrite H1 in H3. apply (inj (fmap Some)) in H3. rewrite H2 in H4.
  destruct k as [|x k], k' as [|x' k']; try done.
  change (k = k') in H4. subst k'. cbn [take] in H3. by injection H3 as ->.
Qed.

Lemma lldp_alike row site now replace preserve c h u :
  bounded lldp_history_key n h u →
  alike lldp_history_key (upsert_lldp (Some n) dumps sha256 row site now replace preserve c h)
    (upsert_lldp None dumps sha256 row site now replace preserve c u).
Proof.
  intros Hb. unfold upsert_lldp. cbv zeta. apply (observe_alike _ _ true); [apply keyed_lldp| |done].
  intros data k' Hk'. unfold lldp_history_key in Hk'. apply andb_true_iff in Hk' as [H1 H2].
  unfold key_columns in H1. apply bool_decide_eq_true in H1, H2. simpl in H1.
  rewrite !history_columns_get in H1 by in_columns. rewrite device_projection_site in H1.
  unfold lldp_key in H2. rewrite !history_columns_get in H2 by in_columns.
  destruct k' as [|x k']; [done|]. cbn [fmap list_fmap take] in H1. injection H1 as Hx _.
  change (drop 1 (x :: k')) with k' in H2. rewrite <- H2.
  unfold column. by rewrite device_projection_site, text_or_empty_PStr, <- Hx.
Qed.

(** The names of an optical module are texts without white space around them. *)
Definition clean_names (row : dict) : Prop :=
  ∃ d i, dget "device_uuid" row = PStr d ∧ dget "interface_name" row = PStr i ∧ strip d = d ∧ strip i = i.

Lemma keyed_optical : keyed optical_history_key.
Proof.
  intros k k' r. unfold optical_history_key, key_columns, optical_row. rewrite !andb_true_iff, !bool_decide_eq_true.
  intros [H1 H2] [H3 H4]. rewrite H1 in H3. rewrite H2 in H4.
  apply (inj (fmap Some)) in H3. apply (inj (fmap Some)) in H4.
  destruct k as [|x k], k' as [|x' k']; try done. change (k = k') in H4. subst k'.
  cbn [take] in H3. by injection H3 as ->.
Qed.

Lemma device_projection_get f row site columns now :
  f ∈ columns → f ∉ ["site_id"; "collected_at"; "updated_at"; "state_json"; "state_fingerprint"; "source_revision"] →
  dget f (device_projection dumps sha256 row site columns now) = containers_as_json dumps (dget f row).
Proof.
  intros Hf Hnot. unfold device_projection, dget at 1. cbv zeta.
  rewrite !alookup_dmerge by in_columns.
  rewrite !not_elem_of_cons in Hnot. destruct Hnot as (H1 & H2 & H3 & H4 & H5 & H6 & _).
  cbn [alookup]. rewrite !decide_False by done.
  pose proof (dget_project (containers_as_json dumps) f columns row [] Hf) as H. by rewrite app_nil_r in H.
Qed.

Lemma optical_alike row site now preserve c h u :
  clean_names row → bounded optical_history_key n h u →
  alike optical_history_key (upsert_optical (Some n) dumps sha256 row site now preserve c h)
    (upsert_optical None dumps sha256 row site now preserve c u).
Proof.
  intros (d & i & Hd & Hi & Sd & Si) Hb. unfold upsert_optical. cbv zeta.
  apply (observe_alike _ _ false); [apply keyed_optical| |done].
  intros data k' Hk'. unfold optical_history_key in Hk'. apply andb_true_iff in Hk' as [H1 H2].
  unfold key_columns, optical_row in *. apply bool_decide_eq_true in H1, H2. cbn [fmap list_fmap] in H1.
  rewrite !history_columns_get in H1 by in_columns. rewrite device_projection_site in H1.
  rewrite !history_columns_get in H2 by in_columns. rewrite !device_projection_get in H2 by in_columns. rewrite Hd, Hi in H2.
  destruct k' as [|x k']; [done|]. cbn [fmap list_fmap take] in H1. injection H1 as Hx.
  change (drop 1 (x :: k')) with k' in H2. unfold column, optical_key.
  rewrite device_projection_site, !device_projection_get, Hd, Hi by in_columns. unfold clean.
  cbn [containers_as_json]. rewrite !text_or_empty_PStr, Sd, Si, <- Hx.
  change ((Some <$> [d; casefold i]) = Some <$> k') in H2. by apply (inj (fmap Some)) in H2 as <-.
Qed.

Lemma identified_alike identity payload previous ignored now h u :
  NoDup identity.*1 →
  bounded (key_columns identity.*1) n h u →
  let x := record_identified (Some n) dumps sha256 identity payload previous ignored now h in
  let y := record_identified None dumps sha256 identity payload previous ignored now u in
  bounded (key_columns identity.*1) n x.1 y.1 ∧ x.2 = y.2.
Proof using Hn.
  intros Hnd Hb. unfold record_identified. destruct (existsb _ _); [done|]. apply recent_alike; [|done].
  intros rest. apply row_keyed. rewrite <- !list_fmap_compose. apply list_fmap_ext.
  intros i [f v] Hi%list_elem_of_lookup_2. simpl.
  assert (Hf : f ∈ identity.*1) by exact (list_elem_of_fmap_2 fst _ _ Hi).
  rewrite dget_project by done. unfold id, dget at 1. rewrite alookup_dmerge.
  - assert (E : alookup f ((λ kv : string * string, (kv.1, PStr kv.2)) <$> identity) = Some (PStr v)).
    { clear Hb Hf. induction identity as [|[g w] l IH]; [by apply not_elem_of_nil in Hi|].
      simpl in *. apply NoDup_cons in Hnd as [Hg Hnd]. apply elem_of_cons in Hi as [[= <- <-]|Hi].
      - by rewrite decide_True.
      - rewrite decide_False; [by apply IH|]. intros ->. apply Hg. exact (list_elem_of_fmap_2 fst _ _ Hi). }
    by rewrite E.
  - rewrite <- list_fmap_compose. exact Hnd.
Qed.

Lemma station_payload_key row collected p :
  station_payload row collected = Ok p → ∃ a, dget "site_name" p = PStr a.
Proof.
  unfold station_payload. cbv zeta. intros H.
  apply res_bind_Ok in H as (? & _ & H). apply res_bind_Ok in H as (? & _ & H). apply res_bind_Ok in H as (? & _ & H).
  apply Ok_inj in H as <-. eexists. unfold dget at 1. reflexivity.
Qed.

Lemma station_alike row collected now c h u :
  let sel := key_columns ["site_name"] in
  bounded sel n h u →
  match upsert_station_online_summary (Some n) dumps loads sha256 row collected now c h,
        upsert_station_online_summary None dumps loads sha256 row collected now c u with
  | Ok x, Ok y => alike sel x y
  | Err e, Err e' => e = e'
  | _, _ => False
  end.
Proof using Hn.
  intros sel Hb. unfold upsert_station_online_summary.
  destruct (station_payload row _) as [p|e] eqn:E; [|done]. cbn [mbind res_bind].
  apply station_payload_key in E as [a Ha].
  destruct (String.eqb _ _); [by split_and!|]. destruct (negb _); [by split_and!|].
  match goal with |- context [record_recent (Some n) _ _ _ _ _ ?prev ?ign ?nw _] =>
    destruct (recent_alike ["site_name"] [column "site_name" p] ["site_name"] p prev ign nw h u) as [H1 H2]; [|done|] end.
  { intros rest. apply row_keyed. cbn [fmap list_fmap]. rewrite dget_project by in_columns. unfold id, column.
    by rewrite Ha, text_or_empty_PStr. }
  destruct (record_recent (Some n) _ _ _ _ _ _ _ _ h), (record_recent None _ _ _ _ _ _ _ _ u). by split_and!.
Qed.

Definition current_tables (s : storage) : list table :=
  [radios s; interfaces s; neighbors s; modules s; ap_lldp s; stations s].

(** The histories, each with the rows of a key. *)
Definition histories (s : storage) : list ((list string → dict → bool) * table) :=
  [(key_columns RADIO_KEY_COLUMNS, radio_history s);
   (key_columns ["site_id"; "device_uuid"; "interface_name"], interface_history s);
   (lldp_history_key, neighbor_history s); (optical_history_key, module_history s);
   (key_columns ["ac_device_uuid"; "ap_uuid"], ap_lldp_history s);
   (key_columns ["device_uuid"], device_facts s); (key_columns ["ac_device_uuid"; "ap_uuid"], ap_resources s);
   (key_columns ["ac_device_uuid"; "identity_key"], unauthenticated s); (key_columns ["site_name"], station_history s)].

Definition storage_like (s u : storage) : Prop :=
  current_tables s = current_tables u ∧ Forall2 (λ x y, bounded x.1 n x.2 y.2) (histories s) (histories u).

Definition clean_write (w : write) : Prop :=
  match w with WriteOptical row _ _ => clean_names row | _ => True end.

Lemma storage_like_intro ra i l o al st rh ih lh oh ah f r u' sh rh2 ih2 lh2 oh2 ah2 f2 r2 u2 sh2 :
  bounded (key_columns RADIO_KEY_COLUMNS) n rh rh2 →
  bounded (key_columns ["site_id"; "device_uuid"; "interface_name"]) n ih ih2 →
  bounded lldp_history_key n lh lh2 → bounded optical_history_key n oh oh2 →
  bounded (key_columns ["ac_device_uuid"; "ap_uuid"]) n ah ah2 →
  bounded (key_columns ["device_uuid"]) n f f2 → bounded (key_columns ["ac_device_uuid"; "ap_uuid"]) n r r2 →
  bounded (key_columns ["ac_device_uuid"; "identity_key"]) n u' u2 → bounded (key_columns ["site_name"]) n sh sh2 →
  storage_like (Storage ra rh i ih l lh o oh al ah f r u' st sh)
    (Storage ra rh2 i ih2 l lh2 o oh2 al ah2 f2 r2 u2 st sh2).
Proof. intros. split; [done|]. unfold histories. repeat (apply Forall2_cons_2; [done|]). apply Forall2_nil_2. Qed.

Lemma store_like w now s u :
  clean_write w → storage_like s u →
  storage_like (store (Some n) dumps dumps_plain loads sha256 w now s)
    (store None dumps dumps_plain loads sha256 w now u).
Proof using Hn.
  intros Hw [Hc Hh]. destruct s as [ra rh i ih l lh o oh al ah f r ua st sh].
  destruct u as [ra2 rh2 i2 ih2 l2 lh2 o2 oh2 al2 ah2 f2 r2 ua2 st2 sh2].
  injection Hc as -> -> -> -> -> ->. unfold histories in Hh. rewrite !Forall2_cons in Hh. simpl in Hh.
  destruct Hh as (H1 & H2 & H3 & H4 & H5 & H6 & H7 & H8 & H9 & _).
  destruct w as [row site rid|row site p|row site rp p|row site p|row rev|pl pr|pl pr|pl pr k|row col]; cbn [store].
  - pose proof (radio_alike row site rid now ra2 rh rh2 H1) as H.
    destruct (upsert_radio (Some n) _ _ _ _ _ _ _ _) as [[[c h] x]|], (upsert_radio None _ _ _ _ _ _ _ _) as [[[c' h'] x']|];
      try done; [|by apply storage_like_intro].
    destruct H as (Hx & _ & H). cbn in Hx, H. subst c'. by apply storage_like_intro.
  - pose proof (interface_alike row site now p i2 ih ih2 H2) as H.
    destruct (upsert_interface (Some n) _ _ _ _ _ _ _ _ _) as [[[c h] x]|],
      (upsert_interface None _ _ _ _ _ _ _ _ _) as [[[c' h'] x']|]; try done; [|by apply storage_like_intro].
    destruct H as (Hx & _ & H). cbn in Hx, H. subst c'. by apply storage_like_intro.
  - pose proof (lldp_alike row site now rp p l2 lh lh2 H3) as H.
    destruct (upsert_lldp (Some n) _ _ _ _ _ _ _ _ _) as [[c h] x], (upsert_lldp None _ _ _ _ _ _ _ _ _) as [[c' h'] x'].
    destruct H as (Hx & _ & H). cbn in Hx, H. subst c'. by apply storage_like_intro.
  - pose proof (optical_alike row site now p o2 oh oh2 Hw H4) as H.
    destruct (upsert_optical (Some n) _ _ _ _ _ _ _ _) as [[c h] x], (upsert_optical None _ _ _ _ _ _ _ _) as [[c' h'] x'].
    destruct H as (Hx & _ & H). cbn in Hx, H. subst c'. by apply storage_like_intro.
  - pose proof (ap_lldp_alike row rev now al2 ah ah2 H5) as H.
    destruct (upsert_ap_lldp (Some n) _ _ _ _ _ _ _) as [[[c h] x]|], (upsert_ap_lldp None _ _ _ _ _ _ _) as [[[c' h'] x']|];
      try done; [|by apply storage_like_intro].
    destruct H as (Hx & _ & H). cbn in Hx, H. subst c'. by apply storage_like_intro.
  - apply storage_like_intro; try done. apply identified_alike; [apply NoDup_singleton|done].
  - apply storage_like_intro; try done. apply identified_alike; [in_columns|done].
  - apply storage_like_intro; try done. apply identified_alike; [in_columns|done].
  - pose proof (station_alike row col now st2 sh sh2 H9) as H.
    destruct (upsert_station_online_summary (Some n) _ _ _ _ _ _ _ _) as [[[c h] x]|],
      (upsert_station_online_summary None _ _ _ _ _ _ _ _) as [[[c' h'] x']|]; try done; [|by apply storage_like_intro].
    destruct H as (Hx & _ & H). cbn in Hx, H. subst c'. by apply storage_like_intro.
Qed.

Lemma store_all_like writes s u :
  Forall (λ w, clean_write w.1) writes → storage_like s u →
  storage_like (store_all (Some n) dumps dumps_plain loads sha256 writes s)
    (store_all None dumps dumps_plain loads sha256 writes u).
Proof using Hn.
  intros Hw. revert s u. induction Hw as [|w writes Hw _ IH]; intros s u H; [done|]. by apply IH, store_like.
Qed.
End simulation.

Definition HISTORY_LIMIT : nat := 10.

(** C4: whatever is collected, the bounded histories lose nothing but age: the
    current tables are those a storage without bounds would have, and the history
    of every key holds exactly the ten latest rows (by time of change, then
    identifier) of the history without a bound - hence never more than ten. *)
Theorem histories_bounded dumps dumps_plain loads sha256 writes :
  Forall (λ w, clean_write w.1) writes →
  let s := store_all (Some HISTORY_LIMIT) dumps dumps_plain loads sha256 writes empty_storage in
  let u := store_all None dumps dumps_plain loads sha256 writes empty_storage in
  current_tables s = current_tables u ∧
  Forall2 (λ x y, ∀ k, latest (x.1 k) x.2 = take HISTORY_LIMIT (latest (x.1 k) y.2)) (histories s) (histories u).
Proof.
  intros Hw s u.
  assert (H : storage_like HISTORY_LIMIT s u).
  { apply store_all_like; [unfold HISTORY_LIMIT; lia|done|]. apply storage_like_intro; apply bounded_empty. }
  destruct H as [Hc Hh]. split; [done|]. eapply Forall2_impl; [done|]. intros x y Hb k. apply Hb.
Qed.

(** A toy [json.dumps] and hash, and twelve states of one radio. *)
Definition demo_row (channel : Z) : dict :=
  [("ap_uuid", PStr "ap-1"); ("channel", PInt channel); ("collected_at", PStr ("2024-01-" +:+ pretty channel))].
Definition demo_writes : list (write * string) :=
  (λ c, (WriteRadio (demo_row c) "s" (PInt 1), "now")) <$> zseq 10 12.

Definition demo_bounded : storage :=
  store_all (Some HISTORY_LIMIT) py_repr py_repr (λ _, None) (λ s, s) demo_writes empty_storage.
Definition demo_unbounded : storage :=
  store_all None py_repr py_repr (λ _, None) (λ s, s) demo_writes empty_storage.

Lemma demo_writes_clean : Forall (λ w, clean_write w.1) demo_writes.
Proof. unfold demo_writes. by apply Forall_fmap, Forall_forall. Qed.

Lemma radio_part n s u k :
  Forall2 (λ x y : (list string → dict → bool) * table,
    ∀ k, latest (x.1 k) x.2 = take n (latest (x.1 k) y.2)) (histories s) (histories u) →
  latest (key_columns RADIO_KEY_COLUMNS k) (radio_history s) =
  take n (latest (key_columns RADIO_KEY_COLUMNS k) (radio_history u)).
Proof. unfold histories. intros [H _]%Forall2_cons. apply H. Qed.

Lemma histories_bounded_witness :
  let key := key_columns RADIO_KEY_COLUMNS ["s"; "ap-1"; "1"] in
  latest key (radio_history demo_bounded) = take HISTORY_LIMIT (latest key (radio_history demo_unbounded)) ∧
  (length (t_rows (radio_history demo_bounded)), length (t_rows (radio_history demo_unbounded))) = (10%nat, 11%nat).
Proof.
  split; [|vm_compute; reflexivity].
  exact (radio_part HISTORY_LIMIT demo_bounded demo_unbounded ["s"; "ap-1"; "1"]
    (proj2 (histories_bounded py_repr py_repr (λ _, None) (λ s, s) demo_writes demo_writes_clean))).
Defined.

(** ** The history of a radio is the list of its changes *)
Section radio.
Context (dumps : pyval → string) (sha256 : string → string).

Record radio_write := RadioWrite { rw_row : dict; rw_site : string; rw_radio : pyval; rw_now : string }.

Definition radio_step (limit : option nat) (t : table * table) (w : radio_write) : table * table :=
  match upsert_radio limit dumps sha256 (rw_row w) (rw_site w) (rw_radio w) (rw_now w) t.1 t.2 with
  | Ok (c, h, _) => (c, h)
  | Err _ => t
  end.

Definition radio_key (projection : dict) : list string := (λ c, py_str (dget c projection)) <$> RADIO_KEY_COLUMNS.

(** The projections of the rows of a key, in order. *)
Definition observations (k : list string) (ws : list radio_write) : list dict :=
  omap (λ w, match build_radio_projection dumps sha256 (rw_row w) (rw_site w) (rw_radio w) (rw_now w) with
             | Ok p => if bool_decide (radio_key p = k) then Some p else None
             | Err _ => None
             end) ws.

(** Fingerprint, previous state and time of a change. *)
Definition change := (string * string * string)%type.
Definition change_of (row : dict) : change :=
  (column "state_fingerprint" row, column "previous_state_json" row, column "changed_at" row).
Definition change_between (p q : dict) : list change :=
  if String.eqb (column "state_fingerprint" p) (column "state_fingerprint" q) then []
  else [(column "state_fingerprint" q, str_or (column "state_json" p) "{}", column "collected_at" q)].

Fixpoint changes (p : dict) (ps : list dict) : list change :=
  match ps with [] => [] | q :: ps' => change_between p q ++ changes q ps' end.

Lemma last_shift (l : list dict) a b : List.last (a :: l) b = List.last l a.
Proof. revert a b. induction l as [|x l IH]; intros a b; [done|].
  exact (eq_trans (IH x b) (eq_sym (IH x a))).
Qed.

Lemma changes_snoc p ps q : changes p (ps ++ [q]) = changes p ps ++ change_between (List.last ps p) q.
Proof.
  revert p. induction ps as [|r ps IH]; intros p; [simpl; by rewrite app_nil_r|].
  rewrite last_shift. simpl. by rewrite IH, app_assoc.
Qed.

Definition same_columns (fields : list string) (a b : dict) : Prop := ∀ f, f ∈ fields → dget f a = dget f b.
Definition RADIO_VALUES : list string := filter (λ c, c ∉ RADIO_KEY_COLUMNS) RADIO_COLUMNS.

(** What the tables say about the observations of a key. *)
Definition current_of (k : list string) (c : table) : list (Z * dict) :=
  List.filter (λ r, key_columns RADIO_KEY_COLUMNS k r.2) (t_rows c).

Definition tracks (k : list string) (ps : list dict) (c h : table) : Prop :=
  match ps with
  | [] => current_of k c = [] ∧ current_of k h = []
  | p :: rest =>
      (∃ r, current_of k c = [r] ∧
         same_columns RADIO_VALUES r.2 (List.last rest p) ∧
         dget "first_seen_at" r.2 = dget "collected_at" p ∧
         dget "last_seen_at" r.2 = match rest with [] => PStr "" | _ => dget "collected_at" (List.last rest p) end) ∧
      change_of <$> (current_of k h).*2 = changes p rest
  end.

(** The key of a projection, and of the rows made from it. *)
Lemma projection_key row site radio_id now p :
  build_radio_projection dumps sha256 row site radio_id now = Ok p →
  (λ c, sql_text (dget c p)) <$> RADIO_KEY_COLUMNS = Some <$> radio_key p.
Proof.
  intros (a & b & z & Ha & Hb & Hz)%radio_projection_key. unfold radio_key, RADIO_KEY_COLUMNS.
  cbn [fmap list_fmap]. by rewrite Ha, Hb, Hz.
Qed.

Lemma same_columns_key a b k :
  same_columns RADIO_KEY_COLUMNS a b →
  key_columns RADIO_KEY_COLUMNS k a = key_columns RADIO_KEY_COLUMNS k b.
Proof.
  intros H. unfold key_columns. apply bool_decide_ext. unfold RADIO_KEY_COLUMNS in *. cbn [fmap list_fmap].
  by rewrite !H by in_columns.
Qed.

Lemma key_iff p a k :
  (λ c, sql_text (dget c p)) <$> RADIO_KEY_COLUMNS = Some <$> radio_key p →
  same_columns RADIO_KEY_COLUMNS a p →
  key_columns RADIO_KEY_COLUMNS k a = bool_decide (radio_key p = k).
Proof.
  intros Hp Ha. rewrite (same_columns_key a p) by done. unfold key_columns. rewrite Hp.
  apply bool_decide_ext. split; [apply (inj (fmap Some))|by intros ->].
Qed.

Lemma update_rows_other sel k f t :
  (∀ r : dict, sel r = true → key_columns RADIO_KEY_COLUMNS k r = false) →
  (∀ r : dict, sel r = true → key_columns RADIO_KEY_COLUMNS k (f r) = key_columns RADIO_KEY_COLUMNS k r) →
  current_of k (update_rows (λ r, sel r.2) f t) = current_of k t.
Proof.
  intros H1 H2. unfold current_of, update_rows. cbn [t_rows]. induction (t_rows t) as [|r l IH]; [done|].
  rewrite fmap_cons. cbn [List.filter]. rewrite IH. destruct (sel r.2) eqn:E; [|done].
  cbn [snd]. by rewrite H2, !H1 by done.
Qed.

Lemma update_rows_same k f t :
  (∀ r, key_columns RADIO_KEY_COLUMNS k r = true → key_columns RADIO_KEY_COLUMNS k (f r) = true) →
  current_of k (update_rows (λ r, key_columns RADIO_KEY_COLUMNS k r.2) f t) =
  (λ r, (r.1, f r.2)) <$> current_of k t.
Proof.
  intros H. unfold current_of, update_rows. cbn [t_rows]. induction (t_rows t) as [|r l IH]; [done|].
  rewrite fmap_cons. cbn [List.filter]. rewrite IH.
  destruct (key_columns _ k r.2) eqn:E; cbn [snd]; [by rewrite H, fmap_cons|by rewrite E].
Qed.

Lemma insert_row_of k row t :
  current_of k (insert_row row t) =
  current_of k t ++ (if key_columns RADIO_KEY_COLUMNS k row then [(t_seq t + 1, row)] else []).
Proof.
  unfold current_of, insert_row. simpl. rewrite List.filter_app. simpl. by destruct (key_columns _ _ _).
Qed.

Lemma find_filter {A} (p : A → bool) l : List.find p l = head (List.filter p l).
Proof. induction l as [|x l IH]; [done|]. simpl. by destruct (p x). Qed.

(** The update leaves the key alone and sets every other column. *)
Lemma alookup_project f fields row rest :
  alookup f (project id fields row ++ rest) = if bool_decide (f ∈ fields) then Some (dget f row) else alookup f rest.
Proof.
  unfold project. induction fields as [|g fields IH]; [done|]. rewrite fmap_cons. cbn [app alookup].
  destruct (decide (f = g)) as [->|E]; [by rewrite bool_decide_true by left|]. rewrite IH.
  rewrite (bool_decide_ext (f ∈ g :: fields) (f ∈ fields)); [done|]. rewrite elem_of_cons. split; [by intros [?|?]|by right].
Qed.

Definition assigned (projection data : dict) (timestamp : string) (changed : bool) : dict :=
  project id RADIO_VALUES projection ++
  [("last_seen_at", dget "collected_at" projection);
   ("changed_at", if changed then dget "collected_at" projection else dget "changed_at" data);
   ("updated_at", PStr timestamp)].

Lemma dget_assigned f row projection data timestamp changed :
  dget f (dmerge row (assigned projection data timestamp changed)) =
  if bool_decide (f ∈ RADIO_VALUES) then dget f projection
  else if bool_decide (f ∈ ["last_seen_at"; "changed_at"; "updated_at"])
  then dget f (assigned projection data timestamp changed) else dget f row.
Proof.
  unfold dget at 1. rewrite alookup_dmerge by in_columns. unfold assigned at 1. rewrite alookup_project.
  case_bool_decide; [done|]. case_bool_decide as H2.
  - unfold dget at 4, assigned. rewrite alookup_project, bool_decide_false by done.
    rewrite !elem_of_cons in H2. by destruct H2 as [->|[->|[->|[]%not_elem_of_nil]]].
  - rewrite !not_elem_of_cons in H2. destruct H2 as (H1 & H2 & H3 & _). cbn [alookup].
    by rewrite !decide_False by done.
Qed.

Lemma assigned_key k row projection data timestamp changed :
  key_columns RADIO_KEY_COLUMNS k (dmerge row (assigned projection data timestamp changed)) =
  key_columns RADIO_KEY_COLUMNS k row.
Proof.
  apply same_columns_key. intros f Hf. rewrite dget_assigned.
  assert (H : f ∉ RADIO_VALUES ∧ f ∉ ["last_seen_at"; "changed_at"; "updated_at"]).
  { unfold RADIO_KEY_COLUMNS in Hf. rewrite !elem_of_cons in Hf.
    destruct Hf as [->|[->|[->|[]%not_elem_of_nil]]]; split; in_columns. }
  by rewrite !bool_decide_false by apply H.
Qed.

(** One call of [upsert_radio] without a bound, in terms of these parts. *)
Lemma radio_step_eq w p c h :
  build_radio_projection dumps sha256 (rw_row w) (rw_site w) (rw_radio w) (rw_now w) = Ok p →
  ∃ fresh history_row,
    key_columns RADIO_KEY_COLUMNS (radio_key p) fresh = true ∧ same_columns RADIO_VALUES fresh p ∧
    dget "first_seen_at" fresh = dget "collected_at" p ∧ dget "last_seen_at" fresh = PStr "" ∧
    (∀ data, key_columns RADIO_KEY_COLUMNS (radio_key p) (history_row data) = true ∧
       change_of (history_row data) = (column "state_fingerprint" p, str_or (column "state_json" data) "{}",
                                       column "collected_at" p)) ∧
    radio_step None (c, h) w =
    match head (current_of (radio_key p) c) with
    | None => (insert_row fresh c, h)
    | Some data =>
        let changed := negb (String.eqb (column "state_fingerprint" data.2) (column "state_fingerprint" p)) in
        (update_rows (λ r, key_columns RADIO_KEY_COLUMNS (radio_key p) r.2)
           (λ row, dmerge row (assigned p data.2 (rw_now w) changed)) c,
         if changed then insert_row (history_row data.2) h else h)
    end.
Proof.
  intros Hp. unfold radio_step, upsert_radio. cbn [fst snd]. rewrite Hp. cbn [mbind res_bind].
  unfold observe. fold (radio_key p). rewrite find_filter. fold (current_of (radio_key p) c).
  set (fresh := project id RADIO_COLUMNS p ++ ("first_seen_at", dget "collected_at" p) :: _).
  set (history_row := λ data, project id RADIO_COLUMNS p ++
    [("previous_state_json", PStr (str_or (column "state_json" data) "{}")); ("changed_at", dget "collected_at" p);
     ("change_kind", PStr "change"); ("created_at", PStr (rw_now w))]).
  pose proof (projection_key _ _ _ _ _ Hp) as Hk.
  assert (Hcols : ∀ rest, same_columns RADIO_COLUMNS (project id RADIO_COLUMNS p ++ rest) p).
  { intros rest f Hf. by rewrite dget_project. }
  assert (Hkey : ∀ rest, key_columns RADIO_KEY_COLUMNS (radio_key p) (project id RADIO_COLUMNS p ++ rest) = true).
  { intros rest. rewrite (key_iff p) by (done || intros f Hf; apply Hcols; unfold RADIO_KEY_COLUMNS in Hf;
      rewrite !elem_of_cons in Hf; destruct Hf as [->|[->|[->|[]%not_elem_of_nil]]]; in_columns).
    by apply bool_decide_true. }
  exists fresh, history_row. split_and!; [apply Hkey| | | | |].
  2,3: unfold fresh, dget at 1; by rewrite alookup_project, bool_decide_false by in_columns.
  - intros f Hf. apply Hcols. unfold RADIO_VALUES in Hf. by apply list_elem_of_filter in Hf as [_ ?].
  - intros data. split; [apply Hkey|]. unfold change_of, column, history_row.
    rewrite (Hcols _ "state_fingerprint") by in_columns.
    assert (Hrest : ∀ f rest, f ∉ RADIO_COLUMNS → dget f (project id RADIO_COLUMNS p ++ rest) = dget f rest).
    { intros f rest Hf. unfold dget at 1. by rewrite alookup_project, bool_decide_false. }
    rewrite !Hrest by in_columns. exact (f_equal2 pair (f_equal2 pair eq_refl (text_or_empty_PStr _)) eq_refl).
  - by destruct (head _) as [data|].
Qed.

(** The tables after one more observation of the key. *)
Lemma tracks_more k p ps c h data hist (now : string) :
  tracks k ps c h → head (current_of k c) = Some data →
  (∀ d, key_columns RADIO_KEY_COLUMNS k (hist d) = true ∧
     change_of (hist d) = (column "state_fingerprint" p, str_or (column "state_json" d) "{}", column "collected_at" p)) →
  let changed := negb (String.eqb (column "state_fingerprint" data.2) (column "state_fingerprint" p)) in
  tracks k (ps ++ [p])
    (update_rows (λ r, key_columns RADIO_KEY_COLUMNS k r.2) (λ row, dmerge row (assigned p data.2 now changed)) c)
    (if changed then insert_row (hist data.2) h else h).
Proof.
  intros Ht Hd Hh changed. destruct ps as [|p0 rest].
  { destruct Ht as [Hc _]. by rewrite Hc in Hd. }
  destruct Ht as ((r & Hc & Hv & Hfirst & _) & Hlog). rewrite Hc in Hd. injection Hd as ->.
  cbn [app tracks]. rewrite last_last. split.
  - exists (data.1, dmerge data.2 (assigned p data.2 now changed)). split_and!.
    + rewrite update_rows_same, Hc; [done|]. intros r. by rewrite assigned_key.
    + intros f Hf. cbn [snd]. by rewrite dget_assigned, bool_decide_true.
    + cbn [snd]. by rewrite dget_assigned, !bool_decide_false by in_columns.
    + cbn [snd]. rewrite dget_assigned, bool_decide_false, bool_decide_true by in_columns.
      unfold dget at 1, assigned. rewrite alookup_project, bool_decide_false by in_columns. by destruct rest.
  - rewrite changes_snoc, <- Hlog. unfold change_between.
    assert (Hcol : ∀ f, f ∈ RADIO_VALUES → column f data.2 = column f (List.last rest p0)).
    { intros f Hf. unfold column. by rewrite Hv. }
    rewrite <- !Hcol by in_columns. unfold changed.
    destruct (String.eqb _ _); cbn [negb]; [by rewrite app_nil_r|].
    destruct (Hh data.2) as [Hkey Hchange]. rewrite insert_row_of, Hkey, !fmap_app. cbn [fmap list_fmap snd].
    by rewrite Hchange.
Qed.

Lemma tracks_first k p c h fresh :
  tracks k [] c h → key_columns RADIO_KEY_COLUMNS k fresh = true → same_columns RADIO_VALUES fresh p →
  dget "first_seen_at" fresh = dget "collected_at" p → dget "last_seen_at" fresh = PStr "" →
  tracks k [p] (insert_row fresh c) h.
Proof.
  intros [Hc Hh] Hk Hv H1 H2. split; [|by rewrite Hh]. exists (t_seq c + 1, fresh).
  rewrite insert_row_of, Hc, Hk. by split_and!.
Qed.

(** Rows of another key change nothing. *)
Lemma tracks_other k ps c c' h h' :
  current_of k c' = current_of k c → current_of k h' = current_of k h → tracks k ps c h → tracks k ps c' h'.
Proof. intros Hc Hh. unfold tracks. by rewrite Hc, Hh. Qed.

Lemma radio_tracks_step w k ps c h :
  (∀ k, tracks k (observations k ps) c h) →
  let t := radio_step None (c, h) w in tracks k (observations k (ps ++ [w])) t.1 t.2.
Proof.
  intros Ht t. subst t.
  assert (Hobs : observations k (ps ++ [w]) = observations k ps ++ observations k [w]) by apply omap_app.
  rewrite Hobs. unfold observations at 2. cbn [omap list_omap].
  destruct (build_radio_projection _ _ _ _ _ _) as [p|e] eqn:Hp.
  2:{ unfold radio_step, upsert_radio. cbn [fst snd]. rewrite Hp, app_nil_r. apply Ht. }
  destruct (radio_step_eq w p c h Hp) as (fresh & hist & Hf & Hv & H1 & H2 & Hh & ->).
  assert (Hother : radio_key p ≠ k → ∀ r, key_columns RADIO_KEY_COLUMNS (radio_key p) r = true →
    key_columns RADIO_KEY_COLUMNS k r = false).
  { intros Hne r Hr. destruct (key_columns _ k r) eqn:E; [|done]. destruct Hne.
    symmetry. by apply (key_columns_inj RADIO_KEY_COLUMNS _ _ r). }
  destruct (decide (radio_key p = k)) as [Hk|Hne].
  - rewrite bool_decide_true by done. specialize (Ht k). rewrite Hk in *.
    destruct (head (current_of k c)) as [data|] eqn:Hc; [by apply tracks_more|].
    destruct (observations k ps) as [|p0 rest]; [by apply tracks_first|].
    destruct Ht as ((r & Hr & _) & _). by rewrite Hr in Hc.
  - rewrite bool_decide_false, app_nil_r by done. specialize (Ht k). specialize (Hother Hne).
    destruct (head (current_of (radio_key p) c)) as [data|]; cbn [fst snd].
    + apply (tracks_other k _ c _ h); [|destruct (negb _); [|done]|done].
      * apply update_rows_other; [apply Hother|]. intros r _. apply assigned_key.
      * by rewrite insert_row_of, (Hother _ (proj1 (Hh data.2))), app_nil_r.
    + apply (tracks_other k _ c _ h); [|done..]. by rewrite insert_row_of, (Hother _ Hf), app_nil_r.
Qed.

Lemma radio_tracks ws k :
  let t := foldl (radio_step None) (empty_table, empty_table) ws in tracks k (observations k ws) t.1 t.2.
Proof.
  revert k. induction ws as [|w ws IH] using rev_ind; intros k t; [done|]. subst t. rewrite foldl_snoc.
  destruct (foldl (radio_step None) (empty_table, empty_table) ws) as [c h]. by apply radio_tracks_step.
Qed.

(** The bounded run keeps the same current rows. *)
Lemma radio_runs_alike n ws :
  (0 < n)%nat →
  let t := foldl (radio_step (Some n)) (empty_table, empty_table) ws in
  let u := foldl (radio_step None) (empty_table, empty_table) ws in
  t.1 = u.1 ∧ bounded (key_columns RADIO_KEY_COLUMNS) n t.2 u.2.
Proof.
  intros Hn. induction ws as [|w ws IH] using rev_ind; cbv zeta; [split; [done|apply bounded_empty]|].
  rewrite !foldl_snoc. destruct IH as [Hc Hb].
  destruct (foldl (radio_step (Some n)) _ ws) as [c h], (foldl (radio_step None) _ ws) as [c' u].
  cbn [fst snd] in *. subst c'. unfold radio_step. cbn [fst snd].
  pose proof (radio_alike n dumps sha256 (rw_row w) (rw_site w) (rw_radio w) (rw_now w) c h u Hb) as H.
  destruct (upsert_radio (Some n) _ _ _ _ _ _ _ _) as [[[c1 h1] x]|], (upsert_radio None _ _ _ _ _ _ _ _) as [[[c2 h2] y]|];
    try done. destruct H as (Hx & _ & Hb'). cbn in *. by subst.
Qed.
End radio.

(** C5: what is stored of a radio is exactly what was seen of it.  After any
    sequence of collections, with the observations [p :: rest] of a key in order:
    there is one current row, whose columns are those of the last observation,
    with the time of the first; the changes that occurred - each state that
    differs from the one before, with that state - form a log with distinct
    identifiers, and the history holds its ten latest entries. *)
Theorem radio_history_exact dumps sha256 ws k p rest :
  observations dumps sha256 k ws = p :: rest →
  let t := foldl (radio_step dumps sha256 (Some HISTORY_LIMIT)) (empty_table, empty_table) ws in
  (∃ r, current_of k t.1 = [r] ∧ same_columns RADIO_VALUES r.2 (List.last rest p) ∧
        dget "first_seen_at" r.2 = dget "collected_at" p) ∧
  ∃ log, change_of <$> log.*2 = changes p rest ∧ NoDup log.*1 ∧
    latest (key_columns RADIO_KEY_COLUMNS k) t.2 = take HISTORY_LIMIT (sort_by newest_leb log).
Proof.
  intros Hobs t. destruct (radio_runs_alike dumps sha256 HISTORY_LIMIT ws) as [Hc Hb]; [unfold HISTORY_LIMIT; lia|].
  pose proof (radio_tracks dumps sha256 ws k) as Ht. cbv zeta in Hc, Hb, Ht. fold t in Hc, Hb. rewrite Hobs in Ht.
  destruct Ht as ((r & Hr & Hv & H1 & _) & Hlog). rewrite <- Hc in Hr. split; [by exists r|].
  eexists. split_and!; [exact Hlog| |apply Hb].
  apply filter_sub. destruct Hb as (_ & Hok & _). apply Hok.
Qed.

Definition demo_radio_writes : list radio_write :=
  (λ c, RadioWrite (demo_row c) "s" (PInt 1) "now") <$> [36; 36; 40].
Definition demo_key : list string := ["s"; "ap-1"; "1"].
Definition demo_observed : list dict := observations py_repr (λ s, s) demo_key demo_radio_writes.

Lemma radio_history_exact_witness :
  ∃ r, current_of demo_key
         (foldl (radio_step py_repr (λ s, s) (Some HISTORY_LIMIT)) (empty_table, empty_table) demo_radio_writes).1 = [r] ∧
       column "channel" r.2 = "40".
Proof.
  destruct (radio_history_exact py_repr (λ s, s) demo_radio_writes demo_key (List.hd [] demo_observed)
    (List.tl demo_observed)) as [(r & Hr & Hv & _) _]; [vm_compute; reflexivity|].
  exists r. split; [exact Hr|]. unfold column. rewrite Hv by in_columns. vm_compute. reflexivity.
Defined.
