(* ===== verification/ZeroRuns.v ===== *)
(** * Runs of zero signal strength

    services/mesh_rssi_zero_runs.py: a recording is a list of rows with a time, a
    signal strength and a flag that cuts the recording before the row.  Zero
    samples that follow each other without a cut form a run; a run that touches
    two natural seconds is sustained, a shorter one is suppressed.  Times are
    microseconds and all of one kind (with a zone, or all without: Python refuses
    to compare the two); intervals and durations are exact, where the program
    computes milliseconds in doubles. *)

From S2P Require Import Prelude PyVal PyText.

(** ** Numbers

    A finite number is its exact ratio. *)
Definition ratio := (Z * positive)%type.

(** [_finite_number]; [parse_float] is [float] of a text.  Integers beyond the
    range of doubles, on which [float] raises, do not occur. *)
Definition finite_number (parse_float : string → option ratio) (v : pyval) : option ratio :=
  match v with
  | PInt z => Some (z, 1%positive)
  | PFloat (FFinite n d _) => Some (n, d)
  | PStr s => if String.eqb s "" then None else parse_float s
  | _ => None
  end.

(** [int(round(max(lo, min(hi, n / d))))]. *)
Definition clamp_round (lo hi : Z) (q : ratio) : Z :=
  let '(n, d) := q in
  if n <=? lo * Zpos d then lo else if hi * Zpos d <=? n then hi else round_half_even n (Zpos d).

Definition SUSTAINED_ZERO_MINIMUM_NATURAL_SECOND_COUNT : Z := 2.
Definition MINIMUM_SAMPLE_INTERVAL_MS : Z := 100.
Definition MAXIMUM_SAMPLE_INTERVAL_MS : Z := 5000.
Definition DEFAULT_SAMPLE_INTERVAL_MS : Z := 1000.
Definition MAXIMUM_CONTINUOUS_GAP_MS : Z := 60000.

Inductive RssiZeroState := suppressed | sustained.
Inductive RssiZeroBoundary := start | middle | end_ | single.

#[export] Instance state_eq_dec : EqDecision RssiZeroState.
Proof. solve_decision. Defined.

(** [estimated_end] and times in microseconds; the texts are made of them. *)
Record RssiZeroRunMetadata := Metadata {
  md_state : RssiZeroState;
  md_start : Z;
  md_end : Z;
  md_duration_ms : Z;
  md_sample_count : Z;
  md_boundary : RssiZeroBoundary;
  md_estimated_end : bool;
}.

Record RssiZeroRunSummary := Summary {
  suppressed_sample_count : Z;
  suppressed_run_count : Z;
  sustained_run_count : Z;
  sustained_total_duration_ms : Z;
  sustained_longest_duration_ms : Z;
}.

Record RssiZeroRunAnalysis := Analysis {
  metadata_by_index : list (nat * RssiZeroRunMetadata);
  sustained_boundary_indices : list nat;
  suppressed_recovery_indices : list nat;
  sample_interval_ms : Z;
  maximum_continuous_gap_ms : Z;
  an_summary : RssiZeroRunSummary;
}.

Section analysis.
Context {T : Type} (timestamp : T → option Z) (value : T → option ratio) (boundary_before : T → bool).

(** ** The sampling interval *)

(** The intervals within the accepted range, in microseconds. *)
Fixpoint intervals (previous : option Z) (rows : list T) : list Z :=
  match rows with
  | [] => []
  | row :: rest =>
      match timestamp row with
      | Some t =>
          if boundary_before row then intervals (Some t) rest
          else match previous with
               | Some p =>
                   let interval := t - p in
                   if (MINIMUM_SAMPLE_INTERVAL_MS * 1000 <=? interval)
                      && (interval <=? MAXIMUM_SAMPLE_INTERVAL_MS * 1000)
                   then interval :: intervals (Some t) rest else intervals (Some t) rest
               | None => intervals (Some t) rest
               end
      | None => intervals None rest
      end
  end.

(** [statistics.median], in milliseconds. *)
Definition median (l : list Z) : ratio :=
  let sorted := sort_by Z.leb l in
  let n := length l in
  let at_ i := default 0 (sorted !! i) in
  if Nat.odd n then (at_ (n / 2)%nat, 1000%positive)
  else (at_ (n / 2 - 1)%nat + at_ (n / 2)%nat, 2000%positive).

Definition estimate_sample_interval_ms (rows : list T) (fallback : option ratio) : Z :=
  let candidate :=
    match intervals None rows with
    | [] => match fallback with
            | Some (n, d) => if 0 <? n then (n, d) else (DEFAULT_SAMPLE_INTERVAL_MS, 1%positive)
            | None => (DEFAULT_SAMPLE_INTERVAL_MS, 1%positive)
            end
    | l => median l
    end in
  clamp_round MINIMUM_SAMPLE_INTERVAL_MS MAXIMUM_SAMPLE_INTERVAL_MS candidate.

Definition continuous_gap_ms (configured : option ratio) (interval_ms : Z) : Z :=
  match configured with
  | Some (n, d) =>
      if 0 <? n then clamp_round interval_ms MAXIMUM_CONTINUOUS_GAP_MS (n, d)
      else Z.min MAXIMUM_CONTINUOUS_GAP_MS (Z.max MAXIMUM_SAMPLE_INTERVAL_MS (interval_ms * 5))
  | None => Z.min MAXIMUM_CONTINUOUS_GAP_MS (Z.max MAXIMUM_SAMPLE_INTERVAL_MS (interval_ms * 5))
  end.

(** ** The loop *)
Section loop.
Context (interval_ms gap_ms minimum_seconds : Z).

(** The variables of the loop. *)
Record progress := Progress {
  pr_metadata : list (nat * RssiZeroRunMetadata);
  pr_boundaries : list nat;
  pr_recoveries : list nat;
  pr_summary : RssiZeroRunSummary;
  pr_zeros : list (nat * Z);
  pr_previous : option Z;
}.

Definition natural_second (t : Z) : Z := t / 1000000.

Definition run_state (times : list Z) : RssiZeroState :=
  if Z.max minimum_seconds 1 <=? Z.of_nat (length (remove_dups (natural_second <$> times)))
  then sustained else suppressed.

Definition run_boundary (count offset : nat) : RssiZeroBoundary :=
  if bool_decide (count = 1%nat) then single
  else if bool_decide (offset = 0%nat) then start
  else if bool_decide (offset = (count - 1)%nat) then end_ else middle.

Definition is_middle (b : RssiZeroBoundary) : bool := match b with middle => true | _ => false end.

Definition add_run (state : RssiZeroState) (count duration : Z) (s : RssiZeroRunSummary) : RssiZeroRunSummary :=
  match state with
  | suppressed =>
      Summary (suppressed_sample_count s + count) (suppressed_run_count s + 1) (sustained_run_count s)
        (sustained_total_duration_ms s) (sustained_longest_duration_ms s)
  | sustained =>
      Summary (suppressed_sample_count s) (suppressed_run_count s) (sustained_run_count s + 1)
        (sustained_total_duration_ms s + duration) (Z.max (sustained_longest_duration_ms s) duration)
  end.

(** [flush(next_valid_time)]. *)
Definition flush (next_valid_time : option Z) (p : progress) : progress * option RssiZeroState :=
  match pr_zeros p, last (pr_zeros p) with
  | (_, first) :: _, Some (_, last_time) =>
      let zeros := pr_zeros p in
      let end_time := default (last_time + interval_ms * 1000) next_valid_time in
      let duration := Z.max (round_half_even (end_time - first) 1000) 0 in
      let count := length zeros in
      let state := run_state zeros.*2 in
      let metadata :=
        imap (λ offset z, (z.1, Metadata state first end_time duration (Z.of_nat count)
                                  (run_boundary count offset) (bool_decide (next_valid_time = None)))) zeros in
      let boundaries :=
        match state with
        | sustained => (filter (λ m, is_middle (md_boundary m.2) = false) metadata).*1
        | suppressed => []
        end in
      (Progress (pr_metadata p ++ metadata) (pr_boundaries p ++ boundaries) (pr_recoveries p)
         (add_run state (Z.of_nat count) duration (pr_summary p)) [] (pr_previous p),
       Some state)
  | _, _ => (p, None)
  end.

Definition with_previous (t : option Z) (p : progress) : progress :=
  Progress (pr_metadata p) (pr_boundaries p) (pr_recoveries p) (pr_summary p) (pr_zeros p) t.
Definition with_zero (index : nat) (t : Z) (p : progress) : progress :=
  Progress (pr_metadata p) (pr_boundaries p) (pr_recoveries p) (pr_summary p) (pr_zeros p ++ [(index, t)]) (Some t).
Definition with_recovery (index : nat) (p : progress) : progress :=
  Progress (pr_metadata p) (pr_boundaries p) (pr_recoveries p ++ [index]) (pr_summary p) (pr_zeros p) (pr_previous p).

Definition gap_before (previous : option Z) (t : Z) : bool :=
  match previous with Some p => (t <? p) || (gap_ms * 1000 <? t - p) | None => false end.

Definition step (index : nat) (row : T) (p : progress) : progress :=
  match timestamp row with
  | None => with_previous None (flush None p).1
  | Some t =>
      let p := if boundary_before row || gap_before (pr_previous p) t
               then with_previous None (flush None p).1 else p in
      match value row with
      | Some (n, _) =>
          if n =? 0 then with_zero index t p
          else
            let '(p, state) := flush (Some t) p in
            let p := if bool_decide (state = Some suppressed) then with_recovery index p else p in
            with_previous (Some t) p
      | None => with_previous None (flush None p).1
      end
  end.

Fixpoint steps (index : nat) (rows : list T) (p : progress) : progress :=
  match rows with [] => p | row :: rest => steps (S index) rest (step index row p) end.

Definition start_progress : progress := Progress [] [] [] (Summary 0 0 0 0 0) [] None.
End loop.

Definition analyze_rssi_zero_runs (rows : list T) (fallback maximum_gap : option ratio) (minimum_seconds : Z)
    : RssiZeroRunAnalysis :=
  let interval := estimate_sample_interval_ms rows fallback in
  let gap := continuous_gap_ms maximum_gap interval in
  let p := (flush interval minimum_seconds None
              (steps interval gap minimum_seconds 0 rows start_progress)).1 in
  Analysis (pr_metadata p) (pr_boundaries p) (pr_recoveries p) interval gap (pr_summary p).
End analysis.

(** ** What a run is *)
Section spec.
Context {T : Type} (timestamp : T → option Z) (value : T → option ratio) (boundary_before : T → bool).
Context (interval_ms gap_ms minimum_seconds : Z) (rows : list T).

(** The time of row [j] when it holds a zero, or another number. *)
Definition zero_time (j : nat) : option Z :=
  row ← rows !! j; t ← timestamp row; '(n, _) ← value row; if n =? 0 then Some t else None.
Definition other_time (j : nat) : option Z :=
  row ← rows !! j; t ← timestamp row; '(n, _) ← value row; if n =? 0 then None else Some t.

(** Row [j] follows row [j - 1] without a cut. *)
Definition joined (j : nat) : bool :=
  match j with
  | O => false
  | S i =>
      match rows !! i ≫= timestamp, rows !! j, rows !! j ≫= timestamp with
      | Some s, Some b, Some t => negb (boundary_before b) && negb (gap_before gap_ms (Some s) t)
      | _, _, _ => false
      end
  end.

Record run := Run { ru_first : nat; ru_times : list Z; ru_next : option Z }.

Definition ru_after (r : run) : nat := (ru_first r + length (ru_times r))%nat.
Definition ru_indices (r : run) : list nat := seq (ru_first r) (length (ru_times r)).

(** A maximal run: zeros without a cut between them that the next row does not
    continue; [ru_next] is the time of the number that ends it, if one does. *)
Definition maximal_run (r : run) : Prop :=
  ru_times r ≠ [] ∧
  (∀ k t, ru_times r !! k = Some t → zero_time (ru_first r + k) = Some t) ∧
  (∀ k, (0 < k < length (ru_times r))%nat → joined (ru_first r + k) = true) ∧
  ru_next r = (if joined (ru_after r) then other_time (ru_after r) else None) ∧
  (joined (ru_after r) = true → zero_time (ru_after r) = None).

(** What is reported of a run. *)
Definition ru_start (r : run) : Z := default 0 (head (ru_times r)).
Definition ru_end (r : run) : Z := default (default 0 (last (ru_times r)) + interval_ms * 1000) (ru_next r).
Definition ru_duration (r : run) : Z := Z.max (round_half_even (ru_end r - ru_start r) 1000) 0.
Definition ru_state (r : run) : RssiZeroState := run_state minimum_seconds (ru_times r).

Definition ru_metadata (r : run) : list (nat * RssiZeroRunMetadata) :=
  imap (λ k i, (i, Metadata (ru_state r) (ru_start r) (ru_end r) (ru_duration r) (Z.of_nat (length (ru_times r)))
                     (run_boundary (length (ru_times r)) k) (bool_decide (ru_next r = None)))) (ru_indices r).
Definition ru_boundaries (r : run) : list nat :=
  match ru_state r with
  | sustained => (filter (λ m, is_middle (md_boundary m.2) = false) (ru_metadata r)).*1
  | suppressed => []
  end.
Definition ru_recovery (r : run) : list nat :=
  match ru_state r, ru_next r with suppressed, Some _ => [ru_after r] | _, _ => [] end.
Definition runs_summary (runs : list run) : RssiZeroRunSummary :=
  foldl (λ s r, add_run (ru_state r) (Z.of_nat (length (ru_times r))) (ru_duration r) s) (Summary 0 0 0 0 0) runs.

(** The zeros of the recording below an index. *)
Definition zeros_below (n : nat) : list nat := filter (λ j, is_Some (zero_time j)) (seq 0 n).

(** ** The loop keeps the runs found so far *)
Definition reports (runs : list run) (p : progress) : Prop :=
  pr_metadata p = concat (ru_metadata <$> runs) ∧ pr_boundaries p = concat (ru_boundaries <$> runs) ∧
  pr_recoveries p = concat (ru_recovery <$> runs) ∧ pr_summary p = runs_summary runs ∧
  Forall maximal_run runs.

(** The run that is open before row [i]. *)
Definition open_run (i : nat) (zeros : list (nat * Z)) : Prop :=
  zeros = [] ∨
  ∃ first times, zeros = zip (seq first (length times)) times ∧ (first + length times)%nat = i ∧ times ≠ [] ∧
    (∀ k t, times !! k = Some t → zero_time (first + k) = Some t) ∧
    (∀ k, (0 < k < length times)%nat → joined (first + k) = true).

Definition loop_inv (i : nat) (p : progress) : Prop :=
  ∃ runs, reports runs p ∧ open_run i (pr_zeros p) ∧
    concat (ru_indices <$> runs) ++ (pr_zeros p).*1 = zeros_below i ∧
    (∀ t, pr_previous p = Some t → ∃ j, i = S j ∧ rows !! j ≫= timestamp = Some t) ∧
    (pr_zeros p ≠ [] → is_Some (pr_previous p)).

Lemma zip_seq_fst first (times : list Z) : (zip (seq first (length times)) times).*1 = seq first (length times).
Proof. apply fst_zip. by rewrite length_seq. Qed.
Lemma zip_seq_snd first (times : list Z) : (zip (seq first (length times)) times).*2 = times.
Proof. apply snd_zip. by rewrite length_seq. Qed.

(** Flushing the zeros of a run reports the run. *)
Lemma flush_run next p first times :
  pr_zeros p = zip (seq first (length times)) times → times ≠ [] →
  let r := Run first times next in
  flush interval_ms minimum_seconds next p =
  (Progress (pr_metadata p ++ ru_metadata r) (pr_boundaries p ++ ru_boundaries r) (pr_recoveries p)
     (add_run (ru_state r) (Z.of_nat (length times)) (ru_duration r) (pr_summary p)) [] (pr_previous p),
   Some (ru_state r)).
Proof.
  intros Hz Hne r.
  assert (Hlen : length (pr_zeros p) = length times).
  { rewrite <- (zip_seq_snd first times), length_fmap. by rewrite Hz. }
  assert (Hsnd : (pr_zeros p).*2 = times) by (rewrite Hz; apply zip_seq_snd).
  assert (Hfst : (pr_zeros p).*1 = seq first (length times)) by (rewrite Hz; apply zip_seq_fst).
  assert (Hhead : head (pr_zeros p) = Some (first, ru_start r)).
  { rewrite Hz. by destruct times. }
  assert (Hlast : ∃ j t, last (pr_zeros p) = Some (j, t) ∧ last times = Some t).
  { destruct (last (pr_zeros p)) as [[j t]|] eqn:E; [|apply last_None in E; rewrite E in Hlen; by destruct times].
    exists j, t. split; [done|]. rewrite <- Hsnd, fmap_last. by rewrite E. }
  destruct Hlast as (j & t & Hl & Hlt). unfold flush. rewrite Hl.
  destruct (pr_zeros p) as [|[f0 t0] zs] eqn:Ez; [done|]. injection Hhead as -> ->. rewrite <- Ez in *.
  rewrite Hsnd, Hlen.
  assert (Hend : default (t + interval_ms * 1000) next = ru_end r).
  { unfold ru_end. cbn [ru_next ru_times r]. by rewrite Hlt. }
  rewrite Hend. fold (ru_duration r). fold (ru_state r).
  assert (Hm : imap (λ offset z, (z.1, Metadata (ru_state r) (ru_start r) (ru_end r) (ru_duration r) (Z.of_nat (length times))
                 (run_boundary (length times) offset) (bool_decide (next = None)))) (pr_zeros p) = ru_metadata r).
  { unfold ru_metadata, ru_indices. cbn [ru_first ru_times ru_next r]. rewrite <- Hfst, imap_fmap. done. }
  change (run_state minimum_seconds times) with (ru_state r).
  unfold ru_boundaries. rewrite <- Hm. done.
Qed.

(** Flushing closes the open run; a number that ends a suppressed one is its
    recovery. *)
Lemma flush_reports i next p runs :
  reports runs p → open_run i (pr_zeros p) →
  (pr_zeros p ≠ [] → next = (if joined i then other_time i else None) ∧ (joined i = true → zero_time i = None)) →
  let '(p', state) := flush interval_ms minimum_seconds next p in
  pr_zeros p' = [] ∧ pr_previous p' = pr_previous p ∧
  ∃ runs', concat (ru_indices <$> runs') = concat (ru_indices <$> runs) ++ (pr_zeros p).*1 ∧
    reports runs' (if bool_decide (state = Some suppressed) && bool_decide (is_Some next)
                   then with_recovery i p' else p').
Proof.
  intros (H1 & H2 & H3 & H4 & H5) [Hz|(first & times & Hz & Hi & Hne & Ht & Hj)] Hnext.
  - unfold flush. rewrite Hz. split_and!; [done..|]. exists runs. simpl. rewrite app_nil_r. by split_and!.
  - destruct Hnext as [Hn Hm]; [rewrite Hz; by destruct times|].
    rewrite (flush_run _ _ first times) by done. set (r := Run first times next). split_and!; [done..|].
    assert (Hr : maximal_run r).
    { unfold maximal_run, ru_after. cbn [ru_first ru_times ru_next r]. rewrite Hi. by split_and!. }
    exists (runs ++ [r]). rewrite Hz, zip_seq_fst, fmap_app, concat_app. cbn [fmap list_fmap concat].
    rewrite app_nil_r. split; [done|].
    assert (Hsum : add_run (ru_state r) (Z.of_nat (length times)) (ru_duration r) (pr_summary p) = runs_summary (runs ++ [r])).
    { unfold runs_summary. rewrite foldl_snoc, H4. done. }
    assert (Hrec : ru_recovery r = if bool_decide (Some (ru_state r) = Some suppressed) && bool_decide (is_Some next) then [i] else []).
    { unfold ru_recovery, ru_after. cbn [ru_first ru_times ru_next r]. rewrite Hi. by destruct (ru_state r), next. }
    split_and!.
    + rewrite fmap_app, concat_app, <- H1. cbn [fmap list_fmap concat]. rewrite app_nil_r. by case_match.
    + rewrite fmap_app, concat_app, <- H2. cbn [fmap list_fmap concat]. rewrite app_nil_r. by case_match.
    + rewrite fmap_app, concat_app, <- H3. cbn [fmap list_fmap concat]. rewrite app_nil_r, Hrec.
      case_match; cbn [with_recovery pr_recoveries]; by rewrite ?app_nil_r.
    + rewrite <- Hsum. by case_match.
    + apply Forall_app. split; [done|]. by apply Forall_singleton.
Qed.

Lemma zeros_below_S i :
  zeros_below (S i) = zeros_below i ++ (if zero_time i then [i] else []).
Proof.
  unfold zeros_below. rewrite seq_S, filter_app. f_equal. rewrite filter_cons, filter_nil. simpl.
  destruct (zero_time i) as [t|]; case_decide as H; [done|by destruct H; eexists|by destruct H as [? [=]]|done].
Qed.

(** A cut before row [i]: the open run ends there and nothing follows it. *)
Lemma cut_inv i p :
  loop_inv i p → joined i = false → loop_inv i (with_previous None (flush interval_ms minimum_seconds None p).1).
Proof.
  intros (runs & Hr & Ho & Hc & Hp & Hz) Hj.
  pose proof (flush_reports i None p runs Hr Ho) as H. rewrite Hj in H.
  specialize (H ltac:(by intros _; split)).
  destruct (flush interval_ms minimum_seconds None p) as [p' state]. destruct H as (H1 & H2 & runs' & H3 & H4).
  change (bool_decide (is_Some (@None Z))) with false in H4. rewrite andb_false_r in H4.
  exists runs'. cbn [fst with_previous pr_zeros pr_previous]. rewrite H1. split_and!; [done|by left| |done|done].
  cbn [fmap list_fmap]. by rewrite app_nil_r, H3.
Qed.

Lemma joined_S i row t :
  rows !! i = Some row → timestamp row = Some t →
  joined i = true → ∃ j s, i = S j ∧ rows !! j ≫= timestamp = Some s ∧ boundary_before row = false ∧
                        gap_before gap_ms (Some s) t = false.
Proof.
  intros Hrow Ht. destruct i as [|j]; [done|]. unfold joined. rewrite Hrow. cbn [mbind option_bind]. rewrite Ht.
  destruct (rows !! j ≫= timestamp) as [s|] eqn:E; [|done].
  intros [Hb Hg]%andb_true_iff. apply negb_true_iff in Hb, Hg. by exists j, s.
Qed.

Lemma times_at i row t n d :
  rows !! i = Some row → timestamp row = Some t → value row = Some (n, d) →
  zero_time i = (if n =? 0 then Some t else None) ∧ other_time i = (if n =? 0 then None else Some t).
Proof. intros Hr Ht Hv. unfold zero_time, other_time. rewrite Hr. cbn. rewrite Ht. cbn. by rewrite Hv. Qed.

Lemma no_time i row :
  rows !! i = Some row → timestamp row = None ∨ value row = None → zero_time i = None ∧ other_time i = None.
Proof.
  intros Hr H. unfold zero_time, other_time. rewrite Hr. cbn. destruct (timestamp row); [|done]. cbn.
  destruct H as [H|H]; [done|by rewrite H].
Qed.

Notation step := (step timestamp value boundary_before interval_ms gap_ms minimum_seconds).
Notation flush := (flush interval_ms minimum_seconds).

(** The row after the last zero: [p'] is the state after the cut, if there is one. *)
Lemma before_row i row t p :
  rows !! i = Some row → timestamp row = Some t → loop_inv i p →
  let cut := boundary_before row || gap_before gap_ms (pr_previous p) t in
  let p' := if cut then with_previous None (flush None p).1 else p in
  loop_inv i p' ∧ (pr_zeros p' ≠ [] → joined i = true).
Proof.
  intros Hr Ht Hinv cut p'.
  assert (Hj : pr_zeros p ≠ [] → joined i = negb cut).
  { destruct Hinv as (runs & _ & _ & _ & Hp & Hz). intros [s Hs]%Hz. destruct (Hp s Hs) as (j & -> & Hj).
    unfold joined, cut. rewrite Hj, Hr, Hs. cbn [mbind option_bind]. rewrite Ht. by rewrite negb_orb. }
  assert (Hcut : cut = true → joined i = false).
  { intros Hc. destruct (joined i) eqn:E; [|done].
    destruct (joined_S i row t Hr Ht E) as (j & s & -> & Hs & Hb & Hg). unfold cut in Hc. rewrite Hb in Hc. simpl in Hc.
    destruct Hinv as (runs & _ & _ & _ & Hp & _). destruct (pr_previous p) as [s'|] eqn:Es; [|done].
    destruct (Hp s' eq_refl) as (j' & [= <-] & Hs'). rewrite Hs in Hs'. injection Hs' as <-. congruence. }
  unfold p'. destruct cut.
  - split; [by apply cut_inv, Hcut|]. cbn [with_previous pr_zeros].
    destruct (cut_inv i p Hinv (Hcut eq_refl)) as (runs & _ & _ & _ & _ & Hz). cbn [with_previous pr_zeros pr_previous] in Hz.
    intros H. by destruct (Hz H) as [? [=]].
  - split; [done|]. intros H. by rewrite (Hj H).
Qed.

(** A zero extends the open run. *)
Lemma open_extend i zeros t :
  open_run i zeros → (zeros ≠ [] → joined i = true) → zero_time i = Some t → open_run (S i) (zeros ++ [(i, t)]).
Proof.
  intros Ho Hj Hz. right. destruct Ho as [Hnil|(first & times & Hzs & Hi & Hne & Htimes & Hjs)].
  - exists i, [t]. rewrite Hnil. split_and!; [done|simpl; lia|done| |].
    + intros [|k] t'; [|done]. intros [= <-]. by rewrite Nat.add_0_r.
    + simpl. intros k Hk. lia.
  - exists first, (times ++ [t]). rewrite length_app. simpl. split_and!.
    + rewrite Hzs, seq_app, zip_with_app by (by rewrite length_seq). simpl. by rewrite Hi.
    + lia.
    + by destruct times.
    + intros k t' Hk. apply lookup_app_Some in Hk as [Hk|[Hk1 Hk2]]; [by apply Htimes|].
      apply list_lookup_singleton_Some in Hk2 as [Hk2 <-]. by replace (first + k)%nat with i by lia.
    + intros k Hk. destruct (decide (k < length times)%nat); [apply Hjs; lia|].
      replace (first + k)%nat with i by lia. apply Hj. rewrite Hzs. by destruct times.
Qed.

Lemma step_inv i row p : rows !! i = Some row → loop_inv i p → loop_inv (S i) (step i row p).
Proof.
  intros Hr Hinv. unfold ZeroRuns.step. destruct (timestamp row) as [t|] eqn:Ht.
  2:{ destruct (no_time i row Hr) as [Hz0 _]; [by left|].
      assert (Hj : joined i = false).
      { destruct i as [|j]; [done|]. unfold joined. rewrite Hr. cbn. rewrite Ht. by destruct (rows !! j ≫= timestamp). }
      destruct (cut_inv i p Hinv Hj) as (runs & Hrep & Ho & Hc & _ & Hz). exists runs.
      split_and!; [done| | |done|done].
      - left. destruct (pr_zeros _); [done|]. by destruct (Hz ltac:(done)) as [? [=]].
      - by rewrite Hc, zeros_below_S, Hz0, app_nil_r. }
  destruct (before_row i row t p Hr Ht Hinv) as [Hinv' Hj].
  set (p' := if boundary_before row || gap_before gap_ms (pr_previous p) t then _ else p) in *. clearbody p'. clear p Hinv.
  destruct Hinv' as (runs & Hrep & Ho & Hc & Hp & Hz). destruct (value row) as [[n d]|] eqn:Hv.
  - destruct (times_at i row t n d Hr Ht Hv) as [Hz0 Ho0]. destruct (n =? 0).
    + exists runs. cbn [with_zero pr_zeros pr_previous].
      split_and!; [done|by apply open_extend| |by intros ? [= <-]; exists i; rewrite Hr|by eexists].
      rewrite fmap_app, app_assoc, Hc, zeros_below_S, Hz0. done.
    + pose proof (flush_reports i (Some t) p' runs Hrep Ho) as H.
      destruct (flush (Some t) p') as [p2 state]. destruct H as (H1 & H2 & runs' & H3 & H4).
      { intros Hne. rewrite (Hj Hne). by rewrite Ho0, Hz0. }
      change (bool_decide (is_Some (Some t))) with true in H4. rewrite andb_true_r in H4.
      exists runs'. destruct (bool_decide (state = Some suppressed)); cbn [with_previous with_recovery pr_zeros pr_previous];
        rewrite H1; (split_and!; [done|by left| |by intros ? [= <-]; exists i; rewrite Hr|done]);
        cbn [fmap list_fmap]; by rewrite app_nil_r, H3, Hc, zeros_below_S, Hz0, app_nil_r.
  - destruct (no_time i row Hr) as [Hz0 Ho0]; [by right|].
    pose proof (flush_reports i None p' runs Hrep Ho) as H.
    destruct (flush None p') as [p2 state]. destruct H as (H1 & H2 & runs' & H3 & H4).
    { intros Hne. rewrite (Hj Hne). by rewrite Ho0, Hz0. }
    change (bool_decide (is_Some (@None Z))) with false in H4. rewrite andb_false_r in H4.
    exists runs'. cbn [fst with_previous pr_zeros pr_previous]. rewrite H1.
    split_and!; [done|by left| |done|done]. cbn [fmap list_fmap].
    by rewrite app_nil_r, H3, Hc, zeros_below_S, Hz0, app_nil_r.
Qed.

Lemma steps_inv i rest p :
  rows = take i rows ++ rest → (i ≤ length rows)%nat → loop_inv i p →
  loop_inv (length rows) (steps timestamp value boundary_before interval_ms gap_ms minimum_seconds i rest p).
Proof.
  revert i p. induction rest as [|row rest IH]; intros i p Hrows Hi Hp; simpl.
  - rewrite app_nil_r in Hrows. assert (Hl : length rows = i); [|by rewrite Hl].
    apply (f_equal length) in Hrows. rewrite length_take in Hrows. lia.
  - assert (Hrow : rows !! i = Some row).
    { rewrite Hrows, lookup_app_r; rewrite length_take; [|lia]. by replace (i - i `min` length rows)%nat with 0%nat by lia. }
    apply IH; [|by apply lookup_lt_Some in Hrow|by apply step_inv].
    rewrite (take_S_r _ _ row) by done. by rewrite <- app_assoc.
Qed.

Lemma final_runs :
  let p := (flush None (steps timestamp value boundary_before interval_ms gap_ms minimum_seconds 0 rows start_progress)).1 in
  ∃ runs, reports runs p ∧ concat (ru_indices <$> runs) = zeros_below (length rows).
Proof.
  assert (H0 : loop_inv 0 start_progress).
  { exists []. split_and!; [by split_and!|by left|done|done|done]. }
  apply (steps_inv 0 rows) in H0; [|done|lia].
  assert (Hj : joined (length rows) = false).
  { unfold joined. destruct (length rows) as [|j] eqn:E; [done|]. rewrite (lookup_ge_None_2 rows (S j)) by lia.
    by destruct (rows !! j ≫= timestamp). }
  destruct (cut_inv _ _ H0 Hj) as (runs & Hr & _ & Hc & _ & Hz). exists runs. split; [done|].
  cbn [with_previous pr_zeros pr_previous] in *. destruct (pr_zeros _); [|by destruct (Hz ltac:(done)) as [? [=]]].
  cbn [fmap list_fmap] in Hc. by rewrite app_nil_r in Hc.
Qed.
End spec.

Lemma round_half_even_bounds n d lo hi :
  0 < d → lo * d ≤ n ≤ hi * d → lo ≤ round_half_even n d ≤ hi.
Proof.
  intros Hd [H1 H2]. unfold round_half_even.
  pose proof (Z.div_mod n d ltac:(lia)). pose proof (Z.mod_pos_bound n d Hd).
  assert (lo ≤ n / d) by (apply Z.div_le_lower_bound; nia).
  assert (n / d ≤ hi) by (apply Z.div_le_upper_bound; nia).
  assert (0 < n mod d → n / d < hi) by (intros ?; assert (¬ hi ≤ n / d) by nia; lia).
  destruct (Z.ltb_spec (2 * (n mod d)) d); [lia|]. destruct (Z.ltb_spec d (2 * (n mod d))); [lia|].
  destruct (Z.even _); lia.
Qed.

Lemma clamp_round_bounds lo hi q : lo ≤ hi → lo ≤ clamp_round lo hi q ≤ hi.
Proof.
  intros H. destruct q as [n d]. unfold clamp_round. destruct (Z.leb_spec n (lo * Zpos d)); [lia|].
  destruct (Z.leb_spec (hi * Zpos d) n); [lia|]. apply round_half_even_bounds; lia.
Qed.

(** C6: the analysis reports exactly the maximal runs of zeros.  The zeros of the
    recording, in order, are divided into runs that no cut separates and no next
    row continues; every zero is labelled with its run and its place in it, the
    recoveries are the numbers that end a suppressed run, the summary counts the
    runs, and the interval and the gap lie in their ranges. *)
Theorem zero_runs_exact {T} (timestamp : T → option Z) (value : T → option ratio) (boundary_before : T → bool)
    rows fallback maximum_gap minimum_seconds :
  let a := analyze_rssi_zero_runs timestamp value boundary_before rows fallback maximum_gap minimum_seconds in
  let interval := sample_interval_ms a in
  (∃ runs,
     Forall (maximal_run timestamp value boundary_before (maximum_continuous_gap_ms a) rows) runs ∧
     concat (ru_indices <$> runs) = zeros_below timestamp value rows (length rows) ∧
     metadata_by_index a = concat (ru_metadata interval minimum_seconds <$> runs) ∧
     sustained_boundary_indices a = concat (ru_boundaries interval minimum_seconds <$> runs) ∧
     suppressed_recovery_indices a = concat (ru_recovery minimum_seconds <$> runs) ∧
     an_summary a = runs_summary interval minimum_seconds runs) ∧
  MINIMUM_SAMPLE_INTERVAL_MS ≤ interval ≤ MAXIMUM_SAMPLE_INTERVAL_MS ∧
  interval ≤ maximum_continuous_gap_ms a ≤ MAXIMUM_CONTINUOUS_GAP_MS.
Proof.
  intros a interval.
  assert (Hi : MINIMUM_SAMPLE_INTERVAL_MS ≤ interval ≤ MAXIMUM_SAMPLE_INTERVAL_MS) by by apply clamp_round_bounds.
  split; [|split; [done|]].
  - destruct (final_runs timestamp value boundary_before interval (maximum_continuous_gap_ms a) minimum_seconds rows)
      as (runs & (H1 & H2 & H3 & H4 & H5) & Hc). exists runs. by split_and!.
  - change (maximum_continuous_gap_ms a) with (continuous_gap_ms maximum_gap interval). unfold continuous_gap_ms.
    unfold MINIMUM_SAMPLE_INTERVAL_MS, MAXIMUM_SAMPLE_INTERVAL_MS, MAXIMUM_CONTINUOUS_GAP_MS in *.
    destruct maximum_gap as [[n d]|]; [destruct (0 <? n); [apply clamp_round_bounds|]|]; lia.
Qed.

(** Two zeros in one second, a number, three zeros over two seconds, a cut. *)
Example zero_runs_demo :
  let rows := [(0, 5); (100000, 0); (200000, 0); (300000, 7); (1000000, 0); (1500000, 0); (2000000, 0); (70000000, 0)] in
  let a := analyze_rssi_zero_runs (λ r : Z * Z, Some r.1) (λ r, Some (r.2, 1%positive)) (λ _, false) rows None None 2 in
  ((λ m, (m.1, md_state m.2, md_boundary m.2, md_duration_ms m.2)) <$> metadata_by_index a,
   suppressed_recovery_indices a, sample_interval_ms a) =
  ([(1%nat, suppressed, start, 200); (2%nat, suppressed, end_, 200); (4%nat, sustained, start, 1300);
    (5%nat, sustained, middle, 1300); (6%nat, sustained, end_, 1300); (7%nat, suppressed, single, 300)], [3%nat], 300).
Proof. vm_compute. reflexivity. Qed.
