(* ===== verification/RadioControl.v ===== *)
(** * Radio control of the mobile routers

    services/ground_unattended/radio_control.py with the tables of
    repositories/ground_unattended_repository.py it works on: interface events
    (IFNET) move a state per radio interface, configuration events (CFGMAN) are
    noted, and the two are correlated when they are near in time.  Everything but
    the events themselves is a projection that [rebuild] makes again.  Rows are
    dictionaries, of one site; the update stamps of the rows are left out. *)

From S2P Require Import Prelude PyVal PyText.

Definition HIGH_CONFIDENCE_MS : Z := 3000.
Definition MAX_CORRELATION_MS : Z := 10000.
Definition FLAPPING_WINDOW_US : Z := 60000000.
Definition FLAPPING_TRANSITION_COUNT : Z := 3.
Definition SNMP_FLAPPING_WINDOW_US : Z := 300000000.
Definition SNMP_FLAPPING_TRANSITION_COUNT : nat := 3.
Definition BOUNCE_MAX_MS : Z := 5000.

(** [str(row.get(k) or "")]. *)
Definition field (k : string) (row : dict) : string := text_or_empty (dget k row).
(** [int(row["id"])] of a stored row. *)
Definition row_id (row : dict) : Z := match dget "id" row with PInt z => z | _ => 0 end.

(** ** Tables *)

(** A call of [add_event_once]; [en_ts] empty means the time of the call. *)
Record entry := Entry {
  en_key : string; en_run : string; en_type : string; en_severity : string; en_train : string; en_mr : string;
  en_title : string; en_message : string; en_ts : string; en_details : dict;
}.

(** The timeline keeps the first entry of a key. *)
Definition add_event_once (timeline : list entry) (e : entry) : list entry :=
  if existsb (λ x, String.eqb (en_key x) (en_key e)) timeline then timeline else timeline ++ [e].

Record correlation := Correlation {
  co_id : string; co_device : string; co_cfg : Z; co_ifnet : Z; co_row : dict;
}.

(** The projections, the calls for the timeline so far and the number of
    identifiers drawn. *)
Record projections := Projections {
  pj_interfaces : list (string * string * dict);
  pj_routers : list (string * dict);
  pj_correlations : list correlation;
  pj_calls : list entry;
  pj_fresh : nat;
}.

Definition no_projections : projections := Projections [] [] [] [] 0.

Definition get_radio_interface_state (device interface : string) (p : projections) : option dict :=
  alookup (device, interface) (pj_interfaces p).
(** The columns named by the values are replaced, the others stay. *)
Definition upsert_radio_interface_state (values : dict) (p : projections) : dict * projections :=
  let key := (py_str (dget "device_uuid" values), py_str (dget "interface_name" values)) in
  let saved := dmerge (default [] (alookup key (pj_interfaces p))) values in
  (saved, Projections (ainsert key saved (pj_interfaces p)) (pj_routers p) (pj_correlations p) (pj_calls p) (pj_fresh p)).
Definition list_radio_interface_states (device : string) (p : projections) : list dict :=
  (List.filter (λ r, String.eqb r.1.1 device) (pj_interfaces p)).*2.

Definition get_mr_runtime_state (device : string) (p : projections) : option dict := alookup device (pj_routers p).
Definition upsert_mr_runtime_state (values : dict) (p : projections) : projections :=
  let key := py_str (dget "device_uuid" values) in
  Projections (pj_interfaces p) (ainsert key (dmerge (default [] (alookup key (pj_routers p))) values) (pj_routers p))
    (pj_correlations p) (pj_calls p) (pj_fresh p).

Definition call_once (e : entry) (p : projections) : projections :=
  Projections (pj_interfaces p) (pj_routers p) (pj_correlations p) (pj_calls p ++ [e]) (pj_fresh p).

(** The stored row, and whether it is new. *)
Definition insert_radio_correlation (uuid : nat → string) (device : string) (cfg ifnet : Z) (row : dict) (p : projections)
    : correlation * bool * projections :=
  match List.find (λ c, (co_cfg c =? cfg) && (co_ifnet c =? ifnet)) (pj_correlations p) with
  | Some c => (c, false, Projections (pj_interfaces p) (pj_routers p) (pj_correlations p) (pj_calls p) (S (pj_fresh p)))
  | None =>
      let c := Correlation ("radio_corr_" +:+ uuid (pj_fresh p)) device cfg ifnet row in
      (c, true, Projections (pj_interfaces p) (pj_routers p) (pj_correlations p ++ [c]) (pj_calls p) (S (pj_fresh p)))
  end.

(** ** Texts *)

Definition duration_label (value : option Z) : string :=
  let milliseconds := Z.max 0 (default 0 value) in
  if milliseconds <? 1000 then pretty milliseconds +:+ " ms"
  else pretty (milliseconds / 1000) +:+ "." +:+ pad3 (milliseconds mod 1000) +:+ " s".

Definition source_details (event : dict) : dict :=
  [("structured_event_id", PInt (row_id event)); ("raw_file_id", PStr (field "raw_file_id" event));
   ("raw_line_number", dget "raw_line_number" event); ("device_time", PStr (field "device_time" event));
   ("receive_time", PStr (field "receive_time" event)); ("event_time_source", PStr (field "event_time_source" event))].

Definition cfg_message (event : dict) : string :=
  let index := field "cfg_event_index" event in
  let source := field "cfg_source" event in
  let destination := field "cfg_destination" event in
  let first := if str_nonempty index then "EventIndex " +:+ index else "配置发生变化" in
  if str_nonempty source || str_nonempty destination
  then first +:+ " · " +:+ str_or source "未知" +:+ " → " +:+ str_or destination "未知" else first.

Section control.
(** [datetime.fromisoformat] with the local zone for a text without one, the
    printed form with milliseconds, the instant in microseconds; the distance of
    two times as SQLite's [julianday] has it; new identifiers. *)
Context {datetime : Type} (parse_time : string → option datetime) (isoformat : datetime → string)
  (instant : datetime → Z) (distance : string → string → option Z) (uuid : nat → string).

Definition event_datetime (now : datetime) (event : dict) : datetime :=
  match parse_time (field "event_time" event) with
  | Some t => t
  | None => default now (parse_time (field "receive_time" event))
  end.

Definition recent_times (values : pyval) (now : datetime) (window : Z) : list string :=
  match values with
  | PList l =>
      omap (λ v, t ← parse_time (text_or_empty v);
                 if Z.abs (instant now - instant t) <=? window then Some (isoformat t) else None) l
  | _ => []
  end.

(** ** The database of events *)

(** [find_control_events]. *)
Definition near_leb (event_time : string) (a b : dict) : bool :=
  let d e := default 0 (distance (field "event_time" e) event_time) in
  if d a =? d b then row_id a <=? row_id b else d a <? d b.
Definition find_control_events (device family event_time : string) (events : list dict) : list dict :=
  sort_by (near_leb event_time)
    (List.filter (λ e, String.eqb (field "device_uuid" e) device && String.eqb (field "event_family" e) family
                       && str_nonempty (field "event_time" e)
                       && match distance (field "event_time" e) event_time with
                          | Some d => d <=? MAX_CORRELATION_MS * 1000
                          | None => false
                          end) events).

(** ** Correlation *)
Definition snmp_event (ifnet_event state : dict) : string * string * string * option Z :=
  let interface := field "interface_name" ifnet_event in
  let physical_state := upper (field "physical_state" ifnet_event) in
  let previous_state := upper (py_str (por (dget "previous_state" state) (PStr "UNKNOWN"))) in
  if String.eqb physical_state "DOWN"
  then ("radio_snmp_down", "SNMP 操作导致射频接口关闭", interface +:+ " changed to down", None)
  else match dget "latest_outage_duration_ms" state with
       | PInt outage =>
           if String.eqb previous_state "DOWN"
           then ("radio_snmp_bounce", "SNMP 操作触发射频接口短暂重启",
                 interface +:+ " · DOWN → UP · 中断 " +:+ duration_label (Some outage), Some outage)
           else ("radio_snmp_up", "SNMP 操作导致射频接口开启", interface +:+ " changed to up", None)
       | _ => ("radio_snmp_up", "SNMP 操作导致射频接口开启", interface +:+ " changed to up", None)
       end.

Definition refresh_mr_summary (event : dict) (p : projections) : projections :=
  let device_uuid := field "device_uuid" event in
  let states := list_radio_interface_states device_uuid p in
  let names k := (λ row, py_str (por (dget k row) (PStr "UNKNOWN"))) <$> states in
  let overall :=
    if str_mem "FLAPPING" (names "current_state") then "FLAPPING"
    else if str_mem "DOWN" (names "stable_state") then "DOWN"
    else if str_mem "UP" (names "stable_state") then "UP" else "UNKNOWN" in
  upsert_mr_runtime_state
    (dmerge (default [] (get_mr_runtime_state device_uuid p))
       [("device_uuid", PStr device_uuid); ("train_id", PStr (field "train_id" event));
        ("mr_role", PStr (field "mr_role" event)); ("radio_overall_state", PStr overall);
        ("last_radio_event_at", PStr (field "event_time" event))]) p.

(** [event_ids[-100:]]. *)
Definition last_hundred (ids : list pyval) : list pyval := drop (length ids - 100) ids.
Definition ints (v : pyval) : list pyval := match v with PList l => l | _ => [] end.

(** A new correlation moves the state of its interface and of its router. *)
Definition apply_correlation (ifnet_time : datetime) (delta_ms : Z) (confidence correlation_id : string)
    (cfg_event ifnet_event : dict) (p : projections) : projections :=
  let device_uuid := field "device_uuid" ifnet_event in
  let interface := field "interface_name" ifnet_event in
  let train := PStr (field "train_id" ifnet_event) in
  let role := PStr (field "mr_role" ifnet_event) in
  let state :=
    match get_radio_interface_state device_uuid interface p with
    | Some (kv :: row) => kv :: row
    | _ => [("device_uuid", PStr device_uuid); ("train_id", train); ("mr_role", role); ("interface_name", PStr interface)]
    end in
  let event_ids := ints (dget "snmp_transition_event_ids" state) in
  let snmp_times := recent_times (dget "snmp_transition_times" state) ifnet_time SNMP_FLAPPING_WINDOW_US in
  let known := bool_decide (PInt (row_id ifnet_event) ∈ event_ids) in
  let event_ids := if known then event_ids else event_ids ++ [PInt (row_id ifnet_event)] in
  let snmp_times := if known then snmp_times else snmp_times ++ [isoformat ifnet_time] in
  let '(saved, p) :=
    upsert_radio_interface_state
      (dmerge state
         [("last_cfg_event_index", PStr (field "cfg_event_index" cfg_event)); ("last_command_source", PStr "snmp");
          ("correlation_confidence", PStr confidence);
          ("snmp_related_transition_count_5m", PInt (Z.of_nat (length snmp_times)));
          ("snmp_transition_times", PList (PStr <$> snmp_times));
          ("snmp_transition_event_ids", PList (last_hundred event_ids))]) p in
  let '(event_type, title, message, outage_ms) := snmp_event ifnet_event saved in
  let details :=
    dmerge (source_details ifnet_event)
      [("correlation_id", PStr correlation_id); ("correlation_confidence", PStr confidence);
       ("correlation_delta_ms", PInt delta_ms); ("cfg_event_id", PInt (row_id cfg_event));
       ("cfg_event_index", PStr (field "cfg_event_index" cfg_event));
       ("cfgman_time", PStr (field "event_time" cfg_event)); ("ifnet_event_id", PInt (row_id ifnet_event));
       ("interface_name", PStr interface); ("physical_state", PStr (field "physical_state" ifnet_event));
       ("outage_duration_ms", opt_int outage_ms); ("source_event_ids", PList [PInt (row_id cfg_event); PInt (row_id ifnet_event)])] in
  let quiet := match outage_ms with Some o => o <? 1000 | None => false end in
  let severity := if quiet || String.eqb event_type "radio_snmp_up" then "info" else "warning" in
  let entry key type severity title message :=
    Entry key (field "run_id" ifnet_event) type severity (field "train_id" ifnet_event) device_uuid title message
      (field "event_time" ifnet_event) details in
  let p := call_once
    (entry ("radio-snmp:" +:+ py_str (dget "id" cfg_event) +:+ ":" +:+ pretty (row_id ifnet_event) +:+ ":" +:+ event_type)
       event_type severity title message) p in
  let frequent := bool_decide (SNMP_FLAPPING_TRANSITION_COUNT <= length snmp_times)%nat in
  let snmp_state :=
    if frequent then "FREQUENT_SWITCHING"
    else if String.eqb event_type "radio_snmp_down" then "RADIO_DOWN" else "RADIO_RECOVERED" in
  let p :=
    if frequent then
      call_once
        (entry ("radio-snmp-flapping:" +:+ device_uuid +:+ ":" +:+ interface +:+ ":" +:+ default "" (head snmp_times))
           "radio_snmp_flapping" "warning" "SNMP 射频控制频繁切换"
           (interface +:+ " 在 5 分钟内出现 " +:+ pretty (length snmp_times) +:+ " 次 SNMP 相关状态转换")) p
    else p in
  let runtime :=
    dmerge (default [] (get_mr_runtime_state device_uuid p))
      [("device_uuid", PStr device_uuid); ("train_id", train); ("mr_role", role);
       ("snmp_radio_control_state", PStr snmp_state); ("last_correlation_confidence", PStr confidence);
       ("last_snmp_control_at", PStr (field "event_time" ifnet_event))] in
  refresh_mr_summary ifnet_event (upsert_mr_runtime_state runtime p).

Definition correlate (now : datetime) (cfg_event ifnet_event : dict) (p : projections) : projections :=
  let cfg_time := event_datetime now cfg_event in
  let ifnet_time := event_datetime now ifnet_event in
  let delta_ms := round_half_even (Z.abs (instant cfg_time - instant ifnet_time)) 1000 in
  if MAX_CORRELATION_MS <? delta_ms then p
  else
    let confidence := if delta_ms <=? HIGH_CONFIDENCE_MS then "HIGH" else "MEDIUM" in
    let device_uuid := field "device_uuid" ifnet_event in
    let interface := field "interface_name" ifnet_event in
    let train := PStr (field "train_id" ifnet_event) in
    let role := PStr (field "mr_role" ifnet_event) in
    let cfg_id := row_id cfg_event in
    let ifnet_id := row_id ifnet_event in
    let '(correlation, inserted, p) :=
      insert_radio_correlation uuid device_uuid cfg_id ifnet_id
        [("run_id", PStr (py_str (por (dget "run_id" ifnet_event) (por (dget "run_id" cfg_event) (PStr "")))));
         ("train_id", train); ("mr_role", role);
         ("interface_name", PStr interface); ("delta_ms", PInt delta_ms); ("confidence", PStr confidence)] p in
    if negb inserted then p
    else apply_correlation ifnet_time delta_ms confidence (co_id correlation) cfg_event ifnet_event p.

(** ** Interface events *)
Definition emit_interface_event (event state : dict) (outage_ms : option Z) (p : projections) : projections :=
  let physical_state := upper (field "physical_state" event) in
  let previous_state := upper (py_str (por (dget "previous_state" state) (PStr "UNKNOWN"))) in
  let interface := field "interface_name" event in
  let '(event_type, title, message, severity) :=
    if String.eqb physical_state "DOWN"
    then ("radio_interface_down", "射频接口关闭", interface +:+ " changed to down", "warning")
    else if String.eqb previous_state "DOWN" then
      let is_bounce := match outage_ms with Some o => o <=? BOUNCE_MAX_MS | None => false end in
      (if is_bounce then "radio_interface_bounce" else "radio_interface_recovered",
       if is_bounce then "射频接口短暂中断" else "射频接口恢复",
       match outage_ms with
       | Some o => interface +:+ " 已恢复，中断 " +:+ duration_label (Some o)
       | None => interface +:+ " 已恢复"
       end,
       if default 0 outage_ms <? 1000 then "info" else "warning")
    else ("radio_interface_up", "射频接口开启", interface +:+ " changed to up", "info") in
  call_once
    (Entry ("radio-interface:" +:+ py_str (dget "id" event) +:+ ":" +:+ event_type) (field "run_id" event)
       event_type severity (field "train_id" event) (field "device_uuid" event) title message (field "event_time" event)
       (dmerge (source_details event)
          [("interface_name", PStr interface); ("physical_state", PStr physical_state);
           ("previous_state", PStr previous_state); ("outage_duration_ms", opt_int outage_ms)])) p.

(** [_rebuild_seen_event_ids]: every event is visible when nothing is rebuilt. *)
Definition event_is_visible (seen : option (list Z)) (event : dict) : bool :=
  match seen with Some ids => bool_decide (row_id event ∈ ids) | None => true end.

Definition correlate_nearby_cfgman (now : datetime) (seen : option (list Z)) (events : list dict) (event : dict)
    (p : projections) : projections :=
  foldl (λ p cfg,
           if negb (event_is_visible seen cfg) then p
           else if negb (String.eqb (casefold (field "cfg_command_source" cfg)) "snmp") then p
           else if truthy (dget "expected_internal_change" cfg) then p
           else correlate now cfg event p)
    p (find_control_events (field "device_uuid" event) "CFGMAN" (field "event_time" event) events).

(** The times of [transition_times] that lie at most a minute back. *)
Definition transitions_60s (event_time : datetime) (times : list string) : nat :=
  length (List.filter
    (λ v, match parse_time v with
          | Some t => instant event_time - instant t <=? FLAPPING_WINDOW_US
          | None => false
          end) times).

Definition project_ifnet (now : datetime) (seen : option (list Z)) (events : list dict) (event : dict)
    (p : projections) : projections :=
  let device_uuid := field "device_uuid" event in
  let interface := field "interface_name" event in
  let physical_state := upper (field "physical_state" event) in
  if negb (str_nonempty device_uuid) || negb (str_nonempty interface) || negb (str_mem physical_state ["UP"; "DOWN"]) then p
  else
    let event_time := event_datetime now event in
    let time := field "event_time" event in
    let current := default [] (get_radio_interface_state device_uuid interface p) in
    let previous_state := upper (py_str (por (dget "stable_state" current) (PStr "UNKNOWN"))) in
    if String.eqb previous_state physical_state
    then correlate_nearby_cfgman now seen events event (refresh_mr_summary event p)
    else
      let is_down := String.eqb physical_state "DOWN" in
      let times := recent_times (dget "transition_times" current) event_time SNMP_FLAPPING_WINDOW_US ++ [isoformat event_time] in
      let count := transitions_60s event_time times in
      let flapping := FLAPPING_TRANSITION_COUNT <=? Z.of_nat count in
      let old_down_since := field "down_since" current in
      let '(down_since, outage_ms) :=
        if is_down then (time, None)
        else if String.eqb previous_state "DOWN"
        then ("", (λ down_at, Z.max 0 (round_half_even (instant event_time - instant down_at) 1000)) <$> parse_time old_down_since)
        else (old_down_since, None) in
      let id := PInt (row_id event) in
      let '(saved, p) :=
        upsert_radio_interface_state
          (dmerge current
             [("device_uuid", PStr device_uuid); ("train_id", PStr (field "train_id" event));
              ("mr_role", PStr (field "mr_role" event)); ("interface_name", PStr interface);
              ("current_state", PStr (if flapping then "FLAPPING" else physical_state));
              ("stable_state", PStr physical_state); ("previous_state", PStr previous_state);
              ("last_changed_at", PStr time); ("down_since", PStr down_since);
              ("last_up_at", PStr (if is_down then field "last_up_at" current else time));
              ("last_down_at", PStr (if is_down then time else field "last_down_at" current));
              ("latest_outage_duration_ms", opt_int outage_ms);
              ("transition_count_5m", PInt (Z.of_nat (length times))); ("transition_times", PList (PStr <$> times));
              ("last_event_id", id);
              ("last_down_event_id", if is_down then id else dget "last_down_event_id" current);
              ("last_up_event_id", if is_down then dget "last_up_event_id" current else id)]) p in
      let p := emit_interface_event event saved outage_ms p in
      let p :=
        if flapping then
          let first := default "" (times !! (length times - count)%nat) in
          call_once
            (Entry ("radio-flapping:" +:+ device_uuid +:+ ":" +:+ interface +:+ ":" +:+ first) (field "run_id" event)
               "radio_interface_flapping" "warning" (field "train_id" event) device_uuid "射频接口频繁切换"
               (interface +:+ " 在 60 秒内发生 " +:+ pretty count +:+ " 次状态转换") time
               (dmerge (source_details event)
                  [("interface_name", PStr interface); ("transition_count", PInt (Z.of_nat count));
                   ("current_state", PStr physical_state); ("window_started_at", PStr first)])) p
        else p in
      correlate_nearby_cfgman now seen events event (refresh_mr_summary event p).

(** ** Configuration events *)
Definition project_cfgman (now : datetime) (seen : option (list Z)) (events : list dict) (event : dict)
    (p : projections) : projections :=
  let device_uuid := field "device_uuid" event in
  if negb (str_nonempty device_uuid) then p
  else
    let command_source := casefold (field "cfg_command_source" event) in
    let time := field "event_time" event in
    let snmp := String.eqb command_source "snmp" in
    let current :=
      dmerge (default [] (get_mr_runtime_state device_uuid p))
        [("device_uuid", PStr device_uuid); ("train_id", PStr (field "train_id" event));
         ("mr_role", PStr (field "mr_role" event)); ("last_cfg_event_at", PStr time);
         ("last_cfg_event_index", PStr (field "cfg_event_index" event)); ("last_command_source", PStr command_source);
         ("last_config_source", PStr (field "cfg_source" event));
         ("last_config_destination", PStr (field "cfg_destination" event)); ("last_cfg_event_id", PInt (row_id event))] in
    let current :=
      if snmp then dmerge current [("snmp_radio_control_state", PStr "RECENT_CHANGE"); ("last_snmp_control_at", PStr time)]
      else current in
    let p :=
      if snmp then
        call_once
          (Entry ("cfgman-snmp:" +:+ py_str (dget "id" event)) (field "run_id" event) "cfgman_snmp_change" "info"
             (field "train_id" event) device_uuid "检测到 SNMP 配置变更" (cfg_message event)
             (text_or_empty (por (dget "event_time" event) (dget "receive_time" event))) (source_details event)) p
      else p in
    let p := upsert_mr_runtime_state current p in
    if negb snmp || truthy (dget "expected_internal_change" event) then p
    else
      foldl (λ p ifnet,
               if negb (event_is_visible seen ifnet) then p
               else if negb (String.eqb (upper (field "interface_type" ifnet)) "RADIO") then p
               else correlate now event ifnet p)
        p (find_control_events device_uuid "IFNET" time events).

Definition project (now : datetime) (seen : option (list Z)) (events : list dict) (event : dict) (p : projections)
    : projections :=
  let family := upper (field "event_family" event) in
  if String.eqb family "CFGMAN" then project_cfgman now seen events event p
  else if String.eqb family "IFNET" && String.eqb (upper (field "interface_type" event)) "RADIO"
  then project_ifnet now seen events event p
  else p.

(** ** The service *)

(** A stored event without its counter of duplicates, the counter, the next
    identifier, the timeline and the projections. *)
Record control_state := ControlState {
  cs_events : list (dict * nat);
  cs_next_id : Z;
  cs_timeline : list entry;
  cs_projections : projections;
}.

(** The calls for the timeline are done in their order. *)
Definition settle (events : list (dict * nat)) (next : Z) (timeline : list entry) (p : projections) : control_state :=
  ControlState events next (foldl add_event_once timeline (pj_calls p))
    (Projections (pj_interfaces p) (pj_routers p) (pj_correlations p) [] (pj_fresh p)).

Definition control_event_fields : list string :=
  ["run_id"; "device_uuid"; "device_id"; "train_id"; "mr_role"; "event_type"; "device_time"; "receive_time"; "source_ip";
   "hostname"; "peer_name"; "peer_mac"; "previous_peer_name"; "previous_peer_mac"; "station"; "section"; "data_quality";
   "receive_delay_ms"; "clock_offset_ms"; "raw_file_id"; "raw_line_number"; "event_family"; "event_time";
   "event_time_source"; "dedup_key"; "interface_name"; "interface_type"; "physical_state"; "cfg_event_index";
   "cfg_command_source"; "cfg_source"; "cfg_destination"; "expected_internal_change"; "created_at"].

(** The stored row as it is read again; the details come back as they were. *)
Definition control_event_row (id : Z) (created_at : string) (values : dict) : dict :=
  let row := dset "expected_internal_change" (PBool (truthy (dget "expected_internal_change" values)))
               (dsetdefault "created_at" (PStr created_at) values) in
  ("id", PInt id) :: ((λ f, (f, dget_or f (PStr "") row)) <$> control_event_fields)
  ++ [("details", dget_or "details" (por (dget "details_json" values) (PDict [])) values)].

(** [record_control_syslog_event]: the stored row and whether it is new. *)
Definition record_control_syslog_event (created_at : string) (values : dict) (s : control_state)
    : res (dict * bool * control_state) :=
  let dedup_key := field "dedup_key" values in
  if negb (str_nonempty dedup_key) then Err ValueError
  else match List.find (λ r, String.eqb (field "dedup_key" r.1) dedup_key) (cs_events s) with
       | Some (row, _) =>
           Ok (row, false,
               ControlState ((λ r, if row_id r.1 =? row_id row then (r.1, S r.2) else r) <$> cs_events s)
                 (cs_next_id s) (cs_timeline s) (cs_projections s))
       | None =>
           let row := control_event_row (cs_next_id s) created_at values in
           Ok (row, true,
               ControlState (cs_events s ++ [(row, 0%nat)]) (cs_next_id s + 1) (cs_timeline s) (cs_projections s))
       end.

Definition process (now : datetime) (values : dict) (s : control_state) : res (dict * control_state) :=
  match record_control_syslog_event (isoformat now) values s with
  | Err e => Err e
  | Ok (saved, false, s) => Ok (saved, s)
  | Ok (saved, true, s) =>
      Ok (saved, settle (cs_events s) (cs_next_id s) (cs_timeline s)
                   (project now None (cs_events s).*1 saved (cs_projections s)))
  end.

(** [ORDER BY event_time, receive_time, id]. *)
Definition control_leb (a b : dict) : bool :=
  let key e := (field "event_time" e, field "receive_time" e) in
  if String.eqb (key a).1 (key b).1
  then if String.eqb (key a).2 (key b).2 then row_id a <=? row_id b else String.leb (key a).2 (key b).2
  else String.leb (key a).1 (key b).1.
Definition selected (device_uuid device : string) : bool :=
  negb (str_nonempty device_uuid) || String.eqb device device_uuid.
Definition control_event (device_uuid run_id : string) (e : dict) : bool :=
  str_mem (field "event_family" e) ["IFNET"; "CFGMAN"] && selected device_uuid (field "device_uuid" e)
  && selected run_id (field "run_id" e).
Definition list_control_events (device_uuid run_id : string) (events : list dict) : list dict :=
  sort_by control_leb (List.filter (control_event device_uuid run_id) events).

Definition clear_radio_projections (device_uuid : string) (p : projections) : projections :=
  Projections (List.filter (λ r, negb (selected device_uuid r.1.1)) (pj_interfaces p))
    (List.filter (λ r, negb (selected device_uuid r.1)) (pj_routers p))
    (List.filter (λ c, negb (selected device_uuid (co_device c))) (pj_correlations p)) (pj_calls p) (pj_fresh p).

Definition rebuild_step (now : datetime) (events : list dict) (st : list Z * projections) (event : dict) : list Z * projections :=
  let seen := row_id event :: st.1 in
  (seen, project now (Some seen) events event st.2).

Definition rebuild (now : datetime) (device_uuid run_id : string) (s : control_state) : nat * control_state :=
  let events := list_control_events device_uuid run_id (cs_events s).*1 in
  let '(_, p) := foldl (rebuild_step now (cs_events s).*1) ([], clear_radio_projections device_uuid (cs_projections s)) events in
  (length events, settle (cs_events s) (cs_next_id s) (cs_timeline s) p).
End control.

(** [control_event_dedup_key], with the hexadecimal digest of a text. *)
Definition control_event_dedup_key (digest : string → string)
    (device_uuid event_type device_time raw_text interface_name physical_state cfg_event_index cfg_command_source : string)
    : string :=
  let raw_hash := digest raw_text in
  digest (join (String "031"%char "")
    (if String.eqb (upper event_type) "CFGMAN_CFGCHANGED"
     then [device_uuid; event_type; cfg_event_index; device_time; casefold cfg_command_source;
           if str_nonempty cfg_event_index then "" else raw_hash]
     else [device_uuid; event_type; casefold interface_name; upper physical_state; device_time; raw_hash])).

(** ** What a rebuild sees and makes *)

(** The rows of the selected devices; the identifiers of correlations are left out. *)
Definition strip_id (c : correlation) : string * Z * Z * dict := (co_device c, co_cfg c, co_ifnet c, co_row c).
Definition view (sel : string → bool) (p : projections)
    : list (string * string * dict) * list (string * dict) * list (string * Z * Z * dict) :=
  (List.filter (λ r, sel r.1.1) (pj_interfaces p), List.filter (λ r, sel r.1) (pj_routers p),
   strip_id <$> List.filter (λ c, sel (co_device c)) (pj_correlations p)).

Lemma foldl_filter {A B} (f : B → bool) (g : A → B → A) a l :
  foldl (λ a x, if negb (f x) then a else g a x) a l = foldl g a (List.filter f l).
Proof. revert a. induction l as [|x l IH]; intros a; simpl; [done|]. destruct (f x); apply IH. Qed.

Section alike.
(** The selection, the device of an event's identifier, the keys of earlier calls. *)
Context (sel : string → bool) (dev : Z → string).

(** A row of the interfaces holds its key; a correlation belongs to the device of
    its interface event. *)
Definition row_ok (device interface : string) (row : dict) : Prop :=
  NoDup row.*1 ∧ dget "device_uuid" row = PStr device ∧ dget "interface_name" row = PStr interface.
Definition owned (p : projections) : Prop :=
  Forall (λ r, row_ok r.1.1 r.1.2 r.2) (pj_interfaces p) ∧
  Forall (λ c, co_device c = dev (co_ifnet c)) (pj_correlations p).

Lemma row_ok_dmerge device interface a b :
  NoDup a.*1 → row_ok device interface b → row_ok device interface (dmerge a b).
Proof.
  intros Ha (Hb & H1%dget_alookup & H2%dget_alookup).
  split_and!; [by apply dmerge_NoDup|rewrite dget_dmerge by done; by rewrite ?H1, ?H2..].
Qed.

(** An update that leaves the key of the row. *)
Lemma row_ok_update device interface a b :
  row_ok device interface a → NoDup b.*1 → alookup "device_uuid" b = None → alookup "interface_name" b = None →
  row_ok device interface (dmerge a b).
Proof.
  intros (Ha & H1 & H2) Hb N1 N2.
  split_and!; [by apply dmerge_NoDup|rewrite dget_dmerge by done; by rewrite ?N1, ?N2..].
Qed.

Lemma owned_lookup p device interface row :
  owned p → get_radio_interface_state device interface p = Some row → row_ok device interface row.
Proof.
  intros [Hr _] H%alookup_Some_in. by apply (proj1 (Forall_forall _ _) Hr _ H).
Qed.

Lemma owned_nodup p device interface :
  owned p → NoDup (default [] (get_radio_interface_state device interface p)).*1.
Proof.
  intros Ho. destruct (get_radio_interface_state device interface p) as [row|] eqn:E; simpl; [|constructor].
  by apply (owned_lookup _ _ _ _ Ho E).
Qed.

Lemma owned_upsert p device interface v :
  row_ok device interface v → owned p → owned (upsert_radio_interface_state v p).2.
Proof.
  intros Hv Ho. destruct (Hv) as (_ & H1 & H2). split; [|apply Ho]. simpl. apply ainsert_Forall; [|apply Ho].
  rewrite H1, H2. simpl. apply row_ok_dmerge; [|done]. by apply (owned_nodup p device interface).
Qed.

(** The same rows, the same calls since the earlier ones. *)
Record alike (a b : list string) (p q : projections) : Prop := Alike {
  al_view : view sel p = view sel q;
  al_owned : owned p ∧ owned q;
  al_keys : ∃ ks, en_key <$> pj_calls p = a ++ ks ∧ en_key <$> pj_calls q = b ++ ks;
}.
(** The rows of the selected devices are left alone. *)
Definition frame (p q : projections) : Prop := view sel q = view sel p ∧ owned q.

Lemma view_interface p q device interface :
  sel device = true → view sel p = view sel q →
  get_radio_interface_state device interface p = get_radio_interface_state device interface q.
Proof.
  intros Hd Hv. injection Hv as Hi _ _. unfold get_radio_interface_state.
  rewrite <- (alookup_filter_key (λ k, sel k.1) (device, interface) (pj_interfaces p)) by done.
  rewrite Hi. by apply (alookup_filter_key (λ k, sel k.1)).
Qed.

Lemma alike_interface a b p q device interface :
  sel device = true → alike a b p q →
  get_radio_interface_state device interface p = get_radio_interface_state device interface q.
Proof. intros Hd H. by apply view_interface, (al_view _ _ _ _ H). Qed.

Lemma filter_within {A} (f g : A → bool) (l : list A) :
  (∀ x, f x = true → g x = true) → List.filter f (List.filter g l) = List.filter f l.
Proof.
  intros H. induction l as [|x l IH]; simpl; [done|]. destruct (g x) eqn:E; simpl; rewrite IH; [done|].
  destruct (f x) eqn:F; [|done]. rewrite H in E; done.
Qed.

Lemma alike_interfaces a b p q device :
  sel device = true → alike a b p q → list_radio_interface_states device p = list_radio_interface_states device q.
Proof.
  intros Hd [Hv _ _]. injection Hv as Hi _ _. unfold list_radio_interface_states. f_equal.
  assert (∀ r : string * string * dict, String.eqb r.1.1 device = true → sel r.1.1 = true) as H.
  { intros r ->%String.eqb_eq. done. }
  rewrite <- (filter_within _ _ (pj_interfaces p) H), Hi. by apply filter_within.
Qed.

Lemma view_router p q device :
  sel device = true → view sel p = view sel q → get_mr_runtime_state device p = get_mr_runtime_state device q.
Proof.
  intros Hd Hv. injection Hv as _ Hr _. unfold get_mr_runtime_state.
  rewrite <- (alookup_filter_key sel device (pj_routers p)) by done.
  rewrite Hr. by apply (alookup_filter_key sel).
Qed.

Lemma alike_router a b p q device :
  sel device = true → alike a b p q → get_mr_runtime_state device p = get_mr_runtime_state device q.
Proof. intros Hd H. by apply view_router, (al_view _ _ _ _ H). Qed.

Lemma view_correlations p q device :
  sel device = true → view sel p = view sel q →
  strip_id <$> List.filter (λ c, String.eqb (co_device c) device) (pj_correlations p) =
  strip_id <$> List.filter (λ c, String.eqb (co_device c) device) (pj_correlations q).
Proof.
  intros Hd Hv. injection Hv as _ _ Hc.
  assert (∀ l, strip_id <$> List.filter (λ c, String.eqb (co_device c) device) l =
    List.filter (λ c : string * Z * Z * dict, String.eqb c.1.1.1 device)
      (strip_id <$> List.filter (λ c, sel (co_device c)) l)) as H.
  { intros l. induction l as [|c l IH]; [done|]. simpl. destruct (String.eqb (co_device c) device) eqn:E.
    - rewrite (proj1 (String.eqb_eq _ _) E), Hd. simpl. rewrite E. simpl. by f_equal.
    - destruct (sel (co_device c)); simpl; [|done]. by rewrite E. }
  by rewrite !H, Hc.
Qed.

Lemma alike_upsert_interface a b p q device interface v :
  sel device = true → row_ok device interface v → alike a b p q →
  (upsert_radio_interface_state v p).1 = (upsert_radio_interface_state v q).1 ∧
  alike a b (upsert_radio_interface_state v p).2 (upsert_radio_interface_state v q).2.
Proof.
  intros Hd Hr0 H. pose proof (alike_interface _ _ _ _ _ interface Hd H) as E. destruct (H) as [Hv [Hp Hq] Hk].
  pose proof (owned_upsert p _ _ _ Hr0 Hp) as Op. pose proof (owned_upsert q _ _ _ Hr0 Hq) as Oq.
  destruct Hr0 as (_ & H1 & H2). revert Op Oq. unfold upsert_radio_interface_state, get_radio_interface_state in *.
  rewrite H1, H2. simpl. rewrite E. intros Op Oq. split; [done|]. split; [|done..]. injection Hv as Hi Hr Hc. unfold view. simpl.
  by rewrite !(ainsert_filter_key (λ k, sel k.1)), Hi, Hr, Hc.
Qed.

Lemma frame_upsert_interface p0 p device interface v :
  sel device = false → row_ok device interface v → frame p0 p → frame p0 (upsert_radio_interface_state v p).2.
Proof.
  intros Hd Hr [Hv Ho]. split; [|by eapply owned_upsert]. rewrite <- Hv. unfold view. simpl.
  rewrite (ainsert_filter_key (λ k, sel k.1)). simpl. destruct Hr as (_ & -> & _). simpl. by rewrite Hd.
Qed.

Lemma alike_upsert_router a b p q v :
  sel (py_str (dget "device_uuid" v)) = true → alike a b p q →
  alike a b (upsert_mr_runtime_state v p) (upsert_mr_runtime_state v q).
Proof.
  intros Hd H. pose proof (alike_router _ _ _ _ _ Hd H) as E. unfold get_mr_runtime_state in E.
  unfold upsert_mr_runtime_state. rewrite E. destruct H as [Hv Ho Hk]. split; [|done..].
  injection Hv as Hi Hr Hc. unfold view. simpl. by rewrite !(ainsert_filter_key sel), Hi, Hr, Hc.
Qed.

Lemma frame_upsert_router p0 p v :
  sel (py_str (dget "device_uuid" v)) = false → frame p0 p → frame p0 (upsert_mr_runtime_state v p).
Proof.
  intros Hd [Hv Ho]. split; [|done]. rewrite <- Hv. unfold view. simpl.
  rewrite (ainsert_filter_key sel). by rewrite Hd.
Qed.

Lemma alike_call a b p q e e' :
  en_key e = en_key e' → alike a b p q → alike a b (call_once e p) (call_once e' q).
Proof.
  intros He [Hv Ho (ks & H1 & H2)]. split; [done..|]. exists (ks ++ [en_key e]). simpl.
  rewrite !fmap_app, H1, H2, <- !app_assoc. simpl. by rewrite He.
Qed.

Lemma frame_call p0 p e : frame p0 p → frame p0 (call_once e p).
Proof. done. Qed.

Lemma find_owned p cfg ifnet :
  owned p → sel (dev ifnet) = true →
  strip_id <$> List.find (λ c, (co_cfg c =? cfg) && (co_ifnet c =? ifnet)) (pj_correlations p) =
  List.find (λ c : string * Z * Z * dict, (c.1.1.2 =? cfg) && (c.1.2 =? ifnet))
    (strip_id <$> List.filter (λ c, sel (co_device c)) (pj_correlations p)).
Proof.
  intros [_ Ho] Hd. induction Ho as [|c l Hc Ho IH]; simpl; [done|].
  destruct (sel (co_device c)) eqn:Es; simpl.
  - by destruct ((co_cfg c =? cfg) && (co_ifnet c =? ifnet)).
  - destruct (co_ifnet c =? ifnet) eqn:Ei; [|by rewrite andb_false_r]. bool_to_prop. congruence.
Qed.

Lemma alike_correlation a b p q uuid device cfg ifnet row :
  sel device = true → device = dev ifnet → alike a b p q →
  (insert_radio_correlation uuid device cfg ifnet row p).1.2 =
    (insert_radio_correlation uuid device cfg ifnet row q).1.2 ∧
  alike a b (insert_radio_correlation uuid device cfg ifnet row p).2
    (insert_radio_correlation uuid device cfg ifnet row q).2.
Proof.
  intros Hd -> [Hv [Hp Hq] Hk]. pose proof (find_owned p cfg ifnet Hp Hd) as E1.
  pose proof (find_owned q cfg ifnet Hq Hd) as E2. injection Hv as Hi Hr Hc.
  rewrite Hc, <- E2 in E1. unfold insert_radio_correlation.
  destruct (List.find _ (pj_correlations p)), (List.find _ (pj_correlations q)); try done; simpl.
  - split; [done|]. split; [|done..]. unfold view. simpl. by rewrite Hi, Hr, Hc.
  - split; [done|]. split; [| |done].
    + unfold view. simpl. rewrite Hi, Hr, !List.filter_app, !fmap_app, Hc. simpl. by rewrite Hd.
    + destruct Hp, Hq. split; (split; [done|]); apply Forall_app; auto.
Qed.

Lemma frame_correlation p0 p uuid device cfg ifnet row :
  sel device = false → device = dev ifnet → frame p0 p →
  frame p0 (insert_radio_correlation uuid device cfg ifnet row p).2.
Proof.
  intros Hd -> [Hv Ho]. unfold insert_radio_correlation. destruct (List.find _ _); [done|]. split.
  - rewrite <- Hv. unfold view. simpl. rewrite List.filter_app. simpl. by rewrite Hd, app_nil_r.
  - destruct Ho. split; [done|]. apply Forall_app. auto.
Qed.
End alike.

#[local] Transparent dget.
Ltac keys_nodup := apply (bool_decide_unpack _); vm_compute; exact I.

Section control_facts.
Context {datetime : Type} (parse_time : string → option datetime) (isoformat : datetime → string)
  (instant : datetime → Z) (distance : string → string → option Z) (uuid : nat → string).
Context (sel : string → bool) (dev : Z → string).

(** An event has a readable time. *)
Definition readable (e : dict) : Prop :=
  is_Some (parse_time (field "event_time" e)) ∨ is_Some (parse_time (field "receive_time" e)).

Lemma event_datetime_readable now now' e :
  readable e → event_datetime parse_time now e = event_datetime parse_time now' e.
Proof.
  unfold event_datetime. intros [[t ->]|[t Ht]]; [done|]. destruct (parse_time _); [done|]. by rewrite Ht.
Qed.

Lemma dget_update k v a b : NoDup b.*1 → alookup k b = Some v → dget k (dmerge a b) = v.
Proof. intros Hb H. by rewrite dget_dmerge, H. Qed.

Lemma dget_keep k a b : NoDup b.*1 → alookup k b = None → dget k (dmerge a b) = dget k a.
Proof. intros Hb H. by rewrite dget_dmerge, H. Qed.

Lemma alike_refresh a b p q e :
  sel (field "device_uuid" e) = true → alike sel dev a b p q →
  alike sel dev a b (refresh_mr_summary e p) (refresh_mr_summary e q).
Proof.
  intros Hd H. unfold refresh_mr_summary.
  rewrite (alike_interfaces _ _ _ _ _ _ _ Hd H), (alike_router _ _ _ _ _ _ _ Hd H).
  apply alike_upsert_router; [|done]. by rewrite (dget_update _ (PStr (field "device_uuid" e))); [|keys_nodup|].
Qed.

Lemma frame_refresh p0 p e :
  sel (field "device_uuid" e) = false → frame sel dev p0 p → frame sel dev p0 (refresh_mr_summary e p).
Proof.
  intros Hd. apply frame_upsert_router. by rewrite (dget_update _ (PStr (field "device_uuid" e))); [|keys_nodup|].
Qed.

(** The device of an event of the table. *)
Definition placed (e : dict) : Prop := field "device_uuid" e = dev (row_id e).

(** The state that [correlate] starts from has the key of the interface. *)
Lemma initial_state_ok p device interface train role :
  owned dev p →
  row_ok device interface
    (match get_radio_interface_state device interface p with
     | Some (kv :: row) => kv :: row
     | _ => [("device_uuid", PStr device); ("train_id", train); ("mr_role", role); ("interface_name", PStr interface)]
     end).
Proof.
  intros Ho. destruct (get_radio_interface_state device interface p) as [[|kv row]|] eqn:E; [| |];
    try (by apply (owned_lookup _ _ _ _ _ Ho E)); (split_and!; [keys_nodup|done..]).
Qed.
#[local] Notation applying := (apply_correlation parse_time isoformat instant).
#[local] Notation correlating := (correlate parse_time isoformat instant uuid).

Lemma alike_apply a b p q ifnet_time delta confidence id id' cfg e :
  sel (field "device_uuid" e) = true → alike sel dev a b p q →
  alike sel dev a b (applying ifnet_time delta confidence id cfg e p) (applying ifnet_time delta confidence id' cfg e q).
Proof.
  intros Hd Hi. unfold apply_correlation.
  rewrite (alike_interface _ _ _ _ _ _ _ (field "interface_name" e) Hd Hi).
  pose proof (initial_state_ok q (field "device_uuid" e) (field "interface_name" e)
    (PStr (field "train_id" e)) (PStr (field "mr_role" e)) (proj2 (al_owned _ _ _ _ _ _ Hi))) as Hs.
  match type of Hs with row_ok _ _ ?x => set (st := x) in Hs |- * end.
  match goal with |- context [upsert_radio_interface_state (dmerge st ?l) p] =>
    assert (row_ok (field "device_uuid" e) (field "interface_name" e) (dmerge st l)) as Hok
      by (apply row_ok_update; [exact Hs|keys_nodup|done..]);
    destruct (alike_upsert_interface _ _ _ _ _ _ _ _ _ Hd Hok Hi) as [Hu Hi2];
    destruct (upsert_radio_interface_state (dmerge st l) p) as [saved p2];
    destruct (upsert_radio_interface_state (dmerge st l) q) as [saved2 q2] end.
  simpl in Hu, Hi2. subst saved2. destruct (snmp_event e saved) as [[[ty title] message] outage].
  cbv zeta. apply alike_refresh; [done|].
  match goal with |- alike _ _ _ _ (upsert_mr_runtime_state (dmerge (default [] (get_mr_runtime_state _ ?p')) _) _)
      (upsert_mr_runtime_state (dmerge (default [] (get_mr_runtime_state _ ?q')) _) _) =>
    assert (alike sel dev a b p' q') as Hi3 end.
  { destruct (bool_decide (SNMP_FLAPPING_TRANSITION_COUNT <= _)%nat); repeat apply alike_call; done. }
  rewrite (alike_router _ _ _ _ _ _ _ Hd Hi3). apply alike_upsert_router; [|done].
  by rewrite (dget_update _ (PStr (field "device_uuid" e))); [|keys_nodup|].
Qed.

Lemma frame_apply p0 p ifnet_time delta confidence id cfg e :
  sel (field "device_uuid" e) = false → frame sel dev p0 p →
  frame sel dev p0 (applying ifnet_time delta confidence id cfg e p).
Proof.
  intros Hd Hi. unfold apply_correlation.
  pose proof (initial_state_ok p (field "device_uuid" e) (field "interface_name" e)
    (PStr (field "train_id" e)) (PStr (field "mr_role" e)) (proj2 Hi)) as Hs.
  match type of Hs with row_ok _ _ ?x => set (st := x) in Hs |- * end.
  match goal with |- context [upsert_radio_interface_state (dmerge st ?l) p] =>
    assert (row_ok (field "device_uuid" e) (field "interface_name" e) (dmerge st l)) as Hok
      by (apply row_ok_update; [exact Hs|keys_nodup|done..]);
    pose proof (frame_upsert_interface _ _ _ _ _ _ _ Hd Hok Hi) as Hi2;
    destruct (upsert_radio_interface_state (dmerge st l) p) as [saved p2] end.
  simpl in Hi2. destruct (snmp_event e saved) as [[[ty title] message] outage].
  cbv zeta. apply frame_refresh; [done|]. apply frame_upsert_router.
  - by rewrite (dget_update _ (PStr (field "device_uuid" e))); [|keys_nodup|].
  - destruct (bool_decide (SNMP_FLAPPING_TRANSITION_COUNT <= _)%nat); repeat apply frame_call; done.
Qed.

Lemma alike_correlate a b p q now now' cfg e :
  sel (field "device_uuid" e) = true → placed e → readable cfg → readable e → alike sel dev a b p q →
  alike sel dev a b (correlating now cfg e p) (correlating now' cfg e q).
Proof.
  intros Hd He Hc Hr H. unfold correlate.
  rewrite (event_datetime_readable now now' cfg), (event_datetime_readable now now' e) by done.
  destruct (_ <? _); [done|].
  match goal with |- context [insert_radio_correlation uuid ?d ?i ?j ?row p] =>
    pose proof (alike_correlation _ _ _ _ _ _ uuid d i j row Hd He H) as Hi;
    destruct (insert_radio_correlation uuid d i j row p) as [[c1 new] p1];
    destruct (insert_radio_correlation uuid d i j row q) as [[c2 new2] q1] end.
  simpl in Hi. destruct Hi as [<- Hi]. destruct new; [|done]. by apply alike_apply.
Qed.

Lemma frame_correlate p0 p now cfg e :
  sel (field "device_uuid" e) = false → placed e → frame sel dev p0 p → frame sel dev p0 (correlating now cfg e p).
Proof.
  intros Hd He H. unfold correlate. destruct (_ <? _); [done|].
  match goal with |- context [insert_radio_correlation uuid ?d ?i ?j ?row p] =>
    pose proof (frame_correlation _ _ _ _ uuid d i j row Hd He H) as Hi;
    destruct (insert_radio_correlation uuid d i j row p) as [[c1 new] p1] end.
  destruct new; [|done]. by apply frame_apply.
Qed.

(** *** The searches *)
#[local] Notation finding := (find_control_events distance).

Lemma near_total t x y : near_leb distance t x y = true ∨ near_leb distance t y x = true.
Proof.
  unfold near_leb. rewrite (Z.eqb_sym (default 0 (distance (field "event_time" y) t))).
  destruct (_ =? _) eqn:E; bool_to_prop; rewrite ?Z.leb_le, ?Z.ltb_lt; lia.
Qed.

Lemma near_trans t x y z :
  near_leb distance t x y = true → near_leb distance t y z = true → near_leb distance t x z = true.
Proof.
  unfold near_leb. intros H1 H2.
  repeat match goal with |- context [?u =? ?v] => destruct (Z.eqb_spec u v)
    | H : context [?u =? ?v] |- _ => destruct (Z.eqb_spec u v) end; rewrite ?Z.leb_le, ?Z.ltb_lt in *; lia.
Qed.

Lemma find_in device family t events x :
  x ∈ finding device family t events →
  x ∈ events ∧ field "device_uuid" x = device ∧ field "event_family" x = family.
Proof.
  unfold find_control_events. rewrite sort_by_in, list_elem_of_In, filter_In. intros [H1 H2]. bool_to_prop.
  split; [by apply list_elem_of_In|done].
Qed.

Lemma find_visible seen device family t E rest :
  (∀ x, x ∈ E → field "device_uuid" x = device → field "event_family" x = family → event_is_visible seen x = true) →
  (∀ x, x ∈ rest → event_is_visible seen x = false) →
  List.filter (event_is_visible seen) (finding device family t (E ++ rest)) = finding device family t E.
Proof.
  intros H1 H2. unfold find_control_events. rewrite sort_by_filter by (apply near_total || apply near_trans).
  f_equal. rewrite List.filter_app, List.filter_app. etrans; [|apply app_nil_r]. f_equal.
  - induction E as [|x E IH]; simpl; [done|]. destruct (_ && _ && _ && _) eqn:F; simpl;
      [rewrite H1|]; rewrite ?IH; try done; try (by intros; apply H1; [right|..]); try by left.
    all: repeat match goal with H : context [_ && _] |- _ => apply andb_true_iff in H as [H ?] end; by apply String.eqb_eq.
  - induction rest as [|x rest IH]; simpl; [done|]. destruct (_ && _ && _ && _); simpl;
      rewrite ?H2 by left; apply IH; intros; apply H2; by right.
Qed.

Lemma alike_fold {B} a b (f g : projections → B → projections) l p q :
  (∀ x p q, x ∈ l → alike sel dev a b p q → alike sel dev a b (f p x) (g q x)) →
  alike sel dev a b p q → alike sel dev a b (foldl f p l) (foldl g q l).
Proof.
  revert p q. induction l as [|x l IH]; intros p q H Hp; simpl; [done|].
  apply IH; [intros; apply H; [by right|done]|]. apply H; [left|done].
Qed.

Lemma frame_fold {B} p0 (f : projections → B → projections) l p :
  (∀ x p, x ∈ l → frame sel dev p0 p → frame sel dev p0 (f p x)) →
  frame sel dev p0 p → frame sel dev p0 (foldl f p l).
Proof.
  revert p. induction l as [|x l IH]; intros p H Hp; simpl; [done|].
  apply IH; [intros; apply H; [by right|done]|]. apply H; [left|done].
Qed.

(** *** One event *)
#[local] Notation nearby := (correlate_nearby_cfgman parse_time isoformat instant distance uuid).
#[local] Notation projecting := (project parse_time isoformat instant distance uuid).

Section one_event.
(** The events so far and those to come; what a rebuild has seen. *)
Context (E rest : list dict) (seen : list Z).
Context (HE : ∀ x, x ∈ E → placed x ∧ readable x).
Context (Hseen : ∀ x, x ∈ E → sel (field "device_uuid" x) = true →
  field "event_family" x = "IFNET" ∨ field "event_family" x = "CFGMAN" → row_id x ∈ seen).
Context (Hrest : ∀ x, x ∈ rest → row_id x ∉ seen).

Lemma visible_part device family t :
  sel device = true → family = "IFNET" ∨ family = "CFGMAN" →
  List.filter (event_is_visible (Some seen)) (finding device family t (E ++ rest)) =
  List.filter (event_is_visible None) (finding device family t E).
Proof using Hseen Hrest.
  intros Hd Hf. etrans; [apply find_visible|symmetry; apply List.forallb_filter_id, forallb_forall; done].
  - intros x Hx <- <-. simpl. apply bool_decide_eq_true_2. by apply Hseen.
  - intros x Hx. simpl. apply bool_decide_eq_false_2. by apply Hrest.
Qed.

Lemma alike_nearby a b p q now now' e :
  e ∈ E → sel (field "device_uuid" e) = true → alike sel dev a b p q →
  alike sel dev a b (nearby now None E e p) (nearby now' (Some seen) (E ++ rest) e q).
Proof using HE Hseen Hrest.
  intros He Hd H. unfold correlate_nearby_cfgman. rewrite !foldl_filter, visible_part by auto.
  apply alike_fold; [|done]. intros x p' q' Hx Hp. apply list_elem_of_In, filter_In in Hx as [Hx _].
  apply filter_In in Hx as [Hx _].
  apply list_elem_of_In, find_in in Hx as (Hx & _ & _). destruct (truthy _); [done|].
  destruct (HE x Hx), (HE e He). by apply alike_correlate.
Qed.

Lemma frame_nearby p0 p now vis T e :
  placed e → sel (field "device_uuid" e) = false → frame sel dev p0 p → frame sel dev p0 (nearby now vis T e p).
Proof using Type.
  intros He Hd H. unfold correlate_nearby_cfgman. apply frame_fold; [|done]. intros x p' _ Hp. simpl.
  do 2 (destruct (negb _); [done|]). destruct (truthy _); [done|]. by apply frame_correlate.
Qed.

#[local] Notation cfgman := (project_cfgman parse_time isoformat instant distance uuid).
#[local] Notation ifnet := (project_ifnet parse_time isoformat instant distance uuid).

Lemma found_here vis T family device time x :
  x ∈ List.filter (event_is_visible vis) (finding device family time T) → x ∈ T ∧ field "device_uuid" x = device.
Proof using Type.
  intros H%list_elem_of_In. apply filter_In in H as [H _]. apply list_elem_of_In, find_in in H. tauto.
Qed.

Lemma alike_cfgman a b p q now now' e :
  e ∈ E → sel (field "device_uuid" e) = true → alike sel dev a b p q →
  alike sel dev a b (cfgman now None E e p) (cfgman now' (Some seen) (E ++ rest) e q).
Proof using HE Hseen Hrest.
  intros He Hd H. unfold project_cfgman. destruct (negb (str_nonempty _)); [done|].
  rewrite (alike_router _ _ _ _ _ _ _ Hd H). cbv zeta. rewrite !(foldl_filter (event_is_visible _)), visible_part by auto.
  match goal with |- alike _ _ _ _ (if ?c then ?x else _) (if _ then ?y else _) => assert (alike sel dev a b x y) as H2 end.
  { apply alike_upsert_router.
    - destruct (String.eqb (casefold _) "snmp"); [rewrite (dget_keep "device_uuid"); [|keys_nodup|done]|];
        by rewrite (dget_update _ (PStr (field "device_uuid" e))); [|keys_nodup|].
    - destruct (String.eqb (casefold _) "snmp"); [by apply alike_call|done]. }
  destruct (_ || _); [done|]. apply alike_fold; [|done]. intros x p' q' Hx Hp. destruct (negb _); [done|].
  apply found_here in Hx as [Hx Hdx]. destruct (HE x Hx), (HE e He). apply alike_correlate; try done. by rewrite Hdx.
Qed.

Lemma frame_cfgman p0 p now vis T e :
  (∀ x, x ∈ T → placed x) → sel (field "device_uuid" e) = false → frame sel dev p0 p →
  frame sel dev p0 (cfgman now vis T e p).
Proof using Type.
  intros HT Hd H. unfold project_cfgman. destruct (negb (str_nonempty _)); [done|]. cbv zeta.
  rewrite !(foldl_filter (event_is_visible _)).
  match goal with |- frame _ _ _ (if ?c then ?x else _) => assert (frame sel dev p0 x) as H2 end.
  { apply frame_upsert_router.
    - destruct (String.eqb (casefold _) "snmp"); [rewrite (dget_keep "device_uuid"); [|keys_nodup|done]|];
        by rewrite (dget_update _ (PStr (field "device_uuid" e))); [|keys_nodup|].
    - destruct (String.eqb (casefold _) "snmp"); [by apply frame_call|done]. }
  destruct (_ || _); [done|]. apply frame_fold; [|done]. intros x p' Hx Hp. destruct (negb _); [done|].
  apply found_here in Hx as [Hx Hdx]. apply frame_correlate; [by rewrite Hdx|by apply HT|done].
Qed.

Lemma emit_same a b p q e state outage :
  alike sel dev a b p q → alike sel dev a b (emit_interface_event e state outage p) (emit_interface_event e state outage q).
Proof using Type. intros H. unfold emit_interface_event. destruct (String.eqb _ _); [|destruct (String.eqb _ _)]; by apply alike_call. Qed.

Lemma emit_frame p0 p e state outage :
  frame sel dev p0 p → frame sel dev p0 (emit_interface_event e state outage p).
Proof using Type. intros H. unfold emit_interface_event. destruct (String.eqb _ _); [|destruct (String.eqb _ _)]; by apply frame_call. Qed.

Lemma alike_ifnet a b p q now now' e :
  e ∈ E → sel (field "device_uuid" e) = true → alike sel dev a b p q →
  alike sel dev a b (ifnet now None E e p) (ifnet now' (Some seen) (E ++ rest) e q).
Proof using HE Hseen Hrest.
  intros He Hd H. unfold project_ifnet. destruct (_ || _ || _); [done|].
  rewrite (event_datetime_readable now now' e) by by apply HE.
  pose proof (owned_nodup _ p (field "device_uuid" e) (field "interface_name" e) (proj1 (al_owned _ _ _ _ _ _ H))) as Hn.
  rewrite (alike_interface _ _ _ _ _ _ _ (field "interface_name" e) Hd H) in Hn |- *.
  set (current := default [] _) in *. clearbody current. cbv zeta.
  destruct (String.eqb _ (upper _)); [by apply alike_nearby, alike_refresh|].
  destruct (if String.eqb (upper _) "DOWN" then _ else _) as [down_since outage].
  match goal with |- context [upsert_radio_interface_state (dmerge current ?l) p] =>
    assert (row_ok (field "device_uuid" e) (field "interface_name" e) (dmerge current l)) as Hok
      by (apply row_ok_dmerge; [exact Hn|split_and!; [keys_nodup|done..]]);
    destruct (alike_upsert_interface _ _ _ _ _ _ _ _ _ Hd Hok H) as [Hu Hi2];
    destruct (upsert_radio_interface_state (dmerge current l) p) as [saved p2];
    destruct (upsert_radio_interface_state (dmerge current l) q) as [saved2 q2] end.
  simpl in Hu, Hi2. subst saved2. apply alike_nearby; [done..|]. apply alike_refresh; [done|].
  destruct (FLAPPING_TRANSITION_COUNT <=? _); [apply alike_call; [done|]|]; by apply emit_same.
Qed.

Lemma frame_ifnet p0 p now vis T e :
  placed e → sel (field "device_uuid" e) = false → frame sel dev p0 p → frame sel dev p0 (ifnet now vis T e p).
Proof using Type.
  intros He Hd H. unfold project_ifnet. destruct (_ || _ || _); [done|].
  pose proof (owned_nodup _ p (field "device_uuid" e) (field "interface_name" e) (proj2 H)) as Hn.
  set (current := default [] _) in *. clearbody current. cbv zeta.
  destruct (String.eqb _ (upper _)); [by apply frame_nearby, frame_refresh|].
  destruct (if String.eqb (upper _) "DOWN" then _ else _) as [down_since outage].
  match goal with |- context [upsert_radio_interface_state (dmerge current ?l) p] =>
    assert (row_ok (field "device_uuid" e) (field "interface_name" e) (dmerge current l)) as Hok
      by (apply row_ok_dmerge; [exact Hn|split_and!; [keys_nodup|done..]]);
    pose proof (frame_upsert_interface _ _ _ _ _ _ _ Hd Hok H) as Hi2;
    destruct (upsert_radio_interface_state (dmerge current l) p) as [saved p2] end.
  simpl in Hi2. apply frame_nearby; [done..|]. apply frame_refresh; [done|].
  destruct (FLAPPING_TRANSITION_COUNT <=? _); [apply frame_call|]; by apply emit_frame.
Qed.

Lemma alike_project a b p q now now' e :
  e ∈ E → sel (field "device_uuid" e) = true → alike sel dev a b p q →
  alike sel dev a b (projecting now None E e p) (projecting now' (Some seen) (E ++ rest) e q).
Proof using HE Hseen Hrest.
  intros He Hd H. unfold project. destruct (String.eqb _ "CFGMAN"); [by apply alike_cfgman|].
  destruct (_ && _); [by apply alike_ifnet|done].
Qed.

Lemma frame_project p0 p now vis T e :
  (∀ x, x ∈ T → placed x) → e ∈ T → sel (field "device_uuid" e) = false → frame sel dev p0 p →
  frame sel dev p0 (projecting now vis T e p).
Proof using Type.
  intros HT He Hd H. unfold project. destruct (String.eqb _ "CFGMAN"); [by apply frame_cfgman|].
  destruct (_ && _); [apply frame_ifnet; auto|done].
Qed.
End one_event.
End control_facts.

Lemma timeline_keys l timeline k :
  k ∈ en_key <$> foldl add_event_once timeline l ↔ k ∈ en_key <$> timeline ∨ k ∈ en_key <$> l.
Proof.
  revert timeline. induction l as [|e l IH]; intros timeline; [set_solver|]. simpl. rewrite IH. unfold add_event_once.
  destruct (existsb _ timeline) eqn:E; [|rewrite fmap_app; set_solver].
  apply existsb_exists in E as (x & Hx & E%String.eqb_eq). apply list_elem_of_In in Hx.
  assert (en_key e ∈ en_key <$> timeline) by (rewrite <- E; by apply list_elem_of_fmap_2). set_solver.
Qed.

(** Calls whose keys are there change nothing. *)
Lemma timeline_settled l timeline : en_key <$> l ⊆ en_key <$> timeline → foldl add_event_once timeline l = timeline.
Proof.
  induction l as [|e l IH]; intros H; [done|]. simpl. unfold add_event_once at 2.
  assert (existsb (λ x, String.eqb (en_key x) (en_key e)) timeline = true) as ->; [|apply IH; set_solver].
  assert (en_key e ∈ en_key <$> timeline) as (x & Hx & Hin)%list_elem_of_fmap by set_solver.
  apply existsb_exists. exists x. split; [by apply list_elem_of_In|]. rewrite Hx. apply String.eqb_refl.
Qed.

Lemma image_inj {A B} (f : A → B) (l : list A) x y : NoDup (f <$> l) → x ∈ l → y ∈ l → f x = f y → x = y.
Proof.
  induction l as [|z l IH]; intros Hn Hx Hy E; [by apply not_elem_of_nil in Hx|].
  apply NoDup_cons in Hn as [Hz Hn].
  apply elem_of_cons in Hx as [->|Hx], Hy as [->|Hy]; [done| | |by apply IH]; destruct Hz.
  - rewrite E. by apply list_elem_of_fmap_2.
  - rewrite <- E. by apply list_elem_of_fmap_2.
Qed.

(** ** Live processing and rebuilding *)
Section rebuilding.
Context {datetime : Type} (parse_time : string → option datetime) (isoformat : datetime → string)
  (instant : datetime → Z) (distance : string → string → option Z) (uuid : nat → string).
#[local] Notation processing := (process parse_time isoformat instant distance uuid).
#[local] Notation projecting := (project parse_time isoformat instant distance uuid).
#[local] Notation stepping := (rebuild_step parse_time isoformat instant distance uuid).

(** The service after one more message; a message without a key changes nothing. *)
Definition receive (s : control_state) (a : datetime * dict) : control_state :=
  match processing a.1 a.2 s with Ok (_, s') => s' | Err _ => s end.

(** What a message does: nothing to the rows, or one row more and its projection. *)
Lemma receive_cases s a :
  ((cs_events (receive s a)).*1 = (cs_events s).*1 ∧ cs_next_id (receive s a) = cs_next_id s ∧
   cs_timeline (receive s a) = cs_timeline s ∧ cs_projections (receive s a) = cs_projections s) ∨
  (let row := control_event_row (cs_next_id s) (isoformat a.1) a.2 in
   let events := cs_events s ++ [(row, 0%nat)] in
   receive s a = settle events (cs_next_id s + 1) (cs_timeline s)
                   (projecting a.1 None ((cs_events s).*1 ++ [row]) row (cs_projections s))).
Proof.
  unfold receive, process, record_control_syslog_event. destruct (negb _); [by left|].
  destruct (List.find _ _) as [[row n]|].
  - left. simpl. split_and!; try done. rewrite <- list_fmap_compose. apply list_fmap_ext. intros i [r k] _.
    simpl. by destruct (_ =? _).
  - right. simpl. by rewrite fmap_app.
Qed.

Lemma receive_rows s a : ∃ more, (cs_events (receive s a)).*1 = (cs_events s).*1 ++ more.
Proof.
  destruct (receive_cases s a) as [(H & _)|H]; [exists []; by rewrite H, app_nil_r|].
  rewrite H. simpl. rewrite fmap_app. by eexists.
Qed.

Lemma live_rows s arrivals : ∃ more, (cs_events (foldl receive s arrivals)).*1 = (cs_events s).*1 ++ more.
Proof.
  revert s. induction arrivals as [|a l IH]; intros s; simpl; [exists []; by rewrite app_nil_r|].
  destruct (IH (receive s a)) as [m1 ->], (receive_rows s a) as [m2 ->]. rewrite <- app_assoc. by eexists.
Qed.

(** Identifiers are given in ascending order. *)
Definition numbered (s : control_state) : Prop :=
  NoDup (row_id <$> (cs_events s).*1) ∧ Forall (λ r, row_id r < cs_next_id s) (cs_events s).*1.

Lemma receive_numbered s a : numbered s → numbered (receive s a).
Proof.
  intros [H1 H2]. destruct (receive_cases s a) as [(E1 & E2 & _)|E].
  - unfold numbered. by rewrite E1, E2.
  - rewrite E. split; simpl; rewrite fmap_app; simpl.
    + rewrite fmap_app. apply NoDup_app. split_and!; [done| |apply NoDup_singleton].
      intros i (x & -> & Hx)%list_elem_of_fmap Hi%list_elem_of_singleton.
      rewrite Forall_forall in H2. specialize (H2 x Hx). rewrite Hi in H2. unfold row_id in H2 at 1. simpl in H2. lia.
    + apply Forall_app. split; [eapply Forall_impl; [exact H2|]; simpl; lia|].
      repeat constructor. unfold row_id. simpl. lia.
Qed.

Lemma live_numbered s arrivals : numbered s → numbered (foldl receive s arrivals).
Proof. revert s. induction arrivals as [|a l IH]; intros s H; simpl; [done|]. by apply IH, receive_numbered. Qed.

(** Families are written as the queries ask for them. *)
Definition exact_family (e : dict) : Prop :=
  upper (field "event_family" e) = "IFNET" ∨ upper (field "event_family" e) = "CFGMAN" →
  field "event_family" e = "IFNET" ∨ field "event_family" e = "CFGMAN".

Lemma project_other now vis T e p :
  exact_family e → str_mem (field "event_family" e) ["IFNET"; "CFGMAN"] = false → projecting now vis T e p = p.
Proof.
  intros He Hf. unfold project, exact_family in *.
  destruct (String.eqb_spec (upper (field "event_family" e)) "CFGMAN") as [E|];
    [destruct (He (or_intror E)) as [H|H]; by rewrite H in Hf|].
  destruct (String.eqb_spec (upper (field "event_family" e)) "IFNET") as [E|]; [|done].
  destruct (He (or_introl E)) as [H|H]; by rewrite H in Hf.
Qed.

(** *** Simulation: the rebuild of the events so far has the live rows *)
Section simulation.
(** All events of the table in the end. *)
Context (All : list dict) (d : string) (now' : datetime) (q0 : projections).
Context (Hids : NoDup (row_id <$> All)).
Context (Hok : ∀ e, e ∈ All → readable parse_time e ∧ exact_family e).
#[local] Notation sel := (selected d).

Definition device_of (i : Z) : string :=
  match List.find (λ e, row_id e =? i) All with Some e => field "device_uuid" e | None => "" end.

Lemma placed_all e : e ∈ All → placed device_of e.
Proof using Hids.
  intros He. unfold placed, device_of. destruct (List.find _ All) as [x|] eqn:E.
  - apply find_some in E as [Hx Hi]. apply list_elem_of_In in Hx. bool_to_prop. by rewrite (image_inj row_id All x e).
  - apply list_elem_of_In in He. apply (List.find_none _ _ E) in He. by rewrite Z.eqb_refl in He.
Qed.

(** The live service after [E] and the rebuild after [E]. *)
Definition simulated (s : control_state) (E : list dict) (st : list Z * projections) : Prop :=
  alike sel device_of [] (en_key <$> pj_calls st.2) (cs_projections s) st.2 ∧
  en_key <$> pj_calls st.2 ⊆ en_key <$> cs_timeline s ∧
  (∀ e, e ∈ E → control_event d "" e = true → row_id e ∈ st.1) ∧
  (∀ i, i ∈ st.1 → i ∈ row_id <$> E) ∧
  frame (λ x, negb (sel x)) device_of q0 st.2.

Lemma control_event_iff e :
  control_event d "" e = str_mem (field "event_family" e) ["IFNET"; "CFGMAN"] && sel (field "device_uuid" e).
Proof using Type. unfold control_event. by rewrite andb_true_r. Qed.

(** One event more that the rebuild takes too. *)
Lemma simulated_step now s E rest row st events :
  All = E ++ row :: rest → events.*1 = E ++ [row] → simulated s E st → control_event d "" row = true →
  simulated (settle events (cs_next_id s + 1) (cs_timeline s) (projecting now None (E ++ [row]) row (cs_projections s)))
    (E ++ [row]) (stepping now' All st row).
Proof using Hids Hok.
  intros HAll Hev (Ha & Hk & Hin & Hs & Hf) Hc. pose proof Hc as Hc2. rewrite control_event_iff in Hc2.
  apply andb_true_iff in Hc2 as [_ Hd]. set (seen := row_id row :: st.1).
  assert (∀ x, x ∈ E ++ [row] → x ∈ All) as Hsub by (intros x Hx; rewrite HAll; set_solver).
  assert (alike sel device_of [] (en_key <$> pj_calls st.2)
    (projecting now None (E ++ [row]) row (cs_projections s)) (projecting now' (Some seen) All row st.2)) as H.
  { replace All with ((E ++ [row]) ++ rest) by (by rewrite HAll, <- app_assoc).
    apply alike_project; [| | |set_solver|done|done].
    - intros x Hx. split; [by apply placed_all, Hsub|by apply Hok, Hsub].
    - intros x Hx Hdx Hfx. unfold seen. apply elem_of_app in Hx as [Hx|Hx%list_elem_of_singleton]; [|subst x]; [right|left].
      apply Hin; [done|]. rewrite control_event_iff, Hdx. by destruct Hfx as [Hf2|Hf2]; rewrite Hf2.
    - intros x Hx Hsx. rewrite HAll, fmap_app in Hids. apply NoDup_app in Hids as (_ & Hn1 & Hn2).
      apply NoDup_cons in Hn2 as [Hn2 _]. unfold seen in Hsx. apply elem_of_cons in Hsx as [Hsx|Hsx].
      + apply Hn2. rewrite <- Hsx. by apply list_elem_of_fmap_2.
      + apply (Hn1 (row_id x)); [by apply Hs|]. right. by apply list_elem_of_fmap_2. }
  destruct H as [Hv [Ho1 Ho2] (ks & Hk1 & Hk2)]. split_and!.
  - split; [exact Hv|done|]. exists []. simpl. by rewrite app_nil_r.
  - intros k. unfold rebuild_step, settle. cbn [snd cs_timeline]. fold seen. rewrite Hk2, timeline_keys, Hk1, elem_of_app. set_solver.
  - intros x Hx Hcx. simpl. apply elem_of_app in Hx as [Hx|Hx%list_elem_of_singleton]; [|subst x]; [right; by apply Hin|left].
  - intros j. simpl. rewrite fmap_app. intros [->|Hj]%elem_of_cons; set_solver.
  - apply frame_project; [by apply placed_all|rewrite HAll; set_solver|by rewrite Hd|done].
Qed.

(** One event that the rebuild leaves out. *)
Lemma simulated_skip now s E rest row st events :
  All = E ++ row :: rest → simulated s E st → control_event d "" row = false →
  simulated (settle events (cs_next_id s + 1) (cs_timeline s) (projecting now None (E ++ [row]) row (cs_projections s)))
    (E ++ [row]) st.
Proof using Hids Hok.
  intros HAll (Ha & Hk & Hin & Hs & Hf) Hc.
  assert (∀ x, x ∈ E ++ [row] → x ∈ All) as Hsub by (intros x Hx; rewrite HAll; set_solver).
  assert (frame sel device_of (cs_projections s) (projecting now None (E ++ [row]) row (cs_projections s))) as [Hv Ho].
  { destruct (sel (field "device_uuid" row)) eqn:Hd.
    - rewrite control_event_iff, Hd, andb_true_r in Hc. rewrite project_other; [|apply Hok, Hsub; set_solver|done].
      split; [done|apply Ha].
    - apply frame_project; [intros x Hx; by apply placed_all, Hsub|set_solver|done|]. split; [done|apply Ha]. }
  split_and!.
  - split; [by rewrite <- (al_view _ _ _ _ _ _ Ha)|split; [done|apply Ha]|]. exists []. simpl. by rewrite app_nil_r.
  - intros k Hkk. simpl. apply timeline_keys. left. by apply Hk.
  - intros x Hx Hcx. apply elem_of_app in Hx as [Hx|Hx%list_elem_of_singleton]; [|subst x]; [by apply Hin|congruence].
  - intros j Hj. rewrite fmap_app. set_solver.
  - done.
Qed.

Lemma simulated_rows s s' E st :
  cs_timeline s' = cs_timeline s → cs_projections s' = cs_projections s → simulated s E st → simulated s' E st.
Proof using Type. unfold simulated. by intros -> ->. Qed.

Lemma simulated_live arrivals s rest st :
  All = (cs_events s).*1 ++ rest → (cs_events (foldl receive s arrivals)).*1 = All →
  simulated s (cs_events s).*1 st →
  simulated (foldl receive s arrivals) All (foldl (stepping now' All) st (List.filter (control_event d "") rest)).
Proof using Hids Hok.
  revert s rest st. induction arrivals as [|a l IH]; intros s rest st HAll Hend H; simpl in *.
  - assert (rest = []) as ->; [|by rewrite <- Hend]. rewrite <- Hend in HAll.
    rewrite <- (app_nil_r (cs_events s).*1) in HAll at 1. by apply app_inv_head in HAll.
  - destruct (receive_cases s a) as [(E1 & _ & E3 & E4)|E1].
    + apply IH; [by rewrite E1|done|]. rewrite E1. by apply (simulated_rows s).
    + destruct (live_rows (receive s a) l) as [more Hm].
      rewrite Hend, E1 in Hm. simpl in Hm. rewrite fmap_app in Hm. simpl in Hm. rewrite Hm, <- app_assoc in HAll.
      apply app_inv_head in HAll. simpl in HAll. subst rest. simpl.
      set (row := control_event_row _ _ _) in *.
      rewrite <- app_assoc in Hm. simpl in Hm.
      specialize (IH (receive s a) more). rewrite E1 in IH. simpl in IH. rewrite fmap_app in IH. simpl in IH.
      rewrite E1 in Hend. rewrite E1. destruct (control_event d "" row) eqn:Hc; simpl; apply IH; try done;
        try (by rewrite <- app_assoc).
      * apply (simulated_step _ _ _ more); [done|by rewrite fmap_app|done|done].
      * by apply (simulated_skip _ _ _ more).
Qed.

Lemma live_owned arrivals s :
  (∀ e, e ∈ (cs_events (foldl receive s arrivals)).*1 → e ∈ All) → owned device_of (cs_projections s) →
  owned device_of (cs_projections (foldl receive s arrivals)).
Proof using Hids Hok.
  revert s. induction arrivals as [|a l IH]; intros s Hsub Ho; simpl in *; [done|]. apply IH; [done|].
  destruct (receive_cases s a) as [(_ & _ & _ & E4)|E1]; [by rewrite E4|].
  destruct (live_rows (receive s a) l) as [more Hm]. rewrite E1 in Hm. simpl in Hm. rewrite fmap_app in Hm. simpl in Hm.
  set (row := control_event_row _ _ _) in *.
  assert (∀ x, x ∈ (cs_events s).*1 ++ [row] → x ∈ All) as HE.
  { intros x Hx. apply Hsub. rewrite E1. simpl. fold row. rewrite Hm. set_solver. }
  rewrite E1. fold row. apply (frame_project parse_time isoformat instant distance uuid (λ _, false) device_of (cs_projections s));
    [intros x Hx; by apply placed_all, HE|set_solver|done|done].
Qed.
End simulation.

Lemma live_calls arrivals s : pj_calls (cs_projections s) = [] → pj_calls (cs_projections (foldl receive s arrivals)) = [].
Proof using Type.
  revert s. induction arrivals as [|a l IH]; intros s H; simpl; [done|]. apply IH.
  destruct (receive_cases s a) as [(_ & _ & _ & E4)|E1]; [by rewrite E4|by rewrite E1].
Qed.

Lemma filter_negb_nil {A} (f : A → bool) (l : list A) : List.filter f (List.filter (λ x, negb (f x)) l) = [].
Proof using Type. induction l as [|x l IH]; simpl; [done|]. destruct (f x) eqn:E; simpl; [done|]. by rewrite E. Qed.

Lemma filter_idem {A} (f : A → bool) (l : list A) : List.filter f (List.filter f l) = List.filter f l.
Proof using Type. by apply filter_within. Qed.

Lemma Forall_List_filter {A} (P : A → Prop) (f : A → bool) l : Forall P l → Forall P (List.filter f l).
Proof using Type. induction 1 as [|x l Hx Hl IH]; simpl; [constructor|]. destruct (f x); [by constructor|done]. Qed.

(** The rows of the selected devices are gone, the others stay. *)
Lemma clear_view d dev p :
  owned dev p →
  view (selected d) (clear_radio_projections d p) = view (selected d) no_projections ∧
  view (λ x, negb (selected d x)) (clear_radio_projections d p) = view (λ x, negb (selected d x)) p ∧
  owned dev (clear_radio_projections d p).
Proof using Type.
  intros [Ho1 Ho2]. split_and!; [| |split; by apply Forall_List_filter].
  - unfold view, clear_radio_projections. simpl. by rewrite (filter_negb_nil (λ r : string * string * dict, selected d r.1.1)),
      (filter_negb_nil (λ r : string * dict, selected d r.1)), (filter_negb_nil (λ c, selected d (co_device c))).
  - unfold view, clear_radio_projections. simpl. by rewrite (filter_idem (λ r : string * string * dict, negb (selected d r.1.1))),
      (filter_idem (λ r : string * dict, negb (selected d r.1))), (filter_idem (λ c, negb (selected d (co_device c)))).
Qed.

(** The same rows of the same tables, but for the identifiers of correlations. *)
Definition same_projections (p q : projections) : Prop :=
  (∀ device interface, get_radio_interface_state device interface p = get_radio_interface_state device interface q) ∧
  (∀ device, get_mr_runtime_state device p = get_mr_runtime_state device q) ∧
  (∀ device, strip_id <$> List.filter (λ c, String.eqb (co_device c) device) (pj_correlations p) =
             strip_id <$> List.filter (λ c, String.eqb (co_device c) device) (pj_correlations q)).

Lemma same_by_views sel p q :
  view sel p = view sel q → view (λ x, negb (sel x)) p = view (λ x, negb (sel x)) q → same_projections p q.
Proof using Type.
  intros H1 H2. split_and!; intros device; [intros interface|..]; destruct (sel device) eqn:E;
    first [by apply (view_interface sel)|by apply (view_router sel)|by apply (view_correlations sel)
          |apply (view_interface (λ x, negb (sel x)))|apply (view_router (λ x, negb (sel x)))
          |apply (view_correlations (λ x, negb (sel x)))]; by rewrite ?E.
Qed.

(** The service after the messages, from an empty table of events. *)
Definition live (first : Z) (timeline : list entry) (arrivals : list (datetime * dict)) : control_state :=
  foldl receive (ControlState [] first timeline no_projections) arrivals.

(** Rebuilding takes every chosen event and leaves the service as it is. *)
Definition rebuilt_same (now : datetime) (d : string) (s : control_state) : Prop :=
  let '(count, s') := rebuild parse_time isoformat instant distance uuid now d "" s in
  count = length (List.filter (control_event d "") (cs_events s).*1) ∧
  cs_events s' = cs_events s ∧ cs_next_id s' = cs_next_id s ∧ cs_timeline s' = cs_timeline s ∧
  same_projections (cs_projections s') (cs_projections s).

(** C2: the projections are a function of the stored events.  After any sequence
    of messages whose control events arrive in the order of their times, with
    readable times and the families spelled as the queries ask for them,
    rebuilding one device or all of them gives back the interface states, router
    states and correlations that live processing made (new identifiers of
    correlations apart), leaves the other devices, the events and the timeline
    as they are and takes every control event of the selection.  A rebuild that
    names a run is not meant: [run_rebuild_loses]. *)
Theorem rebuild_reproduces arrivals now d first timeline :
  (∀ e, e ∈ (cs_events (live first timeline arrivals)).*1 → readable parse_time e ∧ exact_family e) →
  StronglySorted (λ a b, control_leb a b = true)
    (List.filter (control_event d "") (cs_events (live first timeline arrivals)).*1) →
  rebuilt_same now d (live first timeline arrivals).
Proof using Type.
  set (s := live _ _ _). set (chosen := List.filter _ _).
  intros Hok Hsort. unfold rebuilt_same, rebuild, list_control_events. fold chosen. rewrite (sort_by_id _ _ Hsort).
  assert (numbered s) as [Hids _] by (apply live_numbered; split; constructor).
  set (All := (cs_events s).*1) in *.
  assert (owned (device_of All) (cs_projections s)) as Ho by (apply (live_owned All Hids Hok); [done|split; constructor]).
  assert (pj_calls (cs_projections s) = []) as Hcalls by by apply live_calls.
  destruct (clear_view d _ _ Ho) as (Hv1 & Hv2 & Ho2). set (q0 := clear_radio_projections d (cs_projections s)) in *.
  assert (pj_calls q0 = []) as Hq0 by exact Hcalls.
  destruct (simulated_live All d now q0 Hids Hok arrivals (ControlState [] first timeline no_projections) All ([], q0))
    as (Ha & Hk & _ & _ & Hf & _); [done|done| |].
  { split_and!; [|cbn [snd]; rewrite Hq0; by intros ? ?%not_elem_of_nil|by intros ? ?%not_elem_of_nil|by intros ? ?%not_elem_of_nil|done].
    split; [done|split; [split; constructor|done]|exists []; cbn [snd]; by rewrite Hq0]. }
  fold chosen s in Ha, Hk, Hf. destruct (foldl _ ([], q0) chosen) as [seen p]. simpl in *.
  split_and!; [done..|by apply timeline_settled|]. apply (same_by_views (selected d)).
  - symmetry. exact (al_view _ _ _ _ _ _ Ha).
  - transitivity (view (λ x, negb (selected d x)) q0); [exact Hf|exact Hv2].
Qed.
End rebuilding.

(** ** A run: a radio interface of one router is switched off and on by SNMP *)
Definition demo_time (s : string) : option Z := if str_nonempty s then parse_int s else None.
Definition demo_distance (a b : string) : option Z :=
  x ← demo_time a; y ← demo_time b; Some (Z.abs (x - y) * 1000000).
Definition demo_ifnet (time state : string) : Z * dict :=
  (0, [("dedup_key", PStr ("ifnet" +:+ time)); ("device_uuid", PStr "mr1"); ("event_family", PStr "IFNET");
       ("interface_type", PStr "Radio"); ("interface_name", PStr "WLAN-Radio1/0/1"); ("physical_state", PStr state);
       ("event_time", PStr time); ("train_id", PStr "T01"); ("mr_role", PStr "front")]).
Definition demo_cfgman (time device : string) : Z * dict :=
  (0, [("dedup_key", PStr ("cfgman" +:+ time)); ("device_uuid", PStr device); ("event_family", PStr "CFGMAN");
       ("cfg_command_source", PStr "SNMP"); ("cfg_event_index", PStr "17"); ("event_time", PStr time)]).
Definition demo_messages : list (Z * dict) :=
  [demo_ifnet "100" "up"; demo_cfgman "110" "mr1"; demo_ifnet "111" "down"; demo_cfgman "111" "mr2";
   demo_ifnet "111" "down"; demo_cfgman "112" "mr1"; demo_ifnet "115" "up"].
Definition demo_uuid (n : nat) : string := pretty n.
#[local] Notation demo_live := (live demo_time pretty (λ t, t * 1000000) demo_distance demo_uuid 1 [] demo_messages).

Definition demo_checks (rows : list dict) : bool :=
  forallb (λ e, match demo_time (field "event_time" e) with Some _ => true | None => false end
                && str_mem (field "event_family" e) ["IFNET"; "CFGMAN"]) rows.
Lemma demo_checks_ok rows :
  demo_checks rows = true → ∀ e, e ∈ rows → readable demo_time e ∧ exact_family e.
Proof.
  intros H e He%list_elem_of_In. pose proof (proj1 (forallb_forall _ _) H e He) as Hb. apply andb_true_iff in Hb as [H1 H2].
  split; [left; by destruct (demo_time _)|]. intros _. unfold str_mem in H2. simpl in H2.
  destruct (String.eqb_spec (field "event_family" e) "IFNET"); [by left|].
  destruct (String.eqb_spec (field "event_family" e) "CFGMAN"); [by right|done].
Qed.

Fixpoint sorted_by (leb : dict → dict → bool) (l : list dict) : bool :=
  match l with [] => true | x :: l' => forallb (leb x) l' && sorted_by leb l' end.
Lemma sorted_by_ok leb l : sorted_by leb l = true → StronglySorted (λ a b, leb a b = true) l.
Proof.
  induction l as [|x l IH]; simpl; [constructor|]. intros [H1 H2]%andb_true_iff. constructor; [by apply IH|].
  apply Forall_forall. intros y Hy. apply (proj1 (forallb_forall _ _) H1). by apply list_elem_of_In.
Qed.

Lemma rebuild_reproduces_witness :
  demo_checks (cs_events demo_live).*1 = true ∧
  sorted_by control_leb (List.filter (control_event "mr1" "") (cs_events demo_live).*1) = true ∧
  rebuilt_same demo_time pretty (λ t, t * 1000000) demo_distance demo_uuid 0 "mr1" demo_live.
Proof.
  assert (demo_checks (cs_events demo_live).*1 = true) as H1 by (vm_compute; reflexivity).
  assert (sorted_by control_leb (List.filter (control_event "mr1" "") (cs_events demo_live).*1) = true) as H2
    by (vm_compute; reflexivity).
  exact (conj H1 (conj H2 (rebuild_reproduces demo_time pretty (λ t, t * 1000000) demo_distance demo_uuid demo_messages
    0 "mr1" 1 [] (demo_checks_ok _ H1) (sorted_by_ok _ _ H2)))).
Defined.

(** The duplicate message is only counted; every change of the interface is put
    down to the SNMP changes near it. *)
Example radio_control_demo :
  (cs_events demo_live).*2 = [0; 0; 1; 0; 0; 0]%nat ∧
  en_type <$> cs_timeline demo_live =
    ["radio_interface_up"; "cfgman_snmp_change"; "radio_snmp_up"; "radio_interface_down"; "radio_snmp_down";
     "cfgman_snmp_change"; "cfgman_snmp_change"; "radio_snmp_down"; "radio_interface_bounce";
     "radio_interface_flapping"; "radio_snmp_bounce"; "radio_snmp_flapping"; "radio_snmp_bounce"] ∧
  (λ c, (co_cfg c, co_ifnet c)) <$> pj_correlations (cs_projections demo_live) = [(2, 1); (2, 3); (5, 3); (5, 6); (2, 6)] ∧
  (λ row, (field "stable_state" row, field "previous_state" row)) <$>
     get_radio_interface_state "mr1" "WLAN-Radio1/0/1" (cs_projections demo_live) = Some ("UP", "DOWN").
Proof. vm_compute. repeat split. Qed.

(** Why the order: the message of an earlier time that arrives last decides the live
    state, and the rebuilt state is that of the latest time. *)
Example late_message :
  let s := live demo_time pretty (λ t, t * 1000000) demo_distance demo_uuid 1 [] [demo_ifnet "115" "up"; demo_ifnet "100" "down"] in
  let state s := field "stable_state" <$> get_radio_interface_state "mr1" "WLAN-Radio1/0/1" (cs_projections s) in
  state s = Some "DOWN" ∧
  state (rebuild demo_time pretty (λ t, t * 1000000) demo_distance demo_uuid 0 "mr1" "" s).2 = Some "UP".
Proof. vm_compute. done. Qed.

(** Why all runs: rebuilding one run loses the states of the others. *)
Example run_rebuild_loses :
  let in_run run m := (m.1, dset "run_id" (PStr run) m.2) in
  let s := live demo_time pretty (λ t, t * 1000000) demo_distance demo_uuid 1 []
    [in_run "r1" (demo_ifnet "100" "up"); in_run "r2" (0, dset "device_uuid" (PStr "mr2") (demo_ifnet "101" "up").2)] in
  let kept s := is_Some (get_radio_interface_state "mr2" "WLAN-Radio1/0/1" (cs_projections s)) in
  kept s ∧ ¬ kept (rebuild demo_time pretty (λ t, t * 1000000) demo_distance demo_uuid 0 "" "r1" s).2.
Proof. vm_compute. split; [by eexists|]. by intros [? ?]. Qed.
