(* ===== verification/VlanDraft.v ===== *)
(** * Drafts of the management VLAN plan

    services/rail_transit/ap_management_vlan_planning.py, first part: what is
    read from stations and drafts ([station_inputs], [normalize_plan_draft]).
    A row is a dictionary; the dictionaries that the module builds with fixed
    keys are records, with functions that write them as dictionaries again, since
    every entry point reads them anew. *)

From S2P Require Import Prelude PyVal PyText.

Definition LINE_SINGLE : string := "line_single".
Definition STATION_INDEPENDENT : string := "station_independent".
Definition STATION_GROUPED : string := "station_grouped".
Definition PLANNING_MODES : list string := [LINE_SINGLE; STATION_INDEPENDENT; STATION_GROUPED].
Definition DEFAULT_ALLOCATION_STRATEGY : string := "station_then_point".

(** ** Orders *)

(** [_natural_key]: texts and numbers in turn. *)
Fixpoint natural_from (in_digits : bool) (cur s : string) : list atom :=
  match s with
  | "" => if in_digits then [AZ (digits_val 0 cur); AS ""] else [AS (casefold cur)]
  | String c s' =>
      if is_digit c then
        if in_digits then natural_from true (cur +:+ String c "") s'
        else AS (casefold cur) :: natural_from true (String c "") s'
      else
        if in_digits then AZ (digits_val 0 cur) :: natural_from false (String c "") s'
        else natural_from false (cur +:+ String c "") s'
  end.
Definition natural_key (s : string) : list atom := natural_from false "" s.

(** [x if x not in (None, "") else y]. *)
Definition filled (x y : pyval) : pyval := if blank x then y else x.
(** [str(x or default)]. *)
Definition text_or (x : pyval) (default : string) : string := py_str (por x (PStr default)).
(** [_optional_int]. *)
Definition optional_int (v : pyval) : option Z := if blank v then None else parse_int (py_str v).

(** ** Stations *)
Record station := Station { st_id : string; st_name : string; st_seq : Z; st_count : Z }.
#[global] Instance station_eq_dec : EqDecision station.
Proof. solve_decision. Defined.

Definition station_dict (s : station) : dict :=
  [("station_id", PStr (st_id s)); ("station_name", PStr (st_name s)); ("station_sequence", PInt (st_seq s));
   ("ap_count", PInt (st_count s))].

Definition by_sequence : station → station → bool := on st_seq Z.leb.
Definition by_natural_name : station → station → bool := on (natural_key ∘ st_name) key_leb.
Definition station_leb : station → station → bool :=
  then_leb by_sequence (then_leb by_natural_name (on st_id String.leb)).

(** [for sequence, item in enumerate(result)]: the places become the numbers. *)
Definition renumber (l : list station) : list station :=
  imap (λ i s, Station (st_id s) (st_name s) (Z.of_nat i) (st_count s)) l.

Section draft.
(** The first twelve hexadecimal digits of SHA-1. *)
Context (sha12 : string → string).

Definition stable_legacy_station_id (name : string) : string :=
  "legacy-station:" +:+ sha12 (casefold (strip name)).

(** One row, with its place; [None] for a row that is switched off. *)
Definition station_input (fallback : nat) (row : dict) : res (option station) :=
  if negb (truthy (dget_or "enabled" (PBool true) row)) then Ok None
  else
    let id := strip (text_or_empty (por (dget "id" row) (dget "station_id" row))) in
    let name := strip (text_or_empty (por (dget "name" row) (dget "station_name" row))) in
    let raw := filled (dget "sort_order" row) (dget "station_sequence" row) in
    seq ← (if blank raw then Ok (Z.of_nat fallback) else to_int raw);
    count ← to_int (por (dget "ap_count" row) (PInt 0));
    Ok (Some (Station (if str_nonempty id then id else stable_legacy_station_id name) name seq (Z.max 0 count))).

Fixpoint inputs_from (i : nat) (rows : list dict) : res (list station) :=
  match rows with
  | [] => Ok []
  | row :: rows' =>
      s ← station_input i row;
      l ← inputs_from (S i) rows';
      Ok (match s with Some s => s :: l | None => l end)
  end.

Definition station_inputs (rows : list dict) : res (list station) :=
  l ← inputs_from 0 rows; Ok (renumber (sort_by station_leb l)).

(** ** Drafts *)
Record planning := Planning {
  pl_line : string; pl_mode : string; pl_count : Z; pl_strategy : string; pl_revision : Z;
  pl_created : string; pl_updated : string;
}.

Record group := Group {
  g_id : string; g_line : string; g_code : string; g_name : string; g_seq : Z; g_vlan : option Z;
  g_vlan_invalid : bool; g_legacy : string; g_network : string; g_prefix : option Z; g_mask : string;
  g_gateway : string; g_start : string; g_end : string; g_strategy : string; g_notes : string;
  g_created : string; g_updated : string; g_members : list station;
}.

Record assignment := Assignment {
  as_id : string; as_type : string; as_target : string; as_group : string; as_source : string; as_updated : string;
}.

Record allocation := Allocation {
  lo_ap : string; lo_name : string; lo_point : string; lo_station : string; lo_station_name : string;
  lo_section : string; lo_group : string; lo_ip : string; lo_order : Z; lo_manual : bool; lo_locked : bool;
  lo_source : string; lo_group_source : string; lo_updated : string;
}.

Record draft := Draft {
  dr_planning : planning; dr_groups : list group; dr_assignments : list assignment; dr_allocations : list allocation;
}.

Definition with_seq (i : nat) (g : group) : group :=
  Group (g_id g) (g_line g) (g_code g) (g_name g) (Z.of_nat i) (g_vlan g) (g_vlan_invalid g) (g_legacy g) (g_network g)
    (g_prefix g) (g_mask g) (g_gateway g) (g_start g) (g_end g) (g_strategy g) (g_notes g) (g_created g) (g_updated g)
    (g_members g).

(** The dictionaries of the code. *)
Definition planning_dict (p : planning) : dict :=
  [("line_id", PStr (pl_line p)); ("planning_mode", PStr (pl_mode p)); ("auto_group_station_count", PInt (pl_count p));
   ("address_allocation_strategy", PStr (pl_strategy p)); ("revision", PInt (pl_revision p));
   ("created_at", PStr (pl_created p)); ("updated_at", PStr (pl_updated p))].
Definition group_dict (g : group) : dict :=
  [("group_id", PStr (g_id g)); ("line_id", PStr (g_line g)); ("group_code", PStr (g_code g));
   ("group_name", PStr (g_name g)); ("sequence", PInt (g_seq g)); ("management_vlan", opt_int (g_vlan g));
   ("management_vlan_input_invalid", PBool (g_vlan_invalid g)); ("legacy_management_vlans", PStr (g_legacy g));
   ("network_address", PStr (g_network g)); ("prefix_length", opt_int (g_prefix g)); ("subnet_mask", PStr (g_mask g));
   ("default_gateway", PStr (g_gateway g)); ("ap_start_ip", PStr (g_start g)); ("ap_end_ip", PStr (g_end g));
   ("address_allocation_strategy", PStr (g_strategy g)); ("notes", PStr (g_notes g)); ("created_at", PStr (g_created g));
   ("updated_at", PStr (g_updated g)); ("members", PList ((PDict ∘ station_dict) <$> g_members g))].
Definition assignment_dict (a : assignment) : dict :=
  [("assignment_id", PStr (as_id a)); ("assignment_type", PStr (as_type a)); ("target_id", PStr (as_target a));
   ("group_id", PStr (as_group a)); ("source", PStr (as_source a)); ("updated_at", PStr (as_updated a))].
Definition allocation_dict (a : allocation) : dict :=
  [("ap_id", PStr (lo_ap a)); ("ap_name", PStr (lo_name a)); ("point_code", PStr (lo_point a));
   ("station_id", PStr (lo_station a)); ("station_name", PStr (lo_station_name a)); ("section_name", PStr (lo_section a));
   ("group_id", PStr (lo_group a)); ("planned_ip", PStr (lo_ip a)); ("allocation_order", PInt (lo_order a));
   ("is_manual", PBool (lo_manual a)); ("is_locked", PBool (lo_locked a)); ("source", PStr (lo_source a));
   ("group_source", PStr (lo_group_source a)); ("updated_at", PStr (lo_updated a))].
Definition draft_dict (d : draft) : dict :=
  [("planning", PDict (planning_dict (dr_planning d))); ("groups", PList ((PDict ∘ group_dict) <$> dr_groups d));
   ("assignments", PList ((PDict ∘ assignment_dict) <$> dr_assignments d));
   ("allocations", PList ((PDict ∘ allocation_dict) <$> dr_allocations d))].

(** The elements of a list that are dictionaries, with their places. *)
Fixpoint mapped {B} (f : nat → dict → res B) (i : nat) (l : list pyval) : res (list B) :=
  match l with
  | [] => Ok []
  | PDict d :: l' => x ← f i d; xs ← mapped f (S i) l'; Ok (x :: xs)
  | _ :: l' => mapped f (S i) l'
  end.

(** [value or []], which must be a list. *)
Definition list_or_raise (v : pyval) : res (list pyval) :=
  if truthy v then match v with PList l => Ok l | _ => Err ValueError end else Ok [].

Definition find_station (rows : list station) (id name : string) : option station :=
  match alookup id (index_by st_id rows) with
  | Some s => Some s
  | None => alookup (casefold name) (index_by (casefold ∘ st_name) (List.filter (str_nonempty ∘ st_name) rows))
  end.

Definition normalize_member (rows : list station) (fallback : nat) (raw : dict) : res station :=
  let id := strip (text_or_empty (dget "station_id" raw)) in
  let name := strip (text_or_empty (dget "station_name" raw)) in
  match find_station rows id name with
  | Some s => Ok (Station (st_id s) (st_name s) (st_seq s) (st_count s))
  | None =>
      seq ← to_int (filled (dget "station_sequence" raw) (PInt (Z.of_nat fallback)));
      count ← to_int (por (dget "ap_count" raw) (PInt 0));
      Ok (Station (if str_nonempty id then id else stable_legacy_station_id name) name seq (Z.max 0 count))
  end.

Definition member_leb : station → station → bool := then_leb by_sequence by_natural_name.

Definition normalize_group (fresh : nat → string) (rows : list station) (p : planning) (fallback : nat) (raw : dict)
    : res group :=
  let id := strip (text_or (dget "group_id" raw) ("vlan-group-" +:+ fresh fallback)) in
  raw_members ← list_or_raise (dget "members" raw);
  members ← mapped (normalize_member rows) 0 raw_members;
  let prefix := optional_int (filled (dget "prefix_length" raw) (dget "mask_length" raw)) in
  let raw_vlan := filled (dget "management_vlan" raw) (dget "ap_management_vlan" raw) in
  let vlan := optional_int raw_vlan in
  let text a b := strip (text_or_empty (por (dget a raw) (dget b raw))) in
  seq ← to_int (filled (dget "sequence" raw) (PInt (Z.of_nat fallback)));
  Ok (Group id (text_or (dget "line_id" raw) (pl_line p))
        (strip (text_or (dget "group_code" raw) ("G" +:+ pad3 (Z.of_nat fallback + 1))))
        (strip (text_or (dget "group_name" raw) ("VLAN 组 " +:+ pretty (Z.of_nat fallback + 1))))
        seq vlan
        ((negb (blank raw_vlan) && bool_decide (vlan = None))
         || (blank raw_vlan && truthy (dget "management_vlan_input_invalid" raw)))
        (strip (text_or_empty (dget "legacy_management_vlans" raw)))
        (text "network_address" "subnet")
        (match prefix with Some n => if (0 <=? n) && (n <=? 32) then Some n else None | None => None end)
        (strip (text_or_empty (dget "subnet_mask" raw)))
        (text "default_gateway" "ap_gateway") (text "ap_start_ip" "ap_start_address")
        (strip (text_or_empty (dget "ap_end_ip" raw)))
        (str_or (strip (text_or (dget "address_allocation_strategy" raw) (pl_strategy p))) DEFAULT_ALLOCATION_STRATEGY)
        (text "notes" "remark") (text_or_empty (dget "created_at" raw)) (text_or_empty (dget "updated_at" raw))
        (sort_by member_leb members)).

Definition normalize_assignment (fresh : nat → string) (i : nat) (raw : dict) : res assignment :=
  Ok (Assignment (text_or (dget "assignment_id" raw) ("assignment-" +:+ fresh i))
        (text_or (dget "assignment_type" raw) "ap_override") (strip (text_or_empty (dget "target_id" raw)))
        (strip (text_or_empty (dget "group_id" raw)))
        (py_str (por (dget "source" raw) (por (dget "assignment_type" raw) (PStr "ap_override"))))
        (text_or_empty (dget "updated_at" raw))).

Definition normalize_assignments (fresh : nat → string) (value : pyval) (groups : list group) : res (list assignment) :=
  match value with
  | PList l =>
      all ← mapped (normalize_assignment fresh) 0 l;
      Ok (index_by as_target
            (List.filter (λ a, str_nonempty (as_target a) && str_mem (as_group a) (g_id <$> groups)) all)).*2
  | _ => Ok []
  end.

(** [None] for a row without an access point, before its numbers are read. *)
Definition normalize_allocation (_ : nat) (raw : dict) : res (option allocation) :=
  let ap := strip (text_or_empty (dget "ap_id" raw)) in
  if negb (str_nonempty ap) then Ok None
  else
    let text k := text_or_empty (dget k raw) in
    order ← to_int (por (dget "allocation_order" raw) (PInt 0));
    Ok (Some (Allocation ap (text "ap_name") (text "point_code") (text "station_id") (text "station_name")
                (text "section_name") (strip (text "group_id")) (strip (text "planned_ip")) order
                (truthy (dget "is_manual" raw)) (truthy (dget "is_locked" raw))
                (text_or (dget "source" raw) "generated") (text "group_source") (text "updated_at"))).

Definition normalize_allocations (value : pyval) : res (list allocation) :=
  match value with
  | PList l => all ← mapped normalize_allocation 0 l; Ok (index_by lo_ap (omap id all)).*2
  | _ => Ok []
  end.

Definition group_leb : group → group → bool := then_leb (on g_seq Z.leb) (on g_code String.leb).

(** The identifiers of [uuid4] are drawn from [fresh]: the groups have the first
    ones, the assignments those after them. *)
Definition normalize_plan_draft (fresh : nat → string) (raw : dict) (stations : list dict) : res draft :=
  rows ← station_inputs stations;
  let source := match dget "planning" raw with PDict d => d | _ => raw end in
  count ← to_int (por (dget "auto_group_station_count" source) (PInt 1));
  revision ← to_int (por (dget "revision" source) (PInt 0));
  let p := Planning (str_or (strip (text_or (dget "line_id" source) "current")) "current")
             (strip (text_or (dget "planning_mode" source) STATION_INDEPENDENT)) count
             (str_or (strip (text_or (dget "address_allocation_strategy" source) DEFAULT_ALLOCATION_STRATEGY))
                DEFAULT_ALLOCATION_STRATEGY)
             revision (text_or_empty (dget "created_at" source)) (text_or_empty (dget "updated_at" source)) in
  raw_groups ← list_or_raise (dget "groups" raw);
  groups ← mapped (normalize_group fresh rows p) 0 raw_groups;
  let groups := imap with_seq (sort_by group_leb groups) in
  assignments ← normalize_assignments (λ i, fresh (length raw_groups + i)%nat) (dget "assignments" raw) groups;
  allocations ← normalize_allocations (dget "allocations" raw);
  Ok (Draft p groups assignments allocations).
End draft.

(** ** Lemmas: orders *)
Lemma sequence_total a b : by_sequence a b = true ∨ by_sequence b a = true.
Proof. unfold by_sequence, on. rewrite !Z.leb_le. lia. Qed.
Lemma sequence_trans a b c : by_sequence a b = true → by_sequence b c = true → by_sequence a c = true.
Proof. unfold by_sequence, on. rewrite !Z.leb_le. lia. Qed.
Lemma member_total a b : member_leb a b = true ∨ member_leb b a = true.
Proof. apply then_total; [apply sequence_total|intros; apply key_total]. Qed.
Lemma member_trans a b c : member_leb a b = true → member_leb b c = true → member_leb a c = true.
Proof. apply then_trans; [apply sequence_trans|intros x y z; apply key_trans]. Qed.

(** ** Reading what was written *)
#[local] Transparent dget.

Lemma text_or_PStr s d : s ≠ "" → text_or (PStr s) d = s.
Proof. intros H. unfold text_or, por. simpl. unfold str_nonempty. by destruct (String.eqb_spec s ""). Qed.
Lemma optional_int_opt o : optional_int (opt_int o) = o.
Proof. destruct o as [z|]; [|done]. unfold optional_int. simpl. apply parse_int_pretty. Qed.
Lemma por_int z : to_int (por (PInt z) (PInt 0)) = Ok z.
Proof. unfold por. simpl. destruct (Z.eqb_spec z 0) as [->|]; done. Qed.
Lemma strip_nonempty s : strip s ≠ "" → str_nonempty (strip s) = true.
Proof. unfold str_nonempty. by destruct (String.eqb_spec (strip s) ""). Qed.

Section reading.
Context (sha12 : string → string) (Hsha : ∀ s, no_space (sha12 s) = true).
#[local] Notation inputting := (station_inputs sha12).

Lemma legacy_strip name : strip (stable_legacy_station_id sha12 name) = stable_legacy_station_id sha12 name.
Proof using Hsha. apply strip_no_space. unfold stable_legacy_station_id. rewrite no_space_app. by rewrite Hsha. Qed.
Lemma legacy_nonempty name : stable_legacy_station_id sha12 name ≠ "".
Proof using Type. done. Qed.

(** A station as [station_inputs] makes it. *)
Definition clean_station (s : station) : Prop :=
  strip (st_id s) = st_id s ∧ st_id s ≠ "" ∧ strip (st_name s) = st_name s ∧ 0 ≤ st_count s.

Lemma station_input_clean i row s : station_input sha12 i row = Ok (Some s) → clean_station s.
Proof using Hsha.
  unfold station_input. destruct (negb _); [done|].
  intros (seq & _ & (count & _ & [= <-])%res_bind_Ok)%res_bind_Ok. unfold clean_station. simpl.
  set (id := strip (text_or_empty (por (dget "id" row) _))). unfold str_nonempty. destruct (String.eqb_spec id "") as [E|E]; simpl; split_and!; try done;
    first [apply legacy_strip|apply strip_idem|apply legacy_nonempty|lia].
Qed.

Lemma inputs_from_clean rows i l : inputs_from sha12 i rows = Ok l → Forall clean_station l.
Proof using Hsha.
  revert i l. induction rows as [|row rows IH]; simpl; intros i l; [intros [= <-]; constructor|].
  intros (s & Hs & (l' & Hl & [= <-])%res_bind_Ok)%res_bind_Ok. apply IH in Hl. destruct s as [s|]; [|done].
  constructor; [by eapply station_input_clean|done].
Qed.

(** The stations of a line: clean, and numbered by their places. *)
Definition line_of (rows : list station) : Prop :=
  Forall clean_station rows ∧ ∀ i s, rows !! i = Some s → st_seq s = Z.of_nat i.

Lemma renumber_line l : Forall clean_station l → line_of (renumber l).
Proof using Type.
  intros H. split.
  - apply Forall_lookup. intros i s. unfold renumber. rewrite list_lookup_imap. intros (x & Hx & ->)%fmap_Some.
    by apply (proj1 (Forall_lookup _ _) H) in Hx.
  - intros i s. unfold renumber. rewrite list_lookup_imap. by intros (x & Hx & ->)%fmap_Some.
Qed.

Lemma station_inputs_line rows l : inputting rows = Ok l → line_of l.
Proof using Hsha.
  unfold station_inputs. intros (l' & Hl & [= <-])%res_bind_Ok. apply renumber_line.
  rewrite sort_by_perm. by eapply inputs_from_clean.
Qed.

Lemma station_seq s : Station (st_id s) (st_name s) (st_seq s) (st_count s) = s.
Proof using Type. by destruct s. Qed.

Lemma station_input_dict i s : clean_station s → station_input sha12 i (station_dict s) = Ok (Some s).
Proof using Type.
  intros (H1 & H2 & H3 & H4). unfold station_input. simpl.
  assert (∀ t, por PNone t = t) as Hn by done. unfold dget. simpl. rewrite !Hn, !text_or_empty_PStr, H1, H3, por_int. simpl.
  unfold str_nonempty. destruct (String.eqb_spec (st_id s) ""); [done|]. simpl.
  rewrite Z.max_r by done. by rewrite station_seq.
Qed.

Lemma inputs_from_dicts i l : Forall clean_station l → inputs_from sha12 i (station_dict <$> l) = Ok l.
Proof using Type.
  intros H. revert i. induction H as [|s l Hs Hl IH]; intros i; [done|]. cbn [fmap list_fmap inputs_from].
  by rewrite station_input_dict, IH.
Qed.

Lemma line_ascending l : line_of l → StronglySorted (λ a b, st_seq a < st_seq b) l.
Proof using Type.
  intros [_ H]. apply Sorted_StronglySorted; [intros ???; lia|].
  assert (∀ k l, (∀ i s, l !! i = Some s → st_seq s = Z.of_nat (k + i)) → Sorted (λ a b, st_seq a < st_seq b) l) as Hk.
  { clear. intros k l. revert k. induction l as [|x l IH]; intros k H; [constructor|]. constructor.
    - apply (IH (S k)). intros i s Hs. rewrite (H (S i) s) by done. f_equal. lia.
    - destruct l as [|y l]; [constructor|]. constructor. rewrite (H 0%nat x), (H 1%nat y) by done. lia. }
  by apply (Hk 0%nat).
Qed.

Lemma renumber_id l : line_of l → renumber l = l.
Proof using Type.
  intros [_ H]. unfold renumber. apply list_eq. intros i. rewrite list_lookup_imap.
  destruct (l !! i) as [s|] eqn:E; simpl; [|done]. rewrite <- (H i s E). by rewrite station_seq.
Qed.

(** Reading the stations a second time changes nothing. *)
Lemma station_inputs_again l : line_of l → inputting (station_dict <$> l) = Ok l.
Proof using Type.
  intros H. unfold station_inputs. rewrite inputs_from_dicts by apply H. simpl.
  rewrite sort_by_id; [by rewrite renumber_id|]. by apply (ascending_sorted st_seq), line_ascending.
Qed.
End reading.

Section again.
Context (sha12 : string → string) (Hsha : ∀ s, no_space (sha12 s) = true).
Context (rows : list station) (Hrows : line_of rows).

Lemma mapped_dicts {A B} (f : nat → dict → res B) (g : A → dict) (h : A → B) i l :
  (∀ i x, x ∈ l → f i (g x) = Ok (h x)) → mapped f i ((PDict ∘ g) <$> l) = Ok (h <$> l).
Proof using Type.
  revert i. induction l as [|x l IH]; intros i H; [done|]. simpl. rewrite H by (by left). simpl.
  rewrite IH; [done|]. intros j y Hy. apply H. by right.
Qed.

Lemma mapped_Forall {B} (P : B → Prop) (f : nat → dict → res B) i l xs :
  (∀ i d x, f i d = Ok x → P x) → mapped f i l = Ok xs → Forall P xs.
Proof using Type.
  intros Hf. revert i xs. induction l as [|v l IH]; intros i xs; simpl; [intros [= <-]; constructor|].
  destruct v; try by apply IH. intros (x & Hx & (ys & Hy & [= <-])%res_bind_Ok)%res_bind_Ok.
  constructor; [by eapply Hf|by eapply IH].
Qed.

(** The member is what its identifier and name lead to, or they lead nowhere. *)
Definition homed (m : station) : Prop :=
  find_station rows (st_id m) (st_name m) = Some m ∨
  find_station rows (st_id m) (st_name m) = None ∧ clean_station m.

Lemma find_station_in id name s : find_station rows id name = Some s → s ∈ rows.
Proof using Type.
  unfold find_station. destruct (alookup id _) as [x|] eqn:E.
  - intros [= <-]. by apply index_by_Some in E as [? _].
  - intros [[H _]%list_elem_of_In%filter_In _]%index_by_Some. by apply list_elem_of_In.
Qed.

Lemma normalize_member_again i m : homed m → normalize_member sha12 rows i (station_dict m) = Ok m.
Proof using Hrows.
  intros H. assert (clean_station m) as Hc.
  { destruct H as [H|[_ H]]; [|done]. apply find_station_in in H. by apply (proj1 (Forall_forall _ _) (proj1 Hrows)). }
  destruct Hc as (H1 & H2 & H3 & H4). unfold normalize_member, dget. simpl.
  rewrite !text_or_empty_PStr, H1, H3. destruct H as [->|[-> _]]; [by rewrite station_seq|].
  rewrite por_int. simpl. unfold str_nonempty. destruct (String.eqb_spec (st_id m) ""); [done|]. simpl.
  rewrite Z.max_r by done. by rewrite station_seq.
Qed.

(** A group as [normalize_group] makes it. *)
Record group_ok (g : group) : Prop := GroupOk {
  go_id : strip (g_id g) = g_id g ∧ g_id g ≠ "";
  go_line : g_line g ≠ "";
  go_code : strip (g_code g) = g_code g ∧ g_code g ≠ "";
  go_name : strip (g_name g) = g_name g ∧ g_name g ≠ "";
  go_vlan : g_vlan_invalid g = true → g_vlan g = None;
  go_texts : strip (g_legacy g) = g_legacy g ∧ strip (g_network g) = g_network g ∧ strip (g_mask g) = g_mask g ∧
    strip (g_gateway g) = g_gateway g ∧ strip (g_start g) = g_start g ∧ strip (g_end g) = g_end g ∧
    strip (g_notes g) = g_notes g;
  go_prefix : ∀ n, g_prefix g = Some n → 0 ≤ n ≤ 32;
  go_strategy : strip (g_strategy g) = g_strategy g ∧ g_strategy g ≠ "";
  go_members : Forall homed (g_members g);
  go_sorted : StronglySorted (λ a b, member_leb a b = true) (g_members g);
}.

Lemma text_of_por s : text_or_empty (por (PStr s) PNone) = s.
Proof using Type. by destruct s. Qed.

Lemma list_or_raise_PList l : list_or_raise (PList l) = Ok l.
Proof using Type. by destruct l. Qed.

Lemma filled_opt o : filled (opt_int o) PNone = opt_int o.
Proof using Type. by destruct o. Qed.

Lemma normalize_group_again fresh p i g :
  group_ok g → normalize_group sha12 fresh rows p i (group_dict g) = Ok g.
Proof using Hrows.
  intros [[I1 I2] L [C1 C2] [N1 N2] V (T1 & T2 & T3 & T4 & T5 & T6 & T7) P [S1 S2] M O].
  unfold normalize_group, dget. simpl.
  rewrite list_or_raise_PList. simpl.
  rewrite (mapped_dicts _ _ id) by (intros j m Hm; apply normalize_member_again; by apply (proj1 (Forall_forall _ _) M)).
  simpl. rewrite list_fmap_id, !filled_opt, !optional_int_opt, !text_or_PStr, !text_of_por, !text_or_empty_PStr by done.
  rewrite I1, C1, N1, T1, T2, T3, T4, T5, T6, T7, S1.
  rewrite sort_by_id by done.
  assert (negb (blank (opt_int (g_vlan g))) && bool_decide (g_vlan g = None) || blank (opt_int (g_vlan g)) && g_vlan_invalid g
    = g_vlan_invalid g) as ->.
  { destruct (g_vlan g), (g_vlan_invalid g); try done. by specialize (V eq_refl). }
  assert (match g_prefix g with Some n => if (0 <=? n) && (n <=? 32) then Some n else None | None => None end = g_prefix g) as ->.
  { destruct (g_prefix g) as [n|]; [|done]. specialize (P n eq_refl).
    rewrite (proj2 (Z.leb_le 0 n)), (proj2 (Z.leb_le n 32)) by lia. done. }
  unfold str_or. destruct (String.eqb_spec (g_strategy g) ""); [done|]. by destruct g.
Qed.

(** What [normalize_group] returns is such a group when its names are not blank. *)
Definition named_group (g : group) : Prop :=
  g_id g ≠ "" ∧ g_line g ≠ "" ∧ g_code g ≠ "" ∧ g_name g ≠ "" ∧ Forall homed (g_members g).

Lemma str_or_strip s d : strip d = d → d ≠ "" → strip (str_or (strip s) d) = str_or (strip s) d ∧ str_or (strip s) d ≠ "".
Proof using Type.
  intros H1 H2. unfold str_or. destruct (String.eqb_spec (strip s) "") as [|E]; [done|]. split; [apply strip_idem|done].
Qed.

Lemma normalize_group_ok fresh p i raw g :
  normalize_group sha12 fresh rows p i raw = Ok g → named_group g → group_ok g.
Proof using Type.
  unfold normalize_group.
  intros (ms & _ & (members & _ & (seq & _ & [= <-])%res_bind_Ok)%res_bind_Ok)%res_bind_Ok (N1 & NL & N2 & N3 & N4).
  simpl in *. constructor; simpl; try (split; [apply strip_idem|done]); try done.
  - destruct (optional_int _) eqn:E; [|done]. rewrite bool_decide_eq_false_2 by done. rewrite andb_false_r. simpl.
    unfold optional_int in E. by destruct (blank _).
  - by split_and!; apply strip_idem.
  - intros n. destruct (optional_int _) as [z|]; [|done]. destruct (Z.leb_spec 0 z), (Z.leb_spec z 32); simpl; try done.
    intros [= <-]. lia.
  - by apply str_or_strip.
  - apply sort_by_sorted; [apply member_total|apply member_trans].
Qed.

(** The other rows. *)
Definition assignment_ok (groups : list group) (a : assignment) : Prop :=
  as_id a ≠ "" ∧ as_type a ≠ "" ∧ strip (as_target a) = as_target a ∧ as_target a ≠ "" ∧
  strip (as_group a) = as_group a ∧ as_group a ∈ g_id <$> groups ∧ as_source a ≠ "".
Definition allocation_ok (a : allocation) : Prop :=
  strip (lo_ap a) = lo_ap a ∧ lo_ap a ≠ "" ∧ strip (lo_group a) = lo_group a ∧ strip (lo_ip a) = lo_ip a ∧ lo_source a ≠ "".

Lemma normalize_assignments_again fresh groups l :
  Forall (assignment_ok groups) l → NoDup (as_target <$> l) →
  normalize_assignments fresh (PList ((PDict ∘ assignment_dict) <$> l)) groups = Ok l.
Proof using Type.
  intros Hl Hn. unfold normalize_assignments. rewrite (mapped_dicts _ _ id).
  - simpl. rewrite list_fmap_id, List.forallb_filter_id; [by rewrite index_by_values|].
    apply forallb_forall. intros a Ha%list_elem_of_In. apply (proj1 (Forall_forall _ _) Hl) in Ha as (_ & _ & _ & H1 & _ & H2 & _).
    apply andb_true_iff. split; [unfold str_nonempty; by destruct (String.eqb_spec (as_target a) "")|]. by apply str_mem_iff.
  - intros i a Ha. apply (proj1 (Forall_forall _ _) Hl) in Ha as (H1 & H2 & H3 & H4 & H5 & H6 & H7).
    unfold normalize_assignment, dget. simpl. rewrite !text_or_PStr, !text_or_empty_PStr, H3, H5 by done.
    do 2 f_equal. destruct a as [? ? ? ? src ?]. unfold por. simpl in *. unfold str_nonempty. destruct (String.eqb_spec src ""); done.
Qed.

Lemma omap_some {A} (l : list A) : omap id (Some <$> l) = l.
Proof using Type. induction l as [|x l IH]; [done|]. cbn. by rewrite IH. Qed.

Lemma normalize_allocations_again l :
  Forall allocation_ok l → NoDup (lo_ap <$> l) →
  normalize_allocations (PList ((PDict ∘ allocation_dict) <$> l)) = Ok l.
Proof using Type.
  intros Hl Hn. unfold normalize_allocations. rewrite (mapped_dicts _ _ Some).
  - change (Ok (index_by lo_ap (omap id (Some <$> l))).*2 = Ok l). by rewrite omap_some, index_by_values.
  - intros i a Ha. apply (proj1 (Forall_forall _ _) Hl) in Ha as (H1 & H2 & H3 & H4 & H5).
    unfold normalize_allocation, dget. simpl. rewrite !text_or_empty_PStr, H1, H3, H4, por_int, text_or_PStr by done.
    unfold str_nonempty. destruct (String.eqb_spec (lo_ap a) ""); [done|]. simpl. by destruct a.
Qed.

(** *** Drafts *)
Record draft_ok (d : draft) : Prop := DraftOk {
  do_line : strip (pl_line (dr_planning d)) = pl_line (dr_planning d) ∧ pl_line (dr_planning d) ≠ "";
  do_mode : strip (pl_mode (dr_planning d)) = pl_mode (dr_planning d) ∧ pl_mode (dr_planning d) ≠ "";
  do_strategy : strip (pl_strategy (dr_planning d)) = pl_strategy (dr_planning d) ∧ pl_strategy (dr_planning d) ≠ "";
  do_groups : Forall group_ok (dr_groups d);
  do_places : ∀ i g, dr_groups d !! i = Some g → g_seq g = Z.of_nat i;
  do_assignments : Forall (assignment_ok (dr_groups d)) (dr_assignments d) ∧ NoDup (as_target <$> dr_assignments d);
  do_allocations : Forall allocation_ok (dr_allocations d) ∧ NoDup (lo_ap <$> dr_allocations d);
}.

Lemma places_ascending {A} (f : A → Z) (l : list A) :
  (∀ i x, l !! i = Some x → f x = Z.of_nat i) → StronglySorted (λ a b, f a < f b) l.
Proof using Type.
  intros H. apply Sorted_StronglySorted; [intros ???; lia|].
  assert (∀ k l, (∀ i s, l !! i = Some s → f s = Z.of_nat (k + i)) → Sorted (λ a b, f a < f b) l) as Hk; [|by apply (Hk 0%nat)].
  clear. intros k l. revert k. induction l as [|x l IH]; intros k H; [constructor|]. constructor.
  - apply (IH (S k)). intros i s Hs. rewrite (H (S i) s) by done. f_equal. lia.
  - destruct l as [|y l]; [constructor|]. constructor. rewrite (H 0%nat x), (H 1%nat y) by done. lia.
Qed.

Lemma por_one z : to_int (por (PInt z) (PInt 1)) = if z =? 0 then Ok 1 else Ok z.
Proof using Type. unfold por. simpl. by destruct (z =? 0). Qed.

Lemma with_seq_id i g : g_seq g = Z.of_nat i → with_seq i g = g.
Proof using Type. destruct g; simpl. by intros ->. Qed.

#[local] Arguments normalize_assignments : simpl never.
#[local] Arguments normalize_allocations : simpl never.

(** Of a draft that was written, the head and the groups are read unchanged. *)
Lemma draft_reads fresh d :
  draft_ok d → pl_count (dr_planning d) ≠ 0 → ∀ assigns allocs,
  normalize_plan_draft sha12 fresh (draft_dict (Draft (dr_planning d) (dr_groups d) assigns allocs)) (station_dict <$> rows) =
  (a ← normalize_assignments (λ i, fresh (length (dr_groups d) + i)%nat) (PList ((PDict ∘ assignment_dict) <$> assigns)) (dr_groups d);
   l ← normalize_allocations (PList ((PDict ∘ allocation_dict) <$> allocs));
   Ok (Draft (dr_planning d) (dr_groups d) a l)).
Proof using Hrows.
  intros [[L1 L2] [M1 M2] [S1 S2] G P _ _] HC assigns allocs. unfold normalize_plan_draft.
  rewrite station_inputs_again by done. unfold dget. simpl.
  rewrite por_one, por_int, !text_or_PStr, !text_or_empty_PStr, list_or_raise_PList, L1, M1, S1 by done.
  destruct (Z.eqb_spec (pl_count (dr_planning d)) 0); [done|]. simpl.
  rewrite (mapped_dicts _ group_dict id) by (intros j g Hg; apply normalize_group_again; by apply (proj1 (Forall_forall _ _) G)).
  simpl. rewrite list_fmap_id, sort_by_id, length_fmap by by apply (ascending_sorted g_seq), places_ascending.
  assert (imap with_seq (dr_groups d) = dr_groups d) as ->.
  { apply list_eq. intros i. rewrite list_lookup_imap. destruct (dr_groups d !! i) as [g|] eqn:E; simpl; [|done].
    by rewrite with_seq_id by by apply P. }
  unfold str_or. destruct (String.eqb_spec (pl_line (dr_planning d)) ""); [done|].
  destruct (String.eqb_spec (pl_strategy (dr_planning d)) ""); [done|]. by destruct (dr_planning d).
Qed.

(** Reading a draft that was written changes nothing. *)
Lemma draft_again fresh d :
  draft_ok d → pl_count (dr_planning d) ≠ 0 →
  normalize_plan_draft sha12 fresh (draft_dict d) (station_dict <$> rows) = Ok d.
Proof using Hrows.
  intros Hok HC. pose proof (draft_reads fresh d Hok HC (dr_assignments d) (dr_allocations d)) as H.
  destruct Hok as [_ _ _ _ _ [A1 A2] [B1 B2]]. destruct d as [p groups assigns allocs]; simpl in *. rewrite H.
  by rewrite normalize_assignments_again, normalize_allocations_again.
Qed.

(** Whatever the other rows are, they can be read. *)
Lemma groups_again fresh d assigns allocs :
  draft_ok d → pl_count (dr_planning d) ≠ 0 → ∃ a l,
  normalize_plan_draft sha12 fresh (draft_dict (Draft (dr_planning d) (dr_groups d) assigns allocs)) (station_dict <$> rows) =
  Ok (Draft (dr_planning d) (dr_groups d) a l).
Proof using Hrows.
  intros Hok HC. rewrite (draft_reads fresh d Hok HC assigns allocs).
  assert (∀ {A B} (f : nat → dict → res B) (g : A → dict) l i,
    (∀ i x, ∃ y, f i (g x) = Ok y) → ∃ ys, mapped f i ((PDict ∘ g) <$> l) = Ok ys) as Hm.
  { intros A B f g l i Hf. revert i. induction l as [|x l IH]; intros i; [by eexists|]. destruct (Hf i x) as [y Hy], (IH (S i)) as [ys Hys].
    exists (y :: ys). change (PDict ∘ g <$> x :: l) with (PDict (g x) :: (PDict ∘ g <$> l)). simpl. rewrite Hy. cbn [mbind res_bind].
    by rewrite Hys. }
  unfold normalize_assignments, normalize_allocations.
  edestruct (Hm _ _ (normalize_assignment (λ i, fresh (length (dr_groups d) + i)%nat)) assignment_dict assigns 0%nat) as [a ->]; [by eexists|].
  edestruct (Hm _ _ normalize_allocation allocation_dict allocs 0%nat) as [l ->]; [|by eexists _, _].
  intros i x. unfold normalize_allocation. destruct (negb _); [by eexists|].
  assert (to_int (por (dget "allocation_order" (allocation_dict x)) (PInt 0)) = Ok (lo_order x)) as -> by apply por_int. by eexists.
Qed.
End again.

(** *** What [normalize_plan_draft] returns *)
Section normalized.
Context (sha12 : string → string) (Hsha : ∀ s, no_space (sha12 s) = true).
Context (rows : list station).

(** The names that the input leaves blank, or fills with white space only, are
    not; and every member has one home among the stations or none. *)
Definition named_draft (d : draft) : Prop :=
  pl_mode (dr_planning d) ≠ "" ∧ pl_count (dr_planning d) ≠ 0 ∧ Forall (named_group rows) (dr_groups d) ∧
  Forall (λ a, as_id a ≠ "" ∧ as_type a ≠ "" ∧ as_source a ≠ "") (dr_assignments d) ∧
  Forall (λ a, lo_source a ≠ "") (dr_allocations d).

Lemma mapped_in {B} (f : nat → dict → res B) i l xs x :
  mapped f i l = Ok xs → x ∈ xs → ∃ j d, f j d = Ok x.
Proof using Type.
  intros H Hx. assert (Forall (λ x, ∃ j d, f j d = Ok x) xs) as HF by (eapply mapped_Forall; [|exact H]; eauto).
  by apply (proj1 (Forall_forall _ _) HF).
Qed.

Lemma index_by_in {K A} `{EqDecision K} (key : A → K) l x : x ∈ (index_by key l).*2 → x ∈ l.
Proof using Type. intros ([k y] & -> & H)%list_elem_of_fmap. by apply index_by_pairs in H as [? _]. Qed.

Lemma normalize_assignments_ok fresh value groups l :
  normalize_assignments fresh value groups = Ok l →
  Forall (λ a, as_id a ≠ "" ∧ as_type a ≠ "" ∧ as_source a ≠ "") l →
  Forall (assignment_ok groups) l ∧ NoDup (as_target <$> l).
Proof using Type.
  unfold normalize_assignments. destruct value; try (intros [= <-]; intros; split; constructor).
  intros (all & Hall & [= <-])%res_bind_Ok HN. split; [|apply index_by_values_NoDup].
  apply Forall_forall. intros a Ha. pose proof (proj1 (Forall_forall _ _) HN a Ha) as (N1 & N2 & N3).
  apply index_by_in, list_elem_of_In, filter_In in Ha as [Ha H]. apply list_elem_of_In in Ha.
  apply andb_true_iff in H as [H1 H2%str_mem_iff]. destruct (mapped_in _ _ _ _ _ Hall Ha) as (j & raw & [= E]).
  unfold str_nonempty in H1. destruct (String.eqb_spec (as_target a) ""); [done|].
  unfold assignment_ok. split_and!; try done; rewrite <- E; simpl; apply strip_idem.
Qed.

Lemma omap_id_in {A} (l : list (option A)) x : x ∈ omap id l → Some x ∈ l.
Proof using Type. intros (y & Hy & E)%list_elem_of_omap. unfold id in E. by subst y. Qed.

Lemma normalize_allocations_ok value l :
  normalize_allocations value = Ok l → Forall (λ a, lo_source a ≠ "") l →
  Forall allocation_ok l ∧ NoDup (lo_ap <$> l).
Proof using Type.
  unfold normalize_allocations. destruct value; try (intros [= <-]; intros; split; constructor).
  intros (all & Hall & [= <-])%res_bind_Ok HN. split; [|apply index_by_values_NoDup].
  apply Forall_forall. intros a Ha. pose proof (proj1 (Forall_forall _ _) HN a Ha) as N1.
  apply index_by_in, omap_id_in in Ha. destruct (mapped_in _ _ _ _ _ Hall Ha) as (j & raw & E).
  unfold normalize_allocation, str_nonempty in E.
  destruct (String.eqb_spec (strip (text_or_empty (dget "ap_id" raw))) ""); [done|]. simpl in E.
  apply res_bind_Ok in E as (order & _ & [= <-]). unfold allocation_ok. simpl. split_and!; try done; apply strip_idem.
Qed.

Lemma normalize_draft_ok fresh raw stations d :
  station_inputs sha12 stations = Ok rows → normalize_plan_draft sha12 fresh raw stations = Ok d →
  named_draft d → draft_ok rows d.
Proof using Type.
  intros Hs. unfold normalize_plan_draft. rewrite Hs. cbn [mbind res_bind].
  intros (count & _ & (revision & _ & (raws & _ & (groups & Hg & (assigns & Ha & (allocs & Hl & [= <-])%res_bind_Ok)
    %res_bind_Ok)%res_bind_Ok)%res_bind_Ok)%res_bind_Ok)%res_bind_Ok (N1 & N2 & N3 & N4 & N5).
  simpl in *. constructor; simpl.
  - by apply str_or_strip.
  - split; [apply strip_idem|done].
  - by apply str_or_strip.
  - apply Forall_forall. intros g Hin. pose proof (proj1 (Forall_forall _ _) N3 g Hin) as Hn.
    apply list_elem_of_lookup_1 in Hin as [i Hi]. rewrite list_lookup_imap in Hi.
    apply fmap_Some in Hi as (g0 & Hg0 & ->). apply list_elem_of_lookup_2 in Hg0. rewrite sort_by_in in Hg0.
    destruct (mapped_in _ _ _ _ _ Hg Hg0) as (j & rg & E). apply normalize_group_ok in E; [|exact Hn].
    by destruct E as [? ? ? ? ? ? ? ? ? ?]; constructor.
  - intros i g. rewrite list_lookup_imap. by intros (g0 & _ & ->)%fmap_Some.
  - by eapply normalize_assignments_ok.
  - by eapply normalize_allocations_ok.
Qed.
End normalized.


(** ** An example *)
#[local] Notation demo_sha := (λ _ : string, "0").
#[local] Notation demo_stations :=
  ([[("id", PStr "s10"); ("name", PStr "A10"); ("ap_count", PStr "2")]; [("id", PStr "s2"); ("name", PStr "A2 ")];
    [("id", PStr "s3"); ("name", PStr "A3"); ("enabled", PBool false)]] : list dict).
#[local] Notation demo_raw :=
  ([("planning_mode", PStr "station_grouped"); ("auto_group_station_count", PStr "2");
    ("groups", PList [PDict [("management_vlan", PStr "20"); ("mask_length", PInt 24);
      ("members", PList [PDict [("station_name", PStr "a2")]; PDict [("station_id", PStr "s10")]; PInt 3])]]);
    ("assignments", PList [PDict [("target_id", PStr "ap1"); ("group_id", PStr "vlan-group-0")]]);
    ("allocations", PList [PDict [("ap_id", PStr "ap1"); ("allocation_order", PStr "7")]])] : dict).


(** Why the condition: a mode of white space is nothing after the first reading and
    the default after the second. *)
Example blank_mode_drifts :
  match normalize_plan_draft demo_sha pretty [("planning_mode", PStr " ")] demo_stations with
  | Ok d =>
      pl_mode (dr_planning d) = "" ∧
      match normalize_plan_draft demo_sha pretty (draft_dict d) demo_stations with
      | Ok d' => pl_mode (dr_planning d') = STATION_INDEPENDENT
      | Err _ => False
      end
  | Err _ => False
  end.
Proof. vm_compute. done. Qed.
