(* ===== verification/VlanPlanning.v ===== *)
(** * The management VLAN plan of the trackside access points

    services/rail_transit/ap_management_vlan_planning.py, second part: automatic
    grouping and validation.  Each entry point takes a draft as a dictionary and
    normalizes it ([VlanDraft]); identifiers are drawn from a supply per call. *)

From S2P Require Import Prelude PyVal PyText VlanDraft.

(** ** Issues *)
Record PlanningIssue := Issue {
  is_code : string; is_severity : string; is_message : string; is_blocking : bool; is_field : string;
  is_group : string; is_station : string; is_ap : string;
}.
#[global] Instance issue_eq_dec : EqDecision PlanningIssue.
Proof. solve_decision. Defined.

Definition error (code message field group station : string) : PlanningIssue :=
  Issue code "error" message true field group station "".
Definition warning (code message field group : string) : PlanningIssue :=
  Issue code "warning" message false field group "" "".

(** The first issue of a key stays. *)
Definition issue_key (i : PlanningIssue) : string * string * string * string * string :=
  (is_code i, is_group i, is_station i, is_ap i, is_message i).
Fixpoint dedupe_from (seen : list (string * string * string * string * string)) (l : list PlanningIssue)
    : list PlanningIssue :=
  match l with
  | [] => []
  | i :: l' =>
      if bool_decide (issue_key i ∈ seen) then dedupe_from seen l' else i :: dedupe_from (issue_key i :: seen) l'
  end.
Definition dedupe_issues : list PlanningIssue → list PlanningIssue := dedupe_from [].

(** ** Automatic grouping *)

(** [[l[i : i + n] for i in range(0, len(l), n)]]; the length is enough fuel. *)
Fixpoint chunks_from {A} (fuel n : nat) (l : list A) : list (list A) :=
  match fuel, l with
  | S fuel, _ :: _ => take n l :: chunks_from fuel n (drop n l)
  | _, _ => []
  end.
Definition chunks_of {A} (n : nat) (l : list A) : list (list A) := chunks_from (length l) n l.

Definition default_group_name (chunk : list station) (sequence : nat) : string :=
  match head chunk, last chunk with
  | Some a, Some b => if String.eqb (st_name a) (st_name b) then st_name a else st_name a +:+ "～" +:+ st_name b
  | _, _ => "VLAN 组 " +:+ pretty (Z.of_nat sequence + 1)
  end.

(** [_new_group_from_seed], with its identifier, code, name and members replaced
    where the grouping does so. *)
Definition new_group (fresh : nat → string) (seed : option group) (exact : bool) (sequence : nat) (chunk : list station) : dict :=
  let code := "G" +:+ pad3 (Z.of_nat sequence + 1) in
  let text f d := match seed with Some g => str_or (f g) d | None => d end in
  [("group_id", PStr (if exact then text g_id ("vlan-group-" +:+ fresh sequence) else "vlan-group-" +:+ fresh sequence));
   ("line_id", PStr (text g_line "current"));
   ("group_code", PStr (if exact then text g_code code else code));
   ("group_name", PStr (if exact then text g_name ("VLAN 组 " +:+ pretty (Z.of_nat sequence + 1))
                        else default_group_name chunk sequence));
   ("sequence", PInt (Z.of_nat sequence));
   ("management_vlan", opt_int (seed ≫= g_vlan)); ("legacy_management_vlans", PStr (text g_legacy ""));
   ("network_address", PStr (text g_network "")); ("prefix_length", opt_int (seed ≫= g_prefix));
   ("subnet_mask", PStr (text g_mask "")); ("default_gateway", PStr (text g_gateway ""));
   ("ap_start_ip", PStr (text g_start "")); ("ap_end_ip", PStr (text g_end ""));
   ("address_allocation_strategy", PStr (text g_strategy DEFAULT_ALLOCATION_STRATEGY)); ("notes", PStr (text g_notes ""));
   ("members", PList ((PDict ∘ station_dict) <$> chunk))].

Definition member_ids (g : group) : list string := st_id <$> g_members g.
(** The groups by the stations they have, the last one for a station of several. *)
Definition groups_by_station (groups : list group) : list (string * (string * group)) :=
  index_by fst (concat ((λ g, (λ m, (st_id m, g)) <$> g_members g) <$> groups)).
Definition group_of_station (groups : list group) (id : string) : option group :=
  snd <$> alookup id (groups_by_station groups).

Definition line_chunks (mode : string) (n : nat) (rows : list station) : list (list station) :=
  if String.eqb mode LINE_SINGLE then (match rows with [] => [] | _ => [rows] end)
  else if String.eqb mode STATION_INDEPENDENT then (λ s, [s]) <$> rows
  else chunks_of n rows.

Section planning.
Context (sha12 : string → string).

(** The group of exactly these stations. *)
Definition exact_group (groups : list group) (chunk : list station) : option group :=
  alookup (st_id <$> chunk) (index_by member_ids groups).
Definition seeded_group (fresh : nat → string) (groups : list group) (i : nat) (chunk : list station) : dict :=
  match exact_group groups chunk with
  | Some g => new_group fresh (Some g) true i chunk
  | None =>
      new_group fresh (match head chunk with Some s => group_of_station groups (st_id s) | None => None end) false i chunk
  end.
(** The draft that [auto_group_draft] normalizes in the end. *)
Definition grouped_raw (fresh : nat → string) (mode : string) (n : Z) (rows : list station) (current : draft) : dict :=
  [("planning", PDict (dmerge (planning_dict (dr_planning current))
       [("planning_mode", PStr mode); ("auto_group_station_count", PInt (if String.eqb mode STATION_GROUPED then n else 1))]));
   ("groups", PList (PDict <$> imap (seeded_group fresh (dr_groups current)) (line_chunks mode (Z.to_nat n) rows)));
   ("assignments", PList ((PDict ∘ assignment_dict) <$> dr_assignments current));
   ("allocations", PList ((PDict ∘ allocation_dict) <$> dr_allocations current))].

Definition auto_group_draft (fresh0 fresh1 fresh2 : nat → string) (stations : list dict) (mode : string) (n : Z)
    (current_draft : dict) : res draft :=
  rows ← station_inputs sha12 stations;
  if negb (str_mem mode PLANNING_MODES) then Err ValueError
  else if String.eqb mode STATION_GROUPED && negb ((1 <=? n) && (n <=? 4)) then Err ValueError
  else
    current ← normalize_plan_draft sha12 fresh0 current_draft (station_dict <$> rows);
    normalize_plan_draft sha12 fresh2 (grouped_raw fresh1 mode n rows current) (station_dict <$> rows).

(** ** Validation *)
Definition validate_group_vlan (g : group) : list PlanningIssue :=
  let planned := fold_right Z.add 0 ((λ m, Z.max 0 (st_count m)) <$> g_members g) in
  let invalid := g_vlan_invalid g || match g_vlan g with Some v => negb ((1 <=? v) && (v <=? 4094)) | None => false end in
  if invalid || (bool_decide (g_vlan g = None) && (0 <? planned)) then
    [error "MANAGEMENT_VLAN_INVALID"
       (if invalid then g_name g +:+ " 的管理 VLAN 必须在 1～4094 范围内"
        else g_name g +:+ " 的 AP 数量大于 0，必须填写管理 VLAN") "management_vlan" (g_id g) ""]
  else [].

(** The place of a station on the line, the last one for stations of one id. *)
Definition position (rows : list station) (id : string) : option Z :=
  snd <$> alookup id (index_by fst (imap (λ i s, (st_id s, Z.of_nat i)) rows)).
Definition member_positions (rows : list station) (g : group) : list Z := omap (position rows) (member_ids g).

(** [list(range(min(l), max(l) + 1)) == l]. *)
Definition consecutive (l : list Z) : bool :=
  match l with
  | [] => true
  | x :: l' =>
      let lo := fold_right Z.min x l' in
      let hi := fold_right Z.max x l' in
      bool_decide (l = zseq lo (Z.to_nat (hi + 1 - lo)))
  end.

Definition group_issues (mode : string) (rows : list station) (g : group) : list PlanningIssue :=
  let members := g_members g in
  let count := length members in
  (if bool_decide (members = []) then [error "VLAN_GROUP_EMPTY" (g_name g +:+ " 没有站点") "members" (g_id g) ""] else [])
  ++ (if String.eqb mode STATION_GROUPED && bool_decide (4 < count)%nat
      then [error "VLAN_GROUP_TOO_LARGE" (g_name g +:+ " 包含 " +:+ pretty count +:+ " 个站点，分组模式最多 4 个") "members" (g_id g) ""]
      else [])
  ++ (if String.eqb mode STATION_INDEPENDENT && negb (bool_decide (count = 1%nat))
      then [error "INDEPENDENT_GROUP_SIZE_INVALID" (g_name g +:+ " 在每站独立模式下必须只包含一个站点") "members" (g_id g) ""]
      else [])
  ++ omap (λ m, match position rows (st_id m) with
                | Some _ => None
                | None =>
                    if bool_decide (rows = []) then None
                    else Some (error "STATION_MEMBER_UNKNOWN" (g_name g +:+ " 引用了不存在的站点“" +:+ st_name m +:+ "”") "members"
                                 (g_id g) (st_id m))
                end) members
  ++ (if consecutive (member_positions rows g) then []
      else [error "VLAN_GROUP_NOT_CONTIGUOUS" (g_name g +:+ " 的站点范围不连续") "members" (g_id g) ""])
  ++ validate_group_vlan g.

Definition station_issues (groups : list group) (s : station) : list PlanningIssue :=
  let count := length (List.filter (String.eqb (st_id s)) (concat (member_ids <$> groups))) in
  match count with
  | O => [error "STATION_UNASSIGNED" ("站点“" +:+ st_name s +:+ "”尚未分配 VLAN 组") "members" "" (st_id s)]
  | S O => []
  | _ => [error "STATION_ASSIGNED_MULTIPLE_GROUPS"
            ("站点“" +:+ st_name s +:+ "”重复归属 " +:+ pretty count +:+ " 个 VLAN 组") "members" "" (st_id s)]
  end.

Definition pair_warnings (g other : group) : list PlanningIssue :=
  let same := bool_decide (g_vlan g ≠ None) && bool_decide (g_vlan g = g_vlan other) in
  (if same then [warning "MANAGEMENT_VLAN_REUSED"
     (g_name g +:+ " 与 " +:+ g_name other +:+ " 使用相同 VLAN ID；隔离二层域中允许重复") "management_vlan" (g_id g)] else [])
  ++ (if (g_seq other =? g_seq g + 1) && same then [warning "ADJACENT_GROUPS_VLAN_EQUAL"
     (g_name g +:+ " 与 " +:+ g_name other +:+ " 使用相同管理 VLAN，如实际属于同一管理域，可考虑合并") "management_vlan" (g_id g)] else []).
Fixpoint cross_group_warnings (groups : list group) : list PlanningIssue :=
  match groups with
  | [] => []
  | g :: rest => concat (pair_warnings g <$> rest) ++ cross_group_warnings rest
  end.

(** The issues of a normalized draft, before duplicates are dropped. *)
Definition draft_issues (rows : list station) (d : draft) : list PlanningIssue :=
  let mode := pl_mode (dr_planning d) in
  let count := pl_count (dr_planning d) in
  let groups := dr_groups d in
  (if str_mem mode PLANNING_MODES then [] else [error "PLANNING_MODE_INVALID" "AP 管理 VLAN 规划方式无效" "planning_mode" "" ""])
  ++ (if String.eqb mode STATION_GROUPED && negb ((1 <=? count) && (count <=? 4))
      then [error "AUTO_GROUP_SIZE_INVALID" "每组站点数量只能为 1～4" "auto_group_station_count" "" ""] else [])
  ++ (if negb (bool_decide (rows = [])) && bool_decide (groups = [])
      then [error "VLAN_GROUP_REQUIRED" "当前线路存在站点，至少需要一个 AP 管理 VLAN 组" "" "" ""] else [])
  ++ concat (group_issues mode rows <$> groups)
  ++ concat (station_issues groups <$> rows)
  ++ (if String.eqb mode LINE_SINGLE && negb (bool_decide (rows = [])) && negb (bool_decide (length groups = 1%nat))
      then [error "LINE_SINGLE_GROUP_COUNT_INVALID" "全线统一 VLAN 模式必须且只能有一个 VLAN 组" "" "" ""] else [])
  ++ cross_group_warnings groups.

Definition validate_plan (fresh : nat → string) (raw : dict) (stations : list dict) : res (list PlanningIssue) :=
  rows ← station_inputs sha12 stations;
  d ← normalize_plan_draft sha12 fresh raw (station_dict <$> rows);
  Ok (dedupe_issues (draft_issues rows d)).
End planning.

(** ** Runs of a list *)
Section cut.
Context {A G : Type} (f : G → list A).

(** The groups, in some order, are the list. *)
Definition cut (groups : list G) (l : list A) : Prop := ∃ order, order ≡ₚ groups ∧ concat (f <$> order) = l.
Definition run_of (l r : list A) : Prop := ∃ a b, l = a ++ r ++ b.

Lemma run_disjoint g h b : run_of (g ++ b) h → h ≠ [] → (∀ x, x ∈ g → x ∉ h) → run_of b h.
Proof.
  intros (a' & b' & E) Hh Hd. assert (∃ a'', a' = g ++ a'') as [a'' ->].
  { revert a' E Hd. induction g as [|x g IH]; intros a' E Hd; [by exists a'|]. destruct a' as [|y a'].
    - exfalso. destruct h as [|z h]; [done|]. simpl in E. injection E as -> _. by apply (Hd z); [left|left].
    - simpl in E. injection E as -> E. destruct (IH a' E) as [a'' ->]; [set_solver|]. by exists a''. }
  exists a'', b'. rewrite <- app_assoc in E. by apply app_inv_head in E.
Qed.

Lemma concat_perm (l1 l2 : list G) : l1 ≡ₚ l2 → concat (f <$> l1) ≡ₚ concat (f <$> l2).
Proof.
  induction 1 as [|x l1 l2 _ IH|x y l|l1 l2 l3 _ IH1 _ IH2]; simpl; [done|by rewrite IH| |by rewrite IH1].
  rewrite !app_assoc. by rewrite (Permutation_app_comm (f y)).
Qed.

(** Runs that hold every element once cut the list. *)
Lemma runs_cut groups l :
  NoDup l → Forall (λ g, f g ≠ [] ∧ run_of l (f g)) groups → concat (f <$> groups) ≡ₚ l → cut groups l.
Proof.
  remember (length groups) as n eqn:Hlen. revert groups l Hlen. induction n as [|n IH]; intros groups l Hlen Hn Hg Hp.
  - destruct groups; [|done]. simpl in Hp. apply Permutation_nil in Hp as ->. by exists [].
  - destruct l as [|x l].
    { destruct groups as [|g groups]; [done|]. apply Forall_cons in Hg as [[Hne _] _].
      apply Permutation_sym, Permutation_nil in Hp. simpl in Hp. by apply app_nil in Hp as [? _]. }
    assert (x ∈ concat (f <$> groups)) as Hx by (rewrite Hp; by left).
    apply list_elem_of_In, in_concat in Hx as (r & Hr & Hxr). apply list_elem_of_In in Hr, Hxr.
    apply list_elem_of_fmap in Hr as (g & -> & Hin).
    destruct (list_elem_of_split _ _ Hin) as (g1 & g2 & Hsplit). set (rest := g1 ++ g2).
    assert (groups ≡ₚ g :: rest) as Hgs by (rewrite Hsplit; unfold rest; by rewrite Permutation_middle).
    pose proof (proj1 (Forall_forall _ _) Hg g Hin) as [Hne (a & b & E)].
    assert (a = []) as ->.
    { destruct a as [|y a]; [done|]. exfalso. simpl in E. injection E as -> E. apply NoDup_cons in Hn as [Hn _].
      apply Hn. rewrite E. set_solver. }
    simpl in E. rewrite E in Hn, Hp. apply NoDup_app in Hn as (_ & Hd & Hb).
    assert (concat (f <$> rest) ≡ₚ b) as Hp2.
    { rewrite (concat_perm _ _ Hgs) in Hp. simpl in Hp. by apply Permutation_app_inv_l in Hp. }
    destruct (IH rest b) as (order & Ho & Hc); [|done| |done|].
    + apply Permutation_length in Hgs. simpl in Hgs. lia.
    + apply Forall_forall. intros h Hh. assert (h ∈ groups) as Hhg by (rewrite Hgs; by right).
      pose proof (proj1 (Forall_forall _ _) Hg h Hhg) as [Hhne Hrun]. split; [done|]. rewrite E in Hrun.
      apply (run_disjoint (f g)); [done|done|]. intros y Hy1 Hy2. apply (Hd y Hy1). rewrite <- Hp2.
      apply list_elem_of_In, in_concat. exists (f h). split; apply list_elem_of_In; [by apply list_elem_of_fmap_2|done].
    + exists (g :: order). split; [by rewrite Hgs, Ho|]. change (f g ++ concat (f <$> order) = x :: l). by rewrite Hc, E.
Qed.

Lemma cut_run groups l g : cut groups l → g ∈ groups → run_of l (f g).
Proof.
  intros (order & Ho & <-) Hg. rewrite <- Ho in Hg. destruct (list_elem_of_split _ _ Hg) as (o1 & o2 & ->).
  exists (concat (f <$> o1)), (concat (f <$> o2)). by rewrite fmap_app, concat_app.
Qed.
Lemma cut_perm groups l : cut groups l → concat (f <$> groups) ≡ₚ l.
Proof. intros (order & Ho & <-). by apply concat_perm. Qed.
End cut.

(** *** Positions *)
Lemma zseq_S lo n : zseq lo (S n) = lo :: zseq (lo + 1) n.
Proof.
  apply list_eq. intros [|i]; rewrite !zseq_lookup; simpl; [f_equal; lia|]. rewrite zseq_lookup.
  destruct (decide (S i < S n)%nat), (decide (i < n)%nat); try lia; [f_equal; lia|done].
Qed.

Lemma zseq_min lo n : fold_right Z.min lo (zseq (lo + 1) n) = lo.
Proof.
  assert (∀ k, lo ≤ k → fold_right Z.min lo (zseq k n) = lo) as H; [|apply H; lia].
  induction n as [|n IH]; intros k Hk; [done|]. rewrite zseq_S. simpl. rewrite IH by lia. lia.
Qed.
Lemma zseq_max lo n : fold_right Z.max lo (zseq (lo + 1) n) = lo + Z.of_nat n.
Proof.
  assert (∀ k, lo ≤ k → fold_right Z.max lo (zseq k n) = if decide (n = 0)%nat then lo else k + Z.of_nat n - 1) as H.
  { induction n as [|n IH]; intros k Hk; [done|]. rewrite zseq_S. simpl. rewrite IH by lia. destruct (decide (n = 0)%nat); lia. }
  rewrite H by lia. destruct (decide (n = 0)%nat); lia.
Qed.

Lemma consecutive_iff l : consecutive l = true ↔ ∃ lo, l = zseq lo (length l).
Proof.
  destruct l as [|x l]; [split; [by exists 0|done]|]. unfold consecutive. rewrite bool_decide_eq_true. split.
  - intros H. eexists. etrans; [exact H|]. f_equal. apply (f_equal length) in H. unfold zseq in H at 1.
    rewrite length_fmap, length_seq in H. done.
  - intros [lo H]. simpl in H. rewrite zseq_S in H. injection H as -> Hl. rewrite Hl, zseq_min, zseq_max.
    replace (Z.to_nat (lo + Z.of_nat (length l) + 1 - lo)) with (S (length l)) by lia. rewrite zseq_S. by f_equal.
Qed.

Section positions.
Context (rows : list station) (Hids : NoDup (st_id <$> rows)).
#[local] Notation ids := (st_id <$> rows).

Lemma position_spec id k : position rows id = Some k ↔ 0 ≤ k ∧ ids !! Z.to_nat k = Some id.
Proof using Hids.
  unfold position. set (l := imap _ rows).
  assert (NoDup (fst <$> l)) as Hn.
  { assert (fst <$> l = ids) as ->; [|done]. apply list_eq. intros i. unfold l.
    rewrite !list_lookup_fmap, list_lookup_imap. by destruct (rows !! i). }
  split.
  - intros ([i z] & E & Hz)%fmap_Some. simpl in Hz. subst z. apply index_by_Some in E as [E <-]. simpl.
    apply list_elem_of_lookup_1 in E as [j E]. unfold l in E. rewrite list_lookup_imap in E.
    apply fmap_Some in E as (s & Hs & [= -> ->]). split; [lia|]. rewrite Nat2Z.id, list_lookup_fmap, Hs. done.
  - intros [Hk Hi]. rewrite list_lookup_fmap in Hi. apply fmap_Some in Hi as (s & Hs & ->). apply fmap_Some.
    exists (st_id s, k). split; [|done]. change (st_id s) with (fst (st_id s, k)). apply index_by_lookup; [done|].
    apply (list_elem_of_lookup_2 _ (Z.to_nat k)). unfold l. rewrite list_lookup_imap, Hs. simpl. by rewrite Z2Nat.id.
Qed.

Lemma position_None id : position rows id = None ↔ id ∉ ids.
Proof using Hids.
  split.
  - intros H [i Hi]%list_elem_of_lookup_1. assert (position rows id = Some (Z.of_nat i)) as H2; [|congruence].
    apply position_spec. rewrite Nat2Z.id. split; [lia|done].
  - intros H. destruct (position rows id) as [k|] eqn:E; [|done]. apply position_spec in E as [_ E].
    by apply list_elem_of_lookup_2 in E.
Qed.

(** Known members have consecutive places exactly when they are a run. *)
Lemma positions_run (r : list string) :
  (∀ x, x ∈ r → x ∈ ids) → (consecutive (omap (position rows) r) = true ↔ run_of ids r).
Proof using Hids.
  intros Hr. rewrite consecutive_iff.
  assert (Forall2 (λ x k, position rows x = Some k) r (omap (position rows) r)) as H2.
  { clear -Hr Hids. induction r as [|x r IH]; [constructor|]. simpl.
    destruct (position rows x) as [k|] eqn:E.
    - constructor; [done|]. apply IH. intros y Hy. apply Hr. by right.
    - apply position_None in E. destruct E. apply Hr. by left. }
  set (ps := omap (position rows) r) in *. split.
  - intros [lo E]. destruct r as [|x r'] eqn:Er; [by exists [], ids|]. rewrite <- Er in *.
    assert (0 ≤ lo) as Hlo.
    { destruct ps as [|p ps']; [subst r; by inversion H2|]. simpl in E. rewrite zseq_S in E. injection E as -> _.
      subst r. inversion H2 as [|? ? ? ? Hp]; subst. by apply position_spec in Hp as [? _]. }
    exists (take (Z.to_nat lo) ids), (drop (length r) (drop (Z.to_nat lo) ids)).
    rewrite <- (take_drop (Z.to_nat lo) ids) at 1. f_equal. rewrite <- (take_drop (length r) (drop _ ids)) at 1. f_equal.
    symmetry. apply list_eq_same_length with (length r); [|done|].
    + assert (length r = length ps) as Hlen by by eapply Forall2_length.
      destruct (last r) as [z|] eqn:El; [|by apply last_None in El; subst].
      rewrite length_take, length_drop. enough (Z.to_nat lo + length r ≤ length ids)%nat by lia.
      rewrite last_lookup in El. destruct (Forall2_lookup_l _ _ _ _ _ H2 El) as (k & Hk & Hz).
      apply position_spec in Hz as [Hk0 Hz%lookup_lt_Some]. rewrite E, zseq_lookup in Hk.
      assert (length r ≠ 0)%nat by (subst r; done). rewrite decide_True in Hk by lia. injection Hk as <-. lia.
    + intros i x0 y Hi Hx Hy. destruct (Forall2_lookup_l _ _ _ _ _ H2 Hx) as (k & Hk & Hz).
      apply position_spec in Hz as [Hk0 Hz]. rewrite E, zseq_lookup in Hk.
      destruct (decide _); [|done]. injection Hk as <-. rewrite lookup_take_lt, lookup_drop in Hy by lia.
      replace (Z.to_nat (lo + Z.of_nat i)) with (Z.to_nat lo + i)%nat in Hz by lia. congruence.
  - intros (a & b & E). exists (Z.of_nat (length a)). apply list_eq. intros i. rewrite zseq_lookup.
    assert (length r = length ps) as Hlen by by eapply Forall2_length.
    destruct (decide (i < length ps)%nat) as [Hi|Hi]; [|by apply lookup_ge_None; lia].
    destruct (lookup_lt_is_Some_2 r i) as [x Hx]; [lia|]. destruct (Forall2_lookup_l _ _ _ _ _ H2 Hx) as (k & Hk & Hz).
    rewrite Hk. f_equal. assert (position rows x = Some (Z.of_nat (length a) + Z.of_nat i)) as H; [|congruence].
    apply position_spec. split; [lia|]. rewrite E, lookup_app_r by lia.
    replace (Z.to_nat (Z.of_nat (length a) + Z.of_nat i) - length a)%nat with i by lia. by apply lookup_app_l_Some.
Qed.
End positions.

(** ** What validation accepts *)
Definition size_ok (mode : string) (g : group) : Prop :=
  let n := length (g_members g) in
  (1 ≤ n)%nat ∧ (mode = STATION_GROUPED → n ≤ 4)%nat ∧ (mode = STATION_INDEPENDENT → n = 1%nat).

(** A group with access points has a VLAN, and a VLAN is a legal one. *)
Definition vlan_ok (g : group) : Prop :=
  g_vlan_invalid g = false ∧
  match g_vlan g with Some v => 1 ≤ v ≤ 4094 | None => Forall (λ m, st_count m ≤ 0) (g_members g) end.

(** The groups cut the line into runs of stations. *)
Record plan_ok (rows : list station) (d : draft) : Prop := PlanOk {
  po_mode : pl_mode (dr_planning d) ∈ PLANNING_MODES;
  po_count : pl_mode (dr_planning d) = STATION_GROUPED → 1 ≤ pl_count (dr_planning d) ≤ 4;
  po_single : pl_mode (dr_planning d) = LINE_SINGLE → length (dr_groups d) = 1%nat;
  po_sizes : Forall (size_ok (pl_mode (dr_planning d))) (dr_groups d);
  po_vlans : Forall vlan_ok (dr_groups d);
  po_cut : cut member_ids (dr_groups d) (st_id <$> rows);
}.

#[local] Notation quiet := (λ i : PlanningIssue, is_blocking i = false).

Lemma quiet_if (c : bool) code message field group station :
  Forall quiet (if c then [error code message field group station] else []) ↔ c = false.
Proof. destruct c; split; intros H; try done. by apply Forall_cons in H as [? _]. Qed.

Lemma quiet_concat {A} (f : A → list PlanningIssue) l : Forall quiet (concat (f <$> l)) ↔ Forall (λ x, Forall quiet (f x)) l.
Proof.
  induction l as [|x l IH]; [split; constructor|]. change (concat (f <$> x :: l)) with (f x ++ concat (f <$> l)).
  by rewrite Forall_app, Forall_cons, IH.
Qed.

Lemma quiet_warnings groups : Forall quiet (cross_group_warnings groups).
Proof.
  induction groups as [|g rest IH]; [constructor|]. simpl. apply Forall_app. split; [|done]. apply quiet_concat.
  apply Forall_forall. intros o _. unfold pair_warnings. apply Forall_app. split; [|destruct (_ =? _)];
    destruct (_ && _); repeat constructor.
Qed.

Lemma planned_nonneg (l : list station) : 0 ≤ fold_right Z.add 0 ((λ m, 0 `max` st_count m) <$> l).
Proof. induction l as [|m l IH]; [done|]. 
  change (0 ≤ 0 `max` st_count m + fold_right Z.add 0 ((λ m, 0 `max` st_count m) <$> l)). lia.
Qed.

Lemma validate_vlan_quiet g : Forall quiet (validate_group_vlan g) ↔ vlan_ok g.
Proof.
  unfold validate_group_vlan, vlan_ok. set (planned := fold_right _ _ _). rewrite quiet_if.
  assert (0 <? planned = false ↔ Forall (λ m, st_count m ≤ 0) (g_members g)) as Hp.
  { unfold planned. clear planned. rewrite Z.ltb_ge. induction (g_members g) as [|m l IH]; [split; [constructor|done]|].
    rewrite Forall_cons, <- IH. pose proof (planned_nonneg l).
    change (0 `max` st_count m + fold_right Z.add 0 ((λ m, 0 `max` st_count m) <$> l) ≤ 0 ↔
      st_count m ≤ 0 ∧ fold_right Z.add 0 ((λ m, 0 `max` st_count m) <$> l) ≤ 0). lia. }
  rewrite !orb_false_iff, andb_false_iff, Hp, bool_decide_eq_false. destruct (g_vlan g) as [v|].
  - rewrite negb_false_iff, andb_true_iff, !Z.leb_le. naive_solver.
  - naive_solver.
Qed.

Section valid.
Context (rows : list station) (Hids : NoDup (st_id <$> rows)) (Hrows : rows ≠ []).

Lemma group_issues_quiet mode g :
  Forall quiet (group_issues mode rows g) ↔
  size_ok mode g ∧ vlan_ok g ∧ (∀ x, x ∈ member_ids g → x ∈ st_id <$> rows) ∧ run_of (st_id <$> rows) (member_ids g).
Proof using Hids Hrows.
  unfold group_issues. rewrite !Forall_app, !quiet_if, validate_vlan_quiet.
  assert (Forall quiet (omap (λ m, match position rows (st_id m) with
    | Some _ => None
    | None => if bool_decide (rows = []) then None
              else Some (error "STATION_MEMBER_UNKNOWN" (g_name g +:+ " 引用了不存在的站点“" +:+ st_name m +:+ "”") "members"
                           (g_id g) (st_id m))
    end) (g_members g)) ↔ (∀ x, x ∈ member_ids g → x ∈ st_id <$> rows)) as ->.
  { rewrite bool_decide_eq_false_2 by done. unfold member_ids. induction (g_members g) as [|m l IH]; [split; [by intros _ ? ?%not_elem_of_nil|constructor]|].
    simpl. destruct (position rows (st_id m)) as [k|] eqn:E.
    - rewrite IH. assert (st_id m ∈ st_id <$> rows) by (apply position_spec in E as [_ E]; [by apply list_elem_of_lookup_2 in E|done]).
      set_solver.
    - apply position_None in E; [|done]. rewrite Forall_cons. split; [naive_solver|]. intros H. destruct E. apply H. by left. }
  unfold size_ok. set (n := length (g_members g)).
  assert (bool_decide (g_members g = []) = false ↔ (1 ≤ n)%nat) as ->.
  { rewrite bool_decide_eq_false. unfold n. destruct (g_members g); simpl; [split; [done|lia]|split; [lia|done]]. }
  assert (String.eqb mode STATION_GROUPED && bool_decide (4 < n)%nat = false ↔ (mode = STATION_GROUPED → n ≤ 4)%nat) as ->.
  { rewrite andb_false_iff, bool_decide_eq_false, String.eqb_neq. destruct (decide (mode = STATION_GROUPED)); naive_solver lia. }
  assert (String.eqb mode STATION_INDEPENDENT && negb (bool_decide (n = 1%nat)) = false ↔
          (mode = STATION_INDEPENDENT → n = 1%nat)) as ->.
  { rewrite andb_false_iff, negb_false_iff, bool_decide_eq_true, String.eqb_neq.
    destruct (decide (mode = STATION_INDEPENDENT)); naive_solver. }
  assert (∀ c : bool, Forall quiet (if c then [] else
    [error "VLAN_GROUP_NOT_CONTIGUOUS" (g_name g +:+ " 的站点范围不连续") "members" (g_id g) ""]) ↔ c = true) as ->.
  { intros []; split; intros H; try done. by apply Forall_cons in H as [? _]. }
  split.
  - intros (H1 & H2 & H3 & H4 & H5 & H6). split_and!; try done. by apply (positions_run rows Hids (member_ids g) H4).
  - intros ((H1 & H2 & H3) & H6 & H4 & H5). split_and!; try done. by apply (positions_run rows Hids (member_ids g) H4).
Qed.

Lemma station_issues_quiet groups s :
  Forall quiet (station_issues groups s) ↔ length (List.filter (String.eqb (st_id s)) (concat (member_ids <$> groups))) = 1%nat.
Proof using Type.
  unfold station_issues. destruct (length _) as [|[|n]]; split; intros H; try done; by apply Forall_cons in H as [? _].
Qed.

Lemma filter_count x (l : list string) : length (List.filter (String.eqb x) l) = count_occ (String.string_dec) l x.
Proof using Type.
  induction l as [|y l IH]; [done|]. simpl. destruct (String.eqb_spec x y), ((String.string_dec) y x); simpl; congruence.
Qed.

(** Groups of stations of the line that hold each of them once hold the line. *)
Lemma members_once (groups : list group) :
  (∀ g, g ∈ groups → ∀ x, x ∈ member_ids g → x ∈ st_id <$> rows) →
  (∀ s, s ∈ rows → count_occ (String.string_dec) (concat (member_ids <$> groups)) (st_id s) = 1%nat) →
  concat (member_ids <$> groups) ≡ₚ st_id <$> rows.
Proof using Hids.
  intros Hk Hc. apply (Permutation_count_occ (String.string_dec)). intros x. destruct (decide (x ∈ st_id <$> rows)) as [Hx|Hx].
  - pose proof Hx as (s & -> & Hs)%list_elem_of_fmap. rewrite (Hc s Hs). symmetry.
    apply NoDup_count_occ'; [by apply NoDup_ListNoDup|by apply list_elem_of_In].
  - rewrite (proj1 (count_occ_not_In (String.string_dec) (st_id <$> rows) x)) by (rewrite <- list_elem_of_In; done).
    apply count_occ_not_In. intros (r & Hr & Hxr)%in_concat. apply list_elem_of_In in Hr, Hxr.
    apply list_elem_of_fmap in Hr as (g & -> & Hg). by apply Hx, (Hk g).
Qed.

(** A validated draft is a plan, and a plan is validated. *)
Lemma draft_issues_quiet d : Forall quiet (draft_issues rows d) ↔ plan_ok rows d.
Proof using Hids Hrows.
  unfold draft_issues. set (mode := pl_mode (dr_planning d)). set (count := pl_count (dr_planning d)).
  rewrite !Forall_app, !quiet_if, !quiet_concat, !(bool_decide_eq_false_2 (rows = [])) by done.
  assert (∀ c : bool, Forall quiet (if c then [] else [error "PLANNING_MODE_INVALID" "AP 管理 VLAN 规划方式无效" "planning_mode" "" ""])
    ↔ c = true) as -> by (intros []; split; intros H; try done; by apply Forall_cons in H as [? _]).
  rewrite str_mem_iff.
  assert (String.eqb mode STATION_GROUPED && negb ((1 <=? count) && (count <=? 4)) = false ↔
          (mode = STATION_GROUPED → 1 ≤ count ≤ 4)) as ->.
  { rewrite andb_false_iff, negb_false_iff, andb_true_iff, !Z.leb_le, String.eqb_neq.
    destruct (decide (mode = STATION_GROUPED)); naive_solver. }
  assert (String.eqb mode LINE_SINGLE && negb false && negb (bool_decide (length (dr_groups d) = 1%nat)) = false ↔
          (mode = LINE_SINGLE → length (dr_groups d) = 1%nat)) as ->.
  { simpl. rewrite andb_true_r, andb_false_iff, negb_false_iff, bool_decide_eq_true, String.eqb_neq.
    destruct (decide (mode = LINE_SINGLE)); naive_solver. }
  setoid_rewrite group_issues_quiet. setoid_rewrite station_issues_quiet. setoid_rewrite filter_count.
  rewrite !Forall_forall. split.
  - intros (H1 & H2 & H3 & H4 & H5 & H6 & _). split; try done; try (apply Forall_forall; intros g Hg; by apply H4 in Hg as (? & ? & ?)).
    apply runs_cut; [done| |].
    + apply Forall_forall. intros g Hg. apply H4 in Hg as ((Hs & _) & _ & _ & Hr). split; [|done].
      unfold member_ids. destruct (g_members g); [simpl in Hs; lia|done].
    + apply members_once; [intros g Hg; by apply H4 in Hg as (_ & _ & ? & _)|done].
  - intros [P1 P2 P3 P4 P5 P6]. split_and!; try done.
    + simpl. apply bool_decide_eq_false. intros H. apply cut_perm in P6. rewrite H in P6. simpl in P6.
      apply Permutation_nil in P6. by destruct rows.
    + intros g Hg. pose proof (cut_run _ _ _ _ P6 Hg) as Hr.
      split_and!; [by apply (proj1 (Forall_forall _ _) P4)|by apply (proj1 (Forall_forall _ _) P5)| |done].
      destruct Hr as (a & b & ->). intros x Hx. set_solver.
    + intros s Hs. rewrite (proj1 (Permutation_count_occ String.string_dec _ _) (cut_perm _ _ _ P6)).
      apply NoDup_count_occ'; [by apply NoDup_ListNoDup|]. apply list_elem_of_In. by apply list_elem_of_fmap_2.
    + apply Forall_forall, quiet_warnings.
Qed.
End valid.

(** *** Duplicates *)

(** Issues of one key are alike, errors or warnings. *)
Definition WARNING_CODES : list string := ["MANAGEMENT_VLAN_REUSED"; "ADJACENT_GROUPS_VLAN_EQUAL"].
Definition coded (i : PlanningIssue) : Prop := is_blocking i = negb (str_mem (is_code i) WARNING_CODES).

Lemma dedupe_in seen l i : i ∈ dedupe_from seen l → i ∈ l.
Proof.
  revert seen. induction l as [|x l IH]; intros seen; simpl; [done|]. destruct (bool_decide _); [intros H; right; by eapply IH|].
  intros [->|H]%elem_of_cons; [by left|right; by eapply IH].
Qed.
Lemma dedupe_keeps seen l i : i ∈ l → issue_key i ∈ seen ∨ ∃ j, j ∈ dedupe_from seen l ∧ issue_key j = issue_key i.
Proof.
  revert seen. induction l as [|x l IH]; intros seen; [by intros ?%not_elem_of_nil|]. intros [->|H]%elem_of_cons; simpl.
  - case_bool_decide as Hx; [by left|]. right. exists x. split; [by left|done].
  - case_bool_decide as Hx; [by apply IH|]. destruct (IH (issue_key x :: seen) H) as [[E|Hs]%elem_of_cons|(j & Hj & E)].
    + right. exists x. split; [by left|done].
    + by left.
    + right. exists j. split; [by right|done].
Qed.

Lemma dedupe_quiet l : Forall coded l → Forall quiet (dedupe_issues l) ↔ Forall quiet l.
Proof.
  rewrite !Forall_forall. intros Hc. split; intros H i Hi.
  - destruct (dedupe_keeps [] l i Hi) as [?%not_elem_of_nil|(j & Hj & E)]; [done|].
    assert (is_code i = is_code j) as Ec by by injection E. rewrite (Hc i Hi), Ec, <- (Hc j); [by apply H|by eapply dedupe_in].
  - apply H. by eapply dedupe_in.
Qed.

Lemma coded_if (c : bool) code message field group station :
  str_mem code WARNING_CODES = false → Forall coded (if c then [error code message field group station] else []).
Proof. intros H. destruct c; repeat constructor. change (true = negb (str_mem code WARNING_CODES)). by rewrite H. Qed.
Lemma coded_concat {A} (f : A → list PlanningIssue) l : (∀ x, Forall coded (f x)) → Forall coded (concat (f <$> l)).
Proof.
  intros H. induction l as [|x l IH]; [constructor|]. change (concat (f <$> x :: l)) with (f x ++ concat (f <$> l)).
  by apply Forall_app.
Qed.

Lemma draft_issues_coded rows d : Forall coded (draft_issues rows d).
Proof.
  unfold draft_issues. repeat (apply Forall_app; split); try (by apply coded_if).
  - destruct (str_mem _ _); repeat constructor.
  - apply coded_concat. intros g. unfold group_issues. repeat (apply Forall_app; split); try (by apply coded_if).
    + induction (g_members g) as [|m l IH]; [constructor|]. simpl. destruct (position _ _); [done|].
      destruct (bool_decide _); [done|]. by constructor.
    + destruct (consecutive _); repeat constructor.
  - apply coded_concat. intros s. unfold station_issues. destruct (length _) as [|[|n]]; repeat constructor.
  - induction (dr_groups d) as [|g rest IH]; [constructor|]. simpl. apply Forall_app. split; [|done].
    apply coded_concat. intros o. unfold pair_warnings. apply Forall_app.
    split; [|destruct (_ =? _)]; destruct (_ && _); repeat constructor.
Qed.

(** C23: validation is exact.  On a line of stations with distinct identifiers it
    reports no blocking issue exactly for the drafts whose groups, in some order,
    are the line cut into runs of neighbouring stations - one group in the line
    mode, one station each in the independent mode, at most four in the grouped
    mode - each with a legal VLAN where it has access points. *)
Theorem validate_plan_exact sha12 fresh raw stations rows d :
  station_inputs sha12 stations = Ok rows → NoDup (st_id <$> rows) → rows ≠ [] →
  normalize_plan_draft sha12 fresh raw (station_dict <$> rows) = Ok d →
  ∃ issues, validate_plan sha12 fresh raw stations = Ok issues ∧
    (Forall (λ i, is_blocking i = false) issues ↔ plan_ok rows d).
Proof.
  intros Hs Hids Hrows Hd. unfold validate_plan. rewrite Hs. cbn [mbind res_bind]. rewrite Hd. eexists. split; [done|].
  rewrite dedupe_quiet by apply draft_issues_coded. by apply draft_issues_quiet.
Qed.

(** ** Automatic grouping gives a plan *)
#[local] Transparent dget dset.

Lemma chunks_from_spec {A} fuel n (l : list A) :
  (0 < n)%nat → (length l ≤ fuel)%nat →
  concat (chunks_from fuel n l) = l ∧ Forall (λ c, c ≠ [] ∧ length c ≤ n)%nat (chunks_from fuel n l).
Proof.
  intros Hn. revert l. induction fuel as [|fuel IH]; intros l Hl; [by destruct l; [split; [done|constructor]|simpl in Hl; lia]|].
  destruct l as [|x l]; [split; [done|constructor]|]. simpl chunks_from. destruct (IH (drop n (x :: l))) as [H1 H2].
  { rewrite length_drop. simpl in *. lia. }
  split; [change (take n (x :: l) ++ concat (chunks_from fuel n (drop n (x :: l))) = x :: l); by rewrite H1, take_drop|].
  constructor; [|done]. split; [destruct n; [lia|done]|]. rewrite length_take. lia.
Qed.

Lemma line_chunks_spec mode n rows :
  mode ∈ PLANNING_MODES → (mode = STATION_GROUPED → 1 ≤ n ≤ 4)%nat →
  concat (line_chunks mode n rows) = rows ∧
  Forall (λ c, 1 ≤ length c ∧ (mode = STATION_GROUPED → length c ≤ 4) ∧ (mode = STATION_INDEPENDENT → length c = 1))%nat
    (line_chunks mode n rows) ∧
  (mode = LINE_SINGLE → rows ≠ [] → length (line_chunks mode n rows) = 1%nat).
Proof.
  intros Hm Hn. unfold line_chunks.
  assert (mode = LINE_SINGLE ∨ mode = STATION_INDEPENDENT ∨ mode = STATION_GROUPED) as [H|[H|H]]
    by (unfold PLANNING_MODES in Hm; set_solver); subst mode; simpl.
  - destruct rows as [|s rows]; [split_and!; [done|constructor|done]|]. simpl. rewrite app_nil_r.
    split_and!; [done| |done]. constructor; [|constructor]. simpl. split_and!; [lia|done|done].
  - split_and!; [|apply Forall_forall; intros c (s & -> & _)%list_elem_of_fmap; simpl; split_and!; try done; lia|done].
    induction rows as [|s rows IH]; [done|]. change (s :: concat ((λ s, [s]) <$> rows) = s :: rows). by rewrite IH.
  - destruct (Hn eq_refl) as [H1 H4]. destruct (chunks_from_spec (length rows) n rows) as [E F]; [lia|done|].
    split_and!; [done| |done]. eapply Forall_impl; [exact F|]. simpl. intros c [Hc Hl].
    split_and!; [destruct c; simpl; [done|lia]|lia|done].
Qed.

Lemma mapped_lookup {B} (f : nat → dict → res B) i ds xs :
  mapped f i (PDict <$> ds) = Ok xs →
  length xs = length ds ∧ ∀ j x, xs !! j = Some x → ∃ d, ds !! j = Some d ∧ f (i + j)%nat d = Ok x.
Proof.
  revert i xs. induction ds as [|d ds IH]; intros i xs; simpl; [by intros [= <-]|].
  intros (x & Hx & (ys & Hy & [= <-])%res_bind_Ok)%res_bind_Ok. apply IH in Hy as [Hl Hj]. split; [simpl; lia|].
  intros [|j] y; simpl; [intros [= <-]; exists d; by rewrite Nat.add_0_r|]. intros H. apply Hj in H as (d' & Hd & E).
  exists d'. split; [done|]. by rewrite <- plus_n_Sm in *.
Qed.

Section auto.
Context (sha12 : string → string) (rows : list station) (Hline : line_of rows) (Hids : NoDup (st_id <$> rows)).

Lemma homed_row s : s ∈ rows → homed rows s.
Proof using Hids.
  intros H. left. unfold find_station. by rewrite index_by_lookup.
Qed.

Lemma run_sorted chunk : run_of rows chunk → StronglySorted (λ a b, member_leb a b = true) chunk.
Proof using Hline.
  intros (a & b & E). apply (ascending_sorted st_seq). pose proof (line_ascending _ Hline) as H. rewrite E in H.
  apply StronglySorted_app in H as (_ & _ & H). by apply StronglySorted_app in H as (_ & H & _).
Qed.

Lemma new_group_read fresh fresh' p i j seed exact chunk g :
  run_of rows chunk →
  normalize_group sha12 fresh' rows p j (new_group fresh seed exact i chunk) = Ok g →
  g_members g = chunk ∧ g_seq g = Z.of_nat i ∧ g_vlan g = (seed ≫= g_vlan) ∧
  g_id g = strip (text_or (dget "group_id" (new_group fresh seed exact i chunk)) ("vlan-group-" +:+ fresh' j)).
Proof using Hline Hids.
  intros Hrun. unfold normalize_group.
  assert (list_or_raise (dget "members" (new_group fresh seed exact i chunk)) = Ok ((PDict ∘ station_dict) <$> chunk)) as ->
    by (destruct chunk; done).
  cbn [mbind res_bind]. rewrite (mapped_dicts _ station_dict id).
  2:{ intros k s Hs. apply normalize_member_again; [done|]. apply homed_row. destruct Hrun as (a & b & ->). set_solver. }
  cbn [mbind res_bind]. rewrite list_fmap_id.
  change (dget "sequence" (new_group fresh seed exact i chunk)) with (PInt (Z.of_nat i)). simpl to_int. cbn [mbind res_bind].
  intros H%Ok_inj. rewrite <- H. cbn [g_members g_seq g_vlan g_id].
  rewrite sort_by_id by by apply run_sorted.
  change (dget "management_vlan" (new_group fresh seed exact i chunk)) with (opt_int (seed ≫= g_vlan)).
  change (dget "ap_management_vlan" (new_group fresh seed exact i chunk)) with PNone.
  split_and!; [done|done| |done].
  destruct (seed ≫= g_vlan) as [v|]; [|done]. exact (optional_int_opt (Some v)).
Qed.

Lemma seeded_exact fresh groups i chunk g : exact_group groups chunk = Some g → seeded_group fresh groups i chunk = new_group fresh (Some g) true i chunk.
Proof using Type. unfold seeded_group. by intros ->. Qed.
Lemma seeded_other fresh groups i chunk : exact_group groups chunk = None → ∃ seed, seeded_group fresh groups i chunk = new_group fresh seed false i chunk.
Proof using Type. unfold seeded_group. intros ->. by eexists. Qed.

(** The groups made of runs are read with their stations and their places, and
    with the settings of the groups of exactly these stations. *)
Lemma grouped_read fresh fresh' p chunks current groups :
  Forall (run_of rows) chunks →
  mapped (normalize_group sha12 fresh' rows p) 0 (PDict <$> imap (seeded_group fresh current) chunks) = Ok groups →
  length groups = length chunks ∧
  ∀ i g, groups !! i = Some g → ∃ chunk, chunks !! i = Some chunk ∧ g_members g = chunk ∧ g_seq g = Z.of_nat i ∧
    ∀ g0, exact_group current chunk = Some g0 →
      g_vlan g = g_vlan g0 ∧ (strip (g_id g0) = g_id g0 → g_id g0 ≠ "" → g_id g = g_id g0).
Proof using Hline Hids.
  intros Hruns [Hlen Hg]%mapped_lookup. rewrite length_imap in Hlen. split; [done|].
  intros i g Hi. apply Hg in Hi as (raw & Hi & E). rewrite list_lookup_imap in Hi. apply fmap_Some in Hi as (chunk & Hi & ->).
  exists chunk. split; [done|]. assert (run_of rows chunk) as Hrun by by apply (proj1 (Forall_lookup _ _) Hruns i).
  destruct (exact_group current chunk) as [g0|] eqn:Ex.
  - rewrite (seeded_exact _ _ _ _ _ Ex) in E. apply new_group_read in E as (E1 & E2 & E3 & E4); [|done]. split_and!; [done|done|].
    intros ? [= <-]. split; [by rewrite E3|]. intros H1 H2. rewrite E4.
    change (dget "group_id" (new_group fresh (Some g0) true i chunk)) with (PStr (str_or (g_id g0) ("vlan-group-" +:+ fresh i))).
    unfold str_or. destruct (String.eqb_spec (g_id g0) ""); [done|]. by rewrite text_or_PStr.
  - destruct (seeded_other fresh _ i _ Ex) as [seed Es]. rewrite Es in E.
    apply new_group_read in E as (E1 & E2 & E3 & E4); [|done]. by split_and!.
Qed.
End auto.

Lemma normalize_parts sha12 fresh raw rows d :
  line_of rows → normalize_plan_draft sha12 fresh raw (station_dict <$> rows) = Ok d →
  let source := match dget "planning" raw with PDict d => d | _ => raw end in
  to_int (por (dget "auto_group_station_count" source) (PInt 1)) = Ok (pl_count (dr_planning d)) ∧
  pl_mode (dr_planning d) = strip (text_or (dget "planning_mode" source) STATION_INDEPENDENT) ∧
  ∃ p raws groups, list_or_raise (dget "groups" raw) = Ok raws ∧ mapped (normalize_group sha12 fresh rows p) 0 raws = Ok groups ∧
    dr_groups d = imap with_seq (sort_by group_leb groups).
Proof.
  intros Hl. unfold normalize_plan_draft. rewrite station_inputs_again by done. cbn [mbind res_bind].
  intros (count & Hcount & (revision & _ & (raws & Hr & (groups & Hg & (assigns & _ & (allocs & _ & [= <-])%res_bind_Ok)
    %res_bind_Ok)%res_bind_Ok)%res_bind_Ok)%res_bind_Ok)%res_bind_Ok.
  split_and!; [done|done|]. by eexists _, raws, groups.
Qed.

Lemma fmap_with_seq {B} (f : group → B) l : (∀ i g, f (with_seq i g) = f g) → f <$> imap with_seq l = f <$> l.
Proof.
  intros H. apply list_eq. intros i. rewrite !list_lookup_fmap, list_lookup_imap. destruct (l !! i); simpl; [by rewrite H|done].
Qed.

(** What the automatic grouping reads back: the chunks in their order, with the
    settings of the groups that had exactly these stations. *)
Lemma auto_groups_read sha12 fresh0 fresh1 fresh2 stations mode n raw rows current d :
  (∀ s, no_space (sha12 s) = true) →
  station_inputs sha12 stations = Ok rows → NoDup (st_id <$> rows) →
  normalize_plan_draft sha12 fresh0 raw (station_dict <$> rows) = Ok current →
  auto_group_draft sha12 fresh0 fresh1 fresh2 stations mode n raw = Ok d →
  (mode ∈ PLANNING_MODES ∧ (mode = STATION_GROUPED → 1 ≤ n ≤ 4)) ∧
  (pl_mode (dr_planning d) = mode ∧ pl_count (dr_planning d) = (if String.eqb mode STATION_GROUPED then n else 1)) ∧
  g_members <$> dr_groups d = line_chunks mode (Z.to_nat n) rows ∧
  ∀ i chunk g g0, line_chunks mode (Z.to_nat n) rows !! i = Some chunk → dr_groups d !! i = Some g →
    exact_group (dr_groups current) chunk = Some g0 →
    g_vlan g = g_vlan g0 ∧ (strip (g_id g0) = g_id g0 → g_id g0 ≠ "" → g_id g = g_id g0).
Proof.
  intros Hsha Hs Hids Hc. unfold auto_group_draft. rewrite Hs. cbn [mbind res_bind].
  destruct (str_mem mode PLANNING_MODES) eqn:Hm; [|done]. simpl negb. cbv iota.
  destruct (String.eqb mode STATION_GROUPED && negb ((1 <=? n) && (n <=? 4))) eqn:Hn; [done|].
  rewrite Hc. cbn [mbind res_bind]. apply str_mem_iff in Hm.
  assert (mode = STATION_GROUPED → 1 ≤ n ≤ 4) as Hn4.
  { intros ->. simpl in Hn. apply negb_false_iff, andb_true_iff in Hn as [H1%Z.leb_le H2%Z.leb_le]. lia. }
  clear Hn. pose proof (station_inputs_line _ Hsha _ _ Hs) as Hline. intros Hd.
  destruct (normalize_parts _ _ _ _ _ Hline Hd) as (Hcount & Hmode & p & raws & groups & Hr & Hg & Hgs).
  destruct (line_chunks_spec mode (Z.to_nat n) rows Hm) as (Hconcat & _ & _); [intros E; specialize (Hn4 E); lia|].
  set (chunks := line_chunks mode (Z.to_nat n) rows) in *.
  change (dget "groups" (grouped_raw fresh1 mode n rows current)) with
    (PList (PDict <$> imap (seeded_group fresh1 (dr_groups current)) chunks)) in Hr.
  rewrite list_or_raise_PList in Hr. injection Hr as <-.
  assert (Forall (run_of rows) chunks) as Hruns.
  { apply Forall_forall. intros c (c1 & c2 & E)%list_elem_of_split. rewrite <- Hconcat, E.
    exists (concat c1), (concat c2). by rewrite concat_app. }
  destruct (grouped_read _ _ Hline Hids _ _ _ _ _ _ Hruns Hg) as [Hlen Hread].
  assert (sort_by group_leb groups = groups) as Hsorted.
  { apply sort_by_id, (ascending_sorted g_seq), places_ascending. intros i g Hi. by apply Hread in Hi as (? & _ & _ & H & _). }
  rewrite Hsorted in Hgs. rewrite Hgs. split_and!; try done.
  - rewrite Hmode. change (dget "planning" (grouped_raw fresh1 mode n rows current)) with
      (PDict (planning_dict (Planning (pl_line (dr_planning current)) mode (if String.eqb mode STATION_GROUPED then n else 1)
         (pl_strategy (dr_planning current)) (pl_revision (dr_planning current)) (pl_created (dr_planning current))
         (pl_updated (dr_planning current))))). cbv iota.
    change (dget "planning_mode" (planning_dict _)) with (PStr mode).
    assert (mode = LINE_SINGLE ∨ mode = STATION_INDEPENDENT ∨ mode = STATION_GROUPED) as [H|[H|H]]
      by (unfold PLANNING_MODES in Hm; set_solver); by subst mode.
  - assert (to_int (por (PInt (if String.eqb mode STATION_GROUPED then n else 1)) (PInt 1)) = Ok (pl_count (dr_planning d))) as E
      by exact Hcount.
    rewrite por_one in E. destruct (String.eqb_spec mode STATION_GROUPED) as [Hmg|]; [|by injection E].
    specialize (Hn4 Hmg). destruct (Z.eqb_spec n 0); [lia|]. by injection E.
  - rewrite fmap_with_seq by done. apply list_eq. intros i. rewrite list_lookup_fmap.
    destruct (groups !! i) as [g|] eqn:Hi; simpl.
    + apply Hread in Hi as (chunk & -> & <- & _). done.
    + symmetry. apply lookup_ge_None. rewrite <- Hlen. by apply lookup_ge_None.
  - intros i chunk g g0 Hi Hgi Hex. rewrite list_lookup_imap in Hgi. apply fmap_Some in Hgi as (g1 & Hg1 & ->). simpl.
    apply Hread in Hg1 as (chunk' & Hc' & _ & _ & H). rewrite Hi in Hc'. injection Hc' as <-. by apply H.
Qed.

(** C25: automatic grouping yields a plan.  Whatever draft stands before, the
    result has the wanted mode and cuts the line into its stations one by one, all
    of them, or so many at a time; it is valid as soon as the VLANs are; and a
    group that had exactly the stations of a new one keeps its VLAN and its
    identifier. *)
Theorem auto_group_valid sha12 fresh0 fresh1 fresh2 stations mode n raw rows current d :
  (∀ s, no_space (sha12 s) = true) →
  station_inputs sha12 stations = Ok rows → NoDup (st_id <$> rows) → rows ≠ [] →
  normalize_plan_draft sha12 fresh0 raw (station_dict <$> rows) = Ok current →
  auto_group_draft sha12 fresh0 fresh1 fresh2 stations mode n raw = Ok d →
  pl_mode (dr_planning d) = mode ∧ g_members <$> dr_groups d = line_chunks mode (Z.to_nat n) rows ∧
  (Forall vlan_ok (dr_groups d) ↔ plan_ok rows d) ∧
  ∀ i g g0, dr_groups d !! i = Some g → exact_group (dr_groups current) (g_members g) = Some g0 →
    g_vlan g = g_vlan g0 ∧ (strip (g_id g0) = g_id g0 → g_id g0 ≠ "" → g_id g = g_id g0).
Proof.
  intros Hsha Hs Hids Hrows Hc Hd.
  destruct (auto_groups_read _ _ _ _ _ _ _ _ _ _ _ Hsha Hs Hids Hc Hd) as ((Hm & Hn) & (Hmode & Hcount) & Hg & Hkeep).
  destruct (line_chunks_spec mode (Z.to_nat n) rows Hm) as (Hconcat & Hsizes & Hsingle); [intros E; specialize (Hn E); lia|].
  split_and!; [done|done| |].
  - split; [|by intros []]. intros Hv. constructor; rewrite ?Hmode; try done.
    + intros E. rewrite Hcount, E. simpl. by apply Hn.
    + intros E. rewrite <- (Hsingle E Hrows), <- Hg. by rewrite length_fmap.
    + apply Forall_forall. intros g Hin. assert (g_members g ∈ line_chunks mode (Z.to_nat n) rows) as Hch
        by (rewrite <- Hg; by apply list_elem_of_fmap_2).
      by apply (proj1 (Forall_forall _ _) Hsizes) in Hch.
    + exists (dr_groups d). split; [done|]. rewrite <- Hconcat, <- Hg. clear.
      induction (dr_groups d) as [|g l IH]; [done|].
      change (member_ids g ++ concat (member_ids <$> l) = st_id <$> (g_members g ++ concat (g_members <$> l))).
      by rewrite fmap_app, IH.
  - intros i g g0 Hi Hex. apply (Hkeep i (g_members g) g g0); [|done|done]. by rewrite <- Hg, list_lookup_fmap, Hi.
Qed.

(** ** Examples *)
#[local] Notation demo_sha := (λ _ : string, "0").
#[local] Notation demo_stations :=
  ([[("id", PStr "s1"); ("name", PStr "A1"); ("ap_count", PInt 2)]; [("id", PStr "s2"); ("name", PStr "A2")];
    [("id", PStr "s3"); ("name", PStr "A3")]] : list dict).
#[local] Notation demo_group vlan ids :=
  (PDict [("management_vlan", PStr vlan); ("members", PList ((λ i, PDict [("station_id", PStr i)]) <$> ids))]).
#[local] Notation demo_raw groups :=
  ([("planning_mode", PStr "station_grouped"); ("auto_group_station_count", PInt 2); ("groups", PList groups)] : dict).

Lemma demo_ids rows : station_inputs demo_sha demo_stations = Ok rows → NoDup (st_id <$> rows) ∧ rows ≠ [].
Proof.
  intros H%(f_equal (λ r, match r with Ok l => l | Err _ => [] end)). simpl in H. subst rows.
  split; [apply (bool_decide_unpack _); vm_compute; exact I|done].
Qed.

(** The line in two runs is accepted, the same stations in two other groups are not. *)
Lemma validate_plan_exact_witness :
  (∃ rows d issues, validate_plan demo_sha pretty (demo_raw [demo_group "20" ["s1"; "s2"]; demo_group "30" ["s3"]]) demo_stations
      = Ok issues ∧ (Forall (λ i, is_blocking i = false) issues ↔ plan_ok rows d) ∧ issues = []) ∧
  (∃ rows d issues, validate_plan demo_sha pretty (demo_raw [demo_group "20" ["s1"; "s3"]; demo_group "30" ["s2"]]) demo_stations
      = Ok issues ∧ (Forall (λ i, is_blocking i = false) issues ↔ plan_ok rows d) ∧
      is_code <$> issues = ["VLAN_GROUP_NOT_CONTIGUOUS"]).
Proof.
  split.
  - eexists _, _.
    edestruct (validate_plan_exact demo_sha pretty (demo_raw [demo_group "20" ["s1"; "s2"]; demo_group "30" ["s3"]]) demo_stations)
      as (issues & H & Hok); [vm_compute; reflexivity| | |vm_compute; reflexivity|].
    + by apply demo_ids.
    + done.
    + exists issues. split; [exact H|]. split; [exact Hok|]. vm_compute in H. by injection H as <-.
  - eexists _, _.
    edestruct (validate_plan_exact demo_sha pretty (demo_raw [demo_group "20" ["s1"; "s3"]; demo_group "30" ["s2"]]) demo_stations)
      as (issues & H & Hok); [vm_compute; reflexivity| | |vm_compute; reflexivity|].
    + by apply demo_ids.
    + done.
    + exists issues. split; [exact H|]. split; [exact Hok|]. vm_compute in H. by injection H as <-.
Defined.

(** Pairs of stations: the group of the first two stations keeps its VLAN. *)
Lemma auto_group_valid_witness :
  ∃ rows current d,
    normalize_plan_draft demo_sha pretty (demo_raw [demo_group "20" ["s1"; "s2"]]) (station_dict <$> rows) = Ok current ∧
    auto_group_draft demo_sha pretty pretty pretty demo_stations STATION_GROUPED 2 (demo_raw [demo_group "20" ["s1"; "s2"]]) = Ok d ∧
    g_vlan <$> dr_groups d = [Some 20; None] ∧
    pl_mode (dr_planning d) = STATION_GROUPED ∧ g_members <$> dr_groups d = line_chunks STATION_GROUPED (Z.to_nat 2) rows ∧
    (Forall vlan_ok (dr_groups d) ↔ plan_ok rows d).
Proof.
  eexists _, _, _. split; [|split; [vm_compute; reflexivity|]].
  2: split; [vm_compute; reflexivity|].
  2: edestruct (auto_group_valid demo_sha pretty pretty pretty demo_stations STATION_GROUPED 2
       (demo_raw [demo_group "20" ["s1"; "s2"]])) as (H1 & H2 & H3 & _);
     [reflexivity|vm_compute; reflexivity|by apply demo_ids|done|vm_compute; reflexivity|vm_compute; reflexivity|
      split; [exact H1|split; [exact H2|exact H3]]].
  vm_compute; reflexivity.
Defined.
