(* ===== verification/VlanAllocation.v ===== *)
(** * The VLAN of each access point

    services/rail_transit/ap_management_vlan_planning.py, third part: the group
    that an access point belongs to ([effective_group_for_ap]), the allocations of
    a plan, the enriched view and what is made of it - the effect of a change, the
    network of one station or access point, the point table, the exports.  An
    access point is a dictionary. *)

From S2P Require Import Prelude PyVal PyText VlanDraft VlanPlanning.

Definition REALLOCATION_ONLY_UNLOCKED : string := "only_unlocked".
Definition REALLOCATION_ALL : string := "all".
Definition UNKNOWN_SEQUENCE : Z := 1000000000.

(** ** The group of an access point *)
Definition ap_key (ap : dict) : string := text_or_empty (por (dget "id" ap) (dget "ap_id" ap)).

(** [ap.get("base_metadata") or {}], on which [get] is called next. *)
Definition base_metadata (ap : dict) : res dict :=
  let v := dget "base_metadata" ap in
  if truthy v then match v with PDict d => Ok d | _ => Err AttributeError end else Ok [].

Definition start_name (ap : dict) : res string :=
  let own := dget "section_start_station" ap in
  v ← (if truthy own then Ok own else meta ← base_metadata ap; Ok (dget "section_start_station" meta));
  Ok (strip (text_or_empty v)).

(** [station_by_name]: here the stations without a name take part. *)
Definition by_name (rows : list station) (name : string) : option station :=
  alookup (casefold name) (index_by (casefold ∘ st_name) rows).
Definition ap_station (rows : list station) (ap : dict) : option station :=
  by_name rows (strip (text_or_empty (por (dget "station" ap) (dget "station_name" ap)))).

Section effective.
Context (rows : list station) (groups : list group) (assignments : list assignment).

Definition group_of_id (id : string) : option group := alookup id (index_by g_id groups).
Definition assignment_for (target : string) : option assignment := alookup target (index_by as_target assignments).
(** The assignment of a target with the group it names. *)
Definition assigned (target : string) : option (assignment * group) :=
  match assignment_for target with
  | Some a => match group_of_id (as_group a) with Some g => Some (a, g) | None => None end
  | None => None
  end.
Definition assigned_as (type target : string) : option (assignment * group) :=
  match assigned target with
  | Some (a, g) => if String.eqb (as_type a) type then Some (a, g) else None
  | None => None
  end.
Definition station_group (s : option station) : option (station * group) :=
  match s with
  | Some s => match group_of_station groups (st_id s) with Some g => Some (s, g) | None => None end
  | None => None
  end.

(** The group, the source of the decision, the station of the access point. *)
Definition effective_group_for_ap (ap : dict) : res (option group * string * string) :=
  start ← start_name ap;
  match assigned_as "ap_override" (ap_key ap) with
  | Some (a, g) =>
      Ok (Some g, str_or (as_source a) (str_or (as_type a) "ap_override"),
          match ap_station rows ap with Some s => st_id s | None => "" end)
  | None =>
      match station_group (ap_station rows ap) with
      | Some (s, g) => Ok (Some g, "station_inherited", st_id s)
      | None =>
          meta ← base_metadata ap;
          let section_id := text_or_empty (dget "section_id" meta) in
          let section_name := text_or_empty (por (dget "section" ap) (dget "section_name" ap)) in
          Ok (match assigned section_id, assigned (if str_nonempty section_name then "section:" +:+ section_name else "") with
              | Some (a, g), _ | None, Some (a, g) => (Some g, str_or (as_source a) "section_default", "")
              | None, None =>
                  match assigned_as "interval_default" (ap_key ap), station_group (by_name rows start) with
                  | Some (a, g), _ => (Some g, str_or (as_source a) "interval_start_default", "")
                  | None, Some (_, g) => (Some g, "interval_start_default", "")
                  | None, None => (None, "unresolved", "")
                  end
              end)
      end
  end.

(** ** Allocations *)
Record resolved := Resolved { rv_ap : dict; rv_group : group; rv_source : string; rv_station : string }.

(** The access points that have a group, and the assignments derived on the way. *)
Fixpoint resolve_aps (fresh : nat → string) (i : nat) (aps : list dict) : res (list resolved * list assignment) :=
  match aps with
  | [] => Ok ([], [])
  | ap :: aps' =>
      '(g, source, id) ← effective_group_for_ap ap;
      '(items, derived) ← resolve_aps fresh (S i) aps';
      Ok (match g with
          | None => (items, derived)
          | Some g =>
              (Resolved ap g source id :: items,
               if String.eqb source "interval_start_default" && bool_decide (assignment_for (strip (ap_key ap)) = None)
               then Assignment ("assignment-" +:+ fresh i) "interval_default" (strip (ap_key ap)) (g_id g) source "" :: derived
               else derived)
          end)
  end.

Definition sequence_of (id : string) : Z :=
  match alookup id (index_by st_id rows) with Some s => st_seq s | None => UNKNOWN_SEQUENCE end.
Definition allocation_station_sequence (it : resolved) : res Z :=
  if str_nonempty (rv_station it) then Ok (sequence_of (rv_station it))
  else
    start ← start_name (rv_ap it);
    Ok (match by_name rows start with Some s => sequence_of (st_id s) | None => UNKNOWN_SEQUENCE end).

Record sort_key := SortKey { sk_seq : Z; sk_point : list atom; sk_name : list atom; sk_id : string }.
Definition sort_key_leb : sort_key → sort_key → bool :=
  then_leb (on sk_seq Z.leb) (then_leb (on sk_point key_leb) (then_leb (on sk_name key_leb) (on sk_id String.leb))).
Definition allocation_key (it : resolved) : res (sort_key * resolved) :=
  sequence ← allocation_station_sequence it;
  let ap := rv_ap it in
  Ok (SortKey sequence (natural_key (text_or_empty (por (dget "point_code" ap) (dget "ap_point_code" ap))))
        (natural_key (text_or_empty (por (dget "name" ap) (dget "ap_name" ap)))) (ap_key ap), it).

Definition reference_ip (ap : dict) : string :=
  text_or_empty (por (por (dget "management_ip" ap) (dget "ap_ip" ap)) (dget "ip" ap)).

Definition allocation_of (existing : list allocation) (group_id : string) (order : nat) (it : resolved) : allocation :=
  let ap := rv_ap it in
  let old := alookup (ap_key ap) (index_by lo_ap existing) in
  let text f := match old with Some a => f a | None => "" end in
  let flag f := match old with Some a => f a | None => false end in
  Allocation (ap_key ap) (text_or_empty (por (dget "name" ap) (dget "ap_name" ap)))
    (text_or_empty (por (dget "point_code" ap) (dget "ap_point_code" ap))) (rv_station it)
    (text_or_empty (por (dget "station" ap) (dget "station_name" ap)))
    (text_or_empty (por (dget "section" ap) (dget "section_name" ap))) group_id
    (str_or (reference_ip ap) (text lo_ip)) (Z.of_nat order) (flag lo_manual) (flag lo_locked)
    (if str_nonempty (reference_ip ap) then "existing_ap" else str_or (text lo_source) "reference_only")
    (rv_source it) (text lo_updated).

(** One group: its access points in order. *)
Definition allocate_group (existing : list allocation) (gi : string * list resolved) : res (list allocation) :=
  keyed ← mapM allocation_key gi.2;
  Ok (imap (allocation_of existing gi.1) (sort_by (on fst sort_key_leb) keyed).*2).

Definition allocate_resolved (existing : list allocation) (items : list resolved) : res (list allocation) :=
  parts ← mapM (allocate_group existing) (gather (g_id ∘ rv_group) items);
  Ok (concat parts).
End effective.

Section allocate.
Context (sha12 : string → string).

Definition allocate_addresses (fresh0 fresh1 : nat → string) (draft : dict) (stations aps : list dict) (policy : string)
    : res (list allocation * list assignment) :=
  if negb (str_mem policy [REALLOCATION_ONLY_UNLOCKED; REALLOCATION_ALL]) then Err ValueError
  else
    rows ← station_inputs sha12 stations;
    d ← normalize_plan_draft sha12 fresh0 draft (station_dict <$> rows);
    '(items, derived) ← resolve_aps rows (dr_groups d) (dr_assignments d) fresh1 0 aps;
    allocations ← allocate_resolved rows (dr_allocations d) items;
    Ok (allocations, derived).

(** ** The enriched plan *)

(** [_group_statistics]; the capacity, the number of used addresses and the
    normalized end address are constants there or copies. *)
Record group_view := GroupView {
  gv_group : group; gv_start : string; gv_end : string; gv_station_count : Z; gv_ap_count : Z;
  gv_status : string; gv_issues : list PlanningIssue;
}.

Definition group_statistics (rows : list station) (allocations : list allocation) (issues : list PlanningIssue) (g : group)
    : group_view :=
  let members := (λ m, default m (alookup (st_id m) (index_by st_id rows))) <$> g_members g in
  let own := List.filter (String.eqb (g_id g) ∘ lo_group) allocations in
  let found := List.filter (λ i, String.eqb (g_id g) (is_group i) && str_nonempty (is_group i)) issues in
  GroupView g (match head members with Some m => st_name m | None => "" end)
    (match last members with Some m => st_name m | None => "" end) (Z.of_nat (length (g_members g)))
    (Z.max (Z.of_nat (length own)) (sumZ (st_count <$> members)))
    (if existsb is_blocking found then "error" else if bool_decide (found = []) then "valid" else "warning") found.

(** [_station_details]. *)
Record station_detail := Detail {
  de_station : station; de_group_id : string; de_group_code : string; de_group_name : string; de_start : string;
  de_end : string; de_vlan : option Z; de_network : string; de_prefix : option Z; de_mask : string; de_gateway : string;
  de_source : string; de_notes : string;
}.

Definition station_details (groups : list group) (allocations : list allocation) (s : station) : station_detail :=
  let g := group_of_station groups (st_id s) in
  let text f := match g with Some g => f g | None => "" end in
  let addresses := List.filter str_nonempty (lo_ip <$> List.filter (String.eqb (st_id s) ∘ lo_station) allocations) in
  Detail s (text g_id) (text g_code) (match g with Some g => str_or (g_name g) "未分配" | None => "未分配" end)
    (default "" (head addresses)) (default "" (last addresses)) (g ≫= g_vlan) (text g_network) (g ≫= g_prefix)
    (text g_mask) (text g_gateway) (match g with Some _ => "vlan_group_inherited" | None => "unassigned" end) (text g_notes).

Record plan_view := View {
  vw_draft : draft; vw_groups : list group_view; vw_details : list station_detail; vw_issues : list PlanningIssue;
  vw_valid : bool; vw_unassigned : Z;
}.

(** The draft with the assignments and allocations found, and its view. *)
Definition prepared_draft (d : draft) (derived : list assignment) (allocations : list allocation) : draft :=
  Draft (dr_planning d) (dr_groups d)
    (dr_assignments d ++ List.filter (λ a, negb (str_mem (as_target a) (as_target <$> dr_assignments d))) derived) allocations.
Definition plan_view_of (rows : list station) (prepared : draft) (issues : list PlanningIssue) : plan_view :=
  let details := station_details (dr_groups prepared) (dr_allocations prepared) <$> rows in
  View prepared (group_statistics rows (dr_allocations prepared) issues <$> dr_groups prepared) details issues
    (negb (existsb is_blocking issues))
    (Z.of_nat (length (List.filter (λ e, negb (str_nonempty (de_group_id e))) details))).

(** The identifiers are drawn from one supply per use of [uuid4]. *)
Definition enrich_plan (fresh : nat → nat → string) (draft : dict) (stations aps : list dict) (policy : string) : res plan_view :=
  rows ← station_inputs sha12 stations;
  d ← normalize_plan_draft sha12 (fresh 0%nat) draft (station_dict <$> rows);
  '(allocations, derived) ←
    allocate_addresses (fresh 1%nat) (fresh 2%nat) (draft_dict d) (station_dict <$> rows) aps policy;
  let prepared := prepared_draft d derived allocations in
  issues ← validate_plan sha12 (fresh 3%nat) (draft_dict prepared) (station_dict <$> rows);
  Ok (plan_view_of rows prepared issues).

(** ** The effect of a change *)
Record impact := Impact {
  im_old_groups : Z; im_new_groups : Z; im_stations : Z; im_aps : Z; im_vlans : Z; im_conflicts : Z; im_warnings : Z;
  im_issues : list PlanningIssue;
}.

Definition count_if {A} (p : A → bool) (l : list A) : Z := Z.of_nat (length (List.filter p l)).
(** [set(a) | set(b)] of the keys of two dictionaries. *)
Definition either_key {A B} (a : list (string * A)) (b : list (string * B)) : list string := remove_dups (a.*1 ++ b.*1).

Definition view_impact (before after : plan_view) : impact :=
  let s0 := index_by (st_id ∘ de_station) (vw_details before) in
  let s1 := index_by (st_id ∘ de_station) (vw_details after) in
  let a0 := index_by lo_ap (dr_allocations (vw_draft before)) in
  let a1 := index_by lo_ap (dr_allocations (vw_draft after)) in
  let group d id := de_group_id <$> alookup id d in
  let vlan d id := alookup id d ≫= de_vlan in
  Impact (Z.of_nat (length (vw_groups before))) (Z.of_nat (length (vw_groups after)))
    (count_if (λ id, bool_decide (group s0 id ≠ group s1 id) || bool_decide (vlan s0 id ≠ vlan s1 id)) (either_key s0 s1))
    (count_if (λ id, bool_decide (lo_group <$> alookup id a0 ≠ lo_group <$> alookup id a1)) (either_key a0 a1))
    (count_if (λ id, bool_decide (vlan s0 id ≠ vlan s1 id)) (either_key s0 s1))
    (count_if is_blocking (vw_issues after)) (count_if (negb ∘ is_blocking) (vw_issues after)) (vw_issues after).

Definition plan_impact (fresh0 fresh1 : nat → nat → string) (current proposed : dict) (stations aps : list dict) : res impact :=
  before ← enrich_plan fresh0 current stations aps REALLOCATION_ONLY_UNLOCKED;
  after ← enrich_plan fresh1 proposed stations aps REALLOCATION_ONLY_UNLOCKED;
  Ok (view_impact before after).

(** ** The network of a station or an access point *)
Definition network_payload (g : group) (source : string) : dict :=
  [("vlan_group_id", PStr (g_id g)); ("vlan_group_code", PStr (g_code g)); ("vlan_group_name", PStr (g_name g));
   ("management_vlan", opt_int (g_vlan g)); ("network_address", PStr (g_network g)); ("prefix_length", opt_int (g_prefix g));
   ("subnet_mask", PStr (g_mask g)); ("default_gateway", PStr (g_gateway g)); ("ap_start_ip", PStr (g_start g));
   ("ap_end_ip", PStr (g_end g)); ("address_allocation_strategy", PStr (g_strategy g)); ("source", PStr source)].

(** The identifier of the group, [""] when there is none yet, and its source. *)
Definition network_of_ap (d : draft) (ap_id : string) : string * string :=
  let known id := bool_decide (is_Some (group_of_id (dr_groups d) id)) in
  let assignment := List.find (String.eqb ap_id ∘ as_target) (dr_assignments d) in
  let allocation := List.find (String.eqb ap_id ∘ lo_ap) (dr_allocations d) in
  let by_assignment p :=
    match assignment with
    | Some a => if p a && known (as_group a) then Some (as_group a, str_or (as_source a) (as_type a)) else None
    | None => None
    end in
  match by_assignment (λ a, String.eqb (as_type a) "ap_override") with
  | Some r => r
  | None =>
      match allocation with
      | Some l =>
          if known (lo_group l) then (lo_group l, str_or (lo_group_source l) (lo_source l))
          else default ("", "") (by_assignment (λ _, true))
      | None => default ("", "") (by_assignment (λ _, true))
      end
  end.

Definition effective_network (fresh : nat → string) (draft : dict) (stations : list dict) (station_id ap_id : string)
    : res (option dict) :=
  d ← normalize_plan_draft sha12 fresh draft stations;
  let '(id, source) := if str_nonempty ap_id then network_of_ap d ap_id else ("", "") in
  let '(id, source) :=
    if negb (str_nonempty id) && str_nonempty station_id then
      match List.find (λ g, str_mem station_id (member_ids g)) (dr_groups d) with
      | Some g => (g_id g, "station_inherited")
      | None => (id, source)
      end
    else (id, source) in
  Ok ((λ g, network_payload g (str_or source "group")) <$> group_of_id (dr_groups d) id).

(** ** The point table *)
Record point_row := PointRow {
  pr_ap : string; pr_station : string; pr_section : string; pr_name : string; pr_point : string; pr_ip : string;
  pr_vlan : option Z; pr_mask : string; pr_prefix : option Z; pr_gateway : string; pr_group : string; pr_code : string;
  pr_group_name : string; pr_source : string; pr_locked : bool;
}.

Definition point_row_of (by_id : list (string * dict)) (groups : list group) (a : allocation) : res point_row :=
  let ap := default [] (alookup (lo_ap a) by_id) in
  let text k s := text_or_empty (por (dget k ap) (PStr s)) in
  match group_of_id groups (lo_group a) with
  | None => Err KeyError
  | Some g =>
      Ok (PointRow (lo_ap a) (text "station" (lo_station_name a)) (text "section" (lo_section a)) (text "name" (lo_name a))
            (text "point_code" (lo_point a)) (str_or (reference_ip ap) (lo_ip a)) (g_vlan g) (g_mask g) (g_prefix g)
            (g_gateway g) (g_id g) (g_code g) (g_name g) (lo_source a) (lo_locked a))
  end.

Definition build_point_table_rows (fresh : nat → nat → string) (draft : dict) (stations aps : list dict) : res (list point_row) :=
  view ← enrich_plan fresh draft stations aps REALLOCATION_ONLY_UNLOCKED;
  if negb (vw_valid view) then Err ValueError
  else
    let allocations := dr_allocations (vw_draft view) in
    table ← mapM (point_row_of (index_by ap_key aps) (gv_group <$> vw_groups view)) allocations;
    if forallb (λ ap, str_mem (ap_key ap) (lo_ap <$> allocations)) aps then Ok table else Err ValueError.

(** ** Exports *)

(** [_stations_from_groups]: the members as station rows. *)
Definition member_row (m : dict) : dict :=
  [("id", PStr (text_or_empty (dget "station_id" m))); ("name", PStr (text_or_empty (dget "station_name" m)));
   ("sort_order", dget "station_sequence" m); ("ap_count", dget "ap_count" m); ("enabled", PBool true)].
Definition dict_elements (v : pyval) : list dict :=
  match v with PList l => omap (λ x, match x with PDict d => Some d | _ => None end) l | _ => [] end.
Definition stations_from_groups (groups : pyval) : list dict :=
  (index_by (dget "id") (member_row <$> concat ((λ g, dict_elements (dget "members" g)) <$> dict_elements groups))).*2.

Record legacy_row := LegacyRow {
  lr_station : station; lr_start : string; lr_prefix : option Z; lr_gateway : string; lr_vlans : string; lr_remark : string;
}.
Definition legacy_rows_of (g : group) : list legacy_row :=
  let vlans := if str_nonempty (g_legacy g) then g_legacy g else match g_vlan g with Some v => pretty v | None => "" end in
  (λ m, LegacyRow m (g_start g) (g_prefix g) (g_gateway g) vlans (g_notes g)) <$> g_members g.

Definition project_legacy_station_rows (fresh : nat → string) (draft : dict) : res (list legacy_row) :=
  d ← normalize_plan_draft sha12 fresh draft (stations_from_groups (dget "groups" draft));
  Ok (sort_by (on lr_station member_leb) (concat (legacy_rows_of <$> dr_groups d))).

Record export_row := ExportRow {
  ex_mode : string; ex_group : group; ex_start : string; ex_end : string; ex_ids : string; ex_names : string;
  ex_station : option station; ex_order : Z; ex_locked : bool; ex_vlans : string;
}.
Definition group_export (d : draft) (g : group) : list export_row :=
  let members := g_members g in
  (λ m : option station,
     let own := match m with
                | Some s => List.filter (String.eqb (st_id s) ∘ lo_station) (dr_allocations d)
                | None => List.filter (String.eqb "" ∘ lo_station) (dr_allocations d)
                end in
     ExportRow (pl_mode (dr_planning d)) g (match head members with Some s => st_name s | None => "" end)
       (match last members with Some s => st_name s | None => "" end) (join "," (st_id <$> members))
       (join "、" (st_name <$> members)) m
       (match lo_order <$> own with [] => 0 | z :: l => foldr Z.min z l end) (existsb lo_locked own)
       (text_or_empty (opt_int (g_vlan g))))
  <$> (match members with [] => [None] | _ => Some <$> members end).
Definition export_rows (fresh : nat → string) (draft : dict) : res (list export_row) :=
  d ← normalize_plan_draft sha12 fresh draft (stations_from_groups (dget "groups" draft));
  Ok (concat (group_export d <$> dr_groups d)).

(** ** Plans of the earlier form *)

(** [_vlan_tokens]: the numbers and ranges of numbers of a text; the set of the
    code is the ascending list of its elements. *)
Definition token_range (token : string) : option (Z * Z) :=
  if has_char "-" token then
    let '(first, final) := split_once "-" token in
    if is_digits first && is_digits final then Some (digits_val 0 first, digits_val 0 final) else None
  else if is_digits token then Some (digits_val 0 token, digits_val 0 token) else None.
Definition vlan_words (s : string) : list string :=
  words (replace ";" " " (replace "," " " (replace "；" " " (replace "，" " " s)))).
Definition vlan_tokens (v : pyval) : list Z :=
  let ranges := omap token_range (vlan_words (strip (text_or_empty v))) in
  List.filter (λ n, existsb (λ r, (r.1 <=? n) && (n <=? r.2)) ranges) (zseq 1 4094).

Definition legacy_group (rows : list station) (sequence : nat) (row : dict) : res dict :=
  let name := strip (text_or_empty (dget "station_name" row)) in
  station ← match by_name rows name with
            | Some s => Ok s
            | None =>
                count ← to_int (por (dget "ap_count" row) (PInt 0));
                Ok (Station (stable_legacy_station_id sha12 name) name (Z.of_nat sequence) count)
            end;
  let tokens := vlan_tokens (filled (dget "ap_management_vlans" row) (dget "management_vlan" row)) in
  let number := pretty (Z.of_nat sequence + 1) in
  let text a b := text_or_empty (por (dget a row) (dget b row)) in
  Ok [("group_id", PStr (text_or (dget "group_id" row) ("legacy-plan-" +:+ number)));
      ("group_code", PStr (text_or (dget "group_code" row) ("G" +:+ pad3 (Z.of_nat sequence + 1))));
      ("group_name", PStr (py_str (por (dget "group_name" row) (por (PStr name) (PStr ("VLAN 组 " +:+ number))))));
      ("sequence", PInt (Z.of_nat sequence)); ("management_vlan", opt_int (head tokens));
      ("legacy_management_vlans", PStr (match tokens with _ :: _ :: _ => join "," (pretty <$> tokens) | _ => "" end));
      ("network_address", PStr (text_or_empty (dget "network_address" row)));
      ("prefix_length", por (dget "prefix_length" row) (dget "mask_length" row));
      ("default_gateway", PStr (text "default_gateway" "ap_gateway"));
      ("ap_start_ip", PStr (text "ap_start_ip" "ap_start_address"));
      ("address_allocation_strategy", PStr DEFAULT_ALLOCATION_STRATEGY); ("notes", PStr (text "notes" "remark"));
      ("members", PList [PDict (station_dict station)])].
Fixpoint legacy_groups (rows : list station) (i : nat) (l : list dict) : res (list dict) :=
  match l with
  | [] => Ok []
  | row :: l' => g ← legacy_group rows i row; gs ← legacy_groups rows (S i) l'; Ok (g :: gs)
  end.

Definition legacy_rows_to_draft (fresh : nat → string) (legacy : list dict) (stations : list dict) : res draft :=
  rows ← station_inputs sha12 stations;
  groups ← legacy_groups rows 0 legacy;
  normalize_plan_draft sha12 fresh
    [("planning", PDict [("line_id", PStr "current"); ("planning_mode", PStr STATION_INDEPENDENT);
        ("auto_group_station_count", PInt 1); ("address_allocation_strategy", PStr DEFAULT_ALLOCATION_STRATEGY);
        ("revision", PInt 0)]);
     ("groups", PList (PDict <$> groups))] (station_dict <$> rows).
End allocate.

(** ** Lemmas *)
Section effective.
Context (rows : list station) (groups : list group) (assignments : list assignment).
#[local] Notation eff := (effective_group_for_ap rows groups assignments).

Lemma group_of_id_in id g : group_of_id groups id = Some g → g ∈ groups ∧ g_id g = id.
Proof. apply index_by_Some. Qed.
Lemma group_of_station_in id g : group_of_station groups id = Some g → g ∈ groups ∧ id ∈ member_ids g.
Proof.
  unfold group_of_station, groups_by_station. intros ([id' g'] & H & [= ->])%fmap_Some. apply index_by_Some in H as [H E]. simpl in E.
  apply list_elem_of_In, in_concat in H as (l & Hl & Hin). apply list_elem_of_In in Hl, Hin.
  apply list_elem_of_fmap in Hl as (g & -> & Hg). apply list_elem_of_fmap in Hin as (m & [= -> ->] & Hm).
  split; [done|]. rewrite <- E. by apply list_elem_of_fmap_2.
Qed.

Lemma assigned_in t a g : assigned groups assignments t = Some (a, g) → g ∈ groups.
Proof.
  unfold assigned. destruct (assignment_for _ _) as [a'|]; [|done]. destruct (group_of_id _ _) as [g'|] eqn:E; [|done].
  intros [= -> ->]. by apply group_of_id_in in E as [? _].
Qed.
Lemma assigned_as_in type t a g : assigned_as groups assignments type t = Some (a, g) → g ∈ groups.
Proof.
  unfold assigned_as. destruct (assigned groups assignments t) as [[a' g']|] eqn:E; [|done]. destruct (String.eqb _ _); [|done].
  intros [= -> ->]. by eapply assigned_in.
Qed.
Lemma station_group_in s s' g : station_group groups s = Some (s', g) → s = Some s' ∧ g ∈ groups ∧ st_id s' ∈ member_ids g.
Proof.
  unfold station_group. destruct s as [s|]; [|done]. destruct (group_of_station groups (st_id s)) as [g'|] eqn:E; [|done].
  intros [= -> ->]. by apply group_of_station_in in E as [? ?].
Qed.

(** The group is one of the plan. *)
Lemma effective_in ap g source id : eff ap = Ok (Some g, source, id) → g ∈ groups.
Proof.
  unfold effective_group_for_ap. intros (start & _ & H)%res_bind_Ok.
  destruct (assigned_as _ _ "ap_override" _) as [[a g']|] eqn:E1; [injection H as -> _ _; by eapply assigned_as_in|].
  destruct (station_group groups (ap_station rows ap)) as [[s g']|] eqn:E2;
    [injection H as -> _ _; by apply station_group_in in E2 as (_ & ? & _)|].
  apply res_bind_Ok in H as (meta & _ & H%Ok_inj).
  destruct (assigned _ _ (text_or_empty _)) as [[a g']|] eqn:E3; [injection H as -> _ _; by eapply assigned_in|].
  destruct (assigned _ _ _) as [[a g']|] eqn:E4 in H; [injection H as -> _ _; by eapply assigned_in|].
  destruct (assigned_as _ _ "interval_default" _) as [[a g']|] eqn:E5; [injection H as -> _ _; by eapply assigned_as_in|].
  destruct (station_group groups (by_name rows start)) as [[s g']|] eqn:E6; [|done].
  injection H as -> _ _. by apply station_group_in in E6 as (_ & ? & _).
Qed.

(** An access point of a station, without an assignment of its own, has the group
    of the station. *)
Lemma effective_station ap s g source id :
  assignment_for assignments (ap_key ap) = None → ap_station rows ap = Some s →
  st_id s ∈ concat (member_ids <$> groups) →
  eff ap = Ok (Some g, source, id) → source = "station_inherited" ∧ st_id s ∈ member_ids g.
Proof.
  unfold effective_group_for_ap, assigned_as, assigned. intros Ha Hs Hc (start & _ & H)%res_bind_Ok. rewrite Ha, Hs in H.
  unfold station_group in H. destruct (group_of_station groups (st_id s)) as [g'|] eqn:E.
  - injection H as -> <- _. by apply group_of_station_in in E as [_ ?].
  - unfold group_of_station in E. apply fmap_None in E. apply index_by_None in E. destruct E.
    apply list_elem_of_In, in_concat in Hc as (l & Hl & Hin). apply list_elem_of_In in Hl, Hin.
    apply list_elem_of_fmap in Hl as (g' & -> & Hg). apply list_elem_of_fmap in Hin as (m & Em & Hm).
    apply list_elem_of_fmap. exists (st_id m, g'). split; [done|]. apply list_elem_of_In, in_concat.
    exists ((λ m, (st_id m, g')) <$> g_members g'). split; apply list_elem_of_In.
    + by apply (list_elem_of_fmap_2 (λ g, (λ m, (st_id m, g)) <$> g_members g)).
    + by apply (list_elem_of_fmap_2 (λ m, (st_id m, g'))).
Qed.

(** *** Allocations *)
Definition item_of (ap : dict) : option resolved :=
  match eff ap with Ok (Some g, source, id) => Some (Resolved ap g source id) | _ => None end.
Definition readable (aps : list dict) : Prop := ∀ ap, ap ∈ aps → ∃ r, eff ap = Ok r.

Lemma item_of_Some ap it : item_of ap = Some it ↔ ap = rv_ap it ∧ eff ap = Ok (Some (rv_group it), rv_source it, rv_station it).
Proof.
  unfold item_of. destruct (eff ap) as [[[[g|] source] id]|e] eqn:E.
  - split; [intros [= <-]; done|]. destruct it; simpl. intros [-> [= -> -> ->]]. done.
  - split; [done|]. intros [_ ?]; congruence.
  - split; [done|]. intros [_ ?]; congruence.
Qed.

Lemma resolve_items fresh i aps : readable aps → ∃ derived, resolve_aps rows groups assignments fresh i aps = Ok (omap item_of aps, derived).
Proof.
  revert i. induction aps as [|ap aps IH]; intros i H; [by eexists|]. destruct (H ap) as [[[g source] id] Hr]; [by left|].
  destruct (IH (S i)) as [derived Hd]; [intros x Hx; apply H; by right|]. simpl. rewrite Hr. cbn [mbind res_bind]. rewrite Hd.
  cbn [mbind res_bind].
  assert (item_of ap = match g with Some g => Some (Resolved ap g source id) | None => None end) as ->
    by (unfold item_of; rewrite Hr; by destruct g).
  destruct g; by eexists.
Qed.

Lemma readable_start ap : (∃ r, eff ap = Ok r) → ∃ start, start_name ap = Ok start.
Proof. intros [r Hr]. unfold effective_group_for_ap in Hr. apply res_bind_Ok in Hr as (start & Hs & _). by exists start. Qed.

Lemma allocation_key_item it k x : allocation_key rows it = Ok (k, x) → x = it.
Proof. unfold allocation_key. by intros (s & _ & [= _ <-])%res_bind_Ok. Qed.

(** One allocation for each access point, with its key and its group. *)
Lemma allocate_group_perm existing gi l :
  allocate_group rows existing gi = Ok l → (λ a, (lo_ap a, lo_group a)) <$> l ≡ₚ (λ it, (ap_key (rv_ap it), gi.1)) <$> gi.2.
Proof.
  unfold allocate_group. intros (keyed & Hk%mapM_Ok & [= <-])%res_bind_Ok.
  rewrite (imap_snd _ _ (λ it, (ap_key (rv_ap it), gi.1))) by done.
  assert (keyed.*2 = gi.2) as E.
  { induction Hk as [|x [k y] l l' Hx _ IH]; [done|]. simpl. f_equal; [by eapply allocation_key_item|done]. }
  rewrite <- E. by rewrite sort_by_perm.
Qed.

Lemma allocate_total existing items :
  (∀ it, it ∈ items → ∃ start, start_name (rv_ap it) = Ok start) → ∃ l,
  allocate_resolved rows existing items = Ok l ∧
  (λ a, (lo_ap a, lo_group a)) <$> l ≡ₚ (λ it, (ap_key (rv_ap it), g_id (rv_group it))) <$> items.
Proof.
  intros H. unfold allocate_resolved. set (parts := gather (g_id ∘ rv_group) items).
  destruct (mapM_total (allocate_group rows existing) parts) as [ls Hls].
  { intros gi Hgi. unfold allocate_group. destruct (mapM_total (allocation_key rows) gi.2) as [keyed ->]; [|by eexists].
    intros it Hit. destruct (H it) as [start Hs].
    { unfold parts in Hgi. rewrite <- (gather_perm (g_id ∘ rv_group) items). apply list_elem_of_In, in_concat.
      exists gi.2. split; apply list_elem_of_In; [by apply list_elem_of_fmap_2|done]. }
    unfold allocation_key, allocation_station_sequence. rewrite Hs. destruct (str_nonempty _); by eexists. }
  rewrite Hls. exists (concat ls). split; [done|]. rewrite <- (gather_perm (g_id ∘ rv_group) items). fold parts.
  apply mapM_Ok in Hls. pose proof (gather_keys (g_id ∘ rv_group) items) as Hkeys. fold parts in Hkeys. clearbody parts. clear H.
  induction Hls as [|gi l parts ls Hl _ IH]; [done|]. apply Forall_cons in Hkeys as [Hk Hkeys].
  change (concat (l :: ls)) with (l ++ concat ls). change (concat (gi :: parts).*2) with (gi.2 ++ concat parts.*2).
  rewrite !fmap_app, IH by done. rewrite (allocate_group_perm _ _ _ Hl). apply Permutation_app_tail.
  assert ((λ it, (ap_key (rv_ap it), gi.1)) <$> gi.2 = (λ it, (ap_key (rv_ap it), g_id (rv_group it))) <$> gi.2) as ->; [|done].
  apply list_fmap_ext. intros i it Hit%list_elem_of_lookup_2. apply (proj1 (Forall_forall _ _) Hk) in Hit. simpl in Hit. by rewrite <- Hit.
Qed.
End effective.

(** ** The view of a plan *)
Lemma draft_issues_head rows d d' :
  dr_planning d' = dr_planning d → dr_groups d' = dr_groups d → draft_issues rows d' = draft_issues rows d.
Proof. unfold draft_issues. by intros -> ->. Qed.

Section view.
Context (sha12 : string → string) (Hsha : ∀ s, no_space (sha12 s) = true).
Context (stations : list dict) (rows : list station) (Hrows : station_inputs sha12 stations = Ok rows).
Context (fresh : nat → nat → string) (raw : dict) (d : draft).
Context (Hd : normalize_plan_draft sha12 (fresh 0%nat) raw (station_dict <$> rows) = Ok d) (Hnamed : named_draft rows d).
Context (aps : list dict) (Haps : readable rows (dr_groups d) (dr_assignments d) aps).
#[local] Notation eff := (effective_group_for_ap rows (dr_groups d) (dr_assignments d)).
#[local] Notation items := (omap (item_of rows (dr_groups d) (dr_assignments d)) aps).

(** The view of the draft: its issues are those of the draft itself, and its
    allocations are the access points that have a group, with that group. *)
Lemma enrich_plan_view : ∃ derived allocations,
  let prepared := prepared_draft d derived allocations in
  enrich_plan sha12 fresh raw stations aps REALLOCATION_ONLY_UNLOCKED
    = Ok (plan_view_of rows prepared (dedupe_issues (draft_issues rows d))) ∧
  (λ a, (lo_ap a, lo_group a)) <$> allocations ≡ₚ (λ it, (ap_key (rv_ap it), g_id (rv_group it))) <$> items.
Proof using All.
  pose proof (station_inputs_line _ Hsha _ _ Hrows) as Hline.
  pose proof (station_inputs_again sha12 rows Hline) as Hagain.
  assert (draft_ok rows d) as Hok by by eapply normalize_draft_ok.
  assert (pl_count (dr_planning d) ≠ 0) as HC by apply Hnamed.
  destruct (resolve_items rows (dr_groups d) (dr_assignments d) (fresh 2%nat) 0 aps Haps) as [derived Hres].
  destruct (allocate_total rows (dr_allocations d) items) as (allocations & Hall & Hperm).
  { intros it (ap & Hap & [-> E]%item_of_Some)%list_elem_of_omap. eapply readable_start. by eexists. }
  exists derived, allocations. split; [|done]. unfold enrich_plan. rewrite Hrows. cbn [mbind res_bind]. rewrite Hd. cbn [mbind res_bind].
  unfold allocate_addresses. simpl negb. cbv iota. rewrite Hagain. cbn [mbind res_bind].
  rewrite draft_again by done. cbn [mbind res_bind]. rewrite Hres. cbn [mbind res_bind]. rewrite Hall. cbn [mbind res_bind].
  unfold validate_plan. rewrite Hagain. cbn [mbind res_bind].
  destruct (groups_again sha12 rows Hline (fresh 3%nat) d
    (dr_assignments (prepared_draft d derived allocations)) allocations Hok HC) as (a & l & Hg).
  change (Draft (dr_planning d) (dr_groups d) _ allocations) with (prepared_draft d derived allocations) in Hg.
  rewrite Hg. cbn [mbind res_bind].
  by rewrite (draft_issues_head rows d).
Qed.

Lemma view_groups d' issues : gv_group <$> vw_groups (plan_view_of rows d' issues) = dr_groups d'.
Proof using Type. unfold plan_view_of. simpl. rewrite <- list_fmap_compose. apply list_fmap_id. Qed.

Context (Hids : NoDup (st_id <$> rows)) (Hne : rows ≠ []) (Hgroups : NoDup (g_id <$> dr_groups d)).

Lemma no_error_issues : existsb is_blocking (dedupe_issues (draft_issues rows d)) = false ↔ plan_ok rows d.
Proof using Hids Hne.
  rewrite <- (draft_issues_quiet rows Hids Hne d), <- dedupe_quiet by apply draft_issues_coded. rewrite Forall_forall.
  rewrite <- not_true_iff_false, existsb_exists. setoid_rewrite <- list_elem_of_In. split.
  - intros H i Hi. apply not_true_iff_false. intros Hb. apply H. by exists i.
  - intros H (i & Hi & Hb). apply H in Hi. congruence.
Qed.

Lemma group_known g : g ∈ dr_groups d → group_of_id (dr_groups d) (g_id g) = Some g.
Proof using Hgroups. by apply index_by_lookup. Qed.

Lemma item_group it : it ∈ items → rv_group it ∈ dr_groups d.
Proof using Type. intros (ap & _ & [_ E]%item_of_Some)%list_elem_of_omap. by eapply effective_in. Qed.

(** The row of an access point. *)
Definition row_for (r : point_row) (it : resolved) : Prop :=
  pr_ap r = ap_key (rv_ap it) ∧ pr_group r = g_id (rv_group it) ∧ pr_vlan r = g_vlan (rv_group it) ∧
  pr_mask r = g_mask (rv_group it) ∧ pr_prefix r = g_prefix (rv_group it) ∧ pr_gateway r = g_gateway (rv_group it).

Lemma point_rows allocations :
  (λ a, (lo_ap a, lo_group a)) <$> allocations ≡ₚ (λ it, (ap_key (rv_ap it), g_id (rv_group it))) <$> items →
  ∃ table, mapM (point_row_of (index_by ap_key aps) (dr_groups d)) allocations = Ok table ∧
    pr_ap <$> table = lo_ap <$> allocations ∧ ∀ r, r ∈ table → ∃ it, it ∈ items ∧ row_for r it.
Proof using Hgroups.
  intros Hp. assert (∀ a, a ∈ allocations → ∃ it r, it ∈ items ∧
    point_row_of (index_by ap_key aps) (dr_groups d) a = Ok r ∧ pr_ap r = lo_ap a ∧ row_for r it) as Hrow.
  { intros a Ha. assert ((lo_ap a, lo_group a) ∈ (λ it, (ap_key (rv_ap it), g_id (rv_group it))) <$> items) as (it & [= E1 E2] & Hit)%list_elem_of_fmap
      by (rewrite <- Hp; by apply (list_elem_of_fmap_2 (λ a, (lo_ap a, lo_group a)))).
    exists it. unfold point_row_of, row_for. rewrite E2, (group_known (rv_group it)) by by apply item_group. by eexists. }
  destruct (mapM_total (point_row_of (index_by ap_key aps) (dr_groups d)) allocations) as [table Ht].
  { intros a Ha. destruct (Hrow a Ha) as (it & r & _ & H & _). by exists r. }
  exists table. split; [done|]. apply mapM_Ok in Ht. split.
  - symmetry. apply Forall2_fmap_eq. apply Forall2_same_length_lookup. split; [by eapply Forall2_length|].
    intros i a r Ha Hr. pose proof (Forall2_lookup_lr _ _ _ _ _ _ Ht Ha Hr) as E. simpl in E.
    destruct (Hrow a) as (it & r' & _ & E' & H & _); [by apply list_elem_of_lookup_2 in Ha|]. congruence.
  - intros r Hr. apply list_elem_of_lookup_1 in Hr as [i Hr]. destruct (Forall2_lookup_r _ _ _ _ _ Ht Hr) as (a & Ha & E).
    destruct (Hrow a) as (it & r' & Hit & E' & _ & H); [by apply list_elem_of_lookup_2 in Ha|].
    exists it. split; [done|]. congruence.
Qed.

Lemma all_allocated :
  NoDup (ap_key <$> aps) →
  forallb (λ ap, str_mem (ap_key ap) ((λ it, ap_key (rv_ap it)) <$> items)) aps = true ↔
  ∀ ap, ap ∈ aps → ∃ g source id, eff ap = Ok (Some g, source, id).
Proof using Haps.
  intros Hk. rewrite forallb_forall. setoid_rewrite <- list_elem_of_In. setoid_rewrite str_mem_iff. split; intros H ap Hap.
  - pose proof (H ap Hap) as (it & E & (ap' & Hap' & [-> Hit]%item_of_Some)%list_elem_of_omap)%list_elem_of_fmap.
    assert (rv_ap it = ap) as <-; [|by eexists _, _, _].
    pose proof (index_by_lookup ap_key aps _ Hk Hap) as H1. pose proof (index_by_lookup ap_key aps _ Hk Hap') as H2. congruence.
  - destruct (H ap Hap) as (g & source & id & E). apply list_elem_of_fmap. exists (Resolved ap g source id). split; [done|].
    apply list_elem_of_omap. exists ap. split; [done|]. by apply item_of_Some.
Qed.
End view.


(** ** An example *)
#[local] Notation demo_sha := (λ _ : string, "0").
#[local] Notation demo_fresh := (λ (_ i : nat), pretty i).
#[local] Notation demo_stations :=
  ([[("id", PStr "s1"); ("name", PStr "A1"); ("ap_count", PInt 2)]; [("id", PStr "s2"); ("name", PStr "A2")];
    [("id", PStr "s3"); ("name", PStr "A3")]] : list dict).
#[local] Notation demo_group vlan ids :=
  (PDict [("management_vlan", PStr vlan); ("members", PList ((λ i, PDict [("station_id", PStr i)]) <$> ids))]).
#[local] Notation demo_raw :=
  ([("planning_mode", PStr "station_grouped"); ("auto_group_station_count", PInt 2);
    ("groups", PList [demo_group "20" ["s1"; "s2"]; demo_group "30" ["s3"]])] : dict).
#[local] Notation demo_aps :=
  ([[("id", PStr "ap1"); ("station", PStr "A2")];
    [("ap_id", PStr "ap2"); ("base_metadata", PDict [("section_start_station", PStr "a3")])]] : list dict).

Lemma demo_parts rows d : station_inputs demo_sha demo_stations = Ok rows →
  normalize_plan_draft demo_sha (demo_fresh 0%nat) demo_raw (station_dict <$> rows) = Ok d →
  (NoDup (st_id <$> rows) ∧ rows ≠ []) ∧ named_draft rows d ∧ NoDup (g_id <$> dr_groups d) ∧
  readable rows (dr_groups d) (dr_assignments d) demo_aps.
Proof.
  intros H. assert (rows = [Station "s1" "A1" 0 2; Station "s2" "A2" 1 0; Station "s3" "A3" 2 0]) as ->.
  { apply Ok_inj. rewrite <- H. vm_compute. reflexivity. }
  clear H. intros H%(f_equal (λ r, match r with Ok d => d | Err _ => Draft (Planning "" "" 0 "" 0 "" "") [] [] [] end)).
  vm_compute in H. subst d. split_and!; try done.
  - apply (bool_decide_unpack _); vm_compute; exact I.
  - split; [discriminate|]. split; [discriminate|]. split; [|split; constructor].
    repeat (apply Forall_cons_2; [do 4 (split; [discriminate|]); repeat (apply Forall_cons_2; [left; reflexivity|]); constructor|]).
    constructor.
  - apply (bool_decide_unpack _); vm_compute; exact I.
  - intros ap [->|[->|[]%not_elem_of_nil]%elem_of_cons]%elem_of_cons; by eexists.
Qed.


(** Why the identifiers of the groups must differ: the plan is valid, and the access
    point of the first group, which has VLAN 20, gets the VLAN of the second. *)
Example repeated_group_id :
  let named vlan ids :=
    PDict [("group_id", PStr "g"); ("management_vlan", PStr vlan);
           ("members", PList ((λ i, PDict [("station_id", PStr i)]) <$> ids))] in
  let raw := [("planning_mode", PStr "station_grouped"); ("auto_group_station_count", PInt 2);
              ("groups", PList [named "20" ["s1"; "s2"]; named "30" ["s3"]])] in
  match build_point_table_rows demo_sha demo_fresh raw demo_stations [[("id", PStr "ap1"); ("station", PStr "A2")]] with
  | Ok table => (λ r, (pr_ap r, pr_vlan r)) <$> table = [("ap1", Some 30)]
  | Err _ => False
  end.
Proof. vm_compute. reflexivity. Qed.

(** A plan of the earlier form and back: the list of VLANs is kept as text. *)
Example legacy_demo :
  match legacy_rows_to_draft demo_sha pretty
          [[("station_name", PStr "A1"); ("ap_management_vlans", PStr "30，10-12; 5000"); ("mask_length", PInt 24)];
           [("station_name", PStr "a3 "); ("management_vlan", PInt 7)]] demo_stations with
  | Ok d =>
      match project_legacy_station_rows demo_sha pretty (draft_dict d) with
      | Ok rows => (λ r, (st_id (lr_station r), lr_vlans r, lr_prefix r)) <$> rows
      | Err _ => []
      end
  | Err _ => []
  end = [("s1", "10,11,12,30", Some 24); ("s3", "7", None)].
Proof. vm_compute. reflexivity. Qed.
