(* ===== verification/DeepScheduler.v ===== *)
(** * The scheduler of deep MR collections

    services/ground_unattended/deep_scheduler.py: which trains of an unattended
    run are collected next ([ordered_candidates]), how many collections are started
    at once ([fill_slots]), when they are stopped, and when a train counts as
    covered ([update_train_coverage]).  The repository rows that the scheduler reads
    and writes are part of its state, in the types of their columns; the operations
    of the Online MR service are a list that moves on by itself between two reads
    ([progress]).  Finite floats are exact rationals: they are only compared,
    negated and maximized.  Every time stamp of one call is [now]. *)

From S2P Require Import Prelude PyVal PyText OnlineMrConcurrency.
From Stdlib Require Import QArith Qcanon.
Open Scope Z_scope.

(** ** Rows *)
Record endpoint := Endpoint { ep_code : string; ep_device : pyval; ep_ip : pyval; ep_mr : string }.

(** [ground_unattended_train_runs] with the state of the train in this round. *)
Record train := Train {
  tr_id : string; tr_eligible : bool; tr_eligibility : string; tr_priority : bool; tr_scheduling : Z; tr_attempts : Z;
  tr_rounds : Z; tr_status : string; tr_operations : list (string * string); tr_endpoints : list endpoint;
  tr_selection : string; tr_failure : string; tr_started : string; tr_duration : Qc; tr_sessions : list (string * string);
}.

(** [ground_unattended_deep_operations]. *)
Record deep_row := DeepRow {
  dp_id : string; dp_train : string; dp_mr : string; dp_position : string; dp_session : string; dp_state : string;
  dp_started : string; dp_ended : string; dp_stop : string; dp_error : string; dp_final : bool; dp_package : bool;
  dp_updated : string;
}.
Definition ENDED_STATES : list string := ["COMPLETED"; "PARTIAL"; "FAILED"].

Record profile := Profile {
  pf_max_trains : Z; pf_budget : OnlineMrConcurrencyBudget; pf_jitter : Z; pf_batch : Z; pf_minimum : Z; pf_preferred : Z;
}.

(** ** The order of the candidates *)
Record SchedulerCandidate := Candidate { ca_train : string; ca_rank : list Qc; ca_reason : string }.

Definition num (z : Z) : Qc := Q2Qc (inject_Z z).
Definition qc_leb (a b : Qc) : bool := match (a ?= b)%Qc with Gt => false | _ => true end.
Definition qc_max (a b : Qc) : Qc := if qc_leb a b then b else a.

(** Tuples of numbers. *)
Fixpoint rank_leb (a b : list Qc) : bool :=
  match a, b with
  | [], _ => true
  | _ :: _, [] => false
  | x :: a', y :: b' => match (x ?= y)%Qc with Lt => true | Gt => false | Eq => rank_leb a' b' end
  end.
Definition flag (b : bool) : Qc := num (if b then 0 else 1).

(** The place of a train in the queue, the last one for a train listed twice. *)
Definition queue_place (queue : list string) (id : string) : Z :=
  default 1000000000 (snd <$> alookup id (index_by fst (imap (λ i id, (id, Z.of_nat i)) queue))).

Definition first_round (trains : list train) : list train :=
  List.filter (λ t, tr_rounds t =? 0) (List.filter tr_eligible trains).
(** [first_round or eligible]. *)
Definition pool (trains : list train) : list train :=
  match first_round trains with [] => List.filter tr_eligible trains | l => l end.

Definition candidate (is_first : bool) (queue : list string) (loss : list (string * Qc)) (t : train) : SchedulerCandidate :=
  let status := str_or (tr_status t) "NOT_SEEN" in
  let place := num (queue_place queue (tr_id t)) in
  if is_first then
    Candidate (tr_id t)
      [flag (tr_priority t); num (- tr_scheduling t); flag (tr_attempts t =? 0); flag (String.eqb status "PARTIAL");
       num (tr_attempts t); place]
      (if tr_priority t then "置顶列车今日尚未完成第一轮"
       else if tr_attempts t =? 0 then "今日从未进行深度采集"
       else if String.eqb status "PARTIAL" then "今日部分结果等待补采" else "今日第一轮尚未完成")
  else
    Candidate (tr_id t)
      [flag (tr_priority t); num (- tr_scheduling t); num (tr_attempts t);
       (- default (num 0) (alookup (tr_id t) loss))%Qc; place]
      "全部可采集列车已完成第一轮，进入后续轮次".

Definition ordered_candidates (trains : list train) (queue : list string) (loss : list (string * Qc))
    : list SchedulerCandidate :=
  let is_first := negb (bool_decide (length (first_round trains) = 0%nat)) in
  sort_by (on ca_rank rank_leb) (candidate is_first queue loss <$> pool trains).

(** ** The state *)
Record event := Event { ev_type : string; ev_train : string; ev_mr : string; ev_message : string; ev_ids : list string }.

(** The keys of the two tables of futures, in order; what the futures have become
    is told by [finished] where the code asks. *)
Record scheduler := Scheduler {
  sc_ops : list operation; sc_reads : nat; sc_deep : list deep_row; sc_trains : list train;
  sc_queue : option (Z * list string * list string); sc_log : list event; sc_last_batch : Qc;
  sc_stops : list string; sc_forced : list string; sc_superseded : list string;
}.

Definition with_ops ops (s : scheduler) : scheduler :=
  Scheduler ops (sc_reads s) (sc_deep s) (sc_trains s) (sc_queue s) (sc_log s) (sc_last_batch s) (sc_stops s) (sc_forced s) (sc_superseded s).
Definition with_deep rows (s : scheduler) : scheduler :=
  Scheduler (sc_ops s) (sc_reads s) rows (sc_trains s) (sc_queue s) (sc_log s) (sc_last_batch s) (sc_stops s) (sc_forced s) (sc_superseded s).
Definition with_trains trains (s : scheduler) : scheduler :=
  Scheduler (sc_ops s) (sc_reads s) (sc_deep s) trains (sc_queue s) (sc_log s) (sc_last_batch s) (sc_stops s) (sc_forced s) (sc_superseded s).
Definition with_queue queue (s : scheduler) : scheduler :=
  Scheduler (sc_ops s) (sc_reads s) (sc_deep s) (sc_trains s) queue (sc_log s) (sc_last_batch s) (sc_stops s) (sc_forced s) (sc_superseded s).
Definition with_last_batch t (s : scheduler) : scheduler :=
  Scheduler (sc_ops s) (sc_reads s) (sc_deep s) (sc_trains s) (sc_queue s) (sc_log s) t (sc_stops s) (sc_forced s) (sc_superseded s).
Definition with_futures stops forced superseded (s : scheduler) : scheduler :=
  Scheduler (sc_ops s) (sc_reads s) (sc_deep s) (sc_trains s) (sc_queue s) (sc_log s) (sc_last_batch s) stops forced superseded.
Definition emit (e : event) (s : scheduler) : scheduler :=
  Scheduler (sc_ops s) (sc_reads s) (sc_deep s) (sc_trains s) (sc_queue s) (sc_log s ++ [e]) (sc_last_batch s) (sc_stops s) (sc_forced s) (sc_superseded s).

(** [save_deep_operation]: an existing row keeps the time when it was started. *)
Fixpoint upsert_deep (row : deep_row) (rows : list deep_row) : list deep_row :=
  match rows with
  | [] => [row]
  | old :: rows' =>
      if String.eqb (dp_id old) (dp_id row) then
        DeepRow (dp_id row) (dp_train row) (dp_mr row) (dp_position row) (dp_session row) (dp_state row) (dp_started old)
          (dp_ended row) (dp_stop row) (dp_error row) (dp_final row) (dp_package row) (dp_updated row) :: rows'
      else old :: upsert_deep row rows'
  end.
Definition save_deep_operation (row : deep_row) (s : scheduler) : scheduler := with_deep (upsert_deep row (sc_deep s)) s.

Definition list_deep_operations (active_only : bool) (s : scheduler) : list deep_row :=
  sort_by (on dp_started String.leb)
    (List.filter (λ r, negb (active_only && str_mem (dp_state r) ENDED_STATES)) (sc_deep s)).

Definition update_train_run (id : string) (f : train → train) (s : scheduler) : scheduler :=
  with_trains ((λ t, if String.eqb (tr_id t) id then f t else t) <$> sc_trains s) s.
Definition get_train_run (id : string) (s : scheduler) : option train := List.find (String.eqb id ∘ tr_id) (sc_trains s).

(** ** Operations *)

(** The fields of an operation snapshot that the policy does not read. *)
Record op_info := OpInfo {
  oi_session : string; oi_duration : Qc; oi_started : string; oi_ended : string; oi_stop : string; oi_error : string;
}.
(** What [verify_terminal_operation] reads of a session: the collector mesh_link and
    the artifact with the fping samples, where there are such. *)
Record evidence := Evidence {
  ed_duration : Qc; ed_mesh : option (bool * Z); ed_fping : option Z; ed_finalized : bool; ed_has_package : bool;
  ed_package : string; ed_integrity : string;
}.

(** [l[:n]]. *)
Definition slice_to {A} (n : Z) (l : list A) : list A :=
  take (Z.to_nat (if n <? 0 then Z.of_nat (length l) + n else n)) l.

(** What a future has become: [None] while it runs, [Some None] when it has ended,
    [Some (Some message)] when it has raised. *)
Abbreviation futures := (bool → string → option (option string)).

Section scheduler.
(** The owner of a task; the operations that are pending or linked; how the
    operations move on before the n-th read. *)
Context (task_owner : string → option string) (linked : operation → bool) (progress : nat → list operation → list operation).
(** The rest of a snapshot, the evidence of a session or the message of the query
    error, the collectors of a session with their status where they and the preview
    can be read. *)
Context (info : string → op_info) (session_evidence : string → evidence + string)
  (collectors : string → option (list (string * string))).
(** [_build_start_request] with the fping target and [start_local_collection], which
    raise with a message; [get_operation(...).duration_minutes or 0]. *)
Context (build_start_request : endpoint → string + string) (start_local_collection : nat → endpoint → operation + string)
  (operation_duration : string → Qc).
(** [random.Random(seed).shuffle] for the two forms of the seed, SHA-256 of the
    site and the date of the run. *)
Context (shuffle : Z → list string → list string) (shuffle_text : string → list string → list string) (day_seed : Z).
Context (now : string).

Definition read_operations (s : scheduler) : list operation * scheduler :=
  let ops := progress (sc_reads s) (sc_ops s) in
  (ops, Scheduler ops (S (sc_reads s)) (sc_deep s) (sc_trains s) (sc_queue s) (sc_log s) (sc_last_batch s) (sc_stops s)
          (sc_forced s) (sc_superseded s)).
(** [_active_operations]. *)
Definition active_operations (s : scheduler) : list operation * scheduler :=
  let '(ops, s) := read_operations s in (List.filter linked ops, s).

(** ** Stops *)
Definition submit_stop (reason id : string) (s : scheduler) : scheduler :=
  if str_mem id (sc_stops s) || str_mem id (sc_forced s) then s
  else emit (Event "deep_collection_stop_requested" "" "" reason [id])
         (with_futures (sc_stops s ++ [id]) (sc_forced s) (sc_superseded s) s).

Definition pending (finished : futures) (forced : bool) (ids : list string) : list string :=
  List.filter (λ id, bool_decide (finished forced id = None)) ids.
Definition finalizing_count (finished : futures) (allocs : list OnlineMrAllocation) (s : scheduler) : Z :=
  count_phase FINALIZING_PHASES allocs + Z.of_nat (length (pending finished false (sc_stops s))).

Definition task_id (a : OnlineMrAllocation) : string := op_controller_task_id (al_operation a).

(** The stop requests of a list of operations with their reasons, until [limit]
    operations are being finalized; [None] leaves an operation alone. *)
Fixpoint request_stops (reason : OnlineMrAllocation → option string) (limit finalizing : Z)
    (allocs : list OnlineMrAllocation) (s : scheduler) : scheduler :=
  match allocs with
  | [] => s
  | a :: allocs' =>
      if negb (automated a) then request_stops reason limit finalizing allocs' s
      else if limit <=? finalizing then s
      else
        match reason a with
        | Some r => request_stops reason limit (finalizing + 1) allocs' (submit_stop r (task_id a) s)
        | None => request_stops reason limit finalizing allocs' s
        end
  end.

Definition stop_all (finished : futures) (reason : string) (max_finalizing_mrs : Z) (s : scheduler) : scheduler :=
  let '(ops, s) := active_operations s in
  let allocs := allocations task_owner ops in
  request_stops (λ _, Some reason) (Z.max 1 max_finalizing_mrs) (finalizing_count finished allocs s) allocs s.

(** Why an operation must stop. *)
Definition stop_reason (p : profile) (trains : list train) (deep : list deep_row) (a : OnlineMrAllocation) : option string :=
  match alookup (task_id a) (index_by dp_id deep) with
  | None => None
  | Some row =>
      match alookup (dp_train row) (index_by tr_id trains) with
      | None => None
      | Some t =>
          if str_mem (tr_eligibility t) ["AC_STALE"; "AC_UNKNOWN"; "AP_UNMATCHED"] then None
          else if negb (tr_eligible t) then Some (str_or (casefold (tr_eligibility t)) "left_mainline")
          else if qc_leb (num (pf_preferred p)) (oi_duration (info (task_id a))) then Some "preferred_duration_reached"
          else None
      end
  end.

Definition request_required_stops (finished : futures) (p : profile) (trains : list train) (ops : list operation)
    (s : scheduler) : scheduler :=
  let allocs := allocations task_owner ops in
  request_stops (stop_reason p trains (list_deep_operations true s)) (max_finalizing_mrs (pf_budget p))
    (finalizing_count finished allocs s) allocs s.

Definition remove_id (id : string) (l : list string) : list string := List.filter (λ x, negb (String.eqb x id)) l.

(** [_collect_finished_stop_futures], first the normal stops, then the forced ones. *)
Definition collect_one (finished : futures) (forced : bool) (s : scheduler) (id : string) : scheduler :=
  match finished forced id with
  | None => s
  | Some outcome =>
      let s := if forced then with_futures (sc_stops s) (remove_id id (sc_forced s)) (sc_superseded s) s
               else with_futures (remove_id id (sc_stops s)) (sc_forced s) (remove_id id (sc_superseded s)) s in
      match outcome with
      | None => s
      | Some message =>
          emit (Event (if forced then "deep_collection_force_stop_failed" else "deep_collection_stop_failed") "" "" message [id]) s
      end
  end.
Definition collect_finished_stop_futures (finished : futures) (s : scheduler) : scheduler :=
  let s := foldl (collect_one finished false) s (sc_stops s) in
  foldl (collect_one finished true) s (sc_forced s).

Definition automated_ids (ops : list operation) : list string :=
  sort_by String.leb (remove_dups (task_id <$> List.filter automated (allocations task_owner ops))).

Definition force_one (finished : futures) (reason : string) (sl : scheduler * list string) (id : string) : scheduler * list string :=
  let '(s, submitted) := sl in
  if str_mem id (sc_forced s) then (s, submitted)
  else
    let normal := if str_mem id (sc_stops s) then Some (finished false id) else None in
    let s :=
      match normal with
      | Some (Some outcome) =>
          let s := with_futures (remove_id id (sc_stops s)) (sc_forced s) (remove_id id (sc_superseded s)) s in
          match outcome with
          | Some message => emit (Event "deep_collection_stop_failed" "" "" message [id]) s
          | None => s
          end
      | _ => s
      end in
    let superseded := match normal with
                      | Some None => if str_mem id (sc_superseded s) then sc_superseded s else sc_superseded s ++ [id]
                      | _ => sc_superseded s
                      end in
    (emit (Event "deep_collection_force_stop_requested" "" "" reason [id])
       (with_futures (sc_stops s) (sc_forced s ++ [id]) superseded s), submitted ++ [id]).
Definition force_stop_all (finished : futures) (reason : string) (s : scheduler) : scheduler * list string :=
  let '(ops, s) := active_operations s in foldl (force_one finished reason) (s, []) (automated_ids ops).

Definition waited_stops (finished : futures) (s : scheduler) : list string :=
  List.filter (λ id, negb (str_mem id (sc_superseded s))) (pending finished false (sc_stops s)).
Definition has_active_automated (finished : futures) (s : scheduler) : bool * scheduler :=
  let '(ops, s) := active_operations s in
  (existsb automated (allocations task_owner ops)
   || negb (bool_decide (length (waited_stops finished s) = 0%nat))
   || negb (bool_decide (length (pending finished true (sc_forced s)) = 0%nat)), s).
Definition active_automated_operation_ids (finished : futures) (s : scheduler) : list string * scheduler :=
  let '(ops, s) := active_operations s in
  (sort_by String.leb
     (remove_dups (automated_ids ops ++ waited_stops finished s ++ pending finished true (sc_forced s))), s).

(** ** The rows of the operations *)

(** What [_mark_operation_partial] saves. *)
Definition operation_partial (row : deep_row) (reason : string) : deep_row :=
  DeepRow (dp_id row) (dp_train row) (dp_mr row) (dp_position row) (dp_session row) "PARTIAL" (dp_started row) now
    (dp_stop row) reason false false now.

(** The checks that a terminal operation must pass. *)
Definition terminal_checks (p : profile) (e : evidence) (duration : Qc) : list (string * bool) :=
  [("duration", qc_leb (num (pf_minimum p)) (if Qc_eq_dec (ed_duration e) (num 0) then duration else ed_duration e));
   ("mesh_raw", match ed_mesh e with Some (present, size) => present && (0 <? size) | None => false end);
   ("fping_samples", match ed_fping e with Some size => 0 <? size | None => false end);
   ("finalized", ed_finalized e); ("package", ed_has_package e && str_nonempty (ed_package e));
   ("integrity", String.eqb (ed_integrity e) "complete")].
Definition verify_terminal_operation (p : profile) (id : string) : bool * string * string :=
  let i := info id in
  if negb (str_nonempty (oi_session i)) then (false, str_or (oi_error i) "未创建 Online MR Session", "")
  else
    match session_evidence (oi_session i) with
    | inr message => (false, message, oi_session i)
    | inl e =>
        let checks := terminal_checks p e (oi_duration i) in
        if forallb snd checks then (true, "", oi_session i)
        else (false, "深度采集完成条件不足：" +:+ join "、" (fst <$> List.filter (negb ∘ snd) checks), oi_session i)
    end.

Definition record_fping_started (row : deep_row) (session : string) (s : scheduler) : scheduler :=
  if negb (str_nonempty session) then s
  else
    match collectors session ≫= alookup "fping_v5" with
    | Some status =>
        if String.eqb (casefold status) "running"
        then emit (Event "unattended_deep_fping_started" (dp_train row) (dp_mr row) "" [session]) s
        else s
    | None => s
    end.

Definition running_state (phase : OnlineMrPhase) : string :=
  if bool_decide (phase ∈ STARTING_PHASES) then "STARTING"
  else if bool_decide (phase ∈ FINALIZING_PHASES) then "FINALIZING" else "RUNNING".

(** The row as it is saved: [None] for a row that is left alone. *)
Definition synchronized_row (p : profile) (ops : list (string * operation)) (row : deep_row) : option deep_row :=
  match alookup (dp_id row) ops with
  | None => if str_mem (dp_state row) ENDED_STATES then None
            else Some (operation_partial row "软件重启后无法恢复对应 Online MR 任务映射")
  | Some o =>
      let i := info (dp_id row) in
      Some
        (if negb (bool_decide (op_phase o = TERMINAL)) then
           DeepRow (dp_id row) (dp_train row) (dp_mr row) (dp_position row) (str_or (oi_session i) (dp_session row))
             (running_state (op_phase o)) (dp_started row) (dp_ended row) (dp_stop row) (dp_error row) (dp_final row)
             (dp_package row) now
         else
           let '(success, reason, session) := verify_terminal_operation p (dp_id row) in
           DeepRow (dp_id row) (dp_train row) (dp_mr row) (dp_position row) session
             (if success then "COMPLETED" else "PARTIAL") (dp_started row) (str_or (oi_ended i) now) (oi_stop i) reason
             success success now)
  end.

Definition synchronize_row (p : profile) (ops : list (string * operation)) (s : scheduler) (row : deep_row) : scheduler :=
  match synchronized_row p ops row with
  | None => s
  | Some saved =>
      let s := save_deep_operation saved s in
      if bool_decide (is_Some (alookup (dp_id row) ops)) && String.eqb (dp_state saved) "RUNNING"
         && String.eqb (dp_state row) "STARTING"
      then record_fping_started row (oi_session (info (dp_id row))) s else s
  end.

(** ** Coverage of the trains *)
Definition expected_positions (t : train) : list string :=
  ep_code <$> List.filter (λ e, negb (bool_decide (ep_device e = PNone)) && truthy (ep_ip e) && str_nonempty (ep_code e))
    (tr_endpoints t).
Definition current_rows (t : train) (rows : list deep_row) : list deep_row :=
  List.filter (λ r, str_mem (dp_id r) (tr_operations t).*2) rows.

(** Every endpoint has been collected from, and every collection has ended. *)
Definition cycle_ended (t : train) (rows : list deep_row) : bool :=
  let current := current_rows t rows in
  forallb (λ position, str_mem position (dp_position <$> current)) (expected_positions t)
  && negb (bool_decide (length current = 0%nat)) && forallb (λ r, str_mem (dp_state r) ENDED_STATES) current.

Definition max_duration (rows : list deep_row) : Qc :=
  match operation_duration ∘ dp_id <$> rows with [] => num 0 | q :: l => foldl qc_max q l end.

Definition cycle_status (p : profile) (current : list deep_row) : string :=
  if forallb (λ r, String.eqb (dp_state r) "COMPLETED") current && qc_leb (num (pf_minimum p)) (max_duration current)
  then "COVERED" else "PARTIAL".

Definition finish_cycle (p : profile) (current : list deep_row) (t : train) : train :=
  let status := cycle_status p current in
  Train (tr_id t) (tr_eligible t) (tr_eligibility t) (tr_priority t) (tr_scheduling t) (tr_attempts t)
    (tr_rounds t + if String.eqb status "COVERED" then 1 else 0) status [] (tr_endpoints t) (tr_selection t)
    (join "；" (List.filter str_nonempty (dp_error <$> current))) (tr_started t) (max_duration current)
    (foldl (λ d r, ainsert (dp_position r) (dp_session r) d) [] current).

Definition update_coverage_of (p : profile) (s : scheduler) (tr : string * list deep_row) : scheduler :=
  match get_train_run tr.1 s with
  | None => s
  | Some t =>
      if cycle_ended t tr.2 then
        let current := current_rows t tr.2 in
        emit (Event (if String.eqb (cycle_status p current) "COVERED" then "deep_collection_completed" else "deep_collection_partial")
                tr.1 "" (tr_failure (finish_cycle p current t)) (dp_session <$> current))
          (update_train_run tr.1 (λ _, finish_cycle p current t) s)
      else s
  end.
Definition update_train_coverage (p : profile) (s : scheduler) : scheduler :=
  foldl (update_coverage_of p) s (gather dp_train (list_deep_operations false s)).

Definition synchronize_operations (p : profile) (s : scheduler) : scheduler :=
  let '(ops, s) := read_operations s in
  update_train_coverage p
    (foldl (synchronize_row p (index_by op_controller_task_id ops)) s (list_deep_operations false s)).

(** [recover_failure]: the message of [recover_mappings], if it raised. *)
Definition recover (recover_failure : option string) (p : profile) (s : scheduler) : scheduler :=
  synchronize_operations p
    (match recover_failure with
     | Some message => emit (Event "deep_recovery_failed" "" "" message []) s
     | None => s
     end).

(** ** Starts *)
Definition ensure_queue (trains : list train) (s : scheduler) : list string * scheduler :=
  let candidates := sort_by String.leb (tr_id <$> List.filter tr_eligible trains) in
  match sc_queue s with
  | Some (seed, known, order) =>
      let missing := List.filter (λ id, negb (str_mem id order)) candidates in
      match missing with
      | [] => (order, s)
      | _ =>
          let order := order ++ shuffle_text (pretty seed +:+ ":" +:+ join "," missing) missing in
          (order, with_queue (Some (seed, sort_by String.leb (remove_dups (known ++ candidates)), order)) s)
      end
  | None =>
      let order := shuffle day_seed candidates in (order, with_queue (Some (day_seed, candidates, order)) s)
  end.

(** The operations of the current cycle of a train. *)
Definition current_cycle (t : train) : list (string * string) :=
  if String.eqb (tr_status t) "COLLECTING" then tr_operations t else [].
Definition startable_endpoints (t : train) (active_devices : list string) : list endpoint :=
  List.filter (λ e, negb (bool_decide (ep_device e = PNone)) && truthy (ep_ip e)
                    && negb (str_mem (py_str (ep_device e)) active_devices)
                    && negb (str_mem (ep_code e) (current_cycle t).*1)) (tr_endpoints t).

Record batch := Batch {
  b_sched : scheduler; b_by_end : list (string * string); b_failures : list string; b_devices : list string;
  b_mr_slots : Z; b_starting_slots : Z; b_started : Z;
}.
Definition failed (message : string) (s : scheduler) (b : batch) : batch :=
  Batch s (b_by_end b) (b_failures b ++ [message]) (b_devices b) (b_mr_slots b) (b_starting_slots b) (b_started b).

(** One endpoint: the policy is asked with the operations as they are now. *)
Definition start_endpoint (p : profile) (train_id : string) (b : batch) (e : endpoint) : batch :=
  let '(ops, s) := active_operations (b_sched b) in
  let decision := can_start task_owner (ep_device e) ops (pf_budget p) true in
  if negb (allowed decision) then failed (message decision) s b
  else
    match build_start_request e with
    | inr message => failed message s b
    | inl target =>
        let s := emit (Event "unattended_deep_fping_starting" train_id (ep_mr e) "" [target]) s in
        match start_local_collection (sc_reads s) e with
        | inr message => failed message s b
        | inl o =>
            let id := op_controller_task_id o in
            let s := save_deep_operation (DeepRow id train_id (ep_mr e) (ep_code e) (oi_session (info id)) "STARTING"
                       (str_or (oi_started (info id)) now) "" "" "" false false now) (with_ops (sc_ops s ++ [o]) s) in
            Batch s (ainsert (ep_code e) id (b_by_end b)) (b_failures b)
              (py_str (ep_device e) :: b_devices b) (b_mr_slots b - 1) (b_starting_slots b - 1) (b_started b + 1)
        end
    end.

Record filling := Filling {
  fi_sched : scheduler; fi_mr_slots : Z; fi_starting_slots : Z; fi_train_slots : Z; fi_trains : list string;
  fi_devices : list string; fi_started : Z;
}.

(** The row of a train whose collections were started.  [previous_operations] and
    [current_cycle] are one dictionary, so that the cycle is not empty when the
    other columns are computed. *)
Definition started_train (active : bool) (reason : string) (b : batch) (seen t : train) : train :=
  let cycle := foldl (λ d kv, ainsert kv.1 kv.2 d) (current_cycle seen) (b_by_end b) in
  let going := active || negb (bool_decide (length cycle = 0%nat)) in
  Train (tr_id t) (tr_eligible t) (tr_eligibility t) (tr_priority t) (tr_scheduling t)
    (tr_attempts seen + if going then 0 else 1) (tr_rounds t) "COLLECTING" cycle (tr_endpoints t)
    (if going then tr_selection seen else reason) (join "；" (b_failures b))
    (if going then tr_started seen else now) (tr_duration t) (tr_sessions t).
Definition failed_train (failures : list string) (t : train) : train :=
  Train (tr_id t) (tr_eligible t) (tr_eligibility t) (tr_priority t) (tr_scheduling t) (tr_attempts t) (tr_rounds t)
    (tr_status t) (tr_operations t) (tr_endpoints t) (tr_selection t) (join "；" failures) (tr_started t) (tr_duration t)
    (tr_sessions t).

(** The endpoints of one train and what they change. *)
Definition start_train (p : profile) (c : SchedulerCandidate) (seen : train) (selected : list endpoint) (f : filling) : filling :=
  let active := str_mem (ca_train c) (fi_trains f) in
  let b := foldl (start_endpoint p (ca_train c))
             (Batch (fi_sched f) [] [] (fi_devices f) (fi_mr_slots f) (fi_starting_slots f) (fi_started f)) selected in
  match b_by_end b with
  | [] =>
      Filling (match b_failures b with
               | [] => b_sched b
               | failures => update_train_run (ca_train c) (failed_train failures) (b_sched b)
               end) (b_mr_slots b) (b_starting_slots b) (fi_train_slots f) (fi_trains f) (b_devices b) (b_started b)
  | by_end =>
      Filling (emit (Event "deep_collection_started" (ca_train c) "" (ca_reason c) by_end.*2)
                 (update_train_run (ca_train c) (started_train active (ca_reason c) b seen) (b_sched b)))
        (b_mr_slots b) (b_starting_slots b) (if active then fi_train_slots f else fi_train_slots f - 1)
        (if active then fi_trains f else fi_trains f ++ [ca_train c]) (b_devices b) (b_started b)
  end.

Fixpoint fill_candidates (p : profile) (trains : list train) (candidates : list SchedulerCandidate) (f : filling) : filling :=
  match candidates with
  | [] => f
  | c :: candidates' =>
      if (fi_mr_slots f <=? 0) || (fi_starting_slots f <=? 0) then f
      else if negb (str_mem (ca_train c) (fi_trains f)) && (fi_train_slots f <=? 0) then fill_candidates p trains candidates' f
      else
        match alookup (ca_train c) (index_by tr_id trains) with
        | None => f
        | Some seen =>
            match startable_endpoints seen (fi_devices f) with
            | [] => fill_candidates p trains candidates' f
            | endpoints =>
                match slice_to (Z.min (fi_mr_slots f) (Z.min (fi_starting_slots f) (pf_batch p - fi_started f))) endpoints with
                | [] => f
                | selected =>
                    let f := start_train p c seen selected f in
                    if pf_batch p <=? fi_started f then f else fill_candidates p trains candidates' f
                end
            end
        end
  end.

Definition losses (summaries : list (string * Qc)) : list (string * Qc) :=
  foldl (λ d s, ainsert s.1 (qc_max (default (num 0) (alookup s.1 d)) s.2) d) [] summaries.

(** The trains with collections come first. *)
Definition active_first (active : list string) (l : list SchedulerCandidate) : list SchedulerCandidate :=
  sort_by (on (λ c, flag (str_mem (ca_train c) active) :: ca_rank c) rank_leb) l.

Definition active_trains (s : scheduler) : list string := remove_dups (dp_train <$> list_deep_operations true s).

Definition fill_slots (p : profile) (trains : list train) (summaries : list (string * Qc)) (monotonic : Qc)
    (operations : list operation) (s : scheduler) : scheduler :=
  if negb (qc_leb (num (pf_jitter p)) (monotonic - sc_last_batch s)%Qc) then s
  else
    let allocs := allocations task_owner operations in
    let active := active_trains s in
    let train_slots := Z.max 0 (pf_max_trains p - Z.of_nat (length active)) in
    let mr_slots := Z.max 0 (max_active_mrs (pf_budget p) - Z.of_nat (length allocs)) in
    let starting_slots := Z.max 0 (max_starting_mrs (pf_budget p) - count_phase STARTING_PHASES allocs) in
    if (mr_slots =? 0) || (starting_slots =? 0) then s
    else
      let '(queue, s) := ensure_queue trains s in
      let candidates := active_first active (ordered_candidates trains queue (losses summaries)) in
      let f := fill_candidates p trains candidates
                 (Filling s mr_slots starting_slots train_slots active
                    ((λ a, py_str (op_device_id (al_operation a))) <$> allocs) 0) in
      if fi_started f =? 0 then fi_sched f else with_last_batch monotonic (fi_sched f).

Definition tick (finished : futures) (p : profile) (trains : list train) (summaries : list (string * Qc)) (monotonic : Qc)
    (paused : bool) (s : scheduler) : scheduler :=
  let s := synchronize_operations p s in
  let '(operations, s) := active_operations s in
  let s := request_required_stops finished p trains operations s in
  let s := collect_finished_stop_futures finished s in
  if paused then s else fill_slots p trains summaries monotonic operations s.
End scheduler.

(** ** Lemmas *)
Lemma foldl_ainsert_nonempty {K V A} `{EqDecision K} (k : A → K) (v : A → V) (l : list A) (d : list (K * V)) :
  l ≠ [] ∨ d ≠ [] → foldl (λ d x, ainsert (k x) (v x) d) d l ≠ [].
Proof.
  revert d. induction l as [|x l IH]; intros d H; simpl; [by destruct H|]. apply IH. right.
  destruct d as [|[j w] d]; simpl; [done|]. by destruct (decide (k x = j)).
Qed.

Lemma slice_to_length {A} n (l : list A) : 0 ≤ n → (Z.of_nat (length (slice_to n l)) ≤ n).
Proof. intros H. unfold slice_to. destruct (Z.ltb_spec n 0); [lia|]. rewrite length_take. lia. Qed.
Lemma slice_to_in {A} n (l : list A) x : x ∈ slice_to n l → x ∈ l.
Proof. unfold slice_to. intros H. rewrite <- (take_drop (Z.to_nat (if n <? 0 then Z.of_nat (length l) + n else n)) l). set_solver. Qed.

Lemma active_trains_in s id :
  id ∈ active_trains s ↔ ∃ r, r ∈ sc_deep s ∧ dp_train r = id ∧ str_mem (dp_state r) ENDED_STATES = false.
Proof.
  unfold active_trains, list_deep_operations. rewrite elem_of_remove_dups, list_elem_of_fmap. setoid_rewrite sort_by_in.
  setoid_rewrite list_elem_of_In. setoid_rewrite filter_In. simpl. setoid_rewrite negb_true_iff. naive_solver.
Qed.

Lemma upsert_in row rows r : r ∈ upsert_deep row rows → r ∈ rows ∨ dp_train r = dp_train row.
Proof.
  induction rows as [|old rows IH]; simpl; [intros ->%list_elem_of_singleton; by right|].
  destruct (String.eqb _ _); intros [->|H]%elem_of_cons; [by right|left; by right|left; by left|].
  apply IH in H as [H|H]; [left; by right|by right].
Qed.
Lemma upsert_length row rows : (length (upsert_deep row rows) ≤ S (length rows))%nat.
Proof. induction rows as [|old rows IH]; simpl; [lia|]. destruct (String.eqb _ _); simpl; lia. Qed.

Lemma NoDup_incl_length_le (l k : list string) : NoDup l → (∀ x, x ∈ l → x ∈ k) → (length l ≤ length k)%nat.
Proof.
  intros Hn Hi. apply NoDup_incl_length; [by apply NoDup_ListNoDup|]. intros x Hx. apply list_elem_of_In, Hi. by apply list_elem_of_In.
Qed.

(** *** The columns that a start does not change *)

(** The columns of a train that tell how often and why it was chosen. *)
Definition chosen (t : train) : string * Z * string * string := (tr_id t, tr_attempts t, tr_selection t, tr_started t).

Section fill.
Context (task_owner : string → option string) (linked : operation → bool) (progress : nat → list operation → list operation).
Context (info : string → op_info).
Context (build_start_request : endpoint → string + string) (start_local_collection : nat → endpoint → operation + string).
Context (shuffle : Z → list string → list string) (shuffle_text : string → list string → list string) (day_seed : Z).
Context (now : string) (p : profile) (trains : list train).
#[local] Notation do_endpoint := (start_endpoint task_owner linked progress info build_start_request start_local_collection now p).
#[local] Notation do_train := (start_train task_owner linked progress info build_start_request start_local_collection now p).
#[local] Notation do_candidates :=
  (fill_candidates task_owner linked progress info build_start_request start_local_collection now p trains).
#[local] Notation do_fill :=
  (fill_slots task_owner linked progress info build_start_request start_local_collection shuffle shuffle_text day_seed now p trains).

(** A property of the state that all steps of a fill keep is kept by it. *)
Section keeps.
Context (P : filling → Prop).
Context (Hstep : ∀ c seen selected f,
  P f → alookup (ca_train c) (index_by tr_id trains) = Some seen → selected ≠ [] →
  0 < fi_mr_slots f → 0 < fi_starting_slots f →
  (str_mem (ca_train c) (fi_trains f) = true ∨ 0 < fi_train_slots f) →
  selected = slice_to (Z.min (fi_mr_slots f) (Z.min (fi_starting_slots f) (pf_batch p - fi_started f)))
               (startable_endpoints seen (fi_devices f)) →
  fi_started f < pf_batch p ∨ fi_started f = 0 →
  P (do_train c seen selected f)).

Lemma fill_candidates_keeps cs f : P f → fi_started f < pf_batch p ∨ fi_started f = 0 → P (do_candidates cs f).
Proof using Hstep.
  revert f. induction cs as [|c cs IH]; intros f Hf Hb; simpl; [done|].
  destruct (Z.leb_spec (fi_mr_slots f) 0); simpl; [done|]. destruct (Z.leb_spec (fi_starting_slots f) 0); simpl; [done|].
  destruct (negb (str_mem (ca_train c) (fi_trains f)) && (fi_train_slots f <=? 0)) eqn:Ht; [by apply IH|].
  destruct (alookup _ _) as [seen|] eqn:Es; [|done].
  destruct (startable_endpoints seen (fi_devices f)) as [|e es] eqn:Ee; [by apply IH|].
  destruct (slice_to _ _) as [|x xs] eqn:El; [done|].
  assert (P (do_train c seen (x :: xs) f)) as HP.
  { apply Hstep; try done.
    - apply andb_false_iff in Ht as [Ht|Ht]; [left; by apply negb_false_iff in Ht|right; by apply Z.leb_gt in Ht].
    - by rewrite Ee, El. }
  destruct (Z.leb_spec (pf_batch p) (fi_started (do_train c seen (x :: xs) f))); [done|]. apply IH; [done|by left].
Qed.
End keeps.

Lemma start_endpoint_trains train_id b e : sc_trains (b_sched (do_endpoint train_id b e)) = sc_trains (b_sched b).
Proof using Type.
  unfold start_endpoint, active_operations, read_operations. destruct (negb _); [done|].
  destruct (build_start_request e); [|done]. by destruct (start_local_collection _ _).
Qed.
Lemma start_endpoints_trains train_id es b :
  sc_trains (b_sched (foldl (do_endpoint train_id) b es)) = sc_trains (b_sched b).
Proof using Type. revert b. induction es as [|e es IH]; intros b; [done|]. simpl. by rewrite IH, start_endpoint_trains. Qed.

Lemma update_chosen id f (l : list train) : (∀ t, t ∈ l → tr_id t = id → chosen (f t) = chosen t) →
  chosen <$> ((λ t, if String.eqb (tr_id t) id then f t else t) <$> l) = chosen <$> l.
Proof using Type.
  intros H. rewrite <- list_fmap_compose. apply list_fmap_ext. intros i t Ht%list_elem_of_lookup_2. simpl.
  destruct (String.eqb_spec (tr_id t) id); [by apply H|done].
Qed.

(** The rows that the caller has read are those of the table. *)
Definition agree (s : scheduler) : Prop :=
  ∀ t r, t ∈ trains → r ∈ sc_trains s → tr_id r = tr_id t → chosen r = chosen t.

Lemma agree_chosen s s' : chosen <$> sc_trains s' = chosen <$> sc_trains s → agree s → agree s'.
Proof using Type.
  intros E H t r Ht Hr Hid. assert (chosen r ∈ chosen <$> sc_trains s) as (r' & E' & Hr')%list_elem_of_fmap
    by (rewrite <- E; by apply list_elem_of_fmap_2).
  rewrite E'. apply (H t r' Ht Hr'). unfold chosen in E'. congruence.
Qed.

Lemma started_train_chosen active reason b seen t :
  b_by_end b ≠ [] → chosen t = chosen seen → chosen (started_train now active reason b seen t) = chosen t.
Proof using Type.
  intros Hb E. unfold started_train. set (cycle := foldl _ _ _).
  assert (cycle ≠ []) as Hc by (apply (foldl_ainsert_nonempty fst snd); by left).
  assert (bool_decide (length cycle = 0%nat) = false) as ->.
  { apply bool_decide_eq_false. by destruct cycle. }
  rewrite orb_true_r. unfold chosen in *. simpl. rewrite Z.add_0_r. congruence.
Qed.

Lemma start_train_chosen c seen selected f :
  agree (fi_sched f) → alookup (ca_train c) (index_by tr_id trains) = Some seen →
  chosen <$> sc_trains (fi_sched (do_train c seen selected f)) = chosen <$> sc_trains (fi_sched f).
Proof using Type.
  intros Ha [Hseen Hid]%index_by_Some. unfold start_train. set (b := foldl _ _ selected).
  assert (sc_trains (b_sched b) = sc_trains (fi_sched f)) as Hb by apply start_endpoints_trains.
  destruct (b_by_end b) as [|x l] eqn:Eb.
  - destruct (b_failures b); simpl; [by rewrite Hb|]. rewrite Hb. by apply update_chosen.
  - simpl. rewrite Hb. apply update_chosen. intros t Ht Eid. apply started_train_chosen; [by rewrite Eb|].
    apply Ha; [done|done|]. by rewrite Eid, Hid.
Qed.

Lemma ensure_queue_trains ts s : sc_trains (ensure_queue shuffle shuffle_text day_seed ts s).2 = sc_trains s.
Proof using Type. unfold ensure_queue. destruct (sc_queue s) as [[[seed known] order]|]; [|done]. by destruct (List.filter _ _). Qed.

(** C29: a defect of the code.  Starting the collections of a train never raises
    its number of attempts and never records why and since when it is collected,
    because the dictionary that tells whether a cycle is going on is filled before
    it is looked at: through any fill these columns stay as they were. *)
Theorem attempts_never_counted summaries monotonic operations s :
  agree s → chosen <$> sc_trains (do_fill summaries monotonic operations s) = chosen <$> sc_trains s.
Proof using Type.
  intros Ha. unfold fill_slots. destruct (negb _); [done|].
  destruct (_ || _); [done|]. pose proof (ensure_queue_trains trains s) as Hq.
  destruct (ensure_queue _ _ _ trains s) as [queue s1]. simpl in Hq.
  set (f0 := Filling s1 _ _ _ _ _ 0). set (cs := active_first _ _).
  assert (chosen <$> sc_trains (fi_sched (do_candidates cs f0)) = chosen <$> sc_trains s ∧ agree (fi_sched (do_candidates cs f0))) as [H _].
  { apply (fill_candidates_keeps (λ f, chosen <$> sc_trains (fi_sched f) = chosen <$> sc_trains s ∧ agree (fi_sched f))); [|split|by right].
    - intros c seen selected f [E Hf] Hs _ _ _ _ _ _. pose proof (start_train_chosen c seen selected f Hf Hs) as Hc.
      split; [by rewrite Hc|]. by apply (agree_chosen (fi_sched f)).
    - unfold f0. simpl. by rewrite Hq.
    - apply (agree_chosen s); [|done]. unfold f0. simpl. by rewrite Hq. }
  destruct (fi_started _ =? 0); exact H.
Qed.

(** *** Budgets *)
Section budget.
Context (Hprogress : ∀ n ops, within_budget (pf_budget p) (List.filter linked ops) →
  within_budget (pf_budget p) (List.filter linked (progress n ops))).
Context (Hstarted : ∀ n e o, start_local_collection n e = inl o →
  linked o = true ∧ py_str (op_device_id o) = py_str (ep_device e)).

Definition in_budget (s : scheduler) : Prop := within_budget (pf_budget p) (List.filter linked (sc_ops s)).

(** A start that the policy admits keeps the budget, whatever the first phase is. *)
Lemma admitted_in_budget device ops o :
  allowed (can_start task_owner device ops (pf_budget p) true) = true → py_str (op_device_id o) = py_str device →
  within_budget (pf_budget p) ops → within_budget (pf_budget p) (ops ++ [o]).
Proof using Type.
  intros Ha Hd Hb. assert (allowed (can_start task_owner (op_device_id o) ops (pf_budget p) true) = true) as Ha'.
  { rewrite can_start_allowed in *. by rewrite Hd. }
  pose proof (start_within task_owner _ _ (op_controller_task_id o) (op_phase o) true ops Ha' Hb) as H1. by destruct o.
Qed.

(** What some attempts to start collections of one train do. *)
Record attempts (id : string) (n : nat) (b b' : batch) : Prop := Attempts {
  at_budget : in_budget (b_sched b) → in_budget (b_sched b');
  at_active : ∀ x, x ∈ active_trains (b_sched b') → x ∈ active_trains (b_sched b) ∨ x = id ∧ b_by_end b' ≠ [];
  at_by_end : b_by_end b ≠ [] → b_by_end b' ≠ [];
  at_rows : Z.of_nat (length (sc_deep (b_sched b'))) ≤ Z.of_nat (length (sc_deep (b_sched b))) + (b_started b' - b_started b);
  at_started : b_started b ≤ b_started b' ≤ b_started b + Z.of_nat n;
}.

Lemma attempts_trans id n m b1 b2 b3 : attempts id n b1 b2 → attempts id m b2 b3 → attempts id (n + m) b1 b3.
Proof using Type.
  intros [B1 A1 E1 R1 S1] [B2 A2 E2 R2 S2]. constructor; try lia; [auto| |auto].
  intros x [Hx|Hx]%A2; [|by right]. apply A1 in Hx as [Hx|[-> Hx]]; [by left|right; auto].
Qed.

(** A failure only reads. *)
Lemma failed_attempt id message s b :
  (in_budget (b_sched b) → in_budget s) → sc_deep s = sc_deep (b_sched b) → attempts id 1 b (failed message s b).
Proof using Type.
  intros Hs Hd. constructor; simpl; [done| |done|rewrite Hd; lia|lia].
  intros x Hx. left. rewrite active_trains_in in *. by rewrite Hd in Hx.
Qed.

Lemma start_endpoint_attempt id b e : attempts id 1 b (do_endpoint id b e).
Proof using Hprogress Hstarted.
  unfold start_endpoint, active_operations, read_operations.
  set (ops := progress (sc_reads (b_sched b)) (sc_ops (b_sched b))).
  assert (in_budget (b_sched b) → within_budget (pf_budget p) (List.filter linked ops)) as Hb by apply Hprogress.
  destruct (allowed _) eqn:Ha; simpl; [|by apply failed_attempt].
  destruct (build_start_request e); [|by apply failed_attempt].
  destruct (start_local_collection _ e) as [o|] eqn:Eo; [|by apply failed_attempt].
  destruct (Hstarted _ _ _ Eo) as [Hl Hd]. constructor; simpl.
  - intros Hi. unfold in_budget. simpl. rewrite List.filter_app. simpl. rewrite Hl. by apply (admitted_in_budget _ _ _ Ha); auto.
  - intros x (r & Hr & <- & Hs)%active_trains_in. simpl in Hr. apply upsert_in in Hr as [Hr|Hr].
    + left. apply active_trains_in. by exists r.
    + right. split; [exact Hr|]. destruct (b_by_end b) as [|[k v] l]; simpl; [done|by destruct (decide _)].
  - intros _. destruct (b_by_end b) as [|[k v] l]; simpl; [done|by destruct (decide _)].
  - match goal with |- context [length (upsert_deep ?row ?rows)] => pose proof (upsert_length row rows) end. lia.
  - lia.
Qed.

Lemma start_endpoints_attempts id es b : attempts id (length es) b (foldl (do_endpoint id) b es).
Proof using Hprogress Hstarted.
  revert b. induction es as [|e es IH]; intros b.
  - constructor; simpl; try done; [by left|lia|lia].
  - eapply (attempts_trans id 1 (length es)); [apply start_endpoint_attempt|apply IH].
Qed.

(** What a fill keeps, from [rows0] rows and with [slots] trains at most. *)
Record filled_ok (rows0 slots : Z) (f : filling) : Prop := FilledOk {
  fo_budget : in_budget (fi_sched f);
  fo_active : ∀ x, x ∈ active_trains (fi_sched f) → x ∈ fi_trains f;
  fo_trains : NoDup (fi_trains f);
  fo_slots : Z.of_nat (length (fi_trains f)) + fi_train_slots f = slots ∧ 0 ≤ fi_train_slots f;
  fo_rows : Z.of_nat (length (sc_deep (fi_sched f))) ≤ rows0 + fi_started f;
  fo_started : 0 ≤ fi_started f ≤ Z.max 0 (pf_batch p);
}.

Lemma start_train_ok rows0 slots c seen selected f :
  filled_ok rows0 slots f → (str_mem (ca_train c) (fi_trains f) = true ∨ 0 < fi_train_slots f) →
  fi_started f + Z.of_nat (length selected) ≤ Z.max 0 (pf_batch p) → filled_ok rows0 slots (do_train c seen selected f).
Proof using All.
  intros [B A N [S1 S2] R St] Ht Hlen. unfold start_train. set (b0 := Batch _ [] [] _ _ _ _).
  destruct (start_endpoints_attempts (ca_train c) selected b0) as [B' A' E' R' S']. set (b := foldl _ b0 selected) in *.
  assert (∀ s', sc_ops s' = sc_ops (b_sched b) → in_budget s') as HB by (intros s' E; unfold in_budget; rewrite E; by apply B').
  assert (∀ s', sc_deep s' = sc_deep (b_sched b) → ∀ x, x ∈ active_trains s' → x ∈ fi_trains f ∨ x = ca_train c ∧ b_by_end b ≠ []) as HA.
  { intros s' E x Hx. assert (x ∈ active_trains (b_sched b)) as Hx' by (rewrite active_trains_in in *; by rewrite E in Hx).
    apply A' in Hx' as [Hx'|Hx']; [left; by apply A|by right]. }
  simpl in R', S'. destruct (b_by_end b) as [|y l] eqn:Eb.
  - set (s' := match b_failures b with [] => _ | _ => _ end).
    assert (sc_ops s' = sc_ops (b_sched b) ∧ sc_deep s' = sc_deep (b_sched b)) as [E1 E2] by (unfold s'; by destruct (b_failures b)).
    constructor; simpl; try done; [by apply HB| |rewrite E2; lia|lia]. intros x Hx. by apply (HA s' E2) in Hx as [Hx|[_ Hx]].
  - constructor; simpl; [by apply HB| | | |lia|lia].
    + intros x Hx. apply HA in Hx as [Hx|[-> _]]; [| |done].
      * destruct (str_mem _ _); [done|]. set_solver.
      * destruct (str_mem (ca_train c) (fi_trains f)) eqn:Em; [by apply str_mem_iff|set_solver].
    + destruct (str_mem (ca_train c) (fi_trains f)) eqn:Em; [done|]. apply NoDup_app. split_and!; [done| |apply NoDup_singleton].
      intros x Hx ->%list_elem_of_singleton. apply str_mem_iff in Hx. congruence.
    + destruct (str_mem (ca_train c) (fi_trains f)) eqn:Em; [done|]. rewrite length_app. simpl. destruct Ht; [congruence|lia].
Qed.

Lemma ensure_queue_frame ts s :
  let s' := (ensure_queue shuffle shuffle_text day_seed ts s).2 in sc_ops s' = sc_ops s ∧ sc_deep s' = sc_deep s.
Proof using Type. unfold ensure_queue. destruct (sc_queue s) as [[[seed known] order]|]; [|done]. by destruct (List.filter _ _). Qed.

(** C27: a fill stays within its bounds.  Whatever the running operations do in
    the meantime, as long as they keep the budget themselves: never more running
    or starting collections than the profile allows and never two of one device;
    at most one batch of new collections; and never more trains in collection
    than allowed, or than there were before. *)
Theorem fill_slots_bounds summaries monotonic operations s :
  in_budget s → 0 ≤ pf_batch p →
  let s' := do_fill summaries monotonic operations s in
  in_budget s' ∧
  Z.of_nat (length (sc_deep s')) ≤ Z.of_nat (length (sc_deep s)) + pf_batch p ∧
  Z.of_nat (length (active_trains s')) ≤ Z.max (pf_max_trains p) (Z.of_nat (length (active_trains s))).
Proof using Hprogress Hstarted.
  intros Hb Hbatch. simpl. unfold fill_slots. destruct (negb _); [split_and!; [done|lia|lia]|].
  destruct (_ || _); [split_and!; [done|lia|lia]|]. pose proof (ensure_queue_frame trains s) as [Q1 Q2].
  destruct (ensure_queue _ _ _ trains s) as [queue s1]. simpl in Q1, Q2. set (n := Z.of_nat (length (active_trains s))).
  set (f0 := Filling s1 _ _ _ _ _ 0). set (cs := active_first _ _).
  assert (filled_ok (Z.of_nat (length (sc_deep s))) (n + Z.max 0 (pf_max_trains p - n)) (do_candidates cs f0)) as [B A N [S1 S2] R St].
  { apply (fill_candidates_keeps (filled_ok (Z.of_nat (length (sc_deep s))) (n + Z.max 0 (pf_max_trains p - n)))); [| |by right].
    - intros c seen selected f Hf _ _ Hmr Hst Ht -> Hl. apply start_train_ok; [done|done|]. destruct Hf as [_ _ _ _ _ Hf].
      match goal with |- context [slice_to ?k ?l] => pose proof (slice_to_length k l) end. lia.
    - unfold f0. constructor; simpl; [by unfold in_budget; rewrite Q1| |apply NoDup_remove_dups|fold n; lia|rewrite Q2; lia|lia].
      intros x Hx. rewrite active_trains_in in *. by rewrite Q2 in Hx. }
  set (f := do_candidates cs f0) in *.
  assert (Z.of_nat (length (active_trains (fi_sched f))) ≤ Z.max (pf_max_trains p) n) as HL.
  { assert (length (active_trains (fi_sched f)) ≤ length (fi_trains f))%nat by by apply NoDup_incl_length_le; [apply NoDup_remove_dups|].
    lia. }
  destruct (fi_started f =? 0); simpl; split_and!; try done; lia.
Qed.
End budget.
End fill.

(** *** Coverage *)
Section coverage.
Context (progress : nat → list operation → list operation) (info : string → op_info).
Context (session_evidence : string → evidence + string) (collectors : string → option (list (string * string))).
Context (operation_duration : string → Qc) (now : string) (p : profile).
#[local] Notation covering := (update_coverage_of operation_duration p).
#[local] Notation synced := (synchronized_row info session_evidence now p).
#[local] Notation syncing := (synchronize_row info session_evidence collectors now p).

(** The train after its cycle was looked at. *)
Definition covered_train (rows : list deep_row) (t : train) : train :=
  if cycle_ended t rows then finish_cycle operation_duration p (current_rows t rows) t else t.

Lemma covered_train_id rows t : tr_id (covered_train rows t) = tr_id t.
Proof using Type. unfold covered_train. by destruct (cycle_ended t rows). Qed.
Lemma no_rows_not_ended t : cycle_ended t [] = false.
Proof using Type. unfold cycle_ended. simpl. by rewrite andb_false_r. Qed.

Lemma find_train id l : NoDup (tr_id <$> l) → ∀ t, t ∈ l → tr_id t = id → List.find (String.eqb id ∘ tr_id) l = Some t.
Proof using Type.
  induction l as [|x l IH]; [by intros _ t ?%not_elem_of_nil|]. rewrite fmap_cons, NoDup_cons. intros [Hx Hn] t [->|Ht]%elem_of_cons Hid; simpl.
  - by rewrite Hid, String.eqb_refl.
  - destruct (String.eqb_spec id (tr_id x)) as [E|]; [|by apply IH]. destruct Hx. rewrite <- E, <- Hid. by apply list_elem_of_fmap_2.
Qed.

Lemma covering_trains s id rows :
  NoDup (tr_id <$> sc_trains s) →
  sc_deep (covering s (id, rows)) = sc_deep s ∧
  sc_trains (covering s (id, rows)) = (λ t, if String.eqb (tr_id t) id then covered_train rows t else t) <$> sc_trains s.
Proof using Type.
  intros Hn. unfold update_coverage_of, get_train_run. simpl.
  assert (∀ f : train → train, (∀ t, t ∈ sc_trains s → tr_id t = id → f t = t) →
    sc_trains s = (λ t, if String.eqb (tr_id t) id then f t else t) <$> sc_trains s) as Hsame.
  { intros f Hf. symmetry. etrans; [|apply list_fmap_id]. apply list_fmap_ext. intros i t Ht%list_elem_of_lookup_2. simpl.
    destruct (String.eqb_spec (tr_id t) id); [by apply Hf|done]. }
  destruct (List.find _ _) as [t|] eqn:E.
  - apply find_some in E as [Ht Hid]. apply list_elem_of_In in Ht. simpl in Hid. apply String.eqb_eq in Hid.
    assert (∀ t', t' ∈ sc_trains s → tr_id t' = id → t' = t) as Hu.
    { intros t' Ht' Hid'. pose proof (find_train id (sc_trains s) Hn t' Ht' Hid') as H1.
      pose proof (find_train id (sc_trains s) Hn t Ht (eq_sym Hid)) as H2. congruence. }
    destruct (cycle_ended t rows) eqn:Ec.
    + split; [done|]. simpl. apply list_fmap_ext. intros i t' Ht'%list_elem_of_lookup_2.
      destruct (String.eqb_spec (tr_id t') id) as [Hid'|]; [|done]. rewrite (Hu t' Ht' Hid'). unfold covered_train. by rewrite Ec.
    + split; [done|]. apply Hsame. intros t' Ht' Hid'. rewrite (Hu t' Ht' Hid'). unfold covered_train. by rewrite Ec.
  - split; [done|]. apply Hsame. intros t Ht Hid. pose proof (find_none _ _ E t) as H. simpl in H.
    rewrite Hid, String.eqb_refl in H. by apply list_elem_of_In, H in Ht.
Qed.

Lemma covering_all l s :
  NoDup (tr_id <$> sc_trains s) → NoDup l.*1 →
  let s' := foldl covering s l in
  sc_deep s' = sc_deep s ∧ sc_trains s' = (λ t, covered_train (default [] (alookup (tr_id t) l)) t) <$> sc_trains s.
Proof using Type.
  revert s. induction l as [|[id rows] l IH]; intros s Hn Hl; simpl.
  - split; [done|]. symmetry. etrans; [|apply list_fmap_id]. apply list_fmap_ext. intros i t _. unfold covered_train.
    by rewrite no_rows_not_ended.
  - apply NoDup_cons in Hl as [Hid Hl]. destruct (covering_trains s id rows Hn) as [D T].
    destruct (IH (covering s (id, rows))) as [D' T']; [|done|].
    { rewrite T, <- list_fmap_compose. erewrite list_fmap_ext; [exact Hn|]. intros i t _. simpl.
      destruct (String.eqb _ _); [apply covered_train_id|done]. }
    split; [by rewrite D'|]. rewrite T', T, <- list_fmap_compose. apply list_fmap_ext. intros i t _. simpl.
    destruct (String.eqb_spec (tr_id t) id) as [E|E].
    + rewrite covered_train_id, E, decide_True by done. assert (alookup id l = None) as -> by by apply alookup_None.
      unfold covered_train at 1. simpl. by rewrite no_rows_not_ended.
    + by rewrite decide_False.
Qed.

(** Coverage is updated train by train, from the rows of the train. *)
Definition rows_of (s : scheduler) (t : train) : list deep_row :=
  List.filter (λ r, String.eqb (dp_train r) (tr_id t)) (list_deep_operations false s).
Lemma update_train_coverage_trains s :
  NoDup (tr_id <$> sc_trains s) →
  let s' := update_train_coverage operation_duration p s in
  sc_deep s' = sc_deep s ∧ sc_trains s' = (λ t, covered_train (rows_of s t) t) <$> sc_trains s.
Proof using Type.
  intros Hn. unfold update_train_coverage.
  destruct (covering_all (gather dp_train (list_deep_operations false s)) s Hn (gather_NoDup _ _)) as [D T]. split; [done|].
  rewrite T. apply list_fmap_ext. intros i t _. by rewrite gather_lookup.
Qed.

(** *** Synchronized rows *)
Definition saved_row (ops : list (string * operation)) (r : deep_row) : deep_row := default r (synced ops r).

Lemma synced_same ops r r' : synced ops r = Some r' →
  dp_id r' = dp_id r ∧ dp_started r' = dp_started r ∧ dp_train r' = dp_train r ∧ dp_position r' = dp_position r.
Proof using Type.
  unfold synchronized_row. destruct (alookup _ _) as [o|]; [|destruct (str_mem _ _); [done|]; by intros [= <-]].
  intros [= <-]. destruct (negb _); [done|]. by destruct (verify_terminal_operation _ _ _ _) as [[]].
Qed.
Lemma saved_same ops r :
  dp_id (saved_row ops r) = dp_id r ∧ dp_started (saved_row ops r) = dp_started r ∧
  dp_train (saved_row ops r) = dp_train r ∧ dp_position (saved_row ops r) = dp_position r.
Proof using Type. unfold saved_row. destruct (synced ops r) eqn:E; [|done]. by apply synced_same in E. Qed.

Lemma upsert_map (r r' : deep_row) rows :
  NoDup (dp_id <$> rows) → r ∈ rows → dp_id r' = dp_id r → dp_started r' = dp_started r →
  upsert_deep r' rows = (λ x, if String.eqb (dp_id x) (dp_id r) then r' else x) <$> rows.
Proof using Type.
  intros Hn Hr Hid Hst. induction rows as [|x rows IH]; [by apply not_elem_of_nil in Hr|]. rewrite fmap_cons in Hn. rewrite fmap_cons.
  apply NoDup_cons in Hn as [Hx Hn]. simpl. rewrite Hid. destruct (String.eqb_spec (dp_id x) (dp_id r)) as [E|E].
  - assert (x = r) as ->.
    { apply elem_of_cons in Hr as [->|Hr]; [done|]. destruct Hx. rewrite E. by apply list_elem_of_fmap_2. }
    f_equal.
    + rewrite <- Hid, <- Hst. by destruct r'.
    + symmetry. etrans; [|apply list_fmap_id]. apply list_fmap_ext. intros i y Hy%list_elem_of_lookup_2. simpl.
      destruct (String.eqb_spec (dp_id y) (dp_id r)) as [E'|]; [|done]. destruct Hx. rewrite <- E'. by apply list_elem_of_fmap_2.
  - f_equal. apply IH; [done|]. by apply elem_of_cons in Hr as [->|Hr].
Qed.

Lemma syncing_frame ops s r : sc_trains (syncing ops s r) = sc_trains s ∧
  sc_deep (syncing ops s r) = match synced ops r with Some r' => upsert_deep r' (sc_deep s) | None => sc_deep s end.
Proof using Type.
  unfold synchronize_row. destruct (synced ops r); [|done]. destruct (_ && _); [|done].
  unfold record_fping_started. destruct (negb _); [done|]. destruct (_ ≫= _); [|done]. by destruct (String.eqb _ _).
Qed.

Lemma syncing_rows ops s r : NoDup (dp_id <$> sc_deep s) → r ∈ sc_deep s →
  sc_deep (syncing ops s r) = (λ x, if String.eqb (dp_id x) (dp_id r) then saved_row ops r else x) <$> sc_deep s.
Proof using Type.
  intros Hn Hr. destruct (syncing_frame ops s r) as [_ ->]. unfold saved_row. destruct (synced ops r) as [r'|] eqn:E; simpl.
  - apply synced_same in E as (E1 & E2 & _). by apply upsert_map.
  - symmetry. etrans; [|apply list_fmap_id]. apply list_fmap_ext. intros i x Hx%list_elem_of_lookup_2. simpl.
    destruct (String.eqb_spec (dp_id x) (dp_id r)) as [E'|]; [|done].
    pose proof (index_by_lookup dp_id _ _ Hn Hr) as H1. pose proof (index_by_lookup dp_id _ _ Hn Hx) as H2. congruence.
Qed.

Lemma syncing_all ops l s : NoDup (dp_id <$> sc_deep s) → NoDup (dp_id <$> l) →
  (∀ r, r ∈ l → r ∈ sc_deep s) →
  let s' := foldl (syncing ops) s l in
  sc_trains s' = sc_trains s ∧
  sc_deep s' = (λ x, if str_mem (dp_id x) (dp_id <$> l) then saved_row ops x else x) <$> sc_deep s.
Proof using Type.
  revert s. induction l as [|r l IH]; intros s Hn Hl Hin; simpl.
  - split; [done|]. symmetry. apply list_fmap_id.
  - rewrite fmap_cons in Hl. apply NoDup_cons in Hl as [Hr Hl]. pose proof (Hin r (list_elem_of_here _ _)) as Hrs.
    pose proof (syncing_rows ops s r Hn Hrs) as D. destruct (syncing_frame ops s r) as [T _].
    destruct (IH (syncing ops s r)) as [T' D']; [|done| |].
    + rewrite D, <- list_fmap_compose. erewrite list_fmap_ext; [exact Hn|]. intros i x _. simpl.
      destruct (String.eqb_spec (dp_id x) (dp_id r)) as [->|]; [apply saved_same|done].
    + intros r' Hr'. rewrite D. apply list_elem_of_fmap. exists r'. split; [|apply Hin; by right].
      destruct (String.eqb_spec (dp_id r') (dp_id r)) as [E|]; [|done]. destruct Hr. rewrite <- E. by apply list_elem_of_fmap_2.
    + split; [by rewrite T'|]. rewrite D', D, <- list_fmap_compose. apply list_fmap_ext. intros i x Hx%list_elem_of_lookup_2. simpl.
      unfold str_mem at 2. cbn [existsb fmap list_fmap].
      destruct (String.eqb_spec (dp_id x) (dp_id r)) as [E|E].
      * assert (x = r) as ->.
        { pose proof (index_by_lookup dp_id _ _ Hn Hrs) as H1. pose proof (index_by_lookup dp_id _ _ Hn Hx) as H2. congruence. }
        destruct (saved_same ops r) as [-> _]. simpl.
        destruct (str_mem (dp_id r) (dp_id <$> l)) eqn:Em; [|done]. by apply str_mem_iff in Em.
      * simpl. done.
Qed.

Lemma list_deep_in s r : r ∈ list_deep_operations false s ↔ r ∈ sc_deep s.
Proof using Type.
  unfold list_deep_operations. rewrite sort_by_in, !list_elem_of_In, filter_In. simpl. by split; [intros [? _]|].
Qed.
Lemma list_deep_ids s : NoDup (dp_id <$> sc_deep s) → NoDup (dp_id <$> list_deep_operations false s).
Proof using Type.
  intros H. unfold list_deep_operations. rewrite sort_by_perm. simpl. erewrite List.filter_ext; [|by intros]. by rewrite List.filter_true.
Qed.

(** A row that counts as completed carries both marks of it. *)
Definition verified (s : scheduler) : Prop :=
  ∀ r, r ∈ sc_deep s → dp_state r = "COMPLETED" → dp_final r = true ∧ dp_package r = true.

Lemma running_not_completed phase : running_state phase ≠ "COMPLETED".
Proof using Type. unfold running_state. destruct (bool_decide _); [done|]. by destruct (bool_decide _). Qed.

(** When a row is completed after it was synchronized. *)
Definition completed_by (ops : list (string * operation)) (id : string) : Prop :=
  ∃ o e, alookup id ops = Some o ∧ op_phase o = TERMINAL ∧ session_evidence (oi_session (info id)) = inl e ∧
    Forall (λ c, c.2 = true) (terminal_checks p e (oi_duration (info id))).

Lemma verify_success id :
  (verify_terminal_operation info session_evidence p id).1.1 = true →
  ∃ e, session_evidence (oi_session (info id)) = inl e ∧ Forall (λ c, c.2 = true) (terminal_checks p e (oi_duration (info id))).
Proof using Type.
  unfold verify_terminal_operation. destruct (negb _); [done|]. destruct (session_evidence _) as [e|]; [|done].
  destruct (forallb snd _) eqn:E; [|done]. intros _. exists e. split; [done|]. apply Forall_forall. intros c Hc.
  by apply (proj1 (forallb_forall _ _) E), list_elem_of_In.
Qed.

Lemma saved_completed ops r :
  dp_state (saved_row ops r) = "COMPLETED" →
  (completed_by ops (dp_id r) ∧ dp_final (saved_row ops r) = true ∧ dp_package (saved_row ops r) = true) ∨
  (alookup (dp_id r) ops = None ∧ saved_row ops r = r).
Proof using Type.
  unfold saved_row, synchronized_row. destruct (alookup (dp_id r) ops) as [o|] eqn:Eo.
  - destruct (bool_decide (op_phase o = TERMINAL)) eqn:Et; simpl; [|intros E; by apply running_not_completed in E].
    apply bool_decide_eq_true in Et. destruct (verify_terminal_operation _ _ _ _) as [[[] reason] session] eqn:Ev; simpl; [|done].
    intros _. left. split; [|done]. destruct (verify_success (dp_id r)) as (e & He & Hc); [by rewrite Ev|]. by exists o, e.
  - destruct (str_mem _ _); simpl; [by right|done].
Qed.

(** The rows and the trains after a synchronization. *)
Lemma synchronize_parts s :
  NoDup (tr_id <$> sc_trains s) → NoDup (dp_id <$> sc_deep s) →
  let s' := synchronize_operations progress info session_evidence collectors operation_duration now p s in
  let ops := index_by op_controller_task_id (progress (sc_reads s) (sc_ops s)) in
  sc_deep s' = saved_row ops <$> sc_deep s ∧ sc_trains s' = (λ t, covered_train (rows_of s' t) t) <$> sc_trains s.
Proof using Type.
  intros Ht Hd. unfold synchronize_operations, read_operations. set (s0 := Scheduler _ _ _ _ _ _ _ _ _ _).
  set (ops := index_by _ _). set (s1 := foldl _ s0 _).
  destruct (syncing_all ops (list_deep_operations false s0) s0) as [T D]; [done|by apply list_deep_ids|intros r; apply list_deep_in|].
  fold s1 in T, D. destruct (update_train_coverage_trains s1) as [D' T']; [by rewrite T|]. simpl. split.
  - rewrite D', D. apply list_fmap_ext. intros i x Hx%list_elem_of_lookup_2. simpl.
    assert (str_mem (dp_id x) (dp_id <$> list_deep_operations false s0) = true) as ->; [|done].
    apply str_mem_iff, list_elem_of_fmap_2. by apply list_deep_in.
  - rewrite T', T. apply list_fmap_ext. intros i t _. unfold rows_of, list_deep_operations. by rewrite D'.
Qed.

Lemma covered_train_cases rows t :
  (cycle_ended t rows = false ∧ covered_train rows t = t) ∨
  (tr_operations (covered_train rows t) = [] ∧
   (tr_rounds (covered_train rows t) = tr_rounds t ∨
    tr_rounds (covered_train rows t) = tr_rounds t + 1 ∧
    ∀ position, position ∈ expected_positions t → ∃ r, r ∈ current_rows t rows ∧ dp_position r = position ∧ dp_state r = "COMPLETED")).
Proof using Type.
  unfold covered_train. destruct (cycle_ended t rows) eqn:E; [right|by left]. split; [done|]. simpl. unfold cycle_status.
  destruct (forallb _ (current_rows t rows)) eqn:Hc; simpl; [|left; lia]. destruct (qc_leb _ _); simpl; [|left; lia].
  right. split; [done|]. intros position Hp. unfold cycle_ended in E. apply andb_true_iff in E as [[E _]%andb_true_iff _].
  apply (proj1 (forallb_forall _ _)) with (x := position) in E; [|by apply list_elem_of_In].
  apply str_mem_iff, list_elem_of_fmap in E as (r & -> & Hr). exists r. split_and!; [done|done|].
  apply (proj1 (forallb_forall _ _)) with (x := r) in Hc; [|by apply list_elem_of_In]. by apply String.eqb_eq in Hc.
Qed.

Lemma no_operations_not_ended rows t : tr_operations t = [] → cycle_ended t rows = false.
Proof using Type.
  intros H. assert (current_rows t rows = []) as E; [|unfold cycle_ended; rewrite E; simpl; by rewrite andb_false_r].
  unfold current_rows. rewrite H. simpl. by induction rows.
Qed.

(** C28: only verified collections count.  A row is completed only by an operation
    that has ended with all the evidence required - or stays completed when its
    operation is gone; a train gains a round, one at a time, only when every
    endpoint expected of it has a completed row of its current cycle; the cycle is
    over then, so that looking again changes nothing. *)
Theorem covered_only_verified s :
  NoDup (tr_id <$> sc_trains s) → NoDup (dp_id <$> sc_deep s) → verified s →
  let s' := synchronize_operations progress info session_evidence collectors operation_duration now p s in
  let ops := index_by op_controller_task_id (progress (sc_reads s) (sc_ops s)) in
  verified s' ∧
  (∀ r, r ∈ sc_deep s' → dp_state r = "COMPLETED" →
     completed_by ops (dp_id r) ∨ (alookup (dp_id r) ops = None ∧ r ∈ sc_deep s)) ∧
  (∀ i t t', sc_trains s !! i = Some t → sc_trains s' !! i = Some t' →
     t' = t ∨
     tr_operations t' = [] ∧
     (tr_rounds t' = tr_rounds t ∨
      tr_rounds t' = tr_rounds t + 1 ∧
      ∀ position, position ∈ expected_positions t → ∃ r, r ∈ sc_deep s' ∧ dp_train r = tr_id t ∧
        dp_position r = position ∧ dp_id r ∈ (tr_operations t).*2 ∧ dp_state r = "COMPLETED")) ∧
  sc_trains (update_train_coverage operation_duration p s') = sc_trains s'.
Proof using Type.
  intros Ht Hd Hv. destruct (synchronize_parts s Ht Hd) as [D T]. simpl. set (s' := synchronize_operations _ _ _ _ _ _ _ _) in *.
  set (ops := index_by _ _) in *.
  assert (∀ r, r ∈ sc_deep s' → dp_state r = "COMPLETED" →
    (completed_by ops (dp_id r) ∧ dp_final r = true ∧ dp_package r = true) ∨ (alookup (dp_id r) ops = None ∧ r ∈ sc_deep s)) as Hrow.
  { intros r Hr Hs. rewrite D in Hr. apply list_elem_of_fmap in Hr as (r0 & -> & Hr0). destruct (saved_same ops r0) as [-> _].
    apply saved_completed in Hs as [H|[H E]]; [by left|right]. by rewrite E. }
  split_and!.
  - intros r Hr Hs. destruct (Hrow r Hr Hs) as [(_ & H)|[_ H]]; [done|by apply Hv].
  - intros r Hr Hs. destruct (Hrow r Hr Hs) as [[H _]|H]; [by left|by right].
  - intros i t t' Hi Hi'. rewrite T, list_lookup_fmap, Hi in Hi'. injection Hi' as <-.
    destruct (covered_train_cases (rows_of s' t) t) as [[_ H]|[H1 [H2|[H2 H3]]]]; [by left|right; by split; [|left]|right].
    split; [done|right]. split; [done|]. intros position Hp. destruct (H3 position Hp) as (r & Hr & Hpos & Hs). exists r.
    unfold current_rows, rows_of in Hr. apply list_elem_of_In, filter_In in Hr as [[Hr Hid]%filter_In Hc].
    apply list_elem_of_In, list_deep_in in Hr. apply String.eqb_eq in Hid. apply str_mem_iff in Hc. by split_and!.
  - destruct (update_train_coverage_trains s') as [_ T2].
    { rewrite T, <- list_fmap_compose. erewrite list_fmap_ext; [exact Ht|]. intros i t _. apply covered_train_id. }
    rewrite T2. etrans; [|apply list_fmap_id]. apply list_fmap_ext. intros i t' Hi. rewrite T, list_lookup_fmap in Hi.
    apply fmap_Some in Hi as (t & Hi & ->). simpl. destruct (covered_train_cases (rows_of s' t) t) as [[E H]|[H _]].
    + rewrite H. unfold covered_train. by rewrite E.
    + unfold covered_train at 1. by rewrite (no_operations_not_ended _ _ H).
Qed.
End coverage.

(** *** The order of the candidates *)
Lemma num_compare a b : (num a ?= num b)%Qc = (a ?= b)%Z.
Proof. unfold num, Qccompare. simpl. rewrite !Qred_correct. unfold Qcompare, inject_Z. simpl. by rewrite !Z.mul_1_r. Qed.

Lemma qc_compare_refl x : (x ?= x)%Qc = Eq.
Proof. by apply Qceq_alt. Qed.

Lemma rank_total a b : rank_leb a b = true ∨ rank_leb b a = true.
Proof.
  revert b. induction a as [|x a IH]; intros [|y b]; simpl; auto. unfold Qccompare. rewrite <- (Qcompare_antisym x y).
  destruct (x ?= y)%Q; simpl; auto.
Qed.
Lemma rank_trans a b c : rank_leb a b = true → rank_leb b c = true → rank_leb a c = true.
Proof.
  revert b c. induction a as [|x a IH]; intros [|y b] [|z c]; simpl; try done.
  destruct (x ?= y)%Qc eqn:E1; try done; destruct (y ?= z)%Qc eqn:E2; try done; intros H1 H2.
  - apply Qceq_alt in E1, E2. subst. rewrite qc_compare_refl. by eapply IH.
  - apply Qceq_alt in E1. subst. by rewrite E2.
  - apply Qceq_alt in E2. subst. by rewrite E1.
  - apply Qclt_alt in E1, E2. assert (x ?= z = Lt)%Qc as ->; [|done]. apply Qclt_alt. by eapply Qclt_trans.
Qed.

Lemma rank_cons a b x y : rank_leb (num a :: x) (num b :: y) = true ↔ a ≤ b ∧ (a = b → rank_leb x y = true).
Proof. simpl. rewrite num_compare. destruct (Z.compare_spec a b); split; intros; try lia; try done; naive_solver lia. Qed.

(** Whom a round prefers: the pinned trains, then the higher priority of the
    policy; then in the first round the trains that were never tried, in the later
    ones those that were tried less often. *)
Definition prefers (is_first : bool) (t u : train) : Prop :=
  (tr_priority u = true → tr_priority t = true) ∧
  (tr_priority t = tr_priority u →
     tr_scheduling u ≤ tr_scheduling t ∧
     (tr_scheduling t = tr_scheduling u →
        if is_first then tr_attempts u = 0 → tr_attempts t = 0 else tr_attempts t ≤ tr_attempts u)).

Lemma rank_prefers is_first queue loss t u :
  rank_leb (ca_rank (candidate is_first queue loss t)) (ca_rank (candidate is_first queue loss u)) = true → prefers is_first t u.
Proof.
  unfold candidate, prefers, flag. destruct is_first; cbn [ca_rank]; intros H; apply rank_cons in H as [H0 H].
  - split; [destruct (tr_priority t), (tr_priority u); done || lia|]. intros Ep. rewrite Ep in H. specialize (H eq_refl).
    apply rank_cons in H as [H1 H]. split; [lia|]. intros Es. rewrite Es in H. specialize (H eq_refl).
    apply rank_cons in H as [H2 _]. intros Eu. rewrite Eu in H2. simpl in H2. destruct (Z.eqb_spec (tr_attempts t) 0); [done|lia].
  - split; [destruct (tr_priority t), (tr_priority u); done || lia|]. intros Ep. rewrite Ep in H. specialize (H eq_refl).
    apply rank_cons in H as [H1 H]. split; [lia|]. intros Es. rewrite Es in H. specialize (H eq_refl).
    by apply rank_cons in H as [H2 _].
Qed.

Lemma pool_first trains : first_round trains ≠ [] → pool trains = first_round trains.
Proof. unfold pool. by destruct (first_round trains). Qed.

(** The order of the candidates is fair.  The candidates are the eligible
    trains of the round, each once; no train starts a later round before all
    eligible ones have finished their first; and within a round each train is
    preferred to those after it. *)
Theorem candidates_fair trains queue loss :
  let l := ordered_candidates trains queue loss in
  let is_first := negb (bool_decide (length (first_round trains) = 0%nat)) in
  ∃ order, l = candidate is_first queue loss <$> order ∧ order ≡ₚ pool trains ∧ StronglySorted (prefers is_first) order ∧
    (∀ t, t ∈ order → t ∈ trains ∧ tr_eligible t = true) ∧
    ((∃ t, t ∈ trains ∧ tr_eligible t = true ∧ tr_rounds t = 0) → ∀ t, t ∈ order → tr_rounds t = 0).
Proof.
  intros l is_first. set (leb := λ t u, rank_leb (ca_rank (candidate is_first queue loss t)) (ca_rank (candidate is_first queue loss u))).
  exists (sort_by leb (pool trains)). split_and!.
  - unfold l, ordered_candidates. fold is_first. set (h := candidate is_first queue loss). clear.
    assert (∀ x k, insert_by (on ca_rank rank_leb) (h x) (h <$> k) = h <$> insert_by leb x k) as Hi.
    { intros x k. induction k as [|y k IH]; [done|]. rewrite fmap_cons. simpl. unfold on at 1, leb at 1. fold h.
      destruct (rank_leb _ _); [done|]. by rewrite IH. }
    induction (pool trains) as [|t k IH]; [done|]. rewrite fmap_cons. cbn [sort_by]. by rewrite IH, Hi.
  - apply sort_by_perm.
  - assert (StronglySorted (λ a b, leb a b = true) (sort_by leb (pool trains))) as Hs.
    { apply sort_by_sorted; [intros; apply rank_total|intros ???; apply rank_trans]. }
    induction Hs as [|t k _ IH Ht]; constructor; [done|]. eapply Forall_impl; [exact Ht|]. intros u. apply rank_prefers.
  - intros t Ht. rewrite sort_by_in in Ht. unfold pool, first_round in Ht.
    assert (∀ t, t ∈ List.filter tr_eligible trains → t ∈ trains ∧ tr_eligible t = true) as H
      by (intros u Hu; apply list_elem_of_In, filter_In in Hu as [? ?]; split; [by apply list_elem_of_In|done]).
    destruct (List.filter (λ t, tr_rounds t =? 0) (List.filter tr_eligible trains)) as [|x k] eqn:E; [by apply H|].
    rewrite <- E in Ht. apply list_elem_of_In, filter_In in Ht as [Ht _]. apply H. by apply list_elem_of_In.
  - intros (t & Ht & He & Hr) u Hu. rewrite sort_by_in in Hu. assert (t ∈ first_round trains) as Hin.
    { unfold first_round. apply list_elem_of_In, filter_In. split; [|by apply Z.eqb_eq]. apply filter_In.
      split; [by apply list_elem_of_In|done]. }
    rewrite pool_first in Hu by (intros E; rewrite E in Hin; by apply not_elem_of_nil in Hin).
    apply list_elem_of_In, filter_In in Hu as [_ Hu]. by apply Z.eqb_eq in Hu.
Qed.

(** *** Stops *)

(** The tables of the stops: no operation is in one twice, and only stops that are
    still in the table are superseded. *)
Record futures_ok (s : scheduler) : Prop := FuturesOk {
  fu_stops : NoDup (sc_stops s);
  fu_forced : NoDup (sc_forced s);
  fu_superseded : NoDup (sc_superseded s) ∧ ∀ id, id ∈ sc_superseded s → id ∈ sc_stops s;
}.
Definition same_futures (s s' : scheduler) : Prop :=
  sc_stops s' = sc_stops s ∧ sc_forced s' = sc_forced s ∧ sc_superseded s' = sc_superseded s.
Lemma same_futures_ok s s' : same_futures s s' → futures_ok s → futures_ok s'.
Proof. intros (E1 & E2 & E3) [? ? ?]. constructor; by rewrite ?E1, ?E2, ?E3. Qed.

Lemma remove_id_in id x l : x ∈ remove_id id l ↔ x ∈ l ∧ x ≠ id.
Proof. unfold remove_id. rewrite list_elem_of_In, filter_In, <- list_elem_of_In, negb_true_iff, String.eqb_neq. done. Qed.
Lemma remove_id_NoDup id l : NoDup l → NoDup (remove_id id l).
Proof. rewrite !NoDup_ListNoDup. apply List.NoDup_filter. Qed.
Lemma snoc_NoDup (id : string) l : NoDup l → str_mem id l = false → NoDup (l ++ [id]).
Proof.
  intros Hl Hid. apply NoDup_app. split_and!; [done| |apply NoDup_singleton]. intros x Hx ->%list_elem_of_singleton.
  apply str_mem_iff in Hx. congruence.
Qed.

Lemma snoc_in (id : string) l : id ∈ l ++ [id] ∧ ∀ x, x ∈ l → x ∈ l ++ [id].
Proof. set_solver. Qed.

Section stops.
Context (task_owner : string → option string) (linked : operation → bool) (progress : nat → list operation → list operation).
Context (finished : futures).
#[local] Notation reading := (active_operations linked progress).
#[local] Notation open_stops s := (Z.of_nat (length (pending finished false (sc_stops s)))).

Lemma submit_stop_ok reason id s : futures_ok s → futures_ok (submit_stop reason id s).
Proof using Type.
  intros [S F [U1 U2]]. unfold submit_stop. destruct (str_mem id (sc_stops s)) eqn:E; simpl; [done|].
  destruct (str_mem id (sc_forced s)); [done|]. constructor; simpl; [by apply snoc_NoDup|done|]. split; [done|].
  intros x Hx%U2. apply elem_of_app. by left.
Qed.
Lemma submit_stop_open reason id s : open_stops (submit_stop reason id s) ≤ open_stops s + 1.
Proof using Type.
  unfold submit_stop. destruct (_ || _); [lia|]. simpl. unfold pending. rewrite List.filter_app, length_app. simpl.
  destruct (bool_decide _); simpl; lia.
Qed.

Lemma request_stops_ok reason limit finalizing allocs s : futures_ok s → futures_ok (request_stops reason limit finalizing allocs s).
Proof using Type.
  revert finalizing s. induction allocs as [|a allocs IH]; intros finalizing s H; simpl; [done|].
  destruct (negb _); [by apply IH|]. destruct (limit <=? finalizing); [done|].
  destruct (reason a); [apply IH; by apply submit_stop_ok|by apply IH].
Qed.
Lemma request_stops_open reason limit finalizing allocs s :
  open_stops s ≤ finalizing → open_stops (request_stops reason limit finalizing allocs s) ≤ Z.max limit (open_stops s).
Proof using Type.
  revert finalizing s. induction allocs as [|a allocs IH]; intros finalizing s H; simpl; [lia|].
  destruct (negb _); [by apply IH|]. destruct (Z.leb_spec limit finalizing); [lia|].
  destruct (reason a) as [r|]; [|by apply IH]. pose proof (submit_stop_open r (task_id a) s).
  specialize (IH (finalizing + 1) (submit_stop r (task_id a) s)). lia.
Qed.

Lemma count_phase_nonneg phases allocs : 0 ≤ count_phase phases allocs.
Proof using Type. unfold count_phase. lia. Qed.

Lemma collect_one_ok forced s id : futures_ok s → futures_ok (collect_one finished forced s id).
Proof using Type.
  intros [S F [U1 U2]]. unfold collect_one. destruct (finished forced id) as [outcome|]; [|done].
  set (s1 := if forced then with_futures _ _ _ _ else _).
  assert (futures_ok s1) as H; [|destruct outcome; [by apply (same_futures_ok s1)|done]].
  unfold s1. destruct forced; constructor; simpl; try done; try by apply remove_id_NoDup.
  split; [by apply remove_id_NoDup|]. intros x. rewrite !remove_id_in. intros [Hx Hn]. split; [by apply U2|done].
Qed.
Lemma collect_ok s : futures_ok s → futures_ok (collect_finished_stop_futures finished s).
Proof using Type.
  intros H. unfold collect_finished_stop_futures. assert (∀ forced ids s, futures_ok s → futures_ok (foldl (collect_one finished forced) s ids)) as Hf.
  { intros forced ids. induction ids as [|id ids IH]; intros s' Hs; [done|]. simpl. apply IH. by apply collect_one_ok. }
  apply Hf. by apply Hf.
Qed.

Lemma force_one_ok reason sl id :
  futures_ok sl.1 → futures_ok (force_one finished reason sl id).1 ∧ id ∈ sc_forced (force_one finished reason sl id).1 ∧
  ∀ x, x ∈ sc_forced sl.1 → x ∈ sc_forced (force_one finished reason sl id).1.
Proof using Type.
  destruct sl as [s submitted]. simpl. intros [S F [U1 U2]]. unfold force_one.
  destruct (str_mem id (sc_forced s)) eqn:Ef; [split; [done|]; split; [by apply str_mem_iff|done]|].
  destruct (str_mem id (sc_stops s)) eqn:Es; [destruct (finished false id) as [outcome|]|].
  - set (s1 := match outcome with Some _ => _ | None => _ end).
    assert (sc_stops s1 = remove_id id (sc_stops s) ∧ sc_forced s1 = sc_forced s ∧ sc_superseded s1 = remove_id id (sc_superseded s))
      as (E1 & E2 & E3) by (unfold s1; by destruct outcome).
    simpl. rewrite E2. split; [|by apply snoc_in]. constructor; simpl; rewrite ?E1, ?E2, ?E3; [by apply remove_id_NoDup|by apply snoc_NoDup|].
    split; [by apply remove_id_NoDup|]. intros x. rewrite !remove_id_in. intros [Hx Hn]. split; [by apply U2|done].
  - simpl. split; [|by apply snoc_in]. constructor; simpl; [done|by apply snoc_NoDup|].
    destruct (str_mem id (sc_superseded s)) eqn:Eu; [done|]. split; [by apply snoc_NoDup|].
    intros x [Hx| ->%list_elem_of_singleton]%elem_of_app; [by apply U2|by apply str_mem_iff].
  - simpl. split; [|by apply snoc_in]. constructor; simpl; [done|by apply snoc_NoDup|done].
Qed.

Lemma force_all_ok reason ids sl :
  futures_ok sl.1 → futures_ok (foldl (force_one finished reason) sl ids).1 ∧
  ∀ x, x ∈ ids ∨ x ∈ sc_forced sl.1 → x ∈ sc_forced (foldl (force_one finished reason) sl ids).1.
Proof using Type.
  revert sl. induction ids as [|id ids IH]; intros sl H; simpl; [by split; [|intros x [?%not_elem_of_nil|]]|].
  destruct (force_one_ok reason sl id H) as (H1 & H2 & H3). destruct (IH _ H1) as [H4 H5]. split; [done|].
  intros x [[->|Hx]%elem_of_cons|Hx]; apply H5; [by right|by left|right; by apply H3].
Qed.

(** Stops are requested once and within their budget.  Through every method
    that touches them no operation has two normal or two forced stops under way;
    stopping all operations opens at most as many stops as may be finalized at a
    time, and so does a tick before it collects the stops that have ended; the
    forced stop reaches every automated operation. *)
Theorem stops_once s :
  futures_ok s →
  (∀ reason limit, let s' := stop_all task_owner linked progress finished reason limit s in
     futures_ok s' ∧ open_stops s' ≤ Z.max (Z.max 1 limit) (open_stops s)) ∧
  (∀ info p trains ops, let s' := request_required_stops task_owner info finished p trains ops s in
     futures_ok s' ∧ open_stops s' ≤ Z.max (max_finalizing_mrs (pf_budget p)) (open_stops s)) ∧
  futures_ok (collect_finished_stop_futures finished s) ∧
  (∀ reason, let s' := (force_stop_all task_owner linked progress finished reason s).1 in
     futures_ok s' ∧ ∀ id, id ∈ automated_ids task_owner (reading s).1 → id ∈ sc_forced s').
Proof using Type.
  intros H. assert (futures_ok (reading s).2) as Hr by by apply (same_futures_ok s). split_and!.
  - intros reason limit. unfold stop_all. pose proof (count_phase_nonneg FINALIZING_PHASES (allocations task_owner (reading s).1)).
    change (reading s) with ((reading s).1, (reading s).2) in *. cbv iota. cbv zeta. split; [by apply request_stops_ok|].
    etrans; [apply request_stops_open|done]. unfold finalizing_count. simpl in *. lia.
  - intros info p trains ops. unfold request_required_stops.
    pose proof (count_phase_nonneg FINALIZING_PHASES (allocations task_owner ops)). split; [by apply request_stops_ok|].
    apply request_stops_open. unfold finalizing_count. lia.
  - by apply collect_ok.
  - intros reason. unfold force_stop_all. change (reading s) with ((reading s).1, (reading s).2). cbv iota. cbv zeta.
    destruct (force_all_ok reason (automated_ids task_owner (reading s).1) ((reading s).2, []) Hr) as [H1 H2].
    split; [exact H1|]. intros id Hid. apply H2. by left.
Qed.
End stops.

(** ** Examples *)
#[local] Notation demo_owner := (λ _ : string, Some "ground_unattended").
#[local] Notation demo_linked := (λ _ : operation, true).
#[local] Notation demo_progress := (λ (_ : nat) (ops : list operation), ops).
#[local] Notation demo_info := (λ _ : string, OpInfo "session" (num 12) "" "" "" "").
#[local] Notation demo_evidence :=
  (λ _ : string, inl (Evidence (num 12) (Some (true, 10)) (Some 10) true true "package.zip" "complete") : evidence + string).
#[local] Notation demo_collectors := (λ _ : string, None : option (list (string * string))).
#[local] Notation demo_request := (λ _ : endpoint, inl "10.0.0.1" : string + string).
#[local] Notation demo_start :=
  (λ (_ : nat) (e : endpoint), inl (Operation (ep_device e) ("op" +:+ ep_code e) PREPARING_TASK) : operation + string).
#[local] Notation demo_profile := (Profile 2 (Budget 4 2 2) 3 2 10 20).
#[local] Notation demo_train ops status :=
  (Train "T1" true "OK" false 0 0 0 status ops
     [Endpoint "front" (PInt 1) (PStr "10.0.0.1") "m1"; Endpoint "rear" (PInt 2) (PStr "10.0.0.2") "m2"] "" "" "" (num 0) []).
#[local] Notation demo_idle := (Scheduler [] 0 [] [demo_train [] "NOT_SEEN"] None [] (num 0) [] [] []).
#[local] Notation demo_fill :=
  (fill_slots demo_owner demo_linked demo_progress demo_info demo_request demo_start (λ _ l, l) (λ _ l, l) 7 "now" demo_profile
     [demo_train [] "NOT_SEEN"] [] (num 5) [] demo_idle).

(** Both ends of the train are started; its attempts stay at zero. *)
Lemma attempts_never_counted_witness :
  dp_id <$> sc_deep demo_fill = ["opfront"; "oprear"] ∧ chosen <$> sc_trains demo_fill = [("T1", 0, "", "")].
Proof.
  split; [vm_compute; reflexivity|].
  refine (attempts_never_counted demo_owner demo_linked demo_progress demo_info demo_request demo_start (λ _ l, l) (λ _ l, l) 7 "now"
    demo_profile [demo_train [] "NOT_SEEN"] [] (num 5) [] demo_idle _).
  intros t r Ht Hr _. apply list_elem_of_singleton in Ht as ->. by apply list_elem_of_singleton in Hr as ->.
Defined.

Lemma fill_slots_bounds_witness :
  in_budget demo_linked demo_profile demo_fill ∧ length (sc_deep demo_fill) = 2%nat ∧
  Z.of_nat (length (active_trains demo_fill)) ≤ 2.
Proof.
  destruct (fill_slots_bounds demo_owner demo_linked demo_progress demo_info demo_request demo_start (λ _ l, l) (λ _ l, l) 7 "now"
    demo_profile [demo_train [] "NOT_SEEN"] (λ _ _ H, H) ltac:(intros n e o [= <-]; done) [] (num 5) [] demo_idle
    (empty_budget (Budget 4 2 2)) ltac:(done)) as (H1 & H2 & H3).
  split; [exact H1|]. split; [vm_compute; reflexivity|]. etrans; [exact H3|]. vm_compute. discriminate.
Defined.

#[local] Notation demo_row id code state :=
  (DeepRow id "T1" "m" code "session" state "08:00" "" "" "" false false "").
#[local] Notation demo_ended :=
  (Scheduler [Operation (PInt 1) "opfront" TERMINAL; Operation (PInt 2) "oprear" TERMINAL] 0
     [demo_row "opfront" "front" "RUNNING"; demo_row "oprear" "rear" "FINALIZING"]
     [demo_train [("front", "opfront"); ("rear", "oprear")] "COLLECTING"] None [] (num 0) [] [] []).
#[local] Notation demo_synchronized :=
  (synchronize_operations demo_progress demo_info demo_evidence demo_collectors (λ _, num 12) "now" demo_profile demo_ended).

Lemma covered_only_verified_witness :
  (dp_state <$> sc_deep demo_synchronized = ["COMPLETED"; "COMPLETED"] ∧ tr_rounds <$> sc_trains demo_synchronized = [1]) ∧
  verified demo_synchronized ∧
  sc_trains (update_train_coverage (λ _, num 12) demo_profile demo_synchronized) = sc_trains demo_synchronized.
Proof.
  split; [vm_compute; split; reflexivity|].
  destruct (covered_only_verified demo_progress demo_info demo_evidence demo_collectors (λ _, num 12) "now" demo_profile demo_ended)
    as (H1 & _ & _ & H2); [| | |split; [exact H1|exact H2]].
  - apply (bool_decide_unpack _); vm_compute; exact I.
  - apply (bool_decide_unpack _); vm_compute; exact I.
  - intros r [->| ->%list_elem_of_singleton]%elem_of_cons; done.
Defined.

(** Two collections run and one is being stopped: with a budget of two no further
    stop is requested, since the one under way is counted by its phase and by its
    future. *)
#[local] Notation demo_stopping :=
  (Scheduler [Operation (PInt 1) "a" STOPPING_COLLECTION; Operation (PInt 2) "b" COLLECTING] 0 [] [] None [] (num 0) ["a"] [] []).
Lemma stops_once_witness :
  sc_stops (stop_all demo_owner demo_linked demo_progress (λ _ _, None) "end" 2 demo_stopping) = ["a"] ∧
  (futures_ok (stop_all demo_owner demo_linked demo_progress (λ _ _, None) "end" 3 demo_stopping) ∧
   sc_stops (stop_all demo_owner demo_linked demo_progress (λ _ _, None) "end" 4 demo_stopping) = ["a"; "b"]).
Proof.
  split; [vm_compute; reflexivity|]. split; [|vm_compute; reflexivity].
  apply (stops_once demo_owner demo_linked demo_progress (λ _ _, None) demo_stopping).
  constructor; simpl; [apply NoDup_singleton|constructor|split; [constructor|by intros ? ?%not_elem_of_nil]].
Defined.
