(* ===== verification/ApIdentity.v ===== *)
(** * Access-point identity resolver

    services/ap_identity/resolver.py with its models: an observation is compared
    with the candidates by a cascade of strategies; the first strategy that any
    candidate satisfies decides, and one candidate is a match, several are
    ambiguous. *)

From S2P Require Import Prelude PyVal PyText ApNormalizers.

(** ** Models (services/ap_identity/models.py), the fields the resolver reads *)
Record CanonicalApIdentity := Identity {
  id_ap_uuid : pyval;
  id_ap_mac : pyval;
  id_ap_name : pyval;
  id_ac_uuid : pyval;
  id_ap_id : pyval;
}.
Record CanonicalApRadioIdentity := Radio {
  ra_radio_mac : pyval;
  ra_bssid : pyval;
  ra_bbssid : pyval;
}.
Record CanonicalApLocation := Location {
  lo_site : pyval;
  lo_station : pyval;
  lo_section : pyval;
  lo_mileage : pyval;
}.
Record ApObservation := Observation {
  ob_ap_uuid : pyval;
  ob_ap_id : pyval;
  ob_ap_mac : pyval;
  ob_ap_name : pyval;
  ob_peer_mac : pyval;
  ob_peer_radio_mac : pyval;
  ob_radio_mac : pyval;
  ob_bssid : pyval;
  ob_ac_uuid : pyval;
  ob_site : pyval;
  ob_station : pyval;
  ob_section : pyval;
  ob_mileage : pyval;
}.
Record ApIdentityCandidate := Candidate {
  ca_identity : CanonicalApIdentity;
  ca_radios : list CanonicalApRadioIdentity;
  ca_location : CanonicalApLocation;
}.
Record ApMatchEvidence := Evidence {
  ev_field : string;
  ev_observation_value : string;
  ev_candidate_value : string;
  ev_confidence : Z;
  ev_reason : string;
}.
Inductive ApMatchStatus := MATCHED | UNRESOLVED | AMBIGUOUS.
Record ApMatchResult := MatchResult {
  mr_status : ApMatchStatus;
  mr_candidate : option ApIdentityCandidate;
  mr_candidates : list ApIdentityCandidate;
  mr_evidence : list ApMatchEvidence;
  mr_warnings : list string;
}.

(** ** Keys *)

(** [_key] and [_name_key]. *)
Definition key (v : pyval) : option string :=
  match normalize_identifier v with
  | Some n => if str_nonempty n then Some (casefold n) else None
  | None => None
  end.
Definition name_key (v : pyval) : option string :=
  match normalize_ap_name v with
  | Some n => if str_nonempty n then Some (casefold n) else None
  | None => None
  end.

(** [f"{a}:{b}"] when both are present. *)
Definition scoped (a b : option string) : option string :=
  match a, b with
  | Some a, Some b => if str_nonempty a && str_nonempty b then Some (a +:+ ":" +:+ b) else None
  | _, _ => None
  end.

(** [_matches] and [_identity_matches]: the candidates with the value of the
    observation, and one piece of evidence for each. *)
Definition matches (candidates : list ApIdentityCandidate) (field : string)
    (observation_value : option string) (candidate_value : ApIdentityCandidate → option string)
    (confidence : Z) (reason : string) : list ApIdentityCandidate * list ApMatchEvidence :=
  match observation_value with
  | None | Some "" => ([], [])
  | Some value =>
      let matched := List.filter (λ c, bool_decide (candidate_value c = Some value)) candidates in
      (matched, (λ c, Evidence field value (default "" (candidate_value c)) confidence reason)
                <$> matched)
  end.

(** [_radio_matches]. *)
Definition radio_has (value : string) (radio_values : CanonicalApRadioIdentity → list (option string))
    (c : ApIdentityCandidate) : bool :=
  existsb (λ r, existsb (λ o, match o with
                              | Some x => str_nonempty x && String.eqb x value
                              | None => false
                              end) (radio_values r)) (ca_radios c).

Definition radio_matches (candidates : list ApIdentityCandidate) (field : string)
    (observation_value : option string)
    (radio_values : CanonicalApRadioIdentity → list (option string))
    (confidence : Z) (reason : string) : list ApIdentityCandidate * list ApMatchEvidence :=
  match observation_value with
  | None | Some "" => ([], [])
  | Some value =>
      let matched := List.filter (radio_has value radio_values) candidates in
      (matched, (λ _, Evidence field value value confidence reason) <$> matched)
  end.

(** ** Strategies *)
Definition strategy : Type :=
  ApObservation → list ApIdentityCandidate → list ApIdentityCandidate * list ApMatchEvidence.

Definition match_ap_uuid : strategy := λ o cs,
  matches cs "ap_uuid" (key (ob_ap_uuid o)) (λ c, key (id_ap_uuid (ca_identity c))) 100
    "ap_uuid 精确匹配".
Definition match_scoped_ap_id : strategy := λ o cs,
  matches cs "ac_uuid+ap_id" (scoped (key (ob_ac_uuid o)) (key (ob_ap_id o)))
    (λ c, scoped (key (id_ac_uuid (ca_identity c))) (key (id_ap_id (ca_identity c)))) 98
    "AC 作用域内 APID 精确匹配".
Definition match_scoped_ap_mac : strategy := λ o cs,
  matches cs "ac_uuid+ap_mac" (scoped (key (ob_ac_uuid o)) (normalize_mac (ob_ap_mac o)))
    (λ c, scoped (key (id_ac_uuid (ca_identity c))) (normalize_mac (id_ap_mac (ca_identity c)))) 96
    "AC 作用域内 AP MAC 精确匹配".
Definition match_ap_mac : strategy := λ o cs,
  matches cs "ap_mac" (normalize_mac (ob_ap_mac o))
    (λ c, normalize_mac (id_ap_mac (ca_identity c))) 92 "AP MAC 精确匹配".
Definition match_radio_mac : strategy := λ o cs,
  radio_matches cs "radio_mac" (normalize_mac (ob_radio_mac o))
    (λ r, [normalize_mac (ra_radio_mac r)]) 90 "显式 Radio MAC 映射".
Definition match_bssid : strategy := λ o cs,
  radio_matches cs "bssid" (normalize_mac (ob_bssid o))
    (λ r, [normalize_mac (ra_bssid r); normalize_mac (ra_bbssid r)]) 90 "显式 BSSID/BBSSID 映射".

(** A loop over the two peer fields that stops at the first that matches. *)
Definition first_peer (f : string → pyval → list ApIdentityCandidate * list ApMatchEvidence)
    (o : ApObservation) : list ApIdentityCandidate * list ApMatchEvidence :=
  match f "peer_radio_mac" (ob_peer_radio_mac o) with
  | ([], _) =>
      match f "peer_mac" (ob_peer_mac o) with
      | ([], _) => ([], [])
      | r => r
      end
  | r => r
  end.

Definition all_radio_macs (r : CanonicalApRadioIdentity) : list (option string) :=
  [normalize_mac (ra_radio_mac r); normalize_mac (ra_bssid r); normalize_mac (ra_bbssid r)].

Definition match_peer_radio : strategy := λ o cs,
  first_peer (λ field value, radio_matches cs field (normalize_mac value) all_radio_macs
    80 "Peer observation 命中显式 Radio/BSSID 映射") o.
Definition match_scoped_ap_name : strategy := λ o cs,
  matches cs "ac_uuid+ap_name" (scoped (key (ob_ac_uuid o)) (name_key (ob_ap_name o)))
    (λ c, scoped (key (id_ac_uuid (ca_identity c))) (name_key (id_ap_name (ca_identity c)))) 85
    "AC 作用域内 AP 名称精确匹配".
Definition match_ap_name : strategy := λ o cs,
  matches cs "ap_name" (name_key (ob_ap_name o)) (λ c, name_key (id_ap_name (ca_identity c))) 75
    "AP 名称精确匹配".
Definition peer_ap_mac_fallback : strategy := λ o cs,
  first_peer (λ field value, matches cs field (normalize_mac value)
    (λ c, normalize_mac (id_ap_mac (ca_identity c))) 55 "Peer observation 低置信命中 AP MAC") o.

Definition strategies : list strategy :=
  [match_ap_uuid; match_scoped_ap_id; match_scoped_ap_mac; match_ap_mac; match_radio_mac;
   match_bssid; match_peer_radio; match_scoped_ap_name; match_ap_name].

(** ** [resolve] *)
Definition PEER_MAC_DUPLICATE_WARNING : string := "peer_mac 与 peer_radio_mac 规范化后重复".
Definition PEER_AP_MAC_FALLBACK_WARNING : string :=
  "peer observation 仅命中 AP MAC，未发现显式 Radio/BSSID 映射".

(** [_observation_warnings]. *)
Definition observation_warnings (o : ApObservation) : list ApMatchEvidence * list string :=
  match normalize_mac (ob_peer_mac o), normalize_mac (ob_peer_radio_mac o) with
  | Some a, Some b =>
      if str_nonempty a && String.eqb a b
      then ([Evidence "peer_mac+peer_radio_mac" a b 0
               "两个 observation 字段规范化后重复，仅记录提示"],
            [PEER_MAC_DUPLICATE_WARNING])
      else ([], [])
  | _, _ => ([], [])
  end.

(** [_location_evidence]. *)
Definition location_field (field : string) (observed expected : option string)
    : list ApMatchEvidence :=
  match observed, expected with
  | Some a, Some b =>
      if str_nonempty a && str_nonempty b && String.eqb (casefold a) (casefold b)
      then [Evidence field a b 10 "位置字段仅作为辅助证据"] else []
  | _, _ => []
  end.
Definition location_evidence (o : ApObservation) (c : ApIdentityCandidate) : list ApMatchEvidence :=
  let l := ca_location c in
  location_field "site" (normalize_ap_name (ob_site o)) (normalize_ap_name (lo_site l)) ++
  location_field "station" (normalize_ap_name (ob_station o)) (normalize_ap_name (lo_station l)) ++
  location_field "section" (normalize_ap_name (ob_section o)) (normalize_ap_name (lo_section l)) ++
  location_field "mileage" (normalize_mileage (ob_mileage o)) (normalize_mileage (lo_mileage l)).

(** [_result_for_matches]. *)
Definition result_for_matches (ms : list ApIdentityCandidate) (evidence : list ApMatchEvidence)
    (warnings : list string) (o : ApObservation) : ApMatchResult :=
  match ms with
  | [candidate] => MatchResult MATCHED (Some candidate) ms
                     (evidence ++ location_evidence o candidate) warnings
  | _ => MatchResult AMBIGUOUS None ms evidence warnings
  end.

(** The strategy loop of [resolve]. *)
Fixpoint run_strategies (ss : list strategy) (o : ApObservation) (cs : list ApIdentityCandidate)
    (base_evidence : list ApMatchEvidence) (warnings : list string) : option ApMatchResult :=
  match ss with
  | [] => None
  | s :: ss' =>
      match s o cs with
      | ([], _) => run_strategies ss' o cs base_evidence warnings
      | (matched, evidence) =>
          Some (result_for_matches matched (base_evidence ++ evidence) warnings o)
      end
  end.

Definition resolve (o : ApObservation) (cs : list ApIdentityCandidate) : ApMatchResult :=
  let '(base_evidence, warnings) := observation_warnings o in
  match run_strategies strategies o cs base_evidence warnings with
  | Some r => r
  | None =>
      match peer_ap_mac_fallback o cs with
      | ([], _) => MatchResult UNRESOLVED None [] base_evidence warnings
      | (peer_candidates, peer_evidence) =>
          MatchResult UNRESOLVED None peer_candidates (base_evidence ++ peer_evidence)
            (warnings ++ [PEER_AP_MAC_FALLBACK_WARNING])
      end
  end.

(** ** Specification: ranked agreement *)

(** Two optional keys agree when both are present, not empty and equal. *)
Definition agree (a b : option string) : bool :=
  match a, b with
  | Some a, Some b => str_nonempty a && String.eqb b a
  | _, _ => false
  end.

Definition radio_agree (v : pyval) (values : CanonicalApRadioIdentity → list (option string))
    (c : ApIdentityCandidate) : bool :=
  existsb (λ r, existsb (λ x, agree (normalize_mac v) x) (values r)) (ca_radios c).

(** The ranks of agreement between an observation and one candidate, from the
    strongest on; each looks at the two of them only. *)
Definition ranks (o : ApObservation) : list (ApIdentityCandidate → bool) :=
  let i := ca_identity in
  [λ c, agree (key (ob_ap_uuid o)) (key (id_ap_uuid (i c)));
   λ c, agree (scoped (key (ob_ac_uuid o)) (key (ob_ap_id o)))
              (scoped (key (id_ac_uuid (i c))) (key (id_ap_id (i c))));
   λ c, agree (scoped (key (ob_ac_uuid o)) (normalize_mac (ob_ap_mac o)))
              (scoped (key (id_ac_uuid (i c))) (normalize_mac (id_ap_mac (i c))));
   λ c, agree (normalize_mac (ob_ap_mac o)) (normalize_mac (id_ap_mac (i c)));
   radio_agree (ob_radio_mac o) (λ r, [normalize_mac (ra_radio_mac r)]);
   radio_agree (ob_bssid o) (λ r, [normalize_mac (ra_bssid r); normalize_mac (ra_bbssid r)]);
   radio_agree (ob_peer_radio_mac o) all_radio_macs;
   radio_agree (ob_peer_mac o) all_radio_macs;
   λ c, agree (scoped (key (ob_ac_uuid o)) (name_key (ob_ap_name o)))
              (scoped (key (id_ac_uuid (i c))) (name_key (id_ap_name (i c))));
   λ c, agree (name_key (ob_ap_name o)) (name_key (id_ap_name (i c)))].

(** The ranks of the fallback, which never makes a match. *)
Definition fallback_ranks (o : ApObservation) : list (ApIdentityCandidate → bool) :=
  [λ c, agree (normalize_mac (ob_peer_radio_mac o)) (normalize_mac (id_ap_mac (ca_identity c)));
   λ c, agree (normalize_mac (ob_peer_mac o)) (normalize_mac (id_ap_mac (ca_identity c)))].

(** The candidates of the strongest rank that any candidate has. *)
Fixpoint best (ps : list (ApIdentityCandidate → bool)) (cs : list ApIdentityCandidate)
    : list ApIdentityCandidate :=
  match ps with
  | [] => []
  | p :: ps' => match List.filter p cs with [] => best ps' cs | l => l end
  end.

Lemma matches_fst cs field ov cv conf reason :
  (matches cs field ov cv conf reason).1 = List.filter (λ c, agree ov (cv c)) cs.
Proof.
  assert (Hno : ∀ l : list ApIdentityCandidate, [] = List.filter (λ _, false) l)
    by (intros l; by induction l).
  unfold matches. destruct ov as [[|x v]|]; simpl.
  - rewrite (Hno cs) at 1. apply filter_ext. intros c. by destruct (cv c).
  - apply filter_ext. intros c. destruct (cv c) as [w|].
    + destruct (String.eqb_spec w (String x v)) as [->|Hne];
        [by rewrite bool_decide_eq_true_2|rewrite bool_decide_eq_false_2; congruence].
    + by rewrite bool_decide_eq_false_2.
  - apply Hno.
Qed.

Lemma radio_matches_fst cs field v values conf reason :
  (radio_matches cs field (normalize_mac v) values conf reason).1 =
  List.filter (radio_agree v values) cs.
Proof.
  unfold radio_matches, radio_agree, radio_has. destruct (normalize_mac v) as [[|x w]|].
  all: try (symmetry; induction cs as [|c cs IH]; simpl; [done|];
    replace (existsb _ (ca_radios c)) with false; [exact IH|];
    symmetry; induction (ca_radios c) as [|r rs IHr]; simpl; [done|]; rewrite IHr, orb_false_r;
    induction (values r) as [|y ys IHy]; simpl; [done|]; rewrite IHy; by destruct y).
  simpl. apply filter_ext. intros c. induction (ca_radios c) as [|r rs IHr]; simpl; [done|].
  rewrite IHr. f_equal. induction (values r) as [|y ys IHy]; simpl; [done|]. rewrite IHy. f_equal.
  destruct y as [y|]; [|done]. destruct (String.eqb_spec y (String x w)) as [->|]; [done|].
  by rewrite andb_false_r.
Qed.

Lemma first_peer_fst f o :
  (first_peer f o).1 =
    match (f "peer_radio_mac" (ob_peer_radio_mac o)).1 with
    | [] => (f "peer_mac" (ob_peer_mac o)).1
    | l => l
    end.
Proof.
  unfold first_peer. destruct (f "peer_radio_mac" _) as [[|] ?]; simpl; [|done].
  by destruct (f "peer_mac" _) as [[|] ?].
Qed.

(** The candidates chosen by the loop are the best-ranked ones. *)
Definition chosen (ss : list strategy) (o : ApObservation) (cs : list ApIdentityCandidate) :=
  foldr (λ (s : strategy) rest, match (s o cs).1 with [] => rest | l => l end) [] ss.

Lemma chosen_best o cs : chosen strategies o cs = best (ranks o) cs.
Proof.
  unfold chosen, strategies, ranks. cbn [foldr best].
  unfold match_ap_uuid, match_scoped_ap_id, match_scoped_ap_mac, match_ap_mac, match_radio_mac,
    match_bssid, match_peer_radio, match_scoped_ap_name, match_ap_name.
  rewrite first_peer_fst, !matches_fst, !radio_matches_fst.
  repeat match goal with
  | |- context [match List.filter ?p cs with [] => _ | _ => _ end] =>
      destruct (List.filter p cs) eqn:?; try done
  end.
Qed.

Lemma run_strategies_chosen ss o cs base ws :
  match run_strategies ss o cs base ws with
  | None => chosen ss o cs = []
  | Some r => chosen ss o cs ≠ [] ∧ mr_candidates r = chosen ss o cs ∧ mr_warnings r = ws ∧
      (match chosen ss o cs with
       | [c] => mr_status r = MATCHED ∧ mr_candidate r = Some c
       | _ => mr_status r = AMBIGUOUS ∧ mr_candidate r = None
       end) ∧ ∃ evs, mr_evidence r = base ++ evs
  end.
Proof.
  induction ss as [|s ss IH]; simpl; [done|].
  destruct (s o cs) as [[|c l] ev] eqn:E; simpl; [exact IH|].
  unfold result_for_matches. destruct l; simpl; split_and!; try done; eexists;
    by rewrite <- ?app_assoc.
Qed.

Lemma fallback_best o cs : (peer_ap_mac_fallback o cs).1 = best (fallback_ranks o) cs.
Proof.
  unfold peer_ap_mac_fallback, fallback_ranks. cbn [best]. rewrite first_peer_fst, !matches_fst.
  destruct (List.filter _ cs); [|done]. by destruct (List.filter _ cs).
Qed.

Lemma best_perm ps cs cs' : cs ≡ₚ cs' → best ps cs ≡ₚ best ps cs'.
Proof.
  intros H. induction ps as [|p ps IH]; [done|]. cbn [best].
  assert (Hf : List.filter p cs ≡ₚ List.filter p cs').
  { clear IH. induction H as [|x l l' H IH|x y l|l1 l2 l3 H1 IH1 H2 IH2]; simpl; [done|..].
    - destruct (p x); by rewrite ?IH.
    - destruct (p x), (p y); try done. apply Permutation_swap.
    - by rewrite IH1. }
  destruct (List.filter p cs), (List.filter p cs'); try done.
  - by apply Permutation_nil_cons in Hf.
  - symmetry in Hf. by apply Permutation_nil_cons in Hf.
Qed.

(** The result described by the ranks alone. *)
Definition resolved_by_rank (o : ApObservation) (cs : list ApIdentityCandidate)
    (r : ApMatchResult) : Prop :=
  match best (ranks o) cs with
  | [] => mr_status r = UNRESOLVED ∧ mr_candidate r = None ∧
          mr_candidates r = best (fallback_ranks o) cs
  | [c] => mr_status r = MATCHED ∧ mr_candidate r = Some c ∧ mr_candidates r = [c]
  | l => mr_status r = AMBIGUOUS ∧ mr_candidate r = None ∧ mr_candidates r = l
  end.

Lemma resolve_by_rank o cs : resolved_by_rank o cs (resolve o cs).
Proof.
  unfold resolved_by_rank, resolve. rewrite <- chosen_best, <- fallback_best.
  destruct (observation_warnings o) as [base ws].
  pose proof (run_strategies_chosen strategies o cs base ws) as H.
  destruct (run_strategies strategies o cs base ws) as [r|].
  - destruct H as (H1 & H2 & _ & H3 & _). rewrite H2.
    destruct (chosen strategies o cs) as [|c [|c' l]]; [done|naive_solver..].
  - rewrite H. destruct (peer_ap_mac_fallback o cs) as [[|c l] ev]; done.
Qed.

(** Identity resolution is ranked agreement.  The candidates are those of the
    strongest kind of agreement that any candidate has with the observation; the
    status is matched exactly when there is one, ambiguous when there are more,
    and unresolved when no candidate agrees in any way that may match (then only
    the low-confidence AP MAC candidates are listed).  The order of the
    candidates does not change the status, nor which candidates are listed. *)
Theorem resolve_ranked o cs :
  resolved_by_rank o cs (resolve o cs) ∧
  ∀ cs', cs ≡ₚ cs' →
    mr_status (resolve o cs') = mr_status (resolve o cs) ∧
    mr_candidate (resolve o cs') = mr_candidate (resolve o cs) ∧
    mr_candidates (resolve o cs') ≡ₚ mr_candidates (resolve o cs).
Proof.
  split; [apply resolve_by_rank|]. intros cs' Hp.
  pose proof (resolve_by_rank o cs) as H. pose proof (resolve_by_rank o cs') as H'.
  unfold resolved_by_rank in *. pose proof (best_perm (ranks o) _ _ Hp) as Hb.
  pose proof (best_perm (fallback_ranks o) _ _ Hp) as Hf. revert H H'.
  destruct (best (ranks o) cs) as [|c [|c2 l]].
  - apply Permutation_nil_l in Hb. rewrite <- Hb. intros (->&->&->) (->&->&->).
    by split_and!.
  - apply Permutation_singleton_l in Hb. rewrite <- Hb. intros (->&->&->) (->&->&->).
    by split_and!.
  - destruct (best (ranks o) cs') as [|c' [|c2' l']]; [by apply Permutation_length in Hb..|].
    intros (->&->&->) (->&->&->). by split_and!.
Qed.

Definition demo_observation : ApObservation :=
  Observation PNone PNone (PStr "0011-2233-4455") (PStr "AP 1") PNone PNone PNone PNone PNone
    PNone PNone PNone PNone.
Definition demo_candidate (mac name : string) : ApIdentityCandidate :=
  Candidate (Identity PNone (PStr mac) (PStr name) PNone PNone) [] (Location PNone PNone PNone PNone).

(** The MAC decides against a candidate that agrees on the name only. *)
Lemma resolve_ranked_witness :
  mr_candidate (resolve demo_observation
    [demo_candidate "aaaa-bbbb-cccc" "AP 1"; demo_candidate "00:11:22:33:44:55" "AP 2"]) =
  Some (demo_candidate "00:11:22:33:44:55" "AP 2").
Proof.
  destruct (resolve_ranked demo_observation
    [demo_candidate "00:11:22:33:44:55" "AP 2"; demo_candidate "aaaa-bbbb-cccc" "AP 1"])
    as [_ H].
  destruct (H [demo_candidate "aaaa-bbbb-cccc" "AP 1"; demo_candidate "00:11:22:33:44:55" "AP 2"]
    (perm_swap _ _ _)) as (_ & -> & _).
  reflexivity.
Defined.

(** The scoped keys join two free texts with a colon, so two different pairs can
    have one key: here a candidate of AC "x" is matched by AC "x:1". *)
Example scoped_key_collision :
  let o := Observation PNone (PStr "2") PNone PNone PNone PNone PNone PNone (PStr "x:1")
             PNone PNone PNone PNone in
  let c := Candidate (Identity (PStr "u1") PNone PNone (PStr "x") (PStr "1:2")) []
             (Location PNone PNone PNone PNone) in
  mr_status (resolve o [c]) = MATCHED.
Proof. reflexivity. Qed.
