(* ===== verification/StationOrdering.v ===== *)
(** * Canonical order of stations and trackside plans

    core/sources/rail_transit/station_ordering.py: the sort key of rail
    stations, and the display order of trackside access-point plan rows.  Rows
    are dictionaries; reading JSON is a parameter, and so is [float], which gives
    the rank of the number in the order of floats (a NaN is not modelled). *)

From S2P Require Import Prelude PyVal PyText.

Section ordering.
Context (json_loads : string → option pyval).
Context (to_float : pyval → res Z).

Definition NON_MAINLINE_NODE_TYPES : list string :=
  ["depot"; "parking_lot"; "connection_point"; "other"].
Definition NODE_TYPE_RANK : list (string * Z) :=
  [("depot", 0); ("parking_lot", 1); ("connection_point", 2); ("other", 3); ("unknown", 4);
   ("station", 5)].

(** [_value], [_text], [_integer] on mappings. *)
Definition value_or (row : dict) (field : string) (dflt : pyval) : pyval := dget_or field dflt row.
Definition text_or (row : dict) (field dflt : string) : string :=
  strip (text_or_empty (value_or row field (PStr dflt))).
Definition integer (v : pyval) : res (option Z) :=
  match v with
  | PBool _ => Ok None
  | _ => if blank v then Ok None else try_int v
  end.

(** [_metadata_projection]: fields that are missing or blank come from the JSON
    text of the row. *)
Definition projected_fields : list string :=
  ["node_type"; "path_code"; "center_mileage_m"; "canonical_station_name"; "code";
   "source_order"; "participates_in_direction"; "sort_order"].

Definition fill_field (metadata : dict) (result : dict) (field : string) : dict :=
  if negb (dhas field result) || blank (dget field result)
  then dset field (dget field metadata) result else result.

Definition metadata_projection (row : dict) : dict :=
  let raw_payload := value_or row "raw_payload_json" (PStr "") in
  let metadata := default (PDict []) (json_loads (py_str (por raw_payload (PStr "{}")))) in
  let result := match metadata with
                | PDict m => foldl (fill_field m) row projected_fields
                | _ => row
                end in
  let result := if truthy (dget "id" result) then result
                else dset "id" (value_or row "station_id" (PStr "")) result in
  let result := if truthy (dget "name" result) then result
                else dset "name" (value_or row "station_name" (PStr "")) result in
  let result := dsetdefault "node_type" (PStr "station") result in
  dsetdefault "participates_in_direction"
    (PBool (bool_decide (dget "node_type" result = PStr "station"))) result.

(** [valid_mainline_order]. *)
Definition valid_mainline_order (row : dict) : res (option Z) :=
  let node_type := str_or (casefold (text_or row "node_type" "station")) "station" in
  if str_mem node_type NON_MAINLINE_NODE_TYPES then Ok None
  else if String.eqb node_type "station"
          && bool_decide (value_or row "participates_in_direction" (PBool true) = PBool false)
  then Ok None
  else
    let raw_order := dget "sort_order" row in
    let raw_order := if blank raw_order then dget "mainline_order" row else raw_order in
    order ← integer raw_order;
    Ok match order with
       | Some n => if 0 <=? n then Some n else None
       | None => None
       end.

(** ** Sort keys *)

(** [_fallback_key]. *)
Definition fallback_key (row : dict) : res (list atom) :=
  let node_type := str_or (casefold (text_or row "node_type" "unknown")) "unknown" in
  let center := dget "center_mileage_m" row in
  center_value ←
    (if blank center then Ok (0, true)
     else match to_float center with
          | Ok f => Ok (f, false)
          | Err TypeError | Err ValueError => Ok (0, true)
          | Err e => Err e
          end);
  source_order ← integer (dget "source_order" row);
  Ok [AZ (default 6 (alookup node_type NODE_TYPE_RANK));
      AS (casefold (text_or row "path_code" ""));
      AB (bool_decide (source_order = None)); AZ (default 0 source_order);
      AB center_value.2; AZ center_value.1;
      AS (casefold (text_or row "canonical_station_name" ""));
      AS (casefold (text_or row "code" ""));
      AS (casefold (text_or row "name" (text_or row "station_name" "")));
      AS (text_or row "id" (text_or row "station_id" ""))].

(** [station_display_order_key]. *)
Definition station_display_order_key (row : dict) : res (list atom) :=
  mainline_order ← valid_mainline_order row;
  rest ← fallback_key row;
  Ok match mainline_order with
     | Some n => AZ 0 :: AZ n :: rest
     | None => AZ 1 :: AZ 0 :: rest
     end.

Fixpoint map_res {A B} (f : A → res B) (l : list A) : res (list B) :=
  match l with
  | [] => Ok []
  | x :: l' => y ← f x; ys ← map_res f l'; Ok (y :: ys)
  end.

(** [sorted(l, key=f)]: the keys are computed first. *)
Definition sorted_by {A} (f : A → res (list atom)) (l : list A) : res (list A) :=
  keyed ← map_res (λ x, k ← f x; Ok (k, x)) l;
  Ok (sort_by (λ a b, key_leb a.1 b.1) keyed).*2.

Definition sort_rail_stations (rows : list dict) : res (list dict) :=
  sorted_by station_display_order_key rows.

(** ** Plan rows *)

(** [_legacy_sequence_is_explicit]. *)
Definition legacy_sequence_is_explicit (sequence_no : option Z) (max_mainline_order : Z) : bool :=
  match sequence_no with
  | None => false
  | Some n => if n <=? 0 then false else (max_mainline_order <=? 0) || (max_mainline_order <? n)
  end.

Record item := Item {
  it_row : dict;
  it_station : option dict;
  it_station_id : string;
  it_explicit : option Z;
  it_display_order : option Z;
  it_index : Z;
}.
Definition with_display (d : Z) (i : item) : item :=
  Item (it_row i) (it_station i) (it_station_id i) (it_explicit i) (Some d) (it_index i).

Definition station_key (station : dict) : string :=
  text_or station "id" (text_or station "station_id" "").

(** [station_by_id]: the last station of an identifier counts. *)
Definition station_by_id (stations : list dict) : list (string * dict) :=
  foldl (λ m s, if String.eqb (station_key s) "" then m else ainsert (station_key s) s m)
    [] stations.

Definition max_default (d : Z) (l : list Z) : Z :=
  match l with [] => d | x :: l' => foldl Z.max x l' end.

(** The body of the first loop. *)
Definition prepare_row (by_id : list (string * dict)) (max_mainline : Z) (index : Z) (row : dict)
    : res item :=
  let station_id := text_or row "station_id" "" in
  let station := alookup station_id by_id in
  planned ← integer (dget "planning_order" row);
  let explicit := match planned with
                  | Some n => if n <=? 0 then None else Some n
                  | None => None
                  end in
  explicit ←
    match explicit with
    | Some n => Ok (Some n)
    | None =>
        legacy_sequence ← integer (dget "sequence_no" row);
        Ok (if legacy_sequence_is_explicit legacy_sequence max_mainline
            then legacy_sequence else None)
    end;
  mainline_order ← match station with
                   | Some s => valid_mainline_order s
                   | None => Ok None
                   end;
  Ok (Item row station station_id explicit
        (match explicit with Some n => Some n | None => mainline_order end) index).

Definition item_key (i : item) : res (list atom) :=
  base ← station_display_order_key (default (it_row i) (it_station i));
  Ok (base ++ [AS (it_station_id i); AZ (it_index i)]).

(** [while next_display_order in used_display_orders: ...]. *)
Fixpoint next_free (fuel : nat) (n : Z) (used : list Z) : Z :=
  match fuel with
  | O => n
  | S fuel' => if bool_decide (n ∈ used) then next_free fuel' (n + 1) used else n
  end.

(** The second loop over the automatic rows, in key order; the numbers given,
    by row index. *)
Fixpoint assign_orders (autos : list item) (next : Z) (used : list Z) : list (Z * Z) :=
  match autos with
  | [] => []
  | i :: autos' =>
      let n := next_free (S (length used)) next used in
      (it_index i, n) :: assign_orders autos' (n + 1) (n :: used)
  end.

Definition final_key (i : item) : res (list atom) :=
  k ← item_key i;
  Ok (AZ (default 0 (it_display_order i)) :: k).

Definition output_row (i : item) : dict :=
  let d := default 0 (it_display_order i) in
  dset "planning_order" (match it_explicit i with Some n => PInt n | None => PNone end)
    (dset "display_order" (PInt d) (dset "sequence_no" (PInt d) (it_row i))).

Definition max_mainline_of (stations : list dict) : res Z :=
  orders ← map_res valid_mainline_order stations;
  Ok (max_default 0 (omap id orders)).

(** The prepared rows with all display orders set, in input order. *)
Definition numbered_items (rows stations : list dict) : res (list item) :=
  let projections := metadata_projection <$> stations in
  max_mainline ← max_mainline_of projections;
  let by_id := station_by_id projections in
  prepared ← map_res (λ ir, prepare_row by_id max_mainline ir.1 ir.2) (enumerate 0 rows);
  let used := omap it_display_order prepared in
  let autos := filter (λ i, it_display_order i = None) prepared in
  let next := Z.max max_mainline (max_default max_mainline used) + 1 in
  autos ← sorted_by item_key autos;
  let given := assign_orders autos next used in
  Ok ((λ i, match it_display_order i with
            | Some _ => i
            | None => with_display (default 0 (alookup (it_index i) given)) i
            end) <$> prepared).

Definition canonicalize_trackside_ap_plan_rows (rows stations : list dict) : res (list dict) :=
  items ← numbered_items rows stations;
  sorted ← sorted_by final_key items;
  Ok (List.map output_row sorted).

(** ** Lemmas *)
Lemma map_res_Ok {A B} (f : A → res B) l ys :
  map_res f l = Ok ys → Forall2 (λ x y, f x = Ok y) l ys.
Proof.
  revert ys. induction l as [|x l IH]; intros ys; simpl; [intros [= <-]; constructor|].
  intros (y & Hy & (ys' & Hys & [= <-])%res_bind_Ok)%res_bind_Ok. constructor; auto.
Qed.

Lemma sorted_by_Ok {A} (f : A → res (list atom)) l out :
  sorted_by f l = Ok out →
  ∃ keyed, Forall2 (λ x kx, kx.2 = x ∧ f x = Ok kx.1) l keyed ∧
    out = (sort_by (λ a b, key_leb a.1 b.1) keyed).*2 ∧ out ≡ₚ l.
Proof.
  unfold sorted_by. intros (keyed & Hk%map_res_Ok & [= <-])%res_bind_Ok.
  assert (Hf : Forall2 (λ x kx, kx.2 = x ∧ f x = Ok kx.1) l keyed).
  { eapply Forall2_impl; [exact Hk|]. by intros x kx (k & ? & [= <-])%res_bind_Ok. }
  exists keyed. split_and!; [done|done|].
  rewrite (sort_by_perm (λ a b, key_leb a.1 b.1) keyed).
  clear Hk. induction Hf as [|x kx l keyed [H _] Hf IH]; simpl; [done|]. by rewrite IH, H.
Qed.

(** Sorting by a key whose first position is the number [h] sorts by [h]. *)
Lemma sorted_by_head {A} (f : A → res (list atom)) (h : A → Z) l out :
  (∀ x k, f x = Ok k → ∃ k', k = AZ (h x) :: k') →
  sorted_by f l = Ok out → StronglySorted (λ a b, h a ≤ h b) out.
Proof.
  intros Hh (keyed & Hk & -> & _)%sorted_by_Ok.
  assert (Hkeys : Forall (λ kx, ∃ k', kx.1 = AZ (h kx.2) :: k') keyed).
  { clear -Hh Hk. induction Hk as [|x kx l keyed [H1 H2] Hk IH]; constructor; [|done].
    rewrite H1. by apply Hh in H2. }
  assert (Htr : Transitive (λ a b : list atom * A, h a.2 ≤ h b.2)) by (intros ???; lia).
  pose proof (sort_by_weak (λ a b, key_leb a.1 b.1) (λ kx, ∃ k', kx.1 = AZ (h kx.2) :: k')
    (λ a b, h a.2 ≤ h b.2) keyed) as Hs.
  assert (Hsorted : StronglySorted (λ a b : list atom * A, h a.2 ≤ h b.2)
    (sort_by (λ a b, key_leb a.1 b.1) keyed)).
  { apply Hs; [..|done]; intros a b [ka Ha] [kb Hb]; rewrite Ha, Hb; apply key_leb_head. }
  clear -Hsorted. induction Hsorted as [|x l Hl IH Hx]; simpl; constructor; [done|].
  by apply Forall_fmap.
Qed.

(** ** Preparing a row *)

(** A row whose number is chosen automatically: no planned or legacy number, and
    no station with a mainline order. *)
Definition automatic (i : item) : Prop :=
  it_explicit i = None ∧
  match it_station i with Some s => valid_mainline_order s = Ok None | None => True end.

Lemma prepare_row_Ok by_id mm index row p :
  prepare_row by_id mm index row = Ok p →
  it_row p = row ∧ it_index p = index ∧
  (∀ n, it_explicit p = Some n → 0 < n ∧ it_display_order p = Some n) ∧
  (it_display_order p = None ↔ automatic p).
Proof.
  unfold prepare_row. cbv zeta.
  intros (planned & _ & (ex & Hex & (ml & Hml & [= <-])%res_bind_Ok)%res_bind_Ok)%res_bind_Ok.
  simpl. split_and!; [done|done| |].
  - intros n ->. split; [|done]. destruct planned as [m|].
    + destruct (Z.leb_spec m 0); simpl in Hex; [|injection Hex as <-; lia].
      apply res_bind_Ok in Hex as (lg & _ & [= Hl]). unfold legacy_sequence_is_explicit in Hl.
      destruct lg as [q|]; [|done]. destruct (Z.leb_spec q 0); [done|].
      destruct (_ || _); [|done]. injection Hl as ->. lia.
    + apply res_bind_Ok in Hex as (lg & _ & [= Hl]). unfold legacy_sequence_is_explicit in Hl.
      destruct lg as [q|]; [|done]. destruct (Z.leb_spec q 0); [done|].
      destruct (_ || _); [|done]. injection Hl as ->. lia.
  - unfold automatic. simpl. destruct ex as [n|]; [naive_solver|].
    destruct (alookup _ by_id) as [s|]; [|naive_solver]. rewrite Hml.
    split; [by intros ->|]. intros [_ [= ->]]. done.
Qed.

(** ** Numbering *)
Lemma next_free_above fuel n used : Forall (λ u, u < n) used → next_free fuel n used = n.
Proof.
  intros H. destruct fuel; simpl; [done|]. rewrite bool_decide_eq_false_2; [done|].
  intros Hin. rewrite Forall_forall in H. specialize (H _ Hin). lia.
Qed.

(** From a number above all used ones, the rows are numbered consecutively. *)
Lemma assign_orders_seq autos next used :
  Forall (λ u, u < next) used →
  (assign_orders autos next used).*1 = it_index <$> autos ∧
  (assign_orders autos next used).*2 = zseq next (length autos).
Proof.
  revert next used. induction autos as [|i autos IH]; intros next used Hu;
    cbn [assign_orders]; [done|].
  rewrite next_free_above by done. destruct (IH (next + 1) (next :: used)) as [H1 H2].
  { constructor; [lia|]. eapply Forall_impl; [exact Hu|]. simpl. lia. }
  rewrite !fmap_cons, H1, H2. split; [done|]. unfold zseq. cbn [length seq].
  rewrite fmap_cons, <- fmap_S_seq, <- list_fmap_compose. simpl. f_equal; [lia|].
  apply list_fmap_ext. intros _ k _. simpl. lia.
Qed.

Lemma foldl_max_ge l x : x ≤ foldl Z.max x l ∧ Forall (λ y, y ≤ foldl Z.max x l) l.
Proof.
  revert x. induction l as [|y l IH]; intros x; simpl; [split; [lia|constructor]|].
  destruct (IH (Z.max x y)) as [H1 H2]. split; [lia|]. constructor; [lia|done].
Qed.

Lemma max_default_ge d l : Forall (λ y, y ≤ max_default d l) l.
Proof. destruct l as [|x l]; simpl; constructor; apply foldl_max_ge. Qed.

Lemma zseq_NoDup k n : NoDup (zseq k n).
Proof. unfold zseq. apply NoDup_fmap_2; [intros ???; lia|apply NoDup_seq]. Qed.

Lemma zseq_ge k n : Forall (λ z, k ≤ z) (zseq k n).
Proof. apply Forall_forall. intros z (i & -> & _)%list_elem_of_fmap. lia. Qed.

Notation shown i := (default 0 (it_display_order i)).

(** What numbering does to the prepared rows: the automatic ones get distinct
    numbers from [next] on, the others keep theirs. *)
Definition numbered (given : list (Z * Z)) (i : item) : item :=
  match it_display_order i with
  | Some _ => i
  | None => with_display (default 0 (alookup (it_index i) given)) i
  end.

Lemma numbered_given prepared next i :
  Forall (λ u, u < next) (omap it_display_order prepared) →
  ∀ sautos, sautos ≡ₚ filter (λ i, it_display_order i = None) prepared →
  let given := assign_orders sautos next (omap it_display_order prepared) in
  NoDup given.*2 ∧
  (i ∈ prepared → it_display_order i = None →
   ∃ v, alookup (it_index i) given = Some v ∧ next ≤ v).
Proof.
  intros Hu sautos Hp given. destruct (assign_orders_seq sautos next _ Hu) as [H1 H2].
  fold given in H1, H2. split; [rewrite H2; apply zseq_NoDup|]. intros Hi Hd.
  destruct (alookup (it_index i) given) as [v|] eqn:E.
  - exists v. split; [done|]. pose proof (zseq_ge next (length sautos)) as Hg.
    rewrite <- H2, Forall_forall in Hg. apply Hg.
    apply alookup_Some_in in E. apply list_elem_of_fmap. by eexists (_, v).
  - exfalso. apply alookup_None in E. rewrite H1 in E. apply E, list_elem_of_fmap.
    exists i. split; [done|]. rewrite Hp. by apply list_elem_of_filter.
Qed.

(** The prepared rows: positions, contents, and which ones are automatic. *)
Lemma prepared_rows by_id mm rows prepared :
  map_res (λ ir, prepare_row by_id mm ir.1 ir.2) (enumerate 0 rows) = Ok prepared →
  it_row <$> prepared = rows ∧
  ∀ a p, prepared !! a = Some p →
    it_index p = Z.of_nat a ∧
    (∀ n, it_explicit p = Some n → 0 < n ∧ it_display_order p = Some n) ∧
    (it_display_order p = None ↔ automatic p).
Proof.
  intros Hp%map_res_Ok. split.
  - transitivity (enumerate 0 rows).*2; [|apply enumerate_snd]. clear -Hp.
    induction Hp as [|[k r] p l ps H Hp IH]; [done|]. rewrite !fmap_cons, IH. simpl in *.
    apply prepare_row_Ok in H as (-> & _). done.
  - intros a p Ha. destruct (Forall2_lookup_r _ _ _ _ _ Hp Ha) as ([k r] & Hl & H).
    rewrite enumerate_lookup in Hl. destruct (rows !! a); [|done]. injection Hl as <- <-.
    simpl in H. apply prepare_row_Ok in H as (_ & -> & H). split; [lia|done].
Qed.

Lemma numbered_items_Ok rows stations items :
  numbered_items rows stations = Ok items →
  it_row <$> items = rows ∧
  Forall (λ i, ∀ n, it_explicit i = Some n → 0 < n ∧ shown i = n) items ∧
  ∀ a b i j, items !! a = Some i → items !! b = Some j → a ≠ b → automatic i →
    shown i ≠ shown j ∧ (¬ automatic j → shown j < shown i).
Proof.
  unfold numbered_items. cbv zeta.
  intros (mm & _ & (prepared & Hprep & (sautos & Hs & [= <-])%res_bind_Ok)%res_bind_Ok)%res_bind_Ok.
  apply prepared_rows in Hprep as [Hrows Hpos].
  apply sorted_by_Ok in Hs as (_ & _ & _ & Hperm).
  set (next := Z.max mm _ + 1). set (given := assign_orders _ _ _).
  assert (Hu : Forall (λ u, u < next) (omap it_display_order prepared)).
  { eapply Forall_impl; [apply (max_default_ge mm)|]. simpl. unfold next. lia. }
  pose proof (λ i, numbered_given prepared next i Hu sautos Hperm) as Hg. fold given in Hg.
  fold (numbered given). split_and!.
  - rewrite <- Hrows, <- list_fmap_compose. apply list_fmap_ext. intros _ i _. simpl.
    unfold numbered. by destruct (it_display_order i).
  - apply Forall_fmap, Forall_forall. intros p [a Ha]%list_elem_of_lookup n Hn.
    destruct (Hpos a p Ha) as (_ & He & _).
    change (it_explicit (numbered given p) = Some n) in Hn.
    change (0 < n ∧ shown (numbered given p) = n). unfold numbered in *.
    destruct (it_display_order p) as [d|] eqn:Hd; simpl in Hn;
      destruct (He n Hn) as [Hpos' Hd']; [|done].
    injection Hd' as ->. by rewrite Hd.
  - intros a b i j Hi Hj Hab Hauto.
    rewrite list_lookup_fmap in Hi, Hj.
    destruct (prepared !! a) as [p|] eqn:Ha; [|done]. destruct (prepared !! b) as [q|] eqn:Hb; [|done].
    injection Hi as <-. injection Hj as <-.
    destruct (Hpos a p Ha) as (Hia & _ & Hpa), (Hpos b q Hb) as (Hib & _ & Hpb).
    assert (Hsame : ∀ x, automatic (numbered given x) ↔ automatic x).
    { intros x. unfold numbered, automatic. by destruct (it_display_order x). }
    rewrite Hsame in Hauto |- *. rewrite <- Hpa in Hauto.
    destruct (Hg p) as [Hnd Hp]. destruct Hp as (v & Hv & Hvn);
      [by eapply list_elem_of_lookup_2|done|].
    assert (Hshown : shown (numbered given p) = v).
    { unfold numbered. rewrite Hauto. simpl. by rewrite Hv. }
    rewrite Hshown, <- Hpb. unfold numbered. destruct (it_display_order q) as [w|] eqn:Hw; simpl.
    + rewrite Hw. simpl. assert (w < next); [|split; [lia|intros _; lia]]. rewrite Forall_forall in Hu. apply Hu.
      apply list_elem_of_omap. exists q. split; [by eapply list_elem_of_lookup_2|done].
    + split; [|done]. intros ->. destruct (Hg q) as [_ Hq].
      destruct Hq as (v' & Hv' & _); [by eapply list_elem_of_lookup_2|done|].
      rewrite Hv' in Hv. simpl in Hv. pose proof (alookup_inj _ _ _ _ Hnd Hv' Hv). lia.
Qed.

(** The number shown in an output row. *)
Definition row_order (r : dict) : Z :=
  match dget "display_order" r with PInt z => z | _ => 0 end.

Lemma row_order_output i : row_order (output_row i) = shown i.
Proof.
  unfold row_order, output_row.
  assert (H : dget "display_order" (dset "planning_order"
    (match it_explicit i with Some n => PInt n | None => PNone end)
    (dset "display_order" (PInt (shown i)) (dset "sequence_no" (PInt (shown i)) (it_row i))))
    = PInt (shown i)) by dict_simpl.
  by rewrite H.
Qed.

(** Canonical plan rows.  When canonicalization returns, its rows are the
    input rows, each once, with the three order fields set, in ascending display
    order; a planned (or kept legacy) number is positive and is shown as it is;
    a row numbered automatically has a number of its own, above the number of
    every row that is not. *)
Theorem canonical_plan_rows rows stations out :
  canonicalize_trackside_ap_plan_rows rows stations = Ok out →
  StronglySorted (λ a b, row_order a ≤ row_order b) out ∧
  ∃ items, out ≡ₚ output_row <$> items ∧ it_row <$> items = rows ∧
    Forall (λ i, ∀ n, it_explicit i = Some n → 0 < n ∧ row_order (output_row i) = n) items ∧
    ∀ a b i j, items !! a = Some i → items !! b = Some j → a ≠ b → automatic i →
      row_order (output_row i) ≠ row_order (output_row j) ∧
      (¬ automatic j → row_order (output_row j) < row_order (output_row i)).
Proof.
  unfold canonicalize_trackside_ap_plan_rows.
  intros (items & Hi & (sorted & Hs & [= <-])%res_bind_Ok)%res_bind_Ok.
  apply numbered_items_Ok in Hi as (H1 & H2 & H3). split.
  - assert (Hh : StronglySorted (λ a b : item, shown a ≤ shown b) sorted).
    { eapply (sorted_by_head final_key); [|exact Hs]. unfold final_key.
      intros x k (k' & _ & [= <-])%res_bind_Ok. eauto. }
    clear -Hh. induction Hh as [|i l Hl IH Hf]; simpl; constructor; [done|].
    apply Forall_fmap. eapply Forall_impl; [exact Hf|]. intros j Hj. simpl.
    by rewrite !row_order_output.
  - exists items. apply sorted_by_Ok in Hs as (_ & _ & _ & Hp). split_and!; [|done|..].
    + by rewrite <- Hp.
    + eapply Forall_impl; [exact H2|]. intros i Hin n Hn. rewrite row_order_output. auto.
    + intros a b i j. rewrite !row_order_output. apply H3.
Qed.
End ordering.

(** A planned row, a row of a mainline station, and two automatic ones. *)
Definition demo_rows : list dict :=
  [[("station_id", PStr "x"); ("name", PStr "b")]; [("station_id", PStr "s2")];
   [("station_id", PStr "y"); ("name", PStr "a")]; [("planning_order", PInt 9)]].
Definition demo_stations : list dict :=
  [[("id", PStr "s2"); ("sort_order", PStr "2")]].

Lemma canonical_plan_rows_witness :
  ∃ out, canonicalize_trackside_ap_plan_rows (λ _, Some (PDict [])) (λ _, Err ValueError)
           demo_rows demo_stations = Ok out ∧
    StronglySorted (λ a b, row_order a ≤ row_order b) out ∧
    (row_order <$> out) = [2; 9; 10; 11].
Proof.
  destruct (canonicalize_trackside_ap_plan_rows (λ _, Some (PDict [])) (λ _, Err ValueError)
              demo_rows demo_stations) as [out|e] eqn:E; [|vm_compute in E; discriminate].
  exists out. split; [reflexivity|]. split.
  - exact (proj1 (canonical_plan_rows (λ _, Some (PDict [])) (λ _, Err ValueError)
      demo_rows demo_stations out E)).
  - vm_compute in E. apply Ok_inj in E. subst out. reflexivity.
Defined.
