(* ===== verification/StationSource.v ===== *)
(** * Station names of the devices

    core/sources/rail_transit/station_source_utils.py: the station field of a
    device is read as a number with a name, alone or together with the other fields
    of the site ([parse_station_source_values] decides by the whole batch whether a
    bare two-digit prefix is a number), and the names by which stations are
    compared.  [nfkc] is Unicode normalization. *)

From S2P Require Import Prelude PyVal PyText PyRe.

Definition DEFAULT_MAIN_PATH_CODE : string := "MAIN".
Definition UNASSIGNED_PATH_CODE : string := "UNASSIGNED".
Definition TRACK_FACILITY_LABELS : list (string * string) :=
  [("turnback_track", "折返线"); ("crossover", "渡线"); ("storage_track", "存车线"); ("depot_connection", "出入段线");
   ("tail_track", "站后折返线"); ("loop", "环形折返"); ("siding", "其他侧线"); ("other", "其他")].
Definition TRACK_FACILITY_ORDER : list string := TRACK_FACILITY_LABELS.*1.
Definition LEGACY_TURNBACK_FACILITIES : list (string * list string) :=
  [("none", []); ("crossover", ["crossover"]); ("pocket_track", ["turnback_track"; "storage_track"]);
   ("tail_track", ["tail_track"]); ("loop", ["loop"]); ("depot_connection", ["depot_connection"]);
   ("other", ["other"]); ("unknown", ["other"])].

(** [_DASH_TRANSLATION]. *)
Definition DASHES : list string := ["－"; "—"; "–"; "‐"; "‑"; "‒"; "﹣"].
Definition translate_dashes (s : string) : string := foldl (λ s c, replace c "-" s) s DASHES.

Definition spaces : re := star s_class.
Definition not_space : string → bool := not_class s_class.
(** [\S.*?] with the spaces up to the end. *)
Definition name_to_end (name : string) : re :=
  seqs [RGroup name (RSeq (RSet not_space) (RRep false 0 None (RSet dot_class))); spaces; REnd].

Definition EXPLICIT_CODE_RE : re :=
  seqs [RStart; spaces; RGroup "1" (between 1 3 d_class);
        RAlt (seqs [spaces; RSet (any_of ["-"; "_"; "."; "/"; "、"; ","; "，"; ":"; "："]); spaces]) (plus s_class);
        name_to_end "2"].
Definition LEADING_ZERO_CODE_RE : re :=
  seqs [RStart; spaces; RGroup "1" (RSeq (RText "0") (RSet d_class)); name_to_end "2"].
Definition BATCH_CODE_RE : re :=
  seqs [RStart; RGroup "1" (between 2 2 d_class); RNot (RAlt (RSet d_class) (RText "号"));
        RGroup "2" (plus dot_class); REnd].
Definition DIGIT_PREFIX_RE : re := seqs [RStart; spaces; RSet d_class].
Definition DIGITS_ONLY_RE : re := seqs [RStart; spaces; plus d_class; spaces; REnd].
Definition TOO_LONG_PREFIX_RE : re := seqs [RStart; spaces; RRep true 4 None (RSet d_class)].

Definition matches (r : re) (s : string) : bool := bool_decide (is_Some (re_match false r s)).
(** [int] of a run of digits, and [f"{n:02d}"]. *)
Definition code_int (code : string) : Z := digits_val 0 code.
Definition two_digits (n : Z) : string := zfill 2 (pretty n).

Section names.
Context (nfkc : string → string).

Definition normalize_station_source_value (value : pyval) : string * string :=
  let text := strip (re_sub (plus s_class) " " (translate_dashes (nfkc (text_or_empty value)))) in
  let text := re_sub (seqs [spaces; RText "-"; spaces]) "-" text in
  let text := re_sub (seqs [spaces; RText "_"; spaces]) "_" text in
  (text, casefold text).

Definition normalize_canonical_station_name (value : pyval) : string * string :=
  let text := strip (re_sub (plus s_class) " " (translate_dashes (nfkc (text_or_empty value)))) in
  (text, casefold text).

Definition canonical_station_name_with (allow_inferred_two_digit_prefix : bool) (value : pyval) : string :=
  let text := (normalize_station_source_value value).1 in
  let text :=
    match re_match false EXPLICIT_CODE_RE text with
    | Some m => strip (group "2" m)
    | None =>
        match re_match false LEADING_ZERO_CODE_RE text with
        | Some m => strip (group "2" m)
        | None =>
            if allow_inferred_two_digit_prefix then
              match re_match false BATCH_CODE_RE text with
              | Some m => if starts_with "号" (group "2" m) then text else strip (group "2" m)
              | None => text
              end
            else text
        end
    end in
  (normalize_canonical_station_name (PStr text)).1.
Definition canonical_station_name : pyval → string := canonical_station_name_with true.

Definition station_identity_key (name node_type path_code : pyval) : string :=
  join "|" ["station"; casefold (canonical_station_name name);
            casefold (strip (py_str (por node_type (PStr "station"))));
            casefold (strip (py_str (por path_code (PStr DEFAULT_MAIN_PATH_CODE))))].

Definition infer_station_node_type (name : string) : string :=
  let text := strip name in
  if ends_with "车辆段" text then "depot"
  else if ends_with "停车场" text then "parking_lot"
  else if ends_with "车场" text && negb (ends_with "车站" text) then "parking_lot"
  else "station".
Definition special_node (node_type : string) : bool := str_mem node_type ["parking_lot"; "depot"].

Record ParsedStationSource := ParsedSource {
  ps_value : string; ps_key : string; ps_order_text : string; ps_order : option Z; ps_code : string; ps_name : string;
  ps_canonical_name : string; ps_canonical_station_name : string; ps_sort_order : option Z; ps_node_type : string;
  ps_path_code : string; ps_participates : bool; ps_method : string; ps_confidence : string; ps_warning : string;
  ps_error : string;
}.

Definition parsed_station_source (main_path_code value code name : string) (order : option Z)
    (method confidence warning error : string) : ParsedStationSource :=
  let canonical_name := canonical_station_name_with false (PStr name) in
  let node_type := infer_station_node_type canonical_name in
  let special := special_node node_type in
  let path_code := if special then UNASSIGNED_PATH_CODE else str_or main_path_code DEFAULT_MAIN_PATH_CODE in
  ParsedSource value
    (if str_nonempty canonical_name then station_identity_key (PStr canonical_name) (PStr node_type) (PStr path_code) else "")
    code order code canonical_name canonical_name canonical_name (if special then None else order) node_type path_code
    (negb special) method confidence warning error.

Definition parse_station_source_value (main_path_code : string) (value : pyval) : ParsedStationSource :=
  let source_value := text_or_empty value in
  let normalized := (normalize_station_source_value (PStr source_value)).1 in
  let coded m method :=
    parsed_station_source main_path_code source_value (group "1" m) (strip (group "2" m)) (Some (code_int (group "1" m)))
      method "explicit" "" "" in
  match re_match false EXPLICIT_CODE_RE normalized with
  | Some m => coded m "explicit_separator"
  | None =>
      match re_match false LEADING_ZERO_CODE_RE normalized with
      | Some m => coded m "explicit_prefix"
      | None =>
          let special :=
            match re_match false BATCH_CODE_RE normalized with
            | Some m => if special_node (infer_station_node_type (strip (group "2" m))) then Some m else None
            | None => None
            end in
          match special with
          | Some m => coded m "explicit_prefix"
          | None =>
              let plain name confidence warning error :=
                parsed_station_source main_path_code source_value "" name None "none" confidence warning error in
              if matches DIGITS_ONLY_RE normalized then plain "" "manual_review" "" "站点字段只有数字，缺少正式站名"
              else if matches TOO_LONG_PREFIX_RE normalized then plain normalized "manual_review" "" "站点编号仅支持 1～3 位数字"
              else if matches DIGIT_PREFIX_RE normalized then plain normalized "manual_review" "无法自动提取顺序" ""
              else plain normalized "name_only" "" ""
          end
      end
  end.

Definition format_station_display_name (value source_station_value source_order_text sort_order source_kind : pyval)
    : res string :=
  let raw_name := (normalize_station_source_value value).1 in
  if negb (str_nonempty raw_name) then Ok ""
  else
    let coded candidate :=
      let parsed := parse_station_source_value DEFAULT_MAIN_PATH_CODE candidate in
      if str_nonempty (ps_code parsed) && str_nonempty (ps_name parsed)
      then Some (two_digits (code_int (ps_code parsed)) +:+ "-" +:+ ps_name parsed) else None in
    let legacy :=
      match re_match false BATCH_CODE_RE raw_name with
      | Some m =>
          if starts_with "号" (strip (group "2" m)) then None
          else Some (two_digits (code_int (group "1" m)) +:+ "-" +:+ strip (group "2" m))
      | None => None
      end in
    match first_of (coded source_station_value) (λ _, first_of (coded (PStr raw_name)) (λ _, legacy)) with
    | Some text => Ok text
    | None =>
        let given := strip (text_or_empty source_order_text) in
        source_order ←
          (if negb (str_nonempty given)
              && str_mem (casefold (strip (text_or_empty source_kind))) ["device_station_field"; "legacy_ap_derived"]
              && negb (blank sort_order)
           then order ← try_int sort_order; Ok (match order with Some z => pretty z | None => "" end)
           else Ok given);
        Ok (if is_digits source_order && str_nonempty raw_name
            then two_digits (code_int source_order) +:+ "-" +:+ canonical_station_name_with false (PStr raw_name)
            else raw_name)
    end.

(** ** The fields of a site together *)
Definition distinct (l : list Z) : list Z := remove_dups l.
Definition list_min (l : list Z) : Z := match l with [] => 0 | x :: l' => foldl Z.min x l' end.
Definition list_max (l : list Z) : Z := match l with [] => 0 | x :: l' => foldl Z.max x l' end.

(** On a set, a list without repetition. *)
Definition mostly_continuous (numbers : list Z) : bool :=
  match numbers with
  | [] => false
  | _ =>
      let n := Z.of_nat (length numbers) in
      let span := list_max numbers - list_min numbers + 1 in
      let allowed_missing := Z.max 1 (n / 5) in
      (1 <=? list_min numbers) && (list_max numbers <=? 99) && (span - n <=? allowed_missing)
  end.

(** The prefix of a field that is not read as a code by itself. *)
Definition unresolved_prefix (parsed : list (string * ParsedStationSource)) (vk : string * string)
    : option (string * re_result) :=
  match re_match false BATCH_CODE_RE vk.1, alookup vk.2 parsed with
  | Some m, Some p =>
      if str_mem (ps_method p) ["none"; "explicit_prefix"] && negb (str_nonempty (ps_error p)) then Some (vk.2, m) else None
  | _, _ => None
  end.

Definition explicit_pairs (parsed : list (string * ParsedStationSource)) : list (Z * string) :=
  omap (λ p, if String.eqb (ps_method p) "explicit_separator" && str_nonempty (ps_code p)
             then Some (code_int (ps_code p), casefold (ps_canonical_name p)) else None) parsed.*2.

(** [int(n * 0.8 + 0.999)], the four fifths of [n] rounded up. *)
Definition four_fifths (n : Z) : Z := (800 * n + 999) / 1000.

Definition coherent_batch (unresolved candidates : list (string * re_result)) : bool :=
  let n := Z.of_nat (length candidates) in
  let numbers := (λ km, code_int (group "1" km.2)) <$> candidates in
  (3 <=? n) && (Z.max 3 (four_fifths (Z.of_nat (length unresolved))) <=? n)
  && bool_decide (length (distinct numbers) = length numbers) && mostly_continuous (distinct numbers).

Definition settle_prefix (main_path_code : string) (coherent : bool) (pairs : list (Z * string))
    (parsed : list (string * ParsedStationSource)) (km : string * re_result) : list (string * ParsedStationSource) :=
  let '(key, m) := km in
  match alookup key parsed with
  | None => parsed
  | Some old =>
      let code := group "1" m in
      let paired := bool_decide ((code_int code, casefold (canonical_station_name (PStr (group "2" m)))) ∈ pairs) in
      let special := special_node (infer_station_node_type (strip (group "2" m))) in
      ainsert key
        (if negb (coherent || paired || special)
         then parsed_station_source main_path_code (ps_value old) "" (ps_value old) None "none" "manual_review"
                "无法自动提取顺序" ""
         else parsed_station_source main_path_code (ps_value old) code (strip (group "2" m)) (Some (code_int code))
                "batch_inferred" "batch_inferred" "" "") parsed
  end.

Definition parse_station_source_values (main_path_code : string) (values : list pyval)
    : list (string * ParsedStationSource) :=
  let normalized := List.filter (λ vk, str_nonempty vk.2) (normalize_station_source_value <$> values) in
  let parsed := foldl (λ d vk, ainsert vk.2 (parse_station_source_value main_path_code (PStr vk.1)) d) [] normalized in
  let unresolved := foldl (λ d km, ainsert km.1 km.2 d) [] (omap (unresolved_prefix parsed) normalized) in
  let candidates := List.filter (λ km, str_nonempty (strip (group "2" km.2))) unresolved in
  foldl (settle_prefix main_path_code (coherent_batch unresolved candidates) (explicit_pairs parsed)) parsed candidates.
End names.

(** ** Fields of a station *)
Definition station_structure_defaults (node_type path_code main_path_code : pyval) : string * string :=
  if String.eqb (py_str (por node_type (PStr "station"))) "station"
     && String.eqb (casefold (text_or_empty path_code)) (casefold (py_str (por main_path_code (PStr DEFAULT_MAIN_PATH_CODE))))
  then ("underground", "island") else ("unknown", "unknown").

(** The label of a facility or its key. *)
Definition facility_key (text : string) : string :=
  if str_mem text TRACK_FACILITY_ORDER then text
  else default text (alookup (casefold text) ((λ kl, (casefold kl.2, kl.1)) <$> TRACK_FACILITY_LABELS)).

(** A set of values is a list. *)
Definition normalize_track_facilities (value legacy_turnback_type : pyval) : res (list string) :=
  items ← (match value with
           | PNone => Ok (PStr <$> default [] (alookup (py_str (por legacy_turnback_type (PStr "none"))) LEGACY_TURNBACK_FACILITIES))
           | PStr s => Ok (PStr <$> re_split (plus (any_of ["、"; "，"; ","; ";"; "；"])) s)
           | PList l => Ok l
           | _ => Err ValueError
           end);
  keys ← mapM (λ item, let key := facility_key (strip (text_or_empty item)) in
                        if str_mem key TRACK_FACILITY_ORDER then Ok key else Err ValueError)
           (List.filter (λ item, str_nonempty (strip (text_or_empty item))) items);
  Ok (List.filter (λ key, str_mem key keys) TRACK_FACILITY_ORDER).

Definition legacy_turnback_type_for_facilities (value : pyval) : res string :=
  facilities ← normalize_track_facilities value (PStr "none");
  Ok (match facilities with
      | [] => "none"
      | ["crossover"] => "crossover"
      | ["turnback_track"; "storage_track"] => "pocket_track"
      | ["tail_track"] => "tail_track"
      | ["loop"] => "loop"
      | ["depot_connection"] => "depot_connection"
      | ["other"] => "other"
      | _ => "other"
      end).

Definition track_facilities_label (value : pyval) : res string :=
  facilities ← normalize_track_facilities value (PStr "none");
  Ok (join "、" ((λ key, default key (alookup key TRACK_FACILITY_LABELS)) <$> facilities)).

Definition label_for (enum_map : list (string * string)) (value : pyval) : string :=
  let text := strip (text_or_empty value) in default text (alookup text enum_map).

(** Of two labels with the same spelling the later one counts. *)
Definition value_from_label (enum_map : list (string * string)) (value : pyval) (otherwise : string) : string :=
  let text := strip (text_or_empty value) in
  if negb (str_nonempty text) then otherwise
  else if bool_decide (is_Some (alookup text enum_map)) then text
  else default text (alookup (casefold text) (foldl (λ d kl, ainsert (casefold kl.2) kl.1 d) [] enum_map)).

Definition bool_from_template (value : pyval) (otherwise : bool) : res bool :=
  if blank value then Ok otherwise
  else
    let text := casefold (strip (py_str value)) in
    if str_mem text ["是"; "true"; "1"; "yes"; "y"] then Ok true
    else if str_mem text ["否"; "false"; "0"; "no"; "n"] then Ok false
    else Err ValueError.
Definition bool_label (value : bool) : string := if value then "是" else "否".

Definition default_station_metadata (line_name main_path_code : string) (raw : dict) : res dict :=
  let text k fallback := py_str (por (dget k raw) (PStr fallback)) in
  let flag k fallback := truthy (dget_or k (PBool fallback) raw) in
  let node_type := text "node_type" "station" in
  let special := special_node node_type in
  let capable := flag "turnback_capable" false in
  let turnback_type := if capable then text "turnback_type" "unknown" else "none" in
  let path_code := text "path_code" (if special then UNASSIGNED_PATH_CODE else str_or main_path_code DEFAULT_MAIN_PATH_CODE) in
  let '(structure, platform) := station_structure_defaults (PStr node_type) (PStr path_code) (PStr main_path_code) in
  facilities ← normalize_track_facilities (dget "track_facilities" raw) (PStr turnback_type);
  Ok [("source_station_value", PStr (text "source_station_value" "")); ("source_station_key", PStr (text "source_station_key" ""));
      ("source_order_text", PStr (text "source_order_text" "")); ("source_order", dget "source_order" raw);
      ("canonical_station_name", PStr (text_or_empty (por (dget "canonical_station_name" raw) (dget "name" raw))));
      ("node_type", PStr node_type); ("path_code", PStr path_code); ("sort_order", dget "sort_order" raw);
      ("participates_in_direction", PBool (flag "participates_in_direction" (negb special)));
      ("structure_type", PStr (text "structure_type" structure)); ("platform_layout", PStr (text "platform_layout" platform));
      ("is_line_terminal", PBool (flag "is_line_terminal" false)); ("is_service_terminal", PBool (flag "is_service_terminal" false));
      ("turnback_capable", PBool capable); ("turnback_type", PStr turnback_type);
      ("track_facilities", PList (PStr <$> facilities)); ("turnback_direction", PStr (text "turnback_direction" "none"));
      ("enabled", PBool (flag "enabled" true)); ("source_kind", PStr (text "source_kind" "manual"));
      ("line_name", PStr (text "line_name" line_name)); ("remark", PStr (text "remark" ""))].

(** Inserting one entry after the other. *)
Lemma inserts_keys {A B} (f : A → string * B) l d k :
  k ∈ (foldl (λ d x, ainsert (f x).1 (f x).2 d) d l).*1 ↔ k ∈ d.*1 ∨ k ∈ (f <$> l).*1.
Proof.
  revert d. induction l as [|x l IH]; intros d; simpl; [set_solver|]. rewrite IH.
  assert (∀ j, j ∈ (ainsert (f x).1 (f x).2 d).*1 ↔ j ∈ d.*1 ∨ j = (f x).1).
  { intros j. destruct (decide ((f x).1 ∈ d.*1)) as [H|H].
    - rewrite ainsert_fst_in by done. set_solver.
    - rewrite ainsert_fst_notin by done. set_solver. }
  set_solver.
Qed.
Lemma inserts_NoDup {A B} (f : A → string * B) l d :
  NoDup d.*1 → NoDup (foldl (λ d x, ainsert (f x).1 (f x).2 d) d l).*1.
Proof. revert d. induction l as [|x l IH]; intros d H; simpl; [done|]. by apply IH, ainsert_NoDup. Qed.
Lemma inserts_Forall {A B} (f : A → string * B) (P : string * B → Prop) l d :
  Forall P d → Forall (P ∘ f) l → Forall P (foldl (λ d x, ainsert (f x).1 (f x).2 d) d l).
Proof.
  intros Hd Hl. revert d Hd. induction Hl as [|x l Hx Hl IH]; intros d Hd; simpl; [done|].
  apply IH, ainsert_Forall; [|done]. unfold compose in Hx. by destruct (f x).
Qed.

(** ** What the parsed fields satisfy *)
Section parsed.
Context (nfkc : string → string) (main_path_code : string).

Record parsed_ok (p : ParsedStationSource) : Prop := {
  ok_node : ps_node_type p = infer_station_node_type (ps_name p);
  ok_path : ps_path_code p =
    if special_node (ps_node_type p) then UNASSIGNED_PATH_CODE else str_or main_path_code DEFAULT_MAIN_PATH_CODE;
  ok_participates : ps_participates p = negb (special_node (ps_node_type p));
  ok_order : ps_order p = None ∨ ps_order p = Some (code_int (ps_code p));
  ok_sort : ps_sort_order p = if special_node (ps_node_type p) then None else ps_order p;
  ok_key : ps_key p =
    if str_nonempty (ps_name p) then station_identity_key nfkc (PStr (ps_name p)) (PStr (ps_node_type p)) (PStr (ps_path_code p)) else "";
}.

Lemma parsed_source_ok value code name order method confidence warning error :
  order = None ∨ order = Some (code_int code) →
  parsed_ok (parsed_station_source nfkc main_path_code value code name order method confidence warning error).
Proof. intros H. by constructor. Qed.

Lemma parse_value_ok value : parsed_ok (parse_station_source_value nfkc main_path_code value).
Proof. unfold parse_station_source_value. repeat case_match; apply parsed_source_ok; auto. Qed.

Lemma settle_prefix_keys coherent pairs parsed km :
  (settle_prefix nfkc main_path_code coherent pairs parsed km).*1 = parsed.*1.
Proof.
  destruct km as [key m]. simpl. destruct (alookup key parsed) eqn:E; [|done].
  apply ainsert_fst_in. apply alookup_Some_in in E. apply list_elem_of_fmap. by exists (key, p).
Qed.
Lemma settle_prefix_ok coherent pairs parsed km :
  Forall (λ kp, parsed_ok kp.2) parsed → Forall (λ kp, parsed_ok kp.2) (settle_prefix nfkc main_path_code coherent pairs parsed km).
Proof.
  intros H. destruct km as [key m]. simpl. destruct (alookup key parsed) eqn:E; [|done].
  apply ainsert_Forall; [|done]. simpl. case_match; apply parsed_source_ok; auto.
Qed.

(** Every field with a name is in the result of the batch, under its own key and
    once; what is read of it is consistent. *)
Lemma parse_values_complete values :
  let parsed := parse_station_source_values nfkc main_path_code values in
  NoDup parsed.*1 ∧ Forall (λ kp, parsed_ok kp.2) parsed ∧
  (∀ key, key ∈ parsed.*1 ↔ key ≠ "" ∧ ∃ v, v ∈ values ∧ (normalize_station_source_value nfkc v).2 = key).
Proof.
  set (parse := λ vk : string * string, (vk.2, parse_station_source_value nfkc main_path_code (PStr vk.1))).
  set (given := List.filter (λ vk, str_nonempty vk.2) (normalize_station_source_value nfkc <$> values)).
  set (start := foldl (λ d vk, ainsert (parse vk).1 (parse vk).2 d) [] given).
  assert (Hs : ∀ candidates coherent pairs,
    let d := foldl (settle_prefix nfkc main_path_code coherent pairs) start candidates in
    d.*1 = start.*1 ∧ Forall (λ kp, parsed_ok kp.2) d).
  { intros candidates coherent pairs. assert (H0 : Forall (λ kp, parsed_ok kp.2) start).
    { apply inserts_Forall; [done|]. apply Forall_forall. intros vk _. apply parse_value_ok. }
    clearbody start. revert start H0. induction candidates as [|km l IH]; intros d Hd; simpl; [done|].
    destruct (IH _ (settle_prefix_ok coherent pairs d km Hd)) as [-> H]. by rewrite settle_prefix_keys. }
  assert (He : ∃ coherent pairs candidates, parse_station_source_values nfkc main_path_code values
    = foldl (settle_prefix nfkc main_path_code coherent pairs) start candidates) by (do 3 eexists; reflexivity).
  destruct He as (coherent & pairs & candidates & ->). destruct (Hs candidates coherent pairs) as [Hk Hf].
  cbv zeta in *. rewrite Hk. split_and!; [by apply inserts_NoDup, NoDup_nil_2|done|].
  assert (Hg : ∀ vk, vk ∈ given ↔ (∃ v, v ∈ values ∧ normalize_station_source_value nfkc v = vk) ∧ vk.2 ≠ "").
  { intros vk. unfold given. rewrite list_elem_of_In, filter_In, <- list_elem_of_In, list_elem_of_fmap.
    unfold str_nonempty. rewrite negb_true_iff, String.eqb_neq. naive_solver. }
  intros key. rewrite (inserts_keys parse given [] key : key ∈ start.*1 ↔ _), list_elem_of_fmap.
  setoid_rewrite list_elem_of_fmap. clear Hs Hk Hf. clearbody given start. split.
  - intros [(? & _ & H)|(x & -> & (vk & -> & [(v & Hv & <-) Hne]%Hg)%list_elem_of_fmap)];
      [by apply not_elem_of_nil in H|]. simpl. eauto.
  - intros (Hne & v & Hv & <-). right. exists (parse (normalize_station_source_value nfkc v)). split; [done|].
    apply list_elem_of_fmap. exists (normalize_station_source_value nfkc v). split; [done|]. apply Hg. eauto.
Qed.
End parsed.
