(* ===== verification/TrainIdentity.v ===== *)
(** * Train identities

    services/vehicle_mr_online.py, the names of trains and their radios
    ([normalize_train_no], [parse_train_identity]), and the canonical train keys of
    services/rail_transit/train_identity.py. *)

From S2P Require Import Prelude PyVal PyText PyRe.

(** ** Train numbers *)
Definition ONLINE_POLICY_AUTO : string := "auto".
Definition ONLINE_POLICY_SINGLE_TAIL : string := "single_tail".
Definition ONLINE_POLICY_DUAL_ACTIVE : string := "dual_active".
Definition ONLINE_POLICY_SINGLE_TC1 : string := "single_tc1".
Definition ONLINE_POLICY_SINGLE_TC2 : string := "single_tc2".
Definition ONLINE_POLICIES : list string :=
  [ONLINE_POLICY_AUTO; ONLINE_POLICY_SINGLE_TAIL; ONLINE_POLICY_DUAL_ACTIVE; ONLINE_POLICY_SINGLE_TC1; ONLINE_POLICY_SINGLE_TC2].
Definition ONLINE_POLICY_LABELS : list (string * string) :=
  [(ONLINE_POLICY_AUTO, "自动/未知"); (ONLINE_POLICY_SINGLE_TAIL, "单端在线-尾端在线"); (ONLINE_POLICY_DUAL_ACTIVE, "双端在线");
   (ONLINE_POLICY_SINGLE_TC1, "单端在线-TC1固定在线"); (ONLINE_POLICY_SINGLE_TC2, "单端在线-TC2固定在线")].
Definition ONLINE_POLICY_VALUES_BY_LABEL : list (string * string) := (λ vl, (vl.2, vl.1)) <$> ONLINE_POLICY_LABELS.
Definition POLICY_ALIASES : list (string * string) :=
  [("双活", ONLINE_POLICY_DUAL_ACTIVE); ("双端", ONLINE_POLICY_DUAL_ACTIVE); ("双端在线", ONLINE_POLICY_DUAL_ACTIVE);
   ("单活", ONLINE_POLICY_SINGLE_TAIL); ("尾端在线", ONLINE_POLICY_SINGLE_TAIL); ("单端尾端在线", ONLINE_POLICY_SINGLE_TAIL);
   ("tc1", ONLINE_POLICY_SINGLE_TC1); ("tc1固定", ONLINE_POLICY_SINGLE_TC1); ("tc1固定在线", ONLINE_POLICY_SINGLE_TC1);
   ("tc2", ONLINE_POLICY_SINGLE_TC2); ("tc2固定", ONLINE_POLICY_SINGLE_TC2); ("tc2固定在线", ONLINE_POLICY_SINGLE_TC2);
   ("自动", ONLINE_POLICY_AUTO); ("未知", ONLINE_POLICY_AUTO); ("自动/未知", ONLINE_POLICY_AUTO)].

Definition normalize_online_policy (value : pyval) : string :=
  let text := strip (text_or_empty value) in
  if negb (str_nonempty text) then ONLINE_POLICY_AUTO
  else if str_mem text ONLINE_POLICIES then text
  else
    match alookup text ONLINE_POLICY_VALUES_BY_LABEL with
    | Some policy => policy
    | None =>
        match List.find (λ policy, String.eqb (casefold text) (casefold policy)) ONLINE_POLICIES with
        | Some policy => policy
        | None =>
            let compact := re_sub (plus (λ c, s_class c || any_of ["_"; "-"; "/"] c)) "" (casefold text) in
            default ONLINE_POLICY_AUTO (alookup compact POLICY_ALIASES)
        end
    end.
Definition online_policy_label (policy : pyval) : string :=
  default "" (alookup (normalize_online_policy policy) ONLINE_POLICY_LABELS).

Definition CONFIRMED_NUMERIC_MR_IDENTITIES : list (string * (string * string)) :=
  [("3001", ("30", "CT")); ("3004", ("30", "CW")); ("3006", ("30", "CW"))].

Definition zeros : re := RRep true 0 None (RText "0").
Definition number : re := RGroup "train_no" (between 1 3 d_class).
Definition mr_or_ap : re := RAlt (RText "MR") (RText "AP").
Definition ct_or_cw : re := RAlt (RText "CT") (RText "CW").
Definition no_hyphen : re := plus (not_class (any_of ["-"])).
(** Nothing, or a separator and any text, up to the end. *)
Definition optional_tail : re := RSeq (maybe (RSeq (RSet (any_of ["-"; "_"; " "])) (star dot_class))) REnd.

Definition HZL10_TRAIN_RE : re :=
  seqs [RStart; RText "HZL10-"; zeros; number; RText "-"; no_hyphen; RText "-"; mr_or_ap; RText "-"; ct_or_cw; RBoundary].
Definition TRAIN_PATTERNS : list re :=
  [seqs [RText "LC"; zeros; number]; seqs [RText "列车"; zeros; number]; seqs [zeros; number; RText "车"]].
Definition TRAIN_NO_RE : re := seqs [maybe (RAlt (RText "LC") (RText "列车")); zeros; number; maybe (RText "车")].
Definition LETTER_DIGITS_RE : re := RSeq (RSet (ascii_class is_letter)) (plus d_class).

(** The first pattern that occurs in the text. *)
Fixpoint search_first (patterns : list re) (text : string) : option re_result :=
  match patterns with
  | [] => None
  | r :: rest => first_of (re_search true r text) (λ _, search_first rest text)
  end.

Definition normalize_train_no (value : pyval) : string :=
  let text := strip (text_or_empty value) in
  if negb (str_nonempty text) then ""
  else
    match alookup text CONFIRMED_NUMERIC_MR_IDENTITIES with
    | Some confirmed => zfill 2 confirmed.1
    | None =>
        match first_of (re_match true HZL10_TRAIN_RE text) (λ _, search_first TRAIN_PATTERNS text) with
        | Some m => zfill 2 (group "train_no" m)
        | None =>
            let found :=
              match re_search true TRAIN_NO_RE text with
              | Some m =>
                  if bool_decide (is_Some (re_search true LETTER_DIGITS_RE (replace (group0 m) "" text))) then None else Some m
              | None => None
              end in
            match found with
            | Some m => zfill 2 (group "train_no" m)
            | None =>
                let digits := re_sub (plus (not_class d_class)) "" text in
                if str_nonempty digits then zfill 2 digits else ""
            end
        end
    end.

Definition build_canonical_train_key (value : pyval) : string :=
  let train_no := normalize_train_no value in if str_nonempty train_no then "train:" +:+ train_no else "".

(** ** Radio names *)
Definition PEER_RE : re := seqs [RBoundary; RGroup "1" mr_or_ap; star s_class; RText "-"; star s_class; RGroup "2" ct_or_cw; RBoundary].
Definition canonical_peer_name (value : pyval) : string :=
  let text := re_sub (plus s_class) " " (strip (text_or_empty value)) in
  re_sub_with true PEER_RE (λ m, upper (group "1" m) +:+ "-" +:+ upper (group "2" m)) text.

Record TrainIdentity := Identity {
  ti_peer : string; ti_train : string; ti_no : string; ti_end : string; ti_label : string; ti_policy : string;
  ti_raw : string; ti_line : string; ti_key : string; ti_source : string; ti_confidence : string;
}.
Definition end_label (car_end : string) : string := if String.eqb car_end "CT" then "TC1" else "TC2".
(** [TrainIdentity(...)] with its [__post_init__]. *)
Definition make_identity (peer train no car_end policy raw line source confidence : string) : TrainIdentity :=
  Identity peer train no car_end (end_label car_end) policy (str_or raw peer) line
    (if str_nonempty no then "train:" +:+ no else "") source confidence.

Definition HZL10_MR_NAME_RE : re :=
  seqs [RStart; RGroup "line" (RText "HZL10"); RText "-"; number; RText "-"; RGroup "middle" no_hyphen; RText "-"; mr_or_ap; RText "-";
        RGroup "end" ct_or_cw; optional_tail].
Definition MR_NAME_RE : re :=
  seqs [RStart; RGroup "train_id" (seqs [maybe (RGroup "prefix" (RSeq (plus dot_class) (RText "-"))); RText "LC"; RGroup "train_no" (plus d_class)]);
        RText "-"; mr_or_ap; RText "-"; RGroup "end" ct_or_cw; optional_tail].
Definition CN_MR_NAME_RE : re :=
  seqs [RStart; RText "列车"; RGroup "train_no" (plus d_class); RText "-"; mr_or_ap; RText "-"; RGroup "end" ct_or_cw; optional_tail].

(** [s.rstrip("-")]. *)
Fixpoint rstrip_hyphens (s : string) : string :=
  match s with
  | "" => ""
  | String c s' =>
      match rstrip_hyphens s' with
      | "" => if Ascii.eqb c "-"%char then "" else String c ""
      | r => String c r
      end
  end.

Definition parse_train_identity (peer_name : pyval) : option TrainIdentity :=
  let text := canonical_peer_name peer_name in
  let peer := strip (text_or_empty peer_name) in
  match alookup text CONFIRMED_NUMERIC_MR_IDENTITIES with
  | Some (no, car_end) =>
      Some (make_identity peer ("列车" +:+ no) (normalize_train_no (PStr no)) car_end ONLINE_POLICY_AUTO "" "HZL10" "confirmed-numeric" "high")
  | None =>
      match re_match true HZL10_MR_NAME_RE text with
      | Some m =>
          let no := normalize_train_no (PStr (group "train_no" m)) in
          Some (make_identity peer ("列车" +:+ no) no (upper (group "end" m)) ONLINE_POLICY_AUTO "" (upper (group "line" m))
                  "hzl10-middle-segment" "high")
      | None =>
          match re_match true MR_NAME_RE text with
          | Some m =>
              let no := normalize_train_no (PStr (group "train_no" m)) in
              let train := if str_nonempty (group "prefix" m) then group "train_id" m else "列车" +:+ no in
              let line := rstrip_hyphens (group "prefix" m) in
              Some (make_identity peer train no (upper (group "end" m)) ONLINE_POLICY_AUTO "" line
                      (if str_nonempty line then "legacy-line-lc" else "cn-compatible-lc") "high")
          | None =>
              m ← re_match true CN_MR_NAME_RE text;
              let no := normalize_train_no (PStr (group "train_no" m)) in
              Some (make_identity peer ("列车" +:+ no) no (upper (group "end" m)) ONLINE_POLICY_AUTO "" "" "chinese-name" "high")
          end
      end
  end.

Definition STATION_TRAIN_RE : re :=
  seqs [RStart; star s_class; maybe (RSeq (RText "列车") (star s_class)); number; star s_class; RText "车"; maybe (RText "厢")].
Definition STATION_END_RE : re :=
  seqs [RGroup "train_no" (plus d_class); RText "车"; star dot_class; RGroup "end" (texts ["车头"; "车尾"; "CT"; "CW"])].
Definition separator : re := RSet (λ c, any_of ["-"; "_"] c || s_class c).
Definition MR_END_RE : re := seqs [RAlt RStart separator; RGroup "end" ct_or_cw; RAlt REnd separator].

(** A device: its name and its station field. *)
Definition parse_train_identity_from_device (name station : string) : option TrainIdentity :=
  let name_identity := parse_train_identity (PStr name) in
  let name_end := match re_search true MR_END_RE name with Some m => upper (group "end" m) | None => "" end in
  let station_text := strip station in
  match re_match true STATION_TRAIN_RE station_text with
  | Some m =>
      let end_text := match re_search true STATION_END_RE station_text with Some e => upper (group "end" e) | None => "" end in
      let car_end :=
        if str_mem end_text ["车头"; "CT"] then "CT"
        else if str_mem end_text ["车尾"; "CW"] then "CW"
        else match name_identity with Some i => ti_end i | None => name_end end in
      if negb (str_nonempty car_end) then None
      else
        let no := normalize_train_no (PStr (group "train_no" m)) in
        Some (make_identity name ("列车" +:+ no) no car_end ONLINE_POLICY_AUTO name "" "station-format" "medium")
  | None => name_identity
  end.

(** ** Canonical train keys *)
Record CanonicalTrainIdentity := Canonical { ct_id : string; ct_no : string; ct_name : string; ct_aliases : list string }.

(** [_key]. *)
Definition identity_key (value : pyval) : string :=
  re_sub (plus (λ c, s_class c || any_of ["_"; "-"; "/"; "："; ":"] c)) "" (casefold (strip (text_or_empty value))).
Definition fallback_key (value : string) : string :=
  let key := identity_key (PStr value) in if str_nonempty key then "train:" +:+ key else "".

Fixpoint strip_zeros (s : string) : string :=
  match s with String c s' => if Ascii.eqb c "0"%char then strip_zeros s' else s | "" => "" end.

(** [dict.fromkeys]. *)
Definition unique_texts (l : list string) : list string := (index_by id l).*1.

Definition aliases_for_train (train_no : string) (originals : list string) : list string :=
  let short_no := if is_digits train_no then pretty (digits_val 0 train_no) else str_or (strip_zeros train_no) train_no in
  unique_texts (List.filter (λ a, str_nonempty (strip a))
    (originals ++ [train_no; short_no; train_no +:+ "车"; short_no +:+ "车"; "列车" +:+ train_no; "列车" +:+ short_no;
                   "train-" +:+ train_no; "train-" +:+ short_no; "train:" +:+ train_no; "LC" +:+ train_no; "lc" +:+ train_no;
                   "NBL12-LC" +:+ train_no])).

(** [next((value for value in l if value), "")]. *)
Definition first_text (l : list string) : string := default "" (List.find str_nonempty l).

Definition normalize_train_identity (values : list pyval) : CanonicalTrainIdentity :=
  let originals := List.filter str_nonempty ((λ v, strip (text_or_empty v)) <$> values) in
  let direct := first_text ((λ v, normalize_train_no (PStr v)) <$> originals) in
  let train_no :=
    if str_nonempty direct then direct
    else first_text ((λ v, match parse_train_identity (PStr v) with Some i => ti_no i | None => "" end) <$> originals) in
  let first := match originals with o :: _ => o | [] => "" end in
  if str_nonempty train_no then
    let display := List.find (λ v, starts_with "列车" v || ends_with "车" v) originals in
    Canonical ("train:" +:+ train_no) train_no (default ("列车" +:+ train_no) display) (aliases_for_train train_no originals)
  else Canonical (fallback_key first) "" first (unique_texts originals).

Definition canonical_train_id_for (values : list pyval) : string := ct_id (normalize_train_identity values).
Definition train_identity_aliases (values : list pyval) : list string :=
  List.filter str_nonempty ((λ a, identity_key (PStr a)) <$> ct_aliases (normalize_train_identity values)).
Definition train_identity_matches (l r : list pyval) : bool :=
  let a := ct_id (normalize_train_identity l) in
  let b := ct_id (normalize_train_identity r) in
  if str_nonempty a && str_nonempty b then String.eqb a b
  else existsb (λ x, str_mem x (train_identity_aliases r)) (train_identity_aliases l).

(** ** One key per train *)
Definition train_text (n : Z) : string := zfill 2 (pretty n).
Definition spellings_agree (n : Z) : bool :=
  forallb (λ a, String.eqb (canonical_train_id_for [PStr a]) ("train:" +:+ train_text n)) (aliases_for_train (train_text n) []).

Lemma normalize_train_no_strip v : normalize_train_no (PStr (strip (text_or_empty v))) = normalize_train_no v.
Proof. unfold normalize_train_no. by rewrite text_or_empty_PStr, strip_idem. Qed.
Lemma normalize_train_no_blank v : strip (text_or_empty v) = "" → normalize_train_no v = "".
Proof. intros H. unfold normalize_train_no. by rewrite H. Qed.

Lemma canonical_of_number v :
  normalize_train_no v ≠ "" → canonical_train_id_for [v] = "train:" +:+ normalize_train_no v.
Proof.
  intros Hn.
  assert (Ho : List.filter str_nonempty ((λ v, strip (text_or_empty v)) <$> [v]) = [strip (text_or_empty v)]).
  { simpl. destruct (str_nonempty _) eqn:E; [done|]. apply negb_false_iff, String.eqb_eq, normalize_train_no_blank in E. done. }
  assert (Hf : str_nonempty (normalize_train_no v) = true) by (by apply negb_true_iff, String.eqb_neq).
  unfold canonical_train_id_for, normalize_train_identity. rewrite Ho. unfold first_text. cbn [fmap list_fmap List.find].
  rewrite normalize_train_no_strip, Hf. cbn [from_option]. unfold id. rewrite !Hf. reflexivity.
Qed.

(** The key of a text with a train number is the key of that number, on both
    ways in which the program computes it; and for the trains 0 to 99 every spelling
    that the program lists as an alias of the number has the key of the train, so no
    two trains share one. *)
Theorem train_keys_agree :
  (∀ v, normalize_train_no v ≠ "" → canonical_train_id_for [v] = build_canonical_train_key v) ∧
  (∀ n a, 0 ≤ n < 100 → a ∈ aliases_for_train (train_text n) [] → canonical_train_id_for [PStr a] = "train:" +:+ train_text n) ∧
  NoDup (train_text <$> zseq 0 100).
Proof.
  split_and!.
  - intros v Hv. rewrite canonical_of_number by done. unfold build_canonical_train_key, str_nonempty.
    by rewrite (proj2 (String.eqb_neq _ _) Hv).
  - intros n a Hn Ha. assert (H : range_forall spellings_agree 100 = true) by (vm_compute; reflexivity).
    apply (range_forall_spec _ _ H) in Hn. unfold spellings_agree in Hn. rewrite forallb_forall in Hn.
    apply String.eqb_eq, Hn. by apply list_elem_of_In.
  - apply (bool_decide_unpack (NoDup _)). vm_compute. exact I.
Qed.
