(* ===== verification/VehicleMr.v ===== *)
(** * Vehicle radios on line

    services/vehicle_mr_online.py: the output of an access controller is read
    ([parse_mesh_links]), the best link of each radio is chosen, and from the links
    and the state before come the states of the trains ([build_train_states]), which
    are stored with the events of their two ends ([persist_snapshot], [run_once]).
    The tables of the site's store are part of the state, in the types of their
    columns. *)

From S2P Require Import Prelude PyVal PyText PyRe ApNormalizers TrainIdentity.

Definition TRAIN_STATUS_ONLINE : string := "在线".
Definition TRAIN_STATUS_OFFLINE : string := "离线".
Definition TRAIN_STATUS_ABNORMAL_SINGLE : string := "异常单端".
Definition TRAIN_STATUS_UNEXPECTED_END : string := "非预期端在线".
Definition TRAIN_STATUS_DUAL_ONLINE : string := "双端在线".
Definition TRAIN_STATUS_PARTIAL : string := "单端在线".
Definition UNKNOWN_STATION : string := "未知车站".

(** ** Sort keys of trains: utils/natural_sort.py *)
Definition natural_text_key (text : string) : list atom :=
  let '(l, tail) := pieces_of false (plus d_class) (casefold (strip text)) in
  concat ((λ bm, [AS bm.1; AZ (digits_val 0 (group0 bm.2))]) <$> l) ++ [AS tail].

Definition short_number : re := RGroup "number" (between 1 3 d_class).
Definition TRAIN_NUMBER_PATTERNS : list (bool * re) :=
  [(true, seqs [RText "LC"; star s_class; zeros; short_number; RNot (RSet d_class)]);
   (true, seqs [RText "列车"; star s_class; zeros; short_number; RNot (RSet d_class)]);
   (false, seqs [RNotAfter d_class; zeros; short_number; star s_class; RText "车"])].
Fixpoint first_number (patterns : list (bool * re)) (text : string) : option Z :=
  match patterns with
  | [] => None
  | (ignore_case, r) :: rest =>
      match re_search ignore_case r text with
      | Some m => Some (digits_val 0 (group "number" m))
      | None => first_number rest text
      end
  end.
Fixpoint extract_train_number (values : list string) : option Z :=
  match values with
  | [] => None
  | value :: rest =>
      let text := strip value in
      if negb (str_nonempty text) then extract_train_number rest
      else if bool_decide (is_Some (re_match false (seqs [RStart; zeros; between 1 3 d_class; REnd]) text))
      then Some (digits_val 0 text)
      else
        match first_number TRAIN_NUMBER_PATTERNS text with
        | Some n => Some n
        | None => extract_train_number rest
        end
  end.

(** The tuple [(0, number, ...)] or [(1, ...)]; the natural key and the text follow. *)
Record sort_key := SortKey { sk_rank : list atom; sk_natural : list atom; sk_text : string }.
Definition train_natural_sort_key (values : list string) : sort_key :=
  let text := join " " (List.filter str_nonempty (strip <$> values)) in
  SortKey (match extract_train_number values with None => [AZ 1] | Some n => [AZ 0; AZ n] end)
    (natural_text_key text) (casefold text).
Definition sort_key_leb : sort_key → sort_key → bool :=
  then_leb (on sk_rank key_leb) (then_leb (on sk_natural key_leb) (on sk_text String.leb)).

(** ** Links *)
Record link := Link {
  lk_ap : string; lk_peer : string; lk_canonical : string; lk_peer_mac : option string; lk_local_mac : option string;
  lk_status : string; lk_rssi : option Z; lk_rx : Z; lk_tx : Z;
}.
Record parsed := Parsed { pa_time : string; pa_links : list link; pa_status : string; pa_error : string }.

Definition time_re : re := seqs [between 1 2 d_class; RText ":"; between 2 2 d_class; RText ":"; between 2 2 d_class].
Definition date_re : re := seqs [between 1 2 d_class; RText "/"; between 1 2 d_class; RText "/"; between 4 4 d_class].
Definition clock_re : re := seqs [RStart; star s_class; RGroup "time" time_re; RBoundary].
Definition clock_date_re : re :=
  seqs [RStart; star s_class; RGroup "time" time_re; RBoundary; RRep false 0 None (RSet dot_class); RBoundary;
        RGroup "date" date_re; RBoundary].
Definition lazy_text (name : string) : re := RGroup name (RRep false 1 None (RSet dot_class)).
Definition ap_re : re :=
  seqs [RStart; star s_class; RText "AP"; plus s_class; RText "name"; star s_class; RText ":"; star s_class; lazy_text "name";
        star s_class; REnd].
Definition hex_class : string → bool := ascii_class is_hex.
Definition mac_re (name : string) : re :=
  let sep := maybe (RSet (any_of ["-"; ":"; "."])) in
  RGroup name (seqs [between 4 4 hex_class; sep; between 4 4 hex_class; sep; between 4 4 hex_class]).
Definition link_columns : re :=
  seqs [mac_re "peer_mac"; plus s_class; mac_re "local_mac"; plus s_class; RGroup "status" (plus (not_class s_class)); plus s_class;
        RGroup "rssi" (RAlt (RSeq (maybe (RText "-")) (plus d_class)) (RText "-")); plus s_class;
        RGroup "rx" (plus d_class); star s_class; RText "/"; star s_class; RGroup "tx" (plus d_class); star s_class; REnd].
Definition peer_re : re := seqs [RStart; star s_class; lazy_text "peer"; plus s_class; link_columns].
Definition peer_without_name_re : re := seqs [RStart; star s_class; link_columns].

(** [datetime.strptime(text, "%m/%d/%Y %H:%M:%S")], printed again: the numbers of
    the two texts as a time stamp, where they are one. *)
Definition leap_year (y : Z) : bool := ((y mod 4 =? 0) && negb (y mod 100 =? 0)) || (y mod 400 =? 0).
Definition month_days (y m : Z) : Z :=
  if m =? 2 then (if leap_year y then 29 else 28) else if (m =? 4) || (m =? 6) || (m =? 9) || (m =? 11) then 30 else 31.
Definition reformat_clock (date time : string) : option string :=
  match digits_val 0 <$> split_on "/" date, digits_val 0 <$> split_on ":" time with
  | [m; d; y], [h; mi; s] =>
      if (1 <=? m) && (m <=? 12) && (1 <=? y) && (1 <=? d) && (d <=? month_days y m) && (h <=? 23) && (mi <=? 59) && (s <=? 59)
      then Some (zfill 4 (pretty y) +:+ "-" +:+ zfill 2 (pretty m) +:+ "-" +:+ zfill 2 (pretty d) +:+ " "
                 +:+ zfill 2 (pretty h) +:+ ":" +:+ zfill 2 (pretty mi) +:+ ":" +:+ zfill 2 (pretty s))
      else None
  | _, _ => None
  end.

Section parser.
(** The local time of the call as a text and its date; the message of [strptime]. *)
Context (now_text now_date : string) (clock_error : string → string).

Definition parse_ac_clock_line (line : string) : string + string :=
  match re_search false (RGroup "time" time_re) line with
  | None => inl now_text
  | Some t =>
      match re_search false (RGroup "date" date_re) line with
      | Some d =>
          match reformat_clock (group "date" d) (group "time" t) with
          | Some text => inl text
          | None => inr (clock_error (group "date" d +:+ " " +:+ group "time" t))
          end
      | None => inl (now_date +:+ " " +:+ group "time" t)
      end
  end.

Definition parse_link (current_ap line : string) : option link :=
  m ← first_of (re_match false peer_re line) (λ _, re_match false peer_without_name_re line);
  if negb (str_nonempty current_ap) then None
  else
    let peer := strip (group "peer" m) in
    let rssi := group "rssi" m in
    Some (Link current_ap peer (canonical_peer_name (PStr peer)) (normalize_mac (PStr (group "peer_mac" m)))
            (normalize_mac (PStr (group "local_mac" m))) (strip (group "status" m)) (parse_int rssi)
            (digits_val 0 (group "rx" m)) (digits_val 0 (group "tx" m))).

(** Parsing so far: the clock, the links, the access point whose links follow. *)
Record reading := Reading { re_time : string; re_links : list link; re_ap : string }.
Definition skip_line (line : string) : bool :=
  (contains "Peer Name" line && contains "Peer Mac" line) || starts_with "<" line
  || starts_with "display " (casefold line) || starts_with "time zone" (casefold line).

Definition parse_line (st : reading) (raw_line : string) : reading + string :=
  let line := strip raw_line in
  if negb (str_nonempty line) then inl st
  else
    let clock := first_of (re_match false clock_date_re line) (λ _, re_match false clock_re line) in
    if bool_decide (is_Some clock) && negb (str_nonempty (re_time st)) then
      match parse_ac_clock_line line with
      | inl time => inl (Reading time (re_links st) (re_ap st))
      | inr message => inr message
      end
    else
      match re_match true ap_re line with
      | Some m => inl (Reading (re_time st) (re_links st) (strip (group "name" m)))
      | None =>
          if skip_line line then inl st
          else inl (match parse_link (re_ap st) line with
                    | Some l => Reading (re_time st) (re_links st ++ [l]) (re_ap st)
                    | None => st
                    end)
      end.

Fixpoint parse_lines (st : reading) (lines : list string) : reading * option string :=
  match lines with
  | [] => (st, None)
  | l :: rest => match parse_line st l with inl st => parse_lines st rest | inr message => (st, Some message) end
  end.

(** [H3CComwareV9VehicleMrMeshLinkParser.parse]. *)
Definition parse_mesh_links (raw_text : string) : parsed :=
  match parse_lines (Reading "" [] "") (splitlines raw_text) with
  | (st, Some message) => Parsed (re_time st) (re_links st) "FAILED" message
  | (st, None) =>
      if str_nonempty (re_time st) then Parsed (re_time st) (re_links st) "OK" ""
      else
        match re_links st with
        | [] => Parsed now_text [] "FAILED" "解析失败/格式未适配：未找到 AC 时间"
        | links => Parsed now_text links "OK" ""
        end
  end.
End parser.

Definition ONLINE_LINK_STATUSES : list string := ["forwarding"; "active"; "up"].
Definition usable_link (l : link) : bool :=
  let status := casefold (strip (lk_status l)) in
  (negb (str_nonempty status) || str_mem status ONLINE_LINK_STATUSES) && bool_decide (is_Some (lk_rssi l)).
Definition link_key (l : link) : string :=
  str_or (str_or (lk_canonical l) (canonical_peer_name (PStr (lk_peer l)))) (lk_peer l).
Definition stronger (l current : link) : bool :=
  match lk_rssi l, lk_rssi current with
  | _, None => true
  | Some a, Some b => b <? a
  | None, Some _ => false
  end.
Definition choose_best_links (links : list link) : list (string * link) :=
  foldl (λ best l,
    if negb (usable_link l) then best
    else match alookup (link_key l) best with
         | Some current => if stronger l current then ainsert (link_key l) l best else best
         | None => ainsert (link_key l) l best
         end) [] links.

(** ** Access points of the links *)

(** models/ap_identity_index.py: a match, in the fields the code reads. *)
Record ApIdentityMatch := IdentityMatch {
  am_status : string; am_revision : Z; am_query_display : string; am_entity : string; am_name : string; am_mac : string;
  am_station : string; am_section : string; am_location : string; am_mileage : string; am_belong_type : string;
  am_alias_type : string; am_source : string; am_rule : string; am_confidence : Z; am_radio : option Z;
  am_candidates : nat; am_reason : string;
}.
Definition am_matched (m : ApIdentityMatch) : bool := String.eqb (am_status m) "matched".
Definition no_match (status reason : string) (revision : Z) : ApIdentityMatch :=
  IdentityMatch status revision "" "" "" "" "" "" "" "" "unknown" "" "" "" 0 None 0 reason.

Record MatchedAp := Matched { ma_name : string; ma_station : string; ma_method : string; ma_score : Z; ma_mac : string; ma_source : string }.

Record identity_counts := Counts {
  ic_status : string; ic_requested : Z; ic_distinct : Z; ic_matched : Z; ic_unresolved : Z; ic_ambiguous : Z; ic_invalid : Z;
}.
Definition no_counts : identity_counts := Counts "not_checked" 0 0 0 0 0 0.

(** [VehicleMrIdentitySnapshot], or a mapping of access points. *)
Inductive identity_source :=
  | Snapshot (revision : Z) (counts : identity_counts) (matches : list (string * ApIdentityMatch))
  | Mapping (aps : list (string * MatchedAp)).

Definition opt_text (s : option string) : pyval := match s with Some t => PStr t | None => PNone end.
Definition mac_key_of (mac : option string) : option string := normalize_mac_key (opt_text mac).

Definition match_for (revision : Z) (matches : list (string * ApIdentityMatch)) (local_mac : option string) : ApIdentityMatch :=
  match mac_key_of local_mac with
  | None => no_match "invalid" "invalid_peer_mac" revision
  | Some key => default (no_match "unresolved" "exact_alias_not_found" revision) (alookup key matches)
  end.

Definition match_ap (ap_name : string) (source : identity_source) (local_mac : option string) : option MatchedAp :=
  match source with
  | Snapshot revision _ matches =>
      let m := match_for revision matches local_mac in
      if negb (am_matched m) then None
      else Some (Matched (str_or (am_name m) ap_name) (str_or (am_station m) UNKNOWN_STATION) (str_or (am_rule m) (am_alias_type m))
                   (am_confidence m) (am_mac m) (am_source m))
  | Mapping aps =>
      key ← mac_key_of local_mac;
      first_of (alookup ("mac:" +:+ key) aps) (λ _, alookup key aps)
  end.

(** ** Trains *)
Record end_state := EndState {
  es_seen : bool; es_station : string; es_ap : string; es_rssi : option Z; es_last_seen : string; es_method : string; es_score : Z;
}.
Definition unseen (last_seen : string) : end_state := EndState false "" "" None last_seen "unmatched" 0.

Record train_state := TrainState {
  ts_id : string; ts_no : string; ts_registered : bool; ts_status : string; ts_station : string; ts_ac_time : string;
  ts_last_seen : string; ts_tc1 : end_state; ts_tc2 : end_state; ts_policy : string; ts_expected : string;
  ts_direction : string; ts_reason : string;
}.
(** [VehicleMrTrainState(id, no, registered, online_policy=policy)]. *)
Definition fresh_train (id no : string) (registered : bool) (policy : string) : train_state :=
  TrainState id no registered TRAIN_STATUS_OFFLINE "-" "" "" (unseen "") (unseen "") policy "" "未知" "".

Definition display_name (t : train_state) : string := if str_nonempty (ts_no t) then ts_no t +:+ "车" else ts_id t.
Definition with_registered (b : bool) (t : train_state) : train_state :=
  TrainState (ts_id t) (ts_no t) b (ts_status t) (ts_station t) (ts_ac_time t) (ts_last_seen t) (ts_tc1 t) (ts_tc2 t) (ts_policy t)
    (ts_expected t) (ts_direction t) (ts_reason t).
Definition with_policy (p : string) (t : train_state) : train_state :=
  TrainState (ts_id t) (ts_no t) (ts_registered t) (ts_status t) (ts_station t) (ts_ac_time t) (ts_last_seen t) (ts_tc1 t) (ts_tc2 t) p
    (ts_expected t) (ts_direction t) (ts_reason t).
Definition with_ends (tc1 tc2 : end_state) (t : train_state) : train_state :=
  TrainState (ts_id t) (ts_no t) (ts_registered t) (ts_status t) (ts_station t) (ts_ac_time t) (ts_last_seen t) tc1 tc2 (ts_policy t)
    (ts_expected t) (ts_direction t) (ts_reason t).
Definition end_of (car_end : string) (t : train_state) : end_state := if String.eqb car_end "CT" then ts_tc1 t else ts_tc2 t.
Definition set_end (car_end : string) (e : end_state) (t : train_state) : train_state :=
  if String.eqb car_end "CT" then with_ends e (ts_tc2 t) t else with_ends (ts_tc1 t) e t.

Definition EMPTY_STATION_VALUES : list string := [""; "-"; "—"; "未知"; "unknown"; "none"; "null"].
Definition is_empty_station (station : string) : bool := str_mem (casefold (strip station)) EMPTY_STATION_VALUES.

(** *** The online policy *)
Definition judge (status reason expected : string) (t : train_state) : train_state :=
  TrainState (ts_id t) (ts_no t) (ts_registered t) status (ts_station t) (ts_ac_time t) (ts_last_seen t) (ts_tc1 t) (ts_tc2 t)
    (ts_policy t) expected (ts_direction t) reason.
Definition cleared (t : train_state) : train_state :=
  TrainState (ts_id t) (ts_no t) (ts_registered t) (ts_status t) (ts_station t) (ts_ac_time t) (ts_last_seen t) (ts_tc1 t) (ts_tc2 t)
    (normalize_online_policy (PStr (ts_policy t))) "" (str_or (ts_direction t) "未知") (ts_reason t).

Definition apply_online_policy (t : train_state) : train_state :=
  let t := cleared t in
  let seen1 := es_seen (ts_tc1 t) in
  let seen2 := es_seen (ts_tc2 t) in
  if negb seen1 && negb seen2 then judge TRAIN_STATUS_OFFLINE "both_offline" (ts_expected t) t
  else if String.eqb (ts_policy t) ONLINE_POLICY_DUAL_ACTIVE then
    if seen1 && seen2 then judge TRAIN_STATUS_ONLINE "dual_active_ok" (ts_expected t) t
    else judge TRAIN_STATUS_ABNORMAL_SINGLE (if seen1 then "tc2_missing" else "tc1_missing") (ts_expected t) t
  else if String.eqb (ts_policy t) ONLINE_POLICY_SINGLE_TC1 then
    if seen1 && seen2 then judge TRAIN_STATUS_DUAL_ONLINE "both_ends_online" "TC1" t
    else if seen1 then judge TRAIN_STATUS_ONLINE "expected_tc1_online" "TC1" t
    else judge TRAIN_STATUS_UNEXPECTED_END "unexpected_tc2_online" "TC1" t
  else if String.eqb (ts_policy t) ONLINE_POLICY_SINGLE_TC2 then
    if seen1 && seen2 then judge TRAIN_STATUS_DUAL_ONLINE "both_ends_online" "TC2" t
    else if seen2 then judge TRAIN_STATUS_ONLINE "expected_tc2_online" "TC2" t
    else judge TRAIN_STATUS_UNEXPECTED_END "unexpected_tc1_online" "TC2" t
  else if String.eqb (ts_policy t) ONLINE_POLICY_SINGLE_TAIL then
    if seen1 && seen2 then judge TRAIN_STATUS_DUAL_ONLINE "both_ends_online" (ts_expected t) t
    else if str_mem (ts_direction t) ["上行"; "下行"] && str_mem (ts_expected t) ["TC1"; "TC2"] then
      if (String.eqb (ts_expected t) "TC1" && seen1) || (String.eqb (ts_expected t) "TC2" && seen2)
      then judge TRAIN_STATUS_ONLINE "expected_tail_online" (ts_expected t) t
      else judge TRAIN_STATUS_UNEXPECTED_END "unexpected_end_online" (ts_expected t) t
    else judge TRAIN_STATUS_ONLINE "direction_unknown_any_end_online" (ts_expected t) t
  else judge TRAIN_STATUS_ONLINE "policy_unknown_any_end_online" (ts_expected t) t.

(** *** From links to trains *)
Definition find_previous (previous : list (string * train_state)) (id no : string) : option train_state :=
  first_of (alookup id previous) (λ _, List.find (λ t, String.eqb (ts_no t) no) previous.*2).

(** A link at an end: where its access point has no station, the station known
    before of the same access point. *)
Definition link_station (matched : option MatchedAp) (l : link) (previous_end : option end_state) : string :=
  let station := strip (match matched with Some m => ma_station m | None => UNKNOWN_STATION end) in
  let ap := strip (match matched with Some m => ma_name m | None => lk_ap l end) in
  match matched, previous_end with
  | Some _, Some e =>
      let previous_station := strip (es_station e) in
      let previous_ap := strip (es_ap e) in
      if (is_empty_station station || String.eqb (casefold station) (casefold UNKNOWN_STATION)) && es_seen e
         && str_nonempty previous_station && negb (String.eqb (casefold previous_station) (casefold UNKNOWN_STATION))
         && negb (is_empty_station previous_station) && str_nonempty ap && str_nonempty previous_ap
         && String.eqb (casefold ap) (casefold previous_ap)
      then previous_station else station
  | _, _ => station
  end.
Definition link_end (time : string) (matched : option MatchedAp) (l : link) (previous_end : option end_state) : end_state :=
  EndState true (link_station matched l previous_end) (match matched with Some m => ma_name m | None => lk_ap l end) (lk_rssi l) time
    (match matched with Some m => ma_method m | None => "unmatched" end) (match matched with Some m => ma_score m | None => 0 end).

Section states.
Context (registered : list (string * train_state)) (source : identity_source) (previous : list (string * train_state))
  (mapping_lookup : list (string * TrainIdentity)).

Definition registered_by_no : list (string * string) :=
  foldl (λ d it, if str_nonempty (ts_no it.2) then ainsert (ts_no it.2) it.1 d else d) [] registered.
Definition initial_states : list (string * train_state) :=
  (λ it : string * train_state, (it.1,
     TrainState (ts_id it.2) (ts_no it.2) (ts_registered it.2) TRAIN_STATUS_OFFLINE "-" "" "" (unseen "") (unseen "")
       (normalize_online_policy (PStr (ts_policy it.2))) (ts_expected it.2) (str_or (ts_direction it.2) "未知") (ts_reason it.2)))
  <$> registered.

Definition link_identity (peer_name : string) (l : link) : option TrainIdentity :=
  first_of (alookup (lk_peer l) mapping_lookup)
    (λ _, first_of (alookup peer_name mapping_lookup) (λ _, parse_train_identity (PStr peer_name))).
Definition link_train (i : TrainIdentity) : string := default (ti_train i) (alookup (ti_no i) registered_by_no).

Definition place_link (time : string) (states : list (string * train_state)) (pl : string * link) : list (string * train_state) :=
  match link_identity pl.1 pl.2 with
  | None => states
  | Some i =>
      let id := link_train i in
      let is_registered := bool_decide (is_Some (alookup (ti_no i) registered_by_no)) in
      let t := default (fresh_train id (ti_no i) is_registered (normalize_online_policy (PStr (ti_policy i)))) (alookup id states) in
      let t := if is_registered then with_registered true t else t in
      let t := if String.eqb (ts_policy t) ONLINE_POLICY_AUTO && negb (String.eqb (ti_policy i) ONLINE_POLICY_AUTO)
               then with_policy (normalize_online_policy (PStr (ti_policy i))) t else t in
      let before := end_of (ti_end i) <$> find_previous previous id (ti_no i) in
      let matched := match_ap (lk_ap pl.2) source (lk_local_mac pl.2) in
      ainsert id (set_end (ti_end i) (link_end time matched pl.2 before) t) states
  end.

(** The station of a train, from its ends. *)
Definition known_stations (t : train_state) : list string :=
  List.filter (λ s, str_nonempty s && negb (String.eqb s UNKNOWN_STATION)) (es_station <$> List.filter es_seen [ts_tc1 t; ts_tc2 t]).
Definition current_station_of (t : train_state) : string :=
  match unique_texts (known_stations t) with
  | [] => if es_seen (ts_tc1 t) || es_seen (ts_tc2 t) then UNKNOWN_STATION else "-"
  | [s] => s
  | l => join " / " l
  end.
Definition carry_end (e : end_state) (before : option end_state) : end_state :=
  match before with Some b => if es_seen e then e else unseen (es_last_seen b) | None => e end.

Definition settle_train (time : string) (id : string) (t : train_state) : train_state :=
  let before := find_previous previous id (ts_no t) in
  let t := apply_online_policy t in
  let seen := es_seen (ts_tc1 t) || es_seen (ts_tc2 t) in
  TrainState (ts_id t) (ts_no t) (ts_registered t) (ts_status t) (current_station_of t)
    (str_or time (match before with Some b => ts_ac_time b | None => "" end))
    (if seen then time else match before with Some b => ts_last_seen b | None => "" end)
    (carry_end (ts_tc1 t) (ts_tc1 <$> before)) (carry_end (ts_tc2 t) (ts_tc2 <$> before))
    (ts_policy t) (ts_expected t) (ts_direction t) (ts_reason t).

Definition placed_states (p : parsed) : list (string * train_state) :=
  foldl (place_link (pa_time p)) initial_states (choose_best_links (pa_links p)).
Definition train_key (t : train_state) : sort_key := train_natural_sort_key [ts_no t; ts_id t].
Definition build_train_states (p : parsed) : list train_state :=
  sort_by (on train_key sort_key_leb) ((λ it, settle_train (pa_time p) it.1 it.2) <$> placed_states p).
End states.

(** ** The store *)
Record current_row := CurrentRow {
  cr_session : string; cr_train : string; cr_no : string; cr_registered : Z; cr_status : string; cr_station : string;
  cr_ac_time : string; cr_display : string; cr_last_seen : string;
  cr_tc1_seen : Z; cr_tc1_station : string; cr_tc1_ap : string; cr_tc1_rssi : option Z; cr_tc1_last_seen : string;
  cr_tc2_seen : Z; cr_tc2_station : string; cr_tc2_ap : string; cr_tc2_rssi : option Z; cr_tc2_last_seen : string;
  cr_policy : string; cr_expected : string; cr_direction : string; cr_reason : string; cr_updated : string;
}.
Record pass_event := PassEvent {
  pe_session : string; pe_train : string; pe_display : string; pe_no : string; pe_end : string; pe_label : string; pe_time : string;
  pe_type : string; pe_status : string; pe_station : string; pe_ap : string; pe_rssi : option Z; pe_policy : string;
  pe_expected : string; pe_direction : string; pe_reason : string; pe_created : string;
}.
Record snapshot_row := SnapshotRow {
  sr_session : string; sr_index : Z; sr_ac_time : string; sr_local : string; sr_duration : Z; sr_links : Z; sr_status : string;
  sr_error : string; sr_revision : Z; sr_counts : identity_counts;
}.
Record link_row := LinkRow {
  lr_session : string; lr_snapshot : Z; lr_ac_time : string; lr_link : link; lr_train : string; lr_display : string; lr_no : string;
  lr_end : string; lr_label : string; lr_matched : MatchedAp; lr_identity : ApIdentityMatch; lr_created : string;
}.
(** A session: its status, the last time of the controller, the last error, the end. *)
Record session_row := SessionRow { se_status : string; se_ac_time : string; se_error : string; se_stopped : string }.
Record store := Store {
  st_sessions : list (string * session_row); st_snapshots : list snapshot_row; st_links : list link_row;
  st_current : list (string * current_row); st_events : list pass_event;
}.
Definition empty_store : store := Store [] [] [] [] [].

Definition flag_column (b : bool) : Z := if b then 1 else 0.

(** [_state_values] and [_state_from_row]: the table keeps no match of an end. *)
Definition state_values (session : string) (t : train_state) (now : string) : current_row :=
  CurrentRow session (ts_id t) (ts_no t) (flag_column (ts_registered t)) (ts_status t) (ts_station t) (ts_ac_time t)
    (display_name t) (ts_last_seen t)
    (flag_column (es_seen (ts_tc1 t))) (es_station (ts_tc1 t)) (es_ap (ts_tc1 t)) (es_rssi (ts_tc1 t)) (es_last_seen (ts_tc1 t))
    (flag_column (es_seen (ts_tc2 t))) (es_station (ts_tc2 t)) (es_ap (ts_tc2 t)) (es_rssi (ts_tc2 t)) (es_last_seen (ts_tc2 t))
    (normalize_online_policy (PStr (ts_policy t))) (ts_expected t) (ts_direction t) (ts_reason t) now.
Definition state_from_row (r : current_row) : train_state :=
  TrainState (cr_train r) (cr_no r) (negb (cr_registered r =? 0)) (str_or (cr_status r) TRAIN_STATUS_OFFLINE)
    (str_or (cr_station r) "-") (cr_ac_time r) (cr_last_seen r)
    (EndState (negb (cr_tc1_seen r =? 0)) (cr_tc1_station r) (cr_tc1_ap r) (cr_tc1_rssi r) (cr_tc1_last_seen r) "unmatched" 0)
    (EndState (negb (cr_tc2_seen r =? 0)) (cr_tc2_station r) (cr_tc2_ap r) (cr_tc2_rssi r) (cr_tc2_last_seen r) "unmatched" 0)
    (normalize_online_policy (PStr (cr_policy r))) (cr_expected r) (str_or (cr_direction r) "未知") (cr_reason r).
Definition load_current_states (s : store) : list (string * train_state) :=
  (λ kr : string * current_row, (kr.1, state_from_row kr.2)) <$> st_current s.
Definition list_current_states (s : store) : list train_state := sort_by (on train_key sort_key_leb) (load_current_states s).*2.

(** [_event_type]: the empty text is no event. *)
Definition event_type (old : option end_state) (new : end_state) : string :=
  match old with
  | None => if es_seen new then "online" else ""
  | Some o =>
      if negb (Bool.eqb (es_seen o) (es_seen new)) then (if es_seen new then "online" else "offline")
      else if es_seen new && negb (String.eqb (es_station o) (es_station new)) then "station_changed"
      else if es_seen new && negb (String.eqb (es_ap o) (es_ap new)) then "ap_changed"
      else ""
  end.
Definition end_event (session : string) (t : train_state) (now car_end : string) (old : option end_state) : list pass_event :=
  let new := end_of car_end t in
  let type := event_type old new in
  if negb (str_nonempty type) then []
  else [PassEvent session (ts_id t) (display_name t) (ts_no t) car_end (end_label car_end) (str_or (ts_ac_time t) now) type (ts_status t)
          (if es_seen new then es_station new else "-") (if es_seen new then es_ap new else "-") (es_rssi new)
          (normalize_online_policy (PStr (ts_policy t))) (ts_expected t) (ts_direction t) (ts_reason t) now].
(** [_append_events]. *)
Definition train_events (session : string) (old : option train_state) (t : train_state) (now : string) : list pass_event :=
  end_event session t now "CT" (end_of "CT" <$> old) ++ end_event session t now "CW" (end_of "CW" <$> old).

(** [_link_values]. *)
Definition link_values (session : string) (snapshot : Z) (ac_time : string) (source : identity_source) (now : string) (l : link) : link_row :=
  let identity := parse_train_identity (PStr (lk_peer l)) in
  let field (f : TrainIdentity → string) := match identity with Some i => f i | None => "" end in
  LinkRow session snapshot ac_time l (field ti_train) (field (λ i, ti_no i +:+ "车")) (field ti_no) (field ti_end) (field ti_label)
    (default (Matched (lk_ap l) UNKNOWN_STATION "unmatched" 0 "" "") (match_ap (lk_ap l) source (lk_local_mac l)))
    (match source with
     | Snapshot revision _ matches => match_for revision matches (lk_local_mac l)
     | Mapping _ =>
         match mac_key_of (lk_local_mac l) with
         | None => no_match "invalid" "invalid_peer_mac" 0
         | Some key => no_match "unresolved" "exact_alias_not_found" 0
         end
     end) now.

Definition persist_train (session now : string) (before : list (string * train_state)) (s : store) (t : train_state) : store :=
  Store (st_sessions s) (st_snapshots s) (st_links s) (ainsert (ts_id t) (state_values session t now) (st_current s))
    (st_events s ++ train_events session (alookup (ts_id t) before) t now).

Definition persist_snapshot (session : string) (index : Z) (p : parsed) (trains : list train_state) (source : identity_source)
    (duration : Z) (now : string) (s : store) : store :=
  let before := load_current_states s in
  let '(revision, counts) := match source with Snapshot r c _ => (r, c) | Mapping _ => (0, no_counts) end in
  let row := SnapshotRow session index (pa_time p) now duration (Z.of_nat (length (pa_links p))) (pa_status p) (pa_error p) revision counts in
  let snapshot := Z.of_nat (length (st_snapshots s)) + 1 in
  foldl (persist_train session now before)
    (Store (st_sessions s) (st_snapshots s ++ [row]) (st_links s ++ (link_values session snapshot (pa_time p) source now <$> pa_links p))
       (st_current s) (st_events s)) trains.

Definition update_session (session status ac_time error : string) (stopped : bool) (now : string) (s : store) : store :=
  Store ((λ kr : string * session_row, if String.eqb kr.1 session
            then (kr.1, SessionRow status (str_or ac_time (se_ac_time kr.2)) error (if stopped then now else se_stopped kr.2)) else kr)
         <$> st_sessions s) (st_snapshots s) (st_links s) (st_current s) (st_events s).

(** ** The collector *)
Record collector := Collector { co_store : store; co_index : Z; co_current : list (string * train_state) }.
Record online_snapshot := OnlineSnapshot { os_status : string; os_time : string; os_trains : list train_state; os_error : string }.

Section collector.
(** The trains and mappings of the site, the session; the access points of the
    links by the identity index. *)
Context (registered : list (string * train_state)) (mapping_lookup : list (string * TrainIdentity)) (session : string)
  (resolve : list link → identity_source).

(** What a round meets: the answer of the controller or the message of the error,
    its duration, the local time, the message of [strptime]. *)
Record round := Round {
  rd_answer : string + string; rd_duration : Z; rd_now : string; rd_now_date : string; rd_clock_error : string → string;
}.

Definition run_once (r : round) (c : collector) : online_snapshot * collector :=
  let index := co_index c + 1 in
  let failed status time error :=
    (OnlineSnapshot status time (co_current c).*2 error,
     Collector (update_session session status time error false (rd_now r) (co_store c)) index (co_current c)) in
  match rd_answer r with
  | inr message => failed "连接失败" "" message
  | inl raw_text =>
      let p := parse_mesh_links (rd_now r) (rd_now_date r) (rd_clock_error r) raw_text in
      if String.eqb (pa_status p) "FAILED" then failed "解析失败/格式未适配" (pa_time p) (pa_error p)
      else
        let source := resolve (pa_links p) in
        let trains := build_train_states registered source (co_current c) mapping_lookup p in
        let s := persist_snapshot session index p trains source (rd_duration r) (rd_now r) (co_store c) in
        (OnlineSnapshot "采集中" (pa_time p) trains "",
         Collector (update_session session "采集中" (pa_time p) "" false (rd_now r) s) index (index_by ts_id trains))
  end.
Definition run_all (rounds : list round) (c : collector) : collector := foldl (λ c r, (run_once r c).2) c rounds.
(** A collector on a store. *)
Definition new_collector (s : store) : collector := Collector s 0 (load_current_states s).
End collector.

(** *** Trains stored under two identifiers *)
Definition merge_train_state (official duplicate : train_state) : train_state :=
  let pick e o := if es_seen e || str_nonempty (es_last_seen e) then e else o in
  TrainState (ts_id official) (ts_no official) true (ts_status duplicate) (ts_station duplicate) (ts_ac_time duplicate)
    (ts_last_seen duplicate) (pick (ts_tc1 duplicate) (ts_tc1 official)) (pick (ts_tc2 duplicate) (ts_tc2 official))
    (normalize_online_policy (PStr (str_or (ts_policy official) (ts_policy duplicate)))) (ts_expected duplicate)
    (ts_direction duplicate) (ts_reason duplicate).
(** The statement keeps the session, the number and the registration of a stored row. *)
Definition merge_row (old : option current_row) (new : current_row) : current_row :=
  match old with
  | None => new
  | Some o =>
      CurrentRow (cr_session o) (cr_train o) (cr_no o) (cr_registered o) (cr_status new) (cr_station new) (cr_ac_time new)
        (cr_display new) (cr_last_seen new) (cr_tc1_seen new) (cr_tc1_station new) (cr_tc1_ap new) (cr_tc1_rssi new)
        (cr_tc1_last_seen new) (cr_tc2_seen new) (cr_tc2_station new) (cr_tc2_ap new) (cr_tc2_rssi new) (cr_tc2_last_seen new)
        (cr_policy new) (cr_expected new) (cr_direction new) (cr_reason new) (cr_updated new)
  end.
Definition move_event (id display from : string) (e : pass_event) : pass_event :=
  if String.eqb (pe_train e) from
  then PassEvent (pe_session e) id display (pe_no e) (pe_end e) (pe_label e) (pe_time e) (pe_type e) (pe_status e) (pe_station e)
         (pe_ap e) (pe_rssi e) (pe_policy e) (pe_expected e) (pe_direction e) (pe_reason e) (pe_created e)
  else e.
(** [merge_duplicate_current_states_by_train_no]: the trains of the table that are
    stored under another identifier than their registered one, with that one. *)
Definition duplicates (registered : list (string * train_state)) (s : store) : list (train_state * train_state) :=
  let by_no := foldl (λ d (it : string * train_state), if str_nonempty (ts_no it.2) then ainsert (ts_no it.2) it.2 d else d) [] registered in
  omap (λ it : string * train_state,
    match alookup (ts_no it.2) by_no with
    | Some o => if String.eqb (ts_id it.2) (ts_id o) || ts_registered it.2 then None else Some (o, it.2)
    | None => None
    end) (load_current_states s).
Definition merge_duplicates (registered : list (string * train_state)) (now : string) (s : store) : store :=
  let pairs := duplicates registered s in
  let merged := foldl (λ rows od,
    ainsert (ts_id od.1) (merge_row (alookup (ts_id od.1) rows) (state_values "" (merge_train_state od.1 od.2) now)) rows)
    (st_current s) pairs in
  let name od := match alookup (ts_id (od : train_state * train_state).1) registered with Some t => display_name t | None => "" end in
  let events := foldl (λ l od, move_event (ts_id od.1) (name od) (ts_id od.2) <$> l) (st_events s) pairs in
  Store (st_sessions s) (st_snapshots s) (st_links s) (foldl (λ rows od, adelete (ts_id od.2) rows) merged pairs) events.

(** [VehicleMrOnlineSnapshot.stats]: on line, abnormal, off line, unregistered. *)
Definition stats (trains : list train_state) : Z * Z * Z * Z :=
  let count f := Z.of_nat (length (List.filter f trains)) in
  (count (λ t, str_mem (ts_status t) [TRAIN_STATUS_ONLINE; TRAIN_STATUS_DUAL_ONLINE]),
   count (λ t, str_mem (ts_status t) [TRAIN_STATUS_ABNORMAL_SINGLE; TRAIN_STATUS_UNEXPECTED_END; TRAIN_STATUS_PARTIAL]),
   count (λ t, String.eqb (ts_status t) TRAIN_STATUS_OFFLINE), count (λ t, negb (ts_registered t))).

(** ** Registered trains *)

(** [canonical_device_group_name] of repositories/device_group_repository.py. *)
Definition canonical_device_group_name (name : string) : string :=
  let text := strip name in
  let compact := casefold (re_sub (plus (λ c, s_class c || any_of ["-"; "_"; "‐"; "‑"; "‒"; "–"; "—"; "―"] c)) "" text) in
  if String.eqb compact "cocc" then "COCC"
  else if String.eqb compact "bocc" then "BOCC"
  else if String.eqb text "车站" then "车站"
  else if String.eqb compact "车载mr" then "车载-MR"
  else if str_mem compact ["车载sw"; "车载3sw"; "车载交换机"] then "车载-SW"
  else text.
Definition is_vehicle_mr_device (group_name : string) (allow_legacy_group : bool) : bool :=
  let normalized := canonical_device_group_name group_name in
  String.eqb normalized "车载-MR" || (allow_legacy_group && String.eqb normalized "车载").

Record device := Device { dv_group : Z; dv_type : string; dv_name : string; dv_station : string }.
Definition build_registered_trains (devices : list device) (group_names : list (Z * string)) : list (string * train_state) :=
  let has_vehicle_mr_group := existsb (λ gn, String.eqb (canonical_device_group_name gn.2) "车载-MR") group_names in
  foldl (λ d v,
    if negb (is_vehicle_mr_device (default "" (alookup (dv_group v) group_names)) (negb has_vehicle_mr_group)) then d
    else match parse_train_identity_from_device (dv_name v) (dv_station v) with
         | None => d
         | Some i =>
             if negb (str_nonempty (dv_type v)) then d
             else match alookup (ti_train i) d with
                  | Some _ => d
                  | None => ainsert (ti_train i) (fresh_train (ti_train i) (ti_no i) true ONLINE_POLICY_AUTO) d
                  end
         end) [] devices.

(** ** Mappings of trains *)
Record mapping := MakeMapping {
  mp_enabled : bool; mp_display : string; mp_train : string; mp_no : string; mp_tc1 : string; mp_tc2 : string; mp_policy : string;
  mp_remark : string; mp_created : string; mp_updated : string;
}.
(** [display_name]. *)
Definition mapping_name (m : mapping) : string :=
  str_or (mp_display m) (if str_nonempty (mp_no m) then mp_no m +:+ "车" else mp_train m).
Definition mapping_no (m : mapping) : string := str_or (mp_no m) (normalize_train_no (PStr (mapping_name m))).
Definition build_mapping_trains (mappings : list mapping) : list (string * train_state) :=
  foldl (λ d m,
    if negb (mp_enabled m) || negb (str_nonempty (mapping_no m)) then d
    else let id := str_or (mp_train m) ("列车" +:+ mapping_no m) in
         ainsert id (fresh_train id (mapping_no m) true (normalize_online_policy (PStr (mp_policy m)))) d) [] mappings.
Definition mapping_peers (m : mapping) : list (string * string) :=
  List.filter (λ pe, str_nonempty pe.1) [(strip (mp_tc1 m), "CT"); (strip (mp_tc2 m), "CW")].
Definition build_mapping_lookup (mappings : list mapping) : list (string * TrainIdentity) :=
  foldl (λ d m,
    if negb (mp_enabled m) then d
    else foldl (λ d pe, ainsert pe.1
                   (make_identity pe.1 (str_or (mp_train m) ("列车" +:+ mapping_no m)) (mapping_no m) pe.2
                      (normalize_online_policy (PStr (mp_policy m))) "" "" "" "") d) d (mapping_peers m)) [] mappings.

(** [_validate_mappings]: no radio belongs to two enabled ends. *)
Fixpoint validate_peers (seen : list string) (peers : list (string * string)) : res (list string) :=
  match peers with
  | [] => Ok seen
  | (peer, _) :: rest => if str_mem peer seen then Err ValueError else validate_peers (peer :: seen) rest
  end.
Definition validate_mappings (mappings : list mapping) : res (list string) :=
  foldl (λ acc m, seen ← acc; if mp_enabled m then validate_peers seen (mapping_peers m) else Ok seen) (Ok []) mappings.

(** The rows that replace the table of mappings. *)
Definition save_mappings (now : string) (mappings : list mapping) : res (list mapping) :=
  _ ← validate_mappings mappings;
  Ok ((λ m, MakeMapping (mp_enabled m) (mapping_name m) (str_or (mp_train m) ("列车" +:+ mp_no m)) (mapping_no m)
              (strip (mp_tc1 m)) (strip (mp_tc2 m)) (normalize_online_policy (PStr (mp_policy m))) (strip (mp_remark m))
              (str_or (mp_created m) now) now)
      <$> List.filter (λ m, str_nonempty (mapping_name m) && (str_nonempty (strip (mp_tc1 m)) || str_nonempty (strip (mp_tc2 m)))) mappings).

(** One row of an import: [None] for an empty one. *)
Definition import_row (row : dict) : res (option mapping) :=
  let pick keys := foldr (λ k v, por (dget k row) v) (PStr "") keys in
  let text keys := strip (text_or_empty (pick keys)) in
  let display := text ["车次"; "train"; "train_display_name"] in
  let tc1 := text ["TC1"; "tc1"] in
  let tc2 := text ["TC2"; "tc2"] in
  let remark := text ["备注"; "remark"] in
  if negb (str_nonempty display) && negb (str_nonempty tc1) && negb (str_nonempty tc2) && negb (str_nonempty remark) then Ok None
  else if negb (str_nonempty display) then Err ValueError
  else if negb (str_nonempty tc1) && negb (str_nonempty tc2) then Err ValueError
  else
    let no := normalize_train_no (PStr display) in
    Ok (Some (MakeMapping true (if str_nonempty no then no +:+ "车" else display)
                (if str_nonempty no then "列车" +:+ no else display) no tc1 tc2
                (normalize_online_policy (pick ["在线策略"; "online_policy"; "policy"])) remark "" "")).
Definition import_mapping_rows (now : string) (rows : list dict) : res (Z * list mapping) :=
  mappings ← mapM import_row rows;
  let mappings := omap (M:=list) id mappings in
  saved ← save_mappings now mappings;
  Ok (Z.of_nat (length mappings), saved).

(** ** The best links *)
Definition rssi_of (l : link) : Z := default 0 (lk_rssi l).
Definition strongest (links : list link) (k : string) (l : link) : Prop :=
  l ∈ links ∧ usable_link l = true ∧ link_key l = k ∧
  ∀ l', l' ∈ links → usable_link l' = true → link_key l' = k → rssi_of l' ≤ rssi_of l.

Lemma usable_rssi l : usable_link l = true → lk_rssi l = Some (rssi_of l).
Proof. unfold usable_link, rssi_of. intros [_ H]%andb_true_iff. apply bool_decide_eq_true in H as [z ->]. done. Qed.
Lemma stronger_spec l c : usable_link l = true → usable_link c = true → stronger l c = (rssi_of c <? rssi_of l).
Proof. intros Hl%usable_rssi Hc%usable_rssi. unfold stronger. by rewrite Hl, Hc. Qed.

(** Each radio with a usable link has exactly one best link, a strongest one. *)
Lemma best_links_strongest links :
  NoDup (choose_best_links links).*1 ∧
  (∀ k l, alookup k (choose_best_links links) = Some l → strongest links k l) ∧
  (∀ l, l ∈ links → usable_link l = true → is_Some (alookup (link_key l) (choose_best_links links))).
Proof.
  induction links as [|x links (IH1 & IH2 & IH3)] using rev_ind; [split_and!; [constructor|done|by intros l ?%not_elem_of_nil]|].
  unfold choose_best_links in *. rewrite foldl_snoc. set (best := foldl _ [] links) in *. clearbody best.
  assert (Hin : ∀ l, l ∈ links ++ [x] ↔ l ∈ links ∨ l = x) by (intros l; rewrite elem_of_app, list_elem_of_singleton; done).
  assert (Hkeep : ∀ k l, strongest links k l → (usable_link x = true → link_key x = k → rssi_of x ≤ rssi_of l) → strongest (links ++ [x]) k l).
  { intros k l (H1 & H2 & H3 & H4) Hx. split_and!; [apply Hin; by left|done|done|]. intros l' [Hl'| ->]%Hin Hu Hk; eauto. }
  destruct (usable_link x) eqn:Ex; simpl.
  2: { split_and!; [done| |]. { intros k l H%IH2. apply Hkeep; done. } intros l [H| ->]%Hin Hu; [by apply IH3|congruence]. }
  assert (Hput : (∀ l', l' ∈ links → usable_link l' = true → link_key l' = link_key x → rssi_of l' ≤ rssi_of x) →
    NoDup (ainsert (link_key x) x best).*1 ∧ (∀ k l, alookup k (ainsert (link_key x) x best) = Some l → strongest (links ++ [x]) k l) ∧
    (∀ l, l ∈ links ++ [x] → usable_link l = true → is_Some (alookup (link_key l) (ainsert (link_key x) x best)))).
  { intros Hmax. split_and!; [by apply ainsert_NoDup| |].
    - intros k l. destruct (decide (k = link_key x)) as [->|Hne].
      + rewrite alookup_ainsert_eq. intros [= <-]. split_and!; [apply Hin; by right|done|done|].
        intros l' [Hl'| ->]%Hin Hu Hk; [eauto|lia].
      + rewrite alookup_ainsert_ne by done. intros H%IH2. apply Hkeep; [done|]. congruence.
    - intros l Hl Hu. destruct (decide (link_key l = link_key x)) as [->|Hne]; [rewrite alookup_ainsert_eq; eauto|].
      rewrite alookup_ainsert_ne by done. apply Hin in Hl as [Hl| ->]; [eauto|done]. }
  destruct (alookup (link_key x) best) as [c|] eqn:Ec.
  - destruct (IH2 _ _ Ec) as (H1 & H2 & H3 & H4). rewrite stronger_spec by done. destruct (Z.ltb_spec (rssi_of c) (rssi_of x)) as [Hlt|Hge].
    + apply Hput. intros l' Hl' Hu Hk. specialize (H4 l' Hl' Hu Hk). lia.
    + split_and!; [done| |].
      * intros k l H. apply Hkeep; [eauto|]. intros _ <-. assert (l = c) as -> by congruence. done.
      * intros l [Hl| ->]%Hin Hu; [eauto|]. eauto.
  - apply Hput. intros l' Hl' Hu Hk. destruct (IH3 l' Hl' Hu) as [? H]. rewrite Hk in H. congruence.
Qed.

(** ** The ends of the trains *)
Definition keyed (d : list (string * train_state)) : Prop := NoDup d.*1 ∧ Forall (λ it, ts_id it.2 = it.1) d.

Lemma end_of_set_end ce ce' e t :
  end_of ce (set_end ce' e t) = if Bool.eqb (String.eqb ce "CT") (String.eqb ce' "CT") then e else end_of ce t.
Proof. unfold end_of, set_end. destruct (String.eqb ce "CT"), (String.eqb ce' "CT"); done. Qed.
Lemma set_end_id ce e t : ts_id (set_end ce e t) = ts_id t.
Proof. unfold set_end. by case_match. Qed.

Section ends.
Context (registered : list (string * train_state)) (source : identity_source) (previous : list (string * train_state))
  (mapping_lookup : list (string * TrainIdentity)).
Notation identity := (link_identity mapping_lookup).
Notation place := (place_link registered source previous mapping_lookup).

(** The state of the end [ce] of train [id] that a link gives, if it is a link of
    that end. *)
Definition placed_at (time id ce : string) (pl : string * link) : option end_state :=
  i ← identity pl.1 pl.2;
  if String.eqb (link_train registered i) id && Bool.eqb (String.eqb ce "CT") (String.eqb (ti_end i) "CT")
  then Some (link_end time (match_ap (lk_ap pl.2) source (lk_local_mac pl.2)) pl.2 (end_of (ti_end i) <$> find_previous previous id (ti_no i)))
  else None.
Definition end_in (id ce : string) (states : list (string * train_state)) : end_state :=
  match alookup id states with Some t => end_of ce t | None => unseen "" end.

Lemma placed_seen time id ce pl e : placed_at time id ce pl = Some e → es_seen e = true.
Proof. unfold placed_at. destruct (identity pl.1 pl.2); simpl; [|done]. case_match; [|done]. by intros [= <-]. Qed.

Lemma place_link_end time id ce states pl :
  end_in id ce (place time states pl) = default (end_in id ce states) (placed_at time id ce pl).
Proof.
  unfold place_link, placed_at. destruct (identity pl.1 pl.2) as [i|]; simpl; [|done].
  set (t := if (_ : bool) then with_policy _ _ else _).
  assert (Ht : end_of ce t = end_in (link_train registered i) ce states).
  { unfold t, end_in. destruct (alookup (link_train registered i) states); simpl; unfold end_of; repeat case_match; done. }
  clearbody t. destruct (String.eqb_spec (link_train registered i) id) as [<-|Hne]; simpl.
  - unfold end_in at 1. rewrite alookup_ainsert_eq, end_of_set_end, Ht. by destruct (Bool.eqb _ _).
  - unfold end_in. by rewrite alookup_ainsert_ne.
Qed.

Lemma place_link_keyed time states pl : keyed states → keyed (place time states pl).
Proof.
  intros [Hn Hf]. unfold place_link. destruct (identity pl.1 pl.2) as [i|]; [|done].
  split; [by apply ainsert_NoDup|]. apply ainsert_Forall; [|done]. simpl. rewrite set_end_id.
  assert (Hd : ∀ t, alookup (link_train registered i) states = Some t → ts_id t = link_train registered i).
  { intros t Ht%alookup_Some_in. rewrite Forall_forall in Hf. by apply (Hf _ Ht). }
  destruct (alookup (link_train registered i) states) as [t|]; simpl; repeat case_match; simpl; eauto.
Qed.
Lemma place_link_keys time states pl id : id ∈ states.*1 → id ∈ (place time states pl).*1.
Proof.
  intros H. unfold place_link. destruct (identity pl.1 pl.2) as [i|]; [|done].
  destruct (decide (link_train registered i ∈ states.*1)) as [Hin|Hn]; [by rewrite ainsert_fst_in|].
  rewrite ainsert_fst_notin by done. set_solver.
Qed.

(** After all links an end is as its last link says, or unseen. *)
Lemma placed_ends time id ce links states :
  let states' := foldl (place time) states links in
  (end_in id ce states' = end_in id ce states ∧ Forall (λ pl, placed_at time id ce pl = None) links) ∨
  (∃ pl, pl ∈ links ∧ placed_at time id ce pl = Some (end_in id ce states')).
Proof.
  revert states. induction links as [|pl links IH]; intros states; simpl; [left; done|].
  destruct (IH (place time states pl)) as [[He Hf]|(q & Hq & Hp)].
  - rewrite He, place_link_end. destruct (placed_at time id ce pl) as [e|] eqn:E.
    + right. exists pl. split; [by left|]. done.
    + left. split; [done|]. by constructor.
  - right. exists q. split; [by right|done].
Qed.

Lemma placed_keyed time links states : keyed states → keyed (foldl (place time) states links).
Proof. revert states. induction links as [|pl links IH]; intros states H; simpl; [done|]. by apply IH, place_link_keyed. Qed.
Lemma placed_keys time links states id : id ∈ states.*1 → id ∈ (foldl (place time) states links).*1.
Proof. revert states. induction links as [|pl links IH]; intros states H; simpl; [done|]. by apply IH, place_link_keys. Qed.

Lemma initial_keyed : keyed registered → keyed (initial_states registered).
Proof.
  intros [Hn Hf]. unfold initial_states, keyed. rewrite <- list_fmap_compose. split; [done|].
  apply Forall_fmap. eapply Forall_impl; [exact Hf|]. done.
Qed.
Lemma initial_end id ce : end_in id ce (initial_states registered) = unseen "".
Proof.
  unfold end_in. destruct (alookup id _) as [t|] eqn:E; [|done]. apply alookup_Some_in in E.
  apply list_elem_of_fmap in E as (it & [= -> ->] & _). unfold end_of. by case_match.
Qed.

Lemma policy_ends t : ts_tc1 (apply_online_policy t) = ts_tc1 t ∧ ts_tc2 (apply_online_policy t) = ts_tc2 t ∧ ts_id (apply_online_policy t) = ts_id t.
Proof. unfold apply_online_policy. repeat case_match; done. Qed.
Lemma settle_id time id t : ts_id (settle_train previous time id t) = ts_id t.
Proof. apply policy_ends. Qed.
Lemma carry_seen e b : es_seen (carry_end e b) = es_seen e ∧ (es_seen e = true → carry_end e b = e).
Proof. unfold carry_end. destruct b; [|done]. by destruct (es_seen e) eqn:E. Qed.
Lemma settle_end time id t ce :
  es_seen (end_of ce (settle_train previous time id t)) = es_seen (end_of ce t) ∧
  (es_seen (end_of ce t) = true → end_of ce (settle_train previous time id t) = end_of ce t).
Proof.
  destruct (policy_ends t) as (H1 & H2 & _). unfold settle_train, end_of. destruct (String.eqb ce "CT"); simpl.
  - rewrite H1. apply carry_seen.
  - rewrite H2. apply carry_seen.
Qed.

Notation build := (build_train_states registered source previous mapping_lookup).
Notation placed_p := (placed_states registered source previous mapping_lookup).

Lemma built_in p t : t ∈ build p ↔ ∃ it, it ∈ placed_p p ∧ t = settle_train previous (pa_time p) it.1 it.2.
Proof. unfold build_train_states. rewrite sort_by_in, list_elem_of_fmap. naive_solver. Qed.
Lemma placed_p_keyed p : keyed registered → keyed (placed_p p).
Proof. intros H. by apply placed_keyed, initial_keyed. Qed.
Lemma built_ids p : keyed registered → ts_id <$> build p ≡ₚ (placed_p p).*1.
Proof.
  intros H. destruct (placed_p_keyed p H) as [_ Hf]. unfold build_train_states. rewrite sort_by_perm, <- list_fmap_compose.
  apply Permutation_refl'. apply list_fmap_ext. intros i it Hit. unfold compose. rewrite settle_id.
  rewrite Forall_forall in Hf. apply Hf. by eapply list_elem_of_lookup_2.
Qed.
Lemma built_NoDup p : keyed registered → NoDup (ts_id <$> build p).
Proof. intros H. rewrite built_ids by done. by destruct (placed_p_keyed p H). Qed.
End ends.

(** ** Replaying the events *)
Definition view (e : end_state) : option (string * string) := if es_seen e then Some (es_station e, es_ap e) else None.
Definition replay_one (id ce : string) (acc : option (string * string)) (e : pass_event) : option (string * string) :=
  if String.eqb (pe_train e) id && String.eqb (pe_end e) ce then
    if String.eqb (pe_type e) "offline" then None else Some (pe_station e, pe_ap e)
  else acc.
(** Station and access point of an end by the events alone. *)
Definition replay (id ce : string) (events : list pass_event) : option (string * string) := foldl (replay_one id ce) None events.
Definition stored_view (id ce : string) (s : store) : option (string * string) :=
  r ← alookup id (st_current s); view (end_of ce (state_from_row r)).
Definition old_view (old : option end_state) : option (string * string) := e ← old; view e.

Lemma end_event_spec session t now ce old :
  match end_event session t now ce old with
  | [] => old_view old = view (end_of ce t)
  | [e] => pe_train e = ts_id t ∧ pe_end e = ce ∧ (∀ acc, replay_one (ts_id t) ce acc e = view (end_of ce t)) ∧ old_view old ≠ view (end_of ce t)
  | _ => False
  end.
Proof.
  unfold end_event, event_type, old_view, view, replay_one. set (new := end_of ce t). clearbody new.
  destruct old as [o|]; simpl.
  - destruct (es_seen o), (es_seen new); simpl; rewrite ?String.eqb_refl; [|by split_and!..|done].
    destruct (String.eqb_spec (es_station o) (es_station new)) as [E1|E1]; simpl;
      [|split_and!; [done|done|by rewrite !String.eqb_refl|congruence]].
    destruct (String.eqb_spec (es_ap o) (es_ap new)) as [E2|E2]; simpl; [congruence|].
    split_and!; [done|done|by rewrite !String.eqb_refl|congruence].
  - destruct (es_seen new); simpl; [|done]. rewrite !String.eqb_refl. by split_and!.
Qed.

(** The events are changes only: none repeats what its end shows already. *)
Definition all_changes (events : list pass_event) : Prop :=
  ∀ a e b, events = a ++ e :: b → replay (pe_train e) (pe_end e) (a ++ [e]) ≠ replay (pe_train e) (pe_end e) a.
Lemma all_changes_snoc l e :
  all_changes l → replay (pe_train e) (pe_end e) (l ++ [e]) ≠ replay (pe_train e) (pe_end e) l → all_changes (l ++ [e]).
Proof.
  intros Hl He a x b E. destruct (decide (b = [])) as [->|Hb].
  - apply app_inj_tail in E as [-> ->]. done.
  - destruct (exists_last Hb) as (b' & y & ->). apply (Hl a x b').
    rewrite app_comm_cons, app_assoc in E. by apply app_inj_tail in E as [-> _].
Qed.

Lemma replay_other id ce l session t now ce' old :
  id ≠ ts_id t ∨ ce ≠ ce' → replay id ce (l ++ end_event session t now ce' old) = replay id ce l.
Proof.
  intros H. pose proof (end_event_spec session t now ce' old) as Hs. unfold replay. rewrite foldl_app.
  destruct (end_event _ _ _ _ _) as [|e [|? ?]]; [done| |done]. simpl. destruct Hs as (H1 & H2 & _). unfold replay_one at 1.
  rewrite H1, H2. destruct H as [H|H].
  - apply not_eq_sym in H. apply String.eqb_neq in H. by rewrite H.
  - apply not_eq_sym in H. apply String.eqb_neq in H. by rewrite H, andb_false_r.
Qed.
Lemma replay_same l session t now ce old :
  all_changes l → replay (ts_id t) ce l = old_view old →
  replay (ts_id t) ce (l ++ end_event session t now ce old) = view (end_of ce t) ∧ all_changes (l ++ end_event session t now ce old).
Proof.
  intros Hc Hr. pose proof (end_event_spec session t now ce old) as Hs.
  destruct (end_event session t now ce old) as [|e [|? ?]]; [by rewrite app_nil_r, Hr| |done].
  destruct Hs as (H1 & H2 & H3 & H4).
  assert (E : replay (ts_id t) ce (l ++ [e]) = view (end_of ce t)) by (unfold replay; by rewrite foldl_app; simpl; rewrite H3).
  split; [done|]. apply all_changes_snoc; [done|]. rewrite H1, H2, E, Hr. congruence.
Qed.

(** The store shows what its events say. *)
Definition replayed (s : store) : Prop :=
  (∀ id ce, ce ∈ ["CT"; "CW"] → replay id ce (st_events s) = stored_view id ce s) ∧ all_changes (st_events s).

Lemma stored_end session t now ce : view (end_of ce (state_from_row (state_values session t now))) = view (end_of ce t).
Proof. unfold view, end_of, flag_column. destruct (String.eqb ce "CT"); simpl; by destruct (es_seen _). Qed.

Lemma persist_train_replayed session now before s t :
  replayed s → alookup (ts_id t) before = state_from_row <$> alookup (ts_id t) (st_current s) →
  replayed (persist_train session now before s t).
Proof.
  intros [Hr Hc] Hb. unfold replayed, persist_train, train_events; simpl.
  set (old := alookup (ts_id t) before) in *.
  assert (Hold : ∀ ce, ce ∈ ["CT"; "CW"] → replay (ts_id t) ce (st_events s) = old_view (end_of ce <$> old)).
  { intros ce Hce. rewrite Hr by done. unfold stored_view, old_view. rewrite Hb. by destruct (alookup (ts_id t) (st_current s)). }
  destruct (replay_same (st_events s) session t now "CT" (end_of "CT" <$> old) Hc) as [H1 Hc1]; [apply Hold; set_solver|].
  set (l1 := st_events s ++ end_event session t now "CT" (end_of "CT" <$> old)) in *. rewrite app_assoc. fold l1.
  assert (Ho : replay (ts_id t) "CW" l1 = old_view (end_of "CW" <$> old)).
  { unfold l1. rewrite replay_other by (by right). apply Hold. set_solver. }
  destruct (replay_same l1 session t now "CW" (end_of "CW" <$> old) Hc1 Ho) as [H2 Hc2].
  split; [|done]. intros id ce Hce. unfold stored_view; simpl.
  destruct (decide (id = ts_id t)) as [->|Hne].
  - rewrite alookup_ainsert_eq. cbn [mbind option_bind]. rewrite stored_end.
    apply elem_of_cons in Hce as [->|Hce]; [by rewrite replay_other by (by right)|].
    apply list_elem_of_singleton in Hce as ->. done.
  - rewrite alookup_ainsert_ne by done. rewrite replay_other by (by left). unfold l1. rewrite replay_other by (by left). by apply Hr.
Qed.

Lemma persist_trains_replayed session now before trains s :
  NoDup (ts_id <$> trains) → replayed s →
  (∀ t, t ∈ trains → alookup (ts_id t) before = state_from_row <$> alookup (ts_id t) (st_current s)) →
  replayed (foldl (persist_train session now before) s trains).
Proof.
  revert s. induction trains as [|t trains IH]; intros s Hn Hs Hb; simpl; [done|].
  rewrite fmap_cons in Hn. apply NoDup_cons in Hn as [Hni Hn]. apply IH; [done| |].
  - apply persist_train_replayed; [done|]. apply Hb. by left.
  - intros x Hx. simpl. rewrite alookup_ainsert_ne; [apply Hb; by right|].
    intros E. apply Hni. rewrite <- E. by apply list_elem_of_fmap_2.
Qed.

Lemma load_lookup s id : alookup id (load_current_states s) = state_from_row <$> alookup id (st_current s).
Proof.
  unfold load_current_states. induction (st_current s) as [|[k r] l IH]; simpl; [done|]. by destruct (decide (id = k)).
Qed.
Lemma persist_snapshot_replayed session index p trains source duration now s :
  NoDup (ts_id <$> trains) → replayed s → replayed (persist_snapshot session index p trains source duration now s).
Proof.
  intros Hn Hs. unfold persist_snapshot. case_match. apply persist_trains_replayed; [done|done|].
  intros t _. exact (load_lookup s (ts_id t)).
Qed.
Lemma update_session_replayed session status time error stopped now s :
  replayed s → replayed (update_session session status time error stopped now s).
Proof. done. Qed.

Section runs.
Context (registered : list (string * train_state)) (mapping_lookup : list (string * TrainIdentity)) (session : string)
  (resolve : list link → identity_source).
Notation run := (run_all registered mapping_lookup session resolve).

Lemma run_once_replayed r c :
  keyed registered → replayed (co_store c) → replayed (co_store (run_once registered mapping_lookup session resolve r c).2).
Proof.
  intros Hk Hs. unfold run_once. destruct (rd_answer r) as [raw|]; simpl; [|by apply update_session_replayed].
  case_match; simpl; [by apply update_session_replayed|].
  apply update_session_replayed, persist_snapshot_replayed; [by apply built_NoDup|done].
Qed.
Lemma run_all_replayed rounds c : keyed registered → replayed (co_store c) → replayed (co_store (run rounds c)).
Proof.
  intros Hk. revert c. induction rounds as [|r rounds IH]; intros c Hs; simpl; [done|]. by apply IH, run_once_replayed.
Qed.
End runs.

Lemma empty_replayed : replayed empty_store.
Proof. split; [done|]. intros a e b E. destruct a; discriminate. Qed.

(** ** Theorems *)

(** C7: on a store that was empty, any rounds of a collector leave a log of pass
    events that determines the table of current states: replaying the events of an end
    gives its station and access point, or that it is off line; and the log has no
    event that repeats what its end showed already. *)
Theorem pass_events_replay registered mapping_lookup session resolve rounds :
  keyed registered →
  let s := co_store (run_all registered mapping_lookup session resolve rounds (new_collector empty_store)) in
  (∀ id ce, ce ∈ ["CT"; "CW"] → replay id ce (st_events s) = stored_view id ce s) ∧ all_changes (st_events s).
Proof. intros Hk. apply run_all_replayed; [done|apply empty_replayed]. Qed.

(** C8: the states of the trains have one entry per train, every registered train
    among them; an end is seen just when the best link of some radio belongs to it, and
    then it shows that link, which is a strongest usable link of its radio. *)
Theorem ends_seen_exact registered source previous mapping_lookup p :
  keyed registered →
  let states := build_train_states registered source previous mapping_lookup p in
  let belongs k l i t ce :=
    alookup k (choose_best_links (pa_links p)) = Some l ∧ link_identity mapping_lookup k l = Some i ∧
    link_train registered i = ts_id t ∧ String.eqb ce "CT" = String.eqb (ti_end i) "CT" in
  NoDup (ts_id <$> states) ∧ (∀ id, id ∈ registered.*1 → id ∈ ts_id <$> states) ∧
  ∀ t ce, t ∈ states →
    (∀ k l i, belongs k l i t ce → es_seen (end_of ce t) = true) ∧
    (es_seen (end_of ce t) = true → ∃ k l i, belongs k l i t ce ∧ strongest (pa_links p) k l ∧
       end_of ce t = link_end (pa_time p) (match_ap (lk_ap l) source (lk_local_mac l)) l
                       (end_of (ti_end i) <$> find_previous previous (ts_id t) (ti_no i))).
Proof.
  intros Hk states belongs. destruct (best_links_strongest (pa_links p)) as (Hn & Hs & _).
  split_and!; [by apply built_NoDup| |].
  { intros id Hid. unfold states. rewrite built_ids by done. apply placed_keys. unfold initial_states. by rewrite <- list_fmap_compose. }
  intros t ce (it & Hit & ->)%built_in. destruct (placed_p_keyed registered source previous mapping_lookup p Hk) as [Hpn Hpf].
  assert (Hid : ts_id it.2 = it.1) by (rewrite Forall_forall in Hpf; by apply Hpf).
  destruct (settle_end previous (pa_time p) it.1 it.2 ce) as [Hseen Hkeep]. unfold belongs. rewrite settle_id, Hid, Hseen.
  set (best := choose_best_links (pa_links p)) in *.
  assert (He : end_of ce it.2 = end_in it.1 ce (foldl (place_link registered source previous mapping_lookup (pa_time p)) (initial_states registered) best)).
  { unfold end_in. unfold placed_states in Hit, Hpn. fold best in Hit, Hpn. destruct it as [id t]. by rewrite (alookup_in id t). }
  destruct (placed_ends registered source previous mapping_lookup (pa_time p) it.1 ce best (initial_states registered)) as [[Hu Hf]|(pl & Hpl & Hp)];
    rewrite <- He in *.
  - rewrite initial_end in Hu. rewrite Hu. split; [|done]. intros k l i (H1 & H2 & H3 & H4).
    apply alookup_Some_in in H1. rewrite Forall_forall in Hf. specialize (Hf _ H1). unfold placed_at in Hf. simpl in Hf.
    rewrite H2 in Hf. simpl in Hf. apply String.eqb_eq in H3. rewrite H3, H4, eqb_reflx in Hf. done.
  - split; [intros; by eapply placed_seen|]. intros Hs1. rewrite (Hkeep Hs1). unfold placed_at in Hp.
    destruct (link_identity mapping_lookup pl.1 pl.2) as [i|] eqn:Ei; [|done]. simpl in Hp.
    destruct (String.eqb_spec (link_train registered i) it.1) as [Et|]; [|done]. simpl in Hp.
    destruct (Bool.eqb _ _) eqn:Eb; [|done]. apply eqb_prop in Eb. injection Hp as Hp.
    destruct pl as [k l]. assert (Hl : alookup k best = Some l) by (by apply alookup_in).
    exists k, l, i. split_and!; [done|done|done|done|by apply Hs|exact (eq_sym Hp)].
Qed.

(** What the policy of a train says when only the first, only the second or both of
    its ends are seen. *)
Definition verdict (policy : string) (seen1 seen2 : bool) : string :=
  if negb seen1 && negb seen2 then TRAIN_STATUS_OFFLINE
  else if String.eqb policy ONLINE_POLICY_DUAL_ACTIVE then if seen1 && seen2 then TRAIN_STATUS_ONLINE else TRAIN_STATUS_ABNORMAL_SINGLE
  else if str_mem policy [ONLINE_POLICY_SINGLE_TC1; ONLINE_POLICY_SINGLE_TC2; ONLINE_POLICY_SINGLE_TAIL] && seen1 && seen2
  then TRAIN_STATUS_DUAL_ONLINE
  else if (String.eqb policy ONLINE_POLICY_SINGLE_TC1 && negb seen1) || (String.eqb policy ONLINE_POLICY_SINGLE_TC2 && negb seen2)
  then TRAIN_STATUS_UNEXPECTED_END
  else TRAIN_STATUS_ONLINE.

(** C32: the status of a train depends on its policy and its seen ends alone.  Under
    the tail policy either end alone counts as on line: the expected end that the code
    asks for has been cleared before, so neither it nor the direction is ever
    considered. *)
Theorem policy_verdict t :
  ts_status (apply_online_policy t) =
    verdict (normalize_online_policy (PStr (ts_policy t))) (es_seen (ts_tc1 t)) (es_seen (ts_tc2 t)) ∧
  str_mem (ts_reason (apply_online_policy t)) ["expected_tail_online"; "unexpected_end_online"] = false.
Proof.
  unfold apply_online_policy, verdict. set (policy := normalize_online_policy _).
  change (ts_policy (cleared t)) with policy. change (ts_tc1 (cleared t)) with (ts_tc1 t). change (ts_tc2 (cleared t)) with (ts_tc2 t).
  change (ts_expected (cleared t)) with "". change (str_mem "" ["TC1"; "TC2"]) with false. rewrite andb_false_r. clearbody policy.
  destruct (es_seen (ts_tc1 t)), (es_seen (ts_tc2 t)); simpl; [| | |done];
    destruct (String.eqb_spec policy ONLINE_POLICY_DUAL_ACTIVE) as [->|]; try done;
    destruct (String.eqb_spec policy ONLINE_POLICY_SINGLE_TC1) as [->|]; try done;
    destruct (String.eqb_spec policy ONLINE_POLICY_SINGLE_TC2) as [->|]; try done;
    destruct (String.eqb_spec policy ONLINE_POLICY_SINGLE_TAIL) as [->|]; done.
Qed.

(** ** Concrete runs *)
Definition sample (time ap rssi : string) : string :=
  join (String LF "") [time +:+ " UTC Mon 11/03/2025"; "AP name: " +:+ ap; "Peer Name  Peer Mac";
    "LC07-MR-CT 0011-2233-4455 0011-2233-4466 Forwarding " +:+ rssi +:+ " 12/34";
    "LC07-MR-CT 0011-2233-4455 0011-2233-4477 Forwarding -70 12/34"].
Definition sample_registered : list (string * train_state) :=
  [("列车07", fresh_train "列车07" "07" true "dual_active"); ("列车08", fresh_train "列车08" "08" true "auto")].
Definition sample_round (answer : string + string) : round := Round answer 5 "2025-11-03 10:00:01" "2025-11-03" id.
Definition sample_source : identity_source := Mapping [("001122334466", Matched "AP-01" "东站" "mac" 100 "" "")].
Definition sample_collector : collector :=
  run_all sample_registered [] "s" (λ _, sample_source)
    [sample_round (inl (sample "10:00:00" "AP-01" "-60")); sample_round (inr "timeout");
     sample_round (inl (sample "10:00:05" "AP-02" "-80")); sample_round (inl (sample "10:00:09" "AP-02" "-"));
     sample_round (inl "10:00:10")] (new_collector empty_store).

Lemma sample_keyed : keyed sample_registered.
Proof. split; [|by repeat constructor]. apply (bool_decide_unpack (NoDup _)). vm_compute. exact I. Qed.

Lemma pass_events_replay_witness :
  ((λ e, (pe_end e, pe_type e, pe_station e, pe_ap e)) <$> st_events (co_store sample_collector)
     = [("CT", "online", "东站", "AP-01"); ("CT", "station_changed", "未知车站", "AP-02"); ("CT", "offline", "-", "-")]) ∧
  (∀ id ce, ce ∈ ["CT"; "CW"] → replay id ce (st_events (co_store sample_collector)) = stored_view id ce (co_store sample_collector)) ∧
  all_changes (st_events (co_store sample_collector)).
Proof. split; [vm_compute; reflexivity|]. apply pass_events_replay, sample_keyed. Defined.

Lemma ends_seen_exact_witness :
  let p := parse_mesh_links "" "" id (sample "10:00:00" "AP-01" "-60") in
  let states := build_train_states sample_registered sample_source [] [] p in
  ((λ t, (ts_id t, ts_status t, es_seen (ts_tc1 t), es_rssi (ts_tc1 t))) <$> states
     = [("列车07", TRAIN_STATUS_ABNORMAL_SINGLE, true, Some (-60)); ("列车08", TRAIN_STATUS_OFFLINE, false, None)]) ∧
  NoDup (ts_id <$> states).
Proof.
  intros p states. split; [vm_compute; reflexivity|].
  exact (proj1 (ends_seen_exact sample_registered sample_source [] [] p sample_keyed)).
Defined.
