(* ===== verification/ApLocation.v ===== *)
(** * Locations of trackside access points

    core/sources/rail_transit/trackside_ap_location.py: the class of the place where
    an access point stands - main line, depot, yard - as it is stored or inferred from
    older columns, and whether it takes part in the decisions about the main line.
    [nfkc] is Unicode normalization. *)

From S2P Require Import Prelude PyVal PyText.

Definition LOCATION_CLASSES : list string :=
  ["MAINLINE"; "DEPOT"; "PARKING_YARD"; "STABLING"; "DEPOT_CONNECTION"; "TEST_TRACK"; "NON_MAINLINE"; "UNKNOWN"].
Definition NON_MAINLINE_LOCATION_CLASSES : list string :=
  ["DEPOT"; "PARKING_YARD"; "STABLING"; "DEPOT_CONNECTION"; "TEST_TRACK"; "NON_MAINLINE"; "UNKNOWN"].
Definition DEPOT_PING_LOCATION_CLASSES : list string := ["DEPOT"; "PARKING_YARD"; "STABLING"].
Definition DEFAULT_LOCATION_SOURCE : string := "DEFAULT_MAINLINE".
Definition LOCATION_ALIASES : list (string * string) :=
  [("mainline", "MAINLINE"); ("正线", "MAINLINE"); ("主线", "MAINLINE"); ("depot", "DEPOT"); ("车辆段", "DEPOT"); ("场段", "DEPOT");
   ("parking_yard", "PARKING_YARD"); ("parking_lot", "PARKING_YARD"); ("停车场", "PARKING_YARD"); ("stabling", "STABLING");
   ("storage_track", "STABLING"); ("存车线", "STABLING"); ("存车场", "STABLING"); ("depot_connection", "DEPOT_CONNECTION");
   ("出入段线", "DEPOT_CONNECTION"); ("出段线", "DEPOT_CONNECTION"); ("入段线", "DEPOT_CONNECTION"); ("出场线", "DEPOT_CONNECTION");
   ("入场线", "DEPOT_CONNECTION"); ("test_track", "TEST_TRACK"); ("试车线", "TEST_TRACK"); ("non_mainline", "NON_MAINLINE");
   ("非正线", "NON_MAINLINE"); ("unknown", "UNKNOWN"); ("未知", "UNKNOWN")].

Section location.
Context (nfkc : string → string).

(** [_text]. *)
Definition location_text (value : pyval) : string := strip (nfkc (text_or_empty value)).

Definition normalize_location_class (value : pyval) (otherwise : string) : res string :=
  let text := location_text value in
  if negb (str_nonempty text) then Ok otherwise
  else match alookup (casefold text) LOCATION_ALIASES with Some c => Ok c | None => Err ValueError end.

Definition default_participates_in_mainline (location_class : string) : bool := String.eqb location_class "MAINLINE".

Definition parse_participates_in_mainline (value : pyval) (otherwise : bool) : res bool :=
  if bool_decide (value = PNone) || String.eqb (location_text value) "" then Ok otherwise
  else
    match value with
    | PBool b => Ok b
    | PInt _ | PFloat _ => Ok (truthy value)
    | _ =>
        let text := casefold (location_text value) in
        if str_mem text ["1"; "true"; "yes"; "y"; "是"; "参与"; "启用"] then Ok true
        else if str_mem text ["0"; "false"; "no"; "n"; "否"; "不参与"; "停用"] then Ok false
        else Err ValueError
    end.

Definition validate_location_participation (location_class : string) (participates : bool) : res unit :=
  if str_mem location_class NON_MAINLINE_LOCATION_CLASSES && participates then Err ValueError else Ok tt.

Definition location_class_is_explicit (source : pyval) : bool :=
  negb (str_mem (upper (location_text source)) [""; DEFAULT_LOCATION_SOURCE; "LEGACY_DEFAULT_MAINLINE"]).

Definition infer_legacy_location_class (row : dict) : string :=
  let belong_type := casefold (location_text (dget "belong_type" row)) in
  let text :=
    join " " ((λ field, location_text (dget field row)) <$>
              ["yard_name"; "area_name"; "station_name"; "section_name"; "location_desc"; "install_scene"]) in
  let inferred :=
    if existsb (λ token, contains token text) ["出入段线"; "出段线"; "入段线"; "出场线"; "入场线"] then "DEPOT_CONNECTION"
    else if contains "试车线" text then "TEST_TRACK"
    else if contains "存车线" text || contains "存车场" text then "STABLING"
    else if contains "停车场" text then "PARKING_YARD"
    else if contains "车辆段" text then "DEPOT"
    else if contains "非正线" text then "NON_MAINLINE"
    else "MAINLINE" in
  match alookup belong_type LOCATION_ALIASES with
  | Some resolved => if String.eqb resolved "MAINLINE" then inferred else resolved
  | None => inferred
  end.

(** The class, the participation and the source. *)
Definition resolve_trackside_ap_location (row : dict) : res (string * bool * string) :=
  let raw_class := location_text (dget "location_class" row) in
  let raw_source := location_text (dget "location_class_source" row) in
  let '(location_class, source) :=
    if str_nonempty raw_class then
      let c := match normalize_location_class (PStr raw_class) "MAINLINE" with Ok c => c | Err _ => "UNKNOWN" end in
      (c, str_or raw_source (if String.eqb c "MAINLINE" then DEFAULT_LOCATION_SOURCE else "LEGACY_INFERRED"))
    else
      let c := infer_legacy_location_class row in
      (c, if String.eqb c "MAINLINE" then DEFAULT_LOCATION_SOURCE else "LEGACY_INFERRED") in
  participates ← parse_participates_in_mainline (dget "participates_in_mainline" row)
                   (default_participates_in_mainline location_class);
  Ok (location_class, participates, source).

(** ** Theorems *)
Lemma alias_class k c : alookup k LOCATION_ALIASES = Some c → c ∈ LOCATION_CLASSES.
Proof.
  intros H%alookup_Some_in. assert (Hall : Forall (λ kc, kc.2 ∈ LOCATION_CLASSES) LOCATION_ALIASES).
  { apply (bool_decide_unpack (Forall _ _)). vm_compute. exact I. }
  rewrite Forall_forall in Hall. by apply (Hall _ H).
Qed.
Lemma inferred_class row : infer_legacy_location_class row ∈ LOCATION_CLASSES.
Proof.
  unfold infer_legacy_location_class.
  assert (Hm : str_mem (infer_legacy_location_class row) LOCATION_CLASSES = true → infer_legacy_location_class row ∈ LOCATION_CLASSES)
    by apply str_mem_iff.
  destruct (alookup _ LOCATION_ALIASES) as [c|] eqn:E; [destruct (String.eqb c "MAINLINE"); [|by apply alias_class in E]|];
    apply str_mem_iff; by repeat case_match.
Qed.

(** A location is a class of the vocabulary, whatever the row holds. *)
Lemma resolved_class row c participates source :
  resolve_trackside_ap_location row = Ok (c, participates, source) → c ∈ LOCATION_CLASSES.
Proof.
  unfold resolve_trackside_ap_location. case_match eqn:E. intros (b & _ & Hb%Ok_inj)%res_bind_Ok.
  injection Hb as <- _ _. case_match; injection E as <- _; [|apply inferred_class].
  match goal with |- ?a ∈ _ => destruct (normalize_location_class (PStr (location_text (dget "location_class" row))) "MAINLINE") eqn:En end;
    [|apply str_mem_iff; done].
  unfold normalize_location_class in En. case_match; [injection En as <-; by left|].
  destruct (alookup _ LOCATION_ALIASES) eqn:El; [|done]. injection En as <-. by apply alias_class in El.
Qed.

(** A row without a participation is always located. *)
Lemma resolved_without_participation row :
  dget "participates_in_mainline" row = PNone →
  ∃ c source, resolve_trackside_ap_location row = Ok (c, default_participates_in_mainline c, source).
Proof. intros H. unfold resolve_trackside_ap_location. rewrite H. case_match. simpl. eauto. Qed.

End location.

(** Unicode normalization leaves ASCII text alone. *)
Fixpoint ascii_text (s : string) : bool :=
  match s with "" => true | String c s' => (byte_of c <? 128) && ascii_text s' end.
Definition keeps_ascii (nfkc : string → string) : Prop := ∀ s, ascii_text s = true → nfkc s = s.

Lemma location_text_ascii nfkc s : keeps_ascii nfkc → ascii_text s = true → location_text nfkc (PStr s) = strip s.
Proof. intros H Ha. unfold location_text. by rewrite text_or_empty_PStr, H. Qed.

(** C33: a participation that was switched off does not survive reading: stored as
    [False] or [0], the forms in which the program keeps it, it is taken for a missing
    value, so an access point of the main line always takes part. *)
Theorem participation_off_lost nfkc row :
  keeps_ascii nfkc →
  dget "location_class" row = PStr "MAINLINE" →
  dget "participates_in_mainline" row ∈ [PBool false; PInt 0] →
  ∃ source, resolve_trackside_ap_location nfkc row = Ok ("MAINLINE", true, source).
Proof.
  intros Hn Hc Hp. unfold resolve_trackside_ap_location. rewrite Hc, location_text_ascii by done.
  change (strip "MAINLINE") with "MAINLINE". cbn [str_nonempty negb String.eqb Ascii.eqb Bool.eqb].
  unfold normalize_location_class. rewrite location_text_ascii by done. change (strip "MAINLINE") with "MAINLINE".
  assert (Hd : ∀ v, v ∈ [PBool false; PInt 0] → parse_participates_in_mainline nfkc v true = Ok true).
  { intros v Hv. unfold parse_participates_in_mainline, location_text, text_or_empty, por.
    assert (truthy v = false) as -> by (apply elem_of_cons in Hv as [-> | ->%list_elem_of_singleton]; done).
    change (py_str (PStr "")) with "". rewrite Hn by done. change (strip "" =? "")%string with true. by rewrite orb_true_r. }
  eexists. simpl. rewrite Hd by done. reflexivity.
Qed.
Lemma participation_off_lost_witness :
  let row := [("location_class", PStr "MAINLINE"); ("participates_in_mainline", PInt 0)] in
  keeps_ascii id ∧ ∃ source, resolve_trackside_ap_location id row = Ok ("MAINLINE", true, source).
Proof. split; [by intros s _|]. apply participation_off_lost; [by intros s _|reflexivity|right; left]. Defined.
