(* ===== verification/Eligibility.v ===== *)
(** * Eligibility of the trains of an unattended run

    services/ground_unattended/eligibility.py: which trains are on the main line,
    which are pinged and which may be collected from, by the state of the access
    controller, the access point that a train is connected to and the base data of the
    line.  The base data come as lists of records with the fields that are read; the
    identity service and Unicode normalization are parameters, a time is its wall clock
    in microseconds with its offset from UTC. *)

From S2P Require Import Prelude PyVal PyText PyRe Ipv4 ApNormalizers StationSource TrainIdentity VehicleMr ApLocation.

(** ** Data *)
Record ac_row := AcRow {
  ac_mr : string; ac_train_no : string; ac_end : string; ac_name : string; ac_device : string; ac_ip : string; ac_online : string;
  ac_peer_id : string; ac_peer_name : string; ac_peer_mac : string; ac_rssi : option Z; ac_station : string; ac_section : string;
  ac_mileage : string; ac_last_seen : string; ac_data : string;
}.
Record station := Station {
  sn_id : string; sn_name : string; sn_source : string; sn_node : string; sn_path : string; sn_participates : bool;
  sn_facilities : list string;
}.
Record section := MakeSection { sc_id : string; sc_name : string; sc_kind : string; sc_path : string }.
Record trackside_ap := TracksideAp {
  ap_id : string; ap_name : string; ap_mac : string; ap_station : string; ap_section : string; ap_mileage : string;
  ap_class : string; ap_participates : bool; ap_class_source : string; ap_bssids : list string; ap_kind : string; ap_metadata : dict;
}.
Record vehicle_mr := MakeMr {
  vm_id : string; vm_device : option Z; vm_name : string; vm_train : string; vm_train_no : string; vm_position : string; vm_ip : string;
}.

Record StationaryTracker := Tracker { tk_ap : string; tk_since : string }.
Definition no_tracker : StationaryTracker := Tracker "" "".

Record EligibilityDecision := Decision {
  ed_status : string; ed_reason : string; ed_class : string; ed_mainline : bool; ed_ping : bool; ed_deep : bool;
  ed_ping_in : string; ed_ping_out : string; ed_deep_out : string;
}.
(** A decision against everything. *)
Definition excluded (status reason location_class ping_out deep_out : string) : EligibilityDecision :=
  Decision status reason location_class false false false "" ping_out deep_out.

Record LocationResolution := Location {
  lo_ap : option trackside_ap; lo_station : option station; lo_section : option section; lo_level : string; lo_reason : string;
  lo_name : string; lo_identity : option ApIdentityMatch;
}.

(** ** Keys and indexes *)
Definition mac_key (value : string) : string := replace ":" "" (default "" (normalize_mac (PStr value))).
Definition train_key_of (value : string) : string :=
  str_or (canonical_train_id_for [PStr value]) (casefold (strip value)).

Definition valid_management_ip (value : string) : bool :=
  match parse_addr (strip value) with
  | Some a => negb (a =? 0) && negb (is_multicast a) && negb (a =? ALL_ONES)
  | None => false
  end.

(** [_unique_by_value]: a key of several items has none. *)
Definition unique_by {A} (key : A → string) (items : list A) : list (string * A) :=
  List.filter (λ kx, bool_decide (length (List.filter (λ y, String.eqb (key y) kx.1) items) = 1%nat))
    (index_by key (List.filter (λ x, str_nonempty (key x)) items)).

(** [_unique_pair_values]: an access point may have a key twice. *)
Definition add_pair (acc : list (string * trackside_ap) * list string) (kx : string * trackside_ap)
    : list (string * trackside_ap) * list string :=
  let '(result, duplicates) := acc in
  let key := casefold (strip kx.1) in
  match alookup key result with
  | Some other => if String.eqb (ap_id other) (ap_id kx.2) then (ainsert key kx.2 result, duplicates) else (result, key :: duplicates)
  | None => (ainsert key kx.2 result, duplicates)
  end.
Definition unique_pair_values (pairs : list (string * trackside_ap)) : list (string * trackside_ap) :=
  let '(result, duplicates) := foldl add_pair ([], []) pairs in foldl (λ d k, adelete k d) result duplicates.
Definition unique_ap_registry_macs (aps : list trackside_ap) : list (string * trackside_ap) :=
  unique_pair_values (List.filter (λ kx, str_nonempty kx.1) (concat ((λ a, (λ bssid, (mac_key bssid, a)) <$> ap_bssids a) <$> aps))).

(** [_metadata_tokens]: a set, so the order of the values does not matter. *)
Fixpoint leaves (v : pyval) : list pyval :=
  match v with PList l => concat (map leaves l) | _ => [v] end.
Definition bracket (c : ascii) : bool :=
  existsb (Ascii.eqb c) ["["%char; "]"%char; "("%char; ")"%char; "{"%char; "}"%char; squote; dquote].
Definition value_tokens (v : pyval) : list string :=
  List.filter str_nonempty
    ((λ token, casefold (rstrip_of bracket (lstrip_of bracket token)))
     <$> re_split (plus (λ c, any_of [","; ";"; "|"; "/"; "、"; "，"] c || s_class c)) (text_or_empty v)).
Definition metadata_tokens (values : list pyval) : list string := concat (value_tokens <$> concat (leaves <$> values)).

Section eligibility.
Context (nfkc : string → string).
(** [datetime.isoformat(timespec="milliseconds")] and [datetime.fromisoformat]. *)
Context (isoformat_ms : datetime → string) (fromisoformat : string → option datetime).

Definition station_key (name : string) : string := casefold (canonical_station_name nfkc (PStr name)).
Definition location_key (value : string) : string := casefold (strip (re_sub (plus s_class) " " (nfkc value))).

(** ** The place of a train *)
Record indexes := Indexes {
  ix_station_name : list (string * station); ix_station_alias : list (string * station); ix_section_name : list (string * section);
  ix_ap_id : list (string * trackside_ap); ix_ap_mac : list (string * trackside_ap); ix_ap_registry : list (string * trackside_ap);
}.
Definition make_indexes (stations : list station) (sections : list section) (aps : list trackside_ap) : indexes :=
  Indexes (unique_by (station_key ∘ sn_name) stations) (unique_by (station_key ∘ sn_source) stations)
    (unique_by (location_key ∘ sc_name) sections) (index_by ap_id (List.filter (λ a, str_nonempty (ap_id a)) aps))
    (unique_by (mac_key ∘ ap_mac) aps) (unique_ap_registry_macs aps).

Definition find_in {A} (key : string) (d : list (string * A)) : option A := if str_nonempty key then alookup key d else None.

Definition match_trackside_ap (ix : indexes) (row : ac_row) : option trackside_ap * string * string :=
  let mac := mac_key (ac_peer_mac row) in
  match find_in mac (ix_ap_mac ix) with
  | Some a => (Some a, "AP_EXACT", "通过 AP MAC 精确匹配")
  | None =>
      match find_in mac (ix_ap_registry ix) with
      | Some a => (Some a, "AP_REGISTRY", "通过基础资料中的 Radio/BSSID 映射到 AP")
      | None =>
          match find_in (ac_peer_id row) (ix_ap_id ix) with
          | Some a => (Some a, "AP_EXACT", "通过 AP ID 精确匹配")
          | None => (None, "UNMATCHED", "")
          end
      end
  end.

Definition runtime_ap_from_identity (m : ApIdentityMatch) : res trackside_ap :=
  let station := strip (am_station m) in
  let section := strip (am_section m) in
  let belong_type := strip (str_or (am_belong_type m) "unknown") in
  let metadata := [("belong_type", PStr belong_type); ("station_name", PStr station); ("section_name", PStr section);
                   ("location_desc", PStr (am_location m))] in
  '(location_class, participates, source) ←
    (if negb (str_nonempty station) && str_mem (casefold belong_type) ["trackside"; "station"; "section"; "yard"]
     then Ok ("UNKNOWN", false, "AP_IDENTITY_LOCATION_INCOMPLETE")
     else '(c, p, _) ← resolve_trackside_ap_location nfkc metadata; Ok (c, p, "AP_IDENTITY"));
  Ok (TracksideAp (str_or (am_entity m) (am_mac m)) (str_or (am_name m) (am_mac m)) (am_mac m) station section (strip (am_mileage m))
        location_class participates source [] "ap_identity_runtime" metadata).

Definition station_by (ix : indexes) (key : string) : option station :=
  first_of (alookup key (ix_station_name ix)) (λ _, alookup key (ix_station_alias ix)).
Definition no_row_location : LocationResolution := Location None None None "UNMATCHED" "暂无 AC 位置数据" "" None.

(** The station of the row itself with the level and the reason of the match. *)
Definition row_station (ix : indexes) (row : ac_row) : option station * string * string :=
  let key := station_key (ac_station row) in
  match find_in key (ix_station_name ix) with
  | Some s => (Some s, "STATION_EXACT", "AC 站点“" +:+ ac_station row +:+ "”规范化后精确匹配基础资料")
  | None =>
      match find_in key (ix_station_alias ix) with
      | Some s => (Some s, "STATION_ALIAS", "AC 站点“" +:+ ac_station row +:+ "”通过已保存来源别名匹配基础资料")
      | None => (None, "UNMATCHED", "")
      end
  end.

(** The access point with the station and the section that it or the identity gives. *)
Record found := Found { fd_ap : option trackside_ap; fd_level : string; fd_reason : string; fd_station : option station; fd_section : option section }.
Definition find_ap (ix : indexes) (row : ac_row) (identity : option ApIdentityMatch) (station : option station)
    (sec : option section) : res found :=
  let '(ap, level, reason) := match_trackside_ap ix row in
  match ap, identity with
  | None, Some m =>
      if am_matched m then
        a ← runtime_ap_from_identity m;
        let station_k := station_key (am_station m) in
        let section_k := location_key (am_section m) in
        Ok (Found (Some a) "AP_EXACT" "通过 AP Identity 精确解析 Current AP"
              (if str_nonempty station_k then station_by ix station_k else station)
              (if str_nonempty section_k then alookup section_k (ix_section_name ix) else sec))
      else Ok (Found None level reason station sec)
  | _, _ => Ok (Found ap level reason station sec)
  end.

Definition resolve_location (ix : indexes) (row : option ac_row) (identity : option ApIdentityMatch) : res LocationResolution :=
  match row with
  | None => Ok no_row_location
  | Some row =>
      let '(station, station_level, station_reason) := row_station ix row in
      let sec := if str_nonempty (ac_section row) then alookup (location_key (ac_section row)) (ix_section_name ix) else None in
      f ← find_ap ix row identity station sec;
      let station :=
        match fd_station f, fd_ap f with
        | None, Some a => if str_nonempty (ap_station a) then station_by ix (station_key (ap_station a)) else None
        | s, _ => s
        end in
      let sec :=
        match fd_section f, fd_ap f with
        | None, Some a => if str_nonempty (ap_section a) then alookup (location_key (ap_section a)) (ix_section_name ix) else None
        | s, _ => s
        end in
      let '(level, reason) :=
        match fd_ap f with Some _ => (fd_level f, fd_reason f) | None => (station_level, station_reason) end in
      let '(level, reason) :=
        if String.eqb level "UNMATCHED" && bool_decide (is_Some sec)
        then ("STATION_EXACT", "AC 区间“" +:+ ac_section row +:+ "”精确匹配基础资料") else (level, reason) in
      let name :=
        match station with
        | Some s => sn_name s
        | None => match identity with Some m => str_or (am_station m) (ac_station row) | None => ac_station row end
        end in
      Ok (Location (fd_ap f) station sec level (str_or reason "当前 AP 和站点均无法与基础资料匹配")
            (canonical_station_name nfkc (PStr name)) identity)
  end.

(** ** How long a train stands at one access point *)

(** [(now - since).total_seconds()] as an integer; a time without an offset is taken in
    the zone of [now]. *)
Definition elapsed_seconds (now since : datetime) : res Z :=
  match dt_offset since, dt_offset now with
  | Some a, Some b => Ok (Z.quot ((dt_wall now - b) - (dt_wall since - a)) 1000000)
  | Some _, None => Err TypeError
  | None, _ => Ok (Z.quot (dt_wall now - dt_wall since) 1000000)
  end.

Definition ap_identity_of (ap : option trackside_ap) (row : option ac_row) : string :=
  match ap, row with
  | Some a, _ => "id:" +:+ ap_id a
  | None, Some r => if str_nonempty (mac_key (ac_peer_mac r)) then "mac:" +:+ mac_key (ac_peer_mac r) else ""
  | None, None => ""
  end.
Definition stationary_tracker (previous : StationaryTracker) (ap : option trackside_ap) (row : option ac_row) (now : datetime)
    : res (StationaryTracker * Z) :=
  let identity := ap_identity_of ap row in
  let restart := (Tracker identity (isoformat_ms now), 0) in
  if negb (str_nonempty identity) then Ok (no_tracker, 0)
  else if negb (String.eqb (tk_ap previous) identity) || negb (str_nonempty (tk_since previous)) then Ok restart
  else
    match fromisoformat (tk_since previous) with
    | None => Ok restart
    | Some since => seconds ← elapsed_seconds now since; Ok (previous, Z.max 0 seconds)
    end.

(** ** The class of the place *)
Record resolved_class := Resolved { rc_class : string; rc_reason : string; rc_participates : bool; rc_source : string }.

Definition ap_location_metadata (a : trackside_ap) : dict :=
  let own := foldl (λ d kv, dset (casefold kv.1) kv.2 d) []
    (List.filter (λ kv, negb (str_mem (casefold kv.1) ["location_class"; "participates_in_mainline"; "location_class_source"])) (ap_metadata a)) in
  dset "section_name" (PStr (ap_section a))
    (dset "station_name" (PStr (ap_station a)) (dset "belong_type" (por (dget "belong_type" own) (PStr (ap_kind a))) own)).

Definition path_key (path : string) : string := casefold (strip path).

(** A station that is itself a special place. *)
Definition special_station (s : station) : option resolved_class :=
  let at_station := "当前车辆位于" +:+ canonical_station_name nfkc (PStr (sn_name s)) in
  if String.eqb (sn_node s) "depot" then Some (Resolved "DEPOT" at_station false "STATION_TOPOLOGY")
  else if String.eqb (sn_node s) "parking_lot" then Some (Resolved "PARKING_YARD" at_station false "STATION_TOPOLOGY")
  else if str_mem "storage_track" (sn_facilities s) then Some (Resolved "STABLING" "当前站点设施为存车线" false "STATION_TOPOLOGY")
  else None.

(** The topology of the line, once the access point says nothing special itself. *)
Definition topology_class (main_path_code : string) (metadata : dict) (a : trackside_ap) (st : option station) (sec : option section)
    : resolved_class :=
  let main_path := path_key main_path_code in
  let ap_path := path_key (text_or_empty (dget "path_code" metadata)) in
  let holds {A} (p : A → bool) (o : option A) := match o with Some x => p x | None => false end in
  match st ≫= special_station with
  | Some r => r
  | None =>
      if holds (λ c, String.eqb (sc_kind c) "depot_connection") sec
      then Resolved "DEPOT_CONNECTION" "当前区间为出入段连接线" false "SECTION_TOPOLOGY"
      else if holds (λ s, negb (sn_participates s) || negb (String.eqb (path_key (sn_path s)) main_path)) st
      then Resolved "NON_MAINLINE" "当前站点不参与局点正线判断" false "STATION_TOPOLOGY"
      else if holds (λ c, negb (String.eqb (path_key (sc_path c)) main_path)) sec
      then Resolved "NON_MAINLINE" "当前区间不属于局点主路径" false "SECTION_TOPOLOGY"
      else if str_nonempty ap_path && negb (String.eqb ap_path main_path)
      then Resolved "NON_MAINLINE" "当前 AP 不属于局点主路径" false "AP_TOPOLOGY"
      else if String.eqb (ap_class a) "MAINLINE" && negb (ap_participates a)
      then Resolved "MAINLINE" "当前 AP 已设置为不参与正线判断" false (ap_class_source a)
      else if bool_decide (is_Some st) || bool_decide (is_Some sec) || str_nonempty ap_path
      then Resolved "MAINLINE" "站点/区间属于局点主路径" true "SITE_TOPOLOGY"
      else Resolved "MAINLINE" "AP 已匹配且没有特殊区域标记，按默认正线纳入" true "DEFAULT_MAINLINE"
  end.

(** [_resolved_location_class]. *)
Definition resolved_location_class (main_path_code : string) (loc : LocationResolution) : res resolved_class :=
  match lo_ap loc with
  | None => Ok (Resolved "UNKNOWN" "当前 AP 未匹配轨旁 AP 基础资料" false "UNDETERMINED")
  | Some a =>
      if negb (String.eqb (ap_class a) "UNKNOWN") && location_class_is_explicit nfkc (PStr (ap_class_source a))
      then Ok (Resolved (ap_class a) ("当前 AP 基础资料明确标记为 " +:+ ap_class a) (ap_participates a) (ap_class_source a))
      else
        let metadata := ap_location_metadata a in
        let facilities := metadata_tokens [dget "track_facilities" metadata; dget "track_facility" metadata; dget "facility_type" metadata] in
        if str_mem "storage_track" facilities
        then Ok (Resolved "STABLING" "当前 AP 基础资料明确归属于存车线" false "AP_METADATA")
        else
          '(legacy_class, _, _) ← resolve_trackside_ap_location nfkc metadata;
          Ok (if negb (str_mem legacy_class ["MAINLINE"; "UNKNOWN"])
              then Resolved legacy_class ("当前 AP 历史基础资料解析为 " +:+ legacy_class) false "AP_METADATA"
              else topology_class main_path_code metadata a (lo_station loc) (lo_section loc))
  end.

(** ** The decision *)
Definition depot_status (location_class : string) : string :=
  if String.eqb location_class "DEPOT" then "DEPOT"
  else if String.eqb location_class "PARKING_YARD" then "PARKING_LOT" else "STORAGE_TRACK".

(** [_eligibility], after the class of the place. *)
Definition eligibility (rc : resolved_class) (loc : LocationResolution) (row : option ac_row) (same_ap_seconds stationary_seconds : Z)
    (ping_depot_trains_enabled : bool) : EligibilityDecision :=
  let c := rc_class rc in
  match row with
  | None => excluded "AC_UNKNOWN" "暂无有效 AC 在线状态" c "暂无有效 AC 在线状态" "暂无有效 AC 在线状态"
  | Some row =>
      if str_mem (ac_data row) ["no_data"; "error"]
      then excluded "AC_UNKNOWN" "暂无有效 AC 在线状态" c "暂无有效 AC 在线状态" "暂无有效 AC 在线状态"
      else if negb (String.eqb (ac_data row) "fresh") || String.eqb (ac_online row) "stale"
      then excluded "AC_STALE" "AC 在线状态已过期，暂停新的任务调度" c "AC 在线状态已过期" "AC 在线状态已过期"
      else if negb (String.eqb (ac_online row) "online")
      then excluded "OFFLINE" "车辆当前未在线" (if bool_decide (is_Some (lo_ap loc)) then c else "OFFLINE") "车辆当前未在线" "车辆当前未在线"
      else if negb (bool_decide (is_Some (lo_ap loc)))
      then excluded "AP_UNMATCHED" "当前 AP MAC 未匹配任何轨旁 AP 基础资料" "UNKNOWN" "AP 未匹配" "AP 未匹配"
      else if str_mem c DEPOT_PING_LOCATION_CLASSES then
        if ping_depot_trains_enabled
        then Decision (depot_status c) (rc_reason rc +:+ "；已启用车辆段长 Ping") c false true false "已启用车辆段长 Ping" "" "场段列车不参与深度采集"
        else excluded (depot_status c) (rc_reason rc) c "未启用车辆段长 Ping" "场段列车不参与深度采集"
      else if String.eqb c "UNKNOWN"
      then excluded "LOCATION_UNDETERMINED" (rc_reason rc) c "无法确认当前位置是否属于正线" "无法确认当前位置是否属于正线"
      else if negb (String.eqb c "MAINLINE") || negb (rc_participates rc)
      then excluded (if String.eqb c "DEPOT_CONNECTION" then "DEPOT_CONNECTION" else "NON_MAIN_PATH") (rc_reason rc) c
             "当前位置不参与正线长 Ping" "当前位置不参与深度采集"
      else if stationary_seconds <=? same_ap_seconds
      then Decision "MAINLINE_STATIONARY"
             ("同一正线 AP 连续停留 " +:+ pretty (same_ap_seconds / 60) +:+ " 分钟，长 Ping 继续、暂停新的深度采集")
             "MAINLINE" true true false "正线在线" "" "同一正线 AP 停留超过阈值"
      else Decision "MAINLINE" "正线在线" "MAINLINE" true true true "正线在线" "" ""
  end.

(** ** The two ends of a train *)
Record endpoint := Endpoint {
  en_end : string; en_mr : string; en_name : string; en_device : option Z; en_ip : string; en_online : string; en_target : bool;
  en_reason : string;
}.
Definition endpoint_of (base_mrs : list vehicle_mr) (online_rows : list ac_row) (e : string) : endpoint :=
  let base := List.find (λ m, String.eqb (vm_position m) e) base_mrs in
  let ac := List.find (λ r, str_mem (upper (strip (ac_end r))) (if String.eqb e "CT" then ["CT"] else ["CW"; "TC"])) online_rows in
  let pick (f : vehicle_mr → string) (g : ac_row → string) :=
    match base, ac with Some m, _ => f m | None, Some r => g r | None, None => "" end in
  let ip := pick vm_ip ac_ip in
  let online := match ac with Some r => upper (str_or (ac_online r) "unknown") | None => "UNKNOWN" end in
  let valid := valid_management_ip ip in
  Endpoint e (pick vm_id (λ r, str_or (ac_device r) (ac_mr r))) (pick vm_name ac_name) (base ≫= vm_device) ip online
    (String.eqb online "ONLINE" && valid)
    (if negb (String.eqb online "ONLINE") then e +:+ " 当前不在线"
     else if negb (str_nonempty ip) then e +:+ " 未配置管理 IP"
     else if negb valid then e +:+ " 管理 IP 无效" else "").
Definition endpoints_of (base_mrs : list vehicle_mr) (online_rows : list ac_row) : list endpoint :=
  endpoint_of base_mrs online_rows <$> ["CT"; "CW"].

(** The decision in view of the ends. *)
Definition online_end (e : endpoint) : bool := String.eqb (en_online e) "ONLINE".
Definition address_reason (endpoints : list endpoint) : string :=
  match List.find (λ e, online_end e && str_nonempty (en_reason e)) endpoints with
  | Some e => en_reason e
  | None => "当前没有可用的在线 MR 管理地址"
  end.
Definition with_endpoints (endpoints : list endpoint) (d : EligibilityDecision) : EligibilityDecision :=
  if negb (str_mem (ed_status d) ["AC_UNKNOWN"; "AC_STALE"; "OFFLINE"]) && negb (existsb online_end endpoints)
  then excluded "OFFLINE" "当前没有在线 MR" (if String.eqb (ed_class d) "UNKNOWN" then "OFFLINE" else ed_class d)
         "当前没有在线 MR" "当前没有在线 MR"
  else if negb (existsb en_target endpoints) && ed_ping d
  then Decision (ed_status d) (address_reason endpoints) (ed_class d) (ed_mainline d) false false "" (address_reason endpoints)
         (address_reason endpoints)
  else d.

(** [_decision_reason_contract]: code and text for the main line, ping, collection. *)
Record reasons := Reasons {
  rs_mainline_code : string; rs_mainline : string; rs_ping_code : string; rs_ping : string; rs_deep_code : string; rs_deep : string;
}.
Definition PING_CODES : list (string * string) :=
  [("AP_UNMATCHED", "AP_UNMATCHED"); ("OFFLINE", "TRAIN_OFFLINE"); ("AC_UNKNOWN", "AC_UNKNOWN"); ("AC_STALE", "AC_STALE");
   ("LOCATION_UNDETERMINED", "LOCATION_UNDETERMINED"); ("DEPOT", "DEPOT_PING_DISABLED"); ("PARKING_LOT", "DEPOT_PING_DISABLED");
   ("STORAGE_TRACK", "DEPOT_PING_DISABLED")].
Definition decision_reason_contract (d : EligibilityDecision) (location_reason location_class_source : string) : reasons :=
  let status := ed_status d in
  let '(mainline_code, mainline_text) :=
    if ed_mainline d
    then (if String.eqb location_class_source "DEFAULT_MAINLINE" then "MAINLINE_DEFAULT_CLASSIFICATION" else "MAINLINE_AP_MATCHED",
          str_or location_reason "正线 AP 已匹配")
    else (str_or status "NOT_EVALUATED", str_or (str_or location_reason (ed_reason d)) "未评估") in
  let '(ping_code, ping_text) :=
    if ed_ping d
    then (if str_mem (ed_class d) DEPOT_PING_LOCATION_CLASSES then "DEPOT_PING_ENABLED" else mainline_code,
          str_or (ed_ping_in d) mainline_text)
    else (if contains "管理 IP" (ed_ping_out d) then "NO_MANAGEMENT_IP"
          else default (str_or status "NOT_EVALUATED") (alookup status PING_CODES),
          str_or (str_or (ed_ping_out d) (ed_reason d)) "未评估") in
  let '(deep_code, deep_text) :=
    if ed_deep d then ("ELIGIBLE", "正线在线，符合深度采集资格")
    else (str_or (if String.eqb status "MAINLINE_STATIONARY" then "LONG_STAY" else status) "NOT_EVALUATED",
          str_or (str_or (ed_deep_out d) (ed_reason d)) "未评估") in
  Reasons mainline_code mainline_text ping_code ping_text deep_code deep_text.

(** [GroundApIdentityDiagnosticsDTO]; the decision it repeats is left out. *)
Record diagnostics := Diagnostics {
  dg_train : string; dg_mr : string; dg_raw : string; dg_canonical : string; dg_revision : Z; dg_candidates : nat;
  dg_matched_by : string; dg_status : string; dg_station_status : string; dg_station_name : string; dg_section_name : string;
  dg_generated : string;
}.
Definition identity_diagnostics (row : option ac_row) (loc : LocationResolution) (m : option ApIdentityMatch) (train_id : string)
    (now : datetime) : diagnostics :=
  let raw := match row with Some r => ac_peer_mac r | None => "" end in
  let canonical := match m with Some i => am_query_display i | None => default "" (normalize_mac (PStr raw)) end in
  let matched := match m with Some i => if am_matched i then Some i else None | None => None end in
  let status :=
    if negb (str_nonempty raw) then "NOT_FOUND"
    else if negb (str_nonempty canonical) then "INVALID_MAC"
    else match m with
         | None => "NOT_CHECKED"
         | Some i =>
             if am_matched i then "MATCHED"
             else if String.eqb (am_status i) "ambiguous" then "CONFLICT"
             else if String.eqb (am_reason i) "exact_alias_not_collected" then "ALIAS_DATA_MISSING" else "NOT_FOUND"
         end in
  Diagnostics train_id (match row with Some r => ac_mr r | None => "" end) raw canonical
    (match m with Some i => am_revision i | None => 0 end) (match m with Some i => am_candidates i | None => 0%nat end)
    (match matched with Some i => str_or (am_alias_type i) (am_rule i) | None => "none" end) status
    (match lo_station loc, matched with
     | Some _, _ => "MATCHED"
     | None, Some i => if str_nonempty (am_station i) then "IDENTITY_ONLY" else "UNMATCHED"
     | None, None => "UNMATCHED"
     end)
    (match lo_station loc, matched with Some s, _ => sn_name s | None, Some i => am_station i | None, None => "" end)
    (match lo_section loc, matched with Some s, _ => sc_name s | None, Some i => am_section i | None, None => "" end)
    (isoformat_ms now).

(** ** A train *)

(** [_representative_row]: the latest of the rows on line, else of all. *)
Definition later_row (best : option ac_row) (r : ac_row) : option ac_row :=
  match best with
  | Some b => if negb (String.leb (ac_last_seen r) (ac_last_seen b)) then Some r else best
  | None => Some r
  end.
Definition representative_row (rows : list ac_row) : option ac_row :=
  let online := List.filter (λ r, String.eqb (ac_online r) "online") rows in
  foldl later_row None (match online with [] => rows | l => l end).

(** The text of the place: of the base data, of the row, of the identity. *)
Definition place_text (known : option string) (of_row : ac_row → string) (of_identity : ApIdentityMatch → string) (row : option ac_row)
    (m : option ApIdentityMatch) : string :=
  match known with
  | Some text => text
  | None =>
      let text := match row with Some r => of_row r | None => "" end in
      if str_nonempty text then text else match m with Some i => of_identity i | None => "" end
  end.

Record classified := Classified {
  cl_train : string; cl_no : string; cl_decision : EligibilityDecision; cl_participates : bool; cl_source : string; cl_reasons : reasons;
  cl_location : LocationResolution; cl_row : option ac_row; cl_station : string; cl_section : string; cl_mileage : string;
  cl_seconds : Z; cl_endpoints : list endpoint; cl_diagnostics : diagnostics; cl_updated : string; cl_tracker : StationaryTracker;
}.

Section train.
Context (main_path_code : string) (ix : indexes) (identity_of : ac_row → option ApIdentityMatch)
  (trackers : list (string * StationaryTracker)) (stationary_exclusion_minutes : Z) (ping_depot_trains_enabled : bool) (now : datetime).

Definition stationary_seconds : Z := Z.max 60 (stationary_exclusion_minutes * 60).

Definition classify_train (key : string) (base_mrs : list vehicle_mr) (online_rows : list ac_row) : res classified :=
  let train_id := match base_mrs with m :: _ => vm_train m | [] => "mesh:" +:+ key end in
  let train_no := match base_mrs, online_rows with m :: _, _ => vm_train_no m | [], r :: _ => ac_train_no r | [], [] => "" end in
  let row := representative_row online_rows in
  let identity := row ≫= identity_of in
  loc ← resolve_location ix row identity;
  '(tracker, seconds) ← stationary_tracker (default no_tracker (alookup train_id trackers)) (lo_ap loc) row now;
  rc ← resolved_location_class main_path_code loc;
  let endpoints := endpoints_of base_mrs online_rows in
  let decision := with_endpoints endpoints (eligibility rc loc row seconds stationary_seconds ping_depot_trains_enabled) in
  Ok (Classified train_id train_no decision (rc_participates rc && String.eqb (ed_class decision) "MAINLINE") (rc_source rc)
        (decision_reason_contract decision (rc_reason rc) (rc_source rc)) loc row
        (place_text (sn_name <$> lo_station loc) ac_station am_station row (lo_identity loc))
        (place_text (sc_name <$> lo_section loc) ac_section am_section row (lo_identity loc))
        (place_text (ap_mileage <$> lo_ap loc) ac_mileage am_mileage row (lo_identity loc))
        seconds endpoints (identity_diagnostics row loc identity train_id now) (isoformat_ms now) tracker).
End train.

(** ** All trains *)
Definition mr_key (m : vehicle_mr) : string := train_key_of (str_or (vm_train m) (vm_train_no m)).
Definition row_key (r : ac_row) : string := train_key_of (ac_train_no r).
Definition grouped {A} (key : A → string) (l : list A) : list (string * list A) := gather key (List.filter (λ x, str_nonempty (key x)) l).

(** The answer of the identity service: [None] of [service] is no service, [None] of
    its answer one of the three errors the code catches here (of SQLite, of the
    system, [RuntimeError]).  The service is taken to raise no other error: any
    other one would leave [classify_all] and is not represented. *)
Definition identity_matches (service : option (list string → option (list (string * ApIdentityMatch)))) (rows : list ac_row)
    : list (string * ApIdentityMatch) :=
  match service, rows with
  | Some resolve, _ :: _ =>
      match resolve (ac_peer_mac <$> rows) with
      | Some matches =>
          foldl (λ d raw, match find_in (mac_key raw) matches with Some m => ainsert (mac_key raw) m d | None => d end) [] (ac_peer_mac <$> rows)
      | None => []
      end
  | _, _ => []
  end.

Definition classify_all (main_path_code : string) (stations : list station) (sections : list section) (aps : list trackside_ap)
    (mrs : list vehicle_mr) (rows : list ac_row) (service : option (list string → option (list (string * ApIdentityMatch))))
    (trackers : list (string * StationaryTracker)) (stationary_exclusion_minutes : Z) (ping_depot_trains_enabled : bool) (now : datetime)
    : res (list classified) :=
  let ix := make_indexes stations sections aps in
  let matches := identity_matches service rows in
  let mr_groups := grouped mr_key mrs in
  let ac_groups := grouped row_key rows in
  mapM (λ key, classify_train main_path_code ix (λ r, alookup (mac_key (ac_peer_mac r)) matches) trackers stationary_exclusion_minutes
                 ping_depot_trains_enabled now key (default [] (alookup key mr_groups)) (default [] (alookup key ac_groups)))
    (sort_by String.leb (remove_dups (mr_groups.*1 ++ ac_groups.*1))).
End eligibility.

(** ** The decision of a train *)
Definition on_line (row : option ac_row) : bool :=
  match row with Some r => String.eqb (ac_data r) "fresh" && String.eqb (ac_online r) "online" | None => false end.
Definition on_main_line (rc : resolved_class) (loc : LocationResolution) : bool :=
  bool_decide (is_Some (lo_ap loc)) && String.eqb (rc_class rc) "MAINLINE" && rc_participates rc.
Definition in_depot (rc : resolved_class) (loc : LocationResolution) : bool :=
  bool_decide (is_Some (lo_ap loc)) && str_mem (rc_class rc) DEPOT_PING_LOCATION_CLASSES.

(** What a decision must be, by these conditions. *)
Record decision_ok (rc : resolved_class) (loc : LocationResolution) (row : option ac_row) (moving depot_ping online target : bool)
    (d : EligibilityDecision) : Prop := {
  dk_mainline : ed_mainline d = on_line row && on_main_line rc loc && online;
  dk_ping : ed_ping d = on_line row && (on_main_line rc loc || (in_depot rc loc && depot_ping)) && target;
  dk_deep : ed_deep d = on_line row && on_main_line rc loc && moving && target;
  dk_ping_out : str_nonempty (ed_ping_out d) = negb (ed_ping d);
  dk_deep_out : str_nonempty (ed_deep_out d) = negb (ed_deep d);
  dk_status : ed_deep d = true → ed_status d = "MAINLINE";
}.

Ltac decision_fields :=
  constructor; unfold on_line, on_main_line, in_depot, excluded;
  cbn [ed_status ed_mainline ed_ping ed_deep ed_ping_out ed_deep_out].

Lemma eligibility_ok rc loc row seconds limit depot :
  decision_ok rc loc row (negb (limit <=? seconds)) depot true true (eligibility rc loc row seconds limit depot).
Proof.
  unfold eligibility, on_line, on_main_line, in_depot. destruct row as [r|]; [|by constructor].
  destruct (str_mem (ac_data r) ["no_data"; "error"]) eqn:Ed; cbv beta iota.
  { assert (String.eqb (ac_data r) "fresh" = false) as Hf.
    { apply String.eqb_neq. intros E. rewrite E in Ed. done. }
    constructor; simpl; rewrite ?Hf; done. }
  destruct (String.eqb (ac_data r) "fresh") eqn:Ef; cbn [negb orb andb]; [|by constructor; simpl; rewrite ?Ef].
  destruct (String.eqb (ac_online r) "online") eqn:Eo; cbn [negb].
  2: { destruct (String.eqb (ac_online r) "stale"); constructor; simpl; rewrite ?Ef, ?Eo; done. }
  apply String.eqb_eq in Eo as Eo'. rewrite Eo'. cbn [String.eqb Ascii.eqb Bool.eqb].
  destruct (bool_decide (is_Some (lo_ap loc))) eqn:Hb; cbn [negb].
  2: { constructor; unfold on_main_line, in_depot; simpl; rewrite ?Ef, ?Eo, ?Hb; done. }
  destruct (str_mem (rc_class rc) DEPOT_PING_LOCATION_CLASSES) eqn:Em.
  - assert (Hm : String.eqb (rc_class rc) "MAINLINE" = false) by (apply String.eqb_neq; intros E; by rewrite E in Em).
    destruct depot; decision_fields; rewrite ?Ef, ?Eo, ?Hb, ?Em, ?Hm; done.
  - destruct (String.eqb_spec (rc_class rc) "UNKNOWN") as [Eu|Eu].
    { decision_fields; rewrite ?Ef, ?Eo, ?Hb, ?Em, ?Eu; done. }
    destruct (String.eqb (rc_class rc) "MAINLINE") eqn:Hm, (rc_participates rc) eqn:Hp; cbn [negb orb];
      [destruct (limit <=? seconds)| | |]; decision_fields; rewrite ?Ef, ?Eo, ?Hb, ?Em, ?Hm, ?Hp; done.
Qed.

Lemma endpoint_target base rows e : en_target (endpoint_of base rows e) = true → online_end (endpoint_of base rows e) = true.
Proof. unfold endpoint_of, online_end. simpl. by intros [H _]%andb_true_iff. Qed.
Lemma target_online base rows :
  existsb en_target (endpoints_of base rows) = true → existsb online_end (endpoints_of base rows) = true.
Proof.
  rewrite !existsb_exists. intros (e & Hin & He). exists e. split; [done|].
  unfold endpoints_of in Hin. apply list_elem_of_In, list_elem_of_fmap in Hin as (x & -> & _). by apply endpoint_target in He.
Qed.
Lemma address_reason_nonempty endpoints : str_nonempty (address_reason endpoints) = true.
Proof.
  unfold address_reason. destruct (List.find _ endpoints) eqn:E; [|done].
  apply find_some in E as [_ H]. by apply andb_true_iff in H as [_ H].
Qed.

(** The statuses for which the ends are not consulted are those of no train on line. *)
Lemma offline_status rc loc row seconds limit depot :
  str_mem (ed_status (eligibility rc loc row seconds limit depot)) ["AC_UNKNOWN"; "AC_STALE"; "OFFLINE"] = negb (on_line row).
Proof.
  unfold eligibility, on_line. destruct row as [r|]; [|done].
  destruct (str_mem (ac_data r) ["no_data"; "error"]) eqn:Ed.
  { assert (String.eqb (ac_data r) "fresh" = false) as Hf by (apply String.eqb_neq; intros E; by rewrite E in Ed).
    by rewrite Hf. }
  destruct (String.eqb (ac_data r) "fresh") eqn:Ef; cbn [negb orb andb]; [|done].
  destruct (String.eqb_spec (ac_online r) "online") as [->|Ho]; cbn [negb].
  2: { by destruct (String.eqb (ac_online r) "stale"). }
  cbn [String.eqb Ascii.eqb Bool.eqb]. unfold depot_status. by repeat (case_match; try done).
Qed.

Lemma with_endpoints_ok rc loc row moving depot base rows d :
  let endpoints := endpoints_of base rows in
  decision_ok rc loc row moving depot true true d →
  str_mem (ed_status d) ["AC_UNKNOWN"; "AC_STALE"; "OFFLINE"] = negb (on_line row) →
  decision_ok rc loc row moving depot (existsb online_end endpoints) (existsb en_target endpoints) (with_endpoints endpoints d).
Proof.
  intros endpoints D Hs. unfold with_endpoints. rewrite Hs, negb_involutive.
  pose proof (target_online base rows) as Ht. fold endpoints in Ht. destruct D as [H1 H2 H3 H4 H5 H6] eqn:ED. clear ED.
  rewrite andb_true_r in H1, H2, H3.
  destruct (existsb online_end endpoints) eqn:Eo, (existsb en_target endpoints) eqn:Et; try (by discriminate Ht);
    cbn [negb andb]; rewrite ?andb_false_r.
  - exact D.
  - destruct (ed_ping d) eqn:Ep; constructor; cbn [ed_mainline ed_ping ed_deep ed_ping_out ed_deep_out ed_status negb];
      rewrite ?andb_true_r, ?andb_false_r, ?address_reason_nonempty, ?Ep; try done.
    rewrite H3. destruct (on_line row), (on_main_line rc loc), moving; done.
  - destruct (on_line row) eqn:El; cbn [negb andb].
    + constructor; cbn [excluded ed_mainline ed_ping ed_deep ed_ping_out ed_deep_out ed_status]; by rewrite ?andb_false_r.
    + rewrite H2. cbn [andb]. constructor; rewrite ?El; done.
Qed.

(** ** Nothing raises, and every matched place is known *)
#[local] Transparent dget dset.
Section totality.
Context (nfkc : string → string).

Lemma own_metadata_lookup k (l d : dict) :
  Forall (λ kv, casefold kv.1 ≠ k) l → dget k (foldl (λ d kv, dset (casefold kv.1) kv.2 d) d l) = dget k d.
Proof.
  intros H. revert d. induction H as [|kv l Hk _ IH]; intros d; simpl; [done|]. rewrite IH. by apply dget_dset_ne.
Qed.
Lemma metadata_participation a : dget "participates_in_mainline" (ap_location_metadata a) = PNone.
Proof.
  unfold ap_location_metadata. rewrite !dget_dset_ne by done. rewrite own_metadata_lookup; [done|].
  apply Forall_forall. intros kv [_ H]%list_elem_of_In%filter_In E. rewrite E in H. done.
Qed.

Lemma runtime_ap_total m : ∃ a, runtime_ap_from_identity nfkc m = Ok a.
Proof.
  unfold runtime_ap_from_identity. case_match; simpl; [by eexists|].
  match goal with |- context [resolve_trackside_ap_location _ ?row] =>
    destruct (resolved_without_participation nfkc row) as (c & source & ->); [reflexivity|] end.
  simpl. by eexists.
Qed.
Lemma find_ap_total ix row identity st sec : ∃ f, find_ap nfkc ix row identity st sec = Ok f.
Proof.
  unfold find_ap. destruct (match_trackside_ap ix row) as [[ap level] reason]. destruct ap, identity as [m|]; try by eexists.
  destruct (am_matched m); [|by eexists]. destruct (runtime_ap_total m) as [a ->]. by eexists.
Qed.
Lemma resolve_location_total ix row identity : ∃ loc, resolve_location nfkc ix row identity = Ok loc.
Proof.
  unfold resolve_location. destruct row as [row|]; [|by eexists]. destruct (row_station nfkc ix row) as [[st level] reason].
  match goal with |- context [find_ap _ _ _ _ ?st ?sec] => destruct (find_ap_total ix row identity st sec) as [f ->] end.
  simpl. repeat case_match; by eexists.
Qed.

Lemma topology_known main metadata a st sec : rc_class (topology_class nfkc main metadata a st sec) ≠ "UNKNOWN".
Proof.
  unfold topology_class. destruct (st ≫= special_station nfkc) as [r|] eqn:E.
  - destruct st as [s|]; [|done]. simpl in E. unfold special_station in E. repeat case_match; by simplify_eq.
  - repeat case_match; done.
Qed.
Lemma resolved_location_total main loc :
  ∃ rc, resolved_location_class nfkc main loc = Ok rc ∧ (is_Some (lo_ap loc) → rc_class rc ≠ "UNKNOWN").
Proof.
  unfold resolved_location_class. destruct (lo_ap loc) as [a|]; [|eexists; split; [done|by intros [? ?]]].
  case_match eqn:E.
  { eexists. split; [done|]. intros _. apply andb_true_iff in E as [E _]. by apply negb_true_iff, String.eqb_neq in E. }
  case_match; [by eexists|].
  destruct (resolved_without_participation nfkc (ap_location_metadata a) (metadata_participation a)) as (c & source & ->). simpl.
  eexists. split; [done|]. intros _. case_match eqn:Ec; [|apply topology_known].
  simpl. intros ->. done.
Qed.
End totality.

Section theorems.
Context (nfkc : string → string) (isoformat_ms : datetime → string) (fromisoformat : string → option datetime).
Notation classify := (classify_all nfkc isoformat_ms fromisoformat).
Notation classify_one := (classify_train nfkc isoformat_ms fromisoformat).

Lemma tracker_total previous ap row now :
  is_Some (dt_offset now) → ∃ ts, stationary_tracker isoformat_ms fromisoformat previous ap row now = Ok ts.
Proof.
  intros [o Ho]. unfold stationary_tracker, elapsed_seconds. rewrite Ho.
  repeat (case_match; try by eexists); simpl; by eexists.
Qed.

Lemma classify_train_spec main ix identity_of trackers minutes depot now key mrs rows c :
  classify_one main ix identity_of trackers minutes depot now key mrs rows = Ok c →
  ∃ rc, resolved_location_class nfkc main (cl_location c) = Ok rc ∧ cl_row c = representative_row rows ∧
    cl_endpoints c = endpoints_of mrs rows ∧
    cl_decision c = with_endpoints (cl_endpoints c)
      (eligibility rc (cl_location c) (cl_row c) (cl_seconds c) (stationary_seconds minutes) depot).
Proof.
  unfold classify_train. intros (loc & _ & ([tk seconds] & _ & (rc & Hrc & [= <-]%Ok_inj)%res_bind_Ok)%res_bind_Ok)%res_bind_Ok.
  exists rc. done.
Qed.

Lemma classified_one main stations sections aps mrs rows service trackers minutes depot now results c :
  classify main stations sections aps mrs rows service trackers minutes depot now = Ok results → c ∈ results →
  ∃ ix identity_of key m r, classify_one main ix identity_of trackers minutes depot now key m r = Ok c.
Proof.
  intros H%mapM_Ok Hc. apply list_elem_of_lookup_1 in Hc as [i Hi].
  destruct (Forall2_lookup_r _ _ _ _ _ H Hi) as (key & _ & He). eauto 6.
Qed.
End theorems.

(** ** Staying at one access point *)
Section stay.
Context (isoformat_ms : datetime → string) (fromisoformat : string → option datetime).
(** A printed time is read back, cut to milliseconds. *)
Definition iso_roundtrip : Prop :=
  ∀ t, isoformat_ms t ≠ "" ∧ fromisoformat (isoformat_ms t) = Some (Datetime (dt_wall t / 1000 * 1000) (dt_offset t)).

(** The tracker of a train after the [n]-th classification and the seconds that it
    reports, while the train is at the access points [aps]. *)
Fixpoint stay (previous : StationaryTracker) (aps : nat → trackside_ap) (rows : nat → option ac_row) (ticks : nat → datetime) (n : nat)
    : res (StationaryTracker * Z) :=
  '(tracker, _) ← (match n with O => Ok (previous, 0) | S n' => stay previous aps rows ticks n' end);
  stationary_tracker isoformat_ms fromisoformat tracker (Some (aps n)) (rows n) (ticks n).

Lemma stay_exact (Hiso : iso_roundtrip) id previous aps rows ticks n :
  (∀ k, ap_id (aps k) = id) → (∀ k, is_Some (dt_offset (ticks k))) → tk_ap previous ≠ "id:" +:+ id →
  stay previous aps rows ticks n =
    Ok (Tracker ("id:" +:+ id) (isoformat_ms (ticks 0%nat)),
        match n with
        | O => 0
        | S _ => Z.max 0 (Z.quot (utc (ticks n) - (utc (ticks 0%nat) - dt_wall (ticks 0%nat) mod 1000)) 1000000)
        end).
Proof.
  intros Hid Ho Hp. induction n as [|n IH].
  - simpl. unfold stationary_tracker. cbn [ap_identity_of]. rewrite Hid.
    rewrite (proj2 (String.eqb_neq _ _) Hp). done.
  - cbn [stay]. rewrite IH. cbn [mbind res_bind]. unfold stationary_tracker. cbn [ap_identity_of tk_ap tk_since]. rewrite Hid.
    destruct (Hiso (ticks 0%nat)) as [Hne Hrt]. rewrite String.eqb_refl. unfold str_nonempty at 2.
    rewrite (proj2 (String.eqb_neq _ _) Hne). change (str_nonempty ("id:" +:+ id)) with true. cbn [negb orb]. rewrite Hrt.
    unfold elapsed_seconds, utc. cbn [dt_offset dt_wall]. destruct (Ho (S n)) as [o ->], (Ho 0%nat) as [o' ->]. cbn [mbind res_bind default].
    unfold Datatypes.id. rewrite (Z.mod_eq (dt_wall (ticks 0%nat)) 1000) by lia.
    replace (dt_wall (ticks 0%nat) / 1000 * 1000 - o') with
      (dt_wall (ticks 0%nat) - o' - (dt_wall (ticks 0%nat) - 1000 * (dt_wall (ticks 0%nat) / 1000))) by lia. reflexivity.
Qed.
End stay.

Lemma excluded_when_long rc loc row seconds limit depot endpoints :
  limit ≤ seconds → ed_deep (with_endpoints endpoints (eligibility rc loc row seconds limit depot)) = false.
Proof.
  intros H. assert (He : ed_deep (eligibility rc loc row seconds limit depot) = false).
  { destruct (eligibility_ok rc loc row seconds limit depot) as [_ _ -> _ _ _].
    apply Z.leb_le in H. rewrite H. cbn [negb]. by rewrite andb_false_r. }
  unfold with_endpoints. by repeat case_match.
Qed.

(** C11: a train that stays at one access point is in the end not collected from any
    more: when the classifications go on, each at least a second after the one before,
    from some classification on the tracker reports at least the threshold, and no
    decision made with what it reports allows a collection, whatever the place, the
    state of the access controller and the ends of the train. *)
Theorem long_stay_excluded isoformat_ms fromisoformat id previous aps rows ticks minutes :
  iso_roundtrip isoformat_ms fromisoformat →
  (∀ k, ap_id (aps k) = id) → tk_ap previous ≠ "id:" +:+ id →
  (∀ k, is_Some (dt_offset (ticks k)) ∧ utc (ticks k) + 1000000 ≤ utc (ticks (S k))) →
  ∃ n, ∀ m, (n ≤ m)%nat →
    ∃ tracker seconds, stay isoformat_ms fromisoformat previous aps rows ticks m = Ok (tracker, seconds) ∧
      stationary_seconds minutes ≤ seconds ∧
      ∀ rc loc row depot endpoints,
        ed_deep (with_endpoints endpoints (eligibility rc loc row seconds (stationary_seconds minutes) depot)) = false.
Proof.
  intros Hiso Hid Hp Ht. assert (Hgrow : ∀ m, utc (ticks 0%nat) + 1000000 * Z.of_nat m ≤ utc (ticks m)).
  { induction m as [|m IH]; [lia|]. destruct (Ht m) as [_ H]. lia. }
  assert (Hpos : 60 ≤ stationary_seconds minutes) by (unfold stationary_seconds; lia).
  exists (Z.to_nat (stationary_seconds minutes)). intros m Hm. eexists _, _. rewrite (stay_exact _ _ Hiso id) by (done || apply Ht).
  split; [reflexivity|]. assert (Hs : stationary_seconds minutes ≤
    match m with O => 0 | S _ => Z.max 0 (Z.quot (utc (ticks m) - (utc (ticks 0%nat) - dt_wall (ticks 0%nat) mod 1000)) 1000000) end).
  { destruct m as [|m]; [lia|]. pose proof (Z.mod_pos_bound (dt_wall (ticks 0%nat)) 1000). specialize (Hgrow (S m)).
    rewrite Z.quot_div_nonneg by lia. apply Z.max_le_iff. right. apply Z.div_le_lower_bound; lia. }
  split; [exact Hs|]. intros. by apply excluded_when_long.
Qed.

Lemma gather_in {A} (key : A → string) l k : k ∈ (gather key l).*1 ↔ k ∈ key <$> l.
Proof.
  induction l as [|x l IH] using rev_ind; [done|]. rewrite gather_snoc, fmap_app, elem_of_app.
  destruct (decide (key x ∈ (gather key l).*1)) as [H|H].
  - rewrite ainsert_fst_in by done. set_solver.
  - rewrite ainsert_fst_notin by done. set_solver.
Qed.
Lemma grouped_in {A} (key : A → string) l k : k ∈ (grouped key l).*1 ↔ k ≠ "" ∧ k ∈ key <$> l.
Proof.
  unfold grouped. rewrite gather_in, !list_elem_of_fmap. setoid_rewrite list_elem_of_In. setoid_rewrite filter_In.
  unfold str_nonempty. setoid_rewrite negb_true_iff. setoid_rewrite String.eqb_neq. naive_solver.
Qed.
Lemma grouped_lookup {A} (key : A → string) l k :
  k ≠ "" → default [] (alookup k (grouped key l)) = List.filter (λ x, String.eqb (key x) k) l.
Proof.
  intros Hk. unfold grouped. rewrite gather_lookup. induction l as [|x l IH]; simpl; [done|].
  destruct (String.eqb_spec (key x) k) as [<-|Hne].
  - unfold str_nonempty at 1. rewrite (proj2 (String.eqb_neq _ _) Hk). simpl. by rewrite String.eqb_refl, IH.
  - destruct (str_nonempty (key x)); simpl; [|done]. by rewrite (proj2 (String.eqb_neq _ _) Hne).
Qed.

Lemma Forall2_impl_in {A B} (P Q : A → B → Prop) l k :
  Forall2 P l k → (∀ x y, x ∈ l → P x y → Q x y) → Forall2 Q l k.
Proof.
  induction 1 as [|x y l k Hxy H IH]; intros HPQ; constructor; [apply HPQ; [by left|done]|].
  apply IH. intros a b Ha. apply HPQ. by right.
Qed.

Lemma eligibility_status rc loc row seconds limit depot :
  (is_Some (lo_ap loc) → rc_class rc ≠ "UNKNOWN") →
  ed_status (eligibility rc loc row seconds limit depot) ≠ "LOCATION_UNDETERMINED".
Proof.
  intros Hk. unfold eligibility. destruct row as [row|]; [|done]. do 3 (case_match; [done|]).
  destruct (bool_decide (is_Some (lo_ap loc))) eqn:Eb; [|done]. apply bool_decide_eq_true in Eb. specialize (Hk Eb). cbn [negb].
  unfold depot_status. case_match; [by repeat case_match|].
  rewrite (proj2 (String.eqb_neq _ _) Hk). by repeat case_match.
Qed.
Lemma with_endpoints_status endpoints d :
  ed_status d ≠ "LOCATION_UNDETERMINED" → ed_status (with_endpoints endpoints d) ≠ "LOCATION_UNDETERMINED".
Proof. intros H. unfold with_endpoints. by repeat case_match. Qed.

(** ** Theorems *)
Section results.
Context (nfkc : string → string) (isoformat_ms : datetime → string) (fromisoformat : string → option datetime).
Notation classify := (classify_all nfkc isoformat_ms fromisoformat).
Notation classify_one := (classify_train nfkc isoformat_ms fromisoformat).

(** C10: the decision of every classified train is the one that its conditions give.
    It counts for the main line just when the controller shows it on line with fresh
    data at a matched access point of the main line and an end is on line; it is pinged
    just when in addition an end has a valid address, or at a depot where that is
    wanted; it may be collected from just when it has not stood at its access point for
    too long.  Whatever is refused has a reason. *)
Theorem eligibility_exact main stations sections aps mrs rows service trackers minutes depot now results :
  classify main stations sections aps mrs rows service trackers minutes depot now = Ok results →
  Forall (λ c, ∃ rc, resolved_location_class nfkc main (cl_location c) = Ok rc ∧
    decision_ok rc (cl_location c) (cl_row c) (cl_seconds c <? stationary_seconds minutes) depot
      (existsb online_end (cl_endpoints c)) (existsb en_target (cl_endpoints c)) (cl_decision c)) results.
Proof.
  intros H. apply Forall_forall. intros c Hc.
  destruct (classified_one _ _ _ _ _ _ _ _ _ _ _ _ _ _ _ _ H Hc) as (ix & identity_of & key & m & r & Hone).
  destruct (classify_train_spec _ _ _ _ _ _ _ _ _ _ _ _ _ _ Hone) as (rc & Hrc & Hrow & Hend & Hd).
  exists rc. split; [done|]. rewrite Hd, Hend, Z.ltb_antisym. apply with_endpoints_ok; [apply eligibility_ok|apply offline_status].
Qed.

(** C12: a classification at a time with an offset never raises.  It has one result
    for every train key of the base data and of the controller, in order, made from
    all radios and all rows of that train. *)
Theorem classification_complete main stations sections aps mrs rows service trackers minutes depot now :
  is_Some (dt_offset now) →
  ∃ keys results,
    classify main stations sections aps mrs rows service trackers minutes depot now = Ok results ∧
    NoDup keys ∧ (∀ k, k ∈ keys ↔ k ≠ "" ∧ (k ∈ mr_key <$> mrs ∨ k ∈ row_key <$> rows)) ∧
    Forall2 (λ k c, classify_one main (make_indexes nfkc stations sections aps)
        (λ r, alookup (mac_key (ac_peer_mac r)) (identity_matches service rows)) trackers minutes depot now k
        (List.filter (λ m, String.eqb (mr_key m) k) mrs) (List.filter (λ r, String.eqb (row_key r) k) rows) = Ok c) keys results.
Proof.
  intros Ho. set (keys := sort_by String.leb (remove_dups ((grouped mr_key mrs).*1 ++ (grouped row_key rows).*1))).
  assert (Hkeys : ∀ k, k ∈ keys ↔ k ≠ "" ∧ (k ∈ mr_key <$> mrs ∨ k ∈ row_key <$> rows)).
  { intros k. unfold keys. rewrite sort_by_in, elem_of_remove_dups, elem_of_app, !grouped_in. naive_solver. }
  unfold classify_all. fold keys. match goal with |- context [mapM ?f keys] => destruct (mapM_total f keys) as [results Hr] end.
  { intros k _. unfold classify_train. cbv zeta.
    match goal with |- context [resolve_location nfkc ?ix ?row ?i] => destruct (resolve_location_total nfkc ix row i) as [loc ->] end.
    cbn [mbind res_bind].
    match goal with |- context [stationary_tracker isoformat_ms fromisoformat ?p ?ap ?row now] =>
      destruct (tracker_total isoformat_ms fromisoformat p ap row now Ho) as [[tk seconds] ->] end.
    cbn [mbind res_bind]. destruct (resolved_location_total nfkc main loc) as (rc & -> & _). cbn [mbind res_bind]. by eexists. }
  exists keys, results. split; [done|]. split; [|split; [done|]].
  - unfold keys. rewrite sort_by_perm. apply NoDup_remove_dups.
  - apply mapM_Ok in Hr. apply (Forall2_impl_in _ _ _ _ Hr). intros k c Hk He.
    apply Hkeys in Hk as [Hne _]. by rewrite !grouped_lookup in He by done.
Qed.

(** A train at a matched access point is never reported as standing at an unknown
    place: the status for that is unreachable, since an access point whose class is
    unknown falls back to the topology of the line and then to the main line. *)
Theorem place_never_undetermined main stations sections aps mrs rows service trackers minutes depot now results :
  classify main stations sections aps mrs rows service trackers minutes depot now = Ok results →
  Forall (λ c, ed_status (cl_decision c) ≠ "LOCATION_UNDETERMINED") results.
Proof.
  intros H. apply Forall_forall. intros c Hc.
  destruct (classified_one _ _ _ _ _ _ _ _ _ _ _ _ _ _ _ _ H Hc) as (ix & identity_of & key & m & r & Hone).
  destruct (classify_train_spec _ _ _ _ _ _ _ _ _ _ _ _ _ _ Hone) as (rc & Hrc & Hrow & Hend & Hd).
  destruct (resolved_location_total nfkc main (cl_location c)) as (rc' & Hrc' & Hk).
  assert (rc' = rc) as -> by congruence. rewrite Hd. by apply with_endpoints_status, eligibility_status.
Qed.
End results.

(** ** A site *)
Definition sample_iso (t : datetime) : string := pretty (Z.pos (encode (dt_wall t / 1000 * 1000, dt_offset t))).
Definition sample_from_iso (s : string) : option datetime :=
  z ← parse_int s;
  match z with
  | Z.pos p => '(w, o) ← decode (A := Z * option Z) p; Some (Datetime w o)
  | _ => None
  end.
Lemma sample_iso_roundtrip : iso_roundtrip sample_iso sample_from_iso.
Proof.
  intros t. unfold sample_iso, sample_from_iso. split.
  - intros E. pose proof (parse_int_pretty (Z.pos (encode (dt_wall t / 1000 * 1000, dt_offset t)))) as H. rewrite E in H. discriminate H.
  - rewrite parse_int_pretty. cbn [mbind option_bind]. by rewrite decode_encode.
Qed.

Definition sample_time (seconds : Z) : datetime := Datetime (seconds * 1000000) (Some 28800000000).
Definition sample_ap : trackside_ap :=
  TracksideAp "ap-1" "AP-01" "00:11:22:33:44:66" "01-东站" "" "K1+200" "MAINLINE" true "DEFAULT_MAINLINE" [] "ap" [].
Definition sample_row (train online mac : string) : ac_row :=
  AcRow "mr" train "CT" "mr" "" "10.0.0.7" online "" "" mac (Some (-60)) "" "" "" "2025-11-03 10:00:00" "fresh".
Definition sample_classify (trackers : list (string * StationaryTracker)) : res (list classified) :=
  classify_all id sample_iso sample_from_iso "MAIN" [Station "s1" "东站" "01-东站" "station" "MAIN" true []] [] [sample_ap]
    [MakeMr "mr-7" (Some 7) "LC07-MR-CT" "列车07" "07" "CT" "10.0.0.7"]
    [sample_row "07" "online" "0011-2233-4466"; sample_row "列车08" "online" "0011-2233-4499"; sample_row "9" "offline" ""]
    None trackers 10 false (sample_time 5000).
Definition sample_results (trackers : list (string * StationaryTracker)) : list classified :=
  match sample_classify trackers with Ok l => l | Err _ => [] end.
Definition summary (c : classified) : string * string * bool * bool := (cl_train c, ed_status (cl_decision c), ed_ping (cl_decision c), ed_deep (cl_decision c)).
Definition long_tracker : list (string * StationaryTracker) := [("列车07", Tracker "id:ap-1" (sample_iso (sample_time 4000)))].

Lemma eligibility_exact_witness :
  (summary <$> sample_results [] = [("列车07", "MAINLINE", true, true); ("mesh:train:08", "AP_UNMATCHED", false, false); ("mesh:train:09", "OFFLINE", false, false)]) ∧
  (summary <$> take 1 (sample_results long_tracker) = [("列车07", "MAINLINE_STATIONARY", true, false)]) ∧
  Forall (λ c, ∃ rc, resolved_location_class id "MAIN" (cl_location c) = Ok rc ∧
    decision_ok rc (cl_location c) (cl_row c) (cl_seconds c <? stationary_seconds 10) false
      (existsb online_end (cl_endpoints c)) (existsb en_target (cl_endpoints c)) (cl_decision c)) (sample_results []).
Proof.
  split; [vm_compute; reflexivity|]. split; [vm_compute; reflexivity|].
  assert (H : sample_classify [] = Ok (sample_results [])) by (vm_compute; reflexivity).
  exact (eligibility_exact _ _ _ _ _ _ _ _ _ _ _ _ _ _ _ H).
Defined.

Lemma place_never_undetermined_witness :
  length (sample_results []) = 3%nat ∧ Forall (λ c, ed_status (cl_decision c) ≠ "LOCATION_UNDETERMINED") (sample_results []).
Proof.
  split; [vm_compute; reflexivity|]. assert (H : sample_classify [] = Ok (sample_results [])) by (vm_compute; reflexivity).
  exact (place_never_undetermined _ _ _ _ _ _ _ _ _ _ _ _ _ _ _ H).
Defined.

Lemma classification_complete_witness :
  is_Some (dt_offset (sample_time 0)) ∧
  ∃ results, classify_all id sample_iso sample_from_iso "MAIN" [] [] [sample_ap] [] [sample_row "07" "online" ""] None [] 10 false (sample_time 0)
    = Ok results ∧ length results = 1%nat.
Proof.
  split; [by eexists|].
  destruct (classification_complete id sample_iso sample_from_iso "MAIN" [] [] [sample_ap] [] [sample_row "07" "online" ""] None [] 10 false
    (sample_time 0) ltac:(by eexists)) as (keys & results & H & _ & _ & _).
  exists results. split; [exact H|]. vm_compute in H. by injection H as <-.
Defined.

Lemma long_stay_excluded_witness :
  iso_roundtrip sample_iso sample_from_iso ∧ ∃ n, ∀ m, (n ≤ m)%nat →
    ∃ tracker seconds, stay sample_iso sample_from_iso no_tracker (λ _, sample_ap) (λ _, None) (λ k, sample_time (Z.of_nat k)) m = Ok (tracker, seconds) ∧
      stationary_seconds 10 ≤ seconds ∧
      ∀ rc loc row depot endpoints,
        ed_deep (with_endpoints endpoints (eligibility rc loc row seconds (stationary_seconds 10) depot)) = false.
Proof.
  split; [exact sample_iso_roundtrip|].
  apply (long_stay_excluded _ _ "ap-1"); [exact sample_iso_roundtrip|done|done|].
  intros k. split; [by eexists|]. unfold utc, sample_time. simpl. lia.
Defined.
