(* ===== verification/PyFloat.v ===== *)
(** * Floating-point numbers

    Python's [float] is the IEEE binary64 format, for which the standard library
    has an executable specification.  Here are the operations of the optical
    rules on it: the value of a decimal text (correctly rounded), comparison,
    [round(x, 2)] and the formats [.1f] and [.2f]; and the order of the numbers
    as an order on triples of integers. *)

From Stdlib Require Import SpecFloat.
From S2P Require Import Prelude PyVal PyText PyRe ApNormalizers.

Abbreviation float := spec_float.
Definition PREC : Z := 53.
Definition EMAX : Z := 1024.

Definition fadd : float → float → float := SFadd PREC EMAX.
Definition fsub : float → float → float := SFsub PREC EMAX.
Definition fabs : float → float := SFabs.
Definition fltb : float → float → bool := SFltb.
Definition fleb : float → float → bool := SFleb.
Definition ffinite (x : float) : bool :=
  match x with S754_zero _ | S754_finite _ _ _ => true | _ => false end.
Definition not_nan (x : float) : Prop := x ≠ S754_nan.

(** The number nearest to [m / 10 ^ k], ties to even. *)
Definition float_of_scaled (neg : bool) (m : Z) (k : nat) : float :=
  match m with
  | Zpos _ =>
      let '(q, e, l) := SFdiv_core_binary PREC EMAX m 0 (10 ^ Z.of_nat k) 0 in
      binary_round_aux PREC EMAX neg q e l
  | _ => S754_zero neg
  end.

(** [float(text)] of a text [[-+]?\d+(\.\d+)?]. *)
Definition float_of_text (s : string) : option float :=
  let '(neg, digits) :=
    match s with
    | String c s' => if Ascii.eqb c "-" then (true, s') else if Ascii.eqb c "+" then (false, s') else (false, s)
    | "" => (false, "")
    end in
  d ← parse_decimal digits; Some (float_of_scaled neg (d_num d) (d_scale d)).

(** [re.search(r"[-+]?\d+(?:\.\d+)?", text)] and [float] of the match. *)
Definition NUMBER : re :=
  seqs [maybe (RSet (any_of ["-"; "+"])); plus d_class; maybe (seqs [RText "."; plus d_class])].
Definition number_in (s : string) : option float :=
  m ← re_search false NUMBER s; float_of_text (group0 m).

(** The exact value times [10 ^ k], rounded to an integer, ties to even. *)
Definition scaled_int (k : nat) (m : positive) (e : Z) : Z :=
  let n := 10 ^ Z.of_nat k * Zpos m in
  if 0 <=? e then n * 2 ^ e else round_half_even n (2 ^ (- e)).

(** [round(x, 2)]. *)
Definition round2 (x : float) : float :=
  match x with
  | S754_finite s m e => float_of_scaled s (scaled_int 2 m e) 2
  | _ => x
  end.

(** [f"{x:.kf}"] for [k] of at least one. *)
Definition format_fixed (k : nat) (x : float) : string :=
  let sign (s : bool) := if s then "-" else "" in
  let digits (n : Z) :=
    let unit := 10 ^ Z.of_nat k in
    pretty (n / unit) +:+ "." +:+ zfill k (pretty (n mod unit)) in
  match x with
  | S754_zero s => sign s +:+ digits 0
  | S754_finite s m e => sign s +:+ digits (scaled_int k m e)
  | S754_infinity s => sign s +:+ "inf"
  | S754_nan => "nan"
  end.

Example minus_13_9 : number_in "Rx: -13.90dBm" = Some (S754_finite true 7825004352556237 (-49)).
Proof. vm_compute. reflexivity. Qed.
Example tenths : fadd (float_of_scaled false 1 1) (float_of_scaled false 2 1) = S754_finite false 5404319552844596 (-54).
Proof. vm_compute. reflexivity. Qed.
Example round_ties : map (λ x, format_fixed 2 (round2 x)) [float_of_scaled false 2675 3; float_of_scaled true 125 3; float_of_scaled true 1699 2]
  = ["2.67"; "-0.12"; "-16.99"].
Proof. vm_compute. reflexivity. Qed.

(** ** The order

    A number that is not a NaN has a key; the comparison is the lexicographic
    order of the keys. *)
Definition fkey (x : float) : Z * Z * Z :=
  match x with
  | S754_finite false m e => (1, e, Zpos m)
  | S754_finite true m e => (-1, - e, - Zpos m)
  | S754_infinity false => (2, 0, 0)
  | S754_infinity true => (-2, 0, 0)
  | S754_zero _ | S754_nan => (0, 0, 0)
  end.
Definition key_lt (a b : Z * Z * Z) : Prop :=
  a.1.1 < b.1.1 ∨ a.1.1 = b.1.1 ∧ (a.1.2 < b.1.2 ∨ a.1.2 = b.1.2 ∧ a.2 < b.2).

Lemma compare_key x y :
  not_nan x → not_nan y →
  match SFcompare x y with
  | Some Lt => key_lt (fkey x) (fkey y)
  | Some Eq => fkey x = fkey y
  | Some Gt => key_lt (fkey y) (fkey x)
  | None => False
  end.
Proof.
  unfold not_nan. intros Hx Hy. destruct x as [[]|[]| |[] m e], y as [[]|[]| |[] m' e']; try congruence; simpl;
    unfold key_lt; simpl; try lia; try done;
    change (Pos.compare_cont Eq m m') with (Pos.compare m m');
    destruct (Z.compare_spec e e'); simpl; try lia; subst;
    destruct (Pos.compare_spec m m'); simpl; subst; auto with lia.
Qed.

Lemma fltb_key x y : not_nan x → not_nan y → (fltb x y = true ↔ key_lt (fkey x) (fkey y)).
Proof.
  intros Hx Hy. unfold fltb, SFltb. pose proof (compare_key x y Hx Hy) as H. revert H.
  unfold key_lt. destruct (fkey x) as [[a b] c], (fkey y) as [[a' b'] c']. simpl.
  destruct (SFcompare x y) as [[]|]; intros H; split; intros; simplify_eq; try done; try lia.
Qed.
Lemma fleb_key x y : not_nan x → not_nan y → (fleb x y = true ↔ ¬ key_lt (fkey y) (fkey x)).
Proof.
  intros Hx Hy. unfold fleb, SFleb. pose proof (compare_key x y Hx Hy) as H. revert H.
  unfold key_lt. destruct (fkey x) as [[a b] c], (fkey y) as [[a' b'] c']. simpl.
  destruct (SFcompare x y) as [[]|]; intros H; split; intros; simplify_eq; try done; try lia.
Qed.

Lemma fleb_nan x y : fleb x y = true → not_nan x ∧ not_nan y.
Proof. unfold not_nan. destruct x as [[]|[]| |[] m e], y as [[]|[]| |[] m' e']; simpl; try done; intros _; split; congruence. Qed.
Lemma fltb_nan x y : fltb x y = true → not_nan x ∧ not_nan y.
Proof. unfold not_nan. destruct x as [[]|[]| |[] m e], y as [[]|[]| |[] m' e']; simpl; try done; intros _; split; congruence. Qed.

Lemma fleb_trans x y z : fleb x y = true → fleb y z = true → fleb x z = true.
Proof.
  intros H1 H2. destruct (fleb_nan _ _ H1), (fleb_nan _ _ H2). revert H1 H2. rewrite !fleb_key by done. unfold key_lt.
  destruct (fkey x) as [[a b] c], (fkey y) as [[a' b'] c'], (fkey z) as [[a'' b''] c'']. simpl. lia.
Qed.
Lemma fleb_ltb_trans x y z : fleb x y = true → fltb y z = true → fltb x z = true.
Proof.
  intros H1 H2. destruct (fleb_nan _ _ H1), (fltb_nan _ _ H2). revert H1 H2. rewrite fleb_key, !fltb_key by done. unfold key_lt.
  destruct (fkey x) as [[a b] c], (fkey y) as [[a' b'] c'], (fkey z) as [[a'' b''] c'']. simpl. lia.
Qed.
Lemma fltb_negb x y : not_nan x → not_nan y → fltb x y = negb (fleb y x).
Proof.
  intros Hx Hy. apply eq_true_iff_eq. rewrite negb_true_iff, <- not_true_iff_false, fleb_key, fltb_key by done.
  unfold key_lt. destruct (fkey x) as [[a b] c], (fkey y) as [[a' b'] c']. simpl. lia.
Qed.

(** ** No operation here makes a NaN *)
Lemma shr_1_nonneg r : 0 ≤ shr_m r → 0 ≤ shr_m (shr_1 r).
Proof. destruct r as [[|[]|] r s]; simpl; lia. Qed.
Lemma iter_nonneg p r : 0 ≤ shr_m r → 0 ≤ shr_m (SpecFloat.iter_pos shr_1 p r).
Proof. revert r. induction p; intros r H; simpl; auto using shr_1_nonneg. Qed.
Lemma shr_fexp_nonneg m e l : 0 ≤ m → 0 ≤ shr_m (shr_fexp PREC EMAX m e l).1.
Proof.
  intros Hm. unfold shr_fexp, shr.
  assert (0 ≤ shr_m (shr_record_of_loc m l)) by (destruct l as [|[]]; done).
  destruct (fexp PREC EMAX (Zdigits2 m + e) - e); simpl; auto using iter_nonneg.
Qed.
Lemma rounded_not_nan s m e l : 0 ≤ m → not_nan (binary_round_aux PREC EMAX s m e l).
Proof.
  intros Hm. unfold binary_round_aux.
  pose proof (shr_fexp_nonneg m e l Hm) as H1. destruct (shr_fexp PREC EMAX m e l) as [r1 e1]. simpl in H1.
  set (n := round_nearest_even _ _).
  assert (0 ≤ n) by (subst n; destruct (loc_of_shr_record r1) as [|[]]; simpl; try case_match; lia).
  pose proof (shr_fexp_nonneg n e1 loc_Exact) as H2. destruct (shr_fexp PREC EMAX n e1 loc_Exact) as [r2 e2]. simpl in H2.
  destruct (shr_m r2) eqn:E; [done|case_match; done|lia].
Qed.
Lemma scaled_not_nan s m k : not_nan (float_of_scaled s m k).
Proof.
  unfold float_of_scaled. destruct m as [|p|p]; [done| |done].
  unfold SFdiv_core_binary. set (m' := match _ with Z0 => Z.pos p | Zpos _ => _ | Zneg _ => 0 end).
  assert (0 ≤ m') by (subst m'; case_match; [done| |done]; apply Z.shiftl_nonneg; lia).
  pose proof (Z_div_mod m' (10 ^ Z.of_nat k)) as Hdiv.
  assert (10 ^ Z.of_nat k > 0) as Hk by (apply Z.lt_gt, Z.pow_pos_nonneg; lia). specialize (Hdiv Hk).
  destruct (Z.div_eucl m' (10 ^ Z.of_nat k)) as [q r]. apply rounded_not_nan. nia.
Qed.
Lemma float_of_text_not_nan s x : float_of_text s = Some x → not_nan x.
Proof.
  unfold float_of_text. case_match. intros (d & _ & Hx)%bind_Some. simplify_eq. apply scaled_not_nan.
Qed.
Lemma number_not_nan s x : number_in s = Some x → not_nan x.
Proof. unfold number_in. intros (m & _ & H)%bind_Some. eauto using float_of_text_not_nan. Qed.
Lemma round2_not_nan x : not_nan x → not_nan (round2 x).
Proof. destruct x; simpl; try done. intros _. apply scaled_not_nan. Qed.
Lemma binary_round_not_nan s m e : not_nan (binary_round PREC EMAX s m e).
Proof. unfold binary_round. destruct (shl_align m e _). by apply rounded_not_nan. Qed.
Lemma fadd_not_nan x y : not_nan x → ffinite y = true → not_nan (fadd x y).
Proof.
  unfold not_nan, fadd. destruct x as [[]|[]| |s m e], y as [[]|[]| |s' m' e']; simpl; try done; intros _ _.
  unfold binary_normalize. case_match; [done|..]; apply binary_round_not_nan.
Qed.
