(* ===== verification/OpticalHealth.v ===== *)
(** * Optical health

    core/optical_severity_engine.py (the severity of a received power, from the
    thresholds of the module, derived ones, a default profile or what a ZTE
    device reports), core/optical_rx_threshold.py (the business threshold of
    -13.90 dBm on both ends of a link) and core/sources/ap_business_optical.py
    (the reasons in words).  A record is a dictionary; powers are binary64
    numbers read from the texts of the devices. *)

From Stdlib Require Import SpecFloat.
From S2P Require Import Prelude PyVal PyText PyRe ApNormalizers PyFloat.

(** ** Constants *)
Definition DERIVED_WARNING_DELTA_DB : float := float_of_scaled false 201 2.
Definition MAINTENANCE_MARGIN_DB : float := float_of_scaled false 30 1.
Definition OPTICAL_HISTORY_POWER_DELTA_DB : float := float_of_scaled false 20 2.
Definition AP_DEFAULT_ALARM_LOW : float := float_of_scaled true 1900 2.
Definition AP_DEFAULT_WARNING_LOW : float := float_of_scaled true 1699 2.
Definition OPTICAL_BUSINESS_RX_MIN_DBM : float := float_of_scaled true 1390 2.
Definition NO_LIGHT_DBM : float := float_of_scaled true 35 0.
Definition ZTE_NO_LIGHT_REASON : string := "设备未返回接收光功率".
Definition ZTE_NO_MODULE_FIELDS : list string :=
  ["rx_power"; "rx_power_dbm"; "tx_power"; "tx_power_dbm"; "temperature"; "temperature_c"; "temperature_celsius";
   "voltage"; "voltage_v"; "supply_voltage_1_v"; "supply_voltage_2_v"; "bias_current"; "tx_bias_ma"; "tx_bias_current_ma";
   "module_type"; "module_model"; "module_serial_number"; "module_vendor"; "vendor_name"; "wavelength"; "wavelength_nm";
   "tx_wavelength_nm"; "rx_wavelength_nm"; "transmission_distance"; "transfer_distance_smf_m"; "connector";
   "connector_type"; "transceiver_type"; "transceiver_mode"; "directionality"; "ethernet_compliance";
   "vendor_part_number"; "vendor_revision"; "vendor_serial_number"; "authentication"; "authentication_code";
   "product_serial_number"; "product_sn"; "product_date"; "speed"; "receiver_sensitivity_dbm"; "receiver_overload_dbm";
   "rx_low_alarm"; "rx_low_alarm_dbm"; "rx_low_threshold_dbm"; "rx_high_alarm"; "rx_high_alarm_dbm";
   "rx_high_threshold_dbm"; "tx_low_alarm"; "tx_low_alarm_dbm"; "tx_low_threshold_dbm"; "tx_high_alarm";
   "tx_high_alarm_dbm"; "tx_high_threshold_dbm"; "rx_low_warning"; "rx_high_warning"; "tx_low_warning"; "tx_high_warning"].

Definition SEVERITY_RANK : list (string * Z) :=
  [("unknown", 0); ("not_collected", 0); ("not_applicable", 0); ("skipped", 0); ("offline", 0); ("no_module", 0); ("", 0);
   ("normal", 1); ("notice", 2); ("warning", 3); ("alarm", 4); ("abnormal", 4); ("link_abnormal", 5); ("link_down", 5);
   ("no_light", 6); ("unverified", 0); ("dom_unavailable", 0); ("collection_failed", 0)].
Definition severity_rank (s : string) : Z := default 0 (alookup s SEVERITY_RANK).

Definition OPTICAL_HEALTH_WARNING_STATUSES : list string := ["notice"; "warning"; "alarm"; "abnormal"].
Definition OPTICAL_HEALTH_CRITICAL_STATUSES : list string := ["critical"; "link_abnormal"; "link_down"; "no_light"].
Definition OPTICAL_HEALTH_NO_DATA_STATUSES : list string :=
  [""; "unknown"; "not_collected"; "not_applicable"; "skipped"; "offline"; "no_module"; "unverified"; "dom_unavailable";
   "collection_failed"].
(** [timedelta(hours=24)] in microseconds. *)
Definition OPTICAL_DATA_STALE_AFTER : Z := 24 * 3600 * 1000000.

Definition OPTICAL_STATUS_LABELS_ZH : list (string * string) :=
  [("normal", "正常"); ("notice", "偏低关注"); ("warning", "提示告警"); ("alarm", "一般告警"); ("abnormal", "光衰大");
   ("link_abnormal", "链路异常"); ("link_down", "链路断开"); ("no_light", "无光"); ("no_module", "无光模块");
   ("skipped", "未检查"); ("not_collected", "未采集"); ("not_applicable", "不适用"); ("unknown", "未知");
   ("unverified", "状态未知/第三方模块"); ("dom_unavailable", "不支持 DOM"); ("collection_failed", "采集失败/设备不可达")].
Definition OPTICAL_STATUS_LABELS_EN : list (string * string) :=
  [("normal", "Normal"); ("notice", "Notice"); ("warning", "Warning"); ("alarm", "Alarm"); ("abnormal", "High Attenuation");
   ("link_abnormal", "Link Abnormal"); ("link_down", "Link Down"); ("no_light", "No Light"); ("no_module", "No Module");
   ("skipped", "Skipped"); ("not_collected", "Not Collected"); ("not_applicable", "Not Applicable"); ("unknown", "Unknown");
   ("unverified", "Unverified / Third-party Module"); ("dom_unavailable", "DOM Unavailable");
   ("collection_failed", "Collection Failed / Device Unreachable")].

(** ** Reading fields *)
Definition first_field (record : dict) (keys : list string) : pyval :=
  default PNone (List.find (λ v, negb (blank v)) ((λ k, dget k record) <$> keys)).
Definition to_float (value : pyval) : option float :=
  match value with PNone => None | _ => number_in (py_str value) end.
Definition first_float (record : dict) (keys : list string) : option float := to_float (first_field record keys).
(** [str(value or "").strip().casefold()]. *)
Definition status_text (value : pyval) : string := casefold (strip (text_or_empty value)).

Definition is_false (value : pyval) : bool :=
  if blank value then false
  else str_mem (casefold (strip (py_str value))) ["0"; "false"; "no"; "n"; "none"; "null"; "absent"; "not_present"].
Definition is_true (value : pyval) : bool :=
  if blank value then false
  else str_mem (casefold (strip (py_str value))) ["1"; "true"; "yes"; "y"; "present"; "no_module"].
Definition is_optical_module_absent (record : dict) : bool :=
  is_false (first_field record ["module_present"; "has_module"]) || is_true (first_field record ["no_module"]) ||
  existsb (λ field, str_mem (status_text (dget field record))
      ["no_module"; "no module"; "no-module"; "no transceiver"; "no-transceiver"; "无光模块"; "未插光模块"; "光模块不存在"])
    ["module_status"; "transceiver_status"; "optical_alarm_status"; "status"].

(** ** The severity of a received power *)
Record OpticalSeverityResult := Severity {
  os_severity : string; os_reason : option string; os_rx : option float; os_alarm_low : option float;
  os_warning_low : option float; os_normal_line : option float; os_source : string; os_label : string;
}.
Definition plain_severity (severity reason : string) (rx : option float) : OpticalSeverityResult :=
  Severity severity (Some reason) rx None None None "missing" "threshold missing".

Definition source_label (device_type warning_source : string) : string :=
  let ap := String.eqb device_type "ap" in
  if String.eqb warning_source "native" then if ap then "AP native" else "switch native"
  else if String.eqb warning_source "derived" then if ap then "AP derived" else "switch derived"
  else if String.eqb warning_source "default_profile" then if ap then "AP default profile" else "default profile"
  else "threshold missing".

(** The thresholds in force: alarm, warning, and where the warning is from. *)
Definition thresholds (record : dict) (device_type : string) : option float * option float * string :=
  let alarm_low := first_float record ["alarm_low"; "rx_low_alarm"] in
  let native := first_float record ["warning_low"; "rx_low_warning"] in
  let '(warning_low, warning_source) :=
    match native, alarm_low with
    | Some w, _ => (Some w, "native")
    | None, Some a => (Some (round2 (fadd a DERIVED_WARNING_DELTA_DB)), "derived")
    | None, None => (None, "missing")
    end in
  if String.eqb device_type "ap" && (bool_decide (alarm_low = None) || bool_decide (warning_low = None))
  then (Some (default AP_DEFAULT_ALARM_LOW alarm_low), Some (default AP_DEFAULT_WARNING_LOW warning_low), "default_profile")
  else (alarm_low, warning_low, warning_source).

(** The band of a power. *)
Definition severity_band (rx : float) (alarm_low : option float) (warning_low normal_line : float) : string * string :=
  if fleb normal_line rx then ("normal", "RX power is above maintenance normal line")
  else if fleb warning_low rx && fltb rx normal_line then ("notice", "RX power is below maintenance normal line")
  else if match alarm_low with None => true | Some a => fleb a rx && fltb rx warning_low end
  then ("warning", "RX power is between alarm low and warning low threshold")
  else ("alarm", "RX power below alarm low threshold").

Definition compute_optical_severity (record : dict) : OpticalSeverityResult :=
  if is_optical_module_absent record then plain_severity "no_module" "Optical module is not present" None
  else
    let no_light rx := plain_severity "no_light" "RX power is missing or <= -35 dBm" rx in
    match first_float record ["rx_power"; "switch_rx_power"; "ap_rx_power"] with
    | None => no_light None
    | Some rx =>
        if fleb rx NO_LIGHT_DBM then no_light (Some rx)
        else if String.eqb (upper (strip (text_or_empty (first_field record ["port_status"; "switch_port_status"; "ap_port_status"])))) "DOWN"
        then plain_severity "link_abnormal" "Port is DOWN" (Some rx)
        else
          let device_type := status_text (first_field record ["device_type"; "source_type"]) in
          let '(alarm_low, warning_low, warning_source) := thresholds record device_type in
          let label := source_label device_type warning_source in
          match warning_low with
          | None => Severity "unknown" (Some "RX threshold is missing") (Some rx) alarm_low None None warning_source label
          | Some w =>
              let normal_line := round2 (fadd w MAINTENANCE_MARGIN_DB) in
              let '(severity, reason) := severity_band rx alarm_low w normal_line in
              Severity severity (Some reason) (Some rx) alarm_low (Some w) (Some normal_line) warning_source label
          end
    end.

(** ** ZTE devices *)
Definition over (x limit : option float) (worse : float → float → bool) : bool :=
  match x, limit with Some v, Some t => worse v t | _, _ => false end.

Definition zte_result (severity reason : string) (rx alarm_low : option float) (source label : string) : OpticalSeverityResult :=
  Severity severity (Some reason) rx alarm_low None None source label.

Definition compute_zte_optical_severity (record : dict) : OpticalSeverityResult :=
  let reported_status := status_text (first_field record ["device_reported_status"; "vendor_status"; "module_status"; "status"]) in
  if is_optical_module_absent record || is_false (first_field record ["module_online"]) || String.eqb reported_status "offline"
  then zte_result "no_module" "设备返回 offline，未检测到光模块" None None "zte_device" "ZTE device reported"
  else
    let rx_power := first_float record ["rx_power"; "rx_power_dbm"] in
    if String.eqb reported_status "unknown" || bool_decide (rx_power = None)
    then zte_result "no_light" ZTE_NO_LIGHT_REASON None None "zte_device" "ZTE device reported"
    else
      let rx_low := first_float record ["rx_low_alarm"; "rx_low_alarm_dbm"] in
      let rx_high := first_float record ["rx_high_alarm"; "rx_high_alarm_dbm"] in
      let tx_power := first_float record ["tx_power"; "tx_power_dbm"] in
      let tx_low := first_float record ["tx_low_alarm"; "tx_low_alarm_dbm"] in
      let tx_high := first_float record ["tx_high_alarm"; "tx_high_alarm_dbm"] in
      let abnormal (what side : string) (x limit : option float) : OpticalSeverityResult :=
        zte_result "abnormal"
          (what +:+ " power " +:+ format_fixed 1 (default S754_nan x) +:+ " dBm is " +:+ side +:+ " alarm threshold "
           +:+ format_fixed 1 (default S754_nan limit) +:+ " dBm") rx_power rx_low "zte_native" "ZTE native threshold" in
      if over rx_power rx_low fltb then abnormal "RX" "below module low" rx_power rx_low
      else if over rx_power rx_high (λ v t, fltb t v) then abnormal "RX" "above module high" rx_power rx_high
      else if over tx_power tx_low fltb then abnormal "TX" "below module low" tx_power tx_low
      else if over tx_power tx_high (λ v t, fltb t v) then abnormal "TX" "above module high" tx_power tx_high
      else
        let complete := bool_decide (is_Some rx_low) && bool_decide (is_Some rx_high) &&
          (bool_decide (tx_power = None) || bool_decide (is_Some tx_low) && bool_decide (is_Some tx_high)) in
        if complete || String.eqb reported_status "normal"
        then zte_result "normal" "ZTE optical power is within module alarm thresholds" rx_power rx_low
               (if complete then "zte_native" else "zte_device")
               (if complete then "ZTE native threshold" else "ZTE device reported")
        else zte_result "unknown" "Device did not report optical power thresholds; threshold evaluation is unavailable"
               rx_power None "missing" "ZTE threshold missing".

Definition is_zte_optical_record (record : dict) : bool :=
  String.eqb (status_text (dget "device_vendor" record)) "zte" ||
  starts_with "zte_" (status_text (dget "threshold_source" record)).

(** The fields of the frozenset are cleared in some order, which shows only in
    the position of fields the record did not have. *)
Definition clear_fields (fields : list string) (record : dict) : dict := foldl (λ d f, dset f PNone d) record fields.
Definition normalize_zte_optical_record (record : dict) : dict :=
  let result := compute_zte_optical_severity record in
  let status := os_severity result in
  let present := PBool (negb (String.eqb status "no_module")) in
  let normalized := dset "severity_reason" (match os_reason result with Some r => PStr r | None => PNone end)
    (dset "module_online" present (dset "module_present" present (dset "normalized_status" (PStr (upper status))
    (dset "status" (PStr status) (dset "device_vendor" (PStr "ZTE") record))))) in
  if String.eqb status "no_module" then dset "dom_supported" (PBool false) (clear_fields ZTE_NO_MODULE_FIELDS normalized)
  else if String.eqb status "no_light" then dset "dom_supported" (PBool false) normalized
  else normalized.

(** ** Changes of the recorded state *)
Definition history_text (value : pyval) : string :=
  match value with
  | PNone => ""
  | PBool b => if b then "true" else "false"
  | _ => casefold (strip (py_str value))
  end.
Definition optical_history_power_changed (previous current : pyval) : bool :=
  match to_float previous, to_float current with
  | Some p, Some c => fleb OPTICAL_HISTORY_POWER_DELTA_DB (fabs (fsub c p))
  | _, _ => negb (String.eqb (history_text previous) (history_text current))
  end.
Definition HISTORY_STATE_FIELDS : list string :=
  ["module_present"; "module_model"; "module_serial_number"; "module_vendor"; "wavelength"; "transmission_distance";
   "connector_type"; "device_vendor"; "device_reported_status"; "threshold_source"; "transceiver_mode";
   "vendor_part_number"; "vendor_revision"; "vendor_serial_number"; "status"; "rx_low_alarm"; "rx_high_alarm";
   "tx_low_alarm"; "tx_high_alarm"; "rx_low_warning"; "rx_high_warning"; "tx_low_warning"; "tx_high_warning"].
Definition optical_history_state_changed (previous current : dict) : bool :=
  existsb (λ f, negb (String.eqb (history_text (dget f previous)) (history_text (dget f current)))) HISTORY_STATE_FIELDS ||
  existsb (λ f, optical_history_power_changed (dget f previous) (dget f current)) ["rx_power"; "tx_power"].

(** ** Classes of a status *)
Definition worse_optical_severity (l r : string) : string := if severity_rank r <=? severity_rank l then l else r.
Definition classify_optical_health (status : pyval) : string :=
  let normalized := status_text status in
  if str_mem normalized OPTICAL_HEALTH_CRITICAL_STATUSES then "critical"
  else if str_mem normalized OPTICAL_HEALTH_WARNING_STATUSES then "warning"
  else if str_mem normalized OPTICAL_HEALTH_NO_DATA_STATUSES then "no_data"
  else "normal".
Definition is_optical_health_abnormal (status : pyval) : bool :=
  str_mem (classify_optical_health status) ["warning"; "critical"].

Definition display_optical_status (status : pyval) (language : pyval) : string :=
  let raw := strip (text_or_empty (por status (PStr "unknown"))) in
  let labels := if starts_with "en" (casefold (text_or_empty language)) then OPTICAL_STATUS_LABELS_EN else OPTICAL_STATUS_LABELS_ZH in
  default (str_or raw (default "" (alookup "unknown" labels))) (alookup raw labels).

Section freshness.
Context (fromisoformat : string → option datetime).

Definition parse_timestamp (value : pyval) : option datetime :=
  let text := strip (text_or_empty value) in
  if String.eqb text "" then None
  else parsed ← fromisoformat (replace "Z" "+00:00" text);
       Some (match dt_offset parsed with Some _ => parsed | None => Datetime (dt_wall parsed) (Some 0) end).
Definition classify_optical_freshness (timestamps : list pyval) (now : datetime) (stale_after : Z) : string :=
  match omap parse_timestamp timestamps with
  | [] => "unknown"
  | t :: valid =>
      let newest := foldl (λ m v, Z.max m (utc v)) (utc t) valid in
      if stale_after <? utc now - newest then "stale" else "fresh"
  end.
End freshness.

(** ** The business threshold on both ends (optical_rx_threshold.py) *)
Definition STATUS_ALIASES : list (string * string) :=
  [("正常", "normal"); ("偏低关注", "notice"); ("提示告警", "warning"); ("一般告警", "alarm"); ("严重告警", "critical");
   ("光衰大", "abnormal"); ("功率异常", "abnormal"); ("链路异常", "link_abnormal"); ("链路断开", "link_down");
   ("无光", "no_light"); ("无光模块", "no_module"); ("不适用", "not_applicable"); ("未采集", "not_collected")].
Definition FAULT_STATUSES : list string := ["critical"; "link_abnormal"; "link_down"; "no_light"].
Definition PRESERVED_NO_DATA_STATUSES : list string :=
  ["not_applicable"; "no_module"; "unverified"; "dom_unavailable"; "skipped"; "offline"].
Definition BUSINESS_STATUS_RANK : list (string * Z) :=
  [("unknown", 0); ("not_collected", 0); ("not_applicable", 0); ("no_module", 0); ("dom_unavailable", 0); ("skipped", 0);
   ("offline", 0); ("normal", 1); ("notice", 2); ("warning", 3); ("alarm", 4); ("abnormal", 4); ("critical", 5);
   ("link_abnormal", 5); ("link_down", 5); ("no_light", 6)].
Definition business_rank (s : string) : Z := default 0 (alookup s BUSINESS_STATUS_RANK).

Record OpticalRxEvaluation := RxEvaluation { rx_status : string; rx_dbm : option float; rx_threshold : float }.
Record DualOpticalRxEvaluation := DualEvaluation {
  de_ap : OpticalRxEvaluation; de_switch : OpticalRxEvaluation; de_status : string; de_threshold : float;
}.

Definition normalize_optical_rx_status (value : pyval) : string :=
  let text := status_text value in default text (alookup text STATUS_ALIASES).
Definition parse_optical_rx_dbm (value : pyval) : option float :=
  match value with
  | PNone | PBool _ => None
  | _ => parsed ← number_in (py_str value); if ffinite parsed then Some parsed else None
  end.

Definition evaluate_optical_rx (rx reported_status data_freshness : pyval) (threshold : float) : OpticalRxEvaluation :=
  let value := parse_optical_rx_dbm rx in
  if String.eqb (status_text data_freshness) "stale" then RxEvaluation "unknown" value threshold
  else
    let status := normalize_optical_rx_status reported_status in
    if str_mem status FAULT_STATUSES || str_mem status PRESERVED_NO_DATA_STATUSES then RxEvaluation status value threshold
    else if match value with Some v => fltb v threshold | None => false end then RxEvaluation "abnormal" value threshold
    else if is_optical_health_abnormal (PStr status) then RxEvaluation status value threshold
    else match value with
         | Some _ => RxEvaluation "normal" value threshold
         | None => RxEvaluation "unknown" None threshold
         end.

(** [max(l, key=...)]: the first of the greatest. *)
Definition max_by (key : string → Z) (first : string) (l : list string) : string :=
  foldl (λ m x, if key m <? key x then x else m) first l.
Definition combine_optical_rx_status (ap_status switch_status : pyval) : string :=
  let statuses := normalize_optical_rx_status <$> [ap_status; switch_status] in
  match List.filter (λ s, is_optical_health_abnormal (PStr s)) statuses with
  | s :: rest => max_by business_rank s rest
  | [] =>
      if bool_decide (statuses = ["normal"; "normal"]) then "normal"
      else if bool_decide (statuses = ["not_applicable"; "not_applicable"]) then "not_applicable"
      else "unknown"
  end.

Definition evaluate_dual_optical_rx (ap_rx switch_rx ap_reported switch_reported ap_freshness switch_freshness : pyval)
    : DualOpticalRxEvaluation :=
  let ap := evaluate_optical_rx ap_rx ap_reported ap_freshness OPTICAL_BUSINESS_RX_MIN_DBM in
  let switch := evaluate_optical_rx switch_rx switch_reported switch_freshness OPTICAL_BUSINESS_RX_MIN_DBM in
  DualEvaluation ap switch (combine_optical_rx_status (PStr (rx_status ap)) (PStr (rx_status switch))) OPTICAL_BUSINESS_RX_MIN_DBM.

(** ** In words (ap_business_optical.py) *)
Definition evaluate_ap_business_rx (rx data_freshness : pyval) : string :=
  if String.eqb (status_text data_freshness) "stale" then "unknown"
  else rx_status (evaluate_optical_rx rx (PStr "") data_freshness OPTICAL_BUSINESS_RX_MIN_DBM).

Record ApBusinessRxEvaluation := ApRxEvaluation { ae_status : string; ae_rx : option float; ae_threshold : float; ae_reason : string }.
Definition dbm (x : float) : string := format_fixed 2 x +:+ " dBm".
Definition evaluate_ap_business_rx_detail (rx data_freshness : pyval) : ApBusinessRxEvaluation :=
  let value := parse_optical_rx_dbm rx in
  let status := evaluate_ap_business_rx rx data_freshness in
  let limit := dbm OPTICAL_BUSINESS_RX_MIN_DBM in
  let reason :=
    if String.eqb (status_text data_freshness) "stale" then "AP接收光功率数据已过期，业务状态未知"
    else match value with
         | None => "AP接收光功率无有效值，业务状态未知"
         | Some v => "AP接收光功率 " +:+ dbm v +:+ (if String.eqb status "abnormal" then " 低于业务门限 " else " 达到业务门限 ") +:+ limit
         end in
  ApRxEvaluation status value OPTICAL_BUSINESS_RX_MIN_DBM reason.

Definition side_reason (label : string) (e : OpticalRxEvaluation) : string :=
  let shown := display_optical_status (PStr (rx_status e)) (PStr "zh") in
  match rx_dbm e with
  | None => if str_mem (rx_status e) [""; "unknown"; "not_collected"] then label +:+ "无有效值" else label +:+ shown
  | Some v =>
      if String.eqb (rx_status e) "abnormal" then label +:+ " " +:+ dbm v +:+ " 低于业务门限 " +:+ dbm (rx_threshold e)
      else if String.eqb (rx_status e) "normal" then label +:+ " " +:+ dbm v +:+ " 达到业务门限 " +:+ dbm (rx_threshold e)
      else label +:+ shown +:+ "：" +:+ dbm v
  end.
Definition dual_rx_reason (e : DualOpticalRxEvaluation) : string :=
  let conclusion :=
    if String.eqb (de_status e) "normal" then "综合判定：正常"
    else if String.eqb (de_status e) "unknown" then "综合判定：数据不完整"
    else "综合判定：" +:+ display_optical_status (PStr (de_status e)) (PStr "zh") in
  join "；" [side_reason "AP 侧收光" (de_ap e); side_reason "交换机侧收光" (de_switch e); conclusion].

Record DualRxBusinessEvaluation := DualBusiness {
  db_status : string; db_ap_status : string; db_switch_status : string; db_ap_rx : option float; db_switch_rx : option float;
  db_threshold : float; db_reason : string;
}.
Definition evaluate_dual_rx_business_detail (ap_rx switch_rx ap_reported switch_reported ap_freshness switch_freshness : pyval)
    : DualRxBusinessEvaluation :=
  let e := evaluate_dual_optical_rx ap_rx switch_rx ap_reported switch_reported ap_freshness switch_freshness in
  DualBusiness (de_status e) (rx_status (de_ap e)) (rx_status (de_switch e)) (rx_dbm (de_ap e)) (rx_dbm (de_switch e))
    (de_threshold e) (dual_rx_reason e).

(** ** Examples *)
Definition sample (rx alarm warning : string) : dict :=
  [("rx_power", PStr rx); ("alarm_low", PStr alarm); ("warning_low", PStr warning)].
Example bands : (λ rx, os_severity (compute_optical_severity (sample rx "-19.00" "-16.99"))) <$> ["-13.99 dBm"; "-14"; "-17"; "-19.01"; "-36"; ""]
  = ["normal"; "notice"; "warning"; "alarm"; "no_light"; "no_light"].
Proof. vm_compute. reflexivity. Qed.
Example derived : os_severity (compute_optical_severity [("rx_power", PStr "-17"); ("alarm_low", PStr "-19")]) = "warning".
Proof. vm_compute. reflexivity. Qed.
Example in_words : db_reason (evaluate_dual_rx_business_detail (PStr "-13.90") (PStr "-13.91") PNone PNone PNone PNone)
  = "AP 侧收光 -13.90 dBm 达到业务门限 -13.90 dBm；交换机侧收光 -13.91 dBm 低于业务门限 -13.90 dBm；综合判定：光衰大".
Proof. vm_compute. reflexivity. Qed.

(** ** Lemmas *)
#[local] Opaque fadd round2 float_of_scaled fleb fltb.

Lemma first_field_other k v record keys : k ∉ keys → first_field (dset k v record) keys = first_field record keys.
Proof.
  intros Hk. unfold first_field. do 2 f_equal. apply list_fmap_ext. intros i k' Hi.
  apply dget_dset_ne. intros <-. by apply list_elem_of_lookup_2 in Hi.
Qed.
Lemma first_field_head k v record keys : blank v = false → first_field (dset k v record) (k :: keys) = v.
Proof. intros Hv. unfold first_field. simpl. by rewrite dget_dset_eq, Hv. Qed.
Lemma to_float_nonblank v x : to_float v = Some x → blank v = false.
Proof. destruct v as [| | | |s| |]; try done. by destruct s. Qed.
Lemma to_float_not_nan v x : to_float v = Some x → not_nan x.
Proof. destruct v; simpl; try done; apply number_not_nan. Qed.
Lemma first_float_not_nan record keys x : first_float record keys = Some x → not_nan x.
Proof. apply to_float_not_nan. Qed.

(** The part of the severity that does not look at the received power. *)
Definition rest_severity (record : dict) (rx : float) : string :=
  if String.eqb (upper (strip (text_or_empty (first_field record ["port_status"; "switch_port_status"; "ap_port_status"])))) "DOWN"
  then "link_abnormal"
  else
    match thresholds record (status_text (first_field record ["device_type"; "source_type"])) with
    | (_, None, _) => "unknown"
    | (alarm_low, Some w, _) => (severity_band rx alarm_low w (round2 (fadd w MAINTENANCE_MARGIN_DB))).1
    end.

Lemma severity_with_power v x record :
  to_float v = Some x →
  os_severity (compute_optical_severity (dset "rx_power" v record)) =
    if is_optical_module_absent record then "no_module"
    else if fleb x NO_LIGHT_DBM then "no_light" else rest_severity record x.
Proof.
  intros Hv. pose proof (to_float_nonblank _ _ Hv) as Hb.
  unfold compute_optical_severity, is_optical_module_absent, rest_severity, thresholds, first_float.
  rewrite !first_field_head by done. rewrite !first_field_other by set_solver. rewrite Hv.
  cbn [existsb]. rewrite !dget_dset_ne by done.
  destruct (_ || _ || _); [done|]. destruct (fleb x NO_LIGHT_DBM); [done|].
  destruct (String.eqb _ "DOWN"); [done|].
  destruct (to_float (first_field record ["warning_low"; _])), (to_float (first_field record ["alarm_low"; _]));
    destruct (String.eqb _ "ap"); cbn; try reflexivity; destruct (severity_band _ _ _ _); reflexivity.
Qed.

Lemma severity_band_values rx a w n :
  (severity_band rx a w n).1 ∈ ["normal"; "notice"; "warning"; "alarm"].
Proof. unfold severity_band. rewrite !elem_of_cons. repeat case_match; simpl; auto. Qed.

(** Less power is never a better band. *)
Lemma band_antitone x x' a w n :
  fleb x x' = true → not_nan n → severity_rank (severity_band x' a w n).1 ≤ severity_rank (severity_band x a w n).1.
Proof.
  intros Hx Hn. destruct (fleb_nan _ _ Hx) as [Hx1 Hx2]. unfold severity_band.
  destruct (fleb n x') eqn:E1'.
  { repeat case_match; vm_compute; discriminate. }
  assert (fleb n x = false) as ->.
  { apply not_true_is_false. intros E. rewrite (fleb_trans n x x') in E1' by done. done. }
  assert (fltb x' n = true) as Hn' by (rewrite fltb_negb by done; by rewrite E1').
  rewrite Hn', (fleb_ltb_trans x x' n) by done. rewrite !andb_true_r.
  destruct (fleb w x') eqn:E2'; [repeat case_match; vm_compute; discriminate|].
  assert (fleb w x = false) as ->.
  { apply not_true_is_false. intros E. rewrite (fleb_trans w x x') in E2' by done. done. }
  destruct a as [a|]; [|by vm_compute].
  destruct (fleb a x' && fltb x' w) eqn:E3'; [repeat case_match; vm_compute; discriminate|].
  assert (fleb a x && fltb x w = false) as ->; [|by vm_compute].
  apply not_true_is_false. intros [E4 E5]%andb_true_iff. apply andb_false_iff in E3' as [E3'|E3'].
  - rewrite (fleb_trans a x x') in E3' by done. done.
  - rewrite fltb_negb, E2' in E3'; [done..|]. by apply fltb_nan in E5 as [_ ?].
Qed.

Lemma thresholds_not_nan record device a w source :
  thresholds record device = (a, Some w, source) → not_nan w.
Proof.
  unfold thresholds.
  destruct (first_float record ["warning_low"; _]) as [w'|] eqn:E1, (first_float record ["alarm_low"; _]) as [a'|] eqn:E2;
    destruct (String.eqb device "ap"); simpl; intros H; simplify_eq;
    eauto using first_float_not_nan, round2_not_nan, fadd_not_nan, scaled_not_nan.
  all: apply round2_not_nan, fadd_not_nan; eauto using first_float_not_nan.
Qed.

(** C19: weaker light is never a better verdict.  For two readings of the same record that differ only in
    the received power, the severity of the lower one ranks at least as high, whatever the thresholds of the
    record are: native, derived, of the default profile, or contradictory. *)
Theorem severity_antitone record v v' x x' :
  to_float v = Some x → to_float v' = Some x' → fleb x x' = true →
  severity_rank (os_severity (compute_optical_severity (dset "rx_power" v' record))) ≤
  severity_rank (os_severity (compute_optical_severity (dset "rx_power" v record))).
Proof.
  intros Hv Hv' Hx. rewrite (severity_with_power v x), (severity_with_power v' x') by done.
  destruct (is_optical_module_absent record); [done|].
  destruct (fleb x' NO_LIGHT_DBM) eqn:E'.
  { by rewrite (fleb_trans x x' NO_LIGHT_DBM) by done. }
  assert (∀ y, severity_rank (rest_severity record y) ≤ severity_rank "no_light") as Hlow.
  { intros y. unfold rest_severity. case_match; [done|]. destruct (thresholds _ _) as [[a [w|]] source]; [|done].
    pose proof (severity_band_values y a w (round2 (fadd w MAINTENANCE_MARGIN_DB))) as Hb.
    repeat (apply elem_of_cons in Hb as [->|Hb]; [vm_compute; discriminate|]). by apply elem_of_nil in Hb. }
  destruct (fleb x NO_LIGHT_DBM); [apply Hlow|]. unfold rest_severity. case_match; [done|].
  destruct (thresholds _ _) as [[a [w|]] source] eqn:Et; [|done].
  apply band_antitone; [done|]. eapply round2_not_nan, fadd_not_nan; [by eapply thresholds_not_nan|done].
Qed.

Definition strong_signal : dict := sample "" "-19.00" "-16.99".
Lemma severity_antitone_witness :
  to_float (PStr "-17.2 dBm") = Some (float_of_scaled true 172 1) ∧
  severity_rank (os_severity (compute_optical_severity (dset "rx_power" (PStr "-13") strong_signal))) ≤
  severity_rank (os_severity (compute_optical_severity (dset "rx_power" (PStr "-17.2 dBm") strong_signal))).
Proof.
  split; [vm_compute; reflexivity|].
  apply (severity_antitone strong_signal (PStr "-17.2 dBm") (PStr "-13") (float_of_scaled true 172 1) (float_of_scaled true 13 0));
    vm_compute; reflexivity.
Defined.

(** ** The statuses of a side *)
Lemma lower_ascii_space c : is_space (lower_ascii c) = is_space c.
Proof. by destruct c as [[] [] [] [] [] [] [] []]. Qed.
Lemma lower_ascii_idem c : lower_ascii (lower_ascii c) = lower_ascii c.
Proof. by destruct c as [[] [] [] [] [] [] [] []]. Qed.
Lemma casefold_idem s : casefold (casefold s) = casefold s.
Proof. unfold casefold. induction s as [|c s IH]; simpl; [done|]. by rewrite lower_ascii_idem, IH. Qed.
Lemma casefold_lstrip s : lstrip (casefold s) = casefold (lstrip s).
Proof.
  induction s as [|c s IH]; [done|]. change (casefold (String c s)) with (String (lower_ascii c) (casefold s)). simpl.
  rewrite lower_ascii_space. by destruct (is_space c).
Qed.
Lemma casefold_rstrip s : rstrip (casefold s) = casefold (rstrip s).
Proof.
  induction s as [|c s IH]; [done|]. change (casefold (String c s)) with (String (lower_ascii c) (casefold s)). simpl.
  rewrite IH. destruct (rstrip s) as [|d r]; simpl; [|done]. rewrite lower_ascii_space. by destruct (is_space c).
Qed.
Lemma casefold_strip s : strip (casefold s) = casefold (strip s).
Proof. unfold strip. by rewrite casefold_lstrip, casefold_rstrip. Qed.
Lemma status_text_idem v : status_text (PStr (status_text v)) = status_text v.
Proof. unfold status_text at 1. rewrite text_or_empty_PStr. unfold status_text. by rewrite casefold_strip, strip_idem, casefold_idem. Qed.

(** What [evaluate_optical_rx] can answer. *)
Definition SIDE_STATUSES : list string :=
  ["unknown"; "normal"] ++ FAULT_STATUSES ++ PRESERVED_NO_DATA_STATUSES ++ OPTICAL_HEALTH_WARNING_STATUSES.

Lemma normalized_text v : status_text (PStr (normalize_optical_rx_status v)) = normalize_optical_rx_status v.
Proof.
  unfold normalize_optical_rx_status. destruct (alookup (status_text v) STATUS_ALIASES) as [s|] eqn:E; [|apply status_text_idem].
  apply alookup_Some_in in E. simpl. unfold STATUS_ALIASES in E.
  repeat (apply elem_of_cons in E as [[= _ ->]|E]; [vm_compute; reflexivity|]). by apply elem_of_nil in E.
Qed.
Lemma abnormal_iff s :
  status_text (PStr s) = s →
  is_optical_health_abnormal (PStr s) = true ↔ s ∈ OPTICAL_HEALTH_CRITICAL_STATUSES ++ OPTICAL_HEALTH_WARNING_STATUSES.
Proof.
  intros Hs. unfold is_optical_health_abnormal, classify_optical_health. rewrite Hs, elem_of_app.
  rewrite <- !str_mem_iff. destruct (str_mem s OPTICAL_HEALTH_CRITICAL_STATUSES); [split; auto|].
  destruct (str_mem s OPTICAL_HEALTH_WARNING_STATUSES); [split; auto|].
  destruct (str_mem s OPTICAL_HEALTH_NO_DATA_STATUSES); (split; [done|intros [|]; done]).
Qed.

Lemma side_statuses rx reported fresh t : rx_status (evaluate_optical_rx rx reported fresh t) ∈ SIDE_STATUSES.
Proof.
  unfold evaluate_optical_rx, SIDE_STATUSES. rewrite !elem_of_app.
  destruct (String.eqb _ "stale"); [set_solver|].
  destruct (str_mem _ FAULT_STATUSES) eqn:E1; [apply str_mem_iff in E1; simpl; auto|].
  destruct (str_mem _ PRESERVED_NO_DATA_STATUSES) eqn:E2; [apply str_mem_iff in E2; simpl; auto|]. cbn [orb].
  destruct (match parse_optical_rx_dbm rx with Some _ => _ | None => _ end).
  { do 3 right. apply str_mem_iff. vm_compute. reflexivity. }
  destruct (is_optical_health_abnormal _) eqn:E3.
  - apply abnormal_iff, elem_of_app in E3 as [E3|E3]; [..|apply normalized_text]; simpl; auto.
  - destruct (parse_optical_rx_dbm rx); left; apply str_mem_iff; vm_compute; reflexivity.
Qed.

(** A property of two side statuses is decided by trying them all. *)
Lemma sides_forall (P : string → string → bool) :
  forallb (λ a, forallb (P a) SIDE_STATUSES) SIDE_STATUSES = true →
  ∀ a b, a ∈ SIDE_STATUSES → b ∈ SIDE_STATUSES → P a b = true.
Proof.
  rewrite forallb_forall. intros H a b Ha Hb. apply list_elem_of_In in Ha, Hb. specialize (H _ Ha).
  rewrite forallb_forall in H. auto.
Qed.
Definition combined (a b : string) : string := combine_optical_rx_status (PStr a) (PStr b).
Definition abnormal (s : string) : bool := is_optical_health_abnormal (PStr s).

#[local] Opaque combined abnormal.

Lemma combined_normal a b :
  a ∈ SIDE_STATUSES → b ∈ SIDE_STATUSES → (combined a b = "normal" ↔ a = "normal" ∧ b = "normal").
Proof.
  intros Ha Hb.
  pose proof (sides_forall (λ a b, Bool.eqb (String.eqb (combined a b) "normal") (String.eqb a "normal" && String.eqb b "normal"))
    ltac:(vm_compute; reflexivity) a b Ha Hb) as H.
  apply eqb_prop in H. rewrite <- !String.eqb_eq, H, andb_true_iff. done.
Qed.
Lemma combined_abnormal a b :
  a ∈ SIDE_STATUSES → b ∈ SIDE_STATUSES → abnormal (combined a b) = abnormal a || abnormal b.
Proof.
  intros Ha Hb.
  apply eqb_prop, (sides_forall (λ a b, Bool.eqb (abnormal (combined a b)) (abnormal a || abnormal b)));
    [vm_compute; reflexivity|done..].
Qed.
Definition rank_agrees (a b : string) : bool :=
  if abnormal (combined a b) then business_rank (combined a b) =? Z.max (business_rank a) (business_rank b) else true.
Lemma combined_rank a b :
  a ∈ SIDE_STATUSES → b ∈ SIDE_STATUSES → abnormal (combined a b) = true →
  business_rank (combined a b) = Z.max (business_rank a) (business_rank b).
Proof.
  intros Ha Hb Hab.
  assert (rank_agrees a b = true) as H by (apply sides_forall; [vm_compute; reflexivity|done..]).
  unfold rank_agrees in H. rewrite Hab in H. by apply Z.eqb_eq.
Qed.

(** When one side is normal. *)
Lemma side_normal rx reported fresh t :
  rx_status (evaluate_optical_rx rx reported fresh t) = "normal" ↔
  status_text fresh ≠ "stale" ∧
  (∃ v, parse_optical_rx_dbm rx = Some v ∧ fltb v t = false) ∧
  normalize_optical_rx_status reported ∉ FAULT_STATUSES ++ PRESERVED_NO_DATA_STATUSES ++ OPTICAL_HEALTH_WARNING_STATUSES.
Proof.
  unfold evaluate_optical_rx. set (n := normalize_optical_rx_status reported).
  assert (is_optical_health_abnormal (PStr n) = true ↔ n ∈ OPTICAL_HEALTH_CRITICAL_STATUSES ++ OPTICAL_HEALTH_WARNING_STATUSES) as Hab.
  { apply abnormal_iff, normalized_text. }
  rewrite elem_of_app in Hab. rewrite !elem_of_app, <- !str_mem_iff. rewrite <- !str_mem_iff in Hab. fold FAULT_STATUSES in *.
  change OPTICAL_HEALTH_CRITICAL_STATUSES with FAULT_STATUSES in Hab.
  destruct (String.eqb_spec (status_text fresh) "stale"); [split; [done|by intros (? & _)]|].
  destruct (str_mem n FAULT_STATUSES) eqn:E1; cbn [orb rx_status].
  { split; [|naive_solver]. intros Hn. rewrite Hn in E1. done. }
  destruct (str_mem n PRESERVED_NO_DATA_STATUSES) eqn:E2; cbn [rx_status].
  { split; [|naive_solver]. intros Hn. rewrite Hn in E2. done. }
  destruct (parse_optical_rx_dbm rx) as [v|].
  - destruct (fltb v t) eqn:E4; [split; [done|intros (_ & (? & [= <-] & ?) & _); congruence]|].
    destruct (is_optical_health_abnormal (PStr n)) eqn:E3; cbn [rx_status].
    + split.
      * intros Hn. rewrite Hn in E3. done.
      * intros (_ & _ & H). exfalso. apply H. destruct Hab as [Hab _]. destruct (Hab eq_refl); auto.
    + split; [|done]. intros _. split_and!; [done|eauto|]. intros [|[|]]; try congruence.
      destruct Hab as [_ Hab]. discriminate Hab. auto.
  - split; [|intros (_ & (? & ? & _) & _); done].
    destruct (is_optical_health_abnormal (PStr n)) eqn:E3; cbn [rx_status]; [|done]. intros Hn. by rewrite Hn in E3.
Qed.

#[local] Transparent combined.
Lemma dual_status ap_rx switch_rx ap_reported switch_reported ap_fresh switch_fresh :
  let e := evaluate_dual_optical_rx ap_rx switch_rx ap_reported switch_reported ap_fresh switch_fresh in
  de_status e = combined (rx_status (de_ap e)) (rx_status (de_switch e)).
Proof. cbv zeta. unfold evaluate_dual_optical_rx, combined. cbn [de_status de_ap de_switch]. reflexivity. Qed.
#[local] Opaque combined.

(** C20: the verdict on a link is exact.  It is normal when both ends are, and an end is normal when its data is
    not stale, it has a finite power of at least -13.90 dBm and its device reports neither a fault nor a state
    without data nor a warning; the verdict is a fault or a warning exactly when that of an end is, and then
    it ranks as high as the worse of the two. *)
Theorem dual_rx_exact ap_rx switch_rx ap_reported switch_reported ap_fresh switch_fresh :
  let e := evaluate_dual_optical_rx ap_rx switch_rx ap_reported switch_reported ap_fresh switch_fresh in
  let passes rx reported fresh :=
    status_text fresh ≠ "stale" ∧
    (∃ v, parse_optical_rx_dbm rx = Some v ∧ fltb v OPTICAL_BUSINESS_RX_MIN_DBM = false) ∧
    normalize_optical_rx_status reported ∉ FAULT_STATUSES ++ PRESERVED_NO_DATA_STATUSES ++ OPTICAL_HEALTH_WARNING_STATUSES in
  (de_status e = "normal" ↔ passes ap_rx ap_reported ap_fresh ∧ passes switch_rx switch_reported switch_fresh) ∧
  (abnormal (de_status e) = true ↔ abnormal (rx_status (de_ap e)) = true ∨ abnormal (rx_status (de_switch e)) = true) ∧
  (abnormal (de_status e) = true →
     business_rank (de_status e) = Z.max (business_rank (rx_status (de_ap e))) (business_rank (rx_status (de_switch e)))).
Proof.
  intros e passes.
  pose proof (side_statuses ap_rx ap_reported ap_fresh OPTICAL_BUSINESS_RX_MIN_DBM) as Ha.
  pose proof (side_statuses switch_rx switch_reported switch_fresh OPTICAL_BUSINESS_RX_MIN_DBM) as Hs.
  pose proof (side_normal ap_rx ap_reported ap_fresh OPTICAL_BUSINESS_RX_MIN_DBM) as Na.
  pose proof (side_normal switch_rx switch_reported switch_fresh OPTICAL_BUSINESS_RX_MIN_DBM) as Ns.
  subst e. rewrite dual_status. unfold evaluate_dual_optical_rx. cbn [de_ap de_switch]. subst passes. cbv beta.
  generalize dependent (rx_status (evaluate_optical_rx ap_rx ap_reported ap_fresh OPTICAL_BUSINESS_RX_MIN_DBM)).
  generalize dependent (rx_status (evaluate_optical_rx switch_rx switch_reported switch_fresh OPTICAL_BUSINESS_RX_MIN_DBM)).
  intros b Hb Nb a Ha Na. split_and!.
  - by rewrite combined_normal, Na, Nb.
  - by rewrite combined_abnormal, orb_true_iff.
  - by apply combined_rank.
Qed.
