(* ===== verification/OpticalState.v ===== *)
(** * The optical state of an access point and its switch port

    core/sources/ap_source.py, core/sources/switch_source.py,
    core/ap_optical_capability.py and core/state_engine.py: the status of either
    end from its stored row, and the state of the link made of both. *)

From Stdlib Require Import SpecFloat.
From S2P Require Import Prelude PyVal PyText PyRe ApNormalizers InterfaceNames PyFloat OpticalHealth.

(** ** Models without an optical module *)
Definition normalize_ap_model (value : pyval) : string := status_text value.
Definition OPTICAL_NOT_APPLICABLE_MODELS : list string := ["wa6522"].
Definition is_ap_optical_applicable (value : pyval) : bool := negb (str_mem (normalize_ap_model value) OPTICAL_NOT_APPLICABLE_MODELS).

(** ** The access point *)
Definition AP_OPTICAL_FAILURE_STATUSES : list string :=
  ["failed"; "failure"; "error"; "cancelled"; "timeout"; "auth_failed"; "authentication_failed"; "tcp_failed";
   "tcp_connection_failed"; "ssh_failed"; "connection_failed"; "unreachable"; "device_unreachable"; "collection_failed";
   "parse_failed"].
Definition AP_OPTICAL_CURRENT_VALUE_FIELDS : list string :=
  ["rx_power"; "tx_power"; "temperature"; "voltage"; "bias_current"; "rx_low_alarm"; "rx_low_warning"; "rx_high_alarm";
   "rx_high_warning"; "tx_low_alarm"; "tx_low_warning"; "tx_high_alarm"; "tx_high_warning"; "module_model";
   "module_serial_number"; "module_vendor"; "wavelength"; "transmission_distance"; "connector_type"; "module_present";
   "has_module"; "no_module"; "module_status"; "transceiver_status"; "optical_alarm_status"].
Definition EXPLICIT_STATUS : list (string * string) :=
  [("no_light", "no_light"); ("no light", "no_light"); ("no-light", "no_light"); ("无光", "no_light");
   ("link_abnormal", "link_abnormal"); ("link abnormal", "link_abnormal"); ("link-abnormal", "link_abnormal");
   ("链路异常", "link_abnormal"); ("link_down", "link_down"); ("link down", "link_down"); ("link-down", "link_down");
   ("链路断开", "link_down"); ("critical", "abnormal"); ("严重告警", "abnormal"); ("alarm", "alarm"); ("warning", "warning");
   ("abnormal", "abnormal"); ("功率异常", "abnormal")].

Section state.
(** [datetime.fromisoformat] and the current time. *)
Context (fromisoformat : string → option datetime) (now : datetime).

Definition project_current_ap_optical_row (fit_ap_row : dict) : dict :=
  let status := status_text (dget "status" fit_ap_row) in
  let cleared := clear_fields AP_OPTICAL_CURRENT_VALUE_FIELDS fit_ap_row in
  if str_mem status AP_OPTICAL_FAILURE_STATUSES then dset "data_freshness" (PStr "unknown") cleared
  else if str_mem status ["no_module"; "no module"; "no-transceiver"; "no transceiver"]
  then dset "data_freshness" (PStr "fresh") cleared
  else if String.eqb status "success" then
    let freshness := status_text (dget "data_freshness" fit_ap_row) in
    let freshness :=
      if str_mem freshness ["fresh"; "stale"; "current"] then freshness
      else classify_optical_freshness fromisoformat [dget "updated_at" fit_ap_row; dget "collected_at" fit_ap_row] now OPTICAL_DATA_STALE_AFTER in
    if str_nonempty freshness then dset "data_freshness" (PStr freshness) fit_ap_row else fit_ap_row
  else fit_ap_row.

Definition module_present_field (row : dict) : pyval :=
  if dhas "module_present" row then dget "module_present" row else dget "has_module" row.
Definition ap_record (row : dict) : dict :=
  [("ap_rx_power", dget "rx_power" row); ("ap_port_status", dget "ap_port_status" row);
   ("module_present", module_present_field row); ("no_module", dget "no_module" row);
   ("module_status", dget "module_status" row); ("transceiver_status", dget "transceiver_status" row);
   ("optical_alarm_status", dget "optical_alarm_status" row); ("status", dget "status" row);
   ("alarm_low", dget "rx_low_alarm" row); ("alarm_high", dget "rx_high_alarm" row);
   ("warning_low", dget "rx_low_warning" row); ("device_type", PStr "ap")].

Definition compute_ap_status (fit_ap_row : option dict) : string :=
  match project_current_ap_optical_row <$> fit_ap_row with
  | None => "unknown"
  | Some row =>
      if negb (is_ap_optical_applicable (dget "model" row)) then "not_applicable"
      else
        let result := compute_optical_severity (ap_record row) in
        if str_mem (os_severity result) ["no_module"; "link_abnormal"; "link_down"] then os_severity result
        else
          let rx_power := parse_optical_rx_dbm (dget "rx_power" row) in
          if match rx_power with Some v => fltb v OPTICAL_BUSINESS_RX_MIN_DBM | None => false end then "abnormal"
          else
            let reported := status_text (get_or ["optical_alarm_status"; "module_status"; "transceiver_status"] row) in
            match alookup reported EXPLICIT_STATUS with
            | Some status => status
            | None =>
                match rx_power with
                | Some _ => "normal"
                | None => if String.eqb (os_severity result) "no_light" && bool_decide (is_Some (os_rx result)) then "no_light" else "unknown"
                end
            end
  end.

(** ** The switch port *)
Record switch_device := SwitchDevice { sd_uuid : pyval; sd_name : pyval; sd_system : pyval }.
Abbreviation switch_lookup := (list ((string * string) * dict)).

Definition device_names (devices : list switch_device) : list (string * list string) :=
  foldl (λ acc d, ainsert (text_or_empty (sd_uuid d)) (remove_dups (List.filter str_nonempty (status_text <$> [sd_name d; sd_system d]))) acc)
    [] devices.
Definition lookup_set (k : string * string) (v : dict) (l : switch_lookup) : switch_lookup :=
  if bool_decide (k ∈ l.*1) then (λ kv, if bool_decide (kv.1 = k) then (k, v) else kv) <$> l else l ++ [(k, v)].
Definition lookup_get (k : string * string) (l : switch_lookup) : option dict :=
  snd <$> List.find (λ kv, bool_decide (kv.1 = k)) l.
Definition build_switch_data_lookup (devices : list switch_device) (optical_by_device : list (string * list dict)) : switch_lookup :=
  let names_by_uuid := device_names devices in
  foldl (λ acc um,
      foldl (λ acc m,
          let interface := casefold (normalize_interface_name (dget "interface_name" m)) in
          if str_nonempty interface
          then foldl (λ acc n, lookup_set (n, interface) m acc) acc (default [] (alookup um.1 names_by_uuid))
          else acc) acc um.2) [] optical_by_device.

(** The keyword arguments of [compute_switch_status] that [compute_state] gives. *)
Record switch_input := SwitchInput {
  si_device : pyval; si_interface : pyval; si_rx : pyval; si_port : pyval; si_alarm_low : pyval; si_alarm_high : pyval;
  si_warning_low : pyval; si_present : pyval; si_no_module : pyval; si_module_status : pyval;
}.
Definition switch_record (rx port alarm_low alarm_high warning_low present no_module module_status : pyval) : dict :=
  [("switch_rx_power", rx); ("switch_port_status", port); ("alarm_low", alarm_low); ("alarm_high", alarm_high);
   ("warning_low", warning_low); ("module_present", present); ("no_module", no_module); ("module_status", module_status);
   ("device_type", PStr "switch")].
Definition is_none (v : pyval) : bool := match v with PNone => true | _ => false end.

Definition compute_switch_status (i : switch_input) (lookup : switch_lookup) : string :=
  if negb (is_none (si_rx i)) || negb (is_none (si_port i)) || bool_decide (lookup = [])
  then os_severity (compute_optical_severity
         (switch_record (si_rx i) (si_port i) (si_alarm_low i) (si_alarm_high i) (si_warning_low i) (si_present i)
            (si_no_module i) (si_module_status i)))
  else
    let name := status_text (si_device i) in
    let interface := casefold (normalize_interface_name (si_interface i)) in
    if str_nonempty name && str_nonempty interface then
      match lookup_get (name, interface) lookup with
      | Some m =>
          if bool_decide (m = []) then "unknown"
          else os_severity (compute_optical_severity
                 (switch_record (dget "rx_power" m) (dget "port_status" m) (dget "rx_low_alarm" m) (dget "rx_high_alarm" m)
                    (dget "rx_low_warning" m) (module_present_field m) (dget "no_module" m)
                    (por (dget "module_status" m) (dget "status" m))))
      | None => "unknown"
      end
    else "unknown".

(** ** The state of the link

    The context is a dictionary; the access point's row and the look-up table of
    the switch modules are its fields [fit_ap_row] and [switch_data_lookup]. *)
Record StateResult := State { st_switch : string; st_ap : string; st_optical : string; st_severity : Z; st_color : string }.
Definition STATUS_COLORS : list (string * string) :=
  [("normal", "DCFCE7"); ("notice", "FEF9C3"); ("warning", "FEF9C3"); ("alarm", "FEE2E2"); ("abnormal", "FEE2E2");
   ("link_abnormal", "FFE4E6"); ("link_down", "FFE4E6"); ("no_light", "E5E7EB"); ("no_module", "F3F4F6");
   ("skipped", "F3F4F6"); ("offline", "E5E7EB"); ("not_collected", "F3F4F6"); ("not_applicable", "F3F4F6");
   ("unknown", "F3F4F6"); ("unverified", "FEF9C3"); ("dom_unavailable", "F3F4F6"); ("collection_failed", "FEF9C3")].

Definition context_switch_rx (context row : dict) : pyval :=
  if dhas "switch_rx_power" context then dget "switch_rx_power" context else dget "neighbor_rx_power" row.
Definition has_switch_input (context row : dict) (lookup : switch_lookup) : bool :=
  dhas "switch_rx_power" context || dhas "switch_port_status" context || dhas "neighbor_rx_power" row ||
  dhas "switch_port_status" row || negb (bool_decide (lookup = [])) ||
  (truthy (dget "switch_device_name" context) && truthy (dget "switch_interface_name" context)).
Definition state_switch_input (context row : dict) : switch_input :=
  SwitchInput (dget "switch_device_name" context) (dget "switch_interface_name" context) (context_switch_rx context row)
    (por (dget "switch_port_status" context) (dget "switch_port_status" row))
    (por (dget "switch_alarm_low" context)
       (get_or ["switch_rx_low_alarm"; "neighbor_rx_low_alarm"; "alarm_low_threshold"; "rx_low_alarm"] row))
    (por (dget "switch_alarm_high" context)
       (get_or ["switch_rx_high_alarm"; "neighbor_rx_high_alarm"; "alarm_high_threshold"; "rx_high_alarm"] row))
    (por (dget "switch_warning_low" context)
       (get_or ["switch_rx_low_warning"; "neighbor_rx_low_warning"; "warning_low_threshold"; "warning_low"; "rx_low_warning"] row))
    PNone PNone PNone.

Definition compute_state (context fit_ap_row : dict) (lookup : switch_lookup) : StateResult :=
  let switch_status :=
    if has_switch_input context fit_ap_row lookup then compute_switch_status (state_switch_input context fit_ap_row) lookup
    else "unknown" in
  let ap_status := compute_ap_status (Some fit_ap_row) in
  let '(switch_status, ap_status, optical_status) :=
    if String.eqb ap_status "not_applicable" then ("not_applicable", ap_status, "not_applicable")
    else
      let e := evaluate_dual_optical_rx (dget "rx_power" fit_ap_row) (context_switch_rx context fit_ap_row)
        (PStr ap_status) (PStr switch_status) (PStr "") (PStr "") in
      (rx_status (de_switch e), rx_status (de_ap e), de_status e) in
  State switch_status ap_status optical_status (severity_rank optical_status)
    (default "F3F4F6" (alookup optical_status STATUS_COLORS)).

End state.

(** ** Lemmas *)
Lemma dget_clear k fields record :
  dget k (clear_fields fields record) = if bool_decide (k ∈ fields) then PNone else dget k record.
Proof.
  unfold clear_fields. revert record. induction fields as [|f fields IH]; intros record; [done|]. cbn [foldl]. rewrite IH.
  destruct (decide (k = f)) as [->|Hk].
  - rewrite (bool_decide_eq_true_2 (f ∈ f :: fields)), dget_dset_eq by set_solver. by case_bool_decide.
  - rewrite dget_dset_ne by done. do 2 case_bool_decide; set_solver.
Qed.

(** A record without a readable power. *)
Lemma severity_without_power record :
  is_optical_module_absent record = false → first_float record ["rx_power"; "switch_rx_power"; "ap_rx_power"] = None →
  compute_optical_severity record = plain_severity "no_light" "RX power is missing or <= -35 dBm" None.
Proof. intros Ha Hf. unfold compute_optical_severity. by rewrite Ha, Hf. Qed.

(** A record of an access point with no current value. *)
Definition cleared_record (port status : pyval) : dict :=
  [("ap_rx_power", PNone); ("ap_port_status", port); ("module_present", PNone); ("no_module", PNone);
   ("module_status", PNone); ("transceiver_status", PNone); ("optical_alarm_status", PNone); ("status", status);
   ("alarm_low", PNone); ("alarm_high", PNone); ("warning_low", PNone); ("device_type", PStr "ap")].
#[local] Transparent dget.
Lemma cleared_absent port status :
  is_optical_module_absent (cleared_record port status) =
  str_mem (status_text status)
    ["no_module"; "no module"; "no-module"; "no transceiver"; "no-transceiver"; "无光模块"; "未插光模块"; "光模块不存在"].
Proof. etransitivity; [|apply orb_false_r]. reflexivity. Qed.
Lemma cleared_power port status : first_float (cleared_record port status) ["rx_power"; "switch_rx_power"; "ap_rx_power"] = None.
Proof. reflexivity. Qed.
#[local] Opaque dget.

(** With no current value and a status of failure, nothing says the module is absent. *)
Lemma failure_not_absent status :
  str_mem (status_text status) AP_OPTICAL_FAILURE_STATUSES = true →
  str_mem (status_text status)
    ["no_module"; "no module"; "no-module"; "no transceiver"; "no-transceiver"; "无光模块"; "未插光模块"; "光模块不存在"] = false.
Proof.
  intros H%str_mem_iff. generalize dependent (status_text status). intros t H. unfold AP_OPTICAL_FAILURE_STATUSES in H.
  repeat (apply elem_of_cons in H as [->|H]; [vm_compute; reflexivity|]). by apply elem_of_nil in H.
Qed.

(** ** The statuses of the ends *)
Definition SEVERITIES : list string := ["no_module"; "no_light"; "link_abnormal"; "unknown"; "normal"; "notice"; "warning"; "alarm"].
Definition END_STATUSES : list string := SEVERITIES ++ ["not_applicable"; "link_down"; "abnormal"].

Lemma severity_values record : os_severity (compute_optical_severity record) ∈ SEVERITIES.
Proof.
  unfold compute_optical_severity, SEVERITIES. rewrite !elem_of_cons.
  destruct (is_optical_module_absent record); [auto|]. destruct (first_float record _) as [rx|]; [|auto].
  destruct (fleb rx NO_LIGHT_DBM); [auto|]. destruct (String.eqb _ "DOWN"); [auto|].
  destruct (thresholds _ _) as [[a [w|]] source]; [|auto 10].
  pose proof (severity_band_values rx a w (round2 (fadd w MAINTENANCE_MARGIN_DB))) as H.
  destruct (severity_band _ _ _ _) as [s r]. cbn [fst] in H. cbn [os_severity]. rewrite !elem_of_cons in H. tauto.
Qed.
Lemma ends_of_severity s : s ∈ SEVERITIES → s ∈ END_STATUSES.
Proof. intros H. unfold END_STATUSES. apply elem_of_app. auto. Qed.
Lemma switch_status_values i lookup : compute_switch_status i lookup ∈ END_STATUSES.
Proof.
  assert ("unknown" ∈ END_STATUSES) by (apply str_mem_iff; vm_compute; reflexivity).
  unfold compute_switch_status. repeat case_match; try done; apply ends_of_severity, severity_values.
Qed.
Lemma explicit_values k s : alookup k EXPLICIT_STATUS = Some s → s ∈ END_STATUSES.
Proof.
  intros E%alookup_Some_in. unfold EXPLICIT_STATUS in E. apply str_mem_iff.
  repeat (apply elem_of_cons in E as [[= _ ->]|E]; [vm_compute; reflexivity|]). by apply elem_of_nil in E.
Qed.
Lemma end_not_critical s : s ∈ END_STATUSES → normalize_optical_rx_status (PStr s) ≠ "critical".
Proof.
  intros H. unfold END_STATUSES, SEVERITIES in H. cbn [app] in H.
  repeat (apply elem_of_cons in H as [->|H]; [vm_compute; discriminate|]). by apply elem_of_nil in H.
Qed.
Lemma side_not_critical rx s fresh t :
  s ∈ END_STATUSES → rx_status (evaluate_optical_rx rx (PStr s) fresh t) ≠ "critical".
Proof.
  intros Hs%end_not_critical. unfold evaluate_optical_rx. generalize dependent (normalize_optical_rx_status (PStr s)).
  intros n Hn. destruct (String.eqb _ "stale"); [done|]. destruct (_ || _); [done|].
  destruct (match parse_optical_rx_dbm rx with Some _ => _ | None => _ end); [done|].
  destruct (is_optical_health_abnormal _); [done|]. by destruct (parse_optical_rx_dbm rx).
Qed.

#[local] Opaque combined abnormal severity_rank.

(** The rank of a combined status tells whether it is a warning or a fault, but for the status the table lacks. *)
Definition rank_tells (a b : string) : bool :=
  String.eqb a "critical" || String.eqb b "critical" ||
  Bool.eqb (abnormal a || abnormal b) (2 <=? severity_rank (combined a b)).
Lemma combined_severity a b :
  a ∈ SIDE_STATUSES → b ∈ SIDE_STATUSES → a ≠ "critical" → b ≠ "critical" →
  abnormal a || abnormal b = (2 <=? severity_rank (combined a b)).
Proof.
  intros Ha Hb Hna Hnb. assert (rank_tells a b = true) as H by (apply sides_forall; [vm_compute; reflexivity|done..]).
  unfold rank_tells in H. apply String.eqb_neq in Hna, Hnb. rewrite Hna, Hnb in H. by apply eqb_prop.
Qed.

Section theorems.
Context (fromisoformat : string → option datetime) (now : datetime).

(** The projection of a failed collection has no current values. *)
Lemma failed_projection row k :
  str_mem (status_text (dget "status" row)) AP_OPTICAL_FAILURE_STATUSES = true → k ≠ "data_freshness" →
  dget k (project_current_ap_optical_row fromisoformat now row) =
    if bool_decide (k ∈ AP_OPTICAL_CURRENT_VALUE_FIELDS) then PNone else dget k row.
Proof. intros Hs Hk. unfold project_current_ap_optical_row. rewrite Hs, dget_dset_ne by done. apply dget_clear. Qed.

Lemma failed_status row :
  str_mem (status_text (dget "status" row)) AP_OPTICAL_FAILURE_STATUSES = true →
  is_ap_optical_applicable (dget "model" row) = true →
  compute_ap_status fromisoformat now (Some row) = "unknown".
Proof.
  intros Hs Hm. unfold compute_ap_status. cbn [fmap option_fmap option_map].
  set (p := project_current_ap_optical_row fromisoformat now row).
  assert (∀ k, k ≠ "data_freshness" → dget k p = if bool_decide (k ∈ AP_OPTICAL_CURRENT_VALUE_FIELDS) then PNone else dget k row) as Hp
    by (intros; by apply failed_projection).
  rewrite (Hp "model") by done. change (bool_decide ("model" ∈ AP_OPTICAL_CURRENT_VALUE_FIELDS)) with false. cbv iota. rewrite Hm.
  cbn [negb]. 
  assert (ap_record p = cleared_record (dget "ap_port_status" row) (dget "status" row)) as ->.
  { unfold ap_record, module_present_field, cleared_record. rewrite !Hp by done. by destruct (dhas _ _). }
  rewrite severity_without_power; [|by rewrite cleared_absent, failure_not_absent|apply cleared_power].
  rewrite (Hp "rx_power") by done. unfold get_or. rewrite !Hp by done. done.
Qed.

(** C30: a failed collection is not the current state, yet its power decides it.  The projection of a row whose
    collection failed drops the power that is kept from an earlier one, so the status of the access point is
    unknown; [compute_state] passes the kept power of the row itself to the evaluation of the link, and the same
    access point is reported normal or abnormal there. *)
Theorem retained_power_resurfaces context row lookup v :
  str_mem (status_text (dget "status" row)) AP_OPTICAL_FAILURE_STATUSES = true →
  is_ap_optical_applicable (dget "model" row) = true →
  parse_optical_rx_dbm (dget "rx_power" row) = Some v →
  compute_ap_status fromisoformat now (Some row) = "unknown" ∧
  st_ap (compute_state fromisoformat now context row lookup) = (if fltb v OPTICAL_BUSINESS_RX_MIN_DBM then "abnormal" else "normal").
Proof.
  intros Hs Hm Hv. split; [by apply failed_status|]. unfold compute_state. rewrite (failed_status row) by done.
  change (String.eqb "unknown" "not_applicable") with false. cbv iota zeta. cbn [st_ap].
  unfold evaluate_dual_optical_rx. cbn [de_ap]. unfold evaluate_optical_rx. rewrite Hv.
  change (String.eqb (status_text (PStr "")) "stale") with false.
  change (normalize_optical_rx_status (PStr "unknown")) with "unknown".
  change (str_mem "unknown" FAULT_STATUSES || str_mem "unknown" PRESERVED_NO_DATA_STATUSES) with false.
  change (is_optical_health_abnormal (PStr "unknown")) with false. cbv iota. by destruct (fltb v _).
Qed.

Lemma ap_status_values row : compute_ap_status fromisoformat now row ∈ END_STATUSES.
Proof.
  assert (∀ s, str_mem s END_STATUSES = true → s ∈ END_STATUSES) as Hin by (intros s; apply str_mem_iff).
  unfold compute_ap_status. destruct (_ <$> row) as [p|]; [|by apply Hin].
  destruct (negb _); [by apply Hin|].
  destruct (str_mem (os_severity _) _); [apply ends_of_severity, severity_values|].
  destruct (parse_optical_rx_dbm _) as [v|].
  - destruct (fltb v _); [by apply Hin|]. destruct (alookup _ EXPLICIT_STATUS) eqn:E; [by eapply explicit_values|by apply Hin].
  - destruct (alookup _ EXPLICIT_STATUS) eqn:E; [by eapply explicit_values|]. destruct (_ && _); by apply Hin.
Qed.

(** C31: the number of a link's state tells its condition.  Whatever the rows say, the severity [compute_state]
    returns is at least two exactly when one of the two ends it reports is in a warning or a fault: the status
    that the table of ranks lacks never gets there. *)
Theorem state_severity_faithful context row lookup :
  let s := compute_state fromisoformat now context row lookup in
  2 ≤ st_severity s ↔ abnormal (st_ap s) = true ∨ abnormal (st_switch s) = true.
Proof.
  cbv zeta. unfold compute_state. set (sw := if has_switch_input context row lookup then _ else _).
  assert (sw ∈ END_STATUSES) as Hsw.
  { subst sw. destruct (has_switch_input _ _ _); [apply switch_status_values|apply str_mem_iff; vm_compute; reflexivity]. }
  pose proof (ap_status_values (Some row)) as Hap. generalize dependent (compute_ap_status fromisoformat now (Some row)).
  intros ap Hap. destruct (String.eqb_spec ap "not_applicable") as [->|].
  { cbn [st_severity st_ap st_switch]. split; [intros H; exfalso; revert H; by vm_compute|]. intros [H|H]; exfalso; revert H; by vm_compute. }
  rewrite dual_status.
  set (e := evaluate_dual_optical_rx _ _ _ _ _ _). cbn [st_severity st_ap st_switch].
  rewrite <- orb_true_iff, (combined_severity (rx_status (de_ap e)) (rx_status (de_switch e))); [by rewrite Z.leb_le|..];
    subst e; unfold evaluate_dual_optical_rx; cbn [de_ap de_switch]; auto using side_statuses, side_not_critical.
Qed.
End theorems.

Definition failed_row : dict :=
  [("status", PStr "failed"); ("rx_power", PStr "-10.2"); ("neighbor_rx_power", PStr "-9"); ("model", PStr "WA6628")].
Lemma retained_power_resurfaces_witness :
  compute_ap_status (λ _, None) (Datetime 0 (Some 0)) (Some failed_row) = "unknown" ∧
  st_ap (compute_state (λ _, None) (Datetime 0 (Some 0)) [] failed_row []) =
    (if fltb (float_of_scaled true 102 1) OPTICAL_BUSINESS_RX_MIN_DBM then "abnormal" else "normal").
Proof. apply retained_power_resurfaces; vm_compute; reflexivity. Defined.
