(* ===== verification/OpticalTreatment.v ===== *)
(** * Optical treatment events

    core/storage/optical_retention.py: the current optical state of the two ends
    of a link, its history of changes, and the episodes of an access point
    (abnormal until a normal observation) with their summary.  The tables are
    those of [Retention]; a row is a dictionary of its columns, its identifier
    beside it.  [uuid4], JSON and SHA-256 are parameters. *)

From S2P Require Import Prelude PyVal PyText PyRe ApNormalizers PyFloat OpticalHealth InterfaceNames Retention.

Definition OPTICAL_HISTORY_LIMIT : nat := 10.
Definition OPTICAL_ISSUE_STATUSES : list string :=
  ["abnormal"; "alarm"; "link_abnormal"; "link_down"; "no_light"; "notice"; "warning"].
Definition OPTICAL_NO_DATA_STATUSES : list string :=
  [""; "unknown"; "not_collected"; "not_applicable"; "skipped"; "offline"; "no_module"; "failed"; "timeout"; "stale";
   "collection_failed"; "connection_failed"; "authentication_failed"; "empty_configured_port"].
Definition OPTICAL_KEYS : list string := ["site_id"; "ap_identity"; "side"].
Definition OPTICAL_COLUMNS : list string :=
  ["site_id"; "ap_identity"; "ap_uuid"; "ap_name"; "ap_mac"; "ap_mac_normalized"; "serial_number"; "side";
   "switch_device_id"; "switch_name"; "switch_interface"; "rx_dbm"; "tx_dbm"; "status"; "source"; "collected_at";
   "last_seen_at"; "state_json"; "state_fingerprint"; "payload_json"; "source_revision"].

Definition text (value : pyval) : string := strip (text_or_empty value).
Definition canonical_status (value : pyval) : string := casefold (text value).

(** ** Decimal numbers

    [decimal.Decimal] of a text, [normalize] in the default context (28 digits,
    half to even) and the format [f]. *)
Inductive py_decimal :=
  | DNumber (neg : bool) (coefficient exponent : Z)
  | DInfinity (neg : bool)
  | DNotANumber (neg signaling : bool) (payload : Z).
Definition InvalidOperation : pyerr := RuntimeError "decimal.InvalidOperation".
Definition DecimalOverflow : pyerr := RuntimeError "decimal.Overflow".
Definition digit_count (n : Z) : Z := Z.of_nat (String.length (pretty n)).
Definition MAX_EMAX : Z := 999999999999999999.
Definition CONTEXT_PRECISION : Z := 28.
Definition CONTEXT_EMAX : Z := 999999.

Definition signed (s : string) : bool * string :=
  match s with
  | String c s' => if Ascii.eqb c "-" then (true, s') else if Ascii.eqb c "+" then (false, s') else (false, s)
  | "" => (false, "")
  end.
Definition parse_exponent (s : string) : option Z :=
  let '(neg, d) := signed s in if is_digits d then Some (if neg then - digits_val 0 d else digits_val 0 d) else None.
Definition parse_mantissa (s : string) : option (Z * Z) :=
  match split_on "." s with
  | [a] => if is_digits a then Some (digits_val 0 a, 0) else None
  | [a; b] =>
      if all_digits a && all_digits b && str_nonempty (a +:+ b)
      then Some (digits_val 0 (a +:+ b), - Z.of_nat (String.length b)) else None
  | _ => None
  end.
Definition parse_py_decimal (s : string) : option py_decimal :=
  let '(neg, body) := signed (casefold (remove_chars (Ascii.eqb "_") (strip s))) in
  let number (m : string) (e : Z) : option py_decimal :=
    '(c, shift) ← parse_mantissa m;
    let exponent := e + shift in
    if (c =? 0) || ((exponent + digit_count c - 1 <=? MAX_EMAX) && (- 2 * MAX_EMAX + 1 <=? exponent))
    then Some (DNumber neg c exponent) else None in
  if str_mem body ["inf"; "infinity"] then Some (DInfinity neg)
  else
    match strip_prefix "nan" body, strip_prefix "snan" body with
    | Some d, _ => if all_digits d then Some (DNotANumber neg false (digits_val 0 d)) else None
    | None, Some d => if all_digits d then Some (DNotANumber neg true (digits_val 0 d)) else None
    | None, None =>
        match split_on "e" body with
        | [m] => number m 0
        | [m; e] => x ← parse_exponent e; number m x
        | _ => None
        end
    end.

(** Trailing zeros move to the exponent. *)
Fixpoint strip_zeros (fuel : nat) (c e : Z) : Z * Z :=
  match fuel with
  | S fuel' => if c mod 10 =? 0 then strip_zeros fuel' (c / 10) (e + 1) else (c, e)
  | O => (c, e)
  end.
Definition normalize_decimal (d : py_decimal) : res py_decimal :=
  match d with
  | DNumber neg c e =>
      if c =? 0 then Ok (DNumber neg 0 0)
      else
        let target := Z.max e (Z.max (e + digit_count c - CONTEXT_PRECISION) (- CONTEXT_EMAX - CONTEXT_PRECISION + 1)) in
        let c' := round_half_even c (10 ^ (target - e)) in
        if c' =? 0 then Ok (DNumber neg 0 0)
        else if CONTEXT_EMAX <? target + digit_count c' - 1 then Err DecimalOverflow
        else let '(c'', e'') := strip_zeros (Z.to_nat (digit_count c')) c' target in Ok (DNumber neg c'' e'')
  | DInfinity _ => Ok d
  | DNotANumber neg false payload => Ok (DNotANumber neg false (payload mod 10 ^ CONTEXT_PRECISION))
  | DNotANumber _ true _ => Err InvalidOperation
  end.
Definition format_decimal (d : py_decimal) : string :=
  let sign (neg : bool) := if neg then "-" else "" in
  match d with
  | DNumber neg c e =>
      if 0 <=? e then sign neg +:+ pretty (c * 10 ^ e)
      else sign neg +:+ pretty (c / 10 ^ (- e)) +:+ "." +:+ zfill (Z.to_nat (- e)) (pretty (c mod 10 ^ (- e)))
  | DInfinity neg => sign neg +:+ "Infinity"
  | DNotANumber neg signaling payload =>
      sign neg +:+ (if signaling then "sNaN" else "NaN") +:+ (if payload =? 0 then "" else pretty payload)
  end.
(** [a <= b]; [None] is [InvalidOperation]. *)
Definition decimal_leb (a b : py_decimal) : option bool :=
  match a, b with
  | DNotANumber _ _ _, _ | _, DNotANumber _ _ _ => None
  | DInfinity true, _ | _, DInfinity false => Some true
  | _, DInfinity true => Some false
  | DInfinity false, _ => Some false
  | DNumber n c e, DNumber n' c' e' =>
      let low := Z.min e e' in
      let value (n : bool) (c e : Z) := (if n then - c else c) * 10 ^ (e - low) in
      Some (value n c e <=? value n' c' e')
  end.

(** [_number_text]. *)
Definition number_text (value : pyval) : res string :=
  let t := text value in
  match words t with
  | [] => Ok ""
  | token :: _ =>
      match parse_py_decimal token with
      | None => Ok t
      | Some number =>
          n ← normalize_decimal number;
          let normalized := format_decimal n in
          Ok (if has_char "." normalized then rstrip_of (Ascii.eqb ".") (rstrip_of (Ascii.eqb "0") normalized) else normalized)
      end
  end.

Example numbers : number_text <$> [PStr "-13.900 dBm"; PStr "1e2"; PStr "n/a"; PStr "-0.0"; PNone; PStr "sNaN"]
  = [Ok "-13.9"; Ok "100"; Ok "n/a"; Ok "-0"; Ok ""; Err InvalidOperation].
Proof. vm_compute. reflexivity. Qed.

(** ** The projection of a side *)
Definition optical_ap_identity (row : dict) : res string :=
  let ap_uuid := text (dget "ap_uuid" row) in
  if str_nonempty ap_uuid then Ok ap_uuid
  else match normalize_mac_key (dget "ap_mac" row) with
       | Some mac => Ok ("mac:" +:+ mac)
       | None => Err ValueError
       end.

Definition status_for_side (row : dict) (side : string) (rx : pyval) : string :=
  let reported :=
    if String.eqb side "AP" then first_nonblank row ["ap_optical_status"; "optical_alarm_status"; "status"]
    else
      let own := first_nonblank row ["switch_optical_status"; "neighbor_optical_status"; "neighbor_status"] in
      if blank own then first_nonblank row ["optical_alarm_status"; "status"] else own in
  let status := canonical_status reported in
  let status := if str_mem status ["success"; "ok"] then "" else status in
  if String.eqb status "" && negb (blank rx) then evaluate_ap_business_rx rx (PStr "")
  else str_or status "unknown".

Section storage.
(** [json.dumps] with sorted keys and SHA-256. *)
Context (dumps : pyval → string) (sha256 : string → string).

Definition state_json (rx_dbm tx_dbm status : string) : string :=
  dumps (PDict [("rx_dbm", PStr rx_dbm); ("status", PStr status); ("tx_dbm", PStr tx_dbm)]).

Definition build_optical_projection (row : dict) (site_id side now : string) : res (option dict) :=
  let side := upper (strip side) in
  if negb (str_mem side ["AP"; "SWITCH"]) then Err ValueError
  else
    identity ← optical_ap_identity row;
    let ap := String.eqb side "AP" in
    let rx_value := first_nonblank row
      (if ap then ["rx_dbm"; "ap_rx_power"; "rx_power"] else ["switch_rx_power"; "neighbor_rx_power"; "rx_dbm"; "rx_power"]) in
    let tx_value := first_nonblank row
      (if ap then ["tx_dbm"; "ap_tx_power"; "tx_power"] else ["switch_tx_power"; "neighbor_tx_power"; "tx_dbm"; "tx_power"]) in
    let status := status_for_side row side rx_value in
    let has_measurement := negb (blank rx_value) || negb (blank tx_value) in
    let has_module_metadata := existsb (λ f, negb (blank (dget f row)))
      ["module_model"; "module_serial_number"; "module_vendor"; "temperature"; "voltage"; "bias_current"] in
    if negb has_measurement && negb has_module_metadata && negb (str_mem status OPTICAL_ISSUE_STATUSES) then Ok None
    else
      let collected_at := str_or (text (first_nonblank row ["collected_at"; "optical_collected_at"; "updated_at"])) now in
      rx_dbm ← number_text rx_value;
      tx_dbm ← number_text tx_value;
      let json := state_json rx_dbm tx_dbm status in
      Ok (Some
        [("site_id", PStr (strip site_id)); ("ap_identity", PStr identity); ("ap_uuid", PStr (text (dget "ap_uuid" row)));
         ("ap_name", PStr (text (dget "ap_name" row))); ("ap_mac", PStr (text (dget "ap_mac" row)));
         ("ap_mac_normalized", PStr (default "" (normalize_mac_key (dget "ap_mac" row))));
         ("serial_number", PStr (text (dget "serial_number" row))); ("side", PStr side);
         ("switch_device_id", PStr (text (get_or ["switch_device_id"; "device_uuid"] row)));
         ("switch_name", PStr (text (get_or ["switch_name"; "neighbor_device_name"; "device_name"] row)));
         ("switch_interface", PStr (text (get_or ["switch_interface"; "neighbor_interface"; "interface_name"] row)));
         ("rx_dbm", PStr rx_dbm); ("tx_dbm", PStr tx_dbm); ("status", PStr status);
         ("source", PStr (str_or (text (get_or ["source"; "lldp_source"] row)) "optical_refresh"));
         ("collected_at", PStr collected_at); ("last_seen_at", PStr collected_at); ("state_json", PStr json);
         ("state_fingerprint", PStr (sha256 json)); ("payload_json", PStr (dumps (PDict row)));
         ("source_revision", PStr (text (get_or ["source_revision"; "collect_run_uuid"] row)))]).

(** [upsert_optical_current_and_history]; the table of the authority key is left
    out.  [limit] is [Some OPTICAL_HISTORY_LIMIT] in the code. *)
Definition fresh_row (projection : dict) (now : string) : dict :=
  project id OPTICAL_COLUMNS projection ++
  [("first_seen_at", dget "collected_at" projection); ("created_at", PStr now); ("updated_at", PStr now)].
Definition history_row (projection data : dict) (now : string) : dict :=
  project id OPTICAL_COLUMNS projection ++
  [("previous_state_json", PStr (str_or (column "state_json" data) "{}")); ("changed_at", dget "collected_at" projection);
   ("change_kind", PStr "change"); ("created_at", PStr now)].
Definition updated_row (projection : dict) (now : string) : dict :=
  project id (List.filter (λ f, negb (str_mem f OPTICAL_KEYS)) OPTICAL_COLUMNS) projection ++
  [("last_seen_at", dget "collected_at" projection); ("updated_at", PStr now)].
Definition upsert_optical_current_and_history (limit : option nat) (row : dict) (site_id side now : string) (current history : table)
    : res (table * table * option dict) :=
  projection ← build_optical_projection row site_id side now;
  match projection with
  | None => Ok (current, history, None)
  | Some projection =>
      let key := (λ k, column k projection) <$> OPTICAL_KEYS in
      let here := key_columns OPTICAL_KEYS key in
      let '(current, history, returned) :=
        observe (cut limit) (λ t, List.find (λ r, here r.2) (t_rows t)) (column "state_fingerprint") here
          projection (fresh_row projection now) (λ data, history_row projection data now) (λ _ r, here r.2)
          (λ _ _, updated_row projection now) false
          (λ _, projection ++ [("last_seen_at", dget "collected_at" projection)]) current history in
      Ok (current, history, Some returned)
  end.

(** ** The two ends of an access point *)
Definition ap_rows (site_id ap_identity : string) (t : table) : list (Z * dict) :=
  List.filter (λ r, key_columns ["site_id"; "ap_identity"] [site_id; ap_identity] r.2) (t_rows t).
Definition current_side_rows (current : table) (site_id ap_identity : string) : list (string * dict) :=
  foldl (λ acc r, ainsert (py_str (dget "side" r.2)) r.2 acc) [] (ap_rows site_id ap_identity current).
Definition side_row (rows : list (string * dict)) (side : string) : dict := default [] (alookup side rows).
Definition side_rx (rows : list (string * dict)) (side : string) : string := text (dget "rx_dbm" (side_row rows side)).
Definition side_status (rows : list (string * dict)) (side : string) : string := canonical_status (dget "status" (side_row rows side)).
Definition is_issue (status : string) : bool := str_mem status OPTICAL_ISSUE_STATUSES.
Definition has_real_data (row : dict) : bool :=
  negb (blank (dget "rx_dbm" row)) || negb (blank (dget "tx_dbm" row)) ||
  negb (str_mem (canonical_status (dget "status" row)) OPTICAL_NO_DATA_STATUSES).
Definition source_observation_is_non_valid (source_row : dict) : bool :=
  existsb (λ f, let value := canonical_status (dget f source_row) in str_nonempty value && str_mem value OPTICAL_NO_DATA_STATUSES)
    ["status"; "ap_optical_status"; "switch_optical_status"; "neighbor_optical_status"; "collection_status"; "connection_status"] ||
  existsb (λ f, String.eqb (canonical_status (dget f source_row)) "empty_configured_port")
    ["primary_reason_code"; "reason_code"; "failure_stage"].

(** ** Events *)
Definition EVENT_SEVERITY_ORDER : list (string * Z) :=
  [("notice", 1); ("warning", 2); ("abnormal", 3); ("link_abnormal", 4); ("link_down", 4); ("no_light", 5); ("alarm", 6)].
Definition event_order (s : string) : Z := default 0 (alookup s EVENT_SEVERITY_ORDER).
Definition EVENT_METADATA_FIELDS : list string :=
  ["ap_uuid"; "ap_name"; "ap_mac"; "ap_mac_normalized"; "serial_number"; "ap_id"; "station_id"; "station_name"; "section_name";
   "direction"; "switch_device_id"; "switch_name"; "switch_interface"].
Definition event_metadata (metadata : dict) : dict := (λ f, (f, dget_or f (PStr "") metadata)) <$> EVENT_METADATA_FIELDS.

Definition event_issue_status (statuses : list string) : string :=
  match List.filter is_issue statuses with [] => "" | s :: valid => max_by event_order s valid end.
Definition event_worse_rx (previous current : pyval) : res string :=
  p ← number_text previous;
  c ← number_text current;
  Ok (if String.eqb p "" then c
      else if String.eqb c "" then p
      else match parse_py_decimal p, parse_py_decimal c with
           | Some x, Some y => match decimal_leb x y with Some true | None => p | Some false => c end
           | _, _ => p
           end).
Definition event_join_revisions (previous current : pyval) : string :=
  join ";" (foldl (λ values token, if str_nonempty token && negb (str_mem token values) then values ++ [token] else values) []
    (concat (split_on ";" <$> [text previous; text current]))).
Definition abnormal_side_name (ap_abnormal switch_abnormal : bool) : string :=
  if ap_abnormal && switch_abnormal then "BOTH" else if ap_abnormal then "AP" else if switch_abnormal then "SWITCH" else "NONE".
Definition event_merge_side (previous current : pyval) : string :=
  let sides := remove_dups (List.filter (λ s, str_mem s ["AP"; "SWITCH"; "BOTH"]) [upper (text previous); upper (text current)]) in
  match sides with
  | [] => "UNKNOWN"
  | [s] => s
  | _ => "BOTH"
  end.

(** What the fingerprint of an observation is made of. *)
Definition side_payload (row : dict) : pyval :=
  PDict [("state_fingerprint", PStr (text (dget "state_fingerprint" row))); ("status", PStr (canonical_status (dget "status" row)));
         ("rx_dbm", PStr (text (dget "rx_dbm" row))); ("tx_dbm", PStr (text (dget "tx_dbm" row)));
         ("collected_at", PStr (text (dget "collected_at" row)))].
Definition event_payload (rows : list (string * dict)) (source_row : dict) : pyval :=
  PDict [("source_revision", PStr (text (get_or ["source_revision"; "collect_run_uuid"] source_row)));
         ("sides", PDict ((λ kv, (kv.1, side_payload kv.2)) <$> sort_by (λ a b, String.leb a.1 b.1) rows))].
Definition event_fingerprint (rows : list (string * dict)) (source_row : dict) : string := sha256 (dumps (event_payload rows source_row)).

Definition event_count (events : table) (site_id ap_identity : string) : Z := Z.of_nat (length (ap_rows site_id ap_identity events)).
(** [ORDER BY first_detected_at, id LIMIT 1]. *)
Definition first_leb (a b : Z * dict) : bool :=
  let x := column "first_detected_at" a.2 in
  let y := column "first_detected_at" b.2 in
  if String.eqb x y then a.1 <=? b.1 else String.leb x y.
Definition event_summary_seed (events : table) (site_id ap_identity : string) : dict :=
  match sort_by first_leb (ap_rows site_id ap_identity events) with r :: _ => r.2 | [] => [] end.

Definition is_open (row : dict) : bool := String.eqb (column "event_status" row) "OPEN".
(** [ORDER BY id DESC LIMIT 1]: rows are in the order of their identifiers. *)
Definition open_event (events : table) (site_id ap_identity : string) : option (Z * dict) :=
  last (List.filter (λ r, is_open r.2) (ap_rows site_id ap_identity events)).

Definition PERMANENT_EVENT_FIELDS : list string := ["id"; "event_uuid"; "site_id"; "ap_identity"; "created_at"].
(** [UPDATE ... SET] every value but the permanent ones [WHERE id = ...]. *)
Definition update_event (id : Z) (values : dict) (events : table) : table :=
  update_rows (λ r, r.1 =? id) (λ row, dmerge row (List.filter (λ kv, negb (str_mem kv.1 PERMANENT_EVENT_FIELDS)) values)) events.

Definition runtime_evidence : string := dumps (PDict [("backfill_keys", PList []); ("source", PStr "RUNTIME")]).

Definition continued_event (current metadata : dict) (issue_type abnormal_side latest first_ap first_switch revision fingerprint now : string)
    : res dict :=
  worst_ap ← event_worse_rx (dget "worst_ap_rx_dbm" current) (PStr first_ap);
  worst_switch ← event_worse_rx (dget "worst_switch_rx_dbm" current) (PStr first_switch);
  worst ← event_worse_rx (dget "worst_rx_dbm" current) (PStr (str_or first_ap first_switch));
  let last_abnormal := text (dget "last_abnormal_at" current) in
  Ok (dmerge (dmerge current (event_metadata metadata))
    [("event_status", PStr "OPEN");
     ("last_abnormal_at", PStr (if String.leb latest last_abnormal then last_abnormal else latest));
     ("last_abnormal_side", PStr abnormal_side);
     ("worst_abnormal_side", PStr (event_merge_side (dget "worst_abnormal_side" current) (PStr abnormal_side)));
     ("issue_type", PStr (str_or issue_type (text (dget "issue_type" current))));
     ("worst_severity", PStr (max_by event_order (text (dget "worst_severity" current)) [issue_type]));
     ("first_ap_rx_dbm", PStr (str_or (text (dget "first_ap_rx_dbm" current)) first_ap)); ("worst_ap_rx_dbm", PStr worst_ap);
     ("first_switch_rx_dbm", PStr (str_or (text (dget "first_switch_rx_dbm" current)) first_switch));
     ("worst_switch_rx_dbm", PStr worst_switch);
     ("first_rx_dbm", PStr (str_or (text (dget "first_rx_dbm" current)) (str_or first_ap first_switch)));
     ("worst_rx_dbm", PStr worst);
     ("source_revision_last", PStr (event_join_revisions (dget "source_revision_last" current) (PStr revision)));
     ("last_observation_fingerprint", PStr fingerprint); ("updated_at", PStr now)]).

Definition new_event (uuid site_id ap_identity : string) (metadata : dict)
    (issue_type abnormal_side latest first_ap first_switch revision fingerprint now : string) : dict :=
  event_metadata metadata ++
  [("event_uuid", PStr uuid); ("site_id", PStr site_id); ("ap_identity", PStr ap_identity);
   ("first_abnormal_side", PStr abnormal_side); ("worst_abnormal_side", PStr abnormal_side);
   ("last_abnormal_side", PStr abnormal_side); ("issue_type", PStr issue_type); ("initial_severity", PStr issue_type);
   ("worst_severity", PStr issue_type); ("first_detected_at", PStr latest); ("last_abnormal_at", PStr latest);
   ("resolved_at", PStr ""); ("first_ap_rx_dbm", PStr first_ap); ("worst_ap_rx_dbm", PStr first_ap);
   ("recovered_ap_rx_dbm", PStr ""); ("first_switch_rx_dbm", PStr first_switch); ("worst_switch_rx_dbm", PStr first_switch);
   ("recovered_switch_rx_dbm", PStr ""); ("first_rx_dbm", PStr (str_or first_ap first_switch));
   ("worst_rx_dbm", PStr (str_or first_ap first_switch)); ("recovered_rx_dbm", PStr ""); ("event_status", PStr "OPEN");
   ("treatment_status", PStr "PENDING"); ("remark", PStr ""); ("source_revision_first", PStr revision);
   ("source_revision_last", PStr revision); ("backfill_key", PStr ""); ("backfill_source", PStr "");
   ("evidence_quality", PStr "RUNTIME"); ("evidence_json", PStr runtime_evidence);
   ("last_observation_fingerprint", PStr fingerprint); ("created_at", PStr now); ("updated_at", PStr now)].

Definition resolved_event (current metadata : dict) (abnormal_side latest ap_rx switch_rx revision fingerprint now : string) : dict :=
  dmerge (dmerge current (event_metadata metadata))
    [("event_status", PStr "RESOLVED"); ("resolved_at", PStr latest); ("recovered_ap_rx_dbm", PStr ap_rx);
     ("recovered_switch_rx_dbm", PStr switch_rx); ("recovered_rx_dbm", PStr (str_or ap_rx switch_rx));
     ("last_abnormal_side", PStr (str_or (text (dget "last_abnormal_side" current)) abnormal_side));
     ("source_revision_last", PStr (event_join_revisions (dget "source_revision_last" current) (PStr revision)));
     ("last_observation_fingerprint", PStr fingerprint); ("updated_at", PStr now)].

(** [_record_ap_optical_treatment_event]: the returned row is not used by its
    caller. *)
Definition record_event (site_id ap_identity : string) (source_row : dict) (rows : list (string * dict)) (metadata : dict)
    (abnormal_side latest now uuid : string) (events : table) : res table :=
  let ap_status := side_status rows "AP" in
  let switch_status := side_status rows "SWITCH" in
  let revision := text (get_or ["source_revision"; "collect_run_uuid"] source_row) in
  let fingerprint := event_fingerprint rows source_row in
  let issue_type := event_issue_status [ap_status; switch_status] in
  let first_ap := if is_issue ap_status then side_rx rows "AP" else "" in
  let first_switch := if is_issue switch_status then side_rx rows "SWITCH" else "" in
  match open_event events site_id ap_identity with
  | Some (id, current) =>
      let seen := bool_decide (dget "last_observation_fingerprint" current = PStr fingerprint) in
      if negb (String.eqb abnormal_side "NONE") then
        if seen then Ok events
        else
          values ← continued_event current metadata issue_type abnormal_side latest first_ap first_switch revision fingerprint now;
          Ok (update_event id values events)
      else if seen then Ok events
      else Ok (update_event id
             (resolved_event current metadata abnormal_side latest (side_rx rows "AP") (side_rx rows "SWITCH") revision fingerprint now) events)
  | None =>
      if negb (String.eqb abnormal_side "NONE")
      then Ok (insert_row (new_event uuid site_id ap_identity metadata issue_type abnormal_side latest first_ap first_switch
             revision fingerprint now) events)
      else Ok events
  end.

(** ** The treatment of an access point *)
Record optical_store := Store { os_current : table; os_history : table; os_events : table; os_treatments : table }.
Definition empty_store : optical_store := Store empty_table empty_table empty_table empty_table.

(** [max] of non-empty texts. *)
Definition max_text (first : string) (l : list string) : string := foldl (λ m x, if String.leb x m then m else x) first l.
Definition latest_collected (rows : list (string * dict)) (source_row : dict) (now : string) : string :=
  match List.filter str_nonempty ((λ kv, text (dget "collected_at" kv.2)) <$> rows) with
  | t :: l => max_text t l
  | [] => str_or (text (dget "collected_at" source_row)) now
  end.

Definition station_name_of (site_id : string) (source_row ap_row previous : dict) : string :=
  let name := text (por (get_or ["station_name"; "station"; "site"] source_row) (dget "station_name" ap_row)) in
  let name := if String.eqb (casefold name) (casefold (strip site_id)) then "" else name in
  str_or name (text (dget "station_name" previous)).

Definition treatment_metadata (site_id ap_identity : string) (source_row : dict) (rows : list (string * dict)) (previous : dict)
    (abnormal_side latest now : string) : dict :=
  let ap_row := side_row rows "AP" in
  let switch_row := side_row rows "SWITCH" in
  let known (fields : list string) (f : string) : pyval :=
    PStr (str_or (text (get_or fields source_row)) (str_or (text (dget f ap_row)) (text (dget f previous)))) in
  [("site_id", PStr site_id); ("ap_identity", PStr ap_identity);
   ("ap_uuid", known ["ap_uuid"] "ap_uuid"); ("ap_name", known ["ap_name"] "ap_name"); ("ap_mac", known ["ap_mac"] "ap_mac");
   ("ap_mac_normalized",
      PStr (str_or (default "" (normalize_mac_key (por (dget "ap_mac" source_row) (por (dget "ap_mac" ap_row) (dget "ap_mac" previous)))))
              (text (dget "ap_mac_normalized" previous))));
   ("serial_number", known ["serial_number"] "serial_number"); ("ap_id", known ["ap_id"; "apid"] "ap_id");
   ("section_name", known ["section_name"; "belong_section"] "section_name"); ("direction", known ["direction"] "direction");
   ("station_id", PStr (str_or (text (dget "station_id" source_row)) (text (dget "station_id" previous))));
   ("station_name", PStr (station_name_of site_id source_row ap_row previous));
   ("switch_device_id", PStr (text (dget "switch_device_id" switch_row))); ("switch_name", PStr (text (dget "switch_name" switch_row)));
   ("switch_interface", PStr (text (dget "switch_interface" switch_row)));
   ("current_ap_rx_dbm", PStr (side_rx rows "AP")); ("current_switch_rx_dbm", PStr (side_rx rows "SWITCH"));
   ("current_ap_tx_dbm", PStr (text (dget "tx_dbm" ap_row))); ("current_switch_tx_dbm", PStr (text (dget "tx_dbm" switch_row)));
   ("current_ap_status", PStr (side_status rows "AP")); ("current_switch_status", PStr (side_status rows "SWITCH"));
   ("current_abnormal_side", PStr abnormal_side); ("last_collected_at", PStr latest); ("updated_at", PStr now)].

Definition PERMANENT_TREATMENT_FIELDS : list string := ["id"; "site_id"; "ap_identity"; "created_at"].
Definition update_treatment (site_id ap_identity : string) (values : dict) (treatments : table) : table :=
  update_rows (λ r, key_columns ["site_id"; "ap_identity"] [site_id; ap_identity] r.2)
    (λ row, dmerge row (List.filter (λ kv, negb (str_mem kv.1 PERMANENT_TREATMENT_FIELDS)) values)) treatments.

Definition new_treatment (metadata seed : dict) (abnormal_side latest revision now : string) (recurrence_count : Z) : dict :=
  let seeded (f fallback : string) : pyval := PStr (str_or (text (dget f seed)) fallback) in
  metadata ++
  [("first_detected_at", seeded "first_detected_at" latest); ("last_abnormal_at", PStr latest);
   ("first_ap_rx_dbm", seeded "first_ap_rx_dbm" (text (dget "current_ap_rx_dbm" metadata)));
   ("first_switch_rx_dbm", seeded "first_switch_rx_dbm" (text (dget "current_switch_rx_dbm" metadata)));
   ("recovered_ap_rx_dbm", PStr ""); ("recovered_switch_rx_dbm", PStr "");
   ("first_abnormal_side", seeded "first_abnormal_side" abnormal_side); ("current_status", PStr "ABNORMAL");
   ("treatment_status", PStr (if recurrence_count =? 0 then "PENDING" else "RECURRENT"));
   ("first_resolved_at", PStr (text (dget "resolved_at" seed))); ("last_resolved_at", PStr (text (dget "resolved_at" seed)));
   ("recurrence_count", PInt recurrence_count); ("remark", PStr ""); ("source_revision", PStr revision); ("created_at", PStr now)].
Definition abnormal_treatment (previous metadata : dict) (latest revision : string) (recurrence_count : Z) : dict :=
  dmerge (dmerge previous metadata)
    [("last_abnormal_at", PStr latest); ("current_status", PStr "ABNORMAL");
     ("treatment_status",
        PStr (if recurrence_count =? 0 then str_or (column "treatment_status" previous) "PENDING" else "RECURRENT"));
     ("recurrence_count", PInt recurrence_count); ("source_revision", PStr revision)].
Definition normal_treatment (previous metadata : dict) (latest revision : string) : dict :=
  dmerge (dmerge previous metadata)
    [("current_status", PStr (if String.eqb (column "current_status" previous) "ABNORMAL" then "RECOVERED" else "NORMAL"));
     ("treatment_status", PStr "RESOLVED"); ("recovered_ap_rx_dbm", dget "current_ap_rx_dbm" metadata);
     ("recovered_switch_rx_dbm", dget "current_switch_rx_dbm" metadata);
     ("first_resolved_at", PStr (str_or (column "first_resolved_at" previous) latest)); ("last_resolved_at", PStr latest);
     ("source_revision", PStr revision)].

(** [update_ap_optical_treatment] on the tables of the events and of the
    treatments. *)
Definition update_ap_optical_treatment (site_id ap_identity : string) (source_row : dict) (now uuid : string)
    (current events treatments : table) : res (table * table) :=
  let rows := current_side_rows current site_id ap_identity in
  let ap_abnormal := is_issue (side_status rows "AP") in
  let switch_abnormal := is_issue (side_status rows "SWITCH") in
  let abnormal := ap_abnormal || switch_abnormal in
  if negb abnormal && source_observation_is_non_valid source_row then Ok (events, treatments)
  else if negb abnormal && existsb (λ kv, str_mem (canonical_status (dget "status" kv.2)) OPTICAL_NO_DATA_STATUSES) rows
  then Ok (events, treatments)
  else if negb abnormal && negb (existsb (λ kv, has_real_data kv.2) rows) then Ok (events, treatments)
  else
    let abnormal_side := abnormal_side_name ap_abnormal switch_abnormal in
    let previous := snd <$> head (ap_rows site_id ap_identity treatments) in
    let latest := latest_collected rows source_row now in
    let metadata := treatment_metadata site_id ap_identity source_row rows (default [] previous) abnormal_side latest now in
    let revision := text (get_or ["source_revision"; "collect_run_uuid"] source_row) in
    events' ← record_event site_id ap_identity source_row rows metadata abnormal_side latest now uuid events;
    let recurrence_count := Z.max (event_count events' site_id ap_identity - 1) 0 in
    let seed := event_summary_seed events' site_id ap_identity in
    Ok (events',
        match previous, negb (String.eqb abnormal_side "NONE") with
        | None, true => insert_row (new_treatment metadata seed abnormal_side latest revision now recurrence_count) treatments
        | Some p, true => update_treatment site_id ap_identity (abnormal_treatment p metadata latest revision recurrence_count) treatments
        | None, false => treatments
        | Some p, false => update_treatment site_id ap_identity (normal_treatment p metadata latest revision) treatments
        end).

(** AcRepository._record_fit_ap_optical_history: both ends of a collected row. *)
Definition record_side (limit : option nat) (payload : dict) (site_id now uuid side : string) (s : optical_store) : res optical_store :=
  '(current, history, projection) ← upsert_optical_current_and_history limit payload site_id side now (os_current s) (os_history s);
  match projection with
  | None => Ok (Store current history (os_events s) (os_treatments s))
  | Some p =>
      '(events, treatments) ← update_ap_optical_treatment site_id (py_str (dget "ap_identity" p)) payload now uuid
        current (os_events s) (os_treatments s);
      Ok (Store current history events treatments)
  end.
Definition record_fit_ap_optical_history (payload : dict) (site_id now : string) (uuids : string * string) (s : optical_store)
    : res optical_store :=
  if String.eqb (text_or_empty (dget "ap_uuid" payload)) "" then Ok s
  else
    s ← record_side (Some OPTICAL_HISTORY_LIMIT) payload site_id now uuids.1 "AP" s;
    record_side (Some OPTICAL_HISTORY_LIMIT) payload site_id now uuids.2 "SWITCH" s.

(** ** Reading (merge_optical_current_rows) *)
Context (loads : string → option pyval).

Definition merged_row (target row : dict) : dict :=
  let payload := match loads (str_or (text_or_empty (dget "payload_json" row)) "{}") with Some (PDict d) => d | _ => [] end in
  let target := dmerge target payload in
  let known (f : string) : pyval := por (dget f row) (dget f target) in
  let target := dmerge target
    [("site_id", dget "site_id" row); ("ap_identity", dget "ap_identity" row); ("ap_uuid", known "ap_uuid");
     ("ap_name", known "ap_name"); ("ap_mac", known "ap_mac"); ("serial_number", known "serial_number")] in
  if String.eqb (text_or_empty (dget "side" row)) "AP" then
    dmerge target
      [("rx_power", dget "rx_dbm" row); ("tx_power", dget "tx_dbm" row); ("ap_rx_power", dget "rx_dbm" row);
       ("ap_tx_power", dget "tx_dbm" row); ("ap_optical_status", dget "status" row);
       ("ap_device_optical_status", dget "status" row); ("ap_optical_updated_at", dget "collected_at" row);
       ("updated_at", dget "collected_at" row)]
  else
    dmerge target
      [("neighbor_rx_power", dget "rx_dbm" row); ("switch_rx_power", dget "rx_dbm" row);
       ("switch_optical_status", dget "status" row); ("switch_device_optical_status", dget "status" row);
       ("switch_optical_updated_at", dget "collected_at" row);
       ("neighbor_device_name", por (dget "switch_name" row) (dget "neighbor_device_name" target));
       ("neighbor_interface", por (dget "switch_interface" row) (dget "neighbor_interface" target))].
Definition pair_set (k : string * string) (v : dict) (l : list ((string * string) * dict)) : list ((string * string) * dict) :=
  if bool_decide (k ∈ l.*1) then (λ kv, if bool_decide (kv.1 = k) then (k, v) else kv) <$> l else l ++ [(k, v)].
Definition merge_optical_current_rows (rows : list dict) : list dict :=
  let grouped := foldl (λ acc row,
      let k := (text_or_empty (dget "site_id" row), text_or_empty (dget "ap_identity" row)) in
      let target := default [] (snd <$> List.find (λ kv, bool_decide (kv.1 = k)) acc) in
      pair_set k (merged_row target row) acc) [] rows in
  sort_by (λ a b, key_leb (AS <$> [text_or_empty (dget "ap_name" a); text_or_empty (dget "ap_identity" a)])
                    (AS <$> [text_or_empty (dget "ap_name" b); text_or_empty (dget "ap_identity" b)])) grouped.*2.
End storage.

(** ** Lemmas on tables and their keys *)
Definition keys_ok (t : table) : Prop := table_ok t ∧ Forall (λ r, NoDup r.2.*1) (t_rows t).

Lemma keys_ok_empty : keys_ok empty_table.
Proof. split; [apply empty_ok|constructor]. Qed.
Lemma keys_ok_insert row t : keys_ok t → NoDup row.*1 → keys_ok (insert_row row t).
Proof. intros [Ht Hf] Hr. split; [by apply insert_ok|]. simpl. apply Forall_app. split; [done|]. by constructor. Qed.
Lemma keys_ok_update sel f t : keys_ok t → (∀ row, NoDup row.*1 → NoDup (f row).*1) → keys_ok (update_rows sel f t).
Proof.
  intros [[Hn Hs] Hf] Hup. unfold update_rows. split; [split|]; simpl.
  - rewrite <- list_fmap_compose. erewrite list_fmap_ext; [exact Hn|]. intros i r _. simpl. by destruct (sel r).
  - rewrite Forall_fmap. eapply Forall_impl; [exact Hs|]. intros r H. simpl. by destruct (sel r).
  - rewrite Forall_fmap. eapply Forall_impl; [exact Hf|]. intros r H. simpl. destruct (sel r); simpl; auto.
Qed.

Lemma ap_rows_insert s a row t :
  ap_rows s a (insert_row row t) =
  ap_rows s a t ++ (if key_columns ["site_id"; "ap_identity"] [s; a] row then [(t_seq t + 1, row)] else []).
Proof. unfold ap_rows, insert_row. cbn [t_rows]. by rewrite List.filter_app. Qed.
Lemma filter_fmap_keep {A} (p : A → bool) (g : A → A) l :
  (∀ x, p (g x) = p x) → List.filter p (g <$> l) = g <$> List.filter p l.
Proof.
  intros Hg. induction l as [|x l IH]; [done|]. rewrite fmap_cons. simpl. rewrite Hg. destruct (p x); [|exact IH].
  rewrite fmap_cons. by f_equal.
Qed.
Lemma ap_rows_update s a sel f t :
  (∀ row k, key_columns ["site_id"; "ap_identity"] k (f row) = key_columns ["site_id"; "ap_identity"] k row) →
  ap_rows s a (update_rows sel f t) = (λ r, if sel r then (r.1, f r.2) else r) <$> ap_rows s a t.
Proof.
  intros Hf. unfold ap_rows, update_rows. cbn [t_rows]. apply filter_fmap_keep. intros r. by destruct (sel r); simpl.
Qed.
Lemma ap_rows_elem s a r t : r ∈ ap_rows s a t ↔ r ∈ t_rows t ∧ key_columns ["site_id"; "ap_identity"] [s; a] r.2 = true.
Proof. unfold ap_rows. rewrite !list_elem_of_In. apply filter_In. Qed.
Lemma ap_rows_nodup s a t : table_ok t → NoDup (ap_rows s a t).*1.
Proof. intros [Hn _]. by apply filter_sub. Qed.

(** An update that keeps the permanent fields. *)
Lemma dget_kept permanent f row values :
  NoDup values.*1 →
  dget f (dmerge row (List.filter (λ kv, negb (str_mem kv.1 permanent)) values)) =
  if str_mem f permanent then dget f row else match alookup f values with Some v => v | None => dget f row end.
Proof.
  intros Hv. rewrite dget_dmerge by (by apply filter_sub). destruct (str_mem f permanent) eqn:E.
  - assert (alookup f (List.filter (λ kv, negb (str_mem kv.1 permanent)) values) = None) as ->; [|done].
    apply alookup_None. intros ([g v] & -> & H)%list_elem_of_fmap. apply list_elem_of_In, filter_In in H as [_ H].
    simpl in *. by rewrite E in H.
  - by rewrite (alookup_filter_key (λ f, negb (str_mem f permanent))) by (by rewrite E).
Qed.
Lemma key_columns_kept permanent k row values :
  str_mem "site_id" permanent = true → str_mem "ap_identity" permanent = true → NoDup values.*1 →
  key_columns ["site_id"; "ap_identity"] k (dmerge row (List.filter (λ kv, negb (str_mem kv.1 permanent)) values)) =
  key_columns ["site_id"; "ap_identity"] k row.
Proof. intros H1 H2 Hv. unfold key_columns. cbn [fmap list_fmap]. by rewrite !dget_kept, H1, H2. Qed.
Lemma dget_last f row l v : NoDup l.*1 → alookup f l = Some v → dget f (dmerge row l) = v.
Proof. intros Hl Hf. by rewrite dget_dmerge, Hf. Qed.
Lemma alookup_last f row l v : NoDup l.*1 → alookup f l = Some v → alookup f (dmerge row l) = Some v.
Proof. intros Hl Hf. by rewrite alookup_dmerge, Hf. Qed.
Ltac nodup_keys := apply (bool_decide_unpack _); vm_compute; exact I.

Lemma key_columns_of s a row k :
  dget "site_id" row = PStr s → dget "ap_identity" row = PStr a →
  (key_columns ["site_id"; "ap_identity"] k row = true ↔ k = [s; a]).
Proof.
  intros Hs Ha. unfold key_columns. rewrite bool_decide_eq_true. cbn [fmap list_fmap]. rewrite Hs, Ha. cbn [sql_text].
  split; [|by intros ->]. intros H. change [Some s; Some a] with (Some <$> [s; a]) in H. by apply (inj (fmap Some)) in H.
Qed.

(** ** Updating one row *)
Lemma nodup_fst_eq {A B} (l : list (A * B)) x y : NoDup l.*1 → x ∈ l → y ∈ l → x.1 = y.1 → x = y.
Proof.
  induction l as [|z l IH]; [by intros _ ?%elem_of_nil|]. cbn [fmap list_fmap]. intros [Hz Hn]%NoDup_cons Hx Hy E.
  apply elem_of_cons in Hx as [->|Hx], Hy as [->|Hy]; auto; destruct Hz.
  - rewrite E. by apply list_elem_of_fmap_2.
  - rewrite <- E. by apply list_elem_of_fmap_2.
Qed.
Definition put (id : Z) (h : dict → dict) (r : Z * dict) : Z * dict := if r.1 =? id then (r.1, h r.2) else r.
Lemma put_other id h l : id ∉ l.*1 → put id h <$> l = l.
Proof.
  induction l as [|r l IH]; [done|]. cbn [fmap list_fmap]. intros [Hr Hl]%not_elem_of_cons. rewrite IH by done. f_equal.
  unfold put. destruct (Z.eqb_spec r.1 id); [by destruct Hr|done].
Qed.
Lemma put_open id h l r :
  NoDup l.*1 → List.filter (λ r, is_open r.2) l = [r] → r.1 = id →
  List.filter (λ r, is_open r.2) (put id h <$> l) = if is_open (h r.2) then [(id, h r.2)] else [].
Proof.
  intros Hn Hf <-. induction l as [|x l IH]; [done|]. cbn [fmap list_fmap] in *. apply NoDup_cons in Hn as [Hx Hn].
  cbn [List.filter] in Hf. destruct (is_open x.2) eqn:Eo.
  - injection Hf as -> Hl. rewrite put_other by done. simpl. unfold put. rewrite Z.eqb_refl. simpl.
    change (λ r0 : Z * dict, is_open r0.2) with (λ r0 : Z * dict, is_open r0.2) in Hl. rewrite Hl. by destruct (is_open (h r.2)).
  - assert (x.1 ≠ r.1) as Hne.
    { intros E. apply Hx. rewrite E. apply list_elem_of_fmap. exists r. split; [done|].
      assert (In r (List.filter (λ r, is_open r.2) l)) as Hin by (rewrite Hf; by left). apply filter_In in Hin as [Hin _].
      by apply list_elem_of_In. }
    simpl. unfold put at 1. destruct (Z.eqb_spec x.1 r.1); [done|]. rewrite Eo. auto.
Qed.

Lemma update_event_rows s a id values events :
  NoDup values.*1 →
  ap_rows s a (update_event id values events) =
  put id (λ row, dmerge row (List.filter (λ kv, negb (str_mem kv.1 PERMANENT_EVENT_FIELDS)) values)) <$> ap_rows s a events.
Proof. intros Hv. unfold update_event. apply ap_rows_update. intros row k. by apply key_columns_kept. Qed.
Lemma update_event_ok id values events : NoDup values.*1 → keys_ok events → keys_ok (update_event id values events).
Proof. intros Hv Ht. apply keys_ok_update; [done|]. intros row. apply dmerge_NoDup. Qed.
Lemma update_treatment_rows s a s' a' values treatments :
  NoDup values.*1 →
  ap_rows s' a' (update_treatment s a values treatments) =
  (λ r, if bool_decide ((s', a') = (s, a))
        then (r.1, dmerge r.2 (List.filter (λ kv, negb (str_mem kv.1 PERMANENT_TREATMENT_FIELDS)) values)) else r)
  <$> ap_rows s' a' treatments.
Proof.
  intros Hv. unfold update_treatment. rewrite ap_rows_update by (intros row k; by apply key_columns_kept).
  apply list_fmap_ext. intros i r Hr%list_elem_of_lookup_2. apply ap_rows_elem in Hr as [_ Hr].
  case_bool_decide as E.
  - injection E as -> ->. by rewrite Hr.
  - destruct (key_columns _ [s; a] r.2) eqn:E'; [|done]. destruct E. pose proof (key_columns_inj _ _ _ _ E' Hr). by simplify_eq.
Qed.
Lemma update_treatment_ok s a values treatments : NoDup values.*1 → keys_ok treatments → keys_ok (update_treatment s a values treatments).
Proof. intros Hv Ht. apply keys_ok_update; [done|]. intros row. apply dmerge_NoDup. Qed.

(** ** Episodes: what the events of an access point are, without tables *)
Inductive verdict := VAbnormal | VNormal | VNothing.
Definition verdict_of (rows : list (string * dict)) (source_row : dict) : verdict :=
  if is_issue (side_status rows "AP") || is_issue (side_status rows "SWITCH") then VAbnormal
  else if source_observation_is_non_valid source_row ||
          existsb (λ kv, str_mem (canonical_status (dget "status" kv.2)) OPTICAL_NO_DATA_STATUSES) rows ||
          negb (existsb (λ kv, has_real_data kv.2) rows)
  then VNothing else VNormal.

Record observation := Observation {
  ob_site : string; ob_ap : string; ob_source : dict; ob_now : string; ob_uuid : string; ob_current : table;
}.
Definition ob_verdict (o : observation) : verdict :=
  verdict_of (current_side_rows (ob_current o) (ob_site o) (ob_ap o)) (ob_source o).

(** Whether an episode is open, and how many there were. *)
Definition episode_step (v : verdict) (e : bool * nat) : bool * nat :=
  match v with
  | VAbnormal => if e.1 then e else (true, S e.2)
  | VNormal => (false, e.2)
  | VNothing => e
  end.
Definition episodes (site_id ap_identity : string) (l : list observation) : bool * nat :=
  foldl (λ e o, if bool_decide ((ob_site o, ob_ap o) = (site_id, ap_identity)) then episode_step (ob_verdict o) e else e) (false, 0%nat) l.

Lemma alookup_fmap_values {V W} (f : V → W) k (l : list (string * V)) :
  alookup k ((λ kv, (kv.1, f kv.2)) <$> l) = f <$> alookup k l.
Proof. induction l as [|[j v] l IH]; [done|]. simpl. by destruct (decide (k = j)). Qed.
Lemma alookup_perm {V} k (l l' : list (string * V)) : l ≡ₚ l' → NoDup l'.*1 → alookup k l = alookup k l'.
Proof.
  intros Hp Hn. assert (NoDup l.*1) by (by rewrite Hp). destruct (alookup k l') as [v|] eqn:E.
  - apply alookup_in; [done|]. rewrite Hp. by apply alookup_Some_in.
  - apply alookup_None in E. apply alookup_None. by rewrite Hp.
Qed.
#[local] Transparent dget.
Lemma dget_lookup k d : dget k d = default PNone (alookup k d).
Proof. reflexivity. Qed.
Lemma dget_status a s b : dget "status" (("state_fingerprint", a) :: ("status", s) :: b) = s.
Proof. reflexivity. Qed.
#[local] Opaque dget.

Section treatment.
Context (dumps : pyval → string) (sha256 : string → string).
Notation fingerprint := (event_fingerprint dumps sha256).

Definition treat (o : observation) (t : table * table) : res (table * table) :=
  update_ap_optical_treatment dumps sha256 (ob_site o) (ob_ap o) (ob_source o) (ob_now o) (ob_uuid o) (ob_current o) t.1 t.2.
Fixpoint treat_all (l : list observation) (t : table * table) : res (table * table) :=
  match l with
  | [] => Ok t
  | o :: l' => t' ← treat o t; treat_all l' t'
  end.

(** The open event was last written by an abnormal observation. *)
Definition abnormal_fingerprint (row : dict) : Prop :=
  ∃ rows source_row, NoDup rows.*1 ∧ is_issue (side_status rows "AP") || is_issue (side_status rows "SWITCH") = true ∧
    dget "last_observation_fingerprint" row = PStr (fingerprint rows source_row).
Definition opens (s a : string) (events : table) : list (Z * dict) := List.filter (λ r, is_open r.2) (ap_rows s a events).

(** The summary of an access point. *)
Definition summary (s a : string) (e : bool * nat) (treatments : table) : Prop :=
  match e.2 with
  | O => ap_rows s a treatments = [] ∧ e.1 = false
  | S m => ∃ r, ap_rows s a treatments = [r] ∧ dget "recurrence_count" r.2 = PInt (Z.of_nat m) ∧
                String.eqb (column "current_status" r.2) "ABNORMAL" = e.1
  end.
(** The tables of an access point in a state of episodes. *)
Definition describes (s a : string) (e : bool * nat) (t : table * table) : Prop :=
  length (ap_rows s a t.1) = e.2 ∧
  (if e.1 then ∃ r, opens s a t.1 = [r] ∧ abnormal_fingerprint r.2 else opens s a t.1 = []) ∧
  summary s a e t.2.

(** *** The writes of an event *)
#[local] Transparent dget.
Lemma new_event_fields uuid s a metadata issue side latest ap sw rev fp now :
  let row := new_event dumps uuid s a metadata issue side latest ap sw rev fp now in
  NoDup row.*1 ∧ dget "site_id" row = PStr s ∧ dget "ap_identity" row = PStr a ∧ is_open row = true ∧
  dget "last_observation_fingerprint" row = PStr fp.
Proof. split_and!; try reflexivity. nodup_keys. Qed.
Lemma new_treatment_fields s a source rows previous side latest now seed rev n :
  let row := new_treatment (treatment_metadata s a source rows previous side latest now) seed side latest rev now n in
  NoDup row.*1 ∧ dget "site_id" row = PStr s ∧ dget "ap_identity" row = PStr a ∧
  dget "recurrence_count" row = PInt n ∧ column "current_status" row = "ABNORMAL".
Proof. split_and!; try reflexivity. nodup_keys. Qed.
#[local] Opaque dget.

Lemma continued_fields current metadata issue side latest ap sw rev fp now values :
  NoDup current.*1 → continued_event current metadata issue side latest ap sw rev fp now = Ok values →
  NoDup values.*1 ∧ alookup "event_status" values = Some (PStr "OPEN") ∧
  alookup "last_observation_fingerprint" values = Some (PStr fp).
Proof.
  intros Hc. unfold continued_event. intros (x & _ & (y & _ & (z & _ & H)%res_bind_Ok)%res_bind_Ok)%res_bind_Ok.
  apply Ok_inj in H as <-.
  split_and!; [by do 2 apply dmerge_NoDup|apply alookup_last; [nodup_keys|reflexivity]..].
Qed.
Lemma resolved_fields current metadata side latest ap sw rev fp now :
  NoDup current.*1 →
  let values := resolved_event current metadata side latest ap sw rev fp now in
  NoDup values.*1 ∧ alookup "event_status" values = Some (PStr "RESOLVED").
Proof. intros Hc. split; [by do 2 apply dmerge_NoDup|apply alookup_last; [nodup_keys|reflexivity]]. Qed.
Lemma abnormal_treatment_fields previous metadata latest rev n :
  NoDup previous.*1 →
  let values := abnormal_treatment previous metadata latest rev n in
  NoDup values.*1 ∧ alookup "recurrence_count" values = Some (PInt n) ∧ alookup "current_status" values = Some (PStr "ABNORMAL").
Proof. intros Hc. split_and!; [by do 2 apply dmerge_NoDup|apply alookup_last; [nodup_keys|reflexivity]..]. Qed.
Lemma normal_treatment_fields previous s a source rows prev side latest' now latest rev :
  NoDup previous.*1 →
  let values := normal_treatment previous (treatment_metadata s a source rows prev side latest' now) latest rev in
  NoDup values.*1 ∧ alookup "recurrence_count" values = alookup "recurrence_count" previous ∧
  ∃ status, alookup "current_status" values = Some (PStr status) ∧ status ≠ "ABNORMAL".
Proof.
  intros Hc. split_and!; [by do 2 apply dmerge_NoDup| |].
  - unfold normal_treatment. rewrite !alookup_dmerge by nodup_keys. reflexivity.
  - eexists. split; [apply alookup_last; [nodup_keys|reflexivity]|]. by destruct (String.eqb _ _).
Qed.

(** *** A fingerprint tells an abnormal observation from a normal one *)
Context (distinguishes : ∀ rows source rows' source',
  fingerprint rows source = fingerprint rows' source' → event_payload rows source = event_payload rows' source').

Lemma payload_statuses rows source rows' source' side :
  NoDup rows.*1 → NoDup rows'.*1 → event_payload rows source = event_payload rows' source' →
  side_status rows side = side_status rows' side.
Proof.
  intros Hn Hn' H. injection H as _ H.
  assert (∀ l : list (string * dict), NoDup l.*1 →
    side_status l side =
    match alookup side ((λ kv, (kv.1, side_payload kv.2)) <$> sort_by (λ a b, String.leb a.1 b.1) l) with
    | Some (PDict d) => text_or_empty (dget "status" d)
    | _ => ""
    end) as Hs; [|by rewrite !Hs, H].
  clear -Hn. intros l Hl. rewrite (alookup_fmap_values side_payload), (alookup_perm _ _ l) by (done || apply sort_by_perm).
  unfold side_status, side_row. destruct (alookup side l) as [d|]; [|reflexivity]. simpl. by rewrite dget_status, text_or_empty_PStr.
Qed.

(** *** Recording an event *)
Section record.
Context (s a : string) (source_row : dict) (rows : list (string * dict)) (metadata : dict) (side latest now uuid : string).
Notation record := (record_event dumps sha256 s a source_row rows metadata side latest now uuid).
Notation issue := (is_issue (side_status rows "AP") || is_issue (side_status rows "SWITCH")).

Lemma open_event_elem events id row : open_event events s a = Some (id, row) → (id, row) ∈ ap_rows s a events.
Proof.
  unfold open_event. intros H. apply last_Some_elem_of in H. apply list_elem_of_In, filter_In in H as [H _]. by apply list_elem_of_In.
Qed.
Lemma open_event_nodup events id row : keys_ok events → open_event events s a = Some (id, row) → NoDup row.*1.
Proof.
  intros [_ Hf] H%open_event_elem. apply ap_rows_elem in H as [H _]. by apply (proj1 (Forall_forall _ _) Hf) in H.
Qed.

(** What [record_event] does to the table. *)
Lemma record_cases events events' :
  keys_ok events → record events = Ok events' →
  (events' = events ∧
     match open_event events s a with
     | Some (_, row) => dget "last_observation_fingerprint" row = PStr (fingerprint rows source_row)
     | None => side = "NONE"
     end) ∨
  (∃ row, events' = insert_row row events ∧ open_event events s a = None ∧ side ≠ "NONE" ∧ NoDup row.*1 ∧
     dget "site_id" row = PStr s ∧ dget "ap_identity" row = PStr a ∧ is_open row = true ∧
     dget "last_observation_fingerprint" row = PStr (fingerprint rows source_row)) ∨
  (∃ id row values, events' = update_event id values events ∧ open_event events s a = Some (id, row) ∧ NoDup values.*1 ∧
     alookup "event_status" values = Some (PStr (if String.eqb side "NONE" then "RESOLVED" else "OPEN")) ∧
     (side ≠ "NONE" → alookup "last_observation_fingerprint" values = Some (PStr (fingerprint rows source_row)))).
Proof.
  intros Hk. unfold record_event. destruct (open_event events s a) as [[id row]|] eqn:Eo.
  - pose proof (open_event_nodup _ _ _ Hk Eo) as Hrow. destruct (String.eqb_spec side "NONE") as [->|Hs]; cbn [negb].
    + case_bool_decide; intros <-%Ok_inj; [by left|]. do 2 right. eexists _, _, _. split; [done|].
      edestruct resolved_fields as [Hn He]; [exact Hrow|]. split_and!; [done|exact Hn|exact He|done].
    + case_bool_decide; [intros <-%Ok_inj; by left|]. intros (values & Hv & <-%Ok_inj)%res_bind_Ok. do 2 right.
      eexists _, _, _. split; [done|]. edestruct continued_fields as (Hn & He & Hfp); [exact Hrow|exact Hv|]. done.
  - destruct (String.eqb_spec side "NONE") as [->|Hs]; cbn [negb]; intros <-%Ok_inj; [by left|].
    right. left. eexists. split; [done|]. split_and!; [done|done|apply new_event_fields..].
Qed.

Lemma record_keys events events' : keys_ok events → record events = Ok events' → keys_ok events'.
Proof.
  intros Hk H. apply record_cases in H as [[-> _]|[(row & -> & _ & _ & Hn & _)|(id & row & values & -> & _ & Hn & _)]]; [done| | |done].
  - by apply keys_ok_insert.
  - by apply update_event_ok.
Qed.
Lemma record_other events events' s' a' :
  keys_ok events → record events = Ok events' → (s', a') ≠ (s, a) → ap_rows s' a' events' = ap_rows s' a' events.
Proof.
  intros Hk H Hne. apply record_cases in H as [[-> _]|[(row & -> & _ & _ & _ & Hs & Ha & _)|(id & row & values & -> & Ho & Hn & _)]]; [done| | |done].
  - rewrite ap_rows_insert. destruct (key_columns _ _ row) eqn:E; [|by rewrite app_nil_r].
    apply (key_columns_of s a) in E; [|done..]. by simplify_eq.
  - rewrite update_event_rows by done. apply put_other. intros Hid. apply list_elem_of_fmap in Hid as (r & Hid & Hr).
    apply open_event_elem in Ho. apply ap_rows_elem in Ho as [Ho1 Ho2], Hr as [Hr1 Hr2].
    assert (r = (id, row)) as ->. { apply (nodup_fst_eq (t_rows events)); [apply Hk|done..]. }
    apply Hne. pose proof (key_columns_inj _ _ _ _ Ho2 Hr2). by simplify_eq.
Qed.

Lemma dget_event_kept f row values v :
  NoDup values.*1 → str_mem f PERMANENT_EVENT_FIELDS = false → alookup f values = Some v →
  dget f (dmerge row (List.filter (λ kv, negb (str_mem kv.1 PERMANENT_EVENT_FIELDS)) values)) = v.
Proof. intros Hn Hf Hv. by rewrite dget_kept, Hf, Hv. Qed.

(** The open events after a write. *)
Lemma opens_after events id row values :
  keys_ok events → opens s a events = [(id, row)] → NoDup values.*1 →
  let row' := dmerge row (List.filter (λ kv, negb (str_mem kv.1 PERMANENT_EVENT_FIELDS)) values) in
  opens s a (update_event id values events) = if is_open row' then [(id, row')] else [].
Proof.
  intros Hk Ho Hn row'. unfold opens. rewrite update_event_rows by done.
  rewrite (put_open _ _ _ (id, row)); [done|by apply ap_rows_nodup, Hk|exact Ho|done].
Qed.
Lemma is_open_kept row values status :
  NoDup values.*1 → alookup "event_status" values = Some (PStr status) →
  is_open (dmerge row (List.filter (λ kv, negb (str_mem kv.1 PERMANENT_EVENT_FIELDS)) values)) = String.eqb status "OPEN".
Proof. intros Hn Hv. unfold is_open, column. rewrite (dget_event_kept "event_status" _ _ _ Hn eq_refl Hv). by rewrite text_or_empty_PStr. Qed.

Lemma open_event_opens events : open_event events s a = last (opens s a events).
Proof. done. Qed.

Lemma record_abnormal events events' (open : bool) :
  keys_ok events → NoDup rows.*1 → issue = true → side ≠ "NONE" → record events = Ok events' →
  (if open then ∃ r, opens s a events = [r] ∧ abnormal_fingerprint r.2 else opens s a events = []) →
  length (ap_rows s a events') = ((if open then 0 else 1) + length (ap_rows s a events))%nat ∧
  ∃ r, opens s a events' = [r] ∧ abnormal_fingerprint r.2.
Proof.
  intros Hk Hrows Hi Hs H Ho.
  apply record_cases in H as [[-> Hsame]|[(row & -> & Hnone & _ & Hn & Hsite & Ha & Hopen & Hfp)|(id & row & values & -> & Hsome & Hn & He & Hfp)]]; [| | |done].
  - destruct open; [done|]. by rewrite open_event_opens, Ho in Hsame.
  - destruct open; [destruct Ho as (r & Ho & _); by rewrite open_event_opens, Ho in Hnone|].
    assert (key_columns ["site_id"; "ap_identity"] [s; a] row = true) as Hkey by (by apply (key_columns_of s a)).
    unfold opens in *. rewrite !ap_rows_insert, Hkey. split; [rewrite length_app; simpl; lia|].
    rewrite List.filter_app, Ho. simpl. rewrite Hopen. eexists. split; [done|]. exists rows, source_row. auto.
  - destruct open; [|by rewrite open_event_opens, Ho in Hsome]. destruct Ho as (r & Ho & _).
    rewrite open_event_opens, Ho in Hsome. injection Hsome as ->. rewrite update_event_rows, length_fmap by done. split; [done|].
    rewrite (opens_after _ id row) by done. apply String.eqb_neq in Hs. rewrite Hs in He.
    rewrite (is_open_kept _ _ "OPEN") by done. eexists. split; [done|]. exists rows, source_row. split_and!; [done..|].
    apply dget_event_kept; [done|reflexivity|]. apply Hfp. by apply String.eqb_neq.
Qed.

Lemma record_normal events events' (open : bool) :
  keys_ok events → NoDup rows.*1 → issue = false → side = "NONE" → record events = Ok events' →
  (if open then ∃ r, opens s a events = [r] ∧ abnormal_fingerprint r.2 else opens s a events = []) →
  length (ap_rows s a events') = length (ap_rows s a events) ∧ opens s a events' = [].
Proof using distinguishes.
  intros Hk Hrows Hi Hs H Ho.
  apply record_cases in H as [[-> Hsame]|[(row & -> & Hnone & Hne & _)|(id & row & values & -> & Hsome & Hn & He & _)]]; [| | |done].
  - destruct open; [|done]. exfalso. destruct Ho as ([id row] & Ho & rows' & source' & Hrows' & Hi' & Hfp).
    rewrite open_event_opens, Ho in Hsame. simpl in Hsame, Hfp. rewrite Hsame in Hfp. injection Hfp as Hfp.
    apply distinguishes in Hfp. rewrite !(payload_statuses _ _ _ _ _ Hrows Hrows' Hfp) in Hi. congruence.
  - by destruct Hne.
  - rewrite update_event_rows, length_fmap by done. split; [done|]. subst side.
    destruct open; [|by rewrite open_event_opens, Ho in Hsome]. destruct Ho as (r & Ho & _).
    rewrite open_event_opens, Ho in Hsome. injection Hsome as ->.
    rewrite (opens_after _ id row), (is_open_kept _ _ "RESOLVED") by done. done.
Qed.
End record.

(** *** One observation *)
Lemma current_side_rows_nodup t s a : NoDup (current_side_rows t s a).*1.
Proof.
  unfold current_side_rows. generalize (ap_rows s a t). intros l. assert (NoDup (@nil (string * dict)).*1) as H by constructor.
  revert H. generalize (@nil (string * dict)). induction l as [|r l IH]; intros acc H; [done|]. simpl. by apply IH, ainsert_NoDup.
Qed.

Definition next_treatments (o : observation) (side : string) (events' treatments : table) : table :=
  let rows := current_side_rows (ob_current o) (ob_site o) (ob_ap o) in
  let previous := snd <$> head (ap_rows (ob_site o) (ob_ap o) treatments) in
  let latest := latest_collected rows (ob_source o) (ob_now o) in
  let metadata := treatment_metadata (ob_site o) (ob_ap o) (ob_source o) rows (default [] previous) side latest (ob_now o) in
  let revision := text (get_or ["source_revision"; "collect_run_uuid"] (ob_source o)) in
  let recurrence_count := Z.max (event_count events' (ob_site o) (ob_ap o) - 1) 0 in
  match previous, negb (String.eqb side "NONE") with
  | None, true => insert_row (new_treatment metadata (event_summary_seed events' (ob_site o) (ob_ap o)) side latest revision
                     (ob_now o) recurrence_count) treatments
  | Some p, true => update_treatment (ob_site o) (ob_ap o) (abnormal_treatment p metadata latest revision recurrence_count) treatments
  | None, false => treatments
  | Some p, false => update_treatment (ob_site o) (ob_ap o) (normal_treatment p metadata latest revision) treatments
  end.

(** What an observation does. *)
Lemma treat_cases o t t' :
  treat o t = Ok t' →
  let rows := current_side_rows (ob_current o) (ob_site o) (ob_ap o) in
  let issue := is_issue (side_status rows "AP") || is_issue (side_status rows "SWITCH") in
  (ob_verdict o = VNothing ∧ t' = t) ∨
  ∃ side metadata latest,
    (ob_verdict o = VAbnormal ∧ issue = true ∧ side ≠ "NONE" ∨ ob_verdict o = VNormal ∧ issue = false ∧ side = "NONE") ∧
    record_event dumps sha256 (ob_site o) (ob_ap o) (ob_source o) rows metadata side latest (ob_now o) (ob_uuid o) t.1 = Ok t'.1 ∧
    t'.2 = next_treatments o side t'.1 t.2.
Proof.
  unfold treat, update_ap_optical_treatment, ob_verdict, verdict_of, next_treatments. cbv zeta.
  set (rows := current_side_rows (ob_current o) (ob_site o) (ob_ap o)).
  set (ap := is_issue (side_status rows "AP")). set (sw := is_issue (side_status rows "SWITCH")).
  destruct (source_observation_is_non_valid (ob_source o)), (existsb (λ kv, str_mem _ OPTICAL_NO_DATA_STATUSES) rows),
    (existsb (λ kv, has_real_data kv.2) rows), ap, sw; cbn [negb andb orb];
    try (intros <-%Ok_inj; left; split; [done|by destruct t]);
    intros (events' & Hr & <-%Ok_inj)%res_bind_Ok; right; eexists _, _, _;
    (split; [|split; [exact Hr|reflexivity]]); (first [left; split_and!; done|right; split_and!; done]).
Qed.

Lemma previous_nodup s a treatments p : keys_ok treatments → snd <$> head (ap_rows s a treatments) = Some p → NoDup p.*1.
Proof.
  intros [_ Hf]. destruct (ap_rows s a treatments) as [|r l] eqn:E; [done|]. intros [= <-].
  assert (r ∈ ap_rows s a treatments) as Hr by (rewrite E; left). apply ap_rows_elem in Hr as [Hr _].
  by apply (proj1 (Forall_forall _ _) Hf) in Hr.
Qed.
Lemma next_treatments_ok o side events' treatments : keys_ok treatments → keys_ok (next_treatments o side events' treatments).
Proof.
  intros Hk. unfold next_treatments. cbv zeta. destruct (snd <$> head _) as [p|] eqn:E; destruct (negb _); [..|done].
  - apply update_treatment_ok; [|done]. eapply abnormal_treatment_fields, previous_nodup; eauto.
  - apply update_treatment_ok; [|done]. eapply normal_treatment_fields, previous_nodup; eauto.
  - apply keys_ok_insert; [done|]. apply new_treatment_fields.
Qed.
Lemma next_treatments_other o side events' treatments s a :
  keys_ok treatments → (ob_site o, ob_ap o) ≠ (s, a) →
  ap_rows s a (next_treatments o side events' treatments) = ap_rows s a treatments.
Proof.
  intros Hk Hne. unfold next_treatments. cbv zeta. destruct (snd <$> head _) as [p|] eqn:E; destruct (negb _); [..|done].
  - rewrite update_treatment_rows by (eapply abnormal_treatment_fields, previous_nodup; eauto).
    rewrite bool_decide_eq_false_2 by congruence. apply list_fmap_id.
  - rewrite update_treatment_rows by (eapply normal_treatment_fields, previous_nodup; eauto).
    rewrite bool_decide_eq_false_2 by congruence. apply list_fmap_id.
  - rewrite ap_rows_insert. destruct (key_columns _ _ _) eqn:Ek; [|by rewrite app_nil_r].
    apply (key_columns_of (ob_site o) (ob_ap o)) in Ek; [by simplify_eq|apply new_treatment_fields..].
Qed.

Lemma summary_abnormal o side events' treatments e m :
  keys_ok treatments → summary (ob_site o) (ob_ap o) e treatments → side ≠ "NONE" →
  length (ap_rows (ob_site o) (ob_ap o) events') = S m → (e.2 = 0%nat → m = 0%nat) →
  summary (ob_site o) (ob_ap o) (true, S m) (next_treatments o side events' treatments).
Proof.
  intros Hk Hs Hside Hlen Hm. unfold summary, next_treatments, event_count in *. cbv zeta. cbn [fst snd] in *. rewrite Hlen.
  apply String.eqb_neq in Hside. rewrite Hside. cbn [negb].
  replace (Z.max (Z.of_nat (S m) - 1) 0) with (Z.of_nat m) by lia. destruct e.2 as [|n].
  - destruct Hs as [Hs _]. rewrite Hs. cbn [head fmap option_fmap option_map].
    set (row := new_treatment _ _ _ _ _ _ _).
    edestruct new_treatment_fields as (_ & H1 & H2 & H3 & H4).
    rewrite ap_rows_insert, Hs. assert (key_columns ["site_id"; "ap_identity"] [ob_site o; ob_ap o] row = true) as ->
      by (apply (key_columns_of (ob_site o) (ob_ap o)); [exact H1|exact H2|done]).
    eexists. split; [done|]. split; [exact H3|]. apply String.eqb_eq. exact H4.
  - destruct Hs as (r & Hs & _). pose proof (previous_nodup (ob_site o) (ob_ap o) treatments r.2 Hk) as Hr. rewrite Hs in Hr |- *.
    cbn [head fmap option_fmap option_map] in *. specialize (Hr eq_refl).
    edestruct abnormal_treatment_fields as (Hn & H1 & H2); [exact Hr|].
    rewrite update_treatment_rows, Hs, bool_decide_eq_true_2 by done. cbn [fmap list_fmap]. eexists. split; [done|]. cbn [snd].
    unfold column. rewrite !dget_kept by done. rewrite H1, H2. done.
Qed.
Lemma summary_normal o side events' treatments e :
  keys_ok treatments → summary (ob_site o) (ob_ap o) e treatments → side = "NONE" →
  summary (ob_site o) (ob_ap o) (false, e.2) (next_treatments o side events' treatments).
Proof.
  intros Hk Hs ->. unfold summary, next_treatments in *. cbv zeta. cbn [fst snd] in *. rewrite String.eqb_refl. cbn [negb].
  destruct e.2 as [|n].
  - destruct Hs as [Hs _]. rewrite Hs. cbn [head fmap option_fmap option_map]. by rewrite Hs.
  - destruct Hs as (r & Hs & Hc & _). pose proof (previous_nodup (ob_site o) (ob_ap o) treatments r.2 Hk) as Hr. rewrite Hs in Hr |- *.
    cbn [head fmap option_fmap option_map] in *. specialize (Hr eq_refl).
    edestruct normal_treatment_fields as (Hn & H1 & status & H2 & H3); [exact Hr|].
    rewrite update_treatment_rows, Hs, bool_decide_eq_true_2 by exact Hn || done. cbn [fmap list_fmap]. eexists. split; [done|]. cbn [snd].
    unfold column. rewrite !dget_kept by exact Hn. rewrite H1, H2. split.
    + change (str_mem "recurrence_count" PERMANENT_TREATMENT_FIELDS) with false. cbv iota.
      pose proof (dget_lookup "recurrence_count" r.2) as Hd. destruct (alookup _ r.2); simpl in Hd; congruence.
    + change (str_mem "current_status" PERMANENT_TREATMENT_FIELDS) with false. cbv iota. rewrite text_or_empty_PStr. by apply String.eqb_neq.
Qed.

Lemma treat_describes o t t' s a e :
  keys_ok t.1 → keys_ok t.2 → treat o t = Ok t' → describes s a e t → (e.1 = true → e.2 ≠ 0%nat) →
  keys_ok t'.1 ∧ keys_ok t'.2 ∧
  describes s a (if bool_decide ((ob_site o, ob_ap o) = (s, a)) then episode_step (ob_verdict o) e else e) t'.
Proof using distinguishes.
  intros He Ht H (Hlen & Hopen & Hsum) Hpos. apply treat_cases in H as [[-> ->]|(side & metadata & latest & Hv & Hr & Ht')].
  { split_and!; [done..|]. by case_bool_decide. }
  pose proof (record_keys _ _ _ _ _ _ _ _ _ _ _ He Hr) as Hk'. split_and!; [done|rewrite Ht'; by apply next_treatments_ok|].
  case_bool_decide as Hsa.
  - injection Hsa as <- <-. pose proof (current_side_rows_nodup (ob_current o) (ob_site o) (ob_ap o)) as Hrows.
    unfold describes. rewrite Ht'. destruct Hv as [(-> & Hi & Hside)|(-> & Hi & Hside)].
    + destruct (record_abnormal _ _ _ _ _ _ _ _ _ _ _ e.1 He Hrows Hi Hside Hr Hopen) as [Hl Ho]. rewrite Hlen in Hl.
      destruct e as [[] n]; cbn [episode_step fst snd] in *.
      * destruct n as [|n]; [by destruct Hpos|]. split_and!; [done|done|]. by apply (summary_abnormal _ _ _ _ (true, S n)).
      * split_and!; [done|done|]. by apply (summary_abnormal _ _ _ _ (false, n)).
    + destruct (record_normal _ _ _ _ _ _ _ _ _ _ _ e.1 He Hrows Hi Hside Hr Hopen) as [Hl Ho]. rewrite Hlen in Hl.
      cbn [episode_step fst snd]. split_and!; [done|done|]. by apply summary_normal.
  - unfold describes, opens in *. rewrite Ht'.
    rewrite (record_other _ _ _ _ _ _ _ _ _ _ _ s a He Hr) by congruence. split_and!; [done..|].
    unfold summary in *. by rewrite next_treatments_other.
Qed.

Lemma episodes_open s a l : (episodes s a l).1 = true → (episodes s a l).2 ≠ 0%nat.
Proof.
  unfold episodes. induction l as [|o l IH] using rev_ind; [done|]. rewrite foldl_app. simpl.
  case_bool_decide; [|done]. revert IH. generalize (foldl (λ e o, if bool_decide ((ob_site o, ob_ap o) = (s, a)) then episode_step (ob_verdict o) e else e)
    (false, 0%nat) l). intros [[] n] IH; destruct (ob_verdict o); simpl in *; auto.
Qed.
Lemma treat_all_snoc l o t t'' : treat_all (l ++ [o]) t = Ok t'' ↔ ∃ t', treat_all l t = Ok t' ∧ treat o t' = Ok t''.
Proof.
  revert t. induction l as [|x l IH]; intros t; simpl.
  - split; [intros (t' & Ht & <-%Ok_inj)%res_bind_Ok; eauto|]. intros (t' & <-%Ok_inj & Ht). by rewrite Ht.
  - rewrite res_bind_Ok. setoid_rewrite IH. setoid_rewrite res_bind_Ok. naive_solver.
Qed.

(** C9: the stored events are the episodes of the observations.  For any sequence of observations of any access
    points, each with any content of the table of current rows, each access point has as many events as it had
    episodes: runs of abnormal observations up to a normal one, observations without data left out; exactly one
    event is open while an episode lasts and none otherwise; and its summary is one row, abnormal exactly
    during an episode, that counts the episodes after the first.  The fingerprints are assumed to tell apart
    what they are made of. *)
Theorem treatment_episodes observations t s a :
  treat_all observations (empty_table, empty_table) = Ok t →
  let '(open, n) := episodes s a observations in
  length (ap_rows s a t.1) = n ∧
  length (opens s a t.1) = (if open then 1 else 0)%nat ∧
  match n with
  | O => ap_rows s a t.2 = []
  | S m => ∃ r, ap_rows s a t.2 = [r] ∧ dget "recurrence_count" r.2 = PInt (Z.of_nat m) ∧
                String.eqb (column "current_status" r.2) "ABNORMAL" = open
  end.
Proof using distinguishes.
  intros H. assert (keys_ok t.1 ∧ keys_ok t.2 ∧ describes s a (episodes s a observations) t) as (_ & _ & Hl & Ho & Hs).
  { revert t H. induction observations as [|o l IH] using rev_ind; intros t.
    - intros <-%Ok_inj. split_and!; [apply keys_ok_empty..|]. done.
    - intros (t' & Ht' & Ht)%treat_all_snoc. destruct (IH _ Ht') as (H1 & H2 & H3).
      unfold episodes. rewrite foldl_app. apply (treat_describes _ t'); [done..|apply episodes_open]. }
  unfold summary in Hs. destruct (episodes s a observations) as [open n]. cbn [fst snd] in *. split_and!; [done| |].
  - destruct open; [destruct Ho as (r & -> & _)|rewrite Ho]; done.
  - destruct n; [by destruct Hs|done].
Qed.
End treatment.

(** ** A state without data that ends an episode

    The status of a module without digital monitoring is data to no one: the
    severity rules put it in the class [no_data].  It is not among the statuses
    this module knows to be without data, so a port that was abnormal and then
    answers it counts as recovered. *)
Lemma unsupported_module_recovers rows source_row row :
  alookup "SWITCH" rows = Some row → canonical_status (dget "status" row) = "dom_unavailable" →
  Forall (λ kv, is_issue (canonical_status (dget "status" kv.2)) = false ∧
                str_mem (canonical_status (dget "status" kv.2)) OPTICAL_NO_DATA_STATUSES = false) rows →
  source_observation_is_non_valid source_row = false →
  classify_optical_health (dget "status" row) = "no_data" ∧ verdict_of rows source_row = VNormal.
Proof.
  intros Hrow Hst Hall Hsrc.
  assert (∀ side, is_issue (side_status rows side) = false) as Hiss.
  { intros side. unfold side_status, side_row. destruct (alookup side rows) as [d|] eqn:E; [|reflexivity].
    apply alookup_Some_in in E. by apply (proj1 (Forall_forall _ _) Hall) in E as [E _]. }
  split.
  - unfold classify_optical_health. change (status_text (dget "status" row)) with (canonical_status (dget "status" row)).
    by rewrite Hst.
  - unfold verdict_of. rewrite !Hiss, Hsrc. cbn [orb].
    assert (existsb (λ kv, str_mem (canonical_status (dget "status" kv.2)) OPTICAL_NO_DATA_STATUSES) rows = false) as ->.
    { apply not_true_is_false. intros ([k d] & Hin & Hd)%existsb_exists. apply list_elem_of_In in Hin.
      apply (proj1 (Forall_forall _ _) Hall) in Hin as [_ Hin]. by rewrite Hin in Hd. }
    assert (existsb (λ kv, has_real_data kv.2) rows = true) as ->; [|done].
    apply existsb_exists. apply alookup_Some_in in Hrow. exists ("SWITCH", row). split; [by apply list_elem_of_In|].
    apply (proj1 (Forall_forall _ _) Hall) in Hrow as [_ Hrow]. unfold has_real_data. cbn [snd] in *. by rewrite Hrow, orb_true_r.
Qed.

(** ** The composition: collected rows *)
Section recordings.
Context (dumps : pyval → string) (sha256 : string → string).

Record recording := Recording { rc_payload : dict; rc_site : string; rc_now : string; rc_uuids : string * string }.
Fixpoint record_all (l : list recording) (s : optical_store) : res optical_store :=
  match l with
  | [] => Ok s
  | r :: l' =>
      s' ← record_fit_ap_optical_history dumps sha256 (rc_payload r) (rc_site r) (rc_now r) (rc_uuids r) s;
      record_all l' s'
  end.

Lemma side_observed limit payload site now uuid side s s' :
  record_side dumps sha256 limit payload site now uuid side s = Ok s' →
  ∃ l, treat_all dumps sha256 l (os_events s, os_treatments s) = Ok (os_events s', os_treatments s') ∧
       Forall (λ o, ob_site o = site ∧ ob_source o = payload) l.
Proof.
  unfold record_side. intros ([[current history] projection] & _ & H)%res_bind_Ok. destruct projection as [p|].
  - apply res_bind_Ok in H as ([events treatments] & Ht & <-%Ok_inj). 
    exists [Observation site (py_str (dget "ap_identity" p)) payload now uuid current]. split; [|by repeat constructor].
    simpl. unfold treat. cbn [ob_site ob_ap ob_source ob_now ob_uuid ob_current fst snd]. by rewrite Ht.
  - apply Ok_inj in H as <-. exists []. by split.
Qed.
Lemma treat_all_app l l' t t' t'' :
  treat_all dumps sha256 l t = Ok t' → treat_all dumps sha256 l' t' = Ok t'' → treat_all dumps sha256 (l ++ l') t = Ok t''.
Proof.
  revert t. induction l as [|o l IH]; simpl; intros t; [by intros <-%Ok_inj|].
  intros (x & Hx & H)%res_bind_Ok H'. rewrite Hx. simpl. eauto.
Qed.

(** The tables of events and treatments come from observations, so what is shown
    of observations holds of the collected rows. *)
Lemma recordings_observed l s s' :
  record_all l s = Ok s' →
  ∃ obs, treat_all dumps sha256 obs (os_events s, os_treatments s) = Ok (os_events s', os_treatments s').
Proof.
  revert s. induction l as [|r l IH]; simpl; intros s.
  - intros <-%Ok_inj. by exists [].
  - intros (s1 & H1 & (obs' & Hobs')%IH)%res_bind_Ok. unfold record_fit_ap_optical_history in H1.
    destruct (String.eqb _ ""); [apply Ok_inj in H1 as <-; eauto|].
    apply res_bind_Ok in H1 as (s0 & (o1 & Ho1 & _)%side_observed & (o2 & Ho2 & _)%side_observed).
    exists (o1 ++ o2 ++ obs'). eauto using treat_all_app.
Qed.
End recordings.

(** *** The history of a side is bounded *)
#[local] Transparent dget.
Lemma settled_projection_key dumps sha256 row site side now p :
  build_optical_projection dumps sha256 row site side now = Ok (Some p) →
  ∃ a b c, dget "site_id" p = PStr a ∧ dget "ap_identity" p = PStr b ∧ dget "side" p = PStr c.
Proof.
  unfold build_optical_projection. cbv zeta. destruct (negb _); [done|]. intros (identity & _ & H)%res_bind_Ok.
  destruct (_ && _ && _); [done|]. apply res_bind_Ok in H as (rx & _ & (tx & _ & H)%res_bind_Ok). apply Ok_inj in H as [= <-].
  eexists _, _, _. split_and!; reflexivity.
Qed.
#[local] Opaque dget.

Lemma optical_history_bounded n dumps sha256 row site side now c h u :
  bounded (key_columns OPTICAL_KEYS) n h u →
  match upsert_optical_current_and_history dumps sha256 (Some n) row site side now c h,
        upsert_optical_current_and_history dumps sha256 None row site side now c u with
  | Ok x, Ok y => alike n (key_columns OPTICAL_KEYS) x y
  | Err e, Err e' => e = e'
  | _, _ => False
  end.
Proof.
  intros Hb. unfold upsert_optical_current_and_history.
  destruct (build_optical_projection _ _ _ _ _ _) as [[p|]|e] eqn:E; cbn [mbind res_bind]; [|by split_and!|done].
  apply settled_projection_key in E as (a & b & d & Ha & Hbb & Hd). cbv zeta.
  set (k := (λ k, column k p) <$> OPTICAL_KEYS).
  pose proof (observe_alike n (key_columns OPTICAL_KEYS) k false (λ t, List.find (λ r, key_columns OPTICAL_KEYS k r.2) (t_rows t))
    (column "state_fingerprint") p (fresh_row p now) (λ data, history_row p data now) (λ _ r, key_columns OPTICAL_KEYS k r.2)
    (λ _ _, updated_row p now) false (λ _, p ++ [("last_seen_at", dget "collected_at" p)]) c h u) as H.
  specialize (H (keyed_columns _)). cbv zeta iota in H.
  destruct (observe _ _ _ _ _ _ _ _ _ _ _ c h) as [[x1 x2] x3], (observe _ _ _ _ _ _ _ _ _ _ _ c u) as [[y1 y2] y3].
  destruct H as (H1 & H2 & H3); [|done|].
  - intros data. apply row_keyed. subst k. unfold OPTICAL_KEYS, history_row. cbn [fmap list_fmap].
    rewrite !dget_project by in_columns. unfold id, column. by rewrite Ha, Hbb, Hd, !text_or_empty_PStr.
  - cbn [fst snd] in *. subst. done.
Qed.

(** ** A witness

    A switch port in no light, then in no light with another reading, then
    normal, then in no light again. *)
Fixpoint bits (p : positive) : string :=
  match p with xH => "" | xO p => String "0" (bits p) | xI p => String "1" (bits p) end.
Lemma bits_inj p q : bits p = bits q → p = q.
Proof. revert q. induction p as [p IH|p IH|]; intros [q|q|] H; simpl in H; try done; f_equal; apply IH; congruence. Qed.

Definition texts_of (v : pyval) : list string :=
  match v with PDict d => (λ x, match x.2 with PStr s => s | _ => "" end) <$> d | _ => [] end.
Definition payload_texts (v : pyval) : string * list (string * list string) :=
  match v with
  | PDict [(_, PStr revision); (_, PDict sides)] => (revision, (λ kv, (kv.1, texts_of kv.2)) <$> sides)
  | _ => ("", [])
  end.
Definition side_of_texts (l : list string) : pyval :=
  match l with
  | [a; b; c; d; e] =>
      PDict [("state_fingerprint", PStr a); ("status", PStr b); ("rx_dbm", PStr c); ("tx_dbm", PStr d); ("collected_at", PStr e)]
  | _ => PNone
  end.
Definition payload_of_texts (x : string * list (string * list string)) : pyval :=
  PDict [("source_revision", PStr x.1); ("sides", PDict ((λ kl, (kl.1, side_of_texts kl.2)) <$> x.2))].
Lemma payload_texts_back rows source : payload_of_texts (payload_texts (event_payload rows source)) = event_payload rows source.
Proof.
  unfold event_payload, payload_of_texts, payload_texts. cbn [fst snd]. rewrite <- list_fmap_compose.
  rewrite <- list_fmap_compose. reflexivity.
Qed.
Definition demo_dumps (v : pyval) : string := bits (encode (payload_texts v)).
Lemma demo_distinguishes rows source rows' source' :
  event_fingerprint demo_dumps id rows source = event_fingerprint demo_dumps id rows' source' →
  event_payload rows source = event_payload rows' source'.
Proof.
  unfold event_fingerprint, demo_dumps, id. intros H%bits_inj%encode_inj.
  by rewrite <- (payload_texts_back rows source), H, payload_texts_back.
Qed.

Definition demo_current (status rx : string) : table :=
  Table [(1, [("site_id", PStr "S"); ("ap_identity", PStr "ap-1"); ("side", PStr "SWITCH"); ("status", PStr status);
              ("rx_dbm", PStr rx); ("collected_at", PStr "2026-01-01T00:00:00")])] 1.
Definition demo_observation (status rx : string) : observation :=
  Observation "S" "ap-1" [] "2026-01-01T00:00:01" "uuid" (demo_current status rx).
Definition demo_observations : list observation :=
  [demo_observation "no_light" "-36"; demo_observation "no_light" "-37"; demo_observation "normal" "-10";
   demo_observation "unknown" ""; demo_observation "no_light" "-36"].
Definition tables_of (r : res (table * table)) : table * table := match r with Ok t => t | Err _ => (empty_table, empty_table) end.
Definition demo_tables : table * table :=
  Eval vm_compute in tables_of (treat_all demo_dumps id demo_observations (empty_table, empty_table)).
Lemma treatment_episodes_witness :
  length (ap_rows "S" "ap-1" demo_tables.1) = 2%nat ∧ length (opens "S" "ap-1" demo_tables.1) = 1%nat ∧
  ∃ r, ap_rows "S" "ap-1" demo_tables.2 = [r] ∧ dget "recurrence_count" r.2 = PInt 1 ∧
       String.eqb (column "current_status" r.2) "ABNORMAL" = true.
Proof.
  apply (treatment_episodes demo_dumps id demo_distinguishes demo_observations demo_tables "S" "ap-1").
  vm_compute. reflexivity.
Defined.
