(* ===== verification/NeighborMatch.v ===== *)
(** * Neighbours of access points

    services/neighbor_matcher.py: which switch of the site an LLDP observation
    names.  [NeighborDeviceIdentityIndex] is built from the rows of the devices
    and resolves an observation by its strongest evidence; the other functions
    ask the tables of the site, which are lists of their rows here.  Unicode
    NFKC and the canonical text of an IPv6 address are parameters, and so is
    [pick], the element that [next(iter(...))] takes of a set. *)

From S2P Require Import Prelude PyVal PyText PyRe ApNormalizers InterfaceNames Ipv4 Retention.

Definition GENERIC_NEIGHBOR_NAMES : list string :=
  [""; "h3c"; "comware"; "switch"; "ethernet switch"; "unknown"; "n/a"; "na"; "none"; "null"; "-"; "--"; "未知"].
Definition VENDOR_NAME_PREFIXES : list string := ["comware"; "h3c"; "zte"; "zxr10"].
Definition SWITCH_TYPES : list string := ["sw"; "switch"; "交换机"].
Definition ACTIVE_SCOPE_STATES : list string := [""; "active"; "enabled"; "included"; "in-service"; "normal"].

(** [re] [[-_\s]+]. *)
Definition NAME_SEPARATORS : re := plus (λ c, any_of ["-"; "_"] c || s_class c).

Record NeighborMatchResult := Match {
  nm_device : option string; nm_name : option string; nm_station : pyval; nm_local_interface : pyval; nm_ap_interface : pyval;
  nm_matched_by : option string; nm_confidence : Z; nm_status : string; nm_count : Z; nm_reason : option string;
  nm_station_id : option string; nm_chassis : option string; nm_ip : option string; nm_system_name : option string;
}.
(** The confidence is in hundredths. *)
Definition unresolved : NeighborMatchResult :=
  Match None None PNone PNone PNone None 0 "unresolved" 0 None None None None None.

(** Keys with the identifiers of devices. *)
Abbreviation key_index := (list (string * list string)).

Section matcher.
Context (nfkc : string → string) (ipv6_text : string → option string) (pick : list string → option string).

Definition GENERIC_NORMALIZED_NAMES : list string :=
  (λ v, re_sub NAME_SEPARATORS "-" (casefold (strip (nfkc v)))) <$> GENERIC_NEIGHBOR_NAMES.

Fixpoint drop_vendor (parts : list string) : list string :=
  match parts with
  | p :: rest => if str_mem p VENDOR_NAME_PREFIXES then drop_vendor rest else parts
  | [] => []
  end.
Definition normalize_neighbor_identity_name (value : pyval) : string :=
  let text := casefold (strip (nfkc (text_or_empty value))) in
  if String.eqb text "" then ""
  else
    let text := default "" (head (split_on "." (rstrip_of (Ascii.eqb ".") text))) in
    join "-" (drop_vendor (List.filter str_nonempty (re_split NAME_SEPARATORS text))).

(** ** Keys of devices and observations *)
Definition field_text (row : dict) (f : string) : string := strip (text_or_empty (dget f row)).
Definition eligible (row : dict) : bool :=
  let device_type := casefold (field_text row "device_type") in
  let scope := replace "_" "-" (casefold (field_text row "work_scope_status")) in
  (String.eqb device_type "" || str_mem device_type SWITCH_TYPES) && str_mem scope ACTIVE_SCOPE_STATES.
Definition normalized_ip (value : pyval) : string :=
  let text := strip (text_or_empty value) in
  if String.eqb text "" then ""
  else match parse_addr text with Some a => addr_str a | None => default "" (ipv6_text text) end.
Definition normalized_name (value : pyval) : string :=
  let name := normalize_neighbor_identity_name value in if str_mem name GENERIC_NORMALIZED_NAMES then "" else name.
Definition mac_text (value : pyval) : string := default "" (normalize_mac value).

(** The non-empty values of some fields: a set. *)
Definition keys_of (normal : pyval → string) (fields : list string) (row : dict) : list string :=
  remove_dups (List.filter str_nonempty ((λ f, normal (dget f row)) <$> fields)).

Definition DEVICE_MAC_FIELDS : list string := ["mac_address"; "fact_mac_address"; "interface_mac_address"; "chassis_id"].
Definition DEVICE_IP_FIELDS : list string := ["normalized_primary_address"; "primary_address"; "management_ip"].
Definition DEVICE_NAME_FIELDS : list string := ["system_name"; "fact_sysname"; "sysname"; "hostname"].
Definition DEVICE_ALIAS_FIELDS : list string := ["name"; "display_name"; "device_alias"].
Definition EXPLICIT_ID_FIELDS : list string :=
  ["switch_device_uuid"; "neighbor_device_uuid"; "lldp_neighbor_device_uuid"; "lldp_neighbor_device_id"].
Definition CHASSIS_FIELDS : list string :=
  ["lldp_neighbor_mac_normalized"; "lldp_neighbor_mac"; "neighbor_mac"; "chassis_id"; "lldp_chassis_id"].
Definition MANAGEMENT_IP_FIELDS : list string := ["lldp_management_ip"; "lldp_neighbor_ip"; "neighbor_ip"; "management_ip"].
Definition SYSTEM_NAME_FIELDS : list string :=
  ["lldp_neighbor_name"; "lldp_neighbor"; "neighbor_device_name"; "neighbor_sysname"; "lldp_system_name"; "system_name"].

(** ** The index *)
Record identity_index := Index {
  ni_devices : list (string * dict); ni_mac : key_index; ni_ip : key_index; ni_system_name : key_index; ni_alias : key_index;
}.
Definition empty_index : identity_index := Index [] [] [] [] [].

(** [index[key].add(device)] of a defaultdict of sets. *)
Definition index_add (device key : string) (index : key_index) : key_index :=
  let old := default [] (alookup key index) in
  ainsert key (if str_mem device old then old else old ++ [device]) index.
Definition add_keys (device : string) (keys : list string) (index : key_index) : key_index :=
  foldl (λ i k, if str_nonempty k then index_add device k i else i) index keys.

Definition device_uuid (row : dict) : string := field_text row "device_uuid".
Definition merge_device (current row : dict) (uuid : string) : dict :=
  dsetdefault "device_uuid" (PStr uuid)
    (foldl (λ d kv, if negb (blank kv.2) && blank (dget kv.1 d) then dset kv.1 kv.2 d else d) current row).
Definition add_row (ix : identity_index) (row : dict) : identity_index :=
  let uuid := device_uuid row in
  if String.eqb uuid "" || negb (eligible row) then ix
  else
    let values (normal : pyval → string) (fields : list string) := (λ f, normal (dget f row)) <$> fields in
    Index (ainsert uuid (merge_device (default [] (alookup uuid (ni_devices ix))) row uuid) (ni_devices ix))
      (add_keys uuid (values mac_text DEVICE_MAC_FIELDS) (ni_mac ix))
      (add_keys uuid (values normalized_ip DEVICE_IP_FIELDS) (ni_ip ix))
      (add_keys uuid (values normalized_name DEVICE_NAME_FIELDS) (ni_system_name ix))
      (add_keys uuid (values normalized_name DEVICE_ALIAS_FIELDS) (ni_alias ix)).
Definition build_index (rows : list dict) : identity_index := foldl add_row empty_index rows.

(** ** Resolving an observation *)
Definition opt_text (v : pyval) : option string := let t := text_or_empty v in if String.eqb t "" then None else Some t.
Definition matched (ix : identity_index) (uuid matched_by : string) (confidence : Z) (chassis ip name : option string) : NeighborMatchResult :=
  let row := default [] (alookup uuid (ni_devices ix)) in
  Match (Some uuid) (Some (py_str (por (dget "name" row) (por (dget "system_name" row) (PStr uuid)))))
    (opt_str (opt_text (dget "station" row))) PNone PNone (Some matched_by) confidence "matched" 1 None
    (opt_text (dget "station_id" row)) chassis ip name.
Definition unresolved_or_ambiguous (candidates : list string) (matched_by reason : string) (chassis ip name : option string)
    : NeighborMatchResult :=
  Match None None PNone PNone PNone (Some matched_by) 0 (if (1 <? length candidates)%nat then "ambiguous" else "unresolved")
    (Z.of_nat (length candidates)) (Some reason) None chassis ip name.

Definition candidates_of (keys : list string) (index : key_index) : list string :=
  remove_dups (concat ((λ k, default [] (alookup k index)) <$> keys)).
Definition resolve_index (ix : identity_index) (keys : list string) (index : key_index) (matched_by : string) (confidence : Z)
    (reason : string) (chassis ip name : option string) : option NeighborMatchResult :=
  match candidates_of keys index with
  | [] => None
  | [uuid] => Some (matched ix uuid matched_by confidence chassis ip name)
  | candidates => Some (unresolved_or_ambiguous candidates matched_by reason chassis ip name)
  end.

Definition resolve (ix : identity_index) (observation : dict) : NeighborMatchResult :=
  let explicit_ids := keys_of (λ v, strip (text_or_empty v)) EXPLICIT_ID_FIELDS observation in
  let chassis_ids := keys_of mac_text CHASSIS_FIELDS observation in
  let management_ips := keys_of normalized_ip MANAGEMENT_IP_FIELDS observation in
  let names := keys_of normalized_name SYSTEM_NAME_FIELDS observation in
  match explicit_ids with
  | _ :: _ =>
      match List.filter (λ u, str_mem u (ni_devices ix).*1) explicit_ids with
      | [uuid] => matched ix uuid "device_id" 100 None None None
      | candidates =>
          unresolved_or_ambiguous candidates "device_id"
            (match candidates with [] => "稳定设备 ID 未命中当前局点交换机" | _ => "稳定设备 ID 对应多个交换机" end) None None None
      end
  | [] =>
      let first_of (a : option NeighborMatchResult) (b : NeighborMatchResult) := match a with Some r => r | None => b end in
      first_of (resolve_index ix chassis_ids (ni_mac ix) "chassis_id" 100 "邻居 Chassis ID 对应多个交换机" (pick chassis_ids) None None)
      (first_of (resolve_index ix management_ips (ni_ip ix) "management_ip" 98 "LLDP 管理地址对应多个交换机" None (pick management_ips) None)
      (first_of (resolve_index ix names (ni_system_name ix) "system_name" 95 "规范化 LLDP System Name 对应多个交换机" None None (pick names))
      (first_of (resolve_index ix names (ni_alias ix) "device_alias" 90 "规范化设备别名对应多个交换机" None None (pick names))
         (Match None None PNone PNone PNone None 0 "unresolved" 0 (Some "LLDP 交换机身份未命中当前局点设备管理记录") None
            (pick chassis_ids) (pick management_ips) (pick names)))))
  end.
Definition is_generic_neighbor_name (value : pyval) : bool :=
  str_mem (casefold (strip (text_or_empty value))) GENERIC_NEIGHBOR_NAMES.

(** ** The tables of a site

    A column that is absent from a row is NULL.  [lower(replace(...))] of a column. *)
Definition sql_compact (drop : list ascii) (s : string) : string := casefold (remove_chars (λ c, existsb (Ascii.eqb c) drop) s).
Definition in_scope (d : dict) : bool := match sql_text (dget "work_scope_status" d) with None => true | Some s => String.eqb s "included" end.
Definition sql_eq (a b : pyval) : bool := match sql_text a, sql_text b with Some x, Some y => String.eqb x y | _, _ => false end.
(** [LEFT JOIN ... ON device_uuid]: no row is a row of NULLs. *)
Definition left_join (d : dict) (rows : list dict) : list dict :=
  match List.filter (λ r, sql_eq (dget "device_uuid" r) (dget "device_uuid" d)) rows with [] => [[]] | l => l end.
(** NULL sorts first. *)
Definition sql_key (v : pyval) : list atom := match sql_text v with None => [AZ 0; AS ""] | Some s => [AZ 1; AS s] end.

(** [{key(row): row for row in rows}]: the last row of a key stays, at the place
    of the first. *)
Definition by_last {K} `{EqDecision K} (key : dict → K) (rows : list dict) : list (K * dict) :=
  foldl (λ acc r, ainsert (key r) r acc) [] rows.

Definition ambiguous (count : nat) (reason : string) : NeighborMatchResult :=
  Match None None PNone PNone PNone None 0 "ambiguous" (Z.of_nat count) (Some reason) None None None None.
Definition matched_row (row : dict) (local_interface ap_interface : pyval) (matched_by : string) (confidence : Z) : NeighborMatchResult :=
  Match (Some (py_str (dget "device_uuid" row))) (Some (py_str (dget "name" row))) (dget "station" row) local_interface ap_interface
    (Some matched_by) confidence "matched" 0 None None None None None.

Definition select_device (d : dict) : dict :=
  [("device_uuid", dget "device_uuid" d); ("name", dget "name" d); ("station", dget "station" d)].
Definition mac_drop : list ascii := [":"; "-"; "."; " "]%char.
Definition devices_by_mac (devices interfaces facts : list dict) (compact_mac : string) : list dict :=
  let same (v : pyval) := String.eqb (sql_compact mac_drop (default "" (sql_text v))) compact_mac in
  let rows := concat ((λ d, concat ((λ i, (λ f, (d, i, f)) <$> left_join d facts) <$> left_join d interfaces))
    <$> List.filter in_scope devices) in
  let hits := List.filter (λ x, let '(d, i, f) := x in
    same (dget "mac_address" d) || same (dget "mac_address" i) || same (dget "mac_address" f)) rows in
  let sorted := sort_by (λ x y, key_leb (sql_key (dget "name" x.1.1) ++ sql_key (dget "interface_name" x.1.2))
                                  (sql_key (dget "name" y.1.1) ++ sql_key (dget "interface_name" y.1.2))) hits in
  (λ x, select_device x.1.1 ++ [("interface_name", PStr (default "" (sql_text (dget "interface_name" x.1.2))))]) <$> sorted.
Definition devices_by_sysname (devices facts : list dict) (sysname : string) : list dict :=
  let rows := concat ((λ d, (λ f, (d, f)) <$> left_join d facts) <$> List.filter in_scope devices) in
  let hits := List.filter (λ x, sql_eq (dget "sysname" x.2) (PStr sysname) || sql_eq (dget "system_name" x.1) (PStr sysname) ||
                                sql_eq (dget "name" x.1) (PStr sysname)) rows in
  (λ x, select_device x.1) <$> sort_by (λ x y, key_leb (sql_key (dget "name" x.1)) (sql_key (dget "name" y.1))) hits.

Definition uuid_of (row : dict) : string := py_str (dget "device_uuid" row).
Definition match_neighbor_device (devices interfaces facts : list dict) (neighbor_mac neighbor_sysname : pyval) : NeighborMatchResult :=
  let by_sysname :=
    let sysname := strip (text_or_empty neighbor_sysname) in
    if String.eqb sysname "" || is_generic_neighbor_name (PStr sysname) then unresolved
    else match by_last uuid_of (devices_by_sysname devices facts sysname) with
         | [] => unresolved
         | [(_, row)] => matched_row row PNone PNone "sysname" 90
         | l => ambiguous (length l) "邻居 System Name 对应多个设备"
         end in
  match normalize_mac neighbor_mac with
  | None => by_sysname
  | Some mac =>
      match by_last uuid_of (devices_by_mac devices interfaces facts (replace ":" "" mac)) with
      | [] => by_sysname
      | [(_, row)] => matched_row row (opt_str (opt_text (dget "interface_name" row))) PNone "mac" 100
      | l => ambiguous (length l) "邻居 Chassis MAC 对应多个设备"
      end
  end.

(** [ORDER BY l.id DESC]: the rows are in the order of their identifiers. *)
Definition lldp_rows (neighbors : table) (devices : list dict) (compact_mac : string) : list dict :=
  concat ((λ l : Z * dict,
    if match sql_text (dget "neighbor_mac" l.2) with Some m => String.eqb (sql_compact [":"; "-"; "."]%char m) compact_mac | None => false end
    then (λ d, [("local_interface", dget "local_interface" l.2); ("neighbor_interface", dget "neighbor_interface" l.2)] ++ select_device d)
         <$> List.filter (λ d, in_scope d && sql_eq (dget "device_uuid" d) (dget "device_uuid" l.2)) devices
    else []) <$> rev (t_rows neighbors)).
Definition lldp_key_of (row : dict) : string * string := (uuid_of row, normalize_interface_name (dget "local_interface" row)).
Definition match_ap_from_device_lldp (neighbors : table) (devices : list dict) (ap_mac : pyval) : NeighborMatchResult :=
  match normalize_mac ap_mac with
  | None => unresolved
  | Some mac =>
      match by_last lldp_key_of (lldp_rows neighbors devices (replace ":" "" mac)) with
      | [] => unresolved
      | [(_, row)] => matched_row row (dget "local_interface" row) (dget "neighbor_interface" row) "device_lldp" 100
      | l => ambiguous (length l) "交换机侧 LLDP 按 AP MAC 对应多个端口"
      end
  end.

Definition find_neighbor_optical_module (modules : table) (device_uuid interface_name : pyval) : option dict :=
  if negb (truthy device_uuid) || negb (truthy interface_name) then None
  else
    let own := List.filter (λ r : Z * dict, sql_eq (dget "device_uuid" r.2) device_uuid) (rev (t_rows modules)) in
    match List.find (λ r, sql_eq (dget "interface_name" r.2) interface_name) own with
    | Some r => Some r.2
    | None =>
        snd <$> List.find (λ r, String.eqb (normalize_interface_name (dget "interface_name" r.2)) (normalize_interface_name interface_name)) own
    end.
Definition find_neighbor_rx_power (modules : table) (device_uuid interface_name : pyval) : option string :=
  m ← find_neighbor_optical_module modules device_uuid interface_name;
  if truthy (dget "rx_power" m) then Some (py_str (dget "rx_power" m)) else None.

(** ** What resolving means, without an index *)
Definition indexed (row : dict) : bool := str_nonempty (device_uuid row) && eligible row.
Definition hits (normal : pyval → string) (device_fields fields : list string) (observation row : dict) : bool :=
  indexed row && existsb (λ k, str_mem k (keys_of normal device_fields row)) (keys_of normal fields observation).
Definition devices_hit (rows : list dict) (p : dict → bool) : list string := remove_dups (device_uuid <$> List.filter p rows).

(** Status, device, evidence and number of candidates. *)
Definition outcome (r : NeighborMatchResult) : string * option string * option string * Z :=
  (nm_status r, nm_device r, nm_matched_by r, nm_count r).
Definition verdict_on (evidence : string) (candidates : list string) : string * option string * option string * Z :=
  match candidates with
  | [] => ("unresolved", None, Some evidence, 0)
  | [uuid] => ("matched", Some uuid, Some evidence, 1)
  | _ => ("ambiguous", None, Some evidence, Z.of_nat (length candidates))
  end.
Definition decided (evidence : string) (candidates : list string) (next : string * option string * option string * Z)
    : string * option string * option string * Z :=
  match candidates with [] => next | _ => verdict_on evidence candidates end.
(** The first evidence that hits a device decides. *)
Fixpoint first_evidence (rows : list dict) (observation : dict) (l : list (string * (dict → bool))) : string * option string * option string * Z :=
  match l with
  | [] => ("unresolved", None, None, 0)
  | (evidence, p) :: l' =>
      decided evidence (devices_hit rows p) (first_evidence rows observation l')
  end.
Definition resolve_by_scan (rows : list dict) (observation : dict) : string * option string * option string * Z :=
  match keys_of (λ v, strip (text_or_empty v)) EXPLICIT_ID_FIELDS observation with
  | [] =>
      first_evidence rows observation
        [("chassis_id", hits mac_text DEVICE_MAC_FIELDS CHASSIS_FIELDS observation);
         ("management_ip", hits normalized_ip DEVICE_IP_FIELDS MANAGEMENT_IP_FIELDS observation);
         ("system_name", hits normalized_name DEVICE_NAME_FIELDS SYSTEM_NAME_FIELDS observation);
         ("device_alias", hits normalized_name DEVICE_ALIAS_FIELDS SYSTEM_NAME_FIELDS observation)]
  | ids => verdict_on "device_id" (List.filter (λ u, existsb (λ row, indexed row && String.eqb (device_uuid row) u) rows) ids)
  end.

End matcher.

(** ** Lemmas *)
Lemma ainsert_keys {V} j k (v : V) (l : list (string * V)) : j ∈ (ainsert k v l).*1 ↔ j = k ∨ j ∈ l.*1.
Proof.
  destruct (decide (k ∈ l.*1)).
  - rewrite ainsert_fst_in by done. split; [auto|]. by intros [->|].
  - rewrite ainsert_fst_notin, elem_of_app, list_elem_of_singleton by done. tauto.
Qed.
Lemma index_add_elem device key index u k :
  u ∈ default [] (alookup k (index_add device key index)) ↔ (k = key ∧ u = device) ∨ u ∈ default [] (alookup k index).
Proof.
  unfold index_add. destruct (decide (k = key)) as [->|Hk].
  - rewrite alookup_ainsert_eq. simpl. destruct (str_mem device _) eqn:E.
    + apply str_mem_iff in E. split; [auto|]. intros [[_ ->]|]; done.
    + rewrite elem_of_app, list_elem_of_singleton. naive_solver.
  - rewrite alookup_ainsert_ne by done. naive_solver.
Qed.
Lemma add_keys_elem device keys index u k :
  u ∈ default [] (alookup k (add_keys device keys index)) ↔
  (u = device ∧ k ∈ List.filter str_nonempty keys) ∨ u ∈ default [] (alookup k index).
Proof.
  unfold add_keys. revert index. induction keys as [|k' keys IH]; intros index; simpl.
  - split; [auto|]. intros [[_ []%elem_of_nil]|]; done.
  - rewrite IH. destruct (str_nonempty k'); [|done]. rewrite index_add_elem, elem_of_cons. naive_solver.
Qed.

Section matching.
Context (nfkc : string → string) (ipv6_text : string → option string) (pick : list string → option string).
Notation build := (build_index nfkc ipv6_text).
Notation add := (add_row nfkc ipv6_text).

Lemma elem_of_concat {A} (x : A) ll : x ∈ concat ll ↔ ∃ l, x ∈ l ∧ l ∈ ll.
Proof. rewrite list_elem_of_In, in_concat. setoid_rewrite list_elem_of_In. naive_solver. Qed.

(** One index of the record, its fields and normal form. *)
Lemma build_elem (part : identity_index → key_index) normal fields rows u k :
  part empty_index = [] →
  (∀ ix row, part (add ix row) =
     if indexed row then add_keys (device_uuid row) ((λ f, normal (dget f row)) <$> fields) (part ix) else part ix) →
  (u ∈ default [] (alookup k (part (build rows))) ↔
   ∃ row, row ∈ rows ∧ indexed row = true ∧ device_uuid row = u ∧ k ∈ keys_of normal fields row).
Proof.
  intros H0 Hadd. unfold build_index. induction rows as [|row rows IH] using rev_ind.
  - simpl. rewrite H0. simpl. split; [by intros ?%elem_of_nil|]. by intros (? & ?%elem_of_nil & _).
  - rewrite foldl_app. simpl. rewrite Hadd. setoid_rewrite elem_of_app. setoid_rewrite list_elem_of_singleton.
    destruct (indexed row) eqn:E.
    + rewrite add_keys_elem, IH. unfold keys_of. setoid_rewrite elem_of_remove_dups. split.
      * intros [[-> Hk]|(x & Hx & Hi & Hu & Hk)]; [exists row|exists x]; auto.
      * intros (x & [Hx| ->] & Hi & <- & Hk); [right; exists x|left]; auto.
    + rewrite IH. split; [intros (x & Hx & H); exists x; auto|].
      intros (x & [Hx| ->] & Hi & H); [exists x; auto|congruence].
Qed.
Lemma add_row_guard row : String.eqb (device_uuid row) "" || negb (eligible row) = negb (indexed row).
Proof. unfold indexed. by destruct (device_uuid row), (eligible row). Qed.
Lemma add_row_unindexed ix row : indexed row = false → add ix row = ix.
Proof. intros H. unfold add_row. cbv zeta. by rewrite add_row_guard, H. Qed.

Lemma part_mac ix row :
  ni_mac (add ix row) = if indexed row then add_keys (device_uuid row) ((λ f, mac_text (dget f row)) <$> DEVICE_MAC_FIELDS) (ni_mac ix) else ni_mac ix.
Proof. destruct (indexed row) eqn:E; [|by rewrite add_row_unindexed]. unfold add_row. cbv zeta. by rewrite add_row_guard, E. Qed.
Lemma part_ip ix row :
  ni_ip (add ix row) =
  if indexed row then add_keys (device_uuid row) ((λ f, normalized_ip ipv6_text (dget f row)) <$> DEVICE_IP_FIELDS) (ni_ip ix) else ni_ip ix.
Proof. destruct (indexed row) eqn:E; [|by rewrite add_row_unindexed]. unfold add_row. cbv zeta. by rewrite add_row_guard, E. Qed.
Lemma part_name ix row :
  ni_system_name (add ix row) =
  if indexed row then add_keys (device_uuid row) ((λ f, normalized_name nfkc (dget f row)) <$> DEVICE_NAME_FIELDS) (ni_system_name ix)
  else ni_system_name ix.
Proof. destruct (indexed row) eqn:E; [|by rewrite add_row_unindexed]. unfold add_row. cbv zeta. by rewrite add_row_guard, E. Qed.
Lemma part_alias ix row :
  ni_alias (add ix row) =
  if indexed row then add_keys (device_uuid row) ((λ f, normalized_name nfkc (dget f row)) <$> DEVICE_ALIAS_FIELDS) (ni_alias ix)
  else ni_alias ix.
Proof. destruct (indexed row) eqn:E; [|by rewrite add_row_unindexed]. unfold add_row. cbv zeta. by rewrite add_row_guard, E. Qed.
Lemma part_devices rows u : u ∈ (ni_devices (build rows)).*1 ↔ ∃ row, row ∈ rows ∧ indexed row = true ∧ device_uuid row = u.
Proof.
  unfold build_index. induction rows as [|row rows IH] using rev_ind.
  - simpl. split; [by intros ?%elem_of_nil|]. by intros (? & ?%elem_of_nil & _).
  - rewrite foldl_app. simpl. setoid_rewrite elem_of_app. setoid_rewrite list_elem_of_singleton. destruct (indexed row) eqn:E.
    + unfold add_row at 1. cbv zeta. rewrite add_row_guard, E. cbn [negb ni_devices]. rewrite ainsert_keys, IH. split.
      * intros [->|(x & Hx & H)]; [exists row|exists x]; auto.
      * intros (x & [Hx| ->] & Hi & <-); [right; exists x|left]; auto.
    + rewrite add_row_unindexed, IH by done. split; [intros (x & Hx & H); exists x; auto|].
      intros (x & [Hx| ->] & Hi & H); [exists x; auto|congruence].
Qed.

(** The candidates of an index are the devices a scan hits. *)
Lemma candidates_scan (part : identity_index → key_index) normal device_fields fields rows observation :
  part empty_index = [] →
  (∀ ix row, part (add ix row) =
     if indexed row then add_keys (device_uuid row) ((λ f, normal (dget f row)) <$> device_fields) (part ix) else part ix) →
  candidates_of (keys_of normal fields observation) (part (build rows)) ≡ₚ devices_hit rows (hits normal device_fields fields observation).
Proof.
  intros H0 Hadd. apply list.NoDup_Permutation; [apply NoDup_remove_dups..|]. intros u. unfold candidates_of, devices_hit.
  rewrite !elem_of_remove_dups, elem_of_concat, list_elem_of_fmap. setoid_rewrite list_elem_of_fmap. split.
  - intros (l & Hu & k & -> & Hk). apply (build_elem part normal device_fields) in Hu as (row & Hr & Hi & <- & Hkr); [|done..].
    exists row. split; [done|]. apply list_elem_of_In, filter_In. split; [by apply list_elem_of_In|]. unfold hits. rewrite Hi.
    apply existsb_exists. exists k. split; [by apply list_elem_of_In|by apply str_mem_iff].
  - intros (row & -> & Hr). apply list_elem_of_In, filter_In in Hr as [Hr Hh]. apply list_elem_of_In in Hr. unfold hits in Hh.
    apply andb_true_iff in Hh as [Hi (k & Hk & Hkr)%existsb_exists]. apply list_elem_of_In in Hk. apply str_mem_iff in Hkr.
    exists (default [] (alookup k (part (build rows)))). split; [|by exists k].
    apply (build_elem part normal device_fields); [done..|]. by exists row.
Qed.

Lemma verdict_perm evidence l l' : l ≡ₚ l' → verdict_on evidence l = verdict_on evidence l'.
Proof.
  intros Hp. destruct l as [|x [|y l]].
  - apply Permutation_nil_l in Hp as <-. done.
  - symmetry in Hp. apply Permutation_singleton_r in Hp as ->. done.
  - pose proof (Permutation_length Hp) as Hl. destruct l' as [|x' [|y' l']]; try done. simpl in Hl |- *. by rewrite Hl.
Qed.

(** One tier of the resolution against one of the scan. *)
Lemma resolve_index_scan ix keys index scan evidence confidence reason chassis ip name next next' :
  candidates_of keys index ≡ₚ scan → outcome next = next' →
  outcome (match resolve_index ix keys index evidence confidence reason chassis ip name with Some r => r | None => next end) =
  decided evidence scan next'.
Proof.
  intros Hp Hn. unfold resolve_index. pose proof (verdict_perm evidence _ _ Hp) as Hv. pose proof (Permutation_length Hp) as Hl.
  destruct (candidates_of keys index) as [|x [|y l]], scan as [|x' scan]; try done; rewrite <- Hv; done.
Qed.
End matching.

(** C21: resolving a neighbour is a search by the strongest evidence.  For any rows of devices and any
    observation, the indexed resolution has the status, the device, the evidence and the number of candidates
    of a scan of the rows of switches in scope: an explicit identifier decides alone; else the first of
    chassis, management address, system name and alias that hits a device decides, matched if it hits one
    device only and ambiguous otherwise. *)
Theorem resolve_exact nfkc ipv6_text pick rows observation :
  outcome (resolve nfkc ipv6_text pick (build_index nfkc ipv6_text rows) observation) =
  resolve_by_scan nfkc ipv6_text rows observation.
Proof.
  unfold resolve, resolve_by_scan. cbv zeta. set (ids := keys_of (λ v, strip (text_or_empty v)) EXPLICIT_ID_FIELDS observation).
  destruct ids as [|i ids'].
  - cbn [first_evidence].
    apply resolve_index_scan; [apply candidates_scan; [done|apply part_mac]|].
    apply resolve_index_scan; [apply candidates_scan; [done|apply part_ip]|].
    apply resolve_index_scan; [apply candidates_scan; [done|apply part_name]|].
    apply resolve_index_scan; [apply candidates_scan; [done|apply part_alias]|]. done.
  - assert (List.filter (λ u, str_mem u (ni_devices (build_index nfkc ipv6_text rows)).*1) (i :: ids') =
      List.filter (λ u, existsb (λ row, indexed row && String.eqb (device_uuid row) u) rows) (i :: ids')) as ->.
    { apply List.filter_ext. intros u. apply eq_true_iff_eq. rewrite str_mem_iff, part_devices, existsb_exists.
      setoid_rewrite andb_true_iff. setoid_rewrite String.eqb_eq. setoid_rewrite list_elem_of_In.
      split; intros (x & Hx); exists x; unfold indexed in *; rewrite ?andb_true_iff in *; exact Hx. }
    destruct (List.filter _ (i :: ids')) as [|x [|y l]]; done.
Qed.

(** The rows of a port come newest first, and the last of them is kept. *)
Lemma oldest_row_kept {K} `{EqDecision K} (key : dict → K) rows row k :
  Forall (λ r, key r = k) (rows ++ [row]) → by_last key (rows ++ [row]) = [(k, row)].
Proof.
  intros [Hr [Hk _]%Forall_cons]%Forall_app. unfold by_last. rewrite foldl_app. cbn [foldl]. rewrite Hk.
  assert (∀ acc, acc = [] ∨ (∃ r, acc = [(k, r)]) → ainsert k row acc = [(k, row)]) as Hone.
  { intros acc [->|(r & ->)]; [done|]. simpl. by destruct (decide (k = k)). }
  apply Hone. assert (∀ acc, acc = [] ∨ (∃ r, acc = [(k, r)]) →
    foldl (λ acc r, ainsert (key r) r acc) acc rows = [] ∨ (∃ r, foldl (λ acc r, ainsert (key r) r acc) acc rows = [(k, r)])) as Hx; [|auto].
  clear -Hr. induction Hr as [|r rows Hr _ IH]; intros acc Hacc; [done|]. cbn [foldl]. apply IH. right. exists r. rewrite Hr.
  destruct Hacc as [->|(r' & ->)]; [done|]. simpl. by destruct (decide (k = k)).
Qed.

(** ** Examples *)
Definition demo_switches : list dict :=
  [[("device_uuid", PStr "u1"); ("name", PStr "SW-A"); ("mac_address", PStr "0011-2233-4455"); ("device_type", PStr "switch")];
   [("device_uuid", PStr "u2"); ("name", PStr "SW-B"); ("system_name", PStr "H3C-Core_01.lab"); ("management_ip", PStr "10.0.0.2")];
   [("device_uuid", PStr "u3"); ("name", PStr "core 01"); ("management_ip", PStr "10.0.0.2")];
   [("device_uuid", PStr "u4"); ("name", PStr "ap"); ("device_type", PStr "ap"); ("management_ip", PStr "10.0.0.9")]].
Definition demo_resolve (observation : dict) : string * option string * option string * Z :=
  outcome (resolve id (λ _, None) head (build_index id (λ _, None) demo_switches) observation).
Example resolutions :
  demo_resolve <$>
    [[("lldp_neighbor_mac", PStr "00:11:22:33:44:55"); ("lldp_neighbor_ip", PStr "10.0.0.2")]; [("neighbor_ip", PStr "10.0.0.2")];
     [("lldp_neighbor", PStr "core-01.site")]; [("lldp_neighbor_device_id", PStr "u4")]; [("neighbor_ip", PStr "10.0.0.9")]]
  = [("matched", Some "u1", Some "chassis_id", 1); ("ambiguous", None, Some "management_ip", 2);
     ("matched", Some "u2", Some "system_name", 1); ("unresolved", None, Some "device_id", 0); ("unresolved", None, None, 0)].
Proof. vm_compute. reflexivity. Qed.
