(* ===== verification/WriteGuard.v ===== *)
(** * Write guard of the rail base data

    services/rail_transit/base_data_write_guard.py and the site-name check of
    core/site_identity.py: whether formal base data of a site may be written.
    The file system is a parameter: the JSON value of a site's metadata file,
    the resolved paths (as component lists) and which of them are files. *)

From S2P Require Import Prelude PyVal PyText.

(** ** Site names *)
Definition INVALID_SITE_NAME_CHARS : list ascii :=
  ["<"; ">"; ":"; dquote; "/"; "\"; "|"; "?"; "*"]%char.

Fixpoint any_char (p : ascii → bool) (s : string) : bool :=
  match s with
  | "" => false
  | String c s' => p c || any_char p s'
  end.

(** [Path(name).name]: the text after the last slash. *)
Definition path_name (s : string) : string := List.last (split_on "/" s) "".

Definition validate_site_name (site_name : string) : res string :=
  let name := strip site_name in
  if String.eqb name "" then Err ValueError
  else if str_mem name ["."; ".."]
          || any_char (λ c, existsb (Ascii.eqb c) INVALID_SITE_NAME_CHARS) name
  then Err ValueError
  else if any_char (λ c, byte_of c <? 32) name then Err ValueError
  else if negb (String.eqb (path_name name) name) then Err ValueError
  else Ok name.

Lemma any_char_has_char p s c : any_char p s = false → p c = true → has_char c s = false.
Proof.
  intros H Hc. induction s as [|d s IH]; simpl in *; [done|]. bool_to_prop.
  rewrite IH, orb_false_r by done. destruct (Ascii.eqb_spec c d) as [->|]; congruence.
Qed.

(** An accepted name is a single, stripped path component. *)
Lemma validate_site_name_ok s n :
  validate_site_name s = Ok n →
  n = strip s ∧ validate_site_name n = Ok n ∧ n ≠ "" ∧ n ≠ "." ∧ n ≠ ".." ∧
  has_char "/" n = false ∧ has_char "\" n = false.
Proof.
  unfold validate_site_name at 1. cbv zeta. destruct (String.eqb (strip s) "") eqn:E1; [done|].
  destruct (_ || _) eqn:E2; [done|]. destruct (any_char (λ c, byte_of c <? 32) _) eqn:E3; [done|].
  destruct (negb _) eqn:E4; [done|]. intros [= <-].
  split; [done|]. split.
  { unfold validate_site_name. cbv zeta. rewrite strip_idem. by rewrite E1, E2, E3, E4. }
  bool_to_prop. clear E3. split; [done|].
  assert (Hm : strip s ∉ ["."; ".."]) by (rewrite <- str_mem_iff; congruence).
  split_and!; [set_solver|set_solver|by eapply any_char_has_char; [eassumption|]..].
Qed.

(** ** The guard *)
Definition COPY_SCOPE : string := "copy_validation".

(** [BaseDataWriteGuard] with its switches resolved. *)
Record guard := Guard {
  g_storage_mode : string;
  g_feature_enabled : bool;
  g_write_enabled : bool;
  g_copy_write_enabled : bool;
  g_real_write_enabled : bool;
  g_desktop_session_write_enabled : bool;
  g_rollback_enabled : bool;
}.

(** [_env_enabled] and the constructor: a switch that is not given comes from
    the environment, off unless it is exactly "1". *)
Definition env_enabled (value : option string) : bool :=
  String.eqb (strip (default "0" value)) "1".
Definition switch (given : option bool) (env : option string) : bool :=
  match given with Some b => b | None => env_enabled env end.

Definition new_guard (storage_mode : string) (feature_enabled desktop_session_write_enabled : bool)
    (write_enabled copy_write_enabled real_write_enabled rollback_enabled : option bool)
    (write_env copy_env real_env rollback_env : option string) : guard :=
  Guard storage_mode feature_enabled (switch write_enabled write_env)
    (switch copy_write_enabled copy_env) (switch real_write_enabled real_env)
    desktop_session_write_enabled (switch rollback_enabled rollback_env).

Record BaseDataWriteStatus := WriteStatus {
  feature_enabled : bool;
  write_enabled : bool;
  copy_write_authorized : bool;
  real_write_authorized : bool;
  rollback_enabled : bool;
  scope : string;
  storage_mode : string;
}.

Section file_system.
(** The JSON value of [site_meta.json] ([None] when it cannot be read), the
    resolved database and directory of a site, the resolved data root, and
    whether a path is a file. *)
Context (site_meta : string → option pyval).
Context (db_path site_dir : string → list string) (data_root : list string).
Context (is_file : list string → bool).

(** [len(s)] of the hash counts characters; the copies below hold ASCII. *)
Definition scope_of_meta (payload : pyval) : string :=
  match payload with
  | PDict d =>
      let declared := strip (text_or_empty (dget "base_data_write_scope" d)) in
      let source_hash := casefold (strip (text_or_empty (dget "base_data_source_sha256" d))) in
      if String.eqb declared COPY_SCOPE && (byte_len source_hash =? 64) then COPY_SCOPE
      else "real"
  | _ => "real"
  end.

(** [_scope]. *)
Definition scope_of (site_id : string) : res string :=
  site_id ← validate_site_name site_id;
  Ok (match site_meta site_id with Some payload => scope_of_meta payload | None => "real" end).

(** [status]. *)
Definition status (g : guard) (site_id : string) : res BaseDataWriteStatus :=
  sc ← scope_of site_id;
  let copy := String.eqb sc COPY_SCOPE in
  let write := String.eqb (g_storage_mode g) "persistent"
               && (g_write_enabled g || (negb copy && g_desktop_session_write_enabled g)) in
  let base := g_feature_enabled g && write in
  Ok (WriteStatus (g_feature_enabled g) write
        (base && copy && g_copy_write_enabled g)
        (base && negb copy && (g_real_write_enabled g || g_desktop_session_write_enabled g))
        (g_rollback_enabled g) sc (g_storage_mode g)).

(** [write_denial]: the code, empty when writing is allowed. *)
Definition write_denial (st : BaseDataWriteStatus) : string * string :=
  if String.eqb (storage_mode st) "isolated_test"
  then ("ISOLATED_TEST_READONLY", "隔离测试模式下禁止修改正式局点数据。")
  else if negb (write_enabled st)
  then ("BASE_DATA_WRITE_DISABLED", "轨道交通基础资料正式写入未启用")
  else if negb (feature_enabled st)
  then ("BASE_DATA_WRITE_DISABLED", "轨道交通基础资料写入 Feature 未启用")
  else if String.eqb (scope st) COPY_SCOPE && negb (copy_write_authorized st)
  then ("BASE_DATA_COPY_WRITE_NOT_AUTHORIZED", "基础资料副本写入未授权")
  else if negb (String.eqb (scope st) COPY_SCOPE) && negb (real_write_authorized st)
  then ("BASE_DATA_REAL_WRITE_NOT_AUTHORIZED", "真实局点基础资料写入未授权")
  else ("", "").

(** [p in q.parents]: a proper prefix. *)
Definition is_parent (p q : list string) : bool :=
  bool_decide (p `prefix_of` q) && (length p <? length q)%nat.

(** [_validated_database_path]. *)
Definition validated_database_path (site_id : string) : res (list string) :=
  site_id ← validate_site_name site_id;
  let database := db_path site_id in
  if negb (is_file database) || negb (is_parent (site_dir site_id) database)
     || negb (is_parent data_root database)
  then Err (RuntimeError "BASE_DATA_SOURCE_INVALID") else Ok database.

(** [authorize_apply], [authorize_rollback]. *)
Definition authorize_apply (g : guard) (site_id : string) (explicit_confirmation : bool)
    : res BaseDataWriteStatus :=
  st ← status g site_id;
  let '(denial_code, _) := write_denial st in
  if str_nonempty denial_code then Err (RuntimeError denial_code)
  else if negb explicit_confirmation then Err (RuntimeError "BASE_DATA_IMPORT_CONFLICT")
  else
    _ ← validated_database_path site_id;
    Ok st.

Definition authorize_rollback (g : guard) (site_id : string) (explicit_confirmation : bool)
    : res BaseDataWriteStatus :=
  st ← authorize_apply g site_id explicit_confirmation;
  if negb (rollback_enabled st) then Err (RuntimeError "BASE_DATA_ROLLBACK_DISABLED") else Ok st.

(** ** Theorems on the guard *)
(** What the switches and the scope of a site allow. *)
Definition may_write (g : guard) (copy : bool) : bool :=
  String.eqb (g_storage_mode g) "persistent" && g_feature_enabled g &&
  if copy then g_write_enabled g && g_copy_write_enabled g
  else (g_write_enabled g || g_desktop_session_write_enabled g)
       && (g_real_write_enabled g || g_desktop_session_write_enabled g).

Lemma write_denial_spec g site_id st :
  status g site_id = Ok st →
  String.eqb (write_denial st).1 "" = may_write g (String.eqb (scope st) COPY_SCOPE).
Proof.
  unfold status. intros (sc & _ & [= <-])%res_bind_Ok. unfold write_denial, may_write. simpl.
  destruct (String.eqb_spec (g_storage_mode g) "isolated_test") as [->|]; [done|].
  destruct (String.eqb (g_storage_mode g) "persistent"), (g_feature_enabled g),
    (g_write_enabled g), (g_copy_write_enabled g), (g_real_write_enabled g),
    (g_desktop_session_write_enabled g), (String.eqb sc COPY_SCOPE); reflexivity.
Qed.

(** Formal base data may be written exactly when everything allows it: a valid
    site name, persistent storage, the feature, the write switches of the
    site's scope (a marked copy needs both of its switches, the desktop session
    never opens it), explicit confirmation, and a database file inside the
    site's directory and the data root; a rollback needs its switch as well.
    Anything else raises, with the site name's [ValueError] or a code. *)
Theorem write_authorized_iff g site_id confirmed st :
  (authorize_apply g site_id confirmed = Ok st ↔
   ∃ name, validate_site_name site_id = Ok name ∧ status g site_id = Ok st ∧
     may_write g (String.eqb (scope st) COPY_SCOPE) = true ∧ confirmed = true ∧
     is_file (db_path name) = true ∧ is_parent (site_dir name) (db_path name) = true ∧
     is_parent data_root (db_path name) = true) ∧
  (authorize_rollback g site_id confirmed = Ok st ↔
   authorize_apply g site_id confirmed = Ok st ∧ rollback_enabled st = true).
Proof.
  split.
  - unfold authorize_apply. rewrite res_bind_Ok. split.
    + intros (st' & Hst & H). pose proof (write_denial_spec g site_id st' Hst) as Hd.
      destruct (write_denial st') as [dc dm]. unfold str_nonempty in H. simpl in Hd.
      destruct (String.eqb dc ""); simpl in H; [|done].
      destruct confirmed; simpl in H; [|done].
      apply res_bind_Ok in H as (db & Hdb & [= <-]). unfold validated_database_path in Hdb.
      apply res_bind_Ok in Hdb as (name & Hn & Hdb). exists name.
      destruct (_ || _) eqn:E in Hdb; [done|]. bool_to_prop. by split_and!.
    + intros (name & Hn & Hst & Hm & -> & H1 & H2 & H3). exists st. split; [done|].
      pose proof (write_denial_spec g site_id st Hst) as Hd. rewrite Hm in Hd.
      destruct (write_denial st) as [dc dm]. unfold str_nonempty. simpl in *. rewrite Hd. simpl.
      unfold validated_database_path. rewrite Hn. simpl. by rewrite H1, H2, H3.
  - unfold authorize_rollback. rewrite res_bind_Ok. split.
    + intros (st' & Ha & H). destruct (rollback_enabled st') eqn:E; simpl in H; [|done].
      injection H as <-. done.
    + intros [Ha Hr]. exists st. split; [done|]. by rewrite Hr.
Qed.
End file_system.

(** A site name that passes the check is one path component: stripped, not
    empty, neither dot name, without separators or control characters, and the
    check accepts it again unchanged. *)
Theorem site_name_safe s n :
  validate_site_name s = Ok n →
  n = strip s ∧ validate_site_name n = Ok n ∧ n ≠ "" ∧ n ≠ "." ∧ n ≠ ".." ∧
  has_char "/" n = false ∧ has_char "\" n = false.
Proof. apply validate_site_name_ok. Qed.

Lemma site_name_safe_witness : validate_site_name "宁波 12" = Ok "宁波 12".
Proof. apply (site_name_safe " 宁波 12 "). vm_compute. reflexivity. Defined.

(** Without any switch nothing may be written; the desktop session opens a real
    site but not a copy. *)
Example default_denies :
  may_write (new_guard "persistent" true false None None None None None None None None) false = false ∧
  may_write (new_guard "persistent" true true None None None None None None None None) false = true ∧
  may_write (new_guard "persistent" true true None (Some true) None None None None None None) true = false.
Proof. repeat split. Qed.
