(* ===== verification/SectionGeneration.v ===== *)
(** * Generation of rail sections from the station draft

    services/rail_transit/section_generation_service.py: from the stations of
    the editing draft to the automatic sections of each path, and the comparison
    of these with the sections at hand.  Mileages are exact rationals where the
    code has doubles; the SHA-1 digest and the [:g] format are parameters, and
    so is the revision of the stored data. *)

From S2P Require Import Prelude PyVal PyText ApNormalizers.
From Stdlib Require Import QArith Qcanon.
Open Scope Z_scope.

(** ** Data *)
Record StationDTO := Station {
  st_id : string;
  st_node_uid : string;
  st_name : string;
  st_sort_order : option Z;
  st_node_type : string;
  st_path_code : string;
  st_participates_in_direction : bool;
  st_center_mileage_m : option Qc;
  st_is_line_terminal : bool;
  st_terminal_extension_enabled : bool;
  st_terminal_endpoint_label : string;
  st_terminal_extension_distance_m : option Qc;
  st_terminal_endpoint_mileage_text : string;
  st_enabled : bool;
}.

Record SectionDTO := Section_ {
  se_id : string;
  se_name : string;
  se_section_code : string;
  se_section_kind : string;
  se_path_code : string;
  se_direction_role : string;
  se_line_direction : string;
  se_start_node_type : string;
  se_start_node_uid : string;
  se_start_station : string;
  se_end_node_type : string;
  se_end_node_uid : string;
  se_end_station : string;
  se_line_side : string;
  se_auto_generated : bool;
  se_generation_key : string;
  se_manual_override_fields : list string;
  se_section_mileage_start_m : option Qc;
  se_section_mileage_end_m : option Qc;
  se_section_mileage_open_end : bool;
  se_section_mileage_source : string;
  se_enabled : bool;
  se_source_kind : string;
  se_ap_count : Z;
  se_mileage_min : option Qc;
  se_mileage_max : option Qc;
  se_remark : string;
}.

Record LineMetadata := Metadata {
  main_path_code : string;
  increasing_direction_name : string;
  decreasing_direction_name : string;
  increasing_direction_line_side : string;
  decreasing_direction_line_side : string;
}.

Record issue := Issue {
  i_severity : string;
  i_code : string;
  i_message : string;
  i_field_name : string;
  i_blocking : bool;
  i_entity_id : string;
}.

Inductive gen_result := CREATE | UPDATE | UNCHANGED | CONFLICT | STALE.
#[global] Instance gen_result_eq_dec : EqDecision gen_result.
Proof. solve_decision. Defined.

Record preview_item := PreviewItem {
  pi_item_id : string;
  pi_result : gen_result;
  pi_proposed : option SectionDTO;
  pi_current : option SectionDTO;
  pi_selected_by_default : bool;
  pi_selectable : bool;
  pi_issues : list issue;
}.

Record preview_dto := PreviewDTO {
  p_site_id : string;
  p_base_revision : string;
  p_items : list preview_item;
  p_create_count : Z;
  p_update_count : Z;
  p_unchanged_count : Z;
  p_conflict_count : Z;
  p_stale_count : Z;
  p_blocking_count : Z;
  p_issues : list issue;
}.

(** ** Mileages *)
Definition qltb (a b : Qc) : bool := match (a ?= b)%Qc with Lt => true | _ => false end.
Definition qeqb (a b : Qc) : bool := match (a ?= b)%Qc with Eq => true | _ => false end.
Definition qleb (a b : Qc) : bool := negb (qltb b a).
Definition dec_value (d : decimal) : Qc := Q2Qc (d_num d # Z.to_pos (10 ^ Z.of_nat (d_scale d))).

(** [_closed_mileage_range]. *)
Definition closed_mileage_range (first second : option Qc) : option Qc * option Qc * string :=
  match first, second with
  | Some a, Some b =>
      if qltb a 0%Qc || qltb b 0%Qc || qeqb a b then (None, None, "unavailable")
      else (Some (if qltb b a then b else a), Some (if qltb a b then b else a), "generated")
  | _, _ => (None, None, "unavailable")
  end.

(** ** Values that occur more than once *)
Definition dups {A} `{EqDecision A} (l : list A) : list A :=
  List.filter (λ x, (1 <? count_occ (λ a b, decide (a = b)) l x)%nat) (remove_dups l).
Definition nonempty {A} (l : list A) : bool := match l with [] => false | _ => true end.

Section service.
Context (sha1_hex : string → string) (format_g : Qc → string).

(** [_issue]. *)
Definition mk_issue (severity code message field_name : string) (blocking : bool)
    (entity_id : string) : issue :=
  Issue severity code message field_name blocking entity_id.

(** [_section]. *)
Definition mk_section (name section_kind path_code direction_role line_direction line_side
    start_node_type start_node_uid start_station end_node_type end_node_uid end_station
    generation_key : string) (mileage_start mileage_end : option Qc) (open_end : bool)
    (mileage_source : string) : SectionDTO :=
  let digest := sha1_hex generation_key in
  Section_ ("new:auto:" +:+ String.substring 0 16 digest) name
    ("AUTO-" +:+ upper (String.substring 0 12 digest)) section_kind path_code direction_role
    line_direction start_node_type start_node_uid start_station end_node_type end_node_uid
    end_station line_side true generation_key [] mileage_start mileage_end open_end
    mileage_source true "generated" 0 None None "".

(** [_item_id]. *)
Definition item_id (prefix value : string) : string :=
  "section-generation:" +:+ prefix +:+ ":" +:+ String.substring 0 16 (sha1_hex value).

(** ** Sections between neighbouring stations ([_between_sections]) *)
Definition between_issues (lower higher : StationDTO) (mileage_source : string) : list issue :=
  let physical_name := st_name lower +:+ "-" +:+ st_name higher in
  let missing (s : StationDTO) := bool_decide (st_center_mileage_m s = None) in
  if String.eqb mileage_source "unavailable" then
    let message :=
      if missing lower || missing higher
      then physical_name +:+ " 缺少站台中心里程（"
           +:+ join "、" (st_name <$> List.filter missing [lower; higher])
           +:+ "），无法生成区间里程范围"
      else physical_name +:+ " 的站台中心里程相同，无法生成零长度区间里程范围" in
    [mk_issue "warning" "section_generation_mileage_unavailable" message "center_mileage_m" false ""]
  else
    match st_center_mileage_m lower, st_center_mileage_m higher with
    | Some a, Some b =>
        if qltb b a
        then [mk_issue "warning" "section_generation_station_mileage_reversed"
                (physical_name +:+ " 的站点顺序与站台中心里程方向相反，已按物理里程从小到大生成范围")
                "center_mileage_m" false ""]
        else []
    | _, _ => []
    end.

Definition between_sections (metadata : LineMetadata) (path_code : string)
    (lower higher : StationDTO) : list SectionDTO * list issue :=
  let physical_name := st_name lower +:+ "-" +:+ st_name higher in
  let '(mileage_start, mileage_end, mileage_source) :=
    closed_mileage_range (st_center_mileage_m lower) (st_center_mileage_m higher) in
  let key role := path_code +:+ "|between|" +:+ st_node_uid lower +:+ "|"
                  +:+ st_node_uid higher +:+ "|" +:+ role in
  ([mk_section (physical_name +:+ "-" +:+ increasing_direction_name metadata) "between_stations"
      path_code "increasing" (increasing_direction_name metadata)
      (increasing_direction_line_side metadata)
      "station" (st_node_uid lower) (st_name lower) "station" (st_node_uid higher) (st_name higher)
      (key "increasing") mileage_start mileage_end false mileage_source;
    mk_section (physical_name +:+ "-" +:+ decreasing_direction_name metadata) "between_stations"
      path_code "decreasing" (decreasing_direction_name metadata)
      (decreasing_direction_line_side metadata)
      "station" (st_node_uid higher) (st_name higher) "station" (st_node_uid lower) (st_name lower)
      (key "decreasing") mileage_start mileage_end false mileage_source],
   between_issues lower higher mileage_source).

(** ** Sections beyond the terminals ([_terminal_mileage_range],
       [_terminal_sections]) *)
Inductive side := Low | High.
#[global] Instance side_eq_dec : EqDecision side.
Proof. solve_decision. Defined.
Definition side_name (s : side) : string := match s with Low => "low" | High => "high" end.

Record terminal_range := TerminalRange {
  tr_start : option Qc;
  tr_end : option Qc;
  tr_open_end : bool;
  tr_source : string;
  tr_issue : option issue;
}.

Definition unavailable_range (i : issue) : terminal_range :=
  TerminalRange None None false "unavailable" (Some i).

(** The last lines: the range from the centre to the endpoint. *)
Definition endpoint_range (path_code : string) (station : StationDTO) (center endpoint : Qc)
    : terminal_range :=
  let '(mileage_start, mileage_end, mileage_source) :=
    closed_mileage_range (Some center) (Some endpoint) in
  if String.eqb mileage_source "generated"
  then TerminalRange mileage_start mileage_end false mileage_source None
  else
    let reason := if qltb endpoint 0%Qc then "计算结果小于 0" else "端点里程与站台中心里程相同" in
    unavailable_range
      (mk_issue "warning" "section_generation_mileage_unavailable"
         (path_code +:+ " 路径 " +:+ st_name station +:+ " 的" +:+ reason +:+ "，无法生成端点区间里程范围")
         "terminal_endpoint_mileage_text" false (st_id station)).

Definition terminal_mileage_range (path_code : string) (station : StationDTO) (sd : side)
    : terminal_range :=
  match st_center_mileage_m station with
  | None =>
      unavailable_range
        (mk_issue "warning" "section_generation_mileage_unavailable"
           (st_name station +:+ " 缺少站台中心里程，无法生成端点区间里程范围")
           "center_mileage_m" false (st_id station))
  | Some center =>
      let endpoint_text := strip (st_terminal_endpoint_mileage_text station) in
      if str_nonempty endpoint_text then
        let parsed := parse_track_mileage (PStr endpoint_text) in
        match tm_meters parsed with
        | Some meters =>
            if String.eqb (tm_error parsed) ""
            then endpoint_range path_code station center (dec_value meters)
            else unavailable_range
              (mk_issue "warning" "section_generation_terminal_mileage_invalid"
                 (st_name station +:+ " 的端点里程无法解析，无法生成端点区间里程范围")
                 "terminal_endpoint_mileage_text" false (st_id station))
        | None =>
            unavailable_range
              (mk_issue "warning" "section_generation_terminal_mileage_invalid"
                 (st_name station +:+ " 的端点里程无法解析，无法生成端点区间里程范围")
                 "terminal_endpoint_mileage_text" false (st_id station))
        end
      else
        match st_terminal_extension_distance_m station, sd with
        | Some distance, Low => endpoint_range path_code station center (center - distance)%Qc
        | Some distance, High => endpoint_range path_code station center (center + distance)%Qc
        | None, Low => endpoint_range path_code station center 0%Qc
        | None, High => TerminalRange (Some center) None true "generated" None
        end
  end.

(** The two sections of one terminal, increasing first. *)
Definition terminal_pair (metadata : LineMetadata) (path_code : string) (station : StationDTO)
    (sd : side) (r : terminal_range) : list SectionDTO :=
  let endpoint_uid := "endpoint:" +:+ path_code +:+ ":" +:+ side_name sd in
  let endpoint_label := str_or (strip (st_terminal_endpoint_label station)) "端点" in
  let section (direction_role line_direction line_side : string) :=
    let key := path_code +:+ "|terminal|" +:+ endpoint_uid +:+ "|" +:+ st_node_uid station +:+ "|"
               +:+ direction_role in
    match sd with
    | Low =>
        mk_section (endpoint_label +:+ "-" +:+ st_name station +:+ "-" +:+ line_direction)
          "terminal_extension" path_code direction_role line_direction line_side
          "terminal_endpoint" endpoint_uid endpoint_label
          "station" (st_node_uid station) (st_name station)
          key (tr_start r) (tr_end r) (tr_open_end r) (tr_source r)
    | High =>
        mk_section (st_name station +:+ "-" +:+ endpoint_label +:+ "-" +:+ line_direction)
          "terminal_extension" path_code direction_role line_direction line_side
          "station" (st_node_uid station) (st_name station)
          "terminal_endpoint" endpoint_uid endpoint_label
          key (tr_start r) (tr_end r) (tr_open_end r) (tr_source r)
    end in
  [section "increasing" (increasing_direction_name metadata) (increasing_direction_line_side metadata);
   section "decreasing" (decreasing_direction_name metadata) (decreasing_direction_line_side metadata)].

(** One configured terminal of a path from [low_station] to [high_station]. *)
Definition terminal_step (metadata : LineMetadata) (path_code : string)
    (low_station high_station : StationDTO) (acc : list SectionDTO * list issue)
    (station : StationDTO) : list SectionDTO * list issue :=
  let '(sections, issues) := acc in
  let uid := st_node_uid station in
  if negb (str_mem uid [st_node_uid low_station; st_node_uid high_station]) then
    (sections, issues ++
      [mk_issue "warning" "section_generation_endpoint_ambiguous"
         (st_name station +:+ " 不是 " +:+ path_code +:+ " 路径最低序或最高序站，未生成端点延伸区间")
         "is_line_terminal" false (st_id station)])
  else
    let sd := if String.eqb uid (st_node_uid low_station) then Low else High in
    let r := terminal_mileage_range path_code station sd in
    (sections ++ terminal_pair metadata path_code station sd r, issues ++ option_list (tr_issue r)).

Definition terminal_sections (metadata : LineMetadata) (path_code : string)
    (ordered : list StationDTO) : list SectionDTO * list issue :=
  match ordered, last ordered with
  | low_station :: _, Some high_station =>
      let configured :=
        List.filter (λ s, st_is_line_terminal s && st_terminal_extension_enabled s) ordered in
      let ambiguous what :=
        ([], [mk_issue "error" "section_generation_endpoint_ambiguous" (path_code +:+ what)
                "is_line_terminal" true ""]) in
      if (2 <? length configured)%nat
      then ambiguous " 路径配置了超过两个端点延伸站，无法区分低序端和高序端"
      else if String.eqb (st_node_uid low_station) (st_node_uid high_station) && nonempty configured
      then ambiguous " 路径只有一个可生成站点，无法区分两端"
      else foldl (terminal_step metadata path_code low_station high_station) ([], []) configured
  | _, _ => ([], [])
  end.

(** ** Generation ([_generate]) *)

(** The loop over the stations: who takes part, and the stations of each path. *)
Definition group_step (metadata : LineMetadata)
    (acc : list issue * list (string * list StationDTO)) (station : StationDTO)
    : list issue * list (string * list StationDTO) :=
  let '(issues, grouped) := acc in
  if negb (st_enabled station) || negb (st_participates_in_direction station)
     || negb (String.eqb (st_node_type station) "station")
  then acc
  else if bool_decide (st_sort_order station = None) then
    (issues ++ [mk_issue "warning" "section_generation_station_order_missing"
       (st_name station +:+ " 缺少主线顺序，未参与区间生成") "sort_order" false (st_id station)], grouped)
  else if String.eqb (st_node_uid station) "" then
    (issues ++ [mk_issue "error" "section_generation_node_identity_missing"
       (st_name station +:+ " 缺少稳定节点标识") "node_uid" true (st_id station)], grouped)
  else
    let path := str_or (st_path_code station) (main_path_code metadata) in
    (issues, ainsert path (default [] (alookup path grouped) ++ [station]) grouped).

Definition order_of (s : StationDTO) : Z := default 0 (st_sort_order s).
Definition station_key (s : StationDTO) : list atom := [AZ (order_of s); AS (st_node_uid s)].

(** [zip(ordered, ordered[1:])]. *)
Fixpoint adjacent_pairs {A} (l : list A) : list (A * A) :=
  match l with
  | x :: ((y :: _) as l') => (x, y) :: adjacent_pairs l'
  | _ => []
  end.

Definition mileage_duplicates (path_code : string) (ordered : list StationDTO) : list issue :=
  let duplicates := dups (omap st_center_mileage_m ordered) in
  if nonempty duplicates
  then [mk_issue "warning" "section_generation_station_mileage_duplicate"
          (path_code +:+ " 路径存在重复站台中心里程："
           +:+ join ", " (format_g <$> sort_by qleb duplicates) +:+ " m")
          "center_mileage_m" false ""]
  else [].

Definition path_sections (metadata : LineMetadata) (path_code : string)
    (path_stations : list StationDTO) : list SectionDTO * list issue :=
  let duplicates := dups (order_of <$> path_stations) in
  if nonempty duplicates then
    ([], [mk_issue "error" "section_generation_station_order_duplicate"
            (path_code +:+ " 路径存在重复顺序：" +:+ join ", " (pretty <$> sort_by Z.leb duplicates))
            "sort_order" true ""])
  else if nonempty (dups (st_node_uid <$> path_stations)) then
    ([], [mk_issue "error" "section_generation_node_identity_missing"
            (path_code +:+ " 路径存在重复稳定节点标识") "node_uid" true ""])
  else
    let ordered := sort_by (λ a b, key_leb (station_key a) (station_key b)) path_stations in
    let between := (λ p, between_sections metadata path_code p.1 p.2) <$> adjacent_pairs ordered in
    let '(terminal, terminal_issues) :=
      if String.eqb (casefold path_code) (casefold (main_path_code metadata))
      then terminal_sections metadata path_code ordered else ([], []) in
    (concat between.*1 ++ terminal,
     mileage_duplicates path_code ordered ++ concat between.*2 ++ terminal_issues).

Definition generate (metadata : LineMetadata) (stations : list StationDTO)
    : list SectionDTO * list issue :=
  let '(issues, grouped) := foldl (group_step metadata) ([], []) stations in
  let paths := (λ g, path_sections metadata g.1 g.2) <$> grouped in
  let generated := concat paths.*1 in
  let issues := issues ++ concat paths.*2 in
  let duplicate_keys := List.filter str_nonempty (dups (se_generation_key <$> generated)) in
  if nonempty duplicate_keys then
    (List.filter (λ s, negb (str_mem (se_generation_key s) duplicate_keys)) generated,
     issues ++ [mk_issue "error" "section_duplicate_generation_key" "区间生成结果包含重复生成标识"
                  "generation_key" true ""])
  else (generated, issues).

(** ** Comparison with the sections at hand ([_compare]) *)

(** The fields a person may override: [getattr], and [model_copy(update=...)]. *)
Inductive field_value := FText (s : string) | FNumber (n : option Qc) | FFlag (b : bool).

#[global] Instance field_value_eq_dec : EqDecision field_value.
Proof. solve_decision. Defined.

Definition managed_fields : list (string * (SectionDTO → field_value)) :=
  [("name", λ s, FText (se_name s)); ("section_kind", λ s, FText (se_section_kind s));
   ("path_code", λ s, FText (se_path_code s));
   ("start_node_type", λ s, FText (se_start_node_type s));
   ("start_node_uid", λ s, FText (se_start_node_uid s));
   ("start_station", λ s, FText (se_start_station s));
   ("end_node_type", λ s, FText (se_end_node_type s));
   ("end_node_uid", λ s, FText (se_end_node_uid s));
   ("end_station", λ s, FText (se_end_station s));
   ("direction_role", λ s, FText (se_direction_role s));
   ("line_direction", λ s, FText (se_line_direction s));
   ("line_side", λ s, FText (se_line_side s)); ("enabled", λ s, FFlag (se_enabled s));
   ("section_mileage_start_m", λ s, FNumber (se_section_mileage_start_m s));
   ("section_mileage_end_m", λ s, FNumber (se_section_mileage_end_m s));
   ("section_mileage_open_end", λ s, FFlag (se_section_mileage_open_end s));
   ("section_mileage_source", λ s, FText (se_section_mileage_source s))].

(** [proposed.model_copy(update=merged_values)]. *)
Definition merge (proposed current : SectionDTO) : SectionDTO :=
  let pick {A} (field : string) (get : SectionDTO → A) : A :=
    if str_mem field (se_manual_override_fields current) then get current else get proposed in
  Section_ (se_id current) (pick "name" se_name) (se_section_code proposed)
    (pick "section_kind" se_section_kind) (pick "path_code" se_path_code)
    (pick "direction_role" se_direction_role) (pick "line_direction" se_line_direction)
    (pick "start_node_type" se_start_node_type) (pick "start_node_uid" se_start_node_uid)
    (pick "start_station" se_start_station) (pick "end_node_type" se_end_node_type)
    (pick "end_node_uid" se_end_node_uid) (pick "end_station" se_end_station)
    (pick "line_side" se_line_side) (se_auto_generated proposed) (se_generation_key proposed)
    (se_manual_override_fields current) (pick "section_mileage_start_m" se_section_mileage_start_m)
    (pick "section_mileage_end_m" se_section_mileage_end_m)
    (pick "section_mileage_open_end" se_section_mileage_open_end)
    (pick "section_mileage_source" se_section_mileage_source) (pick "enabled" se_enabled)
    (se_source_kind proposed) (se_ap_count current) (se_mileage_min current)
    (se_mileage_max current) (se_remark current).

(** [_comparable]. *)
Definition comparable (s : SectionDTO) : list field_value :=
  [FText (se_name s); FText (se_section_code s); FText (se_section_kind s);
   FText (se_path_code s); FText (se_direction_role s); FText (se_line_direction s);
   FText (se_start_node_type s); FText (se_start_node_uid s); FText (se_start_station s);
   FText (se_end_node_type s); FText (se_end_node_uid s); FText (se_end_station s);
   FText (se_line_side s); FFlag (se_auto_generated s); FText (se_generation_key s);
   FNumber (se_section_mileage_start_m s); FNumber (se_section_mileage_end_m s);
   FFlag (se_section_mileage_open_end s); FText (se_section_mileage_source s);
   FFlag (se_enabled s); FText (se_source_kind s)].

(** The first endpoint a person chose that is no longer a node. *)
Definition missing_node_field (current : SectionDTO) (valid_node_uids : list string)
    : option (string * string) :=
  let missing (field uid : string) :=
    str_mem field (se_manual_override_fields current) && negb (str_mem uid valid_node_uids) in
  if missing "start_node_uid" (se_start_node_uid current)
  then Some ("start_node_uid", se_start_node_uid current)
  else if missing "end_node_uid" (se_end_node_uid current)
  then Some ("end_node_uid", se_end_node_uid current) else None.

Definition conflict_item (proposed : SectionDTO) (current : option SectionDTO) (i : issue)
    : preview_item :=
  PreviewItem (item_id "conflict" (se_generation_key proposed)) CONFLICT (Some proposed) current
    false false [i].

Definition conflict_issue (message field : string) : issue :=
  mk_issue "error" "section_generation_conflict" message field true "".

(** The override differences, in the order in which they are reported. *)
Definition override_differences (proposed current : SectionDTO) : list string :=
  sort_by String.leb
    (List.filter (λ f, str_mem f (se_manual_override_fields current))
       (fst <$> List.filter (λ m, bool_decide (m.2 proposed ≠ m.2 current)) managed_fields)).

(** A proposed section with a current one. *)
Definition update_item (proposed current : SectionDTO) : preview_item :=
  let merged := merge proposed current in
  let unchanged := bool_decide (comparable merged = comparable current) in
  let differences := override_differences proposed current in
  PreviewItem (item_id "current" (se_generation_key proposed))
    (if unchanged then UNCHANGED else UPDATE) (Some merged) (Some current)
    (negb unchanged && negb (nonempty differences)) true
    (if nonempty differences
     then [mk_issue "warning" "section_generation_manual_override"
             ("已保留人工调整字段：" +:+ join "、" differences) "manual_override_fields" false
             (se_id current)]
     else []).

Definition create_item (proposed : SectionDTO) : preview_item :=
  PreviewItem (item_id "create" (se_generation_key proposed)) CREATE (Some proposed) None true true [].

(** The body of the loop over the generated sections: the item and the issues
    it adds. *)
Definition with_current (valid_node_uids : list string) (proposed current : SectionDTO)
    : preview_item * list issue :=
  match missing_node_field current valid_node_uids with
  | Some (field, uid) =>
      let i := mk_issue "error" "section_generation_manual_node_missing"
                 ("人工调整的节点已不存在：" +:+ str_or uid "未设置") field true (se_id current) in
      (conflict_item proposed (Some current) i, [i])
  | None => (update_item proposed current, [])
  end.

Definition compare_one (current : list SectionDTO) (valid_node_uids : list string)
    (proposed : SectionDTO) : preview_item * list issue :=
  let key_matches :=
    List.filter (λ s, str_nonempty (se_generation_key s)
                 && String.eqb (se_generation_key s) (se_generation_key proposed)) current in
  let name_matches :=
    List.filter (λ s, str_nonempty (se_name s)
                 && String.eqb (casefold (se_name s)) (casefold (se_name proposed))) current in
  let conflict c i := (conflict_item proposed c i, [i]) in
  match key_matches with
  | _ :: _ :: _ => conflict None (conflict_issue "同一生成标识对应多个现有区间" "generation_key")
  | [section] =>
      if negb (se_auto_generated section)
      then conflict (Some section) (conflict_issue "生成标识已被人工区间占用" "generation_key")
      else with_current valid_node_uids proposed section
  | [] =>
      match List.filter (λ s, negb (se_auto_generated s)) name_matches with
      | manual :: _ =>
          conflict (Some manual) (conflict_issue "自动生成结果与人工区间同名，未覆盖人工数据" "name")
      | [] => (create_item proposed, [])
      end
  end.

(** The loop over the sections that are no longer generated. *)
Definition is_stale (generated_keys : list string) (section : SectionDTO) : bool :=
  se_auto_generated section && str_nonempty (se_generation_key section)
  && negb (str_mem (se_generation_key section) generated_keys).

Definition stale_issue (section : SectionDTO) : issue :=
  mk_issue "warning" "section_generation_stale"
    (if nonempty (se_manual_override_fields section)
     then "站点顺序已不再生成该区间，但该区间含人工修改"
     else "该自动区间已不在当前站点顺序的生成结果中，默认保留")
    "generation_key" false (se_id section).

Definition stale_item (section : SectionDTO) : preview_item :=
  PreviewItem (item_id "stale" (se_generation_key section)) STALE None (Some section) false true
    [stale_issue section].

Definition result_rank (r : gen_result) : Z :=
  match r with CREATE => 0 | UPDATE => 1 | UNCHANGED => 2 | CONFLICT => 3 | STALE => 4 end.

Definition item_section_text (get : SectionDTO → string) (dflt : string) (i : preview_item) : string :=
  match pi_proposed i, pi_current i with
  | Some s, _ => get s
  | None, Some s => get s
  | None, None => dflt
  end.

Definition preview_item_key (i : preview_item) : list atom :=
  [AZ (result_rank (pi_result i)); AS (item_section_text se_path_code "MAIN" i);
   AS (item_section_text se_name "" i)].

Definition compare (generated current : list SectionDTO) (valid_node_uids : list string)
    : list preview_item * list issue :=
  let compared := compare_one current valid_node_uids <$> generated in
  let stale := List.filter (is_stale (se_generation_key <$> generated)) current in
  (sort_by (λ a b, key_leb (preview_item_key a) (preview_item_key b))
     (compared.*1 ++ (stale_item <$> stale)),
   concat compared.*2 ++ (stale_issue <$> stale)).

(** ** [preview]: [revision] is the repository's revision of the site *)
Definition count_result (r : gen_result) (items : list preview_item) : Z :=
  Z.of_nat (length (List.filter (λ i, bool_decide (pi_result i = r)) items)).

Definition valid_uids (stations : list StationDTO) (generated : list SectionDTO) : list string :=
  List.filter str_nonempty (st_node_uid <$> stations) ++
  List.filter str_nonempty (concat ((λ s, [se_start_node_uid s; se_end_node_uid s]) <$> generated)).

Definition preview (revision : string → string) (site_id base_revision : string)
    (line_metadata : LineMetadata) (stations : list StationDTO) (current_sections : list SectionDTO)
    : res preview_dto :=
  if negb (String.eqb (revision site_id) base_revision)
  then Err (RuntimeError "BASE_DATA_REVISION_CONFLICT")
  else
    let '(generated, issues) := generate line_metadata stations in
    let '(items, compare_issues) := compare generated current_sections (valid_uids stations generated) in
    let issues := issues ++ compare_issues in
    Ok (PreviewDTO site_id base_revision items
          (count_result CREATE items) (count_result UPDATE items) (count_result UNCHANGED items)
          (count_result CONFLICT items) (count_result STALE items)
          (Z.of_nat (length (List.filter i_blocking issues))) issues).

(** ** Lemmas: values that occur more than once, neighbours *)
Lemma nonempty_false {A} (l : list A) : nonempty l = false ↔ l = [].
Proof. by destruct l. Qed.

Lemma in_dups {A} `{EqDecision A} (l : list A) x :
  x ∈ dups l ↔ (1 < count_occ (λ a b, decide (a = b)) l x)%nat.
Proof.
  unfold dups. rewrite list_elem_of_In, filter_In, <- list_elem_of_In, elem_of_remove_dups.
  rewrite Nat.ltb_lt, list_elem_of_In, (count_occ_In (λ a b, decide (a = b))). lia.
Qed.

Lemma nodup_filter_once {A} `{EqDecision A} (P : A → bool) (l : list A) :
  (∀ x, x ∈ l → P x = true → (count_occ (λ a b, decide (a = b)) l x ≤ 1)%nat) →
  NoDup (List.filter P l).
Proof.
  induction l as [|x l IH]; intros H; simpl; [constructor|].
  assert (H' : ∀ y, y ∈ l → P y = true → (count_occ (λ a b, decide (a = b)) l y ≤ 1)%nat).
  { intros y Hin Hy. specialize (H y (list_elem_of_further _ _ _ Hin) Hy). simpl in H. destruct (decide (x = y)); lia. }
  destruct (P x) eqn:E; [|by apply IH]. constructor; [|by apply IH].
  rewrite list_elem_of_In, filter_In. intros [Hin _].
  apply (count_occ_In (λ a b, decide (a = b))) in Hin.
  specialize (H x (list_elem_of_here _ _) E). simpl in H. rewrite decide_True in H by done. lia.
Qed.

(** No value occurs twice, or the values that do are dropped. *)
Lemma dups_nil_NoDup {A} `{EqDecision A} (l : list A) : dups l = [] → NoDup l.
Proof.
  intros H. replace l with (List.filter (λ _, true) l)
    by (clear; induction l; simpl; congruence).
  apply nodup_filter_once. intros x _ _. destruct (decide (1 < count_occ (λ a b, decide (a = b)) l x)%nat)
    as [Hd|]; [|lia]. apply in_dups in Hd. rewrite H in Hd. by apply not_elem_of_nil in Hd.
Qed.

Lemma fmap_filter_comp {A B} (f : A → B) (P : B → bool) l :
  f <$> List.filter (λ x, P (f x)) l = List.filter P (f <$> l).
Proof.
  induction l as [|x l IH]; [done|]. rewrite fmap_cons. cbn [List.filter].
  destruct (P (f x)); [|done]. by rewrite fmap_cons, IH.
Qed.

Lemma strictly_sorted {A} (h : A → Z) l :
  StronglySorted (λ a b, h a ≤ h b) l → NoDup (h <$> l) → StronglySorted (λ a b, h a < h b) l.
Proof.
  induction 1 as [|x l Hl IH Hx]; [constructor|]. rewrite fmap_cons, NoDup_cons.
  intros [Hni Hnd]. constructor; [by apply IH|]. rewrite Forall_forall in Hx |- *.
  intros y Hy. specialize (Hx y Hy). assert (h x ≠ h y); [|lia].
  intros E. apply Hni. rewrite E. apply list_elem_of_fmap. by exists y.
Qed.

(** In a strictly ascending list, the neighbours are the elements with nothing
    between them. *)
Lemma adjacent_pairs_spec {A} (h : A → Z) l x y :
  StronglySorted (λ a b, h a < h b) l →
  (x, y) ∈ adjacent_pairs l ↔
  x ∈ l ∧ y ∈ l ∧ h x < h y ∧ ∀ z, z ∈ l → ¬ (h x < h z < h y).
Proof.
  induction 1 as [|a l Hl IH Ha]; simpl; [set_solver|]. rewrite Forall_forall in Ha.
  destruct l as [|b l]; simpl.
  { split; [by intros ?%not_elem_of_nil|].
    intros (->%list_elem_of_singleton & ->%list_elem_of_singleton & ? & _). lia. }
  assert (Hab : h a < h b) by (apply Ha; left).
  assert (Hb : ∀ z, z ∈ b :: l → z = b ∨ h b < h z).
  { intros z [->|Hz]%elem_of_cons; [by left|right]. inversion_clear Hl as [|?? _ Hbl].
    rewrite Forall_forall in Hbl. by apply Hbl. }
  rewrite elem_of_cons, IH. split.
  - intros [[= -> ->]|(Hx & Hy & Hxy & Hz)].
    + split_and!; [set_solver..|done|]. intros z [->|Hz]%elem_of_cons; [lia|].
      destruct (Hb z Hz) as [->|]; lia.
    + split_and!; [by right|by right|done|]. intros z [->|Hz']%elem_of_cons; [|by apply Hz].
      pose proof (Ha x Hx). lia.
  - intros (Hx & Hy & Hxy & Hz). apply elem_of_cons in Hx as [->|Hx].
    + apply elem_of_cons in Hy as [->|Hy]; [lia|]. left.
      destruct (Hb y Hy) as [->|Hlt]; [done|]. exfalso. apply (Hz b); [set_solver|lia].
    + right. apply elem_of_cons in Hy as [->|Hy]; [pose proof (Ha x Hx); lia|].
      split_and!; [done..|]. intros z Hz'. apply Hz. by right.
Qed.

(** ** Grouping the stations *)

(** A station that takes part, on the path [path]. *)
Definition eligible (md : LineMetadata) (path : string) (s : StationDTO) : bool :=
  st_enabled s && st_participates_in_direction s && String.eqb (st_node_type s) "station"
  && bool_decide (is_Some (st_sort_order s)) && str_nonempty (st_node_uid s)
  && String.eqb (str_or (st_path_code s) (main_path_code md)) path.
Definition on_path (md : LineMetadata) (stations : list StationDTO) (path : string)
    : list StationDTO := List.filter (eligible md path) stations.

Lemma group_step_spec md issues grouped s issues' grouped' p :
  group_step md (issues, grouped) s = (issues', grouped') →
  (NoDup grouped.*1 → NoDup grouped'.*1) ∧ issues `prefix_of` issues' ∧
  default [] (alookup p grouped') =
    default [] (alookup p grouped) ++ (if eligible md p s then [s] else []).
Proof.
  unfold group_step, eligible, str_nonempty.
  destruct (st_enabled s), (st_participates_in_direction s), (String.eqb (st_node_type s) "station");
    simpl; try by intros [= <- <-]; rewrite app_nil_r.
  destruct (st_sort_order s) as [o|]; simpl; [|intros [= <- <-]; rewrite app_nil_r; split_and!;
    [done|by apply prefix_app_r|done]].
  destruct (String.eqb (st_node_uid s) ""); simpl; [intros [= <- <-]; rewrite app_nil_r; split_and!;
    [done|by apply prefix_app_r|done]|].
  intros [= <- <-]. split_and!; [apply ainsert_NoDup|done|].
  destruct (String.eqb_spec (str_or (st_path_code s) (main_path_code md)) p) as [->|Hne].
  - by rewrite alookup_ainsert_eq.
  - rewrite alookup_ainsert_ne by congruence. by rewrite app_nil_r.
Qed.

Lemma grouped_spec md stations acc issues grouped :
  foldl (group_step md) acc stations = (issues, grouped) → NoDup acc.2.*1 →
  NoDup grouped.*1 ∧ acc.1 `prefix_of` issues ∧
  ∀ p, default [] (alookup p grouped) = default [] (alookup p acc.2) ++ on_path md stations p.
Proof.
  revert acc. induction stations as [|s stations IH]; intros [iss0 gr0]; cbn [foldl fst snd].
  { intros [= -> ->] ?. split_and!; [done..|]. intros. by rewrite app_nil_r. }
  destruct (group_step md (iss0, gr0) s) as [iss1 gr1] eqn:E. intros H Hnd.
  pose proof (λ p, group_step_spec _ _ _ _ _ _ p E) as Hs.
  destruct (Hs "") as (Hnd1 & Hpre & _). destruct (IH _ H (Hnd1 Hnd)) as (H1 & H2 & H3).
  split_and!; [done|by etrans|]. intros p. rewrite H3. cbn [snd]. destruct (Hs p) as (_ & _ & ->).
  rewrite <- app_assoc. unfold on_path. cbn [List.filter]. by destruct (eligible md p s).
Qed.

(** The stations of a group are those on its path. *)
Lemma grouped_on_path md stations issues grouped :
  foldl (group_step md) ([], []) stations = (issues, grouped) →
  (∀ p l, (p, l) ∈ grouped → l = on_path md stations p) ∧
  (∀ p, on_path md stations p ≠ [] → (p, on_path md stations p) ∈ grouped).
Proof.
  intros H. destruct (grouped_spec _ _ _ _ _ H) as (Hnd & _ & Hl); [constructor|].
  simpl in Hl. split.
  - intros p l Hin. specialize (Hl p).
    assert (Hlk : alookup p grouped = Some l).
    { clear -Hnd Hin. induction grouped as [|[q m] g IH]; [by apply not_elem_of_nil in Hin|].
      simpl in *. apply NoDup_cons in Hnd as [Hq Hnd]. apply elem_of_cons in Hin as [[= -> ->]|Hin].
      - by rewrite decide_True.
      - rewrite decide_False; [by apply IH|]. intros ->. apply Hq, list_elem_of_fmap.
        by exists (q, l). }
    by rewrite Hlk in Hl.
  - intros p Hne. specialize (Hl p). destruct (alookup p grouped) as [l|] eqn:E; simpl in Hl.
    + apply alookup_Some_in in E. by rewrite <- Hl.
    + by rewrite <- Hl in Hne.
Qed.

(** ** Mileage ranges *)
Definition mileage_ok (start stop : option Qc) (open_end : bool) (source : string) : Prop :=
  match start, stop with
  | Some a, Some b => (0 <= a)%Qc ∧ (a < b)%Qc ∧ open_end = false ∧ source = "generated"
  | Some _, None => open_end = true ∧ source = "generated"
  | None, None => open_end = false ∧ source = "unavailable"
  | None, Some _ => False
  end.

Lemma qltb_spec a b : if qltb a b then (a < b)%Qc else (b <= a)%Qc.
Proof.
  unfold qltb. destruct (a ?= b)%Qc eqn:E.
  - apply Qceq_alt in E as ->. apply Qcle_refl.
  - by apply Qclt_alt.
  - apply Qcgt_alt in E. by apply Qclt_le_weak.
Qed.

Lemma qeqb_spec a b : qeqb a b = true ↔ a = b.
Proof.
  unfold qeqb. rewrite Qceq_alt. destruct (a ?= b)%Qc; split; congruence.
Qed.

Lemma closed_mileage_range_ok a b x y src :
  closed_mileage_range a b = (x, y, src) → mileage_ok x y false src.
Proof.
  destruct a as [a|], b as [b|]; simpl; try by intros [= <- <- <-].
  pose proof (qltb_spec a 0). pose proof (qltb_spec b 0). pose proof (qltb_spec a b) as Hab.
  pose proof (qltb_spec b a) as Hba. pose proof (qeqb_spec a b) as He.
  destruct (qltb a 0); simpl; [by intros [= <- <- <-]|].
  destruct (qltb b 0); simpl; [by intros [= <- <- <-]|].
  destruct (qeqb a b); [by intros [= <- <- <-]|]. intros [= <- <- <-].
  assert (Hne : a ≠ b) by (intros E; by apply He in E).
  destruct (qltb a b), (qltb b a); simpl.
  - exfalso. by apply (Qclt_not_le _ _ Hab), Qclt_le_weak.
  - done.
  - done.
  - exfalso. by apply Hne, Qcle_antisym.
Qed.

Lemma endpoint_range_ok path st c e :
  let r := endpoint_range path st c e in
  mileage_ok (tr_start r) (tr_end r) (tr_open_end r) (tr_source r).
Proof.
  unfold endpoint_range. destruct (closed_mileage_range _ _) as [[x y] src] eqn:E.
  apply closed_mileage_range_ok in E. by destruct (String.eqb src "generated").
Qed.

Lemma terminal_mileage_range_ok path st sd :
  let r := terminal_mileage_range path st sd in
  mileage_ok (tr_start r) (tr_end r) (tr_open_end r) (tr_source r).
Proof.
  unfold terminal_mileage_range. cbv zeta. destruct (st_center_mileage_m st) as [c|]; [|done].
  destruct (str_nonempty _).
  - destruct (tm_meters _); [|done]. destruct (String.eqb _ _); [apply endpoint_range_ok|done].
  - destruct (st_terminal_extension_distance_m st), sd; try apply endpoint_range_ok; done.
Qed.

(** ** The sections of a path *)

(** What every generated section satisfies. *)
Definition section_ok (md : LineMetadata) (s : SectionDTO) : Prop :=
  se_auto_generated s = true ∧ se_generation_key s ≠ "" ∧
  mileage_ok (se_section_mileage_start_m s) (se_section_mileage_end_m s)
    (se_section_mileage_open_end s) (se_section_mileage_source s) ∧
  ((se_direction_role s = "increasing" ∧ se_line_direction s = increasing_direction_name md ∧
    se_line_side s = increasing_direction_line_side md) ∨
   (se_direction_role s = "decreasing" ∧ se_line_direction s = decreasing_direction_name md ∧
    se_line_side s = decreasing_direction_line_side md)).

Lemma key_nonempty (a b : string) c : a +:+ String c b ≠ "".
Proof. destruct a; [done|]. by rewrite string_app_cons. Qed.

Lemma between_sections_ok md path lo hi s :
  s ∈ (between_sections md path lo hi).1 → section_ok md s ∧ se_path_code s = path.
Proof.
  unfold between_sections. destruct (closed_mileage_range _ _) as [[x y] src] eqn:E.
  apply closed_mileage_range_ok in E. simpl.
  intros [->|[->|[]%not_elem_of_nil]%elem_of_cons]%elem_of_cons; split; try done;
    (split; [done|]); (split; [apply key_nonempty|]); (split; [done|]); [by left|by right].
Qed.

Lemma terminal_pair_ok md path st sd s :
  s ∈ terminal_pair md path st sd (terminal_mileage_range path st sd) →
  section_ok md s ∧ se_path_code s = path.
Proof.
  pose proof (terminal_mileage_range_ok path st sd) as Hr. unfold terminal_pair.
  destruct sd; intros [->|[->|[]%not_elem_of_nil]%elem_of_cons]%elem_of_cons; split; try done;
    (split; [done|]); (split; [apply key_nonempty|]); (split; [done|]);
    first [by left | by right].
Qed.

(** Neighbours on a path, and its configured terminals. *)
Definition neighbours (l : list StationDTO) (lower higher : StationDTO) : Prop :=
  lower ∈ l ∧ higher ∈ l ∧ order_of lower < order_of higher ∧
  ∀ x, x ∈ l → ¬ (order_of lower < order_of x < order_of higher).

Definition terminal_of (l : list StationDTO) (st : StationDTO) (sd : side) : Prop :=
  st ∈ l ∧ st_is_line_terminal st = true ∧ st_terminal_extension_enabled st = true ∧
  ∀ x, x ∈ l → match sd with Low => order_of st ≤ order_of x | High => order_of x ≤ order_of st end.

Definition from_terminal (md : LineMetadata) (path : string) (l : list StationDTO) (s : SectionDTO)
    : Prop :=
  ∃ st sd, terminal_of l st sd ∧
    s ∈ terminal_pair md path st sd (terminal_mileage_range path st sd).

Lemma terminal_fold md path low high cfg acc s :
  s ∈ (foldl (terminal_step md path low high) acc cfg).1 →
  s ∈ acc.1 ∨ ∃ st, st ∈ cfg ∧
    ((st_node_uid st = st_node_uid low ∧
      s ∈ terminal_pair md path st Low (terminal_mileage_range path st Low)) ∨
     (st_node_uid st = st_node_uid high ∧
      s ∈ terminal_pair md path st High (terminal_mileage_range path st High))).
Proof.
  revert acc. induction cfg as [|st cfg IH]; intros [secs iss]; cbn [foldl fst]; [by left|].
  intros [H|(st' & Hst & H)]%IH; [|right; exists st'; split; [by right|done]].
  unfold terminal_step in H. cbv zeta in H. destruct (negb _) eqn:E in H; [by left|].
  cbn [fst] in H. apply elem_of_app in H as [H|H]; [by left|]. right. exists st. split; [left|].
  apply negb_false_iff, str_mem_iff in E.
  destruct (String.eqb_spec (st_node_uid st) (st_node_uid low)); [by left|right].
  split; [set_solver|done].
Qed.

Lemma same_uid (l : list StationDTO) a b :
  NoDup (st_node_uid <$> l) → a ∈ l → b ∈ l → st_node_uid a = st_node_uid b → a = b.
Proof.
  induction l as [|x l IH]; [by intros _ ?%not_elem_of_nil|].
  rewrite fmap_cons, NoDup_cons. intros [Hx Hnd] Ha Hb E.
  apply elem_of_cons in Ha as [->|Ha], Hb as [->|Hb]; [done|..|by apply IH]; exfalso; apply Hx.
  - rewrite E. by apply list_elem_of_fmap_2.
  - rewrite <- E. by apply list_elem_of_fmap_2.
Qed.

Lemma last_extreme (l : list StationDTO) y :
  StronglySorted (λ a b, order_of a < order_of b) l → last l = Some y →
  y ∈ l ∧ ∀ x, x ∈ l → order_of x ≤ order_of y.
Proof.
  induction 1 as [|a l Hl IH Ha]; [done|]. destruct l as [|b l].
  { intros [= <-]. split; [left|]. intros x ->%list_elem_of_singleton. lia. }
  intros H. destruct (IH H) as [Hy Hm]. split; [by right|].
  intros x [->|Hx]%elem_of_cons; [|by apply Hm]. rewrite Forall_forall in Ha.
  specialize (Ha y Hy). lia.
Qed.

Lemma terminal_sections_spec md path l s :
  StronglySorted (λ a b, order_of a < order_of b) l → NoDup (st_node_uid <$> l) →
  s ∈ (terminal_sections md path l).1 → from_terminal md path l s.
Proof.
  intros Hs Hnd. unfold terminal_sections. destruct l as [|low l]; [by intros ?%not_elem_of_nil|].
  destruct (last (low :: l)) as [high|] eqn:Hlast; [|by intros ?%not_elem_of_nil].
  apply last_extreme in Hlast as [Hh Hmax]; [|done].
  assert (Hmin : ∀ x, x ∈ low :: l → order_of low ≤ order_of x).
  { inversion_clear Hs as [|?? _ Hlow]. rewrite Forall_forall in Hlow.
    intros x [->|Hx]%elem_of_cons; [done|]. specialize (Hlow x Hx). lia. }
  destruct (_ <? _)%nat; [by intros ?%not_elem_of_nil|].
  destruct (_ && _); [by intros ?%not_elem_of_nil|].
  intros [[]%not_elem_of_nil|(st & Hst & H)]%terminal_fold.
  rewrite list_elem_of_In, filter_In, <- list_elem_of_In in Hst. destruct Hst as [Hst Hcfg].
  bool_to_prop.
  destruct H as [[E H]|[E H]]; [exists st, Low|exists st, High]; (split; [|done]); split_and!; try done.
  - by rewrite (same_uid _ _ _ Hnd Hst (list_elem_of_here _ _) E).
  - by rewrite (same_uid _ _ _ Hnd Hst Hh E).
Qed.

Lemma in_concat_fmap {A B C} (f : A → B) (g : B → list C) l x :
  x ∈ concat (g <$> (f <$> l)) ↔ ∃ a, a ∈ l ∧ x ∈ g (f a).
Proof.
  induction l as [|a l IH]; cbn [fmap list_fmap concat]; [set_solver|].
  rewrite elem_of_app, IH. set_solver.
Qed.

Lemma path_sections_spec md path l :
  let r := path_sections md path l in
  (∀ s, s ∈ r.1 →
     (∃ lo hi, neighbours l lo hi ∧ s ∈ (between_sections md path lo hi).1) ∨
     from_terminal md path l s) ∧
  (Forall (λ i, i_blocking i = false) r.2 →
   ∀ lo hi s, neighbours l lo hi → s ∈ (between_sections md path lo hi).1 → s ∈ r.1).
Proof.
  unfold path_sections. destruct (nonempty (dups (order_of <$> l))) eqn:E1.
  { split; [by intros ? ?%not_elem_of_nil|]. by intros Hb%Forall_inv. }
  destruct (nonempty (dups (st_node_uid <$> l))) eqn:E2.
  { split; [by intros ? ?%not_elem_of_nil|]. by intros Hb%Forall_inv. }
  apply nonempty_false, dups_nil_NoDup in E1, E2.
  set (ordered := sort_by _ l). assert (Hp : ordered ≡ₚ l) by apply sort_by_perm.
  assert (Hs : StronglySorted (λ a b, order_of a < order_of b) ordered).
  { apply strictly_sorted; [|by rewrite Hp].
    apply (sort_by_weak _ (λ _, True)); [intros ???; lia|..].
    - intros a b _ _. apply key_leb_head.
    - intros a b _ _. apply key_leb_head.
    - by apply Forall_forall. }
  assert (Hn : ∀ lo hi, (lo, hi) ∈ adjacent_pairs ordered ↔ neighbours l lo hi).
  { intros lo hi. rewrite (adjacent_pairs_spec order_of) by done. unfold neighbours.
    setoid_rewrite Hp. done. }
  rewrite <- Hp in E2.
  assert (Hbetween : ∀ s, s ∈ concat ((λ p, between_sections md path p.1 p.2) <$> adjacent_pairs ordered).*1
    ↔ ∃ lo hi, neighbours l lo hi ∧ s ∈ (between_sections md path lo hi).1).
  { intros s. rewrite (in_concat_fmap _ fst). split.
    - intros (p & Hq & Hx). exists p.1, p.2. split; [|done]. apply Hn. by destruct p.
    - intros (lo & hi & Hlh%Hn & Hx). by exists (lo, hi). }
  destruct (if String.eqb (casefold path) _ then _ else _) as [term tiss] eqn:Et.
  cbn [fst snd]. split.
  - intros s [H%Hbetween|H]%elem_of_app; [by left|]. right.
    destruct (String.eqb (casefold path) _); [|by injection Et as <- <-; apply not_elem_of_nil in H].
    assert (Hf : from_terminal md path ordered s)
      by (apply terminal_sections_spec; [done|done|by rewrite Et]).
    destruct Hf as (st & sd & (H1 & H2 & H3 & H4) & H5). exists st, sd. split; [|done].
    split_and!; [by rewrite <- Hp|done|done|]. intros x Hx. apply H4. by rewrite Hp.
  - intros _ lo hi s Hlh Hx. apply elem_of_app. left. apply Hbetween. eauto.
Qed.

(** ** The generated sections *)

(** C37: the generated sections have distinct keys, and each is automatic, has one of
    the two directions with its name and line side, and a mileage range that is
    either closed and ascending from 0, open, or unavailable; it joins two
    neighbouring stations of its path or belongs to a configured terminal at the
    path's low or high end.  When no issue blocks, the two sections of every
    pair of neighbours are generated. *)
Theorem generated_sections_exact md stations generated issues :
  generate md stations = (generated, issues) →
  NoDup (se_generation_key <$> generated) ∧
  (∀ s, s ∈ generated →
     section_ok md s ∧
     let path := se_path_code s in
     let l := on_path md stations path in
     (∃ lo hi, neighbours l lo hi ∧ s ∈ (between_sections md path lo hi).1) ∨
     from_terminal md path l s) ∧
  (Forall (λ i, i_blocking i = false) issues →
   ∀ path lo hi s, neighbours (on_path md stations path) lo hi →
     s ∈ (between_sections md path lo hi).1 → s ∈ generated).
Proof.
  unfold generate. destruct (foldl _ _ stations) as [iss0 grouped] eqn:Eg.
  destruct (grouped_on_path _ _ _ _ Eg) as [Hg1 Hg2].
  set (paths := (λ g, path_sections md g.1 g.2) <$> grouped).
  assert (Hall : ∀ s, s ∈ concat paths.*1 ↔
    ∃ path, (path, on_path md stations path) ∈ grouped ∧
      s ∈ (path_sections md path (on_path md stations path)).1).
  { intros s. unfold paths. rewrite (in_concat_fmap _ fst). split.
    - intros ([path l] & Hin & Hs). exists path. by rewrite <- (Hg1 _ _ Hin).
    - intros (path & Hin & Hs). by exists (path, on_path md stations path). }
  assert (Hsound : ∀ s, s ∈ concat paths.*1 → section_ok md s ∧
     let path := se_path_code s in let l := on_path md stations path in
     (∃ lo hi, neighbours l lo hi ∧ s ∈ (between_sections md path lo hi).1) ∨
     from_terminal md path l s).
  { intros s (path & _ & Hs)%Hall. apply (path_sections_spec md path) in Hs.
    destruct Hs as [(lo & hi & Hn & Hs)|(st & sd & Ht & Hs)].
    - destruct (between_sections_ok _ _ _ _ _ Hs) as [Hok Hp]. rewrite Hp. eauto 6.
    - destruct (terminal_pair_ok _ _ _ _ _ Hs) as [Hok Hp]. rewrite Hp.
      split; [done|right]. by exists st, sd. }
  set (dup_keys := List.filter str_nonempty _). destruct (nonempty dup_keys) eqn:Ed.
  - intros [= <- <-]. split_and!.
    + rewrite (fmap_filter_comp se_generation_key (λ k, negb (str_mem k dup_keys))).
      apply nodup_filter_once. intros k (s & -> & Hs)%list_elem_of_fmap Hk.
      apply Hsound in Hs as [(_ & Hne & _) _].
      destruct (decide (1 < count_occ (λ a b, decide (a = b)) (se_generation_key <$> concat paths.*1)
        (se_generation_key s))%nat) as [Hd|]; [|lia].
      apply in_dups in Hd. apply negb_true_iff in Hk.
      assert (se_generation_key s ∈ dup_keys) as Hin%str_mem_iff; [|congruence].
      unfold dup_keys. rewrite list_elem_of_In, filter_In, <- list_elem_of_In. split; [done|].
      unfold str_nonempty. by apply negb_true_iff, String.eqb_neq.
    + intros s. rewrite list_elem_of_In, filter_In, <- list_elem_of_In. intros [Hs _]. by apply Hsound.
    + intros Hb. apply Forall_app in Hb as [_ Hb]. by apply Forall_inv in Hb.
  - apply nonempty_false in Ed. intros [= <- <-]. split_and!; [|done|].
    + apply dups_nil_NoDup. rewrite <- Ed. unfold dup_keys. symmetry.
      apply forallb_filter_id, forallb_forall. intros k Hk%list_elem_of_In.
      rewrite in_dups in Hk. assert (Hin : k ∈ se_generation_key <$> concat paths.*1).
      { rewrite list_elem_of_In, (count_occ_In (λ a b, decide (a = b))). lia. }
      apply list_elem_of_fmap in Hin as (s & -> & ((_ & Hne & _) & _)%Hsound).
      unfold str_nonempty. by apply negb_true_iff, String.eqb_neq.
    + intros Hb path lo hi s Hn Hs. apply Hall. exists path.
      assert (Hin : (path, on_path md stations path) ∈ grouped).
      { apply Hg2. destruct Hn as (Hlo & _). intros E. rewrite E in Hlo. by apply not_elem_of_nil in Hlo. }
      split; [done|]. apply (path_sections_spec md path) with lo hi; [|done..].
      apply Forall_app in Hb as [_ Hb]. rewrite Forall_forall in Hb |- *.
      intros i Hi. apply Hb. unfold paths. rewrite (in_concat_fmap _ snd). eauto.
Qed.

(** ** The preview *)

(** An item for a section at hand [c] and the generated section [s] of the same
    key: whatever a person overrode stays. *)
Definition update_ok (i : preview_item) (s c m : SectionDTO) : Prop :=
  pi_current i = Some c ∧ pi_proposed i = Some m ∧
  se_generation_key c = se_generation_key s ∧ se_auto_generated c = true ∧
  se_id m = se_id c ∧ se_remark m = se_remark c ∧ se_ap_count m = se_ap_count c ∧
  se_manual_override_fields m = se_manual_override_fields c ∧
  Forall (λ f, f.2 m = if str_mem f.1 (se_manual_override_fields c) then f.2 c else f.2 s)
    managed_fields ∧
  (pi_result i = UNCHANGED ↔ comparable m = comparable c) ∧
  (pi_selected_by_default i = true →
   pi_result i = UPDATE ∧
   Forall (λ f, str_mem f.1 (se_manual_override_fields c) = true → f.2 s = f.2 c) managed_fields).

Definition item_ok (generated current : list SectionDTO) (issues : list issue) (i : preview_item)
    : Prop :=
  match pi_result i with
  | CREATE => ∃ s, s ∈ generated ∧ i = create_item s ∧ ∀ c, c ∈ current →
      (se_generation_key c = se_generation_key s → se_generation_key s = "") ∧
      (se_auto_generated c = false → se_name c ≠ "" → casefold (se_name c) ≠ casefold (se_name s))
  | UPDATE | UNCHANGED => ∃ s c m, s ∈ generated ∧ c ∈ current ∧ update_ok i s c m
  | CONFLICT => pi_selectable i = false ∧ pi_selected_by_default i = false ∧
      (∃ s, s ∈ generated ∧ pi_proposed i = Some s) ∧
      ∃ b, pi_issues i = [b] ∧ b ∈ issues ∧ i_blocking b = true
  | STALE => pi_selected_by_default i = false ∧ ∃ c, c ∈ current ∧ pi_current i = Some c ∧
      se_auto_generated c = true ∧ se_generation_key c ∉ se_generation_key <$> generated
  end.

Lemma merge_fields s c :
  Forall (λ f, f.2 (merge s c) = if str_mem f.1 (se_manual_override_fields c) then f.2 c else f.2 s)
    managed_fields.
Proof.
  unfold managed_fields.
  repeat (apply Forall_cons_2;
    [cbn [fst]; unfold merge; cbv beta zeta;
     match goal with |- _ = (if ?b then _ else _) => destruct b; reflexivity end|]).
  apply Forall_nil_2.
Qed.

Lemma differences_nil s c :
  override_differences s c = [] →
  Forall (λ f, str_mem f.1 (se_manual_override_fields c) = true → f.2 s = f.2 c) managed_fields.
Proof.
  unfold override_differences. intros H. apply Forall_forall. intros f Hf Hm.
  destruct (decide (f.2 s = f.2 c)) as [|Hne]; [done|]. exfalso.
  assert (Hin : f.1 ∈ List.filter (λ g, str_mem g (se_manual_override_fields c))
    (fst <$> List.filter (λ m, bool_decide (m.2 s ≠ m.2 c)) managed_fields)).
  { rewrite list_elem_of_In, filter_In, <- list_elem_of_In. split; [|done].
    apply list_elem_of_fmap_2. rewrite list_elem_of_In, filter_In, <- list_elem_of_In.
    split; [done|]. by apply bool_decide_eq_true. }
  rewrite <- (sort_by_in String.leb), H in Hin. by apply not_elem_of_nil in Hin.
Qed.

Lemma update_item_ok s c :
  se_generation_key c = se_generation_key s → se_auto_generated c = true →
  update_ok (update_item s c) s c (merge s c).
Proof.
  intros Hk Ha. unfold update_item, update_ok. cbv zeta.
  split_and!; try done; cbn [pi_result pi_selected_by_default].
  - apply merge_fields.
  - by case_bool_decide.
  - intros [Hu Hd]%andb_true_iff. apply negb_true_iff in Hu, Hd. rewrite Hu.
    split; [done|]. by apply differences_nil, nonempty_false.
Qed.

Lemma compare_one_ok generated current uids s issues :
  s ∈ generated → (∀ b, b ∈ (compare_one current uids s).2 → b ∈ issues) →
  let i := (compare_one current uids s).1 in
  pi_result i ≠ STALE ∧ (se_generation_key <$> pi_proposed i) = Some (se_generation_key s) ∧
  item_ok generated current issues i.
Proof.
  intros Hs. unfold compare_one. cbv zeta.
  set (keyed := List.filter _ current). set (named := List.filter _ current).
  assert (Hconflict : ∀ c b, i_blocking b = true → (∀ b', b' ∈ [b] → b' ∈ issues) →
    pi_result (conflict_item s c b) ≠ STALE ∧
    (se_generation_key <$> pi_proposed (conflict_item s c b)) = Some (se_generation_key s) ∧
    item_ok generated current issues (conflict_item s c b)).
  { intros c b Hb Hin. split_and!; [done..|]. split; [done|]. split; [done|].
    split; [by exists s|]. exists b. split_and!; [done|apply Hin; left|done]. }
  assert (Hkeyed : ∀ c, c ∈ keyed ↔ c ∈ current ∧
    se_generation_key c ≠ "" ∧ se_generation_key c = se_generation_key s).
  { intros c. unfold keyed, str_nonempty. rewrite list_elem_of_In, filter_In, <- list_elem_of_In.
    rewrite andb_true_iff, negb_true_iff, String.eqb_neq, String.eqb_eq. done. }
  destruct keyed as [|c [|c2 keyed']] eqn:Ek.
  - destruct (List.filter (λ s0, negb (se_auto_generated s0)) named) as [|c l] eqn:En;
      cbn [fst snd]; intros Hi.
    + split_and!; [done..|]. exists s. split_and!; [done..|]. intros c Hc. split.
      * intros E. destruct (String.eqb_spec (se_generation_key s) ""); [done|].
        exfalso. apply (not_elem_of_nil c), Hkeyed. by rewrite E.
      * intros Ha Hne Heq. apply (not_elem_of_nil c). rewrite <- En. unfold named, str_nonempty.
        rewrite !list_elem_of_In, !filter_In, <- list_elem_of_In.
        rewrite andb_true_iff, !negb_true_iff, String.eqb_neq, String.eqb_eq. done.
    + by apply Hconflict.
  - destruct (Hkeyed c) as [(Hc & _ & Hkey) _]; [left|].
    destruct (se_auto_generated c) eqn:Ea; cbn [negb]; [|cbn [fst snd]; by apply Hconflict].
    unfold with_current. destruct (missing_node_field c uids) as [[f u]|]; cbn [fst snd];
      intros Hi; [by apply Hconflict|].
    pose proof (update_item_ok s c Hkey Ea) as Hu.
    split_and!; [unfold update_item; cbv zeta; simpl; by case_bool_decide|done|].
    unfold item_ok. assert (Hr : pi_result (update_item s c) = UPDATE ∨
      pi_result (update_item s c) = UNCHANGED).
    { unfold update_item. cbv zeta. cbn [pi_result]. case_bool_decide; auto. }
    destruct Hr as [-> | ->]; by exists s, c, (merge s c).
  - cbn [fst snd]. by apply Hconflict.
Qed.

Lemma count_result_cons r i items :
  count_result r (i :: items) = (if bool_decide (pi_result i = r) then 1 else 0) + count_result r items.
Proof. unfold count_result. cbn [List.filter]. destruct (bool_decide _); cbn [length]; lia. Qed.

Lemma counts_total items :
  count_result CREATE items + count_result UPDATE items + count_result UNCHANGED items
  + count_result CONFLICT items + count_result STALE items = Z.of_nat (length items).
Proof.
  induction items as [|i items IH]; [done|]. rewrite !count_result_cons. cbn [length].
  destruct (pi_result i); simpl; lia.
Qed.

Lemma count_result_zero r items :
  (∀ i, i ∈ items → pi_result i ≠ r) → count_result r items = 0.
Proof.
  induction items as [|i items IH]; intros H; [done|]. rewrite count_result_cons, IH.
  - rewrite bool_decide_false; [done|]. apply H. left.
  - intros j Hj. apply H. by right.
Qed.

Lemma in_stale current generated c :
  c ∈ List.filter (is_stale (se_generation_key <$> generated)) current ↔
  c ∈ current ∧ se_auto_generated c = true ∧ se_generation_key c ≠ "" ∧
  se_generation_key c ∉ se_generation_key <$> generated.
Proof.
  rewrite list_elem_of_In, filter_In, <- list_elem_of_In. unfold is_stale, str_nonempty.
  rewrite !andb_true_iff, !negb_true_iff, String.eqb_neq.
  rewrite <- (str_mem_iff _ (se_generation_key <$> generated)), not_true_iff_false. tauto.
Qed.

(** The items of the generated sections are theirs in order. *)
Lemma compared_keys current uids generated :
  (se_generation_key <$> omap pi_proposed (compare_one current uids <$> generated).*1) =
  se_generation_key <$> generated.
Proof.
  induction generated as [|s l IH]; [done|]. rewrite !fmap_cons. cbn [omap list_omap].
  destruct (compare_one_ok [s] current uids s (compare_one current uids s).2) as (_ & Hk & _);
    [left|done|].
  destruct (pi_proposed (compare_one current uids s).1); [|done]. injection Hk as Hk.
  by rewrite fmap_cons, IH, Hk.
Qed.

(** C34: a preview is refused on a stale revision.  Otherwise it has one item for
    each generated section and one for each automatic section that is no longer
    generated, sorted by result, and its counts add up.  Manual sections are
    never replaced: an item is new only where no section has its key and no
    manual section its name, an update or unchanged item belongs to an automatic
    section with the same key and keeps its identity and every field a person
    overrode, a conflict cannot be selected and blocks, a stale section is not
    selected by default.  A preview without blocking issues has no conflict. *)
Theorem preview_correct revision site_id base_revision md stations current :
  let generated := (generate md stations).1 in
  match preview revision site_id base_revision md stations current with
  | Err e => e = RuntimeError "BASE_DATA_REVISION_CONFLICT" ∧ revision site_id ≠ base_revision
  | Ok p =>
      revision site_id = base_revision ∧
      (∃ fresh stale, p_items p ≡ₚ fresh ++ stale ∧
         (se_generation_key <$> omap pi_proposed fresh) = se_generation_key <$> generated ∧
         length fresh = length generated ∧
         stale = stale_item <$> List.filter (is_stale (se_generation_key <$> generated)) current) ∧
      StronglySorted (λ a b, result_rank (pi_result a) ≤ result_rank (pi_result b)) (p_items p) ∧
      p_create_count p + p_update_count p + p_unchanged_count p + p_conflict_count p
        + p_stale_count p = Z.of_nat (length (p_items p)) ∧
      (p_blocking_count p = 0 → p_conflict_count p = 0) ∧
      ∀ i, i ∈ p_items p → item_ok generated current (p_issues p) i
  end.
Proof.
  unfold preview. destruct (String.eqb_spec (revision site_id) base_revision) as [Hr|]; [|done].
  cbn [negb]. destruct (generate md stations) as [generated issues0]. cbn [fst].
  set (uids := valid_uids stations generated). unfold compare. cbv zeta.
  set (fresh := (compare_one current uids <$> generated).*1).
  set (stale := List.filter (is_stale _) current).
  set (issues := issues0 ++ _). cbn [p_items p_issues p_blocking_count p_conflict_count
    p_create_count p_update_count p_unchanged_count p_stale_count].
  set (items := sort_by _ _). assert (Hp : items ≡ₚ fresh ++ (stale_item <$> stale)) by apply sort_by_perm.
  assert (Hok : ∀ i, i ∈ items → item_ok generated current issues i).
  { intros i. rewrite Hp, elem_of_app. intros [Hi|Hi].
    - unfold fresh in Hi. apply list_elem_of_fmap in Hi as (r & -> & Hi).
      apply list_elem_of_fmap in Hi as (s & -> & Hs). refine (proj2 (proj2 (compare_one_ok _ _ uids _ _ Hs _))).
      intros b Hb. unfold issues. rewrite !elem_of_app. right. left.
      apply (in_concat_fmap _ snd). eauto.
    - apply list_elem_of_fmap in Hi as (c & -> & (Hc & Ha & _ & Hn)%in_stale).
      split; [done|]. by exists c. }
  split_and!; [done|..|apply counts_total| |done].
  - exists fresh, (stale_item <$> stale). split_and!; [done|apply compared_keys| |done].
    unfold fresh. by rewrite !length_fmap.
  - apply (sort_by_weak _ (λ _, True)); [intros ???; lia|..].
    + intros a b _ _. apply key_leb_head.
    + intros a b _ _. apply key_leb_head.
    + by apply Forall_forall.
  - intros Hz. apply count_result_zero. intros i Hi Hc. specialize (Hok i Hi).
    unfold item_ok in Hok. rewrite Hc in Hok. destruct Hok as (_ & _ & _ & b & _ & Hb & Hblock).
    assert (Hin : b ∈ List.filter i_blocking issues)
      by (rewrite list_elem_of_In, filter_In, <- list_elem_of_In; done).
    destruct (List.filter i_blocking issues); [by apply not_elem_of_nil in Hin|].
    cbn [length] in Hz. lia.
Qed.
End service.

(** A line of three stations with a configured terminal and an existing manual
    section of the same name as a generated one. *)
Definition demo_station (name : string) (order m : Z) (terminal : bool) : StationDTO :=
  Station name name name (Some order) "station" "MAIN" true (Some (Q2Qc (inject_Z m))) terminal
    terminal "" None "" true.
Definition demo_line : LineMetadata := Metadata "MAIN" "上行" "下行" "右线" "左线".
Definition demo_stations : list StationDTO :=
  [demo_station "B" 2 900 false; demo_station "A" 1 300 true; demo_station "C" 3 1500 false].

Example demo_names :
  se_name <$> (generate (λ s, s) (λ _, "") demo_line demo_stations).1 =
  ["A-B-上行"; "A-B-下行"; "B-C-上行"; "B-C-下行"; "端点-A-上行"; "端点-A-下行"].
Proof. vm_compute. reflexivity. Qed.

Lemma generated_sections_exact_witness :
  NoDup (se_generation_key <$> (generate (λ s, s) (λ _, "") demo_line demo_stations).1).
Proof.
  destruct (generated_sections_exact (λ s, s) (λ _, "") demo_line demo_stations
    (generate (λ s, s) (λ _, "") demo_line demo_stations).1
    (generate (λ s, s) (λ _, "") demo_line demo_stations).2) as (H & _); [|exact H].
  vm_compute. reflexivity.
Defined.

Lemma preview_correct_witness :
  match preview (λ s, s) (λ _, "") (λ _, "r1") "site" "r1" demo_line demo_stations [] with
  | Ok p => p_create_count p = 6 ∧ p_blocking_count p = 0 ∧ p_conflict_count p = 0
  | Err _ => False
  end.
Proof.
  pose proof (preview_correct (λ s, s) (λ _, "") (λ _, "r1") "site" "r1" demo_line demo_stations [])
    as H. cbv zeta in H.
  destruct (preview _ _ _ _ _ _ _ _) as [p|e] eqn:E; [|destruct H as [_ H]; congruence].
  destruct H as (_ & _ & _ & _ & H & _).
  assert (p_create_count p = 6 ∧ p_blocking_count p = 0) as [H1 H2].
  { vm_compute in E. injection E as <-. split; reflexivity. }
  split; [exact H1|]. split; [exact H2|]. apply H, H2.
Defined.
