(* ===== verification/CommandGuard.v ===== *)
(** * Command guard

    services/command_guard.py: which commands may be sent to a device in which
    context.  The tables are those of the code; the regular expressions of the
    module (whole words, and four fixed forms with one argument) are matched by
    functions of this file.  Whether a non-ASCII character next to a keyword is
    a word character ([\w]) is a parameter. *)

From S2P Require Import Prelude PyVal PyText.

(** ** The tables *)
Definition SAFE_DEVICE_COMMANDS : list string :=
  ["screen-length d"; "screen-length disable"; "display current-configuration | include sysname";
   "display version"; "display device"; "display device manuinfo"; "display boot-loader";
   "display interface"; "display interface brief"; "display transceiver interface";
   "display transceiver manuinfo interface"; "display transceiver diagnosis interface";
   "display lldp neighbor-information list"; "display lldp neighbor-information verbose"].

Definition DEVICE_INVENTORY_COLLECT_COMMAND_SEQUENCE : list string :=
  ["screen-length disable"; "display current-configuration | include sysname"; "display version";
   "display device"; "display device manuinfo"; "display boot-loader"; "display interface";
   "display transceiver interface"; "display transceiver manuinfo interface";
   "display transceiver diagnosis interface"; "display lldp neighbor-information list";
   "display lldp neighbor-information verbose"].

Definition DEVICE_INVENTORY_MOBILE_ROUTER_COMMAND_SEQUENCE : list string :=
  ["screen-length disable"; "display current-configuration | include sysname"; "display version";
   "display device"; "display device manuinfo"; "display boot-loader"; "display interface"].

Definition DEVICE_INVENTORY_ZTE_SWITCH_COMMAND_SEQUENCE : list string :=
  ["show version"; "show interface brief"; "show running-config switchvlan"; "show vlan";
   "show opticalinfo brief"; "show lldp neighbor brief"; "show lldp entry"].

Definition SAFE_DEVICE_INVENTORY_COLLECT_COMMANDS : list string :=
  DEVICE_INVENTORY_COLLECT_COMMAND_SEQUENCE ++ DEVICE_INVENTORY_MOBILE_ROUTER_COMMAND_SEQUENCE
  ++ DEVICE_INVENTORY_ZTE_SWITCH_COMMAND_SEQUENCE.

Definition SAFE_AC_COMMANDS : list string :=
  SAFE_DEVICE_COMMANDS ++
  ["display wlan ap all"; "display wlan ap all address"; "display wlan ap all radio";
   "display wlan ap all radio verbose filter bbssid"; "display wlan ap all connection-record";
   "display wlan ap all radio type"; "display wlan ap unauthenticated";
   "display wlan ap all lldp"; "display wlan ap all verbose"; "display cpu-usage";
   "display memory"; "display ip https | include port"; "display ip https"].

Definition SAFE_AC_FIT_AP_RESOURCE_COLLECT_COMMANDS : list string :=
  ["screen-length disable"; "display wlan ap all"; "display wlan ap all address";
   "display wlan ap all radio"; "display wlan ap all radio verbose filter bbssid";
   "display wlan ap all connection-record"; "display wlan ap all radio type";
   "display wlan ap unauthenticated"; "display wlan ap all lldp"].

Definition SAFE_AC_FIT_AP_DETAIL_COLLECT_COMMANDS : list string :=
  ["screen-length disable"; "display wlan ap all verbose";
   "display wlan ap all radio verbose filter bbssid"].

Definition SAFE_AC_FIT_AP_VERBOSE_ALL_COLLECT_COMMANDS : list string :=
  SAFE_AC_FIT_AP_DETAIL_COLLECT_COMMANDS.

Definition SAFE_AC_FIT_AP_VERBOSE_SELECTED_COLLECT_COMMANDS : list string :=
  ["screen-length disable"].

Definition SAFE_AC_INFO_COLLECT_COMMANDS : list string :=
  ["screen-length disable"; "display cpu-usage"; "display memory"; "display version";
   "display device"; "display device manuinfo"; "display ip https";
   "display ip https | include port"].

Definition SAFE_FIT_AP_COMMANDS : list string :=
  ["screen-length d"; "screen-length disable"; "display lldp neighbor-information list";
   "display transceiver interface"; "display transceiver manuinfo interface";
   "display transceiver diagnosis interface"; "display interface brief"].

Definition SAFE_FIT_AP_OPTICAL_COMMANDS : list string :=
  ["screen-length disable"; "display lldp neighbor-information list";
   "display transceiver diagnosis interface"].

Definition SAFE_OPTICAL_REFRESH_COMMANDS : list string :=
  ["screen-length d"; "screen-length disable"; "display lldp neighbor-information list";
   "display transceiver diagnosis interface"; "display interface"; "display interface brief"].

Definition SAFE_TRACKSIDE_SWITCH_COLLECT_COMMANDS : list string :=
  ["screen-length disable"; "display lldp neighbor-information list";
   "display transceiver diagnosis interface"; "display interface brief"; "show version";
   "show interface brief"; "show running-config switchvlan"; "show vlan";
   "show opticalinfo brief"; "show lldp neighbor brief"; "show lldp entry"].

Definition SAFE_SWITCH_VENDOR_SAMPLE_COMMANDS : list string :=
  ["show version"; "show interface brief"; "show running-config switchvlan"; "show vlan";
   "show opticalinfo brief"; "show lldp neighbor brief"; "show lldp entry"].

Definition SAFE_CONFIG_LIFECYCLE_COMMANDS : list string :=
  ["screen-length d"; "screen-length disable"; "save force"; "display current-configuration";
   "display saved-configuration"].

Definition SAFE_DIAGNOSTIC_DOWNLOAD_COMMANDS : list string :=
  ["screen-length d"; "screen-length disable"; "display diagnostic-information"; "n"].

Definition SAFE_FILE_MANAGEMENT_COMMANDS : list string :=
  ["dir flash:/"; "dir flash:/diagfile/"].

Definition SAFE_SFTP_ENABLE_COMMANDS : list string :=
  ["system-view"; "sftp server enable"; "return"; "quit"].

Definition SAFE_GROUND_UNATTENDED_SYSLOG_READ_COMMANDS : list string :=
  ["screen-length disable"; "display clock"; "display version"; "display info-center";
   "display current-configuration | include info-center"; "display current-configuration"].

Definition SAFE_ENABLE_AP_CONSOLE_COMMANDS : list string :=
  ["screen-length disable"; "system-view"; "probe"; "wlan ap-execute all exec-console enable";
   "return"; "quit"].

Definition SAFE_PERSIST_AUTO_AP_COMMANDS : list string :=
  ["system-view"; "wlan auto-ap persistent all"; "save force"; "return"; "quit"].

Definition CONTEXT_COMMANDS : list (string * list string) :=
  [("device.inventory.collect", SAFE_DEVICE_INVENTORY_COLLECT_COMMANDS);
   ("device_collect", SAFE_DEVICE_COMMANDS);
   ("ac_collect", SAFE_AC_COMMANDS);
   ("ac_fit_ap_resource_collect", SAFE_AC_FIT_AP_RESOURCE_COLLECT_COMMANDS);
   ("ac_fit_ap_detail_collect", SAFE_AC_FIT_AP_DETAIL_COLLECT_COMMANDS);
   ("ac_fit_ap_verbose_all_collect", SAFE_AC_FIT_AP_VERBOSE_ALL_COLLECT_COMMANDS);
   ("ac_fit_ap_verbose_selected_collect", SAFE_AC_FIT_AP_VERBOSE_SELECTED_COLLECT_COMMANDS);
   ("ac_info_collect", SAFE_AC_INFO_COLLECT_COMMANDS);
   ("fit_ap_collect", SAFE_FIT_AP_COMMANDS);
   ("fit_ap_optical_collect", SAFE_FIT_AP_OPTICAL_COMMANDS);
   ("optical_refresh", SAFE_OPTICAL_REFRESH_COMMANDS);
   ("trackside_switch_collect", SAFE_TRACKSIDE_SWITCH_COLLECT_COMMANDS);
   ("switch_vendor_sample_collect", SAFE_SWITCH_VENDOR_SAMPLE_COMMANDS);
   ("config_lifecycle", SAFE_CONFIG_LIFECYCLE_COMMANDS);
   ("diagnostic_download", SAFE_DIAGNOSTIC_DOWNLOAD_COMMANDS);
   ("file_management", SAFE_FILE_MANAGEMENT_COMMANDS);
   ("device.sftp.enable", SAFE_SFTP_ENABLE_COMMANDS);
   ("ground_unattended_syslog_read", SAFE_GROUND_UNATTENDED_SYSLOG_READ_COMMANDS);
   ("ac_enable_ap_console", SAFE_ENABLE_AP_CONSOLE_COMMANDS);
   ("ac_persist_auto_ap", SAFE_PERSIST_AUTO_AP_COMMANDS);
   ("ac_enable_ap_remote_login", SAFE_ENABLE_AP_CONSOLE_COMMANDS)].

Definition PROFILE_MANAGED_OPERATIONS : list (string * string) :=
  [("device_collect", "device.inventory.collect"); ("sftp_enable", "device.sftp.enable")].

Definition PROFILE_OPERATION_COMMAND_SEQUENCES : list (string * list (list string)) :=
  [("device.inventory.collect",
    [DEVICE_INVENTORY_COLLECT_COMMAND_SEQUENCE; DEVICE_INVENTORY_MOBILE_ROUTER_COMMAND_SEQUENCE;
     DEVICE_INVENTORY_ZTE_SWITCH_COMMAND_SEQUENCE])].

(** A pattern with its keywords: each is a word of the text, and \s+ separates them. *)
Definition DANGEROUS_PATTERNS : list (string * list string) :=
  [("\bundo\b", ["undo"]); ("\breboot\b", ["reboot"]); ("\bno\s+shutdown\b", ["no"; "shutdown"]);
   ("\bshutdown\b", ["shutdown"]); ("\bsave\b", ["save"]); ("\breset\b", ["reset"]);
   ("\bdelete\b", ["delete"]); ("\bformat\b", ["format"]); ("\berase\b", ["erase"]);
   ("\bcopy\b", ["copy"]); ("\bmove\b", ["move"]); ("\brename\b", ["rename"]);
   ("\brestore\b", ["restore"]); ("\binstall\b", ["install"]); ("\bupgrade\b", ["upgrade"]);
   ("\bboot-loader\b", ["boot-loader"]); ("\bstartup\b", ["startup"]);
   ("\blicense\b", ["license"]); ("\bpatch\b", ["patch"]); ("\blocal-user\b", ["local-user"]);
   ("\bpassword\b", ["password"]); ("\bacl\b", ["acl"]); ("\bvlan\b", ["vlan"]);
   ("\binterface\b", ["interface"]); ("\bip\s+route-static\b", ["ip"; "route-static"]);
   ("\bftp\b", ["ftp"]); ("\btftp\b", ["tftp"]); ("\bpublic-key\b", ["public-key"])].

Definition PIPE_ALLOWLIST : list string :=
  ["display current-configuration | include sysname"; "display ip https | include port";
   "display wlan ap all radio verbose filter bbssid";
   "display current-configuration | include info-center"].

Definition DANGEROUS_ALLOWLIST_EXCEPTIONS : list string :=
  ["display boot-loader"; "display interface"; "display interface brief";
   "display transceiver interface"; "display transceiver manuinfo interface";
   "display transceiver diagnosis interface"; "save force"; "show interface";
   "show interface brief"; "show running-config switchvlan"; "show vlan"].

(** ** Read-only commands with an argument

    A fixed text, or [first] and then up to [more] characters of [rest] between
    two fixed texts. *)
Inductive dynamic_pattern :=
  | Fixed (text : string)
  | WithArgument (before : string) (first rest : ascii → bool) (more : nat) (after : string).

Definition is_lower_letter (c : ascii) : bool :=
  let n := byte_of c in (97 <=? n) && (n <=? 122).
Definition one_of (chars : list ascii) (c : ascii) : bool := existsb (Ascii.eqb c) chars.

(** [[a-z0-9]], [[a-z0-9_.:-]], [[a-z0-9./:_-]]. *)
Definition name_first (c : ascii) : bool := is_lower_letter c || is_digit c.
Definition name_rest (c : ascii) : bool := name_first c || one_of ["_"; "."; ":"; "-"]%char c.
Definition port_rest (c : ascii) : bool := name_first c || one_of ["."; "/"; ":"; "_"; "-"]%char c.

Definition fullmatch (p : dynamic_pattern) (s : string) : bool :=
  match p with
  | Fixed text => String.eqb s text
  | WithArgument before first rest more after =>
      match strip_prefix before s with
      | Some (String c s') =>
          let '(argument, tail) := span rest s' in
          first c && (String.length argument <=? more)%nat && String.eqb tail after
      | _ => false
      end
  end.

Definition verbose_all : dynamic_pattern := Fixed "display wlan ap all verbose".
Definition verbose_name : dynamic_pattern :=
  WithArgument "display wlan ap name " name_first name_rest 63 " verbose".
Definition show_interface : dynamic_pattern :=
  WithArgument "show interface " is_lower_letter port_rest 79 "".
Definition show_opticalinfo : dynamic_pattern :=
  WithArgument "show opticalinfo " is_lower_letter port_rest 79 "".

Definition READ_ONLY_DYNAMIC_PATTERNS : list (string * list dynamic_pattern) :=
  [("ac_fit_ap_detail_collect", [verbose_all; verbose_name]);
   ("ac_fit_ap_verbose_all_collect", [verbose_all]);
   ("ac_fit_ap_verbose_selected_collect", [verbose_name]);
   ("device.inventory.collect", [show_opticalinfo]);
   ("trackside_switch_collect", [show_interface; show_opticalinfo]);
   ("switch_vendor_sample_collect", [show_interface; show_opticalinfo])].

Definition dynamic_allowed (context normalized : string) : bool :=
  existsb (λ p, fullmatch p normalized) (default [] (alookup context READ_ONLY_DYNAMIC_PATTERNS)).

Section guard.
(** Whether the non-ASCII character that ends a text, or starts it, is a word
    character. *)
Context (wide_before wide_after : string → bool).

Definition is_word (c : ascii) : bool :=
  let n := byte_of c in
  is_digit c || is_lower_letter c || ((65 <=? n) && (n <=? 90)) || (n =? 95).

Fixpoint last_char (s : string) : option ascii :=
  match s with
  | "" => None
  | String c "" => Some c
  | String _ s' => last_char s'
  end.

(** [\b] before and after a keyword, whose own ends are word characters. *)
Definition boundary_before (before : string) : bool :=
  match last_char before with
  | None => true
  | Some c => negb (if byte_of c <? 128 then is_word c else wide_before before)
  end.
Definition boundary_after (after : string) : bool :=
  match after with
  | "" => true
  | String c _ => negb (if byte_of c <? 128 then is_word c else wide_after after)
  end.

(** The keywords of a pattern at the start of [s]. *)
Fixpoint match_keywords (keywords : list string) (s : string) : bool :=
  match keywords with
  | [] => boundary_after s
  | k :: [] =>
      match strip_prefix k s with Some rest => boundary_after rest | None => false end
  | k :: keywords' =>
      match strip_prefix k s with
      | Some (String c rest) => is_space c && match_keywords keywords' (lstrip rest)
      | _ => false
      end
  end.

(** [re.search]. *)
Fixpoint search_keywords (keywords : list string) (before s : string) : bool :=
  (boundary_before before && match_keywords keywords s) ||
  match s with
  | "" => false
  | String c s' => search_keywords keywords (before +:+ String c "") s'
  end.

Definition dangerous_pattern (normalized : string) : option string :=
  fst <$> List.find (λ p, search_keywords p.2 "" normalized) DANGEROUS_PATTERNS.

(** ** The guard *)
Definition normalize_command (command : string) : string :=
  casefold (join " " (words (strip command))).

Definition reject_reason_normalized (normalized context : string) : option string :=
  if String.eqb normalized "" then Some "empty command"
  else if has_char ";" normalized then Some "semicolon is not allowed"
  else if has_char "|" normalized && negb (str_mem normalized PIPE_ALLOWLIST)
  then Some "pipe is not allowed for this command"
  else
    let dynamic := dynamic_allowed context normalized in
    let dangerous :=
      if negb (str_mem normalized DANGEROUS_ALLOWLIST_EXCEPTIONS) && negb dynamic
      then dangerous_pattern normalized else None in
    match dangerous with
    | Some pattern => Some ("dangerous command keyword matched: " +:+ pattern)
    | None =>
        match alookup context CONTEXT_COMMANDS with
        | None => Some ("unknown command context: " +:+ context)
        | Some allowed =>
            if String.eqb context "device.sftp.enable" && starts_with "ssh user " normalized then None
            else if negb (str_mem normalized allowed) && negb dynamic
            then Some ("command is not in whitelist for context: " +:+ context)
            else None
        end
    end.

Definition command_reject_reason (command context : string) : option string :=
  reject_reason_normalized (normalize_command command) context.

Definition is_command_allowed (command context : string) : bool :=
  bool_decide (command_reject_reason command context = None).

(** What is written to the application log. *)
Inductive guard_log :=
  | COMMAND_ALLOWED (context command : string)
  | COMMAND_REJECTED (context command reason : string).

(** [validate_command_list]: the log, and the message of [CommandRejected]. *)
Fixpoint validate_command_list (commands : list string) (context : string)
    : list guard_log * option string :=
  match commands with
  | [] => ([], None)
  | command :: commands' =>
      match command_reject_reason command context with
      | Some reason =>
          ([COMMAND_REJECTED context (normalize_command command) reason],
           Some (command +:+ ": " +:+ reason))
      | None =>
          let '(log, raised) := validate_command_list commands' context in
          (COMMAND_ALLOWED context (normalize_command command) :: log, raised)
      end
  end.

Definition validate_operation_commands (commands : list string) (context operation_id : string)
    : list guard_log * option string :=
  match alookup context PROFILE_MANAGED_OPERATIONS with
  | None => ([], Some ("command context is not profile-managed: " +:+ context))
  | Some expected_operation =>
      let normalized_operation := casefold (strip operation_id) in
      if negb (String.eqb normalized_operation expected_operation)
      then ([], Some ("operation does not match command context: operation="
                      +:+ str_or normalized_operation "empty" +:+ ", context=" +:+ context))
      else
        let sequence_mismatch :=
          ([], Some ("command sequence does not match operation profile: "
                     +:+ normalized_operation)) in
        match alookup normalized_operation PROFILE_OPERATION_COMMAND_SEQUENCES with
        | None => sequence_mismatch
        | Some expected_sequences =>
            if bool_decide (normalize_command <$> commands ∈ expected_sequences)
            then validate_command_list commands normalized_operation
            else sequence_mismatch
        end
  end.

(** ** Theorems *)

(** Every listed command of every context passes all the checks before the
    list, and so does every read-only form. *)
Lemma listed_commands_pass :
  forallb (λ e, forallb (λ c, bool_decide (reject_reason_normalized c e.1 = None)) e.2)
    CONTEXT_COMMANDS = true.
Proof. vm_compute. reflexivity. Qed.

Lemma listed_command_passes context allowed c :
  alookup context CONTEXT_COMMANDS = Some allowed → c ∈ allowed →
  reject_reason_normalized c context = None.
Proof.
  intros H%alookup_Some_in Hc. pose proof listed_commands_pass as Hall.
  rewrite forallb_forall in Hall. specialize (Hall _ (proj1 (list_elem_of_In _ _) H)).
  rewrite forallb_forall in Hall. specialize (Hall c (proj1 (list_elem_of_In _ _) Hc)).
  by apply bool_decide_eq_true in Hall.
Qed.

Lemma strip_prefix_Some p s r : strip_prefix p s = Some r → s = p +:+ r.
Proof.
  revert s. induction p as [|a p IH]; intros s; [by intros [= ->]|].
  destruct s as [|b s]; simpl; [done|]. destruct (Ascii.eqb_spec a b) as [->|]; [|done].
  intros ->%IH. by rewrite string_app_cons.
Qed.

Lemma span_spec p c s a b :
  span p s = (a, b) → p c = false → s = a +:+ b ∧ has_char c a = false.
Proof.
  revert a b. induction s as [|d s IH]; intros a b; simpl; [by intros [= <- <-]|].
  destruct (p d) eqn:E; [|by intros [= <- <-]].
  destruct (span p s) as [a' b'] eqn:Es. intros [= <- <-] Hc.
  destruct (IH _ _ eq_refl Hc) as [-> Ha]. split; [done|]. simpl. rewrite Ha, orb_false_r.
  apply Ascii.eqb_neq. congruence.
Qed.

(** A character in none of the parts of a form is not in a command of that form. *)
Definition form_without (c : ascii) (p : dynamic_pattern) : bool :=
  match p with
  | Fixed text => negb (has_char c text) && str_nonempty text
  | WithArgument before first rest _ after =>
      negb (has_char c before) && negb (first c) && negb (rest c) && negb (has_char c after)
  end.

Lemma fullmatch_without c p s :
  form_without c p = true → fullmatch p s = true → has_char c s = false ∧ s ≠ "".
Proof.
  destruct p as [text|before first rest more after]; simpl.
  - intros H E. bool_to_prop. subst s. split; [done|]. unfold str_nonempty in H0.
    by bool_to_prop.
  - intros H. bool_to_prop. destruct (strip_prefix before s) as [[|d s']|] eqn:E; [done| |done].
    apply strip_prefix_Some in E as ->. destruct (span rest s') as [a b] eqn:Es.
    destruct (span_spec _ c _ _ _ Es) as [-> Ha]; [done|]. intros Hm. bool_to_prop. subst b.
    rewrite has_char_app. simpl. rewrite has_char_app, H, Ha. split; [|by destruct before].
    assert (c ≠ d) as Hne%Ascii.eqb_neq by congruence. by rewrite Hne, H0.
Qed.

Lemma forms_without :
  forallb (λ e, forallb (λ p, form_without ";" p && form_without "|" p) e.2)
    READ_ONLY_DYNAMIC_PATTERNS = true ∧
  forallb (λ e, bool_decide (is_Some (alookup e.1 CONTEXT_COMMANDS))) READ_ONLY_DYNAMIC_PATTERNS = true.
Proof. split; vm_compute; reflexivity. Qed.

Lemma dynamic_command_passes context s :
  dynamic_allowed context s = true → reject_reason_normalized s context = None.
Proof.
  intros Hd. assert (Hd' := Hd). unfold dynamic_allowed in Hd'.
  apply existsb_exists in Hd' as (p & Hp & Hm).
  destruct (alookup context READ_ONLY_DYNAMIC_PATTERNS) as [ps|] eqn:E; [|done]. simpl in Hp.
  apply alookup_Some_in, list_elem_of_In in E.
  destruct forms_without as [Hf Hc]. rewrite forallb_forall in Hf, Hc.
  specialize (Hf _ E). specialize (Hc _ E). cbn [fst snd] in *.
  rewrite forallb_forall in Hf. specialize (Hf _ Hp). apply andb_true_iff in Hf as [Hf1 Hf2].
  apply bool_decide_eq_true in Hc as [allowed Hc].
  destruct (fullmatch_without _ _ _ Hf1 Hm) as [H1 H3].
  destruct (fullmatch_without _ _ _ Hf2 Hm) as [H2 _]. apply String.eqb_neq in H3.
  unfold reject_reason_normalized. rewrite H3, H1, H2, Hd, Hc, !andb_false_r. cbn [andb].
  by destruct (_ && _).
Qed.

(** No command of the fixed lists is an [ssh user] command. *)
Lemma ssh_user_not_listed n l :
  forallb (λ c, negb (starts_with "ssh user " c)) l = true →
  starts_with "ssh user " n = true → str_mem n l = false.
Proof.
  rewrite forallb_forall. intros H Hn. apply not_true_iff_false. intros Hin%str_mem_iff.
  specialize (H n (proj1 (list_elem_of_In _ _) Hin)). by rewrite Hn in H.
Qed.

(** C38: the guard accepts exactly the listed commands of the context (white space
    and letter case aside), the read-only forms of the context, and, to enable
    SFTP, [ssh user] commands without a semicolon, a pipe or a dangerous word.
    No listed command and no form is lost to the checks for semicolons, pipes
    and dangerous words; an unknown context accepts nothing. *)
Theorem command_allowed_iff command context :
  let n := normalize_command command in
  is_command_allowed command context = true ↔
  (∃ allowed, alookup context CONTEXT_COMMANDS = Some allowed ∧ n ∈ allowed) ∨
  dynamic_allowed context n = true ∨
  (context = "device.sftp.enable" ∧ starts_with "ssh user " n = true ∧
   has_char ";" n = false ∧ has_char "|" n = false ∧ dangerous_pattern n = None).
Proof.
  cbv zeta. unfold is_command_allowed, command_reject_reason.
  set (n := normalize_command command). rewrite bool_decide_eq_true. split.
  - unfold reject_reason_normalized.
    destruct (String.eqb n ""); [done|]. destruct (has_char ";" n) eqn:Hs; [done|].
    destruct (has_char "|" n && _) eqn:Hp; [done|]. cbv zeta.
    destruct (dynamic_allowed context n) eqn:Hd; [by right; left|]. rewrite !andb_true_r.
    destruct (if negb (str_mem n DANGEROUS_ALLOWLIST_EXCEPTIONS) then _ else _) eqn:Hk; [done|].
    destruct (alookup context CONTEXT_COMMANDS) as [allowed|]; [|done].
    destruct (String.eqb context "device.sftp.enable" && _) eqn:Hssh.
    + intros _. right; right. apply andb_true_iff in Hssh as [->%String.eqb_eq Hn].
      rewrite (ssh_user_not_listed n PIPE_ALLOWLIST eq_refl Hn), andb_true_r in Hp.
      rewrite (ssh_user_not_listed n DANGEROUS_ALLOWLIST_EXCEPTIONS eq_refl Hn) in Hk. done.
    + destruct (str_mem n allowed) eqn:Hm; [|done]. intros _. left. exists allowed.
      split; [done|]. by apply str_mem_iff.
  - intros [(allowed & Hl & Hn)|[Hd|(-> & Hn & Hs & Hp & Hk)]].
    + by apply (listed_command_passes _ _ _ Hl).
    + by apply dynamic_command_passes.
    + unfold reject_reason_normalized. rewrite Hs, Hp, Hn, Hk. cbn [andb].
      destruct (String.eqb_spec n "") as [E|]; [by rewrite E in Hn|].
      by destruct (_ && _).
Qed.

Lemma validate_command_list_passes context commands :
  Forall (λ c, reject_reason_normalized (normalize_command c) context = None) commands →
  validate_command_list commands context =
    ((λ c, COMMAND_ALLOWED context (normalize_command c)) <$> commands, None).
Proof.
  induction 1 as [|c commands Hc _ IH]; [done|]. cbn [validate_command_list].
  unfold command_reject_reason. by rewrite Hc, IH.
Qed.

(** Every command of a registered sequence is allowed by the guard. *)
Lemma sequences_pass :
  forallb (λ e, forallb (λ l, forallb (λ c, bool_decide (reject_reason_normalized c e.1 = None)) l) e.2)
    PROFILE_OPERATION_COMMAND_SEQUENCES = true.
Proof. vm_compute. reflexivity. Qed.

(** A profile-managed operation is accepted exactly for the inventory collection
    with one of its three registered command sequences, complete and in order;
    each command is then logged as allowed.  Any other context, operation or
    sequence is refused - in particular every sequence for [sftp_enable], which
    is declared as profile-managed but has none. *)
Theorem operation_commands_exact commands context operation_id :
  let normalized := normalize_command <$> commands in
  ((validate_operation_commands commands context operation_id).2 = None ↔
   context = "device_collect" ∧ casefold (strip operation_id) = "device.inventory.collect" ∧
   normalized ∈ [DEVICE_INVENTORY_COLLECT_COMMAND_SEQUENCE;
     DEVICE_INVENTORY_MOBILE_ROUTER_COMMAND_SEQUENCE; DEVICE_INVENTORY_ZTE_SWITCH_COMMAND_SEQUENCE]) ∧
  (validate_operation_commands commands context operation_id).1 =
    match (validate_operation_commands commands context operation_id).2 with
    | None => COMMAND_ALLOWED "device.inventory.collect" <$> normalized
    | Some _ => []
    end.
Proof.
  cbv zeta. unfold validate_operation_commands.
  destruct (alookup context PROFILE_MANAGED_OPERATIONS) as [op|] eqn:Hc; [|split; [|done]; split;
    [done|by intros (-> & _)]].
  destruct (String.eqb_spec (casefold (strip operation_id)) op) as [Ho|Hne]; cbn [negb].
  - rewrite Ho. apply alookup_Some_in in Hc. unfold PROFILE_MANAGED_OPERATIONS in Hc.
    apply elem_of_cons in Hc as [[= -> ->]|[[= -> ->]|[]%not_elem_of_nil]%elem_of_cons].
    + cbn [alookup PROFILE_OPERATION_COMMAND_SEQUENCES]. rewrite decide_True by done.
      case_bool_decide as Hin.
      * assert (Hall : Forall (λ c, reject_reason_normalized (normalize_command c)
          "device.inventory.collect" = None) commands).
        { pose proof sequences_pass as Hp. rewrite forallb_forall in Hp.
          specialize (Hp _ (or_introl eq_refl)). cbn [fst snd] in Hp. rewrite forallb_forall in Hp.
          specialize (Hp _ (proj1 (list_elem_of_In _ _) Hin)). rewrite forallb_forall in Hp.
          apply Forall_forall. intros c Hcc.
          specialize (Hp (normalize_command c)). rewrite bool_decide_eq_true in Hp.
          apply Hp, list_elem_of_In. by apply list_elem_of_fmap_2. }
        rewrite (validate_command_list_passes _ _ Hall). cbn [fst snd]. split; [done|].
        by rewrite <- list_fmap_compose.
      * cbn [fst snd]. split; [|done]. split; [done|]. by intros (_ & _ & ?).
    + cbn [fst snd]. split; [|done]. split; [done|]. by intros (? & _).
  - cbn [fst snd]. split; [|done]. split; [done|]. intros (-> & Ho & _).
    injection Hc as <-. by rewrite Ho in Hne.
Qed.
End guard.

(** White space does not hide a second command, except in an [ssh user] command,
    where the guard sees one line: its caller restricts the user name. *)
Example guard_examples :
  let allowed := is_command_allowed (λ _, true) (λ _, true) in
  allowed "  Display   VERSION " "device_collect" = true ∧
  allowed ("display version" +:+ String LF "reboot") "device_collect" = false ∧
  allowed "show interface gei-0/1/0/2" "trackside_switch_collect" = true ∧
  allowed "show interface gei-0/1/0/2" "device_collect" = false ∧
  allowed "ssh user netops service-type all" "device.sftp.enable" = true ∧
  allowed "ssh user vlan service-type all" "device.sftp.enable" = false ∧
  allowed ("ssh user a" +:+ String LF "telnet server enable") "device.sftp.enable" = true.
Proof. vm_compute. repeat split. Qed.
